(* ===== verification/_CoqProject ===== *)
-Q . S2P
Prelude.v
Regex.v
Json.v
SessionInput.v
TaskPolicy.v
Attempt.v
GateData.v
ExecDb.v
Canonical.v
CanonicalFacts.v
AttemptRepo.v
RunStore.v
Transcript.v
Tools.v
Continuation.v
Transition.v
Mailbox.v
RuntimeMutation.v
AttemptSpec.v
StoreSpec.v
Demo.v
TranscriptFacts.v
AttemptRefine.v
StoreRefine.v
AttemptTrace.v
PortSteps.v
ContinuationSteps.v
PortTrace.v
ContinuationFacts.v
AttemptLive.v
AttemptHold.v
AuditAlgebra.v
AuditFacts.v
PlanGraph.v
PlanStore.v
PlanFacts.v
Evidence.v
EvidenceFacts.v
CompletionGate.v
Uncertainty.v
Supervisor.v
GateFacts.v
SupervisorFacts.v
Governance.v
GovernanceFacts.v
Progress.v
ProgressFacts.v
RunView.v
Service.v
GovMutation.v
Approval.v
Settlement.v
EventHub.v
Dispatcher.v
Scheduler.v
Executor.v
ApprovalFacts.v
SettlementFacts.v
ServiceSteps.v
Reviews.v
ReviewsFacts.v
EventHubFacts.v
DispatcherFacts.v
SchedulerFacts.v
ExecutorFacts.v
Goal.v
GoalStore.v
GoalStoreFacts.v
GoalFacts.v
SessionInbox.v
InboxFrame.v
SessionInboxFacts.v
InboxHistory.v
PortHistory.v
ApprovalBoundary.v
BoundaryCommands.v
ApprovalBoundaryFacts.v
WriterLease.v
WriterGuard.v
WriterLive.v
