(* ===== verification/Prelude.v ===== *)
(** * Verification of the TAgent core

    TAgent core is a service that runs tasks with a language model. A task is a
    TaskRun; each try at it is an Attempt, which a runtime executes under a
    lease. The runtime proposes a Candidate result, a Supervisor reviews it and
    decides whether the TaskRun completes, continues in another Attempt, waits
    or stops. All state is in one SQLite database that a single process may
    write. This development models that control plane: the state machine of
    Attempts, the store and its ports, the fences that keep a superseded holder
    from acting, the policies and gates that decide a completion, and the lease
    that makes the writer unique.

    ** How the code is modelled

    A transaction of the store is a function [tx S A] from a state to a result
    and a new state, or to a throw; a throw carries no state, as a rolled-back
    transaction leaves none. A table is a finite map from its primary key to a
    row (a record with the columns), a table without a key of its own a list,
    oldest row first. CHECK constraints, UNIQUE indexes and primary keys throw
    [SqliteError]; the errors of the source are [Error], [TypeError] or
    [NamedError] with the message of the source. Columns that hold JSON hold
    what it parses to. Integers are [Z]: timestamps, versions, fences and
    sequence numbers stay far below 2^53, and where the source asks
    [Number.isSafeInteger] the model does. Strings are lists of code units
    below 256.

    Parameters, never given a definition except in witnesses: the class
    [Platform] (ExecDb.v) with [uuid] (the sequence of identifiers randomUUID
    yields), [sha256] and [localeLe] (the order of localeCompare); the readings
    of clocks, which are arguments of the operations; [JSON.parse] in
    Evidence.v; the model-backed reviewer ([SupervisorReviewer], Reviews.v); the
    text of a thrown value and the classification of error texts in Progress.v;
    [ContractType] (RunView.v), the type of a task the routing assigned. The
    services of packages/execution are given their collaborators as records of
    operations ([SupervisorPort], [RecoveryControlPort], [ContinuationLauncher],
    [RuntimeControlPort], [HostedRuntime], [ExecutorPorts], [ResumePorts],
    [InputPorts]), as the classes of
    the source take them in their constructors; what a theorem needs of a
    collaborator is a law of a class or a named hypothesis ([takes_follow_up]),
    and ReviewsFacts.v shows that the Supervisor of the core service keeps the
    laws the settlement needs. Demo.v has a concrete platform for the witnesses.

    ** The parts, and where they are

    - Prelude.v, Json.v: the transaction monad with its notation and tactics,
      strings of the language, JSON values and JSON.stringify.
    - TaskPolicy.v: packages/governance/src/domain/task-policy.ts, the execution
      policy of a task and the floors observed operations raise.
    - Attempt.v: packages/execution/src/domain/attempt.ts and task-run.ts, the
      statuses and the transition table.
    - GateData.v, AuditAlgebra.v: packages/governance/src/domain/governance.ts
      and application/supervisor-audit-algebra.ts.
    - ExecDb.v: the execution tables (adapters/persistence-sqlite/src/schema)
      and the statements the operations are built from.
    - Canonical.v: packages/governance/src/domain/operation-digest.ts, over a
      heap of run-time objects that may be shared or cyclic.
    - AttemptRepo.v: sqlite/attempt-repository.ts: leases, Candidates,
      settlement, re-adjudication, recovery, cancellation; and the fence of the
      runtime (sqlite/task-run-execution-fence.ts).
    - RunStore.v, Continuation.v, Tools.v, Mailbox.v: the parts of
      adapters/persistence-sqlite/src/store.ts on TaskRuns and user input,
      continuations, operations and tool calls, commands, event consumers and
      the control inbox.
    - Transition.v, RuntimeMutation.v, GovMutation.v: the ports of the runtime
      and of the system (sqlite/task-run-transition-repository.ts,
      attempt-runtime-mutation-repository.ts), which validate untyped commands and check the fence before they act.
    - Transcript.v: sqlite/transcript-repository.ts, with the repair of the
      calls an interruption left open.
    - PlanGraph.v, PlanStore.v: plans, their dependency search and revisions.
    - Evidence.v: references resolved to sources (store.ts) and the verification
      of quotes (application/evidence-quote-service.ts).
    - CompletionGate.v, Uncertainty.v: checks, receipts, evaluateGate and the
      accepted uncertainties (store.ts).
    - Supervisor.v, Progress.v: apps/core-service/src/composition/supervisor.ts
      with the snapshots and journals it keeps in the store.
    - Governance.v: apps/core-service/src/application/run-governance-application.ts.
    - Approval.v: the approval requests and the authorization of external
      actions (store.ts, sqlite/approval-operation-mapper.ts); Regex.v: the
      regular expressions of the sources as a back-tracking matcher.
    - RunView.v: a TaskRun as the services read it (getRun of store.ts).
    - Service.v: the process state the services of
      packages/execution/src/application share (execution-state.ts), and calls
      ([call W A], over any world [W]) that keep what they did when they throw.
      Settlement.v:
      attempt-settlement-service.ts and its helpers; Reviews.v: the port of the
      Supervisor those services call; Scheduler.v: continuation-scheduler.ts and
      recovery-coordinator.ts; EventHub.v: run-event-hub.ts; Dispatcher.v:
      control-inbox-dispatcher.ts; Executor.v: attempt-executor.ts,
      post-attempt-finalizer.ts and the ways a runtime fails to start.
    - Goal.v: packages/governance/src/domain/workspace-goal.ts and
      application/workspace-goal-service.ts; GoalStore.v:
      sqlite/workspace-goal-repository.ts and the admission of a roadmap item.
    - SessionInput.v: packages/admission/src/domain/session-input.ts, the analysis
      of what an operator submits; SessionInbox.v: the inbox of a session in
      store.ts: submissions, their routing, merging and editing, and the claims
      that make TaskRuns of them. InboxFrame.v shows which operations leave the
      items and the identity of the TaskRuns alone.
    - ApprovalBoundary.v: how a TaskRun stops before an external action and goes
      on (external-action-approval-application.ts of apps/core-service,
      external-action-resume-boundary.ts, run-resume-transition.ts,
      user-input-submission.ts and the resume of run-context-service.ts of
      packages/execution, the decisions of approvals in admission-coordinator.ts
      of packages/admission). Its calls are over [Core], a [World] with the goals
      and the receipts. BoundaryCommands.v has the effect of its commands.
    - WriterLease.v, WriterGuard.v: writer-authority.ts,
      sqlite/core-writer-lease.ts, writer-lease-retry.ts and
      writer-fence-guard.ts: the lease of the writer, its retry loop, and the
      temporary triggers that check it at every row.

    The databases nest as the components do: [Db] (execution tables) is part of
    [PlanDb] (with the plans), which is part of [GovDb] (with checks, artifacts,
    evidence and context manifests), which is part of [GoalDb] (with the goals),
    which is part of [SubmissionDb] (with the audit trail of the inbox);
    [in_db], [in_plans], [in_exec], [in_pg], [in_gov], [in_goals] and
    [in_exec_db] run a transaction of an inner one. A [World] (Service.v) is a database with the process state of
    the services. The acceptance of an uncertainty, for example, runs the guards
    of Governance.v, [acceptUncertainty] of Uncertainty.v,
    [enforceCompletionAuditAlgebra] of AuditAlgebra.v, the journals of
    Supervisor.v and [reAdjudicateBlockedCandidate] of AttemptRepo.v, as the
    code does; the end of an execution (Executor.v) runs the settlement
    (Settlement.v), which asks the Supervisor (Reviews.v), settles in the store
    (AttemptRepo.v) and queues a continuation (Scheduler.v).

    ** What is proved

    - AttemptSpec.v and StoreSpec.v state the abstract lifecycle: the invariant
      [Consistent] of the execution tables and the steps [leased], [proposed],
      [closed], [moved], [started] and [aside]. AttemptRefine.v, StoreRefine.v,
      PortSteps.v and ContinuationSteps.v show that every operation is a
      sequence of these steps. AttemptTrace.v, PortTrace.v and PortHistory.v
      draw the consequences for every schedule of calls: the refinement itself,
      fencing of superseded holders, the agreement of a TaskRun with its
      Attempt, frozen and final rows, the append-only event log and the audit
      trail. AttemptLive.v has the exact effect of a settlement, the operations
      that always succeed or can be repeated, and the start-up interruption.
    - ContinuationFacts.v: claims start exactly the next Attempt, leases are
      undisturbed, one continuation is active.
    - TaskPolicy.v: the policy never falls below its floors.
    - CanonicalFacts.v: the normalisation ends on every heap, accepts exactly
      the finite trees of plain data and does not depend on the order or the
      sharing of properties.
    - PlanGraph.v and PlanFacts.v: the cycle search is exact and ends; plans stay
      acyclic with a gapless history of revisions, and what closes a cycle is
      refused.
    - EvidenceFacts.v: a verified quote is an excerpt of its source, and it
      verifies again when it is written down.
    - GateFacts.v, AuditFacts.v, SupervisorFacts.v and GovernanceFacts.v lead to
      the completion of a TaskRun: the gate passes only with the work delivered;
      the algebra completes only with every failure and criterion explained; the
      Supervisor's decision respects the gate whatever the reviewer answers and
      is recorded with the gates that justify it; an accepted uncertainty
      completes a blocked TaskRun only with its last audit accounted for.
      ProgressFacts.v: the snapshot counts the history, steers are bounded.
    - AttemptHold.v: the rows stay well typed, and the holder of a lease nobody
      took over can recover its Attempt. TranscriptFacts.v: messages stay where
      they were appended, and a repair closes exactly the open calls.
    - ApprovalFacts.v: an external action is allowed exactly when its running
      Attempt was approved for it, and every receipt stands on such an approval.
    - ServiceSteps.v: whatever a service does, it does in steps of the lifecycle.
      SettlementFacts.v: however a settlement ends, its Attempt is not left
      active in the hands of the service. ReviewsFacts.v: the review of failures
      never continues an external action. SchedulerFacts.v: automatic
      continuations are bounded and none is forgotten. EventHubFacts.v,
      DispatcherFacts.v: the draft follows the events, every event reaches the
      listeners, every control in flight has a task that waits for its answer.
      ExecutorFacts.v: an execution gives back lease, token and task.
    - ApprovalBoundaryFacts.v: an approved request lets its TaskRun go on, and
      authorizes the Attempt after the stopped one and no other; no context of an
      external action is prepared without such an approval; and the case in which
      an answered question leaves a TaskRun that cannot be resumed.
    - GoalStoreFacts.v and GoalFacts.v: every operation on goals is a sequence of
      steps of an abstract machine; one goal guides a workspace, records are not
      rewritten, a goal closes on evidence that still holds, a decision may be
      repeated, a TaskRun changes the workspace only as approved.
    - SessionInboxFacts.v and InboxHistory.v: a claim serves the queue in its
      order and one item at a time, a reordering takes effect, a request that is
      repeated does not enqueue twice, what became of a submission is final, and
      an operator changes a revision of an item at most once.
    - WriterLease.v, WriterGuard.v and WriterLive.v: two writers never hold the
      lock together, a superseded writer cannot change a row, a paced writer is
      never overtaken, a dead one is replaced, and the wait is bounded.

    ** Fuel and bounds

    Recursion that is not structural has fuel with a theorem that it is enough:
    the normalisation of run-time values ([normalize_fuel], one unit per object
    of the heap), the dependency search ([PlanGraph.cyclic_keys_exact]) and the
    wait for the writer lease ([WriterLive.claim_retry_terminates], maxWaitMs + 1
    turns). Running out is a throw no theorem hides behind.

    ** Simplifications to know

    Foreign keys are not checked again where the operation has just read the row
    they name. An operation that reads the clock more than once in a transaction
    reads one time here. A review of the Supervisor writes its gates and its
    decision in one transaction of the model, while the code writes them one by
    one: the theorems are about reviews that return. Where SQL leaves the order
    of equal keys open, the order of the map decides; no theorem depends on it.

    An await of a service is a call of a collaborator, which may change the world
    as its record says, or cuts an operation in two calls between which others
    run (Dispatcher.v). The listeners of the event hub do not throw. The usage
    counters of a TaskRun and the members of getRun that only the user interface
    reads are left out, as are the recalled memory and the preparation tasks of a
    launch. What setImmediate starts later is returned as the run ids to start.
    The alternatives of the approval expression in Chinese need code units above
    255 and are left out. The statements of an operation on goals are one
    transaction, with the refresh of the status that follows it. The confidence
    of a route counts ten-thousandths. A claim returns the row of the TaskRun it
    created. Letters and digits of \p{L} and \p{N} and toLocaleLowerCase are those
    of code units below 256. In the histories of an inbox TaskRuns are created
    by claims, and a failed launch is recorded for an item a claim started. An
    approvedAttempt that is a text, which [Number] would read, counts as none.
    The preparation of a resumed context is one call of [ResumePorts].

    ** Not modelled

    Process start-up, HTTP, the agent runtime and its tools, the workspace
    adapter, the assembly of prompts and the decoding of the model's answers,
    the routing of session input by a model, the memory package, the ABI schemas
    and clients, and the web console: glue, I/O or wire formats around this
    core. Of packages/admission, the routing and the launch of claimed items,
    which call the model; of packages/execution, the coordinator that builds the services and the
    preparation of a launch, which only gathers what the parameters stand for.

    ** This file

    The shared vocabulary: exceptions, results and transactions with their
    notation and the tactics [tx_inv], [tx_go] and [bool_prop], strings and
    numbers of the language, and the lemmas the other files share. *)
From stdpp Require Export base tactics option list strings gmap fin_maps sorting pretty.
From Stdlib Require Export ZArith Lia.

(** * Exceptions and results *)

(** What the code throws: [Error] and [TypeError] of the language, the error
    SQLite raises for a violated constraint (named here by the constraint),
    and the error classes the packages declare (class name and message). *)
Inductive exn :=
  | Error (message : string)
  | TypeError (message : string)
  | SqliteError (constraint_name : string)
  | NamedError (class_name message : string).

#[export] Instance exn_eq_dec : EqDecision exn.
Proof. solve_decision. Defined.

Inductive result (A : Type) :=
  | Ok (a : A)
  | Throw (e : exn).
Arguments Ok {A} a.
Arguments Throw {A} e.

#[export] Instance result_mret : MRet result := fun A a => Ok a.
#[export] Instance result_mbind : MBind result := fun A B f m =>
  match m with Ok a => f a | Throw e => Throw e end.

(** * Transactions

    A transaction over a state [S] returns a value and the new state, or
    throws; a throw carries no state, which is the rollback better-sqlite3's
    [db.transaction] performs when its body throws. *)
Definition tx (S A : Type) : Type := S -> result (A * S).

#[export] Instance tx_mret {S} : MRet (tx S) := fun A a s => Ok (a, s).
#[export] Instance tx_mbind {S} : MBind (tx S) := fun A B f m s =>
  match m s with Ok (a, s') => f a s' | Throw e => Throw e end.

Definition throw {S A} (e : exn) : tx S A := fun _ => Throw e.
Definition gets {S A} (f : S -> A) : tx S A := fun s => Ok (f s, s).
Definition modify {S} (f : S -> S) : tx S unit := fun s => Ok (tt, f s).
Definition lift {S A} (r : result A) : tx S A := fun s =>
  match r with Ok a => Ok (a, s) | Throw e => Throw e end.

(** [require b e] is the source's [if (!b) throw e]. *)
Definition require {S} (b : bool) (e : exn) : tx S unit := fun s =>
  if b then Ok (tt, s) else Throw e.

(** [present o e] is [if (o === undefined) throw e], yielding the value. *)
Definition present {S A} (o : option A) (e : exn) : tx S A := fun s =>
  match o with Some a => Ok (a, s) | None => Throw e end.

(** The same two guards for code that has no state. *)
Definition check (b : bool) (e : exn) : result unit :=
  if b then Ok tt else Throw e.

Definition expect {A} (o : option A) (e : exn) : result A :=
  match o with Some a => Ok a | None => Throw e end.

Fixpoint for_each {S A} (f : A -> tx S unit) (l : list A) : tx S unit :=
  match l with
  | [] => mret tt
  | x :: l' => mbind (fun _ => for_each f l') (f x)
  end.

(** The statements of [f] in order, with their results. *)
Fixpoint map_tx {S A B} (f : A -> tx S B) (l : list A) : tx S (list B) :=
  match l with
  | [] => mret []
  | x :: l' => mbind (fun y => mbind (fun ys => mret (y :: ys)) (map_tx f l')) (f x)
  end.

Declare Scope tx_scope.
Delimit Scope tx_scope with tx.
Notation "'let*' x ':=' m 'in' k" := (mbind (fun x => k) m)
  (at level 10, x pattern, m at level 100, k at level 200) : tx_scope.
Notation "'do*' m 'in' k" := (mbind (fun _ => k) m)
  (at level 10, m at level 100, k at level 200) : tx_scope.

(** * Strings and numbers of the language

    A JavaScript string is a sequence of code units, a [string] here (code
    units below 256); [trim] removes the white space among them. *)
Definition is_js_space (c : Ascii.ascii) : bool :=
  existsb (fun n => Nat.eqb (Ascii.nat_of_ascii c) n) [9; 10; 11; 12; 13; 32; 160].

Fixpoint trim_start (s : string) : string :=
  match s with
  | String.EmptyString => s
  | String.String c s' => if is_js_space c then trim_start s' else s
  end.

Fixpoint trim_end (s : string) : string :=
  match s with
  | String.EmptyString => s
  | String.String c s' =>
      match trim_end s' with
      | String.EmptyString => if is_js_space c then String.EmptyString else String.String c String.EmptyString
      | t => String.String c t
      end
  end.

Definition trim (s : string) : string := trim_end (trim_start s).

(** [!s.trim()] *)
Definition blank (s : string) : bool := String.eqb (trim s) "".

#[global] Arguments blank : simpl never.

(** [s.includes("\0")] *)
Fixpoint has_nul (s : string) : bool :=
  match s with
  | String.EmptyString => false
  | String.String c s' => Ascii.eqb c Ascii.zero || has_nul s'
  end.

(** [Number.isSafeInteger] on an integer-valued number. *)
Definition max_safe_integer : Z := 9007199254740991.
Definition safe_integer (z : Z) : bool :=
  (- max_safe_integer <=? z)%Z && (z <=? max_safe_integer)%Z.

(** [list.includes(x)] *)
Definition includes {A} `{EqDecision A} (x : A) (l : list A) : bool :=
  bool_decide (x ∈ l).

(** [[...new Set(list)]]: the first occurrence of each value, in order. *)
Fixpoint dedup_from {A} `{EqDecision A} (seen l : list A) : list A :=
  match l with
  | [] => []
  | x :: l' => if includes x seen then dedup_from seen l' else x :: dedup_from (x :: seen) l'
  end.

Definition dedup {A} `{EqDecision A} (l : list A) : list A := dedup_from [] l.

(** * Lemmas on transactions *)

Section tx_lemmas.
Context {S : Type}.

Lemma tx_bind_ok {A B} (m : tx S A) (f : A -> tx S B) s r :
  mbind f m s = Ok r <-> exists a s', m s = Ok (a, s') /\ f a s' = Ok r.
Proof.
  unfold mbind, tx_mbind. split.
  - destruct (m s) as [[a s']|]; [eauto | discriminate].
  - intros (a & s' & -> & H). exact H.
Qed.

(** The forward direction, step by step. *)
Lemma tx_bind_run {A B} (m : tx S A) (f : A -> tx S B) s a s' : m s = Ok (a, s') -> mbind f m s = f a s'.
Proof. unfold mbind, tx_mbind. by intros ->. Qed.

Lemma require_run b e (s : S) : b = true -> require b e s = Ok (tt, s).
Proof. unfold require. by intros ->. Qed.

Lemma present_run {A} (o : option A) e a (s : S) : o = Some a -> present o e s = Ok (a, s).
Proof. unfold present. by intros ->. Qed.

Lemma require_ok b e (s s' : S) u : require b e s = Ok (u, s') -> b = true /\ s' = s.
Proof. unfold require. destruct b; intros; simplify_eq; auto. Qed.

Lemma present_ok {A} (o : option A) e (s s' : S) a :
  present o e s = Ok (a, s') -> o = Some a /\ s' = s.
Proof. unfold present. destruct o; intros; simplify_eq; auto. Qed.

Lemma gets_ok {A} (f : S -> A) s s' a : gets f s = Ok (a, s') -> a = f s /\ s' = s.
Proof. unfold gets. intros; simplify_eq; auto. Qed.

Lemma gets_id_ok (s s' a : S) : gets id s = Ok (a, s') -> a = s /\ s' = s.
Proof. apply gets_ok. Qed.

Lemma modify_ok (f : S -> S) s s' u : modify f s = Ok (u, s') -> s' = f s.
Proof. unfold modify. intros; simplify_eq; auto. Qed.

Lemma lift_ok {A} (r : result A) (s s' : S) a : lift r s = Ok (a, s') -> r = Ok a /\ s' = s.
Proof. unfold lift. destruct r; intros; simplify_eq; auto. Qed.

Lemma mret_ok {A} (x a : A) (s s' : S) : (mret x : tx S A) s = Ok (a, s') -> a = x /\ s' = s.
Proof. unfold mret, tx_mret. intros; simplify_eq; auto. Qed.

Lemma map_tx_ind {A B} (P : S -> Prop) (f : A -> tx S B) l s s' ys :
  (forall x t t' y, x ∈ l -> P t -> f x t = Ok (y, t') -> P t') ->
  P s -> map_tx f l s = Ok (ys, s') -> P s'.
Proof.
  revert s ys. induction l as [|x l IH]; intros s ys Hf HP H; cbn in H.
  - by apply mret_ok in H as [_ ->].
  - apply tx_bind_ok in H as (y & t & H1 & H). apply tx_bind_ok in H as (zs & t' & H2 & H3).
    apply mret_ok in H3 as [_ ->]. eapply (IH t); [|eapply Hf; [left| |]; eauto|exact H2].
    intros z t1 t2 w Hz. apply Hf. by right.
Qed.

Lemma for_each_ind {A} (P : S -> Prop) (f : A -> tx S unit) l s s' u :
  (forall x t t', x ∈ l -> P t -> f x t = Ok (tt, t') -> P t') ->
  P s -> for_each f l s = Ok (u, s') -> P s'.
Proof.
  revert s. induction l as [|x l IH]; intros s Hf HP H; cbn in H.
  - apply mret_ok in H as [_ ->]. exact HP.
  - apply tx_bind_ok in H as ([] & t & H1 & H2).
    eapply (IH t); [|eapply Hf; [left| |]; eauto|exact H2].
    intros y t1 t2 Hy. apply Hf. by right.
Qed.
End tx_lemmas.

Lemma result_bind_ok {A B} (m : result A) (f : A -> result B) r :
  mbind f m = Ok r <-> exists a, m = Ok a /\ f a = Ok r.
Proof.
  unfold mbind, result_mbind. split.
  - destruct m; [eauto | discriminate].
  - intros (a & -> & H). exact H.
Qed.

Lemma check_ok b e u : check b e = Ok u -> b = true.
Proof. unfold check. destruct b; [done | discriminate]. Qed.

Lemma expect_ok {A} (o : option A) e a : expect o e = Ok a -> o = Some a.
Proof. unfold expect. destruct o; intros; simplify_eq; auto. Qed.

(** [tx_inv H] turns [H : m s = Ok (a, s')] into the facts its guards give. *)
Ltac tx_inv H :=
  lazymatch type of H with
  | mbind _ _ _ = Ok _ =>
      let a := fresh "v" in let t := fresh "t" in let H1 := fresh "H" in
      apply tx_bind_ok in H as (a & t & H1 & H);
      tx_inv H1; cbv beta in H; tx_inv H
  | mbind _ _ = Ok _ =>
      let a := fresh "v" in let H1 := fresh "H" in
      apply result_bind_ok in H as (a & H1 & H);
      tx_inv H1; cbv beta in H; tx_inv H
  | require _ _ _ = Ok _ =>
      let E := fresh "E" in apply require_ok in H as [H E]; try subst; try destruct_and? H
  | present _ _ _ = Ok _ =>
      let E := fresh "E" in apply present_ok in H as [H E]; try subst
  | gets id _ = Ok _ =>
      let E := fresh "E" in apply gets_id_ok in H as [H E]; try subst
  | gets _ _ = Ok _ =>
      let E := fresh "E" in apply gets_ok in H as [H E]; try subst
  | modify _ _ = Ok _ => apply modify_ok in H; try subst
  | lift _ _ = Ok _ =>
      let E := fresh "E" in apply lift_ok in H as [H E]; try subst
  | mret _ _ = Ok _ =>
      let E := fresh "E" in apply mret_ok in H as [H E]; try subst
  | throw _ _ = Ok _ => discriminate H
  | check _ _ = Ok _ => apply check_ok in H
  | expect _ _ = Ok _ => apply expect_ok in H
  | Ok _ = Ok _ => injection H as H; try subst
  | Throw _ = Ok _ => discriminate H
  | (match ?o with _ => _ end) _ = Ok _ =>
      let E := fresh "E" in destruct o eqn:E; try discriminate; tx_inv H
  | (match ?o with _ => _ end) = Ok _ =>
      let E := fresh "E" in destruct o eqn:E; try discriminate; tx_inv H
  | _ => idtac
  end.

(** [tx_go] evaluates a transaction whose guards the context decides. *)
Ltac tx_go :=
  repeat (unfold mbind, tx_mbind, result_mbind, mret, tx_mret, result_mret, require, present,
    gets, modify, lift, throw, check, expect; cbn -[Z.add Z.leb Z.ltb Z.eqb]).

(** * Booleans *)

Lemma includes_spec {A} `{EqDecision A} (x : A) l : includes x l = true <-> x ∈ l.
Proof. apply bool_decide_eq_true. Qed.

(** [bool_prop] turns boolean facts of the context into propositions. *)
Ltac bool_prop :=
  repeat match goal with
  | H : _ && _ = true |- _ => apply andb_true_iff in H as [? ?]
  | H : _ || _ = false |- _ => apply orb_false_iff in H as [? ?]
  | H : negb _ = true |- _ => apply negb_true_iff in H
  | H : negb _ = false |- _ => apply negb_false_iff in H
  | H : bool_decide _ = true |- _ => apply bool_decide_eq_true in H
  | H : bool_decide _ = false |- _ => apply bool_decide_eq_false in H
  | H : (_ =? _)%Z = true |- _ => apply Z.eqb_eq in H
  | H : (_ =? _)%Z = false |- _ => apply Z.eqb_neq in H
  | H : (_ <=? _)%Z = true |- _ => apply Z.leb_le in H
  | H : (_ <=? _)%Z = false |- _ => apply Z.leb_gt in H
  | H : (_ <? _)%Z = true |- _ => apply Z.ltb_lt in H
  | H : (_ <? _)%Z = false |- _ => apply Z.ltb_ge in H
  | H : String.eqb _ _ = true |- _ => apply String.eqb_eq in H
  | H : String.eqb _ _ = false |- _ => apply String.eqb_neq in H
  | H : includes _ _ = true |- _ => apply includes_spec in H
  end.

(** * Strings *)

Lemma string_app_cons c (a b : string) : String.String c a +:+ b = String.String c (a +:+ b).
Proof. reflexivity. Qed.

Lemma string_app_nil (b : string) : String.EmptyString +:+ b = b.
Proof. reflexivity. Qed.

Lemma string_app_nil_r (a : string) : a +:+ String.EmptyString = a.
Proof. induction a as [|c a IH]; [done|]. by rewrite string_app_cons, IH. Qed.

Lemma string_app_assoc (a b c : string) : (a +:+ b) +:+ c = a +:+ (b +:+ c).
Proof. induction a as [|x a IH]; [done|]. by rewrite !string_app_cons, IH. Qed.

Create Rewrite HintDb text.
#[export] Hint Rewrite string_app_cons string_app_nil string_app_nil_r string_app_assoc Ascii.eqb_refl : text.

(** The last separator of a text splits it, whatever stands before it. *)
Fixpoint has_char (sep : Ascii.ascii) (s : string) : bool :=
  match s with
  | String.EmptyString => false
  | String.String c s' => Ascii.eqb c sep || has_char sep s'
  end.

Lemma has_char_app sep r p : has_char sep (r +:+ String.String sep p) = true.
Proof.
  induction r as [|c r IH].
  - rewrite string_app_nil. cbn. by rewrite Ascii.eqb_refl.
  - rewrite string_app_cons. cbn. rewrite IH. apply orb_true_r.
Qed.

Lemma last_sep_inj sep r1 r2 p1 p2 :
  has_char sep p1 = false -> has_char sep p2 = false ->
  r1 +:+ String.String sep p1 = r2 +:+ String.String sep p2 -> r1 = r2 /\ p1 = p2.
Proof.
  intros H1 H2. revert r2. induction r1 as [|c r1 IH]; intros [|c2 r2] E;
    rewrite ?string_app_nil, ?string_app_cons in E; simplify_eq.
  - done.
  - by rewrite has_char_app in H1.
  - by rewrite has_char_app in H2.
  - by destruct (IH r2) as [-> ->].
Qed.

(** * Lists *)

Lemma filter_elem {A} (p : A -> bool) l x : x ∈ List.filter p l <-> x ∈ l /\ p x = true.
Proof. rewrite !list_elem_of_In, filter_In. done. Qed.

(** A list sorted by a key that comes later than all others grows at its end. *)
Section sort_snoc.
Context {A : Type} (R : A -> A -> Prop) `{!RelDecision R, !Transitive R, !Total R} (key : A -> Z).
Hypothesis R_key : forall x y, R x y <-> (key x <= key y)%Z.

Lemma merge_sort_sorted l : StronglySorted R (merge_sort R l).
Proof. apply Sorted_StronglySorted; [done|]. by apply Sorted_merge_sort. Qed.

Lemma merge_sort_snoc l l' x :
  l' ≡ₚ x :: l -> (forall y, y ∈ l -> (key y < key x)%Z) -> NoDup (map key l) -> merge_sort R l' = merge_sort R l ++ [x].
Proof.
  intros Hp Hlt Hnd. assert (NoDup (map key l')) as Hnd'.
  { rewrite Hp. apply NoDup_cons. split; [|done]. intros (y & E & Hy)%list_elem_of_fmap. specialize (Hlt _ Hy). lia. }
  apply (StronglySorted_unique_strong R).
  - intros a b Ha Hb H1%R_key H2%R_key. rewrite merge_sort_Permutation in Ha.
    rewrite elem_of_app, merge_sort_Permutation, list_elem_of_singleton in Hb.
    assert (b ∈ l') as Hb' by (rewrite Hp, elem_of_cons; tauto).
    apply list_elem_of_lookup in Ha as [i Hi], Hb' as [j Hj].
    assert (i = j) as -> by (eapply (NoDup_lookup _ i j (key a) Hnd'); rewrite list_lookup_fmap, ?Hi, ?Hj; [done|]; cbn; f_equal; lia).
    congruence.
  - apply merge_sort_sorted.
  - apply StronglySorted_app_2; [|apply merge_sort_sorted|repeat constructor].
    intros y z Hy ->%list_elem_of_singleton. rewrite merge_sort_Permutation in Hy. apply R_key. specialize (Hlt _ Hy). lia.
  - rewrite !merge_sort_Permutation, Hp. apply Permutation_cons_append.
Qed.
End sort_snoc.

(** * Maps *)

Lemma alter_as_insert `{Countable K} {A} (f : A -> A) (m : gmap K A) i x :
  m !! i = Some x -> alter f i m = <[i := f x]> m.
Proof.
  intros Hx. apply map_eq. intros j. destruct (decide (i = j)) as [<-|Hne].
  - by rewrite lookup_alter_eq, lookup_insert_eq, Hx.
  - by rewrite lookup_alter_ne, lookup_insert_ne.
Qed.
