(* ===== verification/Regex.v ===== *)
(** Regular expressions as the sources use them: a back-tracking matcher that
    lists the ends of the matches in the order the language tries them, and its
    equivalence with the relation that defines what matches. *)
From S2P Require Import Prelude.

(** * Characters *)

Definition code_in (lo hi : nat) (c : Ascii.ascii) : bool :=
  Nat.leb lo (Ascii.nat_of_ascii c) && Nat.leb (Ascii.nat_of_ascii c) hi.

Definition is_digit : Ascii.ascii -> bool := code_in 48 57.

(** [\w] *)
Definition is_word (c : Ascii.ascii) : bool :=
  code_in 48 57 c || code_in 65 90 c || code_in 97 122 c || Ascii.eqb c (Ascii.ascii_of_nat 95).

Definition is_hex (c : Ascii.ascii) : bool := code_in 48 57 c || code_in 97 102 c.

(** A capital letter goes to its small one; the other code units below 256 with
    a small form are no characters of the patterns. *)
Definition lower_char (c : Ascii.ascii) : Ascii.ascii :=
  let n := Ascii.nat_of_ascii c in
  if code_in 65 90 c || code_in 192 214 c || code_in 216 222 c then Ascii.ascii_of_nat (n + 32) else c.

(** [toLowerCase()] *)
Fixpoint lower (s : string) : string :=
  match s with
  | String.EmptyString => s
  | String.String c s' => String.String (lower_char c) (lower s')
  end.

(** * Expressions *)

Inductive re :=
  | Eps
  | Chr (f : Ascii.ascii -> bool)
  | Edge
  | End_
  | Seq (a b : re)
  | Alt (a b : re)
  | Star (a : re).

(** What is before a place of the text matters only for [\b]: whether it is a
    character of a word; and the text after it. *)
Definition place : Type := bool * string.

Definition starts_word (s : string) : bool :=
  match s with String.String c _ => is_word c | String.EmptyString => false end.

(** Iterations that advance, the longest first, then none. *)
Fixpoint iterate (step : place -> list place) (n : nat) (p : place) : list place :=
  match n with
  | O => [p]
  | S n' => concat (map (fun q => if Nat.ltb (String.length q.2) (String.length p.2) then iterate step n' q else []) (step p)) ++ [p]
  end.

Fixpoint ends (r : re) (p : place) : list place :=
  match r with
  | Eps => [p]
  | Chr f => match p.2 with String.String c s => if f c then [(is_word c, s)] else [] | String.EmptyString => [] end
  | Edge => if xorb p.1 (starts_word p.2) then [p] else []
  | End_ => match p.2 with String.EmptyString => [p] | _ => [] end
  | Seq a b => concat (map (ends b) (ends a p))
  | Alt a b => ends a p ++ ends b p
  | Star a => iterate (ends a) (String.length p.2) p
  end.

(** The places of a text. *)
Fixpoint places (w : bool) (s : string) : list place :=
  (w, s) :: match s with String.String c s' => places (is_word c) s' | String.EmptyString => [] end.

(** [r.test(s)] *)
Definition test (r : re) (s : string) : bool := existsb (fun p => negb (bool_decide (ends r p = []))) (places false s).

(** * Writing expressions *)

Definition Lit (c : Ascii.ascii) : re := Chr (Ascii.eqb c).

Fixpoint Text (s : string) : re :=
  match s with
  | String.EmptyString => Eps
  | String.String c String.EmptyString => Lit c
  | String.String c s' => Seq (Lit c) (Text s')
  end.

Definition Opt (r : re) : re := Alt r Eps.
Definition Spaces : re := Star (Chr is_js_space).
Definition AnyOf (s : string) : re := Chr (fun c => has_char c s).

Fixpoint Seqs (l : list re) : re := match l with [] => Eps | [r] => r | r :: l' => Seq r (Seqs l') end.
Fixpoint Alts (l : list re) : re := match l with [] => Chr (fun _ => false) | [r] => r | r :: l' => Alt r (Alts l') end.
Fixpoint Times (n : nat) (r : re) : re := match n with O => Eps | S n' => Seq r (Times n' r) end.

(** * What matches *)

Inductive matches : re -> place -> place -> Prop :=
  | m_eps p : matches Eps p p
  | m_chr f w c s : f c = true -> matches (Chr f) (w, String.String c s) (is_word c, s)
  | m_edge w s : w <> starts_word s -> matches Edge (w, s) (w, s)
  | m_end w : matches End_ (w, "") (w, "")
  | m_seq a b p q r : matches a p q -> matches b q r -> matches (Seq a b) p r
  | m_alt_l a b p q : matches a p q -> matches (Alt a b) p q
  | m_alt_r a b p q : matches b p q -> matches (Alt a b) p q
  | m_star_nil a p : matches (Star a) p p
  | m_star a p q r : matches a p q -> matches (Star a) q r -> matches (Star a) p r.

Lemma ends_shorter r p q : matches r p q -> String.length q.2 <= String.length p.2.
Proof. induction 1; cbn in *; lia. Qed.

(** A match that does not advance stays where it is. *)
Lemma matches_still r p q : matches r p q -> String.length q.2 = String.length p.2 -> q = p.
Proof.
  induction 1 as [| | | |a b p q r H1 IH1 H2 IH2| | | |a p q r H1 IH1 H2 IH2]; intros E; try done; cbn in *; auto; try lia.
  - apply ends_shorter in H1 as L1. apply ends_shorter in H2 as L2. rewrite IH2 by lia. apply IH1. lia.
  - apply ends_shorter in H1 as L1. apply ends_shorter in H2 as L2. rewrite IH2 by lia. apply IH1. lia.
Qed.

Lemma in_concat_map {A B} (f : A -> list B) l y : y ∈ concat (map f l) <-> exists x, x ∈ l /\ y ∈ f x.
Proof.
  induction l as [|x l IH]; cbn.
  - split; [by intros ?%elem_of_nil|]. intros (x & Hx & _). by apply elem_of_nil in Hx.
  - rewrite elem_of_app, IH. split.
    + intros [Hy|(z & Hz & Hy)]; [exists x; split; [by left|done]|exists z; split; [by right|done]].
    + intros (z & [->|Hz]%elem_of_cons & Hy); [by left|right; eauto].
Qed.

Lemma iterate_spec a n p q :
  (forall x y, y ∈ ends a x <-> matches a x y) -> String.length p.2 <= n ->
  q ∈ iterate (ends a) n p <-> matches (Star a) p q.
Proof.
  intros Ha. revert p. induction n as [|n IH]; intros p Hn.
  - cbn. rewrite list_elem_of_singleton. split; [intros ->; constructor|].
    intros Hm. apply (matches_still _ _ _ Hm). apply ends_shorter in Hm. lia.
  - cbn [iterate]. rewrite elem_of_app, list_elem_of_singleton, in_concat_map. split.
    + intros [(x & Hx & Hq)| ->]; [|constructor]. destruct (Nat.ltb_spec (String.length x.2) (String.length p.2)).
      * apply IH in Hq; [|lia]. eapply m_star; [by apply Ha|done].
      * by apply elem_of_nil in Hq.
    + intros Hm. remember (Star a) as s eqn:Es. induction Hm as [| | | | | | |a' p|a' p x q Hx _ Hm IHm]; try done.
      * by right.
      * injection Es as ->. apply ends_shorter in Hx as L. destruct (decide (String.length x.2 = String.length p.2)) as [E|].
        { apply (matches_still _ _ _ Hx) in E as ->. by apply IHm. }
        left. exists x. split; [by apply Ha|]. rewrite (proj2 (Nat.ltb_lt _ _)) by lia. apply IH; [lia|done].
Qed.

(** The matcher lists exactly the ends of the matches. *)
Lemma ends_spec r p q : q ∈ ends r p <-> matches r p q.
Proof.
  revert p q. induction r as [|f| | |a IHa b IHb|a IHa b IHb|a IHa]; intros [w s] q; cbn -[iterate].
  - rewrite list_elem_of_singleton. split; [intros ->; constructor|by inversion 1].
  - destruct s as [|c s]; [split; [by intros ?%elem_of_nil|by inversion 1]|]. destruct (f c) eqn:E.
    + rewrite list_elem_of_singleton. split; [intros ->; by constructor|by inversion 1].
    + split; [by intros ?%elem_of_nil|]. inversion 1. congruence.
  - destruct (xorb w (starts_word s)) eqn:E.
    + rewrite list_elem_of_singleton. split; [intros ->; constructor; by intros ->; rewrite xorb_nilpotent in E|by inversion 1].
    + apply xorb_eq in E. split; [by intros ?%elem_of_nil|by inversion 1].
  - destruct s as [|c s]; [|split; [by intros ?%elem_of_nil|by inversion 1]].
    rewrite list_elem_of_singleton. split; [intros ->; constructor|by inversion 1].
  - rewrite in_concat_map. split.
    + intros (x & Hx%IHa & Hq%IHb). by econstructor.
    + inversion 1; subst. eexists. split; [by apply IHa|by apply IHb].
  - rewrite elem_of_app, IHa, IHb. split; [intros [?|?]; by constructor|inversion 1; subst; auto].
  - by apply iterate_spec.
Qed.
