(* ===== verification/Json.v ===== *)
(** JSON values as the program reads and writes them, their property access,
    the two shape checks ([record], [exactKeys]) that several files of the
    source declare for themselves, and [JSON.stringify]. *)
From S2P Require Import Prelude.
Local Open Scope tx_scope.

(** A number is an integer whose printed form is its decimal numeral, or any
    other number, carried by the form [Number.prototype.toString] prints
    ("0.5", "1e+21", "-0", "NaN", "Infinity"). Objects list their own
    properties in insertion order. *)
Inductive json :=
  | JNull
  | JBool (b : bool)
  | JInt (z : Z)
  | JFloat (repr : string)
  | JStr (s : string)
  | JArr (items : list json)
  | JObj (fields : list (string * json)).

Section json_ind.
Variable P : json -> Prop.
Hypothesis HNull : P JNull.
Hypothesis HBool : forall b, P (JBool b).
Hypothesis HInt : forall z, P (JInt z).
Hypothesis HFloat : forall r, P (JFloat r).
Hypothesis HStr : forall s, P (JStr s).
Hypothesis HArr : forall l, Forall P l -> P (JArr l).
Hypothesis HObj : forall l, Forall (fun kv => P kv.2) l -> P (JObj l).

Fixpoint json_nested_ind (j : json) : P j :=
  match j with
  | JNull => HNull
  | JBool b => HBool b
  | JInt z => HInt z
  | JFloat r => HFloat r
  | JStr s => HStr s
  | JArr l => HArr l ((fix go l : Forall P l :=
      match l with [] => Forall_nil_2 _ | x :: l' => Forall_cons_2 _ _ _ (json_nested_ind x) (go l') end) l)
  | JObj l => HObj l ((fix go l : Forall (fun kv => P kv.2) l :=
      match l with [] => Forall_nil_2 _ | kv :: l' => Forall_cons_2 _ _ _ (json_nested_ind kv.2) (go l') end) l)
  end.
End json_ind.

(** A property that may be absent: [undefined] is [None]. *)
Fixpoint field (k : string) (fs : list (string * json)) : option json :=
  match fs with
  | [] => None
  | (k', v) :: fs' => if String.eqb k k' then Some v else field k fs'
  end.

(** [value && typeof value === "object" && !Array.isArray(value)] *)
Definition record (v : json) : option (list (string * json)) :=
  match v with JObj fs => Some fs | _ => None end.

(** [Object.keys(v).sort()] against the sorted expected keys: the same keys,
    each once. *)
Definition exact_keys (fs : list (string * json)) (expected : list string) : bool :=
  bool_decide (merge_sort (fun a b => Is_true (String.leb a b)) (map fst fs)
    = merge_sort (fun a b => Is_true (String.leb a b)) expected).

Definition opt_str_is (v : option json) (s : string) : bool :=
  match v with Some (JStr s') => String.eqb s' s | _ => false end.

(** * JSON.stringify

    On the code units below 256: the control characters, the quote and the
    backslash are escaped, every other code unit is printed as it is. *)
Definition quote_mark : string := String.String (Ascii.ascii_of_nat 34) String.EmptyString.
Definition backslash : string := String.String (Ascii.ascii_of_nat 92) String.EmptyString.

Definition hex_digit (n : nat) : string := String.substring n 1 "0123456789abcdef".

Definition quote_char (c : Ascii.ascii) : string :=
  let n := Ascii.nat_of_ascii c in
  if Nat.eqb n 34 then backslash +:+ quote_mark
  else if Nat.eqb n 92 then backslash +:+ backslash
  else if Nat.eqb n 8 then backslash +:+ "b"
  else if Nat.eqb n 9 then backslash +:+ "t"
  else if Nat.eqb n 10 then backslash +:+ "n"
  else if Nat.eqb n 12 then backslash +:+ "f"
  else if Nat.eqb n 13 then backslash +:+ "r"
  else if Nat.ltb n 32 then backslash +:+ "u00" +:+ hex_digit (n / 16) +:+ hex_digit (n mod 16)
  else String.String c String.EmptyString.

Fixpoint quote_chars (s : string) : string :=
  match s with
  | String.EmptyString => String.EmptyString
  | String.String c s' => quote_char c +:+ quote_chars s'
  end.

Definition quote (s : string) : string := quote_mark +:+ quote_chars s +:+ quote_mark.

(** A property name that is an array index: a canonical numeral below 2^32 - 1.
    Own properties are enumerated with the array indices first, ascending, and
    the other names after them in insertion order. *)
Definition digit_value (c : Ascii.ascii) : option Z :=
  let n := Ascii.nat_of_ascii c in
  if Nat.leb 48 n && Nat.leb n 57 then Some (Z.of_nat (n - 48)) else None.

Fixpoint numeral (acc : Z) (s : string) : option Z :=
  match s with
  | String.EmptyString => Some acc
  | String.String c s' => d ← digit_value c; numeral (10 * acc + d) s'
  end.

Definition array_index (k : string) : option Z :=
  match k with
  | String.EmptyString => None
  | String.String c s' =>
      if String.eqb k "0" then Some 0%Z
      else if Ascii.eqb c (Ascii.ascii_of_nat 48) then None
      else n ← numeral 0 k; if (n <? 4294967295)%Z then Some n else None
  end.

Definition own_order {A} (fs : list (string * A)) : list (string * A) :=
  let index kv := default 0%Z (array_index kv.1) in
  merge_sort (fun a b => Is_true (index a <=? index b)%Z) (filter (fun kv => array_index kv.1 <> None) fs)
  ++ filter (fun kv => array_index kv.1 = None) fs.

Definition join (sep : string) (l : list string) : string := String.concat sep l.

(** Non-finite numbers print as [null]; the printed form of -0 is "0". *)
Definition number_text (repr : string) : string :=
  if includes repr ["NaN"; "Infinity"; "-Infinity"] then "null"
  else if String.eqb repr "-0" then "0" else repr.

Fixpoint stringify (v : json) : string :=
  match v with
  | JNull => "null"
  | JBool b => if b then "true" else "false"
  | JInt z => pretty z
  | JFloat r => number_text r
  | JStr s => quote s
  | JArr l => "[" +:+ join "," (map stringify l) +:+ "]"
  | JObj fs =>
      "{" +:+ join "," (map (fun kv => quote kv.1 +:+ ":" +:+ kv.2)
        (own_order (map (fun kv => (kv.1, stringify kv.2)) fs))) +:+ "}"
  end.
