(* ===== verification/SessionInput.v ===== *)
(** What admission knows of a submission
    (packages/admission/src/domain/session-input.ts, submission.ts): the analysis
    of its text, as it is stored and as JSON. *)
From S2P Require Import Prelude Json.
Local Open Scope tx_scope.

Record TaskObjective := { ob_id : string; ob_summary : string; ob_timing : string; ob_kind : string }.

(** The literals of the unions (intent, urgency, relation) are their texts. A
    confidence counts ten-thousandths. The execution policy and the provenance of
    the routing are the objects they were decoded from. *)
Record SessionInputAnalysis := {
  an_summary : string; an_objectives : list TaskObjective; an_intent : string; an_targetRunId : option string; an_priority : Z;
  an_urgency : string; an_relation : string; an_acceptanceCriteria : list string; an_scope : string; an_nonGoals : list string;
  an_confidence : Z; an_reason : string; an_routerVersion : string; an_executionPolicy : option (list (string * json));
  an_routingProvenance : option (list (string * json));
}.

#[export] Instance task_objective_eq : EqDecision TaskObjective.
Proof. solve_decision. Defined.

Definition objective_json (o : TaskObjective) : json :=
  JObj [("id", JStr (ob_id o)); ("summary", JStr (ob_summary o)); ("timing", JStr (ob_timing o)); ("kind", JStr (ob_kind o))].

(** [analysis.executionPolicy?.gateProfile ?? "strict"] *)
Definition gate_choice (a : SessionInputAnalysis) : string :=
  match an_executionPolicy a ≫= field "gateProfile" with
  | Some (JStr s) => s
  | _ => "strict"
  end.

(** A member that is left out when it is undefined. *)
Definition optional_member (k : string) (o : option (list (string * json))) : list (string * json) :=
  match o with Some fs => [(k, JObj fs)] | None => [] end.

(** * submission.ts *)

Definition MAX_SUBMISSION_CONTENT_CHARS : Z := 200000.

Definition assertSubmissionContent (content : string) : result unit :=
  do* check (negb (blank content)) (Error "Submission content is required") in
  check (Z.of_nat (String.length content) <=? MAX_SUBMISSION_CONTENT_CHARS)%Z (Error "Submission content cannot exceed 200000 characters").

(** [s.slice(0, n)] *)
Fixpoint slice_to (n : nat) (s : string) : string :=
  match n, s with
  | S n', String.String c s' => String.String c (slice_to n' s')
  | _, _ => String.EmptyString
  end.

(** [a || b] of texts. *)
Definition or_text (a b : string) : string := if String.eqb a "" then b else a.

(** [critical] before [high] before [normal] before the rest, as the order of the queue ranks them. *)
Definition urgency_rank (u : string) : Z :=
  if String.eqb u "critical" then 4 else if String.eqb u "high" then 3 else if String.eqb u "normal" then 2 else 1.

(** * Normalised summaries *)

(** [toLocaleLowerCase] of a code unit. *)
Definition lower_unit (c : Ascii.ascii) : Ascii.ascii :=
  let n := Ascii.nat_of_ascii c in
  if (Nat.leb 65 n && Nat.leb n 90) || (Nat.leb 192 n && Nat.leb n 222 && negb (Nat.eqb n 215)) then Ascii.ascii_of_nat (n + 32) else c.

(** [\p{L}] or [\p{N}] among the code units below 256. *)
Definition letter_or_number (c : Ascii.ascii) : bool :=
  let n := Ascii.nat_of_ascii c in
  (Nat.leb 48 n && Nat.leb n 57) || (Nat.leb 65 n && Nat.leb n 90) || (Nat.leb 97 n && Nat.leb n 122)
  || existsb (Nat.eqb n) [170; 178; 179; 181; 185; 186; 188; 189; 190]
  || (Nat.leb 192 n && negb (Nat.eqb n 215) && negb (Nat.eqb n 247)).

(** [s.toLocaleLowerCase().replace(/[^\p{L}\p{N}]+/gu, "")] *)
Fixpoint normalized_summary (s : string) : string :=
  match s with
  | String.EmptyString => String.EmptyString
  | String.String c s' =>
      let c' := lower_unit c in
      if letter_or_number c' then String.String c' (normalized_summary s') else normalized_summary s'
  end.
