(* ===== verification/TaskPolicy.v ===== *)
(** The execution policy of a task (packages/governance/src/domain/task-policy.ts):
    the policy Admission proposes, the conservative policy used when it
    proposes none, and the floors Core applies to either, with the theorems
    that the floors never lower a proposal, always give one of the five
    consistent profiles, and grow with the operations observed. *)
From stdpp Require Import finite.
From S2P Require Import Prelude Json.

Inductive TaskExecutionMode :=
  exact_delivery | semantic_delivery | read_only_analysis | workspace_mutation | external_action.
Inductive TaskSideEffectRisk := risk_none | risk_read_only | risk_workspace | risk_external_high.
Inductive TaskEvidencePolicy := evidence_none | evidence_semantic | operation_receipt | trusted_check.
Inductive TaskReviewPolicy := review_local | semantic_lite | review_full.
Inductive GateProfile := gate_off | gate_relaxed | gate_strict.

#[export] Instance TaskExecutionMode_eq_dec : EqDecision TaskExecutionMode.
Proof. solve_decision. Defined.
#[export] Instance TaskSideEffectRisk_eq_dec : EqDecision TaskSideEffectRisk.
Proof. solve_decision. Defined.
#[export] Instance TaskEvidencePolicy_eq_dec : EqDecision TaskEvidencePolicy.
Proof. solve_decision. Defined.
#[export] Instance TaskReviewPolicy_eq_dec : EqDecision TaskReviewPolicy.
Proof. solve_decision. Defined.
#[export] Instance GateProfile_eq_dec : EqDecision GateProfile.
Proof. solve_decision. Defined.

(** The enumerations are finite, so that a statement about all of them is decided by evaluation. *)
#[export] Program Instance TaskExecutionMode_finite : Finite TaskExecutionMode :=
  {| enum := [exact_delivery; semantic_delivery; read_only_analysis; workspace_mutation; external_action] |}.
Next Obligation. apply (bool_decide_unpack _). vm_compute. exact I. Qed.
Next Obligation. intros []; apply (bool_decide_unpack _); vm_compute; exact I. Qed.
#[export] Program Instance TaskSideEffectRisk_finite : Finite TaskSideEffectRisk :=
  {| enum := [risk_none; risk_read_only; risk_workspace; risk_external_high] |}.
Next Obligation. apply (bool_decide_unpack _). vm_compute. exact I. Qed.
Next Obligation. intros []; apply (bool_decide_unpack _); vm_compute; exact I. Qed.
#[export] Program Instance TaskEvidencePolicy_finite : Finite TaskEvidencePolicy :=
  {| enum := [evidence_none; evidence_semantic; operation_receipt; trusted_check] |}.
Next Obligation. apply (bool_decide_unpack _). vm_compute. exact I. Qed.
Next Obligation. intros []; apply (bool_decide_unpack _); vm_compute; exact I. Qed.
#[export] Program Instance TaskReviewPolicy_finite : Finite TaskReviewPolicy :=
  {| enum := [review_local; semantic_lite; review_full] |}.
Next Obligation. apply (bool_decide_unpack _). vm_compute. exact I. Qed.
Next Obligation. intros []; apply (bool_decide_unpack _); vm_compute; exact I. Qed.

Record TaskExecutionPolicy := {
  mode : TaskExecutionMode;
  sideEffectRisk : TaskSideEffectRisk;
  evidencePolicy : TaskEvidencePolicy;
  reviewPolicy : TaskReviewPolicy;
  policyVersion : string;
  confidence : Z;
  reason : string;
  gateProfile : option GateProfile;
  exactOutput : option string;
}.

Record TaskObjectiveView := { timing : string; kind : string }.

(** [workspaceGoal] is absent, or an object whose [mode] may be missing. *)
Record TaskPolicyContractView := {
  objectives : list TaskObjectiveView;
  workspaceGoal : option (option string);
  executionPolicy : option TaskExecutionPolicy;
}.

Record TaskPolicyOperationView := {
  operationType : string;
  op_status : string;
  op_attempt : Z;
  effects : option (list json);
}.

Definition gateProfileOf (policy : option TaskExecutionPolicy) : GateProfile :=
  default gate_strict (policy ≫= gateProfile).

Definition effectiveGateProfile (contract : option TaskPolicyContractView) : GateProfile :=
  gateProfileOf (contract ≫= executionPolicy).

Definition riskRank (r : TaskSideEffectRisk) : nat :=
  match r with risk_none => 0 | risk_read_only => 1 | risk_workspace => 2 | risk_external_high => 3 end.
Definition evidenceRank (e : TaskEvidencePolicy) : nat :=
  match e with evidence_none => 0 | evidence_semantic => 1 | operation_receipt => 2 | trusted_check => 3 end.
Definition reviewRank (r : TaskReviewPolicy) : nat :=
  match r with review_local => 0 | semantic_lite => 1 | review_full => 2 end.

Definition maxByRank {T} (left right : T) (rank : T -> nat) : T :=
  if Nat.leb (rank right) (rank left) then left else right.

Definition action_read_only (effect : list (string * json)) : bool :=
  opt_str_is (field "action" effect) "read_only".

Definition operationMayMutate (operation : TaskPolicyOperationView) : bool :=
  if String.eqb (op_status operation) "pre_effect_rejected" then false
  else if includes (operationType operation) ["tool.write"; "tool.edit"; "tool.patch"; "tool.memory_forget"] then true
  else if negb (String.eqb (operationType operation) "tool.bash") then false
  else
    let workspaceEffects :=
      List.filter (fun effect => opt_str_is (field "kind" effect) "workspace")
        (omap record (default [] (effects operation))) in
    negb (existsb action_read_only workspaceEffects)
    || existsb (fun effect => negb (action_read_only effect)) workspaceEffects.

Definition conservativeTaskExecutionPolicy (contract : option TaskPolicyContractView) : TaskExecutionPolicy :=
  let currentKinds :=
    match contract with
    | Some c => map kind (List.filter (fun item => String.eqb (timing item) "current") (objectives c))
    | None => []
    end in
  let mutating := existsb (fun k => includes k ["change"; "verify"; "release"]) currentKinds in
  let discussion := bool_decide (currentKinds = ["answer"]) in
  {| mode := if mutating then workspace_mutation else if discussion then semantic_delivery else read_only_analysis;
     sideEffectRisk := if mutating then risk_workspace else if discussion then risk_none else risk_read_only;
     evidencePolicy := if mutating then trusted_check else if discussion then evidence_semantic else operation_receipt;
     reviewPolicy := if mutating || negb discussion then review_full else semantic_lite;
     policyVersion := "conservative-default-v1";
     confidence := 1;
     reason := "Core conservatively derived policy for a contract without an Admission execution policy.";
     gateProfile := None;
     exactOutput := None |}.

Definition normalizedMode (source : TaskExecutionPolicy) : TaskExecutionMode :=
  if bool_decide (mode source = external_action) || bool_decide (sideEffectRisk source = risk_external_high)
  then external_action
  else if bool_decide (mode source = workspace_mutation) || bool_decide (sideEffectRisk source = risk_workspace)
    || bool_decide (evidencePolicy source = trusted_check)
  then workspace_mutation
  else if bool_decide (mode source = read_only_analysis) || bool_decide (sideEffectRisk source = risk_read_only)
    || bool_decide (evidencePolicy source = operation_receipt)
  then read_only_analysis
  else if bool_decide (mode source = semantic_delivery) || bool_decide (evidencePolicy source = evidence_semantic)
    || negb (bool_decide (reviewPolicy source = review_local))
    || match exactOutput source with Some s => blank s | None => true end
  then semantic_delivery
  else exact_delivery.

Definition modeProfile (m : TaskExecutionMode) : TaskSideEffectRisk * TaskEvidencePolicy * TaskReviewPolicy :=
  match m with
  | external_action => (risk_external_high, trusted_check, review_full)
  | workspace_mutation => (risk_workspace, trusted_check, review_full)
  | read_only_analysis => (risk_read_only, operation_receipt, review_full)
  | exact_delivery => (risk_none, evidence_none, review_local)
  | semantic_delivery => (risk_none, evidence_semantic, semantic_lite)
  end.

Definition normalizationReason : string :=
  "Core normalized an inconsistent execution-policy profile to its strongest safety implication.".
Definition roadmapReason : string :=
  "Core raised the policy because an approved Workspace Goal Roadmap item is attached.".
Definition mutationReason : string :=
  "Core raised the policy because a mutation-capable operation was observed in the current Attempt.".

Definition effectiveTaskExecutionPolicy (contract : option TaskPolicyContractView)
    (operations : list TaskPolicyOperationView) (currentAttempt : option Z) : TaskExecutionPolicy :=
  let source := default (conservativeTaskExecutionPolicy contract) (contract ≫= executionPolicy) in
  let normalized := normalizedMode source in
  let '(profileRisk, profileEvidence, profileReview) := modeProfile normalized in
  let normalizedReview := maxByRank (reviewPolicy source) profileReview reviewRank in
  let mode0 := normalized in
  let risk0 := profileRisk in
  let evidence0 := profileEvidence in
  let review0 := normalizedReview in
  let reasons := [reason source] ++
    (if negb (bool_decide (normalized = mode source)) || negb (bool_decide (sideEffectRisk source = profileRisk))
       || negb (bool_decide (evidencePolicy source = profileEvidence))
       || negb (bool_decide (reviewPolicy source = normalizedReview))
     then [normalizationReason] else []) in
  let currentOperations :=
    match currentAttempt with
    | None => operations
    | Some a => List.filter (fun item => Z.eqb (op_attempt item) a) operations
    end in
  let mutationObserved := existsb operationMayMutate currentOperations in
  let roadmapGoal := bool_decide ((contract ≫= workspaceGoal) = Some (Some "roadmap")) in
  let '(mode1, risk1, evidence1, review1, reasons1) :=
    if roadmapGoal || mutationObserved then
      (if bool_decide (mode0 = external_action) then mode0 else workspace_mutation,
       maxByRank risk0 risk_workspace riskRank,
       maxByRank evidence0 trusted_check evidenceRank,
       maxByRank review0 review_full reviewRank,
       reasons ++ [if roadmapGoal then roadmapReason else mutationReason])
    else (mode0, risk0, evidence0, review0, reasons) in
  let '(risk2, evidence2, review2) :=
    match mode1 with
    | external_action => (risk_external_high, trusted_check, review_full)
    | workspace_mutation =>
        (maxByRank risk1 risk_workspace riskRank, maxByRank evidence1 trusted_check evidenceRank, review_full)
    | _ => (risk1, evidence1, review1)
    end in
  let review3 :=
    if bool_decide (review2 = review_local) && negb (bool_decide (mode1 = exact_delivery))
    then semantic_lite else review2 in
  {| mode := mode1; sideEffectRisk := risk2; evidencePolicy := evidence2; reviewPolicy := review3;
     policyVersion := policyVersion source; confidence := confidence source;
     reason := join " " reasons1;
     gateProfile := gateProfile source; exactOutput := exactOutput source |}.

(** * Specification *)

Definition modeRank (m : TaskExecutionMode) : nat :=
  match m with
  | exact_delivery => 0 | semantic_delivery => 1 | read_only_analysis => 2
  | workspace_mutation => 3 | external_action => 4
  end.

(** [policy_le p q]: [q] is at least as strict as [p] in every dimension. *)
Definition policy_le (p q : TaskExecutionPolicy) : Prop :=
  modeRank (mode p) <= modeRank (mode q) /\
  riskRank (sideEffectRisk p) <= riskRank (sideEffectRisk q) /\
  evidenceRank (evidencePolicy p) <= evidenceRank (evidencePolicy q) /\
  reviewRank (reviewPolicy p) <= reviewRank (reviewPolicy q).

(** The five profiles Core works with; only a semantic delivery may carry a
    review stronger than its profile's. *)
Definition consistent (p : TaskExecutionPolicy) : Prop :=
  (sideEffectRisk p, evidencePolicy p, reviewPolicy p) = modeProfile (mode p)
  \/ mode p = semantic_delivery /\ sideEffectRisk p = risk_none
     /\ evidencePolicy p = evidence_semantic /\ reviewPolicy p = review_full.

Definition source_policy (contract : option TaskPolicyContractView) : TaskExecutionPolicy :=
  default (conservativeTaskExecutionPolicy contract) (contract ≫= executionPolicy).

Definition with_policy (p : TaskExecutionPolicy) (c : TaskPolicyContractView) : TaskPolicyContractView :=
  {| objectives := objectives c; workspaceGoal := workspaceGoal c; executionPolicy := Some p |}.

(** What decides the four dimensions besides the source: whether the policy is raised. *)
Definition raised (contract : option TaskPolicyContractView)
    (operations : list TaskPolicyOperationView) (currentAttempt : option Z) : bool :=
  bool_decide ((contract ≫= workspaceGoal) = Some (Some "roadmap"))
  || existsb operationMayMutate
       (match currentAttempt with
        | None => operations
        | Some a => List.filter (fun item => Z.eqb (op_attempt item) a) operations
        end).

Definition floor (source : TaskExecutionPolicy) (raise : bool)
    : TaskExecutionMode * TaskSideEffectRisk * TaskEvidencePolicy * TaskReviewPolicy :=
  let n := normalizedMode source in
  let m := if raise then (if bool_decide (n = external_action) then n else workspace_mutation) else n in
  let '(r, e, v) := modeProfile m in
  (m, r, e, maxByRank (if raise then review_full else reviewPolicy source) v reviewRank).

(** * Properties *)

Lemma effective_floor contract operations currentAttempt :
  let p := effectiveTaskExecutionPolicy contract operations currentAttempt in
  (mode p, sideEffectRisk p, evidencePolicy p, reviewPolicy p)
  = floor (source_policy contract) (raised contract operations currentAttempt).
Proof.
  unfold effectiveTaskExecutionPolicy, floor, raised. fold (source_policy contract).
  set (s := source_policy contract). set (n := normalizedMode s).
  set (r := bool_decide _). set (x := existsb _ _).
  clearbody r x. destruct n, r, x, (reviewPolicy s); reflexivity.
Qed.

(** A policy as [floor] sees it, from its four dimensions and whether its
    exact output is blank. *)
Definition policy_of (m : TaskExecutionMode) (r : TaskSideEffectRisk) (e : TaskEvidencePolicy)
    (v : TaskReviewPolicy) (no_output : bool) : TaskExecutionPolicy :=
  {| mode := m; sideEffectRisk := r; evidencePolicy := e; reviewPolicy := v; policyVersion := "";
     confidence := 1; reason := ""; gateProfile := None; exactOutput := if no_output then None else Some "x" |}.

Definition no_output (s : TaskExecutionPolicy) : bool :=
  match exactOutput s with Some s => blank s | None => true end.

Lemma floor_policy_of s raise :
  floor s raise
  = floor (policy_of (mode s) (sideEffectRisk s) (evidencePolicy s) (reviewPolicy s) (no_output s)) raise.
Proof.
  unfold floor, normalizedMode, no_output.
  destruct s as [? ? ? ? ? ? ? ? [x|]]; cbn; [destruct (blank x)|]; reflexivity.
Qed.

(** A statement about [floor] on every policy is a statement about the
    enumerations, which evaluation decides. *)
Ltac decide_by_enumeration := apply (bool_decide_unpack _); vm_compute; exact I.

Lemma floor_ge s raise :
  let '(m, r, e, v) := floor s raise in
  modeRank (mode s) <= modeRank m /\ riskRank (sideEffectRisk s) <= riskRank r /\
  evidenceRank (evidencePolicy s) <= evidenceRank e /\ reviewRank (reviewPolicy s) <= reviewRank v.
Proof.
  rewrite floor_policy_of. generalize (mode s), (sideEffectRisk s), (evidencePolicy s), (reviewPolicy s), (no_output s).
  revert raise. clear s.
  assert (forall raise m0 r0 e0 v0 b, let f := floor (policy_of m0 r0 e0 v0 b) raise in
    modeRank m0 <= modeRank f.1.1.1 /\ riskRank r0 <= riskRank f.1.1.2 /\
    evidenceRank e0 <= evidenceRank f.1.2 /\ reviewRank v0 <= reviewRank f.2) as H by decide_by_enumeration.
  intros raise m0 r0 e0 v0 b. specialize (H raise m0 r0 e0 v0 b). by destruct (floor _ _) as [[[? ?] ?] ?].
Qed.

Lemma floor_consistent s raise :
  let '(m, r, e, v) := floor s raise in
  (r, e, v) = modeProfile m \/
  m = semantic_delivery /\ r = risk_none /\ e = evidence_semantic /\ v = review_full.
Proof.
  rewrite floor_policy_of. generalize (mode s), (sideEffectRisk s), (evidencePolicy s), (reviewPolicy s), (no_output s).
  revert raise. clear s.
  assert (forall raise m0 r0 e0 v0 b, let f := floor (policy_of m0 r0 e0 v0 b) raise in
    (f.1.1.2, f.1.2, f.2) = modeProfile f.1.1.1 \/
    f.1.1.1 = semantic_delivery /\ f.1.1.2 = risk_none /\ f.1.2 = evidence_semantic /\ f.2 = review_full)
    as H by decide_by_enumeration.
  intros raise m0 r0 e0 v0 b. specialize (H raise m0 r0 e0 v0 b). by destruct (floor _ _) as [[[? ?] ?] ?].
Qed.

Lemma floor_stable s raise m r e v :
  floor s raise = (m, r, e, v) ->
  forall s', mode s' = m -> sideEffectRisk s' = r -> evidencePolicy s' = e -> reviewPolicy s' = v ->
    exactOutput s' = exactOutput s -> floor s' raise = (m, r, e, v).
Proof.
  intros H s' <- <- <- <- Hx. rewrite floor_policy_of in H |- *.
  replace (no_output s') with (no_output s) by (unfold no_output; by rewrite Hx). revert H.
  assert (forall raise m0 r0 e0 v0 b, let f := floor (policy_of m0 r0 e0 v0 b) raise in
    floor (policy_of f.1.1.1 f.1.1.2 f.1.2 f.2 b) raise = f) as Hf by decide_by_enumeration.
  intros H. specialize (Hf raise (mode s) (sideEffectRisk s) (evidencePolicy s) (reviewPolicy s) (no_output s)).
  rewrite H in Hf. exact Hf.
Qed.

(** Core's floors never lower an Admission proposal: whatever the contract,
    the operations observed and the Attempt, the effective policy is at least
    as strict as the policy proposed (or the conservative one) in mode, side
    effect risk, evidence and review. *)
Theorem effective_never_lowers contract operations currentAttempt :
  policy_le (source_policy contract) (effectiveTaskExecutionPolicy contract operations currentAttempt).
Proof.
  pose proof (floor_ge (source_policy contract) (raised contract operations currentAttempt)) as H.
  rewrite <- effective_floor in H. exact H.
Qed.

(** The effective policy is one of the five consistent profiles: its mode
    determines the side effect risk, the evidence and the review, except that
    a semantic delivery may carry a full review. *)
Theorem effective_is_consistent contract operations currentAttempt :
  consistent (effectiveTaskExecutionPolicy contract operations currentAttempt).
Proof.
  pose proof (floor_consistent (source_policy contract) (raised contract operations currentAttempt)) as H.
  rewrite <- effective_floor in H. exact H.
Qed.

(** Applying the floors to a contract that already carries the effective
    policy changes none of its four dimensions. *)
Theorem effective_idempotent contract operations currentAttempt c :
  contract = Some c ->
  let p := effectiveTaskExecutionPolicy contract operations currentAttempt in
  let q := effectiveTaskExecutionPolicy (Some (with_policy p c)) operations currentAttempt in
  (mode q, sideEffectRisk q, evidencePolicy q, reviewPolicy q)
  = (mode p, sideEffectRisk p, evidencePolicy p, reviewPolicy p).
Proof.
  intros -> p q. subst q. rewrite (effective_floor (Some (with_policy p c))).
  change (raised (Some (with_policy p c)) operations currentAttempt)
    with (raised (Some c) operations currentAttempt).
  change (source_policy (Some (with_policy p c))) with p.
  eapply floor_stable; [symmetry; apply effective_floor|..]; try reflexivity.
  subst p. unfold effectiveTaskExecutionPolicy. fold (source_policy (Some c)).
  repeat (case_match; simplify_eq; try reflexivity).
Qed.

Lemma floor_mono s : forall raise raise' : bool, (raise = true -> raise' = true) ->
  let '(m, r, e, v) := floor s raise in
  let '(m', r', e', v') := floor s raise' in
  modeRank m <= modeRank m' /\ riskRank r <= riskRank r' /\
  evidenceRank e <= evidenceRank e' /\ reviewRank v <= reviewRank v'.
Proof.
  intros [] [] H; try (exfalso; discriminate (H eq_refl));
    unfold floor; destruct (normalizedMode s), (reviewPolicy s); vm_compute; repeat constructor.
Qed.

Lemma existsb_app_mono {A} (f : A -> bool) l l' : existsb f l = true -> existsb f (l ++ l') = true.
Proof. rewrite existsb_app. intros ->. reflexivity. Qed.

(** Observing more operations can only make the policy stricter. *)
Theorem effective_monotone contract operations later currentAttempt :
  policy_le (effectiveTaskExecutionPolicy contract operations currentAttempt)
    (effectiveTaskExecutionPolicy contract (operations ++ later) currentAttempt).
Proof.
  assert (raised contract operations currentAttempt = true ->
    raised contract (operations ++ later) currentAttempt = true) as Hr.
  { unfold raised. rewrite !orb_true_iff. intros [|]; [by left|right].
    destruct currentAttempt; rewrite ?List.filter_app; by apply existsb_app_mono. }
  pose proof (floor_mono (source_policy contract) _ _ Hr) as H.
  rewrite <- !effective_floor in H. exact H.
Qed.

Lemma mutation_floor contract operations attempt operation :
  operation ∈ operations -> op_attempt operation = attempt -> operationMayMutate operation = true ->
  let p := effectiveTaskExecutionPolicy contract operations (Some attempt) in
  evidencePolicy p = trusted_check /\ reviewPolicy p = review_full /\
  (mode p = workspace_mutation \/ mode p = external_action).
Proof.
  intros Hin Ha Hm p.
  assert (raised contract operations (Some attempt) = true) as Hr.
  { unfold raised. apply orb_true_iff. right. apply existsb_exists. exists operation.
    split; [|done]. apply List.filter_In. rewrite Ha, Z.eqb_refl. by rewrite <- list_elem_of_In. }
  pose proof (effective_floor contract operations (Some attempt)) as H. fold p in H. rewrite Hr in H.
  clearbody p. revert H. unfold floor.
  destruct (normalizedMode (source_policy contract)); vm_compute; destruct p; intros [= -> -> -> ->]; auto.
Qed.

(** A mutation-capable operation observed in the current Attempt forces a
    trusted check and a full review, whatever was proposed. *)
Theorem mutation_forces_trusted_check contract operations attempt operation :
  operation ∈ operations -> op_attempt operation = attempt -> operationMayMutate operation = true ->
  let p := effectiveTaskExecutionPolicy contract operations (Some attempt) in
  evidencePolicy p = trusted_check /\ reviewPolicy p = review_full /\
  (mode p = workspace_mutation \/ mode p = external_action).
Proof. exact (mutation_floor contract operations attempt operation). Qed.

(** A write observed under an answer-only contract. *)
Definition example_write : TaskPolicyOperationView :=
  {| operationType := "tool.write"; op_status := "succeeded"; op_attempt := 2; effects := None |}.
Definition example_answer : TaskPolicyContractView :=
  {| objectives := [{| timing := "current"; kind := "answer" |}]; workspaceGoal := None; executionPolicy := None |}.

Lemma effective_idempotent_witness :
  let p := effectiveTaskExecutionPolicy (Some example_answer) [example_write] (Some 2%Z) in
  mode p = workspace_mutation /\
  let q := effectiveTaskExecutionPolicy (Some (with_policy p example_answer)) [example_write] (Some 2%Z) in
  (mode q, sideEffectRisk q, evidencePolicy q, reviewPolicy q)
  = (mode p, sideEffectRisk p, evidencePolicy p, reviewPolicy p).
Proof.
  split; [reflexivity|]. apply (effective_idempotent (Some example_answer) [example_write] (Some 2%Z) example_answer eq_refl).
Defined.

Lemma mutation_forces_trusted_check_witness :
  evidencePolicy (effectiveTaskExecutionPolicy (Some example_answer) [example_write] (Some 2%Z)) = trusted_check.
Proof.
  apply (mutation_forces_trusted_check (Some example_answer) [example_write] 2 example_write);
    [left | reflexivity | reflexivity].
Defined.
