(* ===== verification/Attempt.v ===== *)
(** The Attempt state machine (packages/execution/src/domain/attempt.ts) and
    the statuses of a TaskRun (packages/execution/src/domain/task-run.ts). *)
From stdpp Require Import finite.
From S2P Require Import Prelude.
Local Open Scope tx_scope.

Inductive AttemptTrigger :=
  T_initial | T_resume | T_continuation | T_retry | T_input | T_recovery.

Inductive AttemptStatus :=
  A_queued | A_starting | A_running | A_settling | A_waiting_input | A_blocked
  | A_completed | A_failed | A_cancelled | A_interrupted | A_superseded.

Inductive TerminalAttemptStatus := TA_completed | TA_blocked | TA_failed | TA_cancelled.

Inductive RunStatus :=
  R_running | R_waiting_input | R_completed | R_blocked | R_interrupted | R_cancelled | R_failed.

Inductive RunPhase :=
  P_discover | P_plan | P_implement | P_verify | P_review | P_waiting_input | P_done | P_blocked.

#[export] Instance AttemptTrigger_eq_dec : EqDecision AttemptTrigger.
Proof. solve_decision. Defined.
#[export] Instance AttemptStatus_eq_dec : EqDecision AttemptStatus.
Proof. solve_decision. Defined.
#[export] Instance TerminalAttemptStatus_eq_dec : EqDecision TerminalAttemptStatus.
Proof. solve_decision. Defined.
#[export] Instance RunStatus_eq_dec : EqDecision RunStatus.
Proof. solve_decision. Defined.
#[export] Instance RunPhase_eq_dec : EqDecision RunPhase.
Proof. solve_decision. Defined.

Definition ATTEMPT_STATUSES : list AttemptStatus :=
  [A_queued; A_starting; A_running; A_settling; A_waiting_input; A_blocked;
   A_completed; A_failed; A_cancelled; A_interrupted; A_superseded].

#[export] Program Instance AttemptStatus_finite : Finite AttemptStatus := {| enum := ATTEMPT_STATUSES |}.
Next Obligation. apply (bool_decide_unpack _). vm_compute. exact I. Qed.
Next Obligation. intros []; apply (bool_decide_unpack _); vm_compute; exact I. Qed.

Definition attempt_status_text (s : AttemptStatus) : string :=
  match s with
  | A_queued => "queued" | A_starting => "starting" | A_running => "running" | A_settling => "settling"
  | A_waiting_input => "waiting_input" | A_blocked => "blocked" | A_completed => "completed"
  | A_failed => "failed" | A_cancelled => "cancelled" | A_interrupted => "interrupted"
  | A_superseded => "superseded"
  end.

Definition run_status_text (s : RunStatus) : string :=
  match s with
  | R_running => "running" | R_waiting_input => "waiting_input" | R_completed => "completed"
  | R_blocked => "blocked" | R_interrupted => "interrupted" | R_cancelled => "cancelled" | R_failed => "failed"
  end.

(** A TaskRun status as the status of its Attempt: the same word. *)
Definition of_run_status (s : RunStatus) : AttemptStatus :=
  match s with
  | R_running => A_running | R_waiting_input => A_waiting_input | R_completed => A_completed
  | R_blocked => A_blocked | R_interrupted => A_interrupted | R_cancelled => A_cancelled | R_failed => A_failed
  end.

Definition of_terminal (s : TerminalAttemptStatus) : RunStatus :=
  match s with
  | TA_completed => R_completed | TA_blocked => R_blocked | TA_failed => R_failed | TA_cancelled => R_cancelled
  end.

Definition ATTEMPT_TRANSITIONS (from : AttemptStatus) : list AttemptStatus :=
  match from with
  | A_queued => [A_starting; A_failed; A_cancelled; A_interrupted]
  | A_starting => [A_running; A_failed; A_cancelled; A_interrupted]
  | A_running => [A_settling; A_waiting_input; A_blocked; A_failed; A_cancelled; A_interrupted]
  | A_settling => [A_completed; A_blocked; A_failed; A_cancelled; A_interrupted]
  | A_waiting_input => [A_blocked]
  | A_blocked | A_completed | A_failed | A_cancelled | A_interrupted | A_superseded => []
  end.

Definition canTransitionAttempt (from to : AttemptStatus) : bool :=
  includes to (ATTEMPT_TRANSITIONS from).

Definition assertAttemptTransition {S} (from to : AttemptStatus) : tx S unit :=
  require (canTransitionAttempt from to)
    (Error ("Attempt cannot transition from " +:+ attempt_status_text from +:+ " to " +:+ attempt_status_text to)).

Definition isActiveAttemptStatus (status : AttemptStatus) : bool :=
  match status with A_queued | A_starting | A_running | A_settling => true | _ => false end.

(** [attemptIdFor] checks its arguments; [attempt_id] is the identifier it builds. *)
Definition attempt_id (runId : string) (ordinal : Z) : string :=
  "attempt:" +:+ runId +:+ ":" +:+ pretty ordinal.

Definition attemptIdFor (runId : string) (ordinal : Z) : result string :=
  do* check (negb (blank runId)) (TypeError "Attempt runId is required") in
  do* check (safe_integer ordinal && (0 <? ordinal)%Z)
    (TypeError "Attempt ordinal must be a positive safe integer") in
  mret (attempt_id runId ordinal).

(** * Reachability *)

(** One step of the state machine. *)
Definition attempt_step (from to : AttemptStatus) : Prop := canTransitionAttempt from to = true.

(** How many steps a status can still take at most. *)
Definition attempt_measure (s : AttemptStatus) : nat :=
  match s with
  | A_queued => 4 | A_starting => 3 | A_running => 2 | A_settling => 1 | A_waiting_input => 1
  | A_blocked | A_completed | A_failed | A_cancelled | A_interrupted | A_superseded => 0
  end.

#[export] Instance attempt_step_dec from to : Decision (attempt_step from to).
Proof. unfold attempt_step. apply _. Defined.

Lemma attempt_step_decreases from to : attempt_step from to -> attempt_measure to < attempt_measure from.
Proof.
  revert from to. apply (bool_decide_unpack _). vm_compute. exact I.
Qed.

Lemma attempt_nsteps_bound n from to :
  nsteps attempt_step n from to -> n + attempt_measure to <= attempt_measure from.
Proof.
  induction 1 as [|n x y z Hxy _ IH]; [lia|]. apply attempt_step_decreases in Hxy. lia.
Qed.

(** The Attempt state machine always halts: no sequence of transitions from
    any status is longer than four steps. *)
Theorem attempt_machine_terminates n from to : nsteps attempt_step n from to -> n <= 4.
Proof. intros H%attempt_nsteps_bound. destruct from; cbn in H; lia. Qed.

Lemma attempt_machine_terminates_witness : nsteps attempt_step 4 A_queued A_completed /\ 4 <= 4.
Proof.
  assert (nsteps attempt_step 4 A_queued A_completed) as H.
  { apply nsteps_l with A_starting; [vm_compute; reflexivity|].
    apply nsteps_l with A_running; [vm_compute; reflexivity|].
    apply nsteps_l with A_settling; [vm_compute; reflexivity|].
    apply nsteps_l with A_completed; [vm_compute; reflexivity|]. constructor. }
  split; [exact H|]. exact (attempt_machine_terminates 4 A_queued A_completed H).
Defined.

(** An Attempt that completes went through [settling]: the only step into
    [completed] starts there, so every completed Attempt recorded a Candidate. *)
Lemma completed_only_from_settling from : attempt_step from A_completed -> from = A_settling.
Proof. revert from. apply (bool_decide_unpack _). vm_compute. exact I. Qed.

Lemma attempt_active_before from to :
  attempt_step from to -> isActiveAttemptStatus from = true \/ from = A_waiting_input /\ to = A_blocked.
Proof. revert from to. apply (bool_decide_unpack _). vm_compute. exact I. Qed.

(** * Identifiers of Attempts are injective

    The ordinal is printed without a colon, so the last colon of an identifier
    separates the TaskRun from the ordinal, whatever the TaskRun is called. *)

Definition colon : Ascii.ascii := Ascii.Ascii false true false true true true false false.

Lemma digit_no_colon n : Ascii.eqb (pretty_N_char n) colon = false.
Proof. unfold pretty_N_char. repeat case_match; reflexivity. Qed.

Lemma pretty_N_no_colon n s : has_char colon s = false -> has_char colon (pretty_N_go n s) = false.
Proof.
  revert s. induction (N.lt_wf_0 n) as [n _ IH]. intros s Hs.
  destruct (decide (0 < n)%N) as [Hn|Hn].
  - rewrite pretty_N_go_step by done. apply IH; [by apply N.div_lt|]. cbn. by rewrite digit_no_colon.
  - assert (n = 0%N) as -> by lia. by rewrite pretty_N_go_0.
Qed.

Lemma pretty_Z_no_colon (z : Z) : has_char colon (pretty z) = false.
Proof.
  assert (Hp : forall p : positive, has_char colon (pretty p) = false).
  { intros p. unfold pretty, pretty_positive, pretty, pretty_N. case_decide; [done|]. by apply pretty_N_no_colon. }
  destruct z; cbn; [done|apply Hp|]. unfold pretty, pretty_Z. cbn. apply Hp.
Qed.

Lemma attempt_id_inj r1 n1 r2 n2 : attempt_id r1 n1 = attempt_id r2 n2 -> r1 = r2 /\ n1 = n2.
Proof.
  unfold attempt_id. intros E. injection E as E.
  apply (last_sep_inj colon) in E as [-> E]; auto using pretty_Z_no_colon. split; [done|]. by apply (inj pretty).
Qed.
