(* ===== verification/GateData.v ===== *)
(** What the gates of a completion audit report: failures with their
    disposition, and the coverage of the criteria with the quotes that support
    it (packages/governance/src/domain/governance.ts). *)
From S2P Require Import Prelude.

Inductive Disposition :=
  auto_fixable | needs_user_input | needs_approval | external_dependency | runtime_transient | non_recoverable.

#[export] Instance Disposition_eq_dec : EqDecision Disposition.
Proof. solve_decision. Defined.

Definition disposition_text (x : Disposition) : string :=
  match x with
  | auto_fixable => "auto_fixable" | needs_user_input => "needs_user_input" | needs_approval => "needs_approval"
  | external_dependency => "external_dependency" | runtime_transient => "runtime_transient"
  | non_recoverable => "non_recoverable"
  end.

Record GateFailure := { kind : string; key : string; reason : string; disposition : Disposition }.

#[export] Instance GateFailure_eq_dec : EqDecision GateFailure.
Proof. solve_decision. Defined.

Inductive CoverageStatus := covered | unsupported | contradicted | blocked.

#[export] Instance CoverageStatus_eq_dec : EqDecision CoverageStatus.
Proof. solve_decision. Defined.

Definition coverage_text (s : CoverageStatus) : string :=
  match s with
  | covered => "covered" | unsupported => "unsupported" | contradicted => "contradicted" | blocked => "blocked"
  end.

Inductive EvidenceQuoteSelector :=
  | text_quote (exact : string) (occurrence : option Z)
  | line_range (startLine endLine : Z)
  | byte_range (startByte endByte : Z)
  | json_pointer (pointer : string).

Record EvidenceQuote := {
  eq_sourceRef : string; eq_sourceRevision : string; eq_sourceHash : string; eq_selector : EvidenceQuoteSelector;
  eq_quote : string }.

Record CriterionCoverage := {
  criterion : string; cov_status : CoverageStatus; evidenceRefs : list string;
  evidenceQuotes : option (list EvidenceQuote); acceptedUncertaintyId : option string; cov_reason : string }.
