(* ===== verification/ExecDb.v ===== *)
(** The execution tables of the control-plane database and the statements
    the operations on them are built from. A table is a finite map from its
    primary key to its row; the append-only tables without a key of their own
    are lists, oldest row first. An UPDATE reports how many rows it changed,
    and a write that breaks a CHECK, a UNIQUE index or a primary key throws.
    Foreign keys are not checked again where the operation has just read the
    row they name. *)
From S2P Require Import Prelude Json SessionInput Attempt GateData.
Local Open Scope tx_scope.

Inductive CandidateStatus := C_proposed | C_accepted | C_rejected.
Inductive SupervisorAction :=
  S_observe | S_steer | S_follow_up | S_pause_for_approval | S_wait_for_runtime
  | S_start_continuation | S_complete_taskrun | S_block_taskrun.
Inductive DecisionStatus := D_proposed | D_executed | D_superseded | D_failed.
Inductive ContinuationStatus := N_queued | N_running | N_completed | N_blocked | N_failed | N_cancelled.
Inductive ControlStatus := K_queued | K_delivering | K_delivered | K_rejected | K_superseded | K_outcome_unknown.
Inductive ControlKind := steer | follow_up.
Inductive UserInputStatus := U_pending | U_submitted | U_cancelled | U_superseded.
Inductive ApprovalStatus := Ap_pending | Ap_approved | Ap_rejected | Ap_superseded | Ap_consumed.
Inductive ApprovalAction := resume_taskrun | start_parallel_taskrun | execute_external_action.
Inductive ToolAttemptStatus := TS_running | TS_succeeded | TS_failed | TS_outcome_unknown.
Inductive CommandState := CS_started | CS_succeeded | CS_failed | CS_outcome_unknown.

#[export] Instance CandidateStatus_eq_dec : EqDecision CandidateStatus.
Proof. solve_decision. Defined.
#[export] Instance SupervisorAction_eq_dec : EqDecision SupervisorAction.
Proof. solve_decision. Defined.
#[export] Instance DecisionStatus_eq_dec : EqDecision DecisionStatus.
Proof. solve_decision. Defined.
#[export] Instance ContinuationStatus_eq_dec : EqDecision ContinuationStatus.
Proof. solve_decision. Defined.
#[export] Instance ControlStatus_eq_dec : EqDecision ControlStatus.
Proof. solve_decision. Defined.
#[export] Instance UserInputStatus_eq_dec : EqDecision UserInputStatus.
Proof. solve_decision. Defined.
#[export] Instance ApprovalStatus_eq_dec : EqDecision ApprovalStatus.
Proof. solve_decision. Defined.
#[export] Instance ApprovalAction_eq_dec : EqDecision ApprovalAction.
Proof. solve_decision. Defined.
#[export] Instance ToolAttemptStatus_eq_dec : EqDecision ToolAttemptStatus.
Proof. solve_decision. Defined.
#[export] Instance CommandState_eq_dec : EqDecision CommandState.
Proof. solve_decision. Defined.

Definition action_text (a : SupervisorAction) : string :=
  match a with
  | S_observe => "observe" | S_steer => "steer" | S_follow_up => "follow_up"
  | S_pause_for_approval => "pause_for_approval" | S_wait_for_runtime => "wait_for_runtime"
  | S_start_continuation => "start_continuation" | S_complete_taskrun => "complete_taskrun"
  | S_block_taskrun => "block_taskrun"
  end.

(** * Rows *)

Record RunRow := {
  r_id : string; r_sessionId : string; r_requestId : string; r_status : RunStatus; r_phase : RunPhase;
  r_goal : string; r_contract : option json; r_gateRequired : bool; r_blockedReason : string;
  r_attempt : Z; r_lastEventSeq : Z; r_createdAt : Z; r_updatedAt : Z;
  r_completedAt : option Z; r_resumedAt : option Z;
}.

Record AttemptRow := {
  a_id : string; a_runId : string; a_ordinal : Z; a_trigger : AttemptTrigger; a_status : AttemptStatus;
  a_active : bool; a_version : Z; a_eventSequence : Z; a_startedAt : Z; a_updatedAt : Z; a_completedAt : option Z;
}.

Record LeaseRow := {
  l_attemptId : string; l_ownerId : string; l_token : string; l_fence : Z; l_attemptVersion : Z;
  l_leaseUntil : Z; l_heartbeatAt : Z; l_releasedAt : option Z;
}.

Record CandidateRow := {
  c_id : string; c_attemptId : string; c_attemptVersion : Z; c_response : string; c_responseHash : string;
  c_status : CandidateStatus; c_createdAt : Z; c_settledAt : option Z;
}.

Record DecisionRow := {
  d_id : string; d_runId : string; d_attempt : Z; d_status : DecisionStatus; d_action : SupervisorAction;
  d_candidateResponseHash : string; d_error : string; d_createdAt : Z; d_executedAt : option Z;
  d_checkpointSeq : Z; d_trigger : string; d_reasonCode : string; d_rationale : string; d_instruction : string;
  d_evaluator : string; d_evaluatorModel : string; d_epistemicStatus : string;
}.

Record EventRow := { e_attemptId : string; e_type : string; e_data : json; e_createdAt : Z }.

Record CheckpointRow := {
  k_attempt : Z; k_attemptId : string; k_active : bool; k_assistantPartial : string; k_currentToolJson : string;
  k_lastEventSeq : Z; k_lastTranscriptSeq : Z; k_updatedAt : Z;
}.

Record AuditRow := {
  u_id : string; u_attemptId : string; u_runId : string; u_ordinal : Z; u_from : option AttemptStatus;
  u_to : AttemptStatus; u_trigger : AttemptTrigger; u_scenario : string; u_reason : string; u_version : Z;
  u_eventSequence : Z; u_createdAt : Z;
}.

Record MessageRow := { m_sessionId : string; m_role : string; m_content : string; m_createdAt : Z }.
Record SessionRow := { s_updatedAt : Z }.
Record TranscriptRow := { tr_attempt : Z; tr_message : json }.
Record GateRow := {
  g_runId : string; g_attempt : Z; g_gateType : string; g_passed : bool; g_failures : list GateFailure; g_checkpointSeq : Z;
  g_evaluator : string; g_evaluatorModel : string; g_summary : string; g_criterionCoverage : list CriterionCoverage;
  g_inputManifestHash : string; g_createdAt : Z;
}.
Record UncertaintyRow := {
  un_runId : string; un_criterionId : string; un_criterion : string; un_contractHash : string; un_actorId : string;
  un_rationale : string; un_scope : string; un_evidenceRefs : list string; un_expiresAt : option Z; un_createdAt : Z;
}.

Record ContinuationRow := {
  n_runId : string; n_ordinal : Z; n_sourceAttemptId : option string; n_scheduledAttemptId : option string;
  n_status : ContinuationStatus; n_reason : string; n_error : string; n_notBefore : Z; n_createdAt : Z;
  n_startedAt : option Z; n_completedAt : option Z; n_leaseOwner : string; n_leaseUntil : option Z;
  n_heartbeatAt : option Z;
}.

Record ControlRow := {
  q_rowid : Z; q_runId : string; q_requestId : string; q_attempt : Z; q_kind : ControlKind; q_content : string;
  q_status : ControlStatus; q_error : string; q_createdAt : Z; q_claimedAt : option Z; q_completedAt : option Z;
}.

Record ConsumerRow := {
  co_generation : Z; co_ackedSeq : Z; co_settledAckedSeq : option Z; co_finalAckedSeq : option Z;
  co_claimedAt : Z; co_updatedAt : Z;
}.

Record UserInputField := {
  f_key : string; f_label : string; f_description : string; f_inputType : string; f_required : bool;
  f_placeholder : string;
}.

(** The fields of a request as [JSON.stringify] sees them. *)
Definition field_json (f : UserInputField) : json :=
  JObj [("key", JStr (f_key f)); ("label", JStr (f_label f)); ("description", JStr (f_description f));
        ("inputType", JStr (f_inputType f)); ("required", JBool (f_required f)); ("placeholder", JStr (f_placeholder f))].

Record UserInputRow := {
  i_runId : string; i_attempt : Z; i_prompt : string; i_fields : list UserInputField; i_status : UserInputStatus;
  i_response : list (string * string); i_requestedAt : Z; i_submittedAt : option Z;
}.

(** The metadata of an approval, by the three members the transitions read. *)
Inductive ReuseMode := one_time | reusable.

#[export] Instance ReuseMode_eq_dec : EqDecision ReuseMode.
Proof. solve_decision. Defined.

(** The columns the migrations added may be null; [p_metadata] is the object of metadata_json. *)
Record ApprovalRow := {
  p_runId : string; p_decisionId : string; p_actionType : ApprovalAction; p_targetType : string; p_targetId : string;
  p_reason : string; p_metadata : list (string * json); p_status : ApprovalStatus; p_requestedAt : Z;
  p_resolvedAt : option Z; p_resolvedBy : string; p_resolution : string; p_scopeType : option string;
  p_scopeId : option string; p_operationDigest : option string; p_riskClass : option string; p_expiresAt : option Z;
  p_reuseMode : option ReuseMode; p_maxUses : option Z; p_usedCount : option Z;
}.

(** [CAST(json_extract(metadata_json,'$.approvedAttempt') AS INTEGER)] of a
    number or a boolean; a text or a nested value counts as none. *)
Definition p_approvedAttempt (p : ApprovalRow) : option Z :=
  match field "approvedAttempt" (p_metadata p) with
  | Some (JInt z) => Some z
  | Some (JBool b) => Some (if b then 1 else 0)%Z
  | _ => None
  end.

Definition p_submittedInputRequestId (p : ApprovalRow) : option string :=
  match field "submittedInputRequestId" (p_metadata p) with Some (JStr k) => Some k | _ => None end.

(** [json_extract] of [true] is 1. *)
Definition p_manualResumeRequested (p : ApprovalRow) : bool :=
  match field "manualResumeRequested" (p_metadata p) with
  | Some (JBool b) => b
  | Some (JInt z) => Z.eqb z 1
  | _ => false
  end.

(** A row of session_supervisor_inbox; its analysis is the columns summary to routing_provenance_json. *)
Record InboxRow := {
  x_sessionId : string; x_requestId : string; x_content : string; x_status : string; x_decision : string; x_runId : option string;
  x_error : string; x_position : Z; x_createdAt : Z; x_updatedAt : Z; x_claimedAt : option Z; x_startedAt : option Z;
  x_analysis : SessionInputAnalysis; x_manualOrder : bool; x_revision : Z;
}.

Record OperationRow := {
  o_runId : string; o_attempt : Z; o_operationType : string; o_payloadHash : string; o_payload : json;
  o_status : string; o_stage : string; o_effects : list json; o_result : option json; o_error : string;
  o_createdAt : Z; o_updatedAt : Z; o_completedAt : option Z;
}.

(** [ta_id] is the AUTOINCREMENT key; the rows are kept by their UNIQUE(run, attempt, call). *)
Record ToolAttemptRow := {
  ta_id : Z; ta_toolName : string; ta_argsHash : string; ta_status : ToolAttemptStatus; ta_error : string;
  ta_createdAt : Z; ta_completedAt : option Z;
}.

(** [cm_result] and [cm_error] are [None] for the empty column, which reads as [null]. *)
Record CommandRow := {
  cm_commandType : string; cm_payloadHash : string; cm_payload : json; cm_targetAttemptId : option string;
  cm_state : CommandState; cm_result : option (list (string * json)); cm_error : option (list (string * json));
  cm_provenance : list (string * json); cm_requestId : string;
  cm_createdAt : Z; cm_updatedAt : Z; cm_completedAt : option Z;
}.

Record Db := {
  uuid_counter : nat;
  runs : gmap string RunRow;
  attempts : gmap string AttemptRow;
  leases : gmap string LeaseRow;
  candidates : gmap string CandidateRow;
  decisions : gmap string DecisionRow;
  events : gmap (string * Z) EventRow;
  checkpoints : gmap string CheckpointRow;
  audit : list AuditRow;
  messages : list MessageRow;
  sessions : gmap string SessionRow;
  transcript : gmap (string * Z) TranscriptRow;
  gates : gmap string GateRow;
  uncertainties : gmap string UncertaintyRow;
  continuations : gmap string ContinuationRow;
  controls : gmap string ControlRow;
  consumers : gmap (string * string) ConsumerRow;
  inputs : gmap string UserInputRow;
  approvals : gmap string ApprovalRow;
  inbox : gmap string InboxRow;
  operations : gmap string OperationRow;
  tool_attempts : gmap (string * Z * string) ToolAttemptRow;
  commands : gmap (string * string * string) CommandRow;
}.

Definition empty_db : Db :=
  {| uuid_counter := 0; runs := ∅; attempts := ∅; leases := ∅; candidates := ∅; decisions := ∅; events := ∅; checkpoints := ∅; audit := []; messages := []; sessions := ∅; transcript := ∅; gates := ∅; uncertainties := ∅; continuations := ∅; controls := ∅; consumers := ∅; inputs := ∅; approvals := ∅; inbox := ∅; operations := ∅; tool_attempts := ∅; commands := ∅ |}.

(** One setter per table. *)
Definition set_runs (f : gmap string RunRow -> gmap string RunRow) (d : Db) : Db :=
  {| uuid_counter := uuid_counter d; runs := f (runs d); attempts := attempts d; leases := leases d; candidates := candidates d;
     decisions := decisions d; events := events d; checkpoints := checkpoints d; audit := audit d;
     messages := messages d; sessions := sessions d; transcript := transcript d; gates := gates d;
     uncertainties := uncertainties d; continuations := continuations d; controls := controls d;
     consumers := consumers d; inputs := inputs d; approvals := approvals d; inbox := inbox d;
     operations := operations d; tool_attempts := tool_attempts d; commands := commands d |}.

Definition set_attempts (f : gmap string AttemptRow -> gmap string AttemptRow) (d : Db) : Db :=
  {| uuid_counter := uuid_counter d; runs := runs d; attempts := f (attempts d); leases := leases d; candidates := candidates d;
     decisions := decisions d; events := events d; checkpoints := checkpoints d; audit := audit d;
     messages := messages d; sessions := sessions d; transcript := transcript d; gates := gates d;
     uncertainties := uncertainties d; continuations := continuations d; controls := controls d;
     consumers := consumers d; inputs := inputs d; approvals := approvals d; inbox := inbox d;
     operations := operations d; tool_attempts := tool_attempts d; commands := commands d |}.

Definition set_leases (f : gmap string LeaseRow -> gmap string LeaseRow) (d : Db) : Db :=
  {| uuid_counter := uuid_counter d; runs := runs d; attempts := attempts d; leases := f (leases d); candidates := candidates d;
     decisions := decisions d; events := events d; checkpoints := checkpoints d; audit := audit d;
     messages := messages d; sessions := sessions d; transcript := transcript d; gates := gates d;
     uncertainties := uncertainties d; continuations := continuations d; controls := controls d;
     consumers := consumers d; inputs := inputs d; approvals := approvals d; inbox := inbox d;
     operations := operations d; tool_attempts := tool_attempts d; commands := commands d |}.

Definition set_candidates (f : gmap string CandidateRow -> gmap string CandidateRow) (d : Db) : Db :=
  {| uuid_counter := uuid_counter d; runs := runs d; attempts := attempts d; leases := leases d; candidates := f (candidates d);
     decisions := decisions d; events := events d; checkpoints := checkpoints d; audit := audit d;
     messages := messages d; sessions := sessions d; transcript := transcript d; gates := gates d;
     uncertainties := uncertainties d; continuations := continuations d; controls := controls d;
     consumers := consumers d; inputs := inputs d; approvals := approvals d; inbox := inbox d;
     operations := operations d; tool_attempts := tool_attempts d; commands := commands d |}.

Definition set_decisions (f : gmap string DecisionRow -> gmap string DecisionRow) (d : Db) : Db :=
  {| uuid_counter := uuid_counter d; runs := runs d; attempts := attempts d; leases := leases d; candidates := candidates d;
     decisions := f (decisions d); events := events d; checkpoints := checkpoints d; audit := audit d;
     messages := messages d; sessions := sessions d; transcript := transcript d; gates := gates d;
     uncertainties := uncertainties d; continuations := continuations d; controls := controls d;
     consumers := consumers d; inputs := inputs d; approvals := approvals d; inbox := inbox d;
     operations := operations d; tool_attempts := tool_attempts d; commands := commands d |}.

Definition set_events (f : gmap (string * Z) EventRow -> gmap (string * Z) EventRow) (d : Db) : Db :=
  {| uuid_counter := uuid_counter d; runs := runs d; attempts := attempts d; leases := leases d; candidates := candidates d;
     decisions := decisions d; events := f (events d); checkpoints := checkpoints d; audit := audit d;
     messages := messages d; sessions := sessions d; transcript := transcript d; gates := gates d;
     uncertainties := uncertainties d; continuations := continuations d; controls := controls d;
     consumers := consumers d; inputs := inputs d; approvals := approvals d; inbox := inbox d;
     operations := operations d; tool_attempts := tool_attempts d; commands := commands d |}.

Definition set_checkpoints (f : gmap string CheckpointRow -> gmap string CheckpointRow) (d : Db) : Db :=
  {| uuid_counter := uuid_counter d; runs := runs d; attempts := attempts d; leases := leases d; candidates := candidates d;
     decisions := decisions d; events := events d; checkpoints := f (checkpoints d); audit := audit d;
     messages := messages d; sessions := sessions d; transcript := transcript d; gates := gates d;
     uncertainties := uncertainties d; continuations := continuations d; controls := controls d;
     consumers := consumers d; inputs := inputs d; approvals := approvals d; inbox := inbox d;
     operations := operations d; tool_attempts := tool_attempts d; commands := commands d |}.

Definition set_audit (f : list AuditRow -> list AuditRow) (d : Db) : Db :=
  {| uuid_counter := uuid_counter d; runs := runs d; attempts := attempts d; leases := leases d; candidates := candidates d;
     decisions := decisions d; events := events d; checkpoints := checkpoints d; audit := f (audit d);
     messages := messages d; sessions := sessions d; transcript := transcript d; gates := gates d;
     uncertainties := uncertainties d; continuations := continuations d; controls := controls d;
     consumers := consumers d; inputs := inputs d; approvals := approvals d; inbox := inbox d;
     operations := operations d; tool_attempts := tool_attempts d; commands := commands d |}.

Definition set_messages (f : list MessageRow -> list MessageRow) (d : Db) : Db :=
  {| uuid_counter := uuid_counter d; runs := runs d; attempts := attempts d; leases := leases d; candidates := candidates d;
     decisions := decisions d; events := events d; checkpoints := checkpoints d; audit := audit d;
     messages := f (messages d); sessions := sessions d; transcript := transcript d; gates := gates d;
     uncertainties := uncertainties d; continuations := continuations d; controls := controls d;
     consumers := consumers d; inputs := inputs d; approvals := approvals d; inbox := inbox d;
     operations := operations d; tool_attempts := tool_attempts d; commands := commands d |}.

Definition set_sessions (f : gmap string SessionRow -> gmap string SessionRow) (d : Db) : Db :=
  {| uuid_counter := uuid_counter d; runs := runs d; attempts := attempts d; leases := leases d; candidates := candidates d;
     decisions := decisions d; events := events d; checkpoints := checkpoints d; audit := audit d;
     messages := messages d; sessions := f (sessions d); transcript := transcript d; gates := gates d;
     uncertainties := uncertainties d; continuations := continuations d; controls := controls d;
     consumers := consumers d; inputs := inputs d; approvals := approvals d; inbox := inbox d;
     operations := operations d; tool_attempts := tool_attempts d; commands := commands d |}.

Definition set_transcript (f : gmap (string * Z) TranscriptRow -> gmap (string * Z) TranscriptRow) (d : Db) : Db :=
  {| uuid_counter := uuid_counter d; runs := runs d; attempts := attempts d; leases := leases d; candidates := candidates d;
     decisions := decisions d; events := events d; checkpoints := checkpoints d; audit := audit d;
     messages := messages d; sessions := sessions d; transcript := f (transcript d); gates := gates d;
     uncertainties := uncertainties d; continuations := continuations d; controls := controls d;
     consumers := consumers d; inputs := inputs d; approvals := approvals d; inbox := inbox d;
     operations := operations d; tool_attempts := tool_attempts d; commands := commands d |}.

Definition set_gates (f : gmap string GateRow -> gmap string GateRow) (d : Db) : Db :=
  {| uuid_counter := uuid_counter d; runs := runs d; attempts := attempts d; leases := leases d; candidates := candidates d;
     decisions := decisions d; events := events d; checkpoints := checkpoints d; audit := audit d;
     messages := messages d; sessions := sessions d; transcript := transcript d; gates := f (gates d);
     uncertainties := uncertainties d; continuations := continuations d; controls := controls d;
     consumers := consumers d; inputs := inputs d; approvals := approvals d; inbox := inbox d;
     operations := operations d; tool_attempts := tool_attempts d; commands := commands d |}.

Definition set_uncertainties (f : gmap string UncertaintyRow -> gmap string UncertaintyRow) (d : Db) : Db :=
  {| uuid_counter := uuid_counter d; runs := runs d; attempts := attempts d; leases := leases d; candidates := candidates d;
     decisions := decisions d; events := events d; checkpoints := checkpoints d; audit := audit d;
     messages := messages d; sessions := sessions d; transcript := transcript d; gates := gates d;
     uncertainties := f (uncertainties d); continuations := continuations d; controls := controls d;
     consumers := consumers d; inputs := inputs d; approvals := approvals d; inbox := inbox d;
     operations := operations d; tool_attempts := tool_attempts d; commands := commands d |}.

Definition set_continuations (f : gmap string ContinuationRow -> gmap string ContinuationRow) (d : Db) : Db :=
  {| uuid_counter := uuid_counter d; runs := runs d; attempts := attempts d; leases := leases d; candidates := candidates d;
     decisions := decisions d; events := events d; checkpoints := checkpoints d; audit := audit d;
     messages := messages d; sessions := sessions d; transcript := transcript d; gates := gates d;
     uncertainties := uncertainties d; continuations := f (continuations d); controls := controls d;
     consumers := consumers d; inputs := inputs d; approvals := approvals d; inbox := inbox d;
     operations := operations d; tool_attempts := tool_attempts d; commands := commands d |}.

Definition set_controls (f : gmap string ControlRow -> gmap string ControlRow) (d : Db) : Db :=
  {| uuid_counter := uuid_counter d; runs := runs d; attempts := attempts d; leases := leases d; candidates := candidates d;
     decisions := decisions d; events := events d; checkpoints := checkpoints d; audit := audit d;
     messages := messages d; sessions := sessions d; transcript := transcript d; gates := gates d;
     uncertainties := uncertainties d; continuations := continuations d; controls := f (controls d);
     consumers := consumers d; inputs := inputs d; approvals := approvals d; inbox := inbox d;
     operations := operations d; tool_attempts := tool_attempts d; commands := commands d |}.

Definition set_consumers (f : gmap (string * string) ConsumerRow -> gmap (string * string) ConsumerRow) (d : Db) : Db :=
  {| uuid_counter := uuid_counter d; runs := runs d; attempts := attempts d; leases := leases d; candidates := candidates d;
     decisions := decisions d; events := events d; checkpoints := checkpoints d; audit := audit d;
     messages := messages d; sessions := sessions d; transcript := transcript d; gates := gates d;
     uncertainties := uncertainties d; continuations := continuations d; controls := controls d;
     consumers := f (consumers d); inputs := inputs d; approvals := approvals d; inbox := inbox d;
     operations := operations d; tool_attempts := tool_attempts d; commands := commands d |}.

Definition set_inputs (f : gmap string UserInputRow -> gmap string UserInputRow) (d : Db) : Db :=
  {| uuid_counter := uuid_counter d; runs := runs d; attempts := attempts d; leases := leases d; candidates := candidates d;
     decisions := decisions d; events := events d; checkpoints := checkpoints d; audit := audit d;
     messages := messages d; sessions := sessions d; transcript := transcript d; gates := gates d;
     uncertainties := uncertainties d; continuations := continuations d; controls := controls d;
     consumers := consumers d; inputs := f (inputs d); approvals := approvals d; inbox := inbox d;
     operations := operations d; tool_attempts := tool_attempts d; commands := commands d |}.

Definition set_approvals (f : gmap string ApprovalRow -> gmap string ApprovalRow) (d : Db) : Db :=
  {| uuid_counter := uuid_counter d; runs := runs d; attempts := attempts d; leases := leases d; candidates := candidates d;
     decisions := decisions d; events := events d; checkpoints := checkpoints d; audit := audit d;
     messages := messages d; sessions := sessions d; transcript := transcript d; gates := gates d;
     uncertainties := uncertainties d; continuations := continuations d; controls := controls d;
     consumers := consumers d; inputs := inputs d; approvals := f (approvals d); inbox := inbox d;
     operations := operations d; tool_attempts := tool_attempts d; commands := commands d |}.

Definition set_inbox (f : gmap string InboxRow -> gmap string InboxRow) (d : Db) : Db :=
  {| uuid_counter := uuid_counter d; runs := runs d; attempts := attempts d; leases := leases d; candidates := candidates d;
     decisions := decisions d; events := events d; checkpoints := checkpoints d; audit := audit d;
     messages := messages d; sessions := sessions d; transcript := transcript d; gates := gates d;
     uncertainties := uncertainties d; continuations := continuations d; controls := controls d;
     consumers := consumers d; inputs := inputs d; approvals := approvals d; inbox := f (inbox d);
     operations := operations d; tool_attempts := tool_attempts d; commands := commands d |}.

Definition set_operations (f : gmap string OperationRow -> gmap string OperationRow) (d : Db) : Db :=
  {| uuid_counter := uuid_counter d; runs := runs d; attempts := attempts d; leases := leases d; candidates := candidates d;
     decisions := decisions d; events := events d; checkpoints := checkpoints d; audit := audit d;
     messages := messages d; sessions := sessions d; transcript := transcript d; gates := gates d;
     uncertainties := uncertainties d; continuations := continuations d; controls := controls d;
     consumers := consumers d; inputs := inputs d; approvals := approvals d; inbox := inbox d;
     operations := f (operations d); tool_attempts := tool_attempts d; commands := commands d |}.

Definition set_tool_attempts (f : gmap (string * Z * string) ToolAttemptRow -> gmap (string * Z * string) ToolAttemptRow) (d : Db) : Db :=
  {| uuid_counter := uuid_counter d; runs := runs d; attempts := attempts d; leases := leases d; candidates := candidates d;
     decisions := decisions d; events := events d; checkpoints := checkpoints d; audit := audit d;
     messages := messages d; sessions := sessions d; transcript := transcript d; gates := gates d;
     uncertainties := uncertainties d; continuations := continuations d; controls := controls d;
     consumers := consumers d; inputs := inputs d; approvals := approvals d; inbox := inbox d;
     operations := operations d; tool_attempts := f (tool_attempts d); commands := commands d |}.

Definition set_commands (f : gmap (string * string * string) CommandRow -> gmap (string * string * string) CommandRow) (d : Db) : Db :=
  {| uuid_counter := uuid_counter d; runs := runs d; attempts := attempts d; leases := leases d; candidates := candidates d;
     decisions := decisions d; events := events d; checkpoints := checkpoints d; audit := audit d;
     messages := messages d; sessions := sessions d; transcript := transcript d; gates := gates d;
     uncertainties := uncertainties d; continuations := continuations d; controls := controls d;
     consumers := consumers d; inputs := inputs d; approvals := approvals d; inbox := inbox d;
     operations := operations d; tool_attempts := tool_attempts d; commands := f (commands d) |}.

(** * The platform

    [randomUUID] of node:crypto yields the identifiers of a sequence, one at
    each call; SHA-256 is the hexadecimal digest of a string; [localeLe a b] is
    [a.localeCompare(b) <= 0]. *)
Class Platform := { uuid : nat -> string; sha256 : string -> string; localeLe : string -> string -> bool }.

Definition bump_uuid (d : Db) : Db :=
  {| uuid_counter := S (uuid_counter d); runs := runs d; attempts := attempts d; leases := leases d;
     candidates := candidates d; decisions := decisions d; events := events d; checkpoints := checkpoints d;
     audit := audit d; messages := messages d; sessions := sessions d; transcript := transcript d;
     gates := gates d; uncertainties := uncertainties d; continuations := continuations d;
     controls := controls d; consumers := consumers d; inputs := inputs d; approvals := approvals d;
     inbox := inbox d; operations := operations d; tool_attempts := tool_attempts d; commands := commands d |}.

Definition randomUUID `{Platform} : tx Db string := fun d => Ok (uuid (uuid_counter d), bump_uuid d).

(** The CHECKs of [attempts] and its unique indexes: one row per TaskRun and
    ordinal, at most one active row per TaskRun. *)
Definition attempt_check (a : AttemptRow) : bool :=
  (0 <? a_ordinal a)%Z && (0 <? a_version a)%Z && (0 <=? a_eventSequence a)%Z
  && Bool.eqb (a_active a) (isActiveAttemptStatus (a_status a)).

Definition attempts_conflict (a b : AttemptRow) : Prop :=
  a_runId a = a_runId b /\ (a_ordinal a = a_ordinal b \/ a_active a = true /\ a_active b = true).

#[export] Instance attempts_conflict_dec a b : Decision (attempts_conflict a b).
Proof. unfold attempts_conflict. apply _. Defined.

Definition attempt_unique (a : AttemptRow) (m : gmap string AttemptRow) : bool :=
  bool_decide (map_Forall (fun id b => id <> a_id a -> ~ attempts_conflict a b) m).

Definition write_attempt (a : AttemptRow) : tx Db unit :=
  let* m := gets attempts in
  do* require (attempt_check a) (SqliteError "attempts") in
  do* require (attempt_unique a m) (SqliteError "attempts.unique") in
  modify (set_attempts (insert (a_id a) a)).

(** [UPDATE attempts SET ... WHERE id=? AND ...]: the number of rows changed. *)
Definition update_attempt (id : string) (p : AttemptRow -> bool) (f : AttemptRow -> AttemptRow) : tx Db Z :=
  let* m := gets attempts in
  match m !! id with
  | Some a => if p a then do* write_attempt (f a) in mret 1%Z else mret 0%Z
  | None => mret 0%Z
  end.

Definition update_run (id : string) (p : RunRow -> bool) (f : RunRow -> RunRow) : tx Db Z :=
  let* m := gets runs in
  match m !! id with
  | Some r => if p r then do* modify (set_runs (insert id (f r))) in mret 1%Z else mret 0%Z
  | None => mret 0%Z
  end.

Definition lease_check (l : LeaseRow) : bool :=
  (0 <? l_fence l)%Z && (0 <? l_attemptVersion l)%Z && (l_heartbeatAt l <=? l_leaseUntil l)%Z.

Definition write_lease (l : LeaseRow) : tx Db unit :=
  do* require (lease_check l) (SqliteError "execution_leases") in
  modify (set_leases (insert (l_attemptId l) l)).

Definition update_lease (attemptId : string) (p : LeaseRow -> bool) (f : LeaseRow -> LeaseRow) : tx Db Z :=
  let* m := gets leases in
  match m !! attemptId with
  | Some l => if p l then do* write_lease (f l) in mret 1%Z else mret 0%Z
  | None => mret 0%Z
  end.

(** [UPDATE ... WHERE <predicate>] over a whole table. *)
Definition update_where {K R} `{Countable K} (p : R -> bool) (f : R -> R) (m : gmap K R) : gmap K R :=
  (fun r => if p r then f r else r) <$> m.

Definition count_where {K R} `{Countable K} (p : R -> bool) (m : gmap K R) : Z :=
  Z.of_nat (size (filter (fun kr => p kr.2 = true) m)).

(** [SELECT 1 FROM ... WHERE <predicate>] *)
Definition exists_where {K R} `{Countable K} (p : K -> R -> bool) (m : gmap K R) : bool :=
  negb (bool_decide (filter (fun kr => p kr.1 kr.2 = true) m = ∅)).

Definition insert_event (runId : string) (seq : Z) (row : EventRow) : tx Db unit :=
  let* m := gets events in
  do* require (bool_decide (m !! (runId, seq) = None)) (SqliteError "run_events") in
  modify (set_events (insert (runId, seq) row)).

Definition insert_audit (row : AuditRow) : tx Db unit := modify (set_audit (fun l => l ++ [row])).

(** [COALESCE((SELECT MAX(seq) FROM run_transcript WHERE run_id=?),0)] *)
Definition last_transcript_seq (runId : string) (d : Db) : Z :=
  map_fold (fun k _ acc => if String.eqb k.1 runId then Z.max k.2 acc else acc) 0%Z (transcript d).

(** An event as the operations return it. *)
Record RunEvent := { ev_runId : string; ev_seq : Z; ev_type : string; ev_data : json; ev_createdAt : Z }.

(** * attempt-projection-checkpoint.ts *)

Definition finalizeAttemptProjectionCheckpoint (runId attemptId : string) (attemptOrdinal eventSeq timestamp : Z)
    : tx Db unit :=
  let* d := gets id in
  let lastTranscript := last_transcript_seq runId d in
  let fresh_row :=
    {| k_attempt := attemptOrdinal; k_attemptId := attemptId; k_active := false; k_assistantPartial := "";
       k_currentToolJson := ""; k_lastEventSeq := eventSeq; k_lastTranscriptSeq := lastTranscript;
       k_updatedAt := timestamp |} in
  let* changes :=
    match checkpoints d !! runId with
    | None => do* modify (set_checkpoints (insert runId fresh_row)) in mret 1%Z
    | Some k =>
        if (k_attempt k <=? attemptOrdinal)%Z then
          do* modify (set_checkpoints (insert runId
            {| k_attempt := attemptOrdinal; k_attemptId := attemptId; k_active := false; k_assistantPartial := "";
               k_currentToolJson := ""; k_lastEventSeq := Z.max (k_lastEventSeq k) eventSeq;
               k_lastTranscriptSeq := Z.max (k_lastTranscriptSeq k) lastTranscript; k_updatedAt := timestamp |})) in
          mret 1%Z
        else mret 0%Z
    end in
  require (Z.eqb changes 1)
    (Error ("TaskRun checkpoint changed during Attempt projection for " +:+ attemptId)).

(** * What the statements do

    One lemma per statement: what its success says of the rows before, and
    the database after. *)

Lemma randomUUID_ok `{Platform} d v d' :
  randomUUID d = Ok (v, d') -> v = uuid (uuid_counter d) /\ d' = bump_uuid d.
Proof. unfold randomUUID. intros; simplify_eq; auto. Qed.

Lemma insert_audit_ok row d u d' : insert_audit row d = Ok (u, d') -> d' = set_audit (fun l => l ++ [row]) d.
Proof. apply modify_ok. Qed.

Lemma write_attempt_ok a d u d' :
  write_attempt a d = Ok (u, d') ->
  attempt_check a = true /\ attempt_unique a (attempts d) = true /\ d' = set_attempts (insert (a_id a) a) d.
Proof. unfold write_attempt. intros H. tx_inv H. auto. Qed.

Lemma update_attempt_ok id p f d n d' :
  update_attempt id p f d = Ok (n, d') ->
  (exists a, n = 1%Z /\ attempts d !! id = Some a /\ p a = true /\ attempt_check (f a) = true
     /\ attempt_unique (f a) (attempts d) = true /\ d' = set_attempts (insert (a_id (f a)) (f a)) d)
  \/ n = 0%Z /\ d' = d.
Proof.
  unfold update_attempt. intros H. tx_inv H; try (right; split; [assumption || reflexivity | reflexivity]).
  match goal with Hw : write_attempt _ _ = _ |- _ => apply write_attempt_ok in Hw as (? & ? & ->) end.
  left. eauto 10.
Qed.

Lemma update_run_ok id p f d n d' :
  update_run id p f d = Ok (n, d') ->
  (exists r, n = 1%Z /\ runs d !! id = Some r /\ p r = true /\ d' = set_runs (insert id (f r)) d)
  \/ n = 0%Z /\ d' = d.
Proof.
  unfold update_run. intros H. tx_inv H; try (right; split; [assumption || reflexivity | reflexivity]).
  left. eauto 10.
Qed.

Lemma update_lease_ok id p f d n d' :
  update_lease id p f d = Ok (n, d') ->
  (exists l, n = 1%Z /\ leases d !! id = Some l /\ p l = true /\ lease_check (f l) = true
     /\ d' = set_leases (insert (l_attemptId (f l)) (f l)) d)
  \/ n = 0%Z /\ d' = d.
Proof.
  unfold update_lease, write_lease. intros H.
  tx_inv H; try (right; split; [assumption || reflexivity | reflexivity]).
  left. eauto 10.
Qed.

Lemma insert_event_ok runId seq row d u d' :
  insert_event runId seq row d = Ok (u, d') ->
  events d !! (runId, seq) = None /\ d' = set_events (insert (runId, seq) row) d.
Proof. unfold insert_event. intros H. tx_inv H. bool_prop. auto. Qed.

(** The checkpoint of the TaskRun after an Attempt was projected: it belongs to
    that Attempt, is inactive, and its two cursors never move back. *)
Lemma finalize_ok runId aid n seq ts d u d' :
  finalizeAttemptProjectionCheckpoint runId aid n seq ts d = Ok (u, d') ->
  exists k', d' = set_checkpoints (insert runId k') d
    /\ k_attempt k' = n /\ k_attemptId k' = aid /\ k_active k' = false /\ k_assistantPartial k' = ""%string
    /\ k_updatedAt k' = ts /\ (seq <= k_lastEventSeq k')%Z /\ (last_transcript_seq runId d <= k_lastTranscriptSeq k')%Z
    /\ (forall k, checkpoints d !! runId = Some k ->
         (k_attempt k <= n)%Z /\ k_lastEventSeq k' = Z.max (k_lastEventSeq k) seq
         /\ (k_lastTranscriptSeq k <= k_lastTranscriptSeq k')%Z).
Proof.
  unfold finalizeAttemptProjectionCheckpoint. intros H. tx_inv H; bool_prop; try discriminate; subst;
    (eexists; split; [reflexivity|cbn; repeat split; try lia; intros; simplify_eq; cbn; lia]).
Qed.

(** * When the statements succeed *)

Lemma update_attempt_run id p f d a :
  attempts d !! id = Some a -> p a = true -> attempt_check (f a) = true -> attempt_unique (f a) (attempts d) = true ->
  update_attempt id p f d = Ok (1%Z, set_attempts (insert (a_id (f a)) (f a)) d).
Proof.
  intros Ha Hp Hc Hu. unfold update_attempt, write_attempt, mbind, tx_mbind, gets, require, modify, mret, tx_mret.
  by rewrite Ha, Hp, Hc, Hu.
Qed.

Lemma update_run_run id p f d r :
  runs d !! id = Some r -> p r = true -> update_run id p f d = Ok (1%Z, set_runs (insert id (f r)) d).
Proof.
  intros Hr Hp. unfold update_run, mbind, tx_mbind, gets, modify, mret, tx_mret. by rewrite Hr, Hp.
Qed.

Lemma update_lease_run id p f d l :
  leases d !! id = Some l -> p l = true -> lease_check (f l) = true ->
  update_lease id p f d = Ok (1%Z, set_leases (insert (l_attemptId (f l)) (f l)) d).
Proof.
  intros Hl Hp Hc. unfold update_lease, write_lease, mbind, tx_mbind, gets, require, modify, mret, tx_mret.
  by rewrite Hl, Hp, Hc.
Qed.

Lemma insert_event_run runId seq row d :
  events d !! (runId, seq) = None -> insert_event runId seq row d = Ok (tt, set_events (insert (runId, seq) row) d).
Proof.
  intros He. unfold insert_event, mbind, tx_mbind, gets, require, modify. by rewrite He.
Qed.

(** The checkpoint projection fails only when a later Attempt owns the checkpoint. *)
Lemma finalize_run runId aid n seq ts d :
  (forall k, checkpoints d !! runId = Some k -> k_attempt k <= n)%Z ->
  exists k, finalizeAttemptProjectionCheckpoint runId aid n seq ts d = Ok (tt, set_checkpoints (insert runId k) d).
Proof.
  intros Hk. unfold finalizeAttemptProjectionCheckpoint, mbind, tx_mbind, gets, require, modify, mret, tx_mret. cbn [id].
  destruct (checkpoints d !! runId) as [k|]; [|by eexists].
  replace (k_attempt k <=? n)%Z with true; [by eexists|]. symmetry. apply Z.leb_le. by apply Hk.
Qed.
