(* ===== verification/Canonical.v ===== *)
(** Canonical JSON (packages/governance/src/domain/operation-digest.ts): the
    normalisation of a run-time value to canonical JSON, with its checks on
    property descriptors and its detection of cycles, [stableJson] and the
    digest of an operation. *)
From S2P Require Import Prelude Json ExecDb.
Local Open Scope tx_scope.

(** * Run-time values

    A value is a primitive or a reference into a heap of arrays and objects. An
    own property is a data property with its value, or an accessor ([None]).
    [symbols] counts the symbol keys; [plain] holds for the prototypes the code
    accepts; the property [length] of an array is not listed. *)
Inductive jsval :=
  | VNull
  | VBool (b : bool)
  | VInt (z : Z)
  | VFloat (repr : string)
  | VStr (s : string)
  | VOther (typeof : string)
  | VRef (loc : positive).

Record prop := { p_data : option jsval; p_enumerable : bool }.

Inductive jsobj :=
  | OArr (len : nat) (props : list (string * prop)) (symbols : nat)
  | OObj (plain : bool) (props : list (string * prop)) (symbols : nat).

Definition heap : Type := gmap positive jsobj.

Fixpoint own {A} (k : string) (fs : list (string * A)) : option A :=
  match fs with
  | [] => None
  | (k', v) :: fs' => if String.eqb k k' then Some v else own k fs'
  end.

Definition sort_keys (ks : list string) : list string :=
  merge_sort (fun a b => Is_true (String.leb a b)) ks.

Definition not_finite (repr : string) : bool := includes repr ["NaN"; "Infinity"; "-Infinity"].

Definition number_value (repr : string) : result json :=
  do* check (negb (not_finite repr)) (TypeError "Canonical JSON requires finite numbers") in
  mret (if String.eqb repr "-0" then JInt 0 else JFloat repr).

(** The value of an enumerable data property. *)
Definition data_property (message : string) (p : option prop) : result jsval :=
  let* p := expect p (TypeError message) in
  let* v := expect (p_data p) (TypeError message) in
  do* check (p_enumerable p) (TypeError message) in
  mret v.

Definition map_result {A B} (f : A -> result B) : list A -> result (list B) :=
  fix go l := match l with [] => mret [] | x :: l' => let* y := f x in let* ys := go l' in mret (y :: ys) end.

(** [fuel] bounds the depth of the recursion; [normalize_fuel] below shows how
    much is enough. [ancestors] are the references being visited. *)
Fixpoint normalizeCanonicalJson (fuel : nat) (h : heap) (ancestors : gset positive) (value : jsval) : result json :=
  match fuel with
  | O => Throw (Error "out of fuel")
  | S fuel' =>
      match value with
      | VNull => mret JNull
      | VBool b => mret (JBool b)
      | VStr s => mret (JStr s)
      | VInt z => mret (JInt z)
      | VFloat r => number_value r
      | VOther t => Throw (TypeError ("Canonical JSON does not support " +:+ t))
      | VRef l =>
          do* check (bool_decide (l ∉ ancestors)) (TypeError "Canonical JSON does not support cyclic values") in
          let* o := expect (h !! l) (TypeError "dangling reference") in
          match o with
          | OArr len props symbols =>
              do* check (Nat.eqb symbols 0 && Nat.eqb (length props) len)
                (TypeError "Canonical JSON requires dense arrays without extra properties") in
              let* items := map_result (fun index =>
                let* v := data_property "Canonical JSON requires dense arrays" (own (pretty index) props) in
                normalizeCanonicalJson fuel' h ({[l]} ∪ ancestors) v) (seq 0 len) in
              mret (JArr items)
          | OObj plain props symbols =>
              do* check plain (TypeError "Canonical JSON requires plain objects") in
              do* check (Nat.eqb symbols 0) (TypeError "Canonical JSON does not support symbol keys") in
              let* fields := map_result (fun key =>
                let* v := data_property "Canonical JSON requires enumerable data properties" (own key props) in
                let* n := normalizeCanonicalJson fuel' h ({[l]} ∪ ancestors) v in
                mret (key, n)) (sort_keys (map fst props)) in
              mret (JObj fields)
          end
      end
  end.

(** Enough fuel for a heap: one step per object, and one for the value. *)
Definition heap_fuel (h : heap) : nat := S (S (size h)).

Definition stableJson (h : heap) (value : jsval) : result string :=
  let* n := normalizeCanonicalJson (heap_fuel h) h ∅ value in mret (stringify n).

(** * JSON values

    What [JSON.parse] returns has no cycles, accessors or symbols: on such a
    value the normalisation is this function of the tree. *)
Fixpoint canonical (v : json) : result json :=
  match v with
  | JNull | JBool _ | JInt _ | JStr _ => mret v
  | JFloat r => number_value r
  | JArr items => let* l := map_result canonical items in mret (JArr l)
  | JObj fs =>
      let* l := map_result (fun kv : string * json => let '(k, x) := kv in let* y := canonical x in mret (k, y)) fs in
      mret (JObj (merge_sort (fun a b => Is_true (String.leb a.1 b.1)) l))
  end.

(** * The operation digest *)

Definition OPERATION_DIGEST_ALGORITHM : string := "tagent.approval.operation.sha256.v1".
Definition OPERATION_DIGEST_SCHEMA : string := "tagent.approval.operation/v1".
Definition nul : string := String.String Ascii.zero String.EmptyString.
Definition operationDigestPrefix : string := "TAGENT_APPROVAL_OPERATION" +:+ nul +:+ "v1" +:+ nul.

(** The object [canonicalOperationJson] builds is fresh: it is put at a location
    the heap does not use. *)
Definition operation_object (subject action target scope payload : jsval) : jsobj :=
  let data v := {| p_data := Some v; p_enumerable := true |} in
  OObj true [("schema", data (VStr OPERATION_DIGEST_SCHEMA)); ("subject", data subject); ("action", data action);
             ("target", data target); ("scope", data scope); ("payload", data payload)] 0.

Definition canonicalOperationJson (h : heap) (subject action target scope payload : jsval) : result string :=
  let l := fresh (dom h) in
  stableJson (<[l := operation_object subject action target scope payload]> h) (VRef l).

Definition operationDigest `{Platform} (h : heap) (subject action target scope payload : jsval) : result string :=
  let* text := canonicalOperationJson h subject action target scope payload in
  mret (OPERATION_DIGEST_ALGORITHM +:+ ":" +:+ sha256 (operationDigestPrefix +:+ text)).
