(* ===== verification/CanonicalFacts.v ===== *)
(** What canonical JSON guarantees: the normalisation always ends, accepts
    exactly the finite trees of plain data and yields their canonical form; the
    canonical form does not depend on the order of properties. *)
From S2P Require Import Prelude Json ExecDb Canonical.
Local Open Scope tx_scope.

(** * Mapping over results *)

Lemma map_result_cons {A B} (f : A -> result B) x l :
  map_result f (x :: l) = (let* y := f x in let* ys := map_result f l in mret (y :: ys)).
Proof. reflexivity. Qed.

Lemma map_result_ok {A B} (f : A -> result B) l ys :
  map_result f l = Ok ys <-> Forall2 (fun x y => f x = Ok y) l ys.
Proof.
  split.
  - revert ys. induction l as [|x l IH]; intros ys Hm.
    + injection Hm as <-. constructor.
    + rewrite map_result_cons in Hm. apply result_bind_ok in Hm as (y & Hy & Hm).
      apply result_bind_ok in Hm as (zs & Hz & Hm). injection Hm as <-. constructor; auto.
  - induction 1 as [|x y l ys Hy _ IH]; [done|]. rewrite map_result_cons, Hy. cbn. by rewrite IH.
Qed.

Lemma map_result_ext {A B} (f g : A -> result B) l :
  (forall x, x ∈ l -> f x = g x) -> map_result f l = map_result g l.
Proof.
  induction l as [|x l IH]; intros Hfg; [done|]. rewrite !map_result_cons, (Hfg x) by left.
  destruct (g x); cbn; [|done]. rewrite IH; [done|]. intros y Hy. apply Hfg. by right.
Qed.

Lemma map_result_map {A B C} (f : B -> result C) (g : A -> B) l :
  map_result f (map g l) = map_result (fun x => f (g x)) l.
Proof. induction l as [|x l IH]; [done|]. cbn [map]. rewrite !map_result_cons. by rewrite IH. Qed.

(** A failure is the failure of some element. *)
Lemma map_result_throw {A B} (f : A -> result B) l e :
  map_result f l = Throw e -> exists x, x ∈ l /\ f x = Throw e.
Proof.
  induction l as [|x l IH]; intros Hm; [discriminate Hm|]. rewrite map_result_cons in Hm.
  destruct (f x) as [y|e'] eqn:Hx; cbn in Hm; [|injection Hm as ->; exists x; split; [by left|done]].
  destruct (map_result f l) as [ys|e'] eqn:Hl; cbn in Hm; [discriminate Hm|]. injection Hm as ->.
  destruct IH as (z & Hz & ?); [done|]. exists z. split; [by right|done].
Qed.

(** * Termination *)

Definition out_of_fuel : exn := Error "out of fuel".

Lemma check_not_fuel b m : check b (TypeError m) <> Throw out_of_fuel.
Proof. by destruct b. Qed.

Lemma data_property_not_fuel m p : data_property m p <> Throw out_of_fuel.
Proof. unfold data_property. by destruct p as [[[v|] []]|]. Qed.

Lemma number_value_not_fuel r : number_value r <> Throw out_of_fuel.
Proof. unfold number_value. by destruct (negb (not_finite r)). Qed.

(** The references being visited are locations of the heap, so their number
    bounds the depth. *)
Lemma ancestors_step (h : heap) (anc : gset positive) l fuel o :
  anc ⊆ dom h -> size h + 2 <= S fuel + size anc -> l ∉ anc -> h !! l = Some o ->
  {[l]} ∪ anc ⊆ dom h /\ size h + 2 <= fuel + size ({[l]} ∪ anc).
Proof.
  intros Hanc Hf Hl Ho. split.
  - apply union_subseteq. split; [|done]. apply singleton_subseteq_l. by eapply elem_of_dom_2.
  - rewrite size_union by set_solver. rewrite size_singleton. lia.
Qed.

Lemma ancestors_fuel (h : heap) (anc : gset positive) fuel :
  anc ⊆ dom h -> size h + 2 <= fuel + size anc -> exists f, fuel = S f.
Proof.
  intros Hanc Hf. assert (size anc <= size h) by (rewrite <- (size_dom h); by apply subseteq_size).
  destruct fuel as [|f]; [lia|]. eauto.
Qed.

Lemma normalize_no_fuel_error h fuel anc v :
  anc ⊆ dom h -> size h + 2 <= fuel + size anc -> normalizeCanonicalJson fuel h anc v <> Throw out_of_fuel.
Proof.
  revert anc v. induction fuel as [|fuel IH]; intros anc v Hanc Hf.
  { destruct (ancestors_fuel h anc 0 Hanc Hf). done. }
  cbn [normalizeCanonicalJson]. destruct v as [|b|z|r|s|t|l]; try done; [apply number_value_not_fuel|].
  destruct (bool_decide (l ∉ anc)) eqn:Hl; cbn; [|done]. apply bool_decide_eq_true in Hl.
  destruct (h !! l) as [o|] eqn:Ho; cbn; [|done].
  destruct (ancestors_step h anc l fuel o Hanc Hf Hl Ho) as [Hanc' Hf'].
  destruct o as [len props symbols|plain props symbols].
  - destruct (_ && _); cbn; [|done]. destruct (map_result _ _) as [|e] eqn:Hm; cbn; [done|].
    intros [= ->]. apply map_result_throw in Hm as (i & _ & Hi).
    destruct (data_property _ _) as [w|e] eqn:Hd; cbn in Hi; [by eapply IH|].
    injection Hi as ->. by eapply data_property_not_fuel.
  - destruct plain; cbn; [|done]. destruct (Nat.eqb _ _); cbn; [|done].
    destruct (map_result _ _) as [|e] eqn:Hm; cbn; [done|].
    intros [= ->]. apply map_result_throw in Hm as (k & _ & Hk).
    destruct (data_property _ _) as [w|e] eqn:Hd; cbn in Hk.
    + destruct (normalizeCanonicalJson _ _ _ w) eqn:Hn; cbn in Hk; [done|]. injection Hk as ->. by eapply IH.
    + injection Hk as ->. by eapply data_property_not_fuel.
Qed.

(** Normalisation to canonical JSON always ends: on any heap, cyclic or not,
    the recursion is never deeper than the number of objects, so the fuel the
    model gives it is never used up and the result is the code's. *)
Theorem canonical_json_terminates h v : stableJson h v <> Throw out_of_fuel.
Proof.
  unfold stableJson. destruct (normalizeCanonicalJson _ _ _ _) eqn:Hn; cbn; [done|]. intros [= ->].
  revert Hn. apply normalize_no_fuel_error; [set_solver|]. unfold heap_fuel. rewrite size_empty. lia.
Qed.

(** * Sorting by key *)

Definition key_le {A} (a b : string * A) : Prop := Is_true (String.leb a.1 b.1).

#[export] Instance key_le_dec {A} (a b : string * A) : Decision (key_le a b).
Proof. unfold key_le. apply _. Defined.

Lemma ascii_compare_trans a b c x :
  Ascii.compare a b = x -> Ascii.compare b c = x -> Ascii.compare a c = x.
Proof.
  unfold Ascii.compare. intros <-. destruct (N.compare_spec (Ascii.N_of_ascii a) (Ascii.N_of_ascii b)) as [E|E|E].
  - by rewrite E.
  - intros E2%N.compare_lt_iff. apply N.compare_lt_iff. by eapply N.lt_trans.
  - intros E2%N.compare_gt_iff. apply N.compare_gt_iff. by eapply N.lt_trans.
Qed.

Lemma string_leb_trans s1 s2 s3 : String.leb s1 s2 = true -> String.leb s2 s3 = true -> String.leb s1 s3 = true.
Proof.
  unfold String.leb. revert s2 s3. induction s1 as [|a s1 IH]; intros [|b s2] [|c s3]; cbn; try done.
  destruct (Ascii.compare a b) eqn:E1, (Ascii.compare b c) eqn:E2; try done.
  - rewrite (ascii_compare_trans _ _ _ _ E1 E2). apply IH.
  - apply Ascii.compare_eq_iff in E1 as ->. by rewrite E2.
  - apply Ascii.compare_eq_iff in E2 as ->. by rewrite E1.
  - by rewrite (ascii_compare_trans _ _ _ _ E1 E2).
Qed.

#[export] Instance key_le_trans {A} : Transitive (@key_le A).
Proof. intros x y z. unfold key_le. rewrite !Is_true_true. apply string_leb_trans. Qed.

#[export] Instance key_le_total {A} : Total (@key_le A).
Proof. intros x y. unfold key_le. rewrite !Is_true_true. apply String.leb_total. Qed.

Lemma key_le_antisym {A} (x y : string * A) : key_le x y -> key_le y x -> x.1 = y.1.
Proof. unfold key_le. rewrite !Is_true_true. apply String.leb_antisym. Qed.

Lemma nodup_key_inj {A} (l : list (string * A)) x y :
  NoDup (map fst l) -> x ∈ l -> y ∈ l -> x.1 = y.1 -> x = y.
Proof.
  induction l as [|z l IH]; intros Hn Hx Hy E; [by apply not_elem_of_nil in Hx|].
  cbn in Hn. apply NoDup_cons in Hn as [Hz Hn].
  apply elem_of_cons in Hx as [->|Hx], Hy as [->|Hy]; [done| | |by apply IH].
  - exfalso. apply Hz. rewrite E. by apply list_elem_of_fmap_2.
  - exfalso. apply Hz. rewrite <- E. by apply list_elem_of_fmap_2.
Qed.

(** Sorting by distinct keys forgets the order of a list. *)
Lemma sort_by_key_perm {A} (l l' : list (string * A)) :
  NoDup (map fst l) -> l ≡ₚ l' -> merge_sort key_le l = merge_sort key_le l'.
Proof.
  intros Hn Hp. apply (Sorted_unique_strong key_le).
  - intros x y Hx Hy H1 H2. rewrite merge_sort_Permutation in Hx. rewrite merge_sort_Permutation, <- Hp in Hy.
    apply (nodup_key_inj l); auto using key_le_antisym.
  - apply Sorted_merge_sort, _.
  - apply Sorted_merge_sort, _.
  - by rewrite !merge_sort_Permutation.
Qed.

Lemma sort_by_key_sorted {A} (l : list (string * A)) :
  NoDup (map fst l) -> merge_sort key_le (merge_sort key_le l) = merge_sort key_le l.
Proof. intros Hn. symmetry. apply sort_by_key_perm; [done|]. by rewrite merge_sort_Permutation. Qed.

(** * The canonical form *)

Definition canonical_field (kv : string * json) : result (string * json) :=
  let '(k, x) := kv in let* y := canonical x in mret (k, y).

Lemma canonical_obj fs : canonical (JObj fs) = (let* l := map_result canonical_field fs in mret (JObj (merge_sort key_le l))).
Proof. reflexivity. Qed.

Lemma canonical_arr l : canonical (JArr l) = (let* l := map_result canonical l in mret (JArr l)).
Proof. reflexivity. Qed.

Definition finite_error : exn := TypeError "Canonical JSON requires finite numbers".

Lemma canonical_field_inv kv y : canonical_field kv = Ok y -> y.1 = kv.1 /\ canonical kv.2 = Ok y.2.
Proof. destruct kv as [k x]. cbn. intros H. apply result_bind_ok in H as (z & Hz & [= <-]). done. Qed.

Lemma canonical_throw j e : canonical j = Throw e -> e = finite_error.
Proof.
  revert e. induction j as [|b|z|r|s|l IH|l IH] using json_nested_ind; intros e Hj; try discriminate Hj.
  - cbn in Hj. unfold number_value in Hj. destruct (negb _); [discriminate Hj|]. by injection Hj as <-.
  - rewrite canonical_arr in Hj. destruct (map_result _ _) eqn:Hm; cbn in Hj; [discriminate|].
    injection Hj as ->. apply map_result_throw in Hm as (x & Hx & Hm). rewrite Forall_forall in IH. eauto.
  - rewrite canonical_obj in Hj. destruct (map_result _ _) eqn:Hm; cbn in Hj; [discriminate|].
    injection Hj as ->. apply map_result_throw in Hm as ([k x] & Hx & Hm). rewrite Forall_forall in IH.
    cbn in Hm. destruct (canonical x) eqn:Hc; cbn in Hm; [discriminate|]. injection Hm as ->. by apply (IH _ Hx).
Qed.

Lemma map_result_perm {A B} (f : A -> result B) l l' ys :
  l ≡ₚ l' -> map_result f l = Ok ys -> exists ys', map_result f l' = Ok ys' /\ ys ≡ₚ ys'.
Proof.
  intros Hp Hm. apply map_result_ok in Hm.
  assert (exists ys', Forall2 (fun x y => f x = Ok y) l' ys' /\ ys ≡ₚ ys') as (ys' & H1 & H2).
  { revert ys Hm. induction Hp as [|x l l' _ IH|x y l|l1 l2 l3 _ IH1 _ IH2]; intros ys Hm.
    - inversion Hm; subst. by exists [].
    - inversion Hm as [|? b ? bs Hb Hbs]; subst. destruct (IH _ Hbs) as (cs & ? & ?). exists (b :: cs). by split; [constructor|constructor].
    - inversion Hm as [|? b ? bs Hb Hbs]; subst. inversion Hbs as [|? c ? cs Hc Hcs]; subst.
      exists (c :: b :: cs). split; [by repeat constructor|constructor].
    - destruct (IH1 _ Hm) as (bs & Hbs & ?). destruct (IH2 _ Hbs) as (cs & Hcs & ?). exists cs. split; [done|]. by etrans. }
  exists ys'. split; [by apply map_result_ok|done].
Qed.

Lemma map_result_field_keys fs l : map_result canonical_field fs = Ok l -> map fst l = map fst fs.
Proof.
  intros Hm%map_result_ok. induction Hm as [|x y fs l Hy _ IH]; [done|]. cbn.
  apply canonical_field_inv in Hy as [-> _]. by rewrite IH.
Qed.

(** Two JSON values with the same data: the properties of their objects may
    come in another order, at every depth. *)
Inductive same_data : json -> json -> Prop :=
  | same_refl j : same_data j j
  | same_arr l l' : Forall2 same_data l l' -> same_data (JArr l) (JArr l')
  | same_obj fs gs fs' :
      NoDup (map fst fs) -> Forall2 (fun a b => a.1 = b.1 /\ same_data a.2 b.2) fs gs -> gs ≡ₚ fs' ->
      same_data (JObj fs) (JObj fs').

(** The canonical form depends on the data only, as far as the order of
    properties is concerned; rejected values are rejected with the same error. *)
Lemma canonical_order_independent j j' : same_data j j' -> canonical j = canonical j'.
Proof.
  revert j'. induction j as [|b|z|r|s|l IH|fs IH] using json_nested_ind; intros j' Hs; inversion Hs; subst; try done.
  - rewrite !canonical_arr.
    match goal with E : Forall2 same_data l ?l2 |- _ => assert (map_result canonical l = map_result canonical l2) as -> end; [|done].
    match goal with E : Forall2 same_data l _ |- _ => clear Hs; induction E as [|x y l l2 Hxy _ IHl] end; [done|].
    apply Forall_cons in IH as [IHx IH]. rewrite !map_result_cons, (IHx _ Hxy), IHl; done.
  - rewrite !canonical_obj. rename fs' into fs2.
    assert (Hg : map_result canonical_field fs = map_result canonical_field gs).
    { match goal with E : Forall2 _ fs gs |- _ => clear -IH E; induction E as [|[k x] [k2 y] fs gs [Hk Hxy] _ IHl] end; [done|].
      apply Forall_cons in IH as [IHx IH]. cbn in Hk, IHx, Hxy. subst k2. rewrite !map_result_cons. cbn [canonical_field].
      rewrite (IHx _ Hxy), IHl; done. }
    rewrite Hg. destruct (map_result canonical_field gs) as [ys|e] eqn:Hgs.
    + destruct (map_result_perm _ _ _ _ ltac:(eassumption) Hgs) as (ys' & -> & Hp). cbn. do 2 f_equal.
      rewrite (sort_by_key_perm ys ys'); [done| |done]. by rewrite (map_result_field_keys _ _ Hg).
    + destruct (map_result canonical_field fs2) as [ys|e'] eqn:Hfs; cbn.
      * destruct (map_result_perm _ fs2 gs _ ltac:(by symmetry) Hfs) as (? & E & _). congruence.
      * f_equal. transitivity finite_error; [|symmetry].
        -- apply (canonical_throw (JObj gs)). by rewrite canonical_obj, Hgs.
        -- apply (canonical_throw (JObj fs2)). by rewrite canonical_obj, Hfs.
Qed.

(** * Which values are accepted *)

Definition data (v : jsval) : prop := {| p_data := Some v; p_enumerable := true |}.

(** [encodes h j v]: in the heap [h] the value [v] is the finite tree [j], made
    of plain objects and dense arrays of enumerable data properties. *)
Fixpoint encodes (h : heap) (j : json) (v : jsval) : Prop :=
  match j with
  | JNull => v = VNull
  | JBool b => v = VBool b
  | JInt z => v = VInt z
  | JFloat r => v = VFloat r
  | JStr s => v = VStr s
  | JArr items => exists l props, v = VRef l /\ h !! l = Some (OArr (length items) props 0)
      /\ length props = length items
      /\ (fix go (index : nat) (items : list json) : Prop :=
            match items with
            | [] => True
            | x :: rest => (exists w, own (pretty index) props = Some (data w) /\ encodes h x w) /\ go (S index) rest
            end) 0 items
  | JObj fs => exists l props, v = VRef l /\ h !! l = Some (OObj true props 0) /\ map fst props = map fst fs
      /\ (fix go (fs : list (string * json)) : Prop :=
            match fs with
            | [] => True
            | (k, x) :: rest => (exists w, own k props = Some (data w) /\ encodes h x w) /\ go rest
            end) fs
  end.

Definition holds_at (h : heap) (props : list (string * prop)) (k : string) (j : json) : Prop :=
  exists w, own k props = Some (data w) /\ encodes h j w.

Lemma encodes_arr h items v : encodes h (JArr items) v <->
  exists l props, v = VRef l /\ h !! l = Some (OArr (length items) props 0) /\ length props = length items
    /\ Forall2 (fun i x => holds_at h props (pretty i) x) (seq 0 (length items)) items.
Proof.
  cbn [encodes]. assert (Hgo : forall props index,
    (fix go (index : nat) (items : list json) : Prop :=
       match items with
       | [] => True
       | x :: rest => (exists w, own (pretty index) props = Some (data w) /\ encodes h x w) /\ go (S index) rest
       end) index items <-> Forall2 (fun i x => holds_at h props (pretty i) x) (seq index (length items)) items).
  { intros props. induction items as [|x items IH]; intros index; cbn; [split; [constructor|done]|].
    rewrite Forall2_cons, IH. done. }
  setoid_rewrite Hgo. done.
Qed.

Lemma encodes_obj h fs v : encodes h (JObj fs) v <->
  exists l props, v = VRef l /\ h !! l = Some (OObj true props 0) /\ map fst props = map fst fs
    /\ Forall (fun kv => holds_at h props kv.1 kv.2) fs.
Proof.
  cbn [encodes]. assert (Hgo : forall props,
    (fix go (fs : list (string * json)) : Prop :=
       match fs with
       | [] => True
       | (k, x) :: rest => (exists w, own k props = Some (data w) /\ encodes h x w) /\ go rest
       end) fs <-> Forall (fun kv => holds_at h props kv.1 kv.2) fs).
  { intros props. induction fs as [|[k x] fs IH]; cbn; [split; [constructor|done]|]. rewrite Forall_cons, IH. done. }
  setoid_rewrite Hgo. done.
Qed.

(** The tree a value encodes is unique. *)
Lemma encodes_functional h j j' v : encodes h j v -> encodes h j' v -> j = j'.
Proof.
  revert j' v. induction j as [|b|z|r|s|items IH|fs IH] using json_nested_ind; intros j' v.
  1-5: intros ->; destruct j'; cbn; intros Hj'; try discriminate Hj'; try (by injection Hj' as ->); try done; by destruct Hj' as (? & ? & [=] & _).
  - rewrite encodes_arr. intros (l & props & -> & Hl & _ & Hi) Hj'.
    destruct j' as [|b|z|r|s|items'|fs']; try discriminate Hj';
      [|apply encodes_obj in Hj' as (? & ? & [= <-] & Hx & _); congruence].
    apply encodes_arr in Hj' as (l' & props' & [= <-] & Hl' & _ & Hi'). rewrite Hl in Hl'. injection Hl' as Hlen <-.
    f_equal. rewrite <- Hlen in Hi'. revert items' Hi Hi' Hlen. generalize 0. clear Hl.
    induction items as [|x items IHi]; intros n [|x' items'] Hi Hi' Hlen; try discriminate Hlen; [done|].
    cbn in *. apply Forall2_cons in Hi as [(w & Hw & Hx) Hi], Hi' as [(w' & Hw' & Hx') Hi'].
    apply Forall_cons in IH as [IHx IH]. rewrite Hw in Hw'. injection Hw' as <-.
    f_equal; [by eapply IHx|]. apply (IHi IH (S n)); auto.
  - rewrite encodes_obj. intros (l & props & -> & Hl & Hk & Hf) Hj'.
    destruct j' as [|b|z|r|s|items'|fs']; try discriminate Hj';
      [apply encodes_arr in Hj' as (? & ? & [= <-] & Hx & _); congruence|].
    apply encodes_obj in Hj' as (l' & props' & [= <-] & Hl' & Hk' & Hf'). rewrite Hl in Hl'. injection Hl' as <-.
    f_equal. rewrite Hk in Hk'. clear Hl Hk. revert fs' Hk' Hf'.
    induction fs as [|[k x] fs IHf]; intros [|[k' x'] fs'] Hk Hf'; try discriminate Hk; [done|].
    injection Hk as <- Hk. apply Forall_cons in IH as [IHx IH].
    apply Forall_cons in Hf as [(w & Hw & Hx) Hf], Hf' as [(w' & Hw' & Hx') Hf']. cbn in *.
    rewrite Hw in Hw'. injection Hw' as <-. f_equal; [f_equal; by eapply IHx|]. by apply IHf.
Qed.

(** An object lists each of its properties once. *)
Definition heap_ok (h : heap) : Prop :=
  forall l plain props symbols, h !! l = Some (OObj plain props symbols) -> NoDup (map fst props).

Lemma forall2_choose {A B C} (P : A -> C -> Prop) (Q : A -> B -> Prop) (R : B -> C -> Prop) l ns :
  Forall2 P l ns -> (forall x y, P x y -> exists j, Q x j /\ R j y) ->
  exists js, Forall2 Q l js /\ Forall2 R js ns.
Proof.
  intros Hp Hc. induction Hp as [|x y l ns Hxy _ (js & H1 & H2)]; [by exists []|].
  destruct (Hc _ _ Hxy) as (j & ? & ?). exists (j :: js). by split; constructor.
Qed.

Lemma sorted_keys {A} (l : list (string * A)) :
  Sorted (fun a b => Is_true (String.leb a b)) (map fst l) -> Sorted key_le l.
Proof.
  induction l as [|x l IH]; intros Hs; [constructor|]. cbn in Hs. apply Sorted_inv in Hs as [Hs Hx].
  constructor; [by apply IH|]. destruct l; constructor. by inversion Hx.
Qed.

Lemma sort_sorted {A} (l : list (string * A)) : NoDup (map fst l) -> Sorted key_le l -> merge_sort key_le l = l.
Proof.
  intros Hn Hs. apply (Sorted_unique_strong key_le); [| |done|by rewrite merge_sort_Permutation].
  - intros x y Hx Hy H1 H2. rewrite merge_sort_Permutation in Hx. apply (nodup_key_inj l); auto using key_le_antisym.
  - apply Sorted_merge_sort, _.
Qed.

Lemma sort_keys_perm ks : sort_keys ks ≡ₚ ks.
Proof. apply merge_sort_Permutation. Qed.

Lemma sort_keys_sorted ks : Sorted (fun a b => Is_true (String.leb a b)) (sort_keys ks).
Proof.
  apply Sorted_merge_sort. intros x y. rewrite !Is_true_true. apply String.leb_total.
Qed.

Lemma data_property_ok m p w : data_property m p = Ok w -> p = Some (data w).
Proof. unfold data_property. destruct p as [[[v|] []]|]; cbn; try done. by intros [= ->]. Qed.

(** The entry the code computes for one key of an object. *)
Definition entry (fuel : nat) (h : heap) (anc : gset positive) (props : list (string * prop)) (key : string)
    : result (string * json) :=
  let* v := data_property "Canonical JSON requires enumerable data properties" (own key props) in
  let* n := normalizeCanonicalJson fuel h anc v in
  mret (key, n).

Lemma entries_keys fuel h anc props ks ns :
  Forall2 (fun k y => entry fuel h anc props k = Ok y) ks ns -> map fst ns = ks.
Proof.
  induction 1 as [|k y ks ns Hy _ IH]; [done|]. cbn. rewrite IH. f_equal. unfold entry in Hy.
  apply result_bind_ok in Hy as (? & _ & Hy). by apply result_bind_ok in Hy as (? & _ & [= <-]).
Qed.

(** What is accepted encodes a tree, and the result is its canonical form. *)
Lemma normalize_sound h fuel anc v n :
  heap_ok h -> normalizeCanonicalJson fuel h anc v = Ok n -> exists j, encodes h j v /\ canonical j = Ok n.
Proof.
  intros Hok. revert anc v n. induction fuel as [|fuel IH]; intros anc v n; [done|].
  cbn [normalizeCanonicalJson]. destruct v as [|b|z|r|s|t|l]; intros Hn.
  - injection Hn as <-. by exists JNull.
  - injection Hn as <-. by exists (JBool b).
  - injection Hn as <-. by exists (JInt z).
  - by exists (JFloat r).
  - injection Hn as <-. by exists (JStr s).
  - discriminate Hn.
  - apply result_bind_ok in Hn as (? & _ & Hn). apply result_bind_ok in Hn as (o & Ho%expect_ok & Hn).
    destruct o as [len props symbols|plain props symbols].
    + apply result_bind_ok in Hn as (? & Hc%check_ok & Hn). bool_prop.
      apply result_bind_ok in Hn as (ns & Hm%map_result_ok & [= <-]).
      destruct (forall2_choose _ (fun i j => holds_at h props (pretty i) j) (fun j y => canonical j = Ok y) _ _ Hm)
        as (js & H1 & H2).
      { intros i y Hy. apply result_bind_ok in Hy as (w & Hw%data_property_ok & Hy).
        apply IH in Hy as (j & ? & ?). exists j. split; [by exists w|done]. }
      pose proof (Forall2_length _ _ _ H1) as Hlen. rewrite length_seq in Hlen.
      exists (JArr js). split; [|rewrite canonical_arr; by apply map_result_ok in H2 as ->].
      apply encodes_arr. exists l, props. rewrite <- Hlen.
      match goal with E : Nat.eqb symbols 0 = true, F : Nat.eqb (length props) len = true |- _ =>
        apply Nat.eqb_eq in E as ->; apply Nat.eqb_eq in F end. done.
    + apply result_bind_ok in Hn as (? & ->%check_ok & Hn). apply result_bind_ok in Hn as (? & Hs%check_ok & Hn).
      apply Nat.eqb_eq in Hs as ->. apply result_bind_ok in Hn as (ns & Hm%map_result_ok & [= <-]).
      pose proof (entries_keys fuel h ({[l]} ∪ anc) props _ _ Hm) as Hkeys.
      destruct (forall2_choose _ (fun k kv => kv.1 = k /\ holds_at h props k kv.2) (fun kv y => canonical_field kv = Ok y) _ _ Hm)
        as (js & H1 & H2).
      { intros k y Hy. apply result_bind_ok in Hy as (w & Hw%data_property_ok & Hy).
        apply result_bind_ok in Hy as (nk & Hx & Hy). injection Hy as <-. apply IH in Hx as (j & Hj & Hcj). exists (k, j).
        split; [split; [done|by exists w]|]. cbn. by rewrite Hcj. }
      assert (Hjk : map fst js = sort_keys (map fst props)).
      { clear -H1. induction H1 as [|k kv ks js [<- _] _ IHj]; [done|]. cbn. by rewrite IHj. }
      assert (Hperm : exists fs, map fst props = map fst fs /\ js ≡ₚ fs).
      { assert (map fst props ≡ₚ map fst js) as (fs & ? & ?)%Permutation_map_inv; [|eauto].
        rewrite Hjk. by rewrite sort_keys_perm. }
      destruct Hperm as (fs & Hfs & Hperm).
      exists (JObj fs). split.
      * apply encodes_obj. exists l, props. split_and!; [done|done|done|]. rewrite <- Hperm.
        clear -H1. induction H1 as [|k kv ks js [<- Hk] _ IHj]; constructor; auto.
      * apply map_result_ok in H2. destruct (map_result_perm _ _ _ _ Hperm H2) as (ys & Hys & Hp).
        rewrite canonical_obj, Hys. cbn. do 2 f_equal.
        assert (Hnd : NoDup (map fst ns)) by (rewrite Hkeys, sort_keys_perm; by eapply Hok).
        rewrite <- (sort_by_key_perm ns ys Hnd Hp). apply sort_sorted; [done|]. apply sorted_keys.
        rewrite Hkeys. apply sort_keys_sorted.
Qed.

(** * Completeness *)

Fixpoint jsize (j : json) : nat :=
  match j with
  | JArr l => S (list_sum (map jsize l))
  | JObj fs => S (list_sum (map (fun kv => jsize kv.2) fs))
  | _ => 1
  end.

Lemma jsize_item x l : x ∈ l -> jsize x < jsize (JArr l).
Proof.
  intros Hx. induction Hx as [x l|x y l _ IH]; cbn [jsize map list_sum fold_right] in *; unfold list_sum in *; lia.
Qed.

Lemma jsize_field kv fs : kv ∈ fs -> jsize kv.2 < jsize (JObj fs).
Proof.
  intros Hx. induction Hx as [x l|x y l _ IH]; cbn [jsize map list_sum fold_right] in *; unfold list_sum in *; lia.
Qed.

(** The references being visited encode trees the current one is part of. *)
Definition above (h : heap) (anc : gset positive) (j : json) : Prop :=
  forall l, l ∈ anc -> exists ja, encodes h ja (VRef l) /\ jsize j < jsize ja.

Lemma above_step h anc l j x :
  above h anc j -> encodes h j (VRef l) -> jsize x < jsize j -> above h ({[l]} ∪ anc) x.
Proof.
  intros Ha Hj Hx m [->%elem_of_singleton|Hm]%elem_of_union; [eauto|].
  destruct (Ha _ Hm) as (ja & ? & ?). exists ja. split; [done|lia].
Qed.

Lemma above_fresh h anc l j : above h anc j -> encodes h j (VRef l) -> l ∉ anc.
Proof.
  intros Ha Hj Hl. destruct (Ha _ Hl) as (ja & Hja & Hlt).
  rewrite (encodes_functional _ _ _ _ Hja Hj) in Hlt. lia.
Qed.

Lemma data_property_data m w : data_property m (Some (data w)) = Ok w.
Proof. reflexivity. Qed.

(** A tree is accepted, with its canonical form as the result. *)
Lemma normalize_complete h j n : heap_ok h -> forall fuel anc v,
  encodes h j v -> canonical j = Ok n -> anc ⊆ dom h -> size h + 2 <= fuel + size anc -> above h anc j ->
  normalizeCanonicalJson fuel h anc v = Ok n.
Proof.
  intros Hok. revert n. induction j as [|b|z|r|s|items IH|fs IH] using json_nested_ind; intros n fuel anc v Hj Hn Hanc Hf Ha;
    destruct (ancestors_fuel h anc fuel Hanc Hf) as [f ->]; cbn [normalizeCanonicalJson].
  1-5: cbn in Hj; subst v; exact Hn.
  - pose proof Hj as Hj'. apply encodes_arr in Hj' as (l & props & -> & Hl & Hlen & Hi).
    pose proof (above_fresh _ _ _ _ Ha Hj) as Hfresh. rewrite bool_decide_eq_true_2 by done. cbn. rewrite Hl. cbn.
    rewrite Hlen, Nat.eqb_refl. cbn.
    rewrite canonical_arr in Hn. apply result_bind_ok in Hn as (ns & Hm%map_result_ok & [= <-]).
    destruct (ancestors_step h anc l f _ Hanc Hf Hfresh Hl) as [Hanc' Hf'].
    assert (map_result (fun index => let* v := data_property "Canonical JSON requires dense arrays" (own (pretty index) props) in
      normalizeCanonicalJson f h ({[l]} ∪ anc) v) (seq 0 (length items)) = Ok ns) as ->; [|done].
    apply map_result_ok. assert (Hsub : forall x, x ∈ items -> above h ({[l]} ∪ anc) x).
    { intros x Hx. eapply above_step; [exact Ha|exact Hj|by apply jsize_item]. }
    clear Hj Ha Hl Hlen. revert ns Hm Hi. generalize 0.
    induction items as [|x items IHi]; intros k ns Hm Hi; inversion Hm as [|? y ? ys Hxy Hys]; subst; [constructor|].
    cbn in *. apply Forall2_cons in Hi as [(w & Hw & Hx) Hi]. apply Forall_cons in IH as [IHx IH].
    constructor.
    + rewrite Hw, data_property_data. cbn. apply IHx; auto. apply Hsub. by left.
    + apply IHi; auto. intros z Hz. apply Hsub. by right.
  - pose proof Hj as Hj'. apply encodes_obj in Hj' as (l & props & -> & Hl & Hk & Hfs).
    pose proof (above_fresh _ _ _ _ Ha Hj) as Hfresh. rewrite bool_decide_eq_true_2 by done. cbn. rewrite Hl. cbn.
    rewrite canonical_obj in Hn. apply result_bind_ok in Hn as (ns & Hm & [= <-]).
    destruct (ancestors_step h anc l f _ Hanc Hf Hfresh Hl) as [Hanc' Hf'].
    pose proof (map_result_field_keys _ _ Hm) as Hkeys. apply map_result_ok in Hm.
    assert (Hnd : NoDup (map fst ns)) by (rewrite Hkeys, <- Hk; by eapply Hok).
    assert (Hent : Forall (fun y => entry f h ({[l]} ∪ anc) props y.1 = Ok y) ns).
    { assert (Hsub : forall kv, kv ∈ fs -> above h ({[l]} ∪ anc) kv.2).
      { intros kv Hkv. eapply above_step; [exact Ha|exact Hj|by apply jsize_field]. }
      clear -IH Hfs Hm Hsub Hanc' Hf'.
      induction Hm as [|kv y fs ns Hy _ IHm]; [constructor|]. apply Forall_cons in IH as [IHx IH].
      apply Forall_cons in Hfs as [(w & Hw & Hx) Hfs]. apply canonical_field_inv in Hy as [Hy1 Hy2].
      constructor; [|apply IHm; auto; intros z Hz; apply Hsub; by right].
      unfold entry. rewrite Hy1, Hw, data_property_data. cbn.
      rewrite (IHx _ f _ w Hx Hy2 Hanc' Hf'); [|apply Hsub; by left]. cbn. rewrite <- Hy1. by destruct y. }
    assert (Hs : map fst (merge_sort key_le ns) = sort_keys (map fst props)).
    { apply (Sorted_unique_strong (fun a b => Is_true (String.leb a b))).
      - intros x y _ _. rewrite !Is_true_true. apply String.leb_antisym.
      - assert (Hss : Sorted key_le (merge_sort key_le ns)) by apply Sorted_merge_sort, _.
        clear -Hss. induction Hss as [|x l _ IHl Hx]; constructor; [done|]. destruct Hx; constructor. done.
      - apply sort_keys_sorted.
      - rewrite merge_sort_Permutation, sort_keys_perm, Hk. by rewrite Hkeys. }
    assert (map_result (entry f h ({[l]} ∪ anc) props) (sort_keys (map fst props)) = Ok (merge_sort key_le ns)) as Hmr.
    { rewrite <- Hs. apply map_result_ok.
      assert (Hent' : Forall (fun y => entry f h ({[l]} ∪ anc) props y.1 = Ok y) (merge_sort key_le ns))
        by (by rewrite merge_sort_Permutation).
      clear -Hent'. induction Hent' as [|y l' Hy _ IHl]; cbn; constructor; done. }
    unfold entry in Hmr. rewrite Hmr. done.
Qed.

(** * The theorems *)

Lemma stable_tree h j v t : heap_ok h -> encodes h j v ->
  stableJson h v = Ok t <-> exists n, canonical j = Ok n /\ t = stringify n.
Proof.
  intros Hok Hj. unfold stableJson. split.
  - intros H. apply result_bind_ok in H as (n & Hn & [= <-]). exists n. split; [|done].
    apply normalize_sound in Hn as (j' & Hj' & Hc); [|done]. by rewrite (encodes_functional _ _ _ _ Hj Hj').
  - intros (n & Hn & ->). rewrite (normalize_complete h j n Hok _ _ _ Hj Hn); [done| | |].
    + set_solver.
    + unfold heap_fuel. rewrite size_empty. lia.
    + intros l Hl. set_solver.
Qed.

(** [stableJson] accepts exactly the finite trees of plain data: a value is
    accepted if and only if it encodes a JSON tree (no cycle, accessor, symbol
    key, sparse array, foreign prototype or unsupported type anywhere) whose
    numbers are finite, and the text is that of the tree's canonical form. *)
Theorem stable_json_accepts_trees h v t :
  heap_ok h ->
  stableJson h v = Ok t <-> exists j n, encodes h j v /\ canonical j = Ok n /\ t = stringify n.
Proof.
  intros Hok. split.
  - intros H. pose proof H as H'. unfold stableJson in H'. apply result_bind_ok in H' as (n & Hn & [= <-]).
    apply normalize_sound in Hn as (j & Hj & Hc); [|done]. eauto.
  - intros (j & n & Hj & Hn & ->). apply (stable_tree h j v); eauto.
Qed.

(** C34. [stableJson] depends on the data only: two values, in whatever heaps,
    with the same data (the properties of their objects in any order, at any
    depth, sharing or not) have the same text, so operations have the same digest. *)
Theorem stable_json_depends_on_data h v j h' v' j' t :
  heap_ok h -> heap_ok h' -> encodes h j v -> encodes h' j' v' -> same_data j j' ->
  stableJson h v = Ok t -> stableJson h' v' = Ok t.
Proof.
  intros Hok Hok' Hj Hj' Hs Ht. apply (stable_tree h j v t Hok Hj) in Ht as (n & Hn & ->).
  apply (stable_tree h' j' v' _ Hok' Hj'). exists n. split; [|done].
  rewrite <- Hn. symmetry. by apply canonical_order_independent.
Qed.

(** Every object lists a property once, at every depth. *)
Inductive distinct_keys : json -> Prop :=
  | distinct_leaf j : match j with JArr _ | JObj _ => False | _ => True end -> distinct_keys j
  | distinct_arr l : Forall distinct_keys l -> distinct_keys (JArr l)
  | distinct_obj fs : NoDup (map fst fs) -> Forall (fun kv => distinct_keys kv.2) fs -> distinct_keys (JObj fs).

(** The canonical form is canonical: normalising it again changes nothing. *)
Theorem canonical_idempotent j n : distinct_keys j -> canonical j = Ok n -> canonical n = Ok n.
Proof.
  revert n. induction j as [|b|z|r|s|l IH|fs IH] using json_nested_ind; intros n Hd Hn.
  1-3, 5: injection Hn as <-; done.
  - cbn in Hn. unfold number_value in Hn. destruct (not_finite r) eqn:Hf; [discriminate Hn|]. cbn in Hn.
    destruct (String.eqb r "-0") eqn:Hz; injection Hn as <-; [done|]. cbn. unfold number_value. by rewrite Hf, Hz.
  - rewrite canonical_arr in Hn. apply result_bind_ok in Hn as (ns & Hm%map_result_ok & [= <-]).
    inversion Hd as [? Hx | ? Hl |]; subst; [destruct Hx|]. rewrite canonical_arr.
    enough (map_result canonical ns = Ok ns) as -> by done. apply map_result_ok. clear Hd.
    induction Hm as [|x y l ns Hy _ IHm]; constructor; apply Forall_cons in IH as [IHx IH]; apply Forall_cons in Hl as [Hx Hl]; auto.
  - rewrite canonical_obj in Hn. apply result_bind_ok in Hn as (ns & Hm & [= <-]).
    inversion Hd as [? Hx | |? Hnd Hl]; subst; [destruct Hx|]. pose proof (map_result_field_keys _ _ Hm) as Hk. rewrite canonical_obj.
    assert (Hf : Forall (fun y => canonical_field y = Ok y) ns).
    { apply map_result_ok in Hm. clear Hd Hnd Hk. induction Hm as [|x y fs ns Hy _ IHm]; constructor;
        apply Forall_cons in IH as [IHx IH]; apply Forall_cons in Hl as [Hx Hl]; auto.
      apply canonical_field_inv in Hy as [_ Hy]. destruct y as [k y]. cbn in *. by rewrite (IHx _ Hx Hy). }
    rewrite <- (merge_sort_Permutation key_le) in Hf.
    assert (map_result canonical_field (merge_sort key_le ns) = Ok (merge_sort key_le ns)) as ->.
    { apply map_result_ok. clear -Hf. induction Hf as [|y l Hy _ IHl]; constructor; done. }
    cbn. by rewrite sort_by_key_sorted by (by rewrite Hk).
Qed.

(** * Witnesses *)

(** [{b: 1, a: [true]}] and [{a: [true], b: 1}], in two heaps. *)
Definition demo_heap (flip : bool) : heap :=
  let fields := [("b", data (VInt 1)); ("a", data (VRef 2))] in
  <[1%positive := OObj true (if flip then rev fields else fields) 0]>
    {[2%positive := OArr 1 [("0", data (VBool true))] 0]}.

Definition demo_tree (flip : bool) : json :=
  let fields := [("b", JInt 1); ("a", JArr [JBool true])] in JObj (if flip then rev fields else fields).

Lemma demo_heap_ok flip : heap_ok (demo_heap flip).
Proof.
  intros l plain props symbols Hl. unfold demo_heap in Hl.
  apply lookup_insert_Some in Hl as [[_ E]|[_ E]]; [|by apply lookup_singleton_Some in E as [_ E]].
  injection E as <- <- <-. apply (bool_decide_unpack _). by destruct flip; vm_compute.
Qed.

Lemma demo_encodes flip : encodes (demo_heap flip) (demo_tree flip) (VRef 1).
Proof.
  assert (Ha : encodes (demo_heap flip) (JArr [JBool true]) (VRef 2)).
  { apply encodes_arr. eexists _, _. split; [done|]. split; [by destruct flip|]. split; [done|].
    repeat constructor. by exists (VBool true). }
  apply encodes_obj. destruct flip; eexists _, _; (split; [done|]); (split; [done|]); (split; [done|]);
    repeat constructor; ((by exists (VInt 1)) || (by exists (VRef 2))).
Qed.

Lemma demo_same_data : same_data (demo_tree false) (demo_tree true).
Proof.
  eapply same_obj with (gs := [("b", JInt 1); ("a", JArr [JBool true])]).
  - apply (bool_decide_unpack _). vm_compute. done.
  - repeat constructor.
  - apply Permutation_swap.
Qed.

Definition demo_text : string := stringify (JObj [("a", JArr [JBool true]); ("b", JInt 1)]).

Lemma stable_json_accepts_trees_witness : stableJson (demo_heap false) (VRef 1) = Ok demo_text.
Proof.
  apply (stable_json_accepts_trees _ _ _ (demo_heap_ok false)). eexists _, _.
  split; [apply demo_encodes|]. split; [vm_compute; reflexivity|vm_compute; reflexivity].
Defined.

Lemma stable_json_depends_on_data_witness : stableJson (demo_heap true) (VRef 1) = Ok demo_text.
Proof.
  apply (stable_json_depends_on_data _ _ _ _ _ _ _ (demo_heap_ok false) (demo_heap_ok true)
    (demo_encodes false) (demo_encodes true) demo_same_data).
  vm_compute. reflexivity.
Defined.

Lemma canonical_idempotent_witness :
  let n := JObj [("a", JArr [JBool true]); ("b", JInt 1)] in canonical n = Ok n.
Proof.
  apply (canonical_idempotent (demo_tree false)); [|vm_compute; reflexivity].
  apply distinct_obj; [apply (bool_decide_unpack _); vm_compute; done|].
  constructor; [by apply distinct_leaf|]. constructor; [|done]. apply distinct_arr. constructor; [|done]. by apply distinct_leaf.
Defined.
