(* ===== verification/AttemptRepo.v ===== *)
(** The authority over Attempts, execution leases and Candidate results
    (adapters/persistence-sqlite/src/sqlite/attempt-repository.ts): one
    definition per method, each a transaction over the execution tables; and the
    fence of the runtime (sqlite/task-run-execution-fence.ts). *)
From S2P Require Import Prelude Json Attempt ExecDb.
Local Open Scope tx_scope.

(** * Row updates *)

Definition attempt_to (a : AttemptRow) (status : AttemptStatus) (active : bool) (version eventSequence updatedAt : Z)
    (completedAt : option Z) : AttemptRow :=
  {| a_id := a_id a; a_runId := a_runId a; a_ordinal := a_ordinal a; a_trigger := a_trigger a; a_status := status;
     a_active := active; a_version := version; a_eventSequence := eventSequence; a_startedAt := a_startedAt a;
     a_updatedAt := updatedAt; a_completedAt := completedAt |}.

Definition run_to (r : RunRow) (status : RunStatus) (phase : RunPhase) (blockedReason : string) (lastEventSeq : Z)
    (completedAt : option Z) (updatedAt : Z) : RunRow :=
  {| r_id := r_id r; r_sessionId := r_sessionId r; r_requestId := r_requestId r; r_status := status; r_phase := phase;
     r_goal := r_goal r; r_contract := r_contract r; r_gateRequired := r_gateRequired r;
     r_blockedReason := blockedReason; r_attempt := r_attempt r; r_lastEventSeq := lastEventSeq;
     r_createdAt := r_createdAt r; r_updatedAt := updatedAt; r_completedAt := completedAt;
     r_resumedAt := r_resumedAt r |}.

Definition lease_to (l : LeaseRow) (leaseUntil heartbeatAt : Z) (releasedAt : option Z) : LeaseRow :=
  {| l_attemptId := l_attemptId l; l_ownerId := l_ownerId l; l_token := l_token l; l_fence := l_fence l;
     l_attemptVersion := l_attemptVersion l; l_leaseUntil := leaseUntil; l_heartbeatAt := heartbeatAt;
     l_releasedAt := releasedAt |}.

Definition candidate_to (c : CandidateRow) (status : CandidateStatus) (settledAt : option Z) : CandidateRow :=
  {| c_id := c_id c; c_attemptId := c_attemptId c; c_attemptVersion := c_attemptVersion c;
     c_response := c_response c; c_responseHash := c_responseHash c; c_status := status;
     c_createdAt := c_createdAt c; c_settledAt := settledAt |}.

Definition decision_to (d : DecisionRow) (status : DecisionStatus) (error : string) (executedAt : option Z)
    : DecisionRow :=
  {| d_id := d_id d; d_runId := d_runId d; d_attempt := d_attempt d; d_status := status; d_action := d_action d;
     d_candidateResponseHash := d_candidateResponseHash d; d_error := error; d_createdAt := d_createdAt d;
     d_executedAt := executedAt; d_checkpointSeq := d_checkpointSeq d; d_trigger := d_trigger d;
     d_reasonCode := d_reasonCode d; d_rationale := d_rationale d; d_instruction := d_instruction d;
     d_evaluator := d_evaluator d; d_evaluatorModel := d_evaluatorModel d; d_epistemicStatus := d_epistemicStatus d |}.

(** * Reads *)

Definition getAttempt (attemptId : string) (d : Db) : option AttemptRow := attempts d !! attemptId.

Definition attempts_where (p : AttemptRow -> bool) (d : Db) : list AttemptRow :=
  List.filter p (map snd (map_to_list (attempts d))).

Definition getAttemptForRun (runId : string) (ordinal : Z) (d : Db) : option AttemptRow :=
  head (attempts_where (fun a => String.eqb (a_runId a) runId && Z.eqb (a_ordinal a) ordinal) d).

Definition getActiveAttempt (runId : string) (d : Db) : option AttemptRow :=
  head (attempts_where (fun a => String.eqb (a_runId a) runId && a_active a) d).

Definition listAttempts (runId : string) (d : Db) : list AttemptRow :=
  merge_sort (fun a b => Is_true (Z.leb (a_ordinal a) (a_ordinal b)))
    (attempts_where (fun a => String.eqb (a_runId a) runId) d).

Definition getLease (attemptId : string) (d : Db) : option LeaseRow := leases d !! attemptId.

Definition getCandidate (id : string) (d : Db) : option CandidateRow := candidates d !! id.

(** [idx_candidate_results_one_per_attempt] makes the row unique. *)
Definition getCandidateForAttempt (attemptId : string) (d : Db) : option CandidateRow :=
  head (List.filter (fun c => String.eqb (c_attemptId c) attemptId) (map snd (map_to_list (candidates d)))).

(** ** requireLease *)
Definition requireLease (attemptId leaseToken : string) (fence timestamp : Z) (ownerId : option string)
    : tx Db LeaseRow :=
  let* d := gets id in
  let* lease := present (getLease attemptId d)
    (Error ("Execution lease for Attempt " +:+ attemptId +:+ " does not exist")) in
  do* require (String.eqb (l_token lease) leaseToken)
    (Error ("Execution lease token mismatch for Attempt " +:+ attemptId)) in
  do* require (Z.eqb (l_fence lease) fence)
    (Error ("Execution lease fence mismatch for Attempt " +:+ attemptId)) in
  do* require (match ownerId with Some o => String.eqb (l_ownerId lease) o | None => true end)
    (Error ("Execution lease owner mismatch for Attempt " +:+ attemptId)) in
  do* require (bool_decide (l_releasedAt lease = None))
    (Error ("Execution lease for Attempt " +:+ attemptId +:+ " was released")) in
  do* require (negb (l_leaseUntil lease <=? timestamp)%Z)
    (Error ("Execution lease for Attempt " +:+ attemptId +:+ " expired")) in
  mret lease.

Definition appendEventRow (runId type : string) (data : json) (attemptId : string) (seq timestamp : Z) : tx Db unit :=
  insert_event runId seq {| e_attemptId := attemptId; e_type := type; e_data := data; e_createdAt := timestamp |}.

Definition missing_attempt (attemptId : string) : exn := Error ("Attempt " +:+ attemptId +:+ " does not exist").
Definition version_mismatch (attemptId : string) : exn := Error ("Attempt version mismatch for " +:+ attemptId).
Definition stale_projection (attemptId : string) : exn :=
  Error ("TaskRun projection is stale for Attempt " +:+ attemptId).

Section repository.
Context `{Platform}.

Definition recordAudit (a : AttemptRow) (to : AttemptStatus) (scenario reason : string)
  (version eventSeq timestamp : Z) : tx Db unit :=
let* uid := randomUUID in
insert_audit {| u_id := uid; u_attemptId := a_id a; u_runId := a_runId a; u_ordinal := a_ordinal a;
  u_from := Some (a_status a); u_to := to; u_trigger := a_trigger a; u_scenario := scenario; u_reason := reason;
  u_version := version; u_eventSequence := eventSeq; u_createdAt := timestamp |}.

(** ** acquireExecutionLease *)
Definition acquireExecutionLease (attemptId : string) (expectedVersion : Z) (ownerId : string) (leaseMs timestamp : Z)
  : tx Db LeaseRow :=
do* require (negb (blank ownerId)) (TypeError "Execution lease ownerId is required") in
do* require (safe_integer leaseMs && (0 <? leaseMs)%Z) (TypeError "Execution leaseMs must be positive") in
let* d := gets id in
let* attempt := present (getAttempt attemptId d) (missing_attempt attemptId) in
do* require (Z.eqb (a_version attempt) expectedVersion) (version_mismatch attemptId) in
do* require (a_active attempt && bool_decide (a_status attempt = A_running))
  (Error ("Attempt " +:+ attemptId +:+ " is not active")) in
let previous := getLease attemptId d in
do* require
  (match previous with
   | Some l => negb (bool_decide (l_releasedAt l = None) && (timestamp <? l_leaseUntil l)%Z)
   | None => true
   end)
  (Error ("Attempt " +:+ attemptId +:+ " already has an execution lease")) in
let* token := randomUUID in
let lease :=
  {| l_attemptId := a_id attempt; l_ownerId := ownerId; l_token := token;
     l_fence := (match previous with Some l => l_fence l | None => 0 end + 1)%Z;
     l_attemptVersion := a_version attempt; l_leaseUntil := (timestamp + leaseMs)%Z; l_heartbeatAt := timestamp;
     l_releasedAt := None |} in
do* write_lease lease in
mret lease.

(** ** renewExecutionLease *)
Definition renewExecutionLease (attemptId ownerId leaseToken : string) (fence leaseMs timestamp : Z)
  : tx Db LeaseRow :=
do* require (safe_integer leaseMs && (0 <? leaseMs)%Z) (TypeError "Execution leaseMs must be positive") in
let* lease := requireLease attemptId leaseToken fence timestamp (Some ownerId) in
let* d := gets id in
let attempt := getAttempt attemptId d in
let valid :=
  match attempt with
  | None => false
  | Some a =>
      let running := bool_decide (a_status a = A_running) && Z.eqb (a_version a) (l_attemptVersion lease) in
      let settling :=
        if bool_decide (a_status a = A_settling) && Z.eqb (a_version a) (l_attemptVersion lease + 1)
        then match getCandidateForAttempt attemptId d with
             | Some c => bool_decide (c_status c = C_proposed) && Z.eqb (c_attemptVersion c) (a_version a)
             | None => false
             end
        else false in
      a_active a && (running || settling)
  end in
do* require valid (Error ("Attempt version changed for " +:+ attemptId)) in
let leaseUntil := (timestamp + leaseMs)%Z in
let* changes := update_lease attemptId
  (fun l => String.eqb (l_ownerId l) ownerId && String.eqb (l_token l) leaseToken && Z.eqb (l_fence l) fence
    && bool_decide (l_releasedAt l = None))
  (fun l => lease_to l leaseUntil timestamp (l_releasedAt l)) in
do* require (Z.eqb changes 1) (Error ("Execution lease changed for Attempt " +:+ attemptId)) in
mret (lease_to lease leaseUntil timestamp (l_releasedAt lease)).

(** ** releaseExecutionLease *)
Definition releaseExecutionLease (attemptId ownerId leaseToken : string) (fence timestamp : Z) : tx Db bool :=
let* changes := update_lease attemptId
  (fun l => String.eqb (l_ownerId l) ownerId && String.eqb (l_token l) leaseToken && Z.eqb (l_fence l) fence
    && bool_decide (l_releasedAt l = None))
  (fun l => lease_to l (l_leaseUntil l) (l_heartbeatAt l) (Some timestamp)) in
mret (Z.eqb changes 1).

(** ** recordCandidateResult *)

(** [INSERT OR IGNORE INTO candidate_results]: a row whose id or Attempt is taken is dropped. *)
Definition insert_candidate_or_ignore (c : CandidateRow) : tx Db unit :=
let* d := gets id in
match getCandidate (c_id c) d, getCandidateForAttempt (c_attemptId c) d with
| None, None => modify (set_candidates (insert (c_id c) c))
| _, _ => mret tt
end.

Definition recordCandidateResult (candidateId attemptId : string) (expectedVersion : Z) (leaseToken : string)
  (fence : Z) (response : string) (timestamp : Z) : tx Db CandidateRow :=
let* d := gets id in
let* attempt := present (getAttempt attemptId d) (missing_attempt attemptId) in
let responseHash := sha256 response in
match getCandidateForAttempt attemptId d with
| Some existing =>
    let* executionLease := requireLease attemptId leaseToken fence timestamp None in
    do* require (Z.eqb (l_attemptVersion executionLease) expectedVersion
        && Z.eqb (a_version attempt) (c_attemptVersion existing)
        && Z.eqb (c_attemptVersion existing) (expectedVersion + 1))
      (version_mismatch attemptId) in
    do* require (String.eqb (c_responseHash existing) responseHash && String.eqb (c_response existing) response)
      (Error ("Attempt " +:+ attemptId +:+ " already has a different Candidate result")) in
    mret existing
| None =>
    do* require (Z.eqb (a_version attempt) expectedVersion) (version_mismatch attemptId) in
    let* executionLease := requireLease attemptId leaseToken fence timestamp None in
    do* require (Z.eqb (l_attemptVersion executionLease) (a_version attempt))
      (Error ("Execution lease Attempt version mismatch for " +:+ attemptId)) in
    do* assertAttemptTransition (a_status attempt) A_settling in
    let settlingVersion := (a_version attempt + 1)%Z in
    let* changes := update_attempt (a_id attempt)
      (fun a => Z.eqb (a_version a) (a_version attempt) && a_active a && bool_decide (a_status a = A_running))
      (fun a => attempt_to a A_settling (a_active a) (a_version a + 1) (a_eventSequence a) timestamp
        (a_completedAt a)) in
    do* require (Z.eqb changes 1) (Error "Attempt version changed before candidate settlement") in
    do* insert_candidate_or_ignore
      {| c_id := candidateId; c_attemptId := attemptId; c_attemptVersion := settlingVersion;
         c_response := response; c_responseHash := responseHash; c_status := C_proposed;
         c_createdAt := timestamp; c_settledAt := None |} in
    let* d' := gets id in
    let mismatch := Error ("Candidate result " +:+ candidateId +:+ " already exists with different content") in
    let* candidate := present (getCandidate candidateId d') mismatch in
    do* require (String.eqb (c_attemptId candidate) (a_id attempt)
        && Z.eqb (c_attemptVersion candidate) settlingVersion
        && String.eqb (c_responseHash candidate) responseHash && String.eqb (c_response candidate) response)
      mismatch in
    do* recordAudit attempt A_settling "terminal" "candidate_result" settlingVersion (a_eventSequence attempt)
      timestamp in
    mret candidate
end.

(** The answer of a completed Attempt, as the settlement publishes it to the session. *)
Definition insertAssistantMessage (sessionId content : string) (timestamp : Z) : tx Db unit :=
do* modify (set_messages (fun l => l ++ [{| m_sessionId := sessionId; m_role := "assistant";
  m_content := content; m_createdAt := timestamp |}])) in
modify (set_sessions (alter (fun _ => {| s_updatedAt := timestamp |}) sessionId)).

(** ** settleAttempt *)
Definition settleAttempt (attemptId : string) (expectedVersion : Z) (leaseToken : string) (fence : Z)
  (candidateResultId supervisorDecisionId : string) (status : TerminalAttemptStatus) (reason : string)
  (timestamp : Z) : tx Db AttemptRow :=
let* d := gets id in
let* attempt := present (getAttempt attemptId d) (missing_attempt attemptId) in
do* require (Z.eqb (a_version attempt) expectedVersion) (version_mismatch attemptId) in
do* require (a_active attempt && bool_decide (a_status attempt = A_settling))
  (Error ("Attempt " +:+ attemptId +:+ " is not settling")) in
do* assertAttemptTransition (a_status attempt) (of_run_status (of_terminal status)) in
let* executionLease := requireLease attemptId leaseToken fence timestamp None in
do* require (Z.eqb (l_attemptVersion executionLease) (a_version attempt - 1))
  (Error ("Execution lease Attempt version mismatch for " +:+ attemptId)) in
let foreign := Error ("Candidate result " +:+ candidateResultId +:+ " does not belong to Attempt") in
let* candidate := present (getCandidate candidateResultId d) foreign in
do* require (String.eqb (c_attemptId candidate) (a_id attempt)) foreign in
do* require (Z.eqb (c_attemptVersion candidate) (a_version attempt))
  (Error "Candidate result Attempt version mismatch") in
do* require (bool_decide (c_status candidate = C_proposed))
  (Error ("Candidate result " +:+ c_id candidate +:+ " is already settled")) in
let stale := stale_projection (a_id attempt) in
let* run := present (runs d !! a_runId attempt) stale in
do* require (Z.eqb (r_attempt run) (a_ordinal attempt) && bool_decide (r_status run = R_running)) stale in
let not_proposed := Error ("Supervisor decision " +:+ supervisorDecisionId +:+ " is not proposed for Attempt") in
let* decision := present (decisions d !! supervisorDecisionId) not_proposed in
do* require (String.eqb (d_runId decision) (a_runId attempt) && Z.eqb (d_attempt decision) (a_ordinal attempt)
    && bool_decide (d_status decision = D_proposed)) not_proposed in
do* require (negb (bool_decide (status = TA_completed)) || bool_decide (d_action decision = S_complete_taskrun))
  (Error ("Supervisor decision " +:+ supervisorDecisionId +:+ " does not authorize completion")) in
let eventType := "run." +:+ run_status_text (of_terminal status) in
let phase := match status with TA_completed => P_done | TA_blocked => P_blocked | _ => r_phase run end in
let completedAt := match status with TA_blocked => None | _ => Some timestamp end in
let* eventSeq :=
  if bool_decide (status = TA_blocked) then
    do* appendEventRow (a_runId attempt) "message.rejected"
      (JObj [("response", JStr (c_response candidate)); ("reason", JStr reason);
             ("supervisionDecisionId", JStr supervisorDecisionId);
             ("action", JStr (action_text (d_action decision)))])
      (a_id attempt) (r_lastEventSeq run + 1) timestamp in
    mret (r_lastEventSeq run + 1 + 1)%Z
  else mret (r_lastEventSeq run + 1)%Z in
do* appendEventRow (a_runId attempt) eventType
  (JObj [("attemptId", JStr (a_id attempt)); ("candidateResultId", JStr (c_id candidate));
         ("response", JStr (c_response candidate)); ("supervisionDecisionId", JStr supervisorDecisionId);
         ("action", JStr (action_text (d_action decision))); ("reason", JStr reason)])
  (a_id attempt) eventSeq timestamp in
let* attemptChanges := update_attempt (a_id attempt)
  (fun a => Z.eqb (a_version a) (a_version attempt) && a_active a && bool_decide (a_status a = A_settling))
  (fun a => attempt_to a (of_run_status (of_terminal status)) false (a_version a + 1) eventSeq timestamp
    (Some timestamp)) in
do* require (Z.eqb attemptChanges 1) (Error "Attempt version changed during settlement") in
let* runChanges := update_run (a_runId attempt)
  (fun r => bool_decide (r_status r = R_running) && Z.eqb (r_attempt r) (a_ordinal attempt))
  (fun r => run_to r (of_terminal status) phase reason eventSeq completedAt timestamp) in
do* require (Z.eqb runChanges 1) (Error "TaskRun changed during Attempt settlement") in
let candidateStatus := if bool_decide (status = TA_completed) then C_accepted else C_rejected in
do* modify (set_candidates (alter (fun c =>
  if bool_decide (c_status c = C_proposed) then candidate_to c candidateStatus (Some timestamp) else c)
  (c_id candidate))) in
do* modify (set_leases (alter (fun l =>
  if String.eqb (l_token l) leaseToken && Z.eqb (l_fence l) fence
  then lease_to l (l_leaseUntil l) (l_heartbeatAt l) (Some timestamp) else l) (a_id attempt))) in
do* modify (set_decisions (alter (fun x =>
  if bool_decide (d_status x = D_proposed) then decision_to x D_executed "" (Some timestamp) else x)
  supervisorDecisionId)) in
do* (if bool_decide (status = TA_completed) && negb (blank (c_response candidate)) then
  insertAssistantMessage (r_sessionId run) (c_response candidate) timestamp
  else mret tt) in
do* finalizeAttemptProjectionCheckpoint (a_runId attempt) (a_id attempt) (a_ordinal attempt) eventSeq timestamp in
do* recordAudit attempt (of_run_status (of_terminal status)) "terminal" reason (a_version attempt + 1) eventSeq
  timestamp in
let* d' := gets id in
present (getAttempt (a_id attempt) d') (missing_attempt (a_id attempt)).

(** ** reAdjudicateBlockedCandidate *)
Definition requiredGateTypes : list string := ["progress"; "evidence"; "contract"; "completion"].

Definition gates_authorize (runId : string) (attempt : Z) (gateIds : list string) (d : Db) : bool :=
let rows := omap (fun id =>
  g ← gates d !! id; if String.eqb (g_runId g) runId && Z.eqb (g_attempt g) attempt then Some g else None) gateIds in
Nat.eqb (length rows) (length gateIds)
&& forallb (fun type => existsb (fun g => String.eqb (g_gateType g) type && g_passed g
     && bool_decide (g_failures g = [])) rows) requiredGateTypes.

Definition uncertainties_valid (runId : string) (ids : list string) (timestamp : Z) (d : Db) : bool :=
let rows := omap (fun id =>
  u ← uncertainties d !! id;
  if String.eqb (un_runId u) runId
     && match un_expiresAt u with None => true | Some e => (timestamp <? e)%Z end
  then Some u else None) ids in
Nat.eqb (length rows) (length ids).

Definition decision_for (id runId : string) (attempt : Z) (d : Db) : option DecisionRow :=
x ← decisions d !! id;
if String.eqb (d_runId x) runId && Z.eqb (d_attempt x) attempt then Some x else None.

Definition reAdjudicateBlockedCandidate (attemptId : string) (expectedVersion : Z)
  (candidateResultId candidateResponseHash previousSupervisorDecisionId supervisorDecisionId : string)
  (gateEvaluationIds acceptedUncertaintyIds : list string) (reason : string) (timestamp : Z)
  : tx Db (AttemptRow * RunEvent) :=
let* d := gets id in
let* attempt := present (getAttempt attemptId d) (missing_attempt attemptId) in
do* require (Z.eqb (a_version attempt) expectedVersion) (version_mismatch attemptId) in
do* require (negb (a_active attempt) && bool_decide (a_status attempt = A_blocked))
  (Error ("Attempt " +:+ attemptId +:+ " is not blocked")) in
let foreign := Error ("Candidate result " +:+ candidateResultId +:+ " is not the rejected Candidate for Attempt") in
let* candidate := present (getCandidate candidateResultId d) foreign in
do* require (String.eqb (c_attemptId candidate) (a_id attempt) && bool_decide (c_status candidate = C_rejected))
  foreign in
do* require (Z.eqb (c_attemptVersion candidate) (a_version attempt - 1)
    && String.eqb (c_responseHash candidate) candidateResponseHash && negb (blank (c_response candidate)))
  (Error "Rejected Candidate integrity does not match the blocked Attempt") in
let stale := Error ("TaskRun projection is stale for blocked Attempt " +:+ a_id attempt) in
let* run := present (runs d !! a_runId attempt) stale in
do* require (bool_decide (r_status run = R_blocked) && Z.eqb (r_attempt run) (a_ordinal attempt)) stale in
let unbound := Error "Rejected Candidate is not bound to the prior executed blocking decision" in
let* prior := present (decision_for previousSupervisorDecisionId (a_runId attempt) (a_ordinal attempt) d) unbound in
do* require (bool_decide (d_action prior = S_block_taskrun) && bool_decide (d_status prior = D_executed)
    && String.eqb (d_candidateResponseHash prior) (c_responseHash candidate)) unbound in
let unauthorized := Error "Re-adjudication decision does not authorize this Candidate completion" in
let* decision := present (decision_for supervisorDecisionId (a_runId attempt) (a_ordinal attempt) d) unauthorized in
do* require (bool_decide (d_action decision = S_complete_taskrun) && bool_decide (d_status decision = D_proposed)
    && String.eqb (d_candidateResponseHash decision) (c_responseHash candidate)) unauthorized in
do* require (gates_authorize (a_runId attempt) (a_ordinal attempt) (dedup gateEvaluationIds) d)
  (Error "Re-adjudication Gates do not authorize Candidate completion") in
let uncertaintyIds := dedup acceptedUncertaintyIds in
do* require (negb (bool_decide (uncertaintyIds = [])))
  (Error "Candidate re-adjudication requires accepted uncertainty") in
do* require (uncertainties_valid (a_runId attempt) uncertaintyIds timestamp d)
  (Error "Candidate re-adjudication uncertainty is missing or expired") in
let eventSeq := (r_lastEventSeq run + 1)%Z in
let data := JObj
  [("attemptId", JStr (a_id attempt)); ("candidateResultId", JStr (c_id candidate));
   ("response", JStr (c_response candidate)); ("supervisionDecisionId", JStr supervisorDecisionId);
   ("previousSupervisionDecisionId", JStr previousSupervisorDecisionId);
   ("action", JStr (action_text (d_action decision))); ("reason", JStr reason);
   ("acceptedUncertaintyIds", JArr (map JStr uncertaintyIds)); ("reAdjudicated", JBool true)] in
do* appendEventRow (a_runId attempt) "run.completed" data (a_id attempt) eventSeq timestamp in
let* attemptChanges := update_attempt (a_id attempt)
  (fun a => Z.eqb (a_version a) (a_version attempt) && negb (a_active a) && bool_decide (a_status a = A_blocked))
  (fun a => attempt_to a A_completed (a_active a) (a_version a + 1) eventSeq timestamp (Some timestamp)) in
do* require (Z.eqb attemptChanges 1) (Error "Blocked Attempt changed during Candidate re-adjudication") in
let* runChanges := update_run (a_runId attempt)
  (fun r => bool_decide (r_status r = R_blocked) && Z.eqb (r_attempt r) (a_ordinal attempt))
  (fun r => run_to r R_completed P_done "" eventSeq (Some timestamp) timestamp) in
do* require (Z.eqb runChanges 1) (Error "Blocked TaskRun changed during Candidate re-adjudication") in
let* d1 := gets id in
do* require
  (match getCandidate (c_id candidate) d1 with
   | Some c => bool_decide (c_status c = C_rejected) && String.eqb (c_responseHash c) (c_responseHash candidate)
   | None => false
   end) (Error "Rejected Candidate changed during re-adjudication") in
do* modify (set_candidates (alter (fun c => candidate_to c C_accepted (c_settledAt c)) (c_id candidate))) in
do* require
  (match decisions d1 !! supervisorDecisionId with
   | Some x => bool_decide (d_status x = D_proposed)
   | None => false
   end) (Error "Re-adjudication decision changed before completion") in
do* modify (set_decisions (alter (fun x => decision_to x D_executed "" (Some timestamp)) supervisorDecisionId)) in
do* insertAssistantMessage (r_sessionId run) (c_response candidate) timestamp in
do* finalizeAttemptProjectionCheckpoint (a_runId attempt) (a_id attempt) (a_ordinal attempt) eventSeq timestamp in
do* recordAudit attempt A_completed "uncertainty_readjudication" reason (a_version attempt + 1) eventSeq timestamp in
let* d' := gets id in
let* settled := present (getAttempt (a_id attempt) d') (missing_attempt (a_id attempt)) in
mret (settled, {| ev_runId := a_runId attempt; ev_seq := eventSeq; ev_type := "run.completed"; ev_data := data;
  ev_createdAt := timestamp |}).

(** ** recordTerminalAudit *)
Definition recordTerminalAudit (attempt : AttemptRow) (status : AttemptStatus) (reason : string)
  (eventSeq version timestamp : Z) : tx Db unit :=
recordAudit attempt status (if bool_decide (status = A_interrupted) then "recovery" else "terminal")
  reason version eventSeq timestamp.

(** The statements recovery and cancellation share: reject the proposed
  Candidate of the Attempt, supersede the proposed decisions on it. *)
Definition reject_proposed_candidate (attemptId : string) (timestamp : Z) : tx Db unit :=
modify (set_candidates (update_where
  (fun c => String.eqb (c_attemptId c) attemptId && bool_decide (c_status c = C_proposed))
  (fun c => candidate_to c C_rejected (Some timestamp)))).

Definition supersede_proposed_decisions (runId : string) (attempt : Z) (reason : string) (timestamp : Z) : tx Db unit :=
modify (set_decisions (update_where
  (fun x => String.eqb (d_runId x) runId && Z.eqb (d_attempt x) attempt && bool_decide (d_status x = D_proposed))
  (fun x => decision_to x D_superseded reason (Some timestamp)))).

(** ** recoverInterruptedAttempt *)
Definition recoverInterruptedAttempt (attemptId : string) (expectedVersion : Z) (ownerId leaseToken : string)
  (fence : Z) (reason : string) (supervisorDecisionId : option string) (timestamp : Z)
  : tx Db (AttemptRow * option RunEvent * bool) :=
let* d := gets id in
let* attempt := present (getAttempt attemptId d) (missing_attempt attemptId) in
let* lease := present (getLease attemptId d)
  (Error ("Execution lease for Attempt " +:+ attemptId +:+ " does not exist")) in
do* require (String.eqb (l_ownerId lease) ownerId)
  (Error ("Execution lease owner mismatch for Attempt " +:+ attemptId)) in
do* require (String.eqb (l_token lease) leaseToken)
  (Error ("Execution lease token mismatch for Attempt " +:+ attemptId)) in
do* require (Z.eqb (l_fence lease) fence)
  (Error ("Execution lease fence mismatch for Attempt " +:+ attemptId)) in
let run := runs d !! a_runId attempt in
if bool_decide (a_status attempt = A_interrupted) && negb (a_active attempt) then
  do* require
    (match run with
     | Some r => Z.eqb (r_attempt r) (a_ordinal attempt) && bool_decide (r_status r = R_interrupted)
         && negb (bool_decide (l_releasedAt lease = None))
     | None => false
     end) (Error ("Interrupted Attempt " +:+ a_id attempt +:+ " recovery state is inconsistent")) in
  let pendingCandidate := exists_where (fun _ c =>
    String.eqb (c_attemptId c) (a_id attempt) && bool_decide (c_status c = C_proposed)) (candidates d) in
  let pendingDecision := exists_where (fun _ x =>
    String.eqb (d_runId x) (a_runId attempt) && Z.eqb (d_attempt x) (a_ordinal attempt)
    && bool_decide (d_status x = D_proposed)) (decisions d) in
  do* require (negb (pendingCandidate || pendingDecision))
    (Error ("Interrupted Attempt " +:+ a_id attempt +:+ " recovery is incomplete")) in
  mret (attempt, None, false)
else
  do* require (bool_decide (l_releasedAt lease = None))
    (Error ("Execution lease for Attempt " +:+ attemptId +:+ " was released")) in
  let running := bool_decide (a_status attempt = A_running) && Z.eqb (a_version attempt) expectedVersion in
  let settling := bool_decide (a_status attempt = A_settling)
    && Z.eqb (a_version attempt) (expectedVersion + 1)
    && match getCandidateForAttempt (a_id attempt) d with
       | Some c => bool_decide (c_status c = C_proposed) && Z.eqb (c_attemptVersion c) (a_version attempt)
       | None => false
       end in
  do* require (a_active attempt && (running || settling)) (Error ("Attempt version changed for " +:+ attemptId)) in
  do* require (Z.eqb (l_attemptVersion lease) expectedVersion)
    (Error ("Execution lease Attempt version mismatch for " +:+ attemptId)) in
  let stale := stale_projection (a_id attempt) in
  let* run := present run stale in
  do* require (Z.eqb (r_attempt run) (a_ordinal attempt) && bool_decide (r_status run = R_running)) stale in
  do* (match supervisorDecisionId with
       | Some sid =>
           require (match decisions d !! sid with
             | Some x => String.eqb (d_runId x) (a_runId attempt) && Z.eqb (d_attempt x) (a_ordinal attempt)
                 && bool_decide (d_status x = D_proposed)
             | None => false
             end) (Error ("Supervisor decision " +:+ sid +:+ " is not proposed for Attempt"))
       | None => mret tt
       end) in
  do* assertAttemptTransition (a_status attempt) A_interrupted in
  let eventSeq := (r_lastEventSeq run + 1)%Z in
  let nextVersion := (a_version attempt + 1)%Z in
  let data := JObj ([("attemptId", JStr (a_id attempt)); ("reason", JStr reason); ("recoverable", JBool true)]
    ++ match supervisorDecisionId with Some sid => [("supervisorDecisionId", JStr sid)] | None => [] end) in
  do* appendEventRow (a_runId attempt) "run.interrupted" data (a_id attempt) eventSeq timestamp in
  let* attemptChanges := update_attempt (a_id attempt)
    (fun a => Z.eqb (a_version a) (a_version attempt) && a_active a && bool_decide (a_status a = a_status attempt))
    (fun a => attempt_to a A_interrupted false (a_version a + 1) eventSeq timestamp None) in
  do* require (Z.eqb attemptChanges 1) (Error "Attempt version changed during recovery") in
  let* runChanges := update_run (a_runId attempt)
    (fun r => bool_decide (r_status r = R_running) && Z.eqb (r_attempt r) (a_ordinal attempt))
    (fun r => run_to r R_interrupted (r_phase r) reason eventSeq None timestamp) in
  do* require (Z.eqb runChanges 1) (Error "TaskRun changed during Attempt recovery") in
  do* reject_proposed_candidate (a_id attempt) timestamp in
  do* supersede_proposed_decisions (a_runId attempt) (a_ordinal attempt) reason timestamp in
  let* released := update_lease (a_id attempt)
    (fun l => String.eqb (l_token l) leaseToken && Z.eqb (l_fence l) fence && bool_decide (l_releasedAt l = None))
    (fun l => lease_to l (l_leaseUntil l) (l_heartbeatAt l) (Some timestamp)) in
  do* require (Z.eqb released 1) (Error "Execution lease changed during Attempt recovery") in
  do* finalizeAttemptProjectionCheckpoint (a_runId attempt) (a_id attempt) (a_ordinal attempt) eventSeq timestamp in
  do* recordTerminalAudit attempt A_interrupted reason eventSeq nextVersion timestamp in
  let* d' := gets id in
  let* recovered := present (getAttempt (a_id attempt) d') (missing_attempt (a_id attempt)) in
  mret (recovered, Some {| ev_runId := a_runId attempt; ev_seq := eventSeq; ev_type := "run.interrupted";
    ev_data := data; ev_createdAt := timestamp |}, true).

(** ** cancelAttempt *)
Definition cancelAttempt (attemptId reason : string) (timestamp : Z) : tx Db (AttemptRow * option RunEvent * bool) :=
let* d := gets id in
let* attempt := present (getAttempt attemptId d) (missing_attempt attemptId) in
let run := runs d !! a_runId attempt in
if bool_decide (a_status attempt = A_cancelled) && negb (a_active attempt) then
  do* require
    (match run with
     | Some r => Z.eqb (r_attempt r) (a_ordinal attempt) && bool_decide (r_status r = R_cancelled)
     | None => false
     end) (Error ("Cancelled Attempt " +:+ a_id attempt +:+ " state is inconsistent")) in
  mret (attempt, None, false)
else
  do* require (a_active attempt && includes (a_status attempt) [A_running; A_settling])
    (Error ("Attempt " +:+ attemptId +:+ " is not cancellable")) in
  let stale := stale_projection (a_id attempt) in
  let* run := present run stale in
  do* require (Z.eqb (r_attempt run) (a_ordinal attempt) && bool_decide (r_status run = R_running)) stale in
  do* assertAttemptTransition (a_status attempt) A_cancelled in
  let eventSeq := (r_lastEventSeq run + 1)%Z in
  let nextVersion := (a_version attempt + 1)%Z in
  let data := JObj [("attemptId", JStr (a_id attempt)); ("reason", JStr reason)] in
  do* appendEventRow (a_runId attempt) "run.cancelled" data (a_id attempt) eventSeq timestamp in
  let* attemptChanges := update_attempt (a_id attempt)
    (fun a => Z.eqb (a_version a) (a_version attempt) && a_active a && bool_decide (a_status a = a_status attempt))
    (fun a => attempt_to a A_cancelled false (a_version a + 1) eventSeq timestamp (Some timestamp)) in
  do* require (Z.eqb attemptChanges 1) (Error "Attempt version changed during cancellation") in
  let* runChanges := update_run (a_runId attempt)
    (fun r => bool_decide (r_status r = R_running) && Z.eqb (r_attempt r) (a_ordinal attempt))
    (fun r => run_to r R_cancelled (r_phase r) reason eventSeq (Some timestamp) timestamp) in
  do* require (Z.eqb runChanges 1) (Error "TaskRun changed during Attempt cancellation") in
  do* reject_proposed_candidate (a_id attempt) timestamp in
  do* supersede_proposed_decisions (a_runId attempt) (a_ordinal attempt) reason timestamp in
  do* modify (set_leases (alter (fun l =>
    if bool_decide (l_releasedAt l = None) then lease_to l (l_leaseUntil l) (l_heartbeatAt l) (Some timestamp)
    else l) (a_id attempt))) in
  do* finalizeAttemptProjectionCheckpoint (a_runId attempt) (a_id attempt) (a_ordinal attempt) eventSeq timestamp in
  do* recordTerminalAudit attempt A_cancelled reason eventSeq nextVersion timestamp in
  let* d' := gets id in
  let* cancelled := present (getAttempt (a_id attempt) d') (missing_attempt (a_id attempt)) in
  mret (cancelled, Some {| ev_runId := a_runId attempt; ev_seq := eventSeq; ev_type := "run.cancelled";
    ev_data := data; ev_createdAt := timestamp |}, true).

End repository.

(** * The fence of the runtime

    A call by the runtime is let through only when it names a running Attempt at
    its version and the live execution lease of that Attempt, and it acts on the
    TaskRun the Attempt row names. *)

Record TaskRunExecutionFence := {
  fe_attemptId : string; fe_expectedVersion : Z; fe_leaseToken : string; fe_executionFence : Z;
}.

Record TaskRunExecutionScope := {
  sc_attemptId : string; sc_runId : string; sc_ordinal : Z; sc_sessionId : string; sc_attemptVersion : Z;
  sc_timestamp : Z;
}.

Definition assertNonEmpty (value name : string) : result unit :=
  check (negb (String.eqb value "") && negb (has_nul value))
    (TypeError (name +:+ " must be a non-empty string without NUL bytes")).

Definition validateInput (f : TaskRunExecutionFence) : result unit :=
  do* assertNonEmpty (fe_attemptId f) "attemptId" in
  do* assertNonEmpty (fe_leaseToken f) "leaseToken" in
  do* check (safe_integer (fe_expectedVersion f) && (0 <? fe_expectedVersion f)%Z)
    (TypeError "expectedVersion must be a positive safe integer") in
  check (safe_integer (fe_executionFence f) && (0 <? fe_executionFence f)%Z)
    (TypeError "executionFence must be a positive safe integer").

(** [timestamp] is the clock of the database; the validation runs inside the
    transaction of the mutation it protects. *)
Definition validate (f : TaskRunExecutionFence) (timestamp : Z) : tx Db TaskRunExecutionScope :=
  let i := fe_attemptId f in
  do* lift (validateInput f) in
  do* require (safe_integer timestamp) (Error "TaskRun execution fence database clock is invalid") in
  let* d := gets id in
  let* attempt := present (attempts d !! i) (Error ("Attempt " +:+ i +:+ " does not exist")) in
  do* require (Z.eqb (a_version attempt) (fe_expectedVersion f)) (Error ("Attempt version mismatch for " +:+ i)) in
  do* require (a_active attempt && bool_decide (a_status attempt = A_running))
    (Error ("Attempt " +:+ i +:+ " is not active and running")) in
  let* lease := present (leases d !! i) (Error ("Execution lease for Attempt " +:+ i +:+ " does not exist")) in
  do* require (String.eqb (l_token lease) (fe_leaseToken f))
    (Error ("Execution lease token mismatch for Attempt " +:+ i)) in
  do* require (Z.eqb (l_fence lease) (fe_executionFence f))
    (Error ("Execution lease fence mismatch for Attempt " +:+ i)) in
  do* require (Z.eqb (l_attemptVersion lease) (a_version attempt))
    (Error ("Execution lease Attempt version mismatch for " +:+ i)) in
  do* require (bool_decide (l_releasedAt lease = None) && negb (l_leaseUntil lease <=? timestamp)%Z)
    (Error ("Execution lease for Attempt " +:+ i +:+ " is released or expired")) in
  let stale := Error ("TaskRun projection is stale for Attempt " +:+ i) in
  let* run := present (runs d !! a_runId attempt) stale in
  do* require (bool_decide (r_status run = R_running) && Z.eqb (r_attempt run) (a_ordinal attempt)) stale in
  mret {| sc_attemptId := i; sc_runId := a_runId attempt; sc_ordinal := a_ordinal attempt;
          sc_sessionId := r_sessionId run; sc_attemptVersion := a_version attempt; sc_timestamp := timestamp |}.

(** What a fence that was let through says of the database. *)
Record fenced (d : Db) (f : TaskRunExecutionFence) (s : TaskRunExecutionScope) (a : AttemptRow) (r : RunRow) (l : LeaseRow)
    : Prop := {
  fn_attempt : attempts d !! fe_attemptId f = Some a;
  fn_running : a_active a = true /\ a_status a = A_running /\ a_version a = fe_expectedVersion f;
  fn_lease : leases d !! fe_attemptId f = Some l;
  fn_live : l_token l = fe_leaseToken f /\ l_fence l = fe_executionFence f /\ l_attemptVersion l = a_version a
    /\ l_releasedAt l = None /\ (sc_timestamp s < l_leaseUntil l)%Z;
  fn_run : runs d !! a_runId a = Some r;
  fn_current : r_status r = R_running /\ r_attempt r = a_ordinal a;
  fn_scope : sc_runId s = a_runId a /\ sc_ordinal s = a_ordinal a /\ sc_attemptId s = fe_attemptId f;
}.

Lemma validate_ok f ts d s d' :
  validate f ts d = Ok (s, d') -> d' = d /\ exists a r l, fenced d f s a r l.
Proof.
  unfold validate. intros Hs. tx_inv Hs. bool_prop. split; [done|]. do 3 eexists. split; cbn; try eassumption; auto with lia.
Qed.
