(* ===== verification/RunStore.v ===== *)
(** The TaskRun half of the control-plane store
    (adapters/persistence-sqlite/src/store.ts): creation, the projection of an
    Attempt, events, transitions, user input, restart and resumption. *)
From S2P Require Import Prelude Json TaskPolicy Attempt ExecDb.
Local Open Scope tx_scope.

(** * Row updates *)

Definition run_event (r : RunRow) (seq updatedAt : Z) : RunRow :=
  {| r_id := r_id r; r_sessionId := r_sessionId r; r_requestId := r_requestId r; r_status := r_status r;
     r_phase := r_phase r; r_goal := r_goal r; r_contract := r_contract r; r_gateRequired := r_gateRequired r;
     r_blockedReason := r_blockedReason r; r_attempt := r_attempt r; r_lastEventSeq := seq;
     r_createdAt := r_createdAt r; r_updatedAt := updatedAt; r_completedAt := r_completedAt r;
     r_resumedAt := r_resumedAt r |}.

Definition run_status_to (r : RunRow) (status : RunStatus) (phase : RunPhase) (reason : string)
    (completedAt : option Z) (seq updatedAt : Z) : RunRow :=
  {| r_id := r_id r; r_sessionId := r_sessionId r; r_requestId := r_requestId r; r_status := status;
     r_phase := phase; r_goal := r_goal r; r_contract := r_contract r; r_gateRequired := r_gateRequired r;
     r_blockedReason := reason; r_attempt := r_attempt r; r_lastEventSeq := seq;
     r_createdAt := r_createdAt r; r_updatedAt := updatedAt; r_completedAt := completedAt;
     r_resumedAt := r_resumedAt r |}.

(** The next Attempt of a run starts: [attempt], [resumed_at] and the status. *)
Definition run_next_attempt (r : RunRow) (phase : RunPhase) (attempt seq timestamp : Z) : RunRow :=
  {| r_id := r_id r; r_sessionId := r_sessionId r; r_requestId := r_requestId r; r_status := R_running;
     r_phase := phase; r_goal := r_goal r; r_contract := r_contract r; r_gateRequired := r_gateRequired r;
     r_blockedReason := ""; r_attempt := attempt; r_lastEventSeq := seq;
     r_createdAt := r_createdAt r; r_updatedAt := timestamp; r_completedAt := None;
     r_resumedAt := Some timestamp |}.

Definition run_phase_to (r : RunRow) (phase : RunPhase) (updatedAt : Z) : RunRow :=
  run_status_to r (r_status r) phase (r_blockedReason r) (r_completedAt r) (r_lastEventSeq r) updatedAt.

Definition checkpoint_closed (k : CheckpointRow) (lastEventSeq updatedAt : Z) : CheckpointRow :=
  {| k_attempt := k_attempt k; k_attemptId := k_attemptId k; k_active := false;
     k_assistantPartial := k_assistantPartial k; k_currentToolJson := ""; k_lastEventSeq := lastEventSeq;
     k_lastTranscriptSeq := k_lastTranscriptSeq k; k_updatedAt := updatedAt |}.

(** [UPDATE run_checkpoints SET active=0,current_tool_json='',updated_at=? WHERE run_id=?] *)
Definition deactivate_checkpoint (runId : string) (timestamp : Z) : tx Db unit :=
  modify (set_checkpoints (alter (fun k => checkpoint_closed k (k_lastEventSeq k) timestamp) runId)).

Definition coalesce {A} (a b : option A) : option A := match a with Some _ => a | None => b end.

Section store.
Context `{Platform}.

(** * projectAttempt *)

(** An UPDATE of every Attempt that meets [p]. *)
Definition update_attempts (p : AttemptRow -> bool) (f : AttemptRow -> AttemptRow) : tx Db unit :=
  let* m := gets attempts in
  for_each (fun a => if p a then write_attempt (f a) else mret tt) (map snd (map_to_list m)).

Definition attempt_retired (timestamp : Z) (a : AttemptRow) : AttemptRow :=
  {| a_id := a_id a; a_runId := a_runId a; a_ordinal := a_ordinal a; a_trigger := a_trigger a;
     a_status := if bool_decide (a_status a = A_running) then A_superseded else a_status a; a_active := false;
     a_version := a_version a; a_eventSequence := a_eventSequence a; a_startedAt := a_startedAt a;
     a_updatedAt := timestamp; a_completedAt := coalesce (a_completedAt a) (Some timestamp) |}.

Definition attempt_projected (status : AttemptStatus) (active : bool) (eventSequence timestamp : Z) (a : AttemptRow)
    : AttemptRow :=
  {| a_id := a_id a; a_runId := a_runId a; a_ordinal := a_ordinal a; a_trigger := a_trigger a;
     a_status := status; a_active := active; a_version := a_version a + 1; a_eventSequence := eventSequence;
     a_startedAt := a_startedAt a; a_updatedAt := timestamp;
     a_completedAt := if active then None else coalesce (a_completedAt a) (Some timestamp) |}.

Definition projectAttempt (runId : string) (ordinal : Z) (trigger : AttemptTrigger) (status : AttemptStatus)
    (scenario reason : string) (eventSequence timestamp : Z) : tx Db unit :=
  let attemptId := attempt_id runId ordinal in
  let* d := gets id in
  let existing := attempts d !! attemptId in
  let active := bool_decide (status = A_running) in
  do* (if active then
         update_attempts (fun a => String.eqb (a_runId a) runId && negb (String.eqb (a_id a) attemptId) && a_active a)
           (attempt_retired timestamp)
       else mret tt) in
  do* (match existing with
       | Some _ =>
           do* update_attempt attemptId (fun _ => true) (attempt_projected status active eventSequence timestamp) in
           mret tt
       | None =>
           let* m := gets attempts in
           do* require (bool_decide (m !! attemptId = None)) (SqliteError "attempts.id") in
           write_attempt
             {| a_id := attemptId; a_runId := runId; a_ordinal := ordinal; a_trigger := trigger; a_status := status;
                a_active := active; a_version := 1; a_eventSequence := eventSequence; a_startedAt := timestamp;
                a_updatedAt := timestamp; a_completedAt := if active then None else Some timestamp |}
       end) in
  let* m := gets attempts in
  let* projected := present (m !! attemptId) (TypeError "projected is undefined") in
  let* uid := randomUUID in
  insert_audit {| u_id := uid; u_attemptId := attemptId; u_runId := runId; u_ordinal := ordinal;
    u_from := a_status <$> existing; u_to := status;
    u_trigger := match existing with Some a => a_trigger a | None => trigger end; u_scenario := scenario;
    u_reason := reason; u_version := a_version projected; u_eventSequence := eventSequence;
    u_createdAt := timestamp |}.

(** * createRun *)

(** A Skill selected for the workspace, by the members the contract freezes. *)
Record SkillRevision := {
  sk_id : string; sk_skillId : string; sk_revision : Z; sk_name : string; sk_description : string;
  sk_content : string; sk_filePath : string; sk_sha256 : string; sk_disableModelInvocation : bool;
}.

Definition frozen_skill (s : SkillRevision) : json :=
  JObj [("skillId", JStr (sk_skillId s)); ("revisionId", JStr (sk_id s)); ("revision", JInt (sk_revision s));
        ("name", JStr (sk_name s)); ("description", JStr (sk_description s)); ("content", JStr (sk_content s));
        ("filePath", JStr (sk_filePath s)); ("sha256", JStr (sk_sha256 s));
        ("disableModelInvocation", JBool (sk_disableModelInvocation s))].

(** [{ ...fields, k: v }] *)
Fixpoint with_member (k : string) (v : json) (fs : list (string * json)) : list (string * json) :=
  match fs with
  | [] => [(k, v)]
  | (k', v') :: fs' => if String.eqb k k' then (k, v) :: fs' else (k', v') :: with_member k v fs'
  end.

(** A TaskRun contract: the members the execution policy reads, and the whole object. *)
Record Contract := { ct_view : TaskPolicyContractView; ct_fields : list (string * json) }.

Definition freezeContract (contract : option Contract) (selectedSkills : list SkillRevision) : option Contract :=
  match contract with
  | Some c =>
      if bool_decide (selectedSkills <> []) then
        Some {| ct_view := ct_view c;
                ct_fields := with_member "skills" (JArr (map frozen_skill selectedSkills)) (ct_fields c) |}
      else Some c
  | None => None
  end.

(** [listWorkspaceSkills(sessionId)] reads tables of its own: its result is an argument. *)
Definition createRun (sessionId goal requestId : string) (contract : option Contract)
    (selectedSkills : list SkillRevision) (timestamp : Z) : tx Db RunRow :=
  let* rid := randomUUID in
  let* d := gets id in
  do* require (bool_decide (is_Some (sessions d !! sessionId))) (Error ("Session " +:+ sessionId +:+ " not found")) in
  let frozenContract := freezeContract contract selectedSkills in
  let row :=
    {| r_id := rid; r_sessionId := sessionId; r_requestId := requestId; r_status := R_running; r_phase := P_discover;
       r_goal := goal; r_contract := JObj ∘ ct_fields <$> frozenContract;
       r_gateRequired := negb (bool_decide (effectiveGateProfile (ct_view <$> frozenContract) = gate_off));
       r_blockedReason := ""; r_attempt := 1; r_lastEventSeq := 0; r_createdAt := timestamp; r_updatedAt := timestamp;
       r_completedAt := None; r_resumedAt := None |} in
  do* require (bool_decide (runs d !! rid = None)) (SqliteError "runs.id") in
  do* require (negb (exists_where (fun _ r => String.eqb (r_requestId r) requestId) (runs d)))
    (SqliteError "runs.request_id") in
  do* modify (set_runs (insert rid row)) in
  do* projectAttempt rid 1 T_initial A_running "initial" "" 0 timestamp in
  mret row.

(** * Events and transitions *)

Definition appendEvent (runId type : string) (data : json) (createdAt : Z) : tx Db RunEvent :=
  let* d := gets id in
  let* run := present (runs d !! runId) (Error ("Unknown run " +:+ runId)) in
  let seq := (r_lastEventSeq run + 1)%Z in
  do* insert_event runId seq
    {| e_attemptId := attempt_id runId (r_attempt run); e_type := type; e_data := data; e_createdAt := createdAt |} in
  do* modify (set_runs (alter (fun r => run_event r seq createdAt) runId)) in
  mret {| ev_runId := runId; ev_seq := seq; ev_type := type; ev_data := data; ev_createdAt := createdAt |}.

(** [undefined] when the run is not in an expected status or at the expected Attempt. *)
Definition transitionRun (runId : string) (expected : list RunStatus) (nextStatus : RunStatus) (type : string)
    (data : json) (reason : string) (expectedAttempt : option Z) (createdAt : Z) : tx Db (option RunEvent) :=
  let* d := gets id in
  match runs d !! runId with
  | None => mret None
  | Some row =>
      let attempt_ok (r : RunRow) := match expectedAttempt with Some n => Z.eqb (r_attempt r) n | None => true end in
      if negb (includes (r_status row) expected) || negb (attempt_ok row) then mret None else
      let seq := (r_lastEventSeq row + 1)%Z in
      let phase (r : RunRow) := match nextStatus with R_completed => P_done | R_blocked => P_blocked | _ => r_phase r end in
      let completedAt := if includes nextStatus [R_completed; R_cancelled; R_failed] then Some createdAt else None in
      do* insert_event runId seq
        {| e_attemptId := attempt_id runId (r_attempt row); e_type := type; e_data := data; e_createdAt := createdAt |} in
      let* changes := update_run runId (fun r => includes (r_status r) expected && attempt_ok r)
        (fun r => run_status_to r nextStatus (phase r) reason completedAt seq createdAt) in
      do* require (Z.eqb changes 1) (Error "Run transition lost its compare-and-set race") in
      do* (if bool_decide (nextStatus <> R_running) then
        modify (set_checkpoints (alter (fun k =>
          if Z.eqb (k_attempt k) (r_attempt row) then checkpoint_closed k (Z.max (k_lastEventSeq k) seq) createdAt else k)
          runId))
        else mret tt) in
      do* projectAttempt runId (r_attempt row) T_recovery (of_run_status nextStatus)
        (if bool_decide (nextStatus = R_running) then "recovery" else "terminal") reason seq createdAt in
      do* finalizeAttemptProjectionCheckpoint runId (attempt_id runId (r_attempt row)) (r_attempt row) seq createdAt in
      mret (Some {| ev_runId := runId; ev_seq := seq; ev_type := type; ev_data := data; ev_createdAt := createdAt |})
  end.

(** * Restart *)

Definition restart_reason : string := "Service restarted before the run reached a terminal state".

Definition interrupt_run (timestamp : Z) (run : RunRow) : tx Db unit :=
  let runId := r_id run in
  let aid := attempt_id runId (r_attempt run) in
  let* d := gets id in
  let* current := present (runs d !! runId) (TypeError "seq of undefined") in
  let seq := (r_lastEventSeq current + 1)%Z in
  do* insert_event runId seq
    {| e_attemptId := aid; e_type := "restart.interruption"; e_data := JObj [("reason", JStr "service_restart")];
       e_createdAt := timestamp |} in
  do* update_run runId (fun r => bool_decide (r_status r = R_running))
    (fun r => run_status_to r R_interrupted (r_phase r) restart_reason (r_completedAt r) seq timestamp) in
  do* deactivate_checkpoint runId timestamp in
  do* projectAttempt runId (r_attempt run) T_recovery A_interrupted "recovery" "service_restart" seq timestamp in
  finalizeAttemptProjectionCheckpoint runId aid (r_attempt run) seq timestamp.

(** The prompt of a pending input request of the run, when there is one. *)
Definition pending_prompt (runId : string) (d : Db) : option string :=
  i_prompt <$> head (List.filter (fun i => String.eqb (i_runId i) runId && bool_decide (i_status i = U_pending))
    (map snd (map_to_list (inputs d)))).

Definition refresh_waiting (timestamp : Z) (d : Db) : Db :=
  set_runs (update_where (fun r => bool_decide (r_status r = R_waiting_input))
    (fun r => run_status_to r (r_status r) P_waiting_input (default (r_blockedReason r) (pending_prompt (r_id r) d))
      (r_completedAt r) (r_lastEventSeq r) timestamp)) d.

Definition running_runs (d : Db) : list RunRow :=
  List.filter (fun r => bool_decide (r_status r = R_running)) (map snd (map_to_list (runs d))).

Definition markInterrupted (timestamp : Z) : tx Db unit :=
  let* interrupted := gets running_runs in
  do* for_each (interrupt_run timestamp) interrupted in
  modify (refresh_waiting timestamp).

(** * Resumption *)

Definition resumable_failure (runId attemptId : string) (d : Db) : bool :=
  exists_where (fun k e => String.eqb k.1 runId && String.eqb (e_attemptId e) attemptId && String.eqb (e_type e) "run.failed"
    && match record (e_data e) with
       | Some fs => opt_str_is (field "reason" fs) "idle_timeout" || opt_str_is (field "reason" fs) "hard_timeout"
       | None => false
       end) (events d).

Definition isRunResumable (runId : string) (d : Db) : bool :=
  match runs d !! runId with
  | None => false
  | Some row =>
      if includes (r_status row) [R_interrupted; R_blocked] then true
      else if negb (bool_decide (r_status row = R_failed)) then false
      else resumable_failure runId (attempt_id runId (r_attempt row)) d
  end.

Definition has_pending_input (runId : string) (d : Db) : bool :=
  exists_where (fun _ i => String.eqb (i_runId i) runId && bool_decide (i_status i = U_pending)) (inputs d).

Definition resume_phase (p : RunPhase) : RunPhase :=
  match p with P_blocked | P_waiting_input => P_implement | _ => p end.

Definition resumeRun (runId : string) (resumedAt : Z) : tx Db RunRow :=
  let* d := gets id in
  let* run := present (runs d !! runId) (Error "Run is not resumable") in
  do* require (isRunResumable runId d || bool_decide (r_status run = R_waiting_input)) (Error "Run is not resumable") in
  do* require (negb (bool_decide (r_status run = R_waiting_input) && has_pending_input runId d))
    (Error "Run is waiting for the requested user input") in
  let resumedFromInput := exists_where (fun _ i => String.eqb (i_runId i) runId && Z.eqb (i_attempt i) (r_attempt run)
    && bool_decide (i_status i = U_submitted)) (inputs d) in
  do* modify (set_runs (alter (fun r =>
    run_next_attempt r (resume_phase (r_phase r)) (r_attempt r + 1) (r_lastEventSeq r) resumedAt) runId)) in
  do* projectAttempt runId (r_attempt run + 1) (if resumedFromInput then T_input else T_resume) A_running
    (if resumedFromInput then "input" else "resume") "" (r_lastEventSeq run) resumedAt in
  let* d' := gets id in
  present (runs d' !! runId) (TypeError "run is undefined").

(** * User input *)

(** A request with its identifier, as the operations return it. *)
Definition UserInputRequest : Type := string * UserInputRow.

Definition getPendingUserInputRequest (runId : string) (d : Db) : option UserInputRequest :=
  head (List.filter (fun i => String.eqb (i_runId i.2) runId && bool_decide (i_status i.2 = U_pending))
    (merge_sort (fun a b => Is_true (i_requestedAt a.2 <=? i_requestedAt b.2)%Z) (map_to_list (inputs d)))).

Definition requestUserInputInternal (runId prompt : string) (fields : list UserInputField)
    (internalHook : UserInputRequest -> RunEvent -> tx Db unit) (timestamp : Z) : tx Db UserInputRequest :=
  let* d := gets id in
  let* run := present (runs d !! runId) (Error "Run is not active") in
  do* require (bool_decide (r_status run = R_running)) (Error "Run is not active") in
  match getPendingUserInputRequest runId d with
  | Some existing => mret existing
  | None =>
      let* rid := randomUUID in
      let aid := attempt_id runId (r_attempt run) in
      let request :=
        {| i_runId := runId; i_attempt := r_attempt run; i_prompt := prompt; i_fields := fields; i_status := U_pending;
           i_response := []; i_requestedAt := timestamp; i_submittedAt := None |} in
      let seq := (r_lastEventSeq run + 1)%Z in
      let data := JObj [("requestId", JStr rid); ("prompt", JStr prompt); ("fields", JArr (map field_json fields))] in
      do* insert_event runId seq
        {| e_attemptId := aid; e_type := "run.waiting_for_input"; e_data := data; e_createdAt := timestamp |} in
      let* m := gets inputs in
      do* require (bool_decide (m !! rid = None)) (SqliteError "user_input_requests.id") in
      do* require (negb (exists_where (fun _ i => String.eqb (i_runId i) runId && bool_decide (i_status i = U_pending)) m))
        (SqliteError "user_input_requests.pending") in
      do* modify (set_inputs (insert rid request)) in
      do* update_run runId (fun r => bool_decide (r_status r = R_running))
        (fun r => run_status_to r R_waiting_input P_waiting_input prompt None seq timestamp) in
      do* deactivate_checkpoint runId timestamp in
      do* projectAttempt runId (r_attempt run) T_input A_waiting_input "input" prompt seq timestamp in
      do* finalizeAttemptProjectionCheckpoint runId aid (r_attempt run) seq timestamp in
      do* internalHook (rid, request)
        {| ev_runId := runId; ev_seq := seq; ev_type := "run.waiting_for_input"; ev_data := data;
           ev_createdAt := timestamp |} in
      mret (rid, request)
  end.

Definition requestUserInput (runId prompt : string) (fields : list UserInputField) (timestamp : Z)
    : tx Db UserInputRequest :=
  requestUserInputInternal runId prompt fields (fun _ _ => mret tt) timestamp.

(** [response[key] ?? ""] *)
Definition answer (response : list (string * string)) (key : string) : string :=
  match List.find (fun kv => String.eqb kv.1 key) response with Some kv => kv.2 | None => "" end.

Definition input_answered (i : UserInputRow) (response : list (string * string)) (submittedAt : Z) : UserInputRow :=
  {| i_runId := i_runId i; i_attempt := i_attempt i; i_prompt := i_prompt i; i_fields := i_fields i;
     i_status := U_submitted; i_response := response; i_requestedAt := i_requestedAt i;
     i_submittedAt := Some submittedAt |}.

(** [Object.fromEntries] keeps the last entry of a repeated key. *)
Fixpoint from_entries (kvs : list (string * string)) (acc : list (string * string)) : list (string * string) :=
  match kvs with
  | [] => acc
  | (k, v) :: kvs' =>
      let put := (fix put (l : list (string * string)) :=
        match l with
        | [] => [(k, v)]
        | (k', v') :: l' => if String.eqb k k' then (k, v) :: l' else (k', v') :: put l'
        end) in
      from_entries kvs' (put acc)
  end.

Definition submitUserInput (requestId : string) (response : list (string * string)) (submittedAt : Z)
    : tx Db (UserInputRequest * RunRow) :=
  let not_pending := Error "User input request is not pending" in
  let* d := gets id in
  let* row := present (inputs d !! requestId) not_pending in
  do* require (bool_decide (i_status row = U_pending)) not_pending in
  do* for_each (fun f =>
    require (negb (f_required f && blank (answer response (f_key f)))) (Error (f_label f +:+ " is required"))) (i_fields row) in
  let normalized := from_entries (map (fun f => (f_key f, trim (answer response (f_key f)))) (i_fields row)) [] in
  let submitted := input_answered row normalized submittedAt in
  do* modify (set_inputs (insert requestId submitted)) in
  let* run := present (runs d !! i_runId row) (TypeError "run is undefined") in
  mret ((requestId, submitted), run).

(** * Phases *)

Definition phase_rank (p : RunPhase) : Z :=
  match p with P_discover => 0 | P_plan => 1 | P_implement => 2 | P_verify => 3 | P_review => 4 | _ => 99 end.

Definition advanceRunPhase (runId : string) (phase : RunPhase) (timestamp : Z) : tx Db bool :=
  let* changes := update_run runId
    (fun r => bool_decide (r_status r = R_running) && (phase_rank (r_phase r) <? phase_rank phase)%Z)
    (fun r => run_phase_to r phase timestamp) in
  mret (Z.eqb changes 1).

Definition setRunPhase (runId : string) (phase : RunPhase) (timestamp : Z) : tx Db bool :=
  match phase with
  | P_done | P_blocked | P_waiting_input => mret false
  | _ => advanceRunPhase runId phase timestamp
  end.

(** * Checkpoints *)

Definition getCheckpoint (runId : string) (d : Db) : option CheckpointRow := checkpoints d !! runId.

(** [currentTool] is given by its JSON text, empty for [null]. *)
Definition upsertCheckpoint (runId : string) (attempt : Z) (active : bool) (assistantPartial currentTool : string)
    (lastEventSeq lastTranscriptSeq updatedAt : Z) : tx Db (option CheckpointRow) :=
  let* d := gets id in
  let row :=
    {| k_attempt := attempt; k_attemptId := attempt_id runId attempt; k_active := active;
       k_assistantPartial := assistantPartial; k_currentToolJson := currentTool; k_lastEventSeq := lastEventSeq;
       k_lastTranscriptSeq := lastTranscriptSeq; k_updatedAt := updatedAt |} in
  match getCheckpoint runId d with
  | Some k =>
      if Z.eqb (k_attempt k) attempt && Bool.eqb (k_active k) active
         && String.eqb (k_assistantPartial k) assistantPartial && String.eqb (k_currentToolJson k) currentTool
         && Z.eqb (k_lastEventSeq k) lastEventSeq && Z.eqb (k_lastTranscriptSeq k) lastTranscriptSeq
      then mret (Some k)
      else
        let current := match runs d !! runId with
          | Some r => bool_decide (r_status r = R_running) && Z.eqb (r_attempt r) attempt
          | None => false
          end in
        do* (if (k_attempt k <? attempt)%Z || (Z.eqb attempt (k_attempt k) && current)
             then modify (set_checkpoints (insert runId row)) else mret tt) in
        gets (getCheckpoint runId)
  | None =>
      do* require (bool_decide (is_Some (runs d !! runId))) (SqliteError "run_checkpoints.run_id") in
      do* modify (set_checkpoints (insert runId row)) in
      gets (getCheckpoint runId)
  end.

End store.
