(* ===== verification/Transcript.v ===== *)
(** The transcript of a TaskRun (adapters/persistence-sqlite/src/sqlite/
    transcript-repository.ts): messages are appended under gapless sequence
    numbers, and the calls an interruption left without a result are closed by
    synthetic results. *)
From S2P Require Import Prelude Json Attempt ExecDb RunStore.
Local Open Scope tx_scope.

(** * Reading *)

(** [WHERE run_id = ?] *)
Definition transcript_rows (runId : string) (d : Db) : list (Z * TranscriptRow) :=
  map (fun kr => (kr.1.2, kr.2)) (List.filter (fun kr => String.eqb kr.1.1 runId) (map_to_list (transcript d))).

(** [ORDER BY t.seq] *)
Definition seq_le (a b : Z * TranscriptRow) : Prop := Is_true (a.1 <=? b.1)%Z.

#[export] Instance seq_le_dec a b : Decision (seq_le a b).
Proof. unfold seq_le. apply _. Defined.

Definition listTranscriptEntries (runId : string) (d : Db) : list (Z * TranscriptRow) :=
  merge_sort seq_le (transcript_rows runId d).

Definition listTranscript (runId : string) (d : Db) : list json := map (fun e => tr_message e.2) (listTranscriptEntries runId d).

(** [COALESCE(MAX(seq), 0)] *)
Definition getLastTranscriptSeq (runId : string) (d : Db) : Z :=
  foldr (fun e acc => Z.max e.1 acc) 0%Z (transcript_rows runId d).

(** * Appending *)

(** The usage counters of the TaskRun are left out. *)
Definition appendTranscript (runId : string) (attempt : Z) (message : json) (timestamp : Z) : tx Db Z :=
  let* d := gets id in
  let seq := (getLastTranscriptSeq runId d + 1)%Z in
  do* require (bool_decide (is_Some (runs d !! runId))) (SqliteError "run_transcript.run_id") in
  do* modify (set_transcript (insert (runId, seq) {| tr_attempt := attempt; tr_message := message |})) in
  mret seq.

(** * Calls without a result *)

(** The members the repair reads; a message has the members of its role. *)
Definition member (k : string) (v : json) : option json := match v with JObj fs => field k fs | _ => None end.

Definition member_is (k text : string) (v : json) : bool := opt_str_is (member k v) text.

Definition member_text (k : string) (v : json) : string := match member k v with Some (JStr s) => s | _ => "" end.

Definition parts (message : json) : list json := match member "content" message with Some (JArr l) => l | _ => [] end.

(** A Map from the calls to their tools, in insertion order. *)
Fixpoint map_set (k v : string) (m : list (string * string)) : list (string * string) :=
  match m with
  | [] => [(k, v)]
  | (k', v') :: m' => if String.eqb k' k then (k, v) :: m' else (k', v') :: map_set k v m'
  end.

Definition map_delete (k : string) (m : list (string * string)) : list (string * string) :=
  List.filter (fun kv => negb (String.eqb kv.1 k)) m.

Definition observe_part (pending : list (string * string)) (part : json) : list (string * string) :=
  if member_is "type" "toolCall" part then map_set (member_text "id" part) (member_text "name" part) pending else pending.

Definition observe (pending : list (string * string)) (message : json) : list (string * string) :=
  if member_is "role" "assistant" message then fold_left observe_part (parts message) pending
  else if member_is "role" "toolResult" message then map_delete (member_text "toolCallId" message) pending
  else pending.

Definition pending_calls (messages : list json) : list (string * string) := fold_left observe messages [].

(** * Repair *)

Inductive RepairReason := RR_cancelled | RR_resume | RR_continuation.

Definition repair_text (r : RepairReason) : string :=
  match r with RR_cancelled => "cancelled" | RR_resume => "resume" | RR_continuation => "continuation" end.

Definition synthetic_result (reason : RepairReason) (timestamp : Z) (call : string * string) : json :=
  JObj [("role", JStr "toolResult"); ("toolCallId", JStr call.1); ("toolName", JStr call.2);
        ("content", JArr [JObj [("type", JStr "text");
          ("text", JStr ("Tool result synthesized by TAgent Core because the " +:+ repair_text reason +:+ " boundary interrupted this call."))]]);
        ("details", JObj [("synthetic", JBool true); ("reason", JStr (repair_text reason))]); ("isError", JBool true);
        ("error", JObj [("name", JStr "ToolExecutionError"); ("code", JStr "ABORTED");
                        ("message", JStr ("Tool call interrupted by " +:+ repair_text reason +:+ " boundary"))]);
        ("timestamp", JInt timestamp)].

Definition repairTranscript (runId : string) (reason : RepairReason) (timestamp : Z) : tx Db (list (string * string)) :=
  let* d := gets id in
  let* run := present (runs d !! runId) (Error ("Unknown run " +:+ runId)) in
  let pending := pending_calls (listTranscript runId d) in
  do* for_each (fun call => let* _ := appendTranscript runId (r_attempt run) (synthetic_result reason timestamp call) timestamp in mret tt)
    pending in
  mret pending.
