(* ===== verification/Tools.v ===== *)
(** Operations and tool calls of an Attempt (adapters/persistence-sqlite/src/
    store.ts): idempotent claims bound to a payload hash, compare-and-set
    updates, and the guard against repeated tool calls. *)
From S2P Require Import Prelude Json Attempt ExecDb.
Local Open Scope tx_scope.

Section tools.
Context `{Platform}.

(** * Payload hashes *)

Definition by_locale (a b : string * json) : Prop := Is_true (localeLe a.1 b.1).

#[local] Instance by_locale_dec a b : Decision (by_locale a b).
Proof. unfold by_locale. apply _. Defined.

Fixpoint canonicalize (value : json) : json :=
  match value with
  | JArr l => JArr (map canonicalize l)
  | JObj fs => JObj (merge_sort by_locale (map (fun kv => (kv.1, canonicalize kv.2)) fs))
  | _ => value
  end.

Definition canonicalHash (payload : json) : string := sha256 (stringify (canonicalize payload)).

(** * Operations *)

(** What [claimOperation] returns: the receipt, and whether this call made it. *)
Definition claimOperation (id runId : string) (attempt : Z) (operationType : string) (payload : json) (timestamp : Z)
    : tx Db (OperationRow * bool) :=
  let payloadHash := canonicalHash payload in
  let* d := gets (fun d => d) in
  let fresh_row :=
    {| o_runId := runId; o_attempt := attempt; o_operationType := operationType; o_payloadHash := payloadHash;
       o_payload := payload; o_status := "running"; o_stage := "executing"; o_effects := []; o_result := None;
       o_error := ""; o_createdAt := timestamp; o_updatedAt := timestamp; o_completedAt := None |} in
  let inserted := bool_decide (operations d !! id = None) in
  do* (if inserted then
         do* require (bool_decide (is_Some (runs d !! runId))) (SqliteError "operations.run_id") in
         modify (set_operations (insert id fresh_row))
       else mret tt) in
  let receipt := default fresh_row (operations d !! id) in
  do* require (String.eqb (o_operationType receipt) operationType && String.eqb (o_payloadHash receipt) payloadHash
               && String.eqb (o_runId receipt) runId)
    (Error "Operation ID already exists with a different payload or scope") in
  mret (receipt, inserted).

Record OperationUpdate := {
  ou_status : string; ou_stage : option string; ou_effects : option (list json); ou_result : option json;
  ou_error : option string; ou_expectedStatuses : option (list string);
}.

Definition terminal_operation (status : string) : bool :=
  includes status ["succeeded"; "failed"; "cancelled"; "outcome_unknown"].

Definition operation_to (o : OperationRow) (u : OperationUpdate) (timestamp : Z) : OperationRow :=
  {| o_runId := o_runId o; o_attempt := o_attempt o; o_operationType := o_operationType o;
     o_payloadHash := o_payloadHash o; o_payload := o_payload o; o_status := ou_status u;
     o_stage := default (o_stage o) (ou_stage u); o_effects := default (o_effects o) (ou_effects u);
     o_result := match ou_result u with Some r => Some r | None => o_result o end;
     o_error := default (o_error o) (ou_error u); o_createdAt := o_createdAt o; o_updatedAt := timestamp;
     o_completedAt := if terminal_operation (ou_status u) then Some timestamp else None |}.

Definition updateOperation (id : string) (u : OperationUpdate) (timestamp : Z) : tx Db OperationRow :=
  let* d := gets (fun d => d) in
  let* current := present (operations d !! id) (Error ("Unknown operation " +:+ id)) in
  let expected := default (if terminal_operation (ou_status u) then ["running"%string] else [o_status current])
    (ou_expectedStatuses u) in
  do* require (includes (o_status current) expected)
    (Error ("Operation " +:+ id +:+ " cannot transition from " +:+ o_status current +:+ " to " +:+ ou_status u)) in
  do* modify (set_operations (insert id (operation_to current u timestamp))) in
  mret (operation_to current u timestamp).

(** * Tool calls *)

Record ToolGuard := { tg_blocked : bool; tg_reason : string }.

(** How many items at the head of the list satisfy [p]. *)
Fixpoint leading {A} (p : A -> bool) (l : list A) : nat :=
  match l with
  | [] => 0
  | x :: l' => if p x then S (leading p l') else 0
  end.

(** The finished calls of the run, newest first. *)
Definition recent_calls (runId : string) (d : Db) : list ToolAttemptRow :=
  take 50 (merge_sort (fun a b => Is_true (ta_id b <=? ta_id a)%Z)
    (List.filter (fun t => negb (bool_decide (ta_status t = TS_running)))
      (map snd (List.filter (fun kt => String.eqb kt.1.1.1 runId) (map_to_list (tool_attempts d)))))).

Definition guard_calls (recent : list ToolAttemptRow) (toolName argsHash : string) : ToolGuard :=
  let same t := String.eqb (ta_toolName t) toolName && String.eqb (ta_argsHash t) argsHash in
  let failed t := bool_decide (ta_status t = TS_failed) in
  let sameArgs := leading same recent in
  let sameArgsFailures := leading (fun t => same t && failed t) recent in
  let sameToolFailures := leading (fun t => String.eqb (ta_toolName t) toolName && failed t) recent in
  if Nat.leb 5 sameArgs then
    {| tg_blocked := true;
       tg_reason := "Tool " +:+ toolName +:+ " repeated the same arguments " +:+ pretty sameArgs +:+ " times" |}
  else if String.eqb toolName "bash" && Nat.leb 1 sameArgsFailures then
    {| tg_blocked := true;
       tg_reason := "Bash already failed or timed out with identical arguments. Inspect its durable output and change the command, timeout, or stage instead of repeating it." |}
  else if Nat.leb 3 sameArgsFailures then
    {| tg_blocked := true;
       tg_reason := "Tool " +:+ toolName +:+ " failed with the same arguments " +:+ pretty sameArgsFailures +:+ " times" |}
  else if Nat.leb 6 sameToolFailures then
    {| tg_blocked := true;
       tg_reason := "Tool " +:+ toolName +:+ " failed consecutively " +:+ pretty sameToolFailures +:+ " times" |}
  else {| tg_blocked := false; tg_reason := "" |}.

Definition evaluateToolGuard (runId toolName argsHash : string) (d : Db) : ToolGuard :=
  guard_calls (recent_calls runId d) toolName argsHash.

(** The next AUTOINCREMENT key: rows of the table are never deleted. *)
Definition next_tool_id (d : Db) : Z :=
  (map_fold (fun _ t acc => Z.max (ta_id t) acc) 0 (tool_attempts d) + 1)%Z.

Record ToolReceipt := { tc_argsHash : string; tc_created : bool; tc_status : ToolAttemptStatus; tc_guard : ToolGuard }.

Definition recordToolAttempt (runId : string) (attempt : Z) (toolCallId toolName : string) (args : json) (timestamp : Z)
    : tx Db ToolReceipt :=
  let argsHash := canonicalHash args in
  let key := (runId, attempt, toolCallId) in
  let* d := gets (fun d => d) in
  let fresh_row :=
    {| ta_id := next_tool_id d; ta_toolName := toolName; ta_argsHash := argsHash; ta_status := TS_running;
       ta_error := ""; ta_createdAt := timestamp; ta_completedAt := None |} in
  let inserted := bool_decide (tool_attempts d !! key = None) in
  do* (if inserted then
         do* require (bool_decide (is_Some (runs d !! runId))) (SqliteError "tool_attempts.run_id") in
         modify (set_tool_attempts (insert key fresh_row))
       else mret tt) in
  let row := default fresh_row (tool_attempts d !! key) in
  do* require (String.eqb (ta_toolName row) toolName && String.eqb (ta_argsHash row) argsHash)
    (Error ("Tool attempt " +:+ toolCallId +:+ " already exists with different content")) in
  let* guard := gets (evaluateToolGuard runId toolName argsHash) in
  mret {| tc_argsHash := argsHash; tc_created := inserted; tc_status := ta_status row; tc_guard := guard |}.

Definition tool_completed (t : ToolAttemptRow) (success : bool) (error : string) (timestamp : Z) : ToolAttemptRow :=
  {| ta_id := ta_id t; ta_toolName := ta_toolName t; ta_argsHash := ta_argsHash t;
     ta_status := if success then TS_succeeded else TS_failed; ta_error := error; ta_createdAt := ta_createdAt t;
     ta_completedAt := Some timestamp |}.

Definition completeToolAttempt (runId : string) (attempt : Z) (toolCallId : string) (success : bool) (error : string)
    (timestamp : Z) : tx Db bool :=
  let key := (runId, attempt, toolCallId) in
  let* m := gets tool_attempts in
  match m !! key with
  | Some t =>
      if bool_decide (ta_status t = TS_running) then
        do* modify (set_tool_attempts (insert key (tool_completed t success error timestamp))) in mret true
      else mret false
  | None => mret false
  end.

End tools.

(** * The guard *)

Lemma leading_spec {A} (p : A -> bool) n l :
  n <= leading p l <-> n <= length l /\ Forall (fun x => p x = true) (take n l).
Proof.
  revert n. induction l as [|x l IH]; intros [|n]; cbn.
  - split; [by constructor|lia].
  - split; [lia|intros [? _]; lia].
  - split; [intros; split; [lia|constructor]|intros; lia].
  - destruct (p x) eqn:E; rewrite ?Forall_cons.
    + rewrite <- !Nat.succ_le_mono, IH. intuition.
    + split; [lia|]. intros [_ [? _]]. congruence.
Qed.
