(* ===== verification/Continuation.v ===== *)
(** Continuations of a blocked TaskRun (adapters/persistence-sqlite/src/
    store.ts): the queue of automatic further Attempts, the lease a scheduler
    holds on the one it runs, its recovery, the two reconciliations of the
    supervisor's decisions after a restart, and the hand-off of a TaskRun to
    another release of the service. *)
From S2P Require Import Prelude Regex Json Attempt ExecDb AttemptRepo RunStore Tools.
Local Open Scope tx_scope.

(** * Rows and constraints *)

Definition continuation_active (s : ContinuationStatus) : bool := includes s [N_queued; N_running].

(** UNIQUE(run_id, ordinal), and at most one queued or running row per run. *)
Definition continuations_conflict (a b : ContinuationRow) : Prop :=
  n_runId a = n_runId b
  /\ (n_ordinal a = n_ordinal b \/ continuation_active (n_status a) = true /\ continuation_active (n_status b) = true).

#[export] Instance continuations_conflict_dec a b : Decision (continuations_conflict a b).
Proof. unfold continuations_conflict. apply _. Defined.

Definition write_continuation (id : string) (n : ContinuationRow) : tx Db unit :=
  let* m := gets continuations in
  do* require (bool_decide (map_Forall (fun j x => j <> id -> ~ continuations_conflict n x) m))
    (SqliteError "run_continuations.unique") in
  modify (set_continuations (insert id n)).

Definition insert_continuation (id : string) (n : ContinuationRow) : tx Db unit :=
  let* m := gets continuations in
  do* require (bool_decide (m !! id = None)) (SqliteError "run_continuations.id") in
  write_continuation id n.

Definition update_continuation (id : string) (p : ContinuationRow -> bool) (f : ContinuationRow -> ContinuationRow)
    : tx Db Z :=
  let* m := gets continuations in
  match m !! id with
  | Some n => if p n then do* write_continuation id (f n) in mret 1%Z else mret 0%Z
  | None => mret 0%Z
  end.

Definition continuation_to (n : ContinuationRow) (status : ContinuationStatus) (error : string)
    (startedAt completedAt : option Z) (owner : string) (leaseUntil heartbeatAt : option Z) : ContinuationRow :=
  {| n_runId := n_runId n; n_ordinal := n_ordinal n; n_sourceAttemptId := n_sourceAttemptId n;
     n_scheduledAttemptId := n_scheduledAttemptId n; n_status := status; n_reason := n_reason n; n_error := error;
     n_notBefore := n_notBefore n; n_createdAt := n_createdAt n; n_startedAt := startedAt; n_completedAt := completedAt;
     n_leaseOwner := owner; n_leaseUntil := leaseUntil; n_heartbeatAt := heartbeatAt |}.

(** Back to the queue: the lease is cleared. *)
Definition requeued (error : string) (n : ContinuationRow) : ContinuationRow :=
  continuation_to n N_queued error None None "" None None.

Definition queued_row (runId : string) (ordinal : Z) (reason : string) (notBefore createdAt : Z) : ContinuationRow :=
  {| n_runId := runId; n_ordinal := ordinal; n_sourceAttemptId := None; n_scheduledAttemptId := None;
     n_status := N_queued; n_reason := reason; n_error := ""; n_notBefore := notBefore; n_createdAt := createdAt;
     n_startedAt := None; n_completedAt := None; n_leaseOwner := ""; n_leaseUntil := None; n_heartbeatAt := None |}.

Definition attempt_links (n : ContinuationRow) (source scheduled : string) : ContinuationRow :=
  {| n_runId := n_runId n; n_ordinal := n_ordinal n; n_sourceAttemptId := Some source;
     n_scheduledAttemptId := Some scheduled; n_status := n_status n; n_reason := n_reason n; n_error := n_error n;
     n_notBefore := n_notBefore n; n_createdAt := n_createdAt n; n_startedAt := n_startedAt n;
     n_completedAt := n_completedAt n; n_leaseOwner := n_leaseOwner n; n_leaseUntil := n_leaseUntil n;
     n_heartbeatAt := n_heartbeatAt n |}.

(** * Reads *)

Definition continuations_where (p : string -> ContinuationRow -> bool) (d : Db) : list (string * ContinuationRow) :=
  List.filter (fun kn => p kn.1 kn.2) (map_to_list (continuations d)).

Definition by_ordinal (a b : string * ContinuationRow) : Prop := Is_true (n_ordinal a.2 <=? n_ordinal b.2)%Z.
#[export] Instance by_ordinal_dec a b : Decision (by_ordinal a b).
Proof. unfold by_ordinal. apply _. Defined.

Definition by_creation (a b : string * ContinuationRow) : Prop := Is_true (n_createdAt a.2 <=? n_createdAt b.2)%Z.
#[export] Instance by_creation_dec a b : Decision (by_creation a b).
Proof. unfold by_creation. apply _. Defined.

Definition listContinuations (runId : string) (d : Db) : list (string * ContinuationRow) :=
  merge_sort by_ordinal (continuations_where (fun _ n => String.eqb (n_runId n) runId) d).

(** [COALESCE(MAX(ordinal), 0) + 1] *)
Definition next_ordinal (runId : string) (d : Db) : Z :=
  (map_fold (fun _ n acc => if String.eqb (n_runId n) runId then Z.max (n_ordinal n) acc else acc) 0 (continuations d) + 1)%Z.

Definition lease_unexpired (timestamp : Z) (n : ContinuationRow) : bool :=
  match n_leaseUntil n with Some t => (timestamp <? t)%Z | None => false end.

(** [status = 'running' AND lease_owner = ?] *)
Definition leased_to (owner : string) (n : ContinuationRow) : bool :=
  bool_decide (n_status n = N_running) && String.eqb (n_leaseOwner n) owner.

Definition ownsContinuationLease (id owner : string) (timestamp : Z) (d : Db) : bool :=
  match continuations d !! id with Some n => leased_to owner n && lease_unexpired timestamp n | None => false end.

(** When a continuation asks to be looked at. *)
Definition wake_up (timestamp : Z) (n : ContinuationRow) : option Z :=
  match n_status n with
  | N_running => n_leaseUntil n
  | N_queued => Some (if (timestamp <? n_notBefore n)%Z then n_notBefore n else timestamp + 1000)%Z
  | _ => None
  end.

(** [MIN] of the lease ends and of the queued wake-up times. *)
Definition nextContinuationLeaseExpiry (timestamp : Z) (d : Db) : option Z :=
  map_fold (fun _ n acc =>
    match wake_up timestamp n, acc with
    | Some t, Some u => Some (Z.min t u)
    | Some t, None => Some t
    | None, _ => acc
    end) None (continuations d).

Section continuation.
Context `{Platform}.

(** * The queue *)

(** [notBefore] is an integer: [Math.floor] leaves it as it is. *)
Definition queueContinuation (runId reason : string) (notBefore timestamp : Z) : tx Db (string * ContinuationRow) :=
  let* d := gets id in
  do* require (negb (exists_where (fun _ n => String.eqb (n_runId n) runId && continuation_active (n_status n)) (continuations d)))
    (Error "Run already has an active continuation") in
  let row := queued_row runId (next_ordinal runId d) reason (Z.max 0 notBefore) timestamp in
  let* id := randomUUID in
  do* require (bool_decide (is_Some (runs d !! runId))) (SqliteError "run_continuations.run_id") in
  do* insert_continuation id row in
  mret (id, row).

Definition due (runId : string) (timestamp : Z) (n : ContinuationRow) : bool :=
  String.eqb (n_runId n) runId && bool_decide (n_status n = N_queued) && (n_notBefore n <=? timestamp)%Z.

(** Another TaskRun of the session is running. *)
Definition session_busy (sessionId runId : string) (d : Db) : bool :=
  exists_where (fun i r => String.eqb (r_sessionId r) sessionId && negb (String.eqb i runId)
    && bool_decide (r_status r = R_running)) (runs d).

Definition claimed_row (owner : string) (leaseMs timestamp : Z) (n : ContinuationRow) : ContinuationRow :=
  continuation_to n N_running "" (coalesce (n_startedAt n) (Some timestamp)) None owner (Some (timestamp + leaseMs)%Z)
    (Some timestamp).

Definition blocked_phase (p : RunPhase) : RunPhase := match p with P_blocked => P_implement | _ => p end.

Definition claim_data (id : string) (ordinal attempt : Z) (owner : string) (leaseUntil : Z) : json :=
  JObj [("continuationId", JStr id); ("ordinal", JInt ordinal); ("attempt", JInt attempt); ("leaseOwner", JStr owner);
        ("leaseUntil", JInt leaseUntil)].

Definition claimContinuation (runId owner : string) (leaseMs timestamp : Z)
    : tx Db (option (string * ContinuationRow * RunRow * RunEvent)) :=
  let* d := gets id in
  match head (merge_sort by_ordinal (continuations_where (fun _ n => due runId timestamp n) d)) with
  | None => mret None
  | Some (cid, continuation) =>
      match runs d !! runId with
      | None => mret None
      | Some run =>
          if negb (bool_decide (r_status run = R_blocked)) then mret None
          else if session_busy (r_sessionId run) runId d then mret None
          else
            let* claimed := update_continuation cid
              (fun n => bool_decide (n_status n = N_queued) && (n_notBefore n <=? timestamp)%Z)
              (claimed_row owner leaseMs timestamp) in
            if negb (Z.eqb claimed 1) then mret None
            else
              let attempt := (r_attempt run + 1)%Z in
              let seq := (r_lastEventSeq run + 1)%Z in
              let data := claim_data cid (n_ordinal continuation) attempt owner (timestamp + leaseMs)%Z in
              let attemptId := attempt_id runId attempt in
              do* insert_event runId seq
                {| e_attemptId := attemptId; e_type := "continuation.started"; e_data := data; e_createdAt := timestamp |} in
              let* resumed := update_run runId (fun r => bool_decide (r_status r = R_blocked))
                (fun r => run_next_attempt r (blocked_phase (r_phase r)) attempt seq timestamp) in
              do* require (Z.eqb resumed 1) (Error "Continuation claim lost its Run compare-and-set race") in
              do* update_continuation cid (fun _ => true)
                (fun n => attempt_links n (attempt_id runId (attempt - 1)) attemptId) in
              do* projectAttempt runId attempt T_continuation A_running "continuation" "" seq timestamp in
              let* d' := gets id in
              let* row := present (continuations d' !! cid) (TypeError "continuation is undefined") in
              let* run' := present (runs d' !! runId) (TypeError "run is undefined") in
              mret (Some (cid, row, run',
                {| ev_runId := runId; ev_seq := seq; ev_type := "continuation.started"; ev_data := data;
                   ev_createdAt := timestamp |}))
      end
  end.

Definition renewContinuationLease (id owner : string) (leaseMs timestamp : Z) : tx Db bool :=
  let* changes := update_continuation id (fun n => leased_to owner n && lease_unexpired timestamp n)
    (fun n => continuation_to n (n_status n) (n_error n) (n_startedAt n) (n_completedAt n) (n_leaseOwner n)
                (Some (timestamp + leaseMs)%Z) (Some timestamp)) in
  mret (Z.eqb changes 1).

(** [owner] is [None] when the caller does not pass one. *)
Definition updateContinuation (id : string) (status : ContinuationStatus) (error : string) (owner : option string)
    (timestamp : Z) : tx Db bool :=
  let running := bool_decide (status = N_running) in
  let startedAt := if running then Some timestamp else None in
  let completedAt := if includes status [N_completed; N_blocked; N_failed; N_cancelled] then Some timestamp else None in
  let* changes := update_continuation id
    (fun n => match owner with None => true | Some o => String.eqb (n_leaseOwner n) o end)
    (fun n => continuation_to n status error (coalesce (n_startedAt n) startedAt) (coalesce completedAt (n_completedAt n))
                (if running then n_leaseOwner n else "") (if running then n_leaseUntil n else None)
                (if running then n_heartbeatAt n else None)) in
  mret (Z.eqb changes 1).

Definition cancelQueuedContinuations (runId reason : string) (timestamp : Z) : tx Db unit :=
  modify (set_continuations (update_where (fun n => String.eqb (n_runId n) runId && bool_decide (n_status n = N_queued))
    (fun n => continuation_to n N_cancelled reason (n_startedAt n) (Some timestamp) (n_leaseOwner n) (n_leaseUntil n)
                (n_heartbeatAt n)))).

(** * Leases that end *)

(** The TaskRun and its Attempt are blocked when their continuation goes back
    to the queue; [attempt] and [seq] were read with the continuation. *)
Definition block_run (runId reason : string) (attempt seq timestamp : Z) : tx Db unit :=
  do* update_run runId (fun r => includes (r_status r) [R_running; R_interrupted; R_blocked])
    (fun r => run_status_to r R_blocked P_blocked reason None (r_lastEventSeq r) timestamp) in
  do* deactivate_checkpoint runId timestamp in
  projectAttempt runId attempt T_recovery A_blocked "recovery" reason seq timestamp.

Definition recovered_reason : string := "Continuation recovered after service restart".

(** The rows of the query: the continuation with the run it joins. *)
Definition joined (p : string -> ContinuationRow -> bool) (d : Db) : list (string * ContinuationRow * RunRow) :=
  omap (fun kn => (fun r => (kn, r)) <$> runs d !! n_runId kn.2)
    (merge_sort by_creation (continuations_where p d)).

Definition recover_one (timestamp : Z) (item : string * ContinuationRow * RunRow) : tx Db unit :=
  let '(id, n, r) := item in
  if bool_decide (n_status n = N_queued) then mret tt
  else
    do* update_continuation id (fun _ => true) (requeued "Recovered after lease expiry") in
    block_run (n_runId n) recovered_reason (r_attempt r) (r_lastEventSeq r) timestamp.

Definition recoverContinuationsAfterRestart (timestamp : Z) : tx Db (list (string * string * Z)) :=
  let* active := gets (joined (fun _ n =>
    bool_decide (n_status n = N_queued) && (n_notBefore n <=? timestamp)%Z
    || bool_decide (n_status n = N_running) && match n_leaseUntil n with None => true | Some t => (t <=? timestamp)%Z end)) in
  do* for_each (recover_one timestamp) active in
  mret (map (fun item => (item.1.1, n_runId item.1.2, n_ordinal item.1.2)) active).

Definition release_one (owner reason : string) (timestamp : Z) (item : string * ContinuationRow * RunRow) : tx Db unit :=
  let '(id, n, r) := item in
  do* update_continuation id (leased_to owner) (requeued reason) in
  block_run (n_runId n) reason (r_attempt r) (r_lastEventSeq r) timestamp.

Definition releaseContinuationLeases (owner reason : string) (timestamp : Z) : tx Db (list (string * string * Z)) :=
  let* active := gets (joined (fun _ n => leased_to owner n)) in
  do* for_each (release_one owner reason timestamp) active in
  mret (map (fun item => (item.1.1, n_runId item.1.2, n_ordinal item.1.2)) active).

Definition releaseContinuationLease (id owner reason : string) (timestamp : Z) : tx Db (option (string * string * Z)) :=
  let* active := gets (joined (fun j n => String.eqb j id && leased_to owner n)) in
  match active with
  | [] => mret None
  | (cid, n, r) :: _ =>
      let* released := update_continuation cid (leased_to owner) (requeued reason) in
      if negb (Z.eqb released 1) then mret None
      else
        do* block_run (n_runId n) reason (r_attempt r) (r_lastEventSeq r) timestamp in
        mret (Some (cid, n_runId n, n_ordinal n))
  end.

(** * Safe crash recovery *)

(** [json_extract(contract, '$.executionPolicy.<key>')] as far as it is text. *)
Definition policy_text (contract : option json) (key : string) : option json :=
  match option_bind _ _ record contract with
  | Some fs => match option_bind _ _ record (field "executionPolicy" fs) with Some policy => field key policy | None => None end
  | None => None
  end.

Definition event_reason_is (e : EventRow) (reason : string) : bool :=
  match record (e_data e) with Some fs => opt_str_is (field "reason" fs) reason | None => false end.

Definition recoveries (runId : string) (d : Db) : Z :=
  count_where (fun kr : Z * EventRow => bool_decide (e_type kr.2 = "continuation.queued") && event_reason_is kr.2 "safe_crash_recovery")
    (map_imap (fun k e => if String.eqb k.1 runId then Some (k.2, e) else None) (events d)).

(** The last "restart.interruption" of the run: its sequence number and time. *)
Definition last_interruption (runId : string) (d : Db) : option (Z * Z) :=
  map_fold (fun k e acc =>
    if String.eqb k.1 runId && String.eqb (e_type e) "restart.interruption"
       && match acc with Some (s, _) => (s <? k.2)%Z | None => true end
    then Some (k.2, e_createdAt e) else acc) None (events d).

(** No trace that an effect of the run may have escaped or waits for someone. *)
Definition safe_to_recover (maxRecoveries : Z) (runId : string) (r : RunRow) (d : Db) : bool :=
  bool_decide (r_status r = R_interrupted)
  && negb (opt_str_is (policy_text (r_contract r) "mode") "external_action")
  && negb (opt_str_is (policy_text (r_contract r) "sideEffectRisk") "external_high")
  && negb (exists_where (fun _ p => String.eqb (p_runId p) runId
       && bool_decide (p_actionType p = execute_external_action)) (approvals d))
  && negb (exists_where (fun _ n => String.eqb (n_runId n) runId && continuation_active (n_status n)) (continuations d))
  && negb (exists_where (fun _ o => String.eqb (o_runId o) runId && String.eqb (o_status o) "outcome_unknown") (operations d))
  && negb (exists_where (fun _ q => String.eqb (q_runId q) runId && bool_decide (q_status q = K_outcome_unknown)) (controls d))
  && negb (exists_where (fun k c => String.eqb k.1.2 runId && bool_decide (cm_state c = CS_outcome_unknown)) (commands d))
  && negb (exists_where (fun k t => String.eqb k.1.1 runId && includes (ta_status t) [TS_running; TS_outcome_unknown]) (tool_attempts d))
  && negb (exists_where (fun _ i => String.eqb (i_runId i) runId && bool_decide (i_status i = U_pending)) (inputs d))
  && negb (exists_where (fun _ p => String.eqb (p_runId p) runId && bool_decide (p_status p = Ap_pending)) (approvals d))
  && (recoveries runId d <? maxRecoveries)%Z.

(** A run of the query, with its last interruption. *)
Definition Interrupted : Type := string * RunRow * (Z * Z).

(** ORDER BY interruption.created_at, run.id *)
Definition by_interruption (a b : Interrupted) : Prop :=
  Is_true ((a.2.2 <? b.2.2)%Z || Z.eqb a.2.2 b.2.2 && String.leb a.1.1 b.1.1).
#[export] Instance by_interruption_dec a b : Decision (by_interruption a b).
Proof. unfold by_interruption. apply _. Defined.

Definition recovery_candidates (maxRecoveries : Z) (d : Db) : list Interrupted :=
  merge_sort by_interruption
    (omap (fun kr => if safe_to_recover maxRecoveries kr.1 kr.2 d
                     then (fun i => (kr, i)) <$> last_interruption kr.1 d else None)
      (map_to_list (runs d))).

Definition recovery_reason (interruptionSeq : Z) : string :=
  "Core Generation crash recovery was proven safe." +:+ String.String (Ascii.ascii_of_nat 10) String.EmptyString
  +:+ "[crash-recovery:" +:+ pretty interruptionSeq +:+ "]".

Definition recover_run (clock : string -> Z) (item : Interrupted) : tx Db (string * string * Z) :=
  let '(runId, run, (interruptionSeq, _)) := item in
  let timestamp := clock runId in
  let* d := gets id in
  let ordinal := next_ordinal runId d in
  let* cid := randomUUID in
  let reason := recovery_reason interruptionSeq in
  do* insert_continuation cid (queued_row runId ordinal reason 0 timestamp) in
  let seq := (r_lastEventSeq run + 1)%Z in
  do* insert_event runId seq
    {| e_attemptId := attempt_id runId (r_attempt run); e_type := "continuation.queued";
       e_data := JObj [("continuationId", JStr cid); ("ordinal", JInt ordinal); ("reason", JStr "safe_crash_recovery");
                       ("interruptionSeq", JInt interruptionSeq)];
       e_createdAt := timestamp |} in
  do* update_run runId (fun r => bool_decide (r_status r = R_interrupted))
    (fun r => run_status_to r R_blocked P_blocked reason None seq timestamp) in
  do* deactivate_checkpoint runId timestamp in
  do* projectAttempt runId (r_attempt run) T_recovery A_blocked "recovery" reason seq timestamp in
  do* finalizeAttemptProjectionCheckpoint runId (attempt_id runId (r_attempt run)) (r_attempt run) seq timestamp in
  mret (cid, runId, ordinal).

Definition queueSafeCrashRecoveryContinuations (maxRecoveries : Z) (clock : string -> Z)
    : tx Db (list (string * string * Z)) :=
  do* require (safe_integer maxRecoveries && negb (maxRecoveries <=? 0)%Z)
    (TypeError "maxRecoveries must be a positive safe integer") in
  let* candidates := gets (recovery_candidates maxRecoveries) in
  map_tx (recover_run clock) candidates.

(** * The supervisor's decisions after a restart *)

Definition decision_settled_by_event (runId decisionId : string) (d : Db) : bool :=
  exists_where (fun k e => String.eqb k.1 runId && includes (e_type e) ["run.completed"; "run.blocked"]
    && match record (e_data e) with Some fs => opt_str_is (field "supervisionDecisionId" fs) decisionId | None => false end)
    (events d).

Definition reconcile_decision (timestamp : Z) (d : Db) (x : DecisionRow) : DecisionRow :=
  if bool_decide (d_status x = D_proposed) then
    if decision_settled_by_event (d_runId x) (d_id x) d
    then decision_to x D_executed (d_error x) (coalesce (d_executedAt x) (Some timestamp))
    else decision_to x D_superseded "Service restarted before decision execution completed" (d_executedAt x)
  else x.

(** Each proposed decision is updated on its own; the events it reads are not
    written, so the updates are one map over the table. *)
Definition reconcileSupervisorDecisionStatuses (timestamp : Z) : tx Db (Z * Z) :=
  let* d := gets id in
  let proposed x := bool_decide (d_status x = D_proposed) in
  let executed := count_where (fun x => proposed x && decision_settled_by_event (d_runId x) (d_id x) d) (decisions d) in
  let superseded := count_where (fun x => proposed x && negb (decision_settled_by_event (d_runId x) (d_id x) d)) (decisions d) in
  do* modify (set_decisions (fmap (reconcile_decision timestamp d))) in
  mret (executed, superseded).

Definition by_decision (a b : DecisionRow) : Prop := Is_true (d_createdAt a <=? d_createdAt b)%Z.
#[export] Instance by_decision_dec a b : Decision (by_decision a b).
Proof. unfold by_decision. apply _. Defined.

Definition listSupervisorContinuationsNeedingReconcile (d : Db) : list (string * string) :=
  map (fun x => (d_runId x, d_id x)) (merge_sort by_decision (List.filter (fun x =>
    bool_decide (d_action x = S_start_continuation) && bool_decide (d_status x = D_executed)
    && match runs d !! d_runId x with
       | Some r => bool_decide (r_status r = R_blocked) && Z.eqb (d_attempt x) (r_attempt r)
       | None => false
       end
    && negb (exists_where (fun _ n => String.eqb (n_runId n) (d_runId x) && continuation_active (n_status n)) (continuations d))
    && negb (exists_where (fun k e => String.eqb k.1 (d_runId x) && String.eqb (e_type e) "continuation.exhausted"
                             && (d_createdAt x <=? e_createdAt e)%Z) (events d)))
    (map snd (map_to_list (decisions d))))).

(** * The hand-off to another release *)

(** [GenerationActivationRequest] *)
Record GenerationActivationRequest := {
  ga_requestId : string; ga_operationId : string; ga_runId : string; ga_targetRelease : string;
  ga_expectedCurrent : string; ga_reason : string;
}.

#[export] Instance activation_request_dec : EqDecision GenerationActivationRequest.
Proof. solve_decision. Defined.

(** [succeeded] or one of the failures *)
Record GenerationActivationResult := { gr_requestId : string; gr_status : string; gr_activeRelease : string; gr_error : option string }.

Definition GENERATION_ACTIVATION_OPERATION : string := "maintenance.activate_generation".
Definition GENERATION_HANDOFF_MARKER : string := "restart-handoff".

(** [/^[0-9a-f]{n}$/.test(s)] *)
Definition hex_text (n : nat) (s : string) : bool :=
  Nat.eqb (String.length s) n && forallb is_hex (String.list_ascii_of_string s).

(** [String(v)] where it can be text of hexadecimal digits: of text, and of an
    array of one such value. *)
Fixpoint digit_text (v : json) : string :=
  match v with JStr s => s | JArr [x] => digit_text x | _ => "" end.

(** [typeof value[key] === "string" && value[key].trim()] *)
Definition filled (key : string) (fs : list (string * json)) : option string :=
  match field key fs with Some (JStr s) => if blank s then None else Some s | _ => None end.

Definition activation_keys : list string :=
  ["accepted"; "expectedCurrent"; "observedAt"; "operationId"; "reason"; "requestId"; "resultDigest"; "targetRelease"].

(** A result that is no JSON text is no result. *)
Definition generationActivationFromOperation (operationId runId : string) (o : option json) : result GenerationActivationRequest :=
  let bad what := Throw (Error ("Generation activation operation " +:+ operationId +:+ what)) in
  match o with
  | None => bad " has invalid result JSON"
  | Some result =>
      match (fs ← record result; details ← field "details" fs; record details) with
      | None => bad " has no request details"
      | Some value =>
          if negb (exact_keys value activation_keys) then bad " has unexpected request details"
          else if negb (match field "accepted" value with Some (JBool true) => true | _ => false end
                        && opt_str_is (field "operationId" value) operationId && opt_str_is (field "requestId" value) operationId)
          then bad " result identity is inconsistent"
          else
            match filled "requestId" value with
            | None => bad " has invalid requestId"
            | Some requestId =>
                match filled "targetRelease" value with
                | None => bad " has invalid targetRelease"
                | Some targetRelease =>
                    match filled "expectedCurrent" value with
                    | None => bad " has invalid expectedCurrent"
                    | Some expectedCurrent =>
                        match filled "reason" value with
                        | None => bad " has invalid reason"
                        | Some reason =>
                            if negb (String.eqb targetRelease "current" || hex_text 40 targetRelease)
                            then bad " has invalid targetRelease"
                            else if negb (hex_text 40 expectedCurrent) then bad " has invalid expectedCurrent"
                            else if negb (match field "observedAt" value with Some (JInt n) => safe_integer n | _ => false end
                                          && hex_text 64 (match field "resultDigest" value with Some v => digit_text v | None => "" end))
                            then bad " has invalid receipt evidence"
                            else Ok {| ga_requestId := requestId; ga_operationId := operationId; ga_runId := runId;
                                       ga_targetRelease := targetRelease; ga_expectedCurrent := expectedCurrent; ga_reason := reason |}
                        end
                    end
                end
            end
      end
  end.

(** The rows of the events of a TaskRun that satisfy [p], by their number. *)
Definition by_seq (a b : Z * EventRow) : Prop := Is_true (a.1 <=? b.1)%Z.
#[export] Instance by_seq_dec a b : Decision (by_seq a b).
Proof. unfold by_seq. apply _. Defined.

Definition run_events_where (runId : string) (p : EventRow -> bool) (d : Db) : list (Z * EventRow) :=
  merge_sort by_seq (omap (fun ke => if String.eqb ke.1.1 runId && p ke.2 then Some (ke.1.2, ke.2) else None)
    (map_to_list (events d))).

(** [json_extract(data,'$.<key>')] where it is text. *)
Definition event_text (key : string) (e : EventRow) : option string :=
  match (fs ← record (e_data e); field key fs) with Some (JStr s) => Some s | _ => None end.

Definition for_request (requestId : string) (e : EventRow) : bool := bool_decide (event_text "requestId" e = Some requestId).

(** The continuation of the last hand-off prepared for the request. *)
Definition prepared_handoff (request : GenerationActivationRequest) (d : Db) : option string :=
  match last (run_events_where (ga_runId request)
    (fun e => bool_decide (e_type e = "maintenance.handoff.prepared") && for_request (ga_requestId request) e) d) with
  | Some (_, e) => match event_text "continuationId" e with Some c => if String.eqb c "" then None else Some c | None => None end
  | None => None
  end.

Definition with_reason (reason : string) (n : ContinuationRow) : ContinuationRow :=
  {| n_runId := n_runId n; n_ordinal := n_ordinal n; n_sourceAttemptId := n_sourceAttemptId n;
     n_scheduledAttemptId := n_scheduledAttemptId n; n_status := n_status n; n_reason := reason; n_error := n_error n;
     n_notBefore := n_notBefore n; n_createdAt := n_createdAt n; n_startedAt := n_startedAt n;
     n_completedAt := n_completedAt n; n_leaseOwner := n_leaseOwner n; n_leaseUntil := n_leaseUntil n;
     n_heartbeatAt := n_heartbeatAt n |}.

Definition line_break : string := String.String (Ascii.ascii_of_nat 10) String.EmptyString.

Definition handoff_marker (request : GenerationActivationRequest) : string :=
  "[" +:+ GENERATION_HANDOFF_MARKER +:+ ":" +:+ ga_requestId request +:+ ":" +:+ ga_targetRelease request +:+ "]".

Definition handoff_reason (request : GenerationActivationRequest) : string :=
  "Core Generation activation " +:+ ga_requestId request +:+ " must resume on " +:+ ga_targetRelease request +:+ "." +:+ line_break
  +:+ handoff_marker request.

(** The continuation that takes the TaskRun up again: the active one, or a new one. *)
Definition handoff_continuation (request : GenerationActivationRequest) (createdAt : Z) : tx Db (string * bool) :=
  let runId := ga_runId request in
  let* d := gets id in
  match head (merge_sort by_ordinal (continuations_where
    (fun _ n => String.eqb (n_runId n) runId && continuation_active (n_status n)) d)) with
  | Some (cid, existing) =>
      do* (if bool_decide (String.index 0 (handoff_marker request) (n_reason existing) = None)
           then let* _ := update_continuation cid (fun _ => true)
                  (with_reason (trim (trim (n_reason existing) +:+ line_break +:+ handoff_reason request))) in mret tt
           else mret tt) in
      mret (cid, false)
  | None =>
      let* cid := randomUUID in
      do* insert_continuation cid (queued_row runId (next_ordinal runId d) (handoff_reason request) 0 createdAt) in
      mret (cid, true)
  end.

(** [createdAt] is the clock at the new continuation, [timestamp] afterwards. *)
Definition prepareGenerationHandoff (request : GenerationActivationRequest) (createdAt timestamp : Z) : tx Db (string * bool) :=
  let runId := ga_runId request in
  let* d := gets id in
  let* operation := present (operations d !! ga_operationId request)
    (Error ("Generation activation operation " +:+ ga_operationId request +:+ " is not durably accepted")) in
  do* require (String.eqb (o_operationType operation) GENERATION_ACTIVATION_OPERATION && String.eqb (o_status operation) "succeeded")
    (Error ("Generation activation operation " +:+ ga_operationId request +:+ " is not durably accepted")) in
  let* persisted := lift (generationActivationFromOperation (ga_operationId request) (o_runId operation) (o_result operation)) in
  do* require (bool_decide (persisted = request))
    (Error ("Generation activation " +:+ ga_requestId request +:+ " does not match its durable operation")) in
  match prepared_handoff request d with
  | Some cid => mret (cid, false)
  | None =>
      let* run := present (runs d !! runId) (Error ("Generation activation Run " +:+ runId +:+ " does not exist")) in
      do* require (includes (r_status run) [R_running; R_interrupted; R_blocked; R_completed; R_failed])
        (Error ("Generation activation Run " +:+ runId +:+ " cannot prepare handoff from " +:+ run_status_text (r_status run))) in
      let* handed := handoff_continuation request createdAt in
      let reason := handoff_reason request in
      let seq := (r_lastEventSeq run + 1)%Z in
      let aid := attempt_id runId (r_attempt run) in
      do* insert_event runId seq
        {| e_attemptId := aid; e_type := "maintenance.handoff.prepared";
           e_data := JObj [("requestId", JStr (ga_requestId request)); ("operationId", JStr (ga_operationId request));
                           ("targetRelease", JStr (ga_targetRelease request)); ("expectedCurrent", JStr (ga_expectedCurrent request));
                           ("continuationId", JStr handed.1)];
           e_createdAt := timestamp |} in
      let* _ := update_run runId (fun _ => true) (fun r => run_status_to r R_blocked P_blocked reason None seq timestamp) in
      do* deactivate_checkpoint runId timestamp in
      do* projectAttempt runId (r_attempt run) T_recovery A_blocked "recovery" reason seq timestamp in
      do* finalizeAttemptProjectionCheckpoint runId aid (r_attempt run) seq timestamp in
      mret handed
  end.

(** The accepted activations with the id of the request, in the order of [created_at, id]. *)
Definition by_acceptance (a b : string * OperationRow) : Prop :=
  Is_true ((o_createdAt a.2 <? o_createdAt b.2)%Z || Z.eqb (o_createdAt a.2) (o_createdAt b.2) && String.leb a.1 b.1).
#[export] Instance by_acceptance_dec a b : Decision (by_acceptance a b).
Proof. unfold by_acceptance. apply _. Defined.

Definition requested_operation (requestId : string) (o : OperationRow) : bool :=
  String.eqb (o_operationType o) GENERATION_ACTIVATION_OPERATION && String.eqb (o_status o) "succeeded"
  && opt_str_is (result ← o_result o; fs ← record result; details ← field "details" fs; value ← record details; field "requestId" value)
       requestId.

Definition activation_type (status : string) : string :=
  if String.eqb status "succeeded" then "maintenance.activation.succeeded" else "maintenance.activation.failed".

Definition activation_data (result : GenerationActivationResult) (request : GenerationActivationRequest) : json :=
  JObj ([("requestId", JStr (gr_requestId result)); ("operationId", JStr (ga_operationId request));
         ("targetRelease", JStr (ga_targetRelease request)); ("activeRelease", JStr (gr_activeRelease result));
         ("status", JStr (gr_status result))]
        ++ match gr_error result with Some e => if String.eqb e "" then [] else [("error", JStr e)] | None => [] end).

(** The result is recorded once: the same one again changes nothing, another one is refused. *)
Definition recordGenerationActivationResult (result : GenerationActivationResult) (timestamp : Z) : tx Db (option (string * bool)) :=
  let* d := gets id in
  match head (merge_sort by_acceptance (List.filter (fun io => requested_operation (gr_requestId result) io.2) (map_to_list (operations d)))) with
  | None => mret None
  | Some (operationId, operation) =>
      let runId := o_runId operation in
      let* request := lift (generationActivationFromOperation operationId runId (o_result operation)) in
      let type := activation_type (gr_status result) in
      let data := activation_data result request in
      match head (run_events_where runId (fun e =>
        includes (e_type e) ["maintenance.activation.succeeded"; "maintenance.activation.failed"] && for_request (gr_requestId result) e) d) with
      | Some (_, existing) =>
          do* require (String.eqb (e_type existing) type && String.eqb (canonicalHash (e_data existing)) (canonicalHash data))
            (Error ("Generation activation " +:+ gr_requestId result +:+ " terminal result conflicts with its durable event")) in
          mret (Some (runId, false))
      | None =>
          let* run := present (runs d !! runId) (Error ("Generation activation Run " +:+ runId +:+ " does not exist")) in
          let seq := (r_lastEventSeq run + 1)%Z in
          do* insert_event runId seq
            {| e_attemptId := attempt_id runId (r_attempt run); e_type := type; e_data := data; e_createdAt := timestamp |} in
          do* modify (set_runs (alter (fun r => run_event r seq timestamp) runId)) in
          mret (Some (runId, true))
      end
  end.
End continuation.
