(* ===== verification/Transition.v ===== *)
(** The authority over TaskRun transitions (adapters/persistence-sqlite/src/
    sqlite/task-run-transition-repository.ts, with the commands of
    packages/execution/src/ports/task-run-transition-port.ts): the validation of
    the untyped commands and authorities, the fenced runtime transitions and the
    system transitions. The calls run inside the writer transaction, and the
    clock is read once per call. *)
From S2P Require Import Prelude Json TaskPolicy Attempt ExecDb Canonical AttemptRepo RunStore.
Local Open Scope tx_scope.

(** * Commands, authorities and outcomes *)

Inductive RuntimeKind := complete | block | fail.

Record RuntimeTransitionCommand := {
  rc_kind : RuntimeKind; rc_reason : string; rc_data : json; rc_precedingEvents : list json;
}.

Inductive SystemTransitionCommand :=
  | admission_launch_failed (attemptId : string) (expectedVersion : Z) (inboxItemId error : string) (retryable : bool)
  | require_external_approval (attemptId : string) (expectedVersion : Z) (approvalId reason : string)
  | resume_preparation_failed (attemptId : string) (expectedVersion : Z) (error : string)
  | startup_interrupt_active
  | shutdown_interrupt_active
  | resume_manual (attemptId : string) (expectedVersion : Z) (reason : string)
  | resume_approval (attemptId : string) (expectedVersion : Z) (approvalId : string)
  | resume_input (attemptId : string) (expectedVersion : Z) (inputRequestId : string).

Inductive LifecyclePhase := startup | shutdown.

Inductive SystemTransitionAuthority :=
  | admission_launch_failure (inboxItemId : string)
  | external_action_guard (approvalId : string)
  | resume_preparation_failure
  | lifecycle_interrupt (phase : LifecyclePhase)
  | manual_resume (actorId : string)
  | approval_resume (approvalId : string)
  | input_resume (inputRequestId : string).

Record TaskRunTransitionOutcome := {
  to_runId : string; to_sourceAttemptId : string; to_sourceOrdinal : Z; to_targetAttemptId : string;
  to_targetOrdinal : Z; to_fromStatus : RunStatus; to_toStatus : RunStatus; to_precedingEvents : list RunEvent;
  to_event : option RunEvent;
}.

Record SystemAttemptScope := {
  sa_attemptId : string; sa_runId : string; sa_ordinal : Z; sa_attemptStatus : AttemptStatus; sa_active : bool;
  sa_version : Z; sa_runStatus : RunStatus;
}.

#[export] Instance RuntimeKind_eq_dec : EqDecision RuntimeKind.
Proof. solve_decision. Defined.
#[export] Instance LifecyclePhase_eq_dec : EqDecision LifecyclePhase.
Proof. solve_decision. Defined.

Definition RUNTIME_TRANSITIONS (k : RuntimeKind) : RunStatus * string :=
  match k with
  | complete => (R_completed, "run.completed")
  | block => (R_blocked, "run.blocked")
  | fail => (R_failed, "run.failed")
  end%string.

(** * Checks of untyped values: [None] is [undefined] *)

Definition nonEmptyValue (value : option json) (name : string) : result string :=
  match value with
  | Some (JStr s) => do* assertNonEmpty s name in mret s
  | _ => Throw (TypeError (name +:+ " must be a non-empty string without NUL bytes"))
  end.

Definition assertStringWithoutNul (value : option json) (name : string) : result string :=
  let e := TypeError (name +:+ " must be a string without NUL bytes") in
  match value with
  | Some (JStr s) => do* check (negb (has_nul s)) e in mret s
  | _ => Throw e
  end.

Definition assertPositiveInteger (value : option json) (name : string) : result Z :=
  let e := TypeError (name +:+ " must be a positive safe integer") in
  match value with
  | Some (JInt z) => do* check (safe_integer z && (0 <? z)%Z) e in mret z
  | _ => Throw e
  end.

Definition asRecord (value : option json) (name : string) : result (list (string * json)) :=
  expect (v ← value; record v) (TypeError (name +:+ " must be an object")).

Definition assertExactKeys (value : list (string * json)) (expected : list string) (name : string) : result unit :=
  check (exact_keys value expected)
    (TypeError (name +:+ " must contain exactly: " +:+ join ", " (sort_keys expected))).

Definition canonicalData (value : option json) (name : string) : result json :=
  let* fs := asRecord value name in
  match canonical (JObj fs) with
  | Ok n => mret n
  | Throw _ => Throw (TypeError (name +:+ " must contain canonical JSON"))
  end.

(** * Validation *)

Definition RuntimeTransitionCommand_name : string := "RuntimeTransitionCommand".

Definition runtimeKindOf (fs : list (string * json)) : result RuntimeKind :=
  if opt_str_is (field "kind" fs) "complete" then mret complete
  else if opt_str_is (field "kind" fs) "fail" then mret fail
  else if opt_str_is (field "kind" fs) "block" then mret block
  else Throw (TypeError "RuntimeTransitionCommand.kind is not allowlisted").

Definition validatePreceding (indexed : nat * json) : result json :=
  let name := "precedingEvents[" +:+ pretty indexed.1 +:+ "]" in
  let* preceding := asRecord (Some indexed.2) name in
  do* assertExactKeys preceding ["kind"; "data"] name in
  do* check (opt_str_is (field "kind" preceding) "message_rejected") (TypeError (name +:+ ".kind is not allowlisted")) in
  canonicalData (field "data" preceding) (name +:+ ".data").

Definition indexed {A} (l : list A) : list (nat * A) := zip (seq 0 (length l)) l.

Definition validateRuntimeCommand (command : json) : result RuntimeTransitionCommand :=
  let* value := asRecord (Some command) "RuntimeTransitionCommand" in
  let* kind := runtimeKindOf value in
  do* assertExactKeys value
    (if bool_decide (kind = block) && bool_decide (field "precedingEvents" value <> None)
     then ["kind"; "reason"; "data"; "precedingEvents"] else ["kind"; "reason"; "data"])
    "RuntimeTransitionCommand" in
  let* reason := (if bool_decide (kind = complete)
                  then assertStringWithoutNul (field "reason" value) "RuntimeTransitionCommand.reason"
                  else nonEmptyValue (field "reason" value) "RuntimeTransitionCommand.reason") in
  let* data := canonicalData (field "data" value) "RuntimeTransitionCommand.data" in
  if negb (bool_decide (kind = block)) then
    mret {| rc_kind := kind; rc_reason := reason; rc_data := data; rc_precedingEvents := [] |}
  else
    let* items := match field "precedingEvents" value with
      | None => mret []
      | Some (JArr l) => mret l
      | Some _ => Throw (TypeError "RuntimeTransitionCommand.precedingEvents must be an array")
      end in
    let* preceding := map_result validatePreceding (indexed items) in
    mret {| rc_kind := block; rc_reason := reason; rc_data := data; rc_precedingEvents := preceding |}.

(** The members every Attempt-bound command carries, checked last. *)
Definition attemptBound (value : list (string * json)) : result (string * Z) :=
  let* attemptId := nonEmptyValue (field "attemptId" value) "SystemTransitionCommand.attemptId" in
  let* expectedVersion := assertPositiveInteger (field "expectedVersion" value) "SystemTransitionCommand.expectedVersion" in
  mret (attemptId, expectedVersion).

Definition validateSystemCommand (command : json) : result SystemTransitionCommand :=
  let* value := asRecord (Some command) "SystemTransitionCommand" in
  let kind_is kind := opt_str_is (field "kind" value) kind in
  let exactly keys := assertExactKeys value keys "SystemTransitionCommand" in
  let text k := nonEmptyValue (field k value) ("SystemTransitionCommand." +:+ k) in
  if kind_is "startup_interrupt_active" then do* exactly ["kind"] in mret startup_interrupt_active
  else if kind_is "shutdown_interrupt_active" then do* exactly ["kind"] in mret shutdown_interrupt_active
  else if kind_is "admission_launch_failed" then
    do* exactly ["kind"; "attemptId"; "expectedVersion"; "inboxItemId"; "error"; "retryable"] in
    let* bound := attemptBound value in
    let* inboxItemId := text "inboxItemId" in
    let* error := text "error" in
    match field "retryable" value with
    | Some (JBool retryable) => mret (admission_launch_failed bound.1 bound.2 inboxItemId error retryable)
    | _ => Throw (TypeError "SystemTransitionCommand.retryable must be boolean")
    end
  else if kind_is "require_external_approval" then
    do* exactly ["kind"; "attemptId"; "expectedVersion"; "approvalId"; "reason"] in
    let* approvalId := text "approvalId" in
    let* reason := text "reason" in
    let* bound := attemptBound value in
    mret (require_external_approval bound.1 bound.2 approvalId reason)
  else if kind_is "resume_preparation_failed" then
    do* exactly ["kind"; "attemptId"; "expectedVersion"; "error"] in
    let* error := text "error" in
    let* bound := attemptBound value in
    mret (resume_preparation_failed bound.1 bound.2 error)
  else if kind_is "resume_manual" then
    do* exactly ["kind"; "attemptId"; "expectedVersion"; "reason"] in
    let* reason := text "reason" in
    let* bound := attemptBound value in
    mret (resume_manual bound.1 bound.2 reason)
  else if kind_is "resume_approval" then
    do* exactly ["kind"; "attemptId"; "expectedVersion"; "approvalId"] in
    let* approvalId := text "approvalId" in
    let* bound := attemptBound value in
    mret (resume_approval bound.1 bound.2 approvalId)
  else if kind_is "resume_input" then
    do* exactly ["kind"; "attemptId"; "expectedVersion"; "inputRequestId"] in
    let* inputRequestId := text "inputRequestId" in
    let* bound := attemptBound value in
    mret (resume_input bound.1 bound.2 inputRequestId)
  else Throw (TypeError "SystemTransitionCommand.kind is not allowlisted").

Definition validateSystemAuthority (authority : json) : result SystemTransitionAuthority :=
  let* value := asRecord (Some authority) "SystemTransitionAuthority" in
  let kind_is kind := opt_str_is (field "kind" value) kind in
  let component c := opt_str_is (field "component" value) c in
  let exactly keys := assertExactKeys value keys "SystemTransitionAuthority" in
  let text k := nonEmptyValue (field k value) ("SystemTransitionAuthority." +:+ k) in
  if kind_is "admission_launch_failure" then
    do* exactly ["kind"; "component"; "inboxItemId"] in
    do* check (component "admission_coordinator") (TypeError "Admission authority component is invalid") in
    let* inboxItemId := text "inboxItemId" in
    mret (admission_launch_failure inboxItemId)
  else if kind_is "external_action_guard" then
    do* exactly ["kind"; "component"; "approvalId"] in
    do* check (component "core_external_action_approval_application")
      (TypeError "External action guard component is invalid") in
    let* approvalId := text "approvalId" in
    mret (external_action_guard approvalId)
  else if kind_is "resume_preparation_failure" then
    do* exactly ["kind"; "component"] in
    do* check (component "run_context_service") (TypeError "Resume preparation authority component is invalid") in
    mret resume_preparation_failure
  else if kind_is "lifecycle_interrupt" then
    do* exactly ["kind"; "component"; "phase"] in
    if component "execution_lifecycle_service" && opt_str_is (field "phase" value) "startup"
    then mret (lifecycle_interrupt startup)
    else if component "runtime_registry" && opt_str_is (field "phase" value) "shutdown"
    then mret (lifecycle_interrupt shutdown)
    else Throw (TypeError "Lifecycle transition authority is invalid")
  else if kind_is "manual_resume" then
    do* exactly ["kind"; "actorId"] in
    let* actorId := text "actorId" in
    mret (manual_resume actorId)
  else if kind_is "approval_resume" then
    do* exactly ["kind"; "approvalId"] in
    let* approvalId := text "approvalId" in
    mret (approval_resume approvalId)
  else if kind_is "input_resume" then
    do* exactly ["kind"; "inputRequestId"] in
    let* inputRequestId := text "inputRequestId" in
    mret (input_resume inputRequestId)
  else Throw (TypeError "SystemTransitionAuthority.kind is not allowlisted").

Definition systemKind (c : SystemTransitionCommand) : string :=
  match c with
  | admission_launch_failed _ _ _ _ _ => "admission_launch_failed"
  | require_external_approval _ _ _ _ => "require_external_approval"
  | resume_preparation_failed _ _ _ => "resume_preparation_failed"
  | startup_interrupt_active => "startup_interrupt_active"
  | shutdown_interrupt_active => "shutdown_interrupt_active"
  | resume_manual _ _ _ => "resume_manual"
  | resume_approval _ _ _ => "resume_approval"
  | resume_input _ _ _ => "resume_input"
  end.

Definition authorityMatches (command : SystemTransitionCommand) (authority : SystemTransitionAuthority) : bool :=
  match command, authority with
  | admission_launch_failed _ _ inboxItemId _ _, admission_launch_failure i => String.eqb i inboxItemId
  | require_external_approval _ _ approvalId _, external_action_guard i => String.eqb i approvalId
  | resume_preparation_failed _ _ _, resume_preparation_failure => true
  | startup_interrupt_active, lifecycle_interrupt phase => bool_decide (phase = startup)
  | shutdown_interrupt_active, lifecycle_interrupt phase => bool_decide (phase = shutdown)
  | resume_manual _ _ _, manual_resume _ => true
  | resume_approval _ _ approvalId, approval_resume i => String.eqb i approvalId
  | resume_input _ _ inputRequestId, input_resume i => String.eqb i inputRequestId
  | _, _ => false
  end.

Definition assertAuthorityMatches (command : SystemTransitionCommand) (authority : SystemTransitionAuthority)
    : result unit :=
  check (authorityMatches command authority)
    (Error ("System transition authority does not permit " +:+ systemKind command)).

(** * Transitions *)

Section transitions.
Context `{Platform}.

Definition terminalOutcome (scope : TaskRunExecutionScope) (status : RunStatus) (event : RunEvent)
    (precedingEvents : list RunEvent) : TaskRunTransitionOutcome :=
  {| to_runId := sc_runId scope; to_sourceAttemptId := sc_attemptId scope; to_sourceOrdinal := sc_ordinal scope;
     to_targetAttemptId := sc_attemptId scope; to_targetOrdinal := sc_ordinal scope; to_fromStatus := R_running;
     to_toStatus := status; to_precedingEvents := precedingEvents; to_event := Some event |}.

Definition transitionRuntime (command : json) (fence : TaskRunExecutionFence) (dbTime timestamp : Z)
    : tx Db (list TaskRunTransitionOutcome) :=
  let* normalized := lift (validateRuntimeCommand command) in
  let* scope := validate fence dbTime in
  let '(status, eventType) := RUNTIME_TRANSITIONS (rc_kind normalized) in
  let* precedingEvents := map_tx (fun data => appendEvent (sc_runId scope) "message.rejected" data timestamp)
    (rc_precedingEvents normalized) in
  let* event := transitionRun (sc_runId scope) [R_running] status eventType (rc_data normalized) (rc_reason normalized)
    (Some (sc_ordinal scope)) timestamp in
  let* event := present event (Error ("TaskRun " +:+ sc_runId scope +:+ " transition lost its compare-and-set")) in
  mret [terminalOutcome scope status event precedingEvents].

Definition validateSystemAttempt (attemptId : string) (expectedVersion : Z) : tx Db SystemAttemptScope :=
  let missing := Error ("Attempt " +:+ attemptId +:+ " does not exist") in
  let* d := gets id in
  let* attempt := present (attempts d !! attemptId) missing in
  let* run := present (runs d !! a_runId attempt) missing in
  do* require (Z.eqb (a_version attempt) expectedVersion) (Error ("Attempt version mismatch for " +:+ attemptId)) in
  do* require (Z.eqb (r_attempt run) (a_ordinal attempt))
    (Error ("TaskRun projection is stale for Attempt " +:+ attemptId)) in
  mret {| sa_attemptId := attemptId; sa_runId := a_runId attempt; sa_ordinal := a_ordinal attempt;
          sa_attemptStatus := a_status attempt; sa_active := a_active attempt; sa_version := a_version attempt;
          sa_runStatus := r_status run |}.

Definition interruptible (d : Db) (run : RunRow) : result SystemAttemptScope :=
  let e := Error ("Running TaskRun " +:+ r_id run +:+ " is missing its active running Attempt projection") in
  let* a := expect (getAttemptForRun (r_id run) (r_attempt run) d) e in
  do* check (bool_decide (a_status a = A_running) && a_active a) e in
  mret {| sa_attemptId := a_id a; sa_runId := r_id run; sa_ordinal := a_ordinal a; sa_attemptStatus := a_status a;
          sa_active := true; sa_version := a_version a; sa_runStatus := r_status run |}.

Definition listInterruptibleSystemAttempts (d : Db) : result (list SystemAttemptScope) :=
  map_result (interruptible d) (merge_sort (fun a b => Is_true (String.leb (r_id a) (r_id b))) (running_runs d)).

(** The outcome of a transition of the source Attempt itself. *)
Definition outcome (scope : SystemAttemptScope) (toStatus : RunStatus) (event : option RunEvent)
    : TaskRunTransitionOutcome :=
  {| to_runId := sa_runId scope; to_sourceAttemptId := sa_attemptId scope; to_sourceOrdinal := sa_ordinal scope;
     to_targetAttemptId := sa_attemptId scope; to_targetOrdinal := sa_ordinal scope;
     to_fromStatus := sa_runStatus scope; to_toStatus := toStatus; to_precedingEvents := []; to_event := event |}.

Definition interruptActive (timestamp : Z) : tx Db (list TaskRunTransitionOutcome) :=
  let* d := gets id in
  let* scopes := lift (listInterruptibleSystemAttempts d) in
  do* markInterrupted timestamp in
  mret (map (fun scope => outcome scope R_interrupted None) scopes).

Definition running_boundary (scope : SystemAttemptScope) : bool :=
  sa_active scope && bool_decide (sa_attemptStatus scope = A_running) && bool_decide (sa_runStatus scope = R_running).

Definition transitionResumePreparationFailure (error : string) (scope : SystemAttemptScope) (timestamp : Z)
    : tx Db (list TaskRunTransitionOutcome) :=
  do* require (running_boundary scope)
    (Error ("Resume context preparation failure requires the active running Attempt " +:+ sa_attemptId scope)) in
  let* event := transitionRun (sa_runId scope) [R_running] R_failed "run.failed"
    (JObj [("error", JStr error); ("reason", JStr "resume_context_preparation_failed");
           ("stage", JStr "context_preparation"); ("retryable", JBool false)]) error (Some (sa_ordinal scope)) timestamp in
  let* event := present event
    (Error ("TaskRun " +:+ sa_runId scope +:+ " resume preparation failure lost its compare-and-set")) in
  mret [outcome scope R_failed (Some event)].

(** A submitted input request of the Attempt. *)
Definition submitted_input (runId : string) (ordinal : Z) (i : UserInputRow) : bool :=
  String.eqb (i_runId i) runId && Z.eqb (i_attempt i) ordinal && bool_decide (i_status i = U_submitted).

Definition transitionExternalApproval (approvalId reason : string) (scope : SystemAttemptScope) (timestamp : Z)
    : tx Db (list TaskRunTransitionOutcome) :=
  let* d := gets id in
  let runId := sa_runId scope in
  let submittedInputBoundary := negb (sa_active scope) && bool_decide (sa_attemptStatus scope = A_waiting_input)
    && bool_decide (sa_runStatus scope = R_waiting_input)
    && exists_where (fun _ => submitted_input runId (sa_ordinal scope)) (inputs d) && negb (has_pending_input runId d) in
  let* approval := present
    (p ← approvals d !! approvalId;
     if String.eqb (p_runId p) runId && bool_decide (p_actionType p = execute_external_action)
        && bool_decide (p_status p = Ap_pending) && bool_decide (p_approvedAttempt p = Some (sa_ordinal scope + 1)%Z)
     then Some p else None)
    (Error ("External approval " +:+ approvalId +:+ " is not pending for " +:+ runId)) in
  let resumableFailure := bool_decide (sa_runStatus scope = R_failed) && resumable_failure runId (sa_attemptId scope) d in
  let manualResumeBoundary := negb (sa_active scope) && p_manualResumeRequested approval
    && (includes (sa_runStatus scope) [R_blocked; R_interrupted] || resumableFailure) in
  do* require (running_boundary scope || submittedInputBoundary || manualResumeBoundary)
    (Error ("External approval requires a running, submitted-input, or resumable boundary for " +:+ sa_attemptId scope)) in
  do* require (negb submittedInputBoundary ||
      match p_submittedInputRequestId approval with
      | Some k => negb (String.eqb k "") && match inputs d !! k with
          | Some i => submitted_input runId (sa_ordinal scope) i
          | None => false
          end
      | None => false
      end)
    (Error ("External approval " +:+ approvalId +:+ " is not bound to submitted input for " +:+ sa_attemptId scope)) in
  let* event := transitionRun runId [sa_runStatus scope] R_blocked "run.blocked"
    (JObj [("reason", JStr reason); ("approvalId", JStr approvalId); ("action", JStr "execute_external_action")])
    reason (Some (sa_ordinal scope)) timestamp in
  let* event := present event (Error ("TaskRun " +:+ runId +:+ " external approval boundary lost its compare-and-set")) in
  mret [outcome scope R_blocked (Some event)].

Definition inbox_failed (x : InboxRow) (error : string) (timestamp : Z) : InboxRow :=
  {| x_sessionId := x_sessionId x; x_requestId := x_requestId x; x_content := x_content x; x_status := x_status x;
     x_decision := x_decision x; x_runId := x_runId x; x_error := error; x_position := x_position x; x_createdAt := x_createdAt x;
     x_updatedAt := timestamp; x_claimedAt := x_claimedAt x; x_startedAt := x_startedAt x; x_analysis := x_analysis x;
     x_manualOrder := x_manualOrder x; x_revision := x_revision x |}.

Definition transitionAdmissionFailure (inboxItemId error : string) (retryable : bool) (scope : SystemAttemptScope)
    (timestamp : Z) : tx Db (list TaskRunTransitionOutcome) :=
  do* require (running_boundary scope)
    (Error ("Admission launch failure requires the active running Attempt " +:+ sa_attemptId scope)) in
  let* d := gets id in
  let* item := present
    (x ← inbox d !! inboxItemId;
     if bool_decide (x_runId x = Some (sa_runId scope)) && String.eqb (x_status x) "started" then Some x else None)
    (Error ("Started admission inbox item " +:+ inboxItemId +:+ " does not own " +:+ sa_attemptId scope)) in
  do* modify (set_inbox (insert inboxItemId (inbox_failed item error timestamp))) in
  let* event := transitionRun (sa_runId scope) [R_running] R_failed "run.failed"
    (JObj [("error", JStr error); ("reason", JStr "runtime_initialization_failed"); ("stage", JStr "launch_setup");
           ("retryable", JBool retryable); ("inboxItemId", JStr inboxItemId)]) error (Some (sa_ordinal scope)) timestamp in
  let* event := present event (Error ("TaskRun " +:+ sa_runId scope +:+ " admission failure lost its compare-and-set")) in
  mret [outcome scope R_failed (Some event)].

(** The guards of the three resume commands. *)
Definition resume_guard (command : SystemTransitionCommand) (authority : SystemTransitionAuthority)
    (scope : SystemAttemptScope) (d : Db) : result unit :=
  let runId := sa_runId scope in
  let cannot kind := Error (kind +:+ " resume cannot continue TaskRun from " +:+ run_status_text (sa_runStatus scope)) in
  match command with
  | resume_manual _ _ _ =>
      do* check (match authority with manual_resume _ => true | _ => false end)
        (Error "Manual resume authority mismatch") in
      check (includes (sa_runStatus scope) [R_blocked; R_interrupted; R_failed]) (cannot "Manual"%string)
  | resume_approval _ _ approvalId =>
      do* check (match authority with approval_resume _ => true | _ => false end)
        (Error "Approval resume authority mismatch") in
      do* check (match approvals d !! approvalId with
          | Some p => String.eqb (p_runId p) runId && bool_decide (p_status p = Ap_approved)
              && (bool_decide (p_actionType p = resume_taskrun)
                  || bool_decide (p_actionType p = execute_external_action)
                     && bool_decide (p_approvedAttempt p = Some (sa_ordinal scope + 1)%Z))
          | None => false
          end) (Error ("Approval " +:+ approvalId +:+ " cannot resume " +:+ sa_attemptId scope)) in
      let resumableFailure := bool_decide (sa_runStatus scope = R_failed) && resumable_failure runId (sa_attemptId scope) d in
      check (includes (sa_runStatus scope) [R_blocked; R_interrupted] || resumableFailure) (cannot "Approval"%string)
  | resume_input _ _ inputRequestId =>
      do* check (match authority with input_resume _ => true | _ => false end)
        (Error "Input resume authority mismatch") in
      do* check (match inputs d !! inputRequestId with
          | Some i => submitted_input runId (sa_ordinal scope) i
          | None => false
          end) (Error ("Input request " +:+ inputRequestId +:+ " cannot resume " +:+ sa_attemptId scope)) in
      check (bool_decide (sa_runStatus scope = R_waiting_input)) (cannot "Input"%string)
  | _ => mret tt
  end.

Definition transitionResume (command : SystemTransitionCommand) (authority : SystemTransitionAuthority)
    (scope : SystemAttemptScope) (timestamp : Z) : tx Db (list TaskRunTransitionOutcome) :=
  do* require (negb (sa_active scope)) (Error ("Resume requires an inactive source Attempt " +:+ sa_attemptId scope)) in
  let* d := gets id in
  do* lift (resume_guard command authority scope d) in
  let* resumed := resumeRun (sa_runId scope) timestamp in
  let* targetAttemptId := lift (attemptIdFor (sa_runId scope) (r_attempt resumed)) in
  let failed := Error ("TaskRun " +:+ sa_runId scope +:+ " resume did not create its target Attempt") in
  let* d' := gets id in
  let* target := present (attempts d' !! targetAttemptId) failed in
  do* require (String.eqb (a_runId target) (sa_runId scope) && Z.eqb (a_ordinal target) (r_attempt resumed)) failed in
  mret [{| to_runId := sa_runId scope; to_sourceAttemptId := sa_attemptId scope; to_sourceOrdinal := sa_ordinal scope;
           to_targetAttemptId := a_id target; to_targetOrdinal := a_ordinal target;
           to_fromStatus := sa_runStatus scope; to_toStatus := R_running; to_precedingEvents := [];
           to_event := None |}].

Definition transitionSystem (command authority : json) (timestamp : Z) : tx Db (list TaskRunTransitionOutcome) :=
  let* normalizedCommand := lift (validateSystemCommand command) in
  let* normalizedAuthority := lift (validateSystemAuthority authority) in
  do* lift (assertAuthorityMatches normalizedCommand normalizedAuthority) in
  match normalizedCommand with
  | startup_interrupt_active | shutdown_interrupt_active => interruptActive timestamp
  | admission_launch_failed attemptId v inboxItemId error retryable =>
      let* scope := validateSystemAttempt attemptId v in
      transitionAdmissionFailure inboxItemId error retryable scope timestamp
  | require_external_approval attemptId v approvalId reason =>
      let* scope := validateSystemAttempt attemptId v in
      transitionExternalApproval approvalId reason scope timestamp
  | resume_preparation_failed attemptId v error =>
      let* scope := validateSystemAttempt attemptId v in
      transitionResumePreparationFailure error scope timestamp
  | resume_manual attemptId v _ | resume_approval attemptId v _ | resume_input attemptId v _ =>
      let* scope := validateSystemAttempt attemptId v in
      transitionResume normalizedCommand normalizedAuthority scope timestamp
  end.

End transitions.
