(* ===== verification/Mailbox.v ===== *)
(** What a TaskRun exchanges with its clients (adapters/persistence-sqlite/src/
    store.ts): command receipts, event consumer cursors and the control inbox. *)
From S2P Require Import Prelude Json Attempt ExecDb.
Local Open Scope tx_scope.

Section mailbox.
Context `{Platform}.

(** * Command receipts *)

Definition TaskRunCommandReceipt : Type := CommandRow.

Definition getTaskRunCommand (principalId taskRunId commandId : string) (d : Db) : option TaskRunCommandReceipt :=
  commands d !! (principalId, taskRunId, commandId).

(** [canonicalPayload] is the JSON value whose text the caller passes. *)
Definition claimTaskRunCommand (principalId taskRunId commandId commandType : string) (canonicalPayload : json)
    (targetAttemptId : option string) (provenance : list (string * json)) (requestId : string) (timestamp : Z)
    : tx Db (TaskRunCommandReceipt * bool) :=
  let payloadHash := sha256 (stringify canonicalPayload) in
  let* d := gets (fun d => d) in
  match getTaskRunCommand principalId taskRunId commandId d with
  | Some existing =>
      do* require (String.eqb (cm_payloadHash existing) payloadHash)
        (Error "Command idempotency conflict: commandId is bound to a different canonical payload") in
      mret (existing, false)
  | None =>
      do* require (bool_decide (is_Some (runs d !! taskRunId))) (SqliteError "task_run_command_receipts.task_run_id") in
      let row :=
        {| cm_commandType := commandType; cm_payloadHash := payloadHash; cm_payload := canonicalPayload;
           cm_targetAttemptId := targetAttemptId; cm_state := CS_started; cm_result := None; cm_error := None;
           cm_provenance := provenance; cm_requestId := requestId; cm_createdAt := timestamp;
           cm_updatedAt := timestamp; cm_completedAt := None |} in
      do* modify (set_commands (insert (principalId, taskRunId, commandId) row)) in
      mret (row, true)
  end.

Definition nonempty_record (fs : list (string * json)) : option (list (string * json)) :=
  match fs with [] => None | _ => Some fs end.

Definition command_settled (c : CommandRow) (state : CommandState) (result error : list (string * json)) (timestamp : Z)
    : CommandRow :=
  {| cm_commandType := cm_commandType c; cm_payloadHash := cm_payloadHash c; cm_payload := cm_payload c;
     cm_targetAttemptId := cm_targetAttemptId c; cm_state := state; cm_result := nonempty_record result;
     cm_error := nonempty_record error; cm_provenance := cm_provenance c; cm_requestId := cm_requestId c;
     cm_createdAt := cm_createdAt c; cm_updatedAt := timestamp; cm_completedAt := Some timestamp |}.

(** [state] is one of the settled states. *)
Definition settleTaskRunCommand (principalId taskRunId commandId : string) (state : CommandState)
    (result error : list (string * json)) (timestamp : Z) : tx Db TaskRunCommandReceipt :=
  let key := (principalId, taskRunId, commandId) in
  let* d := gets (fun d => d) in
  let changes := match commands d !! key with Some c => bool_decide (cm_state c = CS_started) | None => false end in
  do* modify (set_commands (alter (fun c =>
    if bool_decide (cm_state c = CS_started) then command_settled c state result error timestamp else c) key)) in
  let* d' := gets (fun d => d) in
  let* receipt := present (getTaskRunCommand principalId taskRunId commandId d')
    (Error "TaskRun command receipt not found") in
  do* require (negb (negb changes && bool_decide (cm_state receipt = CS_started)))
    (Error "TaskRun command receipt could not be settled") in
  mret receipt.

(** * Event consumers *)

Definition getEventConsumer (runId consumerId : string) (d : Db) : option ConsumerRow := consumers d !! (runId, consumerId).

Definition claimEventConsumer (runId consumerId : string) (timestamp : Z) : tx Db ConsumerRow :=
  let* d := gets (fun d => d) in
  do* require (bool_decide (is_Some (runs d !! runId))) (Error ("Unknown run " +:+ runId)) in
  let row := match getEventConsumer runId consumerId d with
    | None => {| co_generation := 1; co_ackedSeq := 0; co_settledAckedSeq := None; co_finalAckedSeq := None;
                 co_claimedAt := timestamp; co_updatedAt := timestamp |}
    | Some c => {| co_generation := co_generation c + 1; co_ackedSeq := co_ackedSeq c;
                   co_settledAckedSeq := co_settledAckedSeq c; co_finalAckedSeq := co_finalAckedSeq c;
                   co_claimedAt := timestamp; co_updatedAt := timestamp |}
    end in
  do* modify (set_consumers (insert (runId, consumerId) row)) in
  mret row.

Inductive AckOutcome := ack_missing | ack_stale | ack_invalid | ack_accepted.

(** [SELECT seq ... WHERE seq > after AND seq <= upto AND type IN (...) ORDER BY seq DESC LIMIT 1] *)
Definition last_event_of (types : list string) (runId : string) (after upto : Z) (d : Db) : option Z :=
  map_fold (fun k e acc =>
    if String.eqb k.1 runId && (after <? k.2)%Z && (k.2 <=? upto)%Z && includes (e_type e) types
    then Some (Z.max k.2 (default k.2 acc)) else acc) None (events d).

Definition settled_types : list string := ["run.completed"; "run.blocked"; "run.failed"; "run.cancelled"].
Definition final_types : list string := ["run.completed"; "run.cancelled"].

Definition consumer_acked (c : ConsumerRow) (seq : Z) (settled final : option Z) (timestamp : Z) : ConsumerRow :=
  {| co_generation := co_generation c; co_ackedSeq := seq;
     co_settledAckedSeq := match settled with Some s => Some s | None => co_settledAckedSeq c end;
     co_finalAckedSeq := match final with Some s => Some s | None => co_finalAckedSeq c end;
     co_claimedAt := co_claimedAt c; co_updatedAt := timestamp |}.

Definition ackEventConsumer (runId consumerId : string) (generation seq timestamp : Z) : tx Db AckOutcome :=
  let* d := gets (fun d => d) in
  match runs d !! runId with
  | None => mret ack_missing
  | Some run =>
      match getEventConsumer runId consumerId d with
      | None => mret ack_stale
      | Some cursor =>
          if negb (Z.eqb (co_generation cursor) generation) then mret ack_stale
          else if negb (safe_integer seq) || (seq <? co_ackedSeq cursor)%Z || (r_lastEventSeq run <? seq)%Z
          then mret ack_invalid
          else
            let settled := last_event_of settled_types runId (co_ackedSeq cursor) seq d in
            let final := last_event_of final_types runId (co_ackedSeq cursor) seq d in
            do* modify (set_consumers (insert (runId, consumerId) (consumer_acked cursor seq settled final timestamp))) in
            mret ack_accepted
      end
  end.

(** * Controls *)

Definition MAX_CONTROL_CONTENT_CHARS : Z := 200000.

Definition assertControlContent (content : string) : result unit :=
  do* check (negb (blank content)) (Error "Control content is required") in
  check (negb (MAX_CONTROL_CONTENT_CHARS <? Z.of_nat (String.length content))%Z)
    (Error ("Control content cannot exceed " +:+ pretty MAX_CONTROL_CONTENT_CHARS +:+ " characters")).

Inductive EnqueueOutcome :=
  | enq_duplicate (item : string * ControlRow)
  | enq_inactive
  | enq_full
  | enq_accepted (item : string * ControlRow).

Definition getControlItem (id : string) (d : Db) : option ControlRow := controls d !! id.

Definition controls_where (p : ControlRow -> bool) (d : Db) : list (string * ControlRow) :=
  List.filter (fun kq => p kq.2) (map_to_list (controls d)).

Definition next_control_rowid (d : Db) : Z :=
  (map_fold (fun _ q acc => Z.max (q_rowid q) acc) 0 (controls d) + 1)%Z.

Definition enqueueControl (runId requestId : string) (kind : ControlKind) (content : string) (capacity timestamp : Z)
    : tx Db EnqueueOutcome :=
  do* lift (assertControlContent content) in
  let* d := gets (fun d => d) in
  match head (controls_where (fun q => String.eqb (q_runId q) runId && String.eqb (q_requestId q) requestId) d) with
  | Some existing => mret (enq_duplicate existing)
  | None =>
      match runs d !! runId with
      | None => mret enq_inactive
      | Some run =>
          if negb (bool_decide (r_status run = R_running)) then mret enq_inactive else
          let active := count_where (fun q => String.eqb (q_runId q) runId && Z.eqb (q_attempt q) (r_attempt run)
            && includes (q_status q) [K_queued; K_delivering]) (controls d) in
          if (capacity <=? active)%Z then mret enq_full else
          let* id := randomUUID in
          let item :=
            {| q_rowid := next_control_rowid d; q_runId := runId; q_requestId := requestId; q_attempt := r_attempt run;
               q_kind := kind; q_content := content; q_status := K_queued; q_error := ""; q_createdAt := timestamp;
               q_claimedAt := None; q_completedAt := None |} in
          do* require (bool_decide (controls d !! id = None)) (SqliteError "control_inbox.id") in
          do* modify (set_controls (insert id item)) in
          mret (enq_accepted (id, item))
      end
  end.

Definition control_to (q : ControlRow) (status : ControlStatus) (error : string) (claimedAt completedAt : option Z)
    : ControlRow :=
  {| q_rowid := q_rowid q; q_runId := q_runId q; q_requestId := q_requestId q; q_attempt := q_attempt q;
     q_kind := q_kind q; q_content := q_content q; q_status := status; q_error := error; q_createdAt := q_createdAt q;
     q_claimedAt := claimedAt; q_completedAt := completedAt |}.

(** ORDER BY created_at, rowid *)
Definition control_before (a b : string * ControlRow) : Prop :=
  Is_true ((q_createdAt a.2 <? q_createdAt b.2)%Z
    || Z.eqb (q_createdAt a.2) (q_createdAt b.2) && (q_rowid a.2 <=? q_rowid b.2)%Z).

#[export] Instance control_before_dec a b : Decision (control_before a b).
Proof. unfold control_before. apply _. Defined.

Definition listControlInbox (runId : string) (d : Db) : list (string * ControlRow) :=
  merge_sort control_before (controls_where (fun q => String.eqb (q_runId q) runId) d).

Definition claimControlItem (runId : string) (attempt timestamp : Z) : tx Db (option (string * ControlRow)) :=
  do* modify (set_controls (update_where
    (fun q => String.eqb (q_runId q) runId && bool_decide (q_status q = K_queued) && negb (Z.eqb (q_attempt q) attempt))
    (fun q => control_to q K_superseded "Run attempt advanced before delivery" (q_claimedAt q) (Some timestamp)))) in
  let* d := gets (fun d => d) in
  match head (merge_sort control_before (controls_where (fun q => String.eqb (q_runId q) runId
    && Z.eqb (q_attempt q) attempt && bool_decide (q_status q = K_queued)) d)) with
  | None => mret None
  | Some (id, q) =>
      let claimed := control_to q K_delivering (q_error q) (Some timestamp) (q_completedAt q) in
      do* modify (set_controls (insert id claimed)) in
      mret (Some (id, claimed))
  end.

Definition completeControlItem (id : string) (status : ControlStatus) (error : string) (timestamp : Z) : tx Db bool :=
  let* m := gets controls in
  match m !! id with
  | Some q =>
      if bool_decide (q_status q = K_delivering) then
        do* modify (set_controls (insert id (control_to q status error (q_claimedAt q) (Some timestamp)))) in mret true
      else mret false
  | None => mret false
  end.

End mailbox.
