(* ===== verification/RuntimeMutation.v ===== *)
(** The fenced mutations of the runtime (adapters/persistence-sqlite/src/sqlite/
    attempt-runtime-mutation-repository.ts): each validates the fence and acts,
    in one transaction, on the TaskRun and ordinal of the validated scope.
    [timestamp] is the clock of the mutation, [dbTime] the clock of the fence. *)
From S2P Require Import Prelude Json TaskPolicy Attempt ExecDb AttemptRepo RunStore Transcript Tools Mailbox.
Local Open Scope tx_scope.

Section mutations.
Context `{Platform}.

Definition withFence {A} (fence : TaskRunExecutionFence) (dbTime : Z) (work : TaskRunExecutionScope -> tx Db A) : tx Db A :=
  let* scope := validate fence dbTime in work scope.

Definition fencedAppendEvent (fence : TaskRunExecutionFence) (dbTime : Z) (type : string) (data : json) (timestamp : Z)
    : tx Db RunEvent :=
  withFence fence dbTime (fun scope => appendEvent (sc_runId scope) type data timestamp).

Definition fencedAppendTranscript (fence : TaskRunExecutionFence) (dbTime : Z) (message : json) (timestamp : Z) : tx Db Z :=
  withFence fence dbTime (fun scope => appendTranscript (sc_runId scope) (sc_ordinal scope) message timestamp).

Definition fencedSetRunPhase (fence : TaskRunExecutionFence) (dbTime : Z) (phase : RunPhase) (timestamp : Z) : tx Db bool :=
  withFence fence dbTime (fun scope => setRunPhase (sc_runId scope) phase timestamp).

Definition fencedAdvanceRunPhase (fence : TaskRunExecutionFence) (dbTime : Z) (phase : RunPhase) (timestamp : Z)
    : tx Db bool :=
  withFence fence dbTime (fun scope => advanceRunPhase (sc_runId scope) phase timestamp).

(** The Attempt's event sequence, and that of its last audit row of the scenario
    [input], are corrected to the event just appended. *)
Definition attempt_event_to (a : AttemptRow) (seq : Z) : AttemptRow :=
  {| a_id := a_id a; a_runId := a_runId a; a_ordinal := a_ordinal a; a_trigger := a_trigger a; a_status := a_status a;
     a_active := a_active a; a_version := a_version a; a_eventSequence := seq; a_startedAt := a_startedAt a;
     a_updatedAt := a_updatedAt a; a_completedAt := a_completedAt a |}.

Definition audit_event_to (u : AuditRow) (seq : Z) : AuditRow :=
  {| u_id := u_id u; u_attemptId := u_attemptId u; u_runId := u_runId u; u_ordinal := u_ordinal u; u_from := u_from u;
     u_to := u_to u; u_trigger := u_trigger u; u_scenario := u_scenario u; u_reason := u_reason u;
     u_version := u_version u; u_eventSequence := seq; u_createdAt := u_createdAt u |}.

(** Rows are appended to the audit in the order of their rowids. *)
Fixpoint update_first {A} (p : A -> bool) (f : A -> A) (l : list A) : list A :=
  match l with
  | [] => []
  | x :: l' => if p x then f x :: l' else x :: update_first p f l'
  end.

Definition update_last {A} (p : A -> bool) (f : A -> A) (l : list A) : list A := rev (update_first p f (rev l)).

Definition waiting_hook (attemptId : string) (runId : string) (ordinal : Z) (toolCallId : string) (timestamp : Z)
    (request : UserInputRequest) (event : RunEvent) : tx Db unit :=
  do* require (match record (ev_data event) with
               | Some fs => opt_str_is (field "requestId" fs) request.1
               | None => false
               end) (Error "Store waiting event request identity mismatch") in
  do* update_attempt attemptId (fun a => Z.eqb (a_ordinal a) ordinal && bool_decide (a_status a = A_waiting_input))
    (fun a => attempt_event_to a (ev_seq event)) in
  do* modify (set_audit (update_last
    (fun u => String.eqb (u_attemptId u) attemptId && String.eqb (u_scenario u) "input")
    (fun u => audit_event_to u (ev_seq event)))) in
  do* completeToolAttempt runId ordinal toolCallId true "" timestamp in
  mret tt.

(** [hooked] records whether the hook ran ([capturedEvent]): an existing pending
    request is returned without it. *)
Definition fencedRequestUserInput (fence : TaskRunExecutionFence) (dbTime : Z) (prompt : string)
    (fields : list UserInputField) (toolCallId : string) (timestamp : Z) : tx Db (UserInputRequest * RunEvent) :=
  withFence fence dbTime (fun scope =>
    let runId := sc_runId scope in
    let* d := gets id in
    do* require (match tool_attempts d !! (runId, sc_ordinal scope, toolCallId) with
                 | Some t => bool_decide (ta_status t = TS_running)
                 | None => false
                 end) (Error ("Tool attempt " +:+ toolCallId +:+ " is not running for fenced Attempt")) in
    let hooked := bool_decide (getPendingUserInputRequest runId d = None) in
    let* request := requestUserInputInternal runId prompt fields
      (waiting_hook (fe_attemptId fence) runId (sc_ordinal scope) toolCallId timestamp) timestamp in
    let* d' := gets id in
    let e := Error "Store requestUserInput did not produce the expected fenced waiting event" in
    let* run := present (runs d' !! runId) e in
    let* row := present (events d' !! (runId, r_lastEventSeq run)) e in
    do* require (String.eqb (e_type row) "run.waiting_for_input" && String.eqb (e_attemptId row) (fe_attemptId fence)
                 && hooked) e in
    do* require (match record (e_data row) with
                 | Some fs => opt_str_is (field "requestId" fs) request.1
                 | None => false
                 end) (Error "Store waiting event request identity mismatch") in
    mret (request, {| ev_runId := runId; ev_seq := r_lastEventSeq run; ev_type := e_type row; ev_data := e_data row;
                      ev_createdAt := e_createdAt row |})).

Definition fencedUpsertCheckpoint (fence : TaskRunExecutionFence) (dbTime : Z) (active : bool)
    (assistantPartial currentTool : string) (lastEventSeq lastTranscriptSeq timestamp : Z) : tx Db (option CheckpointRow) :=
  withFence fence dbTime (fun scope =>
    upsertCheckpoint (sc_runId scope) (sc_ordinal scope) active assistantPartial currentTool lastEventSeq
      lastTranscriptSeq timestamp).

Definition fencedClaimOperation (fence : TaskRunExecutionFence) (dbTime : Z) (id operationType : string) (payload : json)
    (timestamp : Z) : tx Db (OperationRow * bool) :=
  withFence fence dbTime (fun scope =>
    claimOperation id (sc_runId scope) (sc_ordinal scope) operationType payload timestamp).

Definition fencedUpdateOperation (fence : TaskRunExecutionFence) (dbTime : Z) (id : string) (u : OperationUpdate)
    (timestamp : Z) : tx Db OperationRow :=
  withFence fence dbTime (fun scope =>
    let* d := gets (fun d => d) in
    do* require (match operations d !! id with
                 | Some o => String.eqb (o_runId o) (sc_runId scope) && Z.eqb (o_attempt o) (sc_ordinal scope)
                 | None => false
                 end) (Error ("Operation " +:+ id +:+ " does not belong to fenced Attempt " +:+ fe_attemptId fence)) in
    updateOperation id u timestamp).

Definition fencedRecordToolAttempt (fence : TaskRunExecutionFence) (dbTime : Z) (toolCallId toolName : string)
    (args : json) (timestamp : Z) : tx Db ToolReceipt :=
  withFence fence dbTime (fun scope =>
    recordToolAttempt (sc_runId scope) (sc_ordinal scope) toolCallId toolName args timestamp).

Definition fencedCompleteToolAttempt (fence : TaskRunExecutionFence) (dbTime : Z) (toolCallId : string) (success : bool)
    (error : string) (timestamp : Z) : tx Db bool :=
  withFence fence dbTime (fun scope =>
    completeToolAttempt (sc_runId scope) (sc_ordinal scope) toolCallId success error timestamp).

Definition control_kind_text (k : ControlKind) : string :=
  match k with steer => "steer" | follow_up => "follow_up" end.

(** [status] is [delivered] or [rejected]. *)
Definition completeControlDelivery (fence : TaskRunExecutionFence) (dbTime : Z) (itemId : string) (status : ControlStatus)
    (error : string) (timestamp : Z) : tx Db RunEvent :=
  withFence fence dbTime (fun scope =>
    let* d := gets id in
    let foreign := Error ("Control item " +:+ itemId +:+ " does not belong to fenced Attempt " +:+ fe_attemptId fence) in
    let* item := present (controls d !! itemId) foreign in
    do* require (String.eqb (q_runId item) (sc_runId scope) && Z.eqb (q_attempt item) (sc_ordinal scope)
                 && bool_decide (q_status item = K_delivering)) foreign in
    let* completed := completeControlItem itemId status error timestamp in
    do* require completed (Error ("Control item " +:+ itemId +:+ " changed during fenced completion")) in
    appendEvent (sc_runId scope)
      (if bool_decide (status = K_delivered) then "control.delivered" else "control.rejected")
      (JObj ([("controlId", JStr itemId); ("requestId", JStr (q_requestId item)); ("attempt", JInt (sc_ordinal scope));
              ("kind", JStr (control_kind_text (q_kind item)))]
             ++ if bool_decide (status = K_rejected) then [("reason", JStr error)] else [])) timestamp).

(** [{ decisionId, ...data }] *)
Definition decision_event (decisionId : string) (data : list (string * json)) : json :=
  JObj (fold_left (fun fs kv => with_member kv.1 kv.2 fs) data [("decisionId", JStr decisionId)]).

Definition completeSupervisorDecision (fence : TaskRunExecutionFence) (dbTime : Z) (decisionId : string)
    (status : DecisionStatus) (error : string) (data : list (string * json)) (timestamp : Z) : tx Db RunEvent :=
  withFence fence dbTime (fun scope =>
    let* d := gets id in
    let foreign :=
      Error ("Supervisor decision " +:+ decisionId +:+ " does not belong to fenced Attempt " +:+ fe_attemptId fence) in
    let* decision := present (decisions d !! decisionId) foreign in
    do* require (String.eqb (d_runId decision) (sc_runId scope) && Z.eqb (d_attempt decision) (sc_ordinal scope)
                 && bool_decide (d_status decision = D_proposed)) foreign in
    do* modify (set_decisions (insert decisionId (decision_to decision status error (Some timestamp)))) in
    appendEvent (sc_runId scope) "supervisor.decision" (decision_event decisionId data) timestamp).

End mutations.
