(* ===== verification/AttemptSpec.v ===== *)
(** What the Attempt repository promises: the consistency of the execution
    tables ([Consistent]) and the abstract lifecycle of one Attempt, whose steps
    are the acceptance of a lease change ([leased]), the proposal of a Candidate
    ([proposed]) and the closing of the Attempt ([closed]). The steps preserve
    the consistency; AttemptRefine.v shows that every operation is such a step. *)
From S2P Require Import Prelude Json Attempt ExecDb AttemptRepo.
Local Open Scope tx_scope.

(** * The event log of a TaskRun *)

Fixpoint append_rows (runId : string) (last : Z) (rows : list EventRow) (m : gmap (string * Z) EventRow)
    : gmap (string * Z) EventRow :=
  match rows with
  | [] => m
  | e :: rows' => append_rows runId (last + 1) rows' (<[(runId, (last + 1)%Z) := e]> m)
  end.

(** The log of a run holds exactly the sequence numbers 1 to [last]. *)
Definition gapless (runId : string) (last : Z) (m : gmap (string * Z) EventRow) : Prop :=
  (0 <= last)%Z /\ forall s, is_Some (m !! (runId, s)) <-> (1 <= s <= last)%Z.

(** * Consistency of the execution tables *)

Record Consistent (d : Db) : Prop := {
  con_attempt : forall i a, attempts d !! i = Some a -> a_id a = i /\ attempt_check a = true;
  con_unique : forall i j a b, attempts d !! i = Some a -> attempts d !! j = Some b ->
    attempts_conflict a b -> i = j;
  con_candidate : forall i c, candidates d !! i = Some c -> c_id c = i;
  con_one_candidate : forall i j c c', candidates d !! i = Some c -> candidates d !! j = Some c' ->
    c_attemptId c = c_attemptId c' -> i = j;
  con_lease : forall i l, leases d !! i = Some l -> l_attemptId l = i /\ (0 < l_fence l)%Z;
  (* an active Attempt is the current one of a running TaskRun *)
  con_active : forall i a, attempts d !! i = Some a -> a_active a = true ->
    exists r, runs d !! a_runId a = Some r /\ r_attempt r = a_ordinal a /\ r_status r = R_running;
  (* the current Attempt of a TaskRun shows the status of the TaskRun *)
  con_current : forall i a r, attempts d !! i = Some a -> runs d !! a_runId a = Some r ->
    r_attempt r = a_ordinal a ->
    if a_active a then r_status r = R_running else a_status a = of_run_status (r_status r);
  (* an Attempt is settling exactly while its Candidate is proposed *)
  con_settling : forall i a, attempts d !! i = Some a -> a_status a = A_settling ->
    exists c, candidates d !! c_id c = Some c /\ c_attemptId c = i /\ c_status c = C_proposed;
  con_proposed : forall i c, candidates d !! i = Some c -> c_status c = C_proposed ->
    exists a, attempts d !! c_attemptId c = Some a /\ a_status a = A_settling /\ a_version a = c_attemptVersion c;
  (* only a completed Attempt has an accepted Candidate *)
  con_accepted : forall i c, candidates d !! i = Some c -> c_status c = C_accepted ->
    exists a, attempts d !! c_attemptId c = Some a /\ a_status a = A_completed;
  con_log : forall i r, runs d !! i = Some r -> gapless i (r_lastEventSeq r) (events d);
  con_event : forall i s, is_Some (events d !! (i, s)) -> is_Some (runs d !! i);
  (* the identifier of an Attempt is built from its TaskRun and ordinal; no
     Attempt is ahead of its TaskRun, and the current one exists *)
  con_named : forall i a, attempts d !! i = Some a -> i = attempt_id (a_runId a) (a_ordinal a);
  con_ordinal : forall i a, attempts d !! i = Some a ->
    exists r, runs d !! a_runId a = Some r /\ (a_ordinal a <= r_attempt r)%Z;
  con_has_current : forall i r, runs d !! i = Some r ->
    exists a, attempts d !! attempt_id i (r_attempt r) = Some a /\ a_runId a = i /\ a_ordinal a = r_attempt r;
  con_run : forall i r, runs d !! i = Some r -> r_id r = i;
}.

#[global] Arguments con_attempt {d} _.
#[global] Arguments con_unique {d} _.
#[global] Arguments con_candidate {d} _.
#[global] Arguments con_one_candidate {d} _.
#[global] Arguments con_lease {d} _.
#[global] Arguments con_active {d} _.
#[global] Arguments con_current {d} _.
#[global] Arguments con_settling {d} _.
#[global] Arguments con_proposed {d} _.
#[global] Arguments con_accepted {d} _.
#[global] Arguments con_log {d} _.
#[global] Arguments con_event {d} _.
#[global] Arguments con_named {d} _.
#[global] Arguments con_ordinal {d} _.
#[global] Arguments con_has_current {d} _.
#[global] Arguments con_run {d} _.

(** * The abstract lifecycle *)

(** A lease meets the CHECKs and is for the version of a running Attempt it is
    granted at, or for the one of the lease it renews or releases. *)
Definition lease_version (d : Db) (i : string) (l : LeaseRow) : Prop :=
  lease_check l = true /\
  ((exists a, attempts d !! i = Some a /\ a_status a = A_running /\ l_attemptVersion l = a_version a)
  \/ exists l0, leases d !! i = Some l0 /\ l_attemptVersion l = l_attemptVersion l0).

(** A lease is granted, renewed or released: nothing else changes. *)
Record leased (d d' : Db) (i : string) : Prop := {
  le_attempts : attempts d' = attempts d;
  le_runs : runs d' = runs d;
  le_candidates : candidates d' = candidates d;
  le_events : events d' = events d;
  le_audit : audit d' = audit d;
  le_leases : leases d' = leases d \/
    exists l, l_attemptId l = i /\ (0 < l_fence l)%Z /\ leases d' = <[i := l]> (leases d)
      /\ lease_version d i l
      /\ forall l0, leases d !! i = Some l0 -> (l_fence l0 <= l_fence l)%Z
           /\ (l_fence l0 = l_fence l -> l_ownerId l = l_ownerId l0 /\ l_token l = l_token l0
                /\ (l_releasedAt l0 <> None -> l_releasedAt l <> None));
}.

(** The running Attempt proposes its Candidate and starts settling. *)
Record proposed (d d' : Db) (a : AttemptRow) (c : CandidateRow) (ts : Z) : Prop := {
  pr_attempt : attempts d !! a_id a = Some a;
  pr_running : a_status a = A_running /\ a_active a = true;
  pr_attempts : attempts d' =
    <[a_id a := attempt_to a A_settling true (a_version a + 1) (a_eventSequence a) ts (a_completedAt a)]> (attempts d);
  pr_runs : runs d' = runs d;
  pr_events : events d' = events d;
  pr_leases : leases d' = leases d;
  pr_fresh : candidates d !! c_id c = None /\ forall i c', candidates d !! i = Some c' -> c_attemptId c' <> a_id a;
  pr_candidates : candidates d' = <[c_id c := c]> (candidates d);
  pr_candidate : c_attemptId c = a_id a /\ c_status c = C_proposed /\ c_attemptVersion c = (a_version a + 1)%Z;
  pr_audit : exists u, audit d' = audit d ++ [u] /\ u_attemptId u = a_id a /\ u_from u = Some A_running
    /\ u_to u = A_settling /\ u_version u = (a_version a + 1)%Z;
}.

Definition verdict (to : AttemptStatus) : CandidateStatus :=
  if bool_decide (to = A_completed) then C_accepted else C_rejected.

(** Either an active Attempt leaves through the state machine, or a blocked one
    is completed by re-adjudicating its rejected Candidate. *)
Definition may_close (a : AttemptRow) (r : RunRow) (to : AttemptStatus) : Prop :=
  a_active a = true /\ attempt_step (a_status a) to /\ r_status r = R_running
  \/ a_active a = false /\ a_status a = A_blocked /\ r_status r = R_blocked /\ to = A_completed.

(** The Attempt [a] of the run [r] is closed with the status of [s], appending
    [rows] to the log. *)
Record closed (d d' : Db) (a a' : AttemptRow) (r r' : RunRow) (s : RunStatus) (rows : list EventRow) (ts : Z)
    : Prop := {
  cl_attempt : attempts d !! a_id a = Some a;
  cl_run : runs d !! a_runId a = Some r;
  cl_current : r_attempt r = a_ordinal a;
  cl_may : may_close a r (of_run_status s);
  cl_final : s <> R_running;
  cl_same : a_id a' = a_id a /\ a_runId a' = a_runId a /\ a_ordinal a' = a_ordinal a;
  cl_closed : a_active a' = false /\ a_status a' = of_run_status s /\ a_version a' = (a_version a + 1)%Z
    /\ a_eventSequence a' = r_lastEventSeq r';
  cl_attempts : attempts d' = <[a_id a := a']> (attempts d);
  cl_projected : r_id r' = r_id r /\ r_attempt r' = r_attempt r /\ r_status r' = s
    /\ r_lastEventSeq r' = (r_lastEventSeq r + Z.of_nat (length rows))%Z;
  cl_runs : runs d' = <[a_runId a := r']> (runs d);
  cl_rows : rows <> [] /\ Forall (fun e => e_attemptId e = a_id a) rows;
  cl_events : events d' = append_rows (a_runId a) (r_lastEventSeq r) rows (events d);
  cl_candidates : forall i, candidates d' !! i =
    (fun c => if String.eqb (c_attemptId c) (a_id a)
                 && (bool_decide (c_status c = C_proposed) || negb (a_active a))
              then candidate_to c (verdict (of_run_status s)) (if a_active a then Some ts else c_settledAt c)
              else c) <$> candidates d !! i;
  cl_released : forall i, leases d' !! i = leases d !! i
    \/ i = a_id a /\ exists l, leases d !! i = Some l
         /\ leases d' !! i = Some (lease_to l (l_leaseUntil l) (l_heartbeatAt l) (Some ts));
  cl_audit : exists u, audit d' = audit d ++ [u] /\ u_attemptId u = a_id a /\ u_from u = Some (a_status a)
    /\ u_to u = of_run_status s /\ u_version u = (a_version a + 1)%Z /\ u_eventSequence u = r_lastEventSeq r';
}.

#[global] Arguments cl_attempt {d d' a a' r r' s rows ts} _.
#[global] Arguments cl_run {d d' a a' r r' s rows ts} _.
#[global] Arguments cl_current {d d' a a' r r' s rows ts} _.
#[global] Arguments cl_may {d d' a a' r r' s rows ts} _.
#[global] Arguments cl_final {d d' a a' r r' s rows ts} _.
#[global] Arguments cl_same {d d' a a' r r' s rows ts} _.
#[global] Arguments cl_closed {d d' a a' r r' s rows ts} _.
#[global] Arguments cl_attempts {d d' a a' r r' s rows ts} _.
#[global] Arguments cl_projected {d d' a a' r r' s rows ts} _.
#[global] Arguments cl_runs {d d' a a' r r' s rows ts} _.
#[global] Arguments cl_rows {d d' a a' r r' s rows ts} _.
#[global] Arguments cl_events {d d' a a' r r' s rows ts} _.
#[global] Arguments cl_candidates {d d' a a' r r' s rows ts} _.
#[global] Arguments cl_released {d d' a a' r r' s rows ts} _.
#[global] Arguments cl_audit {d d' a a' r r' s rows ts} _.

(** * The log *)

Lemma append_rows_other runId last rows m k :
  k.1 <> runId -> append_rows runId last rows m !! k = m !! k.
Proof.
  intros Hk. revert last m. induction rows as [|e rows IH]; intros last m; cbn; [done|].
  rewrite IH. apply lookup_insert_ne. intros <-. exact (Hk eq_refl).
Qed.

Lemma gapless_insert runId last e m :
  gapless runId last m -> gapless runId (last + 1) (<[(runId, (last + 1)%Z) := e]> m).
Proof.
  intros [H0 Hg]. split; [lia|]. intros s. destruct (decide (s = last + 1)%Z) as [->|Hs].
  - rewrite lookup_insert_eq. split; [lia|eauto].
  - rewrite lookup_insert_ne by congruence. rewrite Hg. lia.
Qed.

Lemma gapless_append runId last rows m :
  gapless runId last m -> gapless runId (last + Z.of_nat (length rows)) (append_rows runId last rows m).
Proof.
  revert last m. induction rows as [|e rows IH]; intros last m Hg; cbn.
  - by rewrite Z.add_0_r.
  - replace (last + Z.of_nat (S (length rows)))%Z with (last + 1 + Z.of_nat (length rows))%Z by lia.
    apply IH. by apply gapless_insert.
Qed.

Lemma gapless_other runId last m m' :
  (forall s, m' !! (runId, s) = m !! (runId, s)) -> gapless runId last m -> gapless runId last m'.
Proof. intros Hm [H0 Hg]. split; [exact H0|]. intros s. rewrite Hm. apply Hg. Qed.

(** * The steps preserve consistency *)

Lemma attempt_unique_spec a m i b :
  attempt_unique a m = true -> m !! i = Some b -> i <> a_id a -> ~ attempts_conflict a b.
Proof. unfold attempt_unique. intros Hu. bool_prop. intros Hb Hi. exact (Hu i b Hb Hi). Qed.

Lemma attempts_conflict_sym a b : attempts_conflict a b -> attempts_conflict b a.
Proof. intros [? [?|[? ?]]]; split; eauto. Qed.

(** Two rows with the same Attempt id and run data, the second inactive,
    conflict with the same other rows or fewer. *)
Lemma conflict_weaken a a' b :
  a_runId a' = a_runId a -> a_ordinal a' = a_ordinal a -> (a_active a' = true -> a_active a = true) ->
  attempts_conflict a' b -> attempts_conflict a b.
Proof. intros H1 H2 H3 [? [?|[? ?]]]; split; try congruence; [left; congruence|right; auto]. Qed.

Lemma unique_insert (m : gmap string AttemptRow) a a' :
  (forall i j x y, m !! i = Some x -> m !! j = Some y -> attempts_conflict x y -> i = j) ->
  m !! a_id a = Some a -> a_runId a' = a_runId a -> a_ordinal a' = a_ordinal a ->
  (a_active a' = true -> a_active a = true) ->
  forall i j x y, <[a_id a := a']> m !! i = Some x -> <[a_id a := a']> m !! j = Some y ->
    attempts_conflict x y -> i = j.
Proof.
  intros Hu Ha H1 H2 H3 i j x y Hx Hy Hc.
  destruct (decide (a_id a = i)) as [<-|Hi], (decide (a_id a = j)) as [<-|Hj]; [done| | |];
    rewrite ?lookup_insert_eq, ?lookup_insert_ne in Hx by done;
    rewrite ?lookup_insert_eq, ?lookup_insert_ne in Hy by done; simplify_eq.
  - eapply Hu; [exact Ha|exact Hy|]. eapply conflict_weaken; eauto.
  - eapply Hu; [exact Hx|exact Ha|]. apply attempts_conflict_sym. eapply conflict_weaken; eauto using attempts_conflict_sym.
  - eapply Hu; eauto.
Qed.

Lemma attempt_check_active a : attempt_check a = true -> a_active a = isActiveAttemptStatus (a_status a).
Proof. unfold attempt_check. intros H. bool_prop. by apply Bool.eqb_prop. Qed.

Lemma attempt_check_version a : attempt_check a = true -> (0 < a_version a)%Z.
Proof. unfold attempt_check. intros H. bool_prop. lia. Qed.

Lemma of_run_status_inj r s : of_run_status r = of_run_status s -> r = s.
Proof. destruct r, s; done. Qed.

Section preservation.
Context (d d' : Db).
Hypothesis Hcon : Consistent d.

Lemma leased_consistent i : leased d d' i -> Consistent d'.
Proof.
  intros [H1 H2 H3 H4 H5 H6]. destruct Hcon.
  split; rewrite ?H1, ?H2, ?H3, ?H4; try assumption.
  destruct H6 as [->|(l & <- & Hf & -> & _)]; [assumption|].
  intros j l'. rewrite lookup_insert_Some. intros [[<- <-]|[_ ?]]; eauto.
Qed.

Lemma proposed_consistent a c ts : proposed d d' a c ts -> Consistent d'.
Proof.
  intros [Ha [Hrun Hact] Has Hrs Hes Hls [Hf1 Hf2] Hcs (Hc1 & Hc2 & Hc3) _].
  pose proof (con_attempt Hcon _ _ Ha) as [_ Hck].
  split; rewrite ?Has, ?Hrs, ?Hes, ?Hls, ?Hcs.
  - intros i b. rewrite lookup_insert_Some. intros [[<- <-]|[_ Hb]]; [|by apply Hcon].
    split; [done|]. revert Hck. unfold attempt_check. cbn. rewrite Hact, Hrun. cbn. intros H; bool_prop.
    rewrite !andb_true_iff, Z.ltb_lt, Z.ltb_lt, Z.leb_le. intuition lia.
  - apply unique_insert; auto. intros. eapply (con_unique Hcon); eauto.
  - intros i c'. rewrite lookup_insert_Some. intros [[<- <-]|[_ Hb]]; [done|by apply Hcon].
  - intros i j x y. rewrite !lookup_insert_Some. intros [[<- <-]|[? Hx]] [[<- <-]|[? Hy]] E; try done.
    + exfalso. apply (Hf2 _ _ Hy). congruence.
    + exfalso. apply (Hf2 _ _ Hx). congruence.
    + eapply (con_one_candidate Hcon); eauto.
  - apply Hcon.
  - intros i b. rewrite lookup_insert_Some. intros [[<- <-]|[_ Hb]]; [|exact (con_active Hcon _ _ Hb)]. intros _. cbn.
    exact (con_active Hcon _ _ Ha Hact).
  - intros i b r. rewrite lookup_insert_Some. intros [[<- <-]|[_ Hb]]; [|exact (con_current Hcon _ _ r Hb)].
    cbn. intros Hr Ho. pose proof (con_current Hcon _ _ _ Ha Hr Ho) as H. by rewrite Hact in H.
  - intros i b. rewrite lookup_insert_Some. intros [[<- <-]|[Hi Hb]] Hst.
    + exists c. rewrite lookup_insert_eq. auto.
    + destruct (con_settling Hcon _ _ Hb Hst) as (c' & H1 & H2 & H3). exists c'.
      rewrite lookup_insert_ne; [auto|]. intros E. rewrite E in Hf1. congruence.
  - intros i x. rewrite lookup_insert_Some. intros [[<- <-]|[_ Hx]] Hst.
    + rewrite Hc1. eexists. rewrite lookup_insert_eq. split; [reflexivity|]. cbn. auto.
    + rewrite lookup_insert_ne by (intros E; exact (Hf2 _ _ Hx (eq_sym E))). exact (con_proposed Hcon _ _ Hx Hst).
  - intros i x. rewrite lookup_insert_Some. intros [[<- <-]|[_ Hx]] Hst; [congruence|].
    rewrite lookup_insert_ne by (intros E; exact (Hf2 _ _ Hx (eq_sym E))). exact (con_accepted Hcon _ _ Hx Hst).
  - exact (con_log Hcon).
  - exact (con_event Hcon).
  - intros i b. rewrite lookup_insert_Some. intros [[<- <-]|[_ Hb]]; [exact (con_named Hcon _ _ Ha)|].
    exact (con_named Hcon _ _ Hb).
  - intros i b. rewrite lookup_insert_Some. intros [[<- <-]|[_ Hb]]; [exact (con_ordinal Hcon _ _ Ha)|].
    exact (con_ordinal Hcon _ _ Hb).
  - intros i x Hx. destruct (con_has_current Hcon _ _ Hx) as (b & Hb & ? & ?).
    destruct (decide (a_id a = attempt_id i (r_attempt x))) as [E|E].
    + rewrite E in Ha. rewrite Ha in Hb. injection Hb as <-. rewrite <- E, lookup_insert_eq. eauto.
    + rewrite lookup_insert_ne by done. eauto.
  - exact (con_run Hcon).
Qed.
End preservation.

(** ** Closing an Attempt *)
Section closing.
Context {d d' : Db} {a a' : AttemptRow} {r r' : RunRow} {s : RunStatus} {rows : list EventRow} {ts : Z}.
Hypothesis Hcon : Consistent d.
Hypothesis Hcl : closed d d' a a' r r' s rows ts.

Lemma closed_attempt_inv i b :
  attempts d' !! i = Some b -> i = a_id a /\ b = a' \/ i <> a_id a /\ attempts d !! i = Some b.
Proof. rewrite (cl_attempts Hcl), lookup_insert_Some. intuition auto. Qed.

Lemma closed_run_inv i x :
  runs d' !! i = Some x -> i = a_runId a /\ x = r' \/ i <> a_runId a /\ runs d !! i = Some x.
Proof. rewrite (cl_runs Hcl), lookup_insert_Some. intuition auto. Qed.

(** The row of a Candidate after the closing, by the row before. *)
Lemma closed_candidate_inv i x :
  candidates d' !! i = Some x -> exists c, candidates d !! i = Some c /\ c_id x = c_id c
    /\ c_attemptId x = c_attemptId c /\ c_attemptVersion x = c_attemptVersion c
    /\ (c_status x = verdict (of_run_status s) /\ c_attemptId c = a_id a
        \/ x = c /\ (c_attemptId c = a_id a -> c_status c <> C_proposed)).
Proof.
  rewrite (cl_candidates Hcl). intros (c & -> & Hc)%fmap_Some.
  exists c. split; [done|].
  destruct (String.eqb_spec (c_attemptId c) (a_id a)) as [E|E]; cbn in Hc;
    [destruct (_ || _) eqn:Ho in Hc|]; subst x; cbn; repeat split; auto.
  right. split; [done|]. intros _. bool_prop. done.
Qed.

Lemma closed_other_run b : attempts d !! a_id b = Some b -> a_id b <> a_id a -> a_ordinal b = a_ordinal a ->
  a_runId b <> a_runId a.
Proof.
  intros Hb Hne Ho Hr. apply Hne. eapply (con_unique Hcon); [exact Hb| |].
  - exact (cl_attempt Hcl).
  - split; [exact Hr|]. by left.
Qed.

Lemma closed_not_settled : a_status a <> A_completed /\ a_status a' <> A_settling.
Proof.
  destruct (cl_closed Hcl) as (_ & -> & _ & _). split; [|by destruct s].
  destruct (cl_may Hcl) as [(_ & H & _)|(_ & -> & _ & _)]; [|done].
  intros E. rewrite E in H. discriminate H.
Qed.

Lemma closed_row_check : attempt_check a' = true.
Proof.
  destruct (con_attempt Hcon _ _ (cl_attempt Hcl)) as [_ Hck].
  destruct (cl_closed Hcl) as (H1 & H2 & H3 & H4), (cl_same Hcl) as (_ & _ & H5).
  destruct (cl_projected Hcl) as (_ & _ & _ & H6).
  destruct (con_log Hcon _ _ (cl_run Hcl)) as [H7 _].
  pose proof (cl_final Hcl) as H8.
  revert Hck. unfold attempt_check. rewrite H1, H2, H3, H4, H5, H6. intros Hck. bool_prop.
  rewrite !andb_true_iff, !Z.ltb_lt, Z.leb_le. repeat split; try lia. by destruct s.
Qed.

Lemma closed_log i x : runs d' !! i = Some x -> gapless i (r_lastEventSeq x) (events d').
Proof.
  rewrite (cl_events Hcl). intros [[-> ->]|[Hi Hx]]%closed_run_inv.
  - destruct (cl_projected Hcl) as (_ & _ & _ & ->).
    apply gapless_append. exact (con_log Hcon _ _ (cl_run Hcl)).
  - eapply gapless_other, (con_log Hcon); [|exact Hx]. intros n. by apply append_rows_other.
Qed.

Lemma closed_leases i l : leases d' !! i = Some l -> l_attemptId l = i /\ (0 < l_fence l)%Z.
Proof.
  destruct (cl_released Hcl i) as [->|(-> & l0 & H1 & H2)]; [apply (con_lease Hcon)|].
  rewrite H2. intros [= <-]. cbn. exact (con_lease Hcon _ _ H1).
Qed.

Lemma closed_active_current i b :
  attempts d' !! i = Some b ->
  (a_active b = true -> exists x, runs d' !! a_runId b = Some x /\ r_attempt x = a_ordinal b /\ r_status x = R_running)
  /\ forall x, runs d' !! a_runId b = Some x -> r_attempt x = a_ordinal b ->
     if a_active b then r_status x = R_running else a_status b = of_run_status (r_status x).
Proof.
  destruct (cl_closed Hcl) as (C1 & C2 & C3 & C4), (cl_same Hcl) as (S1 & S2 & S3).
  destruct (cl_projected Hcl) as (P1 & P2 & P3 & P4).
  intros [[-> ->]|[Hi Hb]]%closed_attempt_inv.
  - rewrite C1. split; [done|]. rewrite S2, S3.
    intros x [[_ ->]|[Hne _]]%closed_run_inv _; [congruence|done].
  - assert (i = a_id b) as -> by (symmetry; by apply (con_attempt Hcon)).
    assert (Hrun : r_attempt r = a_ordinal b -> a_runId b <> a_runId a).
    { intros E. apply closed_other_run; [done|done|]. rewrite <- E. exact (cl_current Hcl). }
    split.
    + intros Hact. destruct (con_active Hcon _ _ Hb Hact) as (x & X1 & X2 & X3). exists x.
      rewrite (cl_runs Hcl). rewrite lookup_insert_ne; [auto|]. intros E.
      apply Hrun; [|done]. rewrite <- E, (cl_run Hcl) in X1. congruence.
    + intros x [[E ->]|[_ Hx]]%closed_run_inv Ho; [|exact (con_current Hcon _ _ x Hb Hx Ho)].
      exfalso. apply Hrun; [congruence|done].
Qed.

Lemma closed_candidates_owned i x :
  candidates d' !! i = Some x ->
  (c_status x = C_proposed ->
     exists b, attempts d' !! c_attemptId x = Some b /\ a_status b = A_settling /\ a_version b = c_attemptVersion x)
  /\ (c_status x = C_accepted -> exists b, attempts d' !! c_attemptId x = Some b /\ a_status b = A_completed).
Proof.
  destruct (cl_closed Hcl) as (_ & C2 & _ & _). destruct closed_not_settled as [N1 _].
  intros (c & Hc & _ & -> & -> & Hst)%closed_candidate_inv.
  rewrite (cl_attempts Hcl). destruct Hst as [[-> E]|[-> Hst]].
  - rewrite E. unfold verdict. case_bool_decide as Hs; split; try done. intros _. exists a'.
    by rewrite lookup_insert_eq, C2.
  - split; intros Hs.
    + destruct (con_proposed Hcon _ _ Hc Hs) as (b & Hb & ?). exists b. rewrite lookup_insert_ne; [done|].
      intros E. by apply Hst.
    + destruct (con_accepted Hcon _ _ Hc Hs) as (b & Hb & ?). exists b. rewrite lookup_insert_ne; [done|].
      intros E. rewrite <- E, (cl_attempt Hcl) in Hb. by simplify_eq.
Qed.

Lemma closed_events i n : is_Some (events d' !! (i, n)) -> is_Some (runs d' !! i).
Proof.
  rewrite (cl_events Hcl), (cl_runs Hcl). destruct (decide (i = a_runId a)) as [->|Hi].
  - rewrite lookup_insert_eq. eauto.
  - rewrite append_rows_other, lookup_insert_ne by done. apply (con_event Hcon).
Qed.

Lemma closed_names i b : attempts d' !! i = Some b ->
  i = attempt_id (a_runId b) (a_ordinal b) /\ exists x, runs d' !! a_runId b = Some x /\ (a_ordinal b <= r_attempt x)%Z.
Proof.
  destruct (cl_same Hcl) as (S1 & S2 & S3), (cl_projected Hcl) as (_ & P2 & _).
  assert (Hrun : forall y, runs d !! a_runId y = Some r \/ a_runId y <> a_runId a ->
    forall x, runs d !! a_runId y = Some x -> (a_ordinal y <= r_attempt x)%Z ->
    exists x, runs d' !! a_runId y = Some x /\ (a_ordinal y <= r_attempt x)%Z).
  { intros y Hy x Hx Hle. rewrite (cl_runs Hcl). destruct (decide (a_runId a = a_runId y)) as [E|E].
    - exists r'. rewrite E, lookup_insert_eq, P2. split; [done|]. destruct Hy as [Hy|]; congruence.
    - exists x. by rewrite lookup_insert_ne. }
  intros [[-> ->]|[Hi Hb]]%closed_attempt_inv.
  - rewrite S2, S3. split; [exact (con_named Hcon _ _ (cl_attempt Hcl))|].
    destruct (con_ordinal Hcon _ _ (cl_attempt Hcl)) as (x & Hx & Hle).
    apply (Hrun a) with x; auto. left. exact (cl_run Hcl).
  - split; [exact (con_named Hcon _ _ Hb)|]. destruct (con_ordinal Hcon _ _ Hb) as (x & Hx & Hle).
    apply (Hrun b) with x; auto. destruct (decide (a_runId b = a_runId a)) as [E|]; [left|by right].
    rewrite E. exact (cl_run Hcl).
Qed.

Lemma closed_has_current i x : runs d' !! i = Some x ->
  exists b, attempts d' !! attempt_id i (r_attempt x) = Some b /\ a_runId b = i /\ a_ordinal b = r_attempt x.
Proof.
  destruct (cl_same Hcl) as (S1 & S2 & S3), (cl_projected Hcl) as (_ & P2 & _). intros Hx.
  assert (Hy : exists y, runs d !! i = Some y /\ r_attempt y = r_attempt x).
  { apply closed_run_inv in Hx as [[-> ->]|[_ Hx]]; [|eauto]. exists r. split; [exact (cl_run Hcl)|done]. }
  destruct Hy as (y & Hy & <-). destruct (con_has_current Hcon _ _ Hy) as (b & Hb & B1 & B2).
  rewrite (cl_attempts Hcl). destruct (decide (a_id a = attempt_id i (r_attempt y))) as [E|E].
  - rewrite <- E, (cl_attempt Hcl) in Hb. injection Hb as <-. exists a'. rewrite <- E, lookup_insert_eq. split; [done|].
    split; congruence.
  - exists b. by rewrite lookup_insert_ne.
Qed.

Lemma closed_consistent : Consistent d'.
Proof.
  destruct (cl_closed Hcl) as (C1 & C2 & C3 & C4), (cl_same Hcl) as (S1 & S2 & S3).
  split.
  - intros i b [[-> ->]|[_ Hb]]%closed_attempt_inv; [|exact (con_attempt Hcon _ _ Hb)]. auto using closed_row_check.
  - rewrite (cl_attempts Hcl). apply unique_insert; auto; [apply Hcon|apply Hcl|congruence].
  - intros i x (c & Hc & -> & _)%closed_candidate_inv. exact (con_candidate Hcon _ _ Hc).
  - intros i j x y (c & Hc & _ & -> & _)%closed_candidate_inv (c' & Hc' & _ & -> & _)%closed_candidate_inv.
    exact (con_one_candidate Hcon _ _ _ _ Hc Hc').
  - exact closed_leases.
  - intros i b Hb. exact (proj1 (closed_active_current _ _ Hb)).
  - intros i b x Hb. exact (proj2 (closed_active_current _ _ Hb) x).
  - intros i b [[-> ->]|[Hi Hb]]%closed_attempt_inv Hst; [by destruct closed_not_settled|].
    destruct (con_settling Hcon _ _ Hb Hst) as (c & H1 & H2 & H3).
    exists c. rewrite (cl_candidates Hcl), H1. cbn.
    destruct (String.eqb_spec (c_attemptId c) (a_id a)); [congruence|]. auto.
  - intros i x Hx. exact (proj1 (closed_candidates_owned _ _ Hx)).
  - intros i x Hx. exact (proj2 (closed_candidates_owned _ _ Hx)).
  - exact closed_log.
  - exact closed_events.
  - intros i b Hb. exact (proj1 (closed_names _ _ Hb)).
  - intros i b Hb. exact (proj2 (closed_names _ _ Hb)).
  - exact closed_has_current.
  - intros i x [[-> ->]|[_ Hx]]%closed_run_inv; [|exact (con_run Hcon _ _ Hx)].
    destruct (cl_projected Hcl) as (-> & _). exact (con_run Hcon _ _ (cl_run Hcl)).
Qed.
End closing.
