(* ===== verification/StoreSpec.v ===== *)
(** The abstract steps of a TaskRun that the store adds to the lifecycle of an
    Attempt: the TaskRun and its current Attempt move together ([moved]), the
    next Attempt starts ([started]), or nothing of the execution state changes
    ([aside]). The steps preserve the consistency of the tables. *)
From S2P Require Import Prelude Json Attempt ExecDb AttemptRepo AttemptSpec.
Local Open Scope tx_scope.

(** What an audit row says of its Attempt: from which status to which, and at
    which version. *)
Record Entry := { en_attemptId : string; en_from : option AttemptStatus; en_to : AttemptStatus; en_version : Z }.

Definition entry_of (u : AuditRow) : Entry :=
  {| en_attemptId := u_attemptId u; en_from := u_from u; en_to := u_to u; en_version := u_version u |}.

Definition trail_of (d : Db) : list Entry := map entry_of (audit d).

(** One audit row is appended, for a step of the Attempt [i]. *)
Definition audited (d d' : Db) (i : string) (from : option AttemptStatus) (to : AttemptStatus) (version : Z) : Prop :=
  trail_of d' = trail_of d ++ [{| en_attemptId := i; en_from := from; en_to := to; en_version := version |}].

(** What the execution state depends on of the row of a TaskRun. *)
Definition run_key (r : RunRow) : string * RunStatus * Z * Z := (r_id r, r_status r, r_attempt r, r_lastEventSeq r).

(** The moves the ports make together with a TaskRun: the transitions of the
    state machine out of [running] and [waiting_input], and four that the state
    machine does not list: a runtime that completes a running Attempt without a
    Candidate, and an external approval that blocks a stopped one. *)
Definition outside_machine : list (AttemptStatus * AttemptStatus) :=
  [(A_running, A_completed); (A_blocked, A_blocked); (A_interrupted, A_blocked); (A_failed, A_blocked)].

Definition movable (from to : AttemptStatus) : Prop :=
  from <> A_settling /\ (attempt_step from to \/ (from, to) ∈ outside_machine).

#[export] Instance movable_dec from to : Decision (movable from to).
Proof. unfold movable. apply _. Defined.

(** The TaskRun [i] and its current Attempt go from [r], [a] to [r'], [a'],
    appending [rows] to the log; either the Attempt gets the status of the
    TaskRun, or both statuses stay. *)
Record moved (d d' : Db) (i : string) (r r' : RunRow) (a a' : AttemptRow) (rows : list EventRow) : Prop := {
  mv_run : runs d !! i = Some r;
  mv_attempt : attempts d !! a_id a = Some a;
  mv_current : a_runId a = i /\ a_ordinal a = r_attempt r;
  mv_same : a_id a' = a_id a /\ a_runId a' = a_runId a /\ a_ordinal a' = a_ordinal a;
  mv_run_same : r_attempt r' = r_attempt r /\ r_lastEventSeq r' = (r_lastEventSeq r + Z.of_nat (length rows))%Z
    /\ r_id r' = r_id r;
  mv_check : attempt_check a' = true;
  mv_active : a_active a' = true -> a_active a = true;
  mv_status : a_status a' = a_status a /\ a_version a' = a_version a /\ r_status r' = r_status r
      /\ trail_of d' = trail_of d /\ (a' = a \/ a_status a = A_waiting_input)
    \/ movable (a_status a) (a_status a') /\ a_status a' = of_run_status (r_status r') /\ a_version a' = (a_version a + 1)%Z
      /\ audited d d' (a_id a) (Some (a_status a)) (a_status a') (a_version a');
  mv_attempts : attempts d' = <[a_id a := a']> (attempts d);
  mv_runs : runs d' = <[i := r']> (runs d);
  mv_events : events d' = append_rows i (r_lastEventSeq r) rows (events d);
  mv_leases : leases d' = leases d;
  mv_candidates : candidates d' = candidates d;
}.

(** The TaskRun [i] starts its first Attempt, or the next one after the current
    one stopped. *)
Record started (d d' : Db) (i : string) (r' : RunRow) (a : AttemptRow) : Prop := {
  st_before : match runs d !! i with
    | Some r => r_status r <> R_running /\ r_attempt r' = (r_attempt r + 1)%Z /\ r_lastEventSeq r' = r_lastEventSeq r
    | None => r_attempt r' = 1%Z /\ r_lastEventSeq r' = 0%Z
    end;
  st_running : r_status r' = R_running /\ a_status a = A_running /\ a_active a = true /\ a_version a = 1%Z;
  st_named : a_id a = attempt_id i (r_attempt r') /\ a_runId a = i /\ a_ordinal a = r_attempt r' /\ r_id r' = i;
  st_check : attempt_check a = true;
  st_fresh : attempts d !! a_id a = None;
  st_attempts : attempts d' = <[a_id a := a]> (attempts d);
  st_runs : runs d' = <[i := r']> (runs d);
  st_events : events d' = events d;
  st_leases : leases d' = leases d;
  st_candidates : candidates d' = candidates d;
  st_audit : audited d d' (a_id a) None A_running 1;
}.

(** Only tables outside the execution state change, and descriptive columns of
    the TaskRuns. *)
Record aside (d d' : Db) : Prop := {
  as_runs : forall i, run_key <$> runs d' !! i = run_key <$> runs d !! i;
  as_attempts : attempts d' = attempts d;
  as_events : events d' = events d;
  as_leases : leases d' = leases d;
  as_candidates : candidates d' = candidates d;
  as_trail : trail_of d' = trail_of d;
}.

#[global] Arguments mv_run {d d' i r r' a a' rows} _.
#[global] Arguments mv_attempt {d d' i r r' a a' rows} _.
#[global] Arguments mv_current {d d' i r r' a a' rows} _.
#[global] Arguments mv_same {d d' i r r' a a' rows} _.
#[global] Arguments mv_run_same {d d' i r r' a a' rows} _.
#[global] Arguments mv_check {d d' i r r' a a' rows} _.
#[global] Arguments mv_active {d d' i r r' a a' rows} _.
#[global] Arguments mv_status {d d' i r r' a a' rows} _.
#[global] Arguments mv_attempts {d d' i r r' a a' rows} _.
#[global] Arguments mv_runs {d d' i r r' a a' rows} _.
#[global] Arguments mv_events {d d' i r r' a a' rows} _.
#[global] Arguments mv_leases {d d' i r r' a a' rows} _.
#[global] Arguments mv_candidates {d d' i r r' a a' rows} _.
#[global] Arguments st_before {d d' i r' a} _.
#[global] Arguments st_running {d d' i r' a} _.
#[global] Arguments st_named {d d' i r' a} _.
#[global] Arguments st_check {d d' i r' a} _.
#[global] Arguments st_fresh {d d' i r' a} _.
#[global] Arguments st_attempts {d d' i r' a} _.
#[global] Arguments st_runs {d d' i r' a} _.
#[global] Arguments st_events {d d' i r' a} _.
#[global] Arguments st_leases {d d' i r' a} _.
#[global] Arguments st_candidates {d d' i r' a} _.
#[global] Arguments st_audit {d d' i r' a} _.

(** The row of a TaskRun before, by the row after. *)
Lemma aside_run d d' i r' : aside d d' -> runs d' !! i = Some r' ->
  exists r, runs d !! i = Some r /\ r_id r' = r_id r /\ r_status r' = r_status r /\ r_attempt r' = r_attempt r
    /\ r_lastEventSeq r' = r_lastEventSeq r.
Proof.
  intros Ha Hr. pose proof (as_runs _ _ Ha i) as Hk. rewrite Hr in Hk. cbn in Hk.
  symmetry in Hk. apply fmap_Some in Hk as (r & Hr2 & E). injection E as E1 E2 E3 E4. eauto 10.
Qed.

Lemma aside_run_fwd d d' i r : aside d d' -> runs d !! i = Some r ->
  exists r', runs d' !! i = Some r' /\ r_status r' = r_status r /\ r_attempt r' = r_attempt r.
Proof.
  intros Ha Hr. pose proof (as_runs _ _ Ha i) as Hk. rewrite Hr in Hk. cbn in Hk.
  apply fmap_Some in Hk as (r' & Hr2 & E). injection E as E1 E2 E3 E4. eauto.
Qed.

Lemma aside_consistent d d' : Consistent d -> aside d d' -> Consistent d'.
Proof.
  intros Hcon Ha. pose proof Ha as [_ E2 E3 E4 E5 _].
  split; rewrite ?E2, ?E3, ?E4, ?E5; try apply Hcon.
  - intros i a Hi Hact. destruct (con_active Hcon _ _ Hi Hact) as (r & Hr & H1 & H2).
    destruct (aside_run_fwd _ _ _ _ Ha Hr) as (r' & Hr' & H3 & H4). exists r'. split_and!; congruence.
  - intros i a r' Hi Hr' Ho. destruct (aside_run _ _ _ _ Ha Hr') as (r & Hr & _ & -> & H4 & _).
    apply (con_current Hcon _ _ _ Hi Hr). congruence.
  - intros i r' Hr'. destruct (aside_run _ _ _ _ Ha Hr') as (r & Hr & _ & _ & _ & ->). exact (con_log Hcon _ _ Hr).
  - intros i s He. destruct (con_event Hcon _ _ He) as [r Hr].
    destruct (aside_run_fwd _ _ _ _ Ha Hr) as (r' & Hr' & _). eauto.
  - intros i a Hi. destruct (con_ordinal Hcon _ _ Hi) as (r & Hr & Hle).
    destruct (aside_run_fwd _ _ _ _ Ha Hr) as (r' & Hr' & _ & H4). exists r'. split; [done|lia].
  - intros i r' Hr'. destruct (aside_run _ _ _ _ Ha Hr') as (r & Hr & _ & _ & -> & _). exact (con_has_current Hcon _ _ Hr).
  - intros i r' Hr'. destruct (aside_run _ _ _ _ Ha Hr') as (r & Hr & -> & _). exact (con_run Hcon _ _ Hr).
Qed.

Lemma aside_refl d : aside d d.
Proof. by split. Qed.

Lemma of_run_status_not_settling s : of_run_status s <> A_settling.
Proof. by destruct s. Qed.

Lemma not_movable s to : s = A_settling \/ s = A_completed -> ~ movable s to.
Proof.
  revert s to. assert (forall s to, s = A_settling \/ s = A_completed -> ~ movable s to) as Hx; [|exact Hx].
  apply (bool_decide_unpack _). vm_compute. done.
Qed.

(** ** Moving *)
Section moving.
Context {d d' : Db} {i : string} {r r' : RunRow} {a a' : AttemptRow} {rows : list EventRow}.
Hypothesis Hcon : Consistent d.
Hypothesis Hmv : moved d d' i r r' a a' rows.

Lemma moved_attempt_inv j b :
  attempts d' !! j = Some b -> j = a_id a /\ b = a' \/ j <> a_id a /\ attempts d !! j = Some b.
Proof. rewrite (mv_attempts Hmv), lookup_insert_Some. intuition auto. Qed.

Lemma moved_run_inv j x : runs d' !! j = Some x -> j = i /\ x = r' \/ j <> i /\ runs d !! j = Some x.
Proof. rewrite (mv_runs Hmv), lookup_insert_Some. intuition auto. Qed.

(** Another Attempt is the current one of another TaskRun. *)
Lemma moved_other j b : attempts d !! j = Some b -> j <> a_id a -> a_ordinal b = r_attempt r -> a_runId b <> i.
Proof.
  intros Hb Hj Ho E. apply Hj. destruct (mv_current Hmv) as [C1 C2].
  eapply (con_unique Hcon); [exact Hb|exact (mv_attempt Hmv)|]. split; [congruence|left; congruence].
Qed.

(** The row before and after: the status of the Attempt follows the TaskRun. *)
Lemma moved_projection : if a_active a' then r_status r' = R_running else a_status a' = of_run_status (r_status r').
Proof.
  pose proof (attempt_check_active a' (mv_check Hmv)) as Hact.
  destruct (mv_current Hmv) as [C1 C2]. destruct (mv_status Hmv) as [(S1 & _ & S2 & _)|(_ & S1 & _)].
  - pose proof (con_current Hcon _ _ r (mv_attempt Hmv)) as Hc. rewrite C1 in Hc.
    specialize (Hc (mv_run Hmv) (eq_sym C2)).
    rewrite (attempt_check_active a (proj2 (con_attempt Hcon _ _ (mv_attempt Hmv)))) in Hc.
    rewrite Hact, S1, S2. exact Hc.
  - rewrite Hact, S1. destruct (r_status r'); done.
Qed.

Lemma moved_active_current j b : attempts d' !! j = Some b ->
  (a_active b = true -> exists x, runs d' !! a_runId b = Some x /\ r_attempt x = a_ordinal b /\ r_status x = R_running)
  /\ (forall x, runs d' !! a_runId b = Some x -> r_attempt x = a_ordinal b ->
      if a_active b then r_status x = R_running else a_status b = of_run_status (r_status x)).
Proof.
  destruct (mv_current Hmv) as [C1 C2], (mv_same Hmv) as (S1 & S2 & S3), (mv_run_same Hmv) as (R1 & _ & _).
  pose proof moved_projection as Hp.
  intros [[-> ->]|[Hj Hb]]%moved_attempt_inv.
  - rewrite S2, C1, (mv_runs Hmv), lookup_insert_eq. split.
    + intros Hact. rewrite Hact in Hp. exists r'. split_and!; [done|congruence|done].
    + intros x [= <-] _. exact Hp.
  - assert (Hne : r_attempt r = a_ordinal b -> a_runId b <> i) by (intros E; eapply moved_other; eauto).
    split.
    + intros Hact. destruct (con_active Hcon _ _ Hb Hact) as (x & X1 & X2 & X3). exists x.
      rewrite (mv_runs Hmv), lookup_insert_ne; [auto|]. intros E.
      apply Hne; [|done]. rewrite <- E, (mv_run Hmv) in X1. congruence.
    + intros x [[E ->]|[_ Hx]]%moved_run_inv Ho; [|exact (con_current Hcon _ _ x Hb Hx Ho)].
      exfalso. apply Hne; [congruence|done].
Qed.

(** No Candidate of the Attempt is proposed or accepted when its status changes. *)
Lemma moved_candidates_owned j x : candidates d' !! j = Some x ->
  (c_status x = C_proposed ->
     exists b, attempts d' !! c_attemptId x = Some b /\ a_status b = A_settling /\ a_version b = c_attemptVersion x)
  /\ (c_status x = C_accepted -> exists b, attempts d' !! c_attemptId x = Some b /\ a_status b = A_completed).
Proof.
  rewrite (mv_candidates Hmv), (mv_attempts Hmv). intros Hx.
  destruct (decide (a_id a = c_attemptId x)) as [E|E].
  - rewrite <- E, lookup_insert_eq. split; intros Hs;
      [destruct (con_proposed Hcon _ _ Hx Hs) as (b & Hb & B)|destruct (con_accepted Hcon _ _ Hx Hs) as (b & Hb & B)];
      rewrite <- E, (mv_attempt Hmv) in Hb; injection Hb as <-; exists a'; split; try done;
      destruct (mv_status Hmv) as [(S1 & S2 & _)|(Hm & _)]; try (rewrite S1; done).
    + rewrite S1, S2. done.
    + destruct B as [B _]. by destruct (not_movable _ _ (or_introl B) Hm).
    + by destruct (not_movable _ _ (or_intror B) Hm).
  - rewrite lookup_insert_ne by done. split; intros Hs;
      [exact (con_proposed Hcon _ _ Hx Hs)|exact (con_accepted Hcon _ _ Hx Hs)].
Qed.

Lemma moved_names j b : attempts d' !! j = Some b ->
  j = attempt_id (a_runId b) (a_ordinal b) /\ exists x, runs d' !! a_runId b = Some x /\ (a_ordinal b <= r_attempt x)%Z.
Proof.
  destruct (mv_current Hmv) as [C1 C2], (mv_same Hmv) as (S1 & S2 & S3), (mv_run_same Hmv) as (R1 & _ & _).
  intros [[-> ->]|[Hj Hb]]%moved_attempt_inv.
  - rewrite S2, S3. split; [exact (con_named Hcon _ _ (mv_attempt Hmv))|].
    exists r'. rewrite C1, (mv_runs Hmv), lookup_insert_eq, R1, C2. split; [done|lia].
  - split; [exact (con_named Hcon _ _ Hb)|]. destruct (con_ordinal Hcon _ _ Hb) as (x & Hx & Hle).
    rewrite (mv_runs Hmv). destruct (decide (i = a_runId b)) as [E|E]; [|exists x; by rewrite lookup_insert_ne].
    exists r'. rewrite <- E, lookup_insert_eq, R1. split; [done|]. rewrite <- E, (mv_run Hmv) in Hx. congruence.
Qed.

Lemma moved_has_current j x : runs d' !! j = Some x ->
  exists b, attempts d' !! attempt_id j (r_attempt x) = Some b /\ a_runId b = j /\ a_ordinal b = r_attempt x.
Proof.
  destruct (mv_current Hmv) as [C1 C2], (mv_same Hmv) as (S1 & S2 & S3), (mv_run_same Hmv) as (R1 & _ & _).
  pose proof (con_named Hcon _ _ (mv_attempt Hmv)) as Hn. rewrite C1, C2 in Hn.
  intros [[-> ->]|[Hj Hx]]%moved_run_inv; rewrite (mv_attempts Hmv).
  - rewrite R1, <- Hn. exists a'. rewrite lookup_insert_eq. split_and!; congruence.
  - destruct (con_has_current Hcon _ _ Hx) as (b & Hb & B1 & B2). exists b.
    rewrite lookup_insert_ne; [done|]. rewrite Hn. by intros [-> _]%attempt_id_inj.
Qed.

Lemma moved_consistent : Consistent d'.
Proof.
  destruct (mv_current Hmv) as [C1 C2], (mv_same Hmv) as (S1 & S2 & S3), (mv_run_same Hmv) as (R1 & R2 & R3).
  split.
  - intros j b [[-> ->]|[_ Hb]]%moved_attempt_inv; [|exact (con_attempt Hcon _ _ Hb)]. split; [done|exact (mv_check Hmv)].
  - rewrite (mv_attempts Hmv). apply unique_insert; [apply Hcon|exact (mv_attempt Hmv)|done|done|exact (mv_active Hmv)].
  - rewrite (mv_candidates Hmv). apply Hcon.
  - rewrite (mv_candidates Hmv). apply Hcon.
  - rewrite (mv_leases Hmv). apply Hcon.
  - intros j b Hb. exact (proj1 (moved_active_current _ _ Hb)).
  - intros j b x Hb. exact (proj2 (moved_active_current _ _ Hb) x).
  - intros j b [[-> ->]|[Hj Hb]]%moved_attempt_inv Hst; rewrite (mv_candidates Hmv);
      [|exact (con_settling Hcon _ _ Hb Hst)].
    destruct (mv_status Hmv) as [(E & _)|(_ & E & _)]; [|by rewrite E in Hst; destruct (of_run_status_not_settling _ Hst)].
    rewrite E in Hst. exact (con_settling Hcon _ _ (mv_attempt Hmv) Hst).
  - intros j x Hx. exact (proj1 (moved_candidates_owned _ _ Hx)).
  - intros j x Hx. exact (proj2 (moved_candidates_owned _ _ Hx)).
  - intros j x [[-> ->]|[Hj Hx]]%moved_run_inv; rewrite (mv_events Hmv).
    + rewrite R2. apply gapless_append. exact (con_log Hcon _ _ (mv_run Hmv)).
    + eapply gapless_other, (con_log Hcon); [|exact Hx]. intros n. by apply append_rows_other.
  - intros j n. rewrite (mv_events Hmv), (mv_runs Hmv). destruct (decide (j = i)) as [->|Hj].
    + rewrite lookup_insert_eq. eauto.
    + rewrite append_rows_other, lookup_insert_ne by done. apply (con_event Hcon).
  - intros j b Hb. exact (proj1 (moved_names _ _ Hb)).
  - intros j b Hb. exact (proj2 (moved_names _ _ Hb)).
  - exact moved_has_current.
  - intros j x [[-> ->]|[_ Hx]]%moved_run_inv; [|exact (con_run Hcon _ _ Hx)].
    rewrite R3. exact (con_run Hcon _ _ (mv_run Hmv)).
Qed.
End moving.

(** ** Starting *)
Section starting.
Context {d d' : Db} {i : string} {r' : RunRow} {a : AttemptRow}.
Hypothesis Hcon : Consistent d.
Hypothesis Hst : started d d' i r' a.

Lemma started_attempt_inv j b :
  attempts d' !! j = Some b -> j = a_id a /\ b = a \/ j <> a_id a /\ attempts d !! j = Some b.
Proof. rewrite (st_attempts Hst), lookup_insert_Some. intuition auto. Qed.

(** The Attempts the TaskRun had before are behind the new one and inactive. *)
Lemma started_earlier j b : attempts d !! j = Some b -> a_runId b = i ->
  (a_ordinal b < r_attempt r')%Z /\ a_active b = false.
Proof.
  intros Hb E. destruct (con_ordinal Hcon _ _ Hb) as (x & Hx & Hle). pose proof (st_before Hst) as Hr.
  rewrite <- E, Hx in Hr. destruct Hr as (Hnr & -> & _). split; [lia|]. destruct (a_active b) eqn:Hact; [|done].
  destruct (con_active Hcon _ _ Hb Hact) as (y & Hy & _ & Hrun). congruence.
Qed.

Lemma started_unique j k b c :
  attempts d' !! j = Some b -> attempts d' !! k = Some c -> attempts_conflict b c -> j = k.
Proof.
  destruct (st_named Hst) as (N1 & N2 & N3 & N4). destruct (st_running Hst) as (_ & _ & A1 & _).
  assert (Hx : forall j b, attempts d !! j = Some b -> ~ attempts_conflict a b).
  { intros j' b' Hb [E H']. rewrite N2 in E. destruct (started_earlier _ _ Hb (eq_sym E)) as [H1 H2].
    destruct H' as [H'|[_ H']]; [rewrite N3 in H'; lia|congruence]. }
  intros [[-> ->]|[Hj Hb]]%started_attempt_inv [[-> ->]|[Hk Hc]]%started_attempt_inv Hcf; [done| | |].
  - by destruct (Hx _ _ Hc).
  - destruct (Hx _ _ Hb). by apply attempts_conflict_sym.
  - exact (con_unique Hcon _ _ _ _ Hb Hc Hcf).
Qed.

Lemma started_active_current j b : attempts d' !! j = Some b ->
  (a_active b = true -> exists x, runs d' !! a_runId b = Some x /\ r_attempt x = a_ordinal b /\ r_status x = R_running)
  /\ (forall x, runs d' !! a_runId b = Some x -> r_attempt x = a_ordinal b ->
      if a_active b then r_status x = R_running else a_status b = of_run_status (r_status x)).
Proof.
  destruct (st_named Hst) as (N1 & N2 & N3 & N4). destruct (st_running Hst) as (A0 & A1 & A2 & _).
  rewrite (st_runs Hst). intros [[-> ->]|[Hj Hb]]%started_attempt_inv.
  - rewrite N2, lookup_insert_eq. split; [intros _; exists r'; split_and!; congruence|]. intros x [= <-] _. by rewrite A2.
  - destruct (decide (i = a_runId b)) as [E|E].
    + destruct (started_earlier _ _ Hb (eq_sym E)) as [H1 H2]. rewrite <- E, lookup_insert_eq, H2. split; [done|].
      intros x [= <-] Ho. lia.
    + rewrite lookup_insert_ne by done. split; [exact (con_active Hcon _ _ Hb)|].
      intros x. exact (con_current Hcon _ _ x Hb).
Qed.

Lemma started_other j b : attempts d !! j = Some b -> attempts d' !! j = Some b.
Proof.
  intros Hb. rewrite (st_attempts Hst). rewrite lookup_insert_ne; [done|]. intros E.
  pose proof (st_fresh Hst) as Hf. rewrite E in Hf. congruence.
Qed.

Lemma started_names j b : attempts d' !! j = Some b ->
  j = attempt_id (a_runId b) (a_ordinal b) /\ exists x, runs d' !! a_runId b = Some x /\ (a_ordinal b <= r_attempt x)%Z.
Proof.
  destruct (st_named Hst) as (N1 & N2 & N3 & N4). rewrite (st_runs Hst). intros [[-> ->]|[Hj Hb]]%started_attempt_inv.
  - rewrite N2, N3, lookup_insert_eq. split; [done|]. exists r'. split; [done|lia].
  - split; [exact (con_named Hcon _ _ Hb)|]. destruct (decide (i = a_runId b)) as [E|E].
    + rewrite <- E, lookup_insert_eq. exists r'. split; [done|].
      pose proof (proj1 (started_earlier _ _ Hb (eq_sym E))). lia.
    + rewrite lookup_insert_ne by done. exact (con_ordinal Hcon _ _ Hb).
Qed.

Lemma started_log j x : runs d' !! j = Some x -> gapless j (r_lastEventSeq x) (events d').
Proof.
  rewrite (st_runs Hst), (st_events Hst), lookup_insert_Some. intros [[<- <-]|[_ Hx]]; [|exact (con_log Hcon _ _ Hx)].
  pose proof (st_before Hst) as Hr. destruct (runs d !! i) as [r|] eqn:E.
  - destruct Hr as (_ & _ & ->). exact (con_log Hcon _ _ E).
  - destruct Hr as [_ ->]. split; [lia|]. intros s. split; [|lia].
    intros He. apply (con_event Hcon) in He. rewrite E in He. by destruct He.
Qed.

Lemma started_consistent : Consistent d'.
Proof.
  destruct (st_named Hst) as (N1 & N2 & N3 & N4). destruct (st_running Hst) as (A0 & A1 & A2 & _).
  split.
  - intros j b [[-> ->]|[_ Hb]]%started_attempt_inv; [|exact (con_attempt Hcon _ _ Hb)]. split; [done|exact (st_check Hst)].
  - exact started_unique.
  - rewrite (st_candidates Hst). apply Hcon.
  - rewrite (st_candidates Hst). apply Hcon.
  - rewrite (st_leases Hst). apply Hcon.
  - intros j b Hb. exact (proj1 (started_active_current _ _ Hb)).
  - intros j b x Hb. exact (proj2 (started_active_current _ _ Hb) x).
  - intros j b [[-> ->]|[Hj Hb]]%started_attempt_inv Hs; rewrite (st_candidates Hst); [congruence|].
    exact (con_settling Hcon _ _ Hb Hs).
  - intros j x. rewrite (st_candidates Hst). intros Hx Hs. destruct (con_proposed Hcon _ _ Hx Hs) as (b & Hb & B).
    exists b. auto using started_other.
  - intros j x. rewrite (st_candidates Hst). intros Hx Hs. destruct (con_accepted Hcon _ _ Hx Hs) as (b & Hb & B).
    exists b. auto using started_other.
  - exact started_log.
  - intros j n. rewrite (st_events Hst), (st_runs Hst). intros He%(con_event Hcon).
    destruct (decide (i = j)) as [->|]; [rewrite lookup_insert_eq|rewrite lookup_insert_ne by done]; eauto.
  - intros j b Hb. exact (proj1 (started_names _ _ Hb)).
  - intros j b Hb. exact (proj2 (started_names _ _ Hb)).
  - intros j x. rewrite (st_runs Hst), lookup_insert_Some. intros [[<- <-]|[_ Hx]].
    + exists a. rewrite <- N1, (st_attempts Hst), lookup_insert_eq. auto.
    + destruct (con_has_current Hcon _ _ Hx) as (b & Hb & B). exists b. auto using started_other.
  - intros j x. rewrite (st_runs Hst), lookup_insert_Some. intros [[<- <-]|[_ Hx]]; [done|exact (con_run Hcon _ _ Hx)].
Qed.
End starting.
