(* ===== verification/Demo.v ===== *)
(** A concrete instance: a platform whose identifiers count up and whose digest
    is the text itself, and a database with one TaskRun whose first Attempt
    runs. The witnesses of the other files evaluate on it. *)
From S2P Require Import Prelude Json Attempt ExecDb AttemptRepo AttemptSpec.

#[export] Instance demo_platform : Platform :=
  {| uuid n := "uuid-" +:+ pretty n; sha256 s := "digest:" +:+ s; localeLe := String.leb |}.

Definition demo_run : RunRow :=
  {| r_id := "run"; r_sessionId := "session"; r_requestId := "request"; r_status := R_running; r_phase := P_implement;
     r_goal := "goal"; r_contract := None; r_gateRequired := true; r_blockedReason := ""; r_attempt := 1;
     r_lastEventSeq := 1; r_createdAt := 0; r_updatedAt := 0; r_completedAt := None; r_resumedAt := None |}.

Definition demo_attempt : AttemptRow :=
  {| a_id := attempt_id "run" 1; a_runId := "run"; a_ordinal := 1; a_trigger := T_initial; a_status := A_running;
     a_active := true; a_version := 1; a_eventSequence := 1; a_startedAt := 0; a_updatedAt := 0; a_completedAt := None |}.

Definition demo_decision (id : string) (action : SupervisorAction) : DecisionRow :=
  {| d_id := id; d_runId := "run"; d_attempt := 1; d_status := D_proposed; d_action := action;
     d_candidateResponseHash := sha256 "answer"; d_error := ""; d_createdAt := 0; d_executedAt := None;
     d_checkpointSeq := 0; d_trigger := "settled"; d_reasonCode := ""; d_rationale := ""; d_instruction := "";
     d_evaluator := "system"; d_evaluatorModel := ""; d_epistemicStatus := "deterministic" |}.

Definition demo_db : Db :=
  set_decisions (fun _ => {["decision" := demo_decision "decision" S_complete_taskrun]})
  (set_events (fun _ => {[("run"%string, 1%Z) :=
     {| e_attemptId := attempt_id "run" 1; e_type := "run.started"; e_data := JObj []; e_createdAt := 0 |}]})
  (set_attempts (fun _ => {[attempt_id "run" 1 := demo_attempt]})
  (set_sessions (fun _ => {["session" := {| s_updatedAt := 0 |}]})
  (set_runs (fun _ => {["run" := demo_run]}) empty_db)))).

Lemma demo_consistent : Consistent demo_db.
Proof.
  split; cbn [runs attempts leases candidates events demo_db set_decisions set_events set_attempts set_sessions set_runs
    empty_db].
  all: repeat intros ?; repeat match goal with
    | E : {[_ := _]} !! _ = Some _ |- _ => apply lookup_singleton_Some in E as [<- <-]
    | E : ∅ !! _ = Some _ |- _ => by rewrite lookup_empty in E
    end; try done.
  - exists demo_run. split; [by apply lookup_singleton_Some|done].
  - apply lookup_singleton_Some in H0 as [_ <-]. done.
  - split; [cbn; lia|]. intros s. cbn. split.
    + intros [e [E _]%lookup_singleton_Some]. simplify_eq. lia.
    + intros Hs. assert (s = 1%Z) as -> by lia. eexists. by apply lookup_singleton_Some.
- destruct H as [e [E _]%lookup_singleton_Some]. simplify_eq. exists demo_run. by apply lookup_singleton_Some.
  - exists demo_run. split; [by apply lookup_singleton_Some|done].
  - exists demo_attempt. split; [by apply lookup_singleton_Some|done].
Qed.
