(* ===== verification/TranscriptFacts.v ===== *)
(** What the transcript of a TaskRun guarantees: messages stay where they were
    appended, and after a repair every call has a result. *)
From S2P Require Import Prelude Json Attempt ExecDb RunStore Transcript Demo.
Local Open Scope tx_scope.

(** * Appending *)

#[export] Instance seq_le_trans : Transitive seq_le.
Proof. intros a b c H1%Is_true_true%Z.leb_le H2%Is_true_true%Z.leb_le. apply Is_true_true, Z.leb_le. lia. Qed.

#[export] Instance seq_le_total : Total seq_le.
Proof. intros a b. destruct (Z.le_ge_cases a.1 b.1); [left|right]; apply Is_true_true, Z.leb_le; lia. Qed.

Lemma seq_le_key a b : seq_le a b <-> (a.1 <= b.1)%Z.
Proof. unfold seq_le. by rewrite Is_true_true, Z.leb_le. Qed.

Lemma rows_spec runId d s r : (s, r) ∈ transcript_rows runId d <-> transcript d !! (runId, s) = Some r.
Proof.
  unfold transcript_rows. rewrite list_elem_of_fmap. split.
  - intros ([[i s'] r'] & [= -> ->] & [Hin E]%filter_elem). cbn in E. apply String.eqb_eq in E as ->.
    by apply elem_of_map_to_list.
  - intros Hr. exists ((runId, s), r). split; [done|]. apply filter_elem. cbn. rewrite String.eqb_refl.
    split; [|done]. by apply elem_of_map_to_list.
Qed.

Lemma rows_nodup runId d : NoDup (transcript_rows runId d).
Proof.
  unfold transcript_rows. apply NoDup_fmap_2_strong.
  - intros [[i s] r] [[j s'] r'] [_ E1]%filter_elem [_ E2]%filter_elem [= -> ->]. cbn in E1, E2.
    apply String.eqb_eq in E1 as ->, E2 as ->. done.
  - apply NoDup_ListNoDup, List.NoDup_filter, NoDup_ListNoDup, NoDup_map_to_list.
Qed.

Lemma rows_keys runId d : NoDup (map fst (transcript_rows runId d)).
Proof.
  apply NoDup_fmap_2_strong; [|apply rows_nodup]. intros [s r] [s' r'] H1%rows_spec H2%rows_spec E. cbn in E. subst s'. congruence.
Qed.

Lemma last_seq_max runId d s r : (s, r) ∈ transcript_rows runId d -> (s <= getLastTranscriptSeq runId d)%Z.
Proof.
  unfold getLastTranscriptSeq. induction (transcript_rows runId d) as [|e l IH]; [by intros ?%elem_of_nil|].
  cbn. intros [<-|Hin]%elem_of_cons; cbn; [lia|]. specialize (IH Hin). lia.
Qed.

Lemma append_ok runId n m ts d s d' :
  appendTranscript runId n m ts d = Ok (s, d') ->
  s = (getLastTranscriptSeq runId d + 1)%Z /\ is_Some (runs d !! runId)
  /\ d' = set_transcript (insert (runId, s) {| tr_attempt := n; tr_message := m |}) d.
Proof. intros Hs. unfold appendTranscript in Hs. tx_inv Hs. by bool_prop. Qed.

(** The message is the last one, after those that were there. *)
Lemma append_listed runId n m ts d s d' :
  appendTranscript runId n m ts d = Ok (s, d') ->
  listTranscriptEntries runId d' = listTranscriptEntries runId d ++ [(s, {| tr_attempt := n; tr_message := m |})].
Proof.
  intros (Es & _ & Ed)%append_ok.
  assert (forall t r, (t, r) ∈ transcript_rows runId d -> (t < s)%Z) as Hlt by (intros t r Ht%last_seq_max; lia).
  apply (merge_sort_snoc seq_le fst seq_le_key).
  - apply NoDup_Permutation; [apply rows_nodup| |].
    + apply NoDup_cons. split; [intros Hin%Hlt; lia|apply rows_nodup].
    + intros [t r]. rewrite elem_of_cons, !rows_spec, Ed. cbn. rewrite lookup_insert. case_decide as E.
      * simplify_eq. split; [intros [= <-]; by left|]. intros [[= ->]|Hr]; [done|]. apply rows_spec, Hlt in Hr. lia.
      * split; [by right|]. by intros [[= -> ->]|Hr].
  - intros [t r] Ht%Hlt. exact Ht.
  - apply rows_keys.
Qed.

(** * Calls and results *)

(** The message makes the call, or answers it. *)
Definition calls (c : string) (m : json) : Prop :=
  member_is "role" "assistant" m = true
  /\ exists p, p ∈ parts m /\ member_is "type" "toolCall" p = true /\ member_text "id" p = c.

Definition answers (c : string) (m : json) : Prop :=
  member_is "role" "assistant" m = false /\ member_is "role" "toolResult" m = true /\ member_text "toolCallId" m = c.

Lemma map_set_keys k v m c : c ∈ (map_set k v m).*1 <-> c = k \/ c ∈ m.*1.
Proof.
  induction m as [|[k' v'] m IH]; cbn; [by rewrite list_elem_of_singleton, elem_of_nil; tauto|].
  destruct (String.eqb_spec k' k) as [->|]; cbn; rewrite !elem_of_cons; [tauto|]. rewrite IH. tauto.
Qed.

Lemma map_delete_keys k m c : c ∈ (map_delete k m).*1 <-> c <> k /\ c ∈ m.*1.
Proof.
  unfold map_delete. rewrite !list_elem_of_fmap. split.
  - intros ([k' v'] & -> & [Hin Hk]%filter_elem). apply negb_true_iff, String.eqb_neq in Hk. split; [done|by exists (k', v')].
  - intros [Hne ([k' v'] & -> & Hin)]. exists (k', v'). split; [done|]. apply filter_elem. split; [done|].
    by apply negb_true_iff, String.eqb_neq.
Qed.

Lemma observe_parts_keys ps pending c :
  c ∈ (fold_left observe_part ps pending).*1 <->
  (exists p, p ∈ ps /\ member_is "type" "toolCall" p = true /\ member_text "id" p = c) \/ c ∈ pending.*1.
Proof.
  revert pending. induction ps as [|p ps IH]; intros pending; cbn.
  - split; [by right|]. intros [(p & Hp & _)|]; [by apply elem_of_nil in Hp|done].
  - rewrite IH. unfold observe_part. destruct (member_is "type" "toolCall" p) eqn:E; rewrite ?map_set_keys; split.
    + intros [(q & Hq & H)|[->|H]]; [left; exists q; split; [by right|done]|left; exists p; split; [by left|done]|by right].
    + intros [(q & [->|Hq]%elem_of_cons & H1 & H2)|H]; [right; by left|left; by exists q|right; by right].
    + intros [(q & Hq & H)|H]; [left; exists q; split; [by right|done]|by right].
    + intros [(q & [->|Hq]%elem_of_cons & H1 & H2)|H]; [congruence|left; by exists q|by right].
Qed.

Lemma observe_keys m pending c : c ∈ (observe pending m).*1 <-> calls c m \/ (c ∈ pending.*1 /\ ~ answers c m).
Proof.
  unfold observe, calls, answers. destruct (member_is "role" "assistant" m) eqn:E.
  - rewrite observe_parts_keys. split; [intros [H|H]; [by left|right; split; [done|by intros []]]|intros [[_ H]|[H _]]; [by left|by right]].
  - destruct (member_is "role" "toolResult" m) eqn:E2.
    + rewrite map_delete_keys. split; [intros [Hne H]; right; split; [done|by intros (_ & _ & ?)]|].
      intros [[[=] _]|[H Hn]]. split; [|done]. intros ->. by apply Hn.
    + split; [intros H; right; split; [done|by intros (_ & [=] & _)]|by intros [[[=] _]|[H _]]].
Qed.

(** The pending calls are the calls that no later message answers. *)
Lemma pending_spec l c :
  c ∈ (pending_calls l).*1 <-> exists l1 m l2, l = l1 ++ m :: l2 /\ calls c m /\ forall x, x ∈ l2 -> ~ answers c x.
Proof.
  unfold pending_calls. induction l as [|m l IH] using rev_ind; cbn.
  - rewrite elem_of_nil. split; [done|]. intros (l1 & m & l2 & E & _). by destruct l1.
  - rewrite fold_left_app. cbn. rewrite observe_keys, IH. split.
    + intros [Hc|[(l1 & x & l2 & -> & Hc & Hn) Ha]].
      * exists l, m, []. split; [done|]. split; [done|]. by intros x ?%elem_of_nil.
      * exists l1, x, (l2 ++ [m]). split; [by rewrite <- app_assoc|]. split; [done|].
        intros y [Hy| ->%list_elem_of_singleton]%elem_of_app; [by apply Hn|done].
    + intros (l1 & x & l2 & E & Hc & Hn). destruct l2 as [|y l2 _] using rev_ind.
      * apply app_inj_tail in E as [-> ->]. by left.
      * rewrite app_comm_cons, app_assoc in E. apply app_inj_tail in E as [-> ->]. right. split.
        { exists l1, x, l2. split; [done|]. split; [done|]. intros z Hz. apply Hn, elem_of_app. by left. }
        apply Hn, elem_of_app. right. by left.
Qed.

(** The name under which a message calls a tool: that of its last part with the
    identifier of the call. *)
Definition calls_as (c name : string) (m : json) : Prop :=
  member_is "role" "assistant" m = true
  /\ last (List.filter (fun p => member_is "type" "toolCall" p && String.eqb (member_text "id" p) c) (parts m)) ≫= (fun p => Some (member_text "name" p))
     = Some name.

Lemma map_set_nodup k v m : NoDup m.*1 -> NoDup (map_set k v m).*1.
Proof.
  induction m as [|[k' v'] m IH]; cbn; intros Hn; [apply NoDup_singleton|]. apply NoDup_cons in Hn as [Hk Hn].
  destruct (String.eqb_spec k' k) as [->|Hne]; cbn; apply NoDup_cons; (split; [|auto]); [done|].
  rewrite map_set_keys. by intros [->|?].
Qed.

Lemma map_set_elem k v m c n : NoDup m.*1 -> (c, n) ∈ map_set k v m <-> c = k /\ n = v \/ c <> k /\ (c, n) ∈ m.
Proof.
  induction m as [|[k' v'] m IH]; cbn; intros Hn.
  - rewrite list_elem_of_singleton, elem_of_nil. split; [intros [= -> ->]; by left|]. by intros [[-> ->]|[_ []]].
  - apply NoDup_cons in Hn as [Hk Hn]. destruct (String.eqb_spec k' k) as [->|Hne]; rewrite !elem_of_cons.
    + split; [intros [[= -> ->]|Hin]; [by left|]|intros [[-> ->]|[Hc [[= -> ->]|Hin]]]; [by left|done|by right]].
      right. split; [|by right]. intros ->. apply Hk, list_elem_of_fmap. by exists (k, n).
    + rewrite (IH Hn). split.
      * intros [[= -> ->]|[H|[H1 H2]]]; [right; split; [done|by left]|by left|right; split; [done|by right]].
      * intros [H|[H1 [H2|H2]]]; [by right; left|by left|by right; right].
Qed.

Lemma observe_parts_nodup ps pending : NoDup pending.*1 -> NoDup (fold_left observe_part ps pending).*1.
Proof.
  revert pending. induction ps as [|p ps IH]; intros pending Hn; [done|]. cbn. apply IH. unfold observe_part.
  destruct (member_is _ _ _); [by apply map_set_nodup|done].
Qed.

Lemma observe_parts_elem ps pending c n : NoDup pending.*1 ->
  (c, n) ∈ fold_left observe_part ps pending <->
  (match last (List.filter (fun p => member_is "type" "toolCall" p && String.eqb (member_text "id" p) c) ps) with
   | Some p => member_text "name" p = n
   | None => (c, n) ∈ pending
   end).
Proof.
  intros Hn. induction ps as [|p ps IH] using rev_ind; [done|]. rewrite fold_left_app, List.filter_app. cbn. unfold observe_part at 1.
  destruct (member_is "type" "toolCall" p); cbn; [|by rewrite app_nil_r].
  rewrite map_set_elem by (by apply observe_parts_nodup). rewrite IH. destruct (String.eqb_spec (member_text "id" p) c) as [E|E]; cbn.
  - rewrite last_snoc. split; [by intros [[_ ->]|[? _]]|intros <-; by left].
  - rewrite app_nil_r. split; [by intros [[? _]|[_ ?]]|by right].
Qed.

Lemma observe_nodup m pending : NoDup pending.*1 -> NoDup (observe pending m).*1.
Proof.
  unfold observe. intros Hn. destruct (member_is "role" "assistant" m); [by apply observe_parts_nodup|].
  destruct (member_is _ _ m); [|done]. unfold map_delete. induction pending as [|[k v] l IH]; [done|]. cbn in *.
  apply NoDup_cons in Hn as [Hk Hn]. destruct (negb _); [|by apply IH]. apply NoDup_cons. split; [|by apply IH].
  intros Hin. by apply (map_delete_keys _ l) in Hin as [_ ?].
Qed.

Lemma pending_nodup l : NoDup (pending_calls l).*1.
Proof.
  unfold pending_calls. induction l as [|m l IH] using rev_ind; [constructor|]. rewrite fold_left_app. cbn. by apply observe_nodup.
Qed.

Lemma observe_elem m pending c n : NoDup pending.*1 ->
  (c, n) ∈ observe pending m <-> calls_as c n m \/ (c, n) ∈ pending /\ ~ calls c m /\ ~ answers c m.
Proof.
  intros Hn. unfold observe, calls_as, calls, answers. destruct (member_is "role" "assistant" m) eqn:E.
  - rewrite observe_parts_elem by done. destruct (last _) as [p|] eqn:El; cbn.
    + split; [intros <-; by left|]. intros [[_ [= <-]]|(_ & Hc & _)]; [done|]. exfalso. apply Hc. split; [done|].
      apply last_Some_elem_of, filter_elem in El as [Hp Hb]. apply andb_true_iff in Hb as [H1 H2%String.eqb_eq]. by exists p.
    + split; [intros Hin; right; split; [done|]; split; [|by intros []]|by intros [[_ [=]]|[? _]]].
      intros [_ (p & Hp & H1 & H2)]. apply last_None in El.
      assert (p ∈ List.filter (fun p => member_is "type" "toolCall" p && String.eqb (member_text "id" p) c) (parts m)) as Hin'.
      { apply filter_elem. by rewrite H1, H2, String.eqb_refl. }
      rewrite El in Hin'. by apply elem_of_nil in Hin'.
  - destruct (member_is "role" "toolResult" m) eqn:E2.
    + unfold map_delete. rewrite filter_elem, negb_true_iff, String.eqb_neq. cbn. split.
      * intros [Hin Hne]. right. split; [done|]. split; [by intros [? _]|by intros (_ & _ & ?)].
      * intros [[? _]|(Hin & _ & Ha)]; [done|]. split; [done|]. intros ->. by apply Ha.
    + split; [intros Hin; right; split; [done|]; split; [by intros []|by intros (_ & ? & _)]|by intros [[? _]|[? _]]].
Qed.

Lemma calls_as_calls c n m : calls_as c n m -> calls c m.
Proof.
  intros [E Hl]. split; [done|]. destruct (last _) as [p|] eqn:El; [|done].
  apply last_Some_elem_of, filter_elem in El as [Hp Hb]. apply andb_true_iff in Hb as [H1 H2%String.eqb_eq]. by exists p.
Qed.

(** A pending call carries the name under which it was last called. *)
Lemma pending_named l c n : (c, n) ∈ pending_calls l <->
  exists l1 m l2, l = l1 ++ m :: l2 /\ calls_as c n m /\ forall x, x ∈ l2 -> ~ calls c x /\ ~ answers c x.
Proof.
  induction l as [|m l IH] using rev_ind.
  - cbn. rewrite elem_of_nil. split; [done|]. intros (l1 & m & l2 & E & _). by destruct l1.
  - unfold pending_calls. rewrite fold_left_app. cbn. change (fold_left observe l []) with (pending_calls l).
    rewrite observe_elem, IH by apply pending_nodup. split.
    + intros [Hc|((l1 & x & l2 & -> & Hc & Hn) & Ha)].
      * exists l, m, []. split; [done|]. split; [done|]. by intros x ?%elem_of_nil.
      * exists l1, x, (l2 ++ [m]). split; [by rewrite <- app_assoc|]. split; [done|].
        intros y [Hy| ->%list_elem_of_singleton]%elem_of_app; [by apply Hn|done].
    + intros (l1 & x & l2 & E & Hc & Hn). destruct l2 as [|y l2 _] using rev_ind.
      * apply app_inj_tail in E as [-> ->]. by left.
      * rewrite app_comm_cons, app_assoc in E. apply app_inj_tail in E as [-> ->]. right. split.
        { exists l1, x, l2. split; [done|]. split; [done|]. intros z Hz. apply Hn, elem_of_app. by left. }
        apply Hn, elem_of_app. right. by left.
Qed.

Lemma synthetic_answers reason ts call c : answers c (synthetic_result reason ts call) <-> c = call.1.
Proof. split; [intros (_ & _ & E); symmetry; exact E|by intros ->]. Qed.

Lemma synthetic_calls reason ts call c : ~ calls c (synthetic_result reason ts call).
Proof. by intros [[=] _]. Qed.

(** Once each pending call is answered, none is pending. *)
Lemma answered reason ts l : pending_calls (l ++ map (synthetic_result reason ts) (pending_calls l)) = [].
Proof.
  apply (fmap_nil_inv fst). apply elem_of_nil_inv. intros c Hc. apply pending_spec in Hc as (l1 & m & l2 & E & Hc & Hn).
  set (p := pending_calls l) in *.
  assert (exists l2', l = l1 ++ m :: l2' /\ l2 = l2' ++ map (synthetic_result reason ts) p) as (l2' & El & ->).
  { apply app_eq_app in E as [k [[-> E]|[-> E]]].
    - destruct k as [|x k]; cbn in E.
      + destruct p as [|call p']; [done|]. injection E as -> _. by apply synthetic_calls in Hc.
      + injection E as <- ->. by exists k.
    - assert (m ∈ map (synthetic_result reason ts) p) as (call & -> & _)%list_elem_of_fmap
        by (rewrite E; apply elem_of_app; right; by left).
      by apply synthetic_calls in Hc. }
  assert (c ∈ p.*1) as ([c' tool] & -> & Hin)%list_elem_of_fmap.
  { apply pending_spec. exists l1, m, l2'. split; [done|]. split; [done|]. intros x Hx. apply Hn, elem_of_app. by left. }
  apply (Hn (synthetic_result reason ts (c', tool))); [|by apply synthetic_answers].
  apply elem_of_app. right. apply list_elem_of_fmap. by exists (c', tool).
Qed.

(** * Repair *)

Lemma appends_listed runId n reason ts calls d u d' :
  for_each (fun call => let* _ := appendTranscript runId n (synthetic_result reason ts call) ts in mret tt) calls d = Ok (u, d') ->
  listTranscript runId d' = listTranscript runId d ++ map (synthetic_result reason ts) calls /\ runs d' = runs d
  /\ (calls = [] -> d' = d).
Proof.
  revert d. induction calls as [|call calls IH]; intros d Hs; cbn in Hs.
  - tx_inv Hs. by rewrite app_nil_r.
  - apply tx_bind_ok in Hs as (u1 & d1 & H1 & (H & Hr & _)%IH). apply tx_bind_ok in H1 as (s & d2 & Ha & [_ ->]%mret_ok).
    pose proof (append_listed _ _ _ _ _ _ _ Ha) as Hl. apply append_ok in Ha as (_ & _ & ->).
    rewrite H, Hr. unfold listTranscript at 1. rewrite Hl, map_app, <- app_assoc. done.
Qed.

(** C32. The repair of a transcript leaves no call without a result. It closes
    exactly the calls no later message answers, each once and under the name it
    was last called by, by synthetic results appended after the messages that
    were there, and leaves nothing for a second repair, which changes nothing. *)
Theorem repair_closes_calls runId reason ts d closed d' :
  repairTranscript runId reason ts d = Ok (closed, d') ->
  listTranscript runId d' = listTranscript runId d ++ map (synthetic_result reason ts) closed
  /\ NoDup closed.*1
  /\ (forall c, c ∈ closed.*1 <->
      exists l1 m l2, listTranscript runId d = l1 ++ m :: l2 /\ calls c m /\ forall x, x ∈ l2 -> ~ answers c x)
  /\ (forall c name, (c, name) ∈ closed <->
      exists l1 m l2, listTranscript runId d = l1 ++ m :: l2 /\ calls_as c name m
        /\ forall x, x ∈ l2 -> ~ calls c x /\ ~ answers c x)
  /\ forall reason' ts', repairTranscript runId reason' ts' d' = Ok ([], d').
Proof.
  intros Hs. unfold repairTranscript in Hs. apply tx_bind_ok in Hs as (d0 & d1 & [-> ->]%gets_ok & Hs).
  apply tx_bind_ok in Hs as (run & d2 & [Hrun ->]%present_ok & Hs).
  apply tx_bind_ok in Hs as (u & d3 & (Hl & Hr & _)%appends_listed & [-> ->]%mret_ok). unfold id in *.
  split; [exact Hl|]. split; [apply pending_nodup|]. split; [intros c; apply pending_spec|]. split; [intros c name; apply pending_named|].
  intros reason' ts'. unfold repairTranscript.
  erewrite tx_bind_run by reflexivity. erewrite tx_bind_run by (apply present_run; unfold id; rewrite Hr; exact Hrun).
  unfold id. rewrite Hl, answered. reflexivity.
Qed.

(** * Witness *)

Definition demo_call : json :=
  JObj [("role", JStr "assistant"); ("content", JArr [JObj [("type", JStr "toolCall"); ("id", JStr "c1"); ("name", JStr "shell")];
                                                      JObj [("type", JStr "toolCall"); ("id", JStr "c2"); ("name", JStr "read")]])].

Definition demo_result : json := JObj [("role", JStr "toolResult"); ("toolCallId", JStr "c1"); ("toolName", JStr "shell")].

Definition demo_transcript : Db :=
  set_transcript (fun _ => list_to_map [(("run", 1%Z), {| tr_attempt := 1; tr_message := demo_call |});
                                        (("run", 2%Z), {| tr_attempt := 1; tr_message := demo_result |})]) demo_db.

Lemma repair_closes_calls_witness :
  exists closed d', repairTranscript "run" RR_resume 50 demo_transcript = Ok (closed, d') /\ closed = [("c2", "read")]
    /\ repairTranscript "run" RR_continuation 60 d' = Ok ([], d').
Proof.
  assert (exists d', repairTranscript "run" RR_resume 50 demo_transcript = Ok ([("c2", "read")], d')) as [d' Hs].
  { eexists. vm_compute. reflexivity. }
  exists [("c2", "read")], d'. split; [exact Hs|]. split; [reflexivity|]. apply (repair_closes_calls _ _ _ _ _ _ Hs).
Defined.
