(* ===== verification/AttemptRefine.v ===== *)
(** The operations of the Attempt repository refine the abstract lifecycle of
    AttemptSpec.v: on a consistent database, an operation that succeeds is a
    lease change, a proposal or a closing, and an operation that throws changes
    nothing. *)
From S2P Require Import Prelude Json Attempt ExecDb AttemptRepo AttemptSpec.
Local Open Scope tx_scope.

(** [db_simpl H] reduces a table of an updated database to the table before. *)
Ltac db_reduce t :=
  eval cbn [runs attempts leases candidates decisions events checkpoints audit messages sessions transcript gates
    uncertainties continuations controls consumers inputs approvals inbox operations tool_attempts commands
    uuid_counter set_runs set_attempts set_leases set_candidates set_decisions set_events set_checkpoints set_audit
    set_messages set_sessions bump_uuid] in t.

Ltac db_look :=
  repeat match goal with
  | H : ?m !! _ = _ |- _ => let m' := db_reduce m in progress change m with m' in H
  | H : attempt_unique _ ?m = _ |- _ => let m' := db_reduce m in progress change m with m' in H
  end.

(** [db_inv] replaces every successful statement by what it did. *)
Ltac db_inv :=
  repeat match goal with
  | H : randomUUID _ = Ok _ |- _ => apply randomUUID_ok in H as [? ?]
  | H : insert_audit _ _ = Ok _ |- _ => apply insert_audit_ok in H
  | H : appendEventRow _ _ _ _ _ _ _ = Ok _ |- _ => apply insert_event_ok in H as [? ?]
  | H : finalizeAttemptProjectionCheckpoint _ _ _ _ _ _ = Ok _ |- _ =>
      apply finalize_ok in H as (? & ? & _)
  | E : (?n =? 1)%Z = true, H : update_attempt _ _ _ _ = Ok (?n, _) |- _ =>
      apply update_attempt_ok in H as [(? & ? & ? & ? & ? & ? & ?)|[? ?]]; [|subst n; discriminate E]
  | E : (?n =? 1)%Z = true, H : update_run _ _ _ _ = Ok (?n, _) |- _ =>
      apply update_run_ok in H as [(? & ? & ? & ? & ?)|[? ?]]; [|subst n; discriminate E]
  | E : (?n =? 1)%Z = true, H : update_lease _ _ _ _ = Ok (?n, _) |- _ =>
      apply update_lease_ok in H as [(? & ? & ? & ? & ? & ?)|[? ?]]; [|subst n; discriminate E]
  | H : requireLease _ _ _ _ _ _ = Ok _ |- _ => unfold requireLease in H; tx_inv H
  | H : recordAudit _ _ _ _ _ _ _ _ = Ok _ |- _ => unfold recordAudit in H; tx_inv H
  | H : recordTerminalAudit _ _ _ _ _ _ _ = Ok _ |- _ => unfold recordTerminalAudit in H
  | H : assertAttemptTransition _ _ _ = Ok _ |- _ => unfold assertAttemptTransition in H; tx_inv H
  | H : reject_proposed_candidate _ _ _ = Ok _ |- _ => unfold reject_proposed_candidate in H; tx_inv H
  | H : supersede_proposed_decisions _ _ _ _ _ = Ok _ |- _ => unfold supersede_proposed_decisions in H; tx_inv H
  | H : insertAssistantMessage _ _ _ _ = Ok _ |- _ => unfold insertAssistantMessage in H; tx_inv H
  | H : insert_candidate_or_ignore _ _ = Ok _ |- _ => unfold insert_candidate_or_ignore in H; tx_inv H
  | H : write_lease _ _ = Ok _ |- _ => unfold write_lease in H; tx_inv H
  end; subst; db_look.


(** [db_keys Hcon] names every row by its key and identifies rows with one key. *)
Ltac db_keys Hcon :=
  unfold getAttempt, getLease, getCandidate in *; db_look;
  repeat match goal with
  | H : attempts ?d !! ?i = Some ?a |- _ => is_var i; pose proof (proj1 (con_attempt Hcon _ _ H)); subst i
  | H : candidates ?d !! ?i = Some ?c |- _ => is_var i; pose proof (con_candidate Hcon _ _ H); subst i
  | H : ?m !! ?i = Some ?a, H' : ?m !! ?i = Some ?b |- _ => rewrite H in H'; injection H' as <-
  end; bool_prop.

Section refinement.
Context `{Platform}.

(** One Candidate of an Attempt is altered: on a consistent database this is
    the update of every Candidate of the Attempt. *)
Lemma alter_candidate_one d a c f g (p : CandidateRow -> bool) :
  Consistent d -> candidates d !! c_id c = Some c -> c_attemptId c = a_id a -> f c = g c -> p c = true ->
  forall i, alter f (c_id c) (candidates d) !! i =
    (fun c : CandidateRow => if String.eqb (c_attemptId c) (a_id a) && p c then g c else c) <$> candidates d !! i.
Proof.
  intros Hcon Hc Ha Hfg Hp i. destruct (decide (i = c_id c)) as [->|Hi].
  - rewrite lookup_alter_eq, Hc. cbn. by rewrite Ha, String.eqb_refl, Hp, Hfg.
  - rewrite lookup_alter_ne by done. destruct (candidates d !! i) as [x|] eqn:Hx; [|done]. cbn.
    destruct (String.eqb_spec (c_attemptId x) (a_id a)) as [E|E]; [|done]. exfalso. apply Hi.
    eapply (con_one_candidate Hcon); eauto. congruence.
Qed.

(** A lease is stamped with its release time when [p] holds of it. *)
Lemma alter_lease_released d k (p : LeaseRow -> bool) ts i :
  alter (fun l : LeaseRow => if p l then lease_to l (l_leaseUntil l) (l_heartbeatAt l) (Some ts) else l) k (leases d) !! i
    = leases d !! i
  \/ i = k /\ exists l, leases d !! i = Some l
     /\ alter (fun l : LeaseRow => if p l then lease_to l (l_leaseUntil l) (l_heartbeatAt l) (Some ts) else l) k (leases d) !! i
        = Some (lease_to l (l_leaseUntil l) (l_heartbeatAt l) (Some ts)).
Proof.
  destruct (decide (i = k)) as [->|Hi]; [|left; by rewrite lookup_alter_ne].
  rewrite lookup_alter_eq. destruct (leases d !! k) as [l|]; [|by left]. cbn. destruct (p l); [right|left]; eauto.
Qed.

Lemma insert_lease_released d k l ts i :
  Consistent d -> leases d !! k = Some l ->
  <[l_attemptId l := lease_to l (l_leaseUntil l) (l_heartbeatAt l) (Some ts)]> (leases d) !! i = leases d !! i
  \/ i = k /\ exists l0, leases d !! i = Some l0
     /\ <[l_attemptId l := lease_to l (l_leaseUntil l) (l_heartbeatAt l) (Some ts)]> (leases d) !! i
        = Some (lease_to l0 (l_leaseUntil l0) (l_heartbeatAt l0) (Some ts)).
Proof.
  intros Hcon Hl. rewrite (proj1 (con_lease Hcon _ _ Hl)). destruct (decide (i = k)) as [->|Hi].
  - right. rewrite lookup_insert_eq. eauto.
  - left. by rewrite lookup_insert_ne.
Qed.

(** [close_with Hcon] proves [closed] of a database an operation computed. *)
Ltac close_with Hcon :=
  split; (only 1-2 : eassumption); (only 6, 8, 10 : reflexivity); cbn; try done;
  lazymatch goal with
  | |- may_close _ _ _ => first [left; split_and!; done | right; split_and!; done]
  | |- of_terminal ?st <> _ => by destruct st
  | |- _ <> [] /\ _ => split; [done|repeat constructor]
  | |- exists u, _ ++ _ = _ ++ [u] /\ _ => eexists; split_and!; reflexivity
  | |- forall i, _ = _ \/ _ => intros ?; first [apply alter_lease_released | eapply insert_lease_released; eauto | by left]
  | |- _ => try (split_and!; (done || lia || congruence))
  end.

Ltac close_candidate Hcon :=
  match goal with
  | H : candidates ?d !! c_id ?c = Some ?c |- forall i, alter ?f _ _ !! i = (fun x => if _ && @?p x then @?g x else x) <$> _ =>
      apply (fun a => alter_candidate_one d a c f g p Hcon H)
  | |- forall i, (_ <$> candidates ?d) !! i = _ =>
      intros i; rewrite lookup_fmap; destruct (candidates d !! i); cbn
  end;
  repeat match goal with
  | H : c_status ?c = _ |- context [c_status ?c] => rewrite H
  | H : a_active ?a = _ |- context [a_active ?a] => rewrite H
  end;
  cbn; rewrite ?orb_false_r; try done.

Lemma settle_closed attemptId v tok fence cid sid st reason ts d a' d' :
  Consistent d ->
  settleAttempt attemptId v tok fence cid sid st reason ts d = Ok (a', d') ->
  exists a r r' rows, closed d d' a a' r r' (of_terminal st) rows ts /\ attemptId = a_id a.
Proof.
  intros Hcon Hs. unfold settleAttempt in Hs. tx_inv Hs; db_inv; db_keys Hcon.
  all: cbn in Hs; rewrite lookup_insert_eq in Hs; injection Hs as <-.
  all: do 3 eexists; match goal with
    | |- context [set_events _ (set_events _ _)] => eexists [_; _]
    | |- _ => eexists [_]
    end; split; [close_with Hcon|done].
  all: close_candidate Hcon; by destruct st.
Qed.

Lemma recover_closed attemptId v owner tok fence reason sid ts d a' ev rec d' :
  Consistent d ->
  recoverInterruptedAttempt attemptId v owner tok fence reason sid ts d = Ok ((a', ev, rec), d') ->
  if rec then exists a r r' rows, closed d d' a a' r r' R_interrupted rows ts /\ attemptId = a_id a else d' = d.
Proof.
  intros Hcon Hs. unfold recoverInterruptedAttempt in Hs. tx_inv Hs; simplify_eq; try done; db_inv; db_keys Hcon.
  all: match goal with Ha : <[_ := _]> _ !! _ = Some _ |- _ => cbn in Ha; rewrite lookup_insert_eq in Ha; injection Ha as <- end.
  all: do 3 eexists; eexists [_]; split; [close_with Hcon|done].
  all: close_candidate Hcon.
Qed.

Lemma cancel_closed attemptId reason ts d a' ev chg d' :
  Consistent d -> cancelAttempt attemptId reason ts d = Ok ((a', ev, chg), d') ->
  if chg then exists a r r' rows, closed d d' a a' r r' R_cancelled rows ts /\ attemptId = a_id a else d' = d.
Proof.
  intros Hcon Hs. unfold cancelAttempt in Hs. tx_inv Hs; simplify_eq; try done; db_inv; db_keys Hcon.
  match goal with Ha : <[_ := _]> _ !! _ = Some _ |- _ => cbn in Ha; rewrite lookup_insert_eq in Ha; injection Ha as <- end.
  do 3 eexists; eexists [_]; split; [close_with Hcon|done]. close_candidate Hcon.
Qed.

Lemma reAdjudicate_closed attemptId v cid h psid sid gids uids reason ts d a' ev d' :
  Consistent d ->
  reAdjudicateBlockedCandidate attemptId v cid h psid sid gids uids reason ts d = Ok ((a', ev), d') ->
  exists a r r' rows, closed d d' a a' r r' R_completed rows ts /\ attemptId = a_id a.
Proof.
  intros Hcon Hs. unfold reAdjudicateBlockedCandidate in Hs. tx_inv Hs; simplify_eq; db_inv; db_keys Hcon.
  all: match goal with Ha : <[_ := _]> _ !! _ = Some _ |- _ => cbn in Ha; rewrite lookup_insert_eq in Ha; injection Ha as <- end.
  all: do 3 eexists; eexists [_]; split; [close_with Hcon|done].
  all: close_candidate Hcon.
Qed.

(** ** Leases *)

Lemma acquire_leased attemptId v owner ms ts d l d' :
  Consistent d -> acquireExecutionLease attemptId v owner ms ts d = Ok (l, d') ->
  leased d d' attemptId /\ leases d' = <[attemptId := l]> (leases d)
  /\ (l_fence l = match leases d !! attemptId with Some l0 => l_fence l0 | None => 0 end + 1)%Z
  /\ l_releasedAt l = None /\ l_leaseUntil l = (ts + ms)%Z /\ l_token l = uuid (uuid_counter d)
  /\ l_ownerId l = owner /\ l_attemptVersion l = v
  /\ (forall l0, leases d !! attemptId = Some l0 -> l_releasedAt l0 <> None \/ (l_leaseUntil l0 <= ts)%Z)
  /\ exists a, attempts d !! attemptId = Some a /\ a_status a = A_running /\ a_active a = true /\ a_version a = v.
Proof.
  intros Hcon Hs. unfold acquireExecutionLease in Hs. tx_inv Hs; db_inv; db_keys Hcon; cbn in *.
  split_and!; try done.
  - split; cbn; try done. right. eexists. split_and!; [| |reflexivity| |]; cbn; [done| |split; [done|by left; eauto]|intros l0 ->; split; [|intros]; lia].
    match goal with E : lease_check _ = true |- _ => unfold lease_check in E; cbn in E end. bool_prop. done.
  - intros l0 Hl. rewrite Hl in *. bool_prop.
    match goal with E : _ && _ = false |- _ => apply andb_false_iff in E as [E|E] end; bool_prop; [by left|right; lia].
  - eauto 10.
Qed.

Lemma renew_leased attemptId owner tok fence ms ts d l d' :
  Consistent d -> renewExecutionLease attemptId owner tok fence ms ts d = Ok (l, d') ->
  leased d d' attemptId
  /\ exists l0, leases d !! attemptId = Some l0 /\ l_ownerId l0 = owner /\ l_token l0 = tok /\ l_fence l0 = fence
       /\ l_releasedAt l0 = None /\ (ts < l_leaseUntil l0)%Z
       /\ l = lease_to l0 (ts + ms) ts (l_releasedAt l0) /\ leases d' = <[attemptId := l]> (leases d)
       /\ exists a, attempts d !! attemptId = Some a /\ a_active a = true.
Proof.
  intros Hcon Hs. unfold renewExecutionLease in Hs. tx_inv Hs. db_inv; db_keys Hcon.
  match goal with E : (match attempts d !! attemptId with _ => _ end) = true |- _ =>
    destruct (attempts d !! attemptId) as [b|] eqn:Hb in E; [|done]; apply andb_true_iff in E as [Eact _] end.
  destruct (con_lease Hcon _ _ H3) as [Hi Hf]. cbn. rewrite Hi. split; [|eauto 12].
  split; cbn; try done. right. eexists. split_and!; [| |reflexivity| |]; cbn; [done|done|split; [done|by right; eauto]|].
  intros; simplify_eq. cbn. split; [lia|done].
Qed.

Lemma release_leased attemptId owner tok fence ts d b d' :
  Consistent d -> releaseExecutionLease attemptId owner tok fence ts d = Ok (b, d') ->
  leased d d' attemptId
  /\ if b then exists l0, leases d !! attemptId = Some l0 /\ l_ownerId l0 = owner /\ l_token l0 = tok
       /\ l_fence l0 = fence /\ l_releasedAt l0 = None
       /\ leases d' = <[attemptId := lease_to l0 (l_leaseUntil l0) (l_heartbeatAt l0) (Some ts)]> (leases d)
     else d' = d.
Proof.
  intros Hcon Hs. unfold releaseExecutionLease in Hs. tx_inv Hs.
  match goal with E : update_lease _ _ _ _ = _ |- _ => apply update_lease_ok in E as [(l & -> & Hl & Hp & Hc & ->)|[-> ->]] end;
    cbn; [bool_prop; destruct (con_lease Hcon _ _ Hl) as [Hi Hf]; rewrite Hi|split; [split; auto|done]].
  split; [|eauto 12]. split; cbn; try done. right. eexists. split_and!; [| |reflexivity| |]; cbn; [done|done|split; [done|by right; eauto]|].
  intros; simplify_eq. cbn. split; [lia|done].
Qed.

(** ** Candidates *)

Lemma getCandidateForAttempt_spec i d :
  match getCandidateForAttempt i d with
  | Some c => exists j, candidates d !! j = Some c /\ c_attemptId c = i
  | None => forall j c, candidates d !! j = Some c -> c_attemptId c <> i
  end.
Proof.
  unfold getCandidateForAttempt.
  set (l := List.filter _ _). destruct l as [|c l'] eqn:E; subst l; cbn.
  - intros j c Hc Hi. assert (c ∈ []) as []%elem_of_nil.
    rewrite <- E, list_elem_of_In, filter_In, String.eqb_eq. split; [|done].
    rewrite <- list_elem_of_In, list_elem_of_fmap. exists (j, c). by rewrite elem_of_map_to_list.
  - assert (c ∈ c :: l') as Hin by left.
    rewrite <- E, list_elem_of_In, filter_In, String.eqb_eq, <- list_elem_of_In, list_elem_of_fmap in Hin.
    destruct Hin as [([j c'] & -> & Hj) Hc]. exists j. rewrite elem_of_map_to_list in Hj. auto.
Qed.

Lemma record_proposed cid attemptId v tok fence response ts d c d' :
  Consistent d -> recordCandidateResult cid attemptId v tok fence response ts d = Ok (c, d') ->
  c_response c = response /\ c_responseHash c = sha256 response /\ c_attemptId c = attemptId
  /\ (d' = d /\ candidates d !! c_id c = Some c
      \/ exists a, attemptId = a_id a /\ a_version a = v /\ proposed d d' a c ts).
Proof.
  intros Hcon Hs. unfold recordCandidateResult in Hs. tx_inv Hs; db_inv; db_keys Hcon.
  { match goal with E : getCandidateForAttempt ?i d = Some ?c |- _ =>
      pose proof (getCandidateForAttempt_spec i d) as Hc; rewrite E in Hc; destruct Hc as (j & Hj & <-) end.
    pose proof (con_candidate Hcon _ _ Hj). subst. auto 10. }
  all: match goal with E : getCandidateForAttempt ?i ?x = None |- _ =>
      pose proof (getCandidateForAttempt_spec i x) as Hnone; rewrite E in Hnone end.
  - cbn in *. exfalso. eapply Hnone; [|eassumption]; eassumption.
  - cbn in *. congruence.
  - cbn in *. match goal with E : <[_ := _]> _ !! _ = Some _ |- _ => rewrite lookup_insert_eq in E; injection E as <- end.
    split_and!; try done. right. eexists. split_and!; [reflexivity|done|].
    split; cbn; try done; try (split_and!; done); try congruence.
    eexists. split_and!; [reflexivity|reflexivity| |reflexivity..]. cbn. congruence.
Qed.

(** ** Guards

    A call by a lease holder that succeeds held the live lease of the Attempt. *)
Definition holds_lease (d : Db) (i tok : string) (fence ts : Z) : Prop :=
  exists l, leases d !! i = Some l /\ l_token l = tok /\ l_fence l = fence /\ l_releasedAt l = None
    /\ (ts < l_leaseUntil l)%Z.

Ltac guards := db_inv; unfold getAttempt, getLease, getCandidate in *; db_look; bool_prop.

Lemma settle_guards attemptId v tok fence cid sid st reason ts d r d' :
  settleAttempt attemptId v tok fence cid sid st reason ts d = Ok (r, d') ->
  holds_lease d attemptId tok fence ts
  /\ exists a c x, attempts d !! attemptId = Some a /\ a_version a = v /\ candidates d !! cid = Some c
     /\ c_attemptId c = a_id a /\ c_status c = C_proposed
     /\ decisions d !! sid = Some x /\ d_status x = D_proposed
     /\ (st = TA_completed -> d_action x = S_complete_taskrun).
Proof.
  intros Hs. unfold settleAttempt in Hs. tx_inv Hs; guards.
  all: split; [by eexists; split_and!; eauto|].
  all: do 3 eexists; split_and!; eauto.
  all: intros ->; by match goal with E : _ || _ = true |- _ => apply orb_true_iff in E as [E|E]; bool_prop end.
Qed.

Lemma record_guards cid attemptId v tok fence response ts d c d' :
  recordCandidateResult cid attemptId v tok fence response ts d = Ok (c, d') ->
  holds_lease d attemptId tok fence ts.
Proof.
  intros Hs. unfold recordCandidateResult in Hs. tx_inv Hs; guards.
  all: by eexists; split_and!; eauto.
Qed.

Lemma recover_guards attemptId v owner tok fence reason sid ts d r d' :
  recoverInterruptedAttempt attemptId v owner tok fence reason sid ts d = Ok (r, d') ->
  exists l, leases d !! attemptId = Some l /\ l_ownerId l = owner /\ l_token l = tok /\ l_fence l = fence.
Proof.
  intros Hs. unfold recoverInterruptedAttempt in Hs. tx_inv Hs; guards; eauto 10.
Qed.
End refinement.
