(* ===== verification/StoreRefine.v ===== *)
(** The operations of the store on TaskRuns refine the abstract steps of
    StoreSpec.v. *)
From S2P Require Import Prelude Json TaskPolicy Attempt ExecDb AttemptRepo RunStore AttemptSpec StoreSpec AttemptRefine.
Local Open Scope tx_scope.

Section refinement.
Context `{Platform}.

(** * The projection of an Attempt *)

(** Rows are stored under their own identifier. *)
Definition keyed (d : Db) : Prop := forall j a, attempts d !! j = Some a -> a_id a = j.

Lemma consistent_keyed d : Consistent d -> keyed d.
Proof. intros Hcon j a Ha. exact (proj1 (con_attempt Hcon _ _ Ha)). Qed.

Definition no_other_active (d : Db) (rid i : string) : Prop :=
  forall j a, attempts d !! j = Some a -> a_runId a = rid -> a_active a = true -> j = i.

(** No other Attempt is active: the bulk UPDATE changes nothing. *)
Lemma update_attempts_none (p : AttemptRow -> bool) f d u d' :
  (forall j a, attempts d !! j = Some a -> p a = false) -> update_attempts p f d = Ok (u, d') -> d' = d.
Proof.
  intros Hp Hu. unfold update_attempts in Hu. tx_inv Hu.
  refine (for_each_ind (fun t => t = d) _ _ _ _ _ _ eq_refl Hu).
  intros x t t' Hx -> Hs. rewrite list_elem_of_fmap in Hx. destruct Hx as ([j a] & -> & Ha).
  rewrite elem_of_map_to_list in Ha. cbn in Hs. rewrite (Hp _ _ Ha) in Hs. by apply mret_ok in Hs as [_ ->].
Qed.

Definition fresh_attempt (rid : string) (n : Z) (trigger : AttemptTrigger) (status : AttemptStatus) (seq ts : Z) : AttemptRow :=
  {| a_id := attempt_id rid n; a_runId := rid; a_ordinal := n; a_trigger := trigger; a_status := status;
     a_active := bool_decide (status = A_running); a_version := 1; a_eventSequence := seq; a_startedAt := ts;
     a_updatedAt := ts; a_completedAt := if bool_decide (status = A_running) then None else Some ts |}.

Lemma update_attempt_present i f d n d' a :
  attempts d !! i = Some a -> update_attempt i (fun _ => true) f d = Ok (n, d') ->
  attempt_check (f a) = true /\ d' = set_attempts (insert (a_id (f a)) (f a)) d.
Proof.
  intros Ha Hu. unfold update_attempt in Hu. tx_inv Hu; try congruence.
  match goal with E : write_attempt _ _ = _ |- _ => apply write_attempt_ok in E as (? & _ & ->) end.
  by simplify_eq.
Qed.

Lemma project_ok rid n trigger status scenario reason seq ts d v d' :
  keyed d -> (status = A_running -> no_other_active d rid (attempt_id rid n)) ->
  projectAttempt rid n trigger status scenario reason seq ts d = Ok (v, d') ->
  exists a' u, let i := attempt_id rid n in
    d' = set_audit (fun l => l ++ [u]) (bump_uuid (set_attempts (insert i a') d))
    /\ attempt_check a' = true
    /\ a' = match attempts d !! i with
            | Some a => attempt_projected status (bool_decide (status = A_running)) seq ts a
            | None => fresh_attempt rid n trigger status seq ts
            end
    /\ u_attemptId u = i /\ u_from u = a_status <$> attempts d !! i /\ u_to u = status /\ u_version u = a_version a'.
Proof.
  intros Hkey Hother Hs. unfold projectAttempt in Hs.
  apply tx_bind_ok in Hs as (d0 & t & [-> ->]%gets_id_ok & Hs).
  apply tx_bind_ok in Hs as ([] & t0 & H1 & Hs).
  assert (t0 = d) as ->.
  { case_bool_decide as Hrun; [|by apply mret_ok in H1 as [_ ->]].
    eapply update_attempts_none; [|exact H1]. intros j a Ha. cbv beta.
    destruct (String.eqb_spec (a_runId a) rid) as [E1|]; [|done].
    destruct (a_active a) eqn:E2; [|by rewrite andb_false_r].
    by rewrite (Hkey _ _ Ha), (Hother Hrun j a Ha E1 E2), String.eqb_refl. }
  apply tx_bind_ok in Hs as ([] & t1 & H2 & Hs). tx_inv Hs. db_inv.
  assert (Hw : exists a', t1 = set_attempts (insert (attempt_id rid n) a') d /\ attempt_check a' = true
    /\ a' = match attempts d !! attempt_id rid n with
            | Some a => attempt_projected status (bool_decide (status = A_running)) seq ts a
            | None => fresh_attempt rid n trigger status seq ts
            end).
  { destruct (attempts d !! attempt_id rid n) as [a|] eqn:Ha; tx_inv H2.
    - match goal with E : update_attempt _ _ _ _ = _ |- _ => eapply update_attempt_present in E as [? ->]; [|exact Ha] end.
      eexists. split; [|done].
      cbn. by rewrite (Hkey _ _ Ha).
    - apply write_attempt_ok in H2 as (? & _ & ->). by eexists. }
  destruct Hw as (a' & -> & Hck & Ha'). exists a'. eexists. cbn. split; [reflexivity|].
  split; [done|]. split; [done|].
  match goal with E : attempts _ !! _ = Some _ |- _ => cbn in E; rewrite lookup_insert_eq in E; injection E as <- end.
  done.
Qed.

(** An UPDATE of a run whose predicate held on the row just read. *)
Lemma update_run_present rid p f d n d' r :
  runs d !! rid = Some r -> p r = true -> update_run rid p f d = Ok (n, d') -> n = 1%Z /\ d' = set_runs (insert rid (f r)) d.
Proof. intros Hr Hp Hu. rewrite (update_run_run _ _ _ _ _ Hr Hp) in Hu. by simplify_eq. Qed.

(** * Operations *)

Lemma audited_snoc d d' u i from to version :
  audit d' = audit d ++ [u] -> u_attemptId u = i -> u_from u = from -> u_to u = to -> u_version u = version ->
  audited d d' i from to version.
Proof. intros Hu <- <- <- <-. unfold audited, trail_of. by rewrite Hu, map_app. Qed.

Lemma current_attempt d rid r : Consistent d -> runs d !! rid = Some r ->
  exists a, attempts d !! attempt_id rid (r_attempt r) = Some a /\ a_id a = attempt_id rid (r_attempt r)
    /\ a_runId a = rid /\ a_ordinal a = r_attempt r.
Proof.
  intros Hcon Hr. destruct (con_has_current Hcon _ _ Hr) as (a & Ha & A1 & A2). exists a.
  by rewrite (proj1 (con_attempt Hcon _ _ Ha)).
Qed.

(** A TaskRun changes its log and no status. *)
Lemma run_row_moved d d' rid r r' rows :
  Consistent d -> runs d !! rid = Some r ->
  r_attempt r' = r_attempt r /\ r_lastEventSeq r' = (r_lastEventSeq r + Z.of_nat (length rows))%Z /\ r_id r' = r_id r ->
  r_status r' = r_status r -> runs d' = <[rid := r']> (runs d) ->
  events d' = append_rows rid (r_lastEventSeq r) rows (events d) ->
  attempts d' = attempts d -> leases d' = leases d -> candidates d' = candidates d -> trail_of d' = trail_of d ->
  exists a, moved d d' rid r r' a a rows.
Proof.
  intros Hcon Hr Hsame Hst E1 E2 E3 E4 E5 E6.
  destruct (current_attempt _ _ _ Hcon Hr) as (a & Ha & A1 & A2 & A3). rewrite <- A1 in Ha.
  exists a. split; try done; [exact (proj2 (con_attempt Hcon _ _ Ha))|left; split_and!; auto|by rewrite insert_id].
Qed.

Lemma appendEvent_moved d rid type data ts ev d' :
  Consistent d -> appendEvent rid type data ts d = Ok (ev, d') ->
  exists r a row, moved d d' rid r (run_event r (r_lastEventSeq r + 1) ts) a a [row] /\ e_type row = type /\ e_data row = data
    /\ ev_seq ev = (r_lastEventSeq r + 1)%Z.
Proof.
  intros Hcon Hs. unfold appendEvent in Hs. tx_inv Hs.
  match goal with E : insert_event _ _ _ _ = _ |- _ => apply insert_event_ok in E as [? ->] end.
  match goal with E : runs d !! rid = Some ?r |- _ => rename E into Hr; rename r into x end.
  set (row := {| e_attemptId := _; e_type := type; e_data := data; e_createdAt := ts |}).
  match goal with |- exists r a row, moved d ?t _ _ _ _ _ _ /\ _ =>
    destruct (run_row_moved d t rid x (run_event x (r_lastEventSeq x + 1) ts) [row] Hcon Hr) as [a Hmv] end;
    [done|done|cbn; by erewrite alter_as_insert by eassumption|done..|].
  exists x, a, row. done.
Qed.

(** The projection of the current Attempt [a] in a database [t] with the
    Attempts and the audit of [d]. *)
Lemma project_current rid n trigger status scenario reason seq ts d t v t' a :
  Consistent d -> attempts t = attempts d -> attempts d !! attempt_id rid n = Some a -> status <> A_running ->
  projectAttempt rid n trigger status scenario reason seq ts t = Ok (v, t') ->
  let a' := attempt_projected status false seq ts a in
  attempt_check a' = true /\ exists u, t' = set_audit (fun l => l ++ [u]) (bump_uuid (set_attempts (insert (a_id a) a') t))
    /\ u_attemptId u = a_id a /\ u_from u = Some (a_status a) /\ u_to u = status /\ u_version u = a_version a'.
Proof.
  intros Hcon Ht Ha Hne Hs. apply project_ok in Hs as (a' & u & E1 & E2 & E3 & E4 & E5 & E6 & E7);
    [|unfold keyed; rewrite Ht; by apply consistent_keyed|done].
  pose proof (consistent_keyed _ Hcon _ _ Ha) as Hi.
  rewrite Ht, Ha, bool_decide_eq_false_2 in E3 by done. rewrite Ht, Ha in E5. subst a' t'.
  split; [done|]. exists u. rewrite Hi. done.
Qed.

End refinement.

(** [store_inv] replaces every successful statement but the projection by what it did. *)
Ltac store_inv :=
  repeat match goal with
  | E : insert_event _ _ _ _ = Ok _ |- _ => apply insert_event_ok in E as [? E]
  end; db_inv.

(** [project_inv Hcon] replaces the projection of the current Attempt of the run [Hr] reads. *)
Ltac project_inv Hcon Hr :=
  let a := fresh "a" in let Ha := fresh "Ha" in let A1 := fresh "A1" in let A2 := fresh "A2" in let A3 := fresh "A3" in
  destruct (current_attempt _ _ _ Hcon Hr) as (a & Ha & A1 & A2 & A3);
  match goal with
  | E : projectAttempt _ _ _ _ _ _ _ _ _ = Ok _ |- _ =>
      eapply (project_current _ _ _ _ _ _ _ _ _ _ _ _ a Hcon) in E as (?Hck & ?u & E & ?U1 & ?U2 & ?U3 & ?U4);
        [|reflexivity|eassumption|try done]
  end; subst; rewrite <- A1 in Ha.

(** [moved_with] proves [moved] of a database an operation computed. *)
Ltac moved_with :=
  split; (only 1-2: try eassumption); (only 7-9: try reflexivity); cbn; try done; try congruence; try lia;
  lazymatch goal with
  | |- _ \/ movable _ _ /\ _ => right; split; [|split; [reflexivity|split; [reflexivity|eapply audited_snoc; (reflexivity || eassumption)]]]
  | |- _ => idtac
  end.

(** [run_inv] replaces an UPDATE of a run that was just read. *)
Ltac run_inv :=
  match goal with
  | E : update_run _ _ _ _ = Ok _ |- _ =>
      eapply update_run_present in E as [? E]; [|cbn; eassumption|cbn; bool_prop; by rewrite ?bool_decide_eq_true_2 by done]
  end; subst.

Section operations.
Context `{Platform}.

(** A transition out of a status moves the TaskRun and its current Attempt. *)
Lemma transitionRun_moved d rid expected next type data reason n ts ev d' :
  Consistent d -> next <> R_running ->
  (forall r a, runs d !! rid = Some r -> attempts d !! attempt_id rid (r_attempt r) = Some a ->
    movable (a_status a) (of_run_status next)) ->
  transitionRun rid expected next type data reason n ts d = Ok (Some ev, d') ->
  exists r r' a a' row, moved d d' rid r r' a a' [row] /\ r_status r ∈ expected /\ r_status r' = next
    /\ (forall m, n = Some m -> r_attempt r = m) /\ a_status a' = of_run_status next
    /\ e_type row = type /\ e_data row = data.
Proof.
  intros Hcon Hnext Hmov Hs. unfold transitionRun in Hs.
  apply tx_bind_ok in Hs as (d0 & t & [-> ->]%gets_id_ok & Hs).
  destruct (runs d !! rid) as [r|] eqn:Hr; [|by apply mret_ok in Hs as [? _]].
  destruct (negb _ || _) eqn:Hg; [by apply mret_ok in Hs as [? _]|]. bool_prop.
  rewrite (bool_decide_eq_true_2 (next <> R_running)) in Hs by done.
  tx_inv Hs; store_inv. project_inv Hcon Hr; [|by destruct next]. simplify_eq.
  do 5 eexists. split; [moved_with; eapply Hmov; [done|by rewrite <- A1]|split_and!; try done].
  intros m ->. by apply Z.eqb_eq.
Qed.

Lemma interrupt_run_moved ts d r v d' :
  Consistent d -> runs d !! r_id r = Some r -> r_status r = R_running ->
  (forall a, attempts d !! attempt_id (r_id r) (r_attempt r) = Some a -> a_status a = A_running) ->
  interrupt_run ts r d = Ok (v, d') ->
  exists r' a a' row, moved d d' (r_id r) r r' a a' [row] /\ r_status r' = R_interrupted.
Proof.
  intros Hcon Hr Hrun Hcur Hs. unfold interrupt_run, deactivate_checkpoint in Hs. tx_inv Hs. simplify_eq.
  store_inv. simplify_eq. run_inv. project_inv Hcon Hr.
  do 4 eexists. split; [moved_with|done]. rewrite (Hcur a) by (by rewrite <- A1). apply (bool_decide_unpack _). vm_compute. done.
Qed.

Lemma requestUserInput_moved rid prompt fields hook ts d req d' :
  Consistent d ->
  (forall a r, runs d !! rid = Some r -> attempts d !! attempt_id rid (r_attempt r) = Some a -> a_status a = A_running) ->
  requestUserInputInternal rid prompt fields hook ts d = Ok (req, d') ->
  d' = d \/ exists r r' a a' row d1 ev, moved d d1 rid r r' a a' [row] /\ hook req ev d1 = Ok (tt, d')
    /\ r_status r' = R_waiting_input /\ ev_seq ev = r_lastEventSeq r'.
Proof.
  intros Hcon Hcur Hs. unfold requestUserInputInternal, deactivate_checkpoint in Hs. tx_inv Hs; [by left|].
  right. store_inv. bool_prop. run_inv.
  match goal with Hr : runs d !! rid = Some _ |- _ => project_inv Hcon Hr end.
  repeat match goal with u : unit |- _ => destruct u end. do 7 eexists. split; cycle 1.
  { split; [eassumption|]. shelve. }
  { moved_with. erewrite (Hcur a); [|eassumption|by rewrite <- A1]. apply (bool_decide_unpack _). vm_compute. done. }
  Unshelve. split; done.
Qed.

Lemma advanceRunPhase_aside rid phase ts d b d' : advanceRunPhase rid phase ts d = Ok (b, d') -> aside d d'.
Proof.
  intros Hs. unfold advanceRunPhase in Hs. tx_inv Hs.
  apply update_run_ok in H0 as [(r & -> & Hr & _ & ->)|[_ ->]]; [|apply aside_refl].
  split; try done. intros i. cbn. destruct (decide (rid = i)) as [<-|].
  - by rewrite lookup_insert_eq, Hr.
  - by rewrite lookup_insert_ne.
Qed.

Lemma setRunPhase_aside rid phase ts d b d' : setRunPhase rid phase ts d = Ok (b, d') -> aside d d'.
Proof.
  intros Hs. unfold setRunPhase in Hs.
  destruct phase; eauto using advanceRunPhase_aside; apply mret_ok in Hs as [_ ->]; apply aside_refl.
Qed.

(** ** Starting *)

Lemma resume_inactive d rid r : Consistent d -> runs d !! rid = Some r -> r_status r <> R_running ->
  forall i, no_other_active d rid i.
Proof.
  intros Hcon Hr Hne i j a Ha <- Hact. destruct (con_active Hcon _ _ Ha Hact) as (x & Hx & _ & Hrun). congruence.
Qed.

Lemma next_attempt_free d rid r : Consistent d -> runs d !! rid = Some r ->
  attempts d !! attempt_id rid (r_attempt r + 1) = None.
Proof.
  intros Hcon Hr. destruct (attempts d !! _) as [a|] eqn:Ha; [|done]. exfalso.
  pose proof (con_named Hcon _ _ Ha) as [Hn1 Hn2]%attempt_id_inj.
  destruct (con_ordinal Hcon _ _ Ha) as (x & Hx & Hle). rewrite <- Hn1, Hr in Hx. injection Hx as <-. lia.
Qed.

(** The projection of a new Attempt in a database [t] that has the run's new row. *)
Lemma project_started d t rid r' trigger scenario reason ts v d' :
  Consistent d -> r_status r' = R_running -> r_id r' = rid ->
  match runs d !! rid with
  | Some r => r_status r <> R_running /\ r_attempt r' = (r_attempt r + 1)%Z /\ r_lastEventSeq r' = r_lastEventSeq r
  | None => r_attempt r' = 1%Z /\ r_lastEventSeq r' = 0%Z
  end ->
  runs t = <[rid := r']> (runs d) -> attempts t = attempts d -> events t = events d -> leases t = leases d ->
  candidates t = candidates d -> trail_of t = trail_of d ->
  projectAttempt rid (r_attempt r') trigger A_running scenario reason (r_lastEventSeq r') ts t = Ok (v, d') ->
  exists a, started d d' rid r' a.
Proof.
  intros Hcon Hrun Hid Hbefore E1 E2 E3 E4 E5 E6 Hs.
  assert (Hfree : attempts d !! attempt_id rid (r_attempt r') = None).
  { destruct (runs d !! rid) as [r|] eqn:Hr.
    - destruct Hbefore as (_ & -> & _). by eapply next_attempt_free.
    - destruct (attempts d !! _) as [a|] eqn:Ha; [|done]. exfalso.
      pose proof (con_named Hcon _ _ Ha) as [Hn _]%attempt_id_inj.
      destruct (con_ordinal Hcon _ _ Ha) as (x & Hx & _). by rewrite <- Hn, Hr in Hx. }
  apply project_ok in Hs as (a & u & -> & Hck & Ha & U1 & U2 & U3 & U4).
  - rewrite E2, Hfree in Ha, U2. subst a. exists (fresh_attempt rid (r_attempt r') trigger A_running (r_lastEventSeq r') ts).
    split; cbn; rewrite ?E1, ?E2, ?E3, ?E4, ?E5, ?E6; try done.
    unfold audited, trail_of in *. cbn. rewrite map_app, E6. cbn. unfold entry_of. by rewrite U1, U2, U3, U4.
  - intros j a. rewrite E2. apply (consistent_keyed _ Hcon).
  - intros _ j a. rewrite E2. intros Ha <- Hact.
    destruct (con_active Hcon _ _ Ha Hact) as (x & Hx & _ & Hxr). rewrite Hx in Hbefore. by destruct Hbefore.
Qed.

Lemma resumeRun_started d rid ts r2 d' :
  Consistent d -> resumeRun rid ts d = Ok (r2, d') ->
  exists r a, runs d !! rid = Some r /\ r_status r <> R_running /\ started d d' rid r2 a.
Proof.
  intros Hcon Hs. unfold resumeRun in Hs. tx_inv Hs.
  match goal with E : runs d !! rid = Some ?r |- _ => rename E into Hr; rename r into x end.
  assert (Hne : r_status x <> R_running).
  { intros E. match goal with G : isRunResumable _ _ || _ = true |- _ => unfold isRunResumable in G; rewrite Hr, E in G; discriminate G end. }
  exists x. apply alter_as_insert with (f := fun r => run_next_attempt r (resume_phase (r_phase r)) (r_attempt r + 1) (r_lastEventSeq r) ts) in Hr as Halt.
  match goal with E : projectAttempt _ _ _ _ _ _ _ _ _ = Ok _ |- _ =>
    eapply (project_started d _ rid (run_next_attempt x (resume_phase (r_phase x)) (r_attempt x + 1) (r_lastEventSeq x) ts)) in E
      as [a Hst]; [|done|done|exact (con_run Hcon _ _ Hr)|by rewrite Hr|exact Halt|done..] end.
  exists a. rewrite (st_runs Hst), lookup_insert_eq in Hs. injection Hs as <-. done.
Qed.

Lemma createRun_started sid goal req contract skills ts d r d' :
  Consistent d -> createRun sid goal req contract skills ts d = Ok (r, d') ->
  exists a, started d d' (r_id r) r a /\ runs d !! r_id r = None.
Proof.
  intros Hcon Hs. unfold createRun in Hs. tx_inv Hs. store_inv. bool_prop. cbn in H2.
  match goal with E : projectAttempt _ _ _ _ _ _ _ _ _ = Ok _ |- exists a, started _ _ _ ?r _ /\ _ =>
    apply (project_started d _ (r_id r) r) in E as [a Hst]; [|done|done|done|cbn; by rewrite H2|done..] end.
  exists a. split; [exact Hst|done].
Qed.
End operations.
