(* ===== verification/AttemptTrace.v ===== *)
(** Schedules of repository calls. A schedule is the list of the calls any
    number of callers make, in the order in which their transactions commit or
    roll back; the theorems hold of every schedule. *)
From S2P Require Import Prelude Json Attempt ExecDb AttemptRepo AttemptSpec Demo AttemptRefine.
Local Open Scope tx_scope.

(** * Calls *)

Inductive RepoOp :=
  | Acquire (attemptId : string) (version : Z) (owner : string) (leaseMs ts : Z)
  | Renew (attemptId owner token : string) (fence leaseMs ts : Z)
  | Release (attemptId owner token : string) (fence ts : Z)
  | Record_ (candidateId attemptId : string) (version : Z) (token : string) (fence : Z) (response : string) (ts : Z)
  | Settle (attemptId : string) (version : Z) (token : string) (fence : Z) (candidateId decisionId : string)
      (status : TerminalAttemptStatus) (reason : string) (ts : Z)
  | ReAdjudicate (attemptId : string) (version : Z) (candidateId hash previousDecisionId decisionId : string)
      (gateIds uncertaintyIds : list string) (reason : string) (ts : Z)
  | Recover (attemptId : string) (version : Z) (owner token : string) (fence : Z) (reason : string)
      (decisionId : option string) (ts : Z)
  | Cancel (attemptId reason : string) (ts : Z).

Definition op_attempt (o : RepoOp) : string :=
  match o with
  | Acquire i _ _ _ _ | Renew i _ _ _ _ _ | Release i _ _ _ _ | Record_ _ i _ _ _ _ _ | Settle i _ _ _ _ _ _ _ _
  | ReAdjudicate i _ _ _ _ _ _ _ _ _ | Recover i _ _ _ _ _ _ _ | Cancel i _ _ => i
  end.

(** The fence a call presents, when the call is made by the holder of a lease. *)
Definition op_fence (o : RepoOp) : option Z :=
  match o with
  | Renew _ _ _ f _ _ | Release _ _ _ f _ | Record_ _ _ _ _ f _ _ | Settle _ _ _ f _ _ _ _ _
  | Recover _ _ _ _ f _ _ _ => Some f
  | _ => None
  end.

Section traces.
Context `{Platform}.

Definition run_op (o : RepoOp) : tx Db unit :=
  match o with
  | Acquire i v w ms ts => do* acquireExecutionLease i v w ms ts in mret tt
  | Renew i w t f ms ts => do* renewExecutionLease i w t f ms ts in mret tt
  | Release i w t f ts => do* releaseExecutionLease i w t f ts in mret tt
  | Record_ c i v t f r ts => do* recordCandidateResult c i v t f r ts in mret tt
  | Settle i v t f c s st r ts => do* settleAttempt i v t f c s st r ts in mret tt
  | ReAdjudicate i v c h p s g u r ts => do* reAdjudicateBlockedCandidate i v c h p s g u r ts in mret tt
  | Recover i v w t f r s ts => do* recoverInterruptedAttempt i v w t f r s ts in mret tt
  | Cancel i r ts => do* cancelAttempt i r ts in mret tt
  end.

(** A call that throws rolls back. *)
Definition exec (d : Db) (o : RepoOp) : Db :=
  match run_op o d with Ok (_, d') => d' | Throw _ => d end.

Definition execs (ops : list RepoOp) (d : Db) : Db := fold_left exec ops d.

(** * Every call is an abstract step *)

Inductive repo_step (d d' : Db) : string -> Prop :=
  | step_none i : d' = d -> repo_step d d' i
  | step_lease i : leased d d' i -> repo_step d d' i
  | step_propose a c ts : proposed d d' a c ts -> repo_step d d' (a_id a)
  | step_close a a' r r' s rows ts : closed d d' a a' r r' s rows ts -> repo_step d d' (a_id a).

(** The call the wrapper made, with its result. *)
Lemma run_op_ok {A} (m : tx Db A) d u d' : (do* m in mret tt) d = Ok (u, d') -> exists v, m d = Ok (v, d').
Proof. intros Hm. tx_inv Hm. eauto. Qed.

Lemma exec_step d o : Consistent d -> repo_step d (exec d o) (op_attempt o).
Proof.
  intros Hcon. unfold exec. destruct (run_op o d) as [[u d']|] eqn:Hs; [|by constructor].
  destruct o; apply run_op_ok in Hs as [v Hop]; cbn [op_attempt].
  - apply step_lease. by apply acquire_leased in Hop as [? _].
  - apply step_lease. by apply renew_leased in Hop as [? _].
  - apply step_lease. by apply release_leased in Hop as [? _].
  - apply record_proposed in Hop as (_ & _ & _ & [[-> _]|(a & -> & _ & ?)]); [by constructor|by eapply step_propose|done].
  - apply settle_closed in Hop as (a & r & r' & rows & Hc & ->); [by eapply step_close|done].
  - destruct v as [a' ev]. apply reAdjudicate_closed in Hop as (a & r & r' & rows & Hc & ->); [by eapply step_close|done].
  - destruct v as [[a' ev] rec]. apply recover_closed in Hop; [|done]. destruct rec; [|by constructor].
    destruct Hop as (a & r & r' & rows & Hc & ->). by eapply step_close.
  - destruct v as [[a' ev] chg]. apply cancel_closed in Hop; [|done]. destruct chg; [|by constructor].
    destruct Hop as (a & r & r' & rows & Hc & ->). by eapply step_close.
Qed.

Lemma repo_step_consistent d d' i : Consistent d -> repo_step d d' i -> Consistent d'.
Proof.
  intros Hcon [j ->|j Hl|a c ts Hp|a a' r r' s rows ts Hc];
    eauto using leased_consistent, proposed_consistent, closed_consistent.
Qed.

Lemma execs_ind (P : Db -> Prop) ops d :
  Consistent d -> P d ->
  (forall x o, Consistent x -> repo_step x (exec x o) (op_attempt o) -> P x -> P (exec x o)) ->
  Consistent (execs ops d) /\ P (execs ops d).
Proof.
  intros Hcon HP Hstep. revert d Hcon HP. induction ops as [|o ops IH]; intros d Hcon HP; [done|].
  cbn. apply IH; [|by apply Hstep, exec_step || apply Hstep; auto using exec_step].
  eapply repo_step_consistent, exec_step; done.
Qed.

Lemma repository_consistent ops d : Consistent d -> Consistent (execs ops d).
Proof. intros Hcon. by apply (execs_ind (fun _ => True)). Qed.

(** * Fencing *)

Definition fence_of (i : string) (d : Db) : Z :=
  match leases d !! i with Some l => l_fence l | None => 0 end.

Lemma fence_mono d d' i j : Consistent d -> repo_step d d' j -> (fence_of i d <= fence_of i d')%Z.
Proof.
  unfold fence_of. intros Hcon [k ->|k Hl|a c ts Hp|a a' r r' s rows ts Hc]; [done| | |].
  - destruct (le_leases _ _ _ Hl) as [->|(l & _ & H0 & -> & _ & Hf)]; [done|].
    destruct (decide (k = i)) as [->|]; [|by rewrite !lookup_insert_ne].
    rewrite lookup_insert_eq. destruct (leases d !! i) as [l0|]; [by apply (Hf l0)|lia].
  - by rewrite (pr_leases _ _ _ _ _ Hp).
  - by destruct (cl_released Hc i) as [->|(_ & l & -> & ->)].
Qed.

(** A lease-holder call that presents another fence than the last one granted
    for the Attempt changes nothing. *)
Lemma wrong_fence_no_effect d o f :
  op_fence o = Some f -> f <> fence_of (op_attempt o) d -> exec d o = d.
Proof.
  unfold fence_of, exec. intros Hf Hne. destruct (run_op o d) as [[u d']|] eqn:Hs; [|done].
  destruct o; simplify_eq/=; apply run_op_ok in Hs as [v Hop].
  - exfalso. unfold renewExecutionLease in Hop. tx_inv Hop. db_inv. unfold getLease in *. db_look. bool_prop.
    by match goal with E : leases d !! _ = Some _ |- _ => rewrite E in Hne end.
  - unfold releaseExecutionLease in Hop. tx_inv Hop.
    match goal with E : update_lease _ _ _ _ = _ |- _ => apply update_lease_ok in E as [(l & -> & Hl & Hp & Hc & ->)|[-> ->]] end; [|done].
    exfalso. bool_prop. by rewrite Hl in Hne.
  - exfalso. apply record_guards in Hop as (l & E & _ & <- & _). by rewrite E in Hne.
  - exfalso. apply settle_guards in Hop as [(l & E & _ & <- & _) _]. by rewrite E in Hne.
  - exfalso. apply recover_guards in Hop as (l & E & _ & _ & <-). by rewrite E in Hne.
Qed.

(** * Outcomes are final *)

Lemma closed_row_stable d d' j i a :
  Consistent d -> repo_step d d' j -> attempts d !! i = Some a -> a_active a = false -> a_status a <> A_blocked ->
  attempts d' !! i = Some a.
Proof.
  intros Hcon Hs Ha Hact Hb. destruct Hs as [j ->|j Hl|b c ts Hp|b b' r r' s rows ts Hc]; [done| | |].
  - by rewrite (le_attempts _ _ _ Hl).
  - rewrite (pr_attempts _ _ _ _ _ Hp). rewrite lookup_insert_ne; [done|]. intros <-.
    pose proof (pr_attempt _ _ _ _ _ Hp). destruct (pr_running _ _ _ _ _ Hp). congruence.
  - rewrite (cl_attempts Hc). rewrite lookup_insert_ne; [done|]. intros <-.
    pose proof (cl_attempt Hc). destruct (cl_may Hc) as [(? & _)|(_ & ? & _)]; congruence.
Qed.

(** An accepted Candidate belongs to a completed Attempt, which no step touches. *)
Lemma accepted_stable d d' j i c :
  Consistent d -> repo_step d d' j -> candidates d !! i = Some c -> c_status c = C_accepted ->
  candidates d' !! i = Some c.
Proof.
  intros Hcon Hs Hc Hst. destruct (con_accepted Hcon _ _ Hc Hst) as (a & Ha & Hdone).
  destruct Hs as [j ->|j Hl|b c' ts Hp|b b' r r' s rows ts Hcl]; [done| | |].
  - by rewrite (le_candidates _ _ _ Hl).
  - rewrite (pr_candidates _ _ _ _ _ Hp). rewrite lookup_insert_ne; [done|]. intros <-.
    destruct (pr_fresh _ _ _ _ _ Hp). congruence.
  - rewrite (cl_candidates Hcl), Hc. cbn. destruct (String.eqb_spec (c_attemptId c) (a_id b)) as [E|]; [|done].
    exfalso. rewrite E, (cl_attempt Hcl) in Ha. injection Ha as <-. by destruct (closed_not_settled Hcl).
Qed.

End traces.

(** * Witnesses *)

Definition demo_id : string := attempt_id "run" 1.

(** A Generation runs to completion: it takes the lease, proposes its answer and
    the Supervisor's decision settles it. *)
Definition demo_ops : list RepoOp :=
  [Acquire demo_id 1 "worker" 1000 10; Record_ "candidate" demo_id 1 "uuid-0" 1 "answer" 20;
   Settle demo_id 2 "uuid-0" 1 "candidate" "decision" TA_completed "done" 30].

Definition demo_done : Db := execs demo_ops demo_db.

Lemma demo_done_consistent : Consistent demo_done.
Proof. apply repository_consistent, demo_consistent. Qed.
