(* ===== verification/PortSteps.v ===== *)
(** The calls of the ports on TaskRuns (the transition authority, the fenced
    runtime mutations, the mailbox) are sequences of abstract steps: they keep
    the execution tables consistent, whatever arguments they get. *)
From S2P Require Import Prelude Json TaskPolicy Attempt ExecDb Canonical AttemptRepo RunStore Transcript Transition Tools Mailbox RuntimeMutation AttemptSpec StoreSpec AttemptRefine StoreRefine AttemptTrace.
Local Open Scope tx_scope.

Inductive store_step (d d' : Db) : Prop :=
  | ss_repo i : repo_step d d' i -> store_step d d'
  | ss_moved i r r' a a' rows : moved d d' i r r' a a' rows -> store_step d d'
  | ss_started i r' a : started d d' i r' a -> store_step d d'
  | ss_aside : aside d d' -> store_step d d'.

Lemma store_step_consistent d d' : Consistent d -> store_step d d' -> Consistent d'.
Proof.
  intros Hcon [i Hs|i r r' a a' rows Hs|i r' a Hs|Hs];
    eauto using repo_step_consistent, moved_consistent, started_consistent, aside_consistent.
Qed.

Lemma steps_consistent d d' : Consistent d -> rtc store_step d d' -> Consistent d'.
Proof. intros Hcon Hs. induction Hs; eauto using store_step_consistent. Qed.

(** The current Attempt of a TaskRun is running. *)
Definition current_running (rid : string) (d : Db) : Prop :=
  forall r a, runs d !! rid = Some r -> attempts d !! attempt_id rid (r_attempt r) = Some a -> a_status a = A_running.

(** The running part of a call: consistent, reached by steps, and the Attempt still runs. *)
Definition reached (d : Db) (rid : string) (t : Db) : Prop :=
  Consistent t /\ rtc store_step d t /\ current_running rid t.

Lemma movable_stopped s : includes s [R_waiting_input; R_blocked; R_interrupted; R_failed] = true ->
  movable (of_run_status s) A_blocked.
Proof. destruct s; try done; intros _; apply (bool_decide_unpack _); vm_compute; done. Qed.

Lemma running_movable s : includes s [R_completed; R_blocked; R_failed] = true -> movable A_running (of_run_status s).
Proof. destruct s; try done; intros _; apply (bool_decide_unpack _); vm_compute; done. Qed.

Section steps.
Context `{Platform}.

Lemma aside_steps d d' : aside d d' -> rtc store_step d d'.
Proof. intros Ha. apply rtc_once. by apply ss_aside. Qed.

(** * The fence *)

Lemma fenced_running d f s a r l : Consistent d -> fenced d f s a r l -> current_running (sc_runId s) d.
Proof.
  intros Hcon [F1 [_ [F2 _]] _ _ F3 [_ F4] [F5 [_ _]]] x b Hx Hb.
  rewrite F5, F3 in Hx. injection Hx as <-. rewrite F5, F4, <- (con_named Hcon _ _ F1), F1 in Hb. by injection Hb as <-.
Qed.

Lemma withFence_ok {A} f dbTime (work : TaskRunExecutionScope -> tx Db A) d v d' :
  Consistent d -> withFence f dbTime work d = Ok (v, d') ->
  exists s a r l, fenced d f s a r l /\ current_running (sc_runId s) d /\ work s d = Ok (v, d').
Proof.
  intros Hcon Hs. unfold withFence in Hs. tx_inv Hs.
  match goal with E : validate _ _ _ = Ok _ |- _ => apply validate_ok in E as [-> (? & ? & ? & Hf)] end.
  eauto 10 using fenced_running.
Qed.

Lemma appendEvent_reached d rid type data ts ev t t' :
  reached d rid t -> appendEvent rid type data ts t = Ok (ev, t') -> reached d rid t'.
Proof.
  intros (Hcon & Hs & Hrun) Ha. destruct (appendEvent_moved _ _ _ _ _ _ _ Hcon Ha) as (r & a & row & Hmv & _).
  split_and!.
  - by eapply moved_consistent.
  - eapply rtc_r; [exact Hs|]. by eapply ss_moved.
  - intros x b. rewrite (mv_runs Hmv), (mv_attempts Hmv), lookup_insert_eq.
    intros [= <-]. cbn. rewrite insert_id by exact (mv_attempt Hmv). apply Hrun. exact (mv_run Hmv).
Qed.

(** * Transitions by the runtime *)

Lemma transitionRuntime_steps command f dbTime ts d os d' :
  Consistent d -> transitionRuntime command f dbTime ts d = Ok (os, d') -> rtc store_step d d'.
Proof.
  intros Hcon Hs. unfold transitionRuntime in Hs. tx_inv Hs.
  match goal with E : validate _ _ _ = Ok _ |- _ => apply validate_ok in E as [-> (? & ? & ? & Hf)] end.
  match goal with E : map_tx _ _ _ = Ok _, E2 : transitionRun _ _ _ _ _ _ _ _ _ = Ok _ |- _ =>
    rename E into Hevents; rename E2 into Hmove end.
  apply (map_tx_ind (reached d (sc_runId v0))) in Hevents as (Hc & Hst & Hrun);
    [|intros ? ? ? ? _; apply appendEvent_reached|split_and!; [done|done|by eapply fenced_running]].
  apply transitionRun_moved in Hmove as (? & ? & ? & ? & ? & Hmv & _); [|exact Hc| |].
  - eapply rtc_r; [exact Hst|by eapply ss_moved].
  - destruct (rc_kind v); simplify_eq/=; done.
  - intros ? ? Hx Hb. rewrite (Hrun _ _ Hx Hb). apply running_movable. by destruct (rc_kind v); simplify_eq/=.
Qed.

(** * Transitions by the system *)

Lemma validateSystemAttempt_ok i v d s d' : validateSystemAttempt i v d = Ok (s, d') ->
  d' = d /\ exists a r, attempts d !! i = Some a /\ runs d !! a_runId a = Some r /\ r_attempt r = a_ordinal a
    /\ a_version a = v
    /\ s = {| sa_attemptId := i; sa_runId := a_runId a; sa_ordinal := a_ordinal a; sa_attemptStatus := a_status a;
              sa_active := a_active a; sa_version := a_version a; sa_runStatus := r_status r |}.
Proof. unfold validateSystemAttempt. intros Hs. tx_inv Hs. bool_prop. eauto 10. Qed.

(** The scope of a system command describes the current Attempt of its TaskRun. *)
Lemma scope_current d i v s d' : Consistent d -> validateSystemAttempt i v d = Ok (s, d') ->
  d' = d /\ forall r a, runs d !! sa_runId s = Some r -> attempts d !! attempt_id (sa_runId s) (r_attempt r) = Some a ->
    a_status a = sa_attemptStatus s /\ a_active a = sa_active s /\ r_status r = sa_runStatus s
    /\ (sa_active s = false -> sa_attemptStatus s = of_run_status (sa_runStatus s)).
Proof.
  intros Hcon (-> & a & r & Ha & Hr & Ho & _ & ->)%validateSystemAttempt_ok. split; [done|]. cbn.
  intros x b Hx Hb. assert (x = r) as -> by congruence.
  rewrite Ho, <- (con_named Hcon _ _ Ha), Ha in Hb. injection Hb as <-. split_and!; try done.
  intros Hact. pose proof (con_current Hcon _ _ _ Ha Hr Ho) as Hc. by rewrite Hact in Hc.
Qed.

(** A transition of the current Attempt out of a movable status. *)
Lemma transition_steps d rid expected next type data reason n ts ev d' :
  Consistent d -> next <> R_running ->
  (forall r a, runs d !! rid = Some r -> attempts d !! attempt_id rid (r_attempt r) = Some a ->
    movable (a_status a) (of_run_status next)) ->
  transitionRun rid expected next type data reason n ts d = Ok (Some ev, d') -> rtc store_step d d'.
Proof.
  intros Hcon Hne Hmov Hs. apply transitionRun_moved in Hs as (? & ? & ? & ? & ? & Hmv & _); [|done..].
  apply rtc_once. by eapply ss_moved.
Qed.

Lemma running_boundary_spec s : running_boundary s = true -> sa_attemptStatus s = A_running.
Proof. unfold running_boundary. intros Hb. by bool_prop. Qed.

Lemma transitionResumePreparationFailure_steps i v s e ts d os d' t :
  Consistent d -> validateSystemAttempt i v d = Ok (s, t) ->
  transitionResumePreparationFailure e s ts t = Ok (os, d') -> rtc store_step d d'.
Proof.
  intros Hcon Hv Hs. destruct (scope_current _ _ _ _ _ Hcon Hv) as [-> Hcur].
  unfold transitionResumePreparationFailure in Hs. tx_inv Hs.
  eapply transition_steps; [done| | |eassumption]; [done|]. intros r a Hr Ha.
  destruct (Hcur _ _ Hr Ha) as [-> _]. erewrite running_boundary_spec by eassumption. by apply (running_movable R_failed).
Qed.

Lemma transitionAdmissionFailure_steps i v s item e retry ts d os d' t :
  Consistent d -> validateSystemAttempt i v d = Ok (s, t) ->
  transitionAdmissionFailure item e retry s ts t = Ok (os, d') -> rtc store_step d d'.
Proof.
  intros Hcon Hv Hs. destruct (scope_current _ _ _ _ _ Hcon Hv) as [-> Hcur].
  unfold transitionAdmissionFailure in Hs. tx_inv Hs.
  match goal with E : transitionRun _ _ _ _ _ _ _ _ ?t = Ok _ |- _ =>
    assert (Hside : aside d t) by done; rename E into Hmove end.
  etrans; [apply aside_steps; exact Hside|]. eapply transition_steps; [by eapply aside_consistent| | |exact Hmove]; [done|].
  cbn. intros r a Hr Ha.
  destruct (Hcur _ _ Hr Ha) as [-> _]. erewrite running_boundary_spec by eassumption. by apply (running_movable R_failed).
Qed.

Lemma transitionExternalApproval_steps i v s approval reason ts d os d' t :
  Consistent d -> validateSystemAttempt i v d = Ok (s, t) ->
  transitionExternalApproval approval reason s ts t = Ok (os, d') -> rtc store_step d d'.
Proof.
  intros Hcon Hv Hs. destruct (scope_current _ _ _ _ _ Hcon Hv) as [-> Hcur].
  unfold transitionExternalApproval in Hs. tx_inv Hs.
  eapply transition_steps; [done| | |eassumption]; [done|]. intros r a Hr Ha.
  destruct (Hcur _ _ Hr Ha) as (-> & _ & _ & Hin).
  match goal with E : running_boundary s || _ || _ = true |- _ => rename E into Hb end.
  rewrite !orb_true_iff, !andb_true_iff, !negb_true_iff in Hb.
  destruct Hb as [[Hb|Hb]|[[Hact _] Hb]].
  - rewrite running_boundary_spec by done. by apply (running_movable R_blocked).
  - destruct Hb as [[[[Hact Hst] _] _] _]. bool_prop. rewrite Hst. exact (movable_stopped R_waiting_input eq_refl).
  - rewrite (Hin Hact). apply movable_stopped. clear -Hb. by destruct (sa_runStatus s).
Qed.

Lemma resume_steps d rid ts r2 d' : Consistent d -> resumeRun rid ts d = Ok (r2, d') -> rtc store_step d d'.
Proof.
  intros Hcon Hs. apply resumeRun_started in Hs as (r & a & _ & _ & Hst); [|done].
  apply rtc_once. by eapply ss_started.
Qed.

Lemma transitionResume_steps command authority s ts d os d' :
  Consistent d -> transitionResume command authority s ts d = Ok (os, d') -> rtc store_step d d'.
Proof.
  intros Hcon Hs. unfold transitionResume in Hs. tx_inv Hs. by eapply resume_steps.
Qed.

(** ** Interruption

    The remaining TaskRuns are untouched while one is interrupted. *)
Definition interruptible_in (t : Db) (r : RunRow) : Prop :=
  runs t !! r_id r = Some r /\ r_status r = R_running
  /\ forall a, attempts t !! attempt_id (r_id r) (r_attempt r) = Some a -> a_status a = A_running.

Lemma interrupt_other t t' r x :
  Consistent t -> interruptible_in t r -> interruptible_in t x -> r_id x <> r_id r ->
  (exists r' a a' row, moved t t' (r_id r) r r' a a' [row]) -> interruptible_in t' x.
Proof.
  intros Hcon _ (Hx & Hxs & Hxa) Hne (r' & a & a' & row & Hmv). unfold interruptible_in.
  rewrite (mv_runs Hmv), lookup_insert_ne by done. split_and!; [done|done|].
  intros b. rewrite (mv_attempts Hmv). rewrite lookup_insert_ne; [apply Hxa|].
  destruct (mv_current Hmv) as [C1 _]. rewrite (con_named Hcon _ _ (mv_attempt Hmv)), C1.
  intros [E _]%attempt_id_inj. congruence.
Qed.

Lemma interrupt_runs_steps ts l d u d' :
  Consistent d -> NoDup (map r_id l) -> Forall (interruptible_in d) l ->
  for_each (interrupt_run ts) l d = Ok (u, d') -> rtc store_step d d'.
Proof.
  revert d. induction l as [|r l IH]; intros d Hcon Hnd Hl Hs; cbn in Hs.
  - by apply mret_ok in Hs as [_ ->].
  - apply tx_bind_ok in Hs as ([] & t & H1 & H2). apply NoDup_cons in Hnd as [Hr Hnd].
    apply Forall_cons in Hl as [Hir Hl]. destruct Hir as (Hir & Hrun & Hcur).
    destruct (interrupt_run_moved _ _ _ _ _ Hcon Hir Hrun Hcur H1) as (r' & a & a' & row & Hmv & _).
    etrans; [apply rtc_once; by eapply ss_moved|].
    apply (IH t); [by eapply moved_consistent|done| |exact H2].
    rewrite Forall_forall in Hl |- *. intros x Hx. eapply interrupt_other; [exact Hcon| |by apply Hl| |eauto].
    + split_and!; done.
    + intros E. apply Hr. rewrite <- E. apply list_elem_of_fmap. eauto.
Qed.

Lemma refresh_waiting_aside ts d : aside d (refresh_waiting ts d).
Proof.
  split; try done. intros i. cbn. unfold update_where. rewrite lookup_fmap.
  destruct (runs d !! i) as [r|]; cbn; [|done]. by case_bool_decide.
Qed.

Lemma running_runs_spec d r : Consistent d -> r ∈ running_runs d ->
  runs d !! r_id r = Some r /\ r_status r = R_running.
Proof.
  intros Hcon. unfold running_runs. rewrite list_elem_of_In, filter_In, <- list_elem_of_In, list_elem_of_fmap.
  intros [([k x] & -> & Hx) Hb]. rewrite elem_of_map_to_list in Hx. cbn in *. bool_prop.
  by rewrite (con_run Hcon _ _ Hx).
Qed.

(** The TaskRuns read by a query are distinct. *)
Lemma selected_nodup (p : RunRow -> bool) d : Consistent d ->
  NoDup (map r_id (List.filter p (map snd (map_to_list (runs d))))).
Proof.
  intros Hcon.
  assert (Hl : Forall (fun kx => r_id kx.2 = kx.1) (map_to_list (runs d))).
  { rewrite Forall_forall. intros [k x] Hx. rewrite elem_of_map_to_list in Hx. exact (con_run Hcon _ _ Hx). }
  pose proof (NoDup_fst_map_to_list (runs d)) as Hnd. revert Hl Hnd.
  generalize (map_to_list (runs d)). induction l as [|[k x] l IH]; cbn; [constructor|].
  intros [Hk Hl]%Forall_cons [Hn Hnd]%NoDup_cons. destruct (p x); cbn; [|by apply IH].
  apply NoDup_cons. split; [|by apply IH]. intros Hin. apply Hn. cbn in Hk. rewrite Hk in Hin.
  apply list_elem_of_fmap in Hin as (y & Ey & Hy). rewrite list_elem_of_In, filter_In, <- list_elem_of_In in Hy.
  destruct Hy as [Hy _]. apply list_elem_of_fmap in Hy as ([k' y'] & -> & Hy). apply list_elem_of_fmap.
  exists (k', y'). split; [|done]. rewrite Forall_forall in Hl. specialize (Hl _ Hy). cbn in *. congruence.
Qed.

Lemma getAttemptForRun_spec rid n d a : getAttemptForRun rid n d = Some a ->
  exists i, attempts d !! i = Some a /\ a_runId a = rid /\ a_ordinal a = n.
Proof.
  unfold getAttemptForRun, attempts_where. intros Hh. apply head_Some_elem_of in Hh.
  rewrite list_elem_of_In, filter_In, <- list_elem_of_In, list_elem_of_fmap in Hh.
  destruct Hh as [([i x] & -> & Hx) Hb]. rewrite elem_of_map_to_list in Hx. bool_prop. eauto.
Qed.

Lemma map_result_elem {A B} (f : A -> result B) l ys x : map_result f l = Ok ys -> x ∈ l -> exists y, f x = Ok y.
Proof.
  revert ys. induction l as [|z l IH]; intros ys Hm Hx; [by apply not_elem_of_nil in Hx|].
  cbn in Hm. apply result_bind_ok in Hm as (y & Hy & Hm). apply result_bind_ok in Hm as (zs & Hzs & _).
  apply elem_of_cons in Hx as [->|Hx]; eauto.
Qed.

Lemma interruptActive_steps ts d os d' : Consistent d -> interruptActive ts d = Ok (os, d') -> rtc store_step d d'.
Proof.
  intros Hcon Hs. unfold interruptActive, markInterrupted in Hs. tx_inv Hs.
  match goal with E : for_each _ _ _ = Ok _, E2 : listInterruptibleSystemAttempts _ = Ok _ |- _ =>
    rename E into Hloop; rename E2 into Hlist end.
  etrans; [|apply aside_steps, refresh_waiting_aside].
  eapply interrupt_runs_steps; [done|by apply selected_nodup| |exact Hloop].
  rewrite Forall_forall. intros r Hr. destruct (running_runs_spec _ _ Hcon Hr) as [H1 H2]. split_and!; [done|done|].
  intros a Ha. unfold listInterruptibleSystemAttempts in Hlist.
  eapply map_result_elem in Hlist as [s Hs]; [|rewrite merge_sort_Permutation; exact Hr].
  unfold interruptible in Hs. tx_inv Hs. bool_prop.
  match goal with E : getAttemptForRun _ _ _ = Some _ |- _ => apply getAttemptForRun_spec in E as (i & Hi & E1 & E2) end.
  rewrite (con_named Hcon _ _ Hi), E1, E2 in Hi. congruence.
Qed.

Lemma transitionSystem_steps command authority ts d os d' :
  Consistent d -> transitionSystem command authority ts d = Ok (os, d') -> rtc store_step d d'.
Proof.
  intros Hcon Hs. unfold transitionSystem in Hs. tx_inv Hs;
    eauto using interruptActive_steps, transitionAdmissionFailure_steps, transitionExternalApproval_steps,
      transitionResumePreparationFailure_steps.
  all: match goal with E : validateSystemAttempt _ _ _ = Ok _ |- _ => apply validateSystemAttempt_ok in E as [-> _] end;
    by eapply transitionResume_steps.
Qed.
(** * Fenced mutations *)

(** [aside_solve] proves [aside] of a transaction that writes other tables. *)
Ltac aside_solve Hs := tx_inv Hs; try apply aside_refl; try done.

Lemma recordToolAttempt_aside rid n call name args ts d v d' :
  recordToolAttempt rid n call name args ts d = Ok (v, d') -> aside d d'.
Proof. unfold recordToolAttempt. intros Hs. aside_solve Hs. Qed.

Lemma completeToolAttempt_aside rid n call ok e ts d v d' :
  completeToolAttempt rid n call ok e ts d = Ok (v, d') -> aside d d'.
Proof. unfold completeToolAttempt. intros Hs. aside_solve Hs. Qed.

Lemma claimOperation_aside i rid n ty p ts d v d' : claimOperation i rid n ty p ts d = Ok (v, d') -> aside d d'.
Proof. unfold claimOperation. intros Hs. aside_solve Hs. Qed.

Lemma updateOperation_aside i u ts d v d' : updateOperation i u ts d = Ok (v, d') -> aside d d'.
Proof. unfold updateOperation. intros Hs. aside_solve Hs. Qed.

Lemma upsertCheckpoint_aside rid n act partial tool es ts' ts d v d' :
  upsertCheckpoint rid n act partial tool es ts' ts d = Ok (v, d') -> aside d d'.
Proof. unfold upsertCheckpoint. intros Hs. aside_solve Hs. Qed.

Lemma aside_trans d1 d2 d3 : aside d1 d2 -> aside d2 d3 -> aside d1 d3.
Proof.
  intros [A1 A2 A3 A4 A5 A6] [B1 B2 B3 B4 B5 B6].
  split; [intros i; by rewrite B1|congruence..].
Qed.

Lemma appendTranscript_aside rid n m ts d v d' : appendTranscript rid n m ts d = Ok (v, d') -> aside d d'.
Proof. unfold appendTranscript. intros Hs. aside_solve Hs. Qed.

Lemma repairTranscript_aside rid r ts d v d' : repairTranscript rid r ts d = Ok (v, d') -> aside d d'.
Proof.
  unfold repairTranscript. intros Hs. tx_inv Hs.
  match goal with E : for_each _ _ _ = Ok _ |- _ => apply (for_each_ind (aside d)) in E end; [done| |apply aside_refl].
  intros call s s' _ Ht Hx. tx_inv Hx. eapply aside_trans; [exact Ht|by eapply appendTranscript_aside].
Qed.

Lemma completeControlItem_aside i st e ts d v d' : completeControlItem i st e ts d = Ok (v, d') -> aside d d'.
Proof. unfold completeControlItem. intros Hs. aside_solve Hs. Qed.

Lemma claimControlItem_aside rid n ts d v d' : claimControlItem rid n ts d = Ok (v, d') -> aside d d'.
Proof. unfold claimControlItem. intros Hs. aside_solve Hs. Qed.

Lemma enqueueControl_aside rid req k c cap ts d v d' : enqueueControl rid req k c cap ts d = Ok (v, d') -> aside d d'.
Proof. unfold enqueueControl. intros Hs. aside_solve Hs. all: db_inv; done. Qed.

Lemma submitUserInput_aside req resp ts d v d' : submitUserInput req resp ts d = Ok (v, d') -> aside d d'.
Proof.
  unfold submitUserInput. intros Hs. tx_inv Hs.
  match goal with E : for_each _ _ _ = Ok _ |- _ =>
    apply (for_each_ind (fun t => t = d)) in E; [subst; done| |done] end.
  intros f x x' _ -> Hf. by apply require_ok in Hf as [_ ->].
Qed.

Lemma claimTaskRunCommand_aside p r c ty pl tg pr rq ts d v d' :
  claimTaskRunCommand p r c ty pl tg pr rq ts d = Ok (v, d') -> aside d d'.
Proof. unfold claimTaskRunCommand. intros Hs. aside_solve Hs. Qed.

Lemma settleTaskRunCommand_aside p r c st res e ts d v d' :
  settleTaskRunCommand p r c st res e ts d = Ok (v, d') -> aside d d'.
Proof. unfold settleTaskRunCommand. intros Hs. aside_solve Hs. Qed.

Lemma claimEventConsumer_aside r c ts d v d' : claimEventConsumer r c ts d = Ok (v, d') -> aside d d'.
Proof. unfold claimEventConsumer. intros Hs. aside_solve Hs. Qed.

Lemma ackEventConsumer_aside r c g s ts d v d' : ackEventConsumer r c g s ts d = Ok (v, d') -> aside d d'.
Proof. unfold ackEventConsumer. intros Hs. aside_solve Hs. Qed.

Lemma appendEvent_steps rid type data ts d ev d' :
  Consistent d -> appendEvent rid type data ts d = Ok (ev, d') -> rtc store_step d d'.
Proof.
  intros Hcon Ha. destruct (appendEvent_moved _ _ _ _ _ _ _ Hcon Ha) as (r & a & row & Hmv & _).
  apply rtc_once. by eapply ss_moved.
Qed.

Lemma aside_appendEvent_steps rid type data ts d t ev d' :
  Consistent d -> aside d t -> appendEvent rid type data ts t = Ok (ev, d') -> rtc store_step d d'.
Proof.
  intros Hcon Hside Ha. etrans; [by apply aside_steps|]. eapply appendEvent_steps; [|exact Ha]. by eapply aside_consistent.
Qed.

(** The hook of a fenced input request corrects event sequences only. *)
Lemma update_first_map {A B} (p : A -> bool) (f : A -> A) (g : A -> B) l :
  (forall x, g (f x) = g x) -> map g (update_first p f l) = map g l.
Proof.
  intros Hg. induction l as [|x l IH]; cbn; [done|]. destruct (p x); cbn; [by rewrite Hg|by rewrite IH].
Qed.

Lemma update_last_map {A B} (p : A -> bool) (f : A -> A) (g : A -> B) l :
  (forall x, g (f x) = g x) -> map g (update_last p f l) = map g l.
Proof.
  intros Hg. unfold update_last. rewrite map_rev, update_first_map by done. by rewrite <- map_rev, rev_involutive.
Qed.

Lemma waiting_hook_steps i rid n call ts req ev d d' r :
  Consistent d -> runs d !! rid = Some r -> i = attempt_id rid (r_attempt r) ->
  waiting_hook i rid n call ts req ev d = Ok (tt, d') -> rtc store_step d d'.
Proof.
  intros Hcon Hr -> Hs. unfold waiting_hook in Hs. tx_inv Hs.
  match goal with E : completeToolAttempt _ _ _ _ _ _ _ = Ok _ |- _ =>
    apply completeToolAttempt_aside in E as Hside; clear E end.
  etrans; [|by apply aside_steps].
  destruct (current_attempt _ _ _ Hcon Hr) as (a & Ha & A1 & A2 & A3).
  match goal with E : update_attempt _ _ _ _ = Ok _ |- _ =>
    apply update_attempt_ok in E as [(b & _ & Hb & Hp & Hck & _ & ->)|[_ ->]] end.
  - rewrite Ha in Hb. injection Hb as <-. bool_prop. rewrite <- A1 in Ha.
    apply rtc_once. eapply (ss_moved _ _ rid r r a (attempt_event_to a (ev_seq ev)) []).
    split; cbn; try done; [split_and!; try done; lia| |by rewrite insert_id].
    left. split_and!; try done; [|by right]. unfold trail_of. cbn. by apply update_last_map.
  - apply aside_steps. split; try done. unfold trail_of. cbn. by apply update_last_map.
Qed.
Lemma fencedRequestUserInput_steps f dbTime prompt fields call ts d v d' :
  Consistent d -> fencedRequestUserInput f dbTime prompt fields call ts d = Ok (v, d') -> rtc store_step d d'.
Proof.
  intros Hcon Hs. apply withFence_ok in Hs as (s & a & r & l & Hf & Hcur & Hs); [|done]. cbv beta zeta in Hs. tx_inv Hs.
  match goal with E : requestUserInputInternal _ _ _ _ _ _ = Ok _ |- _ => rename E into Hreq end.
  apply requestUserInput_moved in Hreq as [->|(x & x' & b & b' & row & d1 & ev & Hmv & Hhook & _)];
    [done| |done|intros ? ? ? ?; by eapply Hcur].
  etrans; [apply rtc_once; by eapply ss_moved|].
  eapply waiting_hook_steps; [by eapply moved_consistent| | |exact Hhook].
  - rewrite (mv_runs Hmv). apply lookup_insert_eq.
  - destruct (mv_run_same Hmv) as (-> & _). destruct Hf as [F1 _ _ _ F3 [_ F4] [F5 _]].
    pose proof (mv_run Hmv) as Hx. rewrite F5, F3 in Hx. injection Hx as <-.
    rewrite F4, F5. exact (con_named Hcon _ _ F1).
Qed.

Lemma completeControlDelivery_steps f dbTime item st e ts d v d' :
  Consistent d -> completeControlDelivery f dbTime item st e ts d = Ok (v, d') -> rtc store_step d d'.
Proof.
  intros Hcon Hs. apply withFence_ok in Hs as (s & a & r & l & Hf & Hcur & Hs); [|done]. cbv beta zeta in Hs. tx_inv Hs.
  eapply aside_appendEvent_steps; [done| |exact Hs]. by eapply completeControlItem_aside.
Qed.

Lemma completeSupervisorDecision_steps f dbTime i st e data ts d v d' :
  Consistent d -> completeSupervisorDecision f dbTime i st e data ts d = Ok (v, d') -> rtc store_step d d'.
Proof.
  intros Hcon Hs. apply withFence_ok in Hs as (s & a & r & l & Hf & Hcur & Hs); [|done]. cbv beta zeta in Hs. tx_inv Hs.
  eapply aside_appendEvent_steps; [done| |exact Hs]. done.
Qed.

Lemma createRun_steps sid goal req c skills ts d v d' :
  Consistent d -> createRun sid goal req c skills ts d = Ok (v, d') -> rtc store_step d d'.
Proof.
  intros Hcon Hs. apply createRun_started in Hs as (a & Hst & _); [|done]. apply rtc_once. by eapply ss_started.
Qed.

(** A fenced mutation of other tables. *)
Lemma withFence_aside {A} f dbTime (work : TaskRunExecutionScope -> tx Db A) d v d' :
  Consistent d -> (forall s t, work s d = Ok t -> aside d t.2) -> withFence f dbTime work d = Ok (v, d') ->
  rtc store_step d d'.
Proof.
  intros Hcon Hw Hs. apply withFence_ok in Hs as (s & a & r & l & _ & _ & Hs); [|done].
  apply aside_steps. exact (Hw _ _ Hs).
Qed.
End steps.
