(* ===== verification/ContinuationSteps.v ===== *)
(** The operations on continuations are sequences of the abstract steps: the
    queue and the leases change nothing of the execution state, a claim appends
    its event and starts the next Attempt, a safe crash recovery blocks an
    interrupted TaskRun. *)
From S2P Require Import Prelude Json Attempt ExecDb AttemptRepo RunStore Continuation AttemptSpec StoreSpec AttemptRefine StoreRefine PortSteps.
Local Open Scope tx_scope.

Lemma write_continuation_ok id n d u d' : write_continuation id n d = Ok (u, d') ->
  map_Forall (fun j x => j <> id -> ~ continuations_conflict n x) (continuations d)
  /\ d' = set_continuations (insert id n) d.
Proof. unfold write_continuation. intros Hs. tx_inv Hs. bool_prop. auto. Qed.

Lemma insert_continuation_ok id n d u d' : insert_continuation id n d = Ok (u, d') ->
  continuations d !! id = None /\ map_Forall (fun j x => j <> id -> ~ continuations_conflict n x) (continuations d)
  /\ d' = set_continuations (insert id n) d.
Proof.
  unfold insert_continuation. intros Hs. tx_inv Hs. bool_prop. apply write_continuation_ok in Hs as [? ->]. auto.
Qed.

Lemma update_continuation_ok id p f d n d' : update_continuation id p f d = Ok (n, d') ->
  (exists x, n = 1%Z /\ continuations d !! id = Some x /\ p x = true
     /\ map_Forall (fun j y => j <> id -> ~ continuations_conflict (f x) y) (continuations d)
     /\ d' = set_continuations (insert id (f x)) d)
  \/ n = 0%Z /\ d' = d /\ (forall x, continuations d !! id = Some x -> p x = false).
Proof.
  unfold update_continuation. intros Hs. tx_inv Hs.
  - match goal with E : write_continuation _ _ _ = Ok _ |- _ => apply write_continuation_ok in E as [? ->] end.
    left. eauto 10.
  - right. split_and!; [done|done|]. intros; by simplify_eq.
  - right. split_and!; [done|done|]. intros; by simplify_eq.
Qed.

(** Tables outside the execution state. *)
Lemma set_continuations_aside f d : aside d (set_continuations f d).
Proof. by split. Qed.

Lemma update_continuation_aside id p f d n d' : update_continuation id p f d = Ok (n, d') -> aside d d'.
Proof.
  intros [(x & _ & _ & _ & _ & ->)|(_ & -> & _)]%update_continuation_ok;
    [apply set_continuations_aside|apply aside_refl].
Qed.

Section steps.
Context `{Platform}.

Lemma queueContinuation_aside rid reason nb ts d v d' : queueContinuation rid reason nb ts d = Ok (v, d') -> aside d d'.
Proof.
  unfold queueContinuation. intros Hs. tx_inv Hs.
  match goal with E : randomUUID _ = Ok _ |- _ => apply randomUUID_ok in E as [_ ->] end.
  match goal with E : insert_continuation _ _ _ = Ok _ |- _ => apply insert_continuation_ok in E as (_ & _ & ->) end.
  by split.
Qed.

Lemma renewContinuationLease_aside i o ms ts d v d' : renewContinuationLease i o ms ts d = Ok (v, d') -> aside d d'.
Proof. unfold renewContinuationLease. intros Hs. tx_inv Hs. by eapply update_continuation_aside. Qed.

Lemma updateContinuation_aside i st e o ts d v d' : updateContinuation i st e o ts d = Ok (v, d') -> aside d d'.
Proof. unfold updateContinuation. cbv zeta. intros Hs. tx_inv Hs. by eapply update_continuation_aside. Qed.

Lemma cancelQueuedContinuations_aside rid reason ts d v d' :
  cancelQueuedContinuations rid reason ts d = Ok (v, d') -> aside d d'.
Proof. intros ->%modify_ok. apply set_continuations_aside. Qed.

Lemma reconcile_aside ts d v d' : reconcileSupervisorDecisionStatuses ts d = Ok (v, d') -> aside d d'.
Proof. unfold reconcileSupervisorDecisionStatuses. cbv zeta. intros Hs. tx_inv Hs. by split. Qed.

(** The projection of an Attempt writes Attempts and the audit only. *)
Lemma projectAttempt_keeps {T} (g : Db -> T) rid n tr st sc reason seq ts d u d' :
  (forall f e, g (set_attempts f e) = g e) -> (forall f e, g (set_audit f e) = g e) -> (forall e, g (bump_uuid e) = g e) ->
  projectAttempt rid n tr st sc reason seq ts d = Ok (u, d') -> g d' = g d.
Proof.
  intros Ha Hu Hb. assert (forall a e u e', write_attempt a e = Ok (u, e') -> g e' = g e) as Hw
    by (intros a e ? e' (_ & _ & ->)%write_attempt_ok; apply Ha).
  unfold projectAttempt, update_attempts. intros Hs. apply tx_bind_ok in Hs as (d0 & t & [-> ->]%gets_id_ok & Hs).
  apply tx_bind_ok in Hs as ([] & t0 & H1 & Hs). apply tx_bind_ok in Hs as ([] & t1 & H2 & Hs).
  assert (g t0 = g d) as E0.
  { case_bool_decide; [|by apply mret_ok in H1 as [_ ->]]. apply tx_bind_ok in H1 as (m & t' & [-> ->]%gets_ok & H1).
    eapply (for_each_ind (fun t => g t = g d)) in H1; [done| |done].
    intros x y y' _ Hy Hx. cbv beta in Hx. destruct (_ && _); [|by apply mret_ok in Hx as [_ ->]].
    apply Hw in Hx. congruence. }
  assert (g t1 = g t0) as E1.
  { destruct (attempts d !! _); tx_inv H2.
    - match goal with E : update_attempt _ _ _ _ = Ok _ |- _ => apply update_attempt_ok in E as [(? & _ & _ & _ & _ & _ & ->)|[_ ->]] end;
        [apply Ha|done].
    - by eapply Hw. }
  tx_inv Hs.
  match goal with E : randomUUID _ = Ok _ |- _ => apply randomUUID_ok in E as [_ ->] end. apply insert_audit_ok in Hs as ->.
  rewrite Hu, Hb. congruence.
Qed.

Lemma projectAttempt_frame rid n tr st sc reason seq ts d u d' :
  projectAttempt rid n tr st sc reason seq ts d = Ok (u, d') -> continuations d' = continuations d.
Proof. by apply projectAttempt_keeps. Qed.

(** * Claims *)

(** What a granted claim says of the rows before, and the two steps it is. *)
Record claim_granted (rid owner : string) (leaseMs ts : Z) (d d' : Db) (cid : string) (n n' : ContinuationRow)
    (r r' : RunRow) (ev : RunEvent) : Prop := {
  cg_queued : continuations d !! cid = Some n /\ due rid ts n = true;
  cg_run : runs d !! rid = Some r /\ r_status r = R_blocked /\ session_busy (r_sessionId r) rid d = false;
  cg_row : continuations d' = <[cid := n']> (continuations d)
    /\ n' = attempt_links (claimed_row owner leaseMs ts n) (attempt_id rid (r_attempt r)) (attempt_id rid (r_attempt r + 1));
  cg_next : r' = run_next_attempt r (blocked_phase (r_phase r)) (r_attempt r + 1) (r_lastEventSeq r + 1) ts
    /\ runs d' = <[rid := r']> (runs d);
  cg_event : ev = {| ev_runId := rid; ev_seq := r_lastEventSeq r + 1; ev_type := "continuation.started";
      ev_data := claim_data cid (n_ordinal n) (r_attempt r + 1) owner (ts + leaseMs); ev_createdAt := ts |}
    /\ events d' = <[(rid, (r_lastEventSeq r + 1)%Z) := {| e_attemptId := attempt_id rid (r_attempt r + 1);
         e_type := ev_type ev; e_data := ev_data ev; e_createdAt := ts |}]> (events d);
  cg_others : map_Forall (fun j x => j <> cid -> ~ continuations_conflict n' x) (continuations d);
}.

Lemma sorted_elem {A} (R : A -> A -> Prop) `{!RelDecision R} (p : A -> bool) l x :
  head (merge_sort R (List.filter p l)) = Some x -> x ∈ l /\ p x = true.
Proof.
  intros Hx%head_Some_elem_of. rewrite (merge_sort_Permutation R) in Hx.
  by rewrite list_elem_of_In, filter_In, <- list_elem_of_In in Hx.
Qed.

Lemma claimContinuation_spec rid owner ms ts d v d' :
  Consistent d -> claimContinuation rid owner ms ts d = Ok (v, d') ->
  match v with
  | None => d' = d
  | Some (cid, n', r', ev) => exists n r a dm,
      claim_granted rid owner ms ts d d' cid n n' r r' ev
      /\ aside d (set_continuations (insert cid (claimed_row owner ms ts n)) d)
      /\ moved (set_continuations (insert cid (claimed_row owner ms ts n)) d) dm rid r
           (run_event r (r_lastEventSeq r + 1) ts) a a
           [{| e_attemptId := attempt_id rid (r_attempt r + 1); e_type := ev_type ev; e_data := ev_data ev; e_createdAt := ts |}]
      /\ exists a', started dm d' rid r' a'
  end.
Proof.
  intros Hcon Hs. unfold claimContinuation in Hs.
  apply tx_bind_ok in Hs as (d0 & t & [-> ->]%gets_id_ok & Hs).
  destruct (head _) as [[cid n]|] eqn:Hhead; [|by apply mret_ok in Hs as [-> ->]].
  destruct (runs d !! rid) as [r|] eqn:Hr; [|by apply mret_ok in Hs as [-> ->]].
  destruct (bool_decide (r_status r = R_blocked)) eqn:Hbl; cbn [negb] in Hs; [|by apply mret_ok in Hs as [-> ->]].
  apply bool_decide_eq_true in Hbl.
  destruct (session_busy _ _ _) eqn:Hbusy; [by apply mret_ok in Hs as [-> ->]|].
  apply tx_bind_ok in Hs as (k & t1 & Hup & Hs).
  apply update_continuation_ok in Hup as [(x & -> & Hx & Hp & Huniq & ->)|(-> & -> & _)];
    cbn [Z.eqb negb Pos.eqb] in Hs; [|by apply mret_ok in Hs as [-> ->]].
  apply sorted_elem in Hhead as [Hin Hdue]. apply elem_of_map_to_list in Hin.
  cbn [fst snd] in Hin, Hdue. rewrite Hin in Hx. injection Hx as <-.
  set (d1 := set_continuations (insert cid (claimed_row owner ms ts n)) d) in *. cbv zeta in Hs.
  assert (aside d d1) as Ha by apply set_continuations_aside.
  assert (Consistent d1) as Hc1 by by eapply aside_consistent.
  apply tx_bind_ok in Hs as ([] & t2 & Hev & Hs). apply insert_event_ok in Hev as [Hfree ->].
  apply tx_bind_ok in Hs as (k & t3 & Hrun & Hs).
  rewrite (update_run_run _ _ _ _ r) in Hrun; [injection Hrun as <- <-|exact Hr|by rewrite bool_decide_eq_true_2].
  apply tx_bind_ok in Hs as ([] & t4 & [_ ->]%require_ok & Hs).
  apply tx_bind_ok in Hs as (k & t5 & Hup & Hs).
  apply update_continuation_ok in Hup as [(x & -> & Hx & _ & _ & ->)|(_ & _ & Hno)].
  2: { specialize (Hno (claimed_row owner ms ts n)). cbn in Hno. rewrite lookup_insert_eq in Hno. by specialize (Hno eq_refl). }
  cbn in Hx. rewrite lookup_insert_eq in Hx. injection Hx as <-.
  set (ev := {| e_attemptId := _ |}) in *.
  set (dm := set_runs (insert rid (run_event r (r_lastEventSeq r + 1) ts)) (set_events (insert (rid, (r_lastEventSeq r + 1)%Z) ev) d1)).
  destruct (run_row_moved d1 dm rid r (run_event r (r_lastEventSeq r + 1) ts) [ev] Hc1 Hr) as [a Hmv]; try done.
  apply tx_bind_ok in Hs as ([] & t6 & Hpr & Hs). pose proof Hpr as Hpr0.
  set (r2 := run_next_attempt r (blocked_phase (r_phase r)) (r_attempt r + 1) (r_lastEventSeq r + 1) ts) in *.
  apply (project_started dm _ rid r2) in Hpr as [a' Hst];
    [|by eapply moved_consistent|done|exact (con_run Hcon _ _ Hr)| |cbn; by rewrite insert_insert_eq|done..].
  2: { cbn. rewrite lookup_insert_eq. cbn. by rewrite Hbl. }
  pose proof (st_runs Hst) as Hruns. cbn in Hruns. rewrite insert_insert_eq in Hruns.
  apply projectAttempt_frame in Hpr0.
  pose proof (st_runs Hst) as Hruns2. pose proof (st_events Hst) as Hevents. tx_inv Hs.
  match goal with E : continuations _ !! cid = Some ?y, E2 : runs _ !! rid = Some ?z |- _ =>
    rewrite Hpr0 in E; cbn in E; rewrite lookup_insert_eq in E; injection E as <-;
    rewrite Hruns in E2; rewrite lookup_insert_eq in E2; injection E2 as <- end.
  exists n, r, a, dm. split; [|split; [done|split; [exact Hmv|eauto]]].
  split; cbn; try done.
  - rewrite Hpr0. cbn. rewrite insert_insert_eq. split; [done|]. by replace (r_attempt r + 1 - 1)%Z with (r_attempt r) by lia.
Qed.

Lemma claimContinuation_steps rid owner ms ts d v d' :
  Consistent d -> claimContinuation rid owner ms ts d = Ok (v, d') -> rtc store_step d d'.
Proof.
  intros Hcon Hs. apply claimContinuation_spec in Hs; [|done]. destruct v as [[[[cid n'] r'] ev]|]; [|by subst].
  destruct Hs as (n & r & a & dm & _ & Ha & Hm & a' & Hst).
  etrans; [by apply aside_steps|]. eapply rtc_l; [by eapply ss_moved|]. apply rtc_once. by eapply ss_started.
Qed.

(** * Safe crash recovery *)

(** The row of a query is the current row of an interrupted TaskRun. *)
Definition recoverable_in (t : Db) (i : Interrupted) : Prop :=
  runs t !! i.1.1 = Some i.1.2 /\ r_status i.1.2 = R_interrupted.

Lemma insert_continuation_aside i n d u d' : insert_continuation i n d = Ok (u, d') -> aside d d'.
Proof. intros (_ & _ & ->)%insert_continuation_ok. apply set_continuations_aside. Qed.

Lemma interrupted_current d rid r a : Consistent d -> runs d !! rid = Some r -> r_status r = R_interrupted ->
  attempts d !! attempt_id rid (r_attempt r) = Some a -> a_status a = A_interrupted.
Proof.
  intros Hcon Hr Hst Ha. pose proof (con_current Hcon _ _ r Ha) as Hc.
  destruct (current_attempt _ _ _ Hcon Hr) as (b & Hb & _ & B1 & B2). rewrite Ha in Hb. injection Hb as <-.
  rewrite B1 in Hc. specialize (Hc Hr (eq_sym B2)). destruct (a_active a); [congruence|]. by rewrite Hc, Hst.
Qed.

Lemma recover_run_moved clock i d v d' :
  Consistent d -> recoverable_in d i -> recover_run clock i d = Ok (v, d') ->
  exists r' a a' row, moved d d' i.1.1 i.1.2 r' a a' [row] /\ r_status r' = R_blocked.
Proof.
  destruct i as [[rid r] [s x]]. intros Hcon [Hr Hst] Hs. cbn in Hr, Hst |- *.
  unfold recover_run, deactivate_checkpoint in Hs. tx_inv Hs.
  match goal with E : randomUUID _ = Ok _ |- _ => apply randomUUID_ok in E as [-> ->] end.
  match goal with E : insert_continuation _ _ _ = Ok _ |- _ => apply insert_continuation_ok in E as (_ & _ & ->) end.
  store_inv. bool_prop. run_inv. project_inv Hcon Hr.
  do 4 eexists. split; [moved_with|done].
  rewrite A1 in Ha. rewrite (interrupted_current _ _ _ _ Hcon Hr Hst Ha). apply (bool_decide_unpack _). vm_compute. done.
Qed.

Lemma recover_other t t' r r' a a' row i x :
  Consistent t -> recoverable_in t x -> x.1.1 <> i -> moved t t' i r r' a a' [row] -> recoverable_in t' x.
Proof. intros Hcon [Hx Hst] Hne Hm. split; [|done]. by rewrite (mv_runs Hm), lookup_insert_ne. Qed.

Lemma recover_runs_steps clock l d v d' :
  Consistent d -> NoDup (map (fun i : Interrupted => i.1.1) l) -> Forall (recoverable_in d) l ->
  map_tx (recover_run clock) l d = Ok (v, d') -> rtc store_step d d'.
Proof.
  revert d v. induction l as [|i l IH]; intros d v Hcon Hnd Hl Hs; cbn in Hs.
  - by apply mret_ok in Hs as [_ ->].
  - apply tx_bind_ok in Hs as (y & t & H1 & Hs). apply tx_bind_ok in Hs as (ys & t' & H2 & [_ ->]%mret_ok).
    apply NoDup_cons in Hnd as [Hi Hnd]. apply Forall_cons in Hl as [Hir Hl].
    destruct (recover_run_moved _ _ _ _ _ Hcon Hir H1) as (r' & a & a' & row & Hm & _).
    etrans; [apply rtc_once; by eapply ss_moved|]. eapply (IH t); [by eapply moved_consistent|done| |exact H2].
    rewrite Forall_forall in Hl |- *. intros x Hx. eapply recover_other; [exact Hcon|by apply Hl| |exact Hm].
    intros E. apply Hi. rewrite <- E. apply list_elem_of_fmap. eauto.
Qed.

(** The TaskRuns a query selects are distinct. *)
Lemma omap_keys_nodup {K A B} (f : K * A -> option B) (g : B -> K) (l : list (K * A)) :
  NoDup l.*1 -> (forall kx y, f kx = Some y -> g y = kx.1) -> NoDup (map g (omap f l)).
Proof.
  intros Hnd Hf. induction l as [|kx l IH]; cbn; [constructor|]. apply NoDup_cons in Hnd as [Hk Hnd].
  destruct (f kx) as [y|] eqn:Hy; [|by apply IH]. cbn. apply NoDup_cons. split; [|by apply IH].
  rewrite (Hf _ _ Hy). intros (z & Ez & Hz)%list_elem_of_fmap. apply list_elem_of_omap in Hz as (kx' & Hin & Hy').
  apply Hk. rewrite Ez, (Hf _ _ Hy'). apply list_elem_of_fmap. eauto.
Qed.

Lemma recovery_candidates_ok k d : Consistent d ->
  NoDup (map (fun i : Interrupted => i.1.1) (recovery_candidates k d)) /\ Forall (recoverable_in d) (recovery_candidates k d).
Proof.
  intros Hcon. unfold recovery_candidates. split.
  - rewrite (merge_sort_Permutation by_interruption). apply omap_keys_nodup; [apply NoDup_fst_map_to_list|].
    intros kx y Hy. destruct (safe_to_recover _ _ _ _); [|done]. by apply fmap_Some in Hy as (z & _ & ->).
  - rewrite Forall_forall. intros i. rewrite (merge_sort_Permutation by_interruption).
    intros ([rid r] & Hin & Hi)%list_elem_of_omap. apply elem_of_map_to_list in Hin.
    destruct (safe_to_recover _ _ _ _) eqn:Hsafe; [|done]. apply fmap_Some in Hi as (z & _ & ->).
    unfold safe_to_recover in Hsafe. bool_prop. split; [exact Hin|]. done.
Qed.

Lemma queueSafeCrashRecovery_steps k clock d v d' :
  Consistent d -> queueSafeCrashRecoveryContinuations k clock d = Ok (v, d') -> rtc store_step d d'.
Proof.
  intros Hcon Hs. unfold queueSafeCrashRecoveryContinuations in Hs. tx_inv Hs.
  destruct (recovery_candidates_ok k d Hcon) as [H1 H2]. by eapply recover_runs_steps.
Qed.

(** * The hand-off to another release *)

Lemma recordGenerationActivationResult_steps res ts d v d' :
  Consistent d -> recordGenerationActivationResult res ts d = Ok (v, d') -> rtc store_step d d'.
Proof.
  intros Hcon Hs. unfold recordGenerationActivationResult in Hs. cbv zeta in Hs. tx_inv Hs; try done.
  match goal with E : insert_event ?rid ?seq ?row _ = Ok (?u, ?t), Hr : runs _ !! ?rid = Some ?x |- _ =>
    eapply (appendEvent_steps rid (e_type row) (e_data row) ts d _ _ Hcon);
    unfold appendEvent, mbind, tx_mbind, gets, id; rewrite Hr; cbn [present]; unfold mret, tx_mret; cbn in E |- *; rewrite E; reflexivity end.
Qed.

(** * Calls that take steps in time

    The recovery and the release of continuation leases and the hand-off block a
    TaskRun whatever became of its Attempt, and the input request without a
    fence asks for a TaskRun whose Attempt may be settling. In time the TaskRun
    is not over and its Attempt, when it is active, is running. *)
Definition open_to (statuses : list RunStatus) (d : Db) (rid : string) : bool :=
  match runs d !! rid with
  | Some r => includes (r_status r) statuses
      && match attempts d !! attempt_id rid (r_attempt r) with Some a => implb (a_active a) (bool_decide (a_status a = A_running)) | None => true end
  | None => true
  end.

(** Blocking an Attempt that is not settling nor over is a move. *)
Lemma open_movable d rid statuses r a : Consistent d -> Forall (fun s => includes s [R_running; R_interrupted; R_blocked; R_failed] = true) statuses ->
  runs d !! rid = Some r -> attempts d !! attempt_id rid (r_attempt r) = Some a -> open_to statuses d rid = true ->
  movable (a_status a) A_blocked /\ (r_status r = R_running -> a_status a = A_running).
Proof.
  intros Hcon Hall Hr Ha Ho. unfold open_to in Ho. rewrite Hr, Ha in Ho. apply andb_true_iff in Ho as [Hin Hns].
  assert (includes (r_status r) [R_running; R_interrupted; R_blocked; R_failed] = true) as Hst.
  { rewrite Forall_forall in Hall. apply Hall. unfold includes in Hin. by apply bool_decide_eq_true in Hin. }
  pose proof (con_current Hcon _ _ r Ha) as Hc.
  destruct (current_attempt _ _ _ Hcon Hr) as (b & Hb & _ & B1 & B2). rewrite Ha in Hb. injection Hb as <-.
  rewrite B1 in Hc. specialize (Hc Hr (eq_sym B2)). pose proof (attempt_check_active a (proj2 (con_attempt Hcon _ _ Ha))) as Hact.
  destruct (a_active a) eqn:Ea; rewrite ?Ea in Hc, Hact, Hns.
  - assert (a_status a = A_running) as -> by (by apply bool_decide_eq_true in Hns).
    split; [apply (bool_decide_unpack _); by vm_compute|done].
  - rewrite Hc. split; [|intros E; rewrite E in Hc; rewrite Hc in Hact; done].
    rewrite Hc in Hact. destruct (r_status r); try done; apply (bool_decide_unpack _); by vm_compute.
Qed.

Definition blockable : Db -> string -> bool := open_to [R_running; R_interrupted; R_blocked].

Lemma block_run_moved rid reason ts d x v d' : Consistent d -> runs d !! rid = Some x -> blockable d rid = true ->
  block_run rid reason (r_attempt x) (r_lastEventSeq x) ts d = Ok (v, d') ->
  exists x' a a', moved d d' rid x x' a a' [] /\ r_status x' = R_blocked /\ a_status a' = A_blocked.
Proof.
  intros Hcon Hr Hb Hs. pose proof Hb as Hb0. unfold blockable, open_to in Hb. rewrite Hr in Hb. apply andb_true_iff in Hb as [Hst _].
  unfold block_run, deactivate_checkpoint in Hs. tx_inv Hs. store_inv.
  match goal with E : update_run _ _ _ _ = Ok _ |- _ => destruct (update_run_present _ _ _ _ _ _ _ Hr Hst E) as [_ ->] end.
  project_inv Hcon Hr. do 3 eexists. split; [moved_with; [split_and!; [done|lia|done]|]|done].
  rewrite A1 in Ha. eapply (open_movable _ _ [R_running; R_interrupted; R_blocked]); [exact Hcon|by repeat constructor|exact Hr|exact Ha|exact Hb0].
Qed.

(** The item of a query in a later state: its TaskRun is at the Attempt and the
    event the query read, and it can still be blocked. *)
Definition item_open (t : Db) (n : ContinuationRow) (r : RunRow) : Prop :=
  (exists x, runs t !! n_runId n = Some x /\ r_attempt x = r_attempt r /\ r_lastEventSeq x = r_lastEventSeq r)
  /\ blockable t (n_runId n) = true.

Lemma aside_item_open t t' n r : Consistent t -> aside t t' -> item_open t n r -> item_open t' n r.
Proof.
  intros Hcon Ha ((x & Hx & E1 & E2) & Hb). unfold item_open, blockable, open_to in *. rewrite Hx in Hb.
  pose proof (as_runs _ _ Ha (n_runId n)) as Hk. rewrite Hx in Hk. cbn in Hk. apply fmap_Some in Hk as (y & Hy & E).
  injection E as E3 E4 E5 E6. rewrite Hy, (as_attempts _ _ Ha), <- E4, <- E5. split; [|done]. exists y. split_and!; congruence.
Qed.

Lemma blocked_item_open t t' rid x x' a a' n r : Consistent t -> moved t t' rid x x' a a' [] ->
  r_status x' = R_blocked -> a_status a' = A_blocked -> item_open t n r -> item_open t' n r.
Proof.
  intros Hcon Hm Hst Has ((y & Hy & E1 & E2) & Hb). unfold item_open, blockable, open_to in *. rewrite Hy in Hb.
  destruct (mv_run_same Hm) as (R1 & R2 & _), (mv_current Hm) as [C1 C2]. cbn in R2.
  rewrite (mv_runs Hm), (mv_attempts Hm). destruct (decide (rid = n_runId n)) as [E|E].
  - rewrite E, lookup_insert_eq. pose proof (mv_run Hm) as Hx. rewrite E, Hy in Hx. injection Hx as <-.
    split; [exists x'; split_and!; [done|congruence|lia]|]. rewrite Hst.
    assert (attempt_id (n_runId n) (r_attempt x') = a_id a) as ->.
    { rewrite (con_named Hcon _ _ (mv_attempt Hm)). congruence. }
    rewrite lookup_insert_eq. pose proof (attempt_check_active a' (mv_check Hm)) as Hact. by rewrite Hact, Has.
  - rewrite lookup_insert_ne, Hy by done. split; [eauto|].
    rewrite lookup_insert_ne; [done|]. rewrite (con_named Hcon _ _ (mv_attempt Hm)). intros [E3 _]%attempt_id_inj. congruence.
Qed.

(** One item: its row goes back to the queue, its TaskRun is blocked. *)
Lemma block_item_steps n r reason ts d t v d' : Consistent d -> aside d t -> item_open d n r ->
  block_run (n_runId n) reason (r_attempt r) (r_lastEventSeq r) ts t = Ok (v, d') ->
  rtc store_step d d' /\ forall m s, item_open d m s -> item_open d' m s.
Proof.
  intros Hcon Ha Hi Hs. pose proof (aside_consistent _ _ Hcon Ha) as Hct.
  destruct (aside_item_open _ _ _ _ Hcon Ha Hi) as ((x & Hx & E1 & E2) & Hb). rewrite <- E1, <- E2 in Hs.
  destruct (block_run_moved _ _ _ _ _ _ _ Hct Hx Hb Hs) as (x' & a & a' & Hm & S1 & S2). split.
  - etrans; [by apply aside_steps|]. apply rtc_once. by eapply ss_moved.
  - intros m s Hms. eapply blocked_item_open; eauto using aside_item_open.
Qed.

(** An item a call passes over or can block. *)
Definition item_fits (t : Db) (i : string * ContinuationRow * RunRow) : Prop := n_status i.1.2 = N_queued \/ item_open t i.1.2 i.2.

Definition item_step (i : string * ContinuationRow * RunRow) (m : tx Db unit) : Prop := forall t v t',
  Consistent t -> item_fits t i -> m t = Ok (v, t') -> rtc store_step t t' /\ forall n r, item_open t n r -> item_open t' n r.

(** A loop over the items of a query. *)
Lemma items_steps (f : string * ContinuationRow * RunRow -> tx Db unit) l d u d' :
  (forall i, i ∈ l -> item_step i (f i)) -> Consistent d -> Forall (item_fits d) l -> for_each f l d = Ok (u, d') -> rtc store_step d d'.
Proof.
  revert d. induction l as [|i l IH]; intros d Hf Hcon Hl Hs; cbn in Hs; [by apply mret_ok in Hs as [_ ->]|].
  apply tx_bind_ok in Hs as ([] & t & H1 & H2). apply Forall_cons in Hl as [Hi Hl].
  destruct (Hf i (list_elem_of_here _ _) d _ t Hcon Hi H1) as [Hst Hkeep]. etrans; [exact Hst|].
  apply (IH t); [intros; apply Hf; by apply list_elem_of_further|by eapply steps_consistent| |exact H2].
  eapply Forall_impl; [exact Hl|]. intros j [Hj|Hj]; [by left|right; by apply Hkeep].
Qed.

Lemma joined_run p d i n r : ((i, n), r) ∈ joined p d -> runs d !! n_runId n = Some r.
Proof. unfold joined. intros ([j m] & _ & Hx)%list_elem_of_omap. apply fmap_Some in Hx as (y & Hy & [= -> -> ->]). exact Hy. Qed.

(** The calls that end leases, in time. *)
Definition fits (d : Db) (i : string * ContinuationRow * RunRow) : bool :=
  bool_decide (n_status i.1.2 = N_queued) || blockable d (n_runId i.1.2).

Definition due_recovery (timestamp : Z) (n : ContinuationRow) : bool :=
  bool_decide (n_status n = N_queued) && (n_notBefore n <=? timestamp)%Z
  || bool_decide (n_status n = N_running) && match n_leaseUntil n with None => true | Some t => (t <=? timestamp)%Z end.

Definition recovery_timely (timestamp : Z) (d : Db) : bool := forallb (fits d) (joined (fun _ n => due_recovery timestamp n) d).
Definition release_timely (p : string -> ContinuationRow -> bool) (d : Db) : bool := forallb (fits d) (joined p d).

Lemma joined_fits p d : forallb (fits d) (joined p d) = true -> Forall (item_fits d) (joined p d).
Proof.
  rewrite forallb_forall, Forall_forall. intros Hb [[i n] r] Hi.
  specialize (Hb _ (proj1 (list_elem_of_In _ _) Hi)). apply orb_true_iff in Hb as [Hq|Hb]; [left; by apply bool_decide_eq_true in Hq|right].
  split; [|done]. exists r. split; [by eapply joined_run|done].
Qed.

Lemma recover_one_step ts i : item_step i (recover_one ts i).
Proof.
  destruct i as [[i n] r]. intros t v t' Hcon Hi Hs. unfold recover_one in Hs. cbn [fst snd] in *.
  case_bool_decide as Hq; [by apply mret_ok in Hs as [_ ->]|]. destruct Hi as [Hi|Hi]; [done|].
  apply tx_bind_ok in Hs as (k & t1 & H1 & Hs). by eapply block_item_steps, Hs; [|eapply update_continuation_aside|].
Qed.

Lemma release_one_step o e ts i : n_status i.1.2 <> N_queued -> item_step i (release_one o e ts i).
Proof.
  destruct i as [[i n] r]. intros Hq t v t' Hcon Hi Hs. unfold release_one in Hs. cbn [fst snd] in *. destruct Hi as [Hi|Hi]; [done|].
  apply tx_bind_ok in Hs as (k & t1 & H1 & Hs). by eapply block_item_steps, Hs; [|eapply update_continuation_aside|].
Qed.

Lemma joined_where p d i : i ∈ joined p d -> p i.1.1 i.1.2 = true.
Proof.
  destruct i as [[i n] r]. unfold joined, continuations_where. intros ([j m] & Hin & Hx)%list_elem_of_omap.
  apply fmap_Some in Hx as (y & _ & [= -> -> ->]). rewrite (merge_sort_Permutation by_creation) in Hin.
  rewrite list_elem_of_In, filter_In in Hin. apply Hin.
Qed.

Lemma recoverContinuations_steps ts d v d' : Consistent d -> recovery_timely ts d = true ->
  recoverContinuationsAfterRestart ts d = Ok (v, d') -> rtc store_step d d'.
Proof.
  intros Hcon Ht Hs. unfold recoverContinuationsAfterRestart in Hs. tx_inv Hs.
  eapply items_steps; [|exact Hcon|by apply joined_fits|eassumption]. intros. apply recover_one_step.
Qed.

Lemma releaseContinuationLeases_steps o e ts d v d' : Consistent d -> release_timely (fun _ n => leased_to o n) d = true ->
  releaseContinuationLeases o e ts d = Ok (v, d') -> rtc store_step d d'.
Proof.
  intros Hcon Ht Hs. unfold releaseContinuationLeases in Hs. tx_inv Hs.
  eapply items_steps; [|exact Hcon|by apply joined_fits|eassumption]. intros i Hi. apply release_one_step.
  apply joined_where in Hi. unfold leased_to in Hi. bool_prop. congruence.
Qed.

Lemma releaseContinuationLease_steps i o e ts d v d' :
  Consistent d -> release_timely (fun j n => String.eqb j i && leased_to o n) d = true ->
  releaseContinuationLease i o e ts d = Ok (v, d') -> rtc store_step d d'.
Proof.
  intros Hcon Ht Hs. unfold releaseContinuationLease in Hs. apply tx_bind_ok in Hs as (l & t & [-> ->]%gets_ok & Hs).
  unfold release_timely in Ht. pose proof (joined_fits _ _ Ht) as Hl.
  pose proof (joined_where (fun j n => String.eqb j i && leased_to o n) d) as Hw.
  destruct (joined _ d) as [|[[cid n] r] items]; [by apply mret_ok in Hs as [_ ->]|].
  specialize (Hw _ (list_elem_of_here _ _)). cbn in Hw. unfold leased_to in Hw. bool_prop.
  apply Forall_cons in Hl as [[Hq|Hi] _]; [cbn in Hq; congruence|].
  apply tx_bind_ok in Hs as (k & t & Hup & Hs). apply update_continuation_aside in Hup.
  destruct (negb _); [apply mret_ok in Hs as [_ ->]; by apply aside_steps|].
  apply tx_bind_ok in Hs as (u & t1 & Hbl & [_ ->]%mret_ok). eapply block_item_steps; eassumption.
Qed.

(** The input request without a fence. *)
Definition input_timely (rid : string) (d : Db) : bool :=
  match runs d !! rid with
  | Some r => match attempts d !! attempt_id rid (r_attempt r) with Some a => implb (a_active a) (bool_decide (a_status a = A_running)) | None => true end
  | None => true
  end.

Lemma requestUserInput_steps rid prompt fields ts d v d' : Consistent d -> input_timely rid d = true ->
  requestUserInput rid prompt fields ts d = Ok (v, d') -> rtc store_step d d'.
Proof.
  intros Hcon Ht Hs. unfold requestUserInput in Hs. pose proof Hs as Hs0. unfold requestUserInputInternal in Hs0.
  apply tx_bind_ok in Hs0 as (d0 & t & [-> ->]%gets_id_ok & Hs0). apply tx_bind_ok in Hs0 as (r & t & [Hr ->]%present_ok & Hs0).
  apply tx_bind_ok in Hs0 as (u & t & [Hrun ->]%require_ok & _). apply bool_decide_eq_true in Hrun.
  apply requestUserInput_moved in Hs as [->|(x & x' & a & a' & row & d1 & ev & Hm & Hh & _)]; [done| |done|].
  - apply mret_ok in Hh as [_ ->]. apply rtc_once. by eapply ss_moved.
  - intros a x Hx Ha. assert (open_to [R_running] d rid = true) as Ho.
    { unfold open_to. unfold input_timely in Ht. rewrite Hx, Ha in Ht |- *. rewrite Hr in Hx. injection Hx as <-. by rewrite Hrun, Ht. }
    assert (x = r) as -> by congruence. eapply (open_movable _ _ [R_running]); [exact Hcon|by repeat constructor|exact Hr|exact Ha|exact Ho|exact Hrun].
Qed.

(** The hand-off of a TaskRun. *)
Definition handoff_timely (request : GenerationActivationRequest) (d : Db) : bool :=
  open_to [R_running; R_interrupted; R_blocked; R_failed] d (ga_runId request).

Lemma handoff_continuation_aside request ts d v d' : handoff_continuation request ts d = Ok (v, d') -> aside d d'.
Proof.
  unfold handoff_continuation. intros Hs. apply tx_bind_ok in Hs as (d0 & t & [-> ->]%gets_id_ok & Hs).
  destruct (head _) as [[cid n]|].
  - apply tx_bind_ok in Hs as (u & t & H1 & [_ ->]%mret_ok). case_bool_decide; [|apply mret_ok in H1 as [_ ->]; apply aside_refl].
    apply tx_bind_ok in H1 as (k & t1 & H1 & [_ ->]%mret_ok). by eapply update_continuation_aside.
  - apply tx_bind_ok in Hs as (c & t & [_ ->]%randomUUID_ok & Hs). apply tx_bind_ok in Hs as (u & t & (_ & _ & ->)%insert_continuation_ok & [_ ->]%mret_ok).
    by split.
Qed.

Lemma prepareGenerationHandoff_steps request c ts d v d' : Consistent d -> handoff_timely request d = true ->
  prepareGenerationHandoff request c ts d = Ok (v, d') -> rtc store_step d d'.
Proof.
  intros Hcon Ht Hs. unfold prepareGenerationHandoff, deactivate_checkpoint in Hs. cbv zeta in Hs. tx_inv Hs; [done|].
  match goal with E : handoff_continuation _ _ _ = Ok _ |- _ => apply handoff_continuation_aside in E as Ha0 end.
  match goal with E : runs d !! _ = Some ?x |- _ => rename E into Hr; rename x into x end.
  pose proof (as_runs _ _ Ha0 (ga_runId request)) as Hk. rewrite Hr in Hk. cbn in Hk. apply fmap_Some in Hk as (y & Hy & Ey).
  injection Ey as F1 F2 F3 F4. match type of Ha0 with aside _ ?t => set (th := t) in * end.
  assert (Consistent th) as Hc0 by (by eapply aside_consistent).
  assert (open_to [R_running; R_interrupted; R_blocked; R_failed] th (ga_runId request) = true) as Ho.
  { unfold handoff_timely, open_to in *. rewrite Hr in Ht. by rewrite Hy, (as_attempts _ _ Ha0), <- F2, <- F3. }
  etrans; [by apply aside_steps|]. apply rtc_once. rewrite F3, F4 in *.
  store_inv. clearbody th.
  match goal with E : update_run _ _ _ _ = Ok _ |- _ =>
    eapply update_run_present in E as [_ E]; [|cbn; exact Hy|done] end.
  subst.
  project_inv Hc0 Hy. eapply (ss_moved _ _ (ga_runId request) y _ a _ [_]). moved_with.
  rewrite A1 in Ha. eapply (open_movable _ _ [R_running; R_interrupted; R_blocked; R_failed]);
    [exact Hc0|by repeat constructor|exact Hy|exact Ha|exact Ho].
Qed.
End steps.
