(* ===== verification/PortTrace.v ===== *)
(** Schedules of calls to the ports of the execution tables that take steps of
    the lifecycle from every consistent state: the Attempt repository, the
    transition authority, the fenced runtime mutations and the calls without a
    fence, the creation of TaskRuns, user input, the mailbox and the
    continuations. The calls that do so only in time (the recovery and the
    release of continuation leases, the input request without a fence, the
    hand-off to another release), the plan, the inbox and the goals join them
    in the schedules of PortHistory.v. *)
From S2P Require Import Prelude Json TaskPolicy Attempt ExecDb Canonical AttemptRepo RunStore Transcript Continuation Transition Tools Mailbox RuntimeMutation AttemptSpec StoreSpec Demo AttemptRefine StoreRefine AttemptTrace PortSteps ContinuationSteps.
Local Open Scope tx_scope.

(** A call the runtime makes under its fence. *)
Inductive FencedCall :=
  | FTransition (command : json)
  | FAppendEvent (type : string) (data : json)
  | FAppendTranscript (message : json)
  | FSetRunPhase (phase : RunPhase)
  | FAdvanceRunPhase (phase : RunPhase)
  | FRequestUserInput (prompt : string) (fields : list UserInputField) (toolCallId : string)
  | FUpsertCheckpoint (active : bool) (assistantPartial currentTool : string) (lastEventSeq lastTranscriptSeq : Z)
  | FClaimOperation (id operationType : string) (payload : json)
  | FUpdateOperation (id : string) (u : OperationUpdate)
  | FRecordToolAttempt (toolCallId toolName : string) (args : json)
  | FCompleteToolAttempt (toolCallId : string) (success : bool) (error : string)
  | FCompleteControl (itemId : string) (status : ControlStatus) (error : string)
  | FCompleteDecision (decisionId : string) (status : DecisionStatus) (error : string) (data : list (string * json)).

Inductive PortOp :=
  | Repo (o : RepoOp)
  | Fenced (f : TaskRunExecutionFence) (dbTime timestamp : Z) (c : FencedCall)
  | System (command authority : json) (timestamp : Z)
  | CreateRun (sessionId goal requestId : string) (contract : option Contract) (skills : list SkillRevision) (timestamp : Z)
  | SubmitInput (requestId : string) (response : list (string * string)) (timestamp : Z)
  | ClaimCommand (principalId taskRunId commandId commandType : string) (payload : json) (target : option string)
      (provenance : list (string * json)) (requestId : string) (timestamp : Z)
  | SettleCommand (principalId taskRunId commandId : string) (state : CommandState) (result error : list (string * json))
      (timestamp : Z)
  | ClaimConsumer (runId consumerId : string) (timestamp : Z)
  | AckConsumer (runId consumerId : string) (generation seq timestamp : Z)
  | EnqueueControl (runId requestId : string) (kind : ControlKind) (content : string) (capacity timestamp : Z)
  | ClaimControl (runId : string) (attempt timestamp : Z)
  | QueueContinuation (runId reason : string) (notBefore timestamp : Z)
  | ClaimContinuation (runId owner : string) (leaseMs timestamp : Z)
  | RenewContinuation (id owner : string) (leaseMs timestamp : Z)
  | UpdateContinuation (id : string) (status : ContinuationStatus) (error : string) (owner : option string) (timestamp : Z)
  | CancelContinuations (runId reason : string) (timestamp : Z)
  | RecoverCrashed (maxRecoveries : Z) (clock : string -> Z)
  | ReconcileDecisions (timestamp : Z)
  | RepairTranscript (runId : string) (reason : RepairReason) (timestamp : Z)
  | AppendEvent (runId type : string) (data : json) (timestamp : Z)
  | AppendTranscript (runId : string) (attempt : Z) (message : json) (timestamp : Z)
  | SetRunPhase (runId : string) (phase : RunPhase) (timestamp : Z)
  | AdvanceRunPhase (runId : string) (phase : RunPhase) (timestamp : Z)
  | UpsertCheckpoint (runId : string) (attempt : Z) (active : bool) (assistantPartial currentTool : string)
      (lastEventSeq lastTranscriptSeq : Z) (timestamp : Z)
  | ClaimOperation (id runId : string) (attempt : Z) (operationType : string) (payload : json) (timestamp : Z)
  | UpdateOperation (id : string) (u : OperationUpdate) (timestamp : Z)
  | RecordToolAttempt (runId : string) (attempt : Z) (toolCallId toolName : string) (args : json) (timestamp : Z)
  | CompleteToolAttempt (runId : string) (attempt : Z) (toolCallId : string) (success : bool) (error : string) (timestamp : Z)
  | CompleteControl (itemId : string) (status : ControlStatus) (error : string) (timestamp : Z)
  | RecordActivation (result : GenerationActivationResult) (timestamp : Z).

Section ports.
Context `{Platform}.

Definition forget {A} (m : tx Db A) : tx Db unit := do* m in mret tt.

Definition run_fenced (f : TaskRunExecutionFence) (dbTime ts : Z) (c : FencedCall) : tx Db unit :=
  match c with
  | FTransition command => forget (transitionRuntime command f dbTime ts)
  | FAppendEvent type data => forget (fencedAppendEvent f dbTime type data ts)
  | FAppendTranscript m => forget (fencedAppendTranscript f dbTime m ts)
  | FSetRunPhase phase => forget (fencedSetRunPhase f dbTime phase ts)
  | FAdvanceRunPhase phase => forget (fencedAdvanceRunPhase f dbTime phase ts)
  | FRequestUserInput prompt fields call => forget (fencedRequestUserInput f dbTime prompt fields call ts)
  | FUpsertCheckpoint a p t e tr => forget (fencedUpsertCheckpoint f dbTime a p t e tr ts)
  | FClaimOperation i ty p => forget (fencedClaimOperation f dbTime i ty p ts)
  | FUpdateOperation i u => forget (fencedUpdateOperation f dbTime i u ts)
  | FRecordToolAttempt call name args => forget (fencedRecordToolAttempt f dbTime call name args ts)
  | FCompleteToolAttempt call ok e => forget (fencedCompleteToolAttempt f dbTime call ok e ts)
  | FCompleteControl i st e => forget (completeControlDelivery f dbTime i st e ts)
  | FCompleteDecision i st e data => forget (completeSupervisorDecision f dbTime i st e data ts)
  end.

Definition run_port (o : PortOp) : tx Db unit :=
  match o with
  | Repo o => run_op o
  | Fenced f dbTime ts c => run_fenced f dbTime ts c
  | System c a ts => forget (transitionSystem c a ts)
  | CreateRun s g q c k ts => forget (createRun s g q c k ts)
  | SubmitInput q r ts => forget (submitUserInput q r ts)
  | ClaimCommand p r c ty pl tg pr rq ts => forget (claimTaskRunCommand p r c ty pl tg pr rq ts)
  | SettleCommand p r c st res e ts => forget (settleTaskRunCommand p r c st res e ts)
  | ClaimConsumer r c ts => forget (claimEventConsumer r c ts)
  | AckConsumer r c g s ts => forget (ackEventConsumer r c g s ts)
  | EnqueueControl r q k c cap ts => forget (enqueueControl r q k c cap ts)
  | ClaimControl r n ts => forget (claimControlItem r n ts)
  | QueueContinuation r e nb ts => forget (queueContinuation r e nb ts)
  | ClaimContinuation r o ms ts => forget (claimContinuation r o ms ts)
  | RenewContinuation i o ms ts => forget (renewContinuationLease i o ms ts)
  | UpdateContinuation i st e o ts => forget (updateContinuation i st e o ts)
  | CancelContinuations r e ts => forget (cancelQueuedContinuations r e ts)
  | RecoverCrashed k clock => forget (queueSafeCrashRecoveryContinuations k clock)
  | ReconcileDecisions ts => forget (reconcileSupervisorDecisionStatuses ts)
  | RepairTranscript r k ts => forget (repairTranscript r k ts)
  | AppendEvent r ty data ts => forget (appendEvent r ty data ts)
  | AppendTranscript r n m ts => forget (appendTranscript r n m ts)
  | SetRunPhase r p ts => forget (setRunPhase r p ts)
  | AdvanceRunPhase r p ts => forget (advanceRunPhase r p ts)
  | UpsertCheckpoint r n a p t e tr ts => forget (upsertCheckpoint r n a p t e tr ts)
  | ClaimOperation i r n ty p ts => forget (claimOperation i r n ty p ts)
  | UpdateOperation i u ts => forget (updateOperation i u ts)
  | RecordToolAttempt r n c name args ts => forget (recordToolAttempt r n c name args ts)
  | CompleteToolAttempt r n c ok e ts => forget (completeToolAttempt r n c ok e ts)
  | CompleteControl i st e ts => forget (completeControlItem i st e ts)
  | RecordActivation res ts => forget (recordGenerationActivationResult res ts)
  end.

(** A call that throws rolls back. *)
Definition call (d : Db) (o : PortOp) : Db :=
  match run_port o d with Ok (_, d') => d' | Throw _ => d end.

Definition calls (ops : list PortOp) (d : Db) : Db := fold_left call ops d.

(** * Every call is a sequence of abstract steps *)

Lemma forget_ok {A} (m : tx Db A) d u d' : forget m d = Ok (u, d') -> exists v, m d = Ok (v, d').
Proof. apply run_op_ok. Qed.

Lemma run_fenced_steps f dbTime ts c d u d' : Consistent d -> run_fenced f dbTime ts c d = Ok (u, d') -> rtc store_step d d'.
Proof.
  intros Hcon Hs. destruct c; apply forget_ok in Hs as [v Hs];
    eauto using transitionRuntime_steps, fencedRequestUserInput_steps, completeControlDelivery_steps,
      completeSupervisorDecision_steps.
  1: apply withFence_ok in Hs as (s & a & r & l & _ & _ & Hs); [by eapply appendEvent_steps|done].
  all: eapply withFence_aside; [done| |exact Hs]; intros s [w t] Hw; cbn in Hw |- *;
    eauto using setRunPhase_aside, advanceRunPhase_aside, upsertCheckpoint_aside, claimOperation_aside,
      recordToolAttempt_aside, completeToolAttempt_aside, appendTranscript_aside.
  cbv beta in Hw. tx_inv Hw. by eapply updateOperation_aside.
Qed.

Lemma call_steps d o : Consistent d -> rtc store_step d (call d o).
Proof.
  intros Hcon. unfold call. destruct (run_port o d) as [[u d']|] eqn:Hs; [|done].
  destruct o; try (apply forget_ok in Hs as [v Hs]);
    eauto using run_fenced_steps, transitionSystem_steps, createRun_steps, aside_steps, submitUserInput_aside,
      claimTaskRunCommand_aside, settleTaskRunCommand_aside, claimEventConsumer_aside, ackEventConsumer_aside,
      enqueueControl_aside, claimControlItem_aside, queueContinuation_aside, claimContinuation_steps,
      renewContinuationLease_aside, updateContinuation_aside, cancelQueuedContinuations_aside,
      queueSafeCrashRecovery_steps, reconcile_aside, repairTranscript_aside, appendEvent_steps, appendTranscript_aside,
      setRunPhase_aside, advanceRunPhase_aside, upsertCheckpoint_aside, claimOperation_aside, updateOperation_aside,
      recordToolAttempt_aside, completeToolAttempt_aside, completeControlItem_aside, recordGenerationActivationResult_steps.
  apply rtc_once. pose proof (exec_step d o Hcon) as Hstep. unfold exec in Hstep. cbn in Hs. rewrite Hs in Hstep.
  by eapply ss_repo.
Qed.

Lemma calls_steps ops d : Consistent d -> rtc store_step d (calls ops d).
Proof.
  revert d. induction ops as [|o ops IH]; intros d Hcon; [done|].
  etrans; [by apply call_steps|]. apply IH. eapply steps_consistent; [exact Hcon|by apply call_steps].
Qed.

(** Facts kept by the steps hold after every schedule. *)
Lemma steps_ind (P : Db -> Prop) d d' :
  Consistent d -> P d -> (forall x y, Consistent x -> P x -> store_step x y -> P y) -> rtc store_step d d' -> P d'.
Proof.
  intros Hcon HP Hstep Hs. induction Hs as [|x y z Hxy _ IH]; [done|].
  apply IH; eauto using store_step_consistent.
Qed.

Lemma calls_consistent ops d : Consistent d -> Consistent (calls ops d).
Proof. intros Hcon. eapply steps_consistent; eauto using calls_steps. Qed.

(** A TaskRun and its current Attempt show the same state: the current Attempt
    exists; it is active exactly while the TaskRun is running, and otherwise
    both have the same status; and no other Attempt of the TaskRun is active. *)
Definition shows_attempt (d : Db) (rid : string) (r : RunRow) : Prop :=
  exists a, attempts d !! attempt_id rid (r_attempt r) = Some a
    /\ (a_active a = true <-> r_status r = R_running)
    /\ (a_active a = false -> a_status a = of_run_status (r_status r))
    /\ forall i b, attempts d !! i = Some b -> a_runId b = rid -> a_active b = true ->
         i = attempt_id rid (r_attempt r).

Lemma consistent_shows d rid r : Consistent d -> runs d !! rid = Some r -> shows_attempt d rid r.
Proof.
  intros Hc Hr. destruct (current_attempt _ _ _ Hc Hr) as (a & Ha & A1 & A2 & A3).
  pose proof (con_current Hc _ _ r Ha) as Hcur. rewrite A2 in Hcur. specialize (Hcur Hr (eq_sym A3)).
  pose proof (attempt_check_active a (proj2 (con_attempt Hc _ _ Ha))) as Hact.
  exists a. split_and!; [done| | |].
  - split; intros Hx; [by rewrite Hx in Hcur|]. destruct (a_active a); [done|]. by rewrite Hcur, Hx in Hact.
  - intros Hx. by rewrite Hx in Hcur.
  - intros i b Hb <- Hx. destruct (con_active Hc _ _ Hb Hx) as (x & Hx1 & Hx2 & _).
    rewrite Hr in Hx1. injection Hx1 as <-. rewrite Hx2. exact (con_named Hc _ _ Hb).
Qed.

(** * Fencing *)

Lemma fence_mono_step d d' i : Consistent d -> store_step d d' -> (fence_of i d <= fence_of i d')%Z.
Proof.
  intros Hcon [j Hs|j r r' a a' rows Hs|j r' a Hs|Hs]; [by eapply fence_mono|unfold fence_of..].
  - by rewrite (mv_leases Hs).
  - by rewrite (st_leases Hs).
  - by rewrite (as_leases _ _ Hs).
Qed.

Lemma fence_mono_calls ops d i : Consistent d -> (fence_of i d <= fence_of i (calls ops d))%Z.
Proof.
  intros Hcon. apply (steps_ind (fun x => (fence_of i d <= fence_of i x)%Z) d); auto using calls_steps; [done|].
  intros x y Hx Hle Hs. etrans; [exact Hle|]. by apply fence_mono_step.
Qed.

(** The Attempt and the fence a call presents. *)
Definition presents (o : PortOp) : option (string * Z) :=
  match o with
  | Repo o => (fun f => (op_attempt o, f)) <$> op_fence o
  | Fenced f _ _ _ => Some (fe_attemptId f, fe_executionFence f)
  | _ => None
  end.

Lemma validate_fence f ts d s t : validate f ts d = Ok (s, t) -> fe_executionFence f = fence_of (fe_attemptId f) d.
Proof.
  intros [_ (a & r & l & [_ _ Hl (_ & <- & _) _ _ _])]%validate_ok. unfold fence_of. by rewrite Hl.
Qed.

Lemma withFence_fence {A} f ts (work : TaskRunExecutionScope -> tx Db A) d t :
  withFence f ts work d = Ok t -> fe_executionFence f = fence_of (fe_attemptId f) d.
Proof. unfold withFence. destruct t. intros Hs. tx_inv Hs. by eapply validate_fence. Qed.

Lemma run_fenced_fence f dbTime ts c d u d' :
  run_fenced f dbTime ts c d = Ok (u, d') -> fe_executionFence f = fence_of (fe_attemptId f) d.
Proof.
  intros Hs. destruct c; apply forget_ok in Hs as [v Hs]; try (by eapply withFence_fence).
  unfold transitionRuntime in Hs. tx_inv Hs. by eapply validate_fence.
Qed.

Lemma wrong_fence_call d o i f : presents o = Some (i, f) -> f <> fence_of i d -> call d o = d.
Proof.
  unfold call. destruct o; cbn; try done.
  - intros Hp Hne. apply fmap_Some in Hp as (f' & Hf & [= -> ->]).
    pose proof (wrong_fence_no_effect d o f' Hf Hne) as Hx. unfold exec in Hx. exact Hx.
  - intros [= <- <-] Hne. destruct (run_fenced _ _ _ _ _) as [[u d']|] eqn:Hs; [|done].
    by apply run_fenced_fence in Hs.
Qed.

(** C2. A holder whose lease was taken over is fenced off for ever: once the
    execution lease of an Attempt was granted a second time, no call that
    presents the fence of the first grant has any effect (renewal, release,
    Candidate, settlement, recovery, transition or runtime mutation), whatever
    happened in between or happens after. *)
Theorem stale_holder_fenced d i v1 w1 ms1 ts1 l1 d1 ops v2 w2 ms2 ts2 l2 d2 ops' o :
  Consistent d ->
  acquireExecutionLease i v1 w1 ms1 ts1 d = Ok (l1, d1) ->
  acquireExecutionLease i v2 w2 ms2 ts2 (calls ops d1) = Ok (l2, d2) ->
  presents o = Some (i, l_fence l1) ->
  call (calls ops' d2) o = calls ops' d2.
Proof.
  intros Hcon H1 H2 Hf. eapply wrong_fence_call; [exact Hf|].
  apply acquire_leased in H1 as (L1 & E1 & _); [|done].
  assert (Hcon1 : Consistent d1) by eauto using leased_consistent.
  pose proof (fence_mono_calls ops d1 i Hcon1) as Hm1.
  assert (Hcon2 : Consistent (calls ops d1)) by by apply calls_consistent.
  apply acquire_leased in H2 as (L2 & E2 & Hf2 & _); [|done].
  assert (Hcon3 : Consistent d2) by eauto using leased_consistent.
  pose proof (fence_mono_calls ops' d2 i Hcon3) as Hm2.
  revert Hm1 Hm2 Hf2. unfold fence_of. rewrite E1, E2, !lookup_insert_eq. intros. lia.
Qed.

(** * What no call changes *)

(** An Attempt behind the current one of its TaskRun. *)
Definition superseded (d : Db) (a : AttemptRow) : Prop :=
  exists r, runs d !! a_runId a = Some r /\ (a_ordinal a < r_attempt r)%Z.

Lemma closed_current_attempt d d' a a' r r' s rows ts : closed d d' a a' r r' s rows ts -> ~ superseded d a.
Proof. intros Hc (x & Hx & Hlt). rewrite (cl_run Hc) in Hx. injection Hx as <-. rewrite (cl_current Hc) in Hlt. lia. Qed.

Lemma superseded_row d d' i a : Consistent d -> store_step d d' -> attempts d !! i = Some a -> superseded d a ->
  attempts d' !! i = Some a.
Proof.
  intros Hcon Hs Ha Hsup. pose proof (proj1 (con_attempt Hcon _ _ Ha)) as Hi.
  destruct Hs as [j [k ->|k Hl|b c ts Hp|b b' r r' s rows ts Hc]|j r r' b b' rows Hm|j r' b Hst|Hs]; [done| | | | | |].
  - by rewrite (le_attempts _ _ _ Hl).
  - rewrite (pr_attempts _ _ _ _ _ Hp). rewrite lookup_insert_ne; [done|]. intros E. subst i.
    pose proof (pr_attempt _ _ _ _ _ Hp) as Hb. rewrite E, Ha in Hb. injection Hb as <-.
    destruct (pr_running _ _ _ _ _ Hp) as [_ Hact], Hsup as (x & Hx & Hlt).
    destruct (con_active Hcon _ _ Ha Hact) as (y & Hy & Ho & _). rewrite Hx in Hy. injection Hy as <-. lia.
  - rewrite (cl_attempts Hc). rewrite lookup_insert_ne; [done|]. intros E. subst i.
    pose proof (cl_attempt Hc) as Hb. rewrite E, Ha in Hb. injection Hb as <-. by eapply closed_current_attempt.
  - rewrite (mv_attempts Hm). rewrite lookup_insert_ne; [done|]. intros E. subst i.
    pose proof (mv_attempt Hm) as Hb. rewrite E, Ha in Hb. injection Hb as <-.
    destruct Hsup as (x & Hx & Hlt), (mv_current Hm) as [C1 C2]. rewrite C1, (mv_run Hm) in Hx. injection Hx as <-. lia.
  - by eapply started_other.
  - by rewrite (as_attempts _ _ Hs).
Qed.

(** The TaskRun of an Attempt never goes back to an earlier Attempt. *)
Lemma run_forward d d' rid r : store_step d d' -> runs d !! rid = Some r ->
  exists r', runs d' !! rid = Some r' /\ (r_attempt r <= r_attempt r')%Z.
Proof.
  intros [j [k ->|k Hl|b c ts Hp|b b' x r' s rows ts Hc]|j x r' b b' rows Hm|j r' b Hst|Hs] Hr.
  - eauto with lia.
  - rewrite (le_runs _ _ _ Hl). eauto with lia.
  - rewrite (pr_runs _ _ _ _ _ Hp). eauto with lia.
  - rewrite (cl_runs Hc). destruct (decide (a_runId b = rid)) as [E|]; [|rewrite lookup_insert_ne by done; eauto with lia].
    rewrite E, lookup_insert_eq. exists r'. split; [done|]. destruct (cl_projected Hc) as (_ & -> & _).
    pose proof (cl_run Hc) as Hx. rewrite E, Hr in Hx. injection Hx as <-. lia.
  - rewrite (mv_runs Hm). destruct (decide (j = rid)) as [E|]; [|rewrite lookup_insert_ne by done; eauto with lia].
    rewrite E, lookup_insert_eq. exists r'. split; [done|]. destruct (mv_run_same Hm) as (-> & _).
    pose proof (mv_run Hm) as Hx. rewrite E, Hr in Hx. injection Hx as <-. lia.
  - rewrite (st_runs Hst). destruct (decide (j = rid)) as [E|]; [|rewrite lookup_insert_ne by done; eauto with lia].
    rewrite E, lookup_insert_eq. exists r'. split; [done|]. pose proof (st_before Hst) as Hb. rewrite E, Hr in Hb.
    destruct Hb as (_ & -> & _). lia.
  - destruct (aside_run_fwd _ _ _ _ Hs Hr) as (r' & Hr' & _ & E). exists r'. split; [done|lia].
Qed.

(** The past of a TaskRun is frozen: once a TaskRun went on to a later
    Attempt, no call ever changes the row of an earlier one again. *)
Theorem superseded_attempts_frozen ops d i a :
  Consistent d -> attempts d !! i = Some a -> superseded d a -> attempts (calls ops d) !! i = Some a.
Proof.
  intros Hcon Ha Hsup.
  apply (steps_ind (fun x => attempts x !! i = Some a /\ superseded x a) d); auto using calls_steps.
  intros x y Hx [H1 (r & Hr & Hlt)] Hs. split; [eapply superseded_row; eauto; by exists r|].
  destruct (run_forward _ _ _ _ Hs Hr) as (r' & Hr' & Hle). exists r'. split; [done|lia].
Qed.

Lemma final_row d d' i a : Consistent d -> store_step d d' -> attempts d !! i = Some a ->
  a_status a = A_completed \/ a_status a = A_cancelled -> attempts d' !! i = Some a.
Proof.
  intros Hcon Hs Ha Hst.
  assert (Hact : a_active a = false).
  { rewrite (attempt_check_active a (proj2 (con_attempt Hcon _ _ Ha))). by destruct Hst as [-> | ->]. }
  destruct Hs as [j Hs|j r r' b b' rows Hm|j r' b Hs|Hs].
  - eapply closed_row_stable; [done|exact Hs|done|done|]. by destruct Hst as [-> | ->].
  - rewrite (mv_attempts Hm). destruct (decide (a_id b = i)) as [E|]; [|by rewrite lookup_insert_ne].
    rewrite E, lookup_insert_eq. pose proof (mv_attempt Hm) as Hb. rewrite E, Ha in Hb. injection Hb as <-.
    destruct (mv_status Hm) as [(_ & _ & _ & _ & [->|E2])|(Hmov & _)]; [done|rewrite E2 in Hst; by destruct Hst|].
    exfalso. revert Hmov. generalize (a_status b'). destruct Hst as [-> | ->]; intros to Hmov; revert to Hmov;
      apply (bool_decide_unpack _); vm_compute; done.
  - by eapply started_other.
  - by rewrite (as_attempts _ _ Hs).
Qed.

Lemma accepted_row d d' i c : Consistent d -> store_step d d' -> candidates d !! i = Some c ->
  c_status c = C_accepted -> candidates d' !! i = Some c.
Proof.
  intros Hcon [j Hs|j r r' b b' rows Hm|j r' b Hs|Hs] Hc Hst.
  - by eapply accepted_stable.
  - by rewrite (mv_candidates Hm).
  - by rewrite (st_candidates Hs).
  - by rewrite (as_candidates _ _ Hs).
Qed.

(** Outcomes are final: no schedule of calls changes the row of a completed
    or cancelled Attempt, or an accepted Candidate. *)
Theorem outcomes_final ops d i a j c :
  Consistent d -> attempts d !! i = Some a -> a_status a = A_completed \/ a_status a = A_cancelled ->
  candidates d !! j = Some c -> c_status c = C_accepted ->
  attempts (calls ops d) !! i = Some a /\ candidates (calls ops d) !! j = Some c.
Proof.
  intros Hcon Ha Hst Hc Hcs.
  apply (steps_ind (fun x => attempts x !! i = Some a /\ candidates x !! j = Some c) d); auto using calls_steps.
  intros x y Hx [H1 H2] Hs. eauto using final_row, accepted_row.
Qed.
End ports.

(** * Witnesses *)

Definition demo_fence : TaskRunExecutionFence :=
  {| fe_attemptId := demo_id; fe_expectedVersion := 1; fe_leaseToken := "uuid-0"; fe_executionFence := 1 |}.

Definition demo_field : UserInputField :=
  {| f_key := "choice"; f_label := "Choice"; f_description := ""; f_inputType := "text"; f_required := true;
     f_placeholder := "" |}.

(** The Generation asks the user, the user answers, the TaskRun resumes with a
    second Attempt. *)
Definition demo_ask : list PortOp :=
  [Repo (Acquire demo_id 1 "worker" 1000 10);
   Fenced demo_fence 20 20 (FRecordToolAttempt "call" "request_user_input" (JObj []));
   Fenced demo_fence 21 21 (FRequestUserInput "Which one?" [demo_field] "call")].

Definition demo_resume : list PortOp :=
  [SubmitInput "uuid-1" [("choice", " the second "%string)] 30;
   System (JObj [("kind", JStr "resume_input"); ("attemptId", JStr demo_id); ("expectedVersion", JInt 2);
                 ("inputRequestId", JStr "uuid-1")])
          (JObj [("kind", JStr "input_resume"); ("inputRequestId", JStr "uuid-1")]) 40].

Definition demo_asked : Db := calls demo_ask demo_db.
Definition demo_resumed : Db := calls demo_resume demo_asked.

Lemma demo_asked_consistent : Consistent demo_asked.
Proof. apply calls_consistent, demo_consistent. Qed.

Lemma demo_resumed_consistent : Consistent demo_resumed.
Proof. apply calls_consistent, demo_asked_consistent. Qed.

Lemma stale_holder_fenced_witness :
  exists l1 d1 l2 d2, acquireExecutionLease demo_id 1 "one" 100 10 demo_db = Ok (l1, d1)
    /\ acquireExecutionLease demo_id 1 "two" 100 200 d1 = Ok (l2, d2)
    /\ call d2 (Fenced demo_fence 210 210 (FAppendEvent "message" (JObj []))) = d2.
Proof.
  do 4 eexists. split; [vm_compute; reflexivity|]. split; [vm_compute; reflexivity|].
  eapply (stale_holder_fenced demo_db demo_id 1 "one" 100 10 _ _ [] 1 "two" 100 200 _ _ []);
    [exact demo_consistent|vm_compute; reflexivity|vm_compute; reflexivity|reflexivity].
Defined.

Lemma superseded_attempts_frozen_witness :
  exists a, attempts demo_resumed !! demo_id = Some a /\ a_status a = A_waiting_input
    /\ attempts (calls [Repo (Cancel demo_id "stop" 50); Repo (Cancel (attempt_id "run" 2) "stop" 50)] demo_resumed)
       !! demo_id = Some a.
Proof.
  assert (exists a, attempts demo_resumed !! demo_id = Some a /\ a_status a = A_waiting_input /\ superseded demo_resumed a)
    as (a & Ha & Hst & Hsup).
  { eexists. split; [vm_compute; reflexivity|]. split; [reflexivity|]. eexists.
    split; [vm_compute; reflexivity|vm_compute; reflexivity]. }
  exists a. split; [exact Ha|]. split; [exact Hst|].
  exact (superseded_attempts_frozen _ demo_resumed demo_id a demo_resumed_consistent Ha Hsup).
Defined.

Lemma outcomes_final_witness :
  exists a c, attempts demo_done !! demo_id = Some a /\ a_status a = A_completed
    /\ candidates demo_done !! "candidate"%string = Some c /\ c_status c = C_accepted
    /\ attempts (calls [Repo (Cancel demo_id "too late" 40)] demo_done) !! demo_id = Some a.
Proof.
  do 2 eexists. split; [vm_compute; reflexivity|]. split; [reflexivity|]. split; [vm_compute; reflexivity|].
  split; [reflexivity|].
  eapply (outcomes_final [Repo (Cancel demo_id "too late" 40)] demo_done demo_id _ "candidate");
    [exact demo_done_consistent|vm_compute; reflexivity|by left|vm_compute; reflexivity|reflexivity].
Defined.
