(* ===== verification/ContinuationFacts.v ===== *)
(** What the continuations guarantee: at most one active continuation of a
    TaskRun, a claim that starts exactly the next Attempt, a lease nobody else
    can disturb before it ends; and a completed TaskRun whose Attempt the
    recovery of an expired lease turns into a blocked one. *)
From S2P Require Import Prelude Json TaskPolicy Attempt ExecDb AttemptRepo RunStore Continuation Transition Tools Mailbox RuntimeMutation AttemptSpec StoreSpec Demo AttemptRefine StoreRefine AttemptTrace PortSteps ContinuationSteps PortTrace.
Local Open Scope tx_scope.

(** The calls on continuations, those that end a lease included. *)
Inductive ContinuationOp :=
  | Queue (runId reason : string) (notBefore timestamp : Z)
  | Claim (runId owner : string) (leaseMs timestamp : Z)
  | RenewLease (id owner : string) (leaseMs timestamp : Z)
  | UpdateStatus (id : string) (status : ContinuationStatus) (error : string) (owner : option string) (timestamp : Z)
  | CancelQueued (runId reason : string) (timestamp : Z)
  | RecoverExpired (timestamp : Z)
  | ReleaseAll (owner reason : string) (timestamp : Z)
  | ReleaseOne (id owner reason : string) (timestamp : Z)
  | SafeCrash (maxRecoveries : Z) (clock : string -> Z).

Section facts.
Context `{Platform}.

Definition run_continuation (o : ContinuationOp) : tx Db unit :=
  match o with
  | Queue r e nb ts => forget (queueContinuation r e nb ts)
  | Claim r w ms ts => forget (claimContinuation r w ms ts)
  | RenewLease i w ms ts => forget (renewContinuationLease i w ms ts)
  | UpdateStatus i st e w ts => forget (updateContinuation i st e w ts)
  | CancelQueued r e ts => forget (cancelQueuedContinuations r e ts)
  | RecoverExpired ts => forget (recoverContinuationsAfterRestart ts)
  | ReleaseAll w e ts => forget (releaseContinuationLeases w e ts)
  | ReleaseOne i w e ts => forget (releaseContinuationLease i w e ts)
  | SafeCrash k clock => forget (queueSafeCrashRecoveryContinuations k clock)
  end.

Definition continue (d : Db) (o : ContinuationOp) : Db :=
  match run_continuation o d with Ok (_, d') => d' | Throw _ => d end.

(** * What one operation does to the table

    Facts [P] about the table that an insertion allowed by the constraints, an
    update by [id] and the cancellation keep, are kept by the operation. *)
(** A single write of the table, with the row before and the row after. *)
Inductive write (m : gmap string ContinuationRow) : gmap string ContinuationRow -> Prop :=
  | w_insert i n : m !! i = None -> n_status n = N_queued ->
      map_Forall (fun j x => j <> i -> ~ continuations_conflict n x) m -> write m (<[i := n]> m)
  | w_update i n n' : m !! i = Some n -> n_runId n' = n_runId n -> n_ordinal n' = n_ordinal n ->
      map_Forall (fun j x => j <> i -> ~ continuations_conflict n' x) m -> write m (<[i := n']> m)
  | w_cancel p f : (forall n, n_runId (f n) = n_runId n /\ n_ordinal (f n) = n_ordinal n /\ continuation_active (n_status (f n)) = false) ->
      write m (update_where p f m).

Definition writes : gmap string ContinuationRow -> gmap string ContinuationRow -> Prop := rtc write.

Lemma update_continuation_writes i p f d n d' :
  (forall x, n_runId (f x) = n_runId x /\ n_ordinal (f x) = n_ordinal x) ->
  update_continuation i p f d = Ok (n, d') -> writes (continuations d) (continuations d').
Proof.
  intros Hf [(x & _ & Hx & _ & Hu & ->)|(_ & -> & _)]%update_continuation_ok; [|done].
  apply rtc_once. destruct (Hf x). by eapply w_update.
Qed.

Lemma block_run_frame rid reason n seq ts d u d' :
  block_run rid reason n seq ts d = Ok (u, d') -> continuations d' = continuations d.
Proof.
  unfold block_run, deactivate_checkpoint. intros Hs. tx_inv Hs. apply projectAttempt_frame in Hs. rewrite Hs. cbn.
  match goal with E : update_run _ _ _ _ = Ok _ |- _ => apply update_run_ok in E as [(? & _ & _ & _ & ->)|[_ ->]] end; done.
Qed.

Lemma finalize_frame rid i n seq ts d u d' :
  finalizeAttemptProjectionCheckpoint rid i n seq ts d = Ok (u, d') -> continuations d' = continuations d.
Proof. by intros (k & -> & _)%finalize_ok. Qed.

Lemma requeued_same e x : n_runId (requeued e x) = n_runId x /\ n_ordinal (requeued e x) = n_ordinal x.
Proof. done. Qed.

Lemma recover_one_writes ts item d u d' : recover_one ts item d = Ok (u, d') -> writes (continuations d) (continuations d').
Proof.
  destruct item as [[i n] r]. unfold recover_one. case_bool_decide; [by intros [_ ->]%mret_ok|].
  intros (k & t & Hu & Hb)%tx_bind_ok. apply block_run_frame in Hb. rewrite Hb.
  eapply update_continuation_writes; [|exact Hu]. apply requeued_same.
Qed.

Lemma release_one_writes w e ts item d u d' : release_one w e ts item d = Ok (u, d') -> writes (continuations d) (continuations d').
Proof.
  destruct item as [[i n] r]. unfold release_one.
  intros (k & t & Hu & Hb)%tx_bind_ok. apply block_run_frame in Hb. rewrite Hb.
  eapply update_continuation_writes; [|exact Hu]. apply requeued_same.
Qed.

Lemma recover_run_writes clock i d v d' : recover_run clock i d = Ok (v, d') -> writes (continuations d) (continuations d').
Proof.
  destruct i as [[rid r] [s x]]. unfold recover_run, deactivate_checkpoint. intros Hs. tx_inv Hs.
  match goal with E : randomUUID _ = Ok _ |- _ => apply randomUUID_ok in E as [-> ->] end.
  match goal with E : insert_continuation _ _ _ = Ok _ |- _ => apply insert_continuation_ok in E as (Hfree & Huniq & ->) end.
  match goal with E : finalizeAttemptProjectionCheckpoint _ _ _ _ _ _ = Ok _ |- _ => rewrite (finalize_frame _ _ _ _ _ _ _ _ E) end.
  match goal with E : projectAttempt _ _ _ _ _ _ _ _ _ = Ok _ |- _ => rewrite (projectAttempt_frame _ _ _ _ _ _ _ _ _ _ _ E) end.
  store_inv.
  match goal with E : update_run _ _ _ _ = Ok _ |- _ => apply update_run_ok in E as [(? & _ & _ & _ & ->)|[_ ->]] end;
    cbn; apply rtc_once; by apply w_insert.
Qed.

(** A claim writes the row it takes off the queue, or nothing. *)
Lemma claim_table rid w ms ts d v d' :
  claimContinuation rid w ms ts d = Ok (v, d') ->
  continuations d' = continuations d
  \/ exists cid n source scheduled, let n' := attempt_links (claimed_row w ms ts n) source scheduled in
       continuations d !! cid = Some n /\ n_status n = N_queued
       /\ map_Forall (fun j x => j <> cid -> ~ continuations_conflict n' x) (continuations d)
       /\ continuations d' = <[cid := n']> (continuations d).
Proof.
  intros Hs. unfold claimContinuation in Hs. apply tx_bind_ok in Hs as (d0 & t & [-> ->]%gets_id_ok & Hs).
  destruct (head _) as [[cid n]|]; [|left; by apply mret_ok in Hs as [_ ->]].
  destruct (runs d !! rid) as [r|]; [|left; by apply mret_ok in Hs as [_ ->]].
  destruct (negb _); [left; by apply mret_ok in Hs as [_ ->]|].
  destruct (session_busy _ _ _); [left; by apply mret_ok in Hs as [_ ->]|].
  apply tx_bind_ok in Hs as (k & t1 & Hup & Hs).
  apply update_continuation_ok in Hup as [(x & -> & Hx & Hp & Hu & ->)|(-> & -> & _)];
    cbn [Z.eqb Pos.eqb negb] in Hs; [|left; by apply mret_ok in Hs as [_ ->]].
  right. cbv zeta in Hs. apply tx_bind_ok in Hs as ([] & t2 & [_ ->]%insert_event_ok & Hs).
  apply tx_bind_ok in Hs as (k & t3 & Hrun & Hs). apply tx_bind_ok in Hs as ([] & t4 & [_ ->]%require_ok & Hs).
  apply tx_bind_ok in Hs as (k2 & t5 & Hup & Hs).
  apply tx_bind_ok in Hs as ([] & t6 & Hpr%projectAttempt_frame & Hs). tx_inv Hs.
  assert (continuations t3 = <[cid := claimed_row w ms ts x]> (continuations d)) as E3.
  { apply update_run_ok in Hrun as [(? & _ & _ & _ & ->)|[_ ->]]; done. }
  apply update_continuation_ok in Hup as [(y & _ & Hy & _ & _ & ->)|(_ & _ & Hno)].
  - rewrite E3, lookup_insert_eq in Hy. injection Hy as <-. do 4 eexists. bool_prop.
    split; [exact Hx|]. split; [done|]. rewrite Hpr. cbn. rewrite E3, insert_insert_eq. split; [|reflexivity]. exact Hu.
  - specialize (Hno (claimed_row w ms ts x)). rewrite E3, lookup_insert_eq in Hno. by specialize (Hno eq_refl).
Qed.

Lemma claim_writes rid w ms ts d v d' :
  claimContinuation rid w ms ts d = Ok (v, d') -> writes (continuations d) (continuations d').
Proof.
  intros [->|(cid & n & s & t & Hn & _ & Hu & ->)]%claim_table; [done|].
  apply rtc_once. by eapply (w_update _ _ n).
Qed.

Lemma continue_writes d o : writes (continuations d) (continuations (continue d o)).
Proof.
  unfold continue. destruct (run_continuation o d) as [[u d']|e] eqn:Hs; [|done].
  destruct o; apply forget_ok in Hs as [v Hs].
  - unfold queueContinuation in Hs. tx_inv Hs.
    match goal with E : randomUUID _ = Ok _ |- _ => apply randomUUID_ok in E as [-> ->] end.
    match goal with E : insert_continuation _ _ _ = Ok _ |- _ => apply insert_continuation_ok in E as (Hfree & Huniq & ->) end.
    cbn. apply rtc_once. by apply w_insert.
  - by eapply claim_writes.
  - unfold renewContinuationLease in Hs. tx_inv Hs. eapply update_continuation_writes; [|eassumption]; done.
  - unfold updateContinuation in Hs. cbv zeta in Hs. tx_inv Hs. eapply update_continuation_writes; [|eassumption]; done.
  - apply modify_ok in Hs as ->. cbn. apply rtc_once, w_cancel. done.
  - unfold recoverContinuationsAfterRestart in Hs. tx_inv Hs.
    match goal with E : for_each _ _ _ = Ok _ |- _ =>
      eapply (for_each_ind (fun t => writes (continuations d) (continuations t))) in E; [exact E| |done] end.
    intros x e1 e2 _ Ht Hx. etrans; [exact Ht|]. by eapply recover_one_writes.
  - unfold releaseContinuationLeases in Hs. tx_inv Hs.
    match goal with E : for_each _ _ _ = Ok _ |- _ =>
      eapply (for_each_ind (fun t => writes (continuations d) (continuations t))) in E; [exact E| |done] end.
    intros x e1 e2 _ Ht Hx. etrans; [exact Ht|]. by eapply release_one_writes.
  - unfold releaseContinuationLease in Hs. tx_inv Hs; try done.
    + eapply update_continuation_writes; [|eassumption]; done.
    + match goal with E : block_run _ _ _ _ _ _ = Ok _ |- _ => rewrite (block_run_frame _ _ _ _ _ _ _ _ E) end.
      eapply update_continuation_writes; [|eassumption]; done.
  - unfold queueSafeCrashRecoveryContinuations in Hs. tx_inv Hs.
    eapply (map_tx_ind (fun t => writes (continuations d) (continuations t))) in Hs; [exact Hs| |done].
    intros x e1 e2 y _ Ht Hx. etrans; [exact Ht|]. by eapply recover_run_writes.
Qed.

(** * One active continuation *)

(** No two rows of the table conflict. *)
Definition conflict_free (m : gmap string ContinuationRow) : Prop :=
  forall i j a b, m !! i = Some a -> m !! j = Some b -> continuations_conflict a b -> i = j.

Lemma conflict_sym a b : continuations_conflict a b -> continuations_conflict b a.
Proof. unfold continuations_conflict. intuition congruence. Qed.

Lemma write_conflict_free m m' : write m m' -> conflict_free m -> conflict_free m'.
Proof.
  assert (forall i n, map_Forall (fun j x => j <> i -> ~ continuations_conflict n x) m ->
    conflict_free m -> conflict_free (<[i := n]> m)) as Hins.
  { intros i n Hn Hcf j k a b. rewrite !lookup_insert_Some. intros [[<- <-]|[Hj Ha]] [[<- <-]|[Hk Hb]] Hc; [done| | |].
    - by destruct (Hn k b Hb (not_eq_sym Hk)).
    - destruct (Hn j a Ha (not_eq_sym Hj)). by apply conflict_sym.
    - by eapply Hcf. }
  intros [i n _ _ Hn|i n n' _ _ _ Hn|p f Hf] Hcf; [by apply Hins|by apply Hins|].
  intros i j a b Ha Hb. unfold update_where in Ha, Hb. rewrite lookup_fmap in Ha, Hb.
  apply fmap_Some in Ha as (x & Hx & ->). apply fmap_Some in Hb as (y & Hy & ->). intros [E1 E2].
  apply (Hcf i j x y Hx Hy). destruct (Hf x) as (X1 & X2 & X3), (Hf y) as (Y1 & Y2 & Y3). clear Hf.
  split; [destruct (p x), (p y); congruence|]. destruct E2 as [E2|[E2 E3]]; [left; destruct (p x), (p y); congruence|].
  right. destruct (p x); [congruence|]. destruct (p y); [congruence|]. auto.
Qed.

(** At most one continuation of a TaskRun is queued or running, and no two
    have the same ordinal, after any schedule of the calls on continuations. *)
Theorem one_active_continuation ops d i j a b :
  conflict_free (continuations d) ->
  continuations (fold_left continue ops d) !! i = Some a -> continuations (fold_left continue ops d) !! j = Some b ->
  n_runId a = n_runId b ->
  continuation_active (n_status a) = true /\ continuation_active (n_status b) = true \/ n_ordinal a = n_ordinal b ->
  i = j.
Proof.
  intros Hcf Ha Hb Hrun Hc. assert (conflict_free (continuations (fold_left continue ops d))) as Hf.
  { clear Ha Hb. revert d Hcf. induction ops as [|o ops IH]; intros d Hcf; [done|]. apply IH.
    induction (continue_writes d o) as [|x y z Hw _ IHw]; [done|]. eauto using write_conflict_free. }
  eapply Hf; [exact Ha|exact Hb|]. split; [done|]. destruct Hc; auto.
Qed.

(** * The holder of a lease *)

(** The operation is not the holder's and does not come after the lease ends. *)
Definition respects (i owner : string) (until : Z) (o : ContinuationOp) : Prop :=
  match o with
  | RenewLease j w _ _ | ReleaseOne j w _ _ => j <> i \/ w <> owner
  | UpdateStatus j _ _ w _ => j <> i \/ exists w', w = Some w' /\ w' <> owner
  | RecoverExpired ts => (ts < until)%Z
  | ReleaseAll w _ _ => w <> owner
  | _ => True
  end.

Lemma update_keeps j p f i n d k d' :
  continuations d !! i = Some n -> (j = i -> p n = false) -> update_continuation j p f d = Ok (k, d') ->
  continuations d' !! i = Some n.
Proof.
  intros Hn Hp [(x & _ & Hx & Hpx & _ & ->)|(_ & -> & _)]%update_continuation_ok; [|done].
  cbn. destruct (decide (j = i)) as [->|]; [|by rewrite lookup_insert_ne].
  specialize (Hp eq_refl). congruence.
Qed.

Lemma insert_keeps j x i n d u d' :
  continuations d !! i = Some n -> insert_continuation j x d = Ok (u, d') -> continuations d' !! i = Some n.
Proof. intros Hn (Hfree & _ & ->)%insert_continuation_ok. cbn. rewrite lookup_insert_ne; [done|congruence]. Qed.

Lemma leased_other w owner n : leased_to owner n = true -> w <> owner -> leased_to w n = false.
Proof.
  unfold leased_to. intros Hl Hne. bool_prop. apply andb_false_iff. right. apply String.eqb_neq. congruence.
Qed.

Section holder.
Variables (i owner : string) (n : ContinuationRow) (until : Z).
Hypothesis leased : leased_to owner n = true.
Hypothesis ends : n_leaseUntil n = Some until.

Lemma joined_not p d x : continuations d !! i = Some n -> p i n = false -> x ∈ joined p d -> x.1.1 <> i.
Proof.
  intros Hn Hp. unfold joined. intros ([j m] & Hin & Hx)%list_elem_of_omap E.
  rewrite (merge_sort_Permutation by_creation) in Hin. unfold continuations_where in Hin.
  rewrite list_elem_of_In, filter_In, <- list_elem_of_In, elem_of_map_to_list in Hin. cbn in Hin.
  apply fmap_Some in Hx as (r & _ & ->). cbn in E. subst j. destruct Hin as [Hin Hpm]. congruence.
Qed.

Lemma holder_running : n_status n = N_running.
Proof. unfold leased_to in leased. by bool_prop. Qed.

Lemma running_not_queued : bool_decide (n_status n = N_queued) = false.
Proof. unfold leased_to in leased. bool_prop. apply bool_decide_eq_false. congruence. Qed.

Lemma claim_keeps rid w ms ts d v d' :
  continuations d !! i = Some n -> claimContinuation rid w ms ts d = Ok (v, d') -> continuations d' !! i = Some n.
Proof.
  intros Hn [->|(cid & m & s & t & Hm & Hq & _ & ->)]%claim_table; [done|].
  rewrite lookup_insert_ne; [done|]. intros ->. rewrite Hn in Hm. injection Hm as <-.
  by rewrite holder_running in Hq.
Qed.

Lemma recover_one_keeps ts x d u d' :
  continuations d !! i = Some n -> x.1.1 <> i -> recover_one ts x d = Ok (u, d') -> continuations d' !! i = Some n.
Proof.
  destruct x as [[j m] r]. cbn. intros Hn Hne. case_bool_decide; [by intros [_ ->]%mret_ok|].
  intros (k & t & Hu & ->%block_run_frame)%tx_bind_ok. by eapply update_keeps in Hu.
Qed.

Lemma release_one_keeps w e ts x d u d' :
  w <> owner -> continuations d !! i = Some n -> release_one w e ts x d = Ok (u, d') -> continuations d' !! i = Some n.
Proof.
  destruct x as [[j m] r]. unfold release_one. intros Hw Hn (k & t & Hu & ->%block_run_frame)%tx_bind_ok.
  eapply update_keeps in Hu; [exact Hu|done|]. intros _. by eapply leased_other.
Qed.

Lemma recover_run_keeps clock x d v d' :
  continuations d !! i = Some n -> recover_run clock x d = Ok (v, d') -> continuations d' !! i = Some n.
Proof.
  destruct x as [[rid r] [s y]]. unfold recover_run, deactivate_checkpoint. intros Hn Hs. tx_inv Hs.
  match goal with E : randomUUID _ = Ok _ |- _ => apply randomUUID_ok in E as [-> ->] end.
  match goal with E : insert_continuation _ _ _ = Ok _ |- _ => eapply insert_keeps in E as Hins; [|exact Hn] end.
  match goal with E : finalizeAttemptProjectionCheckpoint _ _ _ _ _ _ = Ok _ |- _ => rewrite (finalize_frame _ _ _ _ _ _ _ _ E) end.
  match goal with E : projectAttempt _ _ _ _ _ _ _ _ _ = Ok _ |- _ => rewrite (projectAttempt_frame _ _ _ _ _ _ _ _ _ _ _ E) end.
  match goal with E : insert_event _ _ _ _ = Ok _ |- _ => apply insert_event_ok in E as [_ ->] end.
  match goal with E : update_run _ _ _ _ = Ok _ |- _ => apply update_run_ok in E as [(? & _ & _ & _ & ->)|[_ ->]] end; done.
Qed.

Lemma respects_keeps o d : respects i owner until o -> continuations d !! i = Some n ->
  continuations (continue d o) !! i = Some n.
Proof.
  intros Hr Hn. unfold continue. destruct (run_continuation o d) as [[u d']|e] eqn:Hs; [|done].
  destruct o; apply forget_ok in Hs as [v Hs]; cbn [respects] in Hr.
  - unfold queueContinuation in Hs. tx_inv Hs.
    match goal with E : randomUUID _ = Ok _ |- _ => apply randomUUID_ok in E as [-> ->] end.
    match goal with E : insert_continuation _ _ _ = Ok _ |- _ => by eapply insert_keeps in E end.
  - by eapply claim_keeps.
  - unfold renewContinuationLease in Hs. tx_inv Hs. eapply update_keeps; [exact Hn| |eassumption].
    intros ->. destruct Hr as [|Hr]; [done|]. by rewrite (leased_other _ _ _ leased Hr).
  - unfold updateContinuation in Hs. cbv zeta in Hs. tx_inv Hs. eapply update_keeps; [exact Hn| |eassumption].
    intros ->. destruct Hr as [|(w & -> & Hr)]; [done|]. unfold leased_to in leased. bool_prop.
    apply String.eqb_neq. congruence.
  - apply modify_ok in Hs as ->. cbn. unfold update_where. rewrite lookup_fmap, Hn. cbn.
    by rewrite running_not_queued, andb_false_r.
  - unfold recoverContinuationsAfterRestart in Hs. tx_inv Hs.
    match goal with E : for_each _ _ _ = Ok _ |- _ =>
      eapply (for_each_ind (fun t => continuations t !! i = Some n)) in E; [exact E| |done] end.
    intros x e1 e2 Hx Ht. apply recover_one_keeps; [done|]. eapply joined_not; [exact Hn| |exact Hx].
    cbv beta. rewrite running_not_queued, ends. cbn. apply andb_false_iff. right. lia.
  - unfold releaseContinuationLeases in Hs. tx_inv Hs.
    match goal with E : for_each _ _ _ = Ok _ |- _ =>
      eapply (for_each_ind (fun t => continuations t !! i = Some n)) in E; [exact E| |done] end.
    intros x e1 e2 Hx Ht. by apply release_one_keeps.
  - unfold releaseContinuationLease in Hs.
    apply tx_bind_ok in Hs as (items & t & [-> ->]%gets_ok & Hs).
    destruct (joined _ d) as [|[[j m] r] items] eqn:Hj; [by apply mret_ok in Hs as [_ ->]|].
    apply tx_bind_ok in Hs as (k & t & Hu & Hs).
    assert (continuations t !! i = Some n) as Ht.
    { eapply update_keeps; [exact Hn| |exact Hu]. intros ->.
      destruct (decide (id = i)) as [->|Hne].
      - destruct Hr as [|Hr]; [done|]. by apply (leased_other _ owner).
      - exfalso. eapply (joined_not _ _ (i, m, r) Hn); [|rewrite Hj; left|done]. cbv beta.
        apply String.eqb_neq in Hne. by rewrite String.eqb_sym, Hne. }
    destruct (negb _); [by apply mret_ok in Hs as [_ ->]|].
    apply tx_bind_ok in Hs as ([] & t' & Hb%block_run_frame & [_ ->]%mret_ok). congruence.
  - unfold queueSafeCrashRecoveryContinuations in Hs. tx_inv Hs.
    eapply (map_tx_ind (fun t => continuations t !! i = Some n)) in Hs; [exact Hs| |done].
    intros x e1 e2 y _ Ht Hx. by eapply recover_run_keeps.
Qed.
End holder.

(** C14. The holder of a continuation's lease is undisturbed until the lease ends:
    whatever other owners claim, renew, update, release or recover before that
    time, the row stays exactly as the holder left it, the holder owns the
    lease, and nobody else does. *)
Theorem lease_holder_undisturbed ops d i owner n until t :
  continuations d !! i = Some n -> leased_to owner n = true -> n_leaseUntil n = Some until ->
  Forall (respects i owner until) ops -> (t < until)%Z ->
  continuations (fold_left continue ops d) !! i = Some n
  /\ ownsContinuationLease i owner t (fold_left continue ops d) = true
  /\ forall w, w <> owner -> ownsContinuationLease i w t (fold_left continue ops d) = false.
Proof.
  intros Hn Hl Hu Hops Ht. assert (continuations (fold_left continue ops d) !! i = Some n) as Hk.
  { revert d Hn. induction Hops as [|o ops Ho _ IH]; intros d Hn; [done|]. apply IH. by eapply respects_keeps. }
  unfold ownsContinuationLease, lease_unexpired. rewrite Hk, Hl, Hu. split_and!; [done|cbn; lia|].
  intros w Hw. by rewrite (leased_other w owner).
Qed.

(** * A claim starts the next Attempt *)

(** A granted claim takes the TaskRun from blocked to the next Attempt: the
    continuation was queued and due, the TaskRun blocked and its session idle;
    afterwards the TaskRun runs, its next Attempt runs, every earlier Attempt is
    as it was, the start is logged, the claimant owns the lease for its whole
    length, and nobody can claim the TaskRun again. *)
Theorem claim_starts_next_attempt rid owner ms ts d cid n' r' ev d' :
  Consistent d -> claimContinuation rid owner ms ts d = Ok (Some (cid, n', r', ev), d') ->
  exists n r a, continuations d !! cid = Some n /\ due rid ts n = true
    /\ runs d !! rid = Some r /\ r_status r = R_blocked /\ session_busy (r_sessionId r) rid d = false
    /\ runs d' !! rid = Some r' /\ r_status r' = R_running /\ r_attempt r' = (r_attempt r + 1)%Z
    /\ attempts d' !! attempt_id rid (r_attempt r') = Some a /\ a_status a = A_running /\ a_active a = true
    /\ (forall i b, attempts d !! i = Some b -> attempts d' !! i = Some b)
    /\ events d' !! (rid, r_lastEventSeq r') = Some {| e_attemptId := attempt_id rid (r_attempt r');
         e_type := "continuation.started"; e_data := ev_data ev; e_createdAt := ts |}
    /\ (forall t, (t < ts + ms)%Z -> ownsContinuationLease cid owner t d' = true)
    /\ Consistent d'
    /\ forall w ms2 ts2, claimContinuation rid w ms2 ts2 d' = Ok (None, d').
Proof.
  intros Hcon Hs. pose proof (claimContinuation_steps _ _ _ _ _ _ _ Hcon Hs) as Hst.
  pose proof (claimContinuation_spec _ _ _ _ _ _ _ Hcon Hs) as Hspec. cbn in Hspec.
  destruct Hspec as (n & r & a0 & dm & Hg & Ha & Hm & a & Hstart).
  destruct Hg as [[Hn Hdue] (Hr & Hbl & Hbusy) [Hc Hn'] [Hr' Hruns] [Hev Hevents] _].
  destruct (st_running Hstart) as (_ & A1 & A2 & _), (st_named Hstart) as (N1 & _).
  assert (runs d' !! rid = Some r') as Hrun' by by rewrite Hruns, lookup_insert_eq.
  exists n, r, a. split_and!; try done; try (by rewrite Hr').
  - by rewrite <- N1, (st_attempts Hstart), lookup_insert_eq.
  - intros i b Hb. eapply started_other; [exact Hstart|]. rewrite (mv_attempts Hm).
    rewrite insert_id by exact (mv_attempt Hm). by rewrite (as_attempts _ _ Ha).
  - rewrite Hevents, Hr'. cbn. rewrite lookup_insert_eq. by rewrite Hev.
  - intros t Ht. unfold ownsContinuationLease, leased_to, lease_unexpired. rewrite Hc, lookup_insert_eq, Hn'. cbn.
    rewrite String.eqb_refl. change (true && (t <? ts + ms)%Z = true). by apply Z.ltb_lt.
  - by eapply steps_consistent.
  - intros w ms2 ts2. unfold claimContinuation. erewrite tx_bind_run; [|reflexivity]. cbn [id].
    destruct (head _) as [[]|]; [|done]. by rewrite Hrun', Hr'.
Qed.
End facts.

(** * Examples

    The first Attempt blocks, a scheduler claims the continuation and the
    second Attempt runs to completion. *)
Definition demo_next_decision : DecisionRow :=
  {| d_id := "next"; d_runId := "run"; d_attempt := 2; d_status := D_proposed; d_action := S_complete_taskrun;
     d_candidateResponseHash := sha256 "answer"; d_error := ""; d_createdAt := 0; d_executedAt := None;
     d_checkpointSeq := 0; d_trigger := "settled"; d_reasonCode := ""; d_rationale := ""; d_instruction := "";
     d_evaluator := "system"; d_evaluatorModel := ""; d_epistemicStatus := "deterministic" |}.

Definition demo_blockable : Db := set_decisions (insert "next"%string demo_next_decision) demo_db.

Definition demo_block : list PortOp :=
  [Repo (Acquire demo_id 1 "worker" 1000 10);
   Fenced demo_fence 20 20 (FTransition (JObj [("kind", JStr "block"); ("reason", JStr "more work"); ("data", JObj [])]));
   QueueContinuation "run" "go on" 0 30].

Definition demo_queued : Db := calls demo_block demo_blockable.

Lemma demo_blockable_consistent : Consistent demo_blockable.
Proof. eapply aside_consistent; [apply demo_consistent|]. by split. Qed.

Lemma demo_queued_consistent : Consistent demo_queued.
Proof. apply calls_consistent, demo_blockable_consistent. Qed.

Definition demo_cid : string := match map_to_list (continuations demo_queued) with (i, _) :: _ => i | [] => "" end.

Definition demo_finish : list PortOp :=
  [ClaimContinuation "run" "scheduler" 100 40;
   Repo (Acquire (attempt_id "run" 2) 1 "worker" 1000 50);
   Repo (Record_ "candidate" (attempt_id "run" 2) 1 "uuid-4" 1 "answer" 60);
   Repo (Settle (attempt_id "run" 2) 2 "uuid-4" 1 "candidate" "next" TA_completed "done" 70)].

Definition demo_finished : Db := calls demo_finish demo_queued.

Lemma demo_finished_consistent : Consistent demo_finished.
Proof. apply calls_consistent, demo_queued_consistent. Qed.

(** The process died after the settlement and before it reported the
    continuation completed: when its lease has expired, the recovery blocks the
    Attempt of the completed TaskRun, and the tables no longer agree. *)
Theorem recovery_unsettles_completed :
  exists d d' v, Consistent d /\ (r_status <$> runs d !! "run"%string) = Some R_completed
    /\ (a_status <$> attempts d !! attempt_id "run" 2) = Some A_completed
    /\ recoverContinuationsAfterRestart 500 d = Ok (v, d')
    /\ (r_status <$> runs d' !! "run"%string) = Some R_completed
    /\ (a_status <$> attempts d' !! attempt_id "run" 2) = Some A_blocked
    /\ ~ Consistent d'.
Proof.
  exists demo_finished. do 2 eexists. split; [apply demo_finished_consistent|].
  split; [vm_compute; reflexivity|]. split; [vm_compute; reflexivity|]. split; [vm_compute; reflexivity|].
  split; [vm_compute; reflexivity|]. split; [vm_compute; reflexivity|].
  intros Hcon.
  match type of Hcon with Consistent ?d => assert (exists a r, attempts d !! attempt_id "run" 2 = Some a
    /\ runs d !! a_runId a = Some r /\ r_attempt r = a_ordinal a /\ a_active a = false /\ a_status a = A_blocked
    /\ r_status r = R_completed) as (a & r & Ha & Hr & Ho & Hact & H1 & H2) end.
  { do 2 eexists. split; [vm_compute; reflexivity|]. split; [vm_compute; reflexivity|]. by split_and!. }
  pose proof (con_current Hcon _ _ _ Ha Hr Ho) as Hc. rewrite Hact, H1, H2 in Hc. discriminate Hc.
Qed.

Lemma one_active_continuation_witness :
  conflict_free (continuations demo_queued)
  /\ forall j b, continuations (fold_left continue [Queue "run" "again" 0 31; Claim "run" "scheduler" 100 40] demo_queued) !! j = Some b ->
       n_runId b = "run"%string -> n_ordinal b = 1%Z -> demo_cid = j.
Proof.
  assert (conflict_free (continuations demo_queued)) as Hcf.
  { assert (continuations demo_queued = {["uuid-2"%string := queued_row "run" 1 "go on" 0 30]}) as ->
      by (vm_compute; reflexivity).
    intros i j a b Ha Hb _. apply lookup_singleton_Some in Ha as [<- _], Hb as [<- _]. reflexivity. }
  split; [exact Hcf|]. intros j b Hb Hr Ho.
  eapply (one_active_continuation [Queue "run" "again" 0 31; Claim "run" "scheduler" 100 40] demo_queued demo_cid j);
    [exact Hcf|vm_compute; reflexivity|exact Hb|symmetry; exact Hr|right; symmetry; exact Ho].
Defined.

Definition demo_claimed_continuation : Db := calls [ClaimContinuation "run" "scheduler" 100 40] demo_queued.

Lemma lease_holder_undisturbed_witness :
  ownsContinuationLease demo_cid "scheduler" 139
    (fold_left continue [RecoverExpired 139; ReleaseAll "other" "stop" 100; RenewLease demo_cid "other" 50 100]
       demo_claimed_continuation) = true.
Proof.
  assert (exists n, continuations demo_claimed_continuation !! demo_cid = Some n /\ leased_to "scheduler" n = true
    /\ n_leaseUntil n = Some 140%Z) as (n & Hn & Hl & Hu).
  { eexists. split; [vm_compute; reflexivity|]. split; reflexivity. }
  eapply (lease_holder_undisturbed _ demo_claimed_continuation demo_cid "scheduler" n 140 139 Hn Hl Hu); [|lia].
  apply Forall_cons. split; [unfold respects; lia|]. apply Forall_cons. split; [unfold respects; discriminate|].
  apply Forall_cons. split; [unfold respects; right; discriminate|]. apply Forall_nil. exact I.
Defined.

Lemma claim_starts_next_attempt_witness :
  exists cid n' r' ev d' a, claimContinuation "run" "scheduler" 100 40 demo_queued = Ok (Some (cid, n', r', ev), d')
    /\ attempts d' !! attempt_id "run" 2 = Some a /\ a_status a = A_running /\ Consistent d'.
Proof.
  assert (exists cid n' r' ev d', claimContinuation "run" "scheduler" 100 40 demo_queued = Ok (Some (cid, n', r', ev), d')
    /\ r_attempt r' = 2%Z) as (cid & n' & r' & ev & d' & Hs & Hr).
  { do 5 eexists. split; [vm_compute; reflexivity|reflexivity]. }
  destruct (claim_starts_next_attempt "run" "scheduler" 100 40 demo_queued cid n' r' ev d' demo_queued_consistent Hs)
    as (n & r & a & _ & _ & _ & _ & _ & _ & _ & _ & Ha & Hst & _ & _ & _ & _ & Hcon & _).
  rewrite Hr in Ha. exists cid, n', r', ev, d', a. auto.
Defined.
