(* ===== verification/AttemptLive.v ===== *)
(** What the calls of the repository achieve: the whole effect of a settlement,
    that an active Attempt can always be cancelled, that recovery and the
    proposal of a Candidate can be repeated, and that the start-up interruption
    stops at an Attempt that is settling. *)
From S2P Require Import Prelude Json TaskPolicy Attempt ExecDb Canonical AttemptRepo RunStore Transition Tools Mailbox RuntimeMutation AttemptSpec StoreSpec Demo AttemptRefine StoreRefine AttemptTrace PortSteps.
Local Open Scope tx_scope.

(** One statement of a transaction, run on a database whose rows the context knows. *)
Ltac step := erewrite tx_bind_run; cbv beta; [|first
  [ reflexivity
  | apply present_run; eassumption
  | apply require_run
  | eapply update_attempt_run; [eassumption| |eassumption..]; cbn
  | eapply update_run_run; [eassumption|]; cbn
  | eapply update_lease_run; [eassumption|..]; cbn
  | apply insert_event_run; eassumption ]].

Section live.
Context `{Platform}.

(** ** Settlement *)

Definition settled_phase (r : RunRow) (st : TerminalAttemptStatus) : RunPhase :=
  match st with TA_completed => P_done | TA_blocked => P_blocked | _ => r_phase r end.

Definition answer_of (r : RunRow) (c : CandidateRow) (st : TerminalAttemptStatus) (ts : Z) : list MessageRow :=
  if bool_decide (st = TA_completed) && negb (blank (c_response c))
  then [{| m_sessionId := r_sessionId r; m_role := "assistant"; m_content := c_response c; m_createdAt := ts |}]
  else [].

(** The events of a verdict: a rejection comes before the event of a block. *)
Definition verdict_seq (r : RunRow) (st : TerminalAttemptStatus) : Z :=
  (r_lastEventSeq r + if bool_decide (st = TA_blocked) then 2 else 1)%Z.

Definition verdict_events (a : AttemptRow) (r : RunRow) (c : CandidateRow) (x : DecisionRow) (sid : string)
    (st : TerminalAttemptStatus) (reason : string) (ts : Z) (m : gmap (string * Z) EventRow) : gmap (string * Z) EventRow :=
  <[(a_runId a, verdict_seq r st) := {| e_attemptId := a_id a; e_type := "run." +:+ run_status_text (of_terminal st);
      e_data := JObj [("attemptId", JStr (a_id a)); ("candidateResultId", JStr (c_id c)); ("response", JStr (c_response c));
        ("supervisionDecisionId", JStr sid); ("action", JStr (action_text (d_action x))); ("reason", JStr reason)];
      e_createdAt := ts |}]>
  (if bool_decide (st = TA_blocked) then
     <[(a_runId a, r_lastEventSeq r + 1)%Z := {| e_attemptId := a_id a; e_type := "message.rejected";
         e_data := JObj [("response", JStr (c_response c)); ("reason", JStr reason);
           ("supervisionDecisionId", JStr sid); ("action", JStr (action_text (d_action x)))];
         e_createdAt := ts |}]> m
   else m).

(** The checkpoint of a TaskRun whose Attempt is over. *)
Definition final_checkpoint (a : AttemptRow) (seq ts : Z) (d : Db) : CheckpointRow :=
  let old := checkpoints d !! a_runId a in
  let tseq := last_transcript_seq (a_runId a) d in
  {| k_attempt := a_ordinal a; k_attemptId := a_id a; k_active := false; k_assistantPartial := ""; k_currentToolJson := "";
     k_lastEventSeq := match old with Some k => Z.max (k_lastEventSeq k) seq | None => seq end;
     k_lastTranscriptSeq := match old with Some k => Z.max (k_lastTranscriptSeq k) tseq | None => tseq end;
     k_updatedAt := ts |}.

Lemma finalize_exact a seq ts d u d' :
  finalizeAttemptProjectionCheckpoint (a_runId a) (a_id a) (a_ordinal a) seq ts d = Ok (u, d') ->
  d' = set_checkpoints (insert (a_runId a) (final_checkpoint a seq ts d)) d.
Proof.
  unfold finalizeAttemptProjectionCheckpoint. intros Hs. tx_inv Hs; bool_prop; try discriminate; unfold final_checkpoint;
    by match goal with E : checkpoints _ !! _ = _ |- _ => rewrite E end.
Qed.

Definition verdict_audit (a : AttemptRow) (st : TerminalAttemptStatus) (reason : string) (seq ts : Z) (d : Db) : AuditRow :=
  {| u_id := uuid (uuid_counter d); u_attemptId := a_id a; u_runId := a_runId a; u_ordinal := a_ordinal a;
     u_from := Some A_settling; u_to := of_run_status (of_terminal st); u_trigger := a_trigger a; u_scenario := "terminal";
     u_reason := reason; u_version := a_version a + 1; u_eventSequence := seq; u_createdAt := ts |}.

(** A database is its tables. *)
Lemma db_tables d : d = {| uuid_counter := uuid_counter d; runs := runs d; attempts := attempts d; leases := leases d;
  candidates := candidates d; decisions := decisions d; events := events d; checkpoints := checkpoints d; audit := audit d;
  messages := messages d; sessions := sessions d; transcript := transcript d; gates := gates d; uncertainties := uncertainties d;
  continuations := continuations d; controls := controls d; consumers := consumers d; inputs := inputs d; approvals := approvals d;
  inbox := inbox d; operations := operations d; tool_attempts := tool_attempts d; commands := commands d |}.
Proof. by destruct d. Qed.

(** C10. The whole effect of a settlement: the database after it is the one
    before it with these changes and no other. The Attempt and its TaskRun get
    the same terminal status and the same last event; the Candidate is accepted
    exactly when the Attempt completes, and rejected otherwise; the decision is
    executed and the lease released; the event of the verdict is logged, after
    the rejection where the verdict is a block; the checkpoint is handed to the
    Attempt and emptied, and its counters do not go back; one audit entry is
    added; and exactly when the Attempt completes and the response is not blank
    it is published to the session, whose time is set. *)
Theorem settle_effect attemptId v tok fence cid sid st reason ts d a' d' :
  Consistent d ->
  settleAttempt attemptId v tok fence cid sid st reason ts d = Ok (a', d') ->
  exists a r c x l, attempts d !! attemptId = Some a /\ runs d !! a_runId a = Some r /\ candidates d !! cid = Some c
    /\ decisions d !! sid = Some x /\ leases d !! attemptId = Some l
    /\ let seq := verdict_seq r st in
       a' = attempt_to a (of_run_status (of_terminal st)) false (v + 1) seq ts (Some ts)
       /\ d' = {| uuid_counter := S (uuid_counter d);
            runs := <[a_runId a := run_to r (of_terminal st) (settled_phase r st) reason seq
              (if bool_decide (st = TA_blocked) then None else Some ts) ts]> (runs d);
            attempts := <[attemptId := a']> (attempts d);
            leases := <[attemptId := lease_to l (l_leaseUntil l) (l_heartbeatAt l) (Some ts)]> (leases d);
            candidates := <[cid := candidate_to c (if bool_decide (st = TA_completed) then C_accepted else C_rejected) (Some ts)]>
              (candidates d);
            decisions := <[sid := decision_to x D_executed "" (Some ts)]> (decisions d);
            events := verdict_events a r c x sid st reason ts (events d);
            checkpoints := <[a_runId a := final_checkpoint a seq ts d]> (checkpoints d);
            audit := audit d ++ [verdict_audit a st reason seq ts d];
            messages := messages d ++ answer_of r c st ts;
            sessions := match answer_of r c st ts with
              | [] => sessions d
              | _ => alter (fun _ => {| s_updatedAt := ts |}) (r_sessionId r) (sessions d)
              end;
            transcript := transcript d; gates := gates d; uncertainties := uncertainties d; continuations := continuations d;
            controls := controls d; consumers := consumers d; inputs := inputs d; approvals := approvals d; inbox := inbox d;
            operations := operations d; tool_attempts := tool_attempts d; commands := commands d |}.
Proof.
  intros Hcon Hs. unfold settleAttempt in Hs. tx_inv Hs.
  all: repeat match goal with
    | E : finalizeAttemptProjectionCheckpoint _ _ _ _ _ _ = Ok _ |- _ => apply finalize_exact in E end.
  all: db_inv; db_keys Hcon.
  all: cbn in Hs; rewrite lookup_insert_eq in Hs; injection Hs as <-.
  all: do 5 eexists; do 5 (split; [eassumption|]); cbn; subst; split.
  all: try match goal with x : TerminalAttemptStatus |- _ => destruct x end.
  all: try match goal with |- ?d' = Build_Db _ _ _ _ _ _ _ _ _ _ _ _ _ _ _ _ _ _ _ _ _ _ _ => etrans; [apply (db_tables d')|]; f_equal end.
  all: unfold verdict_seq, verdict_events, verdict_audit, answer_of, final_checkpoint, settled_phase, last_transcript_seq in *; cbn in *; try done.
  all: repeat erewrite alter_as_insert by eassumption.
  all: repeat match goal with E : blank _ = _ |- _ => rewrite E in * | E : d_status _ = _ |- _ => rewrite E
    | E : c_status _ = _ |- _ => rewrite E | E : a_status _ = _ |- _ => rewrite E end;
    rewrite ?String.eqb_refl, ?Z.eqb_refl, ?app_nil_r; cbn; rewrite <- ?Z.add_assoc; cbn; try done.
  all: match goal with E : _ && _ = false |- _ => rewrite E end; cbn; by rewrite ?app_nil_r.
Qed.

(** ** Cancellation *)

(** The row an Attempt is closed with meets the constraints of the table. *)
Lemma closing_row_ok d a st seq ts c :
  Consistent d -> attempts d !! a_id a = Some a -> isActiveAttemptStatus st = false -> (0 <= seq)%Z ->
  attempt_check (attempt_to a st false (a_version a + 1) seq ts c) = true
  /\ attempt_unique (attempt_to a st false (a_version a + 1) seq ts c) (attempts d) = true.
Proof.
  intros Hcon Ha Hst Hseq. destruct (con_attempt Hcon _ _ Ha) as [_ Hck]. split.
  - revert Hck. unfold attempt_check. cbn. rewrite Hst. intros Hck. bool_prop.
    rewrite !andb_true_iff, !Z.ltb_lt, Z.leb_le. repeat split; lia.
  - unfold attempt_unique. apply bool_decide_eq_true. intros i b Hb Hi Hc. apply Hi. cbn.
    eapply (con_unique Hcon); [exact Hb|exact Ha|]. apply attempts_conflict_sym.
    eapply conflict_weaken; [| | |exact Hc]; done.
Qed.

Lemma next_event_free d rid r : Consistent d -> runs d !! rid = Some r ->
  events d !! (rid, (r_lastEventSeq r + 1)%Z) = None /\ (0 <= r_lastEventSeq r)%Z.
Proof.
  intros Hcon Hr. destruct (con_log Hcon _ _ Hr) as [H0 Hg]. split; [|done].
  destruct (events d !! _) eqn:E; [|done]. exfalso.
  assert (1 <= r_lastEventSeq r + 1 <= r_lastEventSeq r)%Z; [|lia]. apply Hg. eauto.
Qed.

(** An active Attempt can always be cancelled: on a consistent database the
    cancellation of a running or settling Attempt whose run has no checkpoint
    of a later Attempt succeeds, whatever lease is out on it: no CHECK or UNIQUE
    constraint, version check or projection check can stop it. *)
Theorem active_attempt_cancellable d i a reason ts :
  Consistent d -> attempts d !! i = Some a -> a_status a = A_running \/ a_status a = A_settling ->
  (forall k, checkpoints d !! a_runId a = Some k -> k_attempt k <= a_ordinal a)%Z ->
  exists a' e d', cancelAttempt i reason ts d = Ok ((a', Some e, true), d')
    /\ a_status a' = A_cancelled /\ attempts d' !! i = Some a'.
Proof.
  intros Hcon Ha Hst Hk. pose proof (con_attempt Hcon _ _ Ha) as [Hi Hck]. subst i.
  assert (Hact : a_active a = true).
  { rewrite (attempt_check_active a Hck). by destruct Hst as [-> | ->]. }
  destruct (con_active Hcon _ _ Ha Hact) as (r & Hr & Hcur & Hrun).
  destruct (next_event_free d _ r Hcon Hr) as [Hfree H0].
  destruct (closing_row_ok d a A_cancelled (r_lastEventSeq r + 1) ts (Some ts) Hcon Ha eq_refl) as [C1 C2]; [lia|].
  assert (Hinc : includes (a_status a) [A_running; A_settling] = true) by (destruct Hst as [-> | ->]; reflexivity).
  assert (Htr : canTransitionAttempt (a_status a) A_cancelled = true) by (destruct Hst as [-> | ->]; reflexivity).
  unfold cancelAttempt. step. step.
  replace (bool_decide _) with false by (symmetry; apply bool_decide_eq_false; destruct Hst; congruence).
  cbn [andb]. step; [|by rewrite Hact, Hinc]. step. step; [|rewrite Hcur, Hrun; by rewrite Z.eqb_refl].
  unfold assertAttemptTransition, appendEventRow, reject_proposed_candidate, supersede_proposed_decisions,
    recordTerminalAudit, recordAudit.
  step; [|done]. step. step; [|by rewrite Hact, Z.eqb_refl, bool_decide_eq_true_2]. step.
  step; [|by rewrite Hrun, Hcur, Z.eqb_refl]. step. step. step. step.
  match goal with |- context [mbind _ (finalizeAttemptProjectionCheckpoint ?r ?i ?n ?s ?t) ?x] =>
    destruct (finalize_run r i n s t x) as [k Hfin]; [exact Hk|rewrite (tx_bind_run _ _ _ _ _ Hfin)] end.
  step. step. erewrite tx_bind_run; cbv beta; [|apply present_run; unfold getAttempt; cbn; apply lookup_insert_eq].
  do 3 eexists. split; [reflexivity|]. cbn. split; [done|apply lookup_insert_eq].
Qed.

(** ** Recovery *)

Definition no_pending_decision (d : Db) (rid : string) (n : Z) : Prop :=
  forall i x, decisions d !! i = Some x -> d_runId x = rid -> d_attempt x = n -> d_status x <> D_proposed.

Lemma update_where_lookup `{Countable K} {R} (p : R -> bool) f (m : gmap K R) i x :
  update_where p f m !! i = Some x -> exists y, m !! i = Some y /\ x = if p y then f y else y.
Proof. unfold update_where. rewrite lookup_fmap. intros (y & -> & Hy)%fmap_Some. eauto. Qed.

Lemma supersede_none rid n reason ts d u d' :
  supersede_proposed_decisions rid n reason ts d = Ok (u, d') -> no_pending_decision d' rid n.
Proof.
  unfold supersede_proposed_decisions. intros Hm. tx_inv Hm. intros i x Hx.
  apply update_where_lookup in Hx as (y & _ & ->). case_match eqn:E; cbn; [done|].
  intros <- <- Hp. rewrite !String.eqb_refl, Z.eqb_refl, Hp in E. by apply bool_decide_eq_false in E.
Qed.

Lemma exists_where_none `{Countable K} {R} (p : K -> R -> bool) (m : gmap K R) :
  (forall i x, m !! i = Some x -> p i x = false) -> exists_where p m = false.
Proof.
  intros Hp. unfold exists_where. rewrite bool_decide_eq_true_2; [done|]. apply map_empty. intros i.
  apply map_lookup_filter_None. right. intros x Hx. cbn. rewrite (Hp _ _ Hx). done.
Qed.

Lemma recover_result attemptId v owner tok fence reason sid ts d a' ev d' :
  Consistent d ->
  recoverInterruptedAttempt attemptId v owner tok fence reason sid ts d = Ok ((a', ev, true), d') ->
  exists l r, attempts d' !! attemptId = Some a' /\ a_status a' = A_interrupted /\ a_active a' = false
    /\ leases d' !! attemptId = Some l /\ l_ownerId l = owner /\ l_token l = tok /\ l_fence l = fence
    /\ l_releasedAt l = Some ts
    /\ runs d' !! a_runId a' = Some r /\ r_attempt r = a_ordinal a' /\ r_status r = R_interrupted
    /\ no_pending_decision d' (a_runId a') (a_ordinal a').
Proof.
  intros Hcon Hs. unfold recoverInterruptedAttempt in Hs. tx_inv Hs; simplify_eq.
  all: match goal with E : supersede_proposed_decisions _ _ _ _ _ = Ok _ |- _ => pose proof (supersede_none _ _ _ _ _ _ _ E) as Hnp end.
  all: db_inv; db_keys Hcon.
  all: match goal with Ha : <[_ := _]> _ !! _ = Some _ |- _ => cbn in Ha; rewrite lookup_insert_eq in Ha; injection Ha as <- end.
  all: match goal with E : leases _ !! _ = Some ?l |- _ => pose proof (proj1 (con_lease Hcon _ _ E)) as Hkey end.
  all: cbn; rewrite Hkey; do 2 eexists; split_and!; try apply lookup_insert_eq; try done; exact Hnp.
Qed.

(** Recovery can be repeated: once an Attempt was recovered, every later
    recovery call of the same holder (whatever version, reason, decision or
    time it gives) succeeds, reports that nothing was recovered and changes
    nothing. *)
Theorem recover_idempotent i v owner tok fence reason sid ts d a' ev d' v2 reason2 sid2 ts2 :
  Consistent d ->
  recoverInterruptedAttempt i v owner tok fence reason sid ts d = Ok ((a', ev, true), d') ->
  recoverInterruptedAttempt i v2 owner tok fence reason2 sid2 ts2 d' = Ok ((a', None, false), d').
Proof.
  intros Hcon Hs.
  pose proof (recover_closed _ _ _ _ _ _ _ _ _ _ _ _ _ Hcon Hs) as (a0 & r0 & r0' & rows & Hcl & _).
  pose proof (closed_consistent Hcon Hcl) as Hcon'.
  destruct (recover_result _ _ _ _ _ _ _ _ _ _ _ _ Hcon Hs)
    as (l & r & Ha & Hst & Hact & Hl & Ho & Ht & Hf & Hrel & Hr & Hcur & Hrs & Hnp).
  destruct (con_attempt Hcon' _ _ Ha) as [Hi _].
  assert (Hnc : forall j c, candidates d' !! j = Some c ->
    String.eqb (c_attemptId c) (a_id a') && bool_decide (c_status c = C_proposed) = false).
  { intros j c Hc. destruct (String.eqb_spec (c_attemptId c) (a_id a')) as [E|]; [|done]. cbn.
    apply bool_decide_eq_false. intros Hp. destruct (con_proposed Hcon' _ _ Hc Hp) as (b & Hb & Hset & _).
    rewrite E, Hi, Ha in Hb. congruence. }
  unfold recoverInterruptedAttempt. step. step. step. step; [|by rewrite Ho, String.eqb_refl].
  step; [|by rewrite Ht, String.eqb_refl]. step; [|by rewrite Hf, Z.eqb_refl].
  rewrite Hst, Hact, bool_decide_eq_true_2 by done. cbn. rewrite Hr. step; [|by rewrite Hcur, Hrs, Hrel, Z.eqb_refl].
  rewrite (exists_where_none _ (candidates d')); [|exact Hnc].
  rewrite (exists_where_none _ (decisions d')); [done|].
  intros j x Hx. destruct (String.eqb_spec (d_runId x) (a_runId a')) as [E1|]; [|done].
  destruct (Z.eqb_spec (d_attempt x) (a_ordinal a')) as [E2|]; [|done]. cbn.
  apply bool_decide_eq_false. eapply Hnp; eauto.
Qed.

(** ** Candidate replay *)

Lemma candidate_for_attempt d i j c :
  Consistent d -> candidates d !! j = Some c -> c_attemptId c = i -> getCandidateForAttempt i d = Some c.
Proof.
  intros Hcon Hc Hi. pose proof (getCandidateForAttempt_spec i d) as Hs.
  destruct (getCandidateForAttempt i d) as [c'|]; [|by destruct (Hs _ _ Hc)].
  destruct Hs as (k & Hk & Hk2). assert (j = k) as <- by (eapply (con_one_candidate Hcon); eauto; congruence).
  congruence.
Qed.

Lemma requireLease_run d i l tok fence ts :
  leases d !! i = Some l -> l_token l = tok -> l_fence l = fence -> l_releasedAt l = None -> (ts < l_leaseUntil l)%Z ->
  requireLease i tok fence ts None d = Ok (l, d).
Proof.
  intros Hl <- <- Hrel Hts. unfold requireLease. step. step. step; [|apply String.eqb_refl].
  step; [|apply Z.eqb_refl]. step. step; [|by rewrite Hrel]. step; [|apply negb_true_iff, Z.leb_gt; lia]. done.
Qed.

Lemma record_result cid i v tok fence response ts d c d' :
  Consistent d -> recordCandidateResult cid i v tok fence response ts d = Ok (c, d') ->
  exists a l, attempts d' !! i = Some a /\ leases d' !! i = Some l /\ l_token l = tok /\ l_fence l = fence
    /\ l_releasedAt l = None /\ l_attemptVersion l = v /\ a_version a = (v + 1)%Z /\ c_attemptVersion c = (v + 1)%Z.
Proof.
  intros Hcon Hs. unfold recordCandidateResult in Hs. tx_inv Hs; db_inv; db_keys Hcon.
  { do 2 eexists. split_and!; try eassumption; try done; lia. }
  all: cbn in *; do 2 eexists; split_and!; try apply lookup_insert_eq; try eassumption; cbn; (done || lia).
Qed.

(** Proposing a Candidate can be repeated: while the lease is live, a
    repeated call with the same response (under any Candidate id) returns the
    stored Candidate and changes nothing. *)
Theorem candidate_replay cid i v tok fence response ts d c d' cid2 ts2 :
  Consistent d -> recordCandidateResult cid i v tok fence response ts d = Ok (c, d') ->
  (forall l, leases d' !! i = Some l -> (ts2 < l_leaseUntil l)%Z) ->
  recordCandidateResult cid2 i v tok fence response ts2 d' = Ok (c, d').
Proof.
  intros Hcon Hs Hlive.
  destruct (record_result _ _ _ _ _ _ _ _ _ _ Hcon Hs) as (a & l & Ha & Hl & Ht & Hf & Hrel & Hv & Hav & Hcv).
  apply record_proposed in Hs as (Hresp & Hhash & Hi & Hs); [|done].
  assert (Consistent d' /\ candidates d' !! c_id c = Some c) as [Hcon' Hc].
  { destruct Hs as [[-> ?]|(b & _ & _ & Hp)]; [done|]. split; [by eapply proposed_consistent|].
    rewrite (pr_candidates _ _ _ _ _ Hp). by rewrite lookup_insert_eq. }
  pose proof (candidate_for_attempt _ _ _ _ Hcon' Hc Hi) as Hg. specialize (Hlive _ Hl).
  unfold recordCandidateResult. step. step. unfold id. rewrite Hg.
  rewrite (tx_bind_run _ _ _ _ _ (requireLease_run _ _ _ _ _ _ Hl Ht Hf Hrel Hlive)).
  step; [|by rewrite Hv, Hav, Hcv, !Z.eqb_refl]. step; [|by rewrite Hresp, Hhash, !String.eqb_refl]. done.
Qed.

(** ** The start-up interruption *)

Lemma map_result_throws {A B} (f : A -> result B) l x e :
  x ∈ l -> f x = Throw e -> exists e', map_result f l = Throw e'.
Proof.
  intros Hx Hf. destruct (map_result f l) as [ys|e'] eqn:E; [|eauto].
  destruct (map_result_elem f l ys x E Hx) as [y Hy]. congruence.
Qed.

(** C36. The start-up interruption cannot pass a settling Attempt. On a consistent
    database one Attempt whose Candidate waits for its settlement makes the
    interruption of the active TaskRuns throw, so none is interrupted: the
    start-up of a service that died between proposing and settling a Candidate
    fails, and fails again, until that Attempt is cancelled or recovered. *)
Theorem settling_blocks_startup d i a ts :
  Consistent d -> attempts d !! i = Some a -> a_status a = A_settling ->
  exists e, transitionSystem (JObj [("kind", JStr "startup_interrupt_active")])
    (JObj [("kind", JStr "lifecycle_interrupt"); ("component", JStr "execution_lifecycle_service"); ("phase", JStr "startup")]) ts d = Throw e.
Proof.
  intros Hcon Ha Hst. destruct (con_attempt Hcon _ _ Ha) as [Hi Hck].
  assert (Hact : a_active a = true) by (by rewrite (attempt_check_active a Hck), Hst).
  destruct (con_active Hcon _ _ Ha Hact) as (r & Hr & Hcur & Hrun).
  assert (r ∈ running_runs d) as Hin.
  { unfold running_runs. rewrite list_elem_of_In, filter_In, <- list_elem_of_In, Hrun. split; [|done].
    apply list_elem_of_fmap. exists (a_runId a, r). split; [done|by apply elem_of_map_to_list]. }
  assert (exists e, interruptible d r = Throw e) as [e He].
  { unfold interruptible. destruct (getAttemptForRun (r_id r) (r_attempt r) d) as [b|] eqn:Eb; [|by eexists].
    apply getAttemptForRun_spec in Eb as (j & Hj & E1 & E2). rewrite (con_run Hcon _ _ Hr) in E1.
    assert (j = i) as -> by (by rewrite (con_named Hcon _ _ Hj), (con_named Hcon _ _ Ha), E1, E2, Hcur).
    rewrite Ha in Hj. injection Hj as <-. cbn [expect mbind result_mbind]. rewrite Hst. by eexists. }
  destruct (map_result_throws (interruptible d)
    (merge_sort (fun a b => Is_true (String.leb (r_id a) (r_id b))) (running_runs d)) r e) as [e' He'];
    [by rewrite merge_sort_Permutation|done|].
  exists e'. change (interruptActive ts d = Throw e').
  unfold interruptActive, listInterruptibleSystemAttempts, mbind, tx_mbind, gets, lift. cbn [id]. by rewrite He'.
Qed.
End live.

(** * Witnesses *)

Definition demo_leased : Db := execs (take 1 demo_ops) demo_db.
Definition demo_proposed : Db := execs (take 2 demo_ops) demo_db.

Lemma demo_leased_consistent : Consistent demo_leased.
Proof. apply repository_consistent, demo_consistent. Qed.

Lemma demo_proposed_consistent : Consistent demo_proposed.
Proof. apply repository_consistent, demo_consistent. Qed.

Lemma settle_effect_witness :
  exists a' d' r c, settleAttempt demo_id 2 "uuid-0" 1 "candidate" "decision" TA_completed "done" 30 demo_proposed = Ok (a', d')
    /\ attempts d' = <[demo_id := a']> (attempts demo_proposed)
    /\ messages d' = messages demo_proposed ++ answer_of r c TA_completed 30.
Proof.
  assert (exists a' d', settleAttempt demo_id 2 "uuid-0" 1 "candidate" "decision" TA_completed "done" 30 demo_proposed
    = Ok (a', d')) as (a' & d' & Hs).
  { do 2 eexists. vm_compute. reflexivity. }
  destruct (settle_effect _ _ _ _ _ _ _ _ _ _ _ _ demo_proposed_consistent Hs)
    as (a & r & c & x & l & _ & _ & _ & _ & _ & _ & E).
  exists a', d', r, c. split; [exact Hs|]. rewrite E. by split.
Defined.

Lemma active_attempt_cancellable_witness :
  exists a' e d', cancelAttempt demo_id "stop" 40 demo_proposed = Ok ((a', Some e, true), d')
    /\ a_status a' = A_cancelled /\ attempts d' !! demo_id = Some a'.
Proof.
  eapply active_attempt_cancellable; [exact demo_proposed_consistent|vm_compute; reflexivity|by right|].
  intros k E. vm_compute in E. discriminate E.
Defined.

Lemma recover_idempotent_witness :
  exists a' ev d', recoverInterruptedAttempt demo_id 1 "worker" "uuid-0" 1 "crash" None 50 demo_proposed = Ok ((a', ev, true), d')
    /\ recoverInterruptedAttempt demo_id 1 "worker" "uuid-0" 1 "again" None 60 d' = Ok ((a', None, false), d').
Proof.
  do 3 eexists. split; [vm_compute; reflexivity|].
  eapply (recover_idempotent demo_id 1 "worker" "uuid-0" 1 "crash" None 50 demo_proposed);
    [exact demo_proposed_consistent|vm_compute; reflexivity].
Defined.

Lemma candidate_replay_witness :
  exists c d', recordCandidateResult "candidate" demo_id 1 "uuid-0" 1 "answer" 20 demo_leased = Ok (c, d')
    /\ recordCandidateResult "other" demo_id 1 "uuid-0" 1 "answer" 30 d' = Ok (c, d').
Proof.
  do 2 eexists. split; [vm_compute; reflexivity|].
  eapply (candidate_replay "candidate" demo_id 1 "uuid-0" 1 "answer" 20 demo_leased);
    [exact demo_leased_consistent|vm_compute; reflexivity|].
  intros l E. vm_compute in E. injection E as <-. vm_compute. reflexivity.
Defined.

Lemma settling_blocks_startup_witness :
  exists e, transitionSystem (JObj [("kind", JStr "startup_interrupt_active")])
    (JObj [("kind", JStr "lifecycle_interrupt"); ("component", JStr "execution_lifecycle_service"); ("phase", JStr "startup")]) 50
    demo_proposed = Throw e.
Proof.
  eapply (settling_blocks_startup demo_proposed demo_id); [exact demo_proposed_consistent|vm_compute; reflexivity|reflexivity].
Defined.
