(* ===== verification/AttemptHold.v ===== *)
(** What the holder of an execution lease can count on: the lease keeps fitting
    the Attempt it was granted for, and while it is not taken over or released
    its holder can recover the Attempt, whether it runs or settles and whether
    or not the lease has expired. *)
From S2P Require Import Prelude Json Attempt ExecDb AttemptRepo AttemptSpec StoreSpec Demo AttemptRefine StoreRefine AttemptTrace PortSteps PortTrace AttemptLive.
Local Open Scope tx_scope.

(** A lease meets the CHECKs of its table, and the Attempt of a lease, as long as
    it is active, runs at the version of the lease or settles at the next one. *)
Definition fits_row (a : AttemptRow) (l : LeaseRow) : Prop :=
  lease_check l = true /\ (a_active a = true ->
  a_status a = A_running /\ a_version a = l_attemptVersion l
  \/ a_status a = A_settling /\ a_version a = (l_attemptVersion l + 1)%Z).

Definition fits (d : Db) : Prop :=
  forall i l, leases d !! i = Some l -> exists a, attempts d !! i = Some a /\ fits_row a l.

Lemma leased_fits d d' i : fits d -> leased d d' i -> fits d'.
Proof.
  intros Hf [Ha _ _ _ _ Hl] j l. rewrite Ha. destruct Hl as [->|(l' & _ & _ & -> & Hv & _)]; [apply Hf|].
  rewrite lookup_insert_Some. intros [[<- <-]|[_ Hj]]; [|by apply Hf].
  destruct Hv as [Hck [(a & Hi & Hr & Hv)|(l0 & Hl0 & Hv)]].
  - exists a. split; [done|]. split; [done|]. intros _. by left.
  - destruct (Hf _ _ Hl0) as (a & Hi & _ & Hfit). exists a. split; [done|]. split; [done|]. by rewrite Hv.
Qed.

(** The row of one Attempt changes, the leases do not. *)
Lemma fits_insert d d' (a a' : AttemptRow) :
  fits d -> leases d' = leases d -> attempts d' = <[a_id a := a']> (attempts d) ->
  (forall l, leases d !! a_id a = Some l -> (forall b, attempts d !! a_id a = Some b -> fits_row b l) -> fits_row a' l) -> fits d'.
Proof.
  intros Hf Hl Ha Hrow i l. rewrite Hl, Ha. intros Hi. destruct (Hf _ _ Hi) as (b & Hb & Hfit). rewrite lookup_insert.
  destruct (decide (a_id a = i)) as [<-|]; [|by exists b].
  exists a'. split; [done|]. apply Hrow; [done|]. intros b'. by rewrite Hb; intros [= <-].
Qed.

Lemma proposed_fits d d' a c ts : fits d -> proposed d d' a c ts -> fits d'.
Proof.
  intros Hf [Ha [Hr Hact] Has _ _ Hl _ _ _ _]. eapply fits_insert; [done|done|exact Has|]. intros l _ Hfit.
  destruct (Hfit _ Ha) as [Hck Hv]. split; [done|]. intros _. right. cbn. split; [done|]. destruct (Hv Hact) as [[_ ->]|[Hs _]]; [done|congruence].
Qed.

Lemma closed_fits d d' a a' r r' s rows ts : fits d -> closed d d' a a' r r' s rows ts -> fits d'.
Proof.
  intros Hf Hc i l Hi. destruct (cl_closed Hc) as (Hin & _).
  assert (exists l0, leases d !! i = Some l0 /\ l_attemptVersion l = l_attemptVersion l0 /\ (lease_check l0 = true -> lease_check l = true))
    as (l0 & Hl0 & Hv & Hck).
  { destruct (cl_released Hc i) as [E|(_ & l0 & Hl0 & E)]; rewrite E in Hi; [by exists l|]. injection Hi as <-. by exists l0. }
  destruct (Hf _ _ Hl0) as (b & Hb & Hck0 & Hfit). rewrite (cl_attempts Hc), lookup_insert.
  destruct (decide (a_id a = i)) as [<-|].
  - exists a'. split; [done|]. split; [auto|]. by rewrite Hin.
  - exists b. split; [done|]. split; [auto|]. by rewrite Hv.
Qed.

Lemma moved_fits d d' i r r' a a' rows : Consistent d -> fits d -> moved d d' i r r' a a' rows -> fits d'.
Proof.
  intros Hcon Hf Hm. eapply fits_insert; [done|apply (mv_leases Hm)|apply (mv_attempts Hm)|]. intros l _ Hfit.
  destruct (Hfit _ (mv_attempt Hm)) as [Hck Hv0]. split; [done|]. intros Hact.
  pose proof (mv_active Hm Hact) as Hact0. clear Hfit. rename Hv0 into Hfit. specialize (Hfit Hact0).
  destruct (mv_status Hm) as [(Hs & Hv & _)|([Hns Hmov] & Hs & _)]; [by rewrite Hs, Hv|exfalso].
  pose proof (attempt_check_active a' (mv_check Hm)) as Hc. rewrite Hact in Hc.
  destruct Hfit as [[Hrun _]|[Hset _]]; [|done]. rewrite Hrun in Hmov. rewrite Hs in Hmov, Hc.
  destruct (r_status r'); try discriminate Hc.
  destruct Hmov as [Hstep|Hout]; [discriminate Hstep|]. apply (bool_decide_pack _) in Hout. by vm_compute in Hout.
Qed.

Lemma started_fits d d' i r' a : fits d -> started d d' i r' a -> fits d'.
Proof.
  intros Hf Hs j l. rewrite (st_leases Hs), (st_attempts Hs). intros Hj. destruct (Hf _ _ Hj) as (b & Hb & Hfit).
  rewrite lookup_insert_ne; [by exists b|]. intros <-. pose proof (st_fresh Hs). congruence.
Qed.

Lemma step_fits d d' : Consistent d -> fits d -> store_step d d' -> fits d'.
Proof.
  intros Hcon Hf [i [j ->|j Hl|a c ts Hp|a a' r r' s rows ts Hc]|i r r' a a' rows Hm|i r' a Hs|Ha];
    eauto using leased_fits, proposed_fits, closed_fits, moved_fits, started_fits.
  intros i l. rewrite (as_leases _ _ Ha), (as_attempts _ _ Ha). apply Hf.
Qed.

Lemma steps_fits d d' : Consistent d -> fits d -> rtc store_step d d' -> fits d'.
Proof. intros Hcon Hf. apply steps_ind; eauto using step_fits. Qed.

(** * The types of the rows *)

(** Every row of the execution tables is stored under its own identifier, meets
    the CHECK constraints of its table and refers to rows that are there. *)
Record WellTyped (d : Db) : Prop := {
  ty_run : forall i r, runs d !! i = Some r -> r_id r = i /\ (0 < r_attempt r)%Z
    /\ exists a, attempts d !! attempt_id i (r_attempt r) = Some a;
  ty_attempt : forall i a, attempts d !! i = Some a -> a_id a = i /\ i = attempt_id (a_runId a) (a_ordinal a)
    /\ (0 < a_ordinal a)%Z /\ (0 < a_version a)%Z /\ (0 <= a_eventSequence a)%Z /\ a_active a = isActiveAttemptStatus (a_status a)
    /\ exists r, runs d !! a_runId a = Some r /\ (a_ordinal a <= r_attempt r)%Z;
  ty_lease : forall i l, leases d !! i = Some l -> l_attemptId l = i /\ (0 < l_fence l)%Z /\ (0 < l_attemptVersion l)%Z
    /\ (l_heartbeatAt l <= l_leaseUntil l)%Z /\ exists a, attempts d !! i = Some a;
  ty_event : forall i s, is_Some (events d !! (i, s)) -> exists r, runs d !! i = Some r /\ (1 <= s <= r_lastEventSeq r)%Z;
}.

Lemma typed d : Consistent d -> fits d -> WellTyped d.
Proof.
  intros Hcon Hf. assert (forall i a, attempts d !! i = Some a -> (0 < a_ordinal a)%Z /\ (0 < a_version a)%Z /\ (0 <= a_eventSequence a)%Z
    /\ a_active a = isActiveAttemptStatus (a_status a)) as Hck.
  { intros i a Ha. destruct (con_attempt Hcon _ _ Ha) as [_ Hck]. unfold attempt_check in Hck. bool_prop.
    split_and!; [done..|]. by apply Bool.eqb_prop. }
  split.
  - intros i r Hr. destruct (con_has_current Hcon _ _ Hr) as (a & Ha & _ & Ho). split; [by eapply con_run|].
    split; [rewrite <- Ho; apply (Hck _ _ Ha)|by exists a].
  - intros i a Ha. destruct (con_attempt Hcon _ _ Ha) as [Hi _]. destruct (Hck _ _ Ha) as (H1 & H2 & H3 & H4).
    split_and!; [done|by eapply con_named|done..|by eapply con_ordinal].
  - intros i l Hl. destruct (con_lease Hcon _ _ Hl) as [Hi Hpos]. destruct (Hf _ _ Hl) as (a & Ha & Hlc & _).
    unfold lease_check in Hlc. bool_prop. split_and!; [done..|by exists a].
  - intros i s Hs. destruct (con_event Hcon _ _ Hs) as [r Hr]. exists r. split; [done|]. by apply (con_log Hcon _ _ Hr).
Qed.

(** The rows of the execution tables stay well typed under any schedule of
    the calls of PortTrace.v: keys, CHECK constraints and references hold, the
    identifier of an Attempt is built from its TaskRun and ordinal, the events
    of a TaskRun are numbered within its sequence, and the current Attempt of
    every TaskRun is there. *)
Theorem ports_well_typed `{Platform} ops d : Consistent d -> fits d -> WellTyped (calls ops d).
Proof.
  intros Hcon Hf. pose proof (calls_steps ops d Hcon) as Hs. apply typed; [by eapply steps_consistent|by eapply steps_fits].
Qed.

(** * Recovery *)

Definition proposed_for (d : Db) (a : AttemptRow) (sid : string) : Prop :=
  exists x, decisions d !! sid = Some x /\ d_runId x = a_runId a /\ d_attempt x = a_ordinal a /\ d_status x = D_proposed.

Section recover.
Context `{Platform}.

(** C38. In a consistent database whose leases fit their Attempts ([step_fits]
    keeps both), the holder of a lease that nobody took over or released can
    recover the active Attempt of the lease, running or settling, even after the
    lease expired, as long as the checkpoint of the TaskRun is of no later
    Attempt and the decision it names, if any, is a proposed one for the
    Attempt: no version, Candidate, projection or constraint stands in the way,
    and the Attempt is interrupted and inactive afterwards. *)
Theorem holder_can_recover d i a l reason sid ts :
  Consistent d -> fits d -> attempts d !! i = Some a -> a_active a = true ->
  leases d !! i = Some l -> l_releasedAt l = None ->
  (forall k, checkpoints d !! a_runId a = Some k -> k_attempt k <= a_ordinal a)%Z ->
  (forall s, sid = Some s -> proposed_for d a s) ->
  exists a' e d', recoverInterruptedAttempt i (l_attemptVersion l) (l_ownerId l) (l_token l) (l_fence l) reason sid ts d
      = Ok ((a', Some e, true), d')
    /\ attempts d' !! i = Some a' /\ a_status a' = A_interrupted /\ a_active a' = false.
Proof.
  intros Hcon Hf Ha Hact Hl Hrel Hk Hdec. pose proof (con_attempt Hcon _ _ Ha) as [Hi Hck]. subst i.
  destruct (con_active Hcon _ _ Ha Hact) as (r & Hr & Hcur & Hrun).
  destruct (next_event_free d _ r Hcon Hr) as [Hfree H0].
  destruct (closing_row_ok d a A_interrupted (r_lastEventSeq r + 1) ts None Hcon Ha eq_refl) as [C1 C2]; [lia|].
  destruct (Hf _ _ Hl) as (b & Hb & Hlck & Hfit). rewrite Ha in Hb. injection Hb as <-. specialize (Hfit Hact).
  assert (Htr : canTransitionAttempt (a_status a) A_interrupted = true) by (destruct Hfit as [[-> _]|[-> _]]; reflexivity).
  assert (Hcand : a_status a = A_settling -> exists c, getCandidateForAttempt (a_id a) d = Some c
    /\ c_status c = C_proposed /\ c_attemptVersion c = a_version a).
  { intros Hs. destruct (con_settling Hcon _ _ Ha Hs) as (c & Hc & Hca & Hcs). exists c.
    split; [by eapply candidate_for_attempt|]. split; [done|].
    destruct (con_proposed Hcon _ _ Hc Hcs) as (x & Hx & _ & Hv). rewrite Hca, Ha in Hx. by injection Hx as <-. }
  unfold recoverInterruptedAttempt. step. step. step. step; [|apply String.eqb_refl]. step; [|apply String.eqb_refl].
  step; [|apply Z.eqb_refl].
  replace (bool_decide (a_status a = A_interrupted)) with false
    by (symmetry; apply bool_decide_eq_false; destruct Hfit as [[-> _]|[-> _]]; done).
  cbn [andb]. step; [|by rewrite Hrel]. step.
  2:{ rewrite Hact. destruct Hfit as [[Hs Hv]|[Hs Hv]]; rewrite Hs, Hv; cbn; [by rewrite Z.eqb_refl|].
    destruct (Hcand Hs) as (c & Hc & Hcs & Hcv). by rewrite Hc, Hcs, Hcv, Hv, !Z.eqb_refl. }
  step; [|apply Z.eqb_refl]. step. step; [|by rewrite Hcur, Hrun, Z.eqb_refl].
  match goal with |- context [mbind _ ?m d] => assert (m d = Ok (tt, d)) as Hg end.
  { destruct sid as [s|]; [|reflexivity]. destruct (Hdec s eq_refl) as (x & Hx & E1 & E2 & E3). apply require_run.
    unfold id. by rewrite Hx, E1, E2, E3, String.eqb_refl, Z.eqb_refl. }
  rewrite (tx_bind_run _ _ _ _ _ Hg).
  unfold assertAttemptTransition, appendEventRow, reject_proposed_candidate, supersede_proposed_decisions,
    recordTerminalAudit, recordAudit.
  step; [|done]. step. step; [|by rewrite Hact, Z.eqb_refl, bool_decide_eq_true_2]. step.
  step; [|by rewrite Hrun, Hcur, Z.eqb_refl]. step. step. step.
  destruct (con_lease Hcon _ _ Hl) as [Hkey Hpos].
  step; [|by rewrite Hrel, String.eqb_refl, Z.eqb_refl|exact Hlck]. step.
  match goal with |- context [mbind _ (finalizeAttemptProjectionCheckpoint ?r ?i ?n ?s ?t) ?x] =>
    destruct (finalize_run r i n s t x) as [k Hfin]; [exact Hk|rewrite (tx_bind_run _ _ _ _ _ Hfin)] end.
  step. step. erewrite tx_bind_run; cbv beta; [|apply present_run; unfold getAttempt; cbn; apply lookup_insert_eq].
  do 3 eexists. split; [reflexivity|]. cbn. split; [apply lookup_insert_eq|done].
Qed.
End recover.

(** * Witnesses *)

Lemma execs_fits `{Platform} ops d : Consistent d -> fits d -> fits (execs ops d).
Proof.
  intros Hcon Hf. apply (execs_ind fits); [done|done|]. intros x o Hx Hs Hfx.
  eapply step_fits; [exact Hx|exact Hfx|by eapply ss_repo].
Qed.

Lemma demo_fits : fits demo_db.
Proof. intros i l Hl. cbn in Hl. by rewrite lookup_empty in Hl. Qed.

Lemma ports_well_typed_witness : WellTyped (calls [Repo (Acquire demo_id 1 "worker" 1000 10); Repo (Record_ "candidate" demo_id 1 "uuid-0" 1 "answer" 20)] demo_db).
Proof. apply (ports_well_typed _ demo_db demo_consistent demo_fits). Defined.

(** A crash after the Candidate was recorded, long after the lease expired. *)
Lemma holder_can_recover_witness :
  exists a' e d', recoverInterruptedAttempt demo_id 1 "worker" "uuid-0" 1 "crash" None 5000 demo_proposed = Ok ((a', Some e, true), d')
    /\ attempts d' !! demo_id = Some a' /\ a_status a' = A_interrupted /\ a_active a' = false.
Proof.
  apply (holder_can_recover demo_proposed demo_id
    {| a_id := demo_id; a_runId := "run"; a_ordinal := 1; a_trigger := T_initial; a_status := A_settling; a_active := true;
       a_version := 2; a_eventSequence := 1; a_startedAt := 0; a_updatedAt := 20; a_completedAt := None |}
    {| l_attemptId := demo_id; l_ownerId := "worker"; l_token := "uuid-0"; l_fence := 1; l_attemptVersion := 1;
       l_leaseUntil := 1010; l_heartbeatAt := 10; l_releasedAt := None |} "crash" None 5000).
  - exact demo_proposed_consistent.
  - apply execs_fits; [apply demo_consistent|apply demo_fits].
  - vm_compute. reflexivity.
  - reflexivity.
  - vm_compute. reflexivity.
  - vm_compute. reflexivity.
  - intros k Hk. vm_compute in Hk. discriminate Hk.
  - intros s. discriminate.
Defined.
