(* ===== verification/AuditAlgebra.v ===== *)
(** The completion algebra of the Supervisor: which action the failures of the
    gates derive (packages/governance/src/domain/governance.ts), and how the
    gates of a completion audit are reconciled with the criterion coverage and
    the accepted uncertainties before that
    (application/supervisor-audit-algebra.ts). *)
From S2P Require Import Prelude GateData ExecDb.

(** * Data *)

(** The members of an accepted uncertainty the algebra reads. *)
Record AcceptedUncertainty := { au_id : string; au_criterionId : string }.

Record CompletionAuditGate := {
  passed : bool; failures : list GateFailure; criterionCoverage : option (list CriterionCoverage); summary : string }.

Inductive CompletionAuditGateType := progress | evidence | contract | completion | continuation.

#[export] Instance CompletionAuditGateType_eq_dec : EqDecision CompletionAuditGateType.
Proof. solve_decision. Defined.

(** [Record<CompletionAuditGateType, CompletionAuditGate>] *)
Definition Gates : Type := CompletionAuditGateType -> CompletionAuditGate.

Record CompletionAuditAlgebraInput := {
  action : SupervisorAction; reasonCode : string; rationale : string; gates : Gates }.

Inductive AuditProfile := relaxed | strict.

#[export] Instance AuditProfile_eq_dec : EqDecision AuditProfile.
Proof. solve_decision. Defined.

(** * governance.ts *)

Definition deriveSupervisorAction (fs : list GateFailure) : SupervisorAction :=
  if bool_decide (fs = []) then S_complete_taskrun
  else if existsb (fun f => bool_decide (disposition f = needs_approval)) fs then S_pause_for_approval
  else if existsb (fun f => includes (disposition f) [needs_user_input; external_dependency; non_recoverable]) fs
  then S_block_taskrun
  else S_start_continuation.

(** * supervisor-audit-algebra.ts *)

Definition nul : string := String.String Ascii.zero String.EmptyString.

Definition failure_key (f : GateFailure) : string :=
  kind f +:+ nul +:+ key f +:+ nul +:+ reason f +:+ nul +:+ disposition_text (disposition f).

Fixpoint unique_from (seen : list string) (fs : list GateFailure) : list GateFailure :=
  match fs with
  | [] => []
  | f :: fs' =>
      if includes (failure_key f) seen then unique_from seen fs' else f :: unique_from (failure_key f :: seen) fs'
  end.

Definition uniqueFailures (fs : list GateFailure) : list GateFailure := unique_from [] fs.

Definition set_passed (b : bool) (g : CompletionAuditGate) : CompletionAuditGate :=
  {| passed := b; failures := failures g; criterionCoverage := criterionCoverage g; summary := summary g |}.
Definition set_failures (fs : list GateFailure) (g : CompletionAuditGate) : CompletionAuditGate :=
  {| passed := passed g; failures := fs; criterionCoverage := criterionCoverage g; summary := summary g |}.
Definition set_coverage (c : option (list CriterionCoverage)) (g : CompletionAuditGate) : CompletionAuditGate :=
  {| passed := passed g; failures := failures g; criterionCoverage := c; summary := summary g |}.

Definition ac (index : nat) : string := "ac-" +:+ pretty (S index).
Definition acceptance_criterion (index : nat) : string := "acceptance_criterion_" +:+ pretty (S index).

(** [new Map(...)] keeps the last uncertainty of a criterion. *)
Definition acceptedByCriterion (us : list AcceptedUncertainty) (criterionId : string) : option AcceptedUncertainty :=
  List.find (fun u => String.eqb (au_criterionId u) criterionId) (rev us).

Definition acceptable (s : CoverageStatus) : bool := bool_decide (s = unsupported) || bool_decide (s = blocked).

(** The uncertainty that qualifies the coverage at [index] of the contract gate. *)
Definition qualifies (us : list AcceptedUncertainty) (index : nat) (c : CriterionCoverage) : option AcceptedUncertainty :=
  if acceptable (cov_status c) then acceptedByCriterion us (ac index) else None.

Definition with_acceptance (us : list AcceptedUncertainty) (index : nat) (c : CriterionCoverage) : CriterionCoverage :=
  match qualifies us index c with
  | Some u => {| criterion := criterion c; cov_status := cov_status c; evidenceRefs := evidenceRefs c;
                 evidenceQuotes := evidenceQuotes c; acceptedUncertaintyId := Some (au_id u); cov_reason := cov_reason c |}
  | None => c
  end.

(** Only the contract gate owns the criterion identifiers of the TaskRun. *)
Definition accepted_keys (us : list AcceptedUncertainty) (cs : list CriterionCoverage) : list string :=
  concat (imap (fun i c => match qualifies us i c with Some _ => [ac i; acceptance_criterion i] | None => [] end) cs).

Definition excused (keys : list string) (f : GateFailure) : bool :=
  String.eqb (kind f) "contract" && includes (key f) keys.

(** The gate after the acceptance of uncertainties. *)
Definition accepted_gate (us : list AcceptedUncertainty) (keys : list string) (type : CompletionAuditGateType)
    (g : CompletionAuditGate) : CompletionAuditGate :=
  let g1 := if bool_decide (type = contract) then set_coverage (imap (with_acceptance us) <$> criterionCoverage g) g else g in
  let kept :=
    if bool_decide (type = contract) || bool_decide (type = completion)
    then List.filter (fun f => negb (excused keys f)) (failures g1) else failures g1 in
  let g2 := set_failures kept g1 in
  if Nat.ltb (length kept) (length (failures g1)) && bool_decide (kept = []) then set_passed true g2 else g2.

(** [Boolean(coverage.acceptedUncertaintyId)] *)
Definition has_acceptance (c : CriterionCoverage) : bool :=
  match acceptedUncertaintyId c with Some i => negb (String.eqb i "") | None => false end.

Definition coverage_ok (profile : AuditProfile) (c : CriterionCoverage) : bool :=
  bool_decide (cov_status c = covered) || has_acceptance c
  || bool_decide (profile = relaxed) && bool_decide (cov_status c = unsupported).

Definition coverage_failure (index : nat) (c : CriterionCoverage) : GateFailure :=
  {| kind := "contract"; key := acceptance_criterion index;
     reason := "Acceptance criterion is " +:+ coverage_text (cov_status c) +:+ ": " +:+ cov_reason c;
     disposition := if bool_decide (cov_status c = blocked) then external_dependency else auto_fixable |}.

Definition coverage_failures (profile : AuditProfile) (cs : list CriterionCoverage) : list GateFailure :=
  concat (imap (fun i c => if coverage_ok profile c then [] else [coverage_failure i c]) cs).

Definition inconsistent_gate_state : GateFailure :=
  {| kind := "supervisor"; key := "inconsistent_gate_state";
     reason := "A Supervisor Gate reported failure without an auditable failure reason; completion is fail-closed.";
     disposition := non_recoverable |}.

Definition set_gate (t : CompletionAuditGateType) (g : CompletionAuditGate) (gs : Gates) : Gates :=
  fun t' => if bool_decide (t' = t) then g else gs t'.

(** The contract gate once its coverage was turned into failures. *)
Definition contract_gate (profile : AuditProfile) (source accepted : CompletionAuditGate) : CompletionAuditGate :=
  let fs := uniqueFailures (failures accepted ++ coverage_failures profile (default [] (criterionCoverage accepted))) in
  let coveragePassed := forallb (coverage_ok profile) <$> criterionCoverage accepted in
  set_passed (bool_decide (fs = []) && default (passed source) coveragePassed) (set_failures fs accepted).

Definition audited_types : list CompletionAuditGateType := [progress; evidence; contract; completion].

Definition unexplained (source : Gates) : bool :=
  existsb (fun t => negb (passed (source t)) && bool_decide (failures (source t) = [])) audited_types.

(** The completion gate, from the gates before it. *)
Definition completion_failures (source gs : Gates) : list GateFailure :=
  let fs := uniqueFailures (failures (gs completion) ++ failures (gs progress) ++ failures (gs evidence) ++ failures (gs contract)) in
  if bool_decide (fs = []) && unexplained source then fs ++ [inconsistent_gate_state] else fs.

Definition completion_gate (source gs : Gates) : CompletionAuditGate :=
  let fs := completion_failures source gs in
  set_passed (passed (gs progress) && passed (gs evidence) && passed (gs contract) && bool_decide (fs = []))
    (set_failures fs (gs completion)).

Definition reconciled_gates (source : Gates) (profile : AuditProfile) (us : list AcceptedUncertainty) : Gates :=
  let keys := accepted_keys us (default [] (criterionCoverage (source contract))) in
  let gs1 : Gates := fun t => accepted_gate us keys t (source t) in
  let gs2 := set_gate contract (contract_gate profile (source contract) (gs1 contract)) gs1 in
  set_gate completion (completion_gate source gs2) gs2.

Definition enforceCompletionAuditAlgebra (source : CompletionAuditAlgebraInput) (profile : AuditProfile)
    (us : list AcceptedUncertainty) : CompletionAuditAlgebraInput :=
  let gs := reconciled_gates (gates source) profile us in
  let act := deriveSupervisorAction (failures (gs completion)) in
  {| action := act;
     reasonCode := if bool_decide (act = action source) then reasonCode source else "authoritative_" +:+ action_text act;
     rationale := if bool_decide (act = action source) then rationale source
       else rationale source +:+ " Core corrected an inconsistent proposed action using authoritative gate failures.";
     gates := gs |}.
