(* ===== verification/AuditFacts.v ===== *)
(** What the completion algebra of the Supervisor guarantees: its action and
    its completion gate agree, a completion is explained criterion by
    criterion, and a failed gate is never lost. *)
From S2P Require Import Prelude GateData ExecDb AuditAlgebra.

(** * The action algebra *)

Lemma derive_complete fs : deriveSupervisorAction fs = S_complete_taskrun <-> fs = [].
Proof.
  unfold deriveSupervisorAction. case_bool_decide; [by subst|].
  split; [|done]. destruct (existsb _ fs); [done|]. by destruct (existsb _ fs).
Qed.

Lemma derive_action fs :
  deriveSupervisorAction fs = S_pause_for_approval <-> Exists (fun f => disposition f = needs_approval) fs.
Proof.
  unfold deriveSupervisorAction. rewrite Exists_exists. case_bool_decide as E.
  - subst. split; [done|]. intros (f & Hf & _). by apply elem_of_nil in Hf.
  - destruct (existsb (fun f => bool_decide (disposition f = needs_approval)) fs) eqn:Ex.
    + split; [intros _|done]. apply existsb_exists in Ex as (f & Hf & Hd).
      bool_prop. exists f. split; [by apply list_elem_of_In|done].
    + split; [by destruct (existsb (fun f => includes _ _) fs)|]. intros (f & Hf & Hd). exfalso.
      rewrite <- not_true_iff_false in Ex. apply Ex, existsb_exists. exists f.
      split; [by apply list_elem_of_In|]. by rewrite Hd.
Qed.

(** Failures that are only repairable, or need an approval, continue the run or pause it. *)
Lemma derive_continues fs :
  fs <> [] -> (forall f, f ∈ fs -> disposition f = auto_fixable \/ disposition f = needs_approval) ->
  deriveSupervisorAction fs = S_start_continuation \/ deriveSupervisorAction fs = S_pause_for_approval.
Proof.
  intros Hne Hd. unfold deriveSupervisorAction. rewrite bool_decide_eq_false_2 by done.
  destruct (existsb (fun f => bool_decide (disposition f = needs_approval)) fs) eqn:Ea; [by right|left].
  destruct (existsb (fun f => includes _ _) fs) eqn:Eb; [|done]. exfalso.
  apply existsb_exists in Eb as (f & Hf & Hi). apply list_elem_of_In in Hf.
  destruct (Hd f Hf) as [E|E]; rewrite E in Hi; [done|].
  rewrite <- not_true_iff_false in Ea. apply Ea, existsb_exists. exists f.
  split; [by apply list_elem_of_In|by rewrite E].
Qed.

(** * Unique failures *)

Lemma unique_from_nil seen fs :
  unique_from seen fs = [] -> forall f, f ∈ fs -> failure_key f ∈ seen.
Proof.
  revert seen. induction fs as [|g fs IH]; intros seen H f Hf; [by apply elem_of_nil in Hf|].
  cbn in H. destruct (includes (failure_key g) seen) eqn:E; [|done].
  apply elem_of_cons in Hf as [->|Hf]; [by apply includes_spec|by apply IH].
Qed.

Lemma unique_nil fs : uniqueFailures fs = [] -> fs = [].
Proof.
  intros H. destruct fs as [|f fs]; [done|]. exfalso.
  eapply not_elem_of_nil, (unique_from_nil _ _ H f). by left.
Qed.

(** A failure left out is represented by one with its key, so with its disposition. *)
Lemma unique_from_keeps seen fs f :
  f ∈ fs -> failure_key f ∈ seen \/ exists g, g ∈ unique_from seen fs /\ failure_key g = failure_key f.
Proof.
  revert seen. induction fs as [|h fs IH]; intros seen Hf; [by apply elem_of_nil in Hf|]. cbn.
  destruct (includes (failure_key h) seen) eqn:E; apply elem_of_cons in Hf as [->|Hf].
  - left. by apply includes_spec.
  - by apply IH.
  - right. exists h. split; [by left|done].
  - destruct (IH (failure_key h :: seen) Hf) as [Hin|(g & Hg & Hk)].
    + apply elem_of_cons in Hin as [Hin|Hin]; [|by left]. right. exists h. split; [by left|done].
    + right. exists g. split; [by right|done].
Qed.

Lemma failure_key_disposition f g : failure_key f = failure_key g -> disposition f = disposition g.
Proof.
  assert (forall h, failure_key h
    = (kind h +:+ nul +:+ key h +:+ nul +:+ reason h) +:+ String.String Ascii.zero (disposition_text (disposition h))) as Hk.
  { intros h. unfold failure_key. rewrite !string_app_assoc. done. }
  rewrite !Hk. intros E. apply last_sep_inj in E as [_ E]; [|by destruct (disposition f)|by destruct (disposition g)].
  by destruct (disposition f), (disposition g).
Qed.

Lemma concat_imap_nil {A B} (f : nat -> A -> list B) l :
  concat (imap f l) = [] <-> forall i x, l !! i = Some x -> f i x = [].
Proof.
  revert f. induction l as [|y l IH]; intros f; cbn; [split; [intros _ i x H; by rewrite lookup_nil in H|done]|].
  rewrite app_nil, (IH (fun n => f (S n))). split.
  - intros [H1 H2] [|i] x Hx; cbn in Hx; [by simplify_eq|by apply H2].
  - intros H. split; [by apply (H 0)|]. intros i x Hx. by apply (H (S i)).
Qed.

Lemma concat_imap_elem {A B} (f : nat -> A -> list B) l b :
  b ∈ concat (imap f l) <-> exists i x, l !! i = Some x /\ b ∈ f i x.
Proof.
  revert f. induction l as [|y l IH]; intros f; cbn.
  - split; [intros H; by apply elem_of_nil in H|]. intros (i & x & H & _). by rewrite lookup_nil in H.
  - rewrite elem_of_app, (IH (fun n => f (S n))). split.
    + intros [H|(i & x & Hx & H)]; [by exists 0, y|by exists (S i), x].
    + intros ([|i] & x & Hx & H); cbn in Hx; [left; by simplify_eq|right; by exists i, x].
Qed.

Lemma unique_keeps fs f :
  f ∈ fs -> exists g, g ∈ uniqueFailures fs /\ disposition g = disposition f.
Proof.
  intros H. destruct (unique_from_keeps [] fs f H) as [Hn|(g & Hg & Hk)]; [by apply elem_of_nil in Hn|].
  exists g. split; [done|by apply failure_key_disposition].
Qed.

(** * Acceptance of uncertainties *)

(** The criterion at [i] of the contract gate is qualified by a decision of the operator. *)
Definition accepted_at (us : list AcceptedUncertainty) (g : CompletionAuditGate) (i : nat) : Prop :=
  exists cs c u, criterionCoverage g = Some cs /\ cs !! i = Some c /\ (cov_status c = unsupported \/ cov_status c = blocked)
    /\ u ∈ us /\ au_criterionId u = ac i.

(** A failure the acceptances excuse: of the contract, and about an accepted criterion. *)
Definition excusable (us : list AcceptedUncertainty) (g : CompletionAuditGate) (f : GateFailure) : Prop :=
  kind f = "contract" /\ exists i, accepted_at us g i /\ (key f = ac i \/ key f = acceptance_criterion i).

Lemma acceptable_spec s : acceptable s = true <-> s = unsupported \/ s = blocked.
Proof. unfold acceptable. by rewrite orb_true_iff, !bool_decide_eq_true. Qed.

Lemma accepted_by_spec us i u : acceptedByCriterion us i = Some u -> u ∈ us /\ au_criterionId u = i.
Proof.
  intros H. apply List.find_some in H as [H1 H2]. bool_prop.
  split; [|done]. by apply list_elem_of_In, In_rev.
Qed.

Lemma qualifies_accepted us g cs i c u :
  criterionCoverage g = Some cs -> cs !! i = Some c -> qualifies us i c = Some u -> accepted_at us g i.
Proof.
  unfold qualifies. intros Hg Hc H. destruct (acceptable (cov_status c)) eqn:E; [|done].
  apply acceptable_spec in E. apply accepted_by_spec in H as [Hu Hk]. by exists cs, c, u.
Qed.

Lemma excused_spec us g f :
  excused (accepted_keys us (default [] (criterionCoverage g))) f = true -> excusable us g f.
Proof.
  unfold excused. intros H. bool_prop. split; [done|].
  destruct (criterionCoverage g) as [cs|] eqn:Eg; cbn in *; [|by rewrite elem_of_nil in *].
  apply concat_imap_elem in H0 as (i & c & Hc & Hk). exists i.
  destruct (qualifies us i c) as [u|] eqn:Eq; [|by apply elem_of_nil in Hk].
  split; [by eapply qualifies_accepted|]. by rewrite !elem_of_cons, elem_of_nil in Hk; destruct Hk as [?|[?|[]]]; [left|right].
Qed.

(** A failure the acceptance leaves out was excusable. *)
Lemma accepted_gate_keeps us g type g0 f :
  f ∈ failures g0 ->
  f ∈ failures (accepted_gate us (accepted_keys us (default [] (criterionCoverage g))) type g0) \/ excusable us g f.
Proof.
  intros Hf. set (keys := accepted_keys _ _). destruct (excused keys f) eqn:E; [right; by apply excused_spec|left].
  unfold accepted_gate. set (g1 := if bool_decide (type = contract) then _ else _).
  assert (failures g1 = failures g0) as H1 by (subst g1; by case_bool_decide).
  rewrite H1. set (kept := if _ || _ then _ else _).
  assert (f ∈ kept) as Hk.
  { subst kept. destruct (_ || _); [|done].
    apply list_elem_of_In, filter_In. split; [by apply list_elem_of_In|]. by rewrite E. }
  by destruct (_ && _).
Qed.

(** Only the gates whose failures name criteria of the contract change before the reconciliation. *)
Lemma accepted_gate_other us keys type g :
  type <> contract -> type <> completion -> accepted_gate us keys type g = g.
Proof.
  intros H1 H2. unfold accepted_gate. rewrite !bool_decide_eq_false_2 by done. cbn -[Nat.ltb].
  rewrite Nat.ltb_irrefl. by destruct g.
Qed.

Lemma accepted_coverage us keys g :
  criterionCoverage (accepted_gate us keys contract g) = imap (with_acceptance us) <$> criterionCoverage g.
Proof. unfold accepted_gate. rewrite bool_decide_eq_true_2 by done. by destruct (_ && _). Qed.

(** * The reconciled gates *)

Section enforced.
Context (source : CompletionAuditAlgebraInput) (profile : AuditProfile) (us : list AcceptedUncertainty).

#[local] Abbreviation src := (gates source).
#[local] Abbreviation out := (reconciled_gates src profile us).
#[local] Abbreviation keys := (accepted_keys us (default [] (criterionCoverage (src contract)))).

Lemma out_progress : out progress = src progress.
Proof. by apply accepted_gate_other. Qed.

Lemma out_evidence : out evidence = src evidence.
Proof. by apply accepted_gate_other. Qed.

Lemma out_contract : out contract = contract_gate profile (src contract) (accepted_gate us keys contract (src contract)).
Proof. done. Qed.

Lemma completion_list :
  failures (out completion) = [] ->
  unexplained src = false /\ failures (src progress) = [] /\ failures (src evidence) = [] /\ failures (out contract) = []
  /\ failures (accepted_gate us keys completion (src completion)) = [].
Proof.
  intros H. change (completion_failures src (set_gate contract (out contract) (fun t => accepted_gate us keys t (src t))) = []) in H.
  unfold completion_failures in H. case_bool_decide as E; cbn [andb] in H; [|done].
  destruct (unexplained src); [by apply app_nil in H as [_ H]|]. apply unique_nil in E.
  apply app_nil in E as [E1 E]. apply app_nil in E as [E2 E]. apply app_nil in E as [E3 E4].
  change (failures (out progress) = []) in E2. change (failures (out evidence) = []) in E3.
  by rewrite out_progress in E2; rewrite out_evidence in E3.
Qed.

Lemma explained t : unexplained src = false -> t ∈ audited_types -> failures (src t) = [] -> passed (src t) = true.
Proof.
  unfold unexplained. intros H Ht Hf. destruct (passed (src t)) eqn:E; [done|]. exfalso.
  rewrite <- not_true_iff_false in H. apply H, existsb_exists. exists t.
  split; [by apply list_elem_of_In|]. by rewrite E, Hf.
Qed.

(** The criteria of the contract once its gate has no failure left. *)
Lemma contract_criteria cs i c :
  failures (out contract) = [] -> criterionCoverage (src contract) = Some cs -> cs !! i = Some c ->
  coverage_ok profile (with_acceptance us i c) = true.
Proof.
  rewrite out_contract. intros H Hcs Hc. apply unique_nil, app_nil in H as [_ H].
  rewrite accepted_coverage, Hcs in H. cbn in H. unfold coverage_failures in H. rewrite concat_imap_nil in H.
  specialize (H i (with_acceptance us i c)). rewrite list_lookup_imap, Hc in H. specialize (H eq_refl).
  by destruct (coverage_ok _ _).
Qed.

Lemma contract_passed :
  unexplained src = false -> failures (out contract) = [] -> passed (out contract) = true.
Proof.
  intros Hu H. assert (failures (out contract) = [] -> passed (out contract)
    = default (passed (src contract)) (forallb (coverage_ok profile) <$> criterionCoverage (accepted_gate us keys contract (src contract)))) as Hp.
  { rewrite out_contract. intros E. cbn -[accepted_gate]. by rewrite bool_decide_eq_true_2 by exact E. }
  rewrite (Hp H), accepted_coverage. destruct (criterionCoverage (src contract)) as [cs|] eqn:Ec; cbn [fmap option_fmap option_map default].
  - apply forallb_forall. intros x Hx. apply list_elem_of_In, list_elem_of_lookup in Hx as [i Hi].
    rewrite list_lookup_imap in Hi. destruct (cs !! i) as [c|] eqn:Hc; [|done]. cbn in Hi. simplify_eq.
    by eapply contract_criteria.
  - apply explained; [done|set_solver|]. destruct (failures (src contract)) as [|f fs] eqn:Ef; [done|]. exfalso.
    assert (f ∈ failures (src contract)) as Hf by (rewrite Ef; by left).
    destruct (accepted_gate_keeps us (src contract) contract (src contract) f Hf) as [Hk|(_ & i & (cs & ? & ? & E & _) & _)];
      [|by rewrite Ec in E].
    rewrite out_contract in H. apply unique_nil, app_nil in H as [H _]. rewrite H in Hk.
    by apply elem_of_nil in Hk.
Qed.

(** Once the completion gate has no failure, the audited gates have all passed. *)
Lemma completed_gates t : failures (out completion) = [] -> t ∈ audited_types -> passed (out t) = true.
Proof.
  intros H Ht. pose proof (completion_list H) as (Hu & Hp & He & Hc & _).
  assert (passed (out progress) = true /\ passed (out evidence) = true /\ passed (out contract) = true) as (H1 & H2 & H3).
  { rewrite out_progress, out_evidence, contract_passed by done. by rewrite !explained by (done || set_solver). }
  unfold audited_types in Ht. rewrite !elem_of_cons, elem_of_nil in Ht. destruct Ht as [->|[->|[->|[->|[]]]]]; try done.
  change (passed (out progress) && passed (out evidence) && passed (out contract)
    && bool_decide (failures (out completion) = []) = true).
  by rewrite H1, H2, H3, bool_decide_eq_true_2.
Qed.

(** A failure of an audited gate reaches the completion gate unless an acceptance excuses it. *)
Lemma audited_failure t f :
  t ∈ audited_types -> f ∈ failures (src t) ->
  (t = contract \/ t = completion) /\ excusable us (src contract) f
  \/ exists g, g ∈ failures (out completion) /\ disposition g = disposition f.
Proof.
  intros Ht Hf.
  set (gs := set_gate contract (out contract) (fun t => accepted_gate us keys t (src t))).
  assert (forall h, h ∈ failures (gs completion) ++ failures (gs progress) ++ failures (gs evidence) ++ failures (gs contract) ->
    exists g, g ∈ failures (out completion) /\ disposition g = disposition h) as Hin.
  { intros h Hh. apply unique_keeps in Hh as (g & Hg & Hd). exists g. split; [|done].
    change (g ∈ completion_failures src gs). unfold completion_failures. destruct (_ && _); [|done]. apply elem_of_app. by left. }
  unfold audited_types in Ht. rewrite !elem_of_cons, elem_of_nil in Ht. destruct Ht as [->|[->|[->|[->|[]]]]].
  - right. apply Hin. rewrite !elem_of_app. right. left. change (f ∈ failures (out progress)). by rewrite out_progress.
  - right. apply Hin. rewrite !elem_of_app. right. right. left. change (f ∈ failures (out evidence)). by rewrite out_evidence.
  - destruct (accepted_gate_keeps us (src contract) contract (src contract) f Hf) as [Hk|He]; [right|left; auto].
    destruct (unique_keeps (failures (accepted_gate us keys contract (src contract))
      ++ coverage_failures profile (default [] (criterionCoverage (accepted_gate us keys contract (src contract))))) f) as (g & Hg & Hd).
    { apply elem_of_app. by left. }
    destruct (Hin g) as (g' & Hg' & Hd'); [|exists g'; split; [done|congruence]].
    rewrite !elem_of_app. right. right. right. done.
  - destruct (accepted_gate_keeps us (src contract) completion (src completion) f Hf) as [Hk|He]; [right|left; auto].
    apply Hin. rewrite !elem_of_app. by left.
Qed.
Lemma unique_sub seen fs f : f ∈ unique_from seen fs -> f ∈ fs.
Proof.
  revert seen. induction fs as [|g fs IH]; intros seen H; [done|]. cbn in H.
  destruct (includes (failure_key g) seen); [right; by eapply IH|].
  apply elem_of_cons in H as [->|H]; [by left|right; by eapply IH].
Qed.

Lemma accepted_gate_sub us' ks type g f : f ∈ failures (accepted_gate us' ks type g) -> f ∈ failures g.
Proof.
  unfold accepted_gate. set (g1 := if bool_decide (type = contract) then _ else _).
  assert (failures g1 = failures g) as H1 by (subst g1; by case_bool_decide). rewrite H1.
  assert (forall l, f ∈ (if bool_decide (type = contract) || bool_decide (type = completion)
    then List.filter (fun x => negb (excused ks x)) l else l) -> f ∈ l) as Hsub.
  { intros l. destruct (_ || _); [|done]. intros H. apply list_elem_of_In, filter_In in H as [H _]. by apply list_elem_of_In. }
  destruct (_ && _); intros H; by apply Hsub in H.
Qed.

(** Where a failure of the completion gate comes from. *)
Lemma completion_source f :
  f ∈ failures (out completion) ->
  (exists t, t ∈ audited_types /\ f ∈ failures (src t))
  \/ f ∈ coverage_failures profile (default [] (imap (with_acceptance us) <$> criterionCoverage (src contract)))
  \/ f = inconsistent_gate_state /\ unexplained src = true /\ failures (src progress) = [] /\ failures (src evidence) = []
      /\ failures (accepted_gate us keys completion (src completion)) = [].
Proof.
  set (gs := set_gate contract (out contract) (fun t => accepted_gate us keys t (src t))).
  change (f ∈ completion_failures src gs -> (exists t, t ∈ audited_types /\ f ∈ failures (src t))
    \/ f ∈ coverage_failures profile (default [] (imap (with_acceptance us) <$> criterionCoverage (src contract)))
    \/ f = inconsistent_gate_state /\ unexplained src = true /\ failures (src progress) = [] /\ failures (src evidence) = []
        /\ failures (accepted_gate us keys completion (src completion)) = []).
  assert (f ∈ uniqueFailures (failures (gs completion) ++ failures (gs progress) ++ failures (gs evidence) ++ failures (gs contract)) ->
    (exists t, t ∈ audited_types /\ f ∈ failures (src t))
    \/ f ∈ coverage_failures profile (default [] (imap (with_acceptance us) <$> criterionCoverage (src contract)))) as Hu.
  { intros H. apply unique_sub in H. rewrite !elem_of_app in H. destruct H as [H|[H|[H|H]]].
    - left. exists completion. split; [set_solver|exact (accepted_gate_sub us keys completion _ f H)].
    - left. exists progress. split; [set_solver|exact (accepted_gate_sub us keys progress _ f H)].
    - left. exists evidence. split; [set_solver|exact (accepted_gate_sub us keys evidence _ f H)].
    - change (f ∈ failures (out contract)) in H. rewrite out_contract in H. apply unique_sub, elem_of_app in H as [H|H].
      + left. exists contract. split; [set_solver|]. by eapply accepted_gate_sub.
      + right. by rewrite accepted_coverage in H. }
  unfold completion_failures. destruct (_ && _) eqn:E; [|intros H; destruct (Hu H); auto].
  apply andb_true_iff in E as [E Eu]. bool_prop. intros [Hf|Hf]%elem_of_app; [destruct (Hu Hf); auto|].
  apply list_elem_of_singleton in Hf as ->. right. right.
  apply unique_nil, app_nil in E as [E1 E2]. apply app_nil in E2 as [E2 E3]. apply app_nil in E3 as [E3 E4].
  change (failures (accepted_gate us keys progress (src progress)) = []) in E2.
  change (failures (accepted_gate us keys evidence (src evidence)) = []) in E3.
  rewrite accepted_gate_other in E2, E3 by done. auto.
Qed.
End enforced.

(** * Properties *)

(** The action the algebra derives and the completion gate it reports agree:
    the action is [complete_taskrun] exactly when the completion gate passed,
    although the gate's verdict also asks for the three gates before it. *)
Theorem action_matches_gate s profile us :
  action (enforceCompletionAuditAlgebra s profile us) = S_complete_taskrun
  <-> passed (gates (enforceCompletionAuditAlgebra s profile us) completion) = true.
Proof.
  change (deriveSupervisorAction (failures (reconciled_gates (gates s) profile us completion)) = S_complete_taskrun
    <-> passed (reconciled_gates (gates s) profile us completion) = true).
  rewrite derive_complete. split.
  - intros H. apply (completed_gates s profile us); [done|set_solver].
  - intros H. apply andb_true_iff in H as [_ H]. bool_prop. exact H.
Qed.

(** What a completion of the algebra accounts for. *)
Lemma completion_accounts s profile us :
  action (enforceCompletionAuditAlgebra s profile us) = S_complete_taskrun ->
  (forall t, t ∈ audited_types ->
    (failures (gates s t) = [] -> passed (gates s t) = true)
    /\ forall f, f ∈ failures (gates s t) -> (t = contract \/ t = completion) /\ excusable us (gates s contract) f)
  /\ forall cs i c, criterionCoverage (gates s contract) = Some cs -> cs !! i = Some c ->
    cov_status c = covered \/ accepted_at us (gates s contract) i \/ has_acceptance c = true
    \/ profile = relaxed /\ cov_status c = unsupported.
Proof.
  intros H. apply derive_complete in H. change (failures (reconciled_gates (gates s) profile us completion) = []) in H.
  pose proof (completion_list s profile us H) as (Hu & _ & _ & Hc & _). split.
  - intros t Ht. split; [by apply explained|]. intros f Hf.
    destruct (audited_failure s profile us t f Ht Hf) as [He|(g & Hg & _)]; [done|].
    rewrite H in Hg. by apply elem_of_nil in Hg.
  - intros cs i c Hcs Hi. pose proof (contract_criteria s profile us cs i c Hc Hcs Hi) as Hok.
    unfold coverage_ok, with_acceptance in Hok. destruct (qualifies us i c) as [u|] eqn:Eq.
    { right. left. by eapply qualifies_accepted. }
    apply orb_true_iff in Hok as [Hok|Hok]; [apply orb_true_iff in Hok as [Hok|Hok]|]; bool_prop; auto 6.
Qed.


(** A required approval is never lost: a failure of an audited gate that
    needs approval pauses the TaskRun, whatever the proposed action, the other
    failures and the accepted uncertainties, unless it is a contract failure
    about a criterion the operator accepted. *)
Theorem approval_pauses s profile us t f :
  t ∈ audited_types -> f ∈ failures (gates s t) -> disposition f = needs_approval ->
  ~ excusable us (gates s contract) f ->
  action (enforceCompletionAuditAlgebra s profile us) = S_pause_for_approval.
Proof.
  intros Ht Hf Hd Hn. apply derive_action, Exists_exists.
  destruct (audited_failure s profile us t f Ht Hf) as [[_ He]|(g & Hg & Hgd)]; [done|].
  exists g. split; [exact Hg|congruence].
Qed.

(** * Witnesses *)

Definition demo_coverage (i : string) (st : CoverageStatus) (acc : option string) : CriterionCoverage :=
  {| criterion := i; cov_status := st; evidenceRefs := []; evidenceQuotes := None; acceptedUncertaintyId := acc;
     cov_reason := "no source" |}.

Definition demo_failure (k i : string) (d : Disposition) : GateFailure :=
  {| kind := k; key := i; reason := "open"; disposition := d |}.

Definition clean_gate : CompletionAuditGate :=
  {| passed := true; failures := []; criterionCoverage := None; summary := "" |}.

(** A blocked second criterion, with the failures a review reports for it, and a pending approval or not. *)
Definition demo_audit (cs : list CriterionCoverage) (extra : list GateFailure) : CompletionAuditAlgebraInput :=
  {| action := S_block_taskrun; reasonCode := "blocked"; rationale := "A criterion is blocked.";
     gates := fun t => match t with
       | contract => {| passed := false; failures := [demo_failure "contract" "ac-2" external_dependency];
                        criterionCoverage := Some cs; summary := "" |}
       | completion => {| passed := false; failures := demo_failure "contract" "acceptance_criterion_2" external_dependency :: extra;
                          criterionCoverage := None; summary := "" |}
       | _ => clean_gate
       end |}.

Definition demo_criteria : list CriterionCoverage := [demo_coverage "a" covered None; demo_coverage "b" blocked None].
Definition demo_accepted : list AcceptedUncertainty := [{| au_id := "uncertainty:r:d2"; au_criterionId := "ac-2" |}].
Definition demo_approval : GateFailure := demo_failure "approval" "external_action_attempt_authorization" needs_approval.


Lemma approval_pauses_witness :
  action (enforceCompletionAuditAlgebra (demo_audit demo_criteria [demo_approval]) strict demo_accepted) = S_pause_for_approval.
Proof.
  apply (approval_pauses _ _ _ completion demo_approval); [by repeat constructor|by repeat constructor|done|].
  intros [H _]. discriminate H.
Defined.

(** * An acceptance outlives its decision

    The audit of a settlement marks the accepted coverage with the identifier
    of the uncertainty and drops its failures, and the re-adjudication of the
    blocked Candidate (run-governance-application.ts, acceptRunUncertainty)
    starts from those stored gates: the criterion stays accepted although the
    decision that accepted it has expired in between. *)
Definition settled_audit : CompletionAuditAlgebraInput :=
  enforceCompletionAuditAlgebra (demo_audit [demo_coverage "a" unsupported None; demo_coverage "b" blocked None] [])
    strict [{| au_id := "uncertainty:r:d1"; au_criterionId := "ac-1" |}].

Lemma expired_acceptance_completes :
  action settled_audit = S_block_taskrun
  /\ action (enforceCompletionAuditAlgebra settled_audit strict demo_accepted) = S_complete_taskrun
  /\ action (enforceCompletionAuditAlgebra (demo_audit [demo_coverage "a" unsupported None; demo_coverage "b" blocked None] [])
        strict demo_accepted) = S_start_continuation.
Proof. by vm_compute. Qed.
