(* ===== verification/PlanGraph.v ===== *)
(** The dependency graph of a TaskRun's plan (adapters/persistence-sqlite/src/
    store.ts, cyclicPlanItemKeys): the depth-first search that reports the plan
    items on a dependency cycle, its termination, and that it reports nothing
    exactly when the plan is acyclic. *)
From S2P Require Import Prelude.

(** * Plan items (packages/governance/src/domain/governance.ts) *)

Inductive PlanStatus := PI_pending | PI_in_progress | PI_done | PI_blocked | PI_skipped.

#[export] Instance PlanStatus_eq_dec : EqDecision PlanStatus.
Proof. solve_decision. Defined.

Definition plan_status_text (s : PlanStatus) : string :=
  match s with
  | PI_pending => "pending" | PI_in_progress => "in_progress" | PI_done => "done" | PI_blocked => "blocked"
  | PI_skipped => "skipped"
  end.

(** [pi_semantic] is [schemaVersion === 2]; an absent list is [None]. *)
Record PlanItem := {
  pi_key : string; pi_title : string; pi_status : PlanStatus; pi_required : bool; pi_position : Z;
  pi_semantic : bool; pi_objectiveIds : option (list string); pi_criterionIds : option (list string);
  pi_dependencies : option (list string); pi_createdAttempt : option Z; pi_updatedAttempt : option Z;
  pi_replanReason : option string; pi_completionEvidenceRefs : option (list string);
}.

#[export] Instance PlanItem_eq_dec : EqDecision PlanItem.
Proof. solve_decision. Defined.

(** * The search *)

(** [dependencies]: a map keeps the last value of a key, at the place of the first. *)
Definition dependency_entries (plan : list PlanItem) : list (string * list string) :=
  map (fun item => (pi_key item, default [] (pi_dependencies item))) (List.filter pi_semantic plan).

Definition dependency_map (plan : list PlanItem) : gmap string (list string) :=
  fold_left (fun m kv => <[kv.1 := kv.2]> m) (dependency_entries plan) ∅.

Definition dependency_keys (plan : list PlanItem) : list string := dedup (map fst (dependency_entries plan)).

Record Search := { visited : gset string; active : gmap string nat; stack : list string; cyclic : gset string }.

Definition no_search : Search := {| visited := ∅; active := ∅; stack := []; cyclic := ∅ |}.

(** [cyclic.add] of every member of the stack from [from] on. *)
Definition mark_cyclic (from : nat) (st : Search) : Search :=
  {| visited := visited st; active := active st; stack := stack st;
     cyclic := cyclic st ∪ list_to_set (drop from (stack st)) |}.

Definition enter (key : string) (st : Search) : Search :=
  {| visited := visited st; active := <[key := length (stack st)]> (active st); stack := stack st ++ [key];
     cyclic := cyclic st |}.

(** [stack.pop(); active.delete(key); visited.add(key)] *)
Definition leave (key : string) (st : Search) : Search :=
  {| visited := {[key]} ∪ visited st; active := delete key (active st);
     stack := take (length (stack st) - 1) (stack st); cyclic := cyclic st |}.

Fixpoint fold_search (f : string -> Search -> option Search) (keys : list string) (st : Search) : option Search :=
  match keys with
  | [] => Some st
  | k :: keys' => st' ← f k st; fold_search f keys' st'
  end.

(** [fuel] bounds the depth of the recursion: [None] when it is exhausted. *)
Fixpoint visit (fuel : nat) (dependencies : gmap string (list string)) (key : string) (st : Search) : option Search :=
  match fuel with
  | O => None
  | S fuel' =>
      match active st !! key with
      | Some activeIndex => Some (mark_cyclic activeIndex st)
      | None =>
          if bool_decide (key ∈ visited st) then Some st
          else
            st' ← fold_search (visit fuel' dependencies)
              (List.filter (fun d => bool_decide (is_Some (dependencies !! d))) (default [] (dependencies !! key)))
              (enter key st);
            Some (leave key st')
      end
  end.

Definition sort_strings (l : list string) : list string := merge_sort (fun a b => Is_true (String.leb a b)) l.

(** The depth of the search never exceeds the number of keys. *)
Definition cyclicPlanItemKeys (plan : list PlanItem) : option (list string) :=
  let keys := dependency_keys plan in
  let dependencies := dependency_map plan in
  st ← fold_search (visit (S (size dependencies)) dependencies) keys no_search;
  Some (sort_strings (elements (cyclic st))).

(** * The graph of a plan *)

Definition depends (g : gmap string (list string)) (k d : string) : Prop :=
  exists ds, g !! k = Some ds /\ d ∈ ds /\ is_Some (g !! d).

Definition on_cycle (g : gmap string (list string)) (k : string) : Prop := tc (depends g) k k.

Definition acyclic (g : gmap string (list string)) : Prop := forall k, ~ on_cycle g k.

(** * Correctness of the search *)

Section search.
Context (g : gmap string (list string)).

Record search_inv (st : Search) : Prop := {
  si_active : forall k i, active st !! k = Some i <-> stack st !! i = Some k;
  si_nodup : NoDup (stack st);
  si_dom : forall k, k ∈ stack st -> is_Some (g !! k);
  si_path : forall i a b, stack st !! i = Some a -> stack st !! S i = Some b -> depends g a b;
  si_apart : forall k, k ∈ stack st -> k ∉ visited st;
  si_cyclic : forall k, k ∈ cyclic st -> on_cycle g k;
  si_closed : cyclic st = ∅ -> forall k, k ∈ visited st -> Acc (flip (depends g)) k;
}.

(** What a visit of [keys] leaves behind. *)
Record visit_post (keys : list string) (st st' : Search) : Prop := {
  vp_inv : search_inv st';
  vp_stack : stack st' = stack st;
  vp_active : active st' = active st;
  vp_visited : visited st ⊆ visited st';
  vp_cyclic : cyclic st ⊆ cyclic st';
  vp_seen : forall k, k ∈ keys -> k ∈ visited st' \/ cyclic st' <> ∅;
}.

(** A path between two members of the stack. *)
Lemma stack_path st i j a b :
  search_inv st -> i <= j -> stack st !! i = Some a -> stack st !! j = Some b -> rtc (depends g) a b.
Proof.
  intros Hi Hle Ha. revert b. induction Hle as [|j Hle IH]; intros b Hb; [by simplify_eq|].
  destruct (lookup_lt_is_Some_2 (stack st) j) as [c Hc]; [apply lookup_lt_Some in Hb; lia|].
  eapply rtc_r; [by apply IH|]. by eapply si_path.
Qed.

(** Every member of the stack from the active key on is on a cycle through the edge back to it. *)
Lemma back_edge_cycle st i key top k :
  search_inv st -> stack st !! i = Some key -> last (stack st) = Some top -> depends g top key ->
  k ∈ drop i (stack st) -> on_cycle g k.
Proof.
  intros Hi Hk Ht He Hin. apply list_elem_of_lookup in Hin as [j Hj]. rewrite lookup_drop in Hj.
  rewrite last_lookup in Ht. apply lookup_lt_Some in Hj as Hl.
  assert (rtc (depends g) key k) as H1 by (by eapply (stack_path st i (i + j)); [| |eassumption|]; [done|lia|]).
  assert (rtc (depends g) k top) as H2 by (eapply (stack_path st (i + j)); [done| |eassumption|exact Ht]; lia).
  eapply tc_rtc_l; [exact H2|]. eapply tc_rtc_r; [by apply tc_once|done].
Qed.

(** [key] may be visited next: it is a key of the graph, and a dependency of the top of the stack. *)
Definition reachable_next (st : Search) (key : string) : Prop :=
  is_Some (g !! key) /\ forall top, last (stack st) = Some top -> depends g top key.

Lemma not_active_not_stacked st key : search_inv st -> active st !! key = None -> key ∉ stack st.
Proof.
  intros Hi Hn Hin. apply list_elem_of_lookup in Hin as [i H]. apply (si_active _ Hi) in H. congruence.
Qed.

Lemma enter_inv st key :
  search_inv st -> reachable_next st key -> active st !! key = None -> key ∉ visited st -> search_inv (enter key st).
Proof.
  intros Hi [Hd Htop] Ha Hv. pose proof (not_active_not_stacked st key Hi Ha) as Hs. split; cbn.
  - intros k i. rewrite lookup_insert_Some, lookup_app_Some, list_lookup_singleton_Some. rewrite (si_active _ Hi k i). split.
    + intros [[<- <-]|[_ H]]; [right; split; [lia|]; split; [lia|done]|by left].
    + intros [H|(Hle & Hz & <-)]; [right; split; [|done]|left; split; [done|lia]].
      intros ->. apply Hs. by eapply list_elem_of_lookup_2.
  - apply NoDup_app. split; [apply si_nodup, Hi|]. split; [|apply NoDup_singleton].
    intros k Hk Hk'. apply list_elem_of_singleton in Hk' as ->. done.
  - intros k [Hk| ->%list_elem_of_singleton]%elem_of_app; [by eapply si_dom|done].
  - intros i a b H1 H2. apply lookup_app_Some in H2 as [H2|[Hle H2]].
    + apply lookup_lt_Some in H2 as Hlt. rewrite lookup_app_l in H1 by lia. by eapply si_path.
    + apply list_lookup_singleton_Some in H2 as [Hz <-]. apply Htop. rewrite last_lookup.
      rewrite lookup_app_l in H1 by (apply lookup_lt_Some in H1; rewrite length_app in H1; cbn in H1; lia).
      apply lookup_lt_Some in H1 as Hlt. by replace (Init.Nat.pred (length (stack st))) with i by lia.
  - intros k [Hk| ->%list_elem_of_singleton]%elem_of_app; [by eapply si_apart|done].
  - apply Hi.
  - apply Hi.
Qed.

Lemma leave_post st key st' :
  search_inv st -> active st !! key = None ->
  search_inv st' -> stack st' = stack st ++ [key] -> active st' = <[key := length (stack st)]> (active st) ->
  visited st ⊆ visited st' -> cyclic st ⊆ cyclic st' ->
  (cyclic st' = ∅ -> forall d, depends g key d -> d ∈ visited st') ->
  visit_post [key] st (leave key st').
Proof.
  intros Hi Hn Hi' Hs Ha Hv Hc Hall. pose proof (not_active_not_stacked st key Hi Hn) as Hns.
  assert (take (length (stack st') - 1) (stack st') = stack st) as Ht.
  { rewrite Hs, length_app. cbn. by rewrite Nat.add_sub, take_app_length. }
  assert (delete key (active st') = active st) as Hd by (rewrite Ha; by apply delete_insert_id).
  split; [|exact Ht|exact Hd|set_solver|done|intros k ->%list_elem_of_singleton; left; set_solver]. split; cbn.
  - intros k i. rewrite Ht, Hd. apply Hi.
  - rewrite Ht. apply Hi.
  - rewrite Ht. apply Hi.
  - rewrite Ht. apply Hi.
  - rewrite Ht. intros k Hk. apply not_elem_of_union. split; [set_solver|].
    apply (si_apart _ Hi'). rewrite Hs. set_solver.
  - apply Hi'.
  - intros E k [->%elem_of_singleton|Hk]%elem_of_union; [|by apply (si_closed _ Hi')].
    constructor. intros d Hd'. apply (si_closed _ Hi' E). by apply Hall.
Qed.

Lemma mark_post st key i :
  search_inv st -> reachable_next st key -> active st !! key = Some i -> visit_post [key] st (mark_cyclic i st).
Proof.
  intros Hi [Hd Htop] Ha. apply (si_active _ Hi) in Ha as Hst.
  assert (exists top, last (stack st) = Some top) as [top Hlast].
  { destruct (last (stack st)) eqn:E; [by eexists|]. apply last_None in E. by rewrite E, lookup_nil in Hst. }
  assert (Hmark : forall k, k ∈ drop i (stack st) -> on_cycle g k) by (intros k; eapply back_edge_cycle; eauto).
  assert (key ∈ drop i (stack st)) as Hkey.
  { apply list_elem_of_lookup. exists 0. by rewrite lookup_drop, Nat.add_0_r. }
  split; [|done|done|done|set_solver|intros k _; right; cbn; set_solver]. split; try apply Hi; cbn.
  - intros k [Hk|Hk%elem_of_list_to_set]%elem_of_union; [by eapply si_cyclic|by apply Hmark].
  - intros E. exfalso. set_solver.
Qed.

Lemma visit_post_nil st : search_inv st -> visit_post [] st st.
Proof. intros Hi. split; try done. intros k Hk. by apply elem_of_nil in Hk. Qed.

Lemma visit_post_cons k keys st st1 st2 :
  visit_post [k] st st1 -> visit_post keys st1 st2 -> visit_post (k :: keys) st st2.
Proof.
  intros H1 H2. split; [apply H2|by rewrite (vp_stack _ _ _ H2), (vp_stack _ _ _ H1)
    |by rewrite (vp_active _ _ _ H2), (vp_active _ _ _ H1)
    |by rewrite (vp_visited _ _ _ H1), (vp_visited _ _ _ H2)|by rewrite (vp_cyclic _ _ _ H1), (vp_cyclic _ _ _ H2)|].
  intros k' [->|Hk]%elem_of_cons; [|by apply (vp_seen _ _ _ H2)].
  pose proof (vp_visited _ _ _ H2). pose proof (vp_cyclic _ _ _ H2).
  destruct (vp_seen _ _ _ H1 k) as [Hv|Hc]; [by left|left; set_solver|right; set_solver].
Qed.

(** The fold keeps the stack, so that every visit of it has the same fuel left. *)
Lemma fold_search_post f keys st :
  (forall st1 k, k ∈ keys -> search_inv st1 -> reachable_next st1 k -> stack st1 = stack st ->
    exists st2, f k st1 = Some st2 /\ visit_post [k] st1 st2) ->
  search_inv st -> (forall k, k ∈ keys -> reachable_next st k) ->
  exists st', fold_search f keys st = Some st' /\ visit_post keys st st'.
Proof.
  revert st. induction keys as [|k keys IH]; intros st Hf Hi Hr; cbn.
  - exists st. split; [done|by apply visit_post_nil].
  - destruct (Hf st k) as (st1 & -> & H1); [by left|done|apply Hr; by left|done|]. cbn.
    pose proof (vp_stack _ _ _ H1) as Hs.
    destruct (IH st1) as (st2 & -> & H2).
    + intros st2 k' Hk' Hi2 Hr2 Hs2. apply Hf; [by right|done|done|congruence].
    + apply H1.
    + intros k' Hk'. destruct (Hr k') as [Hd Ht]; [by right|]. split; [done|]. by rewrite Hs.
    + exists st2. split; [done|by eapply visit_post_cons].
Qed.

Lemma stack_bound st : search_inv st -> length (stack st) <= size g.
Proof.
  intros Hi. rewrite <- size_dom, <- (size_list_to_set (C:=gset string) (stack st)) by apply Hi.
  apply subseteq_size. intros k Hk%elem_of_list_to_set. apply elem_of_dom. by apply (si_dom _ Hi).
Qed.

(** A visit ends with enough fuel: one step per key that is not on the stack, and one. *)
Lemma visit_ok fuel key st :
  search_inv st -> reachable_next st key -> size g < fuel + length (stack st) ->
  exists st', visit fuel g key st = Some st' /\ visit_post [key] st st'.
Proof.
  revert key st. induction fuel as [|fuel IH]; intros key st Hi Hr Hf.
  { pose proof (stack_bound st Hi). lia. }
  cbn [visit]. destruct (active st !! key) as [i|] eqn:Ha; [eexists; split; [done|by apply mark_post]|].
  case_bool_decide as Hv.
  { exists st. split; [done|]. split; try done. intros k ->%list_elem_of_singleton. by left. }
  set (deps := List.filter _ _).
  assert (Hdeps : forall d, d ∈ deps <-> depends g key d).
  { intros d. unfold deps. rewrite list_elem_of_In, filter_In, <- list_elem_of_In, bool_decide_eq_true. unfold depends.
    destruct Hr as [[ds Hds] _]. rewrite Hds. cbn. split; [by eauto|]. by intros (? & [= <-] & ?). }
  pose proof (enter_inv st key Hi Hr Ha Hv) as Hie.
  destruct (fold_search_post (visit fuel g) deps (enter key st)) as (st' & -> & Hp).
  - intros st1 d _ Hi1 Hr1 Hs1. apply IH; [done|done|]. rewrite Hs1. cbn. rewrite length_app. cbn. lia.
  - done.
  - intros d Hd%Hdeps. split; [by destruct Hd as (? & _ & _ & ?)|]. cbn. intros top. rewrite last_snoc. by intros [= <-].
  - cbn. eexists. split; [done|]. apply leave_post; [done|done|apply Hp|apply Hp|apply Hp|apply Hp|apply Hp|].
    intros E d Hd%Hdeps. by destruct (vp_seen _ _ _ Hp d Hd).
Qed.

Lemma no_search_inv : search_inv no_search.
Proof.
  split; cbn.
  - intros k i. by rewrite lookup_empty, lookup_nil.
  - constructor.
  - intros k Hk. by apply elem_of_nil in Hk.
  - intros i a b H. by rewrite lookup_nil in H.
  - intros k Hk. by apply elem_of_nil in Hk.
  - intros k Hk. by apply elem_of_empty in Hk.
  - intros _ k Hk. by apply elem_of_empty in Hk.
Qed.
End search.

(** A well-founded dependency relation has no cycle. *)
Lemma acc_no_cycle g k : Acc (flip (depends g)) k -> ~ on_cycle g k.
Proof.
  induction 1 as [k _ IH]. intros Hc. unfold on_cycle in Hc.
  assert (exists d, depends g k d /\ rtc (depends g) d k) as (d & Hd & Hr).
  { inversion Hc; subst; eauto using tc_rtc. }
  apply (IH d); [done|]. eapply tc_rtc_l; [exact Hr|by apply tc_once].
Qed.

(** * The graph of a plan *)

Lemma dedup_from_elem {A} `{EqDecision A} (seen l : list A) x : x ∈ dedup_from seen l <-> x ∈ l /\ x ∉ seen.
Proof.
  revert seen. induction l as [|y l IH]; intros seen; cbn.
  { rewrite elem_of_nil. by intuition. }
  destruct (includes y seen) eqn:E; [apply includes_spec in E|apply not_true_iff_false in E; rewrite includes_spec in E].
  - rewrite IH, elem_of_cons. split; [by intros [? ?]; auto|]. intros [[->|?] ?]; [done|auto].
  - rewrite !elem_of_cons, IH, not_elem_of_cons. split.
    + intros [->|(? & ? & ?)]; auto.
    + intros [[->|Hx] Hs]; [by left|]. destruct (decide (x = y)); auto.
Qed.

Lemma dedup_elem {A} `{EqDecision A} (l : list A) x : x ∈ dedup l <-> x ∈ l.
Proof. unfold dedup. rewrite dedup_from_elem. split; [by intros [? _]|]. intros H. split; [done|apply not_elem_of_nil]. Qed.

Lemma entries_dom (es : list (string * list string)) m k :
  is_Some (fold_left (fun (m : gmap string (list string)) kv => <[kv.1 := kv.2]> m) es m !! k) <-> is_Some (m !! k) \/ k ∈ map fst es.
Proof.
  revert m. induction es as [|[k' v] es IH]; intros m; cbn.
  - rewrite elem_of_nil. by intuition.
  - rewrite IH, lookup_insert_is_Some, elem_of_cons. destruct (decide (k' = k)); intuition congruence.
Qed.

Lemma dependency_keys_dom plan k : k ∈ dependency_keys plan <-> is_Some (dependency_map plan !! k).
Proof.
  unfold dependency_keys, dependency_map. rewrite dedup_elem, entries_dom, lookup_empty.
  split; [by right|]. intros [[? [=]]|?]; done.
Qed.

Lemma cyclic_keys_ok plan :
  exists keys, cyclicPlanItemKeys plan = Some keys
    /\ (keys = [] <-> acyclic (dependency_map plan))
    /\ forall k, k ∈ keys -> on_cycle (dependency_map plan) k.
Proof.
  unfold cyclicPlanItemKeys. set (g := dependency_map plan).
  destruct (fold_search_post g (visit (S (size g)) g) (dependency_keys plan) no_search) as (st & -> & Hp).
  - intros st1 k _ Hi Hr Hs. apply visit_ok; [done|done|]. rewrite Hs. cbn. lia.
  - apply no_search_inv.
  - intros k Hk%dependency_keys_dom. split; [done|]. by intros top [=].
  - assert (Hk : forall k, k ∈ sort_strings (elements (cyclic st)) <-> k ∈ cyclic st).
    { intros k. unfold sort_strings. rewrite (merge_sort_Permutation _ _). apply elem_of_elements. }
    exists (sort_strings (elements (cyclic st))). split; [done|]. split; [split|].
    + intros E k Hc. assert (cyclic st = ∅) as Hempty.
      { apply set_eq. intros x. rewrite <- (Hk x), E, elem_of_nil. by rewrite elem_of_empty. }
      assert (is_Some (g !! k)) as Hd by (inversion Hc; subst; match goal with H : depends _ k _ |- _ => destruct H as (? & ? & _) end; eauto).
      apply dependency_keys_dom in Hd. destruct (vp_seen _ _ _ _ Hp k Hd) as [Hv|]; [|done].
      exact (acc_no_cycle g k (si_closed g st (vp_inv _ _ _ _ Hp) Hempty k Hv) Hc).
    + intros Hac. destruct (sort_strings (elements (cyclic st))) as [|k l]; [done|]. exfalso.
      apply (Hac k), (si_cyclic g st); [apply Hp|]. apply (proj1 (Hk k)). by left.
    + intros k Hin. apply (si_cyclic g st); [apply Hp|by apply Hk].
Qed.

(** C18. The search for dependency cycles is total and exact: on every plan it
    ends within the recursion depth the model gives it (one level per key and
    one), it reports nothing exactly when the dependencies between the items
    of the plan are acyclic, and every key it reports lies on a cycle. *)
Theorem cyclic_keys_exact plan :
  exists keys, cyclicPlanItemKeys plan = Some keys
    /\ (keys = [] <-> acyclic (dependency_map plan))
    /\ forall k, k ∈ keys -> on_cycle (dependency_map plan) k.
Proof. exact (cyclic_keys_ok plan). Qed.
