(* ===== verification/PlanStore.v ===== *)
(** The plan of a TaskRun (adapters/persistence-sqlite/src/store.ts:
    upsertPlanItem and what it calls, listPlanItemRevisions; packages/execution/
    src/domain/task-run-launch.ts: taskRunPlanningCriteria). *)
From S2P Require Import Prelude Json TaskPolicy Attempt ExecDb Canonical RunStore PlanGraph.
Local Open Scope tx_scope.

(** * Tables *)

(** The parsed [metadata_json] of a criterion-aware item; [None] is "{}". *)
Record PlanMetadata := {
  m_objectiveIds : list string; m_criterionIds : list string; m_dependencies : list string;
  m_completionEvidenceRefs : list string; m_createdAttempt : Z; m_updatedAttempt : Z; m_replanReason : option string;
}.

Record PlanRow := {
  pl_title : string; pl_status : PlanStatus; pl_required : bool; pl_position : Z; pl_metadata : option PlanMetadata;
}.

(** [snapshot_json] is given by the value it is the text of. *)
Record RevisionRow := {
  rv_runId : string; rv_itemKey : string; rv_revision : Z; rv_snapshot : json; rv_snapshotHash : string;
  rv_attempt : Z; rv_reason : string; rv_createdAt : Z;
}.

(** The execution tables with those of the plans; revisions are in the order of their ids. *)
Record PlanDb := { pd_db : Db; plan_items : gmap (string * string) PlanRow; plan_revisions : list RevisionRow }.

Definition in_db {A} (m : tx Db A) : tx PlanDb A := fun d =>
  match m (pd_db d) with
  | Ok (a, db) => Ok (a, {| pd_db := db; plan_items := plan_items d; plan_revisions := plan_revisions d |})
  | Throw e => Throw e
  end.

Definition set_plan_items (f : gmap (string * string) PlanRow -> gmap (string * string) PlanRow) (d : PlanDb) : PlanDb :=
  {| pd_db := pd_db d; plan_items := f (plan_items d); plan_revisions := plan_revisions d |}.

Definition set_plan_revisions (f : list RevisionRow -> list RevisionRow) (d : PlanDb) : PlanDb :=
  {| pd_db := pd_db d; plan_items := plan_items d; plan_revisions := f (plan_revisions d) |}.

(** * The contract, as far as a plan refers to it *)

Definition string_member (k : string) (fs : list (string * json)) : option string :=
  match field k fs with Some (JStr s) => Some s | _ => None end.

Definition array_member (k : string) (fs : list (string * json)) : list json :=
  match field k fs with Some (JArr l) => l | _ => [] end.

Definition text_of (v : json) : option string := match v with JStr s => Some s | _ => None end.

(** [contract?.acceptanceCriteria ?? []], less the prompts of a roadmap goal. *)
Definition taskRunPlanningCriteria (contract : option (list (string * json))) : list string :=
  match contract with
  | None => []
  | Some c =>
      let criteria := omap text_of (array_member "acceptanceCriteria" c) in
      match field "workspaceGoal" c ≫= record with
      | Some goal =>
          if opt_str_is (field "mode" goal) "roadmap" then
            let goalPrompts := omap (fun item => record item ≫= string_member "prompt") (array_member "criterionPrompts" goal) in
            List.filter (fun criterion => negb (includes criterion goalPrompts)) criteria
          else criteria
      | None => criteria
      end
  end.

(** The identifier and the timing of every objective. *)
Definition contract_objectives (contract : option (list (string * json))) : list (string * string) :=
  match contract with
  | None => []
  | Some c => omap (fun o => fs ← record o; i ← string_member "id" fs; t ← string_member "timing" fs; Some (i, t))
      (array_member "objectives" c)
  end.

Definition criterion_id (index : nat) : string := "ac-" +:+ pretty (S index).
Definition criterion_ids (criteria : list string) : list string := imap (fun i _ => criterion_id i) criteria.

(** * Items and their snapshots *)

(** A row read back as a plan item: its columns and the members of its metadata. *)
Definition item_of_row (key : string) (r : PlanRow) : PlanItem :=
  {| pi_key := key; pi_title := pl_title r; pi_status := pl_status r; pi_required := pl_required r;
     pi_position := pl_position r; pi_semantic := bool_decide (is_Some (pl_metadata r));
     pi_objectiveIds := m_objectiveIds <$> pl_metadata r; pi_criterionIds := m_criterionIds <$> pl_metadata r;
     pi_dependencies := m_dependencies <$> pl_metadata r; pi_createdAttempt := m_createdAttempt <$> pl_metadata r;
     pi_updatedAttempt := m_updatedAttempt <$> pl_metadata r; pi_replanReason := pl_metadata r ≫= m_replanReason;
     pi_completionEvidenceRefs := m_completionEvidenceRefs <$> pl_metadata r |}.

Definition row_of_item (item : PlanItem) (metadata : option PlanMetadata) : PlanRow :=
  {| pl_title := pi_title item; pl_status := pi_status item; pl_required := pi_required item;
     pl_position := pi_position item; pl_metadata := metadata |}.

Definition strings (l : list string) : json := JArr (map JStr l).

Definition metadata_fields (m : PlanMetadata) : list (string * json) :=
  [("schemaVersion", JInt 2); ("objectiveIds", strings (m_objectiveIds m)); ("criterionIds", strings (m_criterionIds m));
   ("dependencies", strings (m_dependencies m)); ("completionEvidenceRefs", strings (m_completionEvidenceRefs m));
   ("createdAttempt", JInt (m_createdAttempt m)); ("updatedAttempt", JInt (m_updatedAttempt m))]
  ++ match m_replanReason m with Some r => [("replanReason", JStr r)] | None => [] end.

Definition snapshot (key : string) (r : PlanRow) : json :=
  JObj ([("key", JStr key); ("title", JStr (pl_title r)); ("status", JStr (plan_status_text (pl_status r)));
         ("required", JBool (pl_required r)); ("position", JInt (pl_position r))]
        ++ match pl_metadata r with Some m => metadata_fields m | None => [] end).

(** [stableJson] of a value without cycles. *)
Definition stable_text (v : json) : result string := let* c := canonical v in mret (stringify c).

(** The rows of one run. *)
Definition plan_of (runId : string) (d : PlanDb) : list PlanItem :=
  map (fun kr => item_of_row kr.1.2 kr.2) (List.filter (fun kr => String.eqb kr.1.1 runId) (map_to_list (plan_items d))).

Definition revisions_of (runId itemKey : string) (rows : list RevisionRow) : list RevisionRow :=
  List.filter (fun r => String.eqb (rv_runId r) runId && String.eqb (rv_itemKey r) itemKey) rows.

(** [ORDER BY item_key,revision] *)
Definition revision_le (a b : RevisionRow) : bool :=
  if String.eqb (rv_itemKey a) (rv_itemKey b) then (rv_revision a <=? rv_revision b)%Z
  else String.leb (rv_itemKey a) (rv_itemKey b).

Definition listPlanItemRevisions (runId : string) (itemKey : option string) (d : PlanDb) : list RevisionRow :=
  merge_sort (fun a b => Is_true (revision_le a b))
    (match itemKey with
     | Some k => revisions_of runId k (plan_revisions d)
     | None => List.filter (fun r => String.eqb (rv_runId r) runId) (plan_revisions d)
     end).

(** * Normalisation *)

Definition bad_value (maxLength : nat) (value : string) : bool :=
  blank value || has_nul value || Nat.ltb maxLength (String.length value).

Definition unique (values : option (list string)) (label : string) (limit maxLength : nat) : result (list string) :=
  let* l := expect values (Error ("Criterion-aware plan " +:+ label +:+ " must contain at most " +:+ pretty limit +:+ " non-empty strings")) in
  do* check (negb (Nat.ltb limit (length l) || existsb (bad_value maxLength) l))
    (Error ("Criterion-aware plan " +:+ label +:+ " must contain at most " +:+ pretty limit +:+ " non-empty strings")) in
  let normalized := map trim l in
  do* check (bool_decide (NoDup normalized)) (Error ("Criterion-aware plan " +:+ label +:+ " must be unique")) in
  mret normalized.

Definition supported_ref (ref : string) : bool :=
  existsb (fun p => String.prefix p ref) ["check:"; "artifact:"; "operation:"; "transcript:"; "memory:"].

(** What a change of must be explained: title, objectives, criteria and dependencies. *)
Definition scope_of (title : string) (m : PlanMetadata) : string * list string * list string * list string :=
  (title, m_objectiveIds m, m_criterionIds m, m_dependencies m).

Definition normalizePlanMetadata (runId : string) (item : PlanItem) (d : PlanDb) : result (option PlanMetadata) :=
  if negb (pi_semantic item) then mret None else
  let* run := expect (runs (pd_db d) !! runId) (Error ("Unknown TaskRun " +:+ runId)) in
  let contract := r_contract run ≫= record in
  let* objectiveIds := unique (pi_objectiveIds item) "objectiveIds" 50 256 in
  let* criterionIds := unique (pi_criterionIds item) "criterionIds" 100 256 in
  let* dependencies := unique (pi_dependencies item) "dependencies" 50 256 in
  let* completionEvidenceRefs := unique (pi_completionEvidenceRefs item) "completionEvidenceRefs" 100 2000 in
  do* check (negb (includes (pi_key item) dependencies)) (Error "A plan item cannot depend on itself") in
  do* check (forallb supported_ref completionEvidenceRefs)
    (Error "Plan completion evidence contains an unsupported reference") in
  do* check (forallb (fun i => includes i (map fst (contract_objectives contract))) objectiveIds)
    (Error "Plan item references an unknown objective") in
  do* check (forallb (fun i => includes i (criterion_ids (taskRunPlanningCriteria contract))) criterionIds)
    (Error "Plan item references an unknown acceptance criterion") in
  let existing := plan_items d !! (runId, pi_key item) in
  let previous := existing ≫= pl_metadata in
  let changed :=
    match existing, previous with
    | Some e, Some p => negb (bool_decide (scope_of (pl_title e) p = (pi_title item, objectiveIds, criterionIds, dependencies)))
    | _, _ => false
    end in
  let replanReason := trim (default "" (pi_replanReason item)) in
  do* check (negb (has_nul replanReason || Nat.ltb 4000 (String.length replanReason)))
    (Error "Plan replanReason is invalid") in
  do* check (negb (changed && String.eqb replanReason ""))
    (Error "Changing plan scope or dependencies requires a replanReason") in
  mret (Some {| m_objectiveIds := objectiveIds; m_criterionIds := criterionIds; m_dependencies := dependencies;
                m_completionEvidenceRefs := completionEvidenceRefs;
                m_createdAttempt := default (r_attempt run) (m_createdAttempt <$> previous);
                m_updatedAttempt := r_attempt run;
                m_replanReason := if String.eqb replanReason "" then None else Some replanReason |}).

(** * The write *)

(** The other rows of the run, with the item in the place of its own. *)
Definition prospective (runId : string) (item : PlanItem) (d : PlanDb) : list PlanItem :=
  List.filter (fun i => negb (String.eqb (pi_key i) (pi_key item))) (plan_of runId d) ++ [item].

Definition cycle_error (keys : list string) : exn :=
  Error ("Plan dependencies must be acyclic; cycle includes " +:+ join ", " keys).

Definition assertProspectivePlanAcyclic (runId : string) (item : PlanItem) (d : PlanDb) : result unit :=
  let* keys := expect (cyclicPlanItemKeys (prospective runId item d)) (Error "out of fuel") in
  check (bool_decide (keys = [])) (cycle_error keys).

Section plan.
Context `{Platform}.

Definition next_revision (runId itemKey : string) (rows : list RevisionRow) : Z :=
  (fold_left (fun m r => Z.max m (rv_revision r)) (revisions_of runId itemKey rows) 0 + 1)%Z.

(** [!prior ? "created" : item.replanReason?.trim() || ...] *)
Definition revision_reason (prior : option PlanRow) (item : PlanItem) : string :=
  match prior with
  | None => "created"
  | Some p =>
      let r := trim (default "" (pi_replanReason item)) in
      if negb (String.eqb r "") then r
      else if negb (bool_decide (pl_status p = pi_status item))
      then "status:" +:+ plan_status_text (pl_status p) +:+ "->" +:+ plan_status_text (pi_status item)
      else "updated"
  end.

(** The revision a change of a criterion-aware item appends. *)
Definition record_revision (runId : string) (item : PlanItem) (prior : option PlanRow) (metadata : PlanMetadata)
    (value : json) (timestamp : Z) : tx PlanDb unit :=
  do* require (0 <? m_updatedAttempt metadata)%Z (SqliteError "plan_item_revisions.attempt") in
  modify (set_plan_revisions (fun rows => rows ++
    [{| rv_runId := runId; rv_itemKey := pi_key item; rv_revision := next_revision runId (pi_key item) rows;
        rv_snapshot := value; rv_snapshotHash := sha256 (stringify value); rv_attempt := m_updatedAttempt metadata;
        rv_reason := revision_reason prior item; rv_createdAt := timestamp |}])).

Definition upsertPlanItem (runId : string) (item : PlanItem) (timestamp : Z) : tx PlanDb unit :=
  let* d := gets id in
  let* metadata := lift (normalizePlanMetadata runId item d) in
  let row := row_of_item item metadata in
  do* lift (assertProspectivePlanAcyclic runId (item_of_row (pi_key item) row) d) in
  let* value := lift (canonical (snapshot (pi_key item) row)) in
  let prior := plan_items d !! (runId, pi_key item) in
  let* priorSnapshot := lift (match prior with
                              | Some p => let* t := stable_text (snapshot (pi_key item) p) in mret (Some t)
                              | None => mret None
                              end) in
  do* require (bool_decide (is_Some (runs (pd_db d) !! runId))) (SqliteError "plan_items.run_id") in
  do* modify (set_plan_items (insert (runId, pi_key item) row)) in
  do* match metadata with
      | Some m =>
          if bool_decide (priorSnapshot = Some (stringify value)) then mret tt
          else record_revision runId item prior m value timestamp
      | None => mret tt
      end in
  do* in_db (advanceRunPhase runId (if bool_decide (pi_status item = PI_pending) then P_plan else P_implement) timestamp) in
  mret tt.

End plan.
