(* ===== verification/PlanFacts.v ===== *)
(** What the plan of a TaskRun guarantees: its dependencies stay acyclic, an
    item that closes a cycle is refused with the items on it, every change of a
    criterion-aware item is kept as a revision, and a change of its scope
    carries its reason. *)
From S2P Require Import Prelude Json Attempt ExecDb Canonical CanonicalFacts RunStore PlanGraph PlanStore AttemptRepo AttemptSpec Demo.

(** * Canonical texts of plan snapshots *)

Lemma canonical_members fs :
  Forall (fun kv => canonical kv.2 = Ok kv.2) fs -> canonical (JObj fs) = Ok (JObj (merge_sort key_le fs)).
Proof.
  intros H. rewrite canonical_obj. assert (map_result canonical_field fs = Ok fs) as ->; [|done].
  apply map_result_ok. induction H as [|[k v] fs Hv _ IH]; constructor; [|done].
  unfold canonical_field. cbn in Hv. by rewrite Hv.
Qed.

Lemma canonical_strings l : canonical (strings l) = Ok (strings l).
Proof.
  unfold strings. rewrite canonical_arr. assert (map_result canonical (map JStr l) = Ok (map JStr l)) as ->; [|done].
  apply map_result_ok. induction l; by constructor.
Qed.

Lemma snapshot_members key r :
  canonical (snapshot key r) = Ok (JObj (merge_sort key_le (match snapshot key r with JObj fs => fs | _ => [] end))).
Proof.
  apply canonical_members. cbn. repeat constructor. destruct (pl_metadata r) as [m|]; [|constructor].
  unfold metadata_fields. destruct (m_replanReason m); repeat constructor; by apply canonical_strings.
Qed.

(** The sorted members of a criterion-aware snapshot start with
    [completionEvidenceRefs], those of another with [key]. *)
Lemma snapshot_head key r t :
  stable_text (snapshot key r) = Ok t ->
  String.get 2 t = Some (Ascii.ascii_of_nat (match pl_metadata r with Some _ => 99 | None => 107 end)).
Proof.
  unfold stable_text. rewrite snapshot_members. intros [= <-]. unfold snapshot.
  destruct (pl_metadata r) as [m|]; [|lazy; reflexivity].
  unfold metadata_fields. destruct (m_replanReason m); lazy; reflexivity.
Qed.

(** * The stored plan *)

Lemma plan_of_elem runId d item :
  item ∈ plan_of runId d <-> exists k r, plan_items d !! (runId, k) = Some r /\ item = item_of_row k r.
Proof.
  unfold plan_of. rewrite list_elem_of_fmap. split.
  - intros ([[rid k] r] & -> & H). apply list_elem_of_In, filter_In in H as [H E]. cbn in E. bool_prop. subst.
    exists k, r. split; [|done]. by apply elem_of_map_to_list, list_elem_of_In.
  - intros (k & r & H & ->). exists ((runId, k), r). split; [done|]. apply list_elem_of_In, filter_In. cbn.
    rewrite String.eqb_refl. split; [|done]. by apply list_elem_of_In, elem_of_map_to_list.
Qed.

(** No two items of the plan share a key. *)
Definition unique_keys (plan : list PlanItem) : Prop :=
  forall a b, a ∈ plan -> b ∈ plan -> pi_key a = pi_key b -> a = b.

Lemma plan_of_unique runId d : unique_keys (plan_of runId d).
Proof.
  intros a b Ha Hb E. apply plan_of_elem in Ha as (k & r & H1 & ->). apply plan_of_elem in Hb as (k' & r' & H2 & ->).
  cbn in E. subst. congruence.
Qed.

Lemma dependency_map_spec plan k ds :
  unique_keys plan ->
  dependency_map plan !! k = Some ds
  <-> exists item, item ∈ plan /\ pi_semantic item = true /\ pi_key item = k /\ default [] (pi_dependencies item) = ds.
Proof.
  intros Hu. set (R := fun k ds => exists item, item ∈ plan /\ pi_semantic item = true /\ pi_key item = k
    /\ default [] (pi_dependencies item) = ds).
  assert (Hr : forall es m, (forall k ds, (k, ds) ∈ es -> R k ds) -> (forall k ds, m !! k = Some ds -> R k ds) ->
    forall k ds, fold_left (fun (m : gmap string (list string)) kv => <[kv.1 := kv.2]> m) es m !! k = Some ds -> R k ds).
  { induction es as [|[k0 d0] es IH]; intros m He Hm k1 d1; cbn; [by apply Hm|]. apply IH.
    - intros k2 d2 H2. apply He. by right.
    - intros k2 d2 [[<- <-]|[_ H2]]%lookup_insert_Some; [apply He; by left|by apply Hm]. }
  assert (He : forall k ds, (k, ds) ∈ dependency_entries plan <-> R k ds).
  { intros k1 d1. unfold dependency_entries. rewrite list_elem_of_fmap. split.
    - intros (item & [= -> ->] & H). apply list_elem_of_In, filter_In in H as [H1 H2].
      exists item. split; [by apply list_elem_of_In|done].
    - intros (item & H1 & H2 & <- & <-). exists item. split; [done|]. apply list_elem_of_In, filter_In.
      split; [by apply list_elem_of_In|done]. }
  split.
  - apply Hr; [by intros; apply He|]. intros k1 d1. by rewrite lookup_empty.
  - intros HR. destruct (dependency_map plan !! k) as [ds'|] eqn:E.
    + assert (R k ds') as (b & Hb & _ & Hkb & Hdb).
      { eapply Hr, E; [by intros; apply He|]. intros k1 d1. by rewrite lookup_empty. }
      destruct HR as (a & Ha & _ & Hka & Hda). by rewrite <- Hda, <- Hdb, (Hu a b Ha Hb) by congruence.
    + exfalso. apply He in HR. apply eq_None_not_Some in E. apply E, entries_dom. right.
      apply list_elem_of_fmap. by exists (k, ds).
Qed.

Lemma dependency_map_ext p q :
  unique_keys p -> unique_keys q -> (forall i, i ∈ p <-> i ∈ q) -> dependency_map p = dependency_map q.
Proof.
  intros Hp Hq He. apply map_eq. intros k. apply option_eq. intros ds. rewrite !dependency_map_spec by done.
  by setoid_rewrite He.
Qed.

(** * One write *)

Section writes.
Context `{Platform}.

Definition new_revision (runId : string) (item : PlanItem) (d : PlanDb) (m : PlanMetadata) (value : json) (timestamp : Z)
    : RevisionRow :=
  {| rv_runId := runId; rv_itemKey := pi_key item; rv_revision := next_revision runId (pi_key item) (plan_revisions d);
     rv_snapshot := value; rv_snapshotHash := sha256 (stringify value); rv_attempt := m_updatedAttempt m;
     rv_reason := revision_reason (plan_items d !! (runId, pi_key item)) item; rv_createdAt := timestamp |}.

(** The item as it is stored. *)
Definition stored (item : PlanItem) (metadata : option PlanMetadata) : PlanItem :=
  item_of_row (pi_key item) (row_of_item item metadata).

(** What a successful write did to the tables of the plans. *)
Record written (runId : string) (item : PlanItem) (timestamp : Z) (d d' : PlanDb) (metadata : option PlanMetadata)
    (value : json) : Prop := {
  wr_normalized : normalizePlanMetadata runId item d = Ok metadata;
  wr_acyclic : acyclic (dependency_map (prospective runId (stored item metadata) d));
  wr_value : canonical (snapshot (pi_key item) (row_of_item item metadata)) = Ok value;
  wr_items : plan_items d' = <[(runId, pi_key item) := row_of_item item metadata]> (plan_items d);
  wr_revisions :
    plan_revisions d' = plan_revisions d
      /\ (metadata = None \/ exists p, plan_items d !! (runId, pi_key item) = Some p
                                     /\ stable_text (snapshot (pi_key item) p) = Ok (stringify value))
    \/ exists m, metadata = Some m /\ plan_revisions d' = plan_revisions d ++ [new_revision runId item d m value timestamp];
}.

Lemma in_db_ok {A} (m : tx Db A) d a d' :
  in_db m d = Ok (a, d') -> plan_items d' = plan_items d /\ plan_revisions d' = plan_revisions d.
Proof. unfold in_db. destruct (m (pd_db d)) as [[x db]|]; [|done]. by intros [= <- <-]. Qed.

(** The guard on cycles, in terms of the graph. *)
Lemma assert_acyclic runId item d :
  (acyclic (dependency_map (prospective runId item d)) -> assertProspectivePlanAcyclic runId item d = Ok tt)
  /\ (~ acyclic (dependency_map (prospective runId item d)) ->
      exists keys, keys <> [] /\ assertProspectivePlanAcyclic runId item d = Throw (cycle_error keys)
        /\ forall k, k ∈ keys -> on_cycle (dependency_map (prospective runId item d)) k).
Proof.
  unfold assertProspectivePlanAcyclic. set (plan := prospective runId item d).
  destruct (cyclic_keys_ok plan) as (keys & -> & Hnil & Hon). cbn [expect mbind result_mbind]. split.
  - intros Ha. apply Hnil in Ha as ->. by rewrite bool_decide_eq_true_2.
  - intros Hn. exists keys. assert (keys <> []) as Hk by (by rewrite Hnil). by rewrite bool_decide_eq_false_2.
Qed.

(** The search decides whether a plan is acyclic. *)
Lemma acyclic_dec_search plan : acyclic (dependency_map plan) \/ ~ acyclic (dependency_map plan).
Proof.
  destruct (cyclic_keys_ok plan) as ([|k keys] & _ & Hnil & _); [left; by apply Hnil|right; by rewrite <- Hnil].
Qed.

Lemma assert_ok_acyclic runId item d u :
  assertProspectivePlanAcyclic runId item d = Ok u -> acyclic (dependency_map (prospective runId item d)).
Proof.
  intros Ho. destruct (acyclic_dec_search (prospective runId item d)) as [?|Hn]; [done|].
  apply assert_acyclic in Hn as (? & _ & Hn & _). congruence.
Qed.

Lemma upsert_written runId item timestamp d u d' :
  upsertPlanItem runId item timestamp d = Ok (u, d') -> exists metadata value, written runId item timestamp d d' metadata value.
Proof.
  unfold upsertPlanItem, record_revision. intros Hup. tx_inv Hup; repeat match goal with
    | H1 : in_db _ _ = Ok _ |- _ => apply in_db_ok in H1 as [? ?] end.
  all: apply assert_ok_acyclic in H1; eexists _, _; split; try eassumption.
  - left. split; [done|]. right. clear H2. bool_prop. subst. destruct (plan_items d !! _) as [p'|]; [|done].
    exists p'. split; [done|]. by destruct (stable_text _) as [t'|]; [injection H3 as ->|].
  - right. by exists p.
  - left. split; [done|by left].
Qed.

(** The prospective plan is the plan after the write. *)
Lemma prospective_unique runId item d : unique_keys (prospective runId item d).
Proof.
  intros a b Ha Hb E. unfold prospective in Ha, Hb. rewrite elem_of_app, list_elem_of_singleton in Ha, Hb.
  assert (forall i, i ∈ List.filter (fun i => negb (String.eqb (pi_key i) (pi_key item))) (plan_of runId d) ->
    i ∈ plan_of runId d /\ pi_key i <> pi_key item) as Hf.
  { intros i Hi. apply list_elem_of_In, filter_In in Hi as [Hi Hk]. bool_prop. split; [by apply list_elem_of_In|done]. }
  destruct Ha as [[Ha Hka]%Hf| ->], Hb as [[Hb Hkb]%Hf| ->]; [|congruence..|done]. by apply (plan_of_unique runId d).
Qed.

Lemma prospective_map runId item row d d' :
  plan_items d' = <[(runId, pi_key item) := row]> (plan_items d) -> item_of_row (pi_key item) row = item ->
  dependency_map (plan_of runId d') = dependency_map (prospective runId item d).
Proof.
  intros Hd Hrow. apply dependency_map_ext; [apply plan_of_unique|apply prospective_unique|]. intros i.
  unfold prospective. rewrite elem_of_app, list_elem_of_singleton, list_elem_of_In, list_elem_of_In, filter_In,
    <- !list_elem_of_In, !plan_of_elem, Hd. split.
  - intros (k & r & [[[= <-] <-]|[Hne Hr]]%lookup_insert_Some & ->); [by right|left].
    split; [eauto|]. cbn. apply negb_true_iff, String.eqb_neq. intros ->. by apply Hne.
  - intros [[(k & r & Hr & ->) Hk]| ->]; bool_prop; cbn in *.
    + exists k, r. split; [|done]. apply lookup_insert_Some. right. split; [|done]. congruence.
    + exists (pi_key item), row. by rewrite lookup_insert_eq.
Qed.

Lemma plan_of_other runId runId' k row d d' :
  plan_items d' = <[(runId, k) := row]> (plan_items d) -> runId' <> runId ->
  dependency_map (plan_of runId' d') = dependency_map (plan_of runId' d).
Proof.
  intros Hd Hne. apply dependency_map_ext; [apply plan_of_unique..|]. intros i. rewrite !plan_of_elem, Hd.
  split; intros (k' & r & Hr & ->); exists k', r; (split; [|done]).
  - rewrite lookup_insert_ne in Hr; [done|congruence].
  - rewrite lookup_insert_ne; [done|congruence].
Qed.
End writes.

(** * Revisions *)

Definition numbered (rows : list RevisionRow) : Prop :=
  forall i r, rows !! i = Some r -> rv_revision r = (Z.of_nat i + 1)%Z.

Lemma numbered_snoc rows r :
  numbered rows -> rv_revision r = (Z.of_nat (length rows) + 1)%Z -> numbered (rows ++ [r]).
Proof.
  intros Hn Hr i x [Hx|[Hle [Hz <-]%list_lookup_singleton_Some]]%lookup_app_Some; [by apply Hn|].
  rewrite Hr. f_equal. lia.
Qed.

Lemma numbered_max rows : numbered rows -> fold_left (fun m r => Z.max m (rv_revision r)) rows 0%Z = Z.of_nat (length rows).
Proof.
  induction rows as [|r rows IH] using rev_ind; intros Hn; [done|].
  rewrite fold_left_app, IH, length_app.
  - cbn [fold_left length]. rewrite (Hn (length rows) r); [lia|]. by rewrite lookup_app_r, Nat.sub_diag by lia.
  - intros i x Hx. apply Hn. by apply lookup_app_l_Some.
Qed.

Lemma revisions_of_snoc runId k rows r :
  revisions_of runId k (rows ++ [r])
  = revisions_of runId k rows ++ (if String.eqb (rv_runId r) runId && String.eqb (rv_itemKey r) k then [r] else []).
Proof. unfold revisions_of. rewrite List.filter_app. cbn. by destruct (_ && _). Qed.

(** * The invariant of the plans *)

Record plans_ok (d : PlanDb) : Prop := {
  po_acyclic : forall runId, acyclic (dependency_map (plan_of runId d));
  po_numbered : forall runId k, numbered (revisions_of runId k (plan_revisions d));
  po_latest : forall runId k row m, plan_items d !! (runId, k) = Some row -> pl_metadata row = Some m ->
    exists r, last (revisions_of runId k (plan_revisions d)) = Some r
      /\ stable_text (snapshot k row) = Ok (stringify (rv_snapshot r));
}.

(** A write to a plan, or a transaction that leaves the tables of the plans alone. *)
Inductive plan_step `{Platform} (d d' : PlanDb) : Prop :=
  | plan_upsert runId item timestamp u : upsertPlanItem runId item timestamp d = Ok (u, d') -> plan_step d d'
  | plan_aside : plan_items d' = plan_items d -> plan_revisions d' = plan_revisions d -> plan_step d d'.

Section invariant.
Context `{Platform}.

Lemma stable_text_ok v w : canonical v = Ok w -> stable_text v = Ok (stringify w).
Proof. unfold stable_text. by intros ->. Qed.

Lemma written_acyclic runId item timestamp d d' metadata value :
  written runId item timestamp d d' metadata value -> plans_ok d -> forall r, acyclic (dependency_map (plan_of r d')).
Proof.
  intros Hw Hp r. destruct (decide (r = runId)) as [->|Hne].
  - rewrite (prospective_map runId (stored item metadata) _ d d' (wr_items _ _ _ _ _ _ _ Hw) eq_refl). apply Hw.
  - rewrite (plan_of_other runId r _ _ d d' (wr_items _ _ _ _ _ _ _ Hw) Hne). by apply po_acyclic.
Qed.

Lemma written_numbered runId item timestamp d d' metadata value :
  written runId item timestamp d d' metadata value -> plans_ok d -> forall r k, numbered (revisions_of r k (plan_revisions d')).
Proof.
  intros Hw Hp r k. destruct (wr_revisions _ _ _ _ _ _ _ Hw) as [[-> _]|(m & _ & ->)]; [by apply po_numbered|].
  rewrite revisions_of_snoc. destruct (_ && _) eqn:E; [|rewrite app_nil_r; by apply po_numbered].
  cbn in E. bool_prop. subst. apply numbered_snoc; [by apply po_numbered|].
  cbn. unfold next_revision. by rewrite numbered_max by (by apply po_numbered).
Qed.

Lemma written_latest runId item timestamp d d' metadata value :
  written runId item timestamp d d' metadata value -> plans_ok d ->
  forall r k row m, plan_items d' !! (r, k) = Some row -> pl_metadata row = Some m ->
    exists rv, last (revisions_of r k (plan_revisions d')) = Some rv /\ stable_text (snapshot k row) = Ok (stringify (rv_snapshot rv)).
Proof.
  intros Hw Hp r k row m Hrow Hm. rewrite (wr_items _ _ _ _ _ _ _ Hw) in Hrow.
  pose proof (stable_text_ok _ _ (wr_value _ _ _ _ _ _ _ Hw)) as Ht.
  apply lookup_insert_Some in Hrow as [[[= <- <-] <-]|[Hne Hrow]].
  - destruct (wr_revisions _ _ _ _ _ _ _ Hw) as [[-> [Hn|(p & Hprior & Hpt)]]|(m' & _ & ->)].
    + cbn in Hm. congruence.
    + pose proof (snapshot_head _ _ _ Hpt) as H1. rewrite (snapshot_head _ _ _ Ht) in H1.
      destruct (pl_metadata p) as [mp|] eqn:Hmp; [|cbn in Hm, H1; by rewrite Hm in H1].
      destruct (po_latest d Hp _ _ _ _ Hprior Hmp) as (rv & Hl & Hv). exists rv. split; [done|].
      rewrite Ht. congruence.
    + rewrite revisions_of_snoc. cbn [rv_runId rv_itemKey new_revision]. rewrite !String.eqb_refl. cbn [andb].
      rewrite last_snoc. eexists. by split.
  - destruct (wr_revisions _ _ _ _ _ _ _ Hw) as [[-> _]|(m' & _ & ->)]; [by eapply po_latest|].
    rewrite revisions_of_snoc. destruct (_ && _) eqn:E; [|rewrite app_nil_r; by eapply po_latest].
    cbn in E. bool_prop. congruence.
Qed.
Lemma step_plans_ok d d' : plan_step d d' -> plans_ok d -> plans_ok d' /\ plan_revisions d `prefix_of` plan_revisions d'.
Proof.
  intros [runId item ts u Hup|Hi Hr] Hp.
  - apply upsert_written in Hup as (metadata & value & Hw). split; [split|].
    + by eapply written_acyclic.
    + by eapply written_numbered.
    + by eapply written_latest.
    + destruct (wr_revisions _ _ _ _ _ _ _ Hw) as [[-> _]|(m & _ & ->)]; [done|by eexists].
  - rewrite Hr. split; [|done]. split.
    + intros r. unfold plan_of. rewrite Hi. by apply po_acyclic.
    + rewrite Hr. by apply po_numbered.
    + rewrite Hr, Hi. by apply po_latest.
Qed.

(** C9. The plan of every TaskRun stays acyclic and its history complete under
    any schedule of writes, the plan transactions interleaved with any others:
    the dependencies between the criterion-aware items have no cycle; the
    revisions of an item are numbered 1, 2, ... without a gap and none is
    changed or dropped; and the last revision of every criterion-aware item is
    the snapshot of the item as it is stored. *)
Theorem plan_history_kept d d' :
  plans_ok d -> rtc plan_step d d' -> plans_ok d' /\ plan_revisions d `prefix_of` plan_revisions d'.
Proof.
  intros Hp Hr. induction Hr as [d|d d1 d' Hs _ IH]; [done|].
  destruct (step_plans_ok d d1 Hs Hp) as [H1 H2]. destruct (IH H1) as [H3 H4]. split; [done|]. by etrans.
Qed.

Lemma normalized_metadata runId item d m :
  normalizePlanMetadata runId item d = Ok (Some m) -> exists run,
    runs (pd_db d) !! runId = Some run /\ m_updatedAttempt m = r_attempt run
    /\ forall e p, plan_items d !! (runId, pi_key item) = Some e -> pl_metadata e = Some p ->
      scope_of (pl_title e) p <> scope_of (pi_title item) m ->
      m_replanReason m = Some (trim (default "" (pi_replanReason item))) /\ trim (default "" (pi_replanReason item)) <> "".
Proof.
  unfold normalizePlanMetadata. intros Hn. tx_inv Hn. injection Hn as <-. exists v. split; [done|]. split; [done|].
  intros e p He Hp Hs. rewrite He in *. cbn in *. rewrite Hp in *. unfold scope_of at 2 in Hs. cbn in Hs.
  destruct (String.eqb_spec (trim (default "" (pi_replanReason item))) ""); [|done].
  rewrite bool_decide_eq_false_2 in * by done. by cbn in *.
Qed.

(** What decides a write whose item is well formed: if the plan with the
    item in it is acyclic the write succeeds; if it is not, the write is
    refused with an error that names items, all of them on a cycle, and the
    plan is left as it was (a throw carries no state). *)
Theorem cyclic_item_refused runId item timestamp d metadata run :
  normalizePlanMetadata runId item d = Ok metadata -> runs (pd_db d) !! runId = Some run -> (0 < r_attempt run)%Z ->
  (acyclic (dependency_map (prospective runId (stored item metadata) d)) ->
    exists d', upsertPlanItem runId item timestamp d = Ok (tt, d')
      /\ plan_items d' = <[(runId, pi_key item) := row_of_item item metadata]> (plan_items d))
  /\ (~ acyclic (dependency_map (prospective runId (stored item metadata) d)) ->
    exists keys, keys <> [] /\ upsertPlanItem runId item timestamp d = Throw (cycle_error keys)
      /\ forall k, k ∈ keys -> on_cycle (dependency_map (prospective runId (stored item metadata) d)) k).
Proof.
  intros Hn Hrun Hpos. pose proof (assert_acyclic runId (stored item metadata) d) as [Ha Hc].
  assert (Hadv : forall phase t (d0 : PlanDb), exists b d1, in_db (advanceRunPhase runId phase t) d0 = Ok (b, d1)).
  { intros phase t d0. unfold in_db, advanceRunPhase, update_run. tx_go.
    destruct (runs (pd_db d0) !! runId) as [r0|]; [destruct (_ && _)|]; by eexists _, _. }
  assert (Hm : forall m, metadata = Some m -> (0 <? m_updatedAttempt m)%Z = true).
  { intros m ->. apply normalized_metadata in Hn as (run' & Hrun' & -> & _). simplify_eq. by apply Z.ltb_lt. }
  split; [intros H1; specialize (Ha H1)|intros H1; destruct (Hc H1) as (keys & Hk & He & Hon)].
  all: unfold upsertPlanItem, record_revision; rewrite (tx_bind_run (gets id) _ d d d) by done;
    rewrite (tx_bind_run _ _ d metadata d) by (by rewrite Hn);
    change (item_of_row (pi_key item) (row_of_item item metadata)) with (stored item metadata).
  - rewrite (tx_bind_run _ _ d tt d) by (by rewrite Ha). rewrite snapshot_members. cbn [lift].
    set (value := JObj _). rewrite (tx_bind_run _ _ d value d) by done.
    assert (exists t, match plan_items d !! (runId, pi_key item) with
      | Some p => let* t := stable_text (snapshot (pi_key item) p) in mret (Some t) | None => mret None end%tx = Ok t) as [t Ht].
    { destruct (plan_items d !! _) as [p|]; [|by eexists]. unfold stable_text. rewrite snapshot_members. by eexists. }
    rewrite (tx_bind_run _ _ d t d) by (by rewrite Ht). clear Ht.
    rewrite (tx_bind_run _ _ d tt d) by (apply require_run, bool_decide_eq_true; rewrite Hrun; by eexists).
    set (d1 := set_plan_items (insert (runId, pi_key item) (row_of_item item metadata)) d). rewrite (tx_bind_run _ _ d tt d1) by done.
    assert (Hend : forall (d2 : PlanDb), plan_items d2 = plan_items d1 -> exists d',
      (do* in_db (advanceRunPhase runId (if bool_decide (pi_status item = PI_pending) then P_plan else P_implement) timestamp)
       in mret tt)%tx d2 = Ok (tt, d') /\ plan_items d' = plan_items d1).
    { intros d2 H2. destruct (Hadv (if bool_decide (pi_status item = PI_pending) then P_plan else P_implement) timestamp d2)
        as (b & d3 & H3). exists d3. rewrite (tx_bind_run _ _ d2 b d3) by done. split; [done|].
      apply in_db_ok in H3 as [-> _]. done. }
    destruct metadata as [m|].
    + destruct (bool_decide (t = Some (stringify value))); [rewrite (tx_bind_run _ _ d1 tt d1) by done; by apply Hend|].
      erewrite tx_bind_run; [|erewrite tx_bind_run; [|by apply require_run, Hm]; reflexivity]. by apply Hend.
    + rewrite (tx_bind_run _ _ d1 tt d1) by done. by apply Hend.
  - exists keys. split; [done|]. split; [|done]. unfold mbind, tx_mbind, lift. by rewrite He.
Qed.

(** A change of the scope of a criterion-aware item carries its reason: when
    a write changes the title, objectives, criteria or dependencies an item is
    stored with, it gave a reason that is not blank, and the reason is stored
    with the item. *)
Theorem scope_change_explained runId item timestamp d u d' before after p m :
  upsertPlanItem runId item timestamp d = Ok (u, d') ->
  plan_items d !! (runId, pi_key item) = Some before -> pl_metadata before = Some p ->
  plan_items d' !! (runId, pi_key item) = Some after -> pl_metadata after = Some m ->
  scope_of (pl_title before) p <> scope_of (pl_title after) m ->
  exists reason, pi_replanReason item = Some reason /\ blank reason = false /\ m_replanReason m = Some (trim reason).
Proof.
  intros Hup Hb Hp Ha Hm Hs. apply upsert_written in Hup as (metadata & value & Hw).
  rewrite (wr_items _ _ _ _ _ _ _ Hw), lookup_insert_eq in Ha. injection Ha as <-. cbn in Hm. subst metadata.
  destruct (normalized_metadata _ _ _ _ (wr_normalized _ _ _ _ _ _ _ Hw)) as (_ & _ & _ & H1).
  destruct (H1 before p Hb Hp Hs) as [H2 H3].
  destruct (pi_replanReason item) as [reason|]; [|done]. exists reason. split; [done|]. split; [|done].
  unfold blank. by apply String.eqb_neq.
Qed.
End invariant.

(** * Witnesses *)

Lemma search_cyclic plan k keys : cyclicPlanItemKeys plan = Some (k :: keys) -> ~ acyclic (dependency_map plan).
Proof. destruct (cyclic_keys_ok plan) as (ks & -> & Hn & _). intros [= ->]. by rewrite <- Hn. Qed.

Definition demo_item (key title : string) (dependencies : list string) (reason : option string) : PlanItem :=
  {| pi_key := key; pi_title := title; pi_status := PI_pending; pi_required := true; pi_position := 0; pi_semantic := true;
     pi_objectiveIds := Some []; pi_criterionIds := Some []; pi_dependencies := Some dependencies;
     pi_createdAttempt := None; pi_updatedAttempt := None; pi_replanReason := reason;
     pi_completionEvidenceRefs := Some ["check:tests"] |}.

Definition no_plans : PlanDb := {| pd_db := demo_db; plan_items := ∅; plan_revisions := [] |}.

(** The plan after the writes, in order; the empty plan when one of them is refused. *)
Definition planned (items : list PlanItem) (d : PlanDb) : PlanDb :=
  match for_each (fun i => upsertPlanItem "run" i 5) items d with Ok (_, d') => d' | Throw _ => no_plans end.

Definition demo_planned : PlanDb := planned [demo_item "a" "first" [] None; demo_item "b" "second" ["a"] None] no_plans.

Lemma no_plans_ok : plans_ok no_plans.
Proof.
  split.
  - intros r k Hk. unfold on_cycle in Hk. inversion Hk as [? ? (ds & H & _)|? ? ? (ds & H & _)]; cbn in H;
      unfold plan_of in H; cbn in H; by rewrite map_to_list_empty in H.
  - by intros r k i rv [=].
  - intros r k row m H. cbn in H. by rewrite lookup_empty in H.
Qed.

Lemma planned_steps items d u d' : for_each (fun i => upsertPlanItem "run" i 5) items d = Ok (u, d') -> rtc plan_step d d'.
Proof.
  revert d. induction items as [|i items IH]; intros d Hf; cbn in Hf.
  - apply mret_ok in Hf as [_ ->]. constructor.
  - apply tx_bind_ok in Hf as (v & d1 & H1 & H2). eapply rtc_l; [by eapply plan_upsert|by apply IH].
Qed.

Lemma plan_history_kept_witness : plans_ok demo_planned /\ plan_revisions no_plans `prefix_of` plan_revisions demo_planned.
Proof.
  apply (plan_history_kept no_plans demo_planned no_plans_ok).
  apply (planned_steps [demo_item "a" "first" [] None; demo_item "b" "second" ["a"] None] no_plans tt). vm_compute. reflexivity.
Defined.

(** The stored metadata of an item of the demonstration. *)
Definition demo_metadata (dependencies : list string) (reason : option string) : PlanMetadata :=
  {| m_objectiveIds := []; m_criterionIds := []; m_dependencies := dependencies; m_completionEvidenceRefs := ["check:tests"];
     m_createdAttempt := 1; m_updatedAttempt := 1; m_replanReason := reason |}.

(** Making the first item depend on the second closes a cycle. *)
Lemma cyclic_item_refused_witness :
  exists keys, keys <> []
    /\ upsertPlanItem "run" (demo_item "a" "first" ["b"] (Some "swap")) 6 demo_planned = Throw (cycle_error keys).
Proof.
  destruct (proj2 (cyclic_item_refused "run" (demo_item "a" "first" ["b"] (Some "swap")) 6 demo_planned
    (Some (demo_metadata ["b"] (Some "swap"))) demo_run ltac:(vm_compute; reflexivity) ltac:(vm_compute; reflexivity)
    ltac:(vm_compute; reflexivity))) as (keys & Hk & He & _).
  - apply (search_cyclic _ "a" ["b"]). vm_compute. reflexivity.
  - exists keys. exact (conj Hk He).
Defined.

Lemma scope_change_explained_witness :
  exists reason, Some " wider "%string = Some reason /\ blank reason = false /\ Some "wider"%string = Some (trim reason).
Proof.
  apply (scope_change_explained "run" (demo_item "b" "second item" ["a"] (Some " wider ")) 5 demo_planned tt
    (planned [demo_item "a" "first" [] None; demo_item "b" "second" ["a"] None; demo_item "b" "second item" ["a"] (Some " wider ")] no_plans)
    (row_of_item (demo_item "b" "second" ["a"] None) (Some (demo_metadata ["a"] None)))
    (row_of_item (demo_item "b" "second item" ["a"] (Some " wider ")) (Some (demo_metadata ["a"] (Some "wider"))))
    (demo_metadata ["a"] None) (demo_metadata ["a"] (Some "wider"))); try (vm_compute; reflexivity).
  discriminate.
Defined.
