(* ===== verification/Evidence.v ===== *)
(** Evidence: the references of a TaskRun resolved to immutable sources
    (adapters/persistence-sqlite/src/store.ts: resolveEvidenceSources,
    listOperations), and the quotes a review proposes checked against them
    (packages/governance/src/application/evidence-quote-service.ts). *)
From S2P Require Import Prelude Json Attempt GateData ExecDb Canonical RunStore PlanGraph PlanStore AuditAlgebra.
Local Open Scope tx_scope.

(** * Tables *)

Inductive CheckStatus := CK_pending | CK_running | CK_passed | CK_failed | CK_blocked | CK_skipped.

#[export] Instance CheckStatus_eq_dec : EqDecision CheckStatus.
Proof. solve_decision. Defined.

Definition check_status_text (s : CheckStatus) : string :=
  match s with
  | CK_pending => "pending" | CK_running => "running" | CK_passed => "passed" | CK_failed => "failed"
  | CK_blocked => "blocked" | CK_skipped => "skipped"
  end.

Record CheckRow := {
  ck_title : string; ck_status : CheckStatus; ck_required : bool; ck_command : string; ck_evidence : string;
  ck_stale : bool; ck_sourceOperationId : option string; ck_observedAt : option Z;
}.

Record ArtifactRow := {
  ar_runId : string; ar_kind : string; ar_title : string; ar_content : string; ar_uri : string; ar_createdAt : Z;
}.

Record ContextEvidenceRow := {
  ce_manifestId : string; ce_runId : string; ce_sourceRef : string; ce_sourceRevision : string; ce_sourceHash : string;
  ce_content : string; ce_createdAt : Z;
}.

(** The members of a context manifest the gate and the Supervisor read. *)
Record ManifestItem := { mi_kind : string; mi_sourceId : string; mi_selected : bool }.
Record ManifestRow := { mf_runId : string; mf_items : list ManifestItem; mf_createdAt : Z }.

(** The plan and execution tables with those of the evidence. *)
Record GovDb := {
  gd_plans : PlanDb; run_checks : gmap (string * string) CheckRow; artifacts : gmap string ArtifactRow;
  evidence_rows : list ContextEvidenceRow; manifests : gmap string ManifestRow;
}.

Definition gd_db (d : GovDb) : Db := pd_db (gd_plans d).

(** * Sources *)

Inductive SourceKind := SK_artifact | SK_operation | SK_transcript | SK_memory.

Record EvidenceSource := {
  es_sourceRef : string; es_kind : SourceKind; es_sourceRevision : string; es_sourceHash : string; es_content : string;
}.

(** [ref.slice(prefix.length)] when [ref.startsWith(prefix)]. *)
Fixpoint after_prefix (p s : string) : option string :=
  match p, s with
  | String.EmptyString, _ => Some s
  | String.String a p', String.String b s' => if Ascii.eqb a b then after_prefix p' s' else None
  | _, _ => None
  end.

(** The text split at its last [sep]. *)
Fixpoint split_last (sep : Ascii.ascii) (s : string) : option (string * string) :=
  match s with
  | String.EmptyString => None
  | String.String c s' =>
      match split_last sep s' with
      | Some (a, b) => Some (String.String c a, b)
      | None => if Ascii.eqb c sep then Some (String.EmptyString, s') else None
      end
  end.

(** [/^transcript:(.+):(\d+)$/]: the greedy first group ends at the last colon. *)
Definition transcript_ref (ref : string) : option (string * Z) :=
  rest ← after_prefix "transcript:" ref;
  ab ← split_last colon rest;
  if String.eqb ab.1 "" || String.eqb ab.2 "" then None else n ← numeral 0 ab.2; Some (ab.1, n).

(** [[...new Set(refs.map(trim).filter(Boolean))]] *)
Definition distinct_trimmed (refs : list string) : list string :=
  dedup (List.filter (fun r => negb (String.eqb r "")) (map trim refs)).

(** ** Operations of a run *)

(** [ORDER BY created_at,id] *)
Definition operation_le (a b : string * OperationRow) : Prop :=
  Is_true (if (o_createdAt a.2 =? o_createdAt b.2)%Z then String.leb a.1 b.1 else (o_createdAt a.2 <? o_createdAt b.2)%Z).

#[local] Instance operation_le_dec a b : Decision (operation_le a b).
Proof. unfold operation_le. apply _. Defined.

(** [limit] is the positive integer the caller's number was clamped to. *)
Definition listOperations (runId : string) (limit : option nat) (ids : list string) (d : Db) : list (string * OperationRow) :=
  let own := merge_sort operation_le (List.filter (fun kv => String.eqb (o_runId kv.2) runId) (map_to_list (operations d))) in
  let wanted := distinct_trimmed ids in
  let recent := match limit with Some n => drop (length own - n) own | None => [] end in
  if bool_decide (wanted = []) && negb (bool_decide (is_Some limit)) then own
  else List.filter (fun kv => includes kv.1 wanted || includes kv.1 (map fst recent)) own.

Section sources.
Context `{Platform}.

Definition evidenceSourceHash (content : string) : string := "sha256:" +:+ sha256 content.

Definition createEvidenceSource (kind : SourceKind) (sourceRef sourceRevision content : string) : EvidenceSource :=
  {| es_sourceRef := sourceRef; es_kind := kind; es_sourceRevision := sourceRevision;
     es_sourceHash := evidenceSourceHash content; es_content := content |}.

Definition operation_content (id : string) (o : OperationRow) : json :=
  JObj [("id", JStr id); ("attempt", JInt (o_attempt o)); ("operationType", JStr (o_operationType o));
        ("payloadHash", JStr (o_payloadHash o)); ("payload", o_payload o); ("status", JStr (o_status o));
        ("stage", JStr (o_stage o)); ("effects", JArr (o_effects o)); ("result", default JNull (o_result o));
        ("error", JStr (o_error o)); ("completedAt", match o_completedAt o with Some t => JInt t | None => JNull end)].

(** [ORDER BY created_at DESC,manifest_id DESC] *)
Definition evidence_ge (a b : ContextEvidenceRow) : Prop :=
  Is_true (if (ce_createdAt a =? ce_createdAt b)%Z then String.leb (ce_manifestId b) (ce_manifestId a)
           else (ce_createdAt b <? ce_createdAt a)%Z).

#[local] Instance evidence_ge_dec a b : Decision (evidence_ge a b).
Proof. unfold evidence_ge. apply _. Defined.

(** The source of one reference: [None] when nothing of the run answers to it. *)
Definition resolve_ref (runId : string) (d : GovDb) (ref : string) : result (option EvidenceSource) :=
  match after_prefix "artifact:" ref with
  | Some id =>
      mret (match artifacts d !! id with
            | Some a => if String.eqb (ar_runId a) runId
                then Some (createEvidenceSource SK_artifact ref ("created:" +:+ pretty (ar_createdAt a)) (ar_content a)) else None
            | None => None
            end)
  | None =>
  match after_prefix "operation:" ref with
  | Some id =>
      match operations (gd_db d) !! id with
      | Some o =>
          match o_completedAt o with
          | Some t =>
              if String.eqb (o_runId o) runId && String.eqb (o_status o) "succeeded" then
                let* content := stable_text (operation_content id o) in
                mret (Some (createEvidenceSource SK_operation ref ("completed:" +:+ pretty t) content))
              else mret None
          | None => mret None
          end
      | None => mret None
      end
  | None =>
  match transcript_ref ref with
  | Some (run, seq) =>
      if String.eqb run runId then
        match transcript (gd_db d) !! (runId, seq) with
        | Some e =>
            let* content := stable_text (tr_message e) in
            mret (Some (createEvidenceSource SK_transcript ref ("seq:" +:+ pretty seq) content))
        | None => mret None
        end
      else mret None
  | None =>
  match after_prefix "memory:" ref with
  | Some _ =>
      mret (match merge_sort evidence_ge (List.filter (fun e => String.eqb (ce_runId e) runId && String.eqb (ce_sourceRef e) ref)
              (evidence_rows d)) with
            | e :: _ => Some {| es_sourceRef := ce_sourceRef e; es_kind := SK_memory; es_sourceRevision := ce_sourceRevision e;
                                es_sourceHash := ce_sourceHash e; es_content := ce_content e |}
            | [] => None
            end)
  | None => mret None
  end end end end.

Definition resolveEvidenceSources (runId : string) (refs : list string) (d : GovDb) : result (list EvidenceSource) :=
  mbind (fun found : list (option EvidenceSource) => mret (omap (fun o => o) found))
    (map_result (resolve_ref runId d) (distinct_trimmed refs)).

(** ** Artifacts *)

Definition getArtifact (runId artifactId : string) (d : GovDb) : option ArtifactRow :=
  match artifacts d !! artifactId with
  | Some a => if String.eqb (ar_runId a) runId then Some a else None
  | None => None
  end.

Definition set_artifacts (f : gmap string ArtifactRow -> gmap string ArtifactRow) (d : GovDb) : GovDb :=
  {| gd_plans := gd_plans d; run_checks := run_checks d; artifacts := f (artifacts d); evidence_rows := evidence_rows d;
     manifests := manifests d |}.

Definition addArtifact (runId id kind title content uri : string) (createdAt : Z) : tx GovDb ArtifactRow :=
  let row := {| ar_runId := runId; ar_kind := kind; ar_title := title; ar_content := content; ar_uri := uri; ar_createdAt := createdAt |} in
  let* d := gets (fun d => d) in
  do* require (bool_decide (artifacts d !! id = None)) (SqliteError "artifacts.id") in
  do* require (bool_decide (is_Some (runs (gd_db d) !! runId))) (SqliteError "artifacts.run_id") in
  do* modify (set_artifacts (insert id row)) in
  mret row.

End sources.

(** * Quotes *)

Definition MAX_EVIDENCE_QUOTE_BYTES : Z := 16 * 1024.

(** ** UTF-8 of the code units below 256 *)

Definition utf8_char (c : Ascii.ascii) : list nat :=
  let n := Ascii.nat_of_ascii c in if Nat.ltb n 128 then [n] else [192 + n / 64; 128 + n mod 64].

Fixpoint utf8 (s : string) : list nat :=
  match s with
  | String.EmptyString => []
  | String.String c s' => utf8_char c ++ utf8 s'
  end.

(** [Buffer.byteLength(s, "utf8")] *)
Definition byteLength (s : string) : Z := Z.of_nat (length (utf8 s)).

(** The text of which [bytes] is the encoding, if there is one. *)
Fixpoint utf8_text (bytes : list nat) : option string :=
  match bytes with
  | [] => Some String.EmptyString
  | b :: bs =>
      if Nat.ltb b 128 then s ← utf8_text bs; Some (String.String (Ascii.ascii_of_nat b) s)
      else match bs with
           | b' :: bs' =>
               if (Nat.eqb b 194 || Nat.eqb b 195) && Nat.leb 128 b' && Nat.ltb b' 192
               then s ← utf8_text bs'; Some (String.String (Ascii.ascii_of_nat ((b - 192) * 64 + (b' - 128))) s)
               else None
           | [] => None
           end
  end.

(** ** Selectors *)

Definition tilde : Ascii.ascii := Ascii.ascii_of_nat 126.
Definition slash : Ascii.ascii := Ascii.ascii_of_nat 47.
Definition zero : Ascii.ascii := Ascii.ascii_of_nat 48.
Definition one : Ascii.ascii := Ascii.ascii_of_nat 49.
Definition newline : Ascii.ascii := Ascii.ascii_of_nat 10.
Definition return_ : Ascii.ascii := Ascii.ascii_of_nat 13.

Definition quote_integer (least : Z) (value : option json) (message : string) : result Z :=
  match value with
  | Some (JInt z) => do* check (safe_integer z && (least <=? z)%Z) (Error message) in mret z
  | _ => Throw (Error message)
  end.

Definition positiveInteger (value : option json) (label : string) : result Z :=
  quote_integer 1 value ("Evidence quote " +:+ label +:+ " must be a positive integer").

Definition nonNegativeInteger (value : option json) (label : string) : result Z :=
  quote_integer 0 value ("Evidence quote " +:+ label +:+ " must be a non-negative integer").

(** [/~(?:[^01]|$)/.test(s)] *)
Fixpoint bad_escape (s : string) : bool :=
  match s with
  | String.EmptyString => false
  | String.String c s' =>
      Ascii.eqb c tilde && match s' with
                         | String.EmptyString => true
                         | String.String d _ => negb (Ascii.eqb d zero || Ascii.eqb d one)
                         end || bad_escape s'
  end.

Definition bad_pointer (p : string) : bool :=
  Nat.ltb 2000 (String.length p) || negb (String.eqb p "") && (negb (String.prefix "/" p) || bad_escape p).

Definition parseSelector (value : option json) : result EvidenceQuoteSelector :=
  let* selector := expect (value ≫= record) (Error "Evidence quote selector must be an object") in
  if opt_str_is (field "kind" selector) "text_quote" then
    let message := "Evidence text quote must contain 1.." +:+ pretty MAX_EVIDENCE_QUOTE_BYTES +:+ " UTF-8 bytes" in
    let* exact := expect (string_member "exact" selector) (Error message) in
    do* check (negb (String.eqb exact "" || (MAX_EVIDENCE_QUOTE_BYTES <? byteLength exact)%Z)) (Error message) in
    match field "occurrence" selector with
    | None => mret (text_quote exact None)
    | Some o => let* n := positiveInteger (Some o) "occurrence" in mret (text_quote exact (Some n))
    end
  else if opt_str_is (field "kind" selector) "line_range" then
    let* startLine := positiveInteger (field "startLine" selector) "startLine" in
    let* endLine := positiveInteger (field "endLine" selector) "endLine" in
    mret (line_range startLine endLine)
  else if opt_str_is (field "kind" selector) "byte_range" then
    let* startByte := nonNegativeInteger (field "startByte" selector) "startByte" in
    let* endByte := nonNegativeInteger (field "endByte" selector) "endByte" in
    mret (byte_range startByte endByte)
  else if opt_str_is (field "kind" selector) "json_pointer" then
    let* pointer := expect (string_member "pointer" selector) (Error "Evidence JSON Pointer is invalid") in
    do* check (negb (bad_pointer pointer)) (Error "Evidence JSON Pointer is invalid") in
    mret (json_pointer pointer)
  else Throw (Error "Evidence quote selector kind is unknown").

(** ** Selection *)

(** The [n]-th occurrence of [exact] after [from], each search starting one past the last. *)
Fixpoint nth_occurrence (n : nat) (exact content : string) (from : nat) : option nat :=
  match n with
  | O => Some from
  | S n' =>
      index ← String.index from exact content;
      match n' with O => Some index | _ => nth_occurrence n' exact content (S index) end
  end.

(** The lines of a text, each with the separator that ends it (the last one has none). *)
Fixpoint lines_from (line : string) (s : string) : list (string * string) :=
  match s with
  | String.EmptyString => [(line, String.EmptyString)]
  | String.String c s' =>
      if Ascii.eqb c newline then (line, String.String c String.EmptyString) :: lines_from "" s'
      else if Ascii.eqb c return_ then
        match s' with
        | String.String d s'' =>
            if Ascii.eqb d newline then (line, String.String c (String.String d String.EmptyString)) :: lines_from "" s''
            else (line, String.String c String.EmptyString) :: lines_from "" s'
        | String.EmptyString => (line, String.String c String.EmptyString) :: lines_from "" s'
        end
      else lines_from (line +:+ String.String c String.EmptyString) s'
  end.

(** [join("")] of the lines, each but the last with its separator. *)
Fixpoint joined_lines (ls : list (string * string)) : string :=
  match ls with
  | [] => ""
  | [(line, _)] => line
  | (line, sep) :: ls' => line +:+ sep +:+ joined_lines ls'
  end.

(** [s.replace(/~1/g, "/").replace(/~0/g, "~")] *)
Fixpoint replace_escape (digit by_ : Ascii.ascii) (s : string) : string :=
  match s with
  | String.String c (String.String d s' as t) =>
      if Ascii.eqb c tilde && Ascii.eqb d digit then String.String by_ (replace_escape digit by_ s')
      else String.String c (replace_escape digit by_ t)
  | _ => s
  end.

Fixpoint split_on (sep : Ascii.ascii) (segment s : string) : list string :=
  match s with
  | String.EmptyString => [segment]
  | String.String c s' =>
      if Ascii.eqb c sep then segment :: split_on sep "" s' else split_on sep (segment +:+ String.String c String.EmptyString) s'
  end.

Definition unresolved : exn := Error "Evidence JSON Pointer does not resolve".

(** A canonical numeral, of any size: a zero, or digits that do not start with one. *)
Definition array_key (k : string) : option Z :=
  match k with
  | String.EmptyString => None
  | String.String c _ => if String.eqb k "0" then Some 0%Z else if Ascii.eqb c zero then None else numeral 0 k
  end.

Definition pointer_step (current : json) (encoded : string) : result json :=
  let key := replace_escape zero tilde (replace_escape one slash encoded) in
  match current with
  | JArr items =>
      let* n := expect (array_key key) unresolved in
      do* check (n <? Z.of_nat (length items))%Z unresolved in
      expect (items !! Z.to_nat n) unresolved
  | JObj fs => expect (field key fs) unresolved
  | _ => Throw unresolved
  end.

Fixpoint follow (current : json) (segments : list string) : result json :=
  match segments with
  | [] => mret current
  | s :: segments' => let* next := pointer_step current s in follow next segments'
  end.

Section quotes.
(** [JSON.parse], [None] where it throws. *)
Context (JSON_parse : string -> option json).

Definition selectedQuote (source : EvidenceSource) (selector : EvidenceQuoteSelector) : result string :=
  let content := es_content source in
  match selector with
  | text_quote exact occurrence =>
      let* _ := expect (nth_occurrence (Z.to_nat (default 1%Z occurrence)) exact content 0)
        (Error "Evidence text quote does not occur in the source") in
      mret exact
  | line_range startLine endLine =>
      let lines := lines_from "" content in
      do* check (negb ((endLine <? startLine)%Z || (Z.of_nat (length lines) <? endLine)%Z))
        (Error "Evidence line range is outside the source") in
      mret (joined_lines (take (Z.to_nat (endLine - startLine + 1)) (drop (Z.to_nat (startLine - 1)) lines)))
  | byte_range startByte endByte =>
      let bytes := utf8 content in
      do* check (negb ((endByte <=? startByte)%Z || (Z.of_nat (length bytes) <? endByte)%Z))
        (Error "Evidence byte range is outside the source") in
      expect (utf8_text (take (Z.to_nat (endByte - startByte)) (drop (Z.to_nat startByte) bytes)))
        (Error "Evidence byte range must align to UTF-8 code-point boundaries")
  | json_pointer pointer =>
      let* root := expect (JSON_parse content) (Error "Evidence JSON Pointer source is not valid JSON") in
      let* current := match pointer with
                      | String.EmptyString => mret root
                      | String.String _ rest => follow root (split_on slash "" rest)
                      end in
      match current with JStr s => mret s | _ => stable_text current end
  end.

Definition verifyEvidenceQuote (value : json) (sources : gmap string EvidenceSource) : result EvidenceQuote :=
  let* proposed := expect (record value) (Error "Evidence quote must be an object") in
  let* ref := expect (string_member "sourceRef" proposed) (Error "Evidence quote sourceRef is invalid") in
  let* source := expect (sources !! ref) (Error ("Evidence quote source is unavailable: " +:+ ref)) in
  do* check (opt_str_is (field "sourceRevision" proposed) (es_sourceRevision source)
             && opt_str_is (field "sourceHash" proposed) (es_sourceHash source))
    (Error ("Evidence quote source revision or hash does not match: " +:+ ref)) in
  let* selector := parseSelector (field "selector" proposed) in
  let* quote := selectedQuote source selector in
  do* check (byteLength quote <=? MAX_EVIDENCE_QUOTE_BYTES)%Z
    (Error ("Evidence quote exceeds the " +:+ pretty MAX_EVIDENCE_QUOTE_BYTES +:+ "-byte limit")) in
  do* check (opt_str_is (field "quote" proposed) quote)
    (Error "Evidence quote bytes do not match the selected source content") in
  mret {| eq_sourceRef := es_sourceRef source; eq_sourceRevision := es_sourceRevision source;
          eq_sourceHash := es_sourceHash source; eq_selector := selector; eq_quote := quote |}.

End quotes.

(** * Quotes as they are stored *)

Definition selector_json (s : EvidenceQuoteSelector) : json :=
  match s with
  | text_quote exact occurrence =>
      JObj ([("kind", JStr "text_quote"); ("exact", JStr exact)]
            ++ match occurrence with Some n => [("occurrence", JInt n)] | None => [] end)
  | line_range a b => JObj [("kind", JStr "line_range"); ("startLine", JInt a); ("endLine", JInt b)]
  | byte_range a b => JObj [("kind", JStr "byte_range"); ("startByte", JInt a); ("endByte", JInt b)]
  | json_pointer p => JObj [("kind", JStr "json_pointer"); ("pointer", JStr p)]
  end.

Definition quote_json (q : EvidenceQuote) : json :=
  JObj [("sourceRef", JStr (eq_sourceRef q)); ("sourceRevision", JStr (eq_sourceRevision q));
        ("sourceHash", JStr (eq_sourceHash q)); ("selector", selector_json (eq_selector q)); ("quote", JStr (eq_quote q))].
