(* ===== verification/EvidenceFacts.v ===== *)
(** What a verified evidence quote guarantees: it is an excerpt of the immutable
    source it names, and verifying it again gives the same quote. *)
From S2P Require Import Prelude Json GateData ExecDb Canonical PlanStore AuditAlgebra Evidence.
Local Open Scope tx_scope.

(** * Excerpts *)

Definition excerpt (q s : string) : Prop := exists before after, s = before +:+ q +:+ after.

Lemma excerpt_cons c q s : excerpt q s -> excerpt q (String.String c s).
Proof. intros (a & b & ->). by exists (String.String c a), b. Qed.

Lemma excerpt_empty s : excerpt "" s.
Proof. by exists "", s. Qed.

Lemma excerpt_prefix q t : excerpt q (q +:+ t).
Proof. by exists "", t. Qed.

Lemma substring_prefix k s : exists after, s = String.substring 0 k s +:+ after.
Proof.
  revert k. induction s as [|c s IH]; intros [|k]; cbn; [by exists ""|by exists ""|by exists (String.String c s)|].
  destruct (IH k) as [t Ht]. exists t. rewrite string_app_cons. by f_equal.
Qed.

Lemma substring_excerpt m k s : excerpt (String.substring m k s) s.
Proof.
  revert m. induction s as [|c s IH]; intros [|m].
  - exists "". apply (substring_prefix k "").
  - assert (String.substring (S m) k "" = "") as -> by (by destruct k). apply excerpt_empty.
  - exists "". apply substring_prefix.
  - by apply excerpt_cons, IH.
Qed.

Lemma nth_occurrence_excerpt n exact content from i :
  nth_occurrence (S n) exact content from = Some i -> excerpt exact content.
Proof.
  revert from. induction n as [|n IH]; intros from H; cbn in H; destruct (String.index from exact content) as [m|] eqn:E; try done.
  - apply String.index_correct1 in E. rewrite <- E. apply substring_excerpt.
  - by apply (IH (S m)).
Qed.

(** ** Lines *)

Definition flat (ls : list (string * string)) : string := foldr (fun l acc => l.1 +:+ l.2 +:+ acc) "" ls.

Lemma flat_app a b : flat (a ++ b) = flat a +:+ flat b.
Proof. induction a as [|[l s] a IH]; cbn [flat foldr app]; [done|]. fold (flat (a ++ b)). rewrite IH. by rewrite !string_app_assoc. Qed.

Lemma lines_flat line s : flat (lines_from line s) = line +:+ s.
Proof.
  remember (String.length s) as n eqn:Hn. revert line s Hn. induction (lt_wf n) as [n _ IH]. intros line s ->.
  destruct s as [|c s]; [done|]. cbn [lines_from].
  assert (Hs : forall l t, String.length t < String.length (String.String c s) -> flat (lines_from l t) = l +:+ t) by (intros; by eapply IH).
  destruct (Ascii.eqb c newline).
  { cbn [flat foldr fst snd]. fold (flat (lines_from "" s)). rewrite Hs by (cbn; lia). done. }
  destruct (Ascii.eqb c return_).
  - destruct s as [|d s]; [done|]. destruct (Ascii.eqb d newline); cbn [flat foldr fst snd].
    + fold (flat (lines_from "" s)). rewrite Hs by (cbn; lia). done.
    + fold (flat (lines_from "" (String.String d s))). rewrite Hs by (cbn; lia). done.
  - rewrite Hs by (cbn; lia). by rewrite string_app_assoc.
Qed.

Lemma joined_prefix ls : exists after, flat ls = joined_lines ls +:+ after.
Proof.
  induction ls as [|[line sep] [|l2 ls] IH]; [by exists ""|by exists (sep +:+ "")|].
  destruct IH as [t Ht]. exists t. change (flat ((line, sep) :: l2 :: ls)) with (line +:+ sep +:+ flat (l2 :: ls)).
  change (joined_lines ((line, sep) :: l2 :: ls)) with (line +:+ sep +:+ joined_lines (l2 :: ls)).
  by rewrite Ht, !string_app_assoc.
Qed.

Lemma lines_excerpt i k s : excerpt (joined_lines (take k (drop i (lines_from "" s)))) s.
Proof.
  assert (s = flat (lines_from "" s)) as Hs by (by rewrite lines_flat).
  set (ls := lines_from "" s) in *. rewrite Hs. clear Hs. clearbody ls.
  rewrite <- (take_drop i ls) at 2. rewrite flat_app. rewrite <- (take_drop k (drop i ls)) at 2. rewrite flat_app.
  destruct (joined_prefix (take k (drop i ls))) as [t ->].
  exists (flat (take i ls)), (t +:+ flat (drop k (drop i ls))). by rewrite !string_app_assoc.
Qed.

(** ** Bytes *)

Lemma ascii_bound c : Ascii.nat_of_ascii c < 256.
Proof. apply Ascii.nat_ascii_bounded. Qed.

Lemma utf8_rebuild c :
  Ascii.ascii_of_nat ((192 + Ascii.nat_of_ascii c / 64 - 192) * 64 + (128 + Ascii.nat_of_ascii c mod 64 - 128)) = c.
Proof.
  pose proof (Nat.div_mod_eq (Ascii.nat_of_ascii c) 64). rewrite <- (Ascii.ascii_nat_embedding c) at 3. f_equal. lia.
Qed.

(** A valid encoding that starts where a character starts is the encoding of a prefix. *)
Lemma utf8_text_prefix s k q : utf8_text (take k (utf8 s)) = Some q -> exists after, s = q +:+ after.
Proof.
  revert k q. induction s as [|c s IH]; intros k q H.
  { cbn [utf8] in H. rewrite take_nil in H. injection H as <-. by exists "". }
  cbn [utf8] in H. unfold utf8_char in H. pose proof (ascii_bound c) as Hc.
  destruct (Nat.ltb_spec (Ascii.nat_of_ascii c) 128) as [Hl|Hl]; destruct k as [|k]; cbn [app take utf8_text] in H;
    [injection H as <-; by exists (String.String c s)| |injection H as <-; by exists (String.String c s)|].
  - rewrite (proj2 (Nat.ltb_lt _ _)) in H by done. rewrite Ascii.ascii_nat_embedding in H.
    destruct (utf8_text (take k (utf8 s))) as [q'|] eqn:E; [|done]. injection H as <-.
    destruct (IH k q' E) as [t ->]. by exists t.
  - rewrite (proj2 (Nat.ltb_ge _ _)) in H by lia. destruct k as [|k]; cbn [take] in H; [done|].
    destruct (_ && _) in H; [|done]. rewrite utf8_rebuild in H.
    destruct (utf8_text (take k (utf8 s))) as [q'|] eqn:E; [|done]. injection H as <-.
    destruct (IH k q' E) as [t ->]. by exists t.
Qed.

Lemma utf8_text_excerpt s i k q : utf8_text (take k (drop i (utf8 s))) = Some q -> excerpt q s.
Proof.
  revert i. induction s as [|c s IH]; intros i H.
  { cbn [utf8] in H. rewrite drop_nil, take_nil in H. injection H as <-. apply excerpt_empty. }
  destruct i as [|i]; [exists ""; by eapply utf8_text_prefix|]. cbn [utf8] in H. unfold utf8_char in H.
  pose proof (ascii_bound c) as Hc.
  destruct (Nat.ltb_spec (Ascii.nat_of_ascii c) 128) as [Hl|Hl]; cbn [app drop] in H; [by eapply excerpt_cons, IH|].
  destruct i as [|i]; cbn [drop] in H; [|by eapply excerpt_cons, IH].
  destruct k as [|k]; cbn [take utf8_text] in H; [injection H as <-; apply excerpt_empty|]. exfalso.
  set (b := 128 + Ascii.nat_of_ascii c mod 64) in *.
  assert (128 <= b < 192) as Hb by (pose proof (Nat.mod_upper_bound (Ascii.nat_of_ascii c) 64); subst b; lia).
  rewrite (proj2 (Nat.ltb_ge b 128)) in H by lia.
  assert ((Nat.eqb b 194 || Nat.eqb b 195) = false) as Hn.
  { apply orb_false_iff. rewrite !Nat.eqb_neq. lia. }
  rewrite Hn in H. by destruct (take k _).
Qed.

(** * Verified quotes *)

Lemma quote_integer_ok least v message z :
  quote_integer least v message = Ok z -> v = Some (JInt z) /\ safe_integer z = true /\ (least <= z)%Z.
Proof.
  unfold quote_integer. intros H. destruct v as [[]|]; try done. tx_inv H. injection H as ->. bool_prop. done.
Qed.

Lemma quote_integer_run least message z :
  safe_integer z = true -> (least <= z)%Z -> quote_integer least (Some (JInt z)) message = Ok z.
Proof. intros Hs Hl. unfold quote_integer. rewrite Hs, (proj2 (Z.leb_le _ _)) by done. done. Qed.

(** A parsed selector, written down, is parsed to itself. *)
Lemma parse_selector_again v s : parseSelector v = Ok s -> parseSelector (Some (selector_json s)) = Ok s.
Proof.
  unfold parseSelector at 1. intros H. tx_inv H; try discriminate; try injection H as <-.
  all: unfold positiveInteger, nonNegativeInteger in *;
    repeat match goal with Hq : quote_integer _ _ _ = Ok _ |- _ => apply quote_integer_ok in Hq as (_ & ? & ?) end.
  all: unfold parseSelector, positiveInteger, nonNegativeInteger; cbn -[byteLength MAX_EVIDENCE_QUOTE_BYTES quote_integer bad_pointer].
  all: rewrite ?quote_integer_run by done; cbn -[byteLength MAX_EVIDENCE_QUOTE_BYTES quote_integer bad_pointer].
  all: rewrite ?quote_integer_run by done; try done.
  all: match goal with Hc : negb _ = true |- _ => rewrite Hc end; try done.
Qed.

Section quotes.
Context (JSON_parse : string -> option json) (sources : gmap string EvidenceSource).
(** The sources are keyed by their references. *)
Hypothesis keyed : forall ref s, sources !! ref = Some s -> es_sourceRef s = ref.

Lemma selected_excerpt source v selector q :
  parseSelector v = Ok selector -> selectedQuote JSON_parse source selector = Ok q ->
  (forall p, selector <> json_pointer p) -> excerpt q (es_content source).
Proof.
  intros Hp Hq Hn. destruct selector as [exact occurrence|a b|a b|p]; [| | |by destruct (Hn p)]; cbn in Hq; tx_inv Hq.
  - injection Hq as <-. assert (exists n, Z.to_nat (default 1%Z occurrence) = S n) as [n Hs].
    { unfold parseSelector, positiveInteger in Hp. destruct occurrence as [o|]; [|by exists 0].
      tx_inv Hp; try discriminate; injection Hp as -> ->. match goal with Hi : quote_integer _ _ _ = Ok _ |- _ => apply quote_integer_ok in Hi as (_ & _ & ?) end.
      exists (Z.to_nat o - 1). cbn. lia. }
    rewrite Hs in H. by eapply nth_occurrence_excerpt.
  - injection Hq as <-. apply lines_excerpt.
  - by eapply utf8_text_excerpt.
Qed.
(** A verified quote is genuine, and verifying it again gives it back: its
    reference, revision and hash are those of a source the caller supplied, it
    is at most 16 KiB of UTF-8, it is a contiguous excerpt of the content of the
    source when it was selected by text, lines or bytes, and the quote written
    down and verified again against the same sources is the same quote. *)
Theorem verified_quote_genuine v q :
  verifyEvidenceQuote JSON_parse v sources = Ok q ->
  (exists source, sources !! eq_sourceRef q = Some source
    /\ eq_sourceRevision q = es_sourceRevision source /\ eq_sourceHash q = es_sourceHash source
    /\ (byteLength (eq_quote q) <= 16384)%Z
    /\ ((forall p, eq_selector q <> json_pointer p) -> excerpt (eq_quote q) (es_content source)))
  /\ verifyEvidenceQuote JSON_parse (quote_json q) sources = Ok q.
Proof.
  unfold verifyEvidenceQuote at 1. intros H. tx_inv H. injection H as <-. bool_prop.
  match goal with Hs : sources !! _ = Some _ |- _ => pose proof Hs as Hsource; apply keyed in Hs as <- end.
  match goal with Hp : parseSelector _ = Ok _ |- _ => pose proof Hp as Hparse; apply parse_selector_again in Hp end.
  split.
  - exists v2. cbn. split; [done|]. split; [done|]. split; [done|]. split; [done|]. by eapply selected_excerpt.
  - unfold verifyEvidenceQuote. cbn -[selectedQuote parseSelector byteLength MAX_EVIDENCE_QUOTE_BYTES].
    rewrite Hsource. cbn -[selectedQuote parseSelector byteLength MAX_EVIDENCE_QUOTE_BYTES].
    rewrite !String.eqb_refl. cbn -[selectedQuote parseSelector byteLength MAX_EVIDENCE_QUOTE_BYTES].
    rewrite H4. cbn [mbind result_mbind]. rewrite H5. cbn [mbind result_mbind]. rewrite (proj2 (Z.leb_le _ _)) by done.
    by rewrite String.eqb_refl.
Qed.
End quotes.

(** * Witnesses *)

Definition demo_content : string := "first line" +:+ String.String newline "second line".

Definition demo_source : EvidenceSource :=
  {| es_sourceRef := "artifact:a"; es_kind := SK_artifact; es_sourceRevision := "created:1"; es_sourceHash := "sha256:x";
     es_content := demo_content |}.

Definition demo_sources : gmap string EvidenceSource := {["artifact:a" := demo_source]}.

Definition demo_quote : EvidenceQuote :=
  {| eq_sourceRef := "artifact:a"; eq_sourceRevision := "created:1"; eq_sourceHash := "sha256:x";
     eq_selector := line_range 2 2; eq_quote := "second line" |}.

Lemma verified_quote_genuine_witness :
  excerpt "second line" demo_content
  /\ verifyEvidenceQuote (fun _ => None) (quote_json demo_quote) demo_sources = Ok demo_quote.
Proof.
  destruct (verified_quote_genuine (fun _ => None) demo_sources
    ltac:(unfold demo_sources; intros ref s [<- <-]%lookup_singleton_Some; reflexivity) (quote_json demo_quote) demo_quote
    ltac:(vm_compute; reflexivity)) as [(source & Hs & _ & _ & _ & He) Hq].
  split; [|exact Hq]. unfold demo_sources in Hs. apply lookup_singleton_Some in Hs as [_ <-]. apply He. intros p. discriminate.
Defined.
