(* ===== verification/CompletionGate.v ===== *)
(** The deterministic completion gate (adapters/persistence-sqlite/src/store.ts):
    the checks of a TaskRun and the receipts that back them (upsertCheck,
    bindTrustedCheckEvidence, markChecksStale), and the gate itself
    (evaluateGate). *)
From S2P Require Import Prelude Json TaskPolicy Attempt ExecDb Canonical RunStore Tools PlanGraph PlanStore Evidence.
Local Open Scope tx_scope.

(** * Checks *)

Record RunCheck := {
  rc_key : string; rc_title : string; rc_status : CheckStatus; rc_required : bool; rc_command : string;
  rc_evidence : string; rc_stale : bool; rc_sourceOperationId : option string; rc_observedAt : option Z;
}.

Definition row_of_check (c : RunCheck) : CheckRow :=
  {| ck_title := rc_title c; ck_status := rc_status c; ck_required := rc_required c; ck_command := rc_command c;
     ck_evidence := rc_evidence c; ck_stale := rc_stale c; ck_sourceOperationId := rc_sourceOperationId c;
     ck_observedAt := rc_observedAt c |}.

Definition check_of_row (key : string) (r : CheckRow) : RunCheck :=
  {| rc_key := key; rc_title := ck_title r; rc_status := ck_status r; rc_required := ck_required r;
     rc_command := ck_command r; rc_evidence := ck_evidence r; rc_stale := ck_stale r;
     rc_sourceOperationId := ck_sourceOperationId r; rc_observedAt := ck_observedAt r |}.

Definition set_checks (f : gmap (string * string) CheckRow -> gmap (string * string) CheckRow) (d : GovDb) : GovDb :=
  {| gd_plans := gd_plans d; run_checks := f (run_checks d); artifacts := artifacts d; evidence_rows := evidence_rows d;
     manifests := manifests d |}.

Definition in_plans {A} (m : tx PlanDb A) : tx GovDb A := fun d =>
  match m (gd_plans d) with
  | Ok (a, p) => Ok (a, {| gd_plans := p; run_checks := run_checks d; artifacts := artifacts d;
                           evidence_rows := evidence_rows d; manifests := manifests d |})
  | Throw e => Throw e
  end.

Definition in_exec {A} (m : tx Db A) : tx GovDb A := in_plans (in_db m).

Definition stale_row (r : CheckRow) : CheckRow :=
  {| ck_title := ck_title r; ck_status := ck_status r; ck_required := ck_required r; ck_command := ck_command r;
     ck_evidence := ck_evidence r; ck_stale := true; ck_sourceOperationId := ck_sourceOperationId r;
     ck_observedAt := ck_observedAt r |}.

Definition passed_of (runId : string) (kr : (string * string) * CheckRow) : Prop :=
  kr.1.1 = runId /\ ck_status kr.2 = CK_passed.

#[export] Instance passed_of_dec runId kr : Decision (passed_of runId kr).
Proof. unfold passed_of. apply _. Defined.

Definition touch_run (timestamp : Z) (r : RunRow) : RunRow :=
  {| r_id := r_id r; r_sessionId := r_sessionId r; r_requestId := r_requestId r; r_status := r_status r;
     r_phase := r_phase r; r_goal := r_goal r; r_contract := r_contract r; r_gateRequired := r_gateRequired r;
     r_blockedReason := r_blockedReason r; r_attempt := r_attempt r; r_lastEventSeq := r_lastEventSeq r;
     r_createdAt := r_createdAt r; r_updatedAt := timestamp; r_completedAt := r_completedAt r; r_resumedAt := r_resumedAt r |}.

Definition markChecksStale (runId : string) (timestamp : Z) : tx GovDb nat :=
  let* d := gets (fun d => d) in
  let changes := size (filter (passed_of runId) (run_checks d)) in
  do* modify (set_checks (map_imap (fun k r => Some (if decide (passed_of runId (k, r)) then stale_row r else r)))) in
  do* (if Nat.ltb 0 changes then let* _ := in_exec (update_run runId (fun _ => true) (touch_run timestamp)) in mret tt
       else mret tt) in
  mret changes.

(** ** Receipts *)

(** [exitCode === 0] *)
Definition exit_zero (details : list (string * json)) : bool :=
  match field "exitCode" details with
  | Some (JInt z) => Z.eqb z 0
  | Some (JFloat r) => String.eqb r "-0"
  | _ => false
  end.

Definition payload_command (o : OperationRow) : string :=
  match record (o_payload o) ≫= string_member "command" with Some c => trim c | None => "" end.

Definition result_details (o : OperationRow) : option (list (string * json)) :=
  r ← o_result o; fs ← record r; v ← field "details" fs; record v.

Definition result_output (o : OperationRow) : string :=
  join (String.String newline "")
    (match o_result o ≫= record with
     | Some fs => omap (fun part => record part ≫= string_member "text") (array_member "content" fs)
     | None => []
     end).

Definition projected_output (output : string) : string :=
  if Nat.leb (String.length output) 3000 then output
  else String.substring 0 2000 output +:+ String.String newline "... output projected by Core ..." +:+ String.String newline ""
       +:+ String.substring (String.length output - 800) 800 output.

Section gate.
Context `{Platform}.

Definition receipt_json (id : string) (o : OperationRow) (completedAt : Z) (details : list (string * json)) (result : json) : json :=
  JObj [("sourceOperationId", JStr id); ("command", JStr (payload_command o)); ("exitCode", JInt 0);
        ("observedAt", JInt completedAt); ("output", JStr (projected_output (result_output o)));
        ("artifactId", match string_member "artifactId" details with Some a => JStr a | None => JNull end);
        ("sha256", JStr (default (canonicalHash result) (string_member "sha256" details)))].

Definition with_source (c : RunCheck) (source : option string) (observedAt : option Z) : RunCheck :=
  {| rc_key := rc_key c; rc_title := rc_title c; rc_status := rc_status c; rc_required := rc_required c;
     rc_command := rc_command c; rc_evidence := rc_evidence c; rc_stale := rc_stale c; rc_sourceOperationId := source;
     rc_observedAt := observedAt |}.

(** [check.sourceOperationId?.trim() || null] *)
Definition source_operation (c : RunCheck) : option string :=
  match rc_sourceOperationId c with
  | Some s => if String.eqb (trim s) "" then None else Some (trim s)
  | None => None
  end.

Definition bindTrustedCheckEvidence (runId : string) (c : RunCheck) (d : Db) : result RunCheck :=
  match (if bool_decide (rc_status c = CK_passed) then source_operation c else None) with
  | None => mret (with_source c None None)
  | Some id =>
      let scope := Error "Passed check evidence must reference a successful operation from the current Run Attempt" in
      let* run := expect (runs d !! runId) scope in
      let* o := expect (operations d !! id) scope in
      do* check (String.eqb (o_runId o) runId && Z.eqb (o_attempt o) (r_attempt run)) scope in
      let incomplete := Error "Passed check evidence must reference a completed successful Bash operation" in
      let* completedAt := expect (o_completedAt o) incomplete in
      let* result := expect (o_result o) incomplete in
      do* check (String.eqb (o_operationType o) "tool.bash" && String.eqb (o_status o) "succeeded" && negb (Z.eqb completedAt 0))
        incomplete in
      let missing := Error "Passed check evidence receipt is missing the actual command or zero exit code" in
      let* details := expect (result_details o) missing in
      do* check (negb (String.eqb (payload_command o) "") && exit_zero details) missing in
      mret {| rc_key := rc_key c; rc_title := rc_title c; rc_status := rc_status c; rc_required := rc_required c;
              rc_command := payload_command o; rc_evidence := stringify (receipt_json id o completedAt details result);
              rc_stale := false; rc_sourceOperationId := Some id; rc_observedAt := Some completedAt |}
  end.

Definition upsertCheck (runId : string) (c : RunCheck) (timestamp : Z) : tx GovDb unit :=
  let* d := gets (fun d => d) in
  let* bound := lift (bindTrustedCheckEvidence runId c (gd_db d)) in
  do* require (bool_decide (is_Some (runs (gd_db d) !! runId))) (SqliteError "run_checks.run_id") in
  do* modify (set_checks (insert (runId, rc_key bound) (row_of_check bound))) in
  do* in_exec (advanceRunPhase runId (if bool_decide (rc_status bound = CK_pending) then P_implement else P_verify) timestamp) in
  mret tt.

(** * The gate *)

(** The members of a TaskRun the gate reads. *)
Record CompletionRunView := {
  cv_id : string; cv_attempt : Z; cv_gateRequired : bool; cv_contract : option Contract; cv_plan : list PlanItem;
  cv_checks : list RunCheck;
}.

Record CompletionFailure := { cf_kind : string; cf_key : string; cf_reason : string }.

Record CompletionGate := { cg_passed : bool; cg_failures : list CompletionFailure }.

Definition failure (kind key reason : string) : CompletionFailure := {| cf_kind := kind; cf_key := key; cf_reason := reason |}.

Definition read_only_workspace (effect : json) : bool :=
  match record effect with
  | Some fs => opt_str_is (field "kind" fs) "workspace" && opt_str_is (field "action" fs) "read_only"
  | None => false
  end.

(** The SQL condition on an operation of the run's current Attempt. *)
Definition mutating_operation (runId : string) (attempt : Z) (o : OperationRow) : bool :=
  String.eqb (o_runId o) runId && Z.eqb (o_attempt o) attempt && negb (String.eqb (o_status o) "pre_effect_rejected")
  && (includes (o_operationType o) ["tool.write"; "tool.edit"; "tool.patch"; "tool.memory_forget"]
      || String.eqb (o_operationType o) "tool.bash" && negb (existsb read_only_workspace (o_effects o))).

Definition mutation_observed (run : CompletionRunView) (d : Db) : bool :=
  existsb (fun kv => mutating_operation (cv_id run) (cv_attempt run) kv.2) (map_to_list (operations d)).

Definition observed_write (attempt : Z) : TaskPolicyOperationView :=
  {| operationType := "tool.write"; op_status := "succeeded"; op_attempt := attempt; effects := None |}.

Definition gate_policy (run : CompletionRunView) (d : Db) : TaskExecutionPolicy :=
  effectiveTaskExecutionPolicy (ct_view <$> cv_contract run)
    (if mutation_observed run d then [observed_write (cv_attempt run)] else []) (Some (cv_attempt run)).

(** [operationById]: looked up in the operations of the run the required checks name. *)
Definition operation_by_id (run : CompletionRunView) (d : Db) (id : string) : option OperationRow :=
  let ids := omap (fun c => match rc_sourceOperationId c with Some s => if String.eqb s "" then None else Some s | None => None end)
    (List.filter rc_required (cv_checks run)) in
  snd <$> List.find (fun kv => String.eqb kv.1 id) (rev (listOperations (cv_id run) None ids d)).

(** A number or text that is there and not falsy. *)
Definition truthy_int (z : option Z) : option Z := match z with Some 0%Z => None | o => o end.

Definition trusted_check_of (run : CompletionRunView) (d : Db) (c : RunCheck) : bool :=
  match rc_sourceOperationId c, truthy_int (rc_observedAt c) with
  | Some id, Some observedAt =>
      bool_decide (rc_status c = CK_passed) && negb (rc_stale c) && negb (String.eqb id "") && negb (blank (rc_evidence c))
      && match operation_by_id run d id with
         | Some o =>
             String.eqb (o_runId o) (cv_id run) && Z.eqb (o_attempt o) (cv_attempt run)
             && String.eqb (o_operationType o) "tool.bash" && String.eqb (o_status o) "succeeded"
             && bool_decide (o_completedAt o = Some observedAt) && bool_decide (o_result o <> None)
             && match record (o_payload o) ≫= string_member "command", result_details o with
                | Some command, Some details => String.eqb (trim command) (trim (rc_command c)) && exit_zero details
                | _, _ => false
                end
         | None => false
         end
  | _, _ => false
  end.

Definition plan_required (m : TaskExecutionMode) : bool :=
  includes m [read_only_analysis; workspace_mutation; external_action].

(** ** Failures of the plan *)

(** [new Map(plan.map(item => [item.key, item]))] keeps the last item of a key. *)
Definition known_item (plan : list PlanItem) (key : string) : option PlanItem :=
  List.find (fun i => String.eqb (pi_key i) key) (rev plan).

Definition item_failures (items : list PlanItem) : list CompletionFailure :=
  omap (fun item => if bool_decide (pi_status item = PI_done) then None
        else Some (failure "plan_item" (pi_key item) ("Required plan item is " +:+ plan_status_text (pi_status item)))) items.

Definition dependency_failure (plan : list PlanItem) (item : PlanItem) (dependency : string) : option CompletionFailure :=
  match known_item plan dependency with
  | None => Some (failure "plan_dependency" (pi_key item) ("Plan dependency " +:+ dependency +:+ " does not exist"))
  | Some target =>
      if bool_decide (pi_status item = PI_done) && negb (bool_decide (pi_status target = PI_done))
      then Some (failure "plan_dependency" (pi_key item)
        ("Plan dependency " +:+ dependency +:+ " is " +:+ plan_status_text (pi_status target)))
      else None
  end.

Definition dependency_failures (plan items : list PlanItem) : list CompletionFailure :=
  concat (map (fun item => omap (dependency_failure plan item) (default [] (pi_dependencies item))) items).

(** [ORDER BY created_at DESC,id DESC LIMIT ?] *)
Definition manifest_ge (a b : string * ManifestRow) : Prop :=
  Is_true (if (mf_createdAt a.2 =? mf_createdAt b.2)%Z then String.leb b.1 a.1 else (mf_createdAt b.2 <? mf_createdAt a.2)%Z).

#[local] Instance manifest_ge_dec a b : Decision (manifest_ge a b).
Proof. unfold manifest_ge. apply _. Defined.

Definition listContextManifests (runId : string) (limit : nat) (d : GovDb) : list (string * ManifestRow) :=
  take limit (merge_sort manifest_ge (List.filter (fun kv => String.eqb (mf_runId kv.2) runId) (map_to_list (manifests d)))).

Definition manifest_selects (runId ref : string) (d : GovDb) : bool :=
  existsb (fun kv => existsb (fun item => mi_selected item && String.eqb ("memory:" +:+ mi_sourceId item) ref) (mf_items kv.2))
    (listContextManifests runId 20 d).

(** A reference that is evidence without being a resolved source: a check of the run, a selected memory. *)
Definition known_ref (run : CompletionRunView) (d : GovDb) (ref : string) : bool :=
  match after_prefix "check:" ref with
  | Some key => existsb (fun c => String.eqb (rc_key c) key) (cv_checks run)
  | None => false
  end
  || String.prefix "memory:" ref && manifest_selects (cv_id run) ref d.

Definition evidence_failures (run : CompletionRunView) (d : GovDb) (item : PlanItem) : result (list CompletionFailure) :=
  match default [] (pi_completionEvidenceRefs item) with
  | [] => mret [failure "plan_evidence" (pi_key item) "Completed required plan item has no completion evidence"]
  | refs =>
      let* sources := resolveEvidenceSources (cv_id run) refs d in
      mret (omap (fun ref =>
        if includes ref (map es_sourceRef sources) || known_ref run d ref then None
        else Some (failure "plan_evidence" (pi_key item) ("Completion evidence " +:+ ref +:+ " is unavailable for this TaskRun"))) refs)
  end.

Definition coverage_gaps (run : CompletionRunView) (items : list PlanItem) : list CompletionFailure :=
  let fields := ct_fields <$> cv_contract run in
  let required := dedup (map fst (List.filter (fun o => String.eqb o.2 "current") (contract_objectives fields))) in
  let objectives := concat (map (fun i => default [] (pi_objectiveIds i)) items) in
  let criteria := concat (map (fun i => default [] (pi_criterionIds i)) items) in
  omap (fun id => if includes id objectives then None
        else Some (failure "plan_coverage" id "No required plan item covers this current objective")) required
  ++ omap (fun id => if includes id criteria then None
           else Some (failure "plan_coverage" id "No required plan item covers this acceptance criterion"))
       (criterion_ids (taskRunPlanningCriteria fields)).

(** The failures of the criterion-aware items. *)
Definition semantic_failures (run : CompletionRunView) (d : GovDb) (items : list PlanItem) : result (list CompletionFailure) :=
  match items with
  | [] => mret []
  | _ =>
      let* cyclic := expect (cyclicPlanItemKeys (cv_plan run)) (Error "out of fuel") in
      let* unproven := map_result (evidence_failures run d) (List.filter (fun i => bool_decide (pi_status i = PI_done)) items) in
      mret (map (fun key => failure "plan_dependency" key "Plan dependency graph contains a cycle") cyclic
            ++ dependency_failures (cv_plan run) items ++ concat unproven ++ coverage_gaps run items)
  end.

(** ** Failures of the checks *)

Definition check_failure (run : CompletionRunView) (d : Db) (c : RunCheck) : option CompletionFailure :=
  if negb (bool_decide (rc_status c = CK_passed))
  then Some (failure "check" (rc_key c) ("Required check is " +:+ check_status_text (rc_status c)))
  else if rc_stale c then Some (failure "check" (rc_key c) "Evidence is stale")
  else if negb (trusted_check_of run d c)
  then Some (failure "check" (rc_key c) "Evidence is not bound to a successful Bash receipt from the current Attempt")
  else None.

Definition evaluateGate (run : CompletionRunView) (d : GovDb) : result CompletionGate :=
  if negb (cv_gateRequired run) || bool_decide (effectiveGateProfile (ct_view <$> cv_contract run) = gate_relaxed)
  then mret {| cg_passed := true; cg_failures := [] |}
  else
    let requiredPlan := List.filter pi_required (cv_plan run) in
    let requiredChecks := List.filter rc_required (cv_checks run) in
    let policy := gate_policy run (gd_db d) in
    let* semantic := semantic_failures run d (List.filter pi_semantic requiredPlan) in
    let failures :=
      (if bool_decide (requiredPlan = []) && plan_required (mode policy) then [failure "plan" "plan" "No required plan items"] else [])
      ++ item_failures requiredPlan ++ semantic ++ omap (check_failure run (gd_db d)) requiredChecks
      ++ (if bool_decide (evidencePolicy policy = trusted_check) && bool_decide (requiredChecks = [])
          then [failure "check" "trusted_evidence" "Change, verify, and release work requires at least one trusted required check"]
          else []) in
    mret {| cg_passed := bool_decide (failures = []); cg_failures := failures |}.

End gate.
