(* ===== verification/Uncertainty.v ===== *)
(** Accepted uncertainties (adapters/persistence-sqlite/src/store.ts:
    acceptUncertainty, listAcceptedUncertainties): an operator's decision that a
    criterion of a TaskRun's contract may stay unsupported or blocked. *)
From S2P Require Import Prelude Json TaskPolicy Attempt GateData ExecDb Canonical RunStore PlanGraph PlanStore AuditAlgebra Evidence CompletionGate.
Local Open Scope tx_scope.

Record AcceptUncertaintyInput := {
  ai_id : string; ai_runId : string; ai_criterionId : string; ai_actorId : string; ai_rationale : string;
  ai_scope : string; ai_evidenceRefs : list string; ai_expiresAt : option Z; ai_createdAt : Z;
}.

(** The index of the criterion [ac-N], where N is a numeral that does not start with a zero. *)
Definition criterion_index (criterionId : string) : option nat :=
  digits ← after_prefix "ac-" criterionId;
  match digits with
  | String.String c _ => if Ascii.eqb c zero then None else n ← numeral 0 digits; Some (Z.to_nat (n - 1))
  | String.EmptyString => None
  end.

Definition bounded (value label : string) (max : nat) : result string :=
  let normalized := trim value in
  do* check (negb (String.eqb normalized "" || has_nul normalized || Nat.ltb max (String.length normalized)))
    (Error ("Accepted uncertainty " +:+ label +:+ " is invalid")) in
  mret normalized.

(** A reference that is evidence of the run: a resolved source, a check, or a selected memory. *)
Definition available_ref (runId : string) (d : GovDb) (sources : list EvidenceSource) (ref : string) : bool :=
  includes ref (map es_sourceRef sources)
  || match after_prefix "check:" ref with Some key => bool_decide (is_Some (run_checks d !! (runId, key))) | None => false end
  || String.prefix "memory:" ref && manifest_selects runId ref d.

(** The first reference that is not available. *)
Definition unavailable (runId : string) (d : GovDb) (sources : list EvidenceSource) (refs : list string) : option string :=
  List.find (fun ref => negb (available_ref runId d sources ref)) refs.

Definition optional_int (z : option Z) : json := match z with Some n => JInt n | None => JNull end.

Definition uncertainty_json (id : string) (u : UncertaintyRow) : json :=
  JObj [("id", JStr id); ("runId", JStr (un_runId u)); ("criterionId", JStr (un_criterionId u));
        ("criterion", JStr (un_criterion u)); ("contractHash", JStr (un_contractHash u)); ("actorId", JStr (un_actorId u));
        ("rationale", JStr (un_rationale u)); ("scope", JStr (un_scope u)); ("evidenceRefs", strings (un_evidenceRefs u));
        ("expiresAt", optional_int (un_expiresAt u)); ("createdAt", JInt (un_createdAt u))].

Definition accepted_of (id : string) (u : UncertaintyRow) : AcceptedUncertainty :=
  {| au_id := id; au_criterionId := un_criterionId u |}.

(** [expires_at IS NULL OR expires_at > ?] *)
Definition active_at (time : Z) (u : UncertaintyRow) : bool :=
  match un_expiresAt u with None => true | Some e => (time <? e)%Z end.

(** [ORDER BY created_at,id] *)
Definition uncertainty_le (a b : string * UncertaintyRow) : Prop :=
  Is_true (if (un_createdAt a.2 =? un_createdAt b.2)%Z then String.leb a.1 b.1 else (un_createdAt a.2 <? un_createdAt b.2)%Z).

#[export] Instance uncertainty_le_dec a b : Decision (uncertainty_le a b).
Proof. unfold uncertainty_le. apply _. Defined.

Definition listAcceptedUncertainties (runId : string) (activeAt : option Z) (d : Db) : list (string * UncertaintyRow) :=
  merge_sort uncertainty_le (List.filter (fun kv => String.eqb (un_runId kv.2) runId
    && match activeAt with Some t => active_at t kv.2 | None => true end) (map_to_list (uncertainties d))).

Section accept.
Context `{Platform}.

(** The decision the input makes, with the guards on it. *)
Definition accepted_decision (input : AcceptUncertaintyInput) (d : GovDb) : result UncertaintyRow :=
  let missing := Error "Accepted uncertainty requires an immutable TaskRun contract" in
  let* run := expect (runs (gd_db d) !! ai_runId input) missing in
  let* frozen := expect (r_contract run) missing in
  let criteria := taskRunPlanningCriteria (record frozen) in
  let unknown := Error "Accepted uncertainty references an unknown acceptance criterion" in
  let* index := expect (criterion_index (ai_criterionId input)) unknown in
  let* criterion := expect (criteria !! index) unknown in
  do* check (negb (String.eqb criterion "")) unknown in
  let* actorId := bounded (ai_actorId input) "actorId" 500 in
  let* rationale := bounded (ai_rationale input) "rationale" 4000 in
  let* scope := bounded (ai_scope input) "scope" 2000 in
  let evidenceRefs := distinct_trimmed (ai_evidenceRefs input) in
  do* check (Nat.leb (length evidenceRefs) 100) (Error "Accepted uncertainty has too many evidence references") in
  do* check (forallb (fun ref => negb (has_nul ref) && Nat.leb (String.length ref) 2000) evidenceRefs)
    (Error "Accepted uncertainty evidence reference is invalid") in
  let* sources := resolveEvidenceSources (ai_runId input) evidenceRefs d in
  do* match unavailable (ai_runId input) d sources evidenceRefs with
      | Some ref => Throw (Error ("Accepted uncertainty evidence reference is unavailable: " +:+ ref))
      | None => mret tt
      end in
  do* check (match ai_expiresAt input with None => true | Some e => safe_integer e && (ai_createdAt input <? e)%Z end)
    (Error "Accepted uncertainty expiry must be later than creation") in
  let* contractText := stable_text frozen in
  mret {| un_runId := ai_runId input; un_criterionId := ai_criterionId input; un_criterion := criterion;
          un_contractHash := sha256 contractText; un_actorId := actorId; un_rationale := rationale; un_scope := scope;
          un_evidenceRefs := evidenceRefs; un_expiresAt := ai_expiresAt input; un_createdAt := ai_createdAt input |}.

Definition acceptUncertainty (input : AcceptUncertaintyInput) : tx GovDb UncertaintyRow :=
  let* d := gets (fun d => d) in
  let* decision := lift (accepted_decision input d) in
  match uncertainties (gd_db d) !! ai_id input with
  | Some existing =>
      let* hydrated := lift (stable_text (uncertainty_json (ai_id input) existing)) in
      let* proposed := lift (stable_text (uncertainty_json (ai_id input) decision)) in
      do* require (String.eqb hydrated proposed)
        (Error "Accepted uncertainty id already exists with different content") in
      mret decision
  | None =>
      do* in_exec (modify (set_uncertainties (insert (ai_id input) decision))) in
      mret decision
  end.

End accept.
