(* ===== verification/Supervisor.v ===== *)
(** The Supervisor of a TaskRun (apps/core-service/src/composition/
    supervisor.ts): the deterministic reviews that need no model, the review of
    a settled Attempt, which reconciles either with the completion algebra, and
    the decisions and gate evaluations it records. The model-backed reviewer is
    a parameter. *)
From S2P Require Import Prelude Json TaskPolicy Attempt GateData ExecDb Canonical RunStore Mailbox PlanGraph PlanStore AuditAlgebra Evidence CompletionGate Uncertainty.
Local Open Scope tx_scope.

(** * Data *)

(** An audit: the action, reason and gates, and who made them when it says so. *)
Record SupervisorAudit := {
  sa_audit : CompletionAuditAlgebraInput; sa_evaluator : option string; sa_evaluatorModel : option string;
}.

(** The members of a TaskRun the reviews read besides those of the gate. *)
Record GovernanceTaskRunView := {
  gv_run : CompletionRunView; gv_artifacts : list string; gv_completionGate : CompletionGate;
  gv_latestCoverage : list CriterionCoverage;
}.

Definition cv_of (run : GovernanceTaskRunView) : CompletionRunView := gv_run run.
Definition contract_fields (run : GovernanceTaskRunView) : option (list (string * json)) := ct_fields <$> cv_contract (gv_run run).
Definition contract_view (run : GovernanceTaskRunView) : option TaskPolicyContractView := ct_view <$> cv_contract (gv_run run).

(** [contract.acceptanceCriteria] *)
Definition acceptance_criteria (run : GovernanceTaskRunView) : list string :=
  match contract_fields run with Some fs => omap text_of (array_member "acceptanceCriteria" fs) | None => [] end.

Definition plain_gate (fs : list GateFailure) (summary_ : string) (coverage : option (list CriterionCoverage)) : CompletionAuditGate :=
  {| passed := bool_decide (fs = []); failures := fs; criterionCoverage := coverage; summary := summary_ |}.

Definition five_gates (g1 g2 g3 g4 g5 : CompletionAuditGate) : Gates := fun t =>
  match t with progress => g1 | evidence => g2 | contract => g3 | completion => g4 | continuation => g5 end.

(** * Exact delivery *)

Definition operation_view (o : OperationRow) : TaskPolicyOperationView :=
  {| operationType := o_operationType o; op_status := o_status o; op_attempt := o_attempt o; effects := Some (o_effects o) |}.

Definition exact_failure : GateFailure :=
  {| kind := "contract"; key := "exact_output"; reason := "The candidate did not exactly match the requested literal output.";
     disposition := auto_fixable |}.

Definition exact_coverage (ok : bool) (criteria : list string) : list CriterionCoverage :=
  map (fun c => {| criterion := c; cov_status := if ok then covered else contradicted; evidenceRefs := []; evidenceQuotes := None;
                   acceptedUncertaintyId := None;
                   cov_reason := if ok then "Core matched the complete candidate to the requested literal output."
                                 else "The candidate did not exactly match the requested literal output." |}) criteria.

Definition reviewExactCompletion (run : GovernanceTaskRunView) (response : string) (operations : list OperationRow)
    (modelOutputTruncated : bool) (policy : TaskExecutionPolicy) : option SupervisorAudit :=
  match cv_contract (gv_run run) with
  | None => None
  | Some _ =>
      if negb (bool_decide (reviewPolicy policy = review_local)) || negb (bool_decide (mode policy = exact_delivery)) then None else
      match exactOutput policy with
      | None => None
      | Some output =>
          let expected := trim output in
          if String.eqb expected "" then None else
          let ok := negb modelOutputTruncated && String.eqb (trim response) expected && bool_decide (length operations = 0)
                    && bool_decide (gv_artifacts run = []) in
          let fs := if ok then [] else [exact_failure] in
          Some {| sa_audit := {| action := if ok then S_complete_taskrun else S_start_continuation;
                    reasonCode := if ok then "exact_delivery_validated" else "exact_delivery_mismatch";
                    rationale := if ok then "Core exactly matched the requested literal delivery." else reason exact_failure;
                    gates := five_gates (plain_gate [] "Exact delivery requires no execution plan." None)
                      (plain_gate [] "Exact delivery requires no external evidence." None)
                      (plain_gate fs (if ok then "The candidate exactly matches the requested literal output." else reason exact_failure)
                        (Some (exact_coverage ok (acceptance_criteria run))))
                      (plain_gate fs (if ok then "Exact delivery validation passed." else reason exact_failure) None)
                      (plain_gate [] (if ok then "No continuation is required." else "A corrected literal response can be produced automatically.") None) |};
                  sa_evaluator := Some "system"; sa_evaluatorModel := Some "deterministic-exact-delivery-v1" |}
      end
  end.

(** * Deterministic prerequisites *)

Definition plan_kinds : list string := ["plan"; "plan_item"; "plan_dependency"; "plan_coverage"; "plan_evidence"].

Definition to_failure (f : CompletionFailure) : GateFailure :=
  {| kind := cf_kind f; key := cf_key f; reason := cf_reason f; disposition := auto_fixable |}.

Definition reviewDeterministicPrerequisites (run : GovernanceTaskRunView) : option SupervisorAudit :=
  let g := gv_completionGate run in
  if cg_passed g then None else
  let localFailures := cg_failures g in
  if bool_decide (is_Some (cv_contract (gv_run run))) || negb (existsb (fun f => String.eqb (cf_kind f) "plan" && String.eqb (cf_key f) "plan") localFailures)
  then
    let planFailures := map to_failure (List.filter (fun f => includes (cf_kind f) plan_kinds) localFailures) in
    let checkFailures := map to_failure (List.filter (fun f => String.eqb (cf_kind f) "check") localFailures) in
    if negb (Nat.eqb (length planFailures + length checkFailures) (length localFailures)) then None else
    Some {| sa_audit := {| action := S_start_continuation;
              reasonCode := if bool_decide (planFailures = []) then "deterministic_check_incomplete" else "deterministic_plan_incomplete";
              rationale := "Skipped semantic Supervisor call because " +:+ pretty (length localFailures)
                +:+ " authoritative prerequisite failure(s) require repair in a new Attempt.";
              gates := five_gates
                (plain_gate planFailures (if bool_decide (planFailures = []) then "Required plan work is complete." else "Required plan work is incomplete.") None)
                (plain_gate checkFailures (if bool_decide (checkFailures = []) then "Required check evidence prerequisites pass." else "Required check evidence is missing, failed, or stale.") None)
                (if bool_decide (acceptance_criteria run = []) then plain_gate [] "No acceptance criteria require semantic coverage." None
                 else {| passed := false; failures := []; criterionCoverage := None;
                         summary := "Not evaluated yet; semantic contract review runs after deterministic plan and check prerequisites pass." |})
                (plain_gate (planFailures ++ checkFailures) "Completion is blocked by authoritative deterministic prerequisites." None)
                (plain_gate [] "The prerequisite failures are automatically repairable." None) |};
            sa_evaluator := None; sa_evaluatorModel := None |}
  else None.

(** * External actions *)

Definition external_failure : GateFailure :=
  {| kind := "approval"; key := "external_action_attempt_authorization";
     reason := "A new Attempt cannot inherit external-action authorization activated for an earlier Attempt; explicit approval is required before continuation.";
     disposition := needs_approval |}.

Definition awaiting_approval (g : CompletionAuditGate) : CompletionAuditGate :=
  {| passed := false; failures := failures g ++ [external_failure]; criterionCoverage := criterionCoverage g;
     summary := reason external_failure |}.

Definition requireExternalContinuationApproval (source : SupervisorAudit) (policy : TaskExecutionPolicy) : SupervisorAudit :=
  let a := sa_audit source in
  if negb (bool_decide (mode policy = external_action)) || negb (includes (action a) [S_start_continuation; S_wait_for_runtime]) then source
  else {| sa_audit := {| action := S_pause_for_approval; reasonCode := "external_action_reapproval_required";
            rationale := reason external_failure;
            gates := set_gate continuation (awaiting_approval (gates a continuation))
                       (set_gate completion (awaiting_approval (gates a completion)) (gates a)) |};
          sa_evaluator := sa_evaluator source; sa_evaluatorModel := sa_evaluatorModel source |}.

(** * The review of a settled Attempt *)

Inductive ReviewKind := relaxed_review | semantic_lite_review | settled_review.

Definition gate_type_text (t : CompletionAuditGateType) : string :=
  match t with
  | progress => "progress" | evidence => "evidence" | contract => "contract" | completion => "completion" | continuation => "continuation"
  end.

(** The text has [p] in it: the alternatives of [/(?:unavailable|fallback|recovery)/]. *)
Fixpoint mentions (p s : string) : bool :=
  String.prefix p s || match s with String.String _ s' => mentions p s' | String.EmptyString => false end.

Definition epistemic_status (evaluator reasonCode model : string) : string :=
  if String.eqb evaluator "llm" then "model_assessed"
  else if existsb (fun p => mentions p (reasonCode +:+ " " +:+ model)) ["unavailable"; "fallback"; "recovery"] then "degraded"
  else "deterministic".

Section supervisor.
Context `{Platform}.

(** The reviewer (a model behind the port [SupervisorReviewer]): its name, and
    its answer to what it is shown of a settled Attempt. [None] for a kind of
    review it does not offer; the settled review is always there. *)
Context (reviewer_model : string)
  (reviewer : ReviewKind -> GovernanceTaskRunView -> string -> bool -> list (string * OperationRow) -> list EvidenceSource -> option SupervisorAudit)
  (reviewSettledBy : GovernanceTaskRunView -> string -> bool -> list (string * OperationRow) -> list EvidenceSource -> SupervisorAudit).

Definition createDecision (runId : string) (attempt checkpointSeq : Z) (trigger : string) (act : SupervisorAction)
    (reasonCode rationale candidateResponse : string) (override : option (string * string)) (id : string) (createdAt : Z) : DecisionRow :=
  let reviewed := String.eqb trigger "attempt_terminal" || String.eqb trigger "settled" && negb (bool_decide (act = S_wait_for_runtime)) in
  let evaluator := match override with Some (e, _) => e | None => if reviewed then "llm" else "system" end in
  let model := match override with Some (_, m) => m | None => if reviewed then reviewer_model else "" end in
  {| d_id := id; d_runId := runId; d_attempt := attempt; d_status := D_proposed; d_action := act;
     d_candidateResponseHash := sha256 candidateResponse; d_error := ""; d_createdAt := createdAt; d_executedAt := None;
     d_checkpointSeq := checkpointSeq; d_trigger := trigger; d_reasonCode := reasonCode; d_rationale := rationale;
     d_instruction := if includes act [S_steer; S_follow_up] then rationale else "";
     d_evaluator := evaluator; d_evaluatorModel := model; d_epistemicStatus := epistemic_status evaluator reasonCode model |}.

Definition recordSupervisorDecision (row : DecisionRow) : tx Db DecisionRow :=
  let* d := gets id in
  do* require (bool_decide (decisions d !! d_id row = None)) (SqliteError "supervisor_decisions.id") in
  do* require (bool_decide (is_Some (runs d !! d_runId row))) (SqliteError "supervisor_decisions.run_id") in
  do* modify (set_decisions (insert (d_id row) row)) in
  mret row.

Definition recordGateEvaluation (gid : string) (row : GateRow) : tx Db unit :=
  let* d := gets id in
  do* require (bool_decide (ExecDb.gates d !! gid = None)) (SqliteError "gate_evaluations.id") in
  do* require (bool_decide (is_Some (runs d !! g_runId row))) (SqliteError "gate_evaluations.run_id") in
  modify (set_gates (insert gid row)).

(** [listControlInbox(run.id)], of the current Attempt and not delivered. *)
Definition pending_controls (run : CompletionRunView) (d : Db) : list (string * ControlRow) :=
  List.filter (fun kq => Z.eqb (q_attempt kq.2) (cv_attempt run) && includes (q_status kq.2) [K_queued; K_delivering])
    (listControlInbox (cv_id run) d).

(** The references the plan and the last audit link to. *)
Definition linked_refs (run : GovernanceTaskRunView) : list string :=
  concat (map (fun i => default [] (pi_completionEvidenceRefs i)) (cv_plan (gv_run run)))
  ++ concat (map (fun c => evidenceRefs c ++ map eq_sourceRef (default [] (evidenceQuotes c))) (gv_latestCoverage run)).

Definition reviewed_operations (run : GovernanceTaskRunView) (d : Db) : list (string * OperationRow) :=
  listOperations (cv_id (gv_run run)) (Some 16)
    (omap rc_sourceOperationId (List.filter (fun c => match rc_sourceOperationId c with Some s => negb (String.eqb s "") | None => false end)
       (cv_checks (gv_run run)))
     ++ omap (after_prefix "operation:") (linked_refs run)) d.

(** The memory items the latest context manifest selected. *)
Definition selected_memory (run : CompletionRunView) (d : GovDb) : list string :=
  match listContextManifests (cv_id run) 1 d with
  | (_, m) :: _ => map (fun i => "memory:" +:+ mi_sourceId i)
      (List.filter (fun i => mi_selected i && includes (mi_kind i) ["core_memory"; "memory_card"; "cold_topic"]) (mf_items m))
  | [] => []
  end.

Definition review_sources (run : GovernanceTaskRunView) (operationIds : list string) (d : GovDb) : result (list EvidenceSource) :=
  resolveEvidenceSources (cv_id (gv_run run))
    (linked_refs run ++ map (fun i => "operation:" +:+ i) operationIds
     ++ map (fun a => "artifact:" +:+ a) (drop (length (gv_artifacts run) - 24) (gv_artifacts run))
     ++ selected_memory (gv_run run) d) d.

(** How the audit was made: its evaluator and model, and whether no reviewer was asked. *)
Record ReviewedAudit := { ra_audit : SupervisorAudit; ra_policy : TaskExecutionPolicy; ra_override : option (string * string) }.

(** The audit of a settled Attempt before the algebra reconciles it. *)
Definition reviewed_audit (run : GovernanceTaskRunView) (response : string) (truncated : bool) (profile : GateProfile)
    (d : GovDb) : result ReviewedAudit :=
  let strictly := bool_decide (profile = gate_strict) in
  let prerequisite := if strictly then reviewDeterministicPrerequisites run else None in
  let operations := match prerequisite with Some _ => [] | None => reviewed_operations run (gd_db d) end in
  let policy := effectiveTaskExecutionPolicy (contract_view run) (map (fun kv => operation_view kv.2) operations) (Some (cv_attempt (gv_run run))) in
  match prerequisite with
  | Some a => mret {| ra_audit := a; ra_policy := policy; ra_override := Some ("system", "deterministic-prerequisite-gate") |}
  | None =>
      match (if strictly then reviewExactCompletion run response (map snd operations) truncated policy else None) with
      | Some a => mret {| ra_audit := a; ra_policy := policy; ra_override := Some ("system", "deterministic-exact-delivery-v1") |}
      | None =>
          let* sources := review_sources run (map fst operations) d in
          let semantic :=
            if bool_decide (profile = gate_relaxed) then reviewer relaxed_review run response truncated operations sources
            else None in
          let audit := match semantic with
            | Some a => a
            | None =>
                match (if bool_decide (reviewPolicy policy = semantic_lite)
                       then reviewer semantic_lite_review run response truncated operations sources else None) with
                | Some a => a
                | None => reviewSettledBy run response truncated operations sources
                end
            end in
          mret {| ra_audit := audit; ra_policy := policy; ra_override := None |}
      end
  end.

Definition audit_profile (profile : GateProfile) : AuditProfile := match profile with gate_relaxed => relaxed | _ => strict end.

(** The audit the algebra makes of it, with the uncertainties that are active when the review is done. *)
Definition settled_audit (r : ReviewedAudit) (profile : GateProfile) (active : list AcceptedUncertainty) : CompletionAuditAlgebraInput :=
  enforceCompletionAuditAlgebra (sa_audit (requireExternalContinuationApproval (ra_audit r) (ra_policy r)))
    (audit_profile profile) active.

Definition evaluator_of (r : ReviewedAudit) : string * string :=
  match ra_override r with
  | Some e => e
  | None => (default "llm" (sa_evaluator (ra_audit r)), default reviewer_model (sa_evaluatorModel (ra_audit r)))
  end.

Definition gate_row (run : CompletionRunView) (checkpointSeq : Z) (e : string * string) (manifestHash : string) (createdAt : Z)
    (t : CompletionAuditGateType) (g : CompletionAuditGate) : GateRow :=
  {| g_runId := cv_id run; g_attempt := cv_attempt run; g_gateType := gate_type_text t; g_passed := passed g;
     g_failures := failures g; g_checkpointSeq := checkpointSeq; g_evaluator := e.1; g_evaluatorModel := e.2;
     g_summary := summary g; g_criterionCoverage := default [] (criterionCoverage g);
     g_inputManifestHash := manifestHash; g_createdAt := createdAt |}.

Definition all_gate_types : list CompletionAuditGateType := [progress; evidence; contract; completion; continuation].

(** The review of a settled Attempt. The store may change while the reviewer
    works: [before] is what it read, the state of the transaction what it finds
    afterwards, with the clock read there. [manifestHash] is the digest of what
    was reviewed. *)
Definition reviewSettled (run : GovernanceTaskRunView) (checkpointSeq : Z) (response : string) (truncated : bool)
    (manifestHash : string) (before : GovDb) (now : Z) : tx GovDb (DecisionRow * list GateRow) :=
  let view := gv_run run in
  let decide_as act code text override :=
    let* uid := in_exec randomUUID in
    in_exec (recordSupervisorDecision
      (createDecision (cv_id view) (cv_attempt view) checkpointSeq "settled" act code text response override uid now)) in
  let pending := pending_controls view (gd_db before) in
  if negb (bool_decide (length pending = 0)) then
    let* decision := decide_as S_wait_for_runtime "pending_control_delivery"
      (pretty (length pending) +:+ " durable control message(s) are still pending delivery.") None in
    mret (decision, [])
  else
    let profile := effectiveGateProfile (contract_view run) in
    if bool_decide (profile = gate_off) then
      let* decision := decide_as S_complete_taskrun "gate_disabled"
        "Completion acceptance was disabled for this TaskRun; the candidate was delivered without a Gate audit."
        (Some ("system", "gate-disabled-v1")) in
      mret (decision, [])
    else
      let* r := lift (reviewed_audit run response truncated profile before) in
      let* d := gets id in
      let active := map (fun kv => accepted_of kv.1 kv.2) (listAcceptedUncertainties (cv_id view) (Some now) (gd_db d)) in
      let audit := settled_audit r profile active in
      let row t := gate_row view checkpointSeq (evaluator_of r) manifestHash now t (gates audit t) in
      do* for_each (fun t => let* uid := in_exec randomUUID in in_exec (recordGateEvaluation uid (row t))) all_gate_types in
      let* decision := decide_as (action audit) (reasonCode audit) (rationale audit) (Some (evaluator_of r)) in
      mret (decision, map row all_gate_types).

(** The status of a decision after it was acted on. *)
Definition updateSupervisorDecision (id : string) (status : DecisionStatus) (error : string) (timestamp : Z) : tx Db (option string) :=
  let executedAt := if includes status [D_executed; D_failed] then Some timestamp else None in
  do* modify (set_decisions (alter (fun x =>
    {| d_id := d_id x; d_runId := d_runId x; d_attempt := d_attempt x; d_status := status; d_action := d_action x;
       d_candidateResponseHash := d_candidateResponseHash x; d_error := error; d_createdAt := d_createdAt x;
       d_executedAt := match executedAt with Some t => Some t | None => d_executedAt x end;
       d_checkpointSeq := d_checkpointSeq x; d_trigger := d_trigger x; d_reasonCode := d_reasonCode x; d_rationale := d_rationale x;
       d_instruction := d_instruction x; d_evaluator := d_evaluator x; d_evaluatorModel := d_evaluatorModel x;
       d_epistemicStatus := d_epistemicStatus x |}) id)) in
  let* d := gets (fun d => d) in
  mret (d_runId <$> decisions d !! id).

End supervisor.
