(* ===== verification/GateFacts.v ===== *)
(** What the completion gate guarantees: what a TaskRun that passes has
    delivered, and of what kinds its failures are. *)
From S2P Require Import Prelude Json TaskPolicy Attempt ExecDb Canonical CanonicalFacts RunStore Tools PlanGraph PlanStore Evidence CompletionGate AttemptRepo AttemptSpec Demo.
Local Open Scope tx_scope.

(** * Lists of failures *)

Lemma omap_nil {A B} (f : A -> option B) l : omap f l = [] <-> forall x, x ∈ l -> f x = None.
Proof.
  induction l as [|x l IH]; cbn; [split; [intros _ x Hx; by apply elem_of_nil in Hx|done]|].
  split.
  - destruct (f x) eqn:E; [done|]. intros H y [->|Hy]%elem_of_cons; [done|]. by apply (proj1 IH).
  - intros H. rewrite (H x) by (by left). apply IH. intros y Hy. apply H. by right.
Qed.

Lemma concat_nil {A} (ls : list (list A)) : concat ls = [] <-> forall l, l ∈ ls -> l = [].
Proof.
  induction ls as [|l ls IH]; cbn; [split; [intros _ x Hx; by apply elem_of_nil in Hx|done]|].
  rewrite app_nil, IH. split.
  - intros [-> H] y [->|Hy]%elem_of_cons; [done|by apply H].
  - intros H. split; [apply H; by left|]. intros y Hy. apply H. by right.
Qed.

(** * Receipts *)

(** The receipt that backs a check: a Bash operation of the run's current
    Attempt that succeeded with exit code zero on the command of the check. *)
Record receipt (run : CompletionRunView) (d : Db) (c : RunCheck) (id : string) (o : OperationRow) : Prop := {
  rc_operation : operations d !! id = Some o;
  rc_run : o_runId o = cv_id run;
  rc_attempt : o_attempt o = cv_attempt run;
  rc_bash : o_operationType o = "tool.bash";
  rc_succeeded : o_status o = "succeeded";
  rc_completed : o_completedAt o = rc_observedAt c;
  rc_exit : exists details, result_details o = Some details /\ exit_zero details = true;
  rc_ran : payload_command o = trim (rc_command c);
}.

Lemma listOperations_elem runId limit ids d id o :
  (id, o) ∈ listOperations runId limit ids d -> operations d !! id = Some o /\ o_runId o = runId.
Proof.
  unfold listOperations. intros Hin.
  assert ((id, o) ∈ merge_sort operation_le (List.filter (fun kv => String.eqb (o_runId kv.2) runId) (map_to_list (operations d)))) as H.
  { destruct (_ && _); [done|]. by apply filter_elem in Hin as [? _]. }
  rewrite merge_sort_Permutation in H. apply filter_elem in H as [H E]. bool_prop.
  split; [|done]. by apply elem_of_map_to_list.
Qed.

Lemma operation_by_id_ok run d id o :
  operation_by_id run d id = Some o -> operations d !! id = Some o /\ o_runId o = cv_id run.
Proof.
  unfold operation_by_id. intros H. destruct (List.find _ _) as [[id' o']|] eqn:E; [|done]. injection H as ->.
  apply List.find_some in E as [E Hid]. cbn in Hid. bool_prop. subst id'.
  apply In_rev, list_elem_of_In in E. by eapply listOperations_elem.
Qed.

Lemma trusted_receipt run d c :
  trusted_check_of run d c = true ->
  rc_status c = CK_passed /\ rc_stale c = false
  /\ exists id o, rc_sourceOperationId c = Some id /\ receipt run d c id o.
Proof.
  unfold trusted_check_of. intros H. destruct (rc_sourceOperationId c) as [id|]; [|done].
  destruct (truthy_int (rc_observedAt c)) as [t|] eqn:Et; [|done].
  destruct (operation_by_id run d id) as [o|] eqn:Eo; [|by rewrite andb_false_r in H].
  destruct (record (o_payload o) ≫= string_member "command") as [command|] eqn:Ec; [|by rewrite !andb_false_r in H].
  destruct (result_details o) as [details|] eqn:Ed; [|by rewrite !andb_false_r in H].
  bool_prop. apply operation_by_id_ok in Eo as [Ho Hr]. split; [done|]. split; [done|]. exists id, o. split; [done|].
  assert (rc_observedAt c = Some t) as Hobs by (destruct (rc_observedAt c) as [[]|]; cbn in Et; congruence).
  split; try done; [congruence|by exists details|]. unfold payload_command. by rewrite Ec.
Qed.

(** * What a passing run has delivered *)

Definition required_items (run : CompletionRunView) : list PlanItem := List.filter pi_required (cv_plan run).
Definition required_semantic (run : CompletionRunView) : list PlanItem := List.filter pi_semantic (required_items run).

(** The promise of the gate. *)
Record Delivered `{Platform} (run : CompletionRunView) (d : GovDb) : Prop := {
  dl_done : forall i, i ∈ required_items run -> pi_status i = PI_done;
  dl_planned : plan_required (mode (gate_policy run (gd_db d))) = true -> required_items run <> [];
  dl_acyclic : required_semantic run <> [] -> acyclic (dependency_map (cv_plan run));
  dl_dependencies : forall i k, i ∈ required_semantic run -> k ∈ default [] (pi_dependencies i) ->
    exists t, known_item (cv_plan run) k = Some t /\ pi_status t = PI_done;
  dl_evidence : forall i, i ∈ required_semantic run -> exists refs sources,
    pi_completionEvidenceRefs i = Some refs /\ refs <> [] /\ resolveEvidenceSources (cv_id run) refs d = Ok sources
    /\ forall ref, ref ∈ refs -> ref ∈ map es_sourceRef sources \/ known_ref run d ref = true;
  dl_objectives : required_semantic run <> [] -> forall id,
    (id, "current"%string) ∈ contract_objectives (ct_fields <$> cv_contract run) ->
    exists i, i ∈ required_semantic run /\ id ∈ default [] (pi_objectiveIds i);
  dl_criteria : required_semantic run <> [] -> forall id,
    id ∈ criterion_ids (taskRunPlanningCriteria (ct_fields <$> cv_contract run)) ->
    exists i, i ∈ required_semantic run /\ id ∈ default [] (pi_criterionIds i);
  dl_checks : forall c, c ∈ cv_checks run -> rc_required c = true ->
    rc_status c = CK_passed /\ rc_stale c = false
    /\ exists id o, rc_sourceOperationId c = Some id /\ receipt run (gd_db d) c id o;
  dl_verified : mutation_observed run (gd_db d) = true -> exists c, c ∈ cv_checks run /\ rc_required c = true;
}.

Section delivered.
Context `{Platform} (run : CompletionRunView) (d : GovDb).

Lemma item_done items : item_failures items = [] -> forall i, i ∈ items -> pi_status i = PI_done.
Proof.
  unfold item_failures. rewrite omap_nil. intros Hf i Hi. specialize (Hf i Hi). by case_bool_decide.
Qed.

Lemma dependency_done items i k :
  dependency_failures (cv_plan run) items = [] -> i ∈ items -> pi_status i = PI_done -> k ∈ default [] (pi_dependencies i) ->
  exists t, known_item (cv_plan run) k = Some t /\ pi_status t = PI_done.
Proof.
  unfold dependency_failures. rewrite concat_nil. intros Hf Hi Hs Hk.
  assert (omap (dependency_failure (cv_plan run) i) (default [] (pi_dependencies i)) = []) as Ho.
  { apply Hf. apply list_elem_of_fmap. by exists i. }
  rewrite omap_nil in Ho. specialize (Ho k Hk). unfold dependency_failure in Ho.
  destruct (known_item _ k) as [t|]; [|done]. exists t. split; [done|].
  rewrite (bool_decide_eq_true_2 (pi_status i = PI_done)) in Ho by done. by case_bool_decide.
Qed.

Lemma evidence_present i :
  evidence_failures run d i = Ok [] -> exists refs sources,
    pi_completionEvidenceRefs i = Some refs /\ refs <> [] /\ resolveEvidenceSources (cv_id run) refs d = Ok sources
    /\ forall ref, ref ∈ refs -> ref ∈ map es_sourceRef sources \/ known_ref run d ref = true.
Proof.
  unfold evidence_failures. intros Hf. destruct (pi_completionEvidenceRefs i) as [[|r refs]|]; cbn [default] in Hf; try done.
  apply result_bind_ok in Hf as (sources & Hs & Hf). exists (r :: refs), sources.
  split; [done|]. split; [done|]. split; [done|].
  apply (f_equal (fun o => match o with Ok l => l | _ => [] end)) in Hf.
  pose proof (proj1 (omap_nil _ (r :: refs)) Hf) as Hall. clear Hf. intros ref Hr. specialize (Hall ref Hr). cbn beta in Hall.
  destruct (includes ref (map es_sourceRef sources)) eqn:Ei; [left; by apply includes_spec|].
  destruct (known_ref run d ref); [by right|done].
Qed.

Lemma covered_somewhere (f : PlanItem -> option (list string)) items id :
  includes id (concat (map (fun i => default [] (f i)) items)) = true -> exists i, i ∈ items /\ id ∈ default [] (f i).
Proof.
  intros Hi%includes_spec. apply list_elem_of_In, in_concat in Hi as (l & Hl & Hid).
  apply in_map_iff in Hl as (i & <- & Hi). exists i. split; by apply list_elem_of_In.
Qed.

Lemma dedup_elem_of l (id : string) : id ∈ l -> id ∈ dedup l.
Proof. by rewrite dedup_elem. Qed.

Lemma coverage_done items :
  coverage_gaps run items = [] ->
  (forall id, (id, "current"%string) ∈ contract_objectives (ct_fields <$> cv_contract run) ->
    exists i, i ∈ items /\ id ∈ default [] (pi_objectiveIds i))
  /\ forall id, id ∈ criterion_ids (taskRunPlanningCriteria (ct_fields <$> cv_contract run)) ->
    exists i, i ∈ items /\ id ∈ default [] (pi_criterionIds i).
Proof.
  unfold coverage_gaps. intros [H1 H2]%app_nil. rewrite omap_nil in H1, H2. split.
  - intros id Hid. apply covered_somewhere. specialize (H1 id). cbn beta in H1.
    destruct (includes id _); [done|]. discriminate H1. apply dedup_elem_of, list_elem_of_fmap.
    exists (id, "current"%string). split; [done|]. by apply filter_elem.
  - intros id Hid. apply covered_somewhere. specialize (H2 id Hid). cbn beta in H2. by destruct (includes id _).
Qed.

Lemma checks_done :
  omap (check_failure run (gd_db d)) (List.filter rc_required (cv_checks run)) = [] ->
  forall c, c ∈ cv_checks run -> rc_required c = true ->
    rc_status c = CK_passed /\ rc_stale c = false
    /\ exists id o, rc_sourceOperationId c = Some id /\ receipt run (gd_db d) c id o.
Proof.
  rewrite omap_nil. intros Hf c Hc Hr. specialize (Hf c). unfold check_failure in Hf. apply trusted_receipt.
  destruct (bool_decide (rc_status c = CK_passed)), (rc_stale c), (trusted_check_of run (gd_db d) c);
    cbn in Hf; try done; by (discriminate Hf; apply filter_elem).
Qed.

Lemma semantic_done items :
  semantic_failures run d items = Ok [] -> (forall i, i ∈ items -> pi_status i = PI_done) ->
  (items <> [] -> acyclic (dependency_map (cv_plan run)))
  /\ dependency_failures (cv_plan run) items = []
  /\ (forall i, i ∈ items -> evidence_failures run d i = Ok [])
  /\ (items <> [] -> coverage_gaps run items = []).
Proof.
  intros Hs Hd. destruct items as [|i0 items]; [repeat split; try done; intros i Hi; by apply elem_of_nil in Hi|].
  unfold semantic_failures in Hs. apply result_bind_ok in Hs as (keys & Hk%expect_ok & Hs).
  apply result_bind_ok in Hs as (unproven & Hu & Hs). injection Hs as Hs.
  apply app_nil in Hs as [Hc Hs]. apply app_nil in Hs as [Hdep Hs]. apply app_nil in Hs as [Hun Hcov].
  split; [|split; [done|split; [|done]]].
  - intros _. destruct (cyclic_keys_ok (cv_plan run)) as (keys' & Hk' & Hn & _). rewrite Hk in Hk'. simplify_eq.
    apply Hn. by destruct keys'.
  - intros i Hi. rewrite concat_nil in Hun. apply map_result_ok in Hu.
    assert (i ∈ List.filter (fun i => bool_decide (pi_status i = PI_done)) (i0 :: items)) as Hf.
    { apply filter_elem. split; [done|]. by apply bool_decide_eq_true, Hd. }
    apply list_elem_of_lookup in Hf as [n Hn]. destruct (Forall2_lookup_l _ _ _ _ _ Hu Hn) as (fs & Hfs & ->).
    rewrite (Hun fs); [done|]. by eapply list_elem_of_lookup_2.
Qed.

Lemma gate_delivered g :
  evaluateGate run d = Ok g -> cg_passed g = true ->
  cv_gateRequired run = true -> effectiveGateProfile (ct_view <$> cv_contract run) <> gate_relaxed ->
  Delivered run d.
Proof.
  unfold evaluateGate. intros Hg Hpass Hreq Hprof. rewrite Hreq, bool_decide_eq_false_2 in Hg by done. cbn [negb orb] in Hg.
  apply result_bind_ok in Hg as (semantic & Hsem & Hg). injection Hg as <-. cbn [cg_passed] in Hpass.
  apply bool_decide_eq_true in Hpass. apply app_nil in Hpass as [Hplan Hpass]. apply app_nil in Hpass as [Hitems Hpass].
  apply app_nil in Hpass as [-> Hpass]. apply app_nil in Hpass as [Hchecks Hpolicy].
  fold (required_items run) in *. fold (required_semantic run) in Hsem. pose proof (item_done _ Hitems) as Hdone.
  assert (Hsd : forall i, i ∈ required_semantic run -> pi_status i = PI_done) by (intros i [Hi _]%filter_elem; by apply Hdone).
  destruct (semantic_done _ Hsem Hsd) as (Hac & Hdep & Hev & Hcov).
  split; try done.
  - intros Hp E. by rewrite Hp, (bool_decide_eq_true_2 (required_items run = [])) in Hplan by done.
  - intros i k Hi Hk. by eapply dependency_done; eauto.
  - intros i Hi. by apply evidence_present, Hev.
  - intros Hne. by apply coverage_done, Hcov.
  - intros Hne. by apply coverage_done, Hcov.
  - by apply checks_done.
  - intros Hm. assert (evidencePolicy (gate_policy run (gd_db d)) = trusted_check) as Ht.
    { unfold gate_policy. rewrite Hm.
      apply (mutation_floor _ _ _ (observed_write (cv_attempt run))); [by left|done|done]. }
    rewrite Ht, (bool_decide_eq_true_2 (trusted_check = trusted_check)) in Hpolicy by done.
    destruct (List.filter rc_required (cv_checks run)) as [|c cs] eqn:E; [done|].
    exists c. apply filter_elem. rewrite E. by left.
Qed.


(** Every failure the gate reports is about the plan or a check. *)
Lemma evidence_kind i fs f : evidence_failures run d i = Ok fs -> f ∈ fs -> cf_kind f = "plan_evidence".
Proof.
  unfold evidence_failures. intros Hf Hin. destruct (default [] (pi_completionEvidenceRefs i)) as [|r refs].
  - injection Hf as <-. by apply list_elem_of_singleton in Hin as ->.
  - apply result_bind_ok in Hf as (sources & _ & Hf).
    apply (f_equal (fun o => match o with Ok l => l | _ => [] end)) in Hf. cbv beta iota in Hf. subst fs.
    apply list_elem_of_omap in Hin as (ref & _ & Hr). destruct (_ || _); [done|]. by injection Hr as <-.
Qed.

Lemma semantic_kind items fs f :
  semantic_failures run d items = Ok fs -> f ∈ fs -> cf_kind f ∈ ["plan_dependency"; "plan_evidence"; "plan_coverage"]%string.
Proof.
  destruct items as [|i0 items]; [by intros [= <-] Hf%elem_of_nil|]. unfold semantic_failures. intros Hs Hin.
  apply result_bind_ok in Hs as (keys & _ & Hs). apply result_bind_ok in Hs as (unproven & Hu & Hs). injection Hs as <-.
  rewrite !elem_of_app in Hin. destruct Hin as [Hin|[Hin|[Hin|Hin]]].
  - apply list_elem_of_fmap in Hin as (k & -> & _). by left.
  - unfold dependency_failures in Hin. apply list_elem_of_In, in_concat in Hin as (l & Hl & Hf).
    apply in_map_iff in Hl as (i & <- & _). apply list_elem_of_In, list_elem_of_omap in Hf as (k & _ & Hk).
    unfold dependency_failure in Hk. destruct (known_item _ k); [case_match; [|done]|]; injection Hk as <-; by left.
  - apply list_elem_of_In, in_concat in Hin as (l & Hl & Hf). apply map_result_ok in Hu.
    apply list_elem_of_In, list_elem_of_lookup in Hl as [n Hn]. destruct (Forall2_lookup_r _ _ _ _ _ Hu Hn) as (i & _ & Hi).
    rewrite (evidence_kind i l f Hi) by (by apply list_elem_of_In). right. by left.
  - unfold coverage_gaps in Hin. assert (cf_kind f = "plan_coverage") as ->; [|by right; right; left].
    apply elem_of_app in Hin as [Hin|Hin]; apply list_elem_of_omap in Hin as (k & _ & Hk); destruct (includes _ _); try done; by injection Hk as <-.
Qed.

Lemma gate_kind g f :
  evaluateGate run d = Ok g -> f ∈ cg_failures g ->
  cf_kind f ∈ ["plan"; "plan_item"; "plan_dependency"; "plan_coverage"; "plan_evidence"]%string \/ cf_kind f = "check".
Proof.
  unfold evaluateGate. destruct (_ || _); [by intros [= <-] Hf%elem_of_nil|]. intros Hg Hin.
  apply result_bind_ok in Hg as (semantic & Hsem & Hg). injection Hg as <-. cbn [cg_failures] in Hin.
  rewrite !elem_of_app in Hin. destruct Hin as [Hin|[Hin|[Hin|[Hin|Hin]]]].
  - destruct (_ && _); [|by apply elem_of_nil in Hin]. apply list_elem_of_singleton in Hin as ->. left. by left.
  - apply list_elem_of_omap in Hin as (i & _ & Hi). case_bool_decide; [done|]. injection Hi as <-. left. right. by left.
  - pose proof (semantic_kind _ _ f Hsem Hin) as Hk. left.
    clear -Hk. set_solver.
  - right. apply list_elem_of_omap in Hin as (c & _ & Hc). unfold check_failure in Hc.
    destruct (negb _); [by injection Hc as <-|]. destruct (rc_stale c); [by injection Hc as <-|].
    destruct (negb _); [by injection Hc as <-|done].
  - right. destruct (_ && _); [|by apply elem_of_nil in Hin]. by apply list_elem_of_singleton in Hin as ->.
Qed.

(** A gate reports its verdict and its failures consistently. *)
Lemma gate_verdict g : evaluateGate run d = Ok g -> cg_passed g = bool_decide (cg_failures g = []).
Proof.
  unfold evaluateGate. destruct (_ || _); [by intros [= <-]|]. intros Hg.
  apply result_bind_ok in Hg as (semantic & _ & Hg). by injection Hg as <-.
Qed.
End delivered.

(** * Witness *)

Definition demo_operation : OperationRow :=
  {| o_runId := "run"; o_attempt := 1; o_operationType := "tool.bash"; o_payloadHash := "h";
     o_payload := JObj [("command", JStr "make test")]; o_status := "succeeded"; o_stage := "done";
     o_effects := [JObj [("kind", JStr "workspace"); ("action", JStr "write")]];
     o_result := Some (JObj [("content", JArr [JObj [("text", JStr "ok")]]); ("details", JObj [("exitCode", JInt 0)])]);
     o_error := ""; o_createdAt := 1; o_updatedAt := 2; o_completedAt := Some 2%Z |}.

Definition demo_contract : Contract :=
  {| ct_view := {| objectives := [{| timing := "current"; kind := "change" |}]; workspaceGoal := None; executionPolicy := None |};
     ct_fields := [("objectives", JArr [JObj [("id", JStr "o1"); ("timing", JStr "current"); ("kind", JStr "change")]]);
                   ("acceptanceCriteria", JArr [JStr "the tests pass"])] |}.

Definition demo_gov : GovDb :=
  {| gd_plans := {| pd_db := set_operations (insert "op" demo_operation) demo_db; plan_items := ∅; plan_revisions := [] |};
     run_checks := ∅; artifacts := ∅; evidence_rows := []; manifests := ∅ |}.

Definition demo_check : RunCheck :=
  {| rc_key := "tests"; rc_title := "Tests"; rc_status := CK_passed; rc_required := true; rc_command := "";
     rc_evidence := ""; rc_stale := true; rc_sourceOperationId := Some " op "; rc_observedAt := None |}.

(** The database after the check is written, and the run as it is read back. *)
Definition demo_checked : GovDb :=
  match upsertCheck "run" demo_check 3 demo_gov with Ok (_, d) => d | Throw _ => demo_gov end.

Definition demo_view : CompletionRunView :=
  {| cv_id := "run"; cv_attempt := 1; cv_gateRequired := true; cv_contract := Some demo_contract;
     cv_plan := [{| pi_key := "a"; pi_title := "Build it"; pi_status := PI_done; pi_required := true; pi_position := 0;
                    pi_semantic := true; pi_objectiveIds := Some ["o1"]; pi_criterionIds := Some ["ac-1"];
                    pi_dependencies := Some []; pi_createdAttempt := Some 1%Z; pi_updatedAttempt := Some 1%Z;
                    pi_replanReason := None; pi_completionEvidenceRefs := Some ["check:tests"; "operation:op"] |}];
     cv_checks := match run_checks demo_checked !! ("run", "tests") with Some r => [check_of_row "tests" r] | None => [] end |}.


(** The gate of the same run without the check fails. *)
Example unchecked_gate_fails :
  match evaluateGate {| cv_id := "run"; cv_attempt := 1; cv_gateRequired := true; cv_contract := Some demo_contract;
                        cv_plan := cv_plan demo_view; cv_checks := [] |} demo_gov with
  | Ok g => map cf_key (cg_failures g) = ["a"; "trusted_evidence"]
  | Throw _ => False
  end.
Proof. vm_compute. reflexivity. Qed.
