(* ===== verification/SupervisorFacts.v ===== *)
(** What the review of a settled Attempt guarantees: the decision it records
    respects the deterministic gate of the store, whatever the reviewer says,
    and a decision to complete stands on recorded gates that passed. *)
From S2P Require Import Prelude Json TaskPolicy Attempt GateData ExecDb Canonical RunStore Mailbox PlanGraph PlanStore AuditAlgebra AuditFacts Evidence CompletionGate Uncertainty Supervisor GateFacts Demo.
Local Open Scope tx_scope.

(** * Parts of a transaction *)

Lemma in_exec_ok {A} (m : tx Db A) d a d' :
  in_exec m d = Ok (a, d') -> m (gd_db d) = Ok (a, gd_db d').
Proof.
  unfold in_exec, in_plans, in_db, gd_db. destruct (m (pd_db (gd_plans d))) as [[x e]|]; [|done]. by intros [= <- <-].
Qed.

(** * The deterministic prerequisites *)

Lemma split_by {A} (p q : A -> bool) l :
  (forall x, x ∈ l -> p x = negb (q x)) -> length (List.filter p l) + length (List.filter q l) = length l.
Proof.
  induction l as [|x l IH]; intros H; [done|]. cbn. rewrite (H x) by (by left).
  assert (length (List.filter p l) + length (List.filter q l) = length l) as <- by (apply IH; intros y Hy; apply H; by right).
  destruct (q x); cbn; lia.
Qed.

(** Each failure is repairable, unless it is the approval of an external action. *)
Definition repairable (f : GateFailure) : Prop := disposition f = auto_fixable \/ disposition f = needs_approval.

(** An audit whose completion the prerequisites block: some failure of its
    completion gate is no contract failure, and all of its failures are repairable. *)
Record blocking (a : CompletionAuditAlgebraInput) : Prop := {
  bl_coverage : criterionCoverage (gates a contract) = None;
  bl_repairable : forall t f, f ∈ failures (gates a t) -> repairable f;
  bl_failure : exists f, f ∈ failures (gates a completion) /\ kind f <> "contract";
}.

Lemma blocking_action a profile us :
  blocking a ->
  action (enforceCompletionAuditAlgebra a profile us) = S_start_continuation
  \/ action (enforceCompletionAuditAlgebra a profile us) = S_pause_for_approval.
Proof.
  intros [Hcov Hrep (f & Hf & Hk)]. assert (completion ∈ audited_types) as Ht by set_solver.
  destruct (audited_failure a profile us completion f Ht Hf) as [[_ [He _]]|(g & Hg & _)]; [by destruct Hk|].
  apply (derive_continues (failures (reconciled_gates (gates a) profile us completion)));
    [intros E; rewrite E in Hg; by apply elem_of_nil in Hg|].
  intros h Hh. apply completion_source in Hh as [(t & _ & Hin)|[Hin|(-> & _ & _ & _ & E)]].
  - by eapply Hrep.
  - rewrite Hcov in Hin. by apply elem_of_nil in Hin.
  - destruct (accepted_gate_keeps us (gates a contract) completion (gates a completion) f Hf) as [Hin|[He _]]; [|done].
    rewrite E in Hin. by apply elem_of_nil in Hin.
Qed.

Lemma blocking_approval a policy : blocking (sa_audit a) -> blocking (sa_audit (requireExternalContinuationApproval a policy)).
Proof.
  intros Hb. unfold requireExternalContinuationApproval. destruct (_ || _); [done|]. destruct Hb as [Hcov Hrep (f & Hf & Hk)]. split.
  - done.
  - intros t g Hg. assert (g ∈ failures (gates (sa_audit a) t) ++ [external_failure]) as Hin.
    { apply elem_of_app. destruct t; [left; exact Hg..| |]; by apply elem_of_app in Hg. }
    apply elem_of_app in Hin as [Hin|Hin%list_elem_of_singleton]; [by eapply Hrep|]. subst g. by right.
  - exists f. split; [|done]. change (f ∈ failures (gates (sa_audit a) completion) ++ [external_failure]). apply elem_of_app. by left.
Qed.

Lemma check_kind f : cf_kind f = "check" -> includes (cf_kind f) plan_kinds = false.
Proof. by intros ->. Qed.

(** A contract whose gate did not pass is reviewed without the reviewer. *)
Lemma prerequisites_block `{Platform} run before :
  is_Some (cv_contract (gv_run run)) -> evaluateGate (gv_run run) before = Ok (gv_completionGate run) ->
  cg_passed (gv_completionGate run) = false ->
  exists a, reviewDeterministicPrerequisites run = Some a /\ blocking (sa_audit a).
Proof.
  intros Hc Hg Hp. pose proof (gate_verdict _ _ _ Hg) as Hv. rewrite Hp in Hv. symmetry in Hv.
  apply bool_decide_eq_false in Hv. pose proof (fun f => gate_kind _ _ _ f Hg) as Hkind.
  unfold reviewDeterministicPrerequisites. rewrite Hp, (bool_decide_eq_true_2 (is_Some _)) by done. cbn [orb].
  set (fs := cg_failures (gv_completionGate run)) in *.
  rewrite !length_map, split_by, Nat.eqb_refl.
  2:{ intros f Hf. destruct (Hkind f Hf) as [Hk|Hk]; [|by rewrite check_kind, Hk].
      rewrite (proj2 (includes_spec (cf_kind f) plan_kinds)) by exact Hk.
      destruct (String.eqb_spec (cf_kind f) "check") as [E%check_kind|]; [|done].
      by rewrite (proj2 (includes_spec (cf_kind f) plan_kinds)) in E. }
  cbn [negb]. eexists. split; [reflexivity|]. cbn [sa_audit].
  assert (forall p f, f ∈ map to_failure (List.filter p fs) -> disposition f = auto_fixable) as Hmap.
  { intros p f Hf. apply list_elem_of_fmap in Hf as (x & -> & _). done. }
  split; cbn.
  - by case_bool_decide.
  - intros t f Hf. left. destruct t; cbn in Hf; try (by eapply Hmap).
    + case_bool_decide; by apply elem_of_nil in Hf.
    + apply elem_of_app in Hf as [Hf|Hf]; by eapply Hmap.
    + by apply elem_of_nil in Hf.
  - assert (exists f, f ∈ fs) as [f Hf] by (destruct fs as [|f ?]; [done|exists f; by left]).
    exists (to_failure f). rewrite elem_of_app. destruct (Hkind f Hf) as [Hk|Hk].
    + split; [left|].
      * apply list_elem_of_fmap. exists f. split; [done|]. apply filter_elem. split; [done|]. by apply includes_spec.
      * cbn. intros E. rewrite E in Hk. by apply includes_spec in Hk.
    + split; [right|].
      * apply list_elem_of_fmap. exists f. split; [done|]. apply filter_elem. split; [done|]. by rewrite Hk.
      * cbn. by rewrite Hk.
Qed.

(** * What is recorded *)

Section settled.
Context `{Platform} (reviewer_model : string)
  (reviewer : ReviewKind -> GovernanceTaskRunView -> string -> bool -> list (string * OperationRow) -> list EvidenceSource -> option SupervisorAudit)
  (reviewSettledBy : GovernanceTaskRunView -> string -> bool -> list (string * OperationRow) -> list EvidenceSource -> SupervisorAudit).

#[local] Abbreviation review := (reviewSettled reviewer_model reviewer reviewSettledBy).
#[local] Abbreviation audited := (reviewed_audit reviewer reviewSettledBy).

Lemma record_decision_ok row d row' d' :
  recordSupervisorDecision row d = Ok (row', d') ->
  row' = row /\ decisions d' = <[d_id row := row]> (decisions d) /\ ExecDb.gates d' = ExecDb.gates d.
Proof. intros Hr. unfold recordSupervisorDecision in Hr. tx_inv Hr. done. Qed.

Lemma record_gate_ok gid row d u d' :
  recordGateEvaluation gid row d = Ok (u, d') ->
  ExecDb.gates d !! gid = None /\ ExecDb.gates d' = <[gid := row]> (ExecDb.gates d) /\ decisions d' = decisions d.
Proof. intros Hr. unfold recordGateEvaluation in Hr. tx_inv Hr. by bool_prop. Qed.

(** The gates recorded one by one are all there afterwards. *)
Lemma record_gates_ok (row : CompletionAuditGateType -> GateRow) ts d u d' :
  for_each (fun t => let* uid := in_exec randomUUID in in_exec (recordGateEvaluation uid (row t))) ts d = Ok (u, d') ->
  ExecDb.gates (gd_db d) ⊆ ExecDb.gates (gd_db d') /\ decisions (gd_db d') = decisions (gd_db d)
  /\ forall t, t ∈ ts -> exists gid, ExecDb.gates (gd_db d') !! gid = Some (row t).
Proof.
  revert d. induction ts as [|t ts IH]; intros d Hr; cbn in Hr.
  - tx_inv Hr. split; [done|]. split; [done|]. intros t Ht. by apply elem_of_nil in Ht.
  - apply tx_bind_ok in Hr as ([] & d1 & H1 & Hr). apply tx_bind_ok in H1 as (uid & d2 & H2 & H1).
    apply in_exec_ok, randomUUID_ok in H2 as [-> H2]. apply in_exec_ok, record_gate_ok in H1 as (Hn & Hg & Hd).
    apply IH in Hr as (Hsub & Hdec & Hall). rewrite H2 in Hn, Hg, Hd. cbn in Hn, Hg, Hd. rewrite Hg in Hsub. rewrite Hdec.
    split; [etrans; [by apply insert_subseteq|exact Hsub]|]. split; [done|].
    intros t' [->|Ht]%elem_of_cons; [|by apply Hall]. eexists. eapply lookup_weaken; [|exact Hsub]. by rewrite lookup_insert_eq.
Qed.

(** A decision is stored under a fresh name. *)
Lemma decide_ok (f : string -> DecisionRow) (gs gs' : list GateRow) d row d' :
  (let* x := (let* uid := in_exec randomUUID in in_exec (recordSupervisorDecision (f uid))) in mret (x, gs)) d = Ok ((row, gs'), d') ->
  (exists uid, row = f uid) /\ decisions (gd_db d') !! d_id row = Some row /\ ExecDb.gates (gd_db d') = ExecDb.gates (gd_db d).
Proof.
  intros Hr. apply tx_bind_ok in Hr as (x & d1 & Hx & [[= <- _] ->]%mret_ok).
  apply tx_bind_ok in Hx as (uid & d2 & H2 & Hx). apply in_exec_ok, randomUUID_ok in H2 as [-> H2].
  apply in_exec_ok, record_decision_ok in Hx as (-> & Hd & Hg). rewrite Hd, Hg, H2, lookup_insert_eq. eauto.
Qed.

(** A review under the strict profile either waits for pending controls, or
    records the audit the algebra makes of what was reviewed, gates first. *)
Lemma strict_review run seq response truncated hash before now d row gs d' :
  review run seq response truncated hash before now d = Ok ((row, gs), d') ->
  effectiveGateProfile (contract_view run) = gate_strict ->
  decisions (gd_db d') !! d_id row = Some row
  /\ (d_action row = S_wait_for_runtime /\ pending_controls (gv_run run) (gd_db before) <> []
      \/ exists r active, audited run response truncated gate_strict before = Ok r
         /\ d_action row = action (settled_audit r gate_strict active)
         /\ active = map (fun kv => accepted_of kv.1 kv.2) (listAcceptedUncertainties (cv_id (gv_run run)) (Some now) (gd_db d))
         /\ pending_controls (gv_run run) (gd_db before) = []
         /\ forall t, exists gid, ExecDb.gates (gd_db d') !! gid
              = Some (gate_row (gv_run run) seq (evaluator_of reviewer_model r) hash now t (gates (settled_audit r gate_strict active) t))).
Proof.
  intros Hr Hp. unfold reviewSettled in Hr. rewrite Hp in Hr. destruct (negb _) eqn:Epend.
  - apply decide_ok in Hr as ([uid ->] & Hd & _). split; [exact Hd|]. left. split; [done|]. intros E. by rewrite E in Epend.
  - rewrite (bool_decide_eq_false_2 (gate_strict = gate_off)) in Hr by done.
    apply tx_bind_ok in Hr as (r & d1 & [Ha ->]%lift_ok & Hr). apply tx_bind_ok in Hr as (d0 & d2 & [-> ->]%gets_ok & Hr).
    set (active := map (fun kv => accepted_of kv.1 kv.2) (listAcceptedUncertainties (cv_id (gv_run run)) (Some now) (gd_db d))) in *.
    change (map (fun kv => accepted_of kv.1 kv.2) (listAcceptedUncertainties (cv_id (gv_run run)) (Some now) (gd_db (id d)))) with active in Hr.
    apply tx_bind_ok in Hr as (u & d3 & Hgates & Hr).
    apply (record_gates_ok (fun t => gate_row (gv_run run) seq (evaluator_of reviewer_model r) hash now t
      (gates (settled_audit r gate_strict active) t))) in Hgates as (Hsub & Hdec & Hall).
    apply decide_ok in Hr as ([uid ->] & Hd & Hg). split; [exact Hd|]. right. exists r, active.
    split; [done|]. split; [reflexivity|]. split; [reflexivity|]. bool_prop.
    split; [by apply nil_length_inv|]. intros t. rewrite Hg. apply Hall. destruct t; repeat constructor.
Qed.

(** * Properties *)

(** The gate of the store decides before the reviewer. *)
Lemma failed_gate_action run seq response truncated hash before now d row gs d' :
  review run seq response truncated hash before now d = Ok ((row, gs), d') ->
  effectiveGateProfile (contract_view run) = gate_strict -> is_Some (cv_contract (gv_run run)) ->
  evaluateGate (gv_run run) before = Ok (gv_completionGate run) -> cg_passed (gv_completionGate run) = false ->
  d_action row ∈ [S_wait_for_runtime; S_start_continuation; S_pause_for_approval].
Proof.
  intros Hr Hp Hc Hg Hf. apply strict_review in Hr as [_ [[-> _]|(r & active & Ha & -> & _)]]; [by left| |done].
  destruct (prerequisites_block run before Hc Hg Hf) as (a & Hpre & Hb). unfold reviewed_audit in Ha.
  rewrite (bool_decide_eq_true_2 (gate_strict = gate_strict)), Hpre in Ha by done. injection Ha as <-.
  destruct (blocking_action _ strict active (blocking_approval _
    (effectiveTaskExecutionPolicy (contract_view run) [] (Some (cv_attempt (gv_run run)))) Hb)) as [E|E];
    apply includes_spec; unfold settled_audit; cbn [audit_profile ra_audit ra_policy map]; by rewrite E.
Qed.


(** A decision to complete is recorded with the gates that justify it. Under
    the strict profile the review that decides to complete a TaskRun has
    recorded, for its checkpoint and its Attempt, a progress, an evidence, a
    contract and a completion gate that all passed, the completion gate with no
    failure, and the decision itself is stored as proposed for the digest of
    the response it reviewed. *)
Theorem completion_is_recorded run seq response truncated hash before now d row gs d' :
  review run seq response truncated hash before now d = Ok ((row, gs), d') ->
  effectiveGateProfile (contract_view run) = gate_strict -> d_action row = S_complete_taskrun ->
  decisions (gd_db d') !! d_id row = Some row
  /\ forall t, t ∈ audited_types -> exists gid g, ExecDb.gates (gd_db d') !! gid = Some g
     /\ g_runId g = cv_id (gv_run run) /\ g_attempt g = cv_attempt (gv_run run) /\ g_checkpointSeq g = seq
     /\ g_gateType g = gate_type_text t /\ g_passed g = true /\ (t = completion -> g_failures g = []).
Proof.
  intros Hr Hp Ha. apply strict_review in Hr as [Hd [[E _]|(r & active & _ & E & _ & _ & Hg)]]; [by rewrite E in Ha| |done].
  split; [done|]. intros t Ht. destruct (Hg t) as [gid Hgid]. eexists gid, _. split; [exact Hgid|].
  rewrite E in Ha. unfold settled_audit in Ha |- *. set (source := sa_audit _) in *.
  apply derive_complete in Ha. change (failures (reconciled_gates (gates source) strict active completion) = []) in Ha.
  split; [done|]. split; [done|]. split; [done|]. split; [done|]. split.
  - by apply (completed_gates source strict active).
  - intros ->. exact Ha.
Qed.
End settled.

(** * Witnesses *)

(** A reviewer that finds everything covered. *)
Definition demo_reviewer (run : GovernanceTaskRunView) (_ : string) (_ : bool) (_ : list (string * OperationRow))
    (_ : list EvidenceSource) : SupervisorAudit :=
  {| sa_audit := {| action := S_complete_taskrun; reasonCode := "complete"; rationale := "Everything is covered.";
       gates := fun t => match t with
         | contract => plain_gate [] "covered" (Some (map (fun c => demo_coverage c covered None) (acceptance_criteria run)))
         | _ => clean_gate
         end |};
     sa_evaluator := None; sa_evaluatorModel := None |}.

Definition demo_run (view : CompletionRunView) (d : GovDb) : GovernanceTaskRunView :=
  {| gv_run := view; gv_artifacts := []; gv_latestCoverage := [];
     gv_completionGate := match evaluateGate view d with Ok g => g | Throw _ => {| cg_passed := false; cg_failures := [] |} end |}.

Definition demo_review (view : CompletionRunView) (d : GovDb) : result ((DecisionRow * list GateRow) * GovDb) :=
  reviewSettled "model" (fun _ _ _ _ _ _ => None) demo_reviewer (demo_run view d) 4 "Built." false "manifest" d 5 d.

Definition demo_review_row (view : CompletionRunView) (d : GovDb) : DecisionRow :=
  match demo_review view d with Ok ((row, _), _) => row | Throw _ => createDecision "" "" 0 0 "" S_block_taskrun "" "" "" None "" 0 end.

Definition demo_review_gates (view : CompletionRunView) (d : GovDb) : list GateRow :=
  match demo_review view d with Ok ((_, gs), _) => gs | Throw _ => [] end.

Definition demo_review_db (view : CompletionRunView) (d : GovDb) : GovDb :=
  match demo_review view d with Ok (_, d') => d' | Throw _ => d end.

(** The same run before its check is written. *)
Definition unchecked_view : CompletionRunView :=
  {| cv_id := "run"; cv_attempt := 1; cv_gateRequired := true; cv_contract := Some demo_contract;
     cv_plan := cv_plan demo_view; cv_checks := [] |}.


Lemma completion_is_recorded_witness :
  exists gid g, ExecDb.gates (gd_db (demo_review_db demo_view demo_checked)) !! gid = Some g
     /\ g_runId g = "run" /\ g_attempt g = 1%Z /\ g_checkpointSeq g = 4%Z
     /\ g_gateType g = "completion" /\ g_passed g = true /\ (completion = completion -> g_failures g = []).
Proof.
  refine (proj2 (completion_is_recorded "model" (fun _ _ _ _ _ _ => None) demo_reviewer (demo_run demo_view demo_checked) 4 "Built." false
      "manifest" demo_checked 5 demo_checked (demo_review_row demo_view demo_checked) (demo_review_gates demo_view demo_checked) (demo_review_db demo_view demo_checked)
      _ _ _) completion _); [vm_compute; reflexivity..|]. by repeat constructor.
Defined.
