(* ===== verification/Governance.v ===== *)
(** The acceptance of an uncertainty on a blocked TaskRun
    (apps/core-service/src/application/run-governance-application.ts): the
    decision is recorded, the gates of the last audit are reconciled again with
    what is now accepted, and where they complete the run the preserved
    Candidate is settled without another Attempt. *)
From S2P Require Import Prelude Json TaskPolicy Attempt GateData ExecDb Canonical AttemptRepo RunStore PlanGraph PlanStore AuditAlgebra Evidence CompletionGate Uncertainty Supervisor.
Local Open Scope tx_scope.

(** * What the store reads back *)

(** [ORDER BY created_at,id] *)
Definition decision_le (a b : string * DecisionRow) : Prop :=
  Is_true (if (d_createdAt a.2 =? d_createdAt b.2)%Z then String.leb a.1 b.1 else (d_createdAt a.2 <? d_createdAt b.2)%Z).

#[export] Instance decision_le_dec a b : Decision (decision_le a b).
Proof. unfold decision_le. apply _. Defined.

Definition listSupervisorDecisions (runId : string) (attempt : option Z) (d : Db) : list (string * DecisionRow) :=
  merge_sort decision_le (List.filter (fun kv => String.eqb (d_runId kv.2) runId
    && match attempt with Some n => Z.eqb (d_attempt kv.2) n | None => true end) (map_to_list (decisions d))).

Definition latest_decision (runId : string) (d : Db) : option (string * DecisionRow) :=
  last (listSupervisorDecisions runId None d).

(** [ORDER BY attempt DESC,checkpoint_seq DESC,created_at DESC]; the rows with the first pair are listed. *)
Definition gate_before (a b : GateRow) : bool :=
  (g_attempt b <? g_attempt a)%Z || (g_attempt a =? g_attempt b)%Z && (g_checkpointSeq b <=? g_checkpointSeq a)%Z.

Definition gate_type_le (a b : string * GateRow) : Prop := Is_true (String.leb (g_gateType a.2) (g_gateType b.2)).

#[export] Instance gate_type_le_dec a b : Decision (gate_type_le a b).
Proof. unfold gate_type_le. apply _. Defined.

Definition listLatestGateEvaluations (runId : string) (d : Db) : list (string * GateRow) :=
  let rows := List.filter (fun kv => String.eqb (g_runId kv.2) runId) (map_to_list (ExecDb.gates d)) in
  merge_sort gate_type_le (List.filter (fun kv => forallb (fun other => gate_before kv.2 other.2) rows) rows).

(** * Accepting *)

Record AcceptRunUncertaintyInput := {
  ri_decisionId : string; ri_runId : string; ri_criterionId : string; ri_actorId : string; ri_rationale : string;
  ri_scope : string; ri_evidenceRefs : list string; ri_expiresAt : option Z;
}.

Definition normalizeEvidenceRefs (values : list string) : result (list string) :=
  do* check (Nat.leb (length values) 100) (Error "Accepted uncertainty has too many evidence references") in
  let refs := distinct_trimmed values in
  do* check (forallb (fun ref => negb (has_nul ref) && Nat.leb (String.length ref) 2000) refs)
    (Error "Accepted uncertainty evidence reference is invalid") in
  mret refs.

(** [effectiveGateProfile(run.contract) !== "strict"] of the contract as it was frozen:
    the profile is strict when the policy names none. *)
Definition strict_contract (frozen : list (string * json)) : bool :=
  match field "executionPolicy" frozen ≫= record with
  | None => true
  | Some policy =>
      match field "gateProfile" policy with
      | None | Some JNull => true
      | Some v => bool_decide (text_of v = Some "strict")
      end
  end.

(** What identifies a decision, as the source compares it with an earlier one. *)
Definition identity_json (runId criterionId actorId rationale scope : string) (refs : list string) (expiresAt : option Z) : json :=
  JObj [("runId", JStr runId); ("criterionId", JStr criterionId); ("actorId", JStr actorId); ("rationale", JStr rationale);
        ("scope", JStr scope); ("evidenceRefs", strings refs); ("expiresAt", optional_int expiresAt)].

(** [new Map(latestGates.map((gate) => [gate.gateType, gate]))] keeps the last gate of a type. *)
Definition gate_of_type (latest : list (string * GateRow)) (t : CompletionAuditGateType) : option (string * GateRow) :=
  List.find (fun kv => String.eqb (g_gateType kv.2) (gate_type_text t)) (rev latest).

(** [latestGates.find(gate => gate.gateType === "contract")?.criterionCoverage?.[index]] *)
Definition reported_coverage (latest : list (string * GateRow)) (index : nat) : option CriterionCoverage :=
  kv ← List.find (fun kv => String.eqb (g_gateType kv.2) "contract") latest;
  g_criterionCoverage kv.2 !! index.

(** A gate read back for the algebra. *)
Definition audit_gate (g : GateRow) : CompletionAuditGate :=
  {| passed := g_passed g; failures := g_failures g; criterionCoverage := Some (g_criterionCoverage g); summary := g_summary g |}.

(** The gates of the last audit; [None] where one of the five is missing. *)
Definition last_gates (latest : list (string * GateRow)) : option (list (string * GateRow)) :=
  mapM (gate_of_type latest) all_gate_types.

Definition source_audit (last : DecisionRow) (latest : list (string * GateRow)) : CompletionAuditAlgebraInput :=
  {| action := d_action last; reasonCode := d_reasonCode last; rationale := d_rationale last;
     gates := fun t => match gate_of_type latest t with
       | Some (_, g) => audit_gate g
       | None => plain_gate [] "" None
       end |}.

Definition readjudication_model : string := "accepted-uncertainty-readjudication-v1".

Definition readjudication_rationale : string :=
  "Every remaining unsupported or blocked acceptance criterion is covered by an active operator acceptance; Core re-adjudicated the preserved Candidate without rerunning the Agent.".

Definition readjudicated_gate (runId : string) (attempt checkpointSeq : Z) (hash : string) (createdAt : Z)
    (t : CompletionAuditGateType) (g : CompletionAuditGate) : GateRow :=
  {| g_runId := runId; g_attempt := attempt; g_gateType := gate_type_text t; g_passed := passed g; g_failures := failures g;
     g_checkpointSeq := checkpointSeq; g_evaluator := "system"; g_evaluatorModel := readjudication_model; g_summary := summary g;
     g_criterionCoverage := default [] (criterionCoverage g); g_inputManifestHash := hash; g_createdAt := createdAt |}.

Definition readjudication_decision (runId : string) (attempt checkpointSeq : Z) (responseHash id : string) (createdAt : Z) : DecisionRow :=
  {| d_id := id; d_runId := runId; d_attempt := attempt; d_status := D_proposed; d_action := S_complete_taskrun;
     d_candidateResponseHash := responseHash; d_error := ""; d_createdAt := createdAt; d_executedAt := None;
     d_checkpointSeq := checkpointSeq; d_trigger := "manual"; d_reasonCode := "accepted_uncertainty_readjudicated";
     d_rationale := readjudication_rationale; d_instruction := ""; d_evaluator := "system";
     d_evaluatorModel := readjudication_model; d_epistemicStatus := "deterministic" |}.

Section governance.
Context `{Platform}.

(** What is settled when the audit completes: the gates and the decision are
    recorded and the Candidate is re-adjudicated. *)
Definition complete_blocked (run : RunRow) (attempt : AttemptRow) (candidate : CandidateRow) (prior : string)
    (latest active : list string) (audit : CompletionAuditAlgebraInput) (createdAt : Z) : tx Db RunEvent :=
  let checkpointSeq := (r_lastEventSeq run + 1)%Z in
  let* manifest := lift (stable_text (JObj [("candidateResponseHash", JStr (c_responseHash candidate));
    ("priorGateIds", strings latest); ("acceptedUncertaintyIds", strings active)])) in
  let* gids := map_tx (fun _ : CompletionAuditGateType => randomUUID) all_gate_types in
  do* for_each (fun gt => recordGateEvaluation gt.1
    (readjudicated_gate (r_id run) (r_attempt run) checkpointSeq (sha256 manifest) createdAt gt.2 (gates audit gt.2)))
    (zip gids all_gate_types) in
  let* did := randomUUID in
  do* recordSupervisorDecision
    (readjudication_decision (r_id run) (r_attempt run) checkpointSeq (c_responseHash candidate) did createdAt) in
  let* settled := reAdjudicateBlockedCandidate (a_id attempt) (a_version attempt) (c_id candidate) (c_responseHash candidate)
    prior did gids active readjudication_rationale createdAt in
  mret (snd settled).

(** The run, its Attempt, its Candidate and its executed blocking decision, where the run waits for a re-adjudication. *)
Definition blocked_candidate (runId : string) (d : Db) : result (RunRow * (string * DecisionRow) * AttemptRow * CandidateRow) :=
  let no_contract := Error "TaskRun has no immutable contract to qualify" in
  let* run := expect (runs d !! runId) no_contract in
  let* frozen := expect (r_contract run ≫= record) no_contract in
  do* check (bool_decide (r_status run = R_blocked)) (Error "Accepted uncertainty requires a blocked TaskRun Candidate") in
  do* check (strict_contract frozen) (Error "Accepted uncertainty is only valid for a strict completion Gate") in
  let no_decision := Error "TaskRun has no current executed blocking decision to re-adjudicate" in
  let* latest := expect (latest_decision runId d) no_decision in
  do* check (Z.eqb (d_attempt latest.2) (r_attempt run) && bool_decide (d_action latest.2 = S_block_taskrun)
      && bool_decide (d_status latest.2 = D_executed)) no_decision in
  let no_candidate := Error "TaskRun has no integrity-bound rejected Candidate to re-adjudicate" in
  let* attempt := expect (getAttemptForRun runId (r_attempt run) d) no_candidate in
  let* candidate := expect (getCandidateForAttempt (a_id attempt) d) no_candidate in
  do* check (bool_decide (a_status attempt = A_blocked) && negb (a_active attempt)
      && bool_decide (c_status candidate = C_rejected)
      && String.eqb (d_candidateResponseHash latest.2) (c_responseHash candidate)) no_candidate in
  mret (run, latest, attempt, candidate).

Definition acceptRunUncertainty (input : AcceptRunUncertaintyInput) (createdAt : Z) : tx GovDb (UncertaintyRow * bool * option RunEvent) :=
  let runId := ri_runId input in
  let uncertaintyId := "uncertainty:" +:+ runId +:+ ":" +:+ ri_decisionId input in
  let* refs := lift (normalizeEvidenceRefs (ri_evidenceRefs input)) in
  let* d := gets id in
  match List.find (fun kv => String.eqb kv.1 uncertaintyId) (listAcceptedUncertainties runId None (gd_db d)) with
  | Some (_, prior) =>
      let* expected := lift (stable_text (identity_json runId (ri_criterionId input) (trim (ri_actorId input))
        (trim (ri_rationale input)) (trim (ri_scope input)) refs (ri_expiresAt input))) in
      let* observed := lift (stable_text (identity_json (un_runId prior) (un_criterionId prior) (un_actorId prior)
        (un_rationale prior) (un_scope prior) (un_evidenceRefs prior) (un_expiresAt prior))) in
      do* require (String.eqb expected observed)
        (Error "Accepted uncertainty decision id already exists with different content") in
      mret (prior, match runs (gd_db d) !! runId with Some r => bool_decide (r_status r = R_completed) | None => false end, None)
  | None =>
      let* waiting := lift (blocked_candidate runId (gd_db d)) in
      let '(run, prior, attempt, candidate) := waiting in
      let latest := listLatestGateEvaluations runId (gd_db d) in
      do* require (match criterion_index (ri_criterionId input) ≫= reported_coverage latest with
                   | Some c => acceptable (cov_status c)
                   | None => false
                   end) (Error "Only a currently unsupported or blocked criterion can receive accepted uncertainty") in
      let* uncertainty := acceptUncertainty {| ai_id := uncertaintyId; ai_runId := runId; ai_criterionId := ri_criterionId input;
        ai_actorId := ri_actorId input; ai_rationale := ri_rationale input; ai_scope := ri_scope input;
        ai_evidenceRefs := refs; ai_expiresAt := ri_expiresAt input; ai_createdAt := createdAt |} in
      let* d1 := gets id in
      let active := listAcceptedUncertainties runId (Some createdAt) (gd_db d1) in
      let* five := present (last_gates latest) (Error "Blocked Candidate has an incomplete Gate evaluation set") in
      let audit := enforceCompletionAuditAlgebra (source_audit prior.2 latest) strict (map (fun kv => accepted_of kv.1 kv.2) active) in
      if negb (bool_decide (action audit = S_complete_taskrun)) || negb (passed (gates audit completion))
      then mret (uncertainty, false, None)
      else
        let* event := in_exec (complete_blocked run attempt candidate prior.1 (map fst five) (map fst active) audit createdAt) in
        mret (uncertainty, true, Some event)
  end.

End governance.
