(* ===== verification/GovernanceFacts.v ===== *)
(** What the acceptance of an uncertainty guarantees: it stays within the
    lifecycle of the execution tables, and it completes a blocked TaskRun only
    with every criterion of its last audit accounted for. *)
From S2P Require Import Prelude Json TaskPolicy Attempt GateData ExecDb Canonical AttemptRepo RunStore PlanGraph PlanStore AttemptSpec StoreSpec AttemptRefine StoreRefine AttemptTrace PortSteps AuditAlgebra AuditFacts Evidence CompletionGate Uncertainty Supervisor Governance GateFacts SupervisorFacts Demo.
Local Open Scope tx_scope.

Section facts.
Context `{Platform}.

(** * Steps aside of the lifecycle *)

Lemma record_gate_aside gid row d u d' : recordGateEvaluation gid row d = Ok (u, d') -> aside d d'.
Proof. unfold recordGateEvaluation. intros Hr. tx_inv Hr. by split. Qed.

Lemma record_decision_aside row d row' d' : recordSupervisorDecision row d = Ok (row', d') -> aside d d'.
Proof. unfold recordSupervisorDecision. intros Hr. tx_inv Hr. by split. Qed.

Lemma uuid_aside d v d' : randomUUID d = Ok (v, d') -> aside d d'.
Proof. intros [_ ->]%randomUUID_ok. by split. Qed.

Lemma accept_aside input d u d' : acceptUncertainty input d = Ok (u, d') -> aside (gd_db d) (gd_db d').
Proof.
  unfold acceptUncertainty. intros Hs. apply tx_bind_ok in Hs as (d0 & d1 & [-> ->]%gets_ok & Hs).
  apply tx_bind_ok in Hs as (row & d1 & [_ ->]%lift_ok & Hs).
  destruct (uncertainties _ !! _).
  - tx_inv Hs. apply aside_refl.
  - apply tx_bind_ok in Hs as (w & d1 & Hm & [_ ->]%mret_ok). apply in_exec_ok, modify_ok in Hm as ->. by split.
Qed.

(** * The settlement of the preserved Candidate *)

Lemma complete_blocked_ok run attempt candidate prior latest active audit createdAt d e d' :
  complete_blocked run attempt candidate prior latest active audit createdAt d = Ok (e, d') ->
  exists d1 a' did gids, aside d d1
    /\ reAdjudicateBlockedCandidate (a_id attempt) (a_version attempt) (c_id candidate) (c_responseHash candidate)
        prior did gids active readjudication_rationale createdAt d1 = Ok ((a', e), d').
Proof.
  unfold complete_blocked. intros Hs. apply tx_bind_ok in Hs as (m & d1 & [_ ->]%lift_ok & Hs).
  apply tx_bind_ok in Hs as (gids & d1 & Hu & Hs). apply (map_tx_ind (aside d)) in Hu;
    [|intros; eauto using aside_trans, uuid_aside|apply aside_refl].
  apply tx_bind_ok in Hs as (w & d2 & Hg & Hs). apply (for_each_ind (aside d)) in Hg;
    [|intros; eauto using aside_trans, record_gate_aside|done].
  apply tx_bind_ok in Hs as (did & d3 & Hu3%uuid_aside & Hs).
  apply tx_bind_ok in Hs as (row & d4 & Hd%record_decision_aside & Hs).
  apply tx_bind_ok in Hs as ([a' e'] & d5 & Hr & [-> ->]%mret_ok).
  exists d4, a', did, gids. split; [by eauto using aside_trans|done].
Qed.

Lemma blocked_candidate_ok runId d run prior attempt candidate :
  Consistent d -> blocked_candidate runId d = Ok (run, prior, attempt, candidate) ->
  runs d !! runId = Some run /\ r_status run = R_blocked
  /\ attempts d !! a_id attempt = Some attempt /\ a_runId attempt = runId /\ a_ordinal attempt = r_attempt run
  /\ a_active attempt = false
  /\ candidates d !! c_id candidate = Some candidate /\ c_attemptId candidate = a_id attempt /\ c_status candidate = C_rejected.
Proof.
  intros Hcon Hs. unfold blocked_candidate in Hs. tx_inv Hs. simplify_eq. bool_prop.
  match goal with Hh : getAttemptForRun _ _ _ = Some _ |- _ => apply getAttemptForRun_spec in Hh as (i & Hi & Hr & Ho) end.
  match goal with Hc : getCandidateForAttempt ?k ?x = Some _ |- _ =>
    pose proof (getCandidateForAttempt_spec k x) as Hsp; rewrite Hc in Hsp; destruct Hsp as (j & Hj & Hca) end.
  pose proof (con_candidate Hcon _ _ Hj) as Hcid. pose proof (con_attempt Hcon _ _ Hi) as [Hid _].
  injection Hs as <- <- <- <-. subst i j. split_and!; congruence.
Qed.

(** * The acceptance *)

(** What a call that settles the Candidate went through. *)
Lemma accept_run_ok input now d u e d' :
  acceptRunUncertainty input now d = Ok ((u, true, Some e), d') ->
  exists run prior attempt candidate d1 latest active five audit ai,
    blocked_candidate (ri_runId input) (gd_db d) = Ok (run, prior, attempt, candidate)
    /\ acceptUncertainty ai d = Ok (u, d1)
    /\ latest = listLatestGateEvaluations (ri_runId input) (gd_db d)
    /\ active = listAcceptedUncertainties (ri_runId input) (Some now) (gd_db d1)
    /\ last_gates latest = Some five
    /\ audit = enforceCompletionAuditAlgebra (source_audit prior.2 latest) strict (map (fun kv => accepted_of kv.1 kv.2) active)
    /\ action audit = S_complete_taskrun
    /\ complete_blocked run attempt candidate prior.1 (map fst five) (map fst active) audit now (gd_db d1) = Ok (e, gd_db d').
Proof.
  unfold acceptRunUncertainty. intros Hs. apply tx_bind_ok in Hs as (refs & d0 & [_ ->]%lift_ok & Hs).
  apply tx_bind_ok in Hs as (x & d0 & [-> ->]%gets_id_ok & Hs). destruct (List.find _ _) as [[k prior]|]; [by tx_inv Hs|].
  apply tx_bind_ok in Hs as ([[[run prior] attempt] candidate] & d0 & [Hb ->]%lift_ok & Hs).
  apply tx_bind_ok in Hs as (w & d0 & [_ ->]%require_ok & Hs). apply tx_bind_ok in Hs as (row & d1 & Ha & Hs).
  apply tx_bind_ok in Hs as (x & d2 & [-> ->]%gets_id_ok & Hs). apply tx_bind_ok in Hs as (five & d2 & [Hf ->]%present_ok & Hs).
  destruct (_ || _) eqn:E; [by tx_inv Hs|]. apply orb_false_iff in E as [E _]. bool_prop.
  apply tx_bind_ok in Hs as (ev & d2 & Hc & Hs). apply in_exec_ok in Hc. apply mret_ok in Hs as [Hv ->]. simplify_eq.
  by repeat eexists.
Qed.

(** The acceptance of an uncertainty is made of lifecycle steps. *)
Lemma accept_run_steps input now d r d' :
  Consistent (gd_db d) -> acceptRunUncertainty input now d = Ok (r, d') -> rtc store_step (gd_db d) (gd_db d').
Proof.
  intros Hcon. destruct r as [[u b] o]. unfold acceptRunUncertainty. intros Hs.
  apply tx_bind_ok in Hs as (refs & d0 & [_ ->]%lift_ok & Hs).
  apply tx_bind_ok in Hs as (x & d0 & [-> ->]%gets_id_ok & Hs). destruct (List.find _ _) as [[k prior]|]; [by tx_inv Hs|].
  apply tx_bind_ok in Hs as ([[[run prior] attempt] candidate] & d0 & [Hb ->]%lift_ok & Hs).
  apply tx_bind_ok in Hs as (w & d0 & [_ ->]%require_ok & Hs). apply tx_bind_ok in Hs as (row & d1 & Ha%accept_aside & Hs).
  apply tx_bind_ok in Hs as (x & d2 & [-> ->]%gets_id_ok & Hs). apply tx_bind_ok in Hs as (five & d2 & [Hf ->]%present_ok & Hs).
  etrans; [by apply aside_steps|]. destruct (_ || _); [by apply mret_ok in Hs as [_ ->]|].
  apply tx_bind_ok in Hs as (ev & d2 & Hc%in_exec_ok & [_ ->]%mret_ok).
  apply complete_blocked_ok in Hc as (d3 & a' & did & gids & Has & Hre).
  assert (Consistent d3) as Hcon3 by eauto using aside_consistent.
  apply reAdjudicate_closed in Hre as (a & r & r' & rows & Hcl & _); [|done].
  etrans; [by apply aside_steps|]. apply rtc_once. eapply ss_repo, step_close, Hcl.
Qed.

(** The uncertainty the algebra was given is a decision of the run that is active. *)
Lemma active_uncertainty runId now d v :
  v ∈ map (fun kv => accepted_of kv.1 kv.2) (listAcceptedUncertainties runId (Some now) d) ->
  exists row, uncertainties d !! au_id v = Some row /\ un_runId row = runId /\ un_criterionId row = au_criterionId v
    /\ active_at now row = true.
Proof.
  intros ([i row] & -> & Hin)%list_elem_of_fmap. unfold listAcceptedUncertainties in Hin.
  rewrite merge_sort_Permutation in Hin. apply filter_elem in Hin as [Hin Hp]. apply elem_of_map_to_list in Hin. cbn in *.
  bool_prop. by exists row.
Qed.

(** ** The property *)

(** The criterion at [i] of the last audit is accounted for: covered, accepted
    by an active decision of the run, or marked accepted by that audit. *)
Definition accounted (runId : string) (now : Z) (d : Db) (i : nat) (c : CriterionCoverage) : Prop :=
  cov_status c = covered \/ has_acceptance c = true
  \/ (cov_status c = unsupported \/ cov_status c = blocked)
     /\ exists k row, uncertainties d !! k = Some row /\ un_runId row = runId /\ un_criterionId row = ac i
          /\ active_at now row = true.

(** A criterion of the contract gate which is unsupported or blocked and which a
    decision of this run that is active now accepts. *)
Definition accepted_now (runId : string) (now : Z) (d : Db) (latest : list (string * GateRow)) (i : nat) : Prop :=
  exists gid g c k row, gate_of_type latest contract = Some (gid, g) /\ g_criterionCoverage g !! i = Some c
    /\ (cov_status c = unsupported \/ cov_status c = blocked)
    /\ uncertainties d !! k = Some row /\ un_runId row = runId /\ un_criterionId row = ac i /\ active_at now row = true.

Lemma source_gate prior latest t gid g :
  gate_of_type latest t = Some (gid, g) -> gates (source_audit prior latest) t = audit_gate g.
Proof. unfold source_audit. cbn [gates]. by intros ->. Qed.

Lemma completed_accounted prior latest runId now d gid g i c :
  action (enforceCompletionAuditAlgebra (source_audit prior latest) strict
    (map (fun kv => accepted_of kv.1 kv.2) (listAcceptedUncertainties runId (Some now) d))) = S_complete_taskrun ->
  gate_of_type latest contract = Some (gid, g) -> g_criterionCoverage g !! i = Some c -> accounted runId now d i c.
Proof.
  intros Ha Hg Hc. apply completion_accounts in Ha as [_ Hcov]. rewrite (source_gate _ _ _ _ _ Hg) in Hcov.
  destruct (Hcov _ i c eq_refl Hc) as [?|[Hacc|[?|[? _]]]]; [by left| |by right; left|done].
  destruct Hacc as (cs & c' & v & [= <-] & Hc' & Hst & Hv & Hk). rewrite Hc in Hc'. injection Hc' as <-.
  right. right. split; [done|]. destruct (active_uncertainty _ _ _ _ Hv) as (row & H1 & H2 & H3 & H4).
  exists (au_id v), row. by rewrite H3.
Qed.

Lemma completed_excuses prior latest runId now d t gid g f :
  action (enforceCompletionAuditAlgebra (source_audit prior latest) strict
    (map (fun kv => accepted_of kv.1 kv.2) (listAcceptedUncertainties runId (Some now) d))) = S_complete_taskrun ->
  t ∈ audited_types -> gate_of_type latest t = Some (gid, g) -> f ∈ g_failures g ->
  kind f = "contract" /\ exists i, (GateData.key f = ac i \/ GateData.key f = acceptance_criterion i)
    /\ accepted_now runId now d latest i.
Proof.
  intros Ha Ht Hg Hf. apply completion_accounts in Ha as [Hfail _]. destruct (Hfail t Ht) as [_ Hk].
  rewrite (source_gate _ _ _ _ _ Hg) in Hk. destruct (Hk f Hf) as (_ & Hkind & i & (cs & c & v & Hcs & Hc & Hst & Hv & Hi) & Hkey).
  split; [done|]. exists i. split; [done|]. destruct (active_uncertainty _ _ _ _ Hv) as (row & H1 & H2 & H3 & H4).
  unfold source_audit in Hcs. cbn [gates] in Hcs. destruct (gate_of_type latest contract) as [[cgid cg]|] eqn:Ecg; [|done].
  injection Hcs as <-. exists cgid, cg, c, (au_id v), row. split_and!; try done. by rewrite H3.
Qed.

(** C8. A blocked TaskRun completes on an accepted uncertainty only with its last
    audit accounted for. When the call settles the Candidate, every failure of
    the audited gates was a failure of the contract about a criterion whose
    coverage was unsupported or blocked and which a decision of this run that is
    active now accepts; every criterion of the contract gate is covered, accepted
    in that way, or carries the identifier of an acceptance in the stored audit
    (which may be one of an earlier audit, and may have expired since); and the
    run, its Attempt and the preserved Candidate, which answered the blocking
    decision, go together from blocked and rejected to completed and accepted. *)
Theorem acceptance_completes input now d u e d' :
  Consistent (gd_db d) -> acceptRunUncertainty input now d = Ok ((u, true, Some e), d') ->
  exists run prior attempt candidate ai d1,
    let runId := ri_runId input in
    let latest := listLatestGateEvaluations runId (gd_db d) in
    blocked_candidate runId (gd_db d) = Ok (run, prior, attempt, candidate) /\ acceptUncertainty ai d = Ok (u, d1)
    /\ (forall t gid g f, t ∈ audited_types -> gate_of_type latest t = Some (gid, g) -> f ∈ g_failures g ->
         kind f = "contract" /\ exists i, (GateData.key f = ac i \/ GateData.key f = acceptance_criterion i)
           /\ accepted_now runId now (gd_db d1) latest i)
    /\ (forall gid g i c, gate_of_type latest contract = Some (gid, g) -> g_criterionCoverage g !! i = Some c ->
         accounted runId now (gd_db d1) i c)
    /\ (exists r, runs (gd_db d') !! runId = Some r /\ r_status r = R_completed)
    /\ (exists a, attempts (gd_db d') !! a_id attempt = Some a /\ a_status a = A_completed)
    /\ candidates (gd_db d') !! c_id candidate = Some (candidate_to candidate C_accepted (c_settledAt candidate)).
Proof.
  intros Hcon Hs. apply accept_run_ok in Hs
    as (run & prior & attempt & candidate & d1 & latest & active & five & audit & ai & Hb & Ha & -> & -> & Hf & -> & Hact & Hc).
  exists run, prior, attempt, candidate, ai, d1. split; [done|]. split; [done|]. split; [|split; [|]].
  - intros t gid g f. by apply completed_excuses with prior.2.
  - intros gid g i c. by apply completed_accounted with prior.2.
  - pose proof (blocked_candidate_ok _ _ _ _ _ _ Hcon Hb) as (_ & _ & Hat & Hrid & _ & Hina & Hca & Hcat & Hcs).
    apply complete_blocked_ok in Hc as (d2 & a' & did & gids & Has & Hre).
    pose proof (aside_trans _ _ _ (accept_aside _ _ _ _ Ha) Has) as Haside.
    apply reAdjudicate_closed in Hre as (a & r & r' & rows & Hcl & Hid); [|by eapply aside_consistent].
    assert (a = attempt) as ->.
    { pose proof (cl_attempt Hcl) as E. rewrite (as_attempts _ _ Haside), <- Hid, Hat in E. by injection E. }
    pose proof (cl_projected Hcl) as (_ & _ & Hst & _). pose proof (cl_closed Hcl) as (_ & Hast & _).
    pose proof (cl_same Hcl) as [Hsid _]. split_and!.
    + exists r'. split; [|done]. by rewrite (cl_runs Hcl), Hrid, lookup_insert_eq.
    + rewrite (cl_attempts Hcl), <- Hsid, lookup_insert_eq. eexists. split; [done|by rewrite Hast].
    + rewrite (cl_candidates Hcl), (as_candidates _ _ Haside), Hca. cbn.
      by rewrite Hcat, String.eqb_refl, Hcs, Hina.
Qed.
End facts.

(** * Witness *)

(** The demo run with a strict contract, whose Attempt is settled as blocked on
    a decision, and the gates of that decision: the second criterion is blocked. *)
Definition demo_blocking_decision : DecisionRow :=
  createDecision "" "run" 1 1 "settled" S_block_taskrun "blocked" "A criterion is blocked." "answer" (Some ("system", "review")) "decision" 5.

Definition frozen_run (r : RunRow) : RunRow :=
  {| r_id := r_id r; r_sessionId := r_sessionId r; r_requestId := r_requestId r; r_status := r_status r;
     r_phase := r_phase r; r_goal := r_goal r; r_contract := Some (JObj [("acceptanceCriteria", JArr [JStr "a"; JStr "b"])]);
     r_gateRequired := r_gateRequired r;
     r_blockedReason := r_blockedReason r; r_attempt := r_attempt r; r_lastEventSeq := r_lastEventSeq r;
     r_createdAt := r_createdAt r; r_updatedAt := r_updatedAt r; r_completedAt := r_completedAt r; r_resumedAt := r_resumedAt r |}.

Definition demo_reviewed_db : Db :=
  set_runs (alter frozen_run "run") (set_decisions (fun _ => {["decision" := demo_blocking_decision]})
    (set_gates (fun _ => list_to_map (map (fun t => (gate_type_text t,
      gate_row {| cv_id := "run"; cv_attempt := 1; cv_gateRequired := true; cv_contract := None; cv_plan := []; cv_checks := [] |}
        1 ("system", "review") "manifest" 5 t (gates (enforceCompletionAuditAlgebra (demo_audit demo_criteria []) strict []) t)))
      all_gate_types)) demo_db)).

Definition demo_blocked : Db :=
  execs [Acquire demo_id 1 "worker" 1000 10; Record_ "candidate" demo_id 1 "uuid-0" 1 "answer" 20;
         Settle demo_id 2 "uuid-0" 1 "candidate" "decision" TA_blocked "A criterion is blocked." 30] demo_reviewed_db.

Lemma demo_blocked_consistent : Consistent demo_blocked.
Proof.
  apply repository_consistent. eapply aside_consistent; [apply demo_consistent|]. split; [|done..].
  intros i. cbn. destruct (decide (i = "run"%string)) as [->|Hne]; [done|]. by rewrite lookup_alter_ne.
Qed.

Definition demo_blocked_gov : GovDb :=
  {| gd_plans := {| pd_db := demo_blocked; plan_items := ∅; plan_revisions := [] |}; run_checks := ∅; artifacts := ∅;
     evidence_rows := []; manifests := ∅ |}.

Definition demo_acceptance : AcceptRunUncertaintyInput :=
  {| ri_decisionId := "d2"; ri_runId := "run"; ri_criterionId := "ac-2"; ri_actorId := "operator"; ri_rationale := "known limit";
     ri_scope := "this run"; ri_evidenceRefs := []; ri_expiresAt := None |}.

Lemma acceptance_completes_witness :
  exists r d', acceptRunUncertainty demo_acceptance 40 demo_blocked_gov = Ok (r, d')
    /\ exists r, runs (gd_db d') !! "run" = Some r /\ r_status r = R_completed.
Proof.
  assert (exists u e d', acceptRunUncertainty demo_acceptance 40 demo_blocked_gov = Ok ((u, true, Some e), d')) as (u & e & d' & Hs).
  { do 3 eexists. vm_compute. reflexivity. }
  destruct (acceptance_completes demo_acceptance 40 demo_blocked_gov u e d' demo_blocked_consistent Hs)
    as (run & prior & attempt & candidate & ai & d1 & _ & _ & _ & _ & Hr & _).
  eexists _, d'. by split.
Defined.
