(* ===== verification/Progress.v ===== *)
(** The supervision of a running Attempt: the progress snapshot the store keeps
    per TaskRun (adapters/persistence-sqlite/src/store.ts,
    updateProgressSnapshot) and the checkpoint review that steers an Attempt
    which repeats itself (apps/core-service/src/composition/supervisor.ts,
    reviewCheckpoint), with the decisions the Supervisor proposes on its own. *)
From S2P Require Import Prelude Json TaskPolicy Attempt GateData ExecDb Canonical RunStore PlanStore AuditAlgebra Evidence CompletionGate Supervisor Governance.
Local Open Scope tx_scope.

(** * Values of the language *)

(** [Boolean(v)] of a JSON value; numbers other than integers are falsy as NaN and -0. *)
Definition truthy (v : json) : bool :=
  match v with
  | JNull => false
  | JBool b => b
  | JInt z => negb (Z.eqb z 0)
  | JFloat r => negb (includes r ["NaN"; "-0"]%string)
  | JStr s => negb (String.eqb s "")
  | JArr _ | JObj _ => true
  end.

(** [String(v)]: an array joins its elements, an object has no text of its own. *)
Fixpoint js_text (v : json) : string :=
  match v with
  | JNull => "null"
  | JBool b => if b then "true" else "false"
  | JInt z => pretty z
  | JFloat r => if String.eqb r "-0" then "0" else r
  | JStr s => s
  | JArr items => join "," (map (fun x => match x with JNull => "" | _ => js_text x end) items)
  | JObj _ => "[object Object]"
  end.

(** [String(data[k] ?? "")] *)
Definition data_text (k : string) (data : list (string * json)) : string :=
  match field k data with None | Some JNull => "" | Some v => js_text v end.

Definition data_flag (k : string) (data : list (string * json)) : bool :=
  match field k data with None => false | Some v => truthy v end.

(** * The snapshot *)

Record ProgressSnapshot := {
  pg_attempt : Z; pg_checkpointSeq : Z; pg_meaningfulChanges : Z; pg_consecutiveFailures : Z; pg_repeatedOperations : Z;
  pg_lastProgressAt : Z; pg_lastDecisionId : string; pg_updatedAt : Z;
}.

(** The database with its progress_snapshots. *)
Record ProgressDb := { pg_db : Db; progress_snapshots : gmap string ProgressSnapshot }.

(** The event of a TaskRun, with its data as an object. *)
Record GovernanceRunEventView := { ge_type : string; ge_seq : Z; ge_data : list (string * json); ge_createdAt : Z }.

Definition getProgressSnapshot (runId : string) (d : ProgressDb) : option ProgressSnapshot := progress_snapshots d !! runId.

Definition successful_tool (event : GovernanceRunEventView) : bool :=
  String.eqb (ge_type event) "tool.completed" && negb (data_flag "isError" (ge_data event)).

Definition progress_event (event : GovernanceRunEventView) : bool :=
  String.eqb (ge_type event) "run.updated"
  || successful_tool event && includes (data_text "toolName" (ge_data event)) ["write"; "edit"; "patch"; "task_run"].

Definition failure_event (event : GovernanceRunEventView) : bool :=
  String.eqb (ge_type event) "tool.completed" && data_flag "isError" (ge_data event)
  || String.eqb (ge_type event) "tool.guard.blocked".

(** [ORDER BY id DESC] *)
Definition tool_attempt_ge (a b : ToolAttemptRow) : Prop := (ta_id b <= ta_id a)%Z.

#[export] Instance tool_attempt_ge_dec a b : Decision (tool_attempt_ge a b).
Proof. unfold tool_attempt_ge. apply _. Defined.

(** The last eight calls of the Attempt up to the call [upto], newest first. *)
Definition recent_calls (runId : string) (attempt upto : Z) (d : Db) : list ToolAttemptRow :=
  take 8 (merge_sort tool_attempt_ge (map snd (List.filter
    (fun kt => String.eqb kt.1.1.1 runId && Z.eqb kt.1.1.2 attempt && (ta_id kt.2 <=? upto)%Z) (map_to_list (tool_attempts d))))).

Definition same_call (a b : ToolAttemptRow) : bool :=
  String.eqb (ta_toolName a) (ta_toolName b) && String.eqb (ta_argsHash a) (ta_argsHash b).

(** [for (const item of recent) { if (same) repeated += 1; else break; }] *)
Fixpoint leading (p : ToolAttemptRow -> bool) (l : list ToolAttemptRow) : Z :=
  match l with
  | [] => 0
  | x :: l' => if p x then 1 + leading p l' else 0
  end.

Definition repeated_calls (runId : string) (attempt : Z) (event : GovernanceRunEventView) (previous : Z) (d : Db) : Z :=
  let toolCallId := data_text "toolCallId" (ge_data event) in
  if String.eqb (ge_type event) "tool.completed" && negb (String.eqb toolCallId "") then
    match tool_attempts d !! (runId, attempt, toolCallId) with
    | Some current => leading (fun x => same_call x current) (recent_calls runId attempt (ta_id current) d)
    | None => previous
    end
  else previous.

Definition updateProgressSnapshot (runId : string) (attempt : Z) (event : GovernanceRunEventView) : tx ProgressDb ProgressSnapshot :=
  let* d := gets id in
  let previous := getProgressSnapshot runId d in
  let current := match previous with Some p => if Z.eqb (pg_attempt p) attempt then Some p else None | None => None end in
  let of_current f := match current with Some p => f p | None => 0%Z end in
  let snapshot :=
    {| pg_attempt := attempt; pg_checkpointSeq := ge_seq event;
       pg_meaningfulChanges := of_current pg_meaningfulChanges + (if progress_event event then 1 else 0);
       pg_consecutiveFailures :=
         if failure_event event then of_current pg_consecutiveFailures + 1
         else if successful_tool event || progress_event event then 0
         else match previous with Some p => pg_consecutiveFailures p | None => 0 end;
       pg_repeatedOperations := repeated_calls runId attempt event (of_current pg_repeatedOperations) (pg_db d);
       pg_lastProgressAt := if progress_event event then ge_createdAt event
         else match previous with Some p => pg_lastProgressAt p | None => ge_createdAt event end;
       pg_lastDecisionId := match previous with Some p => pg_lastDecisionId p | None => "" end;
       pg_updatedAt := ge_createdAt event |} in
  do* require (bool_decide (is_Some (runs (pg_db d) !! runId))) (SqliteError "progress_snapshots.run_id") in
  do* modify (fun d => {| pg_db := pg_db d; progress_snapshots := <[runId := snapshot]> (progress_snapshots d) |}) in
  mret snapshot.

(** * The checkpoint review *)

Record SupervisorPolicy := { maxSteersPerAttempt : nat; minEventsBetweenInterventions : Z; repeatedFailureThreshold : Z }.

Definition default_policy : SupervisorPolicy :=
  {| maxSteersPerAttempt := 2; minEventsBetweenInterventions := 3; repeatedFailureThreshold := 3 |}.

Definition in_pg {A} (m : tx Db A) : tx ProgressDb A := fun d =>
  match m (pg_db d) with
  | Ok (a, e) => Ok (a, {| pg_db := e; progress_snapshots := progress_snapshots d |})
  | Throw e => Throw e
  end.

(** The steers of an Attempt that stand. *)
Definition steers (runId : string) (attempt : Z) (d : Db) : list (string * DecisionRow) :=
  List.filter (fun kv => bool_decide (d_action kv.2 = S_steer) && includes (d_status kv.2) [D_proposed; D_executed])
    (listSupervisorDecisions runId (Some attempt) d).

Definition steer_rationale (repeatedFailure : bool) (s : ProgressSnapshot) : string :=
  if repeatedFailure
  then "Stop repeating the failing operation. Inspect the root cause and use a materially different approach. "
    +:+ pretty (pg_consecutiveFailures s) +:+ " consecutive tool failures were observed."
  else "Stop repeating the same successful operation. " +:+ pretty (pg_repeatedOperations s)
    +:+ " identical calls were observed without new TaskRun evidence; use the existing result or change approach.".

Section review.
Context `{Platform} (reviewer_model : string) (policy : SupervisorPolicy).

(** [Date.now()] in createDecision is [now]. *)
Definition reviewCheckpoint (runId : string) (event : GovernanceRunEventView) (now : Z) : tx ProgressDb (option DecisionRow) :=
  if negb (includes (ge_type event) ["run.updated"; "tool.completed"; "tool.guard.blocked"]%string) then mret None else
  let* d := gets id in
  match runs (pg_db d) !! runId with
  | None => mret None
  | Some run =>
      if negb (bool_decide (r_status run = R_running)) then mret None else
      let* snapshot := updateProgressSnapshot runId (r_attempt run) event in
      if String.eqb (ge_type event) "run.updated" then mret None else
      let repeatedFailure := (repeatedFailureThreshold policy <=? pg_consecutiveFailures snapshot)%Z in
      let repeatedOperation := (repeatedFailureThreshold policy <=? pg_repeatedOperations snapshot)%Z in
      if negb repeatedFailure && negb repeatedOperation then mret None else
      let standing := steers runId (r_attempt run) (pg_db d) in
      if Nat.leb (maxSteersPerAttempt policy) (length standing) then mret None else
      if match last standing with
         | Some kv => (ge_seq event - d_checkpointSeq kv.2 <? minEventsBetweenInterventions policy)%Z
         | None => false
         end then mret None else
      let* uid := in_pg randomUUID in
      let* row := in_pg (recordSupervisorDecision
        (createDecision reviewer_model runId (r_attempt run) (ge_seq event) "checkpoint" S_steer
          (if repeatedFailure then "repeated_tool_failures" else "repeated_tool_operation")
          (steer_rationale repeatedFailure snapshot) "" None uid now)) in
      mret (Some row)
  end.

(** ** Decisions the Supervisor proposes without a review *)

Definition propose_approval (runId missing reasonCode rationale : string) (now : Z) : tx Db DecisionRow :=
  let* d := gets id in
  let* run := present (runs d !! runId) (Error missing) in
  let* uid := randomUUID in
  recordSupervisorDecision (createDecision reviewer_model runId (r_attempt run) (r_lastEventSeq run) "manual" S_pause_for_approval
    reasonCode rationale "" None uid now).

Definition proposeParallelTaskStart (parentRunId inboxItemId summary : string) (now : Z) : tx Db DecisionRow :=
  propose_approval parentRunId "Parent TaskRun not found" "parallel_task_start_requested"
    ("Start related Session Inbox task " +:+ inboxItemId +:+ ": " +:+ summary) now.

Definition proposeExternalActionStart (runId summary : string) (now : Z) : tx Db DecisionRow :=
  propose_approval runId "TaskRun not found" "external_action_approval_required"
    ("Approve external action before execution: " +:+ summary) now.

End review.
