(* ===== verification/ProgressFacts.v ===== *)
(** What the supervision of a running Attempt guarantees: the snapshot counts
    what the events of the Attempt show, and an Attempt is steered a bounded
    number of times. *)
From S2P Require Import Prelude Json TaskPolicy Attempt GateData ExecDb Canonical RunStore PlanStore AuditAlgebra Evidence CompletionGate Supervisor Governance GateFacts SupervisorFacts Progress Demo.
Local Open Scope tx_scope.

(** * The snapshot of a history *)

(** The events the checkpoint review passes on. *)
Definition supervised (event : GovernanceRunEventView) : bool :=
  includes (ge_type event) ["run.updated"; "tool.completed"; "tool.guard.blocked"]%string.

(** The failures at the end of a history, given newest first. *)
Fixpoint trailing_failures (history : list GovernanceRunEventView) : Z :=
  match history with
  | [] => 0
  | e :: h => if failure_event e then 1 + trailing_failures h else 0
  end.

Definition progress_count (history : list GovernanceRunEventView) : Z := Z.of_nat (length (List.filter progress_event history)).

Definition last_progress (history : list GovernanceRunEventView) : option Z :=
  ge_createdAt <$> List.find progress_event history.

(** The updates of a history in order. *)
Definition update_all (runId : string) (attempt : Z) (events : list GovernanceRunEventView) : tx ProgressDb unit :=
  for_each (fun e => let* _ := updateProgressSnapshot runId attempt e in mret tt) events.

Lemma supervised_kinds e : supervised e = true -> failure_event e = negb (successful_tool e || progress_event e).
Proof.
  unfold supervised, failure_event, progress_event, successful_tool. intros Hs%includes_spec.
  rewrite !elem_of_cons, elem_of_nil in Hs. destruct Hs as [->|[->|[->|[]]]]; cbn; [done| |done].
  by destruct (data_flag "isError" (ge_data e)).
Qed.

(** The snapshot tells of the history of an Attempt that had none. *)
Record snapshot_of (history : list GovernanceRunEventView) (attempt : Z) (s : ProgressSnapshot) : Prop := {
  so_attempt : pg_attempt s = attempt;
  so_progress : pg_meaningfulChanges s = progress_count history;
  so_failures : pg_consecutiveFailures s = trailing_failures history;
  so_last : forall t, last_progress history = Some t -> pg_lastProgressAt s = t;
  so_seq : forall e, head history = Some e -> pg_checkpointSeq s = ge_seq e;
}.

Lemma update_ok runId attempt e d s d' :
  updateProgressSnapshot runId attempt e d = Ok (s, d') -> pg_db d' = pg_db d /\ progress_snapshots d' !! runId = Some s.
Proof.
  unfold updateProgressSnapshot. intros Hu. apply tx_bind_ok in Hu as (d0 & d1 & [-> ->]%gets_id_ok & Hu).
  apply tx_bind_ok in Hu as (w & d1 & [_ ->]%require_ok & Hu). apply tx_bind_ok in Hu as (w2 & d1 & Hm & [-> ->]%mret_ok).
  apply modify_ok in Hm as ->. cbn. by rewrite lookup_insert_eq.
Qed.

Lemma snapshot_step runId attempt e history d s d' :
  supervised e = true -> updateProgressSnapshot runId attempt e d = Ok (s, d') ->
  (history = [] /\ (forall p, progress_snapshots d !! runId = Some p -> pg_attempt p <> attempt)
   \/ exists p, progress_snapshots d !! runId = Some p /\ snapshot_of history attempt p) ->
  snapshot_of (e :: history) attempt s.
Proof.
  unfold updateProgressSnapshot. intros Hsup Hu Hprev. apply tx_bind_ok in Hu as (d0 & d1 & [-> ->]%gets_id_ok & Hu).
  apply tx_bind_ok in Hu as (w & d1 & [_ ->]%require_ok & Hu). apply tx_bind_ok in Hu as (w2 & d1 & _ & [-> _]%mret_ok).
  unfold getProgressSnapshot in *. cbn [id]. pose proof (supervised_kinds _ Hsup) as Hk.
  destruct Hprev as [[-> Hnone]|(p & Hp & [<- Hpr Hf Hl _])].
  - assert (match progress_snapshots d !! runId with Some p => if Z.eqb (pg_attempt p) attempt then Some p else None | None => None end = None) as ->.
    { destruct (progress_snapshots d !! runId) as [p|] eqn:E; [|done]. specialize (Hnone p eq_refl). by rewrite (proj2 (Z.eqb_neq _ _)). }
    split; cbn; try done.
    + unfold progress_count. cbn. by destruct (progress_event e).
    + destruct (failure_event e) eqn:Ef; [done|]. rewrite ?Ef in Hk. symmetry in Hk. apply negb_false_iff in Hk. by rewrite Hk.
    + unfold last_progress. cbn. destruct (progress_event e); [by intros t [= <-]|done].
    + by intros x [= <-].
  - rewrite Hp, Z.eqb_refl. split; cbn; try done.
    + unfold progress_count in *. cbn. destruct (progress_event e); cbn; lia.
    + destruct (failure_event e) eqn:Ef; [lia|]. rewrite ?Ef in Hk. symmetry in Hk. apply negb_false_iff in Hk. by rewrite Hk.
    + unfold last_progress in *. cbn. destruct (progress_event e); [by intros t [= <-]|]. exact Hl.
    + by intros x [= <-].
Qed.

(** The progress snapshot counts the history of the Attempt. After the
    updates for the events of an Attempt that had no snapshot, the store has
    counted the events that made progress, its consecutive failures are the
    failures at the end of the history, the last progress is the one the
    history shows and the checkpoint is that of the last event; the snapshot of
    an earlier Attempt never leaks into the counts. *)
Theorem snapshot_counts_history runId attempt events d d' :
  forallb supervised events = true -> events <> [] ->
  (forall p, progress_snapshots d !! runId = Some p -> pg_attempt p <> attempt) ->
  update_all runId attempt events d = Ok (tt, d') ->
  exists s, progress_snapshots d' !! runId = Some s /\ snapshot_of (rev events) attempt s.
Proof.
  intros Hs Hne Hnone Hu.
  assert (forall history d0, (history = [] /\ (forall p, progress_snapshots d0 !! runId = Some p -> pg_attempt p <> attempt)
      \/ exists p, progress_snapshots d0 !! runId = Some p /\ snapshot_of history attempt p) ->
    update_all runId attempt events d0 = Ok (tt, d') ->
    exists s, progress_snapshots d' !! runId = Some s /\ snapshot_of (rev events ++ history) attempt s) as Hall.
  { clear d Hnone Hu. induction events as [|e events IH]; intros history d0 Hprev Hu; [done|].
    cbn in Hs. bool_prop. apply tx_bind_ok in Hu as (w & d1 & Hu1 & Hu). apply tx_bind_ok in Hu1 as (s & d2 & Hu1 & [_ ->]%mret_ok).
    pose proof (update_ok _ _ _ _ _ _ Hu1) as [_ Hin]. pose proof (snapshot_step _ _ _ _ _ _ _ H Hu1 Hprev) as Hso.
    cbn [rev]. rewrite <- app_assoc. destruct events as [|e2 events].
    - apply mret_ok in Hu as [_ ->]. by exists s.
    - apply IH with d2; [done|done| |done]. right. by exists s. }
  destruct (Hall [] d) as (s & H1 & H2); [by left|done|]. rewrite app_nil_r in H2. by exists s.
Qed.

(** * Steering *)

Section steering.
Context `{Platform} (reviewer_model : string) (policy : SupervisorPolicy).

(** A schedule of checkpoint reviews; a throw leaves the database as it was. *)
Definition review_all (runId : string) (schedule : list (GovernanceRunEventView * Z)) (d : ProgressDb) : ProgressDb :=
  fold_left (fun d en => match reviewCheckpoint reviewer_model policy runId en.1 en.2 d with
    | Ok (_, d') => d'
    | Throw _ => d
    end) schedule d.

Lemma filter_permutation {A} (p : A -> bool) l l' : l ≡ₚ l' -> List.filter p l ≡ₚ List.filter p l'.
Proof.
  induction 1 as [|x l l' _ IH|x y l|l1 l2 l3 _ IH1 _ IH2]; cbn; [done| | |by etrans].
  - destruct (p x); [by apply perm_skip|done].
  - destruct (p x), (p y); try done. apply perm_swap.
Qed.

Lemma steers_length runId n d :
  length (steers runId n d)
  = length (List.filter (fun kv => bool_decide (d_action kv.2 = S_steer) && includes (d_status kv.2) [D_proposed; D_executed])
      (List.filter (fun kv => String.eqb (d_runId kv.2) runId && Z.eqb (d_attempt kv.2) n) (map_to_list (decisions d)))).
Proof. unfold steers, listSupervisorDecisions. apply Permutation_length, filter_permutation, merge_sort_Permutation. Qed.

(** A recorded decision adds at most one steer, and only to its own Attempt. *)
Lemma record_steers runId n row d row' d' :
  recordSupervisorDecision row d = Ok (row', d') ->
  length (steers runId n d') <= length (steers runId n d) + (if Z.eqb (d_attempt row) n then 1 else 0).
Proof.
  intros Hr. assert (decisions d !! d_id row = None /\ decisions d' = <[d_id row := row]> (decisions d)) as [Hn Hd].
  { unfold recordSupervisorDecision in Hr. tx_inv Hr. by bool_prop. }
  rewrite !steers_length, Hd.
  assert (forall p : string * DecisionRow -> bool, forall q, length (List.filter q (List.filter p (map_to_list (<[d_id row:=row]> (decisions d)))))
    = length (List.filter q (List.filter p ((d_id row, row) :: map_to_list (decisions d))))) as ->.
  { intros p q. by apply Permutation_length, filter_permutation, filter_permutation, map_to_list_insert. }
  cbn. destruct (Z.eqb (d_attempt row) n); [|rewrite andb_false_r; lia].
  destruct (_ && true); cbn; [|lia]. destruct (_ && _); cbn; lia.
Qed.

Lemma review_steers runId event now n d d' r :
  reviewCheckpoint reviewer_model policy runId event now d = Ok (r, d') ->
  length (steers runId n (pg_db d')) <= max (length (steers runId n (pg_db d))) (maxSteersPerAttempt policy).
Proof.
  unfold reviewCheckpoint. intros Hr. destruct (negb (includes _ _)); [apply mret_ok in Hr as [_ ->]; lia|].
  apply tx_bind_ok in Hr as (d0 & d1 & [-> ->]%gets_id_ok & Hr). destruct (runs _ !! runId) as [run|]; [|apply mret_ok in Hr as [_ ->]; lia].
  destruct (negb (bool_decide _)); [apply mret_ok in Hr as [_ ->]; lia|].
  apply tx_bind_ok in Hr as (s & d1 & [Hdb _]%update_ok & Hr).
  repeat match goal with Hr : (if ?b then mret None else _) _ = Ok _ |- _ =>
    let E := fresh "E" in destruct b eqn:E; [apply mret_ok in Hr as [_ ->]; rewrite Hdb; lia|] end.
  rewrite <- Hdb in *. change (id d1) with d1 in *.
  apply tx_bind_ok in Hr as (uid & d2 & Hu & Hr). apply tx_bind_ok in Hr as (row & d3 & Hrec & [_ ->]%mret_ok).
  unfold in_pg in Hu, Hrec. destruct (randomUUID (pg_db d1)) as [[v e]|] eqn:Eu; [|done]. injection Hu as <- <-.
  apply randomUUID_ok in Eu as [_ ->]. cbn [pg_db] in Hrec.
  destruct (recordSupervisorDecision _ _) as [[row' e']|] eqn:Er; [|done]. injection Hrec as <- <-.
  apply (record_steers runId n) in Er. cbn [pg_db progress_snapshots createDecision d_attempt] in *.
  change (steers runId n (bump_uuid (pg_db d1))) with (steers runId n (pg_db d1)) in Er.
  destruct (Z.eqb_spec (r_attempt run) n) as [<-|]; [|lia].
  match goal with E : Nat.leb (maxSteersPerAttempt policy) (length ?l) = false |- _ => apply Nat.leb_gt in E end.
  lia.
Qed.

(** C19. An Attempt is steered a bounded number of times. Whatever events a
    schedule of checkpoint reviews passes on, and whatever the clock, no
    Attempt of the run gets more standing steers than the policy allows, two by
    default, unless it had more before. *)
Theorem steering_bounded runId schedule n d :
  length (steers runId n (pg_db (review_all runId schedule d)))
  <= max (length (steers runId n (pg_db d))) (maxSteersPerAttempt policy).
Proof.
  revert d. induction schedule as [|[e t] schedule IH]; intros d; cbn; [lia|].
  destruct (reviewCheckpoint reviewer_model policy runId e t d) as [[r d']|] eqn:Er; [|apply IH].
  pose proof (review_steers _ _ _ n _ _ _ Er). specialize (IH d'). unfold review_all in *. lia.
Qed.
End steering.

(** * Witness *)

Definition demo_progress : ProgressDb := {| pg_db := demo_db; progress_snapshots := ∅ |}.

Definition demo_event (seq : Z) (type : string) (tool : string) (failed : bool) : GovernanceRunEventView :=
  {| ge_type := type; ge_seq := seq; ge_data := [("toolName", JStr tool); ("isError", JBool failed)]; ge_createdAt := seq |}.

Definition demo_history : list GovernanceRunEventView :=
  [demo_event 2 "tool.completed" "write" false; demo_event 3 "tool.completed" "bash" true; demo_event 4 "tool.guard.blocked" "bash" true].

Definition demo_counted : ProgressDb :=
  match update_all "run" 1 demo_history demo_progress with Ok (_, d) => d | Throw _ => demo_progress end.

Lemma snapshot_counts_history_witness :
  exists s, progress_snapshots demo_counted !! "run" = Some s /\ snapshot_of (rev demo_history) 1 s.
Proof.
  apply (snapshot_counts_history "run" 1 demo_history demo_progress demo_counted); [reflexivity|discriminate| |vm_compute; reflexivity].
  intros p Hp. vm_compute in Hp. discriminate Hp.
Defined.

(** Two steers of a run that keeps failing, and no third. *)
Example demo_steered :
  length (steers "run" 1 (pg_db (review_all "model" default_policy "run"
    (map (fun n => (demo_event n "tool.completed" "bash" true, n)) [2; 3; 4; 5; 6; 7; 8; 9; 10; 11; 12]%Z) demo_progress))) = 2.
Proof. vm_compute. reflexivity. Qed.
