(* ===== verification/RunView.v ===== *)
(** A TaskRun as the services read it (adapters/persistence-sqlite/src/store.ts:
    getRun, hydrateRun): the row with its contract, plan, checks, artifacts,
    continuations, approvals, questions, latest audit and completion gate. *)
From S2P Require Import Prelude Json TaskPolicy Attempt GateData ExecDb Canonical RunStore Continuation PlanGraph PlanStore AuditAlgebra Evidence CompletionGate Uncertainty Supervisor Governance.
Local Open Scope tx_scope.

(** What the cast of [JSON.parse(contractJson)] to a contract stands for: a
    typed reading of the stored object, which keeps its members. *)
Class ContractType := {
  contract_of : list (string * json) -> Contract;
  contract_of_fields fs : ct_fields (contract_of fs) = fs;
}.

Record UnresolvedUncertainty := { uu_criterionId : string; uu_criterion : string; uu_status : CoverageStatus; uu_reason : string }.

(** The usage counters, the progress snapshot, the context manifest and the
    flags for the user interface are left out. *)
Record TaskRun := {
  tr_row : RunRow; tr_contract : option Contract; tr_checkpoint : option CheckpointRow;
  tr_continuations : list (string * ContinuationRow); tr_plan : list PlanItem; tr_checks : list RunCheck;
  tr_artifacts : list (string * ArtifactRow); tr_completionGate : CompletionGate;
  tr_latestDecision : option (string * DecisionRow); tr_latestGates : list (string * GateRow);
  tr_approvalRequests : list (string * ApprovalRow); tr_userInputRequests : list UserInputRequest;
  tr_pendingUserInput : option UserInputRequest; tr_acceptedUncertainties : list (string * UncertaintyRow);
  tr_unresolvedUncertainties : list UnresolvedUncertainty;
}.

(** * The lists *)

(** [ORDER BY position] *)
Definition position_le (a b : PlanItem) : Prop := Is_true (pi_position a <=? pi_position b)%Z.

(** [ORDER BY check_key] *)
Definition check_le (a b : RunCheck) : Prop := Is_true (String.leb (rc_key a) (rc_key b)).

(** [ORDER BY created_at] *)
Definition artifact_le (a b : string * ArtifactRow) : Prop := Is_true (ar_createdAt a.2 <=? ar_createdAt b.2)%Z.

(** [ORDER BY ar.requested_at,ar.id] *)
Definition approval_le (a b : string * ApprovalRow) : Prop :=
  Is_true (if (p_requestedAt a.2 =? p_requestedAt b.2)%Z then String.leb a.1 b.1 else (p_requestedAt a.2 <? p_requestedAt b.2)%Z).

(** [ORDER BY requested_at] *)
Definition input_le (a b : UserInputRequest) : Prop := Is_true (i_requestedAt a.2 <=? i_requestedAt b.2)%Z.

#[local] Instance position_le_dec a b : Decision (position_le a b).
Proof. unfold position_le. apply _. Defined.
#[local] Instance check_le_dec a b : Decision (check_le a b).
Proof. unfold check_le. apply _. Defined.
#[local] Instance artifact_le_dec a b : Decision (artifact_le a b).
Proof. unfold artifact_le. apply _. Defined.
#[local] Instance approval_le_dec a b : Decision (approval_le a b).
Proof. unfold approval_le. apply _. Defined.
#[local] Instance input_le_dec a b : Decision (input_le a b).
Proof. unfold input_le. apply _. Defined.

(** The rows of a table whose [run_id] is the run. *)
Definition rows_of {R} (run_id : R -> string) (runId : string) (m : gmap string R) : list (string * R) :=
  List.filter (fun kr => String.eqb (run_id kr.2) runId) (map_to_list m).

Definition listPlan (runId : string) (d : PlanDb) : list PlanItem := merge_sort position_le (plan_of runId d).

Definition listChecks (runId : string) (d : GovDb) : list RunCheck :=
  merge_sort check_le (map (fun kr => check_of_row kr.1.2 kr.2)
    (List.filter (fun kr => String.eqb kr.1.1 runId) (map_to_list (run_checks d)))).

Definition listArtifacts (runId : string) (d : GovDb) : list (string * ArtifactRow) :=
  merge_sort artifact_le (rows_of ar_runId runId (artifacts d)).

Definition listApprovalRequests (runId : string) (d : Db) : list (string * ApprovalRow) :=
  merge_sort approval_le (rows_of p_runId runId (approvals d)).

Definition listUserInputRequests (runId : string) (d : Db) : list UserInputRequest :=
  merge_sort input_le (rows_of i_runId runId (inputs d)).

(** * Hydration *)

Definition coverage_of_contract (gates : list (string * GateRow)) : list CriterionCoverage :=
  match List.find (fun g => String.eqb (g_gateType g.2) "contract") gates with
  | Some g => g_criterionCoverage g.2
  | None => []
  end.

(** The criteria of the last contract audit that are open and not accepted at [now]. *)
Definition unresolved (coverage : list CriterionCoverage) (active : list (string * UncertaintyRow)) : list UnresolvedUncertainty :=
  omap (fun ic : nat * CriterionCoverage =>
      let id := "ac-" +:+ pretty (S ic.1) in
      if includes (cov_status ic.2) [GateData.unsupported; GateData.blocked]
         && negb (existsb (fun u => String.eqb (un_criterionId u.2) id) active)
      then Some {| uu_criterionId := id; uu_criterion := GateData.criterion ic.2; uu_status := cov_status ic.2; uu_reason := cov_reason ic.2 |}
      else None)
    (imap pair coverage).

Section hydrate.
Context `{Platform, ContractType}.

(** The members of the row the gate reads. *)
Definition completion_view (row : RunRow) (d : GovDb) : CompletionRunView :=
  {| cv_id := r_id row; cv_attempt := r_attempt row; cv_gateRequired := r_gateRequired row;
     cv_contract := contract_of <$> (r_contract row ≫= record);
     cv_plan := listPlan (r_id row) (gd_plans d); cv_checks := listChecks (r_id row) d |}.

Definition hydrateRun (runId : string) (now : Z) (d : GovDb) : result (option TaskRun) :=
  match runs (gd_db d) !! runId with
  | None => mret None
  | Some row =>
      let view := completion_view row d in
      let latestGates := listLatestGateEvaluations runId (gd_db d) in
      let requests := listUserInputRequests runId (gd_db d) in
      let* gate := evaluateGate view d in
      mret (Some
        {| tr_row := row; tr_contract := cv_contract view; tr_checkpoint := checkpoints (gd_db d) !! runId;
           tr_continuations := listContinuations runId (gd_db d); tr_plan := cv_plan view; tr_checks := cv_checks view;
           tr_artifacts := listArtifacts runId d; tr_completionGate := gate;
           tr_latestDecision := latest_decision runId (gd_db d); tr_latestGates := latestGates;
           tr_approvalRequests := listApprovalRequests runId (gd_db d); tr_userInputRequests := requests;
           tr_pendingUserInput := List.find (fun i => bool_decide (i_status i.2 = U_pending)) requests;
           tr_acceptedUncertainties := listAcceptedUncertainties runId None (gd_db d);
           tr_unresolvedUncertainties := unresolved (coverage_of_contract latestGates)
             (listAcceptedUncertainties runId (Some now) (gd_db d)) |})
  end.

(** What the Supervisor reads of a TaskRun. *)
Definition governance_view (run : TaskRun) : GovernanceTaskRunView :=
  {| gv_run := {| cv_id := r_id (tr_row run); cv_attempt := r_attempt (tr_row run); cv_gateRequired := r_gateRequired (tr_row run);
                  cv_contract := tr_contract run; cv_plan := tr_plan run; cv_checks := tr_checks run |};
     gv_artifacts := map fst (tr_artifacts run); gv_completionGate := tr_completionGate run;
     gv_latestCoverage := concat (map (fun g => g_criterionCoverage g.2) (tr_latestGates run)) |}.

(** [effectiveTaskExecutionPolicy(run.contract).mode] *)
Definition execution_mode (run : TaskRun) : TaskExecutionMode :=
  mode (effectiveTaskExecutionPolicy (ct_view <$> tr_contract run) [] None).

End hydrate.
