(* ===== verification/Service.v ===== *)
(** The setting of the services of packages/execution/src/application: the
    process state they share (execution-state.ts), calls that keep what they did
    when they throw, and what a call guarantees of its outcome ([wp]). *)
From S2P Require Import Prelude Json Attempt ExecDb AttemptRepo Canonical RunStore PlanStore AuditAlgebra Evidence CompletionGate.
Local Open Scope tx_scope.

(** * execution-state.ts *)

Record AttemptExecutionToken := {
  tk_runId : string; tk_attemptId : string; tk_ordinal : Z; tk_expectedVersion : Z; tk_ownerId : string;
  tk_leaseToken : string; tk_executionFence : Z;
}.

Record CurrentTool := { ct_toolCallId : string; ct_toolName : string; ct_startedAt : Z; ct_lastActivityAt : Z }.

(** [Omit<RunCheckpoint, "updatedAt" | "lastTranscriptSeq">] *)
Record CheckpointDraft := {
  dr_attempt : Z; dr_active : bool; dr_assistantPartial : string; dr_currentTool : option CurrentTool; dr_lastEventSeq : Z;
}.

(** A control the runtime was asked to take. *)
Record Delivery := { dv_itemId : string; dv_attempt : Z; dv_fence : TaskRunExecutionFence }.

(** A task of controlDeliveryTasks: it waits for the answer of the runtime, or
    its loop has ended and its [finally] has not run yet; then the deliveries of
    the Attempts that wait for its end are scheduled. *)
Record DeliveryTask := { dt_waiting : option Delivery; dt_then : list Z }.

(** The members of [ExecutionState] the modelled services use; a map of timers
    or runtimes is the set of its keys, the recovery timer its delay; an execution
    is named by its Attempt. *)
Record ExecutionState := {
  closing : bool; continuationOwner : string; executionOwner : string; runtimes : gset string;
  controlDeliveryTasks : gmap string DeliveryTask; executionTasks : gmap string string; checkpointDrafts : gmap string CheckpointDraft;
  checkpointTokens : gmap string AttemptExecutionToken; checkpointTimers : gset string;
  lastCheckpointTranscriptSeq : gmap string Z; continuationRecoveryTimer : option Z; supervisorRestartReconciled : bool;
  initialized : bool; backgroundWorkStarted : bool; maxContinuations : option Z; controlInboxCapacity : option Z;
}.

Definition with_closing (b : bool) (s : ExecutionState) : ExecutionState :=
  {| closing := b; continuationOwner := continuationOwner s; executionOwner := executionOwner s; runtimes := runtimes s;
     controlDeliveryTasks := controlDeliveryTasks s; executionTasks := executionTasks s;
     checkpointDrafts := checkpointDrafts s; checkpointTokens := checkpointTokens s; checkpointTimers := checkpointTimers s;
     lastCheckpointTranscriptSeq := lastCheckpointTranscriptSeq s; continuationRecoveryTimer := continuationRecoveryTimer s;
     supervisorRestartReconciled := supervisorRestartReconciled s; initialized := initialized s;
     backgroundWorkStarted := backgroundWorkStarted s; maxContinuations := maxContinuations s;
     controlInboxCapacity := controlInboxCapacity s |}.

Definition with_runtimes (f : gset string -> gset string) (s : ExecutionState) : ExecutionState :=
  {| closing := closing s; continuationOwner := continuationOwner s; executionOwner := executionOwner s;
     runtimes := f (runtimes s); controlDeliveryTasks := controlDeliveryTasks s; executionTasks := executionTasks s;
     checkpointDrafts := checkpointDrafts s; checkpointTokens := checkpointTokens s; checkpointTimers := checkpointTimers s;
     lastCheckpointTranscriptSeq := lastCheckpointTranscriptSeq s; continuationRecoveryTimer := continuationRecoveryTimer s;
     supervisorRestartReconciled := supervisorRestartReconciled s; initialized := initialized s;
     backgroundWorkStarted := backgroundWorkStarted s; maxContinuations := maxContinuations s;
     controlInboxCapacity := controlInboxCapacity s |}.

Definition with_deliveries (f : gmap string DeliveryTask -> gmap string DeliveryTask) (s : ExecutionState) : ExecutionState :=
  {| closing := closing s; continuationOwner := continuationOwner s; executionOwner := executionOwner s;
     runtimes := runtimes s; controlDeliveryTasks := f (controlDeliveryTasks s); executionTasks := executionTasks s;
     checkpointDrafts := checkpointDrafts s; checkpointTokens := checkpointTokens s; checkpointTimers := checkpointTimers s;
     lastCheckpointTranscriptSeq := lastCheckpointTranscriptSeq s; continuationRecoveryTimer := continuationRecoveryTimer s;
     supervisorRestartReconciled := supervisorRestartReconciled s; initialized := initialized s;
     backgroundWorkStarted := backgroundWorkStarted s; maxContinuations := maxContinuations s;
     controlInboxCapacity := controlInboxCapacity s |}.

Definition with_executions (f : gmap string string -> gmap string string) (s : ExecutionState) : ExecutionState :=
  {| closing := closing s; continuationOwner := continuationOwner s; executionOwner := executionOwner s;
     runtimes := runtimes s; controlDeliveryTasks := controlDeliveryTasks s; executionTasks := f (executionTasks s);
     checkpointDrafts := checkpointDrafts s; checkpointTokens := checkpointTokens s; checkpointTimers := checkpointTimers s;
     lastCheckpointTranscriptSeq := lastCheckpointTranscriptSeq s; continuationRecoveryTimer := continuationRecoveryTimer s;
     supervisorRestartReconciled := supervisorRestartReconciled s; initialized := initialized s;
     backgroundWorkStarted := backgroundWorkStarted s; maxContinuations := maxContinuations s;
     controlInboxCapacity := controlInboxCapacity s |}.

Definition with_drafts (f : gmap string CheckpointDraft -> gmap string CheckpointDraft) (s : ExecutionState) : ExecutionState :=
  {| closing := closing s; continuationOwner := continuationOwner s; executionOwner := executionOwner s;
     runtimes := runtimes s; controlDeliveryTasks := controlDeliveryTasks s; executionTasks := executionTasks s;
     checkpointDrafts := f (checkpointDrafts s); checkpointTokens := checkpointTokens s;
     checkpointTimers := checkpointTimers s; lastCheckpointTranscriptSeq := lastCheckpointTranscriptSeq s;
     continuationRecoveryTimer := continuationRecoveryTimer s; supervisorRestartReconciled := supervisorRestartReconciled s;
     initialized := initialized s; backgroundWorkStarted := backgroundWorkStarted s; maxContinuations := maxContinuations s;
     controlInboxCapacity := controlInboxCapacity s |}.

Definition with_tokens (f : gmap string AttemptExecutionToken -> gmap string AttemptExecutionToken) (s : ExecutionState) : ExecutionState :=
  {| closing := closing s; continuationOwner := continuationOwner s; executionOwner := executionOwner s;
     runtimes := runtimes s; controlDeliveryTasks := controlDeliveryTasks s; executionTasks := executionTasks s;
     checkpointDrafts := checkpointDrafts s; checkpointTokens := f (checkpointTokens s);
     checkpointTimers := checkpointTimers s; lastCheckpointTranscriptSeq := lastCheckpointTranscriptSeq s;
     continuationRecoveryTimer := continuationRecoveryTimer s; supervisorRestartReconciled := supervisorRestartReconciled s;
     initialized := initialized s; backgroundWorkStarted := backgroundWorkStarted s; maxContinuations := maxContinuations s;
     controlInboxCapacity := controlInboxCapacity s |}.

Definition with_checkpoint_timers (f : gset string -> gset string) (s : ExecutionState) : ExecutionState :=
  {| closing := closing s; continuationOwner := continuationOwner s; executionOwner := executionOwner s;
     runtimes := runtimes s; controlDeliveryTasks := controlDeliveryTasks s; executionTasks := executionTasks s;
     checkpointDrafts := checkpointDrafts s; checkpointTokens := checkpointTokens s;
     checkpointTimers := f (checkpointTimers s); lastCheckpointTranscriptSeq := lastCheckpointTranscriptSeq s;
     continuationRecoveryTimer := continuationRecoveryTimer s; supervisorRestartReconciled := supervisorRestartReconciled s;
     initialized := initialized s; backgroundWorkStarted := backgroundWorkStarted s; maxContinuations := maxContinuations s;
     controlInboxCapacity := controlInboxCapacity s |}.

Definition with_transcript_seq (f : gmap string Z -> gmap string Z) (s : ExecutionState) : ExecutionState :=
  {| closing := closing s; continuationOwner := continuationOwner s; executionOwner := executionOwner s;
     runtimes := runtimes s; controlDeliveryTasks := controlDeliveryTasks s; executionTasks := executionTasks s;
     checkpointDrafts := checkpointDrafts s; checkpointTokens := checkpointTokens s; checkpointTimers := checkpointTimers s;
     lastCheckpointTranscriptSeq := f (lastCheckpointTranscriptSeq s);
     continuationRecoveryTimer := continuationRecoveryTimer s; supervisorRestartReconciled := supervisorRestartReconciled s;
     initialized := initialized s; backgroundWorkStarted := backgroundWorkStarted s; maxContinuations := maxContinuations s;
     controlInboxCapacity := controlInboxCapacity s |}.

Definition with_recovery_timer (t : option Z) (s : ExecutionState) : ExecutionState :=
  {| closing := closing s; continuationOwner := continuationOwner s; executionOwner := executionOwner s;
     runtimes := runtimes s; controlDeliveryTasks := controlDeliveryTasks s; executionTasks := executionTasks s;
     checkpointDrafts := checkpointDrafts s; checkpointTokens := checkpointTokens s; checkpointTimers := checkpointTimers s;
     lastCheckpointTranscriptSeq := lastCheckpointTranscriptSeq s; continuationRecoveryTimer := t;
     supervisorRestartReconciled := supervisorRestartReconciled s; initialized := initialized s;
     backgroundWorkStarted := backgroundWorkStarted s; maxContinuations := maxContinuations s;
     controlInboxCapacity := controlInboxCapacity s |}.

Definition with_flags (reconciled init background : bool) (s : ExecutionState) : ExecutionState :=
  {| closing := closing s; continuationOwner := continuationOwner s; executionOwner := executionOwner s;
     runtimes := runtimes s; controlDeliveryTasks := controlDeliveryTasks s; executionTasks := executionTasks s;
     checkpointDrafts := checkpointDrafts s; checkpointTokens := checkpointTokens s; checkpointTimers := checkpointTimers s;
     lastCheckpointTranscriptSeq := lastCheckpointTranscriptSeq s; continuationRecoveryTimer := continuationRecoveryTimer s;
     supervisorRestartReconciled := reconciled; initialized := init; backgroundWorkStarted := background;
     maxContinuations := maxContinuations s; controlInboxCapacity := controlInboxCapacity s |}.

(** * Calls *)

(** The database, the process, the events handed to [eventHub.publish], and the clock. *)
Record World := { gov : GovDb; process : ExecutionState; published : list RunEvent; clock : Z }.

Definition db (w : World) : Db := gd_db (gov w).

(** What a service throws: an error, or the value of kind
    authoritative-settlement-rejected of attempt-settlement-service.ts. *)
Inductive thrown :=
  | Exn (e : exn)
  | Rejection (message : string) (supervisorDecisionId : option string).

Inductive outcome (A : Type) :=
  | Returned (a : A)
  | Thrown (t : thrown).
#[global] Arguments Returned {A} a.
#[global] Arguments Thrown {A} t.

(** A call leaves a world [W] whether it returns or throws. *)
Definition call (W A : Type) : Type := W -> outcome A * W.

#[export] Instance call_mret W : MRet (call W) := fun A a w => (Returned a, w).
#[export] Instance call_mbind W : MBind (call W) := fun A B f m w =>
  match m w with
  | (Returned a, w') => f a w'
  | (Thrown t, w') => (Thrown t, w')
  end.

Abbreviation io := (call World).

Definition raise {W A} (t : thrown) : call W A := fun w => (Thrown t, w).

Definition ask {W A} (f : W -> A) : call W A := fun w => (Returned (f w), w).

Definition of_result {W A} (r : result A) : call W A :=
  match r with Ok a => mret a | Throw e => raise (Exn e) end.

(** [try { m } catch (error) { h(error) }] *)
Definition try_catch {W A} (m : call W A) (h : thrown -> call W A) : call W A := fun w =>
  match m w with
  | (Returned a, w') => (Returned a, w')
  | (Thrown t, w') => h t w'
  end.

(** [try { m } finally { f }] *)
Definition try_finally {W A} (m : call W A) (f : call W unit) : call W A := fun w =>
  match m w with
  | (r, w') => match f w' with
               | (Returned _, w'') => (r, w'')
               | (Thrown t, w'') => (Thrown t, w'')
               end
  end.

Definition with_gov (d : GovDb) (w : World) : World :=
  {| gov := d; process := process w; published := published w; clock := clock w |}.

Definition with_process (f : ExecutionState -> ExecutionState) (w : World) : World :=
  {| gov := gov w; process := f (process w); published := published w; clock := clock w |}.

(** A transaction commits, or rolls back and throws. *)
Definition commit {A} (m : tx GovDb A) : io A := fun w =>
  match m (gov w) with
  | Ok (a, d) => (Returned a, with_gov d w)
  | Throw e => (Thrown (Exn e), w)
  end.

Definition store {A} (m : tx Db A) : io A := commit (in_exec m).

Definition update (f : ExecutionState -> ExecutionState) : io unit := fun w => (Returned tt, with_process f w).

(** The listeners of the hub do not throw. *)
Definition publish (e : RunEvent) : io unit := fun w =>
  (Returned tt, {| gov := gov w; process := process w; published := published w ++ [e]; clock := clock w |}).

Fixpoint each {W A} (f : A -> call W unit) (l : list A) : call W unit :=
  match l with
  | [] => mret tt
  | x :: l' => do* f x in each f l'
  end.

(** [error instanceof Error ? error.message : String(error)] of a thrown error;
    a rejection is no Error, and its text that of a plain object. *)
Definition exn_message (e : exn) : string :=
  match e with Error m | TypeError m | SqliteError m | NamedError _ m => m end.

Definition thrown_message (t : thrown) : string :=
  match t with Exn e => exn_message e | Rejection _ _ => "[object Object]" end.

(** * What a call guarantees *)

(** [Q] of the value and the world it returns with, [R] of what it throws and the world it leaves. *)
Definition wp {W A} (m : call W A) (Q : A -> W -> Prop) (R : thrown -> W -> Prop) (w : W) : Prop :=
  match m w with
  | (Returned a, w') => Q a w'
  | (Thrown t, w') => R t w'
  end.

Section wp.
Context {W A B : Type}.
Implicit Types w : W.

Lemma wp_ret (a : A) Q R w : Q a w -> wp (mret a) Q R w.
Proof. done. Qed.

Lemma wp_raise t (Q : A -> W -> Prop) (R : thrown -> W -> Prop) w : R t w -> wp (raise t) Q R w.
Proof. done. Qed.

Lemma wp_ask (f : W -> A) (Q : A -> W -> Prop) R w : Q (f w) w -> wp (ask f) Q R w.
Proof. done. Qed.

Lemma wp_update f (Q : unit -> World -> Prop) R (w : World) : Q tt (with_process f w) -> wp (update f) Q R w.
Proof. done. Qed.

Lemma wp_bind (m : call W A) (f : A -> call W B) Q R w :
  wp m (fun a => wp (f a) Q R) R w -> wp (mbind f m) Q R w.
Proof. unfold wp, mbind, call_mbind. by destruct (m w) as [[a|t] w']. Qed.

Lemma wp_mono (m : call W A) (Q Q' : A -> W -> Prop) (R R' : thrown -> W -> Prop) w :
  (forall a w', Q a w' -> Q' a w') -> (forall t w', R t w' -> R' t w') -> wp m Q R w -> wp m Q' R' w.
Proof. unfold wp. destruct (m w) as [[a|t] w']; auto. Qed.

Lemma wp_try (m : call W A) (h : thrown -> call W A) Q R w :
  wp m Q (fun t => wp (h t) Q R) w -> wp (try_catch m h) Q R w.
Proof. unfold wp, try_catch. by destruct (m w) as [[a|t] w']. Qed.

Lemma wp_finally (m : call W A) f Q R w :
  wp m (fun a => wp f (fun _ => Q a) R) (fun t => wp f (fun _ => R t) R) w -> wp (try_finally m f) Q R w.
Proof. unfold wp, try_finally. destruct (m w) as [[a|t] w']; by destruct (f w') as [[u|t'] w'']. Qed.

Lemma wp_of_result (r : result A) Q R w :
  (forall a, r = Ok a -> Q a w) -> (forall e, r = Throw e -> R (Exn e) w) -> wp (of_result r) Q R w.
Proof. destruct r; intros HQ HR; [by apply HQ|by apply HR]. Qed.

Lemma wp_commit (m : tx GovDb A) (Q : A -> World -> Prop) (R : thrown -> World -> Prop) (w : World) :
  (forall a d, m (gov w) = Ok (a, d) -> Q a (with_gov d w)) -> (forall e, m (gov w) = Throw e -> R (Exn e) w) ->
  wp (commit m) Q R w.
Proof. unfold wp, commit. destruct (m (gov w)) as [[a d]|e]; auto. Qed.

End wp.

(** A call on the execution tables. *)
Definition gov_with (e : Db) (d : GovDb) : GovDb :=
  {| gd_plans := {| pd_db := e; plan_items := plan_items (gd_plans d); plan_revisions := plan_revisions (gd_plans d) |};
     run_checks := run_checks d; artifacts := artifacts d; evidence_rows := evidence_rows d; manifests := manifests d |}.

Lemma in_exec_run {A} (m : tx Db A) d :
  in_exec m d = match m (gd_db d) with Ok (a, e) => Ok (a, gov_with e d) | Throw e => Throw e end.
Proof. unfold in_exec, in_plans, in_db, gd_db. by destruct (m _) as [[a e]|]. Qed.

Lemma wp_store {A} (m : tx Db A) (Q : A -> World -> Prop) (R : thrown -> World -> Prop) w :
  (forall a e, m (db w) = Ok (a, e) -> Q a (with_gov (gov_with e (gov w)) w)) ->
  (forall e, m (db w) = Throw e -> R (Exn e) w) ->
  wp (store m) Q R w.
Proof.
  intros HQ HR. apply wp_commit; rewrite in_exec_run; unfold db in *; destruct (m (gd_db (gov w))) as [[a e]|e] eqn:E; try done.
  - intros ? ? [= <- <-]. by apply HQ.
  - intros ? [= <-]. by apply HR.
Qed.

Lemma wp_publish e (Q : unit -> World -> Prop) R w :
  Q tt {| gov := gov w; process := process w; published := published w ++ [e]; clock := clock w |} -> wp (publish e) Q R w.
Proof. done. Qed.

Lemma wp_each {A} (f : A -> io unit) l (I : World -> Prop) R w :
  (forall x v, x ∈ l -> I v -> wp (f x) (fun _ => I) R v) -> I w -> wp (each f l) (fun _ => I) R w.
Proof.
  revert w. induction l as [|x l IH]; intros w Hf Hw; [done|]. cbn. apply wp_bind.
  eapply wp_mono; [| |apply (Hf x w); [by left|done]]; [|done]. intros u v Hv. apply IH; [|done].
  intros y x0 Hy. apply Hf. by right.
Qed.
