(* ===== verification/GovMutation.v ===== *)
(** The fenced mutations of the plan, the checks and the artifacts of a TaskRun
    (adapters/persistence-sqlite/src/sqlite/attempt-runtime-mutation-repository.ts:
    upsertPlanItem, markChecksStale, upsertCheck, addArtifact and the batch
    applyTaskRunBatch), and what a batch may touch. *)
From S2P Require Import Prelude Json TaskPolicy Attempt GateData ExecDb Canonical AttemptRepo RunStore StoreSpec PortSteps PlanGraph PlanStore PlanFacts AuditAlgebra Evidence CompletionGate Service Demo AttemptLive.
Local Open Scope tx_scope.

(** [Omit<Artifact, "runId" | "createdAt">] *)
Record ArtifactInput := { ai_id : string; ai_kind : string; ai_title : string; ai_content : string; ai_uri : string }.

Inductive TaskRunStateMutation :=
  | Mut_phase (phase : RunPhase)
  | Mut_plan (item : PlanItem)
  | Mut_check (check : RunCheck)
  | Mut_mark_checks_stale
  | Mut_artifact (artifact : ArtifactInput).

Section mutations.
Context `{Platform}.

Definition withFence {A} (fence : TaskRunExecutionFence) (dbTime : Z) (work : TaskRunExecutionScope -> tx GovDb A) : tx GovDb A :=
  let* scope := in_exec (validate fence dbTime) in work scope.

Definition apply_mutation (runId : string) (timestamp : Z) (mutation : TaskRunStateMutation) : tx GovDb unit :=
  match mutation with
  | Mut_phase phase => let* _ := in_exec (setRunPhase runId phase timestamp) in mret tt
  | Mut_plan item => in_plans (upsertPlanItem runId item timestamp)
  | Mut_check check => upsertCheck runId check timestamp
  | Mut_mark_checks_stale => let* _ := markChecksStale runId timestamp in mret tt
  | Mut_artifact a =>
      let* _ := addArtifact runId (ai_id a) (ai_kind a) (ai_title a) (ai_content a) (ai_uri a) timestamp in mret tt
  end.

Definition fencedUpsertPlanItem (fence : TaskRunExecutionFence) (dbTime : Z) (item : PlanItem) (timestamp : Z) : tx GovDb unit :=
  withFence fence dbTime (fun scope => in_plans (upsertPlanItem (sc_runId scope) item timestamp)).

Definition fencedMarkChecksStale (fence : TaskRunExecutionFence) (dbTime timestamp : Z) : tx GovDb nat :=
  withFence fence dbTime (fun scope => markChecksStale (sc_runId scope) timestamp).

Definition fencedUpsertCheck (fence : TaskRunExecutionFence) (dbTime : Z) (check : RunCheck) (timestamp : Z) : tx GovDb unit :=
  withFence fence dbTime (fun scope => upsertCheck (sc_runId scope) check timestamp).

Definition applyTaskRunBatch (fence : TaskRunExecutionFence) (dbTime : Z) (mutations : list TaskRunStateMutation) (timestamp : Z)
    : tx GovDb unit :=
  withFence fence dbTime (fun scope => for_each (apply_mutation (sc_runId scope) timestamp) mutations).

Definition fencedAddArtifact (fence : TaskRunExecutionFence) (dbTime : Z) (a : ArtifactInput) (timestamp : Z) : tx GovDb ArtifactRow :=
  withFence fence dbTime (fun scope =>
    addArtifact (sc_runId scope) (ai_id a) (ai_kind a) (ai_title a) (ai_content a) (ai_uri a) timestamp).

End mutations.

(** * What a mutation of one TaskRun may touch *)

(** The execution tables but the TaskRuns. *)
Definition beside_runs (d : Db) : Db := set_runs (fun _ => ∅) d.

(** The row of [runId] moves to a later phase or stays; nothing else of it changes. *)
Record advanced_only (runId : string) (d d' : Db) : Prop := {
  ao_beside : beside_runs d' = beside_runs d;
  ao_others : forall i, i <> runId -> runs d' !! i = runs d !! i;
  ao_phase : runs d' !! runId = runs d !! runId
    \/ exists r p t, runs d !! runId = Some r /\ runs d' !! runId = Some (run_phase_to r p t)
         /\ (phase_rank (r_phase r) <= phase_rank p)%Z;
}.

Record confined (runId : string) (d d' : GovDb) : Prop := {
  cf_exec : advanced_only runId (gd_db d) (gd_db d');
  cf_plans : forall k, k.1 <> runId -> plan_items (gd_plans d') !! k = plan_items (gd_plans d) !! k;
  cf_revisions : exists more, plan_revisions (gd_plans d') = plan_revisions (gd_plans d) ++ more
    /\ Forall (fun r => rv_runId r = runId) more;
  cf_checks : forall k, k.1 <> runId -> run_checks d' !! k = run_checks d !! k;
  cf_kept : artifacts d ⊆ artifacts d';
  cf_added : forall i a, artifacts d' !! i = Some a -> artifacts d !! i = None -> ar_runId a = runId;
  cf_rest : evidence_rows d' = evidence_rows d /\ manifests d' = manifests d;
}.

Section confined.
Context `{Platform} (runId : string).

Lemma advanced_only_refl d : advanced_only runId d d.
Proof. split; auto. Qed.

Lemma advanced_only_trans d1 d2 d3 : advanced_only runId d1 d2 -> advanced_only runId d2 d3 -> advanced_only runId d1 d3.
Proof.
  intros [B1 O1 P1] [B2 O2 P2]. split; [congruence|intros i Hi; by rewrite O2, O1|].
  destruct P2 as [->|(r & p & t & Hr & Hr' & Hle)]; [done|].
  destruct P1 as [E|(r0 & p0 & t0 & Hr0 & Hr0' & Hle0)]; right; [rewrite E in Hr; eauto 10|].
  rewrite Hr in Hr0'. injection Hr0' as ->. exists r0, p, t. split_and!; [done|by rewrite Hr'|]. cbn in Hle. lia.
Qed.

Lemma confined_refl d : confined runId d d.
Proof. split; auto using advanced_only_refl. - exists []. by rewrite app_nil_r. - congruence. Qed.

Lemma confined_trans d1 d2 d3 : confined runId d1 d2 -> confined runId d2 d3 -> confined runId d1 d3.
Proof.
  intros [A1 P1 (m1 & R1 & F1) C1 K1 N1 [E1 E1']] [A2 P2 (m2 & R2 & F2) C2 K2 N2 [E2 E2']]. split.
  - by eapply advanced_only_trans.
  - intros k Hk. by rewrite P2, P1.
  - exists (m1 ++ m2). rewrite R2, R1, app_assoc. split; [done|by apply Forall_app].
  - intros k Hk. by rewrite C2, C1.
  - by etrans.
  - intros i a Ha Hn. destruct (artifacts d2 !! i) as [b|] eqn:Eb; [|by eapply N2].
    assert (a = b) as ->; [|by eapply N1]. pose proof (lookup_weaken _ _ _ _ Eb K2). congruence.
  - split; congruence.
Qed.

Lemma advance_advances phase ts d v d' : advanceRunPhase runId phase ts d = Ok (v, d') -> advanced_only runId d d'.
Proof.
  unfold advanceRunPhase. intros Hs. tx_inv Hs.
  match goal with E : update_run _ _ _ _ = Ok _ |- _ => apply update_run_ok in E as [(r & _ & Hr & Hp & ->)|[_ ->]] end;
    [|apply advanced_only_refl].
  bool_prop. split; [done|intros i Hi; by apply lookup_insert_ne|]. right. exists r, phase, ts. split_and!; [done|apply lookup_insert_eq|lia].
Qed.

Lemma in_exec_confined {A} (m : tx Db A) d v d' :
  in_exec m d = Ok (v, d') -> (forall e, m (gd_db d) = Ok (v, e) -> advanced_only runId (gd_db d) e) -> confined runId d d'.
Proof.
  rewrite in_exec_run. destruct (m (gd_db d)) as [[x e]|]; [|done]. intros [= -> <-] Ha. specialize (Ha _ eq_refl).
  split; try done; [exists []; by rewrite app_nil_r|cbn; congruence].
Qed.

Lemma setRunPhase_confined phase ts d v d' : in_exec (setRunPhase runId phase ts) d = Ok (v, d') -> confined runId d d'.
Proof.
  intros Hs. eapply in_exec_confined; [exact Hs|]. intros e. unfold setRunPhase.
  destruct phase; (intros He; first [by eapply advance_advances|injection He as <- <-; apply advanced_only_refl]).
Qed.

Lemma plan_confined item ts d v d' : in_plans (upsertPlanItem runId item ts) d = Ok (v, d') -> confined runId d d'.
Proof.
  unfold in_plans. destruct (upsertPlanItem runId item ts (gd_plans d)) as [[x p]|] eqn:E; [|done]. intros [= _ <-].
  pose proof (upsert_written _ _ _ _ _ _ E) as (metadata & value & [_ _ _ Hi Hr]). split; try done.
  - unfold gd_db. cbn. unfold upsertPlanItem, record_revision in E. tx_inv E.
    all: match goal with E1 : in_db _ _ = Ok _ |- _ => unfold in_db in E1; cbn in E1; destruct (advanceRunPhase _ _ _ _) as [[y e]|] eqn:Ea;
           [injection E1 as <- <-|done] end; cbn; by eapply advance_advances.
  - intros k Hk. cbn. rewrite Hi. apply lookup_insert_ne. by intros <-.
  - cbn. destruct Hr as [[-> _]|(m & _ & ->)]; [exists []; by rewrite app_nil_r|].
    eexists. split; [done|]. by repeat constructor.
  - cbn. congruence.
Qed.

Lemma check_confined c ts d v d' : upsertCheck runId c ts d = Ok (v, d') -> confined runId d d'.
Proof.
  unfold upsertCheck. intros Hs. tx_inv Hs. eapply confined_trans; [|eapply in_exec_confined; [eassumption|]].
  - split; try done; [apply advanced_only_refl|exists []; by rewrite app_nil_r|intros k Hk; apply lookup_insert_ne; by intros <-|cbn; congruence].
  - intros e. apply advance_advances.
Qed.

Lemma touch_advances ts d v d' : update_run runId (fun _ => true) (touch_run ts) d = Ok (v, d') -> advanced_only runId d d'.
Proof.
  intros Hu. apply update_run_ok in Hu as [(r & _ & Hr & _ & ->)|[_ ->]]; [|apply advanced_only_refl].
  split; [done|intros i Hi; by apply lookup_insert_ne|]. right. exists r, (r_phase r), ts. split_and!; [done|apply lookup_insert_eq|lia].
Qed.

Lemma stale_confined ts d v d' : markChecksStale runId ts d = Ok (v, d') -> confined runId d d'.
Proof.
  assert (confined runId d (set_checks (map_imap (fun k r => Some (if decide (passed_of runId (k, r)) then stale_row r else r))) d)) as Hc.
  { split; try done; [apply advanced_only_refl|exists []; by rewrite app_nil_r| |cbn; congruence].
    intros k Hk. cbn. rewrite map_lookup_imap. destruct (run_checks d !! k) as [r|]; [|done]. cbn.
    case_decide as Hp; [|done]. by destruct Hp. }
  unfold markChecksStale. intros Hs. tx_inv Hs; [|done].
  eapply confined_trans; [exact Hc|]. eapply in_exec_confined; [eassumption|]. intros e. apply touch_advances.
Qed.

Lemma artifact_confined i kind title content uri ts d v d' :
  addArtifact runId i kind title content uri ts d = Ok (v, d') -> confined runId d d'.
Proof.
  unfold addArtifact. intros Hs. tx_inv Hs. bool_prop.
  split; try done; [apply advanced_only_refl|exists []; by rewrite app_nil_r|by apply insert_subseteq|].
  intros j a Ha Hn. cbn in Ha. destruct (decide (i = j)) as [<-|Hij]; [|rewrite lookup_insert_ne in Ha by done; congruence].
  rewrite lookup_insert_eq in Ha. by injection Ha as <-.
Qed.

Lemma mutation_confined ts m d v d' : apply_mutation runId ts m d = Ok (v, d') -> confined runId d d'.
Proof.
  destruct m; cbn; intros Hs; first [by eapply plan_confined|by eapply check_confined|tx_inv Hs];
    [by eapply setRunPhase_confined|by eapply stale_confined|by eapply artifact_confined].
Qed.

Lemma mutations_confined ts ms d v d' : for_each (apply_mutation runId ts) ms d = Ok (v, d') -> confined runId d d'.
Proof.
  intros Hf. apply (for_each_ind (confined runId d)) in Hf; [done| |apply confined_refl].
  intros m t t' _ Ht Hm. eapply confined_trans; [exact Ht|by eapply mutation_confined].
Qed.

Lemma advanced_only_aside d d' : advanced_only runId d d' -> aside d d'.
Proof.
  intros [B O P]. split; [|exact (f_equal attempts B)|exact (f_equal events B)|exact (f_equal leases B)
                            |exact (f_equal candidates B)|exact (f_equal trail_of B)].
  intros i. destruct (decide (i = runId)) as [->|Hi]; [|by rewrite O].
  destruct P as [->|(r & p & t & Hr & Hr' & _)]; [done|]. by rewrite Hr, Hr'.
Qed.

End confined.

(** A batch of the runtime takes effect only under the live lease of a running
    Attempt, and it touches the plan, the checks and the artifacts of the
    TaskRun of that Attempt alone: no row of another TaskRun, no step of the
    lifecycle, no revision or artifact lost; the phase of the TaskRun never
    moves back. *)
Theorem batch_confined `{Platform} fence dbTime mutations ts d u d' :
  applyTaskRunBatch fence dbTime mutations ts d = Ok (u, d') ->
  exists s a r l, fenced (gd_db d) fence s a r l /\ confined (sc_runId s) d d' /\ aside (gd_db d) (gd_db d').
Proof.
  unfold applyTaskRunBatch, withFence. intros Hs. apply tx_bind_ok in Hs as (s & d1 & Hv & Hf).
  rewrite in_exec_run in Hv. destruct (validate fence dbTime (gd_db d)) as [[x e]|] eqn:Ev; [|done]. injection Hv as -> <-.
  apply validate_ok in Ev as [-> (a & r & l & Hfen)].
  replace (gov_with (gd_db d) d) with d in Hf by (by destruct d as [[]]).
  apply mutations_confined in Hf as Hc.
  exists s, a, r, l. split_and!; [done|done|]. eapply advanced_only_aside, cf_exec, Hc.
Qed.

Definition demo_fence : TaskRunExecutionFence :=
  {| fe_attemptId := attempt_id "run" 1; fe_expectedVersion := 1; fe_leaseToken := "uuid-0"; fe_executionFence := 1 |}.

Definition demo_batch_db : GovDb :=
  {| gd_plans := {| pd_db := demo_leased; plan_items := ∅; plan_revisions := [] |}; run_checks := ∅; artifacts := ∅;
     evidence_rows := []; manifests := ∅ |}.

Definition demo_batch : list TaskRunStateMutation :=
  [Mut_phase P_verify; Mut_plan (demo_item "a" "first" [] None); Mut_mark_checks_stale;
   Mut_check {| rc_key := "tests"; rc_title := "Tests"; rc_status := CK_pending; rc_required := true; rc_command := "";
                rc_evidence := ""; rc_stale := false; rc_sourceOperationId := None; rc_observedAt := None |};
   Mut_artifact {| ai_id := "report"; ai_kind := "text"; ai_title := "Report"; ai_content := "done"; ai_uri := "" |}].

Definition demo_batched : GovDb :=
  match applyTaskRunBatch demo_fence 20 demo_batch 20 demo_batch_db with Ok (_, d) => d | Throw _ => demo_batch_db end.

Lemma batch_confined_witness :
  exists s a r l, fenced (gd_db demo_batch_db) demo_fence s a r l /\ confined (sc_runId s) demo_batch_db demo_batched
    /\ aside (gd_db demo_batch_db) (gd_db demo_batched).
Proof. apply (batch_confined demo_fence 20 demo_batch 20 demo_batch_db tt demo_batched). vm_compute. reflexivity. Defined.

(** All of it happened. *)
Example batch_applied :
  r_phase <$> runs (gd_db demo_batched) !! "run" = Some P_verify /\ size (plan_items (gd_plans demo_batched)) = 1
  /\ size (run_checks demo_batched) = 1 /\ size (artifacts demo_batched) = 1.
Proof. vm_compute. done. Qed.
