(* ===== verification/Approval.v ===== *)
(** Approvals of a TaskRun (adapters/persistence-sqlite/src/store.ts, with
    sqlite/approval-operation-mapper.ts and packages/governance/src/domain/
    approval.ts): the request an operator decides, the canonical operation its
    digest binds, and the authorization of external actions, which an approval
    gives to one Attempt and which leaves a receipt per operation. *)
From S2P Require Import Prelude Json Attempt GateData ExecDb Canonical RunStore PlanStore.
Local Open Scope tx_scope.

(** * approval.ts *)

Definition APPROVAL_ACTION_MAP (a : ApprovalAction) : string :=
  match a with
  | resume_taskrun => "task_run.resume"
  | start_parallel_taskrun => "task_run.start_parallel"
  | execute_external_action => "task_run.execute_external"
  end.

Definition RUN_APPROVAL_SCOPE_TYPE : string := "session".

(** * approval-operation-mapper.ts *)

Record ApprovalOperation := {
  ao_subjectId : string; ao_action : ApprovalAction; ao_targetKind : string; ao_targetId : string; ao_scopeId : string;
  ao_payload : list (string * json);
}.

Definition mappingFailure (message : string) : exn :=
  NamedError "ApprovalOperationMappingError" ("Canonical approval mapping " +:+ message).

Definition optionalCanonicalString (key : string) (metadata : list (string * json)) : option string :=
  match field key metadata with
  | Some (JStr s) => if String.eqb s "" then None else Some s
  | _ => None
  end.

(** A text that is there and not empty. *)
Definition truthy_text (o : option string) : option string :=
  match o with Some s => if String.eqb s "" then None else Some s | None => None end.

(** The payload of the operation, with the guards of its action on the target and the metadata. *)
Definition operation_payload (approvalId runId decisionId : string) (actionType : ApprovalAction) (targetType targetId : string)
    (metadata : list (string * json)) : result (list (string * json)) :=
  match actionType with
  | resume_taskrun =>
      do* check (String.eqb targetType "taskrun" && String.eqb targetId runId)
        (mappingFailure ("found conflicting resume target for " +:+ approvalId)) in
      mret [("decisionId", JStr decisionId)]
  | start_parallel_taskrun =>
      let parentRunId := default runId (optionalCanonicalString "parentRunId" metadata) in
      let inboxItemId := default targetId (optionalCanonicalString "inboxItemId" metadata) in
      do* check (String.eqb targetType "session_inbox_item" && String.eqb parentRunId runId && String.eqb inboxItemId targetId)
        (mappingFailure ("found conflicting parallel target for " +:+ approvalId)) in
      mret [("decisionId", JStr decisionId); ("parentRunId", JStr parentRunId); ("inboxItemId", JStr inboxItemId)]
  | execute_external_action =>
      let conflict := mappingFailure ("found conflicting external-action target for " +:+ approvalId) in
      do* check (String.eqb targetType "taskrun" && String.eqb targetId runId) conflict in
      let* approvedAttempt := expect (match field "approvedAttempt" metadata with
        | Some (JInt n) => if safe_integer n && (1 <=? n)%Z then Some n else None
        | _ => None
        end) conflict in
      mret [("decisionId", JStr decisionId); ("approvedAttempt", JInt approvedAttempt)]
  end.

Section approval.
Context `{Platform}.

(** The JSON text of an operation, as [canonicalOperationJson] builds it. *)
Definition operation_json (o : ApprovalOperation) : json :=
  JObj [("schema", JStr OPERATION_DIGEST_SCHEMA);
        ("subject", JObj [("kind", JStr "task_run"); ("id", JStr (ao_subjectId o))]);
        ("action", JStr (APPROVAL_ACTION_MAP (ao_action o)));
        ("target", JObj [("kind", JStr (ao_targetKind o)); ("id", JStr (ao_targetId o))]);
        ("scope", JObj [("type", JStr RUN_APPROVAL_SCOPE_TYPE); ("id", JStr (ao_scopeId o))]);
        ("payload", JObj (ao_payload o))].

Definition approval_digest (o : ApprovalOperation) : result string :=
  let* text := stable_text (operation_json o) in
  mret (OPERATION_DIGEST_ALGORITHM +:+ ":" +:+ sha256 (operationDigestPrefix +:+ text)).

(** [mapRunApprovalOperation] with enforceScopeConsistency, which every caller in the store sets. *)
Definition mapRunApprovalOperation (approvalId runId decisionId : string) (actionType : ApprovalAction)
    (targetType targetId : string) (metadata : list (string * json)) (runSessionId : option string)
    : result (ApprovalOperation * string) :=
  do* match stable_text (JObj metadata) with
      | Ok _ => mret tt
      | Throw _ => Throw (mappingFailure ("cannot parse canonical metadata_json for " +:+ approvalId))
      end in
  do* check (negb (String.eqb runId "") && negb (String.eqb decisionId ""))
    (mappingFailure ("found missing Run subject for " +:+ approvalId)) in
  do* check (negb (String.eqb targetType "") && negb (String.eqb targetId ""))
    (mappingFailure ("found missing Run target for " +:+ approvalId)) in
  let metadataSessionId := optionalCanonicalString "sessionId" metadata in
  do* check (match metadataSessionId, truthy_text runSessionId with
      | Some m, Some s => String.eqb m s
      | _, _ => true
      end) (mappingFailure ("found conflicting Run scope for " +:+ approvalId)) in
  let* scopeId := expect (truthy_text (match metadataSessionId with Some m => Some m | None => runSessionId end))
    (mappingFailure ("found missing Run scope for " +:+ approvalId)) in
  let* payload := operation_payload approvalId runId decisionId actionType targetType targetId metadata in
  let operation := {| ao_subjectId := runId; ao_action := actionType;
    ao_targetKind := if String.eqb targetType "taskrun" then "task_run" else targetType;
    ao_targetId := targetId; ao_scopeId := scopeId; ao_payload := payload |} in
  let* digest := approval_digest operation in
  mret (operation, digest).

(** * The store *)

Record ReceiptRow := {
  rt_approvalId : string; rt_operationId : string; rt_operationDigest : string; rt_outcome : string; rt_actorId : string;
  rt_details : json; rt_createdAt : Z;
}.

(** The database with its approval_receipts, all of the source 'run'. *)
Record ApprovalDb := { ap_db : Db; receipts : gmap string ReceiptRow }.

Definition in_ap {A} (m : tx Db A) : tx ApprovalDb A := fun d =>
  match m (ap_db d) with
  | Ok (a, e) => Ok (a, {| ap_db := e; receipts := receipts d |})
  | Throw e => Throw e
  end.

Record ApprovalOptions := {
  po_actionType : option ApprovalAction; po_targetType : option string; po_targetId : option string;
  po_metadata : option (list (string * json));
}.

(** The first row of a query, in the order of the keys. *)
Definition find_approval (p : ApprovalRow -> bool) (d : Db) : option (string * ApprovalRow) :=
  List.find (fun kp => p kp.2) (map_to_list (approvals d)).

Definition pending_row (runId : string) (p : ApprovalRow) : bool :=
  String.eqb (p_runId p) runId && bool_decide (p_status p = Ap_pending).

(** The row is unique under its id and among the pending ones of its run. *)
Definition insert_approval (approvalId : string) (row : ApprovalRow) : tx Db unit :=
  let* d := gets id in
  do* require (bool_decide (approvals d !! approvalId = None)) (SqliteError "approval_requests.id") in
  do* require (bool_decide (is_Some (runs d !! p_runId row))) (SqliteError "approval_requests.run_id") in
  do* require (bool_decide (is_Some (decisions d !! p_decisionId row))) (SqliteError "approval_requests.decision_id") in
  do* require (negb (bool_decide (p_status row = Ap_pending) && exists_where (fun _ => pending_row (p_runId row)) (approvals d)))
    (SqliteError "idx_approval_requests_pending") in
  modify (set_approvals (insert approvalId row)).

Definition ensureApprovalRequest (runId decisionId reason : string) (options : ApprovalOptions) (timestamp : Z)
    : tx Db (string * ApprovalRow) :=
  let actionType := default resume_taskrun (po_actionType options) in
  let targetType := default "taskrun" (po_targetType options) in
  let targetId := default runId (po_targetId options) in
  let metadata := default [] (po_metadata options) in
  let* d := gets id in
  match find_approval (fun p => pending_row runId p && bool_decide (p_actionType p = actionType) && String.eqb (p_targetId p) targetId) d with
  | Some existing => mret existing
  | None =>
      let* approvalId := randomUUID in
      let* canonical := lift (mapRunApprovalOperation approvalId runId decisionId actionType targetType targetId metadata
        (r_sessionId <$> runs d !! runId)) in
      let row :=
        {| p_runId := runId; p_decisionId := decisionId; p_actionType := actionType; p_targetType := targetType;
           p_targetId := targetId; p_reason := reason; p_metadata := metadata; p_status := Ap_pending;
           p_requestedAt := timestamp; p_resolvedAt := None; p_resolvedBy := ""; p_resolution := "";
           p_scopeType := Some RUN_APPROVAL_SCOPE_TYPE; p_scopeId := Some (ao_scopeId canonical.1);
           p_operationDigest := Some canonical.2; p_riskClass := Some "medium"; p_expiresAt := None;
           p_reuseMode := Some one_time; p_maxUses := Some 1%Z; p_usedCount := Some 0%Z |} in
      do* insert_approval approvalId row in
      mret (approvalId, row)
  end.

Definition resolved_row (status : ApprovalStatus) (resolvedBy resolution : string) (timestamp : Z) (p : ApprovalRow) : ApprovalRow :=
  {| p_runId := p_runId p; p_decisionId := p_decisionId p; p_actionType := p_actionType p; p_targetType := p_targetType p;
     p_targetId := p_targetId p; p_reason := p_reason p; p_metadata := p_metadata p; p_status := status;
     p_requestedAt := p_requestedAt p; p_resolvedAt := Some timestamp; p_resolvedBy := resolvedBy; p_resolution := resolution;
     p_scopeType := p_scopeType p; p_scopeId := p_scopeId p; p_operationDigest := p_operationDigest p; p_riskClass := p_riskClass p;
     p_expiresAt := p_expiresAt p; p_reuseMode := p_reuseMode p; p_maxUses := p_maxUses p; p_usedCount := p_usedCount p |}.

Definition resolveApprovalRequest (approvalId : string) (approved : bool) (resolvedBy resolution : string) (timestamp : Z)
    : tx Db (option ApprovalRow) :=
  let* d := gets id in
  match approvals d !! approvalId with
  | Some p =>
      if bool_decide (p_status p = Ap_pending) then
        let row := resolved_row (if approved then Ap_approved else Ap_rejected) resolvedBy resolution timestamp p in
        do* modify (set_approvals (insert approvalId row)) in
        mret (Some row)
      else mret None
  | None => mret None
  end.

Definition hasPendingApproval (runId : string) (d : Db) : bool := exists_where (fun _ => pending_row runId) (approvals d).

(** ** External actions *)

(** The Attempt is the running, active one of its running TaskRun. *)
Definition attempt_running (runId : string) (attempt : Z) (d : Db) : bool :=
  match runs d !! runId with
  | Some r =>
      Z.eqb (r_attempt r) attempt && bool_decide (r_status r = R_running)
      && exists_where (fun _ a => String.eqb (a_runId a) runId && Z.eqb (a_ordinal a) attempt && a_active a
           && bool_decide (a_status a = A_running)) (attempts d)
  | None => false
  end.

Definition within_uses (p : ApprovalRow) : bool :=
  match p_reuseMode p, p_maxUses p with
  | Some one_time, Some n => Z.eqb n 1
  | Some reusable, None => true
  | Some reusable, Some n => (0 <? n)%Z
  | _, _ => false
  end.

Definition unexpired (time : Z) (p : ApprovalRow) : bool :=
  match p_expiresAt p with None => true | Some e => (time <? e)%Z end.

(** An approval in use, or approved and still unused. *)
Definition usable (time : Z) (p : ApprovalRow) : bool :=
  match p_usedCount p with
  | Some n =>
      (0 <=? n)%Z
      && (includes (p_status p) [Ap_approved; Ap_consumed] && (0 <? n)%Z
          || bool_decide (p_status p = Ap_approved) && Z.eqb n 0 && within_uses p
             && match p_maxUses p with None => true | Some m => (n <? m)%Z end && unexpired time p)
  | None => false
  end.

(** [ORDER BY requested_at DESC,id DESC] *)
Definition approval_ge (a b : string * ApprovalRow) : Prop :=
  Is_true (if (p_requestedAt a.2 =? p_requestedAt b.2)%Z then String.leb b.1 a.1 else (p_requestedAt b.2 <? p_requestedAt a.2)%Z).

#[local] Instance approval_ge_dec a b : Decision (approval_ge a b).
Proof. unfold approval_ge. apply _. Defined.

Definition authorizing (runId : string) (attempt time : Z) (d : Db) : option (string * ApprovalRow) :=
  if attempt_running runId attempt d then
    head (merge_sort approval_ge (List.filter (fun kp => String.eqb (p_runId kp.2) runId
      && bool_decide (p_actionType kp.2 = execute_external_action) && bool_decide (p_approvedAttempt kp.2 = Some attempt)
      && usable time kp.2) (map_to_list (approvals d))))
  else None.

Record ExternalActionAuthorizationResult := { ea_allowed : bool; ea_reason : string; ea_approvalId : option string }.

Definition not_authorized (attempt : Z) : ExternalActionAuthorizationResult :=
  {| ea_allowed := false; ea_reason := "Attempt " +:+ pretty attempt +:+ " has no approved external-action authorization";
     ea_approvalId := None |}.

Definition is_active (attempt : Z) (approvalId : string) : ExternalActionAuthorizationResult :=
  {| ea_allowed := true; ea_reason := "External-action authorization is active for Attempt " +:+ pretty attempt;
     ea_approvalId := Some approvalId |}.

Definition inspectExternalActionAuthorization (runId : string) (attempt time : Z) (d : Db) : ExternalActionAuthorizationResult :=
  match authorizing runId attempt time d with
  | None => not_authorized attempt
  | Some (approvalId, p) =>
      if (0 <? default 0 (p_usedCount p))%Z then is_active attempt approvalId
      else {| ea_allowed := true; ea_reason := "External action approved for Attempt " +:+ pretty attempt;
              ea_approvalId := Some approvalId |}
  end.

Record ExternalActionAuthorizationActivation := {
  av_operationId : string; av_toolCallId : string; av_toolName : string; av_argsHash : string;
}.

Definition valid_member (value : string) (maximum : nat) : bool :=
  negb (String.eqb value "") && Nat.leb (String.length value) maximum && negb (has_nul value).

(** [/^[0-9a-f]{64}$/] *)
Definition hex_digit (c : Ascii.ascii) : bool :=
  let n := Ascii.nat_of_ascii c in Nat.leb 48 n && Nat.leb n 57 || Nat.leb 97 n && Nat.leb n 102.

Fixpoint all_chars (p : Ascii.ascii -> bool) (s : string) : bool :=
  match s with
  | String.EmptyString => true
  | String.String c s' => p c && all_chars p s'
  end.

Definition hex64 (s : string) : bool := Nat.eqb (String.length s) 64 && all_chars hex_digit s.

Definition invalid_member (name : string) : exn := Error ("External-action authorization " +:+ name +:+ " is invalid").

Definition validate_activation (v : ExternalActionAuthorizationActivation) : result unit :=
  do* check (valid_member (av_operationId v) 1024) (invalid_member "operationId") in
  do* check (valid_member (av_toolCallId v) 512) (invalid_member "toolCallId") in
  do* check (valid_member (av_toolName v) 128) (invalid_member "toolName") in
  do* check (valid_member (av_argsHash v) 128) (invalid_member "argsHash") in
  check (hex64 (av_argsHash v)) (invalid_member "argsHash").

(** The UPDATE that uses an approval for the first time. *)
Definition first_use (time : Z) (p : ApprovalRow) : bool :=
  bool_decide (p_status p = Ap_approved) && bool_decide (p_usedCount p = Some 0%Z) && within_uses p && unexpired time p.

Definition used_row (p : ApprovalRow) : ApprovalRow :=
  {| p_runId := p_runId p; p_decisionId := p_decisionId p; p_actionType := p_actionType p; p_targetType := p_targetType p;
     p_targetId := p_targetId p; p_reason := p_reason p; p_metadata := p_metadata p;
     p_status := match p_maxUses p with Some n => if (n <=? 1)%Z then Ap_consumed else Ap_approved | None => Ap_approved end;
     p_requestedAt := p_requestedAt p; p_resolvedAt := p_resolvedAt p; p_resolvedBy := p_resolvedBy p; p_resolution := p_resolution p;
     p_scopeType := p_scopeType p; p_scopeId := p_scopeId p; p_operationDigest := p_operationDigest p; p_riskClass := p_riskClass p;
     p_expiresAt := p_expiresAt p; p_reuseMode := p_reuseMode p; p_maxUses := p_maxUses p; p_usedCount := Some 1%Z |}.

(** The receipt is unique under its id, and among the allow receipts of its operation. *)
Definition insert_receipt (receiptId : string) (row : ReceiptRow) : tx ApprovalDb unit :=
  let* d := gets id in
  do* require (bool_decide (receipts d !! receiptId = None)) (SqliteError "approval_receipts.id") in
  do* require (negb (String.eqb (rt_outcome row) "allow" && exists_where (fun _ r => String.eqb (rt_operationId r) (rt_operationId row)
      && String.eqb (rt_outcome r) "allow") (receipts d))) (SqliteError "idx_approval_receipts_one_allow_per_operation") in
  modify (fun d => {| ap_db := ap_db d; receipts := <[receiptId := row]> (receipts d) |}).

Definition activation_details (runId : string) (attempt : Z) (v : ExternalActionAuthorizationActivation) : json :=
  JObj [("kind", JStr "external_action_attempt_activation"); ("runId", JStr runId); ("attempt", JInt attempt);
        ("toolCallId", JStr (av_toolCallId v)); ("toolName", JStr (av_toolName v)); ("argsHash", JStr (av_argsHash v))].

Definition activateExternalActionAuthorization (runId : string) (attempt : Z) (v : ExternalActionAuthorizationActivation) (timestamp : Z)
    : tx ApprovalDb ExternalActionAuthorizationResult :=
  do* lift (validate_activation v) in
  let* d := gets id in
  match authorizing runId attempt timestamp (ap_db d) with
  | None => mret (not_authorized attempt)
  | Some (approvalId, p) =>
      match truthy_text (p_operationDigest p) with
      | None => mret (not_authorized attempt)
      | Some digest =>
          let existing := exists_where (fun _ r => String.eqb (rt_approvalId r) approvalId
            && String.eqb (rt_operationId r) (av_operationId v) && String.eqb (rt_outcome r) "allow") (receipts d) in
          if existing then mret (is_active attempt approvalId)
          else if bool_decide (p_usedCount p = Some 0%Z) && negb (first_use timestamp p) then
            mret {| ea_allowed := false; ea_reason := "External-action authorization activation raced with another writer";
                    ea_approvalId := None |}
          else
            do* (if bool_decide (p_usedCount p = Some 0%Z) then in_ap (modify (set_approvals (insert approvalId (used_row p))))
                 else mret tt) in
            do* insert_receipt ("external-action-activation:" +:+ sha256 (approvalId +:+ nul +:+ av_operationId v))
              {| rt_approvalId := approvalId; rt_operationId := av_operationId v; rt_operationDigest := digest; rt_outcome := "allow";
                 rt_actorId := if String.eqb (p_resolvedBy p) "" then "user" else p_resolvedBy p;
                 rt_details := activation_details runId attempt v; rt_createdAt := timestamp |} in
            mret (is_active attempt approvalId)
      end
  end.

End approval.
