(* ===== verification/Settlement.v ===== *)
(** The settlement of an Attempt (packages/execution/src/application/
    attempt-settlement-service.ts, settlement-approval.ts, runtime-skill.ts,
    task-run-transition-helpers.ts, attempt-execution-failure.ts): the prompt of
    the runtime, the Candidate, the review of the Supervisor and the verdict of
    the store, with every error path. *)
From S2P Require Import Prelude Json TaskPolicy Attempt GateData ExecDb Canonical AttemptRepo RunStore Continuation Transition PlanGraph PlanStore AuditAlgebra Evidence CompletionGate Supervisor RunView Approval Service.
Local Open Scope tx_scope.

(** * Reads and messages of the store *)

(** [WHERE run_id = ? AND seq > ? ORDER BY seq] *)
Definition event_le (a b : RunEvent) : Prop := Is_true (ev_seq a <=? ev_seq b)%Z.

#[export] Instance event_le_dec a b : Decision (event_le a b).
Proof. unfold event_le. apply _. Defined.

Definition event_of (kv : (string * Z) * EventRow) : RunEvent :=
  {| ev_runId := kv.1.1; ev_seq := kv.1.2; ev_type := e_type kv.2; ev_data := e_data kv.2; ev_createdAt := e_createdAt kv.2 |}.

Definition listEvents (runId : string) (after : Z) (limit : option Z) (d : Db) : list RunEvent :=
  let rows := merge_sort event_le (map event_of (List.filter (fun kv => String.eqb kv.1.1 runId && (after <? kv.1.2)%Z)
    (map_to_list (events d)))) in
  match limit with Some n => take (Z.to_nat (Z.max 1 n)) rows | None => rows end.

(** appendMessage of sqlite/session-repository.ts. *)
Definition appendMessage (sessionId role content : string) (createdAt : Z) : tx Db unit :=
  let* d := gets id in
  do* require (bool_decide (is_Some (sessions d !! sessionId))) (SqliteError "messages.session_id") in
  do* modify (set_messages (fun l => l ++ [{| m_sessionId := sessionId; m_role := role; m_content := content; m_createdAt := createdAt |}])) in
  modify (set_sessions (alter (fun _ => {| s_updatedAt := createdAt |}) sessionId)).

(** * The collaborators *)

(** A part of a message, by its type and, for a text part, its text. *)
Inductive MessageContent :=
  | TextContent (text : string)
  | PartsContent (parts : list (string * string)).

Record RuntimeMessage := { mg_role : string; mg_content : option MessageContent; mg_stopReason : option string }.

Record RuntimeProviderFailure := { pf_kind : string; pf_retryable : bool; pf_retryAfterMs : option Z }.

(** An Attempt runtime: its calls, and what it tells once it has settled. *)
Record AttemptRuntimePort := {
  prompt : string -> io unit;
  invokeSkill : option (string -> string -> io unit);
  getError : option string;
  getProviderFailure : option RuntimeProviderFailure;
  getMessages : list RuntimeMessage;
}.

(** collaboration-ports.ts; the reviews answer with the decision they stored. *)
Class SupervisorPort := {
  sp_reviewSettled : TaskRun -> Z -> string -> bool -> io (DecisionRow * list GateRow);
  sp_reviewAttemptFailure : TaskRun -> Z -> string -> io DecisionRow;
  sp_recordReviewFailure : TaskRun -> Z -> string -> io DecisionRow;
  sp_markExecuted : string -> DecisionStatus -> string -> io unit;
  sp_isReviewError : thrown -> bool;
}.

Class RecoveryControlPort := { rp_recoverContinuations : io unit }.

Section settlement.
Context `{Platform, ContractType, SupervisorPort, RecoveryControlPort}.

Definition getRun (runId : string) : io (option TaskRun) :=
  let* r := ask (fun w => hydrateRun runId (clock w) (gov w)) in of_result r.

(** * runtime-skill.ts *)

Definition contract_skills (run : option TaskRun) : list json :=
  match run ≫= tr_contract with Some c => array_member "skills" (ct_fields c) | None => [] end.

(** [skills.length === 1 ? skills[0].name : undefined] *)
Definition selected_skill (run : option TaskRun) : option string :=
  match contract_skills run with
  | [s] => record s ≫= string_member "name"
  | _ => None
  end.

Definition executeRuntimePrompt (runtime : AttemptRuntimePort) (text : string) (skillName : option string) : io unit :=
  match truthy_text skillName with
  | None => prompt runtime text
  | Some name =>
      match invokeSkill runtime with
      | None => raise (Exn (Error ("Runtime does not support selected Skill " +:+ name)))
      | Some invoke => invoke name text
      end
  end.

(** * settlement-approval.ts *)

Definition settlement_options (run : TaskRun) : ApprovalOptions :=
  if bool_decide (execution_mode run = external_action) then
    {| po_actionType := Some execute_external_action; po_targetType := Some "taskrun"; po_targetId := Some (r_id (tr_row run));
       po_metadata := Some [("sessionId", JStr (r_sessionId (tr_row run))); ("approvedAttempt", JInt (r_attempt (tr_row run) + 1))] |}
  else {| po_actionType := None; po_targetType := None; po_targetId := None; po_metadata := None |}.

Definition ensureSettlementApproval (run : TaskRun) (decisionId reason : string) (timestamp : Z) : tx Db (string * ApprovalRow) :=
  ensureApprovalRequest (r_id (tr_row run)) decisionId reason (settlement_options run) timestamp.

(** * attempt-settlement-service.ts *)

(** [contract] errors of a try block become a rejection. *)
Definition rejecting {A} (m : io A) (supervisorDecisionId : option string) : io A :=
  try_catch m (fun t => raise (Rejection (thrown_message t) supervisorDecisionId)).

Definition stale_token (token : AttemptExecutionToken) : thrown := Exn (stale_projection (tk_attemptId token)).

(** The TaskRun of the token, still running the Attempt of the token. *)
Definition current_run (token : AttemptExecutionToken) : io TaskRun :=
  let* current := getRun (tk_runId token) in
  match current with
  | Some run =>
      if Z.eqb (r_attempt (tr_row run)) (tk_ordinal token) && bool_decide (r_status (tr_row run) = R_running)
      then mret run else raise (stale_token token)
  | None => raise (stale_token token)
  end.

Definition recordCandidate (token : AttemptExecutionToken) (response : string) : io CandidateRow :=
  rejecting (
    let* _ := current_run token in
    let* id := store randomUUID in
    let* now := ask clock in
    store (recordCandidateResult id (tk_attemptId token) (tk_expectedVersion token) (tk_leaseToken token)
      (tk_executionFence token) response now)) None.

Definition settleCandidate (token : AttemptExecutionToken) (candidate : option CandidateRow) (decision : DecisionRow)
    (status : TerminalAttemptStatus) (reason : string) : io bool :=
  rejecting (
    let* current := current_run token in
    let unavailable := Exn (Error ("Candidate result is unavailable for Attempt " +:+ tk_attemptId token)) in
    let* candidate := match candidate with
      | Some c => if String.eqb (c_attemptId c) (tk_attemptId token) then mret c else raise unavailable
      | None => raise unavailable
      end in
    let* now := ask clock in
    do* store (settleAttempt (tk_attemptId token) (c_attemptVersion candidate) (tk_leaseToken token) (tk_executionFence token)
      (c_id candidate) (d_id decision) status reason now) in
    let* rows := ask (fun w => listEvents (tk_runId token) (r_lastEventSeq (tr_row current)) None (db w)) in
    do* each publish rows in
    do* (if bool_decide (status = TA_blocked) && bool_decide (d_action decision = S_pause_for_approval) then
           let* approval := store (ensureSettlementApproval current (d_id decision) reason now) in
           let* event := store (appendEvent (tk_runId token) "supervisor.approval.requested"
             (JObj [("approvalId", JStr approval.1); ("decisionId", JStr (d_id decision)); ("reason", JStr reason)]) now) in
           publish event
         else mret tt) in
    mret (includes (d_action decision) [S_start_continuation; S_wait_for_runtime])) (Some (d_id decision)).

Definition recoverInterrupted (token : AttemptExecutionToken) (reason : string) (supervisorDecisionId : option string) : io bool :=
  try_catch (
    let* now := ask clock in
    let* recovery := store (recoverInterruptedAttempt (tk_attemptId token) (tk_expectedVersion token) (tk_ownerId token)
      (tk_leaseToken token) (tk_executionFence token) reason supervisorDecisionId now) in
    do* (match recovery.1.2 with Some event => publish event | None => mret tt end) in
    mret recovery.2) (fun _ => mret false).

(** A rejection ends with the recovery of the Attempt; other errors pass. *)
Definition recovering (token : AttemptExecutionToken) (m : io bool) : io bool :=
  try_catch m (fun t =>
    match t with
    | Rejection message decisionId => do* recoverInterrupted token message decisionId in mret false
    | Exn _ => raise t
    end).

Definition message_text (m : RuntimeMessage) : string :=
  trim (match mg_content m with
        | Some (TextContent s) => s
        | Some (PartsContent parts) => String.concat "" (map snd (List.filter (fun p => String.eqb p.1 "text") parts))
        | None => ""
        end).

Definition final_assistant (messages : list RuntimeMessage) : option RuntimeMessage :=
  last (List.filter (fun m => String.eqb (mg_role m) "assistant" && bool_decide (is_Some (mg_content m))) messages).

(** [getCheckpoint(runId)?.lastEventSeq ?? run.lastEventSeq] *)
Definition checkpoint_seq (runId : string) (run : TaskRun) (d : Db) : Z :=
  match checkpoints d !! runId with Some k => k_lastEventSeq k | None => r_lastEventSeq (tr_row run) end.

Definition continuation_owned (continuationId : option string) (w : World) : bool :=
  match continuationId with
  | Some c => if String.eqb c "" then true else ownsContinuationLease c (continuationOwner (process w)) (clock w) (db w)
  | None => true
  end.

(** [failures.map(failure => `${failure.key}: ${failure.reason}`).join("; ") || decision.rationale] *)
Definition blocked_reason (gates : list GateRow) (decision : DecisionRow) : string :=
  match List.find (fun g => String.eqb (g_gateType g) "completion") gates with
  | Some g =>
      let text := join "; " (map (fun f => GateData.key f +:+ ": " +:+ GateData.reason f) (g_failures g)) in
      if String.eqb text "" then d_rationale decision else text
  | None => d_rationale decision
  end.

(** What the catch block of [execute] knows: the Candidate and the response
    recorded so far. *)
Record Progress_ := { px_candidate : option CandidateRow; px_response : string }.

(** The response a settled runtime delivers, and the guards on it. *)
Definition deliverable (runtime : AttemptRuntimePort) (runId : string) (d : Db) : result string :=
  let checkpointResponse := match checkpoints d !! runId with Some k => trim (k_assistantPartial k) | None => "" end in
  let final := final_assistant (getMessages runtime) in
  let response := if String.eqb checkpointResponse "" then match final with Some m => message_text m | None => "" end else checkpointResponse in
  do* check (negb (String.eqb response ""))
    (Error "Runtime settled without a non-empty deliverable candidate after bounded provider recovery") in
  do* check (match final with
      | Some m => match mg_stopReason m with
          | Some s => negb (String.eqb checkpointResponse "") || includes s ["stop"; "length"]
          | None => true
          end
      | None => true
      end) (Error ("Runtime settled without a transport-complete deliverable candidate (stopReason="
                   +:+ default "" (final ≫= mg_stopReason) +:+ ")")) in
  mret response.

Definition truncated (runtime : AttemptRuntimePort) : bool :=
  match final_assistant (getMessages runtime) ≫= mg_stopReason with Some s => String.eqb s "length" | None => false end.

(** The review of the recorded Candidate and the verdict. *)
Definition review_candidate (runId : string) (token : AttemptExecutionToken) (current : TaskRun) (candidate : CandidateRow)
    (response : string) : io bool :=
  let* checkpointSeq := ask (fun w => checkpoint_seq runId current (db w)) in
  let* review := sp_reviewSettled current checkpointSeq response false in
  let '(decision, gates) := review in
  let* reviewedRun := getRun runId in
  match reviewedRun with
  | Some run =>
      if bool_decide (r_status (tr_row run) = R_running) && Z.eqb (r_attempt (tr_row run)) (d_attempt decision) then
        if bool_decide (d_action decision = S_complete_taskrun)
        then settleCandidate token (Some candidate) decision TA_completed ""
        else settleCandidate token (Some candidate) decision TA_blocked (blocked_reason gates decision)
      else do* sp_markExecuted (d_id decision) D_superseded "" in mret false
  | None => do* sp_markExecuted (d_id decision) D_superseded "" in mret false
  end.

(** The catch block. *)
Definition settle_failure (runId : string) (token : AttemptExecutionToken) (continuationId : option string) (progress : Progress_)
    (error : thrown) : io bool :=
  let* stop := ask (fun w => closing (process w)) in
  if (stop : bool) then mret false else
  match error with
  | Rejection message decisionId => do* recoverInterrupted token message decisionId in mret false
  | Exn _ =>
      let* owned := ask (continuation_owned continuationId) in
      if negb owned then do* rp_recoverContinuations in mret false else
      let* current := getRun runId in
      match current with
      | None => mret false
      | Some run =>
          if negb (bool_decide (r_status (tr_row run) = R_running)) then mret false else
          let message := thrown_message error in
          let* checkpointSeq := ask (fun w => checkpoint_seq runId run (db w)) in
          if sp_isReviewError error then
            let* decision := sp_recordReviewFailure run checkpointSeq message in
            recovering token (settleCandidate token (px_candidate progress) decision TA_blocked
              "Supervisor review failed after bounded internal retries. The candidate result was preserved and the Agent was not rerun.")
          else
            let* candidate := match px_candidate progress with
              | Some c => mret (Some c)
              | None =>
                  try_catch (let* c := recordCandidate token (px_response progress) in mret (Some c)) (fun t =>
                    match t with
                    | Rejection message decisionId => do* recoverInterrupted token message decisionId in mret None
                    | Exn _ => raise t
                    end)
              end in
            match candidate with
            | None => mret false
            | Some c =>
                let* decision := sp_reviewAttemptFailure run checkpointSeq message in
                recovering token (settleCandidate token (Some c) decision TA_blocked message)
            end
      end
  end.

(** A stage of a try block: its value, or what the catch block returns for its error. *)
Definition attempting {A} (m : io A) (failed : thrown -> io bool) : io (A + bool) :=
  try_catch (let* a := m in mret (inl a)) (fun t => let* b := failed t in mret (inr b)).

(** [execute]; [onRuntimeSettled] stops a timer of the caller. The stages of
    the try block hand their progress to the catch block. *)
Definition execute (runId : string) (token : AttemptExecutionToken) (runtime : AttemptRuntimePort) (text : string)
    (continuationId : option string) : io bool :=
  let failed p := settle_failure runId token continuationId p in
  let start := {| px_candidate := None; px_response := "" |} in
  let attempt_body : io (option (TaskRun * string)) :=
    let* run := getRun runId in
    do* executeRuntimePrompt runtime text (selected_skill run) in
    do* match truthy_text (getError runtime) with Some e => raise (Exn (Error e)) | None => mret tt end in
    do* match getProviderFailure runtime with
        | Some f => raise (Exn (Error ("Runtime provider failure remained after bounded recovery: " +:+ pf_kind f)))
        | None => mret tt
        end in
    let* owned := ask (continuation_owned continuationId) in
    if negb owned then do* rp_recoverContinuations in mret None else
    let* current := getRun runId in
    match current with
    | Some run =>
        if bool_decide (r_status (tr_row run) = R_running) then
          let* response := ask (fun w => deliverable runtime runId (db w)) in
          let* response := of_result response in
          mret (Some (run, response))
        else mret None
    | None => mret None
    end in
  let* ready := attempting attempt_body (failed start) in
  match ready with
  | inr b => mret b
  | inl None => mret false
  | inl (Some (run, response)) =>
      let responded := {| px_candidate := None; px_response := response |} in
      let* recorded := attempting (recordCandidate token response) (failed responded) in
      match recorded with
      | inr b => mret b
      | inl candidate =>
          let recorded := {| px_candidate := Some candidate; px_response := response |} in
          try_catch
            (if truncated runtime
             then raise (Exn (Error "Runtime settled with a token-truncated deliverable candidate (stopReason=length)"))
             else review_candidate runId token run candidate response) (failed recorded)
      end
  end.

(** * task-run-transition-helpers.ts *)

Definition runtimeTransitionFence (token : AttemptExecutionToken) : TaskRunExecutionFence :=
  {| fe_attemptId := tk_attemptId token; fe_expectedVersion := tk_expectedVersion token;
     fe_leaseToken := tk_leaseToken token; fe_executionFence := tk_executionFence token |}.

(** The one outcome of a transition, and its event. *)
Definition requireTerminalTransition (runId : string) (outcomes : list TaskRunTransitionOutcome)
    : result (TaskRunTransitionOutcome * RunEvent) :=
  let e := Error ("TaskRun " +:+ runId +:+ " transition did not return exactly one terminal outcome") in
  match outcomes with
  | [o] => let* event := expect (to_event o) e in mret (o, event)
  | _ => Throw e
  end.

Definition failRuntimeTaskRun (token : AttemptExecutionToken) (reason : string) (data : list (string * json))
    : io (TaskRunTransitionOutcome * RunEvent) :=
  let* now := ask clock in
  let* outcomes := store (transitionRuntime (JObj [("kind", JStr "fail"); ("reason", JStr reason); ("data", JObj data)])
    (runtimeTransitionFence token) now now) in
  of_result (requireTerminalTransition (tk_runId token) outcomes).

Definition publishTransitionOutcome (o : TaskRunTransitionOutcome * RunEvent) : io unit :=
  do* each publish (to_precedingEvents o.1) in publish o.2.

(** * attempt-execution-failure.ts *)

(** The last resort for what [execute] throws. *)
Definition settleAttemptExecutionFailure (run : TaskRun) (token : AttemptExecutionToken) (continuationId : option string)
    (error : thrown) : io unit :=
  let* stop := ask (fun w => closing (process w)) in
  if (stop : bool) then mret tt else
  let message := "Attempt settlement failed safely: " +:+ thrown_message error in
  let* current := getRun (r_id (tr_row run)) in
  do* (match current with
       | Some c =>
           if bool_decide (r_status (tr_row c) = R_running) && Z.eqb (r_attempt (tr_row c)) (tk_ordinal token) then
             try_catch (
               let* transition := failRuntimeTaskRun token message
                 [("error", JStr message); ("reason", JStr "attempt_settlement_failed")] in
               let* now := ask clock in
               do* store (appendMessage (r_sessionId (tr_row run)) "assistant" ("Run failed: " +:+ message) now) in
               publishTransitionOutcome transition)
               (fun _ => do* recoverInterrupted token message None in mret tt)
           else mret tt
       | None => mret tt
       end) in
  let* owned := ask (fun w => match truthy_text continuationId with
    | Some c => ownsContinuationLease c (continuationOwner (process w)) (clock w) (db w)
    | None => false
    end) in
  if (owned : bool) then
    let* now := ask clock in
    let* owner := ask (fun w => continuationOwner (process w)) in
    do* store (updateContinuation (default "" continuationId) N_failed message (Some owner) now) in mret tt
  else mret tt.

(** What the executor runs for an Attempt (attempt-executor.ts): the settlement,
    and the last resort for what it throws. *)
Definition settle_attempt (run : TaskRun) (token : AttemptExecutionToken) (runtime : AttemptRuntimePort) (text : string)
    (continuationId : option string) : io bool :=
  try_catch (execute (r_id (tr_row run)) token runtime text continuationId)
    (fun t => do* settleAttemptExecutionFailure run token continuationId t in mret false).

End settlement.
