(* ===== verification/EventHub.v ===== *)
(** The events of a running Attempt (packages/execution/src/application/
    run-event-hub.ts): the checkpoint that follows them, with its debouncing
    timer, and the listeners of a TaskRun. *)
From S2P Require Import Prelude Json Attempt ExecDb Canonical AttemptRepo RunStore Transcript Tools Mailbox RuntimeMutation GateData PlanStore AuditAlgebra Evidence CompletionGate Supervisor RunView Approval Service Settlement Progress.
Local Open Scope tx_scope.

(** * The checkpoint of the runtime *)

Definition fence_of (token : AttemptExecutionToken) : TaskRunExecutionFence :=
  {| fe_attemptId := tk_attemptId token; fe_expectedVersion := tk_expectedVersion token; fe_leaseToken := tk_leaseToken token;
     fe_executionFence := tk_executionFence token |}.

Definition event_data (event : RunEvent) : list (string * json) := default [] (record (ev_data event)).

(** [String(event.data[k])]; an absent member prints as undefined. *)
Definition member_string (k : string) (event : RunEvent) : string :=
  match field k (event_data event) with Some v => js_text v | None => "undefined" end.

Definition relevant (event : RunEvent) : bool :=
  String.prefix "message." (ev_type event) || String.prefix "tool." (ev_type event) || String.eqb (ev_type event) "provider.failure".

Definition transcript_boundary (event : RunEvent) : bool := includes (ev_type event) ["tool.completed"; "message.completed"]%string.

Definition immediate (event : RunEvent) : bool := String.eqb (ev_type event) "tool.started" || transcript_boundary event.

Definition is_current_tool (tool : CurrentTool) (event : RunEvent) : bool :=
  opt_str_is (field "toolCallId" (event_data event)) (ct_toolCallId tool).

Definition tool_active (tool : CurrentTool) (at_ : Z) : CurrentTool :=
  {| ct_toolCallId := ct_toolCallId tool; ct_toolName := ct_toolName tool; ct_startedAt := ct_startedAt tool; ct_lastActivityAt := at_ |}.

Definition next_partial (partial : string) (event : RunEvent) : string :=
  if includes (ev_type event) ["message.started"; "message.retrying"]%string then ""
  else if String.eqb (ev_type event) "message.delta" then partial +:+ member_string "delta" event
  else partial.

Definition next_tool (tool : option CurrentTool) (event : RunEvent) : option CurrentTool :=
  if String.eqb (ev_type event) "tool.started" then
    Some {| ct_toolCallId := member_string "toolCallId" event; ct_toolName := member_string "toolName" event;
            ct_startedAt := ev_createdAt event; ct_lastActivityAt := ev_createdAt event |}
  else match tool with
       | None => None
       | Some t =>
           if String.eqb (ev_type event) "tool.progress" && is_current_tool t event then Some (tool_active t (ev_createdAt event))
           else if String.eqb (ev_type event) "provider.failure" then Some (tool_active t (ev_createdAt event))
           else if String.eqb (ev_type event) "tool.completed" && is_current_tool t event then None
           else Some t
       end.

Definition next_draft (draft : CheckpointDraft) (event : RunEvent) : CheckpointDraft :=
  {| dr_attempt := dr_attempt draft; dr_active := dr_active draft; dr_assistantPartial := next_partial (dr_assistantPartial draft) event;
     dr_currentTool := next_tool (dr_currentTool draft) event; dr_lastEventSeq := Z.max (dr_lastEventSeq draft) (ev_seq event) |}.

(** [currentTool ? JSON.stringify(currentTool) : ""] *)
Definition tool_json (tool : option CurrentTool) : string :=
  match tool with
  | Some t => stringify (JObj [("toolCallId", JStr (ct_toolCallId t)); ("toolName", JStr (ct_toolName t));
                               ("startedAt", JInt (ct_startedAt t)); ("lastActivityAt", JInt (ct_lastActivityAt t))])
  | None => ""
  end.

Section hub.
Context `{Platform}.

Definition flushCheckpoint (runId : string) : io unit :=
  let* draft := ask (fun w => checkpointDrafts (process w) !! runId) in
  let* token := ask (fun w => checkpointTokens (process w) !! runId) in
  match draft, token with
  | Some draft, Some token =>
      do* update (with_checkpoint_timers (fun ts => ts ∖ {[runId]})) in
      let* seq := ask (fun w => default (getLastTranscriptSeq runId (db w)) (lastCheckpointTranscriptSeq (process w) !! runId)) in
      do* update (with_transcript_seq (insert runId seq)) in
      let* now := ask clock in
      let* _ := store (fencedUpsertCheckpoint (fence_of token) now (dr_active draft) (dr_assistantPartial draft)
        (tool_json (dr_currentTool draft)) (dr_lastEventSeq draft) seq now) in
      mret tt
  | _, _ => mret tt
  end.

(** 500 ms later [checkpoint_timer] runs. *)
Definition scheduleCheckpoint (runId : string) : io unit :=
  update (fun s => if bool_decide (runId ∈ checkpointTimers s) || closing s then s
                   else with_checkpoint_timers (fun ts => {[runId]} ∪ ts) s).

Definition checkpoint_timer (runId : string) : io unit :=
  do* update (with_checkpoint_timers (fun ts => ts ∖ {[runId]})) in
  try_catch (flushCheckpoint runId) (fun _ => mret tt).

Definition updateCheckpoint (event : RunEvent) : io unit :=
  let runId := ev_runId event in
  let* draft := ask (fun w => checkpointDrafts (process w) !! runId) in
  match draft with
  | None => mret tt
  | Some draft =>
      if negb (relevant event) then mret tt else
      do* update (with_drafts (insert runId (next_draft draft event))) in
      do* (if transcript_boundary event then
             let* seq := ask (fun w => getLastTranscriptSeq runId (db w)) in
             update (with_transcript_seq (insert runId seq))
           else mret tt) in
      if immediate event then flushCheckpoint runId else scheduleCheckpoint runId
  end.

End hub.

(** * Listeners *)

(** The sets of listeners are objects: a subscription keeps the one it was added
    to. A listener is an identifier, a set the listeners in insertion order. *)
Record Listeners := { lis_sets : list (list nat); lis_of_run : gmap string nat }.

Record Subscription := { su_runId : string; su_set : nat; su_listener : nat }.

Definition no_listeners : Listeners := {| lis_sets := []; lis_of_run := ∅ |}.

Definition set_members (h : Listeners) (i : nat) : list nat := default [] (lis_sets h !! i).

Definition add_listener (l : nat) (members : list nat) : list nat :=
  if bool_decide (l ∈ members) then members else members ++ [l].

Definition remove_listener (l : nat) (members : list nat) : list nat := filter (fun m => m <> l) members.

Definition subscribe (runId : string) (listener : nat) (h : Listeners) : Subscription * Listeners :=
  let '(i, h) :=
    match lis_of_run h !! runId with
    | Some i => (i, h)
    | None => let i := length (lis_sets h) in
              (i, {| lis_sets := lis_sets h ++ [[]]; lis_of_run := <[runId := i]> (lis_of_run h) |})
    end in
  ({| su_runId := runId; su_set := i; su_listener := listener |},
   {| lis_sets := alter (add_listener listener) i (lis_sets h); lis_of_run := lis_of_run h |}).

(** The closure [subscribe] returns. *)
Definition unsubscribe (s : Subscription) (h : Listeners) : Listeners :=
  let sets := alter (remove_listener (su_listener s)) (su_set s) (lis_sets h) in
  {| lis_sets := sets;
     lis_of_run := if bool_decide (default [] (sets !! su_set s) = []) then delete (su_runId s) (lis_of_run h) else lis_of_run h |}.

(** The listeners [publish] hands an event of the run to, in order. *)
Definition receivers (runId : string) (h : Listeners) : list nat :=
  match lis_of_run h !! runId with Some i => set_members h i | None => [] end.

Definition replay (runId : string) (after : Z) (limit : option Z) (d : Db) : list RunEvent := listEvents runId after limit d.
