(* ===== verification/Dispatcher.v ===== *)
(** The delivery of controls to a running Attempt (packages/execution/src/
    application/control-inbox-dispatcher.ts). A delivery is cut at its awaits:
    what runs up to the answer of the runtime, what the answer does, and what
    the end of the task does are calls of their own, so that other calls run in
    between. *)
From S2P Require Import Prelude Json Attempt GateData ExecDb Canonical AttemptRepo RunStore Tools Mailbox RuntimeMutation PlanStore AuditAlgebra Evidence CompletionGate Supervisor RunView Approval Service Settlement EventHub.
Local Open Scope tx_scope.

(** What [runtime.steer] or [runtime.followUp] comes to. *)
Inductive ControlAnswer := Accepted | Settled | Failed (error : thrown).

Inductive ControlReply := reply_closing | reply_inactive | reply_full | reply_item (accepted : bool) (item : string * ControlRow).

Section dispatcher.
Context `{Platform, ContractType}.

(** [Boolean(runtime.followUp)] of the runtime of a TaskRun. *)
Context (takes_follow_up : string -> bool).

Definition controlInbox_capacity (w : World) : Z := default 32%Z (controlInboxCapacity (process w)).

(** [completeControlDelivery] and the publication of its event, or the item is superseded. *)
Definition complete_delivery (d : Delivery) (status : ControlStatus) (error : string) : io bool :=
  try_catch (
    let* now := ask clock in
    let* event := store (completeControlDelivery (dv_fence d) now (dv_itemId d) status error now) in
    do* publish event in
    mret true) (fun _ =>
    let* now := ask clock in
    let* _ := store (completeControlItem (dv_itemId d) K_superseded "Attempt advanced during delivery" now) in
    mret false).

(** What the answer does; the loop goes on when a control was delivered. *)
Definition finish_delivery (d : Delivery) (answer : ControlAnswer) : io bool :=
  match answer with
  | Accepted => complete_delivery d K_delivered ""
  | Settled => let* _ := complete_delivery d K_rejected "pi_settled" in mret false
  | Failed error => let* _ := complete_delivery d K_rejected (thrown_message error) in mret false
  end.

Definition delivering_event (runId itemId : string) (item : ControlRow) (attempt : Z) : json :=
  JObj [("controlId", JStr itemId); ("requestId", JStr (q_requestId item)); ("attempt", JInt attempt);
        ("kind", JStr (control_kind_text (q_kind item)))].

(** A turn of the loop of [deliverControlInbox] up to its await. *)
Definition deliver_next (runId : string) (attempt : Z) : io (option Delivery) :=
  let* current := getRun runId in
  match current with
  | None => mret None
  | Some run =>
      if negb (bool_decide (r_status (tr_row run) = R_running) && Z.eqb (r_attempt (tr_row run)) attempt) then mret None else
      let* now := ask clock in
      let* claimed := store (claimControlItem runId attempt now) in
      match claimed with
      | None => mret None
      | Some (itemId, item) =>
          let* token := ask (fun w => checkpointTokens (process w) !! runId) in
          match (match token with Some t => if Z.eqb (tk_ordinal t) attempt then Some t else None | None => None end) with
          | None =>
              let* _ := store (completeControlItem itemId K_superseded "Attempt execution token is stale" now) in mret None
          | Some token =>
              let d := {| dv_itemId := itemId; dv_attempt := attempt; dv_fence := fence_of token |} in
              let* announced := try_catch (
                let* event := store (fencedAppendEvent (fence_of token) now "control.delivering"
                  (delivering_event runId itemId item attempt) now) in
                do* publish event in
                mret true) (fun _ =>
                let* _ := store (completeControlItem itemId K_superseded "Attempt advanced before delivery" now) in
                mret false) in
              if negb (announced : bool) then mret None
              else if match q_kind item with follow_up => negb (takes_follow_up runId) | steer => false end
              then let* _ := finish_delivery d Settled in mret None
              else mret (Some d)
          end
      end
  end.

(** [deliverControlInbox] up to its first await. *)
Definition deliverControlInbox (runId : string) (attempt : Z) : io (option Delivery) :=
  let* idle := ask (fun w => negb (bool_decide (runId ∈ runtimes (process w))) || closing (process w)) in
  if (idle : bool) then mret None else deliver_next runId attempt.

Definition set_task (runId : string) (t : DeliveryTask) : io unit := update (with_deliveries (insert runId t)).

(** Nobody waits for the task: what it throws is lost. *)
Definition detached (m : io (option Delivery)) : io (option Delivery) := try_catch m (fun _ => mret None).

Definition scheduleControlDelivery (runId : string) (attempt : Z) : io unit :=
  let* active := ask (fun w => controlDeliveryTasks (process w) !! runId) in
  match active with
  | Some _ => mret tt
  | None =>
      let* waiting := detached (deliverControlInbox runId attempt) in
      set_task runId {| dt_waiting := waiting; dt_then := [] |}
  end.

(** The runtime answers the delivery of the run. *)
Definition control_answered (runId : string) (answer : ControlAnswer) : io unit :=
  let* task := ask (fun w => controlDeliveryTasks (process w) !! runId) in
  match task with
  | Some {| dt_waiting := Some d; dt_then := waiters |} =>
      let* waiting := detached (
        let* more := finish_delivery d answer in
        if (more : bool) then deliver_next runId (dv_attempt d) else mret None) in
      set_task runId {| dt_waiting := waiting; dt_then := waiters |}
  | _ => mret tt
  end.

(** The [finally] of a task whose loop has ended, and what waited for it. *)
Definition delivery_ended (runId : string) : io unit :=
  let* task := ask (fun w => controlDeliveryTasks (process w) !! runId) in
  match task with
  | Some {| dt_waiting := None; dt_then := waiters |} =>
      do* update (with_deliveries (delete runId)) in
      each (scheduleControlDelivery runId) waiters
  | _ => mret tt
  end.

Definition runtimeReady (runId : string) (attempt : Z) : io unit :=
  let* active := ask (fun w => controlDeliveryTasks (process w) !! runId) in
  match active with
  | Some t => set_task runId {| dt_waiting := dt_waiting t; dt_then := dt_then t ++ [attempt] |}
  | None => scheduleControlDelivery runId attempt
  end.

Definition enqueueControl (runId : string) (kind : ControlKind) (instruction requestId : string) : io ControlReply :=
  let* stop := ask (fun w => closing (process w)) in
  if (stop : bool) then mret reply_closing else
  do* of_result (assertControlContent instruction) in
  let* now := ask clock in
  let* capacity := ask controlInbox_capacity in
  let* admission := store (Mailbox.enqueueControl runId requestId kind instruction capacity now) in
  let admitted (accepted : bool) (item : string * ControlRow) : io ControlReply :=
    let* event := store (appendEvent runId (if accepted then "control.accepted" else "control.duplicate")
      (JObj [("controlId", JStr item.1); ("requestId", JStr requestId); ("attempt", JInt (q_attempt item.2));
             ("kind", JStr (control_kind_text kind))]) now) in
    do* publish event in
    do* (if accepted then scheduleControlDelivery runId (q_attempt item.2) else mret tt) in
    let* persisted := ask (fun w => getControlItem item.1 (db w)) in
    let* row := of_result (expect persisted (TypeError "persisted is undefined")) in
    mret (reply_item (includes (q_status row) [K_delivered; K_queued; K_delivering]) (item.1, row)) in
  match admission with
  | enq_inactive => mret reply_inactive
  | enq_full => mret reply_full
  | enq_duplicate item => admitted false item
  | enq_accepted item => admitted true item
  end.

Definition steer (runId instruction requestId : string) : io ControlReply := enqueueControl runId steer instruction requestId.

Definition followUp (runId instruction requestId : string) : io ControlReply := enqueueControl runId follow_up instruction requestId.

End dispatcher.
