(* ===== verification/Scheduler.v ===== *)
(** The scheduling of continuations (packages/execution/src/application/
    continuation-scheduler.ts, recovery-coordinator.ts): when a blocked TaskRun
    gets another Attempt, how it is started, and the timer that finds what was
    left waiting. *)
From S2P Require Import Prelude Regex Json TaskPolicy Attempt GateData ExecDb Canonical AttemptRepo RunStore Transcript Continuation PlanGraph PlanStore AuditAlgebra Evidence CompletionGate Uncertainty Supervisor RunView Approval Service Settlement.
Local Open Scope tx_scope.

(** * Signatures of progress *)

(** [s.replace(r, by)] of an expression with the flag g that matches no empty text. *)
Fixpoint replacing (fuel : nat) (r : re) (by_ : string) (p : place) : string :=
  match fuel with
  | O => p.2
  | S fuel' =>
      match ends r p with
      | q :: _ => by_ +:+ replacing fuel' r by_ q
      | [] => match p.2 with
              | String.EmptyString => ""
              | String.String c s => String.String c (replacing fuel' r by_ (is_word c, s))
              end
      end
  end.

Definition replace_all (r : re) (by_ s : string) : string := replacing (S (String.length s)) r by_ (false, s).

Definition hex_dash (c : Ascii.ascii) : bool := is_hex c || Ascii.eqb c (Ascii.ascii_of_nat 45).

(** [/[0-9a-f]{8}-[0-9a-f-]{27,}/], after [toLowerCase] *)
Definition uuid_text : re := Seqs [Times 8 (Chr is_hex); Text "-"; Times 27 (Chr hex_dash); Star (Chr hex_dash)].

Definition long_number : re := Seq (Times 10 (Chr is_digit)) (Star (Chr is_digit)).

Definition some_spaces : re := Seq (Chr is_js_space) Spaces.

Definition normalizeGateText (value : string) : string :=
  trim (replace_all some_spaces " " (replace_all long_number "<number>" (replace_all uuid_text "<id>" (lower value)))).

Definition signature_marker : string := "[progress-signature:".

(** [/\[progress-signature:([0-9a-f]{64})\]\s*$/] *)
Definition signature_text : re := Seqs [Text signature_marker; Times 64 (Chr is_hex); Text "]"; Spaces; End_].

Definition embedded_signature (reason : string) : option string :=
  p ← List.find (fun p => negb (bool_decide (ends signature_text p = []))) (places false reason);
  Some (String.substring (String.length signature_marker) 64 p.2).

(** A provider failure that asks to be retried later. *)
Definition delayed_retry (failure : option RuntimeProviderFailure) : option (RuntimeProviderFailure * Z) :=
  f ← failure;
  if pf_retryable f then match pf_retryAfterMs f with Some ms => if (ms =? 0)%Z then None else Some (f, ms) | None => None end
  else None.

Definition optional_text (o : option string) : json := match o with Some s => JStr s | None => JNull end.

Section scheduler.
Context `{Platform, ContractType}.

Definition continuationReasonSignature (reason : string) : string :=
  match embedded_signature reason with
  | Some s => s
  | None => sha256 (normalizeGateText reason)
  end.

(** [.sort((left, right) => left.localeCompare(right))] *)
Definition sort_by {A} (key : A -> string) : list A -> list A :=
  merge_sort (fun a b => Is_true (localeLe (key a) (key b))).

(** The failures a continuation is for: those of the last completion gate that
    was evaluated, or those of the gate of the store. *)
Definition signature_failures (run : TaskRun) : list json :=
  let all := match List.find (fun g => String.eqb (g_gateType g.2) "completion") (tr_latestGates run) with
    | Some g => map (fun f => (GateData.kind f, GateData.key f, disposition_text (disposition f))) (g_failures g.2)
    | None => map (fun f => (cf_kind f, cf_key f, "local")) (cg_failures (tr_completionGate run))
    end in
  map (fun f => JObj [("kind", JStr f.1.1); ("key", JStr f.1.2); ("disposition", JStr f.2)])
    (sort_by (fun f : string * string * string => f.1.1 +:+ ":" +:+ f.1.2) all).

Definition progress_state (run : TaskRun) : json :=
  JObj [("gateFailures", JArr (signature_failures run));
        ("plan", JArr (map (fun i => JObj [("key", JStr (pi_key i)); ("status", JStr (plan_status_text (pi_status i)));
          ("required", JBool (pi_required i))]) (sort_by pi_key (tr_plan run))));
        ("checks", JArr (map (fun c => JObj [("key", JStr (rc_key c)); ("status", JStr (check_status_text (rc_status c)));
          ("required", JBool (rc_required c)); ("stale", JBool (rc_stale c)); ("sourceOperationId", optional_text (rc_sourceOperationId c));
          ("observedAt", optional_int (rc_observedAt c))]) (sort_by rc_key (tr_checks run))));
        ("artifacts", JArr (map (fun a => JObj [("id", JStr a.1); ("kind", JStr (ar_kind a.2)); ("uri", JStr (ar_uri a.2));
          ("contentHash", JStr (sha256 (ar_content a.2)))]) (sort_by fst (tr_artifacts run))))].

Definition continuationProgressSignature (run : TaskRun) : string := sha256 (stringify (progress_state run)).

(** * Queueing *)

Definition requiresExternalActionApproval (run : TaskRun) : bool :=
  bool_decide (execution_mode run = external_action)
  || existsb (fun a => bool_decide (p_actionType a.2 = execute_external_action)) (tr_approvalRequests run).

Definition max_continuations (w : World) : Z := default 4%Z (maxContinuations (process w)).

Definition last_two {A} (l : list A) : list A := drop (length l - 2) l.

(** Two continuations ended in the state the TaskRun is in now. *)
Definition stalled (run : TaskRun) : bool :=
  let latest := last_two (List.filter (fun n => negb (mentions "[provider-retry:" (n_reason n.2))) (tr_continuations run)) in
  Nat.eqb (length latest) 2
  && forallb (fun n => String.eqb (continuationReasonSignature (n_reason n.2)) (continuationProgressSignature run)) latest.

Definition logged (runId type : string) (data : json) : io unit :=
  let* now := ask clock in
  let* event := store (appendEvent runId type data now) in
  publish event.

Definition say (run : TaskRun) (text : string) : io unit :=
  let* now := ask clock in store (appendMessage (r_sessionId (tr_row run)) "assistant" text now).

(** [scheduleContinuationRecovery] of recovery-coordinator.ts *)
Definition scheduleContinuationRecovery : io unit :=
  do* update (with_recovery_timer None) in
  let* stop := ask (fun w => closing (process w)) in
  if (stop : bool) then mret tt else
  let* wake := ask (fun w => nextContinuationLeaseExpiry (clock w) (db w)) in
  match wake with
  | None => mret tt
  | Some leaseUntil =>
      let* now := ask clock in
      update (with_recovery_timer (Some (Z.min 2147483647 (Z.max 1 (leaseUntil - now + 1)))))
  end.

Definition plural (n : Z) : string := if (n =? 1)%Z then "" else "s".

Definition queue_reason (run : TaskRun) (retry : option (RuntimeProviderFailure * Z)) (notBefore : Z) : string :=
  let newline := String.String (Ascii.ascii_of_nat 10) "" in
  r_blockedReason (tr_row run)
  +:+ match retry with
      | Some (f, _) => newline +:+ "[provider-retry:" +:+ pf_kind f +:+ ":" +:+ pretty notBefore +:+ "]"
      | None => ""
      end
  +:+ newline +:+ signature_marker +:+ continuationProgressSignature run +:+ "]".

Definition queueContinuation (runId : string) (providerFailure : option RuntimeProviderFailure) : io unit :=
  let* run := getRun runId in
  match run with
  | None => mret tt
  | Some run =>
      if negb (bool_decide (r_status (tr_row run) = R_blocked)) then mret tt else
      if requiresExternalActionApproval run then mret tt else
      let retry := delayed_retry providerFailure in
      let signature := continuationProgressSignature run in
      if bool_decide (retry = None) && stalled run then
        do* say run ("Run remains blocked because two continuations produced the same unresolved gate/evidence state without durable progress: "
                     +:+ r_blockedReason (tr_row run)) in
        logged runId "continuation.stalled" (JObj [("reason", JStr "repeated_gate_state"); ("signature", JStr signature)])
      else
      let* limit := ask max_continuations in
      if (limit <=? Z.of_nat (length (tr_continuations run)))%Z then
        do* say run ("Run remains blocked after " +:+ pretty limit +:+ " automatic continuation" +:+ plural limit +:+ ": "
                     +:+ r_blockedReason (tr_row run)) in
        logged runId "continuation.exhausted" (JObj [("reason", JStr "max_continuations"); ("limit", JInt limit)])
      else
      let* now := ask clock in
      let notBefore := match retry with Some (_, ms) => (now + ms)%Z | None => 0%Z end in
      let* queued := store (Continuation.queueContinuation runId (queue_reason run retry notBefore) notBefore now) in
      do* logged runId "continuation.queued"
        (JObj ([("continuationId", JStr queued.1); ("ordinal", JInt (n_ordinal queued.2)); ("reason", JStr (r_blockedReason (tr_row run)));
                ("progressSignature", JStr signature); ("notBefore", JInt notBefore)]
               ++ match retry with
                  | Some (f, ms) => [("providerFailureKind", JStr (pf_kind f)); ("retryAfterMs", JInt ms)]
                  | None => []
                  end)) in
      scheduleContinuationRecovery
  end.

(** * Starting *)

(** What starts a claimed continuation: the prompt and its context (the context
    service), and the executor. *)
Class ContinuationLauncher := {
  cl_prepared : Type;
  cl_prepare : TaskRun -> ContinuationRow -> io cl_prepared;
  cl_launch : TaskRun -> cl_prepared -> string -> io unit;
}.

Context `{ContinuationLauncher}.

Definition continuation_lease_ms : Z := 30000.

(** The claim of the store answers with the TaskRun as it reads it back. *)
Definition claim_hydrated (runId owner : string) (now : Z) : tx GovDb (option (string * ContinuationRow * TaskRun * RunEvent)) :=
  let* claimed := in_exec (claimContinuation runId owner continuation_lease_ms now) in
  match claimed with
  | None => mret None
  | Some (cid, row, _, event) =>
      let* d := gets id in
      let* run := lift (hydrateRun runId now d) in
      let* run := present run (TypeError "run is undefined") in
      mret (Some (cid, row, run, event))
  end.

(** [repairTranscript] of recovery-coordinator.ts *)
Definition repair (runId : string) (reason : RepairReason) : io (list (string * string)) :=
  let* now := ask clock in
  let* repaired := store (repairTranscript runId reason now) in
  do* (if bool_decide (repaired = []) then mret tt
       else logged runId "transcript.repaired" (JObj [("reason", JStr (repair_text reason));
         ("repaired", JArr (map (fun c => JObj [("toolCallId", JStr c.1); ("toolName", JStr c.2)]) repaired))])) in
  mret repaired.

(** The continuation is claimed; its preparation fails safely. The timer that
    renews the lease meanwhile runs on its own. *)
Definition prepare_and_launch (runId cid : string) (row : ContinuationRow) (run : TaskRun) (event : RunEvent) : io unit :=
  try_catch (
    let* prepared := cl_prepare run row in
    do* publish event in
    cl_launch run prepared cid) (fun error =>
    let message := "Continuation preparation failed safely: " +:+ thrown_message error in
    let* now := ask clock in
    let* owner := ask (fun w => continuationOwner (process w)) in
    do* store (releaseContinuationLease cid owner message now) in
    do* logged runId "continuation.preparation.failed"
      (JObj [("continuationId", JStr cid); ("attempt", JInt (r_attempt (tr_row run))); ("error", JStr message)]) in
    scheduleContinuationRecovery).

Definition startQueuedContinuation (runId : string) : io unit :=
  let* stop := ask (fun w => closing (process w)) in
  if (stop : bool) then mret tt else
  let* running := ask (fun w => bool_decide (runId ∈ runtimes (process w))) in
  if (running : bool) then mret tt else
  let* current := getRun runId in
  match (match current with Some run => if requiresExternalActionApproval run then Some run else None | None => None end) with
  | Some run =>
      let* now := ask clock in
      do* store (cancelQueuedContinuations runId "External-action continuation requires a fresh Attempt-bound approval" now) in
      if existsb (fun n => bool_decide (n_status n.2 = N_queued)) (tr_continuations run)
      then logged runId "continuation.stalled"
        (JObj [("reason", JStr "external_action_reapproval_required"); ("attempt", JInt (r_attempt (tr_row run)))])
      else mret tt
  | None =>
      do* repair runId RR_continuation in
      let* now := ask clock in
      let* owner := ask (fun w => continuationOwner (process w)) in
      let* claimed := commit (claim_hydrated runId owner now) in
      match claimed with
      | None => mret tt
      | Some (cid, row, run, event) =>
          do* scheduleContinuationRecovery in
          prepare_and_launch runId cid row run event
      end
  end.

(** * Cancelling *)

(** [runtimeRegistry.abortRuntime]; the controllers of preparations are left out. *)
Class RuntimeControlPort := { rc_abort : string -> io unit }.

Definition cancel `{RuntimeControlPort} (runId : string) : io bool :=
  let* running := ask (fun w => bool_decide (runId ∈ runtimes (process w))) in
  let* active := ask (fun w => getActiveAttempt runId (db w)) in
  match active with
  | None => mret false
  | Some a =>
      let* now := ask clock in
      let* cancellation := try_catch (let* c := store (cancelAttempt (a_id a) "Cancelled by user" now) in mret (Some c))
        (fun _ => mret None) in
      match cancellation with
      | Some (_, Some event, true) =>
          do* publish event in
          do* (if (running : bool) then rc_abort runId else mret tt) in
          mret true
      | _ => mret false
      end
  end.

(** * Recovering *)

Definition default_max_recoveries : Z := 2.

(** The reconciliation of the first recovery of a process. *)
Definition reconcile_restart : io unit :=
  do* update (fun s => with_flags true (initialized s) (backgroundWorkStarted s) s) in
  let* now := ask clock in
  let* _ := store (reconcileSupervisorDecisionStatuses now) in
  let* pending := ask (fun w => listSupervisorContinuationsNeedingReconcile (db w)) in
  do* each (fun p => queueContinuation p.1 None) pending in
  let* now := ask clock in
  let* _ := store (queueSafeCrashRecoveryContinuations default_max_recoveries (fun _ => now)) in
  mret tt.

(** The TaskRuns it returns are the ones whose continuation is started on the
    next turn of the event loop ([setImmediate]). *)
Definition recoverContinuations : io (list string) :=
  let* stop := ask (fun w => closing (process w)) in
  if (stop : bool) then mret [] else
  do* update (with_recovery_timer None) in
  let* reconciled := ask (fun w => supervisorRestartReconciled (process w)) in
  do* (if (reconciled : bool) then mret tt else reconcile_restart) in
  let* now := ask clock in
  let* recovered := store (recoverContinuationsAfterRestart now) in
  let runIds := dedup (map (fun c : string * string * Z => c.1.2) recovered) in
  do* each (fun runId => logged runId "continuation.recovered"
    (JObj [("reason", JStr "lease_expired_or_queued");
           ("continuations", JArr (map (fun c : string * string * Z => JObj [("id", JStr c.1.1); ("ordinal", JInt c.2)])
             (List.filter (fun c : string * string * Z => String.eqb c.1.2 runId) recovered)))])) runIds in
  do* scheduleContinuationRecovery in
  mret runIds.

(** A turn of the timer: what is recovered is started. *)
Definition recovery_turn : io unit :=
  let* runIds := recoverContinuations in each startQueuedContinuation runIds.

End scheduler.
