(* ===== verification/Executor.v ===== *)
(** The execution of an Attempt (packages/execution/src/application/
    attempt-executor.ts, post-attempt-finalizer.ts, runtime-factory-failure.ts,
    runtime-initialization-failure.ts, runtime-model-selection.ts,
    runtime-registry.ts and execution-lifecycle-service.ts): the launch under a
    new lease, the run of the runtime with its watchdogs, and its end, which
    gives everything back. *)
From S2P Require Import Prelude Json TaskPolicy Attempt GateData ExecDb Canonical AttemptRepo RunStore Transcript Continuation Transition Mailbox RuntimeMutation PlanGraph PlanStore AuditAlgebra Evidence CompletionGate Supervisor RunView Approval Service Settlement EventHub Dispatcher Scheduler.
Local Open Scope tx_scope.

(** * runtime-model-selection.ts *)

(** The members the selection reads; [ms_reasoning] is [Some false] only for a
    model that declares it has none. *)
Record RuntimeModelSpec := { ms_id : string; ms_reasoning : option bool }.

Record RuntimeModelSelection := { sel_model : option RuntimeModelSpec; sel_fallbackModels : list RuntimeModelSpec; sel_reasoningEffort : string }.

Definition selectRuntimeModel (modelId reasoningEffort : string) (primary : option RuntimeModelSpec) (fallbacks : list RuntimeModelSpec)
    : result RuntimeModelSelection :=
  let configured := List.filter (fun m => negb (blank (ms_id m))) (option_list primary ++ fallbacks) in
  let requestedModelId := trim modelId in
  do* check (negb (String.eqb requestedModelId "")) (Error "TaskRun modelId is required") in
  if bool_decide (length configured = 0) then
    mret {| sel_model := None; sel_fallbackModels := []; sel_reasoningEffort := reasoningEffort |}
  else
    let* selected := expect (List.find (fun m => String.eqb (ms_id m) requestedModelId) configured)
      (Error ("Model is not allowed: " +:+ requestedModelId)) in
    mret {| sel_model := Some selected;
            sel_fallbackModels := List.filter (fun m => negb (String.eqb (ms_id m) (ms_id selected))) configured;
            sel_reasoningEffort := if bool_decide (ms_reasoning selected = Some false) then "off" else reasoningEffort |}.

(** * The collaborators *)

Record LaunchOptions := { lo_initialize : bool; lo_inboxItemId : option string; lo_retry : bool }.

(** An Attempt runtime with the calls the executor makes. *)
Record HostedRuntime := { rt_port : AttemptRuntimePort; rt_initialize : option (io unit); rt_abort : io unit; rt_dispose : io unit }.

(** The host of the tools and the factory of the runtimes; what follows an
    Attempt outside of the execution. The start of a queued continuation is a
    port, since it launches Attempts itself. *)
Class ExecutorPorts := {
  xp_createHost : AttemptExecutionToken -> io unit;
  xp_createRuntime : TaskRun -> AttemptExecutionToken -> io HostedRuntime;
  xp_disposeHost : io unit;
  xp_attemptFinalized : TaskRun -> bool -> io unit;
  xp_continuationStarted : string -> io unit;
  xp_attemptLaunchFailed : string -> string -> string -> io unit;
  xp_startQueuedContinuation : string -> io unit;
  xp_reviewCheckpoint : string -> RunEvent -> io (option DecisionRow);
}.

Section executor.
Context `{Platform, ContractType, SupervisorPort, RecoveryControlPort, ExecutorPorts}.
Context (takes_follow_up : string -> bool) (execution_lease_ms : Z).

(** * post-attempt-finalizer.ts *)

(** [stop] is what [closing] was when the finalizer was called. *)
Definition reportFailure (stop : bool) (run : TaskRun) (phase : string) (error : thrown) : io unit :=
  let runId := r_id (tr_row run) in
  if stop then mret tt else
  let* current := getRun runId in
  match current with
  | None => mret tt
  | Some _ =>
      try_catch (logged runId "run.updated" (JObj [("action", JStr "post_attempt_failed"); ("phase", JStr phase);
        ("error", JStr (thrown_message error))])) (fun _ => mret tt)
  end.

Definition runPhase (stop : bool) (run : TaskRun) (phase : string) (operation : io unit) : io bool :=
  try_catch (do* operation in mret true) (fun error => do* reportFailure stop run phase error in mret false).

Definition finalizePostAttempt (run : TaskRun) : io unit :=
  let runId := r_id (tr_row run) in
  let* stop := ask (fun w => closing (process w)) in
  let* _ := runPhase stop run "attempt_finalized" (xp_attemptFinalized run stop) in
  if (stop : bool) then mret tt else
  let* started := runPhase stop run "continuation_start" (xp_startQueuedContinuation runId) in
  if negb (started : bool) then mret tt else
  let* _ := runPhase stop run "continuation_started" (xp_continuationStarted runId) in mret tt.

(** * Failures before the prompt *)

Definition settleRuntimeInitializationFailure (run : TaskRun) (token : AttemptExecutionToken) (options : LaunchOptions) (error : thrown)
    : io unit :=
  let runId := r_id (tr_row run) in
  let message := thrown_message error in
  let* current := getRun runId in
  let* stop := ask (fun w => closing (process w)) in
  match current with
  | Some c =>
      if (stop : bool) || negb (bool_decide (r_status (tr_row c) = R_running)) || negb (Z.eqb (r_attempt (tr_row c)) (tk_ordinal token))
      then mret tt else
      let* transition := failRuntimeTaskRun token message
        ([("error", JStr message); ("reason", JStr "runtime_initialization_failed"); ("stage", JStr "runtime_initialize");
          ("retryable", JBool true)]
         ++ match truthy_text (lo_inboxItemId options) with Some i => [("inboxItemId", JStr i)] | None => [] end) in
      do* publishTransitionOutcome transition in
      match truthy_text (lo_inboxItemId options) with
      | Some inboxItemId => xp_attemptLaunchFailed inboxItemId runId message
      | None => mret tt
      end
  | None => mret tt
  end.

Definition forget_checkpoint (runId : string) : io unit :=
  do* update (with_drafts (delete runId)) in
  do* update (with_tokens (delete runId)) in
  update (with_transcript_seq (delete runId)).

Definition release_lease (token : AttemptExecutionToken) : io unit :=
  let* now := ask clock in
  let* _ := store (releaseExecutionLease (tk_attemptId token) (tk_ownerId token) (tk_leaseToken token) (tk_executionFence token) now) in
  mret tt.

Definition owns_continuation (continuationId : option string) (w : World) : bool :=
  match truthy_text continuationId with
  | Some c => ownsContinuationLease c (continuationOwner (process w)) (clock w) (db w)
  | None => false
  end.

Definition close_continuation (continuationId : option string) (status : ContinuationStatus) (error : string) : io unit :=
  let* now := ask clock in
  let* owner := ask (fun w => continuationOwner (process w)) in
  do* store (updateContinuation (default "" continuationId) status error (Some owner) now) in mret tt.

Definition settleRuntimeFactoryFailure (run : TaskRun) (token : AttemptExecutionToken) (continuationId : option string)
    (options : LaunchOptions) (error : thrown) : io unit :=
  do* forget_checkpoint (r_id (tr_row run)) in
  try_finally (settleRuntimeInitializationFailure run token options error)
    (let* owned := ask (owns_continuation continuationId) in
     do* (if (owned : bool) then close_continuation continuationId N_failed (thrown_message error) else mret tt) in
     release_lease token).

(** * The launch *)

(** The lease of the Attempt, and the token that names it. *)
Definition acquire_token (run : TaskRun) : io AttemptExecutionToken :=
  let runId := r_id (tr_row run) in
  let ordinal := r_attempt (tr_row run) in
  let* found := ask (fun w => getAttemptForRun runId ordinal (db w)) in
  let unavailable := Error ("Active Attempt " +:+ runId +:+ ":" +:+ pretty ordinal +:+ " is unavailable") in
  let* attempt := of_result (expect found unavailable) in
  do* of_result (check (a_active attempt && bool_decide (a_status attempt = A_running)) unavailable) in
  let* now := ask clock in
  let* owner := ask (fun w => executionOwner (process w)) in
  let* lease := store (acquireExecutionLease (a_id attempt) (a_version attempt) owner execution_lease_ms now) in
  mret {| tk_runId := runId; tk_attemptId := a_id attempt; tk_ordinal := ordinal; tk_expectedVersion := a_version attempt;
          tk_ownerId := owner; tk_leaseToken := l_token lease; tk_executionFence := l_fence lease |}.

(** The draft of the checkpoint, saved at once or the launch is undone. *)
Definition open_checkpoint (run : TaskRun) (token : AttemptExecutionToken) : io unit :=
  let runId := r_id (tr_row run) in
  let* current := getRun runId in
  let base := default run current in
  do* update (with_drafts (insert runId
    {| dr_attempt := r_attempt (tr_row run); dr_active := true; dr_assistantPartial := ""; dr_currentTool := None;
       dr_lastEventSeq := r_lastEventSeq (tr_row base) |})) in
  do* update (with_tokens (insert runId token)) in
  let* seq := ask (fun w => match tr_checkpoint base with
    | Some k => k_lastTranscriptSeq k
    | None => getLastTranscriptSeq runId (db w)
    end) in
  do* update (with_transcript_seq (insert runId seq)) in
  try_catch (flushCheckpoint runId) (fun error =>
    do* forget_checkpoint runId in do* release_lease token in raise error).

(** What a launch leaves to run: nothing, the end of a launch whose runtime was
    not created, or an execution. *)
Inductive Launched :=
  | Not_launched
  | Launch_failed (token : AttemptExecutionToken)
  | Launch_running (token : AttemptExecutionToken) (runtime : HostedRuntime).

Definition launch (run : TaskRun) (continuationId : option string) (options : LaunchOptions) : io Launched :=
  let runId := r_id (tr_row run) in
  let* stop := ask (fun w => closing (process w)) in
  if (stop : bool) then mret Not_launched else
  let* token := acquire_token run in
  do* open_checkpoint run token in
  do* xp_createHost token in
  let* created := try_catch (let* runtime := xp_createRuntime run token in mret (Some runtime)) (fun error =>
    do* settleRuntimeFactoryFailure run token continuationId options error in mret None) in
  do* update (with_executions (insert runId (tk_attemptId token))) in
  match created with
  | None => mret (Launch_failed token)
  | Some runtime =>
      do* update (with_runtimes (fun rs => {[runId]} ∪ rs)) in
      do* runtimeReady takes_follow_up runId (r_attempt (tr_row run)) in
      mret (Launch_running token runtime)
  end.

(** * The execution *)

Definition data_of_initialization (options : LaunchOptions) (token : AttemptExecutionToken) : json :=
  JObj (match lo_inboxItemId options with Some i => [("inboxItemId", JStr i)] | None => [] end
        ++ [("retry", JBool (lo_retry options)); ("attempt", JInt (tk_ordinal token))]).

(** Whether the runtime may be prompted. *)
Definition initialize_runtime (run : TaskRun) (token : AttemptExecutionToken) (runtime : HostedRuntime) (options : LaunchOptions)
    : io bool :=
  match (if lo_initialize options then rt_initialize runtime else None) with
  | None => mret true
  | Some init =>
      try_catch (
        do* init in
        let* now := ask clock in
        let* event := store (fencedAppendEvent (fence_of token) now "runtime.initialized" (data_of_initialization options token) now) in
        do* publish event in
        mret true) (fun error =>
        do* settleRuntimeInitializationFailure run token options error in mret false)
  end.

Definition continuation_result (status : option RunStatus) : ContinuationStatus :=
  match status with
  | Some R_completed => N_completed
  | Some R_blocked => N_blocked
  | Some R_cancelled => N_cancelled
  | _ => N_failed
  end.

(** The continuation of the Attempt is closed, the next one queued. *)
Definition after_settlement (runId : string) (runtime : HostedRuntime) (continuationId : option string) (again : bool) : io unit :=
  let* stop := ask (fun w => closing (process w)) in
  if (stop : bool) then mret tt else
  let next := if again then queueContinuation runId (getProviderFailure (rt_port runtime)) else mret tt in
  match truthy_text continuationId with
  | None => next
  | Some _ =>
      let* owned := ask (owns_continuation continuationId) in
      if negb (owned : bool) then mret tt else
      let* current := getRun runId in
      let status := r_status ∘ tr_row <$> current in
      let reason := match current with
        | Some c => if bool_decide (status = Some R_failed) then r_blockedReason (tr_row c) else ""
        | None => ""
        end in
      do* close_continuation continuationId (continuation_result status) reason in
      next
  end.

(** The [finally] of an execution: what the Attempt held is given back, and the
    services around it are told. *)
Definition execution_finished (run : TaskRun) (token : AttemptExecutionToken) (runtime : HostedRuntime) : io unit :=
  let runId := r_id (tr_row run) in
  let* current := getRun runId in
  do* (if bool_decide (r_status ∘ tr_row <$> current = Some R_cancelled)
       then let* _ := repair runId Transcript.RR_cancelled in mret tt else mret tt) in
  let* disposed := try_catch (do* rt_dispose runtime in mret true) (fun _ => mret false) in
  do* try_catch xp_disposeHost (fun _ => mret tt) in
  do* (if (disposed : bool) then update (with_runtimes (fun rs => rs ∖ {[runId]})) else mret tt) in
  do* update (with_checkpoint_timers (fun ts => ts ∖ {[runId]})) in
  do* forget_checkpoint runId in
  do* release_lease token in
  do* finalizePostAttempt run in
  update (with_executions (fun es => if bool_decide (es !! runId = Some (tk_attemptId token)) then delete runId es else es)).

Definition execution (run : TaskRun) (token : AttemptExecutionToken) (runtime : HostedRuntime) (text : string)
    (continuationId : option string) (options : LaunchOptions) : io unit :=
  let runId := r_id (tr_row run) in
  try_finally (
    try_catch (
      let* ready := initialize_runtime run token runtime options in
      let* again := (if (ready : bool) then execute runId token (rt_port runtime) text continuationId else mret false) in
      after_settlement runId runtime continuationId again)
      (settleAttemptExecutionFailure run token continuationId))
    (execution_finished run token runtime).

(** What is left of a launch whose runtime was not created. *)
Definition failed_launch (run : TaskRun) (token : AttemptExecutionToken) : io unit :=
  do* try_catch xp_disposeHost (fun _ => mret tt) in
  try_finally (finalizePostAttempt run)
    (update (with_executions (fun es =>
      if bool_decide (es !! r_id (tr_row run) = Some (tk_attemptId token)) then delete (r_id (tr_row run)) es else es))).

(** * The watchdogs *)

(** [runtimeRegistry.abortRuntime] *)
Definition abortRuntime (runtime : HostedRuntime) (runId : string) : io unit :=
  try_catch (rt_abort runtime) (fun error =>
    let* current := getRun runId in
    match current with
    | Some _ => logged runId "runtime.abort.failed" (JObj [("error", JStr (thrown_message error))])
    | None => mret tt
    end).

Inductive TimeoutReason := idle_timeout | hard_timeout.

Definition timeout_text (r : TimeoutReason) : string := match r with idle_timeout => "idle_timeout" | hard_timeout => "hard_timeout" end.

Definition timeout_message (reason : TimeoutReason) (limitMs : Z) : string :=
  match reason with
  | idle_timeout => "Run idle for " +:+ pretty limitMs +:+ "ms without progress"
  | hard_timeout => "Run exceeded " +:+ pretty limitMs +:+ "ms absolute hard timeout"
  end.

Definition failTimeout (run : TaskRun) (token : AttemptExecutionToken) (runtime : HostedRuntime) (reason : TimeoutReason) (limitMs : Z)
    : io unit :=
  let runId := r_id (tr_row run) in
  let* current := getRun runId in
  match current with
  | Some c =>
      if negb (bool_decide (r_status (tr_row c) = R_running) && Z.eqb (r_attempt (tr_row c)) (tk_ordinal token)) then mret tt else
      do* abortRuntime runtime runId in
      let message := timeout_message reason limitMs in
      let* attempt := ask (fun w => getAttempt (tk_attemptId token) (db w)) in
      if bool_decide (a_status <$> attempt = Some A_settling) then
        let* _ := recoverInterrupted token message None in mret tt
      else
        let* transition := failRuntimeTaskRun token message
          [("error", JStr message); ("reason", JStr (timeout_text reason)); ("limitMs", JInt limitMs)] in
        let* now := ask clock in
        do* store (appendMessage (r_sessionId (tr_row run)) "assistant" ("Run failed: " +:+ message) now) in
        publishTransitionOutcome transition
  | None => mret tt
  end.

(** The idle watchdog of an execution: whether its timer is set, and what it knows. *)
Record IdleWatch := { iw_lastActivityAt : Z; iw_settled : bool; iw_timer : bool }.

Definition touchActivity (idleTimeoutMs now : Z) (iw : IdleWatch) : IdleWatch :=
  if Z.eqb idleTimeoutMs 0 || iw_settled iw then iw else {| iw_lastActivityAt := now; iw_settled := iw_settled iw; iw_timer := true |}.

Definition stopIdleWatchdog (iw : IdleWatch) : IdleWatch :=
  {| iw_lastActivityAt := iw_lastActivityAt iw; iw_settled := true; iw_timer := false |}.

Definition checkIdle (run : TaskRun) (token : AttemptExecutionToken) (runtime : HostedRuntime) (idleTimeoutMs : Z) (iw : IdleWatch)
    : io IdleWatch :=
  let idle := {| iw_lastActivityAt := iw_lastActivityAt iw; iw_settled := iw_settled iw; iw_timer := false |} in
  let* current := (if iw_settled iw then mret None else getRun (r_id (tr_row run))) in
  if negb (bool_decide (r_status ∘ tr_row <$> current = Some R_running)) then mret idle else
  let* now := ask clock in
  if (0 <? idleTimeoutMs - (now - iw_lastActivityAt iw))%Z
  then mret {| iw_lastActivityAt := iw_lastActivityAt iw; iw_settled := iw_settled iw; iw_timer := true |}
  else do* failTimeout run token runtime idle_timeout idleTimeoutMs in mret idle.

(** A beat of the execution lease; whether the timer goes on. *)
Definition execution_heartbeat (run : TaskRun) (token : AttemptExecutionToken) (runtime : HostedRuntime) : io bool :=
  try_catch (
    let* now := ask clock in
    let* _ := store (renewExecutionLease (tk_attemptId token) (tk_ownerId token) (tk_leaseToken token) (tk_executionFence token)
      execution_lease_ms now) in
    mret true) (fun error =>
    let* _ := recoverInterrupted token ("Execution lease heartbeat failed: " +:+ thrown_message error) None in
    do* abortRuntime runtime (r_id (tr_row run)) in
    mret false).

(** A beat of the lease of the continuation. *)
Definition continuation_heartbeat (run : TaskRun) (token : AttemptExecutionToken) (runtime : HostedRuntime) (continuationId : string)
    : io bool :=
  let runId := r_id (tr_row run) in
  let* now := ask clock in
  let* owner := ask (fun w => continuationOwner (process w)) in
  let* renewed := store (renewContinuationLease continuationId owner 30000 now) in
  if (renewed : bool) then mret true else
  let* current := getRun runId in
  do* (match current with
       | Some c =>
           if bool_decide (r_status (tr_row c) = R_running) && Z.eqb (r_attempt (tr_row c)) (tk_ordinal token)
           then logged runId "continuation.lease.lost" (JObj [("continuationId", JStr continuationId);
             ("attempt", JInt (tk_ordinal token)); ("leaseOwner", JStr owner)])
           else mret tt
       | None => mret tt
       end) in
  do* abortRuntime runtime runId in
  do* rp_recoverContinuations in
  mret false.

(** * The events of the runtime *)

Definition reply_text (r : ControlReply) : string :=
  match r with
  | reply_closing => "closing"
  | reply_inactive => "inactive"
  | reply_full => "full"
  | reply_item accepted _ => if accepted then "accepted" else "inactive"
  end.

(** The inbox has answered to a steer of the Supervisor. *)
Definition steer_answered (token : AttemptExecutionToken) (decision : DecisionRow) (reply : ControlReply) : io unit :=
  let* current := getRun (tk_runId token) in
  let* active := ask (fun w => getActiveAttempt (tk_runId token) (db w)) in
  let valid := match current with
    | Some c => bool_decide (r_status (tr_row c) = R_running) && Z.eqb (r_attempt (tr_row c)) (d_attempt decision)
                && (d_checkpointSeq decision <=? r_lastEventSeq (tr_row c))%Z && bool_decide (a_id <$> active = Some (tk_attemptId token))
    | None => false
    end in
  if negb valid then sp_markExecuted (d_id decision) D_superseded "" else
  let status := reply_text reply in
  try_catch (
    let* now := ask clock in
    let* event := store (completeSupervisorDecision (fence_of token) now (d_id decision)
      (if String.eqb status "accepted" then D_executed else D_failed) status
      [("action", JStr (action_text (d_action decision))); ("reasonCode", JStr (d_reasonCode decision)); ("status", JStr status)] now) in
    publish event) (fun _ => mret tt).

(** The sink of the runtime of the Attempt; nobody waits for the steer. *)
Definition onEvent (token : AttemptExecutionToken) (event : RunEvent) : io unit :=
  do* updateCheckpoint event in
  do* publish event in
  let* decision := xp_reviewCheckpoint (tk_runId token) event in
  match decision with
  | Some x =>
      if bool_decide (d_action x = S_steer) then
        try_catch (
          let* reply := enqueueControl takes_follow_up (tk_runId token) ExecDb.steer (d_instruction x) ("supervisor:" +:+ d_id x) in
          steer_answered token x reply) (fun _ => mret tt)
      else mret tt
  | None => mret tt
  end.

(** * runtime-registry.ts and execution-lifecycle-service.ts *)

(** [quiesce] disposes of the runtimes and joins the other tasks: it answers
    with the number of disposers that failed. *)
Definition closeRuntimes (quiesce : io nat) : io (list (string * string * Z)) :=
  do* update (with_closing true) in
  do* update (with_recovery_timer None) in
  do* update (with_checkpoint_timers (fun _ => ∅)) in
  let* drafts := ask (fun w => map fst (map_to_list (checkpointDrafts (process w)))) in
  do* each (fun runId => try_catch (flushCheckpoint runId) (fun _ => mret tt)) drafts in
  do* update (with_tokens (fun _ => ∅)) in
  do* update (with_transcript_seq (fun _ => ∅)) in
  let* failures := quiesce in
  do* (if Nat.ltb 0 failures then raise (Exn (NamedError "AggregateError" "Runtime shutdown failed to reach quiescence")) else mret tt) in
  do* update (with_deliveries (fun _ => ∅)) in
  do* update (with_executions (fun _ => ∅)) in
  do* update (with_runtimes (fun _ => ∅)) in
  let* now := ask clock in
  let* owner := ask (fun w => continuationOwner (process w)) in
  let* released := store (releaseContinuationLeases owner "Continuation owner stopped" now) in
  let* _ := store (transitionSystem (JObj [("kind", JStr "shutdown_interrupt_active")])
    (JObj [("kind", JStr "lifecycle_interrupt"); ("component", JStr "runtime_registry"); ("phase", JStr "shutdown")]) now) in
  mret released.

Definition compact_failed (runId : string) (error : thrown) : io unit :=
  logged runId "context.compaction.failed" (JObj [("error", JStr (thrown_message error))]).

Definition compact (runId : string) (compaction : option (io unit)) : io string :=
  let* running := ask (fun w => bool_decide (runId ∈ runtimes (process w))) in
  match (if (running : bool) then compaction else None) with
  | None => mret "inactive"
  | Some c => try_catch (do* c in mret "completed") (fun error => do* compact_failed runId error in mret "failed")
  end.

Definition initialize : io unit :=
  let* done := ask (fun w => initialized (process w)) in
  if (done : bool) then mret tt else
  let* stop := ask (fun w => closing (process w)) in
  do* (if (stop : bool) then raise (Exn (Error "Service is shutting down")) else mret tt) in
  let* now := ask clock in
  let* _ := store (transitionSystem (JObj [("kind", JStr "startup_interrupt_active")])
    (JObj [("kind", JStr "lifecycle_interrupt"); ("component", JStr "execution_lifecycle_service"); ("phase", JStr "startup")]) now) in
  update (fun s => with_flags (supervisorRestartReconciled s) true (backgroundWorkStarted s) s).

Definition startBackgroundWork (start : io unit) : io unit :=
  let* done := ask (fun w => backgroundWorkStarted (process w)) in
  if (done : bool) then mret tt else
  let* stop := ask (fun w => closing (process w)) in
  do* (if (stop : bool) then raise (Exn (Error "Service is shutting down")) else mret tt) in
  do* initialize in
  do* start in
  update (fun s => with_flags (supervisorRestartReconciled s) (initialized s) true s).

End executor.
