(* ===== verification/ApprovalFacts.v ===== *)
(** What approvals guarantee: a request stays bound to the operation it was made
    for, its decision is final, and every receipt of an external action stands
    on an approval an operator gave for exactly that Attempt. *)
From S2P Require Import Prelude Json Attempt GateData ExecDb Canonical RunStore PlanStore GateFacts Approval Demo.
Local Open Scope tx_scope.

Section facts.
Context `{Platform}.

(** * Schedules *)

(** A call that returned, or any transaction that leaves approvals and receipts alone. *)
Inductive approval_step (d d' : ApprovalDb) : Prop :=
  | step_ensure runId decisionId reason options ts r :
      in_ap (ensureApprovalRequest runId decisionId reason options ts) d = Ok (r, d') -> approval_step d d'
  | step_resolve approvalId approved by_ resolution ts r :
      in_ap (resolveApprovalRequest approvalId approved by_ resolution ts) d = Ok (r, d') -> approval_step d d'
  | step_activate runId attempt v ts r :
      activateExternalActionAuthorization runId attempt v ts d = Ok (r, d') -> approval_step d d'
  | step_aside : approvals (ap_db d') = approvals (ap_db d) -> receipts d' = receipts d -> approval_step d d'.

(** * What a row says *)

(** The life of a request: pending, approved or rejected unused, or approved and used. *)
Definition used_as_decided (p : ApprovalRow) : Prop :=
  match p_status p with
  | Ap_pending => p_usedCount p = Some 0%Z /\ p_resolvedAt p = None
  | Ap_approved | Ap_rejected => p_usedCount p = Some 0%Z /\ is_Some (p_resolvedAt p)
  | Ap_consumed => p_usedCount p = Some 1%Z /\ is_Some (p_resolvedAt p)
  | Ap_superseded => False
  end.

(** The request is one-time and its digest binds its operation. *)
Record bound_request (approvalId : string) (p : ApprovalRow) : Prop := {
  br_life : used_as_decided p;
  br_once : p_reuseMode p = Some one_time /\ p_maxUses p = Some 1%Z /\ p_expiresAt p = None;
  br_digest : exists session o digest,
    mapRunApprovalOperation approvalId (p_runId p) (p_decisionId p) (p_actionType p) (p_targetType p) (p_targetId p)
      (p_metadata p) session = Ok (o, digest) /\ p_operationDigest p = Some digest;
}.

(** A receipt stands on a used approval of an external action of the Attempt it names. *)
Definition accountable (d : ApprovalDb) (r : ReceiptRow) : Prop :=
  exists p n v, approvals (ap_db d) !! rt_approvalId r = Some p /\ p_status p = Ap_consumed
    /\ p_actionType p = execute_external_action /\ p_approvedAttempt p = Some n
    /\ p_operationDigest p = Some (rt_operationDigest r) /\ rt_outcome r = "allow"
    /\ rt_details r = activation_details (p_runId p) n v /\ rt_operationId r = av_operationId v.

Record approvals_ok (d : ApprovalDb) : Prop := {
  ok_requests : forall i p, approvals (ap_db d) !! i = Some p -> bound_request i p;
  ok_pending : forall i j p q, approvals (ap_db d) !! i = Some p -> approvals (ap_db d) !! j = Some q ->
    p_runId p = p_runId q -> p_status p = Ap_pending -> p_status q = Ap_pending -> i = j;
  ok_receipts : forall i r, receipts d !! i = Some r -> accountable d r;
  ok_once : forall i j r s, receipts d !! i = Some r -> receipts d !! j = Some s ->
    rt_operationId r = rt_operationId s -> i = j;
}.

(** * The calls *)

Lemma in_ap_ok {A} (m : tx Db A) d a d' : in_ap m d = Ok (a, d') -> m (ap_db d) = Ok (a, ap_db d') /\ receipts d' = receipts d.
Proof. unfold in_ap. destruct (m (ap_db d)) as [[x e]|]; [|done]. by intros [= <- <-]. Qed.

Lemma find_approval_ok p d i row : find_approval p d = Some (i, row) -> approvals d !! i = Some row /\ p row = true.
Proof.
  unfold find_approval. intros Hf. apply List.find_some in Hf as [Hin Hp]. split; [|done].
  by apply elem_of_map_to_list, list_elem_of_In.
Qed.

Lemma exists_where_false `{Countable K} {R} (p : K -> R -> bool) (m : gmap K R) i x :
  exists_where p m = false -> m !! i = Some x -> p i x = false.
Proof.
  unfold exists_where. intros He Hx. apply negb_false_iff, bool_decide_eq_true in He.
  destruct (p i x) eqn:E; [|done]. exfalso.
  assert (filter (fun ix => p ix.1 ix.2 = true) m !! i = Some x) as Hl by (by apply map_lookup_filter_Some).
  rewrite He in Hl. by rewrite lookup_empty in Hl.
Qed.

Lemma insert_approval_ok i row d w d' :
  insert_approval i row d = Ok (w, d') ->
  approvals d !! i = None /\ d' = set_approvals (insert i row) d
  /\ (p_status row = Ap_pending -> forall j q, approvals d !! j = Some q -> p_runId q = p_runId row -> p_status q <> Ap_pending).
Proof.
  unfold insert_approval. intros Hins. tx_inv Hins. bool_prop. split; [done|]. split; [done|].
  intros Hst j q Hj Hr Hq. match goal with E : _ && _ = false |- _ => rewrite Hst in E; cbn [bool_decide andb] in E; rename E into Hp end.
  apply (exists_where_false _ _ _ _ Hp) in Hj. unfold pending_row in Hj. by rewrite Hr, Hq, String.eqb_refl in Hj.
Qed.

Lemma insert_receipt_ok i row d w d' :
  insert_receipt i row d = Ok (w, d') ->
  receipts d !! i = None /\ d' = {| ap_db := ap_db d; receipts := <[i := row]> (receipts d) |}
  /\ (rt_outcome row = "allow" -> forall j t, receipts d !! j = Some t -> rt_outcome t = "allow" -> rt_operationId t <> rt_operationId row).
Proof.
  unfold insert_receipt. intros Hins. tx_inv Hins. bool_prop. split; [done|]. split; [done|].
  intros Ho j t Hj Ht Hop. match goal with E : _ && _ = false |- _ => rewrite Ho in E; cbn [String.eqb andb] in E; rename E into Hp end.
  apply (exists_where_false _ _ _ _ Hp) in Hj. by rewrite Hop, Ht, !String.eqb_refl in Hj.
Qed.

Lemma ensure_ok runId decisionId reason options ts d i row d' :
  ensureApprovalRequest runId decisionId reason options ts d = Ok ((i, row), d') ->
  approvals d' = approvals d
  \/ approvals d !! i = None /\ approvals d' = <[i := row]> (approvals d) /\ bound_request i row
     /\ forall j q, approvals d !! j = Some q -> p_runId q = p_runId row -> p_status q <> Ap_pending.
Proof.
  unfold ensureApprovalRequest. intros Hs. apply tx_bind_ok in Hs as (d0 & d1 & [-> ->]%gets_id_ok & Hs).
  destruct (find_approval _ _) as [[j q]|]; [left; by apply mret_ok in Hs as [_ ->]|right].
  apply tx_bind_ok in Hs as (uid & d1 & [-> ->]%randomUUID_ok & Hs). apply tx_bind_ok in Hs as ([o digest] & d2 & [Hmap ->]%lift_ok & Hs).
  apply tx_bind_ok in Hs as (w & d2 & Hins & Hs). apply mret_ok in Hs as [Hrow ->]. simplify_eq/=.
  apply insert_approval_ok in Hins as (Hn & -> & Hpend). specialize (Hpend eq_refl).
  split; [done|]. split; [done|]. split; [split; [done|done|by exists (r_sessionId <$> runs d !! runId), o, digest]|done].
Qed.

Lemma resolve_ok approvalId approved by_ resolution ts d r d' :
  resolveApprovalRequest approvalId approved by_ resolution ts d = Ok (r, d') ->
  approvals d' = approvals d
  \/ exists p, approvals d !! approvalId = Some p /\ p_status p = Ap_pending
     /\ approvals d' = <[approvalId := resolved_row (if approved then Ap_approved else Ap_rejected) by_ resolution ts p]> (approvals d).
Proof.
  unfold resolveApprovalRequest. intros Hs. apply tx_bind_ok in Hs as (d0 & d1 & [-> ->]%gets_id_ok & Hs). unfold id in Hs.
  destruct (approvals d !! approvalId) as [p|]; [|left; by apply mret_ok in Hs as [_ ->]].
  case_bool_decide; [right|left; by apply mret_ok in Hs as [_ ->]].
  apply tx_bind_ok in Hs as (w & d1 & Hm & [_ ->]%mret_ok). apply modify_ok in Hm as ->. by exists p.
Qed.

Lemma authorizing_ok runId attempt time d i p :
  authorizing runId attempt time d = Some (i, p) ->
  attempt_running runId attempt d = true /\ approvals d !! i = Some p /\ p_runId p = runId
  /\ p_actionType p = execute_external_action /\ p_approvedAttempt p = Some attempt /\ usable time p = true.
Proof.
  unfold authorizing. destruct (attempt_running runId attempt d); [|done]. intros Hh%head_Some_elem_of.
  rewrite merge_sort_Permutation in Hh. apply filter_elem in Hh as [Hin Hp]. apply elem_of_map_to_list in Hin. cbn in Hp.
  bool_prop. done.
Qed.

(** A usable approval whose request is bound is approved and unused, or already used. *)
Lemma usable_bound time i p :
  bound_request i p -> usable time p = true ->
  p_status p = Ap_approved /\ p_usedCount p = Some 0%Z /\ first_use time p = true \/ p_status p = Ap_consumed /\ p_usedCount p = Some 1%Z.
Proof.
  intros [Hl (Hr & Hm & He) _] Hu. unfold used_as_decided in Hl. unfold usable in Hu.
  destruct (p_status p) eqn:Es; destruct Hl as [Hc _] || destruct Hl; rewrite Hc in Hu; cbn in Hu; try done.
  - left. split; [done|]. split; [done|]. unfold first_use, within_uses, unexpired. by rewrite Es, Hc, Hr, Hm, He.
  - by right.
Qed.

(** The outcome of an activation on a consistent table: the branch that blames a race is never taken. *)
Lemma activate_ok runId attempt v ts d r d' :
  approvals_ok d -> activateExternalActionAuthorization runId attempt v ts d = Ok (r, d') ->
  (ea_allowed r = false /\ d' = d
     /\ forall i p, authorizing runId attempt ts (ap_db d) = Some (i, p) -> truthy_text (p_operationDigest p) = None)
  \/ exists i p digest, authorizing runId attempt ts (ap_db d) = Some (i, p) /\ p_operationDigest p = Some digest
     /\ r = is_active attempt i
     /\ (d' = d /\ (exists k s, receipts d !! k = Some s /\ rt_approvalId s = i /\ rt_operationId s = av_operationId v)
         \/ exists k s, receipts d !! k = None /\ receipts d' = <[k := s]> (receipts d)
            /\ (forall j t, receipts d !! j = Some t -> rt_outcome t = "allow" -> rt_operationId t <> rt_operationId s)
            /\ rt_approvalId s = i /\ rt_operationId s = av_operationId v /\ rt_operationDigest s = digest /\ rt_outcome s = "allow"
            /\ rt_details s = activation_details runId attempt v
            /\ (p_status p = Ap_approved /\ approvals (ap_db d') = <[i := used_row p]> (approvals (ap_db d))
                \/ p_status p = Ap_consumed /\ approvals (ap_db d') = approvals (ap_db d))).
Proof.
  intros Hok. unfold activateExternalActionAuthorization. intros Hs. apply tx_bind_ok in Hs as (w & d0 & [_ ->]%lift_ok & Hs).
  apply tx_bind_ok in Hs as (d0 & d1 & [-> ->]%gets_id_ok & Hs). unfold id in Hs.
  destruct (authorizing runId attempt ts (ap_db d)) as [[i p]|] eqn:Ea; [|left; by apply mret_ok in Hs as [-> ->]].
  apply authorizing_ok in Ea as Hau. destruct Hau as (_ & Hp & _ & _ & _ & Hu).
  destruct (truthy_text (p_operationDigest p)) as [digest|] eqn:Ed.
  2:{ left. apply mret_ok in Hs as [-> ->]. split; [done|]. split; [done|]. intros j q [= <- <-]. done. }
  right. exists i, p, digest. assert (p_operationDigest p = Some digest) as Hdig.
  { unfold truthy_text in Ed. destruct (p_operationDigest p); [|done]. by destruct (String.eqb _ _). }
  destruct (exists_where _ (receipts d)) eqn:Ex.
  { apply mret_ok in Hs as [-> ->]. split; [done|]. split; [done|]. split; [done|]. left. split; [done|].
    unfold exists_where in Ex. apply negb_true_iff, bool_decide_eq_false, map_choose in Ex as (k & s & Hks).
    apply map_lookup_filter_Some in Hks as [Hk Hb]. cbn in Hb. bool_prop. by exists k, s. }
  destruct (usable_bound ts i p (ok_requests _ Hok _ _ Hp) Hu) as [(Hst & Hc & Hf)|[Hst Hc]];
    rewrite Hc in Hs; [rewrite Hf in Hs|]; cbn [bool_decide andb negb] in Hs.
  all: apply tx_bind_ok in Hs as (w2 & d1 & Hupd & Hs); apply tx_bind_ok in Hs as (w3 & d2 & Hins & [-> ->]%mret_ok).
  all: apply insert_receipt_ok in Hins as (Hn & -> & Hone); specialize (Hone eq_refl).
  all: split; [done|]; split; [done|]; split; [done|]; right; do 2 eexists.
  - apply in_ap_ok in Hupd as [Hm Hr]. apply modify_ok in Hm. rewrite Hr in Hn, Hone |- *. cbn. rewrite Hm.
    split; [exact Hn|]. split; [done|]. split; [exact Hone|]. by repeat (split; [done|]); left.
  - apply mret_ok in Hupd as [_ ->]. split; [exact Hn|]. split; [done|]. split; [exact Hone|]. by repeat (split; [done|]); right.
Qed.

(** * The life of a request *)

(** What a request asks for: everything but its status, its decision and its uses. *)
Definition request_of (p : ApprovalRow) :=
  (p_runId p, p_decisionId p, p_actionType p, p_targetType p, p_targetId p, p_reason p, p_metadata p, p_requestedAt p,
   (p_scopeType p, p_scopeId p, p_operationDigest p, p_riskClass p, p_expiresAt p, p_reuseMode p, p_maxUses p)).

Definition decision_of (p : ApprovalRow) := (p_resolvedAt p, p_resolvedBy p, p_resolution p).

(** The order in which a request is decided and used. *)
Definition status_follows (a b : ApprovalStatus) : bool :=
  bool_decide (a = b) || match a, b with
  | Ap_pending, (Ap_approved | Ap_rejected | Ap_consumed) | Ap_approved, Ap_consumed => true
  | _, _ => false
  end.

Record advanced (p q : ApprovalRow) : Prop := {
  adv_request : request_of q = request_of p;
  adv_status : status_follows (p_status p) (p_status q) = true;
  adv_decision : p_status p <> Ap_pending -> decision_of q = decision_of p;
  adv_used : p_status p = p_status q -> q = p;
}.

Lemma advanced_refl p : advanced p p.
Proof. split; [done| |done|done]. unfold status_follows. by rewrite bool_decide_true. Qed.

Lemma advanced_trans p q r : advanced p q -> advanced q r -> advanced p r.
Proof.
  intros [Hr Hs Hd Hu] [Hr' Hs' Hd' Hu']. split; [congruence|..].
  - revert Hs Hs'. by destruct (p_status p), (p_status q), (p_status r).
  - intros Hp. rewrite Hd'; [by apply Hd|]. intros Hq. rewrite Hq in Hs. by destruct (p_status p).
  - intros Heq. rewrite <- Heq in Hs', Hu'. assert (p_status p = p_status q) as Hpq.
    { revert Hs Hs'. by destruct (p_status p), (p_status q). }
    by rewrite Hu', (Hu Hpq).
Qed.

Definition all_advanced (d d' : ApprovalDb) : Prop :=
  forall i p, approvals (ap_db d) !! i = Some p -> exists q, approvals (ap_db d') !! i = Some q /\ advanced p q.

(** An update of one row that advances it, or the insertion of a row. *)
Lemma insert_advances (m : gmap string ApprovalRow) i q j p :
  (forall p, m !! i = Some p -> advanced p q) -> m !! j = Some p ->
  exists q', <[i := q]> m !! j = Some q' /\ advanced p q'.
Proof.
  intros Hi Hj. destruct (decide (i = j)) as [->|Hne].
  - rewrite lookup_insert_eq. by exists q; split; [|apply Hi].
  - rewrite lookup_insert_ne by done. by exists p; split; [|apply advanced_refl].
Qed.

Lemma resolved_advances p (approved : bool) by_ resolution ts :
  p_status p = Ap_pending -> advanced p (resolved_row (if approved then Ap_approved else Ap_rejected) by_ resolution ts p).
Proof. intros Hp. split; cbn; rewrite ?Hp; [done| |done|]; by destruct approved. Qed.

Lemma used_advances i p : bound_request i p -> p_status p = Ap_approved -> advanced p (used_row p).
Proof. intros [_ (_ & Hm & _) _] Hp. split; cbn; rewrite ?Hp, ?Hm; done. Qed.

Lemma resolved_bound i p (approved : bool) by_ resolution ts :
  bound_request i p -> p_status p = Ap_pending ->
  bound_request i (resolved_row (if approved then Ap_approved else Ap_rejected) by_ resolution ts p).
Proof.
  intros [Hl Ho Hd] Hp. split; cbn; [|done|done]. unfold used_as_decided in *. rewrite Hp in Hl. cbn.
  by destruct approved; (split; [apply Hl|]).
Qed.

Lemma used_bound i p : bound_request i p -> p_status p = Ap_approved -> bound_request i (used_row p).
Proof.
  intros [Hl (Hr & Hm & He) Hd] Hp. split; [|by split_and!|done]. unfold used_as_decided in *. rewrite Hp in Hl. cbn. rewrite Hm. cbn.
  split; [done|apply Hl].
Qed.

(** What a step does to the table of requests. *)
Lemma step_requests d d' :
  approvals_ok d -> approval_step d d' ->
  approvals (ap_db d') = approvals (ap_db d)
  \/ exists i q, approvals (ap_db d') = <[i := q]> (approvals (ap_db d)) /\ bound_request i q
     /\ (approvals (ap_db d) !! i = None
          /\ (forall j t, approvals (ap_db d) !! j = Some t -> p_runId t = p_runId q -> p_status t <> Ap_pending)
         \/ exists p, approvals (ap_db d) !! i = Some p /\ advanced p q /\ p_status q <> Ap_pending).
Proof.
  intros Hok [runId dec rs o ts [i q] Hs|id_ a by_ rs ts r Hs|runId att v ts r Hs|Ha _]; [..|by left].
  - apply in_ap_ok in Hs as [Hs _]. apply ensure_ok in Hs as [Hs|(Hn & Hi & Hb & Hp)]; [by left|right].
    exists i, q. split; [done|]. split; [done|]. by left.
  - apply in_ap_ok in Hs as [Hs _]. apply resolve_ok in Hs as [Hs|(p & Hp & Hst & Hi)]; [by left|right].
    do 2 eexists. split; [exact Hi|]. split; [by apply resolved_bound; [apply (ok_requests _ Hok)|]|].
    right. exists p. split; [done|]. split; [by apply resolved_advances|]. by destruct a.
  - apply activate_ok in Hs as [(_ & -> & _)|(i & p & dig & Hau & _ & _ & [[-> _]|Hrec])]; [by left..| |done].
    destruct Hrec as (k & s & _ & _ & _ & _ & _ & _ & _ & _ & [[Hst Hi]|[_ Hi]]); [|by left].
    right. apply authorizing_ok in Hau as (_ & Hp & _). exists i, (used_row p). split; [done|].
    pose proof (ok_requests _ Hok _ _ Hp) as Hb. split; [by apply used_bound|].
    right. exists p. split; [done|]. split; [by apply (used_advances i)|]. cbn. destruct Hb as [_ (_ & -> & _) _]. done.
Qed.

Lemma step_advances d d' : approvals_ok d -> approval_step d d' -> all_advanced d d'.
Proof.
  intros Hok Hs. destruct (step_requests _ _ Hok Hs) as [He|(i & q & He & _ & Hq)]; intros j p Hj; rewrite He.
  - by exists p; split; [|apply advanced_refl].
  - apply insert_advances; [|done]. intros t Ht. destruct Hq as [[Hn _]|(u & Hu & Had & _)]; [congruence|]. by simplify_eq.
Qed.

(** * Receipts *)

(** The receipts a step adds: one at most, for a new operation, on the approval that authorized it. *)
Lemma step_receipts d d' :
  approvals_ok d -> approval_step d d' ->
  receipts d' = receipts d
  \/ exists k s, receipts d' = <[k := s]> (receipts d) /\ accountable d' s
     /\ forall j t, receipts d !! j = Some t -> rt_operationId t <> rt_operationId s.
Proof.
  intros Hok [runId dec rs o ts q Hs|id_ a by_ rs ts r Hs|runId att v ts r Hs|_ Hr]; [..|by left].
  - left. by apply in_ap_ok in Hs as [_ ->].
  - left. by apply in_ap_ok in Hs as [_ ->].
  - apply activate_ok in Hs as [(_ & -> & _)|(i & p & dig & Hau & Hdig & _ & [[-> _]|Hrec])]; [by left..| |done].
    destruct Hrec as (k & s & _ & Hk & Hone & Hid & Hop & Hd & Ho & Hdet & Hst). right. exists k, s. split; [done|].
    apply authorizing_ok in Hau as (_ & Hp & Hrun & Hact & Hatt & _).
    assert (exists q, approvals (ap_db d') !! i = Some q /\ p_status q = Ap_consumed /\ request_of q = request_of p) as (q & Hq & Hc & Hreq).
    { destruct Hst as [[Hap ->]|[Hco ->]]; [exists (used_row p)|by exists p]. rewrite lookup_insert_eq. split; [done|]. cbn.
      by destruct (ok_requests _ Hok _ _ Hp) as [_ (_ & -> & _) _]. }
    split; [|intros j t Hj; apply (Hone j t Hj); by destruct (ok_receipts _ Hok _ _ Hj) as (? & ? & ? & ? & ? & ? & ? & ? & ? & _)].
    exists q, att, v. unfold request_of in Hreq. injection Hreq as Hq1 Hq2 Hq3 Hq4 Hq5 Hq6 Hq7 Hq8 Hq9 Hq10 Hq11 Hq12 Hq13 Hq14 Hq15.
    unfold p_approvedAttempt in *. rewrite Hid, Hq7, Hq3, Hq11, Hq1, Hrun, Hdig. by split_and!; rewrite ?Hd.
Qed.

Lemma accountable_kept d d' r : all_advanced d d' -> accountable d r -> accountable d' r.
Proof.
  intros Had (p & n & v & Hp & Hst & Hrest). destruct (Had _ _ Hp) as (q & Hq & [_ Hs _ Hu]).
  assert (p_status q = Ap_consumed) as Hc by (rewrite Hst in Hs; by destruct (p_status q)).
  rewrite Hst, Hc in Hu. rewrite (Hu eq_refl) in Hq. by exists p, n, v.
Qed.

Lemma step_ok d d' : approvals_ok d -> approval_step d d' -> approvals_ok d'.
Proof.
  intros Hok Hs. pose proof (step_requests _ _ Hok Hs) as Hrq. pose proof (step_receipts _ _ Hok Hs) as Hrc.
  pose proof (step_advances _ _ Hok Hs) as Had. split.
  - intros i p. destruct Hrq as [->|(j & q & -> & Hb & _)]; [apply (ok_requests _ Hok)|].
    rewrite lookup_insert_Some. intros [[<- <-]|[_ Hi]]; [done|by apply (ok_requests _ Hok)].
  - intros i j p q. destruct Hrq as [->|(k & t & -> & _ & Ht)]; [apply (ok_pending _ Hok)|]. rewrite !lookup_insert_Some.
    intros [[<- <-]|[_ Hi]] [[<- <-]|[_ Hj]] Hr Hp Hq; [done| | |by eapply (ok_pending _ Hok)].
    + destruct Ht as [[_ Hno]|(u & _ & _ & Hno)]; [by destruct (Hno _ _ Hj)|done].
    + destruct Ht as [[_ Hno]|(u & _ & _ & Hno)]; [by destruct (Hno _ _ Hi)|done].
  - intros i r Hi. destruct Hrc as [Hr|(k & s & Hr & Ha & _)]; rewrite Hr in Hi.
    + apply (accountable_kept d); [done|by apply (ok_receipts _ Hok _ _ Hi)].
    + apply lookup_insert_Some in Hi as [[_ <-]|[_ Hi]]; [done|]. apply (accountable_kept d); [done|by apply (ok_receipts _ Hok _ _ Hi)].
  - intros i j r s. destruct Hrc as [->|(k & t & -> & _ & Hn)]; [apply (ok_once _ Hok)|]. rewrite !lookup_insert_Some.
    intros [[<- <-]|[_ Hi]] [[<- <-]|[_ Hj]] Hop; [done| | |by eapply (ok_once _ Hok)].
    + by destruct (Hn _ _ Hj).
    + by destruct (Hn _ _ Hi).
Qed.

Lemma steps_ok d d' : approvals_ok d -> rtc approval_step d d' -> approvals_ok d' /\ all_advanced d d'.
Proof.
  intros Hok. induction 1 as [d|d e d' Hs _ IH].
  - split; [done|]. intros i p Hp. by exists p; split; [|apply advanced_refl].
  - destruct IH as [Hok' Had]; [by eapply step_ok|]. split; [done|]. intros i p Hp.
    destruct (step_advances _ _ Hok Hs _ _ Hp) as (q & Hq & Hpq). destruct (Had _ _ Hq) as (r & Hr & Hqr).
    exists r. split; [done|]. by eapply advanced_trans.
Qed.

Lemma no_approvals_ok d : approvals (ap_db d) = ∅ -> receipts d = ∅ -> approvals_ok d.
Proof. intros Ha Hr. split; intros *; rewrite ?Ha, ?Hr, ?lookup_empty; done. Qed.

Lemma external_digest i runId dec tt ti md session o digest :
  mapRunApprovalOperation i runId dec execute_external_action tt ti md session = Ok (o, digest) ->
  ao_subjectId o = runId /\ ao_action o = execute_external_action /\ ao_targetId o = runId
  /\ approval_digest o = Ok digest
  /\ exists n, field "approvedAttempt" md = Some (JInt n) /\ (1 <= n)%Z /\ ao_payload o = [("decisionId", JStr dec); ("approvedAttempt", JInt n)].
Proof.
  unfold mapRunApprovalOperation, operation_payload. intros Hm. tx_inv Hm. bool_prop. simplify_eq/=.
  destruct (field "approvedAttempt" md) as [[| |n| | | |]|]; try discriminate.
  destruct (safe_integer n && (1 <=? n)%Z) eqn:En; [|done]. apply andb_true_iff in En as [_ En%Z.leb_le].
  repeat match goal with E : mret _ = Ok _ |- _ => injection E as E; subst end. simplify_eq/=.
  split_and!; try done. by exists v6.
Qed.

(** A table that started empty keeps every request bound, and requests only advance. *)
Lemma reachable_ok d0 d :
  approvals (ap_db d0) = ∅ -> receipts d0 = ∅ -> rtc approval_step d0 d -> approvals_ok d.
Proof. intros Ha Hr Hs. by apply (steps_ok d0 d (no_approvals_ok _ Ha Hr)). Qed.

(** C15. Every receipt of an external action, whatever the schedule of requests,
    decisions and activations, stands on a consumed request that was decided,
    for the same TaskRun and the Attempt the receipt names, and carries the
    digest of the canonical operation of that request; no two receipts are for
    the same operation. *)
Theorem receipts_accountable d0 d i r :
  approvals (ap_db d0) = ∅ -> receipts d0 = ∅ -> rtc approval_step d0 d -> receipts d !! i = Some r ->
  exists p n v o,
    approvals (ap_db d) !! rt_approvalId r = Some p /\ p_status p = Ap_consumed /\ is_Some (p_resolvedAt p)
    /\ rt_outcome r = "allow" /\ rt_details r = activation_details (p_runId p) n v /\ rt_operationId r = av_operationId v
    /\ approval_digest o = Ok (rt_operationDigest r) /\ ao_subjectId o = p_runId p /\ ao_action o = execute_external_action
    /\ ao_payload o = [("decisionId", JStr (p_decisionId p)); ("approvedAttempt", JInt n)]
    /\ (forall j s, receipts d !! j = Some s -> rt_operationId s = rt_operationId r -> j = i).
Proof.
  intros Ha Hr Hs Hi. pose proof (reachable_ok _ _ Ha Hr Hs) as Hok.
  destruct (ok_receipts _ Hok _ _ Hi) as (p & n & v & Hp & Hst & Hact & Hatt & Hdig & Hout & Hdet & Hop).
  destruct (ok_requests _ Hok _ _ Hp) as [Hl _ (session & o & digest & Hm & Hd)].
  rewrite Hact in Hm. apply external_digest in Hm as (Hsub & Hao & _ & Hdo & m & Hf & _ & Hpay).
  unfold p_approvedAttempt in Hatt. rewrite Hf in Hatt. unfold used_as_decided in Hl. rewrite Hst in Hl. simplify_eq.
  exists p, n, v, o. split_and!; try done; [apply Hl|].
  intros j s Hj He. by eapply (ok_once _ Hok).
Qed.

(** A request keeps what it asks for, and once decided its decision: it goes
    from pending to approved or rejected and from approved to consumed, never
    back; a rejected or consumed request does not change at all. *)
Theorem decisions_final d0 d d' i p :
  approvals (ap_db d0) = ∅ -> receipts d0 = ∅ -> rtc approval_step d0 d -> rtc approval_step d d' ->
  approvals (ap_db d) !! i = Some p ->
  exists q, approvals (ap_db d') !! i = Some q /\ request_of q = request_of p
    /\ status_follows (p_status p) (p_status q) = true
    /\ (p_status p <> Ap_pending -> decision_of q = decision_of p)
    /\ (p_status p = Ap_rejected \/ p_status p = Ap_consumed -> q = p).
Proof.
  intros Ha Hr Hs Hs' Hp. destruct (steps_ok _ _ (reachable_ok _ _ Ha Hr Hs) Hs') as [_ Had].
  destruct (Had _ _ Hp) as (q & Hq & [Hreq Hst Hdec Hu]). exists q. split_and!; try done. intros Hc. apply Hu.
  revert Hst. by destruct Hc as [-> | ->]; destruct (p_status q).
Qed.

(** * Authorization *)

Lemma digest_truthy i p : bound_request i p -> exists digest, p_operationDigest p = Some digest /\ truthy_text (Some digest) = Some digest.
Proof.
  intros [_ _ (session & o & digest & Hm & Hd)]. exists digest. split; [done|].
  unfold mapRunApprovalOperation in Hm. tx_inv Hm. simplify_eq/=.
  repeat match goal with E : mret _ = Ok _ |- _ => injection E as E; subst end.
  unfold approval_digest in *. repeat match goal with E : mbind _ _ = Ok _ |- _ => tx_inv E end.
  repeat match goal with E : mret _ = Ok _ |- _ => injection E as E; subst end. done.
Qed.

(** A request that lets the Attempt act. *)
Definition authorizes (runId : string) (attempt : Z) (d : Db) (p : ApprovalRow) : Prop :=
  attempt_running runId attempt d = true /\ p_runId p = runId /\ p_actionType p = execute_external_action
  /\ p_approvedAttempt p = Some attempt /\ (p_status p = Ap_approved \/ p_status p = Ap_consumed).

Lemma usable_decided time i p :
  bound_request i p -> usable time p = true <-> p_status p = Ap_approved \/ p_status p = Ap_consumed.
Proof.
  intros Hb. split; [intros Hu; destruct (usable_bound _ _ _ Hb Hu) as [(? & _)|[? _]]; [by left|by right]|].
  destruct Hb as [Hl (Hr & Hm & He) _]. unfold used_as_decided in Hl. unfold usable, within_uses, unexpired.
  intros [Hst|Hst]; rewrite Hst in *; destruct Hl as [-> _]; by rewrite ?Hr, ?Hm, ?He.
Qed.

Lemma authorizing_some runId attempt time d :
  approvals_ok d ->
  is_Some (authorizing runId attempt time (ap_db d))
  <-> exists i p, approvals (ap_db d) !! i = Some p /\ authorizes runId attempt (ap_db d) p.
Proof.
  intros Hok. split.
  - intros [[i p] Ha]. apply authorizing_ok in Ha as (? & Hp & ? & ? & ? & Hu). exists i, p. split; [done|].
    apply (usable_decided time i p (ok_requests _ Hok _ _ Hp)) in Hu. by split_and!.
  - intros (i & p & Hp & Hrun & Hr & Ha & Hn & Hst). unfold authorizing. rewrite Hrun.
    match goal with |- is_Some (head ?l) => destruct (head l) eqn:E; [done|exfalso]; assert ((i, p) ∈ l) as Hin end.
    { rewrite merge_sort_Permutation. apply filter_elem. split; [by apply elem_of_map_to_list|]. cbn.
      apply (usable_decided time i p (ok_requests _ Hok _ _ Hp)) in Hst.
      by rewrite Hr, String.eqb_refl, (bool_decide_true _ Ha), (bool_decide_true _ Hn), Hst. }
    apply head_None in E. rewrite E in Hin. by apply not_elem_of_nil in Hin.
Qed.

(** C37. An external action is allowed exactly when its TaskRun and Attempt are
    running and a request for external actions of that Attempt was approved:
    [inspectExternalActionAuthorization] and [activateExternalActionAuthorization]
    agree on it, and a refused activation changes nothing. *)
Theorem external_action_needs_approval d0 d runId attempt time v r d' :
  approvals (ap_db d0) = ∅ -> receipts d0 = ∅ -> rtc approval_step d0 d ->
  activateExternalActionAuthorization runId attempt v time d = Ok (r, d') ->
  (ea_allowed r = true <-> exists i p, approvals (ap_db d) !! i = Some p /\ authorizes runId attempt (ap_db d) p)
  /\ ea_allowed (inspectExternalActionAuthorization runId attempt time (ap_db d)) = ea_allowed r
  /\ (ea_allowed r = false -> d' = d).
Proof.
  intros Ha Hr Hs Hact. pose proof (reachable_ok _ _ Ha Hr Hs) as Hok. rewrite <- (authorizing_some _ _ time) by done.
  unfold inspectExternalActionAuthorization.
  destruct (activate_ok _ _ _ _ _ _ _ Hok Hact) as [(Hf & -> & Hn)|(i & p & digest & Hau & _ & -> & _)].
  - destruct (authorizing runId attempt time (ap_db d)) as [[i p]|] eqn:E.
    + exfalso. apply authorizing_ok in E as Hau. destruct (digest_truthy i p (ok_requests _ Hok _ _ (proj1 (proj2 Hau)))) as (dg & Hdg & Ht).
      specialize (Hn _ _ eq_refl). rewrite Hdg, Ht in Hn. done.
    + rewrite Hf. split_and!; [|done|done]. split; [done|]. by intros [? ?].
  - rewrite Hau. split_and!; [by split; [eexists|]| |done]. by destruct (_ <? _)%Z.
Qed.
End facts.

(** * An approved external action *)

Definition after {A} (m : tx ApprovalDb A) (d : ApprovalDb) : ApprovalDb :=
  match m d with Ok (_, d') => d' | Throw _ => d end.

Definition demo_empty : ApprovalDb := {| ap_db := demo_db; receipts := ∅ |}.

Definition demo_options : ApprovalOptions :=
  {| po_actionType := Some execute_external_action; po_targetType := None; po_targetId := None;
     po_metadata := Some [("approvedAttempt", JInt 1)] |}.

Definition demo_activation : ExternalActionAuthorizationActivation :=
  {| av_operationId := "op"; av_toolCallId := "call"; av_toolName := "shell";
     av_argsHash := "0123456789abcdef0123456789abcdef0123456789abcdef0123456789abcdef" |}.

Definition demo_asked := after (in_ap (ensureApprovalRequest "run" "decision" "deploys" demo_options 5)) demo_empty.
Definition demo_approved := after (in_ap (resolveApprovalRequest "uuid-0" true "ops" "go" 6)) demo_asked.
Definition demo_activate := activateExternalActionAuthorization "run" 1 demo_activation 7.
Definition demo_used := after demo_activate demo_approved.

Lemma demo_asked_step : rtc approval_step demo_empty demo_asked.
Proof.
  apply rtc_once. destruct (in_ap (ensureApprovalRequest "run" "decision" "deploys" demo_options 5) demo_empty) as [[r d]|] eqn:E.
  - apply (step_ensure _ _ "run" "decision" "deploys" demo_options 5 r). unfold demo_asked, after. by rewrite E.
  - vm_compute in E. discriminate.
Qed.

Lemma demo_approved_step : rtc approval_step demo_empty demo_approved.
Proof.
  eapply rtc_r; [apply demo_asked_step|].
  destruct (in_ap (resolveApprovalRequest "uuid-0" true "ops" "go" 6) demo_asked) as [[r d]|] eqn:E.
  - apply (step_resolve _ _ "uuid-0" true "ops" "go" 6 r). unfold demo_approved, after. by rewrite E.
  - vm_compute in E. discriminate.
Qed.

Lemma demo_used_step : rtc approval_step demo_approved demo_used.
Proof.
  apply rtc_once. destruct (demo_activate demo_approved) as [[r d]|] eqn:E.
  - apply (step_activate _ _ "run" 1 demo_activation 7 r). unfold demo_used, after. by rewrite E.
  - vm_compute in E. discriminate.
Qed.

Lemma demo_steps : rtc approval_step demo_empty demo_used.
Proof. etrans; [apply demo_approved_step|apply demo_used_step]. Qed.

Lemma receipts_accountable_witness :
  exists i r, receipts demo_used !! i = Some r /\ exists p, approvals (ap_db demo_used) !! rt_approvalId r = Some p
    /\ p_status p = Ap_consumed /\ is_Some (p_resolvedAt p).
Proof.
  eexists (_ : string). destruct (receipts demo_used !! ("external-action-activation:" +:+ sha256 ("uuid-0" +:+ nul +:+ "op"))) as [r|] eqn:E.
  2:{ vm_compute in E. discriminate. }
  exists r. split; [exact E|].
  destruct (receipts_accountable demo_empty demo_used _ r eq_refl eq_refl demo_steps E)
    as (p & n & v & o & Hp & Hst & Hres & _). exact (ex_intro _ p (conj Hp (conj Hst Hres))).
Defined.

Lemma decisions_final_witness :
  exists q, approvals (ap_db demo_used) !! "uuid-0" = Some q /\ status_follows Ap_approved (p_status q) = true.
Proof.
  destruct (approvals (ap_db demo_approved) !! "uuid-0") as [p|] eqn:E.
  2:{ vm_compute in E. discriminate. }
  destruct (decisions_final demo_empty demo_approved demo_used "uuid-0" p eq_refl eq_refl demo_approved_step demo_used_step E)
    as (q & Hq & _ & Hst & _). exists q. split; [exact Hq|]. vm_compute in E. injection E as <-. exact Hst.
Defined.

Lemma external_action_needs_approval_witness :
  (exists i p, approvals (ap_db demo_approved) !! i = Some p /\ authorizes "run" 1 (ap_db demo_approved) p)
  /\ ~ (exists i p, approvals (ap_db demo_asked) !! i = Some p /\ authorizes "run" 1 (ap_db demo_asked) p).
Proof.
  split.
  - destruct (demo_activate demo_approved) as [[r d]|] eqn:E; [|vm_compute in E; discriminate].
    apply (external_action_needs_approval demo_empty demo_approved "run" 1 7 demo_activation r d eq_refl eq_refl demo_approved_step E).
    vm_compute in E. injection E as <- _. reflexivity.
  - destruct (demo_activate demo_asked) as [[r d]|] eqn:E; [|vm_compute in E; discriminate]. intros Ha.
    apply (external_action_needs_approval demo_empty demo_asked "run" 1 7 demo_activation r d eq_refl eq_refl demo_asked_step E) in Ha.
    vm_compute in E. injection E as <- _. discriminate.
Defined.
