(* ===== verification/SettlementFacts.v ===== *)
(** What the settlement of an Attempt guarantees, whatever the runtime, the
    Supervisor and the other callers of the store do meanwhile: the Attempt is
    never left active in the hands of the service. *)
From S2P Require Import Prelude Json TaskPolicy Attempt GateData ExecDb Canonical AttemptRepo RunStore Continuation Transition PlanGraph PlanStore AuditAlgebra Evidence CompletionGate Supervisor RunView Approval Service Settlement AttemptSpec StoreSpec AttemptRefine StoreRefine AttemptTrace PortSteps ContinuationSteps PortTrace AttemptLive AttemptHold GovernanceFacts ApprovalFacts.
Local Open Scope tx_scope.

(** * Attempts that are over *)

Definition inactive (i : string) (d : Db) : Prop := forall a, attempts d !! i = Some a -> a_active a = false.

Lemma inactive_step i d d' : is_Some (attempts d !! i) -> inactive i d -> store_step d d' ->
  is_Some (attempts d' !! i) /\ inactive i d'.
Proof.
  intros Hin Hi Hs. assert (forall (a a' : AttemptRow), attempts d !! a_id a = Some a -> attempts d' = <[a_id a := a']> (attempts d) ->
      (a_active a' = true -> a_active a = true) -> is_Some (attempts d' !! i) /\ inactive i d') as Hrow.
  { unfold inactive. intros a a' Ha -> Hact. destruct (decide (a_id a = i)) as [<-|].
    - split; [by rewrite lookup_insert_eq|]. intros b. rewrite lookup_insert_eq. intros Hb. injection Hb as <-.
      destruct (a_active a') eqn:E; [|done].
      rewrite <- (Hi _ Ha). symmetry. by apply Hact.
    - by rewrite lookup_insert_ne. }
  destruct Hs as [j [k ->|k Hl|a c ts Hp|a a' r r' s rows ts Hc]|j r r' a a' rows Hm|j r' a Hs|Ha].
  - done.
  - unfold inactive. by rewrite (le_attempts _ _ _ Hl).
  - destruct Hp as [Ha [_ Hact] Has _ _ _ _ _ _ _]. eapply Hrow; [exact Ha|exact Has|by intros _].
  - eapply Hrow; [apply (cl_attempt Hc)|apply (cl_attempts Hc)|]. destruct (cl_closed Hc) as [-> _]. done.
  - eapply Hrow; [apply (mv_attempt Hm)|apply (mv_attempts Hm)|apply (mv_active Hm)].
  - unfold inactive. rewrite (st_attempts Hs), lookup_insert_ne; [done|]. intros <-. pose proof (st_fresh Hs) as Hf.
    rewrite Hf in Hin. by destruct Hin.
  - unfold inactive. by rewrite (as_attempts _ _ Ha).
Qed.

Lemma inactive_steps i d d' : is_Some (attempts d !! i) -> inactive i d -> rtc store_step d d' -> inactive i d'.
Proof.
  intros Hin Hi Hs. induction Hs as [|x y z Hxy _ IH]; [done|]. destruct (inactive_step _ _ _ Hin Hi Hxy). auto.
Qed.

(** The transition of a runtime ends its Attempt. *)
Lemma transitionRuntime_closes `{Platform} command f dbTime ts d os d' :
  Consistent d -> transitionRuntime command f dbTime ts d = Ok (os, d') ->
  is_Some (attempts d' !! fe_attemptId f) /\ inactive (fe_attemptId f) d'.
Proof.
  intros Hcon Hs. unfold transitionRuntime in Hs. tx_inv Hs.
  match goal with E : validate _ _ _ = Ok _ |- _ => apply validate_ok in E as [-> (a0 & r0 & l0 & Hf)] end.
  match goal with E : map_tx _ _ _ = Ok _, E2 : transitionRun _ _ _ _ _ _ _ _ _ = Ok _ |- _ =>
    rename E into Hevents; rename E2 into Hmove end.
  apply (map_tx_ind (reached d (sc_runId v0))) in Hevents as (Hc & Hst & Hrun);
    [|intros ? ? ? ? _; apply appendEvent_reached|split_and!; [done|done|by eapply fenced_running]].
  apply transitionRun_moved in Hmove as (x & x' & a & a' & row & Hmv & _ & _ & Hord & Hsta & _); [|exact Hc| |].
  - destruct Hf as [F1 _ _ _ _ _ (F7 & F8 & _)]. destruct (mv_current Hmv) as [C1 C2].
    assert (fe_attemptId f = a_id a) as ->.
    { rewrite (con_named Hcon _ _ F1), (con_named Hc _ _ (mv_attempt Hmv)), C1, C2, (Hord _ eq_refl). by rewrite F7, F8. }
    unfold inactive. rewrite (mv_attempts Hmv), lookup_insert_eq. split; [done|]. intros b [= <-].
    rewrite (attempt_check_active a' (mv_check Hmv)), Hsta. by destruct (rc_kind v); simplify_eq/=.
  - destruct (rc_kind v); simplify_eq/=; done.
  - intros ? ? Hx Hb. rewrite (Hrun _ _ Hx Hb). apply running_movable. by destruct (rc_kind v); simplify_eq/=.
Qed.

Lemma row_kept i d d' : is_Some (attempts d !! i) -> rtc store_step d d' -> is_Some (attempts d' !! i).
Proof.
  intros Hin Hs. induction Hs as [|x y z Hxy _ IH]; [done|]. apply IH. clear IH.
  destruct Hxy as [j [k ->|k Hl|a c ts Hp|a a' r r' s rows ts Hc]|j r r' a a' rows Hm|j r' a Hs|Ha].
  - done.
  - by rewrite (le_attempts _ _ _ Hl).
  - rewrite (pr_attempts _ _ _ _ _ Hp). by apply lookup_insert_is_Some'; right.
  - rewrite (cl_attempts Hc). by apply lookup_insert_is_Some'; right.
  - rewrite (mv_attempts Hm). by apply lookup_insert_is_Some'; right.
  - rewrite (st_attempts Hs). by apply lookup_insert_is_Some'; right.
  - by rewrite (as_attempts _ _ Ha).
Qed.

(** * Holding an Attempt *)

(** The Attempt of the token is active, under the lease of the token, and no
    checkpoint is ahead of it. *)
Record holds (token : AttemptExecutionToken) (d : Db) (a : AttemptRow) (l : LeaseRow) : Prop := {
  ho_attempt : attempts d !! tk_attemptId token = Some a;
  ho_active : a_active a = true;
  ho_lease : leases d !! tk_attemptId token = Some l;
  ho_token : l_ownerId l = tk_ownerId token /\ l_token l = tk_leaseToken token /\ l_fence l = tk_executionFence token;
  ho_version : l_attemptVersion l = tk_expectedVersion token;
  ho_live : l_releasedAt l = None;
  ho_checkpoint : forall k, checkpoints d !! a_runId a = Some k -> (k_attempt k <= a_ordinal a)%Z;
}.

Definition held (token : AttemptExecutionToken) (d : Db) : Prop := exists a l, holds token d a l.

Lemma inactive_not_held token d : inactive (tk_attemptId token) d -> ~ held token d.
Proof. intros Hi (a & l & Hh). pose proof (Hi _ (ho_attempt _ _ _ _ Hh)). pose proof (ho_active _ _ _ _ Hh). congruence. Qed.

(** The decision a rejection names is proposed for the held Attempt. *)
Definition names_proposed (token : AttemptExecutionToken) (d : Db) (sid : option string) : Prop :=
  forall a l s, holds token d a l -> sid = Some s -> proposed_for d a s.

Lemma names_none token d : names_proposed token d None.
Proof. by intros a l s _ [=]. Qed.

Lemma unheld_names token d sid : ~ held token d -> names_proposed token d sid.
Proof. intros Hn a l s Hh. destruct Hn. by exists a, l. Qed.

(** What happens between two moments: calls of the ports, and perhaps the
    beginning of the shut-down. *)
Definition meanwhile (w w' : World) : Prop :=
  rtc store_step (db w) (db w') /\ (closing (process w) = true -> closing (process w') = true).

(** The proposal a review answers with. *)
Definition proposal (run : TaskRun) (x : DecisionRow) (d : Db) : Prop :=
  d_attempt x = r_attempt (tr_row run)
  /\ exists y, decisions d !! d_id x = Some y /\ d_runId y = r_id (tr_row run) /\ d_attempt y = r_attempt (tr_row run)
     /\ d_status y = D_proposed.

(** What the Supervisor promises: its calls take their time, and the decision of
    a review is proposed for the Attempt it was asked about. *)
Class SupervisorLaws `{SupervisorPort} : Prop := {
  sl_settled run seq text tr w : Consistent (db w) ->
    wp (sp_reviewSettled run seq text tr) (fun v w' => meanwhile w w' /\ proposal run v.1 (db w'))
      (fun t w' => meanwhile w w' /\ exists e, t = Exn e) w;
  sl_attempt run seq text w : Consistent (db w) ->
    wp (sp_reviewAttemptFailure run seq text) (fun x w' => meanwhile w w' /\ proposal run x (db w'))
      (fun t w' => meanwhile w w' /\ exists e, t = Exn e) w;
  sl_failure run seq text w : Consistent (db w) ->
    wp (sp_recordReviewFailure run seq text) (fun x w' => meanwhile w w' /\ proposal run x (db w'))
      (fun t w' => meanwhile w w' /\ exists e, t = Exn e) w;
  sl_mark id st e w : Consistent (db w) ->
    wp (sp_markExecuted id st e) (fun _ => meanwhile w) (fun t w' => meanwhile w w' /\ exists e, t = Exn e) w;
}.

(** What a runtime promises: its prompt only takes its time. *)
Record RuntimeLaws (runtime : AttemptRuntimePort) : Prop := {
  rl_prompt text w : Consistent (db w) ->
    wp (prompt runtime text) (fun _ => meanwhile w) (fun t w' => meanwhile w w' /\ exists e, t = Exn e) w;
  rl_skill f name text w : Consistent (db w) -> invokeSkill runtime = Some f ->
    wp (f name text) (fun _ => meanwhile w) (fun t w' => meanwhile w w' /\ exists e, t = Exn e) w;
}.

Section settlement.
Context `{Platform, ContractType, SupervisorPort, RecoveryControlPort}.
Context (token : AttemptExecutionToken).
Hypothesis token_id : tk_attemptId token = attempt_id (tk_runId token) (tk_ordinal token).

(** The tables agree, the leases fit, and the Attempt of the token is there. *)
Record sound (d : Db) : Prop := {
  so_consistent : Consistent d;
  so_fits : fits d;
  so_known : is_Some (attempts d !! tk_attemptId token);
}.

Lemma steps_sound d d' : sound d -> rtc store_step d d' -> sound d'.
Proof. intros [Hc Hf Hk] Hs. split; [by eapply steps_consistent|by eapply steps_fits|by eapply row_kept]. Qed.

Lemma wp_store_steps {A} (m : tx Db A) (Q : A -> World -> Prop) (R : thrown -> World -> Prop) w :
  sound (db w) -> (forall a e, m (db w) = Ok (a, e) -> rtc store_step (db w) e) ->
  (forall a e, m (db w) = Ok (a, e) -> sound e -> Q a (with_gov (gov_with e (gov w)) w)) ->
  (forall e, m (db w) = Throw e -> R (Exn e) w) ->
  wp (store m) Q R w.
Proof. intros Hok Hst HQ HR. apply wp_store; [|done]. intros a e He. apply HQ; [done|]. eapply steps_sound; [done|]. eauto. Qed.

Lemma token_row d a : sound d -> attempts d !! tk_attemptId token = Some a -> a_runId a = tk_runId token /\ a_ordinal a = tk_ordinal token.
Proof. intros Hok Ha. pose proof (con_named (so_consistent _ Hok) _ _ Ha) as E. rewrite token_id in E. by apply attempt_id_inj in E as [-> ->]. Qed.

(** The TaskRun of a held Attempt runs it. *)
Lemma active_running d a :
  sound d -> attempts d !! tk_attemptId token = Some a -> a_active a = true ->
  exists r, runs d !! tk_runId token = Some r /\ r_status r = R_running /\ r_attempt r = tk_ordinal token.
Proof.
  intros Hok Ha Hact. destruct (token_row d a Hok Ha) as [<- <-].
  destruct (con_active (so_consistent _ Hok) _ _ Ha Hact) as (r & Hr & Ho & Hs). by exists r.
Qed.

Definition unreadable (w : World) : Prop := exists e, hydrateRun (tk_runId token) (clock w) (gov w) = Throw e.

(** The service is done with the Attempt. *)
Definition settled (w : World) : Prop := closing (process w) = true \/ ~ held token (db w) \/ unreadable w.

Lemma wp_getRun runId (Q : option TaskRun -> World -> Prop) (R : thrown -> World -> Prop) w :
  (forall r, hydrateRun runId (clock w) (gov w) = Ok r -> Q r w) ->
  (forall e, hydrateRun runId (clock w) (gov w) = Throw e -> R (Exn e) w) -> wp (getRun runId) Q R w.
Proof. intros HQ HR. apply wp_bind, wp_ask, wp_of_result; auto. Qed.

Lemma hydrate_row runId now d r : hydrateRun runId now d = Ok r -> tr_row <$> r = runs (gd_db d) !! runId.
Proof.
  unfold hydrateRun. destruct (runs (gd_db d) !! runId) as [row|]; [|by intros [= <-]]. intros Hs.
  apply result_bind_ok in Hs as (g & _ & Hs). by injection Hs as <-.
Qed.

(** A TaskRun that does not run the Attempt leaves it inactive. *)
Lemma not_running_inactive w r :
  sound (db w) -> hydrateRun (tk_runId token) (clock w) (gov w) = Ok r ->
  (forall run, r = Some run -> r_status (tr_row run) <> R_running \/ r_attempt (tr_row run) <> tk_ordinal token) ->
  inactive (tk_attemptId token) (db w).
Proof.
  intros Hok Hr Hn a Ha. destruct (a_active a) eqn:Hact; [|done]. exfalso.
  destruct (active_running _ a Hok Ha Hact) as (x & Hx & Hs & Ho). apply hydrate_row in Hr.
  unfold db in Hx. rewrite Hx in Hr. destruct r as [run|]; [|done]. injection Hr as <-. by destruct (Hn _ eq_refl).
Qed.

Lemma wp_recoverInterrupted reason sid w :
  sound (db w) -> names_proposed token (db w) sid ->
  wp (recoverInterrupted token reason sid) (fun _ w' => sound (db w') /\ ~ held token (db w')) (fun _ _ => False) w.
Proof.
  intros Hok Hsid. apply wp_try, wp_bind, wp_ask, wp_bind. pose proof Hok as [Hcon Hf _].
  assert (forall a l, holds token (db w) a l -> exists a' e d', recoverInterruptedAttempt (tk_attemptId token) (tk_expectedVersion token)
    (tk_ownerId token) (tk_leaseToken token) (tk_executionFence token) reason sid (clock w) (db w) = Ok ((a', Some e, true), d')) as Hcan.
  { intros a l Hh. pose proof Hh as [Ha Hact Hl (<- & <- & <-) <- Hlive Hk].
    destruct (holder_can_recover (db w) _ a l reason sid (clock w) Hcon Hf Ha Hact Hl Hlive Hk
      (fun s Hs => Hsid a l s Hh Hs)) as (a' & e & d' & E & _). eauto. }
  apply wp_store.
  - intros [[a' ev] rec] e He. apply wp_bind.
    assert (sound e /\ ~ held token e) as Hgoal.
    { apply recover_closed in He as Hc; [|done]. destruct rec.
      - destruct Hc as (a & r & r' & rows & Hc & Hid). split.
        + eapply steps_sound; [done|]. apply rtc_once. eapply ss_repo, step_close, Hc.
        + apply inactive_not_held. rewrite Hid. intros b. rewrite (cl_attempts Hc), lookup_insert_eq. intros [= <-].
          apply (cl_closed Hc).
      - subst e. split; [by eapply steps_sound|]. intros (a & l & Hh). destruct (Hcan a l Hh) as (? & ? & ? & E). congruence. }
    destruct ev as [event|]; [apply wp_publish|apply wp_ret]; apply wp_ret; exact Hgoal.
  - intros e He. apply wp_ret. split; [done|]. intros (a & l & Hh). destruct (Hcan a l Hh) as (? & ? & ? & E). congruence.
Qed.

(** * The Candidate and the verdict *)

Lemma wp_current_run (Q : TaskRun -> World -> Prop) (R : thrown -> World -> Prop) w :
  (forall run, hydrateRun (tk_runId token) (clock w) (gov w) = Ok (Some run) ->
     r_status (tr_row run) = R_running -> r_attempt (tr_row run) = tk_ordinal token -> Q run w) ->
  (forall e, R (Exn e) w) -> wp (current_run token) Q R w.
Proof.
  intros HQ HR. apply wp_bind, wp_getRun; [|by intros e _]. intros [run|] Hr; [|apply wp_raise, HR].
  destruct (_ && _) eqn:E; [|apply wp_raise, HR]. bool_prop. apply wp_ret. by apply HQ.
Qed.

Lemma record_steps cid i v tok fence response ts d c e :
  Consistent d -> recordCandidateResult cid i v tok fence response ts d = Ok (c, e) -> rtc store_step d e.
Proof.
  intros Hcon Hr. apply record_proposed in Hr as (_ & _ & _ & [[-> _]|(a & _ & _ & Hp)]); [done| |done].
  apply rtc_once. by eapply ss_repo, step_propose.
Qed.

(** What a call of the service throws: a rejection that names a proposed decision. *)
Definition rejected (sid : option string) (t : thrown) (w : World) : Prop :=
  sound (db w) /\ names_proposed token (db w) sid /\ exists m, t = Rejection m sid.

Lemma wp_rejecting {A} (m : io A) sid Q w :
  wp m Q (fun _ w' => sound (db w') /\ names_proposed token (db w') sid) w -> wp (rejecting m sid) Q (rejected sid) w.
Proof. intros Hm. apply wp_try. eapply wp_mono; [done| |exact Hm]. intros t w' [Hs Hn]. apply wp_raise. split_and!; eauto. Qed.

Lemma wp_recordCandidate response w :
  sound (db w) -> wp (recordCandidate token response) (fun _ w' => rtc store_step (db w) (db w')) (rejected None) w.
Proof.
  intros Hok. apply wp_rejecting, wp_bind, wp_current_run; [|intros e; split; [done|apply names_none]]. intros run _ _ _.
  assert (forall uid e, randomUUID (db w) = Ok (uid, e) -> rtc store_step (db w) e) as Huid.
  { intros uid e He. apply aside_steps. by apply uuid_aside in He. }
  apply wp_bind, wp_store_steps; [done|exact Huid| |].
  - intros uid e He Hok1. apply wp_bind, wp_ask, wp_store_steps; [done| | |by split; [|apply names_none]].
    + intros c e' Hr. eapply record_steps; [apply Hok1|exact Hr].
    + intros c e' Hr _. etrans; [by eapply Huid|]. eapply record_steps; [apply Hok1|exact Hr].
  - intros e He. by split; [|apply names_none].
Qed.

Lemma ensure_aside runId decisionId reason options ts d v d' :
  ensureApprovalRequest runId decisionId reason options ts d = Ok (v, d') -> aside d d'.
Proof.
  unfold ensureApprovalRequest. intros Hs. tx_inv Hs; [apply aside_refl|].
  match goal with E : randomUUID _ = Ok _ |- _ => apply randomUUID_ok in E as [-> ->] end.
  match goal with E : insert_approval _ _ _ = Ok _ |- _ => apply insert_approval_ok in E as (_ & -> & _) end. by split.
Qed.

(** After the verdict of the store. *)
Definition closed_for (w : World) : Prop :=
  sound (db w) /\ inactive (tk_attemptId token) (db w).

Lemma closed_steps w e : closed_for w -> rtc store_step (db w) e -> closed_for (with_gov (gov_with e (gov w)) w).
Proof. intros [Hok Hi] Hs. split; [by eapply steps_sound|]. eapply inactive_steps; [apply Hok|done|exact Hs]. Qed.

Lemma closed_unheld w : closed_for w -> sound (db w) /\ ~ held token (db w).
Proof. intros [Hok Hi]. split; [done|by apply inactive_not_held]. Qed.

Lemma wp_settleCandidate candidate decision status reason w :
  sound (db w) -> names_proposed token (db w) (Some (d_id decision)) ->
  wp (settleCandidate token candidate decision status reason)
    (fun _ w' => sound (db w') /\ ~ held token (db w')) (rejected (Some (d_id decision))) w.
Proof.
  intros Hok Hn. apply wp_rejecting.
  assert (forall w', closed_for w' -> sound (db w') /\ names_proposed token (db w') (Some (d_id decision))) as Hthrow.
  { intros w' Hc. destruct (closed_unheld _ Hc) as [? ?]. split; [done|by apply unheld_names]. }
  apply wp_bind, wp_current_run; [|done]. intros run _ _ _.
  apply wp_bind. destruct candidate as [c|]; [|by apply wp_raise]. destruct (String.eqb _ _); [|by apply wp_raise]. apply wp_ret.
  apply wp_bind, wp_ask, wp_bind, wp_store; [|done]. intros a e Hs.
  apply settle_closed in Hs as (a0 & r & r' & rows & Hc & Hid); [|apply Hok].
  assert (closed_for (with_gov (gov_with e (gov w)) w)) as Hcl.
  { split; [eapply steps_sound; [exact Hok|]; apply rtc_once; eapply ss_repo, step_close, Hc|].
    rewrite Hid. intros b. cbn. rewrite (cl_attempts Hc), lookup_insert_eq. intros [= <-]. apply (cl_closed Hc). }
  generalize dependent (with_gov (gov_with e (gov w)) w). intros w1 Hw1.
  apply wp_bind, wp_ask, wp_bind. eapply wp_mono; [| |apply (wp_each _ _ closed_for (fun _ _ => False)); [|exact Hw1]]; [|done|].
  2:{ intros x v _ Hv. by apply wp_publish. }
  intros u w2 Hw2. apply wp_bind. destruct (_ && _); [|apply wp_ret, wp_ret; by apply closed_unheld].
  apply wp_bind, wp_store; [|intros e2 _; by apply Hthrow]. intros ap e2 He2.
  pose proof (closed_steps w2 e2 Hw2 (aside_steps _ _ (ensure_aside _ _ _ _ _ _ _ _ He2))) as Hw3.
  generalize dependent (with_gov (gov_with e2 (gov w2)) w2). intros w3 Hw3.
  apply wp_bind, wp_store; [|intros e3 _; by apply Hthrow]. intros ev e3 He3. apply wp_publish, wp_ret.
  apply closed_unheld, (closed_steps w3 e3 Hw3). eapply appendEvent_steps; [apply Hw3|exact He3].
Qed.

Lemma wp_recovering (m : io bool) sid Q w :
  wp m Q (rejected sid) w -> (forall w', sound (db w') /\ ~ held token (db w') -> Q false w') ->
  wp (recovering token m) Q (fun _ _ => False) w.
Proof.
  intros Hm HQ. apply wp_try. eapply wp_mono; [done| |exact Hm]. intros t w' (Hok & Hn & msg & ->). apply wp_bind.
  eapply wp_mono; [| |by apply wp_recoverInterrupted]; [|done]. intros b w'' Hw. by apply wp_ret, HQ.
Qed.

(** * The catch block *)

Context `{!SupervisorLaws}.

(** The continuation that is executed, if the Attempt is one, and what the
    recovery of continuations has done when it was started because the lease of
    that continuation was found lost: [lost] is whatever it establishes then. *)
Context (continuationId : option string) (lost : World -> Prop).

(** An error that is not a rejection, in a sound world. *)
Definition failed (t : thrown) (w : World) : Prop := sound (db w) /\ exists e, t = Exn e.

Lemma meanwhile_sound w w' : sound (db w) -> meanwhile w w' -> sound (db w').
Proof. intros Hok [Hs _]. by eapply steps_sound. Qed.

(** A decision proposed for the TaskRun that was read as running names the
    Attempt of the token, if that is still held. *)
Lemma proposal_names w w' run x :
  sound (db w) -> hydrateRun (tk_runId token) (clock w) (gov w) = Ok (Some run) -> r_status (tr_row run) = R_running ->
  rtc store_step (db w) (db w') -> proposal run x (db w') -> names_proposed token (db w') (Some (d_id x)).
Proof.
  intros Hok Hr Hrun Hm (_ & y & Hy & Y1 & Y2 & Y3). pose proof (steps_sound _ _ Hok Hm) as Hok'.
  apply hydrate_row in Hr as Hrow. symmetry in Hrow. cbn in Hrow.
  pose proof (con_run (so_consistent _ Hok) _ _ Hrow) as Hid.
  destruct (decide (r_attempt (tr_row run) = tk_ordinal token)) as [Ho|Hne].
  - intros a l s Hh [= <-]. destruct (token_row _ a Hok' (ho_attempt _ _ _ _ Hh)) as [E1 E2].
    exists y. split; [done|]. rewrite E1, E2, Y1, Y2, Hid, Ho. done.
  - apply unheld_names, inactive_not_held. eapply inactive_steps; [apply Hok| |exact Hm].
    eapply not_running_inactive; [done|exact Hr|]. intros ? [= <-]. by right.
Qed.

(** The service is done with the Attempt, or has handed the continuation over. *)
Definition over (w : World) : Prop := settled w \/ lost w.

Lemma settled_unheld w : sound (db w) /\ ~ held token (db w) -> over w.
Proof. intros [_ Hn]. left. by right; left. Qed.

(** The recovery of continuations, started for a continuation that is not held:
    it hands the continuation over, or throws between lifecycle steps. *)
Hypothesis hands_over : forall w, sound (db w) -> continuation_owned continuationId w = false ->
  wp rp_recoverContinuations (fun _ => lost) failed w.

Lemma wp_settle_failure progress error w :
  sound (db w) -> (forall m sid, error = Rejection m sid -> names_proposed token (db w) sid) ->
  wp (settle_failure (tk_runId token) token continuationId progress error) (fun _ => over) failed w.
Proof.
  intros Hok Herr. apply wp_bind, wp_ask. destruct (closing (process w)) eqn:Ecl; [apply wp_ret; by left; left|].
  destruct error as [e|m sid].
  2:{ apply wp_bind. eapply wp_mono; [| |apply wp_recoverInterrupted; [done|by eapply Herr]]; [|done].
      intros b w' Hw. by apply wp_ret, settled_unheld. }
  apply wp_bind, wp_ask. destruct (continuation_owned continuationId w) eqn:Eow; cbn [negb].
  2:{ apply wp_bind. eapply wp_mono; [| |by apply hands_over]; [|done]. intros u w' Hw. apply wp_ret. by right. }
  apply wp_bind, wp_getRun; [|intros e' He; split; [done|by eexists]].
  intros [run|] Hr.
  2:{ apply wp_ret, settled_unheld. split; [done|]. apply inactive_not_held. eapply not_running_inactive; [done|exact Hr|]. by intros ? [=]. }
  case_bool_decide as Hrun; cbn [negb].
  2:{ apply wp_ret, settled_unheld. split; [done|]. apply inactive_not_held. eapply not_running_inactive; [done|exact Hr|].
      intros ? [= <-]. by left. }
  apply wp_bind, wp_ask. destruct (sp_isReviewError _).
  - apply wp_bind. eapply wp_mono; [| |apply sl_failure, Hok].
    + intros x w' [Hm Hp]. pose proof (meanwhile_sound _ _ Hok Hm) as Hok'. eapply wp_mono; [| |eapply wp_recovering].
      * intros b w'' Hw. exact Hw.
      * done.
      * eapply wp_mono; [| |apply wp_settleCandidate; [exact Hok'|eapply proposal_names; [exact Hok|exact Hr|done|apply Hm|exact Hp]]]; [|done].
        intros b w''. apply settled_unheld.
      * intros w''. apply settled_unheld.
    + intros t w' [Hm He]. split; [by eapply meanwhile_sound|done].
  - apply wp_bind.
    assert (forall c w1, sound (db w1) -> rtc store_step (db w) (db w1) ->
      wp (let* decision := sp_reviewAttemptFailure run (checkpoint_seq (tk_runId token) run (db w)) (thrown_message (Exn e)) in
          recovering token (settleCandidate token (Some c) decision TA_blocked (thrown_message (Exn e)))) (fun _ => over) failed w1) as Hrest.
    { intros c w1 Hok1 Hs. apply wp_bind. eapply wp_mono; [| |apply sl_attempt, Hok1].
      + intros x w' [Hm Hp]. pose proof (meanwhile_sound _ _ Hok1 Hm) as Hok'. eapply wp_mono; [| |eapply wp_recovering].
        * intros b w'' Hw. exact Hw.
        * done.
        * eapply wp_mono; [| |apply wp_settleCandidate; [exact Hok'|]]; [|done|].
          -- intros b w''. apply settled_unheld.
          -- eapply proposal_names; [exact Hok|exact Hr|done| |exact Hp]. etrans; [exact Hs|apply Hm].
        * intros w''. apply settled_unheld.
      + intros t w' [Hm He]. split; [by eapply meanwhile_sound|done]. }
    destruct (px_candidate progress) as [c|]; [apply wp_ret; by apply Hrest|].
    apply wp_try, wp_bind. eapply wp_mono; [| |apply wp_recordCandidate, Hok].
    + intros c w1 Hs1. apply wp_ret, Hrest; [by eapply steps_sound|done].
    + intros t w1 (Hok1 & Hn & msg & ->). apply wp_bind. eapply wp_mono; [| |by apply wp_recoverInterrupted]; [|done].
      intros b w'' Hw. apply wp_ret, wp_ret, settled_unheld, Hw.
Qed.

(** * The settlement *)

(** What a stage of the settlement throws: a rejection names a proposed decision. *)
Definition caught (t : thrown) (w : World) : Prop :=
  sound (db w) /\ forall m sid, t = Rejection m sid -> names_proposed token (db w) sid.

Lemma failed_caught t w : failed t w -> caught t w.
Proof. intros (Hok & e & ->). by split. Qed.

Lemma meanwhile_caught w t w' : sound (db w) -> meanwhile w w' /\ (exists e, t = Exn e) -> caught t w'.
Proof. intros Hok [Hm He]. apply failed_caught. split; [by eapply meanwhile_sound|done]. Qed.

Lemma rejected_caught sid t w : rejected sid t w -> caught t w.
Proof. intros (Hok & Hn & m & ->). split; [done|]. by intros ? ? [= _ <-]. Qed.

Lemma wp_attempting {A} (m : io A) (h : thrown -> io bool) Q R w :
  wp m (fun a => Q (inl a)) (fun t => wp (h t) (fun b => Q (inr b)) R) w -> wp (attempting m h) Q R w.
Proof.
  intros Hm. apply wp_try, wp_bind. eapply wp_mono; [| |exact Hm]; [done|]. intros t w' Ht. apply wp_bind.
  eapply wp_mono; [| |exact Ht]; done.
Qed.

(** The review of a Candidate of the TaskRun read at [w0]. *)
Lemma wp_review_candidate run candidate response w0 w :
  sound (db w0) -> hydrateRun (tk_runId token) (clock w0) (gov w0) = Ok (Some run) -> r_status (tr_row run) = R_running ->
  rtc store_step (db w0) (db w) ->
  wp (review_candidate (tk_runId token) token run candidate response) (fun _ => over) caught w.
Proof.
  intros Hok0 Hr Hrun Hs. pose proof (steps_sound _ _ Hok0 Hs) as Hok.
  apply wp_bind, wp_ask, wp_bind. eapply wp_mono; [| |apply sl_settled, Hok].
  2:{ intros t w'. by apply meanwhile_caught. }
  intros [x gates] w1 [Hm Hp]. pose proof (meanwhile_sound _ _ Hok Hm) as Hok1. cbn in Hp.
  assert (names_proposed token (db w1) (Some (d_id x))) as Hn.
  { eapply proposal_names; [exact Hok0|exact Hr|done| |exact Hp]. etrans; [exact Hs|apply Hm]. }
  apply wp_bind, wp_getRun; [|intros e _; by apply failed_caught; split; [|eexists]].
  intros reviewed Hr1.
  assert ((forall r1, reviewed = Some r1 -> r_status (tr_row r1) <> R_running \/ r_attempt (tr_row r1) <> d_attempt x) ->
    wp (do* sp_markExecuted (d_id x) D_superseded "" in mret false) (fun _ => over) caught w1) as Hover.
  { intros Hno. assert (inactive (tk_attemptId token) (db w1)) as Hi.
    { destruct (decide (r_attempt (tr_row run) = tk_ordinal token)) as [Ho|Hne].
      - eapply not_running_inactive; [done|exact Hr1|]. intros r1 Hr1'. rewrite <- Ho, <- (proj1 Hp). by apply Hno.
      - eapply (inactive_steps _ (db w0)); [apply Hok0| |etrans; [exact Hs|apply Hm]].
        eapply not_running_inactive; [done|exact Hr|]. intros ? [= <-]. by right. }
    apply wp_bind. eapply wp_mono; [| |apply sl_mark, Hok1].
    - intros u w2 Hm2. apply wp_ret, settled_unheld. split; [by eapply meanwhile_sound|]. apply inactive_not_held.
      eapply inactive_steps; [apply Hok1|exact Hi|apply Hm2].
    - intros t w2. by apply meanwhile_caught. }
  destruct reviewed as [r1|]; [|apply Hover; by intros ? [=]].
  destruct (_ && _) eqn:E; [|apply Hover; intros ? [= <-]; apply andb_false_iff in E as [?|?]; bool_prop; auto].
  assert (forall status reason, wp (settleCandidate token (Some candidate) x status reason) (fun _ => over) caught w1) as Hv.
  { intros status reason. eapply wp_mono; [| |by apply wp_settleCandidate].
    - intros b w2. apply settled_unheld.
    - intros t w2. apply rejected_caught. }
  destruct (bool_decide (d_action x = _)); apply Hv.
Qed.

Lemma executeRuntimePrompt_laws runtime text skill w :
  RuntimeLaws runtime -> sound (db w) ->
  wp (executeRuntimePrompt runtime text skill) (fun _ => meanwhile w) (fun t w' => meanwhile w w' /\ exists e, t = Exn e) w.
Proof.
  intros Hrt Hok. unfold executeRuntimePrompt. destruct (truthy_text skill) as [name|]; [|apply (rl_prompt _ Hrt), Hok].
  destruct (invokeSkill runtime) as [f|] eqn:Ef; [by apply (rl_skill _ Hrt); [apply Hok|]|].
  apply wp_raise. split; [by split|by eexists].
Qed.

(** The settlement returns with the Attempt out of its hands, or throws an
    error in a world where the tables still agree. *)
Lemma wp_execute runtime text w :
  RuntimeLaws runtime -> sound (db w) ->
  wp (execute (tk_runId token) token runtime text continuationId) (fun _ => over) failed w.
Proof.
  intros Hrt Hok. apply wp_bind, wp_attempting.
  assert (forall p t w', caught t w' -> wp (settle_failure (tk_runId token) token continuationId p t) (fun _ => over) failed w') as Hcatch.
  { intros p t w' [Hok' Hn]. by apply wp_settle_failure. }
  assert (forall e w', sound (db w') -> caught (Exn e) w') as Hexn by done.
  apply wp_bind, wp_getRun; [|by intros e _; apply Hcatch, Hexn]. intros r0 _.
  apply wp_bind. eapply wp_mono; [| |by apply executeRuntimePrompt_laws].
  2:{ intros t w1 Ht. eapply Hcatch, meanwhile_caught; [exact Hok|done]. }
  intros u w1 Hm. pose proof (meanwhile_sound _ _ Hok Hm) as Hok1.
  apply wp_bind. destruct (truthy_text (getError runtime)); [by apply wp_raise, Hcatch, Hexn|apply wp_ret].
  apply wp_bind. destruct (getProviderFailure runtime); [by apply wp_raise, Hcatch, Hexn|apply wp_ret].
  apply wp_bind, wp_ask. destruct (continuation_owned continuationId w1) eqn:Eow; cbn [negb].
  2:{ apply wp_bind. eapply wp_mono; [| |by apply hands_over]; [intros v w2 Hw2; apply wp_ret, wp_ret; by right|].
      intros t w2 Ht. apply Hcatch, failed_caught, Ht. }
  apply wp_bind, wp_getRun; [|by intros e _; apply Hcatch, Hexn].
  intros [run|] Hr.
  2:{ apply wp_ret, wp_ret, settled_unheld. split; [done|]. apply inactive_not_held. eapply not_running_inactive; [done|exact Hr|]. by intros ? [=]. }
  case_bool_decide as Hrun.
  2:{ apply wp_ret, wp_ret, settled_unheld. split; [done|]. apply inactive_not_held. eapply not_running_inactive; [done|exact Hr|].
      intros ? [= <-]. by left. }
  apply wp_bind, wp_ask, wp_bind, wp_of_result; [|by intros e _; apply Hcatch, Hexn].
  intros response _. apply wp_ret, wp_bind, wp_attempting. eapply wp_mono; [| |apply wp_recordCandidate, Hok1].
  2:{ intros t w2 Ht. eapply wp_mono; [| |by eapply Hcatch, rejected_caught]; [|done]. intros b w3 Hb. by apply wp_ret. }
  intros c w2 Hs. pose proof (steps_sound _ _ Hok1 Hs) as Hok2.
  apply wp_try. destruct (truncated runtime); [by apply wp_raise, Hcatch, Hexn|].
  eapply wp_mono; [| |eapply (wp_review_candidate _ _ _ w1 w2); [exact Hok1|exact Hr|done|exact Hs]]; [done|].
  intros t w3. apply Hcatch.
Qed.

(** * The last resort *)

Lemma wp_failRuntimeTaskRun reason data w :
  sound (db w) -> wp (failRuntimeTaskRun token reason data) (fun _ => closed_for) (fun _ w' => sound (db w')) w.
Proof.
  intros Hok. apply wp_bind, wp_ask, wp_bind, wp_store; [|done]. intros os e He.
  assert (closed_for (with_gov (gov_with e (gov w)) w)) as Hc.
  { split; [eapply steps_sound; [done|]; by eapply transitionRuntime_steps; [apply Hok|]|].
    apply transitionRuntime_closes in He as [_ Hi]; [done|apply Hok]. }
  by apply wp_of_result; intros; [|apply Hc].
Qed.

Lemma appendMessage_aside sid role content ts d u d' : appendMessage sid role content ts d = Ok (u, d') -> aside d d'.
Proof. unfold appendMessage. intros Hs. tx_inv Hs. by split. Qed.

Lemma wp_publish_all (I : World -> Prop) l R w :
  (forall e v, I v -> I {| gov := gov v; process := process v; published := published v ++ [e]; clock := clock v |}) ->
  I w -> wp (each publish l) (fun _ => I) R w.
Proof. intros HI Hw. apply wp_each; [|done]. intros e v _ Hv. by apply wp_publish, HI. Qed.

(** Only the row of the continuation changes. *)
Lemma updateContinuation_held i st e o ts d v d' : updateContinuation i st e o ts d = Ok (v, d') -> held token d' -> held token d.
Proof.
  intros Hs (a & l & [A1 A2 A3 A4 A5 A6 A7]).
  assert (attempts d' = attempts d /\ leases d' = leases d /\ checkpoints d' = checkpoints d) as (Ea & El & Ek).
  { unfold updateContinuation, update_continuation, write_continuation in Hs. cbv zeta in Hs. by tx_inv Hs. }
  exists a, l. rewrite Ea in A1. rewrite El in A3. rewrite Ek in A7. by split.
Qed.

(** The last statements: a continuation that is still owned has failed. *)
Definition fail_continuation (message : string) : io unit :=
  let* owned := ask (fun w => match truthy_text continuationId with
    | Some c => ownsContinuationLease c (continuationOwner (process w)) (clock w) (db w)
    | None => false
    end) in
  if (owned : bool) then
    let* now := ask clock in
    let* owner := ask (fun w => continuationOwner (process w)) in
    do* store (updateContinuation (default "" continuationId) N_failed message (Some owner) now) in mret tt
  else mret tt.

Lemma wp_fail_continuation message w : sound (db w) /\ ~ held token (db w) ->
  wp (fail_continuation message) (fun _ => over) (fun _ => over) w.
Proof.
  intros [Hok Hn]. apply wp_bind, wp_ask. destruct (truthy_text continuationId) as [c|].
  2:{ apply wp_ret. by apply settled_unheld. }
  destruct (ownsContinuationLease _ _ _ _); [|apply wp_ret; by apply settled_unheld].
  apply wp_bind, wp_ask, wp_bind, wp_ask, wp_bind, wp_store; [|intros e _; by apply settled_unheld]. intros b e He.
  apply wp_ret, settled_unheld. split; [eapply steps_sound; [exact Hok|]; eapply aside_steps, updateContinuation_aside, He|].
  intros Hh. apply Hn. by eapply updateContinuation_held.
Qed.

Lemma wp_settleAttemptExecutionFailure run t w :
  r_id (tr_row run) = tk_runId token -> sound (db w) ->
  wp (settleAttemptExecutionFailure run token continuationId t) (fun _ => over) (fun _ => over) w.
Proof.
  intros Hid Hok. apply wp_bind, wp_ask. destruct (closing (process w)) eqn:Ecl; [apply wp_ret; by left; left|].
  rewrite Hid. apply wp_bind, wp_getRun; [|intros e He; left; right; right; by exists e]. intros current Hr.
  set (message := "Attempt settlement failed safely: " +:+ thrown_message t).
  change (wp (let* _ := match current with
       | Some c =>
           if bool_decide (r_status (tr_row c) = R_running) && Z.eqb (r_attempt (tr_row c)) (tk_ordinal token) then
             try_catch (
               let* transition := failRuntimeTaskRun token message
                 [("error", JStr message); ("reason", JStr "attempt_settlement_failed")] in
               let* now := ask clock in
               do* store (appendMessage (r_sessionId (tr_row run)) "assistant" ("Run failed: " +:+ message) now) in
               publishTransitionOutcome transition)
               (fun _ => do* recoverInterrupted token message None in mret tt)
           else mret tt
       | None => mret tt
       end in fail_continuation message) (fun _ => over) (fun _ => over) w).
  assert ((forall c, current = Some c -> r_status (tr_row c) <> R_running \/ r_attempt (tr_row c) <> tk_ordinal token) ->
    wp (fail_continuation message) (fun _ => over) (fun _ => over) w) as Hover.
  { intros Hno. apply wp_fail_continuation. split; [done|]. apply inactive_not_held. by eapply not_running_inactive. }
  apply wp_bind. destruct current as [c|]; [|apply wp_ret, Hover; by intros ? [=]].
  destruct (_ && _) eqn:E.
  2:{ apply wp_ret, Hover. intros ? [= <-]. apply andb_false_iff in E as [?|?]; bool_prop; auto. }
  apply wp_try. assert (forall w1, sound (db w1) -> wp (do* recoverInterrupted token message None in mret tt)
    (fun _ v => wp (fail_continuation message) (fun _ => over) (fun _ => over) v) (fun _ => over) w1) as Hrec.
  { intros w1 Hok1. apply wp_bind. eapply wp_mono; [| |by apply wp_recoverInterrupted; [|apply names_none]]; [|done].
    intros b w2 Hw2. by apply wp_ret, wp_fail_continuation. }
  apply wp_bind. eapply wp_mono; [| |apply wp_failRuntimeTaskRun, Hok]; [|intros t' w1 Hok1; by apply Hrec].
  intros o w1 Hc1. apply wp_bind, wp_ask, wp_bind, wp_store; [|intros e _; apply Hrec, Hc1]. intros u e He.
  pose proof (closed_steps w1 e Hc1 (aside_steps _ _ (appendMessage_aside _ _ _ _ _ _ _ He))) as Hc2.
  apply wp_bind. eapply wp_mono; [| |apply (wp_publish_all closed_for _ (fun _ _ => False)); [by intros ? ?|exact Hc2]]; [|done].
  intros u' w3 Hc3. by apply wp_publish, wp_fail_continuation, closed_unheld.
Qed.


End settlement.
