(* ===== verification/ServiceSteps.v ===== *)
(** What the services do to the database and to the process state, call by
    call: whatever a call does, the leases of the Attempts only grow (their
    fences go up, and under one fence the holder stays and a release stands),
    and it does not take up an Attempt that is over. The lemmas of the hint
    databases [ledgered] and [keeps] follow the structure of the calls; the
    tactics [ledger] and [keeps] apply them. *)
From S2P Require Import Prelude Json TaskPolicy Attempt GateData ExecDb Canonical AttemptRepo RunStore Transcript Continuation Transition Tools Mailbox RuntimeMutation PlanGraph PlanStore AuditAlgebra Evidence CompletionGate Supervisor RunView Approval Service Settlement EventHub Dispatcher Scheduler Executor AttemptSpec StoreSpec AttemptRefine StoreRefine AttemptTrace PortSteps ContinuationSteps PortTrace GovernanceFacts SettlementFacts.
Local Open Scope tx_scope.

(** * The ledger of the leases *)

(** The leases are kept by their Attempt and meet the CHECKs of their table. *)
Definition ledger (m : gmap string LeaseRow) : Prop := forall i l, m !! i = Some l -> l_attemptId l = i /\ lease_check l = true.

(** What may become of a lease. *)
Definition grows (l l' : LeaseRow) : Prop := (l_fence l <= l_fence l')%Z
  /\ (l_fence l = l_fence l' -> l_ownerId l' = l_ownerId l /\ l_token l' = l_token l /\ (l_releasedAt l <> None -> l_releasedAt l' <> None)).

#[export] Instance grows_preorder : PreOrder grows.
Proof.
  split; [intros l; by split_and!|]. intros l1 l2 l3 [F1 H1] [F2 H2]. split; [lia|]. intros E.
  destruct H1 as (O1 & T1 & R1); [lia|]. destruct H2 as (O2 & T2 & R2); [lia|]. split_and!; [congruence|congruence|auto].
Qed.

Record ledger_step (m m' : gmap string LeaseRow) : Prop := {
  ld_ok : ledger m -> ledger m';
  ld_grows : ledger m -> forall i l, m !! i = Some l -> exists l', m' !! i = Some l' /\ grows l l';
}.

#[export] Instance ledger_preorder : PreOrder ledger_step.
Proof.
  split; [intros m; split; [done|]; intros _ i l Hl; by exists l|]. intros m1 m2 m3 [O1 G1] [O2 G2]. split; [auto|].
  intros Hm i l Hl. destruct (G1 Hm i l Hl) as (l2 & Hl2 & ?). destruct (G2 (O1 Hm) i l2 Hl2) as (l3 & Hl3 & ?).
  exists l3. split; [done|by etrans].
Qed.

(** A row changes in place. *)
Lemma ledger_alter f i m : (forall l, l_attemptId (f l) = l_attemptId l /\ lease_check (f l) = lease_check l /\ grows l (f l)) ->
  ledger_step m (alter f i m).
Proof.
  intros Hf. split.
  - intros Hm j l. rewrite lookup_alter. case_decide as E; [subst j|apply Hm]. intros (x & Hx & ->)%fmap_Some.
    destruct (Hf x) as (E1 & E2 & _). rewrite E1, E2. by apply Hm.
  - intros Hm j l Hl. rewrite lookup_alter. case_decide as E; [subst j|by exists l]. rewrite Hl. eexists. split; [done|apply Hf].
Qed.

Lemma ledger_insert m i l : l_attemptId l = i -> lease_check l = true -> (forall x, m !! i = Some x -> grows x l) ->
  ledger_step m (<[i := l]> m).
Proof.
  intros Hi Hc Hg. split.
  - intros Hm j x [[<- <-]|[_ Hx]]%lookup_insert_Some; [done|by apply Hm].
  - intros Hm j x Hx. destruct (decide (i = j)) as [<-|Hij]; [exists l; rewrite lookup_insert_eq; auto|].
    exists x. by rewrite lookup_insert_ne.
Qed.

(** A transaction the leases only grow in. *)
Definition ledgered {A} (m : tx Db A) : Prop := forall d a d', m d = Ok (a, d') -> ledger_step (leases d) (leases d').

Create HintDb ledgered.

Section ledgered.
Context `{Platform}.

Lemma ledgered_ret {A} (a : A) : ledgered (mret a).
Proof. by intros d x d' [_ ->]%mret_ok. Qed.

Lemma ledgered_bind {A B} (m : tx Db A) (f : A -> tx Db B) : ledgered m -> (forall a, ledgered (f a)) -> ledgered (mbind f m).
Proof. intros Hm Hf d b d' (a & d1 & H1%Hm & H2%Hf)%tx_bind_ok. by etrans. Qed.

Lemma ledgered_throw {A} e : ledgered (throw e : tx Db A).
Proof. by intros d a d'. Qed.

Lemma ledgered_gets {A} (f : Db -> A) : ledgered (gets f).
Proof. by intros d a d' [_ ->]%gets_ok. Qed.

Lemma ledgered_require b e : ledgered (require b e).
Proof. by intros d a d' [_ ->]%require_ok. Qed.

Lemma ledgered_present {A} (o : option A) e : ledgered (present o e).
Proof. by intros d a d' [_ ->]%present_ok. Qed.

Lemma ledgered_lift {A} (r : result A) : ledgered (lift r).
Proof. by intros d a d' [_ ->]%lift_ok. Qed.

Lemma ledgered_modify (f : Db -> Db) : (forall d, leases (f d) = leases d) -> ledgered (modify f).
Proof. intros Hf d u d' ->%modify_ok. by rewrite Hf. Qed.

Lemma ledgered_aside {A} (m : tx Db A) : (forall d a d', m d = Ok (a, d') -> aside d d') -> ledgered m.
Proof. intros Hm d a d' Hs%Hm. by rewrite (as_leases _ _ Hs). Qed.

Lemma ledgered_alter f i : (forall l, l_attemptId (f l) = l_attemptId l /\ lease_check (f l) = lease_check l /\ grows l (f l)) ->
  ledgered (modify (set_leases (alter f i))).
Proof. intros Hf d u d' ->%modify_ok. by apply ledger_alter. Qed.

Lemma ledgered_update i p f : (forall l, p l = true -> l_attemptId (f l) = l_attemptId l /\ grows l (f l)) -> ledgered (update_lease i p f).
Proof.
  intros Hf d n d' Hs. unfold update_lease in Hs. apply tx_bind_ok in Hs as (m & d1 & [-> ->]%gets_ok & Hs).
  destruct (leases d !! i) as [l|] eqn:Hl; [|by apply mret_ok in Hs as [_ ->]].
  destruct (p l) eqn:Hp; [|by apply mret_ok in Hs as [_ ->]]. apply tx_bind_ok in Hs as (u & d1 & Hw & [_ ->]%mret_ok).
  unfold write_lease in Hw. apply tx_bind_ok in Hw as (? & d2 & [Hc ->]%require_ok & ->%modify_ok). cbn.
  destruct (Hf l Hp) as [E G].
  assert (ledger (leases d) -> ledger_step (leases d) (<[l_attemptId (f l) := f l]> (leases d))) as Hs.
  { intros Hm. destruct (Hm _ _ Hl) as [Ei _]. rewrite E, Ei. apply ledger_insert; [congruence|done|]. rewrite Hl. by intros x0 [= <-]. }
  split; intros Hm; by apply (Hs Hm).
Qed.

Lemma ledgered_for_each {A} (f : A -> tx Db unit) l : (forall x, ledgered (f x)) -> ledgered (for_each f l).
Proof.
  intros Hf d u d' Hs. eapply (for_each_ind (fun t => ledger_step (leases d) (leases t))) in Hs; [exact Hs| |done].
  intros x t t' _ Ht Hx. etrans; [exact Ht|by eapply Hf].
Qed.

Lemma ledgered_map {A B} (f : A -> tx Db B) l : (forall x, ledgered (f x)) -> ledgered (map_tx f l).
Proof.
  intros Hf d u d' Hs. eapply (map_tx_ind (fun t => ledger_step (leases d) (leases t))) in Hs; [exact Hs| |done].
  intros x t t' y _ Ht Hx. etrans; [exact Ht|by eapply Hf].
Qed.

Lemma ledgered_uuid : ledgered randomUUID.
Proof. by intros d a d' [_ ->]%randomUUID_ok. Qed.
End ledgered.

#[export] Hint Resolve ledgered_ret ledgered_throw ledgered_gets ledgered_require ledgered_present ledgered_lift ledgered_uuid : ledgered.
#[export] Hint Extern 1 (ledgered (modify _)) => apply ledgered_modify; intros; reflexivity : ledgered.

(** Follows the statements of an operation through the definitions it is built from. *)
Ltac ledger := repeat first
  [ progress intros
  | match goal with |- ledgered (match ?o with _ => _ end) => destruct o end
  | match goal with |- ledgered (let _ := ?v in _) => cbv zeta end
  | solve [auto with ledgered]
  | apply ledgered_update; intros; bool_prop; split; [reflexivity|]; split; [cbn; lia|intros _; split_and!; [done|done|cbn; congruence]]
  | apply ledgered_alter; intros; case_match; split_and!; try reflexivity; split; [cbn; lia|intros _; split_and!; [done|done|cbn; congruence]]
  | apply ledgered_bind | apply ledgered_for_each | apply ledgered_map
  | match goal with |- ledgered (?f _) => unfold f | |- ledgered (?f _ _) => unfold f | |- ledgered (?f _ _ _) => unfold f
      | |- ledgered (?f _ _ _ _) => unfold f | |- ledgered (?f _ _ _ _ _) => unfold f | |- ledgered (?f _ _ _ _ _ _) => unfold f
      | |- ledgered (?f _ _ _ _ _ _ _) => unfold f | |- ledgered (?f _ _ _ _ _ _ _ _) => unfold f
      | |- ledgered (?f _ _ _ _ _ _ _ _ _) => unfold f | |- ledgered (?f _ _ _ _ _ _ _ _ _ _) => unfold f end ].

Section stored.
Context `{Platform}.

(** The projection and the log leave the leases. *)
Lemma ledgered_project rid n t s a b c e : ledgered (projectAttempt rid n t s a b c e).
Proof. intros d v d' Hs. apply (projectAttempt_keeps leases) in Hs as ->; done. Qed.

Lemma ledgered_event runId type data ts : ledgered (appendEvent runId type data ts).
Proof. ledger. Qed.
Hint Resolve ledgered_project ledgered_event : ledgered.

Lemma ledgered_message sid role content ts : ledgered (appendMessage sid role content ts).
Proof. ledger. Qed.
Lemma ledgered_candidate cid i v tok fence response ts : ledgered (recordCandidateResult cid i v tok fence response ts).
Proof. ledger. Qed.
Lemma ledgered_settle i v tok fence cid sid st reason ts : ledgered (settleAttempt i v tok fence cid sid st reason ts).
Proof. ledger. Qed.
Lemma ledgered_approval runId did reason o ts : ledgered (ensureApprovalRequest runId did reason o ts).
Proof. ledger. Qed.
Lemma ledgered_recover i v owner tok fence reason sid ts : ledgered (recoverInterruptedAttempt i v owner tok fence reason sid ts).
Proof. ledger. Qed.
Lemma ledgered_cancel i reason ts : ledgered (cancelAttempt i reason ts).
Proof. ledger. Qed.
Lemma ledgered_runtime command f dbTime ts : ledgered (transitionRuntime command f dbTime ts).
Proof. ledger. Qed.
Lemma ledgered_continuation i st e o ts : ledgered (updateContinuation i st e o ts).
Proof. ledger. Qed.
Lemma ledgered_renew_continuation i o ms ts : ledgered (renewContinuationLease i o ms ts).
Proof. ledger. Qed.
Lemma ledgered_queue runId reason nb ts : ledgered (Continuation.queueContinuation runId reason nb ts).
Proof. ledger. Qed.
Lemma ledgered_repair runId reason ts : ledgered (repairTranscript runId reason ts).
Proof. ledger. Qed.
Lemma ledgered_fenced_event f dbTime type data ts : ledgered (fencedAppendEvent f dbTime type data ts).
Proof. ledger. Qed.
Lemma ledgered_checkpoint f dbTime act partial tool es tseq ts : ledgered (fencedUpsertCheckpoint f dbTime act partial tool es tseq ts).
Proof. ledger. Qed.
Lemma ledgered_control i st e ts : ledgered (completeControlItem i st e ts).
Proof. ledger. Qed.
Lemma ledgered_claim_control runId n ts : ledgered (claimControlItem runId n ts).
Proof. ledger. Qed.
Lemma ledgered_control_delivery f dbTime i st e ts : ledgered (completeControlDelivery f dbTime i st e ts).
Proof. ledger. Qed.
Lemma ledgered_lease_renewal i owner tok fence ms ts : ledgered (renewExecutionLease i owner tok fence ms ts).
Proof. ledger. Qed.
Lemma ledgered_lease_release i owner tok fence ts : ledgered (releaseExecutionLease i owner tok fence ts).
Proof. ledger. Qed.
Lemma ledgered_reconcile ts : ledgered (reconcileSupervisorDecisionStatuses ts).
Proof. ledger. Qed.
Lemma ledgered_crash_recovery k clock : ledgered (queueSafeCrashRecoveryContinuations k clock).
Proof. ledger. Qed.
Lemma ledgered_recover_continuations ts : ledgered (recoverContinuationsAfterRestart ts).
Proof. ledger. Qed.
Lemma ledgered_release_continuation i o e ts : ledgered (releaseContinuationLease i o e ts).
Proof. ledger. Qed.
Lemma ledgered_release_continuations o e ts : ledgered (releaseContinuationLeases o e ts).
Proof. ledger. Qed.
Lemma ledgered_cancel_continuations rid e ts : ledgered (cancelQueuedContinuations rid e ts).
Proof. ledger. Qed.
Lemma ledgered_claim_continuation rid o ms ts : ledgered (claimContinuation rid o ms ts).
Proof. ledger. Qed.
End stored.

#[export] Hint Resolve ledgered_project ledgered_event ledgered_message ledgered_candidate ledgered_settle ledgered_approval ledgered_recover
  ledgered_cancel ledgered_runtime ledgered_continuation ledgered_renew_continuation ledgered_queue ledgered_repair ledgered_fenced_event
  ledgered_checkpoint ledgered_control ledgered_claim_control ledgered_control_delivery ledgered_lease_renewal ledgered_lease_release
  ledgered_reconcile ledgered_crash_recovery ledgered_recover_continuations ledgered_release_continuation ledgered_release_continuations
  ledgered_cancel_continuations ledgered_claim_continuation : ledgered.

(** * Calls of the services *)

(** The process between two moments: it does not come back from closing, and it
    holds no token and no execution of the Attempt that it did not hold. *)
Record process_after (token : AttemptExecutionToken) (s s' : ExecutionState) : Prop := {
  pa_closing : closing s = true -> closing s' = true;
  pa_token : checkpointTokens s' !! tk_runId token = Some token -> checkpointTokens s !! tk_runId token = Some token;
  pa_execution : executionTasks s' !! tk_runId token = Some (tk_attemptId token) ->
    executionTasks s !! tk_runId token = Some (tk_attemptId token);
}.

Record elsewhere (token : AttemptExecutionToken) (w w' : World) : Prop := {
  el_leases : ledger_step (leases (db w)) (leases (db w'));
  el_process : process_after token (process w) (process w');
}.

Definition keeps (token : AttemptExecutionToken) {A} (m : io A) : Prop := forall w, elsewhere token w (m w).2.

Section keeps.
Context (token : AttemptExecutionToken).

Lemma process_after_refl s : process_after token s s.
Proof. by split. Qed.

Lemma elsewhere_refl w : elsewhere token w w.
Proof. split; [done|apply process_after_refl]. Qed.

Lemma elsewhere_trans w1 w2 w3 : elsewhere token w1 w2 -> elsewhere token w2 w3 -> elsewhere token w1 w3.
Proof. intros [S1 [C1 T1 E1]] [S2 [C2 T2 E2]]. split; [by etrans|]. split; auto. Qed.

Lemma keeps_ret {A} (a : A) : keeps token (mret a).
Proof. intros w. apply elsewhere_refl. Qed.

Lemma keeps_raise {A} t : keeps token (raise t : io A).
Proof. intros w. apply elsewhere_refl. Qed.

Lemma keeps_ask {A} (f : World -> A) : keeps token (ask f).
Proof. intros w. apply elsewhere_refl. Qed.

Lemma keeps_of_result {A} (r : result A) : keeps token (of_result r).
Proof. intros w. destruct r; apply elsewhere_refl. Qed.

Lemma keeps_bind {A B} (m : io A) (f : A -> io B) : keeps token m -> (forall a, keeps token (f a)) -> keeps token (mbind f m).
Proof.
  intros Hm Hf w. specialize (Hm w). unfold mbind, call_mbind. destruct (m w) as [[a|t] w']; [|done]. cbn in Hm.
  eapply elsewhere_trans; [exact Hm|]. apply Hf.
Qed.

Lemma keeps_try {A} (m : io A) h : keeps token m -> (forall t, keeps token (h t)) -> keeps token (try_catch m h).
Proof.
  intros Hm Hh w. specialize (Hm w). unfold try_catch. destruct (m w) as [[a|t] w']; [done|]. cbn in Hm.
  eapply elsewhere_trans; [exact Hm|]. apply Hh.
Qed.

Lemma keeps_finally {A} (m : io A) f : keeps token m -> keeps token f -> keeps token (try_finally m f).
Proof.
  intros Hm Hf w. specialize (Hm w). unfold try_finally. destruct (m w) as [r w']. cbn in Hm.
  pose proof (Hf w') as Hf'. destruct (f w') as [[u|t] w'']; by eapply elsewhere_trans.
Qed.

Lemma keeps_store {A} (m : tx Db A) : ledgered m -> keeps token (store m).
Proof.
  intros Hm w. unfold store, commit. rewrite in_exec_run. destruct (m (gd_db (gov w))) as [[a e]|x] eqn:E; [|apply elsewhere_refl].
  split; [|apply process_after_refl]. by eapply Hm.
Qed.

Lemma keeps_publish e : keeps token (publish e).
Proof. intros w. split; [done|apply process_after_refl]. Qed.

Lemma keeps_update f : (forall s, process_after token s (f s)) -> keeps token (update f).
Proof. intros Hf w. split; [done|apply Hf]. Qed.

Lemma keeps_each {A} (f : A -> io unit) l : (forall x, keeps token (f x)) -> keeps token (each f l).
Proof. intros Hf. induction l as [|x l IH]; [apply keeps_ret|]. apply keeps_bind; [apply Hf|by intros _]. Qed.

End keeps.

Create HintDb keeps.
#[export] Hint Resolve keeps_ret keeps_raise keeps_ask keeps_of_result keeps_publish : keeps.

(** A call by its structure: the cases of its matches, the stages of its binds
    and handlers; the leaves are in the hint databases. *)
Ltac keeps_step :=
  lazymatch goal with
  | |- forall _, _ => intro
  | |- keeps _ (match ?x with _ => _ end) => destruct x
  | |- keeps _ (mbind _ _) => apply keeps_bind
  | |- keeps _ (try_catch _ _) => apply keeps_try
  | |- keeps _ (try_finally _ _) => apply keeps_finally
  | |- keeps _ (store _) => apply keeps_store; solve [eauto with ledgered]
  | |- keeps _ (each _ _) => apply keeps_each
  | |- keeps _ (update _) => apply keeps_update; intros; split; cbn; solve [auto]
  | |- keeps _ _ => solve [eauto with keeps]
  end.
Ltac keeps := cbv zeta; repeat (keeps_step; cbv zeta beta).

(** * The recovery of continuations *)

Section recovery.
Context `{Platform, ContractType}.
Context (token : AttemptExecutionToken).

Lemma keeps_getRun runId : keeps token (getRun runId).
Proof. unfold getRun. keeps. Qed.
Hint Resolve keeps_getRun : keeps.

Lemma keeps_logged runId type data : keeps token (logged runId type data).
Proof. unfold logged. keeps. Qed.
Hint Resolve keeps_logged : keeps.

Lemma keeps_scheduleContinuationRecovery : keeps token scheduleContinuationRecovery.
Proof. unfold scheduleContinuationRecovery. keeps. Qed.
Hint Resolve keeps_scheduleContinuationRecovery : keeps.

Lemma keeps_queueContinuation runId failure : keeps token (queueContinuation runId failure).
Proof. unfold queueContinuation, say. keeps. Qed.
Hint Resolve keeps_queueContinuation : keeps.

Lemma keeps_repair runId reason : keeps token (repair runId reason).
Proof. unfold repair. keeps. Qed.
Hint Resolve keeps_repair : keeps.

(** The recovery of the scheduler, the one that blocks whatever became of an Attempt. *)
Lemma keeps_recoverContinuations : keeps token recoverContinuations.
Proof. unfold recoverContinuations, reconcile_restart. keeps. Qed.
End recovery.

#[export] Hint Resolve keeps_getRun keeps_logged keeps_scheduleContinuationRecovery keeps_queueContinuation keeps_repair
  keeps_recoverContinuations : keeps.
