(* ===== verification/Reviews.v ===== *)
(** The Supervisor as the settlement sees it (apps/core-service/src/composition/
    supervisor.ts, execution-composition.ts): the reviews with the time their
    reviewer takes, and the review of a failed Attempt. *)
From S2P Require Import Prelude Regex Json TaskPolicy Attempt GateData ExecDb Canonical RunStore PlanGraph PlanStore AuditAlgebra Evidence CompletionGate Supervisor RunView Approval Service Settlement.
Local Open Scope tx_scope.

(** * The classification of a failure *)

(** The actions the review of a failure may take. *)
Inductive FailureAction := F_pause_for_approval | F_block_taskrun | F_start_continuation.

#[export] Instance failure_action_eq_dec : EqDecision FailureAction.
Proof. solve_decision. Defined.

Definition of_failure_action (a : FailureAction) : SupervisorAction :=
  match a with
  | F_pause_for_approval => S_pause_for_approval | F_block_taskrun => S_block_taskrun | F_start_continuation => S_start_continuation
  end.

Record AttemptFailureAudit := { fa_action : FailureAction; fa_reasonCode : string; fa_rationale : string }.

Definition candidate_integrity : re :=
  Alt (Seq (Alts [Text "non-empty"; Text "transport-complete"; Text "token-truncated"]) (Text " deliverable candidate"))
      (Text "provider failure remained after bounded recovery").

(** Its alternatives in Chinese need code units above 255. *)
Definition approval_boundary : re :=
  Alts [Text "approval required"; Seqs [Text "require"; Opt (Text "s"); Text " "; Opt (Text "explicit "); Text "approval"];
        Seqs [Text "need"; Opt (Text "s"); Text " approval"]].

Definition word (r : re) : re := Seqs [Edge; r; Edge].

Definition configuration_invalid : re :=
  Alts [word (Text "401"); word (Text "403"); Text "unauthorized"; Text "forbidden"; Text "invalid api key"; Text "authentication";
        Text "model is not allowed"; Seq (Text "missing ") (Alt (Text "api key") (Text "configuration"));
        Text "configuration error"; Text "unknown model"].

(** [.?]: any character but the end of a line, or none. *)
Definition any_opt : re := Opt (Chr (fun c => negb (has_char c (String.String (Ascii.ascii_of_nat 10) (String.String (Ascii.ascii_of_nat 13) ""))))).

Definition transient_failure : re :=
  Alts [word (Text "408"); word (Text "429"); word (Seq (Text "50") (AnyOf "0234")); Seqs [Text "rate"; any_opt; Text "limit"];
        Text "too many requests"; Seqs [Text "model"; Opt (AnyOf "_ -"); Text "cooldown"];
        Seqs [Text "model is "; Opt (Text "currently "); Alt (Text "in") (Text "on"); Text " cooldown"];
        Seqs [Text "time"; Opt (Text "d"); Spaces; Text "out"]; Text "timeout"; Text "econnreset"; Text "econnrefused";
        Text "enotfound"; Text "socket hang up"; Text "network error"; Text "fetch failed"; Text "service unavailable";
        Text "temporarily unavailable"; Seqs [Text "context"; any_opt; Text "length"]].

Definition classifyAttemptFailure (error : string) : option AttemptFailureAudit :=
  let source := lower error in
  if test candidate_integrity source then
    Some {| fa_action := F_block_taskrun; fa_reasonCode := "runtime_candidate_integrity_failed";
            fa_rationale := "Runtime exhausted its bounded provider recovery without a valid deliverable candidate: " +:+ error |}
  else if test approval_boundary source then
    Some {| fa_action := F_pause_for_approval; fa_reasonCode := "runtime_approval_required";
            fa_rationale := "Runtime reported an explicit approval boundary: " +:+ error |}
  else if test configuration_invalid source then
    Some {| fa_action := F_block_taskrun; fa_reasonCode := "runtime_configuration_invalid";
            fa_rationale := "Runtime authentication or configuration must be corrected externally: " +:+ error |}
  else if test transient_failure source then
    Some {| fa_action := F_start_continuation; fa_reasonCode := "runtime_transient_failure";
            fa_rationale := "Runtime reported a known transient provider or transport failure: " +:+ error |}
  else None.

(** A TaskRun that performs an external action waits for a new approval. *)
Definition requireExternalFailureApproval (run : GovernanceTaskRunView) (source : AttemptFailureAudit) : AttemptFailureAudit :=
  if bool_decide (fa_action source = F_start_continuation)
     && bool_decide (mode (effectiveTaskExecutionPolicy (contract_view run) [] None) = external_action)
  then {| fa_action := F_pause_for_approval; fa_reasonCode := "external_action_reapproval_required";
          fa_rationale := "A new Attempt cannot inherit external-action authorization activated for an earlier Attempt; explicit approval is required before retrying the external action." |}
  else source.

(** * The reviews *)

(** The port SupervisorReviewer: its name, its answers, and what else happens
    while it works, which throws when the reviewer does. *)
Class SupervisorReviewer := {
  rv_model : string;
  rv_review : ReviewKind -> GovernanceTaskRunView -> string -> bool -> list (string * OperationRow) -> list EvidenceSource -> option SupervisorAudit;
  rv_settled : GovernanceTaskRunView -> string -> bool -> list (string * OperationRow) -> list EvidenceSource -> SupervisorAudit;
  rv_working : io unit;
  rv_failure : GovernanceTaskRunView -> string -> io AttemptFailureAudit;
}.

Section reviews.
Context `{Platform, ContractType, SupervisorReviewer}.

(** The digest of what a review was shown. *)
Context (inputManifestHash : GovernanceTaskRunView -> Z -> string -> GovDb -> string).

(** The review of a settled Attempt asks the reviewer. *)
Definition asks_reviewer (run : GovernanceTaskRunView) (response : string) (truncated : bool) (d : GovDb) : bool :=
  let profile := effectiveGateProfile (contract_view run) in
  bool_decide (pending_controls (gv_run run) (gd_db d) = []) && negb (bool_decide (profile = gate_off))
  && match reviewed_audit rv_review rv_settled run response truncated profile d with
     | Ok r => bool_decide (ra_override r = None)
     | Throw _ => false
     end.

Definition settled_review (run : TaskRun) (checkpointSeq : Z) (response : string) (truncated : bool) : io (DecisionRow * list GateRow) :=
  let view := governance_view run in
  let* before := ask gov in
  do* (if asks_reviewer view response truncated before then rv_working else mret tt) in
  let* now := ask clock in
  commit (reviewSettled rv_model rv_review rv_settled view checkpointSeq response truncated
    (inputManifestHash view checkpointSeq response before) before now).

(** [createDecision] of supervisor.ts, outside a transaction of its caller. *)
Definition decide_now (run : GovernanceTaskRunView) (checkpointSeq : Z) (trigger : string) (act : SupervisorAction)
    (reasonCode rationale : string) (override : option (string * string)) : io DecisionRow :=
  let* now := ask clock in
  let* uid := store randomUUID in
  store (recordSupervisorDecision (createDecision rv_model (cv_id (gv_run run)) (cv_attempt (gv_run run)) checkpointSeq trigger
    act reasonCode rationale "" override uid now)).

Definition decide_failure (run : GovernanceTaskRunView) (checkpointSeq : Z) (audit : AttemptFailureAudit)
    (override : option (string * string)) : io DecisionRow :=
  let normalized := requireExternalFailureApproval run audit in
  decide_now run checkpointSeq "attempt_terminal" (of_failure_action (fa_action normalized)) (fa_reasonCode normalized)
    (fa_rationale normalized) override.

Definition reviewAttemptFailure (run : TaskRun) (checkpointSeq : Z) (error : string) : io DecisionRow :=
  let view := governance_view run in
  match classifyAttemptFailure error with
  | Some audit => decide_failure view checkpointSeq audit (Some ("system", "deterministic-runtime-failure-v1"))
  | None =>
      try_catch (let* audit := rv_failure view error in decide_failure view checkpointSeq audit None)
        (fun failure => decide_now view checkpointSeq "attempt_terminal" S_block_taskrun "runtime_failure_review_unavailable"
          ("Runtime failed and the bounded semantic failure classifier was unavailable. The Run was safely terminalized without another Agent attempt. "
           +:+ thrown_message failure) (Some ("system", "deterministic-failure-fallback-v1")))
  end.

Definition recordReviewFailure (run : TaskRun) (checkpointSeq : Z) (error : string) : io DecisionRow :=
  decide_now (governance_view run) checkpointSeq "settled" S_block_taskrun "supervisor_review_failed"
    ("Supervisor quality review could not produce a valid structured audit. The Agent result is preserved for audit and no automatic continuation was started. "
     +:+ error) None.

Definition markExecuted (id : string) (status : DecisionStatus) (error : string) : io unit :=
  let* now := ask clock in
  let* _ := store (updateSupervisorDecision id status error now) in
  mret tt.

(** [error instanceof SupervisorReviewError] *)
Definition isReviewError (t : thrown) : bool :=
  match t with Exn (NamedError n _) => String.eqb n "SupervisorReviewError" | _ => false end.

#[export] Instance supervisor_port : SupervisorPort := {|
  sp_reviewSettled := settled_review;
  sp_reviewAttemptFailure := reviewAttemptFailure;
  sp_recordReviewFailure := recordReviewFailure;
  sp_markExecuted := markExecuted;
  sp_isReviewError := isReviewError;
|}.

End reviews.
