(* ===== verification/ReviewsFacts.v ===== *)
(** The Supervisor of the core service keeps the promises the settlement builds
    on, and its review of a failed Attempt never continues an external action. *)
From S2P Require Import Prelude Regex Json TaskPolicy Attempt GateData ExecDb Canonical AttemptRepo RunStore PlanGraph PlanStore AuditAlgebra Evidence CompletionGate Supervisor GateFacts SupervisorFacts RunView Approval Service Settlement AttemptSpec StoreSpec Demo AttemptTrace AttemptLive PortSteps GovernanceFacts AttemptHold SettlementFacts Reviews.
Local Open Scope tx_scope.

(** What the port of the reviewer promises: working only takes its time. *)
Class ReviewerLaws `{SupervisorReviewer} : Prop := {
  rl_working w : Consistent (db w) -> wp rv_working (fun _ => meanwhile w) (fun t w' => meanwhile w w' /\ exists e, t = Exn e) w;
  rl_failure run error w : Consistent (db w) ->
    wp (rv_failure run error) (fun _ => meanwhile w) (fun t w' => meanwhile w w' /\ exists e, t = Exn e) w;
}.

Lemma meanwhile_refl w : meanwhile w w.
Proof. by split. Qed.

Lemma meanwhile_trans w1 w2 w3 : meanwhile w1 w2 -> meanwhile w2 w3 -> meanwhile w1 w3.
Proof. intros [S1 C1] [S2 C2]. split; [by etrans|auto]. Qed.

Lemma meanwhile_consistent w w' : Consistent (db w) -> meanwhile w w' -> Consistent (db w').
Proof. intros Hc [Hs _]. by eapply steps_consistent. Qed.

(** A call of the store that leaves the lifecycle alone. *)
Lemma meanwhile_gov w d : aside (db w) (gd_db d) -> meanwhile w (with_gov d w).
Proof. intros Ha. split; [by apply aside_steps|done]. Qed.

(** * Recording *)

(** The decision is stored as proposed for the Attempt of the run. *)
Definition recorded (view : CompletionRunView) (row : DecisionRow) (d : Db) : Prop :=
  decisions d !! d_id row = Some row /\ d_runId row = cv_id view /\ d_attempt row = cv_attempt view /\ d_status row = D_proposed.

Lemma recorded_proposal run row d : recorded (gv_run (governance_view run)) row d -> proposal run row d.
Proof. intros (Hd & Hr & Ha & Hs). split; [exact Ha|]. by exists row. Qed.

Lemma in_exec_aside {A} (m : tx Db A) d a d' :
  (forall e e' x, m e = Ok (x, e') -> aside e e') -> in_exec m d = Ok (a, d') -> aside (gd_db d) (gd_db d').
Proof. intros Hm Hs%in_exec_ok. by eapply Hm. Qed.

Section reviewer.
Context `{Platform} (reviewer_model : string)
  (reviewer : ReviewKind -> GovernanceTaskRunView -> string -> bool -> list (string * OperationRow) -> list EvidenceSource -> option SupervisorAudit)
  (reviewSettledBy : GovernanceTaskRunView -> string -> bool -> list (string * OperationRow) -> list EvidenceSource -> SupervisorAudit).

(** The decision a review ends with. *)
Lemma decided (view : CompletionRunView) (f : string -> DecisionRow) (gs : list GateRow) d row gs' d' :
  (forall uid, d_runId (f uid) = cv_id view /\ d_attempt (f uid) = cv_attempt view /\ d_status (f uid) = D_proposed) ->
  (let* x := (let* uid := in_exec randomUUID in in_exec (recordSupervisorDecision (f uid))) in mret (x, gs)) d = Ok ((row, gs'), d') ->
  aside (gd_db d) (gd_db d') /\ recorded view row (gd_db d').
Proof.
  intros Hf Hr. split.
  - apply tx_bind_ok in Hr as (x & d1 & Hx & [_ ->]%mret_ok). apply tx_bind_ok in Hx as (uid & d2 & H2 & Hx).
    eapply aside_trans; (eapply in_exec_aside; [|eassumption]); eauto using uuid_aside, record_decision_aside.
  - apply decide_ok in Hr as ([uid ->] & Hd & _). split; [exact Hd|apply Hf].
Qed.

Lemma reviewSettled_recorded run seq response truncated hash before now d row gs d' :
  reviewSettled reviewer_model reviewer reviewSettledBy run seq response truncated hash before now d = Ok ((row, gs), d') ->
  aside (gd_db d) (gd_db d') /\ recorded (gv_run run) row (gd_db d').
Proof.
  intros Hr. unfold reviewSettled in Hr. destruct (negb _); [by eapply decided; [|exact Hr]|].
  destruct (bool_decide _); [by eapply decided; [|exact Hr]|].
  apply tx_bind_ok in Hr as (r & d1 & [_ ->]%lift_ok & Hr). apply tx_bind_ok in Hr as (d0 & d2 & [-> ->]%gets_ok & Hr).
  apply tx_bind_ok in Hr as (u & d3 & Hgates & Hr). apply (decided (gv_run run)) in Hr as [Has Hrec]; [|done].
  split; [|exact Hrec]. eapply aside_trans; [|exact Has].
  apply (for_each_ind (fun e => aside (gd_db d) (gd_db e))) in Hgates; [exact Hgates| |apply aside_refl].
  intros t e e' _ He Hs. apply tx_bind_ok in Hs as (uid & e1 & Hu & Hs).
  eapply aside_trans; [exact He|]. eapply aside_trans; (eapply in_exec_aside; [|eassumption]); eauto using uuid_aside, record_gate_aside.
Qed.

End reviewer.

Section laws.
Context `{Platform, ContractType, !SupervisorReviewer, !ReviewerLaws}.
Context (inputManifestHash : GovernanceTaskRunView -> Z -> string -> GovDb -> string).

(** An error of the port, after some time. *)
Definition erred (w : World) (t : thrown) (w' : World) : Prop := meanwhile w w' /\ exists e, t = Exn e.

Lemma erred_here w e : erred w (Exn e) w.
Proof. split; [apply meanwhile_refl|by eexists]. Qed.

Lemma erred_after w w' t w'' : meanwhile w w' -> erred w' t w'' -> erred w t w''.
Proof. intros Hm [Hm' He]. split; [exact (meanwhile_trans _ _ _ Hm Hm')|done]. Qed.

Lemma wp_settled_review run seq text truncated w :
  Consistent (db w) ->
  wp (settled_review inputManifestHash run seq text truncated) (fun v w' => meanwhile w w' /\ proposal run v.1 (db w')) (erred w) w.
Proof.
  intros Hcon. apply wp_bind, wp_ask, wp_bind.
  assert (wp (if asks_reviewer (governance_view run) text truncated (gov w) then rv_working else mret tt) (fun _ => meanwhile w) (erred w) w) as Hw.
  { destruct (asks_reviewer _ _ _ _); [by apply rl_working|apply wp_ret, meanwhile_refl]. }
  eapply wp_mono; [| |exact Hw]; [|done]. intros u w1 Hm. apply wp_bind, wp_ask, wp_commit.
  - intros [row gs] d Hr. apply reviewSettled_recorded in Hr as [Ha Hrec]. split; [|by apply recorded_proposal].
    eapply meanwhile_trans; [exact Hm|by apply meanwhile_gov].
  - intros e _. split; [exact Hm|by eexists].
Qed.

Lemma wp_decide_now view seq trigger act code text override w :
  wp (decide_now view seq trigger act code text override)
    (fun row w' => meanwhile w w' /\ recorded (gv_run view) row (db w') /\ d_action row = act) (erred w) w.
Proof.
  apply wp_bind, wp_ask, wp_bind, wp_store; [|intros; apply erred_here]. intros uid e He.
  assert (meanwhile w (with_gov (gov_with e (gov w)) w)) as Hm by (apply meanwhile_gov; by eapply uuid_aside).
  apply wp_store; [|intros e' _; split; [exact Hm|by eexists]]. intros row e' Hr. split.
  - eapply meanwhile_trans; [exact Hm|]. apply (meanwhile_gov (with_gov (gov_with e (gov w)) w)). by eapply record_decision_aside.
  - apply record_decision_ok in Hr as (-> & Hd & _). split; [|done]. split; [|done]. unfold db, gd_db. cbn.
    rewrite Hd. by rewrite lookup_insert_eq.
Qed.

(** The review of a failure blocks, pauses or continues, and never continues an
    external action. *)
Definition failure_actions (view : GovernanceTaskRunView) (row : DecisionRow) : Prop :=
  d_action row ∈ [S_pause_for_approval; S_block_taskrun; S_start_continuation]
  /\ (mode (effectiveTaskExecutionPolicy (contract_view view) [] None) = external_action -> d_action row <> S_start_continuation).

Lemma bounded_action view audit :
  of_failure_action (fa_action (requireExternalFailureApproval view audit)) ∈ [S_pause_for_approval; S_block_taskrun; S_start_continuation]
  /\ (mode (effectiveTaskExecutionPolicy (contract_view view) [] None) = external_action ->
      of_failure_action (fa_action (requireExternalFailureApproval view audit)) <> S_start_continuation).
Proof.
  split; [by apply includes_spec; destruct (fa_action _)|]. intros Hm. unfold requireExternalFailureApproval.
  rewrite (bool_decide_eq_true_2 (mode _ = _)), andb_true_r by exact Hm.
  destruct (bool_decide_reflect (fa_action audit = F_start_continuation)); [done|]. by destruct (fa_action audit).
Qed.

Lemma wp_decide_failure view seq audit override w :
  wp (decide_failure view seq audit override)
    (fun row w' => meanwhile w w' /\ recorded (gv_run view) row (db w') /\ failure_actions view row) (erred w) w.
Proof.
  unfold decide_failure. eapply wp_mono; [| |apply wp_decide_now]; [|intros t w' Ht; exact Ht].
  intros row w' (Hm & Hr & Ha). split; [exact Hm|]. split; [exact Hr|]. unfold failure_actions. rewrite Ha. apply bounded_action.
Qed.

Lemma wp_reviewAttemptFailure run seq error w :
  Consistent (db w) ->
  wp (reviewAttemptFailure run seq error)
    (fun row w' => meanwhile w w' /\ recorded (gv_run (governance_view run)) row (db w') /\ failure_actions (governance_view run) row)
    (erred w) w.
Proof.
  intros Hcon. unfold reviewAttemptFailure. destruct (classifyAttemptFailure error); [apply wp_decide_failure|].
  apply wp_try, wp_bind.
  assert (forall t w1, erred w t w1 -> wp (decide_now (governance_view run) seq "attempt_terminal" S_block_taskrun "runtime_failure_review_unavailable"
    ("Runtime failed and the bounded semantic failure classifier was unavailable. The Run was safely terminalized without another Agent attempt. "
     +:+ thrown_message t) (Some ("system", "deterministic-failure-fallback-v1")))
    (fun row w' => meanwhile w w' /\ recorded (gv_run (governance_view run)) row (db w') /\ failure_actions (governance_view run) row) (erred w) w1) as Hcatch.
  { intros t w1 [Hm _]. eapply wp_mono; [| |apply wp_decide_now].
    - intros row w2 (Hm2 & Hr & Ha). split; [exact (meanwhile_trans _ _ _ Hm Hm2)|]. split; [done|]. unfold failure_actions. rewrite Ha.
      split; [by apply includes_spec|done].
    - intros t2 w2. by apply erred_after. }
  eapply wp_mono; [| |by apply rl_failure]; [|intros t w1 Ht; by apply Hcatch]. intros audit w1 Hm.
  eapply wp_mono; [| |apply wp_decide_failure].
  - intros row w2 (Hm2 & Hr & Ha). split; [exact (meanwhile_trans _ _ _ Hm Hm2)|done].
  - intros t w2 He. eapply Hcatch, erred_after; [exact Hm|exact He].
Qed.

Lemma wp_recordReviewFailure run seq text w :
  wp (recordReviewFailure run seq text)
    (fun row w' => meanwhile w w' /\ recorded (gv_run (governance_view run)) row (db w') /\ d_action row = S_block_taskrun) (erred w) w.
Proof. unfold recordReviewFailure. apply wp_decide_now. Qed.

#[export] Instance supervisor_laws : SupervisorLaws (H := supervisor_port inputManifestHash).
Proof.
  split.
  - intros run seq text tr w. apply wp_settled_review.
  - intros run seq text w Hcon. refine (wp_mono _ _ _ _ _ w _ _ (wp_reviewAttemptFailure run seq text w Hcon)); [|done].
    intros row w' (Hm & Hr & _). split; [exact Hm|by apply recorded_proposal].
  - intros run seq text w _. refine (wp_mono _ _ _ _ _ w _ _ (wp_recordReviewFailure run seq text w)); [|done].
    intros row w' (Hm & Hr & _). split; [exact Hm|by apply recorded_proposal].
  - intros id st e w _. apply wp_bind, wp_ask, wp_bind, wp_store; [|intros; apply erred_here]. intros v e' He.
    apply wp_ret, meanwhile_gov. unfold updateSupervisorDecision in He. tx_inv He. by split.
Qed.

(** The review of a failed Attempt stays within its bounds. Whatever the
    reviewer answers and whatever the message of the failure, it records, for
    the Attempt it was asked about, a decision to pause, to block or to
    continue; it never completes the TaskRun and, where the TaskRun performs an
    external action, never continues it without a new approval. *)
Theorem failure_review_bounded run seq error w :
  Consistent (db w) ->
  wp (reviewAttemptFailure run seq error)
    (fun row w' => proposal run row (db w') /\ d_action row ∈ [S_pause_for_approval; S_block_taskrun; S_start_continuation]
      /\ (execution_mode run = external_action -> d_action row <> S_start_continuation)) (fun _ _ => True) w.
Proof.
  intros Hcon. refine (wp_mono _ _ _ _ _ w _ _ (wp_reviewAttemptFailure run seq error w Hcon)); [|done].
  intros row w' (_ & Hr & Ha & Hm). split; [by apply recorded_proposal|]. split; [exact Ha|exact Hm].
Qed.

End laws.

(** * A settlement *)

#[export] Instance demo_contracts : ContractType := {|
  contract_of fs := {| ct_view := ct_view demo_contract; ct_fields := fs |};
  contract_of_fields fs := eq_refl |}.

(** A reviewer that answers at once. *)
#[export] Instance demo_supervisor_reviewer : SupervisorReviewer := {|
  rv_model := "model"; rv_review _ _ _ _ _ _ := None; rv_settled := demo_reviewer; rv_working := mret tt;
  rv_failure _ _ := mret {| fa_action := F_block_taskrun; fa_reasonCode := "failed"; fa_rationale := "It failed." |} |}.

#[export] Instance demo_reviewer_laws : ReviewerLaws.
Proof. split; intros; apply wp_ret, meanwhile_refl. Qed.

#[export] Instance demo_recovery : RecoveryControlPort := {| rp_recoverContinuations := mret tt |}.

Definition demo_runtime : AttemptRuntimePort :=
  {| prompt _ := mret tt; invokeSkill := None; getError := None; getProviderFailure := None;
     getMessages := [{| mg_role := "assistant"; mg_content := Some (TextContent "answer"); mg_stopReason := Some "stop" |}] |}.

Definition demo_token : AttemptExecutionToken :=
  {| tk_runId := "run"; tk_attemptId := demo_id; tk_ordinal := 1; tk_expectedVersion := 1; tk_ownerId := "worker";
     tk_leaseToken := "uuid-0"; tk_executionFence := 1 |}.

Definition demo_process : ExecutionState :=
  {| closing := false; continuationOwner := "owner"; executionOwner := "executor"; runtimes := {["run"]}; controlDeliveryTasks := ∅; executionTasks := ∅;
     checkpointDrafts := ∅; checkpointTokens := ∅;
     checkpointTimers := ∅; lastCheckpointTranscriptSeq := ∅; continuationRecoveryTimer := None; supervisorRestartReconciled := true;
     initialized := true; backgroundWorkStarted := true; maxContinuations := None; controlInboxCapacity := None |}.

Definition demo_world : World :=
  {| gov := {| gd_plans := {| pd_db := demo_leased; plan_items := ∅; plan_revisions := [] |}; run_checks := ∅; artifacts := ∅;
               evidence_rows := []; manifests := ∅ |}; process := demo_process; published := []; clock := 20 |}.

#[export] Instance demo_supervisor : SupervisorPort := supervisor_port (fun _ _ _ _ => "manifest").

Definition demo_task_run : TaskRun :=
  {| tr_row := demo_run; tr_contract := None; tr_checkpoint := None; tr_continuations := []; tr_plan := []; tr_checks := [];
     tr_artifacts := []; tr_completionGate := {| cg_passed := true; cg_failures := [] |}; tr_latestDecision := None;
     tr_latestGates := []; tr_approvalRequests := []; tr_userInputRequests := []; tr_pendingUserInput := None;
     tr_acceptedUncertainties := []; tr_unresolvedUncertainties := [] |}.

Definition settlement : outcome bool * World := settle_attempt demo_task_run demo_token demo_runtime "go" None demo_world.

(** The response is reviewed, the TaskRun completed, and its end published. *)
Example settlement_completes :
  settlement.1 = Returned false /\ r_status <$> runs (db settlement.2) !! "run" = Some R_completed
  /\ map ev_type (published settlement.2) = ["run.completed"].
Proof. vm_compute. done. Qed.

Lemma demo_sound : sound demo_token (db demo_world).
Proof.
  split.
  - exact demo_leased_consistent.
  - apply execs_fits; [apply demo_consistent|apply demo_fits].
  - eexists. vm_compute. reflexivity.
Qed.


Lemma failure_review_bounded_witness :
  wp (reviewAttemptFailure demo_task_run 1 "HTTP 429 Too Many Requests")
    (fun row w' => proposal demo_task_run row (db w')
      /\ d_action row ∈ [S_pause_for_approval; S_block_taskrun; S_start_continuation]
      /\ (execution_mode demo_task_run = external_action -> d_action row <> S_start_continuation)) (fun _ _ => True) demo_world.
Proof. apply (failure_review_bounded demo_task_run 1 "HTTP 429 Too Many Requests" demo_world). exact demo_leased_consistent. Defined.

(** How failures are classified. *)
Example transient : fa_action <$> classifyAttemptFailure "HTTP 429 Too Many Requests" = Some F_start_continuation.
Proof. vm_compute. reflexivity. Qed.

Example unauthorized : fa_action <$> classifyAttemptFailure "Error 401: Invalid API key" = Some F_block_taskrun.
Proof. vm_compute. reflexivity. Qed.

Example not_a_code : classifyAttemptFailure "port 4290 is busy" = None.
Proof. vm_compute. reflexivity. Qed.
