(* ===== verification/EventHubFacts.v ===== *)
(** What the event hub guarantees: a relevant event is in the draft of its
    TaskRun, and the draft is saved at every boundary and otherwise due to be
    saved; every event reaches exactly the listeners that have not unsubscribed. *)
From S2P Require Import Prelude Json Attempt ExecDb Canonical AttemptRepo RunStore Transcript Tools Mailbox RuntimeMutation GateData PlanStore AuditAlgebra Evidence CompletionGate Supervisor RunView Approval Service Settlement Progress EventHub Demo AttemptLive SettlementFacts Reviews ReviewsFacts.
Local Open Scope tx_scope.

(** * The checkpoint *)

(** The row holds the draft. *)
Definition holds_draft (k : CheckpointRow) (draft : CheckpointDraft) (transcriptSeq : Z) : Prop :=
  k_active k = dr_active draft /\ k_assistantPartial k = dr_assistantPartial draft
  /\ k_currentToolJson k = tool_json (dr_currentTool draft) /\ k_lastEventSeq k = dr_lastEventSeq draft
  /\ k_lastTranscriptSeq k = transcriptSeq.

(** The TaskRun of the token has the draft as the checkpoint of the Attempt of
    the token, or already one of a later Attempt. *)
Definition saved (token : AttemptExecutionToken) (draft : CheckpointDraft) (transcriptSeq : Z) (d : Db) : Prop :=
  exists a k, attempts d !! tk_attemptId token = Some a /\ checkpoints d !! a_runId a = Some k
    /\ (k_attempt k = a_ordinal a /\ holds_draft k draft transcriptSeq \/ (a_ordinal a < k_attempt k)%Z).

Section facts.
Context `{Platform}.

Lemma upsert_saves token draft seq now ts d v d' :
  fencedUpsertCheckpoint (fence_of token) now (dr_active draft) (dr_assistantPartial draft) (tool_json (dr_currentTool draft))
    (dr_lastEventSeq draft) seq ts d = Ok (v, d') ->
  saved token draft seq d'.
Proof.
  unfold fencedUpsertCheckpoint, withFence. intros Hs. apply tx_bind_ok in Hs as (s & d1 & Hv & Hs).
  apply validate_ok in Hv as [-> (a & r & l & [Ha _ _ _ Hr [Hrun Hcur] [Hs1 [Hs2 _]]])].
  unfold upsertCheckpoint in Hs. rewrite Hs1, Hs2 in Hs. tx_inv Hs; cbn in *; bool_prop.
  1: exists a, c; split_and!; [done|done|]; left; split; [done|]; split_and!; try done; by apply Bool.eqb_prop.
  1,3: exists a; eexists; split_and!; [exact Ha|apply lookup_insert_eq|]; left; split; [done|]; by split_and!.
  exists a, c. split_and!; [done|done|]. right. rewrite Hr, (bool_decide_eq_true_2 _ Hrun), Hcur, Z.eqb_refl in *. bool_prop. lia.
Qed.

(** The end of the transcript a flush records. *)
Definition transcript_end (runId : string) (w : World) : Z :=
  default (getLastTranscriptSeq runId (db w)) (lastCheckpointTranscriptSeq (process w) !! runId).

(** What a flush leaves: the draft saved, if there is a draft and a token. *)
Lemma wp_flush runId w :
  wp (flushCheckpoint runId) (fun _ w' =>
      checkpointDrafts (process w') = checkpointDrafts (process w)
      /\ (gov w' = gov w \/ exists draft token, checkpointDrafts (process w) !! runId = Some draft
           /\ saved token draft (transcript_end runId w) (db w'))
      /\ forall draft token, checkpointDrafts (process w) !! runId = Some draft -> checkpointTokens (process w) !! runId = Some token ->
         saved token draft (transcript_end runId w) (db w'))
    (fun _ w' => gov w' = gov w /\ checkpointDrafts (process w') = checkpointDrafts (process w)) w.
Proof.
  unfold flushCheckpoint. apply wp_bind, wp_ask, wp_bind, wp_ask.
  destruct (checkpointDrafts (process w) !! runId) as [draft|] eqn:Ed; [|apply wp_ret; split_and!; [done|by left|by intros]].
  destruct (checkpointTokens (process w) !! runId) as [token|] eqn:Et; [|apply wp_ret; split_and!; [done|by left|by intros]].
  apply wp_bind, wp_update, wp_bind, wp_ask, wp_bind, wp_update, wp_bind, wp_ask, wp_bind, wp_store; [|done].
  intros v e He. apply upsert_saves in He. apply wp_ret. split_and!; [done|by right; exists draft, token|]. by intros ? ? [= <-] [= <-].
Qed.

(** An event that matters reaches the draft of its TaskRun, and then either
    the draft is saved in the database at once with the end of the transcript,
    or a timer is set that saves it, unless the process is closing; a saved
    checkpoint never replaces that of a later Attempt. The timer itself cannot
    fail: when it writes, it saves the draft of that moment. *)
Theorem checkpoint_follows event draft w :
  let runId := ev_runId event in
  checkpointDrafts (process w) !! runId = Some draft -> relevant event = true ->
  wp (updateCheckpoint event) (fun _ w' =>
      checkpointDrafts (process w') !! runId = Some (next_draft draft event)
      /\ (if immediate event then forall token, checkpointTokens (process w) !! runId = Some token ->
            exists seq, saved token (next_draft draft event) seq (db w')
              /\ (transcript_boundary event = true -> seq = getLastTranscriptSeq runId (db w))
          else closing (process w) = true \/ runId ∈ checkpointTimers (process w')))
    (fun _ w' => gov w' = gov w /\ checkpointDrafts (process w') !! runId = Some (next_draft draft event)) w
  /\ wp (checkpoint_timer runId) (fun _ w' => gov w' = gov w
        \/ exists token seq, saved token draft seq (db w')) (fun _ _ => False) w.
Proof.
  intros runId Hd Hrel. split.
  - unfold updateCheckpoint. apply wp_bind, wp_ask. fold runId. rewrite Hd, Hrel. cbn [negb].
    apply wp_bind, wp_update, wp_bind. set (w1 := with_process _ w).
    assert (checkpointDrafts (process w1) !! runId = Some (next_draft draft event)) as Hd1 by apply lookup_insert_eq.
    destruct (transcript_boundary event) eqn:Eb.
    + assert (immediate event = true) as -> by (unfold immediate; rewrite Eb; apply orb_true_r).
      apply wp_bind, wp_ask, wp_update. eapply wp_mono; [| |apply wp_flush].
      * intros u w' (Hk & _ & Hs). split; [by rewrite Hk|]. intros token Ht. eexists. split; [by apply Hs|].
        intros _. unfold transcript_end. cbn. by rewrite lookup_insert_eq.
      * intros t w' [Hg Hk]. by rewrite Hk.
    + apply wp_ret. destruct (immediate event).
      * eapply wp_mono; [| |apply wp_flush].
        -- intros u w' (Hk & _ & Hs). split; [by rewrite Hk|]. intros token Ht. eexists. split; [by apply Hs|done].
        -- intros t w' [Hg Hk]. by rewrite Hk.
      * apply wp_update. cbn -[decide]. case_bool_decide; cbn; [by auto|]. change (closing (process w1)) with (closing (process w)).
        destruct (closing (process w)) eqn:Ec; cbn; [by auto|]. split; [done|]. right. set_solver.
  - unfold checkpoint_timer. apply wp_bind, wp_update, wp_try. eapply wp_mono; [| |apply wp_flush].
    + intros u w' (_ & [Hg|(draft' & token & Hd' & Hs)] & _); [by left|]. right. cbn in Hd'. rewrite Hd in Hd'.
      injection Hd' as <-. eauto.
    + intros t w' [Hg _]. apply wp_ret. by left.
Qed.

End facts.
(** * Listeners *)

(** The hub and the subscriptions that were not undone. Listeners are closures,
    new at each subscription; what [subscribe] returns is called at most once. *)
Inductive hub_step : Listeners * list Subscription -> Listeners * list Subscription -> Prop :=
  | hub_subscribe runId l h out : Forall (fun s => su_listener s <> l) out ->
      hub_step (h, out) ((subscribe runId l h).2, out ++ [(subscribe runId l h).1])
  | hub_unsubscribe s h out1 out2 : hub_step (h, out1 ++ s :: out2) (unsubscribe s h, out1 ++ out2).

Definition listeners_of (runId : string) (out : list Subscription) : list nat :=
  map su_listener (filter (fun s => su_runId s = runId) out).

Record hub_ok (h : Listeners) (out : list Subscription) : Prop := {
  ho_fresh : NoDup (map su_listener out);
  ho_members : forall r i, lis_of_run h !! r = Some i -> lis_sets h !! i = Some (listeners_of r out) /\ listeners_of r out <> [];
  ho_named : forall s, s ∈ out -> lis_of_run h !! su_runId s = Some (su_set s);
  ho_own : forall r r' i, lis_of_run h !! r = Some i -> lis_of_run h !! r' = Some i -> r = r';
}.

Lemma listeners_app r out out' : listeners_of r (out ++ out') = listeners_of r out ++ listeners_of r out'.
Proof. unfold listeners_of. by rewrite filter_app, map_app. Qed.

Lemma listeners_elem r out l : l ∈ listeners_of r out -> exists s, s ∈ out /\ su_runId s = r /\ su_listener s = l.
Proof.
  unfold listeners_of. intros Hl. apply list_elem_of_fmap in Hl as (s & -> & Hs). apply list_elem_of_filter in Hs as [H1 H2]. eauto.
Qed.

Lemma filter_same {A} (P : A -> Prop) `{forall x, Decision (P x)} l : Forall P l -> filter P l = l.
Proof. induction 1 as [|x l Hx _ IH]; [done|]. by rewrite filter_cons_True, IH. Qed.

Lemma fresh_listener l r out : Forall (fun s => su_listener s <> l) out -> l ∉ listeners_of r out.
Proof. intros Hf (s & Hs & _ & Hl)%listeners_elem. rewrite Forall_forall in Hf. by apply (Hf s). Qed.

Lemma subscribe_ok runId l h out : hub_ok h out -> Forall (fun s => su_listener s <> l) out ->
  hub_ok (subscribe runId l h).2 (out ++ [(subscribe runId l h).1]).
Proof.
  intros [Hn Hm Hs Ho] Hl. pose proof (fresh_listener l runId out Hl) as Hfresh. unfold subscribe.
  assert (NoDup (map su_listener (out ++ [{| su_runId := runId; su_set := 0; su_listener := l |}]))) as Hnd.
  { rewrite map_app. apply NoDup_app. split_and!; [done| |apply NoDup_singleton].
    intros x (s & -> & Hx)%list_elem_of_fmap E%list_elem_of_singleton. rewrite Forall_forall in Hl. by apply (Hl s). }
  destruct (lis_of_run h !! runId) as [i|] eqn:Ei; cbn.
  - split; cbn; [by rewrite map_app in *| | |exact Ho].
    + intros r j Hj. rewrite listeners_app. unfold listeners_of at 2 4. cbn. destruct (Hm _ _ Hj) as [H1 H2].
      destruct (decide (runId = r)) as [<-|Hr]; cbn.
      * rewrite Ei in Hj. injection Hj as <-. rewrite list_lookup_alter_eq, H1. cbn. unfold add_listener.
        rewrite bool_decide_eq_false_2 by done. split; [done|]. by destruct (listeners_of runId out).
      * rewrite app_nil_r, list_lookup_alter_ne; [done|]. intros <-. apply Hr. by eapply Ho.
    + intros s [Hx|Hx%list_elem_of_singleton]%elem_of_app; [by apply Hs|by subst].
  - assert (listeners_of runId out = []) as Hnil.
    { destruct (listeners_of runId out) as [|x xs] eqn:E; [done|]. assert (x ∈ listeners_of runId out) as Hx by (rewrite E; left).
      apply listeners_elem in Hx as (s & Hx & Hr & _). apply Hs in Hx. congruence. }
    split; cbn; [by rewrite map_app in *| | |].
    + intros r j Hj. rewrite listeners_app. unfold listeners_of at 2 4. cbn.
      destruct (decide (runId = r)) as [<-|Hr]; cbn.
      * rewrite lookup_insert_eq in Hj. injection Hj as <-. rewrite list_lookup_alter_eq, lookup_app_r, Nat.sub_diag by lia. cbn.
        rewrite Hnil. unfold add_listener. by rewrite bool_decide_eq_false_2 by apply not_elem_of_nil.
      * rewrite lookup_insert_ne in Hj by done. destruct (Hm _ _ Hj) as [H1 H2]. rewrite app_nil_r. split; [|done].
        rewrite list_lookup_alter_ne, lookup_app_l; [done|by eapply lookup_lt_Some|]. apply lookup_lt_Some in H1. lia.
    + intros s [Hx|Hx%list_elem_of_singleton]%elem_of_app; [|subst; apply lookup_insert_eq]. rewrite lookup_insert_ne; [by apply Hs|].
      intros E. apply Hs in Hx. congruence.
    + assert (forall r j, lis_of_run h !! r = Some j -> j <> length (lis_sets h)) as Hlt.
      { intros r j Hj. apply Hm in Hj as [Hj%lookup_lt_Some _]. lia. }
      intros r r' j Hj Hj'. apply lookup_insert_Some in Hj as [[<- E]|[_ Hj]], Hj' as [[<- E']|[_ Hj']]; [done| | |by eapply Ho].
      * apply Hlt in Hj'. congruence. * apply Hlt in Hj. congruence.
Qed.

Lemma unsubscribe_ok s h out1 out2 : hub_ok h (out1 ++ s :: out2) -> hub_ok (unsubscribe s h) (out1 ++ out2).
Proof.
  intros [Hn Hm Hs Ho]. assert (lis_of_run h !! su_runId s = Some (su_set s)) as Hi by (apply Hs; set_solver).
  destruct (Hm _ _ Hi) as [Hset _].
  assert (Hmem : remove_listener (su_listener s) (listeners_of (su_runId s) (out1 ++ s :: out2))
                 = listeners_of (su_runId s) (out1 ++ out2)).
  { rewrite !listeners_app. unfold listeners_of at 2. cbn. rewrite decide_True by done. cbn. unfold remove_listener.
    rewrite filter_app, filter_cons_False by auto. rewrite map_app in Hn. cbn in Hn.
    apply NoDup_app in Hn as (_ & H1 & [H2 _]%NoDup_cons).
    assert (forall out, su_listener s ∉ map su_listener out ->
      filter (fun m => m <> su_listener s) (listeners_of (su_runId s) out) = listeners_of (su_runId s) out) as Hkeep.
    { intros out Hout. apply filter_same. rewrite Forall_forall. intros l (x & Hx & _ & <-)%listeners_elem E.
      apply Hout. rewrite <- E. apply list_elem_of_fmap. eauto. }
    change (map su_listener (filter (fun s0 => su_runId s0 = su_runId s) out2)) with (listeners_of (su_runId s) out2).
    rewrite !Hkeep; [done|done|]. intros Hx. apply (H1 _ Hx). left. }
  assert (forall r, r <> su_runId s -> listeners_of r (out1 ++ out2) = listeners_of r (out1 ++ s :: out2)) as Hother.
  { intros r Hr. rewrite !listeners_app. unfold listeners_of at 4. cbn. by rewrite decide_False by auto. }
  unfold unsubscribe. rewrite list_lookup_alter_eq, Hset. cbn [fmap option_fmap option_map from_option id].
  assert (remove_listener (su_listener s) <$> lis_sets h !! su_set s = Some (listeners_of (su_runId s) (out1 ++ out2))) as Hnew
    by (rewrite Hset; cbn; by rewrite Hmem).
  clear Hset. revert Hmem. generalize (remove_listener (su_listener s) (listeners_of (su_runId s) (out1 ++ s :: out2))). intros m ->.
  split; cbn.
  - rewrite map_app in *. cbn in Hn. apply NoDup_app in Hn as (H1 & H2 & [_ H3]%NoDup_cons). apply NoDup_app.
    split_and!; [done| |done]. intros x Hx Hx2. apply (H2 x Hx). by right.
  - intros r j Hj. destruct (decide (r = su_runId s)) as [->|Hr].
    + case_bool_decide as E; [by rewrite lookup_delete_eq in Hj|]. rewrite Hi in Hj. injection Hj as <-.
      by rewrite list_lookup_alter_eq, Hnew.
    + assert (lis_of_run h !! r = Some j) as Hj2 by (case_bool_decide; [by rewrite lookup_delete_ne in Hj|done]).
      rewrite Hother, list_lookup_alter_ne; [by apply Hm| |done]. intros <-. apply Hr. by eapply Ho.
  - intros x Hx. assert (x ∈ out1 ++ s :: out2) as Hx2 by set_solver. case_bool_decide as E; [|by apply Hs].
    rewrite lookup_delete_ne; [by apply Hs|]. intros Er.
    assert (su_listener x ∈ listeners_of (su_runId s) (out1 ++ out2)) as Hin.
    { apply list_elem_of_fmap. exists x. split; [done|]. by apply list_elem_of_filter. }
    rewrite E in Hin. by apply not_elem_of_nil in Hin.
  - intros r r' j Hr Hr'. eapply Ho; (case_bool_decide; [eapply lookup_delete_Some; eassumption|eassumption]).
Qed.

(** Whatever the order of subscriptions and their ends, an event of a TaskRun
    is handed to exactly the listeners that subscribed to it and have not
    unsubscribed, each once, in the order of their subscription. *)
Theorem subscribers_receive h out runId :
  rtc hub_step (no_listeners, []) (h, out) -> receivers runId h = listeners_of runId out /\ NoDup (receivers runId h).
Proof.
  intros Hr. assert (hub_ok h out) as [Hn Hm Hs _].
  { change (hub_ok (h, out).1 (h, out).2). revert Hr.
    apply (rtc_ind_r (fun x => hub_ok x.1 x.2)); [split; cbn; [constructor|done|by intros s Hx%not_elem_of_nil|done]|].
    intros x y _ [r l h0 out0 Hf|s h0 out1 out2] Hok; [by apply subscribe_ok|by apply unsubscribe_ok]. }
  assert (receivers runId h = listeners_of runId out) as ->.
  { unfold receivers, set_members. destruct (lis_of_run h !! runId) as [i|] eqn:Ei; [by destruct (Hm _ _ Ei) as [-> _]|].
    destruct (listeners_of runId out) as [|x xs] eqn:E; [done|]. assert (x ∈ listeners_of runId out) as Hx by (rewrite E; left).
    apply listeners_elem in Hx as (s & Hx & Hrun & _). apply Hs in Hx. congruence. }
  split; [done|]. unfold listeners_of. eapply sublist_NoDup; [exact Hn|]. apply fmap_sublist, sublist_filter.
Qed.

(** The end of a subscription called twice takes the listeners that came later
    with it: the first call leaves no set, the second finds its set empty. *)
Example second_unsubscribe_silences :
  let '(first, h1) := subscribe "run" 1 no_listeners in
  let h2 := unsubscribe first h1 in
  let '(_, h3) := subscribe "run" 2 h2 in
  receivers "run" h3 = [2] /\ receivers "run" (unsubscribe first h3) = [].
Proof. vm_compute. done. Qed.

(** * Witnesses *)

Definition demo_draft : CheckpointDraft :=
  {| dr_attempt := 1; dr_active := true; dr_assistantPartial := "Hello"; dr_currentTool := None; dr_lastEventSeq := 1 |}.

Definition demo_streaming : World :=
  with_process (fun s => with_tokens (insert "run" demo_token) (with_drafts (insert "run" demo_draft) s)) demo_world.

Definition demo_completed_event : RunEvent :=
  {| ev_runId := "run"; ev_seq := 2; ev_type := "message.completed"; ev_data := JObj []; ev_createdAt := 20 |}.

Lemma checkpoint_follows_witness :
  wp (updateCheckpoint demo_completed_event) (fun _ w' =>
      checkpointDrafts (process w') !! "run" = Some (next_draft demo_draft demo_completed_event)
      /\ forall token, checkpointTokens (process demo_streaming) !! "run" = Some token ->
         exists seq, saved token (next_draft demo_draft demo_completed_event) seq (db w')
           /\ (transcript_boundary demo_completed_event = true -> seq = getLastTranscriptSeq "run" (db demo_streaming)))
    (fun _ w' => gov w' = gov demo_streaming
      /\ checkpointDrafts (process w') !! "run" = Some (next_draft demo_draft demo_completed_event)) demo_streaming
  /\ wp (checkpoint_timer "run") (fun _ w' => gov w' = gov demo_streaming
        \/ exists token seq, saved token demo_draft seq (db w')) (fun _ _ => False) demo_streaming.
Proof. apply (checkpoint_follows demo_completed_event demo_draft demo_streaming); reflexivity. Defined.

(** The checkpoint is in the database. *)
Example checkpoint_written :
  k_assistantPartial <$> checkpoints (db (updateCheckpoint demo_completed_event demo_streaming).2) !! "run" = Some "Hello"
  /\ k_lastEventSeq <$> checkpoints (db (updateCheckpoint demo_completed_event demo_streaming).2) !! "run" = Some 2%Z.
Proof. vm_compute. done. Qed.

Definition demo_listeners : Listeners := unsubscribe (subscribe "run" 1 no_listeners).1
  (subscribe "run" 2 (subscribe "run" 1 no_listeners).2).2.

Lemma subscribers_receive_witness :
  receivers "run" demo_listeners = listeners_of "run" [(subscribe "run" 2 (subscribe "run" 1 no_listeners).2).1]
  /\ NoDup (receivers "run" demo_listeners).
Proof.
  apply (subscribers_receive demo_listeners [(subscribe "run" 2 (subscribe "run" 1 no_listeners).2).1] "run").
  eapply rtc_l; [exact (hub_subscribe "run" 1 no_listeners [] (Forall_nil_2 _))|].
  eapply rtc_l; [apply (hub_subscribe "run" 2 (subscribe "run" 1 no_listeners).2 [(subscribe "run" 1 no_listeners).1]); repeat constructor; done|].
  eapply rtc_l; [exact (hub_unsubscribe (subscribe "run" 1 no_listeners).1 (subscribe "run" 2 (subscribe "run" 1 no_listeners).2).2 []
    [(subscribe "run" 2 (subscribe "run" 1 no_listeners).2).1])|]. apply rtc_refl.
Defined.
