(* ===== verification/DispatcherFacts.v ===== *)
(** What the delivery of controls guarantees: a control handed to the runtime
    has a task that waits for the answer, and the answer ends it. *)
From S2P Require Import Prelude Json Attempt GateData ExecDb Canonical AttemptRepo RunStore Tools Mailbox RuntimeMutation PlanStore AuditAlgebra Evidence CompletionGate Supervisor RunView Approval Service Settlement EventHub Dispatcher AttemptSpec Demo AttemptRefine AttemptLive SettlementFacts Reviews ReviewsFacts.
Local Open Scope tx_scope.

(** A control of the run is with the runtime. *)
Definition taken (d : Db) (i runId : string) : Prop :=
  exists q, controls d !! i = Some q /\ q_status q = K_delivering /\ q_runId q = runId.

(** Every control that is with the runtime has the task of its TaskRun waiting
    for the answer. *)
Definition tracked (w : World) : Prop :=
  forall i runId, taken (db w) i runId -> exists t d,
    controlDeliveryTasks (process w) !! runId = Some t /\ dt_waiting t = Some d /\ dv_itemId d = i.

(** Between two moments no other control was handed to the runtime than [new],
    and a control that had left the queue was not touched. *)
Record handed (runId : string) (new : option string) (d d' : Db) : Prop := {
  hd_taken : forall i r, taken d' i r -> taken d i r \/ new = Some i /\ r = runId;
  hd_rows : forall i q, controls d !! i = Some q -> q_status q <> K_queued -> controls d' !! i = Some q;
}.

Section tables.
Context `{Platform} (runId : string).

Lemma handed_same new d d' : controls d' = controls d -> handed runId new d d'.
Proof. intros E. split; unfold taken; rewrite E; auto. Qed.

Lemma handed_trans new d1 d2 d3 : handed runId None d1 d2 -> handed runId new d2 d3 -> handed runId new d1 d3.
Proof.
  intros [T1 R1] [T2 R2]. split; [|eauto]. intros i r [Ht|Hn]%T2; [|by right].
  apply T1 in Ht as [Ht|[? _]]; [by left|done].
Qed.

Lemma appendEvent_controls rid ty data ts d v d' : appendEvent rid ty data ts d = Ok (v, d') -> controls d' = controls d.
Proof. unfold appendEvent. intros Hs. tx_inv Hs. by match goal with E : insert_event _ _ _ _ = Ok _ |- _ => apply insert_event_ok in E as [_ ->] end. Qed.

Lemma withFence_controls {A} fence now (work : TaskRunExecutionScope -> tx Db A) d v d' :
  withFence fence now work d = Ok (v, d') -> (forall s e, work s d = Ok (v, e) -> controls e = controls d) -> controls d' = controls d.
Proof.
  intros Hs Hw. apply tx_bind_ok in Hs as (s & d1 & Hv & Hs). apply validate_ok in Hv as [-> _]. by eapply Hw.
Qed.

(** [completeControlItem] always returns, and its item is not with the runtime any more. *)
Lemma complete_item i st e ts d : st <> K_delivering ->
  exists b d', completeControlItem i st e ts d = Ok (b, d')
    /\ (forall j r, taken d' j r -> taken d j r /\ j <> i)
    /\ (forall j, j <> i -> controls d' !! j = controls d !! j)
    /\ (forall q, controls d !! i = Some q ->
          controls d' !! i = Some (if bool_decide (q_status q = K_delivering) then control_to q st e (q_claimedAt q) (Some ts) else q)).
Proof.
  intros Hst. unfold completeControlItem. tx_go. destruct (controls d !! i) as [q|] eqn:Eq; [case_bool_decide as Hq|].
  - do 2 eexists. split; [reflexivity|]. cbn. split_and!.
    + intros j r (q' & Hj & Hd & Hr). cbn in Hj. destruct (decide (i = j)) as [<-|Hij].
      * rewrite lookup_insert_eq in Hj. injection Hj as <-. by cbn in Hd.
      * rewrite lookup_insert_ne in Hj by done. split; [by exists q'|congruence].
    + intros j Hj. by apply lookup_insert_ne.
    + intros ? [= <-]. rewrite lookup_insert_eq. by rewrite bool_decide_eq_true_2.
  - do 2 eexists. split; [reflexivity|]. split_and!; [|done|intros ? [= <-]; by rewrite bool_decide_eq_false_2].
    intros j r (q' & Hj & Hd & Hr). split; [by exists q'|]. intros ->. congruence.
  - do 2 eexists. split; [reflexivity|]. split_and!; [|done|done]. intros j r (q' & Hj & Hd & Hr). split; [by exists q'|]. intros ->. congruence.
Qed.

Lemma claim_handed n ts d r d' : claimControlItem runId n ts d = Ok (r, d') ->
  handed runId (fst <$> r) d d'
  /\ forall i q, r = Some (i, q) -> exists q0, controls d !! i = Some q0 /\ q_status q0 = K_queued.
Proof.
  unfold claimControlItem. intros Hs. apply tx_bind_ok in Hs as (u & d1 & Hm & Hs). apply modify_ok in Hm. subst d1.
  set (d1 := set_controls _ d) in Hs.
  assert (Hrow : forall j q', controls d1 !! j = Some q' -> exists q, controls d !! j = Some q
    /\ (q' = q \/ q_status q = K_queued /\ q_status q' = K_superseded)).
  { intros j q' Hj. cbn in Hj. unfold update_where in Hj. rewrite lookup_fmap in Hj. destruct (controls d !! j) as [q|]; [|done].
    exists q. split; [done|]. cbn in Hj. injection Hj as <-.
    destruct (String.eqb (q_runId q) runId && bool_decide (q_status q = K_queued) && negb (Z.eqb (q_attempt q) n)) eqn:E; [|by left].
    bool_prop. by right. }
  assert (H1 : handed runId None d d1).
  { split.
    - intros j r0 (q' & Hj & Hd & Hr). left. destruct (Hrow _ _ Hj) as (q & Hq & [->|[_ ?]]); [by exists q|congruence].
    - intros j q Hj Hq. cbn. unfold update_where. rewrite lookup_fmap, Hj. cbn.
      rewrite (bool_decide_eq_false_2 _ Hq). by rewrite andb_false_r. }
  tx_inv Hs; [|by split].
  match goal with E : head _ = Some _ |- _ => apply head_Some_elem_of in E; rewrite merge_sort_Permutation in E;
    apply list_elem_of_In, filter_In in E as [E Hb]; apply list_elem_of_In, elem_of_map_to_list in E; rename E into Hin end.
  cbn in Hb, Hin. bool_prop.
  match type of Hin with _ !! ?i = Some ?q => destruct (Hrow _ _ Hin) as (q0 & Hq0 & Hcase); rename i into itemId end.
  assert (q_status q0 = K_queued) as Hqueued by (destruct Hcase as [<-|[? _]]; done).
  split; [|intros ? ? [= <- _]; eauto]. cbn. eapply handed_trans; [exact H1|]. split.
  - intros j r0 (q' & Hj & Hd & Hr). cbn in Hj. destruct (decide (itemId = j)) as [<-|Hij].
    + right. split; [done|]. rewrite lookup_insert_eq in Hj. injection Hj as <-. cbn in Hr. congruence.
    + rewrite lookup_insert_ne in Hj by done. left. by exists q'.
  - intros j q Hj Hq. cbn. destruct (decide (itemId = j)) as [<-|Hij]; [|by rewrite lookup_insert_ne].
    pose proof (eq_trans (eq_sym Hj) Hin) as Eq. by injection Eq as ->.
Qed.

End tables.

(** A control that is with the runtime is with it no more, and no other is touched. *)
Record ended (i : string) (d d' : Db) : Prop := {
  en_taken : forall j r, taken d' j r -> taken d j r /\ j <> i;
  en_rows : forall j, j <> i -> controls d' !! j = controls d !! j;
}.

Section delivery.
Context `{Platform, ContractType} (takes_follow_up : string -> bool).

Definition fence_let_through (fence : TaskRunExecutionFence) (d : Db) : Prop := exists s a r l, fenced d fence s a r l.

Lemma wp_superseded i e w (Q : bool -> World -> Prop) R :
  (forall b d', ended i (db w) d' ->
    (forall q, controls (db w) !! i = Some q -> q_status q = K_delivering ->
       exists q', controls d' !! i = Some q' /\ q_status q' = K_superseded) ->
    Q b (with_gov (gov_with d' (gov w)) w)) ->
  wp (store (completeControlItem i K_superseded e (clock w))) Q R w.
Proof.
  intros HQ. destruct (complete_item i K_superseded e (clock w) (db w) ltac:(done)) as (b & d' & Hc & Ht & Ho & Hi).
  apply wp_store; rewrite Hc; [|done]. intros ? ? [= <- <-]. apply HQ; [by split|]. intros q Hq Hd. apply Hi in Hq.
  rewrite bool_decide_eq_true_2 in Hq by done. eauto.
Qed.

Lemma completeControlDelivery_ended fence now i st e ts d v d' : st <> K_delivering ->
  completeControlDelivery fence now i st e ts d = Ok (v, d') ->
  ended i d d' /\ fence_let_through fence d /\ exists q', controls d' !! i = Some q' /\ q_status q' = st.
Proof.
  intros Hst Hs. unfold completeControlDelivery, RuntimeMutation.withFence in Hs.
  apply tx_bind_ok in Hs as (s & d1 & Hv & Hs). apply validate_ok in Hv as [-> (a & r & l & Hf)].
  apply tx_bind_ok in Hs as (d0 & ? & Hg & Hs). apply gets_id_ok in Hg as [-> ->].
  apply tx_bind_ok in Hs as (q & ? & Hp & Hs). apply present_ok in Hp as [Hq ->].
  apply tx_bind_ok in Hs as (u & ? & Hr & Hs). apply require_ok in Hr as [Hb ->].
  destruct (complete_item i st e ts d Hst) as (b & d2 & Hc & Ht & Ho & Hi).
  apply tx_bind_ok in Hs as (b' & ? & Hc' & Hs). rewrite Hc in Hc'. injection Hc' as <- <-.
  apply tx_bind_ok in Hs as (u' & ? & Hr & Hs). apply require_ok in Hr as [_ ->].
  apply appendEvent_controls in Hs. split; [|split; [by do 4 eexists|]].
  - split; [|intros j Hj; rewrite Hs; by apply Ho]. intros j r' Hj. apply Ht. unfold taken in *. by rewrite Hs in Hj.
  - rewrite Hs, (Hi _ Hq). eexists. split; [done|]. bool_prop. by rewrite bool_decide_eq_true_2.
Qed.

Lemma wp_complete_delivery d st e w : st <> K_delivering ->
  wp (complete_delivery d st e) (fun b w' => controlDeliveryTasks (process w') = controlDeliveryTasks (process w)
      /\ ended (dv_itemId d) (db w) (db w')
      /\ forall q, controls (db w) !! dv_itemId d = Some q -> q_status q = K_delivering ->
           exists q', controls (db w') !! dv_itemId d = Some q'
             /\ (b = true /\ q_status q' = st /\ fence_let_through (dv_fence d) (db w) \/ b = false /\ q_status q' = K_superseded))
    (fun _ _ => False) w.
Proof.
  intros Hst. unfold complete_delivery. apply wp_try, wp_bind, wp_ask, wp_bind, wp_store.
  - intros v e' He. apply completeControlDelivery_ended in He as (Hen & Hf & q' & Hq' & Hs); [|done].
    apply wp_bind, wp_publish, wp_ret. split_and!; [done|done|]. intros q Hq Hd. exists q'. by auto.
  - intros x _. apply wp_bind, wp_ask, wp_bind, wp_superseded. intros b d' Hen Hrow. apply wp_ret. split_and!; [done|done|].
    intros q Hq Hd. destruct (Hrow q Hq Hd) as (q' & Hq' & Hs). exists q'. by auto.
Qed.

(** A turn of the loop. *)
Record turned (runId : string) (new : option Delivery) (w w' : World) : Prop := {
  tu_tasks : controlDeliveryTasks (process w') = controlDeliveryTasks (process w);
  tu_handed : handed runId (dv_itemId <$> new) (db w) (db w');
}.

Lemma turned_none runId w : turned runId None w w.
Proof. split; [done|by apply handed_same]. Qed.

(** A control that was claimed and given up again. *)
Lemma given_up runId i d d1 d2 : handed runId (Some i) d d1 -> (exists q0, controls d !! i = Some q0 /\ q_status q0 = K_queued) ->
  ended i d1 d2 -> handed runId None d d2.
Proof.
  intros [T R] (q0 & Hq0 & Hq) [T2 R2]. split.
  - intros j r Hj. apply T2 in Hj as [Hj Hn]. apply T in Hj as [Hj|[E _]]; [by left|]. by injection E as ->.
  - intros j q Hj Hs. destruct (decide (j = i)) as [->|Hji]; [congruence|]. rewrite R2 by done. by apply R.
Qed.

Lemma wp_deliver_next runId attempt w :
  wp (deliver_next takes_follow_up runId attempt) (fun r => turned runId r w) (fun _ => turned runId None w) w.
Proof.
  unfold deliver_next. apply wp_bind, wp_getRun; [|intros; apply turned_none]. intros current Hcur.
  destruct current as [run|]; [|apply wp_ret, turned_none].
  destruct (negb _); [apply wp_ret, turned_none|]. apply wp_bind, wp_ask, wp_bind, wp_store; [|intros; apply turned_none].
  intros claimed d1 Hc. apply claim_handed in Hc as [Hh Hq]. set (w1 := with_gov (gov_with d1 (gov w)) w).
  destruct claimed as [[itemId item]|]; [|apply wp_ret; by split]. specialize (Hq _ _ eq_refl). cbn in Hh.
  assert (Hgive : forall d2, ended itemId d1 d2 -> handed runId None (db w) d2) by (intros; by eapply given_up).
  apply wp_bind, wp_ask. destruct (match checkpointTokens _ !! _ with Some _ => _ | None => _ end) as [token|].
  2: { apply wp_bind, (wp_superseded _ _ w1). intros b d2 Hen _. apply wp_ret. split; [done|by apply Hgive]. }
  apply wp_bind, wp_try, wp_bind, wp_store.
  - intros ev d2 He. apply withFence_controls in He; [|intros s e Hs; by eapply appendEvent_controls].
    assert (handed runId (Some itemId) (db w) d2) as Hh2 by (destruct Hh as [T R]; split; unfold taken in *; rewrite He; done).
    apply wp_bind, wp_publish, wp_ret. cbn [negb]. destruct (match q_kind item with follow_up => _ | _ => _ end).
    + apply wp_bind. set (w2 := Build_World _ _ _ _). unfold finish_delivery. apply wp_bind.
      eapply wp_mono; [| |apply (wp_complete_delivery _ K_rejected "pi_settled" w2)]; [|done|done].
      intros b w3 (Ht & Hen & _). apply wp_ret, wp_ret. split; [done|]. eapply given_up; [exact Hh2|exact Hq|exact Hen].
    + apply wp_ret. split; [done|exact Hh2].
  - intros x _. apply wp_bind, (wp_superseded _ _ w1). intros b d2 Hen _. apply wp_ret, wp_ret. split; [done|by apply Hgive].
Qed.

(** A task whose loop gets [new] to wait for replaces one that waited for
    nothing that is still with the runtime. *)
Lemma set_task_tracked runId new ts w0 w :
  turned runId new w0 w -> (forall i r, taken (db w0) i r -> r <> runId -> exists t d,
    controlDeliveryTasks (process w0) !! r = Some t /\ dt_waiting t = Some d /\ dv_itemId d = i) ->
  (forall i, ~ taken (db w0) i runId) ->
  tracked (with_process (with_deliveries (insert runId {| dt_waiting := new; dt_then := ts |})) w).
Proof.
  intros [Ht [Hh _]] Htr Hno i r Hi. cbn. apply Hh in Hi as [Hi|[Hn ->]].
  - destruct (decide (r = runId)) as [->|Hr]; [by apply Hno in Hi|]. rewrite lookup_insert_ne, Ht by done. by apply Htr.
  - rewrite lookup_insert_eq. destruct new as [d|]; [|done]. injection Hn as <-. by eexists _, d.
Qed.

Lemma wp_schedule_control runId attempt w : tracked w ->
  wp (scheduleControlDelivery takes_follow_up runId attempt) (fun _ => tracked) (fun _ _ => False) w.
Proof.
  intros Htr. unfold scheduleControlDelivery. apply wp_bind, wp_ask. destruct (controlDeliveryTasks (process w) !! runId) as [t|] eqn:Et.
  { by apply wp_ret. }
  assert (Hno : forall i, ~ taken (db w) i runId).
  { intros i Hi. destruct (Htr _ _ Hi) as (t & d & Ht & _). congruence. }
  assert (Hset : forall new w', turned runId new w w' ->
    wp (set_task runId {| dt_waiting := new; dt_then := [] |}) (fun _ => tracked) (fun _ _ => False) w').
  { intros new w' Hw. apply wp_update. eapply set_task_tracked; [exact Hw|intros i r Hi _; by apply Htr|exact Hno]. }
  apply wp_bind, wp_try. unfold deliverControlInbox. apply wp_bind, wp_ask. destruct (_ || _).
  - apply wp_ret, Hset, turned_none.
  - eapply wp_mono; [| |apply wp_deliver_next]; [intros new w' Hw; by apply Hset|]. intros t w' Hw. apply wp_ret. by apply Hset.
Qed.

(** What the answer does to the control, before the loop goes on. *)
Definition outcome_of (d : Delivery) (answer : ControlAnswer) (w : World) (d' : Db) : Prop :=
  forall q, controls (db w) !! dv_itemId d = Some q -> q_status q = K_delivering ->
    exists q', controls d' !! dv_itemId d = Some q' /\ q_status q' ∈ [K_delivered; K_rejected; K_superseded]
      /\ (q_status q' = K_delivered -> answer = Accepted /\ fence_let_through (dv_fence d) (db w)).

Lemma wp_finish_delivery d answer w :
  wp (finish_delivery d answer) (fun _ w' => controlDeliveryTasks (process w') = controlDeliveryTasks (process w)
      /\ ended (dv_itemId d) (db w) (db w') /\ outcome_of d answer w (db w')) (fun _ _ => False) w.
Proof.
  destruct answer as [| |error]; cbn [finish_delivery]; [|apply wp_bind..].
  all: (eapply wp_mono; [| |apply wp_complete_delivery; done]; [|done]).
  all: intros b w' (Ht & Hen & Hout); lazymatch goal with |- wp _ _ _ _ => apply wp_ret | _ => idtac end; split_and!; [done|done|].
  all: intros q Hq Hd; destruct (Hout q Hq Hd) as (q' & Hq' & [(_ & Hs & Hf)|[_ Hs]]); exists q'; split; [done| |done|].
  all: rewrite Hs; split; [by apply includes_spec|intros E; first [discriminate E|by split]].
Qed.

(** A task that waits for the answer: the control leaves the runtime, and the
    task goes on with the next one. *)
Lemma wp_answered runId answer t d w :
  tracked w -> controlDeliveryTasks (process w) !! runId = Some t -> dt_waiting t = Some d ->
  wp (control_answered takes_follow_up runId answer) (fun _ w' => tracked w' /\ outcome_of d answer w (db w')) (fun _ _ => False) w.
Proof.
  intros Htr Et Ed. unfold control_answered. apply wp_bind, wp_ask. rewrite Et. destruct t as [waiting waiters]. cbn in Ed. subst waiting.
  apply wp_bind, wp_try, wp_bind. eapply wp_mono; [| |apply wp_finish_delivery]; [|done].
  intros more w1 (Ht1 & Hen & Hout).
  assert (Hno : forall i, ~ taken (db w1) i runId).
  { intros i [Hi Hn]%(en_taken _ _ _ Hen). destruct (Htr _ _ Hi) as (t & d' & Ht & Hw & Hd'). rewrite Et in Ht.
    injection Ht as <-. cbn in Hw. injection Hw as ->. by apply Hn. }
  assert (Hset : forall new w', turned runId new w1 w' ->
    wp (set_task runId {| dt_waiting := new; dt_then := waiters |}) (fun _ w' => tracked w' /\ outcome_of d answer w (db w'))
      (fun _ _ => False) w').
  { intros new w' Hw. apply wp_update. split.
    - eapply set_task_tracked; [exact Hw| |exact Hno]. intros i r [Hi _]%(en_taken _ _ _ Hen) _. rewrite Ht1. by apply Htr.
    - intros q Hq Hd. destruct (Hout q Hq Hd) as (q' & Hq' & Hs & Hf). exists q'. split; [|done].
      apply (hd_rows _ _ _ _ (tu_handed _ _ _ _ Hw)); [done|]. intros E. rewrite E in Hs. by apply includes_spec in Hs. }
  destruct more.
  - eapply wp_mono; [| |apply wp_deliver_next]; [intros new w' Hw; by apply Hset|]. intros x w' Hw. apply wp_ret. by apply Hset.
  - apply wp_ret, Hset, turned_none.
Qed.

Lemma wp_delivery_ended runId w : tracked w -> wp (delivery_ended takes_follow_up runId) (fun _ => tracked) (fun _ => tracked) w.
Proof.
  intros Htr. unfold delivery_ended. apply wp_bind, wp_ask.
  destruct (controlDeliveryTasks (process w) !! runId) as [[[d|] waiters]|] eqn:Et; [by apply wp_ret| |by apply wp_ret].
  apply wp_bind, wp_update. eapply wp_each; [|].
  - intros attempt v _ Hv. eapply wp_mono; [| |by apply wp_schedule_control]; done.
  - intros i r Hi. destruct (Htr _ _ Hi) as (t & d & Ht & Hw & Hd). exists t, d. split; [|done]. cbn.
    rewrite lookup_delete_ne; [done|]. intros <-. rewrite Et in Ht. by injection Ht as <-.
Qed.

Lemma wp_runtimeReady runId attempt w : tracked w ->
  wp (runtimeReady takes_follow_up runId attempt) (fun _ => tracked) (fun _ => tracked) w.
Proof.
  intros Htr. unfold runtimeReady. apply wp_bind, wp_ask. destruct (controlDeliveryTasks (process w) !! runId) as [t|] eqn:Et.
  - apply wp_update. intros i r Hi. destruct (Htr _ _ Hi) as (t' & d & Ht & Hw & Hd). cbn. destruct (decide (runId = r)) as [<-|Hr].
    + rewrite lookup_insert_eq. rewrite Et in Ht. injection Ht as <-. by eexists _, d.
    + rewrite lookup_insert_ne by done. eauto.
  - eapply wp_mono; [| |by apply wp_schedule_control]; done.
Qed.

(** Tables in which nothing more is with the runtime. *)
Lemma tracked_quiet w w' : tracked w -> controlDeliveryTasks (process w') = controlDeliveryTasks (process w) ->
  (forall i r, taken (db w') i r -> taken (db w) i r) -> tracked w'.
Proof. intros Htr E Ht i r Hi. rewrite E. by apply Htr, Ht. Qed.

Lemma mailbox_taken runId req kind text cap ts d v d' : Mailbox.enqueueControl runId req kind text cap ts d = Ok (v, d') ->
  forall i r, taken d' i r -> taken d i r.
Proof.
  unfold Mailbox.enqueueControl. intros Hs. tx_inv Hs; try done. db_inv. bool_prop. subst.
  intros i rid (q & Hq & Hd & Hr). cbn in Hq. apply lookup_insert_Some in Hq as [[<- <-]|[_ Hq]]; [done|by exists q].
Qed.

Lemma wp_enqueue runId kind text req w : tracked w ->
  wp (enqueueControl takes_follow_up runId kind text req) (fun _ => tracked) (fun _ => tracked) w.
Proof.
  intros Htr. unfold enqueueControl. apply wp_bind, wp_ask. destruct (closing (process w)); [by apply wp_ret|].
  apply wp_bind, wp_of_result; [|done]. intros u _. apply wp_bind, wp_ask, wp_bind, wp_ask, wp_bind, wp_store; [|done].
  intros admission d1 Hm. assert (tracked (with_gov (gov_with d1 (gov w)) w)) as Htr1.
  { eapply tracked_quiet; [exact Htr|done|]. cbn. by eapply mailbox_taken. }
  assert (Hadm : forall accepted item w1, tracked w1 -> wp (
    let* event := store (appendEvent runId (if accepted then "control.accepted" else "control.duplicate")
      (JObj [("controlId", JStr item.1); ("requestId", JStr req); ("attempt", JInt (q_attempt item.2));
             ("kind", JStr (control_kind_text kind))]) (clock w)) in
    do* publish event in
    do* (if accepted : bool then scheduleControlDelivery takes_follow_up runId (q_attempt item.2) else mret tt) in
    let* persisted := ask (fun w => getControlItem item.1 (db w)) in
    let* row := of_result (expect persisted (TypeError "persisted is undefined")) in
    mret (reply_item (includes (q_status row) [K_delivered; K_queued; K_delivering]) (item.1, row))) (fun _ => tracked) (fun _ => tracked) w1).
  { intros accepted item w1 Hw1. apply wp_bind, wp_store; [|done]. intros ev d2 He. apply appendEvent_controls in He.
    assert (forall w', tracked w' -> wp (let* persisted := ask (fun w => getControlItem item.1 (db w)) in
      let* row := of_result (expect persisted (TypeError "persisted is undefined")) in
      mret (reply_item (includes (q_status row) [K_delivered; K_queued; K_delivering]) (item.1, row))) (fun _ => tracked) (fun _ => tracked) w') as Hrest.
    { intros w' Hw'. apply wp_bind, wp_ask, wp_bind, wp_of_result; [|done]. intros row _. by apply wp_ret. }
    apply wp_bind, wp_publish, wp_bind. set (w2 := Build_World _ _ _ _).
    assert (tracked w2) as Hw2 by (eapply tracked_quiet; [exact Hw1|done|]; intros i r; unfold taken; cbn; by rewrite He).
    destruct accepted; [|by apply wp_ret, Hrest]. eapply wp_mono; [| |apply wp_schedule_control; exact Hw2]; [|done]. intros u2 w2' Hw3. by apply Hrest. }
  destruct admission as [item| | |item]; [by apply (Hadm false)|by apply wp_ret|by apply wp_ret|by apply (Hadm true)].
Qed.

(** Calls of the dispatcher, answers of runtimes and ends of tasks in any order,
    and calls of others that hand no control to a runtime. *)
Inductive dispatch_step (w : World) : World -> Prop :=
  | di_enqueue runId kind text req : dispatch_step w (enqueueControl takes_follow_up runId kind text req w).2
  | di_answer runId answer : dispatch_step w (control_answered takes_follow_up runId answer w).2
  | di_ended runId : dispatch_step w (delivery_ended takes_follow_up runId w).2
  | di_ready runId attempt : dispatch_step w (runtimeReady takes_follow_up runId attempt w).2
  | di_other w' : controlDeliveryTasks (process w') = controlDeliveryTasks (process w) ->
      (forall i runId, taken (db w') i runId -> taken (db w) i runId) -> dispatch_step w w'.

Lemma wp_left {A} (m : io A) (P : World -> Prop) w : wp m (fun _ => P) (fun _ => P) w -> P (m w).2.
Proof. unfold wp. by destruct (m w) as [[a|t] w']. Qed.

Lemma answered_tracked runId answer w : tracked w -> tracked (control_answered takes_follow_up runId answer w).2.
Proof.
  intros Htr. destruct (controlDeliveryTasks (process w) !! runId) as [t|] eqn:Et; [destruct (dt_waiting t) as [d|] eqn:Ed|].
  - apply wp_left. eapply wp_mono; [| |by eapply wp_answered]; [by intros u w' [? _]|done].
  - unfold control_answered, mbind, call_mbind, ask. rewrite Et. destruct t as [waiting ts]. cbn in Ed. by subst.
  - unfold control_answered, mbind, call_mbind, ask. by rewrite Et.
Qed.

(** Whatever the interleaving of commands, answers of the runtimes, ends of
    deliveries and calls of the other services, a control that is with a
    runtime always has the delivery task of its TaskRun waiting for the answer:
    no call and no error path leaves a control delivering that nobody settles. *)
Theorem deliveries_tracked w w' : rtc dispatch_step w w' -> tracked w -> tracked w'.
Proof.
  induction 1 as [|w1 w2 w3 Hs _ IH]; [done|]. intros Htr. apply IH. destruct Hs.
  - by apply wp_left, wp_enqueue.
  - by apply answered_tracked.
  - by apply wp_left, wp_delivery_ended.
  - by apply wp_left, wp_runtimeReady.
  - by eapply tracked_quiet.
Qed.

(** The answer of the runtime settles the control it was asked to take, on
    every path: it ends as delivered, rejected or superseded, as delivered only
    if the runtime accepted it while the execution lease of its Attempt was
    current; nothing is thrown, and the loop goes on. *)
Theorem answer_settles_control runId answer t d q w :
  tracked w -> controlDeliveryTasks (process w) !! runId = Some t -> dt_waiting t = Some d ->
  controls (db w) !! dv_itemId d = Some q -> q_status q = K_delivering ->
  wp (control_answered takes_follow_up runId answer) (fun _ w' => exists q',
      controls (db w') !! dv_itemId d = Some q' /\ q_status q' ∈ [K_delivered; K_rejected; K_superseded]
      /\ (q_status q' = K_delivered -> answer = Accepted /\ fence_let_through (dv_fence d) (db w))) (fun _ _ => False) w.
Proof.
  intros Htr Ht Hd Hq Hs. eapply wp_mono; [| |by eapply wp_answered]; [|done]. intros u w' [_ Hout]. by apply (Hout q).
Qed.

End delivery.

(** * Witnesses *)

(** An Attempt whose runtime is ready for controls. *)
Definition demo_ready : World := with_process (with_tokens (insert "run" demo_token)) demo_world.

Definition demo_steered : World := (enqueueControl (fun _ => true) "run" ExecDb.steer "look" "request-1" demo_ready).2.

Definition demo_settled : World := (control_answered (fun _ => true) "run" Accepted demo_steered).2.

Lemma demo_ready_tracked : tracked demo_ready.
Proof.
  assert (map_to_list (controls (db demo_ready)) = []) as E by (vm_compute; reflexivity). apply map_to_list_empty_iff in E.
  intros i r (q & Hq & _). by rewrite E, lookup_empty in Hq.
Qed.

Lemma deliveries_tracked_witness : tracked demo_settled.
Proof.
  apply (deliveries_tracked (fun _ => true) demo_ready demo_settled); [|exact demo_ready_tracked].
  eapply rtc_l; [exact (di_enqueue (fun _ => true) demo_ready "run" ExecDb.steer "look" "request-1")|].
  eapply rtc_l; [exact (di_answer (fun _ => true) demo_steered "run" Accepted)|]. apply rtc_refl.
Defined.

Definition demo_delivery : Delivery := {| dv_itemId := "uuid-1"; dv_attempt := 1; dv_fence := fence_of demo_token |}.

Lemma answer_settles_control_witness :
  wp (control_answered (fun _ => true) "run" (Failed (Exn (Error "gone")))) (fun _ w' => exists q',
      controls (db w') !! "uuid-1" = Some q' /\ q_status q' ∈ [K_delivered; K_rejected; K_superseded]
      /\ (q_status q' = K_delivered -> Failed (Exn (Error "gone")) = Accepted /\ fence_let_through (dv_fence demo_delivery) (db demo_steered)))
    (fun _ _ => False) demo_steered.
Proof.
  assert (exists q, controls (db demo_steered) !! "uuid-1" = Some q /\ q_status q = K_delivering) as (q & Hq & Hs).
  { eexists. split; vm_compute; reflexivity. }
  apply (answer_settles_control (fun _ => true) "run" (Failed (Exn (Error "gone"))) {| dt_waiting := Some demo_delivery; dt_then := [] |}
    demo_delivery q demo_steered);
    [exact (wp_left (enqueueControl (fun _ => true) "run" ExecDb.steer "look" "request-1") tracked demo_ready
       (wp_enqueue _ _ _ _ _ _ demo_ready_tracked))|vm_compute; reflexivity|reflexivity|exact Hq|exact Hs].
Defined.

(** The control is delivered, and the events say so. *)
Example control_delivered :
  map ev_type (published demo_settled) = ["control.accepted"; "control.delivering"; "control.delivered"].
Proof. vm_compute. reflexivity. Qed.

(** A control that is accepted after the loop of the last delivery ended and
    before its [finally] ran is not delivered by either: it waits in the queue
    until another call schedules a delivery. *)
Example lost_wake_up :
  let w := (enqueueControl (fun _ => true) "run" ExecDb.steer "now" "request-2" demo_settled).2 in
  let w' := (delivery_ended (fun _ => true) "run" w).2 in
  controlDeliveryTasks (process w') !! "run" = None
  /\ map (fun kq => q_status kq.2) (listControlInbox "run" (db w')) = [K_delivered; K_queued].
Proof. vm_compute. done. Qed.
