(* ===== verification/SchedulerFacts.v ===== *)
(** What the scheduling of continuations guarantees: a bounded number of
    automatic continuations, none for an external action, and no continuation
    that is forgotten. *)
From S2P Require Import Prelude Regex Json TaskPolicy Attempt GateData ExecDb Canonical AttemptRepo RunStore Transcript Continuation PlanGraph PlanStore AuditAlgebra Evidence CompletionGate Supervisor RunView Approval Service Settlement AttemptSpec StoreSpec Demo AttemptRefine StoreRefine AttemptTrace PortSteps ContinuationSteps PortTrace ContinuationFacts SettlementFacts Reviews ReviewsFacts Scheduler.
Local Open Scope tx_scope.

(** * Calls that leave the queue alone *)

(** The continuations, the Attempts, the process and the clock are as they were. *)
Record quiet (w w' : World) : Prop := {
  qu_continuations : continuations (db w') = continuations (db w);
  qu_attempts : attempts (db w') = attempts (db w);
  qu_process : process w' = process w;
  qu_clock : clock w' = clock w;
  qu_runs : forall j, r_status <$> runs (db w') !! j = r_status <$> runs (db w) !! j;
}.

Lemma quiet_refl w : quiet w w.
Proof. by split. Qed.

Lemma quiet_trans w1 w2 w3 : quiet w1 w2 -> quiet w2 w3 -> quiet w1 w3.
Proof. intros [A1 A2 A3 A4 A5] [B1 B2 B3 B4 B5]. split; [congruence..|]. intros j. by rewrite B5. Qed.

Lemma wp_any {A} (m : io A) w : wp m (fun _ _ => True) (fun _ _ => True) w.
Proof. unfold wp. by destruct (m w) as [[a|t] w']. Qed.

Section facts.
Context `{Platform, ContractType}.

Lemma quiet_store e w :
  continuations e = continuations (db w) -> attempts e = attempts (db w) -> (forall j, r_status <$> runs e !! j = r_status <$> runs (db w) !! j) ->
  quiet w (with_gov (gov_with e (gov w)) w).
Proof. by split. Qed.

Lemma wp_logged runId type data w : wp (logged runId type data) (fun _ => quiet w) (fun _ => quiet w) w.
Proof.
  apply wp_bind, wp_ask, wp_bind, wp_store; [|by intros; apply quiet_refl]. intros ev e He.
  assert (quiet w (with_gov (gov_with e (gov w)) w)) as [Q1 Q2 Q3 Q4 Q5].
  { unfold appendEvent in He. tx_inv He.
    match goal with E : insert_event _ _ _ _ = Ok _ |- _ => apply insert_event_ok in E as [_ ->] end.
    apply quiet_store; [done|done|]. intros j. cbn. rewrite lookup_alter. case_decide; [|done]. subst j.
    by destruct (runs (db w) !! runId). }
  by apply wp_publish.
Qed.

Lemma wp_say run text w : wp (say run text) (fun _ => quiet w) (fun _ => quiet w) w.
Proof.
  apply wp_bind, wp_ask, wp_store; [|by intros; apply quiet_refl]. intros ev e He.
  unfold appendMessage in He. tx_inv He. by apply quiet_store.
Qed.

(** * The timer *)

(** [map_fold] of the minimum. *)
Lemma next_expiry ts d :
  match nextContinuationLeaseExpiry ts d with
  | Some m => forall i n t, continuations d !! i = Some n -> wake_up ts n = Some t -> (m <= t)%Z
  | None => forall i n, continuations d !! i = Some n -> wake_up ts n = None
  end.
Proof.
  unfold nextContinuationLeaseExpiry.
  apply (map_fold_weak_ind (fun acc (m : gmap string ContinuationRow) => match acc with
    | Some x => forall i n t, m !! i = Some n -> wake_up ts n = Some t -> (x <= t)%Z
    | None => forall i n, m !! i = Some n -> wake_up ts n = None
    end)).
  - by intros i n.
  - intros i n m acc Hi IH. destruct (wake_up ts n) as [t|] eqn:E.
    + destruct acc as [u|].
      * intros j n' t' [[<- <-]|[_ Hj]]%lookup_insert_Some Hw; [rewrite E in Hw; injection Hw as <-; lia|].
        specialize (IH _ _ _ Hj Hw). lia.
      * intros j n' t' [[<- <-]|[_ Hj]]%lookup_insert_Some Hw; [rewrite E in Hw; injection Hw as <-; lia|].
        by rewrite (IH _ _ Hj) in Hw.
    + destruct acc as [u|].
      * intros j n' t' [[<- <-]|[_ Hj]]%lookup_insert_Some Hw; [congruence|by eapply IH].
      * intros j n' [[<- <-]|[_ Hj]]%lookup_insert_Some; [done|by eapply IH].
Qed.

(** Every continuation that asks to be looked at has the timer set for it, in
    time unless that is beyond what a timer can wait. *)
Definition armed (w : World) : Prop :=
  forall i n t, continuations (db w) !! i = Some n -> wake_up (clock w) n = Some t ->
  exists delay, continuationRecoveryTimer (process w) = Some delay /\ (1 <= delay <= 2147483647)%Z
    /\ (delay <= Z.max 1 (t - clock w + 1))%Z.

Definition timer_of (t : option Z) (w : World) : World := with_process (with_recovery_timer t) w.

Lemma wp_schedule (Q : unit -> World -> Prop) R w :
  (forall t, (closing (process w) = false -> armed (timer_of t w)) -> Q tt (timer_of t w)) ->
  wp scheduleContinuationRecovery Q R w.
Proof.
  intros HQ. apply wp_bind, wp_update, wp_bind, wp_ask. change (closing (process (with_process (with_recovery_timer None) w))) with (closing (process w)).
  destruct (closing (process w)) eqn:Ecl; [by apply wp_ret, (HQ None)|].
  apply wp_bind, wp_ask. change (clock (with_process _ w)) with (clock w). change (db (with_process _ w)) with (db w).
  pose proof (next_expiry (clock w) (db w)) as Hn. destruct (nextContinuationLeaseExpiry (clock w) (db w)) as [m|].
  - apply wp_bind, wp_ask, wp_update. apply (HQ (Some (Z.min 2147483647 (Z.max 1 (m - clock w + 1))))). intros _ i n t Hi Hw.
    eexists. split; [reflexivity|]. specialize (Hn i n t Hi Hw). cbn. lia.
  - apply wp_ret, (HQ None). intros _ i n t Hi Hw. change (wake_up (clock w) n = Some t) in Hw.
    by rewrite (Hn i n Hi) in Hw.
Qed.

(** * The bound *)

Definition continuation_count (runId : string) (d : Db) : Z := Z.of_nat (length (listContinuations runId d)).

Lemma count_same runId d d' : continuations d' = continuations d -> continuation_count runId d' = continuation_count runId d.
Proof. unfold continuation_count, listContinuations, continuations_where. by intros ->. Qed.

Lemma filter_length {A} (p : A -> bool) l l' : l ≡ₚ l' -> length (List.filter p l) = length (List.filter p l').
Proof. induction 1 as [|x l l' _ IH|x y l|l1 l2 l3 _ IH1 _ IH2]; cbn; [done| | |congruence]; repeat destruct (p _); cbn; congruence. Qed.

Lemma count_insert runId d i n f :
  continuations d !! i = None -> f = set_continuations (insert i n) ->
  continuation_count runId (f d) = (continuation_count runId d + if String.eqb (n_runId n) runId then 1 else 0)%Z.
Proof.
  intros Hi ->. unfold continuation_count, listContinuations, continuations_where. rewrite !merge_sort_Permutation.
  cbn. rewrite (filter_length _ _ _ (map_to_list_insert _ _ n Hi)). cbn. destruct (String.eqb (n_runId n) runId); cbn; lia.
Qed.

Lemma queue_count rid reason nb ts d v d' j :
  Continuation.queueContinuation rid reason nb ts d = Ok (v, d') ->
  continuation_count j d' = (continuation_count j d + if String.eqb rid j then 1 else 0)%Z.
Proof.
  unfold Continuation.queueContinuation. intros Hs. tx_inv Hs.
  match goal with E : randomUUID _ = Ok _ |- _ => apply randomUUID_ok in E as [-> ->] end.
  match goal with E : insert_continuation _ _ _ = Ok _ |- _ => apply insert_continuation_ok in E as (Hi & _ & ->) end.
  by rewrite (count_insert j _ _ _ _ Hi eq_refl).
Qed.

Lemma hydrate_continuations runId now d run :
  hydrateRun runId now d = Ok (Some run) -> tr_continuations run = listContinuations runId (gd_db d).
Proof.
  unfold hydrateRun. destruct (runs (gd_db d) !! runId) as [row|]; [|by intros [= <-]]. intros Hs.
  apply result_bind_ok in Hs as (g & _ & Hs). by injection Hs as <-.
Qed.

(** The number of continuations of every TaskRun grows by at most one, and only
    below the limit. *)
Definition within_limit (rid : string) (w w' : World) : Prop :=
  forall j, (continuation_count j (db w') <= continuation_count j (db w))%Z
    \/ (j = rid /\ continuation_count j (db w) < max_continuations w /\ continuation_count j (db w') = continuation_count j (db w) + 1)%Z.

Lemma quiet_limit rid w w' : quiet w w' -> within_limit rid w w'.
Proof. intros Hq j. left. by rewrite (count_same j _ _ (qu_continuations _ _ Hq)). Qed.

(** C20. Automatic continuations are bounded. However it ends, queueing a
    continuation gives no TaskRun more than one continuation, gives one only to
    the TaskRun it was called for, and only while that has fewer continuations
    than the limit. *)
Theorem continuations_bounded rid failure w :
  wp (queueContinuation rid failure) (fun _ => within_limit rid w) (fun _ => within_limit rid w) w.
Proof.
  assert (within_limit rid w w) as Hid by (intros j; left; lia).
  apply wp_bind, wp_getRun; [|by intros]. intros [run|] Hr; [|by apply wp_ret].
  destruct (negb _); [by apply wp_ret|]. destruct (requiresExternalActionApproval run); [by apply wp_ret|].
  cbv zeta. destruct (andb (bool_decide _) (stalled run)).
  { apply wp_bind. eapply wp_mono; [| |apply wp_say]; [|intros t w1; apply quiet_limit]. intros u w1 H1.
    eapply wp_mono; [| |apply wp_logged]; intros x w2 H2; exact (quiet_limit _ _ _ (quiet_trans _ _ _ H1 H2)). }
  apply wp_bind, wp_ask. destruct (Z.leb_spec (max_continuations w) (Z.of_nat (length (tr_continuations run)))) as [Hge|Hlt].
  { apply wp_bind. eapply wp_mono; [| |apply wp_say]; [|intros t w1; apply quiet_limit]. intros u w1 H1.
    eapply wp_mono; [| |apply wp_logged]; intros x w2 H2; exact (quiet_limit _ _ _ (quiet_trans _ _ _ H1 H2)). }
  rewrite (hydrate_continuations _ _ _ _ Hr) in Hlt.
  apply wp_bind, wp_ask, wp_bind, wp_store; [|by intros]. intros v e He.
  assert (forall w2, continuations (db w2) = continuations e -> within_limit rid w w2) as Hdone.
  { intros w2 E j. rewrite (count_same j _ _ E), (queue_count _ _ _ _ _ _ _ j He).
    destruct (String.eqb_spec rid j) as [<-|]; [right|left; lia]. split; [done|]. split; [exact Hlt|done]. }
  apply wp_bind. eapply wp_mono; [| |apply wp_logged].
  - intros u w2 H2. apply wp_schedule. intros t _. apply Hdone. apply (qu_continuations _ _ H2).
  - intros t w2 H2. apply Hdone, (qu_continuations _ _ H2).
Qed.

(** * External actions *)

Context `{!ContinuationLauncher}.

(** No continuation of the TaskRun waits to be started. *)
Definition none_queued (runId : string) (d : Db) : Prop :=
  forall i n, continuations d !! i = Some n -> n_runId n = runId -> n_status n <> N_queued.

(** A TaskRun that needs an approval for an external action is never
    continued on its own: queueing a continuation for it changes nothing, and
    starting what is queued for it starts no Attempt but cancels the queue. *)
Theorem external_not_continued rid run w :
  hydrateRun rid (clock w) (gov w) = Ok (Some run) -> requiresExternalActionApproval run = true ->
  closing (process w) = false -> rid ∉ runtimes (process w) ->
  (forall failure, queueContinuation rid failure w = (Returned tt, w))
  /\ wp (startQueuedContinuation rid) (fun _ w' => attempts (db w') = attempts (db w) /\ none_queued rid (db w'))
       (fun _ w' => attempts (db w') = attempts (db w) /\ none_queued rid (db w')) w.
Proof.
  intros Hr Hx Hcl Hrt. split.
  - intros failure. unfold queueContinuation, getRun, ask, mbind, call_mbind. rewrite Hr. cbn. rewrite Hx. by destruct (negb _).
  - apply wp_bind, wp_ask. rewrite Hcl. apply wp_bind, wp_ask. rewrite bool_decide_eq_false_2 by done.
    apply wp_bind, wp_getRun; [|intros e He; congruence]. intros r Hr'. rewrite Hr in Hr'. injection Hr' as <-. rewrite Hx.
    apply wp_bind, wp_ask, wp_bind, wp_store; [|by intros e He]. intros u e He.
    unfold cancelQueuedContinuations in He. injection He as _ <-.
    set (w1 := with_gov _ w). assert (attempts (db w1) = attempts (db w) /\ none_queued rid (db w1)) as Hdone.
    { split; [done|]. intros i n Hi Hn Hs. unfold w1, db, gd_db in Hi. cbn in Hi. unfold update_where in Hi.
      rewrite lookup_fmap in Hi. destruct (continuations (pd_db (gd_plans (gov w))) !! i) as [m|] eqn:E; [|done]. cbn in Hi.
      injection Hi as <-. destruct (String.eqb_spec (n_runId m) rid) as [|Hne]; cbn in *.
      - destruct (bool_decide_reflect (n_status m = N_queued)); done.
      - done. }
    clearbody w1. destruct (existsb _ _); [|by apply wp_ret].
    eapply wp_mono; [| |apply wp_logged]; intros x w2 [Q1 Q2 _ _ _]; unfold none_queued; rewrite Q1, Q2; exact Hdone.
Qed.

(** * Recovery *)

(** A continuation that is due. *)
Definition is_due (ts : Z) (n : ContinuationRow) : bool :=
  bool_decide (n_status n = N_queued) && (n_notBefore n <=? ts)%Z
  || bool_decide (n_status n = N_running) && match n_leaseUntil n with None => true | Some t => (t <=? ts)%Z end.

(** Recovery rewrites only the rows it found. *)
Lemma recover_one_row ts x d u d' i n' :
  recover_one ts x d = Ok (u, d') -> continuations d' !! i = Some n' ->
  exists n, continuations d !! i = Some n /\ n_runId n' = n_runId n /\ (n' = n \/ x.1.1 = i).
Proof.
  destruct x as [[j m] r]. cbn. case_bool_decide; [by intros [_ ->]%mret_ok; eauto|].
  intros (k & t & Hu & ->%block_run_frame)%tx_bind_ok Hi.
  apply update_continuation_ok in Hu as [(y & _ & Hy & _ & _ & ->)|(_ & -> & _)]; [|by eauto].
  cbn in Hi. apply lookup_insert_Some in Hi as [[<- <-]|[_ Hi]]; [|by eauto]. exists y. by split_and!; [| |right].
Qed.

Lemma block_run_none rid reason n seq ts d u d' j :
  block_run rid reason n seq ts d = Ok (u, d') -> runs d !! j = None -> runs d' !! j = None.
Proof.
  unfold block_run, deactivate_checkpoint. intros Hs Hj. tx_inv Hs.
  rewrite (projectAttempt_keeps runs _ _ _ _ _ _ _ _ _ _ _ (fun _ _ => eq_refl) (fun _ _ => eq_refl) (fun _ => eq_refl) Hs). cbn.
  match goal with E : update_run _ _ _ _ = Ok _ |- _ => apply update_run_ok in E as [(x & _ & Hx & _ & ->)|[_ ->]] end; [|done].
  cbn. rewrite lookup_insert_ne; [done|]. intros <-. congruence.
Qed.

Lemma recover_one_none ts x d u d' j : recover_one ts x d = Ok (u, d') -> runs d !! j = None -> runs d' !! j = None.
Proof.
  destruct x as [[i m] r]. cbn. case_bool_decide; [by intros [_ ->]%mret_ok|].
  intros (k & t & Hu & Hb)%tx_bind_ok Hj. eapply block_run_none; [exact Hb|].
  by apply update_continuation_ok in Hu as [(y & _ & _ & _ & _ & ->)|(_ & -> & _)].
Qed.

Lemma joined_spec p d i n r :
  ((i, n), r) ∈ joined p d <-> continuations d !! i = Some n /\ p i n = true /\ runs d !! n_runId n = Some r.
Proof.
  unfold joined. rewrite list_elem_of_omap. split.
  - intros ([j m] & Hin & (r' & Hr & [= -> -> ->])%fmap_Some). rewrite (merge_sort_Permutation by_creation) in Hin.
    apply filter_elem in Hin as [Hin Hp]. apply elem_of_map_to_list in Hin. done.
  - intros (Hi & Hp & Hr). exists (i, n). rewrite (merge_sort_Permutation by_creation). split.
    + apply filter_elem. split; [by apply elem_of_map_to_list|done].
    + cbn. by rewrite Hr.
Qed.

(** What is due after the recovery of what had expired is in its answer. *)
Lemma recover_expired_covers ts d l d' i n :
  recoverContinuationsAfterRestart ts d = Ok (l, d') -> continuations d' !! i = Some n -> is_due ts n = true ->
  is_Some (runs d' !! n_runId n) -> exists o, (i, n_runId n, o) ∈ l.
Proof.
  intros Hs Hi Hd Hr. unfold recoverContinuationsAfterRestart in Hs. apply tx_bind_ok in Hs as (active & d0 & [Ea ->]%gets_ok & Hs).
  apply tx_bind_ok in Hs as (u & d1 & Hfor & [-> ->]%mret_ok).
  assert ((forall i n', continuations d1 !! i = Some n' -> exists n, continuations d !! i = Some n /\ n_runId n' = n_runId n
      /\ (n' = n \/ exists x, x ∈ active /\ x.1.1 = i)) /\ forall j, runs d !! j = None -> runs d1 !! j = None) as [Hrow Hnone].
  { apply (for_each_ind (fun t => (forall i n', continuations t !! i = Some n' -> exists n, continuations d !! i = Some n
      /\ n_runId n' = n_runId n /\ (n' = n \/ exists x, x ∈ active /\ x.1.1 = i)) /\ forall j, runs d !! j = None -> runs t !! j = None)) in Hfor;
      [done| |split; [eauto|done]].
    intros x t t' Hx [Ht Hn] Hone. split; [|intros j Hj; eapply recover_one_none; eauto].
    intros j n' Hj. destruct (recover_one_row _ _ _ _ _ _ _ Hone Hj) as (m & Hm & E & Hor).
    destruct (Ht _ _ Hm) as (m0 & Hm0 & E0 & Hor0). exists m0. split; [done|]. split; [congruence|].
    destruct Hor as [->|<-]; [exact Hor0|right; by exists x]. }
  destruct (Hrow _ _ Hi) as (m & Hm & E & [->|([[j y] r] & Hx & <-)]).
  - destruct (runs d !! n_runId m) as [r|] eqn:Er; [|rewrite (Hnone _ Er) in Hr; by destruct Hr].
    exists (n_ordinal m). apply list_elem_of_fmap. exists ((i, m), r). split; [done|]. rewrite Ea. by apply joined_spec.
  - rewrite Ea in Hx. apply joined_spec in Hx as Hx'. destruct Hx' as (Hy & _ & _). cbn in Hm.
    assert (y = m) as -> by congruence. exists (n_ordinal m). apply list_elem_of_fmap. exists ((j, m), r). rewrite E.
    split; [done|]. by rewrite Ea.
Qed.

(** C31. A recovery forgets no continuation. When it returns, and the service is
    not shutting down, every continuation that asks to be looked at has the
    timer set for it, and every continuation that is due belongs to a TaskRun
    whose continuation is started on the next turn. *)
Theorem recovery_forgets_nothing w :
  closing (process w) = false ->
  wp recoverContinuations (fun ids w' => closing (process w') = false -> armed w'
      /\ forall i n, continuations (db w') !! i = Some n -> is_due (clock w') n = true -> is_Some (runs (db w') !! n_runId n) ->
         n_runId n ∈ ids) (fun _ _ => True) w.
Proof.
  intros Hcl. apply wp_bind, wp_ask. rewrite Hcl. apply wp_bind, wp_update, wp_bind, wp_ask, wp_bind.
  eapply wp_mono; [| |apply wp_any]; [|done].
  intros u w1 _. apply wp_bind, wp_ask, wp_bind, wp_store; [|done]. intros recovered e He.
  set (w2 := with_gov (gov_with e (gov w1)) w1). assert (db w2 = e) as Edb by done. assert (clock w2 = clock w1) as Eck by done.
  clearbody w2. apply wp_bind. eapply wp_mono; [| |apply (wp_each _ _ (quiet w2) (fun _ _ => True))]; [|done| |apply quiet_refl].
  2:{ intros x v _ Hv. eapply wp_mono; [| |apply wp_logged]; [|done]. intros u' v' Hv'. by eapply quiet_trans. }
  intros u' w3 [Q1 _ _ Q4 Q5]. apply wp_bind, wp_schedule. intros t Harm. apply wp_ret. intros Hcl3. split; [by apply Harm|].
  intros i n Hi Hd Hr. change (continuations (db w3) !! i = Some n) in Hi. change (is_due (clock w3) n = true) in Hd.
  change (is_Some (runs (db w3) !! n_runId n)) in Hr. rewrite Q1, Edb in Hi. rewrite Q4, Eck in Hd.
  destruct (recover_expired_covers _ _ _ _ _ _ He Hi Hd) as [o Ho].
  { specialize (Q5 (n_runId n)). rewrite Edb in Q5. destruct (runs e !! n_runId n); [by eexists|]. destruct Hr as [r Hr]. by rewrite Hr in Q5. }
  apply dedup_elem, list_elem_of_fmap. by exists (i, n_runId n, o).
Qed.

(** * A failed preparation *)

(** The TaskRun goes back to blocked where it may, and stays as it is elsewhere. *)
Lemma block_run_status rid reason n seq ts d u d' r :
  block_run rid reason n seq ts d = Ok (u, d') -> runs d !! rid = Some r -> includes (r_status r) [R_running; R_interrupted; R_blocked] = true ->
  r_status <$> runs d' !! rid = Some R_blocked.
Proof.
  unfold block_run, deactivate_checkpoint. intros Hs Hr Hin. tx_inv Hs.
  rewrite (projectAttempt_keeps runs _ _ _ _ _ _ _ _ _ _ _ (fun _ _ => eq_refl) (fun _ _ => eq_refl) (fun _ => eq_refl) Hs). cbn.
  match goal with E : update_run _ _ _ _ = Ok _ |- _ => unfold update_run in E; tx_inv E end; cbn; try congruence.
  rewrite lookup_insert_eq. done.
Qed.

Lemma release_queues cid owner reason ts d v d' n r :
  releaseContinuationLease cid owner reason ts d = Ok (v, d') ->
  continuations d !! cid = Some n -> leased_to owner n = true -> runs d !! n_runId n = Some r ->
  includes (r_status r) [R_running; R_interrupted; R_blocked] = true ->
  continuations d' !! cid = Some (requeued reason n) /\ r_status <$> runs d' !! n_runId n = Some R_blocked.
Proof.
  intros Hs Hn Hl Hr Hst. unfold releaseContinuationLease in Hs. apply tx_bind_ok in Hs as (active & d0 & [Ea ->]%gets_ok & Hs).
  assert (((cid, n), r) ∈ active) as Hin.
  { rewrite Ea. apply joined_spec. split; [done|]. by rewrite String.eqb_refl, Hl. }
  destruct active as [|[[i m] r'] active]; [by apply elem_of_nil in Hin|].
  assert (i = cid /\ m = n /\ r' = r) as (-> & -> & ->).
  { assert (((i, m), r') ∈ joined (fun j n => String.eqb j cid && leased_to owner n) d) as (Hm & Hp & Hr')%joined_spec by (rewrite <- Ea; by left).
    apply andb_true_iff in Hp as [Ei _]. apply String.eqb_eq in Ei as ->. assert (m = n) as -> by congruence. split; [done|]. split; [done|congruence]. }
  apply tx_bind_ok in Hs as (k & t & Hu & Hs). apply update_continuation_ok in Hu as [(x & -> & Hx & _ & _ & ->)|(_ & _ & Hno)].
  2:{ specialize (Hno n Hn). congruence. }
  assert (x = n) as -> by congruence. cbn in Hs. apply tx_bind_ok in Hs as (u & t & Hb & [_ ->]%mret_ok). split.
  - rewrite (block_run_frame _ _ _ _ _ _ _ _ Hb). cbn. by rewrite lookup_insert_eq.
  - by eapply block_run_status.
Qed.

(** A continuation whose preparation fails is not lost. When the preparation
    or the launch of a claimed continuation throws and its failure is handled,
    the continuation that was still leased to the service is queued again, its
    TaskRun is blocked again where it was running, and the timer is set for
    every continuation. *)
Theorem failed_start_requeued runId cid row run event t n r w w1 w' :
  (let* prepared := cl_prepare run row in do* publish event in cl_launch run prepared cid) w = (Thrown t, w1) ->
  continuations (db w1) !! cid = Some n -> leased_to (continuationOwner (process w1)) n = true ->
  runs (db w1) !! n_runId n = Some r -> includes (r_status r) [R_running; R_interrupted; R_blocked] = true ->
  prepare_and_launch runId cid row run event w = (Returned tt, w') ->
  (exists m, continuations (db w') !! cid = Some m /\ n_status m = N_queued /\ n_reason m = n_reason n)
  /\ r_status <$> runs (db w') !! n_runId n = Some R_blocked
  /\ (closing (process w1) = false -> armed w').
Proof.
  intros Hbody Hn Hl Hr Hst Hret.
  assert (wp (prepare_and_launch runId cid row run event) (fun _ w' =>
    (exists m, continuations (db w') !! cid = Some m /\ n_status m = N_queued /\ n_reason m = n_reason n)
    /\ r_status <$> runs (db w') !! n_runId n = Some R_blocked
    /\ (closing (process w1) = false -> armed w')) (fun _ _ => True) w) as Hwp; [|unfold wp in Hwp; by rewrite Hret in Hwp].
  apply wp_try. unfold wp at 1. rewrite Hbody. apply wp_bind, wp_ask, wp_bind, wp_ask, wp_bind, wp_store; [|done]. intros v e He.
  destruct (release_queues _ _ _ _ _ _ _ n r He Hn Hl Hr Hst) as [Hq Hb].
  apply wp_bind. eapply wp_mono; [| |apply wp_logged]; [|done]. intros u w2 [Q1 _ Q3 _ Q5]. apply wp_schedule. intros tm Harm. split; [|split].
  - exists (requeued ("Continuation preparation failed safely: " +:+ thrown_message t) n). split; [|done].
    change (continuations (db w2) !! cid = Some (requeued ("Continuation preparation failed safely: " +:+ thrown_message t) n)).
    rewrite Q1. exact Hq.
  - change (r_status <$> runs (db w2) !! n_runId n = Some R_blocked). rewrite Q5. exact Hb.
  - intros Hcl. apply Harm. by rewrite Q3.
Qed.

End facts.

(** * Witnesses *)

(** An executor that fails to launch. *)
#[export] Instance demo_launcher : ContinuationLauncher :=
  {| cl_prepared := unit; cl_prepare _ _ := mret tt; cl_launch _ _ _ := raise (Exn (Error "no executor")) |}.

Definition world_of (d : Db) (now : Z) : World :=
  {| gov := {| gd_plans := {| pd_db := d; plan_items := ∅; plan_revisions := [] |}; run_checks := ∅; artifacts := ∅;
               evidence_rows := []; manifests := ∅ |};
     process := {| closing := false; continuationOwner := "scheduler"; executionOwner := "executor"; runtimes := ∅;
       controlDeliveryTasks := ∅; executionTasks := ∅; checkpointDrafts := ∅; checkpointTokens := ∅;
       checkpointTimers := ∅; lastCheckpointTranscriptSeq := ∅; continuationRecoveryTimer := None; supervisorRestartReconciled := false;
       initialized := true; backgroundWorkStarted := true; maxContinuations := None; controlInboxCapacity := None |};
     published := []; clock := now |}.

Definition demo_external_approval : ApprovalRow :=
  {| p_runId := "run"; p_decisionId := "decision"; p_actionType := execute_external_action; p_targetType := "taskrun"; p_targetId := "run";
     p_reason := "deploy"; p_metadata := []; p_status := Ap_pending; p_requestedAt := 1; p_resolvedAt := None; p_resolvedBy := "";
     p_resolution := ""; p_scopeType := None; p_scopeId := None; p_operationDigest := None; p_riskClass := None; p_expiresAt := None;
     p_reuseMode := None; p_maxUses := None; p_usedCount := None |}.

(** A queued continuation of a TaskRun that waits for an approval. *)
Definition demo_external : World := world_of (set_approvals (fun _ => {["approval" := demo_external_approval]}) demo_queued) 40.

Lemma external_not_continued_witness :
  wp (startQueuedContinuation "run") (fun _ w' => attempts (db w') = attempts (db demo_external) /\ none_queued "run" (db w'))
    (fun _ w' => attempts (db w') = attempts (db demo_external) /\ none_queued "run" (db w')) demo_external.
Proof.
  assert (exists run, hydrateRun "run" 40 (gov demo_external) = Ok (Some run) /\ requiresExternalActionApproval run = true) as (run & Hr & Hx).
  { eexists. split; [vm_compute; reflexivity|vm_compute; reflexivity]. }
  refine (proj2 (external_not_continued "run" run demo_external Hr Hx _ _)); [reflexivity|]. by apply not_elem_of_empty.
Defined.

(** A new process finds the queued continuation. *)
Lemma recovery_forgets_nothing_witness :
  wp recoverContinuations (fun ids w' => closing (process w') = false -> armed w'
      /\ forall i n, continuations (db w') !! i = Some n -> is_due (clock w') n = true -> is_Some (runs (db w') !! n_runId n) ->
         n_runId n ∈ ids) (fun _ _ => True) (world_of demo_queued 40).
Proof. apply (recovery_forgets_nothing (world_of demo_queued 40)). reflexivity. Defined.

Example recovery_finds_it :
  (recoverContinuations (world_of demo_queued 40)).1 = Returned ["run"]
  /\ continuationRecoveryTimer (process (recoverContinuations (world_of demo_queued 40)).2) = Some 1001%Z.
Proof. vm_compute. done. Qed.

Definition demo_run_view : TaskRun := demo_task_run.

Definition demo_started : RunEvent :=
  {| ev_runId := "run"; ev_seq := 0; ev_type := "continuation.started"; ev_data := JObj []; ev_createdAt := 0 |}.

Definition demo_claimed_row : ContinuationRow :=
  match continuations demo_claimed_continuation !! demo_cid with Some n => n | None => queued_row "" 0 "" 0 0 end.

Definition demo_start : World := world_of demo_claimed_continuation 41.

Definition demo_prepared : World := (prepare_and_launch "run" demo_cid demo_claimed_row demo_run_view demo_started demo_start).2.

Definition demo_failed : World := ((do* publish demo_started in cl_launch demo_run_view tt demo_cid) demo_start).2.

Lemma failed_start_requeued_witness :
  (exists m, continuations (db demo_prepared) !! demo_cid = Some m /\ n_status m = N_queued /\ n_reason m = n_reason demo_claimed_row)
  /\ r_status <$> runs (db demo_prepared) !! n_runId demo_claimed_row = Some R_blocked
  /\ (closing (process demo_failed) = false -> armed demo_prepared).
Proof.
  assert (exists r, runs (db demo_failed) !! n_runId demo_claimed_row = Some r /\ r_status r = R_running) as (r & Hr & Hs).
  { eexists. split; [vm_compute; reflexivity|reflexivity]. }
  apply (failed_start_requeued "run" demo_cid demo_claimed_row demo_run_view demo_started (Exn (Error "no executor")) demo_claimed_row r
    demo_start demo_failed demo_prepared);
    [reflexivity|vm_compute; reflexivity|vm_compute; reflexivity|exact Hr|rewrite Hs; reflexivity|vm_compute; reflexivity].
Defined.
