(* ===== verification/ExecutorFacts.v ===== *)
(** What the execution of an Attempt guarantees: whatever the runtime, the
    Supervisor and the services around it do, the lease, the token of the
    checkpoint and the execution task of the Attempt are given back at its end. *)
From S2P Require Import Prelude Json TaskPolicy Attempt GateData ExecDb Canonical AttemptRepo RunStore Transcript Continuation Transition Tools Mailbox RuntimeMutation PlanGraph PlanStore AuditAlgebra Evidence CompletionGate Supervisor RunView Approval Service Settlement EventHub Dispatcher Scheduler Executor AttemptSpec StoreSpec Demo AttemptRefine StoreRefine AttemptTrace PortSteps ContinuationSteps PortTrace AttemptLive AttemptHold GovernanceFacts SettlementFacts ServiceSteps Reviews ReviewsFacts.
Local Open Scope tx_scope.

(** * The lease of an Attempt *)

(** The lease was granted to the token, and nobody else has the same fence. *)
Definition granted (token : AttemptExecutionToken) (d : Db) : Prop :=
  exists l, leases d !! tk_attemptId token = Some l /\ (tk_executionFence token <= l_fence l)%Z
    /\ (l_fence l = tk_executionFence token -> l_ownerId l = tk_ownerId token /\ l_token l = tk_leaseToken token).

(** It was released, or the Attempt was leased again since. *)
Definition given_back (token : AttemptExecutionToken) (d : Db) : Prop :=
  exists l, leases d !! tk_attemptId token = Some l /\ (tk_executionFence token <= l_fence l)%Z
    /\ (l_fence l = tk_executionFence token -> l_releasedAt l <> None).

Lemma granted_after token d d' : ledger (leases d) -> granted token d -> ledger_step (leases d) (leases d') -> granted token d'.
Proof.
  intros Hm (l & Hl & Hf & Ht) Hs. destruct (ld_grows _ _ Hs Hm _ _ Hl) as (l' & Hl' & Hf' & Hk).
  exists l'. split_and!; [done|lia|]. intros E. destruct Hk as (-> & -> & _); [lia|]. apply Ht. lia.
Qed.

Lemma given_back_after token d d' : ledger (leases d) -> given_back token d -> ledger_step (leases d) (leases d') -> given_back token d'.
Proof.
  intros Hm (l & Hl & Hf & Hr) Hs. destruct (ld_grows _ _ Hs Hm _ _ Hl) as (l' & Hl' & Hf' & Hk).
  exists l'. split_and!; [done|lia|]. intros E. apply Hk; [lia|]. apply Hr. lia.
Qed.

(** The holder of a granted lease can always release it. *)
Lemma release_gives_back `{Platform} token ts d : ledger (leases d) -> granted token d ->
  exists b d', releaseExecutionLease (tk_attemptId token) (tk_ownerId token) (tk_leaseToken token) (tk_executionFence token) ts d = Ok (b, d')
    /\ ledger_step (leases d) (leases d') /\ given_back token d'.
Proof.
  intros Hm (l & Hl & Hf & Ht). set (free := lease_to l (l_leaseUntil l) (l_heartbeatAt l) (Some ts)).
  destruct (Hm _ _ Hl) as [Hi Hck].
  assert (exists b d', releaseExecutionLease (tk_attemptId token) (tk_ownerId token) (tk_leaseToken token) (tk_executionFence token) ts d = Ok (b, d')
    /\ (d' = d /\ (l_fence l = tk_executionFence token -> l_releasedAt l <> None) \/ d' = set_leases (insert (l_attemptId l) free) d))
    as (b & d' & E & Hd).
  { unfold releaseExecutionLease, update_lease, write_lease, gets, mbind, tx_mbind. cbn. rewrite Hl.
    destruct (_ && _) eqn:Eg.
    - do 2 eexists. unfold require, check. change (lease_check _) with (lease_check l). rewrite Hck. cbn. split; [reflexivity|by right].
    - do 2 eexists. cbn. split; [reflexivity|]. left. split; [done|]. intros Hfe. destruct (Ht Hfe) as [Ho Hk].
      rewrite Ho, Hk, Hfe, !String.eqb_refl, Z.eqb_refl in Eg. by case_bool_decide. }
  exists b, d'. split; [exact E|]. split; [by eapply ledgered_lease_release|].
  destruct Hd as [[-> Hr]| ->]; [by exists l|]. exists free. cbn. rewrite Hi, lookup_insert_eq. split_and!; [done|exact Hf|done].
Qed.

(** * Calls of the services *)

(** The collaborators of an execution leave the leases of its Attempt to grow
    and take up no token and no task of it; the recovery of the scheduler does
    so ([keeps_recoverContinuations]), whatever it blocks. *)
Record Collaborators `{SupervisorPort, RecoveryControlPort, ExecutorPorts} (token : AttemptExecutionToken) (runtime : HostedRuntime) : Prop := {
  co_prompt text : keeps token (prompt (rt_port runtime) text);
  co_skill f name text : invokeSkill (rt_port runtime) = Some f -> keeps token (f name text);
  co_initialize f : rt_initialize runtime = Some f -> keeps token f;
  co_abort : keeps token (rt_abort runtime);
  co_dispose : keeps token (rt_dispose runtime);
  co_disposeHost : keeps token xp_disposeHost;
  co_settled run seq text tr : keeps token (sp_reviewSettled run seq text tr);
  co_failure run seq text : keeps token (sp_reviewAttemptFailure run seq text);
  co_review_failure run seq text : keeps token (sp_recordReviewFailure run seq text);
  co_mark id st e : keeps token (sp_markExecuted id st e);
  co_recover : keeps token rp_recoverContinuations;
  co_finalized run stop : keeps token (xp_attemptFinalized run stop);
  co_started runId : keeps token (xp_continuationStarted runId);
  co_launch_failed i runId text : keeps token (xp_attemptLaunchFailed i runId text);
  co_start runId : keeps token (xp_startQueuedContinuation runId);
}.

Section executor.
Context `{Platform, ContractType, SupervisorPort, RecoveryControlPort, ExecutorPorts}.
Context (takes_follow_up : string -> bool) (execution_lease_ms : Z).
Context (token : AttemptExecutionToken) (runtime : HostedRuntime).
Hypothesis Hco : Collaborators token runtime.

#[local] Hint Resolve co_prompt co_abort co_dispose co_disposeHost co_settled co_failure co_review_failure co_mark co_recover
  co_finalized co_started co_launch_failed co_start : keeps.

Lemma keeps_recoverInterrupted t reason sid : keeps token (recoverInterrupted t reason sid).
Proof. unfold recoverInterrupted. keeps. Qed.
#[local] Hint Resolve keeps_recoverInterrupted : keeps.

Lemma keeps_current_run t : keeps token (current_run t).
Proof. unfold current_run. keeps. Qed.
#[local] Hint Resolve keeps_current_run : keeps.

Lemma keeps_recordCandidate t response : keeps token (recordCandidate t response).
Proof. unfold recordCandidate, rejecting. keeps. Qed.
#[local] Hint Resolve keeps_recordCandidate : keeps.

Lemma keeps_settleCandidate t c x status reason : keeps token (settleCandidate t c x status reason).
Proof. unfold settleCandidate, rejecting, ensureSettlementApproval. keeps. Qed.
#[local] Hint Resolve keeps_settleCandidate : keeps.

Lemma keeps_recovering t m : keeps token m -> keeps token (recovering t m).
Proof. intros Hm. unfold recovering. keeps. Qed.
#[local] Hint Resolve keeps_recovering : keeps.

Lemma keeps_failRuntimeTaskRun t reason data : keeps token (failRuntimeTaskRun t reason data).
Proof. unfold failRuntimeTaskRun. keeps. Qed.
#[local] Hint Resolve keeps_failRuntimeTaskRun : keeps.

Lemma keeps_publishTransitionOutcome o : keeps token (publishTransitionOutcome o).
Proof. unfold publishTransitionOutcome. keeps. Qed.
#[local] Hint Resolve keeps_publishTransitionOutcome : keeps.

Lemma keeps_review_candidate runId t run c response : keeps token (review_candidate runId t run c response).
Proof. unfold review_candidate. keeps. Qed.
#[local] Hint Resolve keeps_review_candidate : keeps.

Lemma keeps_settle_failure runId t cid p error : keeps token (settle_failure runId t cid p error).
Proof. unfold settle_failure. keeps. Qed.
#[local] Hint Resolve keeps_settle_failure : keeps.

Lemma keeps_executeRuntimePrompt text skill : keeps token (executeRuntimePrompt (rt_port runtime) text skill).
Proof.
  unfold executeRuntimePrompt. destruct (truthy_text skill); [|apply (co_prompt _ _ Hco)].
  destruct (invokeSkill (rt_port runtime)) eqn:E; [by eapply co_skill|keeps].
Qed.
#[local] Hint Resolve keeps_executeRuntimePrompt : keeps.

Lemma keeps_execute runId t text cid : keeps token (execute runId t (rt_port runtime) text cid).
Proof. unfold execute, attempting. keeps. Qed.
#[local] Hint Resolve keeps_execute : keeps.

Lemma keeps_failTimeout run reason limit : keeps token (failTimeout run token runtime reason limit).
Proof. unfold failTimeout, abortRuntime. keeps. Qed.

Lemma keeps_settleInitializationFailure run options error : keeps token (settleRuntimeInitializationFailure run token options error).
Proof. unfold settleRuntimeInitializationFailure. keeps. Qed.
#[local] Hint Resolve keeps_settleInitializationFailure : keeps.

Lemma keeps_initialize_runtime run options : keeps token (initialize_runtime run token runtime options).
Proof.
  unfold initialize_runtime. destruct (lo_initialize options); [|keeps]. destruct (rt_initialize runtime) eqn:E; [|keeps].
  pose proof (co_initialize _ _ Hco _ E). keeps.
Qed.
#[local] Hint Resolve keeps_initialize_runtime : keeps.

Lemma keeps_close_continuation cid status error : keeps token (close_continuation cid status error).
Proof. unfold close_continuation. keeps. Qed.
#[local] Hint Resolve keeps_close_continuation : keeps.

Lemma keeps_after_settlement runId cid again : keeps token (after_settlement runId runtime cid again).
Proof. unfold after_settlement. keeps. Qed.
#[local] Hint Resolve keeps_after_settlement : keeps.

Lemma keeps_settleAttemptExecutionFailure run cid error : keeps token (settleAttemptExecutionFailure run token cid error).
Proof. unfold settleAttemptExecutionFailure. keeps. Qed.
#[local] Hint Resolve keeps_settleAttemptExecutionFailure : keeps.

Lemma keeps_finalizePostAttempt run : keeps token (finalizePostAttempt run).
Proof. unfold finalizePostAttempt, runPhase, reportFailure. keeps. Qed.

(** * The end of an execution *)

Lemma wp_keeps {A} (m : io A) (Q : A -> World -> Prop) (R : thrown -> World -> Prop) w :
  keeps token m -> (forall a w', elsewhere token w w' -> (m w).1 = Returned a -> Q a w') ->
  (forall t w', elsewhere token w w' -> (m w).1 = Thrown t -> R t w') -> wp m Q R w.
Proof. intros Hm HQ HR. specialize (Hm w). unfold wp. destruct (m w) as [[a|t] w'] eqn:E; cbn in *; auto. Qed.

(** In [w] the TaskRun cannot be read, its transcript cannot be repaired, or a
    repair cannot be logged. *)
Definition interrupted (w : World) (t : thrown) : Prop :=
  (getRun (tk_runId token) w).1 = Thrown t
  \/ (repair (tk_runId token) RR_cancelled w).1 = Thrown t
  \/ exists data, (logged (tk_runId token) "transcript.repaired" data w).1 = Thrown t.

(** Nothing of the Attempt is left with the service. *)
Definition returned_all (w : World) : Prop :=
  given_back token (db w) /\ checkpointTokens (process w) !! tk_runId token <> Some token
  /\ executionTasks (process w) !! tk_runId token <> Some (tk_attemptId token).

(** The service may still hold the lease, or holds only the execution task. *)
Definition lease_held (w : World) : Prop := ledger (leases (db w)) /\ granted token (db w).
Definition lease_returned (w : World) : Prop :=
  ledger (leases (db w)) /\ given_back token (db w) /\ checkpointTokens (process w) !! tk_runId token <> Some token.

Lemma lease_held_after w w' : lease_held w -> elsewhere token w w' -> lease_held w'.
Proof. intros [Hs Hg] [Hst _]. split; [by apply (ld_ok _ _ Hst)|by eapply granted_after]. Qed.

Lemma lease_returned_after w w' : lease_returned w -> elsewhere token w w' -> lease_returned w'.
Proof.
  intros (Hc & Hg & Ht) [Hst [_ Htok _]]. split; [by apply (ld_ok _ _ Hst)|]. split; [by eapply given_back_after|]. auto.
Qed.

Lemma wp_release_lease (R : thrown -> World -> Prop) w :
  lease_held w -> checkpointTokens (process w) !! tk_runId token = None ->
  wp (release_lease token) (fun _ w' => lease_returned w' /\ elsewhere token w w') R w.
Proof.
  intros [Hm Hg] Ht. apply wp_bind, wp_ask, wp_bind.
  destruct (release_gives_back token (clock w) (db w) Hm Hg) as (b & d' & E & Hst & Hb).
  apply wp_store; rewrite E; [|by intros ? [=]]. intros b' e Hbe. injection Hbe as <- <-. apply wp_ret. split.
  - split; [by apply (ld_ok _ _ Hst)|]. split; [exact Hb|]. cbn. by rewrite Ht.
  - split; [exact Hst|apply process_after_refl].
Qed.

Lemma getRun_reads runId w : (getRun runId w).2 = w.
Proof. unfold getRun, mbind, call_mbind, ask, of_result. by case_match. Qed.

Lemma wp_getRun_keeps (Q : option TaskRun -> World -> Prop) (R : thrown -> World -> Prop) w :
  (forall r, Q r w) -> (forall t, interrupted w t -> R t w) -> wp (getRun (tk_runId token)) Q R w.
Proof.
  intros HQ HR. unfold wp. pose proof (getRun_reads (tk_runId token) w) as Ew.
  destruct (getRun (tk_runId token) w) as [[r|t] w'] eqn:E; cbn in Ew; subst w'; [apply HQ|]. apply HR. left. by rewrite E.
Qed.

Lemma wp_repair (Q : unit -> World -> Prop) w :
  (forall w', elsewhere token w w' -> Q tt w') ->
  wp (let* _ := repair (tk_runId token) RR_cancelled in mret tt) Q (fun t w' => interrupted w' t) w.
Proof.
  intros HQ. apply wp_bind. pose proof (keeps_repair token (tk_runId token) RR_cancelled w) as Hk. unfold wp.
  destruct (repair (tk_runId token) RR_cancelled w) as [[l|t] w'] eqn:E; [by apply wp_ret, HQ|]. clear Hk. pose proof E as E0.
  unfold repair in E. unfold mbind, call_mbind, ask in E. unfold store, commit in E. rewrite in_exec_run in E.
  destruct (repairTranscript _ _ _ _) as [[repaired d1]|e]; [|injection E as <- <-; right; left; by rewrite E0]. cbv beta iota in E.
  case_bool_decide; [by unfold mret, call_mret in E|]. right. right.
  destruct (logged _ _ _ _) as [[u|t'] w2] eqn:El in E; [by unfold mret, call_mret in E|]. injection E as <- <-.
  eexists. assert (w2 = with_gov (gov_with d1 (gov w)) w) as Ew.
  { revert El. unfold logged, mbind, call_mbind, ask, store, commit. rewrite in_exec_run.
    destruct (appendEvent _ _ _ _ _) as [[ev e]|x]; [|by intros [= _ <-]]. unfold publish. by intros [=]. }
  rewrite Ew in *. by rewrite El.
Qed.

Lemma wp_runPhase stop run phase op w :
  r_id (tr_row run) = tk_runId token -> keeps token op ->
  wp (runPhase stop run phase op) (fun _ => elsewhere token w) (fun t w' => interrupted w' t) w.
Proof.
  intros Hid Hop. apply wp_try, wp_bind, wp_keeps; [done|intros a w1 He _; by apply wp_ret|].
  intros t w1 He _. apply wp_bind. unfold reportFailure. rewrite Hid.
  destruct stop; [by apply wp_ret, wp_ret|]. apply wp_bind, wp_getRun_keeps; [|done].
  intros [c|]; [|by apply wp_ret, wp_ret]. apply wp_try, wp_keeps; [apply keeps_logged| |].
  - intros u w3 He3 _. apply wp_ret. by eapply elsewhere_trans.
  - intros t' w3 He3 _. apply wp_ret, wp_ret. by eapply elsewhere_trans.
Qed.

Lemma wp_finalizePostAttempt run w :
  r_id (tr_row run) = tk_runId token ->
  wp (finalizePostAttempt run) (fun _ => elsewhere token w) (fun t w' => interrupted w' t) w.
Proof.
  intros Hid. apply wp_bind, wp_ask, wp_bind.
  eapply wp_mono; [| |apply wp_runPhase; [exact Hid|apply (co_finalized _ _ Hco)]]; [|done].
  intros ? w1 He1. destruct (closing (process w)); [by apply wp_ret|]. apply wp_bind.
  eapply wp_mono; [| |apply wp_runPhase; [exact Hid|apply (co_start _ _ Hco)]]; [|done].
  intros go w2 He2. pose proof (elsewhere_trans _ _ _ _ He1 He2) as He02. destruct go; [|by apply wp_ret].
  apply wp_bind. eapply wp_mono; [| |apply wp_runPhase; [exact Hid|apply (co_started _ _ Hco)]]; [|done].
  intros ? w3 He3. apply wp_ret. by eapply elsewhere_trans.
Qed.

(** A call whose errors are ignored. *)
Lemma wp_quietly {A} (m : io A) a (Q : A -> World -> Prop) (R : thrown -> World -> Prop) w :
  keeps token m -> (forall x w', elsewhere token w w' -> Q x w') ->
  wp (try_catch m (fun _ => mret a)) Q R w.
Proof. intros Hm HQ. apply wp_try, wp_keeps; [done| |]; intros; [|apply wp_ret]; by apply HQ. Qed.

Lemma wp_update_keeps f (Q : unit -> World -> Prop) (R : thrown -> World -> Prop) w :
  (forall s, process_after token s (f s)) -> (elsewhere token w (with_process f w) -> Q tt (with_process f w)) -> wp (update f) Q R w.
Proof. intros Hf HQ. apply wp_update, HQ. split; [done|apply Hf]. Qed.

Lemma wp_execution_finished run w :
  r_id (tr_row run) = tk_runId token -> lease_held w ->
  wp (execution_finished run token runtime) (fun _ => returned_all) (fun t w' => interrupted w' t) w.
Proof.
  intros Hid Hw. unfold execution_finished. rewrite Hid. apply wp_bind, wp_getRun_keeps; [|done]. intros current.
  apply wp_bind. eapply (wp_mono _ (fun _ w2 => elsewhere token w w2)); [|intros t w' Ht; exact Ht|].
  2:{ case_bool_decide; [by apply wp_repair|apply wp_ret, elsewhere_refl]. }
  intros _ w2 He2. apply wp_bind, wp_quietly; [pose proof (co_dispose _ _ Hco); keeps|]. intros disposed w3 He3.
  pose proof (elsewhere_trans _ _ _ _ He2 He3) as He03. apply wp_bind, wp_quietly; [apply (co_disposeHost _ _ Hco)|].
  intros _ w4 He4. pose proof (elsewhere_trans _ _ _ _ He03 He4) as He04. clear w2 He2 w3 He3 He03 He4.
  apply wp_bind. eapply (wp_mono _ (fun _ w5 => elsewhere token w w5)); [|intros t w' Ht; exact Ht|].
  2:{ destruct (disposed : bool); [|by apply wp_ret]. apply wp_update_keeps; [by split|]. by apply elsewhere_trans. }
  intros _ w5 He5. apply wp_bind, wp_update_keeps; [by split|]. intros He6. pose proof (elsewhere_trans _ _ _ _ He5 He6) as He06.
  clear He5 He6. revert He06. generalize (with_process (with_checkpoint_timers (fun ts => ts ∖ {[tk_runId token]})) w5). intros w6 He6.
  apply wp_bind. apply wp_bind, wp_update, wp_bind, wp_update, wp_update. set (w7 := with_process _ (with_process _ (with_process _ w6))).
  assert (elsewhere token w w7) as He7.
  { eapply elsewhere_trans; [exact He6|]. split; [done|]. split; cbn; [done|by rewrite lookup_delete_eq|done]. }
  apply wp_bind. eapply wp_mono; [| |apply wp_release_lease with (R := fun t w' => interrupted w' t)]; [|done|by eapply lease_held_after|].
  2:{ apply lookup_delete_eq. }
  intros [] w8 [Hl8 He8]. apply wp_bind. eapply wp_mono; [| |apply wp_finalizePostAttempt; exact Hid]; [|done].
  intros [] w9 He9. pose proof (lease_returned_after _ _ Hl8 He9) as (_ & Hg & Ht). apply wp_update. split_and!; [exact Hg|exact Ht|].
  cbn. case_bool_decide as E; [|done]. by rewrite lookup_delete_eq.
Qed.

(** C29. An execution gives back what it holds: whatever the runtime, the reviews
    and the services around it do (they leave the lease to its holder and take
    up no token or task of the Attempt; the recovery of the continuations does
    so), and however it ends, the lease of the Attempt is released or taken
    over, and neither the token of its checkpoint nor its execution task is
    kept - unless it throws because, in the state it ends in, its TaskRun cannot
    be read, or its transcript cannot be repaired or the repair not be logged. *)
Theorem execution_gives_back run text continuationId options w :
  r_id (tr_row run) = tk_runId token -> ledger (leases (db w)) -> granted token (db w) ->
  wp (execution run token runtime text continuationId options) (fun _ => returned_all)
    (fun t w' => returned_all w' \/ interrupted w' t) w.
Proof.
  intros Hid Hs Hg. apply wp_finally. assert (lease_held w) as Hw by (by split).
  assert (forall w1 (Q : World -> Prop) (R : thrown -> World -> Prop), elsewhere token w w1 ->
    (forall w2, returned_all w2 -> Q w2) -> (forall t w2, interrupted w2 t -> R t w2) ->
    wp (execution_finished run token runtime) (fun _ => Q) R w1) as Hend.
  { intros w1 Q R He HQ HR. eapply wp_mono; [| |apply wp_execution_finished; [exact Hid|by eapply lease_held_after]]; [by intros ?|].
    intros t w2 Ht. by apply HR. }
  apply wp_keeps; [keeps| |]; intros ? w1 He _; apply Hend; auto.
Qed.
End executor.

(** * The beat *)

Section beat.
Context `{Platform, ContractType, SupervisorPort, RecoveryControlPort, ExecutorPorts}.
Context (execution_lease_ms : Z) (token : AttemptExecutionToken) (runtime : HostedRuntime).

(** The runtime that is told to stop changes the execution tables by steps of
    the lifecycle. *)
Hypothesis abort_steps : forall w, Consistent (db w) -> rtc store_step (db w) (db (rt_abort runtime w).2).

Lemma logged_steps runId type data w : Consistent (db w) -> rtc store_step (db w) (db (logged runId type data w).2).
Proof.
  intros Hcon. unfold logged, mbind, call_mbind, ask, store, commit. rewrite in_exec_run.
  destruct (appendEvent _ _ _ _ _) as [[ev e]|x] eqn:E; [|done]. by eapply appendEvent_steps.
Qed.

Lemma abortRuntime_steps runId w : Consistent (db w) -> rtc store_step (db w) (db (abortRuntime runtime runId w).2).
Proof.
  intros Hcon. pose proof (abort_steps w Hcon) as Ha. unfold abortRuntime, try_catch.
  destruct (rt_abort runtime w) as [[u|t] w1]; [done|]. cbn in Ha. etrans; [exact Ha|].
  assert (Consistent (db w1)) as Hc1 by (by eapply steps_consistent).
  unfold mbind at 1, call_mbind. pose proof (getRun_reads runId w1) as Ew.
  destruct (getRun runId w1) as [[[c|]|x] w2]; cbn in Ew; subst w2; try done. by apply logged_steps.
Qed.

(** The holder recovers its Attempt. *)
Lemma wp_recover_held reason w :
  sound token (db w) -> held token (db w) ->
  wp (recoverInterrupted token reason None) (fun b w' => b = true /\ sound token (db w') /\ inactive (tk_attemptId token) (db w'))
    (fun _ _ => False) w.
Proof.
  intros Hs (a & l & [Ha Hact Hl (Ho & Ht & Hf) Hv Hlive Hk]). apply wp_try, wp_bind, wp_ask, wp_bind.
  destruct (holder_can_recover (db w) _ a l reason None (clock w) (so_consistent _ _ Hs) (so_fits _ _ Hs) Ha Hact Hl Hlive Hk)
    as (a' & event & d' & E & _); [by intros s|]. rewrite <- Ho, <- Ht, <- Hf, <- Hv.
  apply wp_store; rewrite E; [|by intros ? [=]]. intros ? e Hout. injection Hout as <- <-.
  apply recover_closed in E as (b & r & r' & rows & Hc & Hid); [|apply Hs].
  apply wp_bind, wp_publish, wp_ret. split; [done|]. split.
  - eapply steps_sound; [exact Hs|]. eapply rtc_once, ss_repo, step_close, Hc.
  - intros x Hx. cbn in Hx. rewrite Hid, (cl_attempts Hc), lookup_insert_eq in Hx. injection Hx as <-. apply (cl_closed Hc).
Qed.

(** C30. A beat of the execution lease keeps the Attempt alive or ends it: either
    the lease is extended and the timer goes on, or it cannot be renewed, and
    then the Attempt its holder still had is recovered before the runtime is
    told to stop, and is over whatever the runtime does then. *)
Theorem heartbeat_extends_or_recovers run w :
  sound token (db w) -> held token (db w) ->
  wp (execution_heartbeat execution_lease_ms run token runtime)
    (fun again w' => if again : bool
       then exists l, leases (db w') !! tk_attemptId token = Some l /\ l_token l = tk_leaseToken token
              /\ l_fence l = tk_executionFence token /\ l_leaseUntil l = (clock w + execution_lease_ms)%Z
       else inactive (tk_attemptId token) (db w'))
    (fun _ w' => inactive (tk_attemptId token) (db w')) w.
Proof.
  intros Hs Hh. apply wp_try, wp_bind, wp_ask, wp_bind, wp_store.
  - intros l e He. apply wp_ret. apply renew_leased in He as [_ (l0 & _ & _ & <- & <- & _ & _ & -> & E & _)]; [|apply Hs].
    eexists. cbn. rewrite E, lookup_insert_eq. done.
  - intros e He. apply wp_bind. eapply wp_mono; [| |by apply wp_recover_held]; [|done].
    intros b w1 (_ & Hs1 & Hi). apply wp_bind.
    pose proof (abortRuntime_steps (r_id (tr_row run)) w1 (so_consistent _ _ Hs1)) as Hst. unfold wp.
    destruct (abortRuntime runtime _ w1) as [[u|t] w2]; (eapply inactive_steps; [apply Hs1|exact Hi|exact Hst]).
Qed.
End beat.

(** * An execution *)

(** A Supervisor that is down. *)
Definition silent_supervisor : SupervisorPort := {|
  sp_reviewSettled _ _ _ _ := raise (Exn (Error "down")); sp_reviewAttemptFailure _ _ _ := raise (Exn (Error "down"));
  sp_recordReviewFailure _ _ _ := raise (Exn (Error "down")); sp_markExecuted _ _ _ := mret tt; sp_isReviewError _ := false |}.

#[export] Instance demo_executor_ports : ExecutorPorts := {|
  xp_createHost _ := mret tt; xp_createRuntime _ _ := raise (Exn (Error "no runtime")); xp_disposeHost := mret tt;
  xp_attemptFinalized _ _ := mret tt; xp_continuationStarted _ := mret tt; xp_attemptLaunchFailed _ _ _ := mret tt;
  xp_startQueuedContinuation _ := mret tt; xp_reviewCheckpoint _ _ := mret None |}.

(** The recovery is the scheduler's. *)
#[local] Instance scheduler_recovery : RecoveryControlPort := {| rp_recoverContinuations := let* _ := recoverContinuations in mret tt |}.

Definition demo_hosted : HostedRuntime :=
  {| rt_port := demo_runtime; rt_initialize := Some (mret tt); rt_abort := mret tt; rt_dispose := raise (Exn (Error "stuck")) |}.

Definition demo_options : LaunchOptions := {| lo_initialize := true; lo_inboxItemId := None; lo_retry := false |}.

Lemma demo_collaborators : Collaborators (H := silent_supervisor) demo_token demo_hosted.
Proof.
  split; intros; cbn in *; simplify_eq; try solve [eauto with keeps].
  apply keeps_bind; [apply keeps_recoverContinuations|intros; apply keeps_ret].
Qed.

Lemma demo_granted : granted demo_token (db demo_world).
Proof. eexists. split_and!; [vm_compute; reflexivity|done|done]. Qed.

Lemma demo_ledger : ledger (leases (db demo_world)).
Proof.
  intros i l Hl. destruct (so_fits _ _ demo_sound _ _ Hl) as (a & _ & Hc & _).
  split; [apply (con_lease (so_consistent _ _ demo_sound) _ _ Hl)|exact Hc].
Qed.

Lemma demo_held : held demo_token (db demo_world).
Proof.
  do 2 eexists. split; [vm_compute; reflexivity|vm_compute; reflexivity|vm_compute; reflexivity|vm_compute; done| | |];
    [vm_compute; reflexivity|vm_compute; reflexivity|]. intros k Hk. vm_compute in Hk. discriminate Hk.
Qed.

Lemma execution_gives_back_witness :
  wp (execution (H1 := silent_supervisor) demo_task_run demo_token demo_hosted "go" None demo_options)
    (fun _ => returned_all demo_token) (fun t w' => returned_all demo_token w' \/ interrupted demo_token w' t) demo_world.
Proof.
  apply (execution_gives_back (H1 := silent_supervisor) demo_token demo_hosted demo_collaborators).
  - reflexivity.
  - exact demo_ledger.
  - exact demo_granted.
Defined.

Definition demo_execution : outcome unit * World :=
  execution (H1 := silent_supervisor) demo_task_run demo_token demo_hosted "go" None demo_options demo_world.

(** The review fails after the Candidate was recorded, so the Attempt is
    recovered; the runtime that cannot be disposed of
    is kept for the shut-down, the lease is not. *)
Example execution_without_supervisor :
  demo_execution.1 = Returned tt /\ r_status <$> runs (db demo_execution.2) !! "run" = Some R_interrupted
  /\ map ev_type (published demo_execution.2) = ["runtime.initialized"; "run.interrupted"]
  /\ (l_releasedAt <$> leases (db demo_execution.2) !! demo_id) = Some (Some 20%Z) /\ runtimes (process demo_execution.2) = {["run"]}.
Proof. vm_compute. done. Qed.

Lemma heartbeat_extends_or_recovers_witness :
  wp (execution_heartbeat 30000 demo_task_run demo_token demo_hosted)
    (fun again w' => if again : bool
       then exists l, leases (db w') !! tk_attemptId demo_token = Some l /\ l_token l = tk_leaseToken demo_token
              /\ l_fence l = tk_executionFence demo_token /\ l_leaseUntil l = (clock demo_world + 30000)%Z
       else inactive (tk_attemptId demo_token) (db w'))
    (fun _ w' => inactive (tk_attemptId demo_token) (db w')) demo_world.
Proof.
  apply (heartbeat_extends_or_recovers 30000 demo_token demo_hosted).
  - intros w _. apply rtc_refl.
  - exact demo_sound.
  - exact demo_held.
Defined.

(** A host of tools that cannot be created leaves the lease of the Attempt and
    the token of its checkpoint behind. *)
Definition no_host : ExecutorPorts := {|
  xp_createHost _ := raise (Exn (Error "no host")); xp_createRuntime _ _ := raise (Exn (Error "no runtime")); xp_disposeHost := mret tt;
  xp_attemptFinalized _ _ := mret tt; xp_continuationStarted _ := mret tt; xp_attemptLaunchFailed _ _ _ := mret tt;
  xp_startQueuedContinuation _ := mret tt; xp_reviewCheckpoint _ _ := mret None |}.

Definition hostless_launch : outcome Launched * World :=
  let w := {| gov := gov demo_world; process := process demo_world; published := []; clock := 2000 |} in
  launch (H3 := no_host) (fun _ => false) 30000 demo_task_run None demo_options w.

Example host_failure_keeps_lease :
  hostless_launch.1 = Thrown (Exn (Error "no host"))
  /\ (l_releasedAt <$> leases (db hostless_launch.2) !! demo_id) = Some None
  /\ (tk_executionFence <$> checkpointTokens (process hostless_launch.2) !! "run") = Some 2%Z.
Proof. vm_compute. done. Qed.
