(* ===== verification/Goal.v ===== *)
(** The goals of a workspace, apart from where they are stored
    (packages/governance/src/domain/workspace-goal.ts and
    application/workspace-goal-service.ts): the definition, the roadmap and the
    decisions about them, what each decision may do, and when a goal may close. *)
From S2P Require Import Prelude Json Attempt ExecDb Canonical.
Local Open Scope tx_scope.

(** * workspace-goal.ts *)

Inductive GoalStatus := G_draft | G_active | G_paused | G_ready_to_close | G_completed | G_cancelled.
Inductive GoalRevisionKind := RK_definition | RK_roadmap.
Inductive GoalDecisionKind := GD_approve_goal | GD_approve_roadmap | GD_request_change | GD_pause | GD_resume | GD_close | GD_cancel.
Inductive GoalEvidenceStatus := GE_valid | GE_stale | GE_contradicted.
Inductive GoalLinkMode := LM_workspace | LM_roadmap.
Inductive GoalItemStatus := GI_unapproved | GI_pending | GI_running | GI_completed | GI_blocked.

#[export] Instance goal_status_eq : EqDecision GoalStatus.
Proof. solve_decision. Defined.
#[export] Instance goal_revision_kind_eq : EqDecision GoalRevisionKind.
Proof. solve_decision. Defined.
#[export] Instance goal_decision_kind_eq : EqDecision GoalDecisionKind.
Proof. solve_decision. Defined.
#[export] Instance goal_evidence_status_eq : EqDecision GoalEvidenceStatus.
Proof. solve_decision. Defined.
#[export] Instance goal_link_mode_eq : EqDecision GoalLinkMode.
Proof. solve_decision. Defined.
#[export] Instance goal_item_status_eq : EqDecision GoalItemStatus.
Proof. solve_decision. Defined.

Record GoalCriterion := { gc_key : string; gc_title : string; gc_required : bool }.

(** [completionPolicy] is always user_confirm. *)
Record GoalDefinition := {
  wg_title : string; wg_outcome : string; wg_scope : list string; wg_nonGoals : list string; wg_criteria : list GoalCriterion;
}.

Record RoadmapItem := {
  ri_id : string; ri_title : string; ri_outcome : string; ri_verification : string; ri_criterionKeys : list string;
}.

Record Roadmap := { rm_summary : string; rm_items : list RoadmapItem }.

(** The content of a revision, of its kind. *)
Inductive RevisionContent :=
  | Definition_content (definition : GoalDefinition)
  | Roadmap_content (roadmap : Roadmap).

Definition content_kind (c : RevisionContent) : GoalRevisionKind :=
  match c with Definition_content _ => RK_definition | Roadmap_content _ => RK_roadmap end.

Record GoalRevision := {
  rv_id : string; rv_goalId : string; rv_revision : Z; rv_content : RevisionContent; rv_contentHash : string;
  rv_sourceArtifactId : option string; rv_createdBy : string; rv_createdAt : Z;
}.

Definition rv_kind (r : GoalRevision) : GoalRevisionKind := content_kind (rv_content r).

Record GoalDecision := {
  dc_id : string; dc_requestId : string; dc_payloadHash : string; dc_goalId : string; dc_targetRevisionId : string;
  dc_targetHash : string; dc_kind : GoalDecisionKind; dc_approvedItemIds : list string; dc_reason : string; dc_actorId : string;
  dc_createdAt : Z;
}.

Record GoalRunLink := {
  lk_goalId : string; lk_runId : string; lk_goalRevision : Z; lk_roadmapRevisionId : option string;
  lk_roadmapItemIds : list string; lk_criterionKeys : list string; lk_mode : GoalLinkMode; lk_createdAt : Z;
}.

Record ItemProgress := {
  ip_itemId : string; ip_status : GoalItemStatus; ip_queueStatus : option string; ip_inboxItemId : option string;
  ip_runId : option string; ip_runStatus : option RunStatus; ip_retryable : bool; ip_updatedAt : Z; ip_completedAt : option Z;
}.

Record EvidenceLink := {
  vl_id : string; vl_goalId : string; vl_goalRevision : Z; vl_criterionKey : string; vl_runId : string;
  vl_checkKey : option string; vl_artifactId : option string; vl_operationId : option string; vl_sourceDigest : string;
  vl_status : GoalEvidenceStatus; vl_createdAt : Z; vl_updatedAt : Z;
}.

Inductive GoalActor := by_user | by_system | by_none.
Inductive NextActionKind := NA_review_goal | NA_generate_roadmap | NA_review_roadmap | NA_run_roadmap_item
  | NA_view_running_task | NA_resolve_problem | NA_resume | NA_view_result.

#[export] Instance next_action_kind_eq : EqDecision NextActionKind.
Proof. solve_decision. Defined.

Record NextAction := {
  na_actor : GoalActor; na_kind : NextActionKind; na_title : string; na_explanation : string; na_label : string;
  na_roadmapItemId : option string; na_taskRunId : option string;
}.

(** A row of workspace_goals. *)
Record GoalRow := {
  go_id : string; go_workspaceId : string; go_status : GoalStatus; go_activeDefinition : option string;
  go_activeRoadmap : option string; go_currentRunId : option string; go_createdAt : Z; go_updatedAt : Z; go_completedAt : option Z;
}.

(** [WorkspaceGoal]: the row, with the status and current run it projects, and what belongs to it. *)
Record Goal := {
  gl_row : GoalRow; gl_definition : option GoalRevision; gl_roadmap : option GoalRevision; gl_decisions : list GoalDecision;
  gl_runLinks : list GoalRunLink; gl_progress : list ItemProgress; gl_evidence : list EvidenceLink;
  gl_requiredCriteria : nat; gl_verifiedCriteria : nat; gl_nextAction : NextAction;
}.

Definition gl_status (g : Goal) : GoalStatus := go_status (gl_row g).

Definition definition_of (r : GoalRevision) : option GoalDefinition :=
  match rv_content r with Definition_content d => Some d | Roadmap_content _ => None end.

Definition roadmap_of (r : GoalRevision) : option Roadmap :=
  match rv_content r with Roadmap_content r => Some r | Definition_content _ => None end.

(** * Validation *)

Definition required (value name : string) (maxLength : nat) : result string :=
  let text := trim value in
  do* check (negb (String.eqb text "")) (Error (name +:+ " is required")) in
  do* check (Nat.leb (String.length text) maxLength) (Error (name +:+ " cannot exceed " +:+ pretty maxLength +:+ " characters")) in
  mret text.

Fixpoint map_indexed {A B} (f : nat -> A -> result B) (i : nat) (l : list A) : result (list B) :=
  match l with
  | [] => mret []
  | x :: l' => let* y := f i x in let* ys := map_indexed f (S i) l' in mret (y :: ys)
  end.

Definition indexed (name : string) (i : nat) (member : string) : string := name +:+ "[" +:+ pretty i +:+ "]" +:+ member.

Definition uniqueStrings (value : list string) (name : string) (maxItems maxLength : nat) : result (list string) :=
  do* check (Nat.leb (length value) maxItems) (Error (name +:+ " must be an array with at most " +:+ pretty maxItems +:+ " items")) in
  let* normalized := map_indexed (fun i v => required v (indexed name i "") maxLength) 0 value in
  mret (dedup normalized).

Definition positiveInteger (value : Z) (name : string) : result Z :=
  do* check (1 <=? value)%Z (Error (name +:+ " must be a positive integer")) in mret value.

Definition validateDefinition (input : GoalDefinition) : result GoalDefinition :=
  let* criteria := map_indexed (fun i c =>
    let* key := required (gc_key c) (indexed "criteria" i ".key") 200 in
    let* title := required (gc_title c) (indexed "criteria" i ".title") 2000 in
    mret {| gc_key := key; gc_title := title; gc_required := gc_required c |}) 0 (wg_criteria input) in
  do* check (negb (Nat.eqb (length criteria) 0)) (Error "at least one criterion is required") in
  do* check (Nat.leb (length criteria) 100 && Nat.eqb (length (dedup (map gc_key criteria))) (length criteria))
    (Error "criterion keys must be unique and cannot exceed 100 items") in
  do* check (existsb gc_required criteria) (Error "at least one required criterion is required for evidence-based Goal completion") in
  let* title := required (wg_title input) "title" 200 in
  let* outcome := required (wg_outcome input) "outcome" 4000 in
  let* scope := uniqueStrings (wg_scope input) "scope" 100 2000 in
  let* nonGoals := uniqueStrings (wg_nonGoals input) "nonGoals" 100 2000 in
  mret {| wg_title := title; wg_outcome := outcome; wg_scope := scope; wg_nonGoals := nonGoals; wg_criteria := criteria |}.

Definition between (lo hi : nat) (c : Ascii.ascii) : bool := Nat.leb lo (Ascii.nat_of_ascii c) && Nat.leb (Ascii.nat_of_ascii c) hi.

Definition lower_letter (c : Ascii.ascii) : bool := between 97 122 c.

(** [/^[a-z][a-z0-9_]{0,63}$/] *)
Definition snake_case (s : string) : bool :=
  match String.list_ascii_of_string s with
  | [] => false
  | c :: l => lower_letter c && Nat.leb (length l) 63
              && forallb (fun c => lower_letter c || between 48 57 c || Nat.eqb (Ascii.nat_of_ascii c) 95) l
  end.

Definition validateRoadmap (input : Roadmap) (definition : GoalDefinition) : result Roadmap :=
  do* check (negb (Nat.eqb (length (rm_items input)) 0) && Nat.leb (length (rm_items input)) 50)
    (Error "Roadmap items must contain between 1 and 50 items") in
  let criterionKeys := map gc_key (wg_criteria definition) in
  let* items := map_indexed (fun i it =>
    let* id := required (ri_id it) (indexed "items" i ".id") 200 in
    let* title := required (ri_title it) (indexed "items" i ".title") 500 in
    let* outcome := required (ri_outcome it) (indexed "items" i ".outcome") 2000 in
    let* verification := required (ri_verification it) (indexed "items" i ".verification") 2000 in
    let* keys := uniqueStrings (ri_criterionKeys it) (indexed "items" i ".criterionKeys") 100 200 in
    mret {| ri_id := id; ri_title := title; ri_outcome := outcome; ri_verification := verification; ri_criterionKeys := keys |})
    0 (rm_items input) in
  do* check (Nat.eqb (length (dedup (map ri_id items))) (length items)) (Error "Roadmap item ids must be unique") in
  do* check (forallb (fun it => snake_case (ri_id it)) items) (Error "Roadmap item ids must be short snake_case identifiers") in
  do* check (forallb (fun it => negb (bool_decide (ri_criterionKeys it = []))) items)
    (Error "every Roadmap item must advance at least one Goal criterion") in
  do* check (forallb (fun it => forallb (fun k => includes k criterionKeys) (ri_criterionKeys it)) items)
    (Error "Roadmap item references an unknown Goal criterion") in
  let* summary := required (rm_summary input) "summary" 4000 in
  mret {| rm_summary := summary; rm_items := items |}.

(** * Content hashes *)

Definition by_member `{Platform} (a b : string * string) : Prop := Is_true (localeLe a.1 b.1).

#[export] Instance by_member_dec `{Platform} a b : Decision (by_member a b).
Proof. unfold by_member. apply _. Defined.

Section hashes.
Context `{Platform}.

(** The text of an object by the texts of its members; the text of a member
    that is [undefined] is "undefined". *)
Definition members_text (fs : list (string * string)) : string :=
  "{" +:+ join "," (map (fun kv => quote kv.1 +:+ ":" +:+ kv.2) (merge_sort by_member (own_order fs))) +:+ "}".

Fixpoint canonicalJson (v : json) : string :=
  match v with
  | JArr l => "[" +:+ join "," (map canonicalJson l) +:+ "]"
  | JObj fs => members_text (map (fun kv => (kv.1, canonicalJson kv.2)) fs)
  | _ => stringify v
  end.

Definition workspaceGoalContentHash (v : json) : string := sha256 (canonicalJson v).

Definition texts (l : list string) : json := JArr (map JStr l).

Definition nullable (o : option string) : json := match o with Some s => JStr s | None => JNull end.

Definition definition_json (d : GoalDefinition) : json :=
  JObj [("title", JStr (wg_title d)); ("outcome", JStr (wg_outcome d)); ("scope", texts (wg_scope d));
        ("nonGoals", texts (wg_nonGoals d));
        ("criteria", JArr (map (fun c => JObj [("key", JStr (gc_key c)); ("title", JStr (gc_title c)); ("required", JBool (gc_required c))])
          (wg_criteria d)));
        ("completionPolicy", JStr "user_confirm")].

Definition item_json (i : RoadmapItem) : json :=
  JObj [("id", JStr (ri_id i)); ("title", JStr (ri_title i)); ("outcome", JStr (ri_outcome i));
        ("verification", JStr (ri_verification i)); ("criterionKeys", texts (ri_criterionKeys i))].

Definition content_json (c : RevisionContent) : json :=
  match c with
  | Definition_content d => definition_json d
  | Roadmap_content r => JObj [("summary", JStr (rm_summary r)); ("items", JArr (map item_json (rm_items r)))]
  end.

End hashes.

(** * What a goal asks for next *)

Definition action (actor : GoalActor) (kind : NextActionKind) (title explanation label : string) (itemId runId : option string) : NextAction :=
  {| na_actor := actor; na_kind := kind; na_title := title; na_explanation := explanation; na_label := label;
     na_roadmapItemId := itemId; na_taskRunId := runId |}.

Definition progress_of (itemId : string) (progress : list ItemProgress) : option ItemProgress :=
  last (List.filter (fun p => String.eqb (ip_itemId p) itemId) progress).

Definition item_completed (progress : list ItemProgress) (itemId : string) : bool :=
  match progress_of itemId progress with Some p => bool_decide (ip_status p = GI_completed) | None => false end.

Definition terminal (s : GoalStatus) : bool := includes s [G_completed; G_cancelled].

Definition workspaceGoalNextAction (status : GoalStatus) (hasDefinition hasApprovedDefinition hasRoadmap hasApprovedRoadmap : bool)
    (currentRunId : option string) (requiredCriteria verifiedCriteria : nat) (roadmapProgress : list ItemProgress)
    (approvedItemIds : list string) (currentRunStatus : option RunStatus) : NextAction :=
  if terminal status then action by_none NA_view_result "Goal ended" "Review the result and evidence." "View result" None None
  else if bool_decide (status = G_paused) then
    action by_user NA_resume "Goal is paused" "Resume when you are ready to continue." "Resume Goal" None None
  else if negb hasDefinition || negb hasApprovedDefinition then
    action by_user NA_review_goal "Review this Goal" "Confirm the long-term outcome before starting Workspace changes." "Approve Goal" None None
  else match currentRunId with
  | Some r =>
      if match currentRunStatus with Some s => includes s [R_blocked; R_interrupted] | None => false end
      then action by_user NA_resolve_problem "A Goal TaskRun needs attention"
        "Open the blocked TaskRun, resolve its blocker, and resume it." "Open task" None (Some r)
      else action by_system NA_view_running_task "A Goal TaskRun is active"
        "The current TaskRun is executing with an immutable Goal direction snapshot." "View task" None (Some r)
  | None =>
      if negb hasRoadmap then action by_system NA_generate_roadmap "Generate a Goal Roadmap"
        "Use one bounded LLM call to draft TaskRun-sized outcomes, then edit and approve them." "Generate Roadmap" None None
      else if negb hasApprovedRoadmap then action by_user NA_review_roadmap "Review the Goal Roadmap"
        "Edit the draft and approve only the items that may drive TaskRuns." "Approve selected" None None
      else match List.find (fun i => negb (item_completed roadmapProgress i)) approvedItemIds with
      | Some itemId =>
          let progress := progress_of itemId roadmapProgress in
          let blocked_run := p ← progress;
            if bool_decide (ip_status p = GI_blocked) && negb (ip_retryable p) then ip_runId p else None in
          match blocked_run with
          | Some r => action by_user NA_resolve_problem "A Roadmap TaskRun needs attention"
              "Resume or resolve the original blocked TaskRun before retrying this Roadmap item." "Open task" (Some itemId) (Some r)
          | None => action by_user NA_run_roadmap_item "Run the next Roadmap item"
              "Start one bounded TaskRun with the Goal and Roadmap item embedded in its execution contract."
              (if match progress with Some p => ip_retryable p | None => false end then "Retry TaskRun" else "Start TaskRun") (Some itemId) None
          end
      | None =>
          if Nat.ltb 0 requiredCriteria && Nat.leb requiredCriteria verifiedCriteria
          then action by_user NA_view_result "Roadmap and criteria are ready"
            "All approved Roadmap items are complete. Review the evidence and confirm closure." "Confirm closure" None None
          else action by_user NA_review_roadmap "Extend the Goal Roadmap"
            "Approved Roadmap work is exhausted while required Goal criteria remain open." "Revise Roadmap" None None
      end
  end.

(** * Decisions *)

Definition latestRoadmapApproval (g : Goal) (roadmapRevisionId : string) : option GoalDecision :=
  last (List.filter (fun x => bool_decide (dc_kind x = GD_approve_roadmap) && String.eqb (dc_targetRevisionId x) roadmapRevisionId
    && bool_decide (Some (dc_targetHash x) = rv_contentHash <$> gl_roadmap g) && negb (bool_decide (dc_approvedItemIds x = [])))
    (gl_decisions g)).

Definition assertDecisionAllowed (status : GoalStatus) (kind : GoalDecisionKind) : result unit :=
  do* check (negb (terminal status)) (Error "terminal workspace Goal cannot accept decisions") in
  do* check (implb (bool_decide (kind = GD_approve_goal)) (bool_decide (status = G_draft)))
    (Error "only a draft workspace Goal definition can be approved") in
  do* check (implb (bool_decide (kind = GD_resume)) (bool_decide (status = G_paused))) (Error "only a paused workspace Goal can be resumed") in
  do* check (implb (bool_decide (kind = GD_pause)) (includes status [G_active; G_ready_to_close]))
    (Error "only an active workspace Goal can be paused") in
  do* check (implb (bool_decide (kind = GD_close)) (bool_decide (status = G_ready_to_close))) (Error "workspace Goal is not ready to close") in
  check (implb (bool_decide (kind = GD_approve_roadmap)) (negb (bool_decide (status = G_draft))))
    (Error "workspace Goal definition must be approved before Roadmap approval").

Definition definition_active (g : Goal) : bool :=
  match gl_definition g with Some r => bool_decide (go_activeDefinition (gl_row g) = Some (rv_id r)) | None => false end.

Definition goal_criteria (g : Goal) : list GoalCriterion :=
  match gl_definition g ≫= definition_of with Some d => wg_criteria d | None => [] end.

Definition validateRoadmapApproval (g : Goal) (revision : GoalRevision) (approvedItemIds : list string) : result unit :=
  do* check (definition_active g) (Error "approve_roadmap requires an approved Goal definition") in
  do* check (negb (existsb (fun x => bool_decide (dc_kind x = GD_approve_roadmap) && String.eqb (dc_targetRevisionId x) (rv_id revision)
      && String.eqb (dc_targetHash x) (rv_contentHash revision)) (gl_decisions g)))
    (Error "Goal Roadmap revision is already approved; create a new revision to change its approved items") in
  let* roadmap := expect (roadmap_of revision) (TypeError "roadmap.items is not iterable") in
  do* check (negb (bool_decide (approvedItemIds = []))) (Error "approve_roadmap requires at least one approved item") in
  do* check (forallb (fun i => includes i (map ri_id (rm_items roadmap))) approvedItemIds)
    (Error "approve_roadmap contains an unknown Roadmap item") in
  do* check (negb (existsb (fun it => includes (ri_id it) approvedItemIds && bool_decide (ri_criterionKeys it = [])) (rm_items roadmap)))
    (Error "every approved Roadmap item must advance at least one Goal criterion") in
  check (forallb (fun it => forallb (fun k => includes k (map gc_key (goal_criteria g))) (ri_criterionKeys it)) (rm_items roadmap))
    (Error "approve_roadmap references a criterion outside the active Goal definition").

(** What becomes of the goal. *)
Record GoalTransition := {
  gt_approvedItemIds : list string; gt_status : GoalStatus; gt_activeDefinition : option string; gt_activeRoadmap : option string;
  gt_complete : bool;
}.

Record GoalDecisionInput := {
  di_goalId : string; di_requestId : option string; di_targetRevisionId : string; di_targetHash : string;
  di_kind : GoalDecisionKind; di_approvedItemIds : list string; di_reason : string; di_actorId : string;
}.

(** [[...new Set(ids)].sort()] *)
Definition sorted_ids (ids : list string) : list string := merge_sort (fun a b => Is_true (String.leb a b)) (dedup ids).

Definition planWorkspaceGoalDecision (g : Goal) (revision : GoalRevision) (decision : GoalDecisionInput) (hasOtherGuidingGoal : bool)
    : result GoalTransition :=
  let kind := di_kind decision in
  let kind_is k := bool_decide (kind = k) in
  let row := gl_row g in
  let approvedItemIds := sorted_ids (di_approvedItemIds decision) in
  let status := go_status row in
  do* assertDecisionAllowed status kind in
  do* check (negb (bool_decide (is_Some (go_currentRunId row)) && includes kind [GD_approve_goal; GD_approve_roadmap; GD_request_change; GD_pause; GD_cancel]))
    (Error "workspace Goal cannot change approval, pause, or end while a guided TaskRun is active") in
  do* check (String.eqb (rv_goalId revision) (go_id row) && String.eqb (rv_id revision) (di_targetRevisionId decision)
    && String.eqb (rv_contentHash revision) (di_targetHash decision)) (Error "workspace Goal revision is stale") in
  do* check (implb (kind_is GD_approve_goal) (bool_decide (rv_id <$> gl_definition g = Some (rv_id revision))))
    (Error "workspace Goal definition revision is stale") in
  do* check (implb (kind_is GD_approve_roadmap) (bool_decide (rv_id <$> gl_roadmap g = Some (rv_id revision))))
    (Error "workspace Goal Roadmap revision is stale") in
  do* check (implb (includes kind [GD_pause; GD_resume; GD_close]) (bool_decide (go_activeDefinition row = Some (rv_id revision))))
    (Error "workspace Goal lifecycle decision revision is stale") in
  do* check (implb (kind_is GD_cancel) (bool_decide
      (match go_activeDefinition row with Some i => Some i | None => rv_id <$> gl_definition g end = Some (rv_id revision))))
    (Error "workspace Goal lifecycle decision revision is stale") in
  do* check (implb (kind_is GD_approve_goal) (bool_decide (rv_kind revision = RK_definition))) (Error "approve_goal requires a definition revision") in
  do* check (implb (kind_is GD_approve_roadmap) (bool_decide (rv_kind revision = RK_roadmap))) (Error "approve_roadmap requires a Roadmap revision") in
  do* check (implb (kind_is GD_request_change && bool_decide (rv_kind revision = RK_definition))
      (bool_decide (go_activeDefinition row = Some (rv_id revision))))
    (Error "request_change must target the active Goal definition revision") in
  do* check (implb (kind_is GD_request_change && bool_decide (rv_kind revision = RK_roadmap))
      (bool_decide (go_activeRoadmap row = Some (rv_id revision))))
    (Error "request_change must target the active Roadmap revision") in
  do* check (negb (includes kind [GD_approve_goal; GD_resume] && hasOtherGuidingGoal))
    (Error "another active workspace Goal already guides this Workspace; pause it before activating this Goal") in
  do* (if kind_is GD_approve_roadmap then validateRoadmapApproval g revision approvedItemIds else mret tt) in
  do* check (negb (kind_is GD_close && (Nat.eqb (gl_requiredCriteria g) 0 || Nat.ltb (gl_verifiedCriteria g) (gl_requiredCriteria g))))
    (Error "workspace Goal is not ready to close") in
  let transition s def road complete :=
    {| gt_approvedItemIds := approvedItemIds; gt_status := s; gt_activeDefinition := def; gt_activeRoadmap := road; gt_complete := complete |} in
  let unless_paused := if bool_decide (status = G_paused) then G_paused else G_active in
  mret (match kind with
  | GD_approve_goal => transition G_active (Some (rv_id revision)) None false
  | GD_approve_roadmap => transition unless_paused (go_activeDefinition row) (Some (rv_id revision)) false
  | GD_request_change =>
      match rv_kind revision with
      | RK_definition => transition G_draft None None false
      | RK_roadmap => transition unless_paused (go_activeDefinition row) None false
      end
  | GD_pause => transition G_paused (go_activeDefinition row) (go_activeRoadmap row) false
  | GD_resume => transition G_active (go_activeDefinition row) (go_activeRoadmap row) false
  | GD_cancel => transition G_cancelled (go_activeDefinition row) (go_activeRoadmap row) true
  | GD_close => transition G_completed (go_activeDefinition row) (go_activeRoadmap row) true
  end).

Definition planWorkspaceGoalRevision (g : Goal) (kind : GoalRevisionKind) : result (GoalStatus * option string * option string) :=
  let row := gl_row g in
  do* check (negb (terminal (go_status row))) (Error "terminal workspace Goal cannot be revised") in
  do* check (bool_decide (go_currentRunId row = None)) (Error "workspace Goal cannot be revised while a guided TaskRun is active") in
  mret (match kind with
  | RK_definition => (G_draft, None, None)
  | RK_roadmap => (if bool_decide (go_status row = G_ready_to_close) then G_active else go_status row, go_activeDefinition row, None)
  end).

(** * What guides a TaskRun *)

Definition authorizeWorkspaceGoalRunMutation (goal : option Goal) (link : option GoalRunLink) : bool * string :=
  match link with
  | None => (true, "ordinary TaskRun is not Goal-governed")
  | Some l =>
      match (match goal with Some g => if bool_decide (gl_status g = G_active) then Some g else None | None => None end) with
      | None => (false, "Workspace Goal is not active")
      | Some g =>
          if negb (definition_active g && bool_decide (rv_revision <$> gl_definition g = Some (lk_goalRevision l)))
          then (false, "Workspace Goal definition approval is stale")
          else match lk_mode l with
          | LM_workspace => (true, "User-started TaskRun follows the active Workspace Goal direction")
          | LM_roadmap =>
              match lk_roadmapRevisionId l with
              | None => (false, "Workspace Goal Roadmap is not active")
              | Some r =>
                  if negb (bool_decide (go_activeRoadmap (gl_row g) = Some r) && bool_decide (rv_id <$> gl_roadmap g = Some r))
                  then (false, "Workspace Goal Roadmap is not active")
                  else match latestRoadmapApproval g r with
                  | None => (false, "TaskRun exceeds the approved Goal Roadmap slice")
                  | Some approval =>
                      if bool_decide (lk_roadmapItemIds l = [])
                         || existsb (fun i => negb (includes i (dc_approvedItemIds approval))) (lk_roadmapItemIds l)
                      then (false, "TaskRun exceeds the approved Goal Roadmap slice")
                      else (true, "Goal Roadmap slice is approved")
                  end
              end
          end
      end
  end.

Record EvidenceInput := {
  ei_goalId : string; ei_requestId : option string; ei_goalRevision : Z; ei_criterionKey : string; ei_runId : string;
  ei_checkKey : option string; ei_artifactId : option string; ei_operationId : option string; ei_status : GoalEvidenceStatus;
}.

Definition validateWorkspaceGoalEvidenceTarget (g : Goal) (input : EvidenceInput) (runWorkspaceId : string) : result unit :=
  do* check (negb (terminal (gl_status g))) (Error "terminal workspace Goal cannot accept evidence") in
  do* check (String.eqb runWorkspaceId (go_workspaceId (gl_row g))) (Error "TaskRun belongs to a different workspace") in
  do* check (bool_decide (rv_revision <$> gl_definition g = Some (ei_goalRevision input))) (Error "workspace Goal definition revision is stale") in
  do* check (includes (ei_criterionKey input) (map gc_key (goal_criteria g))) (Error "criterion not found") in
  let* link := expect (List.find (fun l => String.eqb (lk_runId l) (ei_runId input)) (gl_runLinks g))
    (Error "TaskRun is not linked to this workspace Goal") in
  do* check (Z.eqb (lk_goalRevision link) (ei_goalRevision input)) (Error "TaskRun is linked to a different workspace Goal definition revision") in
  do* check (includes (ei_criterionKey input) (lk_criterionKeys link))
    (Error "TaskRun is not authorized to provide evidence for this Goal criterion") in
  check (existsb (fun o => match o with Some s => negb (String.eqb s "") | None => false end)
      [ei_checkKey input; ei_artifactId input; ei_operationId input])
    (Error "evidence must reference a check, artifact or operation").

Definition shouldWorkspaceGoalBeReady (g : Goal) : bool :=
  let approval := r ← gl_roadmap g; latestRoadmapApproval g (rv_id r) in
  bool_decide (go_currentRunId (gl_row g) = None) && Nat.ltb 0 (gl_requiredCriteria g)
  && Nat.leb (gl_requiredCriteria g) (gl_verifiedCriteria g)
  && definition_active g
  && match gl_roadmap g, approval with
     | Some r, Some a => bool_decide (go_activeRoadmap (gl_row g) = Some (rv_id r))
                         && forallb (item_completed (gl_progress g)) (dc_approvedItemIds a)
     | _, _ => false
     end.
