(* ===== verification/GoalStore.v ===== *)
(** The store of the workspace goals
    (adapters/persistence-sqlite/src/sqlite/workspace-goal-repository.ts,
    packages/admission/src/application/goal-roadmap-admission.ts): the tables,
    the goal as it is read, with the state of its TaskRuns and evidence projected
    into it, and every operation. *)
From S2P Require Import Prelude Json TaskPolicy Attempt GateData ExecDb Canonical AttemptRepo RunStore Tools PlanGraph PlanStore AuditAlgebra Evidence CompletionGate Uncertainty Supervisor RunView Progress Approval Goal.
Local Open Scope tx_scope.

(** * Tables *)

Record GoalRequestRow := { gq_goalId : string; gq_payloadHash : string }.
Record ProgressRow := { pg_status : GoalItemStatus; pg_runId : option string; pg_updatedAt : Z; pg_completedAt : option Z }.
Record InboxLink := {
  il_inboxItemId : string; il_goalId : string; il_goalRevision : Z; il_roadmapRevisionId : string; il_roadmapItemIds : list string;
  il_criterionKeys : list string; il_createdAt : Z;
}.
Record EvidenceRequestRow := { eq_payloadHash : string; eq_evidenceLinkId : string }.

(** The tables of the goals beside those of the governance; the links are in the
    order of their rowids. *)
Record GoalDb := {
  go_gov : GovDb; goals : gmap string GoalRow; goal_requests : gmap string GoalRequestRow; goal_revisions : gmap string GoalRevision;
  goal_decisions : gmap string GoalDecision; run_links : list GoalRunLink; inbox_links : list InboxLink;
  item_progress : gmap (string * string * string) ProgressRow; evidence_links : gmap string EvidenceLink;
  evidence_requests : gmap (string * string) EvidenceRequestRow;
}.

Definition go_db (d : GoalDb) : Db := gd_db (go_gov d).

Definition set_gov (g : GovDb) (d : GoalDb) : GoalDb :=
  {| go_gov := g; goals := goals d; goal_requests := goal_requests d; goal_revisions := goal_revisions d; goal_decisions := goal_decisions d;
     run_links := run_links d; inbox_links := inbox_links d; item_progress := item_progress d; evidence_links := evidence_links d;
     evidence_requests := evidence_requests d |}.

Definition set_goals (f : gmap string GoalRow -> gmap string GoalRow) (d : GoalDb) : GoalDb :=
  {| go_gov := go_gov d; goals := f (goals d); goal_requests := goal_requests d; goal_revisions := goal_revisions d;
     goal_decisions := goal_decisions d; run_links := run_links d; inbox_links := inbox_links d; item_progress := item_progress d;
     evidence_links := evidence_links d; evidence_requests := evidence_requests d |}.

Definition set_goal_requests (f : gmap string GoalRequestRow -> gmap string GoalRequestRow) (d : GoalDb) : GoalDb :=
  {| go_gov := go_gov d; goals := goals d; goal_requests := f (goal_requests d); goal_revisions := goal_revisions d;
     goal_decisions := goal_decisions d; run_links := run_links d; inbox_links := inbox_links d; item_progress := item_progress d;
     evidence_links := evidence_links d; evidence_requests := evidence_requests d |}.

Definition set_goal_revisions (f : gmap string GoalRevision -> gmap string GoalRevision) (d : GoalDb) : GoalDb :=
  {| go_gov := go_gov d; goals := goals d; goal_requests := goal_requests d; goal_revisions := f (goal_revisions d);
     goal_decisions := goal_decisions d; run_links := run_links d; inbox_links := inbox_links d; item_progress := item_progress d;
     evidence_links := evidence_links d; evidence_requests := evidence_requests d |}.

Definition set_goal_decisions (f : gmap string GoalDecision -> gmap string GoalDecision) (d : GoalDb) : GoalDb :=
  {| go_gov := go_gov d; goals := goals d; goal_requests := goal_requests d; goal_revisions := goal_revisions d;
     goal_decisions := f (goal_decisions d); run_links := run_links d; inbox_links := inbox_links d; item_progress := item_progress d;
     evidence_links := evidence_links d; evidence_requests := evidence_requests d |}.

Definition set_run_links (f : list GoalRunLink -> list GoalRunLink) (d : GoalDb) : GoalDb :=
  {| go_gov := go_gov d; goals := goals d; goal_requests := goal_requests d; goal_revisions := goal_revisions d;
     goal_decisions := goal_decisions d; run_links := f (run_links d); inbox_links := inbox_links d; item_progress := item_progress d;
     evidence_links := evidence_links d; evidence_requests := evidence_requests d |}.

Definition set_inbox_links (f : list InboxLink -> list InboxLink) (d : GoalDb) : GoalDb :=
  {| go_gov := go_gov d; goals := goals d; goal_requests := goal_requests d; goal_revisions := goal_revisions d;
     goal_decisions := goal_decisions d; run_links := run_links d; inbox_links := f (inbox_links d); item_progress := item_progress d;
     evidence_links := evidence_links d; evidence_requests := evidence_requests d |}.

Definition set_item_progress (f : gmap (string * string * string) ProgressRow -> gmap (string * string * string) ProgressRow) (d : GoalDb)
    : GoalDb :=
  {| go_gov := go_gov d; goals := goals d; goal_requests := goal_requests d; goal_revisions := goal_revisions d;
     goal_decisions := goal_decisions d; run_links := run_links d; inbox_links := inbox_links d; item_progress := f (item_progress d);
     evidence_links := evidence_links d; evidence_requests := evidence_requests d |}.

Definition set_evidence_links (f : gmap string EvidenceLink -> gmap string EvidenceLink) (d : GoalDb) : GoalDb :=
  {| go_gov := go_gov d; goals := goals d; goal_requests := goal_requests d; goal_revisions := goal_revisions d;
     goal_decisions := goal_decisions d; run_links := run_links d; inbox_links := inbox_links d; item_progress := item_progress d;
     evidence_links := f (evidence_links d); evidence_requests := evidence_requests d |}.

Definition set_evidence_requests (f : gmap (string * string) EvidenceRequestRow -> gmap (string * string) EvidenceRequestRow) (d : GoalDb)
    : GoalDb :=
  {| go_gov := go_gov d; goals := goals d; goal_requests := goal_requests d; goal_revisions := goal_revisions d;
     goal_decisions := goal_decisions d; run_links := run_links d; inbox_links := inbox_links d; item_progress := item_progress d;
     evidence_links := evidence_links d; evidence_requests := f (evidence_requests d) |}.

(** A transaction of the tables below. *)
Definition in_gov {A} (m : tx GovDb A) : tx GoalDb A := fun d =>
  match m (go_gov d) with Ok (a, g) => Ok (a, set_gov g d) | Throw e => Throw e end.

Definition in_store {A} (m : tx Db A) : tx GoalDb A := in_gov (in_exec m).

(** * Reading *)

Definition list_of {K V} `{Countable K} (p : V -> bool) (m : gmap K V) : list V := List.filter p (map snd (map_to_list m)).

Definition runs_of (d : GoalDb) : gmap string RunRow := runs (go_db d).

Definition run_status (runId : string) (d : GoalDb) : option RunStatus := r_status <$> runs_of d !! runId.

Section reading.
Context `{Platform}.

(** [revisionFromRow] *)
Definition checked_revision (r : GoalRevision) : result GoalRevision :=
  do* check (String.eqb (workspaceGoalContentHash (content_json (rv_content r))) (rv_contentHash r))
    (Error ("workspace Goal revision " +:+ rv_id r +:+ " content hash mismatch")) in
  mret r.

Definition optional_revision (o : option GoalRevision) : result (option GoalRevision) :=
  match o with Some r => let* r := checked_revision r in mret (Some r) | None => mret None end.

Definition revision (id : string) (d : GoalDb) : result (option GoalRevision) := optional_revision (goal_revisions d !! id).

Definition revisions_of (goalId : string) (kind : GoalRevisionKind) (d : GoalDb) : list GoalRevision :=
  list_of (fun r => String.eqb (rv_goalId r) goalId && bool_decide (rv_kind r = kind)) (goal_revisions d).

Definition revision_le (a b : GoalRevision) : Prop := Is_true (rv_revision a <=? rv_revision b)%Z.
#[export] Instance revision_le_dec a b : Decision (revision_le a b).
Proof. unfold revision_le. apply _. Defined.

Definition latestRevision (goalId : string) (kind : GoalRevisionKind) (d : GoalDb) : result (option GoalRevision) :=
  optional_revision (last (merge_sort revision_le (revisions_of goalId kind d))).

(** [ORDER BY created_at ASC, id ASC] *)
Definition decision_le (a b : GoalDecision) : Prop :=
  Is_true ((dc_createdAt a <? dc_createdAt b)%Z || (dc_createdAt a =? dc_createdAt b)%Z && String.leb (dc_id a) (dc_id b)).
#[export] Instance decision_le_dec a b : Decision (decision_le a b).
Proof. unfold decision_le. apply _. Defined.

Definition decisions_of (goalId : string) (d : GoalDb) : list GoalDecision :=
  merge_sort decision_le (list_of (fun x => String.eqb (dc_goalId x) goalId) (goal_decisions d)).

Definition decisionByRequest (goalId requestId : string) (d : GoalDb) : option GoalDecision :=
  head (list_of (fun x => String.eqb (dc_goalId x) goalId && String.eqb (dc_requestId x) requestId) (goal_decisions d)).

(** [ORDER BY created_at, rowid] *)
Definition link_le (a b : GoalRunLink) : Prop := Is_true (lk_createdAt a <=? lk_createdAt b)%Z.
#[export] Instance link_le_dec a b : Decision (link_le a b).
Proof. unfold link_le. apply _. Defined.

Definition links_of (goalId : string) (d : GoalDb) : list GoalRunLink :=
  merge_sort link_le (List.filter (fun l => String.eqb (lk_goalId l) goalId) (run_links d)).

Definition runLinkForRun (runId : string) (d : GoalDb) : option GoalRunLink :=
  List.find (fun l => String.eqb (lk_runId l) runId) (run_links d).

Definition evidence_le (a b : EvidenceLink) : Prop := Is_true (vl_createdAt a <=? vl_createdAt b)%Z.
#[export] Instance evidence_le_dec a b : Decision (evidence_le a b).
Proof. unfold evidence_le. apply _. Defined.

Definition evidence_of (goalId : string) (d : GoalDb) : list EvidenceLink :=
  merge_sort evidence_le (list_of (fun l => String.eqb (vl_goalId l) goalId) (evidence_links d)).

(** [findActiveGuidedRun]: the preferred run, or else the one that was linked last. *)
Definition guiding_status (runId : string) (preferred : option string) (s : RunStatus) : bool :=
  includes s [R_running; R_waiting_input] || bool_decide (preferred = Some runId) && includes s [R_interrupted; R_blocked].

Definition findActiveGuidedRun (goalId : string) (preferred : option string) (d : GoalDb) : option (string * RunStatus) :=
  let found := omap (fun l => s ← run_status (lk_runId l) d;
      if guiding_status (lk_runId l) preferred s then Some (lk_runId l, s) else None) (links_of goalId d) in
  match List.find (fun rs => bool_decide (preferred = Some rs.1)) found with
  | Some rs => Some rs
  | None => last found
  end.

(** ** Evidence *)

(** The text of an operation as a check names it. *)
Definition check_operation_text (o : OperationRow) : string :=
  members_text [("attempt", pretty (o_attempt o)); ("operationType", quote (o_operationType o)); ("payloadJson", quote (stringify (o_payload o)));
    ("status", quote (o_status o)); ("resultJson", quote (match o_result o with Some r => stringify r | None => "" end));
    ("completedAt", stringify (optional_int (o_completedAt o)))].

Definition trusted_operation (attempt : Z) (c : CheckRow) (o : OperationRow) : bool :=
  Z.eqb (o_attempt o) attempt && String.eqb (o_operationType o) "tool.bash" && String.eqb (o_status o) "succeeded"
  && bool_decide (o_completedAt o = ck_observedAt c)
  && match record (o_payload o) ≫= string_member "command" with
     | Some command => String.eqb (trim command) (trim (ck_command c))
     | None => false
     end
  && match result_details o with Some details => exit_zero details | None => false end.

Definition operation_of (runId id : string) (d : GoalDb) : option OperationRow :=
  o ← operations (go_db d) !! id; if String.eqb (o_runId o) runId then Some o else None.

Definition check_fact (runId key : string) (attempt : Z) (trusted : bool) (d : GoalDb) : result string :=
  let* c := expect (run_checks (go_gov d) !! (runId, key)) (Error "check evidence not found") in
  let operation := i ← truthy_text (ck_sourceOperationId c); operation_of runId i d in
  let receipt := bool_decide (ck_status c = CK_passed) && negb (ck_stale c) && negb (blank (ck_evidence c))
    && match operation with Some o => trusted_operation attempt c o | None => false end in
  do* check (negb trusted || receipt) (Error "check evidence is not bound to a successful current-Attempt Bash receipt") in
  mret (members_text [("key", quote key); ("status", quote (check_status_text (ck_status c))); ("stale", if ck_stale c then "1" else "0");
    ("evidence", quote (ck_evidence c)); ("command", quote (ck_command c)); ("title", quote (ck_title c));
    ("sourceOperationId", stringify (nullable (ck_sourceOperationId c))); ("observedAt", stringify (optional_int (ck_observedAt c)));
    ("operation", match operation with Some o => check_operation_text o | None => "undefined" end)]).

(** The successful operation of the Attempt that produced an artifact, when it
    completed and the digest it reports. *)
Definition artifact_receipt (runId artifactId : string) (a : ArtifactRow) (attempt : Z) (d : GoalDb) : option (string * Z * string) :=
  head (omap (fun kv : string * OperationRow =>
    let o := kv.2 in
    if String.eqb (o_runId o) runId && Z.eqb (o_attempt o) attempt && String.eqb (o_status o) "succeeded" then
      completedAt ← o_completedAt o;
      details ← result_details o;
      sha ← string_member "sha256" details;
      if opt_str_is (field "artifactId" details) artifactId && opt_str_is (field "artifactUri" details) (ar_uri a)
      then Some (kv.1, completedAt, sha) else None
    else None) (map_to_list (operations (go_db d)))).

Definition artifact_fact (runId artifactId : string) (attempt startedAt : Z) (trusted : bool) (d : GoalDb) : result string :=
  let missing := Error "artifact evidence not found" in
  let* a := expect (artifacts (go_gov d) !! artifactId) missing in
  do* check (String.eqb (ar_runId a) runId) missing in
  let receipt := artifact_receipt runId artifactId a attempt d in
  let inline := negb (blank (ar_content a)) && (startedAt <? ar_createdAt a)%Z in
  let receiptBacked := bool_decide (is_Some receipt) && String.prefix ".tagent/artifacts/" (ar_uri a) in
  do* check (negb trusted || inline || receiptBacked)
    (Error "artifact evidence is not backed by current-Attempt inline content or a successful current-Attempt artifact receipt") in
  let contentHash := if inline then sha256 (ar_content a) else match receipt with
    | Some r => if receiptBacked then "sha256:" +:+ r.2 else "missing"
    | None => "missing"
    end in
  mret (members_text [("id", quote artifactId); ("kind", quote (ar_kind a)); ("title", quote (ar_title a)); ("content", "undefined");
    ("uri", quote (ar_uri a)); ("createdAt", pretty (ar_createdAt a)); ("contentHash", quote contentHash);
    ("receipt", match receipt with
                | Some r => members_text [("operationId", quote r.1.1); ("completedAt", pretty r.1.2)]
                | None => "null"
                end)]).

Definition operation_fact (runId id : string) (attempt : Z) (trusted : bool) (d : GoalDb) : result string :=
  let* o := expect (operation_of runId id d) (Error "operation evidence not found") in
  do* check (negb trusted || String.eqb (o_status o) "succeeded" && Z.eqb (o_attempt o) attempt
      && bool_decide (is_Some (o_completedAt o)) && bool_decide (is_Some (o_result o)))
    (Error "operation evidence is not a successful current-Attempt receipt") in
  mret (members_text [("id", quote id); ("attempt", pretty (o_attempt o)); ("operationType", quote (o_operationType o));
    ("payloadHash", quote (o_payloadHash o)); ("status", quote (o_status o)); ("stage", quote (o_stage o));
    ("effectsJson", quote (stringify (JArr (o_effects o)))); ("resultJson", quote (match o_result o with Some r => stringify r | None => "" end));
    ("error", quote (o_error o)); ("completedAt", stringify (optional_int (o_completedAt o)))]).

(** A fact of the digest, when the evidence names its source. *)
Definition named_fact (name : string) (source : option string) (f : string -> result string) : result (list (string * string)) :=
  match truthy_text source with
  | Some s => let* text := f s in mret [(name, text)]
  | None => mret []
  end.

Definition computeEvidenceDigest (runId : string) (checkKey artifactId operationId : option string) (requestedStatus : GoalEvidenceStatus)
    (d : GoalDb) : result string :=
  let trusted := includes requestedStatus [GE_valid; GE_contradicted] in
  let missing := Error "TaskRun not found" in
  let* run := expect (runs_of d !! runId) missing in
  let attempt := r_attempt run in
  let* row := expect (getAttemptForRun runId attempt (go_db d)) missing in
  let* check := named_fact "check" checkKey (fun k => check_fact runId k attempt trusted d) in
  let* artifact := named_fact "artifact" artifactId (fun i => artifact_fact runId i attempt (a_startedAt row) trusted d) in
  let* operation := named_fact "operation" operationId (fun i => operation_fact runId i attempt trusted d) in
  mret ("sha256:" +:+ sha256 (members_text ([("runId", quote runId); ("attempt", pretty attempt)] ++ check ++ artifact ++ operation))).

Definition with_evidence_status (s : GoalEvidenceStatus) (l : EvidenceLink) : EvidenceLink :=
  {| vl_id := vl_id l; vl_goalId := vl_goalId l; vl_goalRevision := vl_goalRevision l; vl_criterionKey := vl_criterionKey l;
     vl_runId := vl_runId l; vl_checkKey := vl_checkKey l; vl_artifactId := vl_artifactId l; vl_operationId := vl_operationId l;
     vl_sourceDigest := vl_sourceDigest l; vl_status := s; vl_createdAt := vl_createdAt l; vl_updatedAt := vl_updatedAt l |}.

Definition projectEvidence (d : GoalDb) (l : EvidenceLink) : EvidenceLink :=
  if bool_decide (vl_status l = GE_stale) then l else
  match computeEvidenceDigest (vl_runId l) (vl_checkKey l) (vl_artifactId l) (vl_operationId l) (vl_status l) d with
  | Ok digest => with_evidence_status (if String.eqb digest (vl_sourceDigest l) then vl_status l else GE_stale) l
  | Throw _ => with_evidence_status GE_stale l
  end.

(** The latest evidence for a criterion, ties by the identifier. *)
Definition newer_evidence (a b : EvidenceLink) : bool :=
  (vl_updatedAt b <? vl_updatedAt a)%Z || (vl_updatedAt a =? vl_updatedAt b)%Z && negb (String.leb (vl_id a) (vl_id b)).

Definition decisive (key : string) (links : list EvidenceLink) : option EvidenceLink :=
  fold_left (fun prior l => match prior with
    | Some p => if newer_evidence l p then Some l else prior
    | None => Some l
    end) (List.filter (fun l => String.eqb (vl_criterionKey l) key) links) None.

(** ** The progress of a roadmap *)

Definition projectedRoadmapStatus (persisted : GoalItemStatus) (runStatus : option RunStatus) : GoalItemStatus :=
  match runStatus with
  | Some R_completed => GI_completed
  | Some R_running | Some R_waiting_input => GI_running
  | Some _ => GI_blocked
  | None => persisted
  end.

Definition queued_status (d : GoalDb) (inboxItemId : string) : option string :=
  x ← inbox (go_db d) !! inboxItemId; if includes (x_status x) ["queued"; "claimed"]%string then Some (x_status x) else None.

Definition inbox_link_le (a b : InboxLink) : Prop := Is_true (il_createdAt a <=? il_createdAt b)%Z.
#[export] Instance inbox_link_le_dec a b : Decision (inbox_link_le a b).
Proof. unfold inbox_link_le. apply _. Defined.

(** The queued work of a goal and a roadmap. *)
Definition queued_links (goalId roadmapRevisionId : string) (d : GoalDb) : list InboxLink :=
  merge_sort inbox_link_le (List.filter (fun l => String.eqb (il_goalId l) goalId && String.eqb (il_roadmapRevisionId l) roadmapRevisionId
    && bool_decide (is_Some (queued_status d (il_inboxItemId l)))) (inbox_links d)).

Definition item_view (goalId : string) (roadmap : GoalRevision) (approvedItemIds : list string) (d : GoalDb) (item : RoadmapItem) : ItemProgress :=
  let id := ri_id item in
  if negb (includes id approvedItemIds) then
    {| ip_itemId := id; ip_status := GI_unapproved; ip_queueStatus := None; ip_inboxItemId := None; ip_runId := None; ip_runStatus := None;
       ip_retryable := false; ip_updatedAt := rv_createdAt roadmap; ip_completedAt := None |}
  else
    let queued := last (List.filter (fun l => includes id (il_roadmapItemIds l)) (queued_links goalId (rv_id roadmap) d)) in
    let row := item_progress d !! (goalId, rv_id roadmap, id) in
    let runStatus := p ← row; r ← pg_runId p; run_status r d in
    let status := match row with Some p => projectedRoadmapStatus (pg_status p) runStatus | None => GI_pending end in
    {| ip_itemId := id; ip_status := status;
       ip_queueStatus := l ← queued; queued_status d (il_inboxItemId l); ip_inboxItemId := il_inboxItemId <$> queued;
       ip_runId := row ≫= pg_runId; ip_runStatus := runStatus;
       ip_retryable := bool_decide (status = GI_blocked) && match runStatus with Some s => includes s [R_failed; R_cancelled] | None => false end;
       ip_updatedAt := Z.max (match row with Some p => pg_updatedAt p | None => rv_createdAt roadmap end)
         (match queued with Some l => il_createdAt l | None => 0%Z end);
       ip_completedAt := row ≫= pg_completedAt |}.

Definition roadmapProgress (goalId : string) (roadmap : GoalRevision) (approvedItemIds : list string) (d : GoalDb) : list ItemProgress :=
  match roadmap_of roadmap with
  | Some r => map (item_view goalId roadmap approvedItemIds d) (rm_items r)
  | None => []
  end.

(** ** The goal *)

Definition approved_definition (decisions : list GoalDecision) (r : GoalRevision) : bool :=
  existsb (fun x => bool_decide (dc_kind x = GD_approve_goal) && String.eqb (dc_targetRevisionId x) (rv_id r)
    && String.eqb (dc_targetHash x) (rv_contentHash r)) decisions.

Definition roadmap_approval (decisions : list GoalDecision) (r : GoalRevision) : option GoalDecision :=
  last (List.filter (fun x => bool_decide (dc_kind x = GD_approve_roadmap) && String.eqb (dc_targetRevisionId x) (rv_id r)
    && String.eqb (dc_targetHash x) (rv_contentHash r) && negb (bool_decide (dc_approvedItemIds x = []))) decisions).

Definition verified (links : list EvidenceLink) (key : string) : bool :=
  match decisive key links with Some l => bool_decide (vl_status l = GE_valid) | None => false end.

Definition with_goal_status (s : GoalStatus) (currentRunId : option string) (g : GoalRow) : GoalRow :=
  {| go_id := go_id g; go_workspaceId := go_workspaceId g; go_status := s; go_activeDefinition := go_activeDefinition g;
     go_activeRoadmap := go_activeRoadmap g; go_currentRunId := currentRunId; go_createdAt := go_createdAt g; go_updatedAt := go_updatedAt g;
     go_completedAt := go_completedAt g |}.

Definition getGoal (goalId : string) (d : GoalDb) : result (option Goal) :=
  match goals d !! goalId with
  | None => mret None
  | Some row =>
      let* definition := match truthy_text (go_activeDefinition row) with Some i => revision i d | None => latestRevision goalId RK_definition d end in
      let* roadmap := match truthy_text (go_activeRoadmap row) with Some i => revision i d | None => latestRevision goalId RK_roadmap d end in
      let decisions := decisions_of goalId d in
      let evidence := map (projectEvidence d) (evidence_of goalId d) in
      let current := findActiveGuidedRun goalId (go_currentRunId row) d in
      let criteria := match definition ≫= definition_of with Some x => wg_criteria x | None => [] end in
      let requiredKeys := map gc_key (List.filter gc_required criteria) in
      let usable := List.filter (fun l => bool_decide (Some (vl_goalRevision l) = rv_revision <$> definition)
        && negb (bool_decide (vl_status l = GE_stale))) evidence in
      let hasApprovedDefinition := match definition with
        | Some r => bool_decide (go_activeDefinition row = Some (rv_id r)) && approved_definition decisions r
        | None => false
        end in
      let approval := r ← roadmap; if bool_decide (go_activeRoadmap row = Some (rv_id r)) then roadmap_approval decisions r else None in
      let approvedSet := match approval with Some a => dc_approvedItemIds a | None => [] end in
      let approvedItemIds := match roadmap ≫= roadmap_of with
        | Some r => map ri_id (List.filter (fun it => includes (ri_id it) approvedSet) (rm_items r))
        | None => []
        end in
      let progress := match roadmap with Some r => roadmapProgress goalId r approvedSet d | None => [] end in
      let verifiedCriteria := length (List.filter (verified usable) requiredKeys) in
      let complete := match approval with Some a => forallb (item_completed progress) (dc_approvedItemIds a) | None => false end in
      let status := if bool_decide (go_status row = G_ready_to_close)
                       && (Nat.ltb verifiedCriteria (length requiredKeys) || negb hasApprovedDefinition || negb complete)
                    then G_active else go_status row in
      mret (Some {|
        gl_row := with_goal_status status (fst <$> current) row; gl_definition := definition; gl_roadmap := roadmap; gl_decisions := decisions;
        gl_runLinks := links_of goalId d; gl_progress := progress; gl_evidence := evidence; gl_requiredCriteria := length requiredKeys;
        gl_verifiedCriteria := verifiedCriteria;
        gl_nextAction := workspaceGoalNextAction status (bool_decide (is_Some definition)) hasApprovedDefinition (bool_decide (is_Some roadmap))
          (bool_decide (is_Some approval)) (fst <$> current) (length requiredKeys) verifiedCriteria progress approvedItemIds (snd <$> current) |})
  end.

Definition requireGoal (goalId : string) : tx GoalDb Goal :=
  let* d := gets id in
  let* g := lift (getGoal goalId d) in
  present g (Error "workspace Goal not found").

Record GoalSummary := {
  gs_id : string; gs_workspaceId : string; gs_status : GoalStatus; gs_title : string; gs_outcome : string; gs_requiredCriteria : nat;
  gs_verifiedCriteria : nat; gs_currentRunId : option string; gs_nextAction : NextAction; gs_createdAt : Z; gs_updatedAt : Z;
}.

Definition summary (row : GoalRow) (d : GoalDb) : result GoalSummary :=
  let* found := getGoal (go_id row) d in
  let* g := expect found (TypeError "goal is null") in
  let definition := gl_definition g ≫= definition_of in
  mret {| gs_id := go_id row; gs_workspaceId := go_workspaceId row; gs_status := gl_status g;
          gs_title := match definition with Some x => wg_title x | None => "Untitled Goal" end;
          gs_outcome := match definition with Some x => wg_outcome x | None => "" end;
          gs_requiredCriteria := gl_requiredCriteria g; gs_verifiedCriteria := gl_verifiedCriteria g;
          gs_currentRunId := go_currentRunId (gl_row g); gs_nextAction := gl_nextAction g; gs_createdAt := go_createdAt row;
          gs_updatedAt := go_updatedAt row |}.

Definition goal_later (a b : GoalRow) : Prop := Is_true (go_updatedAt b <=? go_updatedAt a)%Z.
#[export] Instance goal_later_dec a b : Decision (goal_later a b).
Proof. unfold goal_later. apply _. Defined.

Definition listGoals (workspaceId : string) (d : GoalDb) : result (list GoalSummary) :=
  map_indexed (fun _ row => summary row d) 0
    (merge_sort goal_later (list_of (fun g => String.eqb (go_workspaceId g) workspaceId) (goals d))).

End reading.

(** * Creating, revising and deciding *)

Section writing.
Context `{Platform}.

Definition insertRevision (r : GoalRevision) : tx GoalDb unit :=
  let* d := gets id in
  do* require (negb (existsb (fun x => Z.eqb (rv_revision x) (rv_revision r)) (revisions_of (rv_goalId r) (rv_kind r) d))
      && bool_decide (goal_revisions d !! rv_id r = None)) (SqliteError "workspace_goal_revisions") in
  modify (set_goal_revisions (insert (rv_id r) r)).

Definition revisionRecord (goalId : string) (revision : Z) (content : RevisionContent) (sourceArtifactId : option string) (createdBy : string)
    (createdAt : Z) : tx GoalDb GoalRevision :=
  let* id := in_store randomUUID in
  mret {| rv_id := id; rv_goalId := goalId; rv_revision := revision; rv_content := content;
          rv_contentHash := workspaceGoalContentHash (content_json content); rv_sourceArtifactId := sourceArtifactId;
          rv_createdBy := createdBy; rv_createdAt := createdAt |}.

Definition createGoal (workspaceId : string) (definition : GoalDefinition) (createdBy : string) (idempotencyKey : option string) (now : Z)
    : tx GoalDb Goal :=
  let payloadHash := workspaceGoalContentHash
    (JObj [("workspaceId", JStr workspaceId); ("definition", definition_json definition); ("createdBy", JStr createdBy)]) in
  let key := truthy_text idempotencyKey in
  let* d := gets id in
  match key ≫= fun k => goal_requests d !! k with
  | Some request =>
      do* require (String.eqb (gq_payloadHash request) payloadHash) (Error "workspace Goal idempotency conflict") in
      requireGoal (gq_goalId request)
  | None =>
      let* goalId := in_store randomUUID in
      let* first := revisionRecord goalId 1 (Definition_content definition) None createdBy now in
      let* d := gets id in
      do* require (bool_decide (is_Some (sessions (go_db d) !! workspaceId))) (Error "workspace not found") in
      do* require (bool_decide (goals d !! goalId = None)) (SqliteError "workspace_goals.id") in
      do* modify (set_goals (insert goalId {| go_id := goalId; go_workspaceId := workspaceId; go_status := G_draft; go_activeDefinition := None;
        go_activeRoadmap := None; go_currentRunId := None; go_createdAt := now; go_updatedAt := now; go_completedAt := None |})) in
      do* insertRevision first in
      do* (match key with
           | Some k => modify (set_goal_requests (insert k {| gq_goalId := goalId; gq_payloadHash := payloadHash |}))
           | None => mret tt
           end) in
      requireGoal goalId
  end.

Definition hasPendingInboxWork (goalId : string) (d : GoalDb) : bool :=
  existsb (fun l => String.eqb (il_goalId l) goalId && bool_decide (is_Some (queued_status d (il_inboxItemId l)))) (inbox_links d).

Definition guides (s : GoalStatus) : bool := includes s [G_active; G_ready_to_close].

Definition hasOtherGuidingGoal (row : GoalRow) (d : GoalDb) : bool :=
  existsb (fun g => negb (String.eqb (go_id g) (go_id row)) && guides (go_status g))
    (list_of (fun g => String.eqb (go_workspaceId g) (go_workspaceId row)) (goals d)).

Definition goal_to (s : GoalStatus) (def road : option string) (updatedAt : Z) (completedAt : option Z) (g : GoalRow) : GoalRow :=
  {| go_id := go_id g; go_workspaceId := go_workspaceId g; go_status := s; go_activeDefinition := def; go_activeRoadmap := road;
     go_currentRunId := go_currentRunId g; go_createdAt := go_createdAt g; go_updatedAt := updatedAt; go_completedAt := completedAt |}.

Definition next_revision_number (goalId : string) (kind : GoalRevisionKind) (d : GoalDb) : Z :=
  (fold_right Z.max 0 (map rv_revision (revisions_of goalId kind d)) + 1)%Z.

Definition addRevision (goalId : string) (content : RevisionContent) (sourceArtifactId : option string) (createdBy : string) (now : Z)
    : tx GoalDb GoalRevision :=
  let* goal := requireGoal goalId in
  let* d := gets id in
  do* require (negb (hasPendingInboxWork goalId d)) (Error "workspace Goal cannot be revised while an approved Roadmap TaskRun is queued") in
  let* transition := lift (planWorkspaceGoalRevision goal (content_kind content)) in
  let '(status, def, road) := transition in
  let* revision := revisionRecord goalId (next_revision_number goalId (content_kind content) d) content sourceArtifactId createdBy now in
  do* insertRevision revision in
  do* modify (set_goals (alter (fun g => goal_to status def road now (go_completedAt g) g) goalId)) in
  mret revision.

Definition set_status (s : GoalStatus) (updatedAt : Z) (g : GoalRow) : GoalRow :=
  goal_to s (go_activeDefinition g) (go_activeRoadmap g) updatedAt (go_completedAt g) g.

Definition set_current (runId : option string) (updatedAt : Z) (g : GoalRow) : GoalRow :=
  {| go_id := go_id g; go_workspaceId := go_workspaceId g; go_status := go_status g; go_activeDefinition := go_activeDefinition g;
     go_activeRoadmap := go_activeRoadmap g; go_currentRunId := runId; go_createdAt := go_createdAt g; go_updatedAt := updatedAt;
     go_completedAt := go_completedAt g |}.

Definition refreshReadyStatus (goalId : string) (timestamp : Z) : tx GoalDb unit :=
  let* refreshed := requireGoal goalId in
  let ready := shouldWorkspaceGoalBeReady refreshed in
  let* d := gets id in
  let* raw := present (goals d !! goalId) (TypeError "raw is null") in
  if ready && bool_decide (go_status raw = G_active)
  then modify (set_goals (alter (fun g => set_current None timestamp (set_status G_ready_to_close timestamp g)) goalId))
  else if negb ready && bool_decide (go_status raw = G_ready_to_close)
  then modify (set_goals (alter (set_status G_active timestamp) goalId))
  else mret tt.

Definition goal_decision_text (k : GoalDecisionKind) : string :=
  match k with
  | GD_approve_goal => "approve_goal" | GD_approve_roadmap => "approve_roadmap" | GD_request_change => "request_change"
  | GD_pause => "pause" | GD_resume => "resume" | GD_close => "close" | GD_cancel => "cancel"
  end.

Definition decision_hash (input : GoalDecisionInput) (approvedItemIds : list string) : string :=
  workspaceGoalContentHash (JObj [("goalId", JStr (di_goalId input)); ("targetRevisionId", JStr (di_targetRevisionId input));
    ("targetHash", JStr (di_targetHash input)); ("kind", JStr (goal_decision_text (di_kind input)));
    ("approvedItemIds", texts approvedItemIds); ("reason", JStr (di_reason input)); ("actorId", JStr (di_actorId input))]).

(** [ON CONFLICT DO NOTHING] *)
Definition pending_item (goalId roadmapRevisionId itemId : string) (timestamp : Z) : tx GoalDb unit :=
  modify (set_item_progress (fun m => match m !! (goalId, roadmapRevisionId, itemId) with
    | Some _ => m
    | None => <[(goalId, roadmapRevisionId, itemId) := {| pg_status := GI_pending; pg_runId := None; pg_updatedAt := timestamp; pg_completedAt := None |}]> m
    end)).

Definition decideGoal (input : GoalDecisionInput) (now : Z) : tx GoalDb GoalDecision :=
  let* goal := requireGoal (di_goalId input) in
  let approvedItemIds := sorted_ids (di_approvedItemIds input) in
  let given := trim (default "" (di_requestId input)) in
  let* requestId := if String.eqb given "" then in_store randomUUID else mret given in
  let payloadHash := decision_hash input approvedItemIds in
  let* d := gets id in
  match decisionByRequest (di_goalId input) requestId d with
  | Some existing =>
      do* require (String.eqb (dc_payloadHash existing) payloadHash) (Error "workspace Goal decision idempotency conflict") in
      mret existing
  | None =>
      let* target := lift (revision (di_targetRevisionId input) d) in
      let* target := present target (Error "workspace Goal revision is stale") in
      do* require (negb (negb (bool_decide (di_kind input = GD_resume)) && hasPendingInboxWork (di_goalId input) d))
        (Error "workspace Goal cannot change or end while an approved Roadmap TaskRun is queued") in
      let* t := lift (planWorkspaceGoalDecision goal target input (hasOtherGuidingGoal (gl_row goal) d)) in
      let* id := in_store randomUUID in
      let decision := {| dc_id := id; dc_requestId := requestId; dc_payloadHash := payloadHash; dc_goalId := di_goalId input;
        dc_targetRevisionId := di_targetRevisionId input; dc_targetHash := di_targetHash input; dc_kind := di_kind input;
        dc_approvedItemIds := approvedItemIds; dc_reason := di_reason input; dc_actorId := di_actorId input; dc_createdAt := now |} in
      let* d := gets (fun d => d) in
      do* require (bool_decide (goal_decisions d !! id = None)) (SqliteError "workspace_goal_decisions.id") in
      do* modify (set_goal_decisions (insert id decision)) in
      do* modify (set_goals (alter (fun g => goal_to (gt_status t) (gt_activeDefinition t) (gt_activeRoadmap t) now
        (if gt_complete t then Some now else go_completedAt (gl_row goal)) g) (di_goalId input))) in
      do* (if bool_decide (di_kind input = GD_approve_roadmap)
           then for_each (fun i => pending_item (di_goalId input) (rv_id target) i now) approvedItemIds else mret tt) in
      do* (if includes (di_kind input) [GD_approve_roadmap; GD_resume] then refreshReadyStatus (di_goalId input) now else mret tt) in
      mret decision
  end.

End writing.

(** * goal-roadmap-admission.ts *)

Definition newline_text : string := String.String (Ascii.ascii_of_nat 10) "".

Definition roadmap_router : string := "workspace-goal-roadmap-v1".

Definition roadmap_policy : json :=
  JObj [("mode", JStr "workspace_mutation"); ("sideEffectRisk", JStr "workspace"); ("evidencePolicy", JStr "trusted_check");
        ("reviewPolicy", JStr "full"); ("policyVersion", JStr "workspace-goal-v1"); ("confidence", JInt 1);
        ("reason", JStr "Workspace Goal Roadmap execution mutates durable workspace state and requires trusted verification.")].

(** The content, and the analysis less its execution policy, which is [roadmap_policy]. *)
Definition buildGoalRoadmapAdmission (goalId goalOutcome : string) (item : RoadmapItem) : string * list (string * json) :=
  (join newline_text ["Advance Workspace Goal: " +:+ goalOutcome; "Execute Goal Roadmap item: " +:+ ri_title item;
                      "Expected outcome: " +:+ ri_outcome item; "Verification: " +:+ ri_verification item],
   [("summary", JStr (ri_title item));
    ("objectives", JArr [JObj [("id", JStr ("roadmap-" +:+ ri_id item)); ("summary", JStr (ri_outcome item)); ("timing", JStr "current");
                               ("kind", JStr "change")]]);
    ("intent", JStr "new_task"); ("targetRunId", JNull); ("priority", JInt 700); ("urgency", JStr "normal"); ("relation", JStr "independent");
    ("acceptanceCriteria", texts [ri_outcome item; ri_verification item]); ("scope", JStr (ri_outcome item)); ("nonGoals", JArr []);
    ("confidence", JInt 1);
    ("reason", JStr ("Explicitly launched from Workspace Goal " +:+ goalId +:+ " Roadmap item " +:+ ri_id item +:+ "."));
    ("routerVersion", JStr roadmap_router)]).

(** * Linking TaskRuns *)

Record LinkInput := {
  li_goalId : string; li_goalRevision : Z; li_roadmapRevisionId : option string; li_roadmapItemIds : list string;
  li_criterionKeys : list string; li_mode : GoalLinkMode;
}.

Record LinkSpec := {
  ls_goal : Goal; ls_definition : GoalRevision; ls_goalRevision : Z; ls_roadmapRevisionId : option string; ls_roadmapItemIds : list string;
  ls_criterionKeys : list string; ls_mode : GoalLinkMode;
}.

Definition link_mode_text (m : GoalLinkMode) : string := match m with LM_workspace => "workspace" | LM_roadmap => "roadmap" end.

(** What the contract of a TaskRun says, if it has one. *)
Definition contract_fields (run : RunRow) : option (list (string * json)) := r_contract run ≫= record.

Section linking.
Context `{Platform}.

Definition contract_text (fs : list (string * json)) (member : string) : string :=
  match field member fs with Some v => canonicalJson v | None => "undefined" end.

(** [matchesGoalRoadmapAdmission] of the frozen contract. *)
Definition matchesGoalRoadmapAdmission (fs : list (string * json)) (goalId goalOutcome : string) (item : RoadmapItem) : bool :=
  let '(content, analysis) := buildGoalRoadmapAdmission goalId goalOutcome item in
  let policy := match field "executionPolicy" fs with Some v => if truthy v then v else roadmap_policy | None => roadmap_policy end in
  let actual := members_text [("summary", contract_text fs "summary"); ("objectives", contract_text fs "objectives");
    ("intent", contract_text fs "intent"); ("targetRunId", contract_text fs "parentRunId"); ("priority", "700"); ("urgency", quote "normal");
    ("relation", contract_text fs "relation"); ("acceptanceCriteria", contract_text fs "acceptanceCriteria"); ("scope", contract_text fs "scope");
    ("nonGoals", contract_text fs "nonGoals"); ("confidence", "1"); ("reason", contract_text fs "decisionReason");
    ("routerVersion", contract_text fs "routerVersion"); ("executionPolicy", canonicalJson policy)] in
  opt_str_is (field "sourceInput" fs) content && String.eqb actual (canonicalJson (JObj (analysis ++ [("executionPolicy", roadmap_policy)]))).

Definition resolveLinkSpec (input : LinkInput) (loadedGoal : option Goal) : tx GoalDb LinkSpec :=
  let* goal := match loadedGoal with
    | Some g => if String.eqb (go_id (gl_row g)) (li_goalId input) then mret g else requireGoal (li_goalId input)
    | None => requireGoal (li_goalId input)
    end in
  do* require (guides (gl_status goal)) (Error "workspace Goal must be active before linking a TaskRun") in
  let stale := Error "workspace Goal definition revision is stale" in
  let* definition := present (gl_definition goal) stale in
  do* require (Z.eqb (li_goalRevision input) (rv_revision definition) && definition_active goal) stale in
  let roadmapItemIds := dedup (li_roadmapItemIds input) in
  let criterionKeys := dedup (li_criterionKeys input) in
  do* require (forallb (fun k => includes k (map gc_key (goal_criteria goal))) criterionKeys) (Error "criterion not found") in
  do* match truthy_text (li_roadmapRevisionId input) with
      | Some roadmapId =>
          let* d := gets id in
          let* found := lift (revision roadmapId d) in
          let unknown := Error "Roadmap revision not found" in
          let* roadmap := present found unknown in
          do* require (String.eqb (rv_goalId roadmap) (li_goalId input)) unknown in
          let* content := present (roadmap_of roadmap) unknown in
          do* require (bool_decide (go_activeRoadmap (gl_row goal) = Some (rv_id roadmap))) (Error "Roadmap revision is not active") in
          let* approval := present (latestRoadmapApproval goal (rv_id roadmap)) (Error "Roadmap revision is not approved") in
          do* require (forallb (fun i => includes i (dc_approvedItemIds approval)) roadmapItemIds)
            (Error "TaskRun exceeds the approved Roadmap slice") in
          do* require (negb (bool_decide (li_mode input = LM_roadmap) && bool_decide (roadmapItemIds = [])))
            (Error "Goal Roadmap TaskRun requires at least one Roadmap item") in
          let selected := List.filter (fun it => includes (ri_id it) roadmapItemIds) (rm_items content) in
          do* require (Nat.eqb (length selected) (length roadmapItemIds)) (Error "Roadmap item not found") in
          require (negb (bool_decide (li_mode input = LM_roadmap)) ||
              forallb (fun k => includes k (concat (map ri_criterionKeys selected))) criterionKeys)
            (Error "TaskRun criterion is outside the selected Roadmap item")
      | None => require (bool_decide (roadmapItemIds = [])) (Error "Roadmap items require an active Roadmap revision")
      end in
  mret {| ls_goal := goal; ls_definition := definition; ls_goalRevision := li_goalRevision input;
          ls_roadmapRevisionId := li_roadmapRevisionId input; ls_roadmapItemIds := roadmapItemIds; ls_criterionKeys := criterionKeys;
          ls_mode := li_mode input |}.

(** The statuses of the TaskRuns that were linked to some of the items. *)
Definition prior_runs (goalId roadmapRevisionId : string) (itemIds : list string) (d : GoalDb) : list RunStatus :=
  omap (fun l => if String.eqb (lk_goalId l) goalId && bool_decide (lk_roadmapRevisionId l = Some roadmapRevisionId)
      && bool_decide (lk_mode l = LM_roadmap) && existsb (fun i => includes i itemIds) (lk_roadmapItemIds l)
    then run_status (lk_runId l) d else None) (links_of goalId d).

(** A completed item is not run again, a live one not twice. *)
Definition refuse_prior (statuses : list RunStatus) : result unit :=
  do* check (negb (includes R_completed statuses)) (Error "Goal Roadmap item is already completed") in
  match List.find (fun s => includes s [R_running; R_waiting_input; R_blocked; R_interrupted]) statuses with
  | Some s => if includes s [R_running; R_waiting_input] then Throw (Error "Goal Roadmap item already has a running TaskRun")
              else Throw (Error "Goal Roadmap item has a blocked TaskRun that must be resolved first")
  | None => mret tt
  end.

Definition assertRoadmapRunAvailable (spec : LinkSpec) : tx GoalDb unit :=
  match truthy_text (ls_roadmapRevisionId spec) with
  | None => mret tt
  | Some r => let* d := gets id in lift (refuse_prior (prior_runs (go_id (gl_row (ls_goal spec))) r (ls_roadmapItemIds spec) d))
  end.

(** The snapshot of the goal a TaskRun is executed with. *)
Definition executionSnapshot (spec : LinkSpec) (attachedAt : Z) : result (list (string * json)) :=
  let goal := ls_goal spec in
  let definition := ls_definition spec in
  let* value := expect (definition_of definition) (TypeError "content is not a definition") in
  let roadmap := match truthy_text (ls_roadmapRevisionId spec), gl_roadmap goal with
    | Some i, Some r => if String.eqb (rv_id r) i then Some r else None
    | _, _ => None
    end in
  let approval := r ← roadmap; latestRoadmapApproval goal (rv_id r) in
  let guided := bool_decide (ls_mode spec = LM_roadmap) in
  let keys := if guided then ls_criterionKeys spec else [] in
  let* prompts := map_indexed (fun _ key =>
    let* c := expect (List.find (fun c => String.eqb (gc_key c) key) (wg_criteria value)) (TypeError "criterion is undefined") in
    mret (JObj [("key", JStr key); ("prompt", JStr ("[Workspace Goal criterion " +:+ key +:+ "] " +:+ gc_title c))])) 0 keys in
  mret [("goalId", JStr (go_id (gl_row goal))); ("mode", JStr (link_mode_text (ls_mode spec)));
    ("definitionRevisionId", JStr (rv_id definition)); ("definitionRevision", JInt (rv_revision definition));
    ("definitionHash", JStr (rv_contentHash definition)); ("title", JStr (wg_title value)); ("outcome", JStr (wg_outcome value));
    ("scope", texts (wg_scope value)); ("nonGoals", texts (wg_nonGoals value));
    ("criteria", JArr (map (fun c => JObj [("key", JStr (gc_key c)); ("title", JStr (gc_title c)); ("required", JBool (gc_required c))])
      (wg_criteria value)));
    ("roadmapRevisionId", nullable (rv_id <$> roadmap)); ("roadmapRevision", optional_int (rv_revision <$> roadmap));
    ("roadmapHash", nullable (rv_contentHash <$> roadmap));
    ("approvedRoadmapItemIds", texts (match approval with Some a => dc_approvedItemIds a | None => [] end));
    ("targetRoadmapItemIds", texts (if guided then ls_roadmapItemIds spec else []));
    ("roadmapItems", JArr (match roadmap ≫= roadmap_of with
       | Some r => map item_json (List.filter (fun it => includes (ri_id it) (ls_roadmapItemIds spec)) (rm_items r))
       | None => []
       end));
    ("targetCriterionKeys", texts keys); ("criterionPrompts", JArr prompts); ("attachedAt", JInt attachedAt)].

(** [existing?.member ?? fallback] *)
Definition kept (existing : option (list (string * json))) (member : string) (fallback : json) : json :=
  match existing ≫= field member with
  | None | Some JNull => fallback
  | Some v => v
  end.

Definition kept_strings (existing : option (list (string * json))) (member : string) : list string :=
  match existing with Some fs => omap text_of (array_member member fs) | None => [] end.

(** The contract a TaskRun gets with the snapshot: these members, and no others. *)
Definition mergeGoalSnapshot (run : RunRow) (snapshot : list (string * json)) (snapshotNonGoals : list string) : json :=
  let existing := contract_fields run in
  let goal := JStr (r_goal run) in
  JObj [("sourceInput", kept existing "sourceInput" goal); ("summary", kept existing "summary" goal);
    ("objectives", kept existing "objectives" (JArr [JObj [("id", JStr "objective-1"); ("summary", goal); ("timing", JStr "current"); ("kind", JStr "other")]]));
    ("acceptanceCriteria", texts (dedup (kept_strings existing "acceptanceCriteria"))); ("scope", kept existing "scope" goal);
    ("nonGoals", texts (dedup (kept_strings existing "nonGoals" ++ snapshotNonGoals)));
    ("sourceInboxIds", kept existing "sourceInboxIds" (JArr [])); ("parentRunId", kept existing "parentRunId" JNull);
    ("relation", kept existing "relation" (JStr "independent")); ("intent", kept existing "intent" (JStr "new_task"));
    ("decisionReason", kept existing "decisionReason" (JStr "TaskRun was attached to the active Workspace Goal before execution."));
    ("routerVersion", kept existing "routerVersion" (JStr "workspace-goal-v1")); ("workspaceGoal", JObj snapshot)].

Definition with_contract (contract : json) (updatedAt : Z) (r : RunRow) : RunRow :=
  {| r_id := r_id r; r_sessionId := r_sessionId r; r_requestId := r_requestId r; r_status := r_status r; r_phase := r_phase r;
     r_goal := r_goal r; r_contract := Some contract; r_gateRequired := r_gateRequired r; r_blockedReason := r_blockedReason r;
     r_attempt := r_attempt r; r_lastEventSeq := r_lastEventSeq r; r_createdAt := r_createdAt r; r_updatedAt := updatedAt;
     r_completedAt := r_completedAt r; r_resumedAt := r_resumedAt r |}.

Definition put_progress (goalId roadmapRevisionId itemId : string) (p : ProgressRow) : tx GoalDb unit :=
  modify (set_item_progress (insert (goalId, roadmapRevisionId, itemId) p)).

Definition persistRunLinkAndSnapshot (run : RunRow) (spec : LinkSpec) (now : Z) : tx GoalDb Goal :=
  let goalId := go_id (gl_row (ls_goal spec)) in
  do* require (String.eqb (r_sessionId run) (go_workspaceId (gl_row (ls_goal spec)))) (Error "TaskRun belongs to a different workspace") in
  do* (if bool_decide (ls_mode spec = LM_roadmap) then assertRoadmapRunAvailable spec else mret tt) in
  let* snapshot := lift (executionSnapshot spec now) in
  let* value := present (definition_of (ls_definition spec)) (TypeError "content is not a definition") in
  let* d := gets id in
  do* require (bool_decide (runLinkForRun (r_id run) d = None)) (SqliteError "workspace_goal_run_links.run_id") in
  do* modify (set_run_links (fun l => l ++ [{| lk_goalId := goalId; lk_runId := r_id run; lk_goalRevision := ls_goalRevision spec;
    lk_roadmapRevisionId := ls_roadmapRevisionId spec; lk_roadmapItemIds := ls_roadmapItemIds spec; lk_criterionKeys := ls_criterionKeys spec;
    lk_mode := ls_mode spec; lk_createdAt := now |}])) in
  do* in_store (modify (set_runs (alter (with_contract (mergeGoalSnapshot run snapshot (wg_nonGoals value)) now) (r_id run)))) in
  do* modify (set_goals (alter (fun g => set_current (Some (r_id run)) now
    (set_status (if bool_decide (go_status g = G_ready_to_close) then G_active else go_status g) now g)) goalId)) in
  do* (match truthy_text (ls_roadmapRevisionId spec) with
       | Some r => if bool_decide (ls_mode spec = LM_roadmap)
                   then for_each (fun i => put_progress goalId r i {| pg_status := GI_running; pg_runId := Some (r_id run); pg_updatedAt := now; pg_completedAt := None |})
                          (ls_roadmapItemIds spec)
                   else mret tt
       | None => mret tt
       end) in
  requireGoal goalId.

Definition assertCanonicalRoadmapAdmission (run : RunRow) (spec : LinkSpec) : tx GoalDb unit :=
  let goal := ls_goal spec in
  let incomplete := Error "Goal Roadmap Inbox authorization is incomplete" in
  do* require (bool_decide (ls_mode spec = LM_roadmap)) incomplete in
  let* itemId := present (match ls_roadmapItemIds spec with [i] => Some i | _ => None end) incomplete in
  let* roadmap := present (gl_roadmap goal) incomplete in
  let* content := present (roadmap_of roadmap) incomplete in
  let* value := present (definition_of (ls_definition spec)) incomplete in
  let* item := present (List.find (fun it => String.eqb (ri_id it) itemId) (rm_items content)) (Error "Goal Roadmap item not found") in
  require (match contract_fields run with
      | Some fs => matchesGoalRoadmapAdmission fs (go_id (gl_row goal)) (wg_outcome value) item
      | None => false
      end) (Error "Workspace Goal Roadmap Inbox content no longer matches its durable authorization").

Definition guidingGoal (workspaceId : string) : tx GoalDb (option Goal) :=
  let* d := gets id in
  match list_of (fun g => String.eqb (go_workspaceId g) workspaceId && guides (go_status g) && bool_decide (is_Some (go_activeDefinition g))) (goals d) with
  | [] => mret None
  | [row] => let* g := requireGoal (go_id row) in mret (Some g)
  | _ => throw (Error "Workspace has multiple active Goals; pause all but one before starting a TaskRun")
  end.

Definition pendingInboxLink (inboxItemId : string) (d : GoalDb) : option InboxLink :=
  List.find (fun l => String.eqb (il_inboxItemId l) inboxItemId) (inbox_links d).

Definition routed_by_roadmap (run : RunRow) : bool :=
  match contract_fields run with Some fs => opt_str_is (field "routerVersion" fs) roadmap_router | None => false end.

Definition attachRun (runId : string) (inboxItemId : option string) (now : Z) : tx GoalDb (option Goal) :=
  let* d := gets id in
  match runLinkForRun runId d with
  | Some l => let* g := requireGoal (lk_goalId l) in mret (Some g)
  | None =>
      let* run := present (runs_of d !! runId) (Error "TaskRun not found") in
      match truthy_text inboxItemId ≫= fun i => pendingInboxLink i d with
      | Some pending =>
          let* spec := resolveLinkSpec {| li_goalId := il_goalId pending; li_goalRevision := il_goalRevision pending;
            li_roadmapRevisionId := Some (il_roadmapRevisionId pending); li_roadmapItemIds := il_roadmapItemIds pending;
            li_criterionKeys := il_criterionKeys pending; li_mode := LM_roadmap |} None in
          do* assertCanonicalRoadmapAdmission run spec in
          let* g := persistRunLinkAndSnapshot run spec now in mret (Some g)
      | None =>
          do* require (negb (routed_by_roadmap run)) (Error "Goal Roadmap TaskRun is missing its durable Inbox authorization") in
          let* guiding := guidingGoal (r_sessionId run) in
          match guiding with
          | None => mret None
          | Some g =>
              let* definition := present (gl_definition g) (TypeError "definition is null") in
              let* spec := resolveLinkSpec {| li_goalId := go_id (gl_row g); li_goalRevision := rv_revision definition;
                li_roadmapRevisionId := None; li_roadmapItemIds := []; li_criterionKeys := []; li_mode := LM_workspace |} (Some g) in
              let* g := persistRunLinkAndSnapshot run spec now in mret (Some g)
          end
      end
  end.

Definition ever_mutating (runId : string) (o : OperationRow) : bool := mutating_operation runId (o_attempt o) o.

Definition linkRun (input : LinkInput) (runId : string) (now : Z) : tx GoalDb Goal :=
  let* d := gets id in
  let* run := present (runs_of d !! runId) (Error "TaskRun not found") in
  do* require (negb (existsb (ever_mutating runId) (map snd (map_to_list (operations (go_db d))))))
    (Error "TaskRun cannot be linked to a workspace Goal after mutation has started") in
  do* require (bool_decide (runLinkForRun runId d = None)) (Error "TaskRun is already linked to a workspace Goal") in
  let* spec := resolveLinkSpec input None in
  do* require (String.eqb (r_sessionId run) (go_workspaceId (gl_row (ls_goal spec)))) (Error "TaskRun belongs to a different workspace") in
  persistRunLinkAndSnapshot run spec now.

Definition link_hash (goalId : string) (goalRevision : Z) (roadmapRevisionId : string) (itemIds keys : list string) : string :=
  workspaceGoalContentHash (JObj [("goalId", JStr goalId); ("goalRevision", JInt goalRevision); ("roadmapRevisionId", JStr roadmapRevisionId);
    ("roadmapItemIds", texts itemIds); ("criterionKeys", texts keys)]).

(** The input names its roadmap. *)
Definition linkInbox (input : LinkInput) (roadmapRevisionId inboxItemId : string) (now : Z) : tx GoalDb unit :=
  let goalId := li_goalId input in
  let* d := gets id in
  let* row := present (inbox (go_db d) !! inboxItemId) (Error "Session Inbox item not found") in
  let expected := link_hash goalId (li_goalRevision input) roadmapRevisionId (dedup (li_roadmapItemIds input)) (dedup (li_criterionKeys input)) in
  match pendingInboxLink inboxItemId d with
  | Some l =>
      require (String.eqb (link_hash (il_goalId l) (il_goalRevision l) (il_roadmapRevisionId l) (il_roadmapItemIds l) (il_criterionKeys l)) expected)
        (Error "Workspace Goal Roadmap TaskRun idempotency conflict")
  | None =>
      do* require (String.eqb (x_status row) "queued") (Error "Session Inbox item is not queued") in
      let* spec := resolveLinkSpec {| li_goalId := goalId; li_goalRevision := li_goalRevision input; li_roadmapRevisionId := Some roadmapRevisionId;
        li_roadmapItemIds := li_roadmapItemIds input; li_criterionKeys := li_criterionKeys input; li_mode := LM_roadmap |} None in
      do* require (String.eqb (go_workspaceId (gl_row (ls_goal spec))) (x_sessionId row)) (Error "Session Inbox item belongs to a different workspace") in
      do* require (Nat.eqb (length (ls_roadmapItemIds spec)) 1) (Error "Goal Roadmap Inbox launch requires exactly one Roadmap item") in
      do* lift (refuse_prior (rev (prior_runs goalId roadmapRevisionId (ls_roadmapItemIds spec) d))) in
      do* require (negb (existsb (fun i => match item_progress d !! (goalId, roadmapRevisionId, i) with
            | Some p => bool_decide (pg_status p = GI_completed) | None => false end) (ls_roadmapItemIds spec)))
        (Error "Goal Roadmap item is already completed") in
      do* require (negb (existsb (fun l => existsb (fun i => includes i (ls_roadmapItemIds spec)) (il_roadmapItemIds l)) (queued_links goalId roadmapRevisionId d)))
        (Error "Goal Roadmap item already has a queued TaskRun") in
      modify (set_inbox_links (fun l => l ++ [{| il_inboxItemId := inboxItemId; il_goalId := goalId; il_goalRevision := li_goalRevision input;
        il_roadmapRevisionId := roadmapRevisionId; il_roadmapItemIds := ls_roadmapItemIds spec; il_criterionKeys := ls_criterionKeys spec;
        il_createdAt := now |}]))
  end.

Definition authorizeRunMutation (runId : string) (d : GoalDb) : result (bool * string) :=
  match runLinkForRun runId d with
  | Some l => let* g := getGoal (lk_goalId l) d in mret (authorizeWorkspaceGoalRunMutation g (Some l))
  | None =>
      let pending := existsb (fun l => match inbox (go_db d) !! il_inboxItemId l with
        | Some x => bool_decide (x_runId x = Some runId) | None => false end) (inbox_links d) in
      if match runs_of d !! runId with Some run => routed_by_roadmap run | None => false end || pending
      then mret (false, "Workspace Goal Roadmap TaskRun is missing its durable Run authorization")
      else mret (authorizeWorkspaceGoalRunMutation None None)
  end.
End linking.

(** * Evidence and outcomes *)

(** A step that is skipped when it throws. *)
Definition ignoring {A} (m : tx GoalDb A) : tx GoalDb (option A) := fun d =>
  match m d with Ok (a, d') => Ok (Some a, d') | Throw _ => Ok (None, d) end.

Section outcomes.
Context `{Platform}.

Definition evidence_status_text (s : GoalEvidenceStatus) : string :=
  match s with GE_valid => "valid" | GE_stale => "stale" | GE_contradicted => "contradicted" end.

(** The hash of [{...input, requestId: undefined, sourceDigest, status}]. *)
Definition evidence_hash (input : EvidenceInput) (sourceDigest : string) : string :=
  sha256 (members_text [("goalId", quote (ei_goalId input)); ("requestId", "undefined"); ("goalRevision", pretty (ei_goalRevision input));
    ("criterionKey", quote (ei_criterionKey input)); ("runId", quote (ei_runId input)); ("checkKey", stringify (nullable (ei_checkKey input)));
    ("artifactId", stringify (nullable (ei_artifactId input))); ("operationId", stringify (nullable (ei_operationId input)));
    ("status", quote (evidence_status_text (ei_status input))); ("sourceDigest", quote sourceDigest)]).

Definition evidence_about (goalId : string) (goalRevision : Z) (criterionKey : string) (d : GoalDb) : list EvidenceLink :=
  list_of (fun l => String.eqb (vl_goalId l) goalId && Z.eqb (vl_goalRevision l) goalRevision && String.eqb (vl_criterionKey l) criterionKey)
    (evidence_links d).

Definition linkEvidence (input : EvidenceInput) (now : Z) : tx GoalDb EvidenceLink :=
  let goalId := ei_goalId input in
  let* goal := requireGoal goalId in
  let* d := gets id in
  let* run := present (runs_of d !! ei_runId input) (Error "TaskRun not found") in
  do* lift (validateWorkspaceGoalEvidenceTarget goal input (r_sessionId run)) in
  let* sourceDigest := lift (computeEvidenceDigest (ei_runId input) (ei_checkKey input) (ei_artifactId input) (ei_operationId input) (ei_status input) d) in
  let requestId := truthy_text (trim <$> ei_requestId input) in
  let requestHash := evidence_hash input sourceDigest in
  match requestId ≫= fun r => evidence_requests d !! (goalId, r) with
  | Some request =>
      do* require (String.eqb (eq_payloadHash request) requestHash) (Error "workspace Goal evidence idempotency conflict") in
      present (evidence_links d !! eq_evidenceLinkId request) (TypeError "evidence link is undefined")
  | None =>
      let about := evidence_about goalId (ei_goalRevision input) (ei_criterionKey input) d in
      let timestamp := Z.max now (fold_right Z.max 0 (map vl_updatedAt about) + 1)%Z in
      let existing := List.find (fun l => String.eqb (vl_sourceDigest l) sourceDigest) about in
      let* id := match existing with Some l => mret (vl_id l) | None => in_store randomUUID end in
      let row := {| vl_id := id; vl_goalId := goalId; vl_goalRevision := ei_goalRevision input; vl_criterionKey := ei_criterionKey input;
        vl_runId := ei_runId input; vl_checkKey := ei_checkKey input; vl_artifactId := ei_artifactId input; vl_operationId := ei_operationId input;
        vl_sourceDigest := sourceDigest; vl_status := ei_status input;
        vl_createdAt := match existing with Some l => vl_createdAt l | None => timestamp end; vl_updatedAt := timestamp |} in
      do* modify (set_evidence_links (insert id row)) in
      do* (match requestId with
           | Some r => modify (set_evidence_requests (insert (goalId, r) {| eq_payloadHash := requestHash; eq_evidenceLinkId := id |}))
           | None => mret tt
           end) in
      do* refreshReadyStatus goalId timestamp in
      mret row
  end.

(** [evidenceRef.split(":")] at the first colon; the kind is not empty. *)
Fixpoint split_colon (s : string) : option (string * string) :=
  match s with
  | String.EmptyString => None
  | String.String c s' =>
      if Nat.eqb (Ascii.nat_of_ascii c) 58 then Some ("", s')
      else p ← split_colon s'; Some (String.String c p.1, p.2)
  end.

Definition splitEvidenceRef (ref : string) : string * string :=
  match split_colon ref with
  | Some (kind, id) => if String.eqb kind "" then ("", "") else (kind, id)
  | None => ("", "")
  end.

(** [ORDER BY checkpoint_seq DESC, (evidence first), created_at DESC LIMIT 4] *)
Definition harvest_key (g : GateRow) : Z * Z * Z := (g_checkpointSeq g, if String.eqb (g_gateType g) "evidence" then 1%Z else 0%Z, g_createdAt g).

Definition harvest_before (a b : GateRow) : Prop :=
  let '(s, t, c) := harvest_key a in
  let '(s', t', c') := harvest_key b in
  Is_true ((s' <? s)%Z || (s =? s')%Z && ((t' <? t)%Z || (t =? t')%Z && (c' <=? c)%Z)).
#[export] Instance harvest_before_dec a b : Decision (harvest_before a b).
Proof. unfold harvest_before. destruct (harvest_key a) as [[? ?] ?], (harvest_key b) as [[? ?] ?]. apply _. Defined.

Definition llm_gates (run : RunRow) (d : GoalDb) : list GateRow :=
  take 4 (merge_sort harvest_before (list_of (fun g => String.eqb (g_runId g) (r_id run) && Z.eqb (g_attempt g) (r_attempt run)
    && includes (g_gateType g) ["evidence"; "contract"]%string && String.eqb (g_evaluator g) "llm") (ExecDb.gates (go_db d)))).

Definition judged (prompt : string) (c : CriterionCoverage) : bool :=
  String.eqb (criterion c) prompt && includes (cov_status c) [covered; contradicted].

(** The snapshot of the goal in the contract, with its key and prompt of each criterion. *)
Definition criterion_prompts (snapshot : list (string * json)) : list (string * string) :=
  omap (fun v => fs ← record v; k ← string_member "key" fs; p ← string_member "prompt" fs; Some (k, p)) (array_member "criterionPrompts" snapshot).

Definition harvested (link : GoalRunLink) (key : string) (g : GateRow) (verdict : CriterionCoverage) (ref : string) : option EvidenceInput :=
  let '(kind, id) := splitEvidenceRef ref in
  let named k := if String.eqb kind k then Some id else None in
  if String.eqb id "" || negb (includes kind ["check"; "artifact"; "operation"]%string) then None else
  Some {| ei_goalId := lk_goalId link;
          ei_requestId := Some ("supervisor:" +:+ lk_runId link +:+ ":attempt:" +:+ pretty (g_attempt g) +:+ ":checkpoint:"
            +:+ pretty (g_checkpointSeq g) +:+ ":" +:+ key +:+ ":" +:+ kind +:+ ":" +:+ id);
          ei_goalRevision := lk_goalRevision link; ei_criterionKey := key; ei_runId := lk_runId link; ei_checkKey := named "check";
          ei_artifactId := named "artifact"; ei_operationId := named "operation";
          ei_status := if bool_decide (cov_status verdict = covered) then GE_valid else GE_contradicted |}.

(** What the last review of the Supervisor proposes as evidence for the goal. *)
Definition harvest_inputs (link : GoalRunLink) (run : RunRow) (d : GoalDb) : list EvidenceInput :=
  match (contract_fields run ≫= field "workspaceGoal") ≫= record with
  | None => []
  | Some snapshot =>
      if negb (opt_str_is (field "goalId" snapshot) (lk_goalId link)) then [] else
      match llm_gates run d with
      | [] => []
      | latest :: rest =>
          let current := List.filter (fun g => Z.eqb (g_checkpointSeq g) (g_checkpointSeq latest)) (latest :: rest) in
          concat (map (fun target : string * string =>
            match List.find (fun g => existsb (judged target.2) (g_criterionCoverage g)) current with
            | None => []
            | Some g =>
                match List.find (judged target.2) (g_criterionCoverage g) with
                | None => []
                | Some verdict => omap (harvested link target.1 g verdict) (evidenceRefs verdict)
                end
            end) (criterion_prompts snapshot))
      end
  end.

Definition harvestSupervisorEvidence (link : GoalRunLink) (run : RunRow) (now : Z) : tx GoalDb unit :=
  let* d := gets id in
  for_each (fun input => let* _ := ignoring (linkEvidence input now) in mret tt) (harvest_inputs link run d).

(** The order of the links of two TaskRuns: by time, then by rowid. *)
Definition linked_after (a b : string) (d : GoalDb) : bool :=
  let position runId := list_find (fun l => lk_runId l = runId) (run_links d) in
  match position a, position b with
  | Some (i, x), Some (j, y) => (lk_createdAt y <? lk_createdAt x)%Z || (lk_createdAt x =? lk_createdAt y)%Z && Nat.ltb j i
  | _, _ => false
  end.

Definition outcome_item (link : GoalRunLink) (roadmapRevisionId : string) (status : GoalItemStatus) (now : Z) (itemId : string) : tx GoalDb unit :=
  let* d := gets id in
  let owner := item_progress d !! (lk_goalId link, roadmapRevisionId, itemId) ≫= pg_runId in
  if match owner with Some o => negb (String.eqb o (lk_runId link)) && linked_after o (lk_runId link) d | None => false end then mret tt
  else put_progress (lk_goalId link) roadmapRevisionId itemId
    {| pg_status := status; pg_runId := Some (lk_runId link); pg_updatedAt := now;
       pg_completedAt := if bool_decide (status = GI_completed) then Some now else None |}.

Definition recordRunOutcome (runId : string) (now : Z) : tx GoalDb (option Goal) :=
  let* d := gets id in
  match runLinkForRun runId d, runs_of d !! runId with
  | Some link, Some run =>
      let live := includes (r_status run) [R_running; R_waiting_input] in
      let goalId := lk_goalId link in
      let selected := (goals d !! goalId) ≫= go_currentRunId in
      let status := if bool_decide (r_status run = R_completed) then GI_completed else if live then GI_running else GI_blocked in
      do* (match truthy_text (lk_roadmapRevisionId link) with
           | Some r => if bool_decide (lk_mode link = LM_roadmap) then for_each (outcome_item link r status now) (lk_roadmapItemIds link) else mret tt
           | None => mret tt
           end) in
      let retained := includes (r_status run) [R_running; R_waiting_input; R_blocked; R_interrupted] in
      let preferred := if bool_decide (selected = Some runId) && negb retained then None else selected in
      do* modify (set_goals (alter (set_current (fst <$> findActiveGuidedRun goalId preferred d) now) goalId)) in
      do* (if live then mret tt else harvestSupervisorEvidence link run now) in
      do* refreshReadyStatus goalId now in
      let* g := requireGoal goalId in
      mret (Some g)
  | _, _ => mret None
  end.

(** The TaskRuns whose attachment was interrupted, and then every outcome again. *)
Definition reconcileRunState (now : Z) : tx GoalDb (list string) :=
  let* d := gets id in
  let missing := omap (fun l => x ← inbox (go_db d) !! il_inboxItemId l; r ← x_runId x;
      if bool_decide (runLinkForRun r d = None) then Some (r, il_inboxItemId l) else None) (merge_sort inbox_link_le (inbox_links d)) in
  let* attached := map_tx (fun m : string * string =>
    let* done := ignoring (attachRun m.1 (Some m.2) now) in
    mret (match done with Some (Some _) => [m.1] | _ => [] end)) missing in
  let* d := gets id in
  let linked := map lk_runId (merge_sort link_le (run_links d)) in
  do* for_each (fun r => let* _ := recordRunOutcome r now in mret tt) linked in
  mret (dedup (concat attached ++ linked)).

End outcomes.
