(* ===== verification/GoalStoreFacts.v ===== *)
(** What the store of the goals guarantees: every operation is a sequence of
    steps of a small abstract machine, whose invariants follow. *)
From S2P Require Import Prelude Json TaskPolicy Attempt GateData ExecDb Canonical AttemptRepo RunStore Tools PlanGraph PlanStore AuditAlgebra Evidence CompletionGate Uncertainty Supervisor RunView Progress Approval Goal GoalStore.
Local Open Scope tx_scope.

Create HintDb goal_steps.

(** * Transactions of the tables below *)

Lemma in_gov_ok {A} (m : tx GovDb A) d a d' : in_gov m d = Ok (a, d') -> exists g, m (go_gov d) = Ok (a, g) /\ d' = set_gov g d.
Proof. unfold in_gov. destruct (m (go_gov d)) as [[x g]|]; [|done]. intros Hs. injection Hs as <- <-. eauto. Qed.

Lemma in_store_ok {A} (m : tx Db A) d a d' : in_store m d = Ok (a, d') -> exists g, d' = set_gov g d.
Proof. intros (g & _ & ->)%in_gov_ok. eauto. Qed.

(** * The abstract machine *)

(** What a decision or a revision may change of a goal. *)
Definition goal_key (g : GoalRow) : string * string * GoalStatus * option string * option string :=
  (go_id g, go_workspaceId g, go_status g, go_activeDefinition g, go_activeRoadmap g).

Definition same_keys (d d' : GoalDb) : Prop := forall i, goal_key <$> goals d' !! i = goal_key <$> goals d !! i.

(** The revision is new, and its hash is the one of its content. *)
Definition new_revision `{Platform} (r : GoalRevision) (d d' : GoalDb) : Prop :=
  goal_revisions d !! rv_id r = None
  /\ rv_contentHash r = workspaceGoalContentHash (content_json (rv_content r))
  /\ goal_revisions d' = <[rv_id r := r]> (goal_revisions d).

(** The decision answers to a request that had none. *)
Definition new_decision (x : GoalDecision) (d d' : GoalDb) : Prop :=
  goal_decisions d !! dc_id x = None /\ goal_decisions d' = <[dc_id x := x]> (goal_decisions d)
  /\ forall i y, goal_decisions d !! i = Some y -> dc_goalId y = dc_goalId x -> dc_requestId y <> dc_requestId x.

Inductive goal_step `{Platform} (d d' : GoalDb) : Prop :=
  | gst_quiet : same_keys d d' -> goal_revisions d' = goal_revisions d -> goal_decisions d' = goal_decisions d -> goal_step d d'
  | gst_create (g : GoalRow) (r : GoalRevision) :
      goals d !! go_id g = None -> goals d' = <[go_id g := g]> (goals d) ->
      go_status g = G_draft /\ go_activeDefinition g = None /\ go_activeRoadmap g = None ->
      rv_goalId r = go_id g -> rv_kind r = RK_definition -> rv_revision r = 1%Z -> new_revision r d d' ->
      goal_decisions d' = goal_decisions d -> goal_step d d'
  | gst_revise (g g' : GoalRow) (r : GoalRevision) :
      goals d !! rv_goalId r = Some g -> goals d' = <[rv_goalId r := g']> (goals d) -> new_revision r d d' ->
      rv_revision r = next_revision_number (rv_goalId r) (rv_kind r) d ->
      goal_decisions d' = goal_decisions d -> go_id g' = go_id g /\ go_workspaceId g' = go_workspaceId g -> terminal (go_status g) = false ->
      match rv_kind r with
      | RK_definition => go_status g' = G_draft /\ go_activeDefinition g' = None
      | RK_roadmap => go_status g' = (if bool_decide (go_status g = G_ready_to_close) then G_active else go_status g)
                      /\ go_activeDefinition g' = go_activeDefinition g
      end -> go_activeRoadmap g' = None -> goal_step d d'
  | gst_decide (goal : Goal) (g g' : GoalRow) (target : GoalRevision) (input : GoalDecisionInput) (x : GoalDecision) (t : GoalTransition) :
      getGoal (di_goalId input) d = Ok (Some goal) -> goals d !! di_goalId input = Some g -> goals d' = <[di_goalId input := g']> (goals d) ->
      goal_revisions d !! di_targetRevisionId input = Some target ->
      planWorkspaceGoalDecision goal target input (hasOtherGuidingGoal (gl_row goal) d) = Ok t ->
      goal_key g' = (go_id g, go_workspaceId g, gt_status t, gt_activeDefinition t, gt_activeRoadmap t) ->
      goal_revisions d' = goal_revisions d -> new_decision x d d' ->
      (dc_goalId x = di_goalId input /\ dc_kind x = di_kind input /\ dc_targetRevisionId x = rv_id target
       /\ dc_targetHash x = rv_contentHash target /\ dc_approvedItemIds x = gt_approvedItemIds t) -> goal_step d d'
  | gst_ready (i : string) (g g' : GoalRow) :
      goals d !! i = Some g -> goals d' = <[i := g']> (goals d) ->
      (go_status g = G_active /\ go_status g' = G_ready_to_close /\ (exists goal, getGoal i d = Ok (Some goal) /\ shouldWorkspaceGoalBeReady goal = true)
       \/ go_status g = G_ready_to_close /\ go_status g' = G_active) ->
      goal_key g' = (go_id g, go_workspaceId g, go_status g', go_activeDefinition g, go_activeRoadmap g) ->
      goal_revisions d' = goal_revisions d -> goal_decisions d' = goal_decisions d -> goal_step d d'.

Lemma same_keys_alter f i d d' : (forall g, goal_key (f g) = goal_key g) -> goals d' = alter f i (goals d) -> same_keys d d'.
Proof.
  intros Hf E j. rewrite E. destruct (decide (i = j)) as [<-|]; [|by rewrite lookup_alter_ne].
  rewrite lookup_alter_eq. destruct (goals d !! i); [|done]. cbn. by rewrite Hf.
Qed.

Lemma same_keys_refl d d' : goals d' = goals d -> same_keys d d'.
Proof. intros E i. by rewrite E. Qed.

(** What holds of each table after any number of steps. *)
Record RowsOk (m : gmap string GoalRow) : Prop := {
  gk_goal : forall i g, m !! i = Some g -> go_id g = i;
  gk_draft : forall i g, m !! i = Some g -> go_status g = G_draft -> go_activeDefinition g = None /\ go_activeRoadmap g = None;
  gk_guiding : forall i j g h, m !! i = Some g -> m !! j = Some h -> go_workspaceId g = go_workspaceId h ->
    guides (go_status g) = true -> guides (go_status h) = true -> i = j;
}.

Record RevisionsOk `{Platform} (m : gmap string GoalRevision) : Prop := {
  gk_hash : forall i r, m !! i = Some r -> rv_id r = i /\ rv_contentHash r = workspaceGoalContentHash (content_json (rv_content r));
  gk_numbers : forall i j r r', m !! i = Some r -> m !! j = Some r' ->
    rv_goalId r = rv_goalId r' -> rv_kind r = rv_kind r' -> rv_revision r = rv_revision r' -> i = j;
  gk_gapless : forall i r, m !! i = Some r -> (1 <= rv_revision r)%Z
    /\ forall n, (1 <= n < rv_revision r)%Z -> exists j r', m !! j = Some r' /\ rv_goalId r' = rv_goalId r
         /\ rv_kind r' = rv_kind r /\ rv_revision r' = n;
}.

Definition DecisionsOk (m : gmap string GoalDecision) : Prop :=
  forall i j x y, m !! i = Some x -> m !! j = Some y -> dc_goalId x = dc_goalId y -> dc_requestId x = dc_requestId y -> i = j.

Record GoalsOk `{Platform} (d : GoalDb) : Prop := {
  gk_rows : RowsOk (goals d);
  gk_revisions : RevisionsOk (goal_revisions d);
  gk_owner : forall i r, goal_revisions d !! i = Some r -> is_Some (goals d !! rv_goalId r);
  gk_decisions : DecisionsOk (goal_decisions d);
}.

Section steps.
Context `{Platform}.

(** * What is read *)

Lemma list_of_elem {V} (p : V -> bool) (m : gmap string V) x : x ∈ list_of p m <-> exists i, m !! i = Some x /\ p x = true.
Proof.
  unfold list_of. rewrite filter_elem. split.
  - intros [([i y] & -> & Hy%elem_of_map_to_list)%list_elem_of_fmap Hp]. eauto.
  - intros (i & Hi%elem_of_map_to_list & Hp). split; [|done]. apply list_elem_of_fmap. by exists (i, x).
Qed.

Lemma revisions_of_elem goalId kind d r :
  r ∈ revisions_of goalId kind d <-> exists i, goal_revisions d !! i = Some r /\ rv_goalId r = goalId /\ rv_kind r = kind.
Proof.
  unfold revisions_of. rewrite list_of_elem. split; intros (i & Hi & Hp); exists i.
  - by bool_prop.
  - destruct Hp as [-> ->]. by rewrite String.eqb_refl, bool_decide_true.
Qed.

Lemma next_number_spec goalId kind d :
  (1 <= next_revision_number goalId kind d)%Z /\ (forall r, r ∈ revisions_of goalId kind d -> (rv_revision r < next_revision_number goalId kind d)%Z)
  /\ (next_revision_number goalId kind d = 1%Z \/ exists r, r ∈ revisions_of goalId kind d /\ next_revision_number goalId kind d = (rv_revision r + 1)%Z).
Proof.
  unfold next_revision_number. generalize (revisions_of goalId kind d). intros l. induction l as [|x l (H1 & H2 & H3)]; cbn [map fold_right].
  { split_and!; [lia|by intros r ?%elem_of_nil|by left]. }
  split_and!; [lia|intros r [->|Hr]%elem_of_cons; [lia|specialize (H2 r Hr); lia]|].
  destruct (Z_le_gt_dec (fold_right Z.max 0%Z (map rv_revision l)) (rv_revision x)) as [Hle|Hgt].
  - right. exists x. split; [left|lia].
  - rewrite Z.max_r by lia. destruct H3 as [H3|(r & Hr & E)]; [by left|]. right. exists r. split; [by right|done].
Qed.

Lemma hasOther_false row d i g :
  hasOtherGuidingGoal row d = false -> goals d !! i = Some g -> go_workspaceId g = go_workspaceId row -> go_id g <> go_id row ->
  guides (go_status g) = false.
Proof.
  unfold hasOtherGuidingGoal. intros Ho Hg Hw Hne. destruct (guides (go_status g)) eqn:Eg; [|done]. exfalso.
  enough (existsb (fun g0 => negb (String.eqb (go_id g0) (go_id row)) && guides (go_status g0))
    (list_of (fun g0 => String.eqb (go_workspaceId g0) (go_workspaceId row)) (goals d)) = true) as Ht by (rewrite Ht in Ho; discriminate).
  apply existsb_exists. exists g. split; [|by rewrite Eg, (proj2 (String.eqb_neq _ _) Hne)].
  apply list_elem_of_In, list_of_elem. exists i. by rewrite Hw, String.eqb_refl.
Qed.

Definition gov_bumped (g : GovDb) : GovDb :=
  {| gd_plans := {| pd_db := bump_uuid (gd_db g); plan_items := plan_items (gd_plans g); plan_revisions := plan_revisions (gd_plans g) |};
     run_checks := run_checks g; artifacts := artifacts g; evidence_rows := evidence_rows g; manifests := manifests g |}.

Lemma getGoal_row i d goal : getGoal i d = Ok (Some goal) -> exists g, goals d !! i = Some g
  /\ go_id (gl_row goal) = go_id g /\ go_workspaceId (gl_row goal) = go_workspaceId g
  /\ go_activeDefinition (gl_row goal) = go_activeDefinition g /\ go_activeRoadmap (gl_row goal) = go_activeRoadmap g
  /\ (go_status (gl_row goal) = go_status g \/ go_status g = G_ready_to_close /\ go_status (gl_row goal) = G_active).
Proof.
  unfold getGoal. destruct (goals d !! i) as [g|]; [|by intros [=]]. intros Hs. exists g. split; [done|].
  apply result_bind_ok in Hs as (def & _ & Hs). apply result_bind_ok in Hs as (road & _ & Hs). injection Hs as <-. cbn.
  split_and!; try done. destruct (bool_decide_reflect (go_status g = G_ready_to_close)) as [Er|]; [|by left]. cbn.
  destruct (_ || _); [by right|by left].
Qed.

Lemma getGoal_ok i d g : GoalsOk d -> goals d !! i = Some g -> exists goal, getGoal i d = Ok (Some goal).
Proof.
  intros Hok Hg. unfold getGoal. rewrite Hg. cbv iota beta.
  assert (forall o, (exists j, goal_revisions d !! j = o) \/ o = None -> exists v, optional_revision o = Ok v) as Hrev.
  { intros [r|] Ho; [|by eexists]. destruct Ho as [[j Hj]|]; [|done]. apply (gk_hash _ (gk_revisions d Hok)) in Hj as [_ Hh].
    exists (Some r). cbn. unfold checked_revision. by rewrite Hh, String.eqb_refl. }
  assert (forall k, exists v, latestRevision i k d = Ok v) as Hlatest.
  { intros k. unfold latestRevision. apply Hrev. destruct (last _) as [r|] eqn:El; [|by right]. left.
    apply last_Some_elem_of in El. rewrite merge_sort_Permutation in El. apply revisions_of_elem in El as (j & Hj & _). eauto. }
  assert (forall j, exists v, revision j d = Ok v) as Hid by (intros j; apply Hrev; eauto).
  destruct (truthy_text (go_activeDefinition g)) as [a|], (truthy_text (go_activeRoadmap g)) as [b|];
    repeat match goal with |- context [mbind _ (revision ?x d)] => destruct (Hid x) as [? ->]
                         | |- context [mbind _ (latestRevision i ?k d)] => destruct (Hlatest k) as [? ->] end; eexists; reflexivity.
Qed.

Lemma requireGoal_ok i d goal d' : requireGoal i d = Ok (goal, d') -> getGoal i d = Ok (Some goal) /\ d' = d.
Proof. unfold requireGoal. intros Hs. tx_inv Hs. by subst. Qed.

Lemma goal_quiet_refl d : goal_step d d.
Proof. apply gst_quiet; [by apply same_keys_refl|done|done]. Qed.

Lemma store_quiet {A} (m : tx Db A) d a d' : in_store m d = Ok (a, d') -> goal_step d d'.
Proof. intros [g ->]%in_store_ok. apply gst_quiet; [by apply same_keys_refl|done|done]. Qed.

(** A new identifier changes nothing that is read of a goal. *)
Definition bumped (d : GoalDb) : GoalDb := set_gov (gov_bumped (go_gov d)) d.

Lemma uuid_run v d d' : in_store randomUUID d = Ok (v, d') -> d' = bumped d.
Proof. unfold in_store, in_gov, in_exec, in_plans, in_db, randomUUID. intros Hs. by injection Hs as _ <-. Qed.

Lemma getGoal_bumped i d : getGoal i (bumped d) = getGoal i d.
Proof. by destruct d as [[[[] ? ?] ? ? ? ?] ? ? ? ? ? ? ? ? ?]. Qed.

Lemma bumped_quiet d : goal_step d (bumped d).
Proof. apply gst_quiet; [by apply same_keys_refl|done|done]. Qed.

(** * The invariant *)

Lemma result_mret_ok {A} (x a : A) : (mret x : result A) = Ok a -> a = x.
Proof. by intros [=]. Qed.

(** What a decision leaves: a draft has nothing active, and a goal guides its
    workspace only if it did before or nothing else does. *)
Lemma plan_ok goal target input other t :
  planWorkspaceGoalDecision goal target input other = Ok t ->
  (gt_status t = G_draft -> gt_activeDefinition t = None /\ gt_activeRoadmap t = None)
  /\ (guides (gt_status t) = true -> guides (gl_status goal) = true \/ other = false
       \/ gl_status goal = G_draft /\ go_activeRoadmap (gl_row goal) <> None).
Proof.
  unfold planWorkspaceGoalDecision, gl_status. cbv zeta. intros Hs.
  repeat (let Hc := fresh "Hc" in apply result_bind_ok in Hs as (? & Hc & Hs)). apply result_mret_ok in Hs as ->.
  clear Hc11. repeat match goal with Hx : check _ _ = Ok _ |- _ => apply check_ok in Hx end.
  unfold assertDecisionAllowed in Hc. tx_inv Hc.
  destruct (di_kind input), (rv_kind target), (go_status (gl_row goal)); cbn [gt_status gt_activeDefinition gt_activeRoadmap];
    try (vm_compute in H0, H1, H2, H3, H4, Hc; discriminate);
    (split; [done|]); intros Hg; try (vm_compute in Hg; discriminate); try (by left);
    try (right; left; destruct other; [vm_compute in Hc10; discriminate|done]); right; right; split; [done|].
  all: change (bool_decide (go_activeRoadmap (gl_row goal) = Some (rv_id target)) = true) in Hc9; apply bool_decide_eq_true in Hc9; congruence.
Qed.
Lemma rows_insert m i g : RowsOk m -> go_id g = i -> (go_status g = G_draft -> go_activeDefinition g = None /\ go_activeRoadmap g = None) ->
  (forall j h, j <> i -> m !! j = Some h -> go_workspaceId h = go_workspaceId g -> guides (go_status h) = true -> guides (go_status g) = false) ->
  RowsOk (<[i := g]> m).
Proof.
  intros [H1 H2 H3] Hi Hdraft Hg. split.
  - intros j h [[<- <-]|[_ Hj]]%lookup_insert_Some; eauto.
  - intros j h [[<- <-]|[_ Hj]]%lookup_insert_Some; eauto.
  - intros j k g1 g2 [[<- <-]|[Hj J1]]%lookup_insert_Some [[<- <-]|[Hk J2]]%lookup_insert_Some Hw G1 G2; [done| | |eauto].
    + rewrite (Hg k g2) in G1; [done|by apply not_eq_sym|done..].
    + rewrite (Hg j g1) in G2; [done|by apply not_eq_sym|done..].
Qed.

Lemma revisions_insert m r : RevisionsOk m -> m !! rv_id r = None ->
  rv_contentHash r = workspaceGoalContentHash (content_json (rv_content r)) ->
  (1 <= rv_revision r)%Z ->
  (forall j r', m !! j = Some r' -> rv_goalId r' = rv_goalId r -> rv_kind r' = rv_kind r -> (rv_revision r' < rv_revision r)%Z) ->
  (rv_revision r = 1%Z \/ exists j r', m !! j = Some r' /\ rv_goalId r' = rv_goalId r /\ rv_kind r' = rv_kind r /\ rv_revision r = (rv_revision r' + 1)%Z) ->
  RevisionsOk (<[rv_id r := r]> m).
Proof.
  intros [H1 H2 H3] Hnew Hh Hone Hlt Hprev.
  assert (forall j r', m !! j = Some r' -> <[rv_id r := r]> m !! j = Some r') as Hkeep.
  { intros j r' Hj. by rewrite lookup_insert_ne by congruence. }
  split.
  - intros j r' [[<- <-]|[_ Hj]]%lookup_insert_Some; eauto.
  - intros j k r1 r2 [[<- <-]|[Hj J1]]%lookup_insert_Some [[<- <-]|[Hk J2]]%lookup_insert_Some Eg Ek En; [done| | |eauto].
    + specialize (Hlt k r2 J2 (eq_sym Eg) (eq_sym Ek)). lia.
    + specialize (Hlt j r1 J1 Eg Ek). lia.
  - intros j r' [[<- <-]|[_ Hj]]%lookup_insert_Some.
    + split; [done|]. intros n Hn. destruct Hprev as [|(j & r' & Hj & Eg & Ek & En)]; [lia|].
      destruct (decide (n = rv_revision r')) as [->|]; [by exists j, r'; eauto|].
      destruct (H3 j r' Hj) as [_ Hgap]. destruct (Hgap n) as (k & r2 & Hk & E1 & E2 & E3); [lia|].
      exists k, r2. split_and!; [by apply Hkeep|congruence..].
    + destruct (H3 j r' Hj) as [Ho Hgap]. split; [done|]. intros n Hn. destruct (Hgap n Hn) as (k & r2 & Hk & E). eauto.
Qed.

Lemma decisions_insert x d d' : DecisionsOk (goal_decisions d) -> new_decision x d d' -> DecisionsOk (goal_decisions d').
Proof.
  intros Hd (Hn & -> & Hx) i j y z [[<- <-]|[Hi Hy]]%lookup_insert_Some [[<- <-]|[Hj Hz]]%lookup_insert_Some Eg Er; [done| | |eauto].
  - exfalso. by apply (Hx j z).
  - exfalso. by apply (Hx i y).
Qed.
Lemma same_keys_lookup d d' i g' : same_keys d d' -> goals d' !! i = Some g' -> exists g, goals d !! i = Some g /\ goal_key g = goal_key g'.
Proof.
  intros Hk Hg. specialize (Hk i). rewrite Hg in Hk. destruct (goals d !! i) as [g|]; [|done]. injection Hk as Hk. exists g. split; [done|].
  unfold goal_key. congruence.
Qed.

Lemma rows_quiet d d' : same_keys d d' -> RowsOk (goals d) -> RowsOk (goals d').
Proof.
  intros Hk [H1 H2 H3]. split.
  - intros i g (g0 & Hg & E)%(same_keys_lookup d d' i g Hk). injection E as <- _. by eapply H1.
  - intros i g (g0 & Hg & E)%(same_keys_lookup d d' i g Hk). injection E as _ _ <- <- <-. by eapply H2.
  - intros i j g h (g0 & Hg & E)%(same_keys_lookup d d' i g Hk) (h0 & Hh & E')%(same_keys_lookup d d' j h Hk).
    injection E as _ <- <- _ _. injection E' as _ <- <- _ _. by eapply H3.
Qed.

Lemma owner_quiet d d' : (forall i, is_Some (goals d !! i) -> is_Some (goals d' !! i)) -> goal_revisions d' = goal_revisions d ->
  (forall i r, goal_revisions d !! i = Some r -> is_Some (goals d !! rv_goalId r)) ->
  forall i r, goal_revisions d' !! i = Some r -> is_Some (goals d' !! rv_goalId r).
Proof. intros Hg -> Ho i r Hr. eauto. Qed.

Lemma insert_some {A} (m : gmap string A) i x j : is_Some (m !! j) -> is_Some (<[i := x]> m !! j).
Proof. intros Hj. destruct (decide (i = j)) as [<-|]; [by rewrite lookup_insert_eq|by rewrite lookup_insert_ne]. Qed.

Lemma owner_new r d d' : (forall i, is_Some (goals d !! i) -> is_Some (goals d' !! i)) -> is_Some (goals d' !! rv_goalId r) ->
  goal_revisions d' = <[rv_id r := r]> (goal_revisions d) -> (forall i r, goal_revisions d !! i = Some r -> is_Some (goals d !! rv_goalId r)) ->
  forall i r, goal_revisions d' !! i = Some r -> is_Some (goals d' !! rv_goalId r).
Proof. intros Hg Hr -> Ho i r' [[<- <-]|[_ Hi]]%lookup_insert_Some; [done|eauto]. Qed.

(** A goal that takes the place of a guiding one leaves the others alone. *)
Lemma rows_replace m i g g' : RowsOk m -> m !! i = Some g -> go_id g' = go_id g -> go_workspaceId g' = go_workspaceId g ->
  (go_status g' = G_draft -> go_activeDefinition g' = None /\ go_activeRoadmap g' = None) ->
  (guides (go_status g') = true -> guides (go_status g) = true \/
     forall j h, m !! j = Some h -> go_workspaceId h = go_workspaceId g -> go_id h <> go_id g -> guides (go_status h) = false) ->
  RowsOk (<[i := g']> m).
Proof.
  intros Hm Hg Hi Hw Hd Hs. pose proof (gk_goal m Hm) as Hid. apply rows_insert; [done| |done|].
  - rewrite Hi. by eapply Hid.
  - intros j h Hne Hj Hwj Hh. destruct (guides (go_status g')) eqn:Eg; [|done]. exfalso. destruct (Hs eq_refl) as [Hs'|Hs'].
    + apply Hne. apply (gk_guiding m Hm j i h g); [done..|congruence|done|done].
    + rewrite (Hs' j h) in Hh; [done|done|congruence|]. rewrite (Hid j h Hj), (Hid i g Hg). done.
Qed.

Lemma guides_raw i d goal g : getGoal i d = Ok (Some goal) -> goals d !! i = Some g ->
  guides (gl_status goal) = guides (go_status g) /\ (gl_status goal = G_draft <-> go_status g = G_draft).
Proof.
  intros (g0 & Hg & _ & _ & _ & _ & Es)%getGoal_row Hg'. simplify_eq. unfold gl_status.
  destruct Es as [->|[-> ->]]; [done|]. split; [by vm_compute|done].
Qed.

Lemma goal_step_ok d d' : goal_step d d' -> GoalsOk d -> GoalsOk d'.
Proof.
  intros Hstep [Hrows Hrevs Hown Hdec].
  destruct Hstep as [Hk Er Ed|g r Hnew Eg (Hs & Hd & Hr) Eo Ek En (Hid & Hh & Er) Ed|g g' r Hg Eg (Hid & Hh & Er) En Ed [Hi Hw] Ht Hs Hroad
    |goal g g' target input x t Hget Hg Eg Htarget Hplan Hkey Er Hx _|i g g' Hg Eg Hs Hkey Er Ed].
  - split; [by eapply rows_quiet|by rewrite Er| |by rewrite Ed]. apply (owner_quiet d); [|done..]. intros i. specialize (Hk i).
    destruct (goals d !! i), (goals d' !! i); try discriminate; intros; eauto; by destruct H0.
  - split; [| | |by rewrite Ed].
    + rewrite Eg. apply rows_insert; [done..|]. intros. by rewrite Hs.
    + rewrite Er. apply revisions_insert; [done..|lia| |by left]. intros j r' Hj E _. apply Hown in Hj. rewrite E, Eo, Hnew in Hj. by destruct Hj.
    + apply (owner_new r d); [|rewrite Eo, Eg, lookup_insert_eq; eauto|done..]. intros i. rewrite Eg. apply insert_some.
  - split; [| | |by rewrite Ed].
    + rewrite Eg. apply (rows_replace _ _ g); [done..| |]; destruct (rv_kind r), Hs as [Es Ea].
      * by rewrite Ea, Hroad.
      * rewrite Ea, Hroad, Es. case_bool_decide; [done|]. intros Hdr. split; [|done]. by apply (gk_draft _ Hrows _ g Hg).
      * by rewrite Es.
      * rewrite Es. case_bool_decide as Hrc; [rewrite Hrc|]; by left.
    + destruct (next_number_spec (rv_goalId r) (rv_kind r) d) as (N1 & N2 & N3). rewrite <- En in N1, N2, N3.
      rewrite Er. apply revisions_insert; [done..| |].
      * intros j r' Hj E1 E2. apply N2, revisions_of_elem. eauto.
      * destruct N3 as [|(r' & (j & Hj & E1 & E2)%revisions_of_elem & E3)]; [by left|right]. eauto 6.
    + apply (owner_new r d); [|rewrite Eg, lookup_insert_eq; eauto|done..]. intros i. rewrite Eg. apply insert_some.
  - destruct (guides_raw _ _ _ _ Hget Hg) as [Egu Edr]. apply plan_ok in Hplan as [Pd Pg]. injection Hkey as K1 K2 K3 K4 K5.
    apply getGoal_row in Hget as (g0 & Hg0 & Q1 & Q2 & Q3 & Q4 & _). rewrite Hg in Hg0. injection Hg0 as <-.
    split; [|by rewrite Er| |by eapply decisions_insert].
    + rewrite Eg. apply (rows_replace _ _ g); [done..| |].
      * by rewrite K3, K4, K5.
      * rewrite K3. intros Hgt. destruct (Pg Hgt) as [P|[P|[P1 P2]]]; [left; congruence| |].
        -- right. intros j h Hj E1 E2. eapply hasOther_false; [exact P|exact Hj|congruence|congruence].
        -- exfalso. apply P2. rewrite Q4. by apply (gk_draft _ Hrows _ g Hg), Edr.
    + apply (owner_quiet d); [|done..]. intros i. rewrite Eg. apply insert_some.
  - injection Hkey as K1 K2 K4 K5.
    split; [|by rewrite Er| |by rewrite Ed].
    + rewrite Eg. apply (rows_replace _ _ g); [done..| |].
      * destruct Hs as [(_ & -> & _)|[_ ->]]; done.
      * destruct Hs as [(-> & _ & _)|[-> _]]; by left.
    + apply (owner_quiet d); [|done..]. intros j. rewrite Eg. apply insert_some.
Qed.
(** * Every operation is a sequence of steps *)

Definition steps {A} (m : tx GoalDb A) : Prop := forall d a d', m d = Ok (a, d') -> rtc goal_step d d'.

Lemma steps_bind {A B} (m : tx GoalDb A) (f : A -> tx GoalDb B) : steps m -> (forall a, steps (f a)) -> steps (mbind f m).
Proof. intros Hm Hf d b d' (a & t & H1 & H2)%tx_bind_ok. etrans; [by eapply Hm|by eapply Hf]. Qed.

Lemma steps_read {A} (m : tx GoalDb A) : (forall d a d', m d = Ok (a, d') -> d' = d) -> steps m.
Proof. intros Hm d a d' ->%Hm. done. Qed.

Lemma steps_ret {A} (a : A) : steps (mret a).
Proof. apply steps_read. by intros d b d' [_ ->]%mret_ok. Qed.

Lemma steps_throw {A} e : @steps A (throw e).
Proof. by intros d a d'. Qed.

Lemma steps_require b e : steps (require b e).
Proof. apply steps_read. by intros d u d' [_ ->]%require_ok. Qed.

Lemma steps_present {A} (o : option A) e : steps (present o e).
Proof. apply steps_read. by intros d u d' [_ ->]%present_ok. Qed.

Lemma steps_lift {A} (r : result A) : steps (lift r).
Proof. apply steps_read. by intros d u d' [_ ->]%lift_ok. Qed.

Lemma steps_gets {A} (f : GoalDb -> A) : steps (gets f).
Proof. apply steps_read. by intros d u d' [_ ->]%gets_ok. Qed.

Lemma steps_quiet (f : GoalDb -> GoalDb) : (forall d, goals (f d) = goals d /\ goal_revisions (f d) = goal_revisions d
  /\ goal_decisions (f d) = goal_decisions d) -> steps (modify f).
Proof. intros Hf d u d' ->%modify_ok. destruct (Hf d) as (E1 & E2 & E3). apply rtc_once, gst_quiet; [by apply same_keys_refl|done..]. Qed.

Lemma steps_alter f i : (forall g, goal_key (f g) = goal_key g) -> steps (modify (set_goals (alter f i))).
Proof. intros Hf d u d' ->%modify_ok. apply rtc_once, gst_quiet; [by eapply same_keys_alter|done..]. Qed.

Lemma steps_in_store {A} (m : tx Db A) : steps (in_store m).
Proof. intros d a d' Hs%store_quiet. by apply rtc_once. Qed.

Lemma steps_for_each {A} (f : A -> tx GoalDb unit) l : (forall x, steps (f x)) -> steps (for_each f l).
Proof. intros Hf d u d' Hs. eapply for_each_ind in Hs; [exact Hs| |done]. intros x t t' _ Ht Hx. etrans; [exact Ht|by eapply Hf]. Qed.

Lemma steps_map {A B} (f : A -> tx GoalDb B) l : (forall x, steps (f x)) -> steps (map_tx f l).
Proof. intros Hf d u d' Hs. eapply map_tx_ind in Hs; [exact Hs| |done]. intros x t t' y _ Ht Hx. etrans; [exact Ht|by eapply Hf]. Qed.

Lemma steps_ignoring {A} (m : tx GoalDb A) : steps m -> steps (ignoring m).
Proof. unfold ignoring. intros Hm d a d' Hs. destruct (m d) as [[x e]|] eqn:E; injection Hs as _ <-; [by eapply Hm|done]. Qed.

Lemma steps_requireGoal i : steps (requireGoal i).
Proof. apply steps_read. by intros d g d' [_ ->]%requireGoal_ok. Qed.

Hint Resolve steps_ret steps_throw steps_require steps_present steps_lift steps_gets steps_in_store steps_for_each steps_map
  steps_ignoring steps_requireGoal : goal_steps.
Hint Extern 1 (steps (modify _)) => apply steps_quiet; intros; split_and!; reflexivity : goal_steps.
Hint Extern 1 (steps (modify (set_goals _))) => apply steps_alter; intros; reflexivity : goal_steps.

(** Follows the statements of an operation. *)
Ltac go_steps := repeat first
  [ progress intros
  | match goal with |- steps (match ?o with _ => _ end) => destruct o end
  | match goal with |- steps (let _ := ?v in _) => cbv zeta end
  | solve [auto with goal_steps]
  | apply steps_bind
  | apply steps_ignoring | apply steps_for_each | apply steps_map ].

(** The rest of an operation that started. *)
Ltac rest_steps Hs :=
  let Hst := fresh "Hst" in
  match type of Hs with ?m _ = _ => assert (steps m) as Hst by go_steps; by eapply Hst end.

Lemma refresh_steps i now : steps (refreshReadyStatus i now).
Proof.
  unfold refreshReadyStatus. intros d u d' Hs. apply tx_bind_ok in Hs as (goal & d0 & [Hget ->]%requireGoal_ok & Hs). cbv zeta in Hs.
  apply tx_bind_ok in Hs as (? & d0 & [-> ->]%gets_id_ok & Hs). apply tx_bind_ok in Hs as (g & d0 & [Hg ->]%present_ok & Hs).
  destruct (shouldWorkspaceGoalBeReady goal) eqn:Er, (bool_decide_reflect (go_status g = G_active)) as [Ea|Ea]; cbn in Hs;
    [|apply mret_ok in Hs as [_ ->]; done|..].
  - apply modify_ok in Hs as ->. apply rtc_once. eapply (gst_ready _ _ i g); [done|by apply alter_as_insert|left; eauto|done..].
  - rewrite Ea in Hs. cbn in Hs. apply mret_ok in Hs as [_ ->]. done.
  - destruct (bool_decide_reflect (go_status g = G_ready_to_close)) as [Eb|]; [|by apply mret_ok in Hs as [_ ->]].
    apply modify_ok in Hs as ->. apply rtc_once. eapply (gst_ready _ _ i g); [done|by apply alter_as_insert|by right|done..].
Qed.
Lemma reopen_steps runId now i :
  steps (modify (set_goals (alter (fun g => set_current runId now
    (set_status (if bool_decide (go_status g = G_ready_to_close) then G_active else go_status g) now g)) i))).
Proof.
  intros d u d' ->%modify_ok. destruct (goals d !! i) as [g|] eqn:Hg.
  - apply rtc_once. destruct (bool_decide_reflect (go_status g = G_ready_to_close)) as [Er|Er].
    + eapply (gst_ready _ _ i g); [done|by apply alter_as_insert| |..]; [right; split; [done|]| |done..]; cbn; by rewrite Er.
    + apply gst_quiet; [|done..]. intros j. cbn. destruct (decide (i = j)) as [<-|]; [|by rewrite lookup_alter_ne].
      rewrite lookup_alter_eq, Hg. cbn. by rewrite bool_decide_false.
  - apply rtc_once, gst_quiet; [|done..]. intros j. cbn. destruct (decide (i = j)) as [<-|]; [|by rewrite lookup_alter_ne].
    by rewrite lookup_alter_eq, Hg.
Qed.
Hint Resolve refresh_steps reopen_steps : goal_steps.

(** ** TaskRuns and evidence *)

Lemma put_progress_steps a b c p : steps (put_progress a b c p).
Proof. unfold put_progress. go_steps. Qed.
Hint Resolve put_progress_steps : goal_steps.

Lemma resolveLinkSpec_steps input g : steps (resolveLinkSpec input g).
Proof. unfold resolveLinkSpec. go_steps. Qed.

Lemma roadmapAvailable_steps spec : steps (assertRoadmapRunAvailable spec).
Proof. unfold assertRoadmapRunAvailable. go_steps. Qed.
Hint Resolve resolveLinkSpec_steps roadmapAvailable_steps : goal_steps.

Lemma persist_steps run spec now : steps (persistRunLinkAndSnapshot run spec now).
Proof. unfold persistRunLinkAndSnapshot. go_steps. Qed.

Lemma canonical_steps run spec : steps (assertCanonicalRoadmapAdmission run spec).
Proof. unfold assertCanonicalRoadmapAdmission. go_steps. Qed.

Lemma guidingGoal_steps w : steps (guidingGoal w).
Proof. unfold guidingGoal. go_steps. Qed.
Hint Resolve persist_steps canonical_steps guidingGoal_steps : goal_steps.

Lemma attachRun_steps runId inboxItemId now : steps (attachRun runId inboxItemId now).
Proof. unfold attachRun. go_steps. Qed.

Lemma linkRun_steps input runId now : steps (linkRun input runId now).
Proof. unfold linkRun. go_steps. Qed.

Lemma linkInbox_steps input r i now : steps (linkInbox input r i now).
Proof. unfold linkInbox. go_steps. Qed.

Lemma linkEvidence_steps input now : steps (linkEvidence input now).
Proof. unfold linkEvidence. go_steps. Qed.
Hint Resolve attachRun_steps linkEvidence_steps : goal_steps.

Lemma recordRunOutcome_steps runId now : steps (recordRunOutcome runId now).
Proof. unfold recordRunOutcome, outcome_item, harvestSupervisorEvidence. go_steps. Qed.
Hint Resolve recordRunOutcome_steps : goal_steps.

Lemma reconcile_steps now : steps (reconcileRunState now).
Proof. unfold reconcileRunState. go_steps. Qed.
(** ** Goals, revisions and decisions *)

Lemma bumped_steps d : rtc goal_step d (bumped d).
Proof. apply rtc_once, bumped_quiet. Qed.

Lemma insertRevision_ok r d u d' : insertRevision r d = Ok (u, d') ->
  goal_revisions d !! rv_id r = None /\ d' = set_goal_revisions (insert (rv_id r) r) d.
Proof. unfold insertRevision. intros Hs. tx_inv Hs. by bool_prop. Qed.

Lemma revisionRecord_ok goalId n content source by_ now d r d' : revisionRecord goalId n content source by_ now d = Ok (r, d') ->
  d' = bumped d /\ rv_goalId r = goalId /\ rv_revision r = n /\ rv_content r = content
  /\ rv_contentHash r = workspaceGoalContentHash (content_json (rv_content r)).
Proof. unfold revisionRecord. intros (v & d1 & ->%uuid_run & [-> ->]%mret_ok)%tx_bind_ok. done. Qed.

Lemma createGoal_steps w definition by_ key now : steps (createGoal w definition by_ key now).
Proof.
  unfold createGoal. cbv zeta. intros d g d' Hs. apply tx_bind_ok in Hs as (? & d0 & [-> ->]%gets_id_ok & Hs).
  destruct (truthy_text key ≫= fun k => goal_requests d !! k) as [q|].
  { rest_steps Hs. }
  apply tx_bind_ok in Hs as (goalId & d0 & ->%uuid_run & Hs).
  apply tx_bind_ok in Hs as (r & d0 & (-> & R1 & R2 & R3 & R4)%revisionRecord_ok & Hs).
  apply tx_bind_ok in Hs as (? & d0 & [-> ->]%gets_id_ok & Hs). apply tx_bind_ok in Hs as (? & d0 & [_ ->]%require_ok & Hs).
  apply tx_bind_ok in Hs as (? & d0 & [Hnew%bool_decide_eq_true ->]%require_ok & Hs).
  apply tx_bind_ok in Hs as (? & d1 & ->%modify_ok & Hs). apply tx_bind_ok in Hs as (? & d1 & [Hid ->]%insertRevision_ok & Hs).
  etrans; [apply bumped_steps|]. etrans; [apply bumped_steps|]. eapply rtc_l; [|rest_steps Hs].
  eapply (gst_create _ _ {| go_id := goalId; go_workspaceId := w; go_status := G_draft; go_activeDefinition := None;
    go_activeRoadmap := None; go_currentRunId := None; go_createdAt := now; go_updatedAt := now; go_completedAt := None |} r);
    [exact Hnew|reflexivity|done|exact R1|by unfold rv_kind; rewrite R3|exact R2|split; [exact Hid|by split]|reflexivity].
Qed.

Lemma addRevision_steps goalId content source by_ now : steps (addRevision goalId content source by_ now).
Proof.
  unfold addRevision. intros d x d' Hs. apply tx_bind_ok in Hs as (goal & d0 & [Hget ->]%requireGoal_ok & Hs).
  apply tx_bind_ok in Hs as (? & d0 & [-> ->]%gets_id_ok & Hs). apply tx_bind_ok in Hs as (? & d0 & [_ ->]%require_ok & Hs).
  apply tx_bind_ok in Hs as ([[status def] road] & d0 & [Hplan ->]%lift_ok & Hs).
  apply tx_bind_ok in Hs as (r & d0 & (-> & R1 & R2 & R3 & R4)%revisionRecord_ok & Hs).
  apply tx_bind_ok in Hs as (? & d1 & [Hid ->]%insertRevision_ok & Hs). apply tx_bind_ok in Hs as (? & d1 & ->%modify_ok & [-> ->]%mret_ok).
  etrans; [apply bumped_steps|]. apply rtc_once.
  apply getGoal_row in Hget as (g & Hg & _ & _ & Q3 & _ & Q5). unfold planWorkspaceGoalRevision in Hplan. cbv zeta in Hplan.
  apply result_bind_ok in Hplan as (? & Ht%check_ok%negb_true_iff & Hplan). apply result_bind_ok in Hplan as (? & _ & Hplan%result_mret_ok).
  eapply (gst_revise _ _ g (goal_to status def road now (go_completedAt g) g) r);
    [by rewrite R1| |split; [exact Hid|by split]|by rewrite R1, R2; unfold rv_kind; rewrite R3|reflexivity|by split| | |].
  - rewrite R1. exact (alter_as_insert _ _ _ _ Hg).
  - destruct Q5 as [E|[-> _]]; [by rewrite <- E|done].
  - unfold rv_kind. rewrite R3. cbn. destruct (content_kind content); injection Hplan as -> -> ->; [done|]. split; [|done].
    destruct Q5 as [->|[-> ->]]; done.
  - cbn. by destruct (content_kind content); injection Hplan as _ _ ->.
Qed.
Lemma decisionByRequest_some goalId requestId d x : decisionByRequest goalId requestId d = Some x ->
  exists i, goal_decisions d !! i = Some x /\ dc_goalId x = goalId /\ dc_requestId x = requestId.
Proof.
  unfold decisionByRequest. intros Hx%head_Some_elem_of%list_of_elem. destruct Hx as (i & Hi & Hp). bool_prop. eauto.
Qed.

Lemma decisionByRequest_none goalId requestId d i x : decisionByRequest goalId requestId d = None -> goal_decisions d !! i = Some x ->
  dc_goalId x = goalId -> dc_requestId x <> requestId.
Proof.
  unfold decisionByRequest. intros Hn%head_None Hx Hg Hr.
  assert (x ∈ list_of (fun x => String.eqb (dc_goalId x) goalId && String.eqb (dc_requestId x) requestId) (goal_decisions d)) as Hin.
  { apply list_of_elem. exists i. by rewrite Hg, Hr, !String.eqb_refl. }
  rewrite Hn in Hin. by apply elem_of_nil in Hin.
Qed.

Lemma revision_ok i d r : revision i d = Ok (Some r) -> goal_revisions d !! i = Some r.
Proof.
  unfold revision, optional_revision. destruct (goal_revisions d !! i) as [x|]; [|done]. intros Hs.
  apply result_bind_ok in Hs as (y & Hy & [= ->]%result_mret_ok). unfold checked_revision in Hy.
  apply result_bind_ok in Hy as (? & _ & ->%result_mret_ok). done.
Qed.

(** A decision that is new: what it was decided on, and what it writes first. *)
Record fresh_decision (input : GoalDecisionInput) (now : Z) (x : GoalDecision) (d d2 : GoalDb) : Prop := {
  fd_case : exists goal target t,
    getGoal (di_goalId input) d = Ok (Some goal) /\ goal_revisions d !! di_targetRevisionId input = Some target
    /\ planWorkspaceGoalDecision goal target input (hasOtherGuidingGoal (gl_row goal) d) = Ok t
    /\ dc_approvedItemIds x = sorted_ids (di_approvedItemIds input)
    /\ d2 = set_goals (alter (fun g => goal_to (gt_status t) (gt_activeDefinition t) (gt_activeRoadmap t) now
          (if gt_complete t then Some now else go_completedAt (gl_row goal)) g) (di_goalId input))
          (set_goal_decisions (insert (dc_id x) x) d);
  fd_new : new_decision x d (set_goal_decisions (insert (dc_id x) x) d);
  fd_goal : dc_goalId x = di_goalId input;
  fd_kind : dc_kind x = di_kind input;
  fd_target : dc_targetRevisionId x = di_targetRevisionId input /\ dc_targetHash x = di_targetHash input;
  fd_hash : dc_payloadHash x = decision_hash input (sorted_ids (di_approvedItemIds input));
}.

Definition named_request (input : GoalDecisionInput) : string := trim (default "" (di_requestId input)).

Lemma decideGoal_cases input now d x d' : decideGoal input now d = Ok (x, d') ->
  exists d1, (d1 = d \/ named_request input = "" /\ d1 = bumped d)
  /\ (named_request input <> "" -> dc_requestId x = named_request input)
  /\ (decisionByRequest (di_goalId input) (dc_requestId x) d1 = Some x
       /\ dc_payloadHash x = decision_hash input (sorted_ids (di_approvedItemIds input)) /\ d' = d1
       \/ exists d2, fresh_decision input now x (bumped d1) d2 /\ rtc goal_step d2 d').
Proof.
  unfold decideGoal. cbv zeta. fold (named_request input). intros Hs. apply tx_bind_ok in Hs as (goal & d0 & [Hget ->]%requireGoal_ok & Hs).
  apply tx_bind_ok in Hs as (requestId & d1 & Hreq & Hs). exists d1.
  assert ((d1 = d \/ named_request input = "" /\ d1 = bumped d) /\ (named_request input <> "" -> requestId = named_request input)) as [Hd1 Hr].
  { destruct (String.eqb_spec (named_request input) "") as [E|E]; [apply uuid_run in Hreq; split; [by right|done]|].
    apply mret_ok in Hreq as [-> ->]. auto. }
  assert (getGoal (di_goalId input) d1 = Ok (Some goal)) as Hget1 by (destruct Hd1 as [->|[_ ->]]; by rewrite ?getGoal_bumped).
  clear Hget Hreq. split; [done|]. apply tx_bind_ok in Hs as (? & d0 & [-> ->]%gets_id_ok & Hs).
  destruct (decisionByRequest (di_goalId input) requestId d1) as [y|] eqn:Ey.
  { apply tx_bind_ok in Hs as (? & d0 & [Hh%String.eqb_eq ->]%require_ok & [-> ->]%mret_ok).
    pose proof Ey as (i & _ & _ & Er)%decisionByRequest_some. split; [by rewrite Er|]. left. by rewrite Er. }
  apply tx_bind_ok in Hs as (found & d0 & [Htarget ->]%lift_ok & Hs).
  apply tx_bind_ok in Hs as (target & d0 & [-> ->]%present_ok & Hs). apply revision_ok in Htarget.
  apply tx_bind_ok in Hs as (? & d0 & [_ ->]%require_ok & Hs). apply tx_bind_ok in Hs as (t & d0 & [Hplan ->]%lift_ok & Hs).
  apply tx_bind_ok in Hs as (id & d0 & ->%uuid_run & Hs). apply tx_bind_ok in Hs as (? & d0 & [-> ->]%gets_ok & Hs).
  apply tx_bind_ok in Hs as (? & d0 & [Hnew%bool_decide_eq_true ->]%require_ok & Hs).
  apply tx_bind_ok in Hs as (? & d0 & ->%modify_ok & Hs). apply tx_bind_ok in Hs as (? & d0 & Hd0%modify_ok & Hs).
  assert (rtc goal_step d0 d') as Hrest.
  { match type of Hs with ?m _ = _ => assert (steps m) as Hst end; [|by eapply Hst]. unfold pending_item. go_steps. }
  apply tx_bind_ok in Hs as (? & ? & _ & Hs). apply tx_bind_ok in Hs as (? & ? & _ & [-> _]%mret_ok). cbn.
  split; [done|]. right. exists d0. split; [|done]. split; cbn; try done.
  - exists goal, target, t. by rewrite getGoal_bumped.
  - split_and!; [done|done|]. intros i y Hy Hg. by eapply decisionByRequest_none.
Qed.

Lemma decideGoal_steps input now : steps (decideGoal input now).
Proof.
  intros d x d' (d1 & Hd1 & _ & Hc)%decideGoal_cases. etrans; [destruct Hd1 as [->|[_ ->]]; [done|apply bumped_steps]|].
  destruct Hc as [(_ & _ & ->)|(d2 & [(goal & target & t & Hget & Htarget & Hplan & Ha & ->) Hnew F1 F2 [F3 F4] _] & Hrest)]; [done|].
  etrans; [apply bumped_steps|]. eapply rtc_l; [|exact Hrest]. pose proof Hget as (g & Hg & _)%getGoal_row.
  eapply (gst_decide _ _ goal g _ target input x t Hget Hg); [exact (alter_as_insert _ _ _ _ Hg)|exact Htarget|exact Hplan|done|done|exact Hnew|].
  destruct Hnew as (N1 & _ & N3). unfold planWorkspaceGoalDecision in Hplan. cbv zeta in Hplan.
  repeat (let Hc := fresh "Hc" in apply result_bind_ok in Hplan as (? & Hc & Hplan)). apply result_mret_ok in Hplan as ->.
  apply check_ok in Hc1. bool_prop. split_and!; [done|done|congruence|congruence|]. rewrite Ha. by destruct (di_kind input), (rv_kind target).
Qed.
End steps.
