(* ===== verification/GoalFacts.v ===== *)
(** What the goals of a workspace promise: one goal guides a workspace, the
    record of a goal is never rewritten, a goal closes on evidence that still
    holds, a decision may be repeated, and a TaskRun may change the workspace
    only within what was approved. *)
From S2P Require Import Prelude Json TaskPolicy Attempt GateData ExecDb Canonical AttemptRepo RunStore Continuation Tools PlanGraph PlanStore AuditAlgebra Evidence CompletionGate Uncertainty Supervisor RunView Progress Approval Demo Goal GoalStore GoalStoreFacts.
Local Open Scope tx_scope.

(** * Histories *)

(** What may be called, at any time and in any order; [Call_below] is a
    transaction of the rest of the store. *)
Inductive GoalCall :=
  | Call_create (workspaceId : string) (definition : GoalDefinition) (createdBy : string) (key : option string) (now : Z)
  | Call_revise (goalId : string) (content : RevisionContent) (source : option string) (createdBy : string) (now : Z)
  | Call_decide (input : GoalDecisionInput) (now : Z)
  | Call_link (input : LinkInput) (runId : string) (now : Z)
  | Call_link_inbox (input : LinkInput) (roadmapRevisionId inboxItemId : string) (now : Z)
  | Call_attach (runId : string) (inboxItemId : option string) (now : Z)
  | Call_evidence (input : EvidenceInput) (now : Z)
  | Call_outcome (runId : string) (now : Z)
  | Call_reconcile (now : Z)
  | Call_below (m : tx GovDb unit).

Section goals.
Context `{Platform}.

Definition run_call (c : GoalCall) : tx GoalDb unit :=
  match c with
  | Call_create w x by_ key now => let* _ := createGoal w x by_ key now in mret tt
  | Call_revise i x source by_ now => let* _ := addRevision i x source by_ now in mret tt
  | Call_decide input now => let* _ := decideGoal input now in mret tt
  | Call_link input runId now => let* _ := linkRun input runId now in mret tt
  | Call_link_inbox input r i now => linkInbox input r i now
  | Call_attach runId i now => let* _ := attachRun runId i now in mret tt
  | Call_evidence input now => let* _ := linkEvidence input now in mret tt
  | Call_outcome runId now => let* _ := recordRunOutcome runId now in mret tt
  | Call_reconcile now => let* _ := reconcileRunState now in mret tt
  | Call_below m => in_gov m
  end.

(** A call that throws leaves the database as it was. *)
Inductive goal_history (d : GoalDb) : GoalDb -> Prop :=
  | gh_start : goal_history d d
  | gh_call c d1 d2 : goal_history d d1 -> run_call c d1 = Ok (tt, d2) -> goal_history d d2.

Definition no_goals (d : GoalDb) : Prop := goals d = ∅ /\ goal_revisions d = ∅ /\ goal_decisions d = ∅.

Lemma gov_steps {A} (m : tx GovDb A) : steps (in_gov m).
Proof. intros d a d' (g & _ & ->)%in_gov_ok. apply rtc_once, gst_quiet; [by apply same_keys_refl|done|done]. Qed.

Lemma goal_call_steps c : steps (run_call c).
Proof.
  destruct c; cbn; try (apply steps_bind; [|intros; apply steps_ret]).
  - apply createGoal_steps.
  - apply addRevision_steps.
  - apply decideGoal_steps.
  - apply linkRun_steps.
  - apply linkInbox_steps.
  - apply attachRun_steps.
  - apply linkEvidence_steps.
  - apply recordRunOutcome_steps.
  - apply reconcile_steps.
  - apply gov_steps.
Qed.

Lemma history_steps d d' : goal_history d d' -> rtc goal_step d d'.
Proof. induction 1 as [|c d1 d2 _ IH Hc]; [done|]. etrans; [exact IH|by eapply goal_call_steps]. Qed.

Lemma goal_steps_ok d d' : rtc goal_step d d' -> GoalsOk d -> GoalsOk d'.
Proof. induction 1; eauto using goal_step_ok. Qed.

Lemma no_goals_ok d : no_goals d -> GoalsOk d.
Proof.
  intros (E1 & E2 & E3). split; rewrite ?E1, ?E2, ?E3; try split; try (by intros ? ? []%lookup_empty_Some); try (by intros ? ? ? ? []%lookup_empty_Some).
Qed.

Lemma history_ok d0 d : no_goals d0 -> goal_history d0 d -> GoalsOk d.
Proof. intros Hn Hh%history_steps. eauto using goal_steps_ok, no_goals_ok. Qed.

(** * One goal guides a workspace *)

Lemma filter_two {V} (p : V -> bool) (l : list (string * V)) x y r : NoDup l.*1 -> List.filter p (map snd l) = x :: y :: r ->
  exists i j, i <> j /\ (i, x) ∈ l /\ (j, y) ∈ l /\ p x = true /\ p y = true.
Proof.
  induction l as [|[k v] l IH]; [done|]. cbn. intros [Hk Hn]%NoDup_cons Hs. destruct (p v) eqn:Ev.
  - injection Hs as -> Hs. assert (y ∈ List.filter p (map snd l)) as [([j w] & -> & Hj)%list_elem_of_fmap Hp]%filter_elem by (rewrite Hs; by left).
    exists k, j. split_and!; [|by left|by right|done|done]. intros ->. apply Hk, list_elem_of_fmap. by exists (j, w).
  - destruct (IH Hn Hs) as (i & j & Hij & Hi & Hj & Hp). exists i, j. split_and!; [done|by right|by right|apply Hp..].
Qed.

Lemma list_of_two {V} (p : V -> bool) (m : gmap string V) x y r : list_of p m = x :: y :: r ->
  exists i j, i <> j /\ m !! i = Some x /\ m !! j = Some y /\ p x = true /\ p y = true.
Proof.
  intros (i & j & Hij & Hi%elem_of_map_to_list & Hj%elem_of_map_to_list & Hp)%filter_two; [by eauto 8|apply NoDup_fst_map_to_list].
Qed.

(** C21. However the operations of the goals and of the rest of the store follow
    each other, at most one goal that is active or ready to close guides a
    workspace, a draft has nothing approved, the revisions of each kind of a
    goal are numbered without a gap or a repetition and hash to their content,
    and a request was decided once; a TaskRun that starts is never refused because
    two goals compete for it. *)
Theorem one_goal_guides d0 d w : no_goals d0 -> goal_history d0 d ->
  GoalsOk d /\ exists g, guidingGoal w d = Ok (g, d).
Proof.
  intros Hn Hh. pose proof (history_ok _ _ Hn Hh) as Hok. split; [done|]. unfold guidingGoal, mbind, tx_mbind, gets, id. cbv beta iota.
  destruct (list_of _ (goals d)) as [|row [|row2 l]] eqn:El; [by eexists| |].
  - assert (row ∈ [row]) as Hin by (by left). rewrite <- El in Hin. apply list_of_elem in Hin as (i & Hi & _).
    pose proof Hi as Hid%(gk_goal _ (gk_rows d Hok)). subst i. destruct (getGoal_ok _ _ _ Hok Hi) as [goal Hg].
    exists (Some goal). unfold requireGoal, mbind, tx_mbind, gets, lift, present, id. by rewrite Hg.
  - exfalso. apply list_of_two in El as (i & j & Hij & Hi & Hj & P1 & P2). bool_prop. apply Hij.
    apply (gk_guiding _ (gk_rows d Hok) i j row row2); [done|done|congruence|done|done].
Qed.

(** * The record of a goal *)

Lemma goal_step_record d d' : goal_step d d' ->
  goal_revisions d ⊆ goal_revisions d' /\ goal_decisions d ⊆ goal_decisions d'
  /\ forall i g, goals d !! i = Some g -> terminal (go_status g) = true -> exists g', goals d' !! i = Some g' /\ goal_key g' = goal_key g.
Proof.
  intros Hs. destruct Hs as [Hk Er Ed|g r Hnew Eg _ _ _ _ (Hid & Hh & Er) Ed|g g' r Hg Eg (Hid & Hh & Er) En Ed _ Ht _ _
    |goal g g' target input x t Hget Hg Eg _ Hplan _ Er (Hx & Ed & _) _|j g g' Hg Eg Hs _ Er Ed]; rewrite ?Er, ?Ed.
  - split_and!; [done..|]. intros i g Hg _. specialize (Hk i). rewrite Hg in Hk. destruct (goals d' !! i) as [g'|]; [|done].
    injection Hk as Hk. exists g'. split; [done|]. unfold goal_key. congruence.
  - split_and!; [by apply insert_subseteq|done|]. intros i h Hi _. exists h. rewrite Eg, lookup_insert_ne by congruence. done.
  - split_and!; [by apply insert_subseteq|done|]. intros i h Hi Hth. exists h. rewrite Eg, lookup_insert_ne by congruence. done.
  - split_and!; [done|by apply insert_subseteq|]. intros i h Hi Hth. exists h. rewrite Eg, lookup_insert_ne; [done|]. intros <-. simplify_eq.
    apply getGoal_row in Hget as (g0 & Hg0 & _ & _ & _ & _ & Q). simplify_eq.
    unfold planWorkspaceGoalDecision in Hplan. cbv zeta in Hplan. apply result_bind_ok in Hplan as (? & Ha & _).
    unfold assertDecisionAllowed in Ha. apply result_bind_ok in Ha as (? & Hc%check_ok%negb_true_iff & _).
    destruct Q as [Q|[Q _]]; [congruence|]. by rewrite Q in Hth.
  - split_and!; [done..|]. intros i h Hi Hth. exists h. rewrite Eg, lookup_insert_ne; [done|]. intros <-. simplify_eq.
    destruct Hs as [(E & _)|[E _]]; by rewrite E in Hth.
Qed.

(** No operation rewrites or removes a revision or a decision of a goal, and a
    goal that is completed or cancelled keeps its status, its workspace and what
    was approved of it. *)
Theorem goal_record_is_kept d d' : goal_history d d' ->
  goal_revisions d ⊆ goal_revisions d' /\ goal_decisions d ⊆ goal_decisions d'
  /\ forall i g, goals d !! i = Some g -> terminal (go_status g) = true -> exists g', goals d' !! i = Some g' /\ goal_key g' = goal_key g.
Proof.
  intros Hh%history_steps. induction Hh as [|d d1 d2 (R1 & D1 & T1)%goal_step_record _ (R2 & D2 & T2)]; [by eauto|].
  split_and!; [by etrans|by etrans|]. intros i g Hg Ht. destruct (T1 i g Hg Ht) as (g1 & Hg1 & E1).
  assert (go_status g1 = go_status g) as Es by (by injection E1). destruct (T2 i g1 Hg1) as (g2 & Hg2 & E2); [by rewrite Es|].
  exists g2. split; [done|congruence].
Qed.

(** * Repeating a decision *)

Lemma steps_keep_decisions d d' : rtc goal_step d d' -> goal_decisions d ⊆ goal_decisions d'.
Proof. induction 1 as [|d d1 d2 (_ & D & _)%goal_step_record _ IH]; [done|by etrans]. Qed.

(** A decision with a request id may be sent again, whenever: however the
    operations went on, the second call returns the decision of the first one and
    changes nothing. *)
Theorem decision_repeats d0 d input now x d1 d2 now' :
  no_goals d0 -> goal_history d0 d -> named_request input <> "" -> decideGoal input now d = Ok (x, d1) -> goal_history d1 d2 ->
  decideGoal input now' d2 = Ok (x, d2).
Proof.
  intros Hn Hh Hreq Hd Hh2. pose proof (history_ok _ _ Hn Hh) as Hok. pose proof (decideGoal_steps _ _ _ _ _ Hd) as Hst.
  pose proof (history_steps _ _ Hh2) as Hst2. assert (GoalsOk d2) as Hok2 by eauto using goal_steps_ok.
  assert (exists g, goals d !! di_goalId input = Some g) as [g Hg].
  { unfold decideGoal in Hd. apply tx_bind_ok in Hd as (goal & ? & [(g & Hg & _)%getGoal_row _]%requireGoal_ok & _). eauto. }
  assert (exists i, goal_decisions d2 !! i = Some x /\ dc_goalId x = di_goalId input /\ dc_requestId x = named_request input
    /\ dc_payloadHash x = decision_hash input (sorted_ids (di_approvedItemIds input))) as (i & Hx & E1 & E2 & E3).
  { apply decideGoal_cases in Hd as (e & He & Hr & [(Hx & Hp & ->)|(e2 & Hf & Hrest)]).
    - pose proof Hx as (i & Hi & Eg & _)%decisionByRequest_some. exists i. split_and!; [|done|by apply Hr|done].
      eapply lookup_weaken; [exact Hi|by apply steps_keep_decisions].
    - destruct Hf as [(goal & target & t & _ & _ & _ & _ & ->) _ Fg _ _ Fh]. exists (dc_id x). split_and!; [|done|by apply Hr|done].
      eapply lookup_weaken; [|apply steps_keep_decisions; etrans; [exact Hrest|exact Hst2]]. apply lookup_insert_eq. }
  assert (exists g', goals d2 !! di_goalId input = Some g') as [g' Hg'].
  { assert (forall e e', rtc goal_step e e' -> is_Some (goals e !! di_goalId input) -> is_Some (goals e' !! di_goalId input)) as Hkeep.
    { induction 1 as [|e e1 e2 He _ IH]; [done|]. intros Hs. apply IH.
      destruct He as [Hk _ _|? ? _ Eg _ _ _ _ _ _|? ? ? _ Eg _ _ _ _ _ _ _|? ? ? ? ? ? ? _ _ Eg _ _ _ _ _ _|? ? ? _ Eg _ _ _ _];
        rewrite ?Eg; try by apply insert_some.
      specialize (Hk (di_goalId input)). destruct Hs as [? Hs]. rewrite Hs in Hk. destruct (goals e1 !! _); [eauto|done]. }
    apply (Hkeep d d2); [by etrans|eauto]. }
  destruct (getGoal_ok _ _ _ Hok2 Hg') as [goal2 Hget].
  assert (decisionByRequest (di_goalId input) (named_request input) d2 = Some x) as Hfound.
  { destruct (decisionByRequest _ _ d2) as [y|] eqn:Ey.
    - apply decisionByRequest_some in Ey as (j & Hy & F1 & F2).
      assert (i = j) as <- by (apply (gk_decisions d2 Hok2 i j x y); [done|done|congruence|congruence]). congruence.
    - by apply (decisionByRequest_none _ _ _ _ _ Ey Hx) in E1. }
  assert (requireGoal (di_goalId input) d2 = Ok (goal2, d2)) as Hrg.
  { unfold requireGoal, mbind, tx_mbind, gets, lift, present, id. cbv beta iota. by rewrite Hget. }
  unfold decideGoal. rewrite (tx_bind_run _ _ _ _ _ Hrg). cbv zeta beta. fold (named_request input). rewrite (proj2 (String.eqb_neq _ _) Hreq).
  rewrite (tx_bind_run (mret (named_request input)) _ d2 _ d2 eq_refl), (tx_bind_run (gets id) _ d2 d2 d2 eq_refl). cbv beta.
  rewrite Hfound. rewrite (tx_bind_run (require _ _) _ d2 tt d2); [done|]. apply require_run. by rewrite E3, String.eqb_refl.
Qed.

(** * Closing a goal *)

(** What a link proves holds: its digest is the one of its source as it is now. *)
Definition holds_now (d : GoalDb) (l : EvidenceLink) : Prop :=
  computeEvidenceDigest (vl_runId l) (vl_checkKey l) (vl_artifactId l) (vl_operationId l) (vl_status l) d = Ok (vl_sourceDigest l).

Definition about (goalId : string) (n : Z) (key : string) (l : EvidenceLink) : Prop :=
  vl_goalId l = goalId /\ vl_goalRevision l = n /\ vl_criterionKey l = key.

(** The criterion is met: valid evidence for it holds, and no later evidence that
    holds contradicts it. *)
Definition evidenced (goalId : string) (n : Z) (key : string) (d : GoalDb) : Prop :=
  exists i l, evidence_links d !! i = Some l /\ about goalId n key l /\ vl_status l = GE_valid /\ holds_now d l
    /\ forall j l', evidence_links d !! j = Some l' -> about goalId n key l' -> vl_status l' = GE_contradicted -> holds_now d l' ->
         (vl_updatedAt l' <= vl_updatedAt l)%Z.

(** The item was approved, and its TaskRun completed (or was completed and removed). *)
Definition item_done (goalId roadmapId itemId : string) (d : GoalDb) : Prop :=
  exists p, item_progress d !! (goalId, roadmapId, itemId) = Some p
    /\ match pg_runId p ≫= fun r => run_status r d with Some s => s = R_completed | None => pg_status p = GI_completed end.

Record Closable (goalId : string) (d : GoalDb) : Prop := {
  cl_definition : exists g r def i x, goals d !! goalId = Some g /\ go_status g = G_ready_to_close /\ go_activeDefinition g = Some (rv_id r)
    /\ definition_of r = Some def
    /\ goal_decisions d !! i = Some x /\ dc_goalId x = goalId /\ dc_kind x = GD_approve_goal /\ dc_targetRevisionId x = rv_id r
    /\ dc_targetHash x = rv_contentHash r /\ rv_contentHash r = workspaceGoalContentHash (content_json (Definition_content def))
    /\ (exists c, c ∈ wg_criteria def /\ gc_required c = true)
    /\ (forall c, c ∈ wg_criteria def -> gc_required c = true -> evidenced goalId (rv_revision r) (gc_key c) d);
  cl_roadmap : exists g r i x, goals d !! goalId = Some g /\ go_activeRoadmap g = Some (rv_id r)
    /\ goal_decisions d !! i = Some x /\ dc_goalId x = goalId /\ dc_kind x = GD_approve_roadmap /\ dc_targetRevisionId x = rv_id r
    /\ dc_targetHash x = rv_contentHash r /\ dc_approvedItemIds x <> []
    /\ forall itemId, itemId ∈ dc_approvedItemIds x -> item_done goalId (rv_id r) itemId d;
}.

Lemma decisive_spec key links l : decisive key links = Some l ->
  l ∈ links /\ vl_criterionKey l = key /\ forall l', l' ∈ links -> vl_criterionKey l' = key -> (vl_updatedAt l' <= vl_updatedAt l)%Z.
Proof.
  unfold decisive. intros Hd.
  assert (forall ls prior m, fold_left (fun prior l => match prior with Some p => if newer_evidence l p then Some l else prior | None => Some l end) ls prior = Some m ->
    (prior = Some m \/ m ∈ ls) /\ (forall p, prior = Some p -> (vl_updatedAt p <= vl_updatedAt m)%Z)
    /\ forall l', l' ∈ ls -> (vl_updatedAt l' <= vl_updatedAt m)%Z) as Hfold.
  { induction ls as [|x ls IH]; intros prior m Hm; cbn in Hm.
    - split_and!; [by left|intros p ->; simplify_eq; lia|by intros l' ?%elem_of_nil].
    - apply IH in Hm as (M1 & M2 & M3).
      assert (exists y, (match prior with Some p => if newer_evidence x p then Some x else prior | None => Some x end) = Some y
        /\ (vl_updatedAt x <= vl_updatedAt y)%Z /\ (forall p, prior = Some p -> (vl_updatedAt p <= vl_updatedAt y)%Z)
        /\ (y = x \/ prior = Some y)) as (y & Ey & Y1 & Y2 & Y3).
      { destruct prior as [p|]; [destruct (newer_evidence x p) eqn:En|]; eexists; (split; [done|]); split_and!; try lia; auto.
        - intros ? [= <-]. unfold newer_evidence in En. apply orb_true_iff in En as [En|En]; bool_prop; lia.
        - unfold newer_evidence in En. apply orb_false_iff in En as [En _]. bool_prop. lia.
        - intros ? [= <-]. lia.
        - by intros ?. }
      rewrite Ey in M1, M2. specialize (M2 y eq_refl). split_and!.
      + destruct M1 as [[= ->]|]; [|by right; right]. destruct Y3 as [-> |]; [right; by left|by left].
      + intros p Hp. specialize (Y2 p Hp). lia.
      + intros l' [->|Hl]%elem_of_cons; [lia|by apply M3]. }
  apply Hfold in Hd as ([?|[Hl Hk]%filter_elem] & _ & Hmax); [done|]. apply String.eqb_eq in Hk. split_and!; [done..|].
  intros l' Hl' Hk'. apply Hmax, filter_elem. split; [done|by apply String.eqb_eq].
Qed.

Lemma project_same d l : vl_status (projectEvidence d l) <> GE_stale -> projectEvidence d l = l /\ holds_now d l.
Proof.
  unfold projectEvidence, holds_now. case_bool_decide as Es; [congruence|].
  destruct (computeEvidenceDigest _ _ _ _ _ d) as [digest|]; [|by cbn].
  destruct (String.eqb_spec digest (vl_sourceDigest l)) as [->|]; [|by cbn]. by destruct l.
Qed.

Lemma project_holds d l : vl_status l <> GE_stale -> holds_now d l -> projectEvidence d l = l.
Proof.
  unfold projectEvidence, holds_now. intros Hs ->. rewrite bool_decide_false by done. rewrite String.eqb_refl. by destruct l.
Qed.

Lemma evidence_of_elem goalId d l : l ∈ evidence_of goalId d <-> exists i, evidence_links d !! i = Some l /\ vl_goalId l = goalId.
Proof.
  unfold evidence_of. rewrite merge_sort_Permutation, list_of_elem. by setoid_rewrite String.eqb_eq.
Qed.

Definition usable_evidence (goalId : string) (n : Z) (d : GoalDb) : list EvidenceLink :=
  List.filter (fun l => bool_decide (Some (vl_goalRevision l) = Some n) && negb (bool_decide (vl_status l = GE_stale)))
    (map (projectEvidence d) (evidence_of goalId d)).

Lemma usable_elem goalId n d l : l ∈ usable_evidence goalId n d <->
  exists i, evidence_links d !! i = Some l /\ vl_goalId l = goalId /\ vl_goalRevision l = n /\ vl_status l <> GE_stale /\ holds_now d l.
Proof.
  unfold usable_evidence. rewrite filter_elem. split.
  - intros [(l0 & -> & (i & Hi & Hg)%evidence_of_elem)%list_elem_of_fmap Hp]. bool_prop. destruct (project_same d l0) as [E Hh]; [done|].
    rewrite E in *. simplify_eq. eauto 6.
  - intros (i & Hi & Hg & Hn & Hs & Hh). rewrite !bool_decide_true, bool_decide_false by congruence. split; [|done].
    apply list_elem_of_fmap. exists l. rewrite project_holds by done. split; [done|]. apply evidence_of_elem. eauto.
Qed.

Lemma verified_evidenced goalId n key d : verified (usable_evidence goalId n d) key = true -> evidenced goalId n key d.
Proof.
  unfold verified. destruct (decisive _ _) as [l|] eqn:El; [|done]. intros Hv%bool_decide_eq_true.
  apply decisive_spec in El as ((i & Hi & Hg & Hn & Hs & Hh)%usable_elem & Hk & Hmax). exists i, l. split_and!; [done|by split|done|done|].
  intros j l' Hj (Hg' & Hn' & Hk') Hs' Hh'. apply Hmax; [|done]. apply usable_elem. exists j. by rewrite Hs'.
Qed.

Lemma completed_done goalId r ids d itemId : item_completed (roadmapProgress goalId r ids d) itemId = true -> item_done goalId (rv_id r) itemId d.
Proof.
  unfold item_completed, progress_of, roadmapProgress. destruct (last _) as [v|] eqn:El; [|done]. intros Hv%bool_decide_eq_true.
  apply last_Some_elem_of, filter_elem in El as [Hin Hid%String.eqb_eq]. destruct (roadmap_of r) as [rm|]; [|by apply elem_of_nil in Hin].
  apply list_elem_of_fmap in Hin as (item & -> & _). unfold item_view in *. destruct (negb (includes (ri_id item) ids)) eqn:Ei; [by cbn in Hv|].
  cbn in Hv, Hid. subst itemId. destruct (item_progress d !! _) as [p|] eqn:Ep; [|done]. exists p. split; [done|]. cbn in Hv |- *.
  by destruct (pg_runId p ≫= _) as [[]|].
Qed.

Lemma approved_definition_ok goalId d r : approved_definition (decisions_of goalId d) r = true ->
  exists i x, goal_decisions d !! i = Some x /\ dc_goalId x = goalId /\ dc_kind x = GD_approve_goal /\ dc_targetRevisionId x = rv_id r
    /\ dc_targetHash x = rv_contentHash r.
Proof.
  unfold approved_definition, decisions_of. intros (x & Hx%list_elem_of_In & Hp)%existsb_exists.
  rewrite merge_sort_Permutation in Hx. apply list_of_elem in Hx as (i & Hi & Hg). bool_prop. eauto 8.
Qed.

Lemma roadmap_approval_ok goalId d r x : roadmap_approval (decisions_of goalId d) r = Some x ->
  exists i, goal_decisions d !! i = Some x /\ dc_goalId x = goalId /\ dc_kind x = GD_approve_roadmap /\ dc_targetRevisionId x = rv_id r
    /\ dc_targetHash x = rv_contentHash r /\ dc_approvedItemIds x <> [].
Proof.
  unfold roadmap_approval, decisions_of. intros [Hx Hp]%last_Some_elem_of%filter_elem.
  rewrite merge_sort_Permutation in Hx. apply list_of_elem in Hx as (i & Hi & Hg). bool_prop. eauto 9.
Qed.

Lemma filter_all {A} (p : A -> bool) l : (length l <= length (List.filter p l))%nat -> forall x, x ∈ l -> p x = true.
Proof.
  induction l as [|y l IH]; [by intros _ x ?%elem_of_nil|]. cbn. pose proof (filter_length_le p l) as Hle.
  destruct (p y) eqn:Ey; cbn; [|lia]. intros Hl x [->|Hx]%elem_of_cons; [done|]. apply IH; [lia|done].
Qed.

Lemma optional_revision_ok o v : optional_revision o = Ok v -> v = o /\ forall r, o = Some r ->
  rv_contentHash r = workspaceGoalContentHash (content_json (rv_content r)).
Proof.
  destruct o as [r|]; cbn; [|intros ->%result_mret_ok; done]. intros Hs. apply result_bind_ok in Hs as (y & Hy & ->%result_mret_ok).
  unfold checked_revision in Hy. apply result_bind_ok in Hy as (? & Hh%check_ok%String.eqb_eq & ->%result_mret_ok).
  split; [done|]. by intros ? [= <-].
Qed.

(** A goal that reads as ready to close is closable. *)
Lemma getGoal_ready i d goal : getGoal i d = Ok (Some goal) -> gl_status goal = G_ready_to_close -> gl_requiredCriteria goal <> 0%nat -> Closable i d.
Proof.
  unfold getGoal, gl_status. destruct (goals d !! i) as [g|] eqn:Hg; [|by intros [=]]. intros Hs.
  apply result_bind_ok in Hs as (def & Hdef & Hs). apply result_bind_ok in Hs as (road & Hroad & Hs). cbv zeta in Hs.
  apply result_mret_ok in Hs. injection Hs as ->. cbn [gl_row gl_requiredCriteria go_status with_goal_status].
  destruct (bool_decide_reflect (go_status g = G_ready_to_close)) as [Er|]; cbn [andb]; [|done].
  destruct (_ || negb _ || negb _) eqn:Eb; [done|]. intros _ Hreq. bool_prop.
  destruct def as [r|]; [|done]. bool_prop. cbn in Hreq.
  assert (rv_contentHash r = workspaceGoalContentHash (content_json (rv_content r))) as Hh.
  { destruct (truthy_text (go_activeDefinition g)); apply optional_revision_ok in Hdef as [E Hx]; by apply Hx. }
  destruct (definition_of r) as [x|] eqn:Ex; [|done]. rewrite length_map in Hreq. split.
  - destruct (approved_definition_ok _ _ _ H3) as (j & y & Hy). exists g, r, x, j, y. split_and!; try done; try apply Hy.
    + rewrite Hh. unfold definition_of in Ex. destruct (rv_content r) as [x0|]; [|done]. by injection Ex as ->.
    + destruct (List.filter gc_required (wg_criteria x)) as [|c l] eqn:Ef; [done|]. exists c. apply filter_elem. rewrite Ef. by left.
    + intros c Hc Hcr. apply verified_evidenced.
      apply (filter_all (verified _) (map gc_key (List.filter gc_required (wg_criteria x)))).
      * apply Nat.ltb_ge in H0. cbv [mbind option_bind] in H0. rewrite Ex in H0. exact H0.
      * apply list_elem_of_fmap. exists c. split; [done|]. by apply filter_elem.
  - destruct road as [rr|]; [|done]. cbn in H1. case_bool_decide as Ea; [|done].
    destruct (roadmap_approval _ _) as [y|] eqn:Ey; [|done]. apply roadmap_approval_ok in Ey as (j & Hy).
    exists g, rr, j, y. split_and!; try done; try apply Hy. intros itemId Hi.
    eapply completed_done. eapply forallb_forall in H1; [exact H1|by apply list_elem_of_In].
Qed.

Lemma closable_bumped i d : Closable i (bumped d) -> Closable i d.
Proof. intros [H1 H2]. split; [exact H1|exact H2]. Qed.

Lemma steps_keep_terminal d d' : rtc goal_step d d' ->
  forall i g, goals d !! i = Some g -> terminal (go_status g) = true -> exists g', goals d' !! i = Some g' /\ go_status g' = go_status g.
Proof.
  induction 1 as [|d d1 d2 (_ & _ & T1)%goal_step_record _ IH]; intros i g Hg Ht; [by eauto|].
  destruct (T1 i g Hg Ht) as (g1 & Hg1 & E1). injection E1 as _ _ E _ _. destruct (IH i g1 Hg1) as (g2 & Hg2 & E2); [by rewrite E|].
  exists g2. split; [done|congruence].
Qed.

Lemma plan_close goal target input other t : planWorkspaceGoalDecision goal target input other = Ok t -> di_kind input = GD_close ->
  gl_status goal = G_ready_to_close /\ gl_requiredCriteria goal <> 0%nat /\ gt_status t = G_completed /\ gt_complete t = true.
Proof.
  unfold planWorkspaceGoalDecision, gl_status. cbv zeta. intros Hs Hk. rewrite Hk in Hs.
  repeat (let Hc := fresh "Hc" in apply result_bind_ok in Hs as (? & Hc & Hs)). apply result_mret_ok in Hs as ->.
  split_and!; [|intros E; rewrite E in Hc12; by vm_compute in Hc12|done|done].
  unfold assertDecisionAllowed in Hc. tx_inv Hc. destruct (go_status (gl_row goal)); done.
Qed.

(** C22. A goal is closed only on evidence that holds: when a new decision closes it,
    its definition is approved as it stands, every required criterion has valid
    evidence whose digest is still the digest of its source and which no later
    evidence contradicts, and every approved item of the approved roadmap has
    its TaskRun completed; the goal is then completed, at that time. *)
Theorem goal_closes_on_evidence input now d x d' :
  decideGoal input now d = Ok (x, d') -> di_kind input = GD_close -> (forall i, goal_decisions d !! i <> Some x) ->
  Closable (di_goalId input) d /\ exists g, goals d' !! di_goalId input = Some g /\ go_status g = G_completed.
Proof.
  intros (d1 & Hd1 & _ & [(Hx & _)|(d2 & Hf & Hrest)])%decideGoal_cases Hk Hnew.
  { exfalso. apply decisionByRequest_some in Hx as (i & Hi & _). apply (Hnew i). by destruct Hd1 as [->|[_ ->]]. }
  destruct Hf as [(goal & target & t & Hget & _ & Hplan & _ & E2) _ _ _ _ _].
  destruct (plan_close _ _ _ _ _ Hplan Hk) as (S1 & S2 & S3 & _). split.
  - apply getGoal_ready in Hget; [|done..]. apply closable_bumped in Hget. destruct Hd1 as [->|[_ ->]]; [done|by apply closable_bumped].
  - apply getGoal_row in Hget as (g & Hg & _). rewrite <- S3.
    refine (steps_keep_terminal _ _ Hrest (di_goalId input) (goal_to _ _ _ _ _ g) _ _); [|cbn; by rewrite S3].
    rewrite E2. cbn. rewrite lookup_alter_eq. change (goals d1) with (goals (bumped d1)). by rewrite Hg.
Qed.

(** * What a TaskRun may change *)

Lemma getGoal_decisions i d goal : getGoal i d = Ok (Some goal) -> gl_decisions goal = decisions_of i d.
Proof.
  unfold getGoal. destruct (goals d !! i) as [g|]; [|by intros [=]]. intros Hs.
  apply result_bind_ok in Hs as (def & _ & Hs). apply result_bind_ok in Hs as (road & _ & Hs). cbv zeta in Hs.
  apply result_mret_ok in Hs. by injection Hs as ->.
Qed.

(** The approval a linked TaskRun acts under. *)
Definition approved_slice (l : GoalRunLink) (d : GoalDb) : Prop :=
  exists roadmapId i x, lk_roadmapRevisionId l = Some roadmapId
    /\ (exists g, goals d !! lk_goalId l = Some g /\ go_activeRoadmap g = Some roadmapId)
    /\ goal_decisions d !! i = Some x /\ dc_goalId x = lk_goalId l /\ dc_kind x = GD_approve_roadmap /\ dc_targetRevisionId x = roadmapId
    /\ lk_roadmapItemIds l <> [] /\ forall itemId, itemId ∈ lk_roadmapItemIds l -> itemId ∈ dc_approvedItemIds x.


(** * The contract of an attached TaskRun *)

(** The members a contract keeps when a goal is attached. *)
Definition kept_members : list string :=
  ["sourceInput"; "summary"; "objectives"; "scope"; "sourceInboxIds"; "parentRunId"; "relation"; "intent"; "decisionReason"; "routerVersion"].

(** What the attachment of a run to a goal writes of the run. *)
Record Attached (goalId : string) (run : RunRow) (now : Z) (d d' : GoalDb) : Prop := {
  at_contract : exists fs snapshot, runs_of d' = alter (with_contract (JObj fs) now) (r_id run) (runs_of d)
    /\ field "workspaceGoal" fs = Some (JObj snapshot) /\ field "goalId" snapshot = Some (JStr goalId)
    /\ (forall m v, m ∈ kept_members -> contract_fields run ≫= field m = Some v -> v <> JNull -> field m fs = Some v)
    /\ field "executionPolicy" fs = None;
  at_link : exists l, run_links d' = run_links d ++ [l] /\ lk_runId l = r_id run /\ lk_goalId l = goalId;
  at_once : runLinkForRun (r_id run) d = None;
}.

Lemma snapshot_goal spec now fs : executionSnapshot spec now = Ok fs -> field "goalId" fs = Some (JStr (go_id (gl_row (ls_goal spec)))).
Proof.
  unfold executionSnapshot. intros Hs. cbv zeta in Hs. apply result_bind_ok in Hs as (x & _ & Hs). apply result_bind_ok in Hs as (prompts & _ & Hs).
  apply result_mret_ok in Hs as ->. reflexivity.
Qed.

Lemma merge_keeps run snapshot nonGoals : exists fs, mergeGoalSnapshot run snapshot nonGoals = JObj fs
  /\ field "workspaceGoal" fs = Some (JObj snapshot) /\ field "executionPolicy" fs = None
  /\ forall m v, m ∈ kept_members -> contract_fields run ≫= field m = Some v -> v <> JNull -> field m fs = Some v.
Proof.
  unfold mergeGoalSnapshot. cbv zeta. eexists. split; [reflexivity|]. split; [reflexivity|]. split; [reflexivity|].
  intros m v Hm Hv Hn. unfold kept_members in Hm. repeat (apply elem_of_cons in Hm as [-> |Hm]; [|]); try (by apply elem_of_nil in Hm);
    cbn -[kept]; unfold kept; rewrite Hv; by destruct v.
Qed.

Lemma progress_quiet goalId r items p d u d' : for_each (fun i => put_progress goalId r i p) items d = Ok (u, d') ->
  runs_of d' = runs_of d /\ run_links d' = run_links d.
Proof.
  intros Hs. eapply (for_each_ind (fun e => runs_of e = runs_of d /\ run_links e = run_links d)) in Hs; [exact Hs| |done].
  intros x t t' _ Ht Hx. unfold put_progress in Hx. by apply modify_ok in Hx as ->.
Qed.

Lemma persist_attached run spec now d g d' : persistRunLinkAndSnapshot run spec now d = Ok (g, d') ->
  Attached (go_id (gl_row (ls_goal spec))) run now d d'.
Proof.
  unfold persistRunLinkAndSnapshot. cbv zeta. intros Hs. apply tx_bind_ok in Hs as (? & d0 & [_ ->]%require_ok & Hs).
  apply tx_bind_ok in Hs as (? & d0 & Hav & Hs).
  assert (d0 = d) as ->.
  { destruct (bool_decide _); [|by apply mret_ok in Hav as [_ ->]]. unfold assertRoadmapRunAvailable in Hav.
    destruct (truthy_text _); [|by apply mret_ok in Hav as [_ ->]]. by tx_inv Hav. }
  apply tx_bind_ok in Hs as (snapshot & d0 & [Hsnap ->]%lift_ok & Hs). apply tx_bind_ok in Hs as (value & d0 & [Hvalue ->]%present_ok & Hs).
  apply tx_bind_ok in Hs as (? & d0 & [-> ->]%gets_id_ok & Hs). apply tx_bind_ok in Hs as (? & d0 & [Hnone%bool_decide_eq_true ->]%require_ok & Hs).
  apply tx_bind_ok in Hs as (? & d1 & ->%modify_ok & Hs). apply tx_bind_ok in Hs as (? & d2 & Hst & Hs).
  apply tx_bind_ok in Hs as (? & d3 & ->%modify_ok & Hs). apply tx_bind_ok in Hs as (? & d4 & Hp & [_ ->]%requireGoal_ok).
  assert (runs_of d4 = runs_of d2 /\ run_links d4 = run_links d2) as [E1 E2].
  { destruct (truthy_text _); [|by apply mret_ok in Hp as [_ ->]]. destruct (bool_decide _); [|by apply mret_ok in Hp as [_ ->]].
    by apply progress_quiet in Hp. }
  destruct (merge_keeps run snapshot (wg_nonGoals value)) as (fs & Efs & F1 & F2 & F3). rewrite Efs in Hst. split; [| |done].
  - exists fs, snapshot. rewrite E1. split_and!; [|done|by apply snapshot_goal in Hsnap|done|done].
    unfold in_store, in_gov, in_exec, in_plans, in_db, modify in Hst. by injection Hst as _ <-.
  - rewrite E2. unfold in_store, in_gov, in_exec, in_plans, in_db, modify in Hst. injection Hst as _ <-. by eexists.
Qed.

Lemma reads_bind {A B} (m : tx GoalDb A) (f : A -> tx GoalDb B) :
  (forall d a d', m d = Ok (a, d') -> d' = d) -> (forall a d b d', f a d = Ok (b, d') -> d' = d) ->
  forall d b d', mbind f m d = Ok (b, d') -> d' = d.
Proof. intros Hm Hf d b d' (a & t & ->%Hm & H2)%tx_bind_ok. by eapply Hf. Qed.

Lemma resolve_reads input g d spec d' : resolveLinkSpec input g d = Ok (spec, d') -> d' = d.
Proof.
  unfold resolveLinkSpec. revert d spec d'. apply reads_bind.
  - intros d a d'. destruct g as [g|]; [destruct (String.eqb _ _)|]; [by intros [_ ->]%mret_ok|by intros [_ ->]%requireGoal_ok..].
  - intros goal d spec d' Hs. cbv zeta in Hs. tx_inv Hs; by subst.
Qed.

Lemma canonical_reads run spec d u d' : assertCanonicalRoadmapAdmission run spec d = Ok (u, d') -> d' = d.
Proof. unfold assertCanonicalRoadmapAdmission. intros Hs. cbv zeta in Hs. tx_inv Hs; by subst. Qed.

Lemma guiding_reads w d g d' : guidingGoal w d = Ok (g, d') -> d' = d.
Proof.
  unfold guidingGoal. intros Hs. apply tx_bind_ok in Hs as (? & d0 & [-> ->]%gets_id_ok & Hs).
  destruct (list_of _ _) as [|row [|? ?]]; [by apply mret_ok in Hs as [_ ->]| |done].
  by apply tx_bind_ok in Hs as (goal & d0 & [_ ->]%requireGoal_ok & [_ ->]%mret_ok).
Qed.


Lemma history_calls calls d0 d d' : goal_history d0 d -> for_each run_call calls d = Ok (tt, d') -> goal_history d0 d'.
Proof.
  intros Hh Hs. eapply (for_each_ind (goal_history d0)) in Hs; [exact Hs| |exact Hh]. intros c t t' _ Ht Hc. by eapply gh_call.
Qed.

End goals.

(** * A concrete history

    The goal "Ship" with one criterion and one roadmap item is approved, its item is
    run, the evidence of the run is linked and the goal is closed. *)

Definition demo_goals : GoalDb :=
  {| go_gov := {| gd_plans := {| pd_db := demo_db; plan_items := ∅; plan_revisions := [] |}; run_checks := ∅; artifacts := ∅;
       evidence_rows := []; manifests := ∅ |};
     goals := ∅; goal_requests := ∅; goal_revisions := ∅; goal_decisions := ∅; run_links := []; inbox_links := []; item_progress := ∅;
     evidence_links := ∅; evidence_requests := ∅ |}.

Definition demo_definition : GoalDefinition :=
  {| wg_title := "Ship"; wg_outcome := "The service is shipped"; wg_scope := []; wg_nonGoals := ["rewrite"];
     wg_criteria := [{| gc_key := "tests"; gc_title := "The tests pass"; gc_required := true |}] |}.

Definition demo_roadmap : Roadmap :=
  {| rm_summary := "One step"; rm_items := [{| ri_id := "build"; ri_title := "Build"; ri_outcome := "Built"; ri_verification := "make test";
     ri_criterionKeys := ["tests"] |}] |}.

Definition demo_call (kind : GoalDecisionKind) (target : string) (content : RevisionContent) (items : list string) : GoalDecisionInput :=
  {| di_goalId := "uuid-0"; di_requestId := Some (goal_decision_text kind); di_targetRevisionId := target;
     di_targetHash := workspaceGoalContentHash (content_json content); di_kind := kind; di_approvedItemIds := items; di_reason := "";
     di_actorId := "user" |}.

Definition demo_approve : GoalDecisionInput := demo_call GD_approve_goal "uuid-1" (Definition_content demo_definition) [].
Definition demo_close : GoalDecisionInput := demo_call GD_close "uuid-1" (Definition_content demo_definition) [].

Definition demo_link : LinkInput :=
  {| li_goalId := "uuid-0"; li_goalRevision := 1; li_roadmapRevisionId := Some "uuid-3"; li_roadmapItemIds := ["build"];
     li_criterionKeys := ["tests"]; li_mode := LM_roadmap |}.

Definition below (f : Db -> Db) : GoalCall := Call_below (in_exec (modify f)).

Definition run_completed (r : RunRow) : RunRow :=
  {| r_id := r_id r; r_sessionId := r_sessionId r; r_requestId := r_requestId r; r_status := R_completed; r_phase := r_phase r;
     r_goal := r_goal r; r_contract := r_contract r; r_gateRequired := r_gateRequired r; r_blockedReason := r_blockedReason r;
     r_attempt := r_attempt r; r_lastEventSeq := r_lastEventSeq r; r_createdAt := r_createdAt r; r_updatedAt := r_updatedAt r;
     r_completedAt := r_completedAt r; r_resumedAt := r_resumedAt r |}.

Definition demo_receipt : OperationRow :=
  {| o_runId := "run"; o_attempt := 1; o_operationType := "tool.bash"; o_payloadHash := "h"; o_payload := JObj [("command", JStr "make test")];
     o_status := "succeeded"; o_stage := "done"; o_effects := []; o_result := Some (JObj []); o_error := ""; o_createdAt := 1;
     o_updatedAt := 2; o_completedAt := Some 2%Z |}.

Definition demo_evidence : EvidenceInput :=
  {| ei_goalId := "uuid-0"; ei_requestId := None; ei_goalRevision := 1; ei_criterionKey := "tests"; ei_runId := "run"; ei_checkKey := None;
     ei_artifactId := None; ei_operationId := Some "op"; ei_status := GE_valid |}.

Definition calls_start : list GoalCall := [Call_create "session" demo_definition "user" None 1].
Definition calls_linked : list GoalCall :=
  [Call_revise "uuid-0" (Roadmap_content demo_roadmap) None "user" 3;
   Call_decide (demo_call GD_approve_roadmap "uuid-3" (Roadmap_content demo_roadmap) ["build"]) 4; Call_link demo_link "run" 5].
Definition calls_done : list GoalCall :=
  [below (set_operations (insert "op" demo_receipt));
   below (set_runs (alter run_completed "run")); Call_outcome "run" 6; Call_evidence demo_evidence 7].

Definition after_calls (calls : list GoalCall) (d : GoalDb) : GoalDb :=
  match for_each run_call calls d with Ok (_, d') => d' | Throw _ => d end.

Definition succeeds {A} (r : result A) : bool := match r with Ok _ => true | Throw _ => false end.

Lemma after_history calls d0 d : goal_history d0 d -> succeeds (for_each run_call calls d) = true -> goal_history d0 (after_calls calls d).
Proof.
  unfold after_calls. destruct (for_each run_call calls d) as [[[] d']|] eqn:E; [|done]. intros Hh _. by eapply history_calls.
Qed.

Definition demo_drafted : GoalDb := after_calls calls_start demo_goals.
Definition value_of {S A} (other : A) (r : result (A * S)) : A := match r with Ok (x, _) => x | Throw _ => other end.
Definition state_of {S A} (other : S) (r : result (A * S)) : S := match r with Ok (_, s) => s | Throw _ => other end.

Lemma succeeds_ok {S A} (x : A) (s : S) (r : result (A * S)) : succeeds r = true -> r = Ok (value_of x r, state_of s r).
Proof. by destruct r as [[? ?]|]. Qed.

Definition no_decision : GoalDecision :=
  {| dc_id := ""; dc_requestId := ""; dc_payloadHash := ""; dc_goalId := ""; dc_targetRevisionId := ""; dc_targetHash := "";
     dc_kind := GD_pause; dc_approvedItemIds := []; dc_reason := ""; dc_actorId := ""; dc_createdAt := 0 |}.

(** The approval of the definition. *)
Definition demo_decision : GoalDecision := value_of no_decision (decideGoal demo_approve 2 demo_drafted).
Definition demo_decided : GoalDb := state_of demo_drafted (decideGoal demo_approve 2 demo_drafted).
Definition demo_linked : GoalDb := after_calls calls_linked demo_decided.
Definition demo_done : GoalDb := after_calls calls_done demo_linked.

(** The closing of the goal. *)
Definition demo_closing : GoalDecision := value_of no_decision (decideGoal demo_close 8 demo_done).
Definition demo_closed : GoalDb := state_of demo_done (decideGoal demo_close 8 demo_done).

Lemma demo_fresh : no_goals demo_goals.
Proof. done. Qed.

Lemma demo_history : goal_history demo_goals demo_drafted /\ goal_history demo_drafted demo_done /\ goal_history demo_decided demo_done
  /\ goal_history demo_goals demo_done.
Proof.
  assert (goal_history demo_goals demo_drafted) as H1 by (apply after_history; [constructor|vm_compute; reflexivity]).
  assert (forall d0, goal_history d0 demo_drafted -> goal_history d0 demo_decided) as H2.
  { intros d0 Hd. apply (gh_call d0 (Call_decide demo_approve 2) demo_drafted); [done|]. cbn [run_call].
    rewrite (tx_bind_run _ _ _ demo_decision demo_decided); [done|]. apply succeeds_ok. vm_compute. reflexivity. }
  assert (forall d0, goal_history d0 demo_decided -> goal_history d0 demo_done) as H3.
  { intros d0 Hd. do 2 (apply after_history; [|vm_compute; reflexivity]). exact Hd. }
  split_and!; eauto using gh_start.
Qed.

Lemma one_goal_guides_witness : GoalsOk demo_done /\ exists g, guidingGoal "session" demo_done = Ok (g, demo_done).
Proof. apply (one_goal_guides demo_goals demo_done "session"); apply demo_fresh || apply demo_history. Defined.

Lemma goal_record_is_kept_witness : goal_revisions demo_drafted ⊆ goal_revisions demo_done /\ goal_decisions demo_drafted ⊆ goal_decisions demo_done.
Proof. destruct (goal_record_is_kept demo_drafted demo_done) as (H1 & H2 & _); [apply demo_history|by split]. Defined.

Lemma decision_repeats_witness : decideGoal demo_approve 9 demo_done = Ok (demo_decision, demo_done).
Proof.
  apply (decision_repeats demo_goals demo_drafted demo_approve 2 demo_decision demo_decided demo_done 9).
  - apply demo_fresh.
  - apply demo_history.
  - vm_compute. discriminate.
  - apply succeeds_ok. vm_compute. reflexivity.
  - apply demo_history.
Defined.

Lemma goal_closes_on_evidence_witness :
  decideGoal demo_close 8 demo_done = Ok (demo_closing, demo_closed)
  /\ Closable "uuid-0" demo_done /\ exists g, goals demo_closed !! "uuid-0"%string = Some g /\ go_status g = G_completed.
Proof.
  assert (decideGoal demo_close 8 demo_done = Ok (demo_closing, demo_closed)) as E by (apply succeeds_ok; vm_compute; reflexivity).
  split; [exact E|]. apply (goal_closes_on_evidence demo_close 8 demo_done demo_closing demo_closed E eq_refl).
  assert (map_Forall (fun _ y => dc_requestId y <> dc_requestId demo_closing) (goal_decisions demo_done)) as Hall
    by (refine (bool_decide_eq_true_1 _ _); vm_compute; reflexivity).
  intros i Hi. exact (Hall i demo_closing Hi eq_refl).
Defined.


(** ** The contract that loses its policy *)

Definition external_contract : json :=
  JObj [("sourceInput", JStr "Deploy the service"); ("objectives", JArr [JObj [("timing", JStr "current"); ("kind", JStr "release")]]);
        ("executionPolicy", JObj [("mode", JStr "external_action"); ("sideEffectRisk", JStr "external_high")])].

Definition demo_external : GoalDb :=
  after_calls [below (set_runs (alter (with_contract external_contract 3) "run"))] demo_decided.

Definition demo_attached : GoalDb := state_of demo_external (attachRun "run" None 4 demo_external).

Lemma succeeds_some {S A} (s : S) (r : result (option A * S)) : match r with Ok (Some _, _) => true | _ => false end = true ->
  exists g, r = Ok (Some g, state_of s r).
Proof. destruct r as [[[g|] s']|]; [by exists g|done..]. Qed.

