(* ===== verification/SessionInbox.v ===== *)
(** The inbox of a session (adapters/persistence-sqlite/src/store.ts, the
    methods on session_supervisor_inbox): submissions wait in a queue until one
    is claimed, which starts its TaskRun, or until they are routed to a running
    one, merged, deferred or deleted. *)
From S2P Require Import Prelude Json SessionInput Attempt ExecDb Canonical RunStore Continuation PlanStore Evidence CompletionGate RunView Service Approval Goal GoalStore.
Local Open Scope tx_scope.

(** * Tables *)

(** submission_audit_receipts, by session and idempotency key. *)
Record SubmissionAuditReceipt := {
  sr_submissionId : string; sr_principalId : string; sr_payloadHash : string; sr_canonicalPayload : string;
  sr_provenance : list (string * json); sr_createdAt : Z; sr_updatedAt : Z;
}.

Record SubmissionAuditInput := { sa_principalId : string; sa_canonicalPayload : string; sa_provenance : option (list (string * json)) }.

(** taskrun_edges, by both TaskRuns and the relation. *)
Record EdgeRow := { ed_reason : string; ed_createdAt : Z }.

(** session_inbox_revisions. *)
Record InboxRevision := { iv_revision : Z; iv_updatedAt : Z }.

(** What the operator's profile shows of an item. *)
Record ProfileInboxItem := {
  pb_itemId : string; pb_sessionId : string; pb_content : string; pb_itemStatus : string; pb_decision : string; pb_runId : option string;
  pb_itemPosition : Z; pb_summary : string; pb_intent : string; pb_targetRunId : option string; pb_priority : Z; pb_urgency : string;
  pb_relation : string; pb_acceptanceCriteria : list string; pb_confidence : Z; pb_reason : string;
  pb_executionPolicy : option (list (string * json)); pb_routingProvenance : option (list (string * json)); pb_itemRevision : Z;
  pb_createdAt : Z; pb_updatedAt : Z;
}.

Record ProfileInboxMutationValue := { pv_items : list ProfileInboxItem; pv_collectionRevision : Z }.

(** profile_mutation_receipts, by principal, endpoint, session and idempotency key. *)
Record ProfileReceipt := {
  pr_payloadHash : string; pr_expectedRevision : Z; pr_resultingRevision : Z; pr_value : ProfileInboxMutationValue; pr_createdAt : Z;
}.

Record ProfileAuditEvent := {
  pe_id : string; pe_principalId : string; pe_grantedScopes : list string; pe_delegatedActorId : option string;
  pe_delegatedRequestId : option string; pe_requestId : string; pe_endpointId : string; pe_resourceId : string; pe_operation : string;
  pe_createdAt : Z;
}.

(** [run_order] lists the TaskRuns as their rowids do. *)
Record SubmissionDb := {
  sb_goals : GoalDb; inbox_revisions : gmap string InboxRevision; submission_audits : gmap (string * string) SubmissionAuditReceipt;
  taskrun_edges : gmap (string * string * string) EdgeRow; run_order : list string;
  profile_receipts : gmap (string * string * string * string) ProfileReceipt; profile_audits : list ProfileAuditEvent;
}.

Definition sb_db (d : SubmissionDb) : Db := go_db (sb_goals d).
Definition items (d : SubmissionDb) : gmap string InboxRow := inbox (sb_db d).

Definition set_sb_goals (g : GoalDb) (d : SubmissionDb) : SubmissionDb :=
  {| sb_goals := g; inbox_revisions := inbox_revisions d; submission_audits := submission_audits d; taskrun_edges := taskrun_edges d;
     run_order := run_order d; profile_receipts := profile_receipts d; profile_audits := profile_audits d |}.

Definition set_inbox_revisions (f : gmap string InboxRevision -> gmap string InboxRevision) (d : SubmissionDb) : SubmissionDb :=
  {| sb_goals := sb_goals d; inbox_revisions := f (inbox_revisions d); submission_audits := submission_audits d;
     taskrun_edges := taskrun_edges d; run_order := run_order d; profile_receipts := profile_receipts d; profile_audits := profile_audits d |}.

Definition set_submission_audits (f : gmap (string * string) SubmissionAuditReceipt -> gmap (string * string) SubmissionAuditReceipt)
    (d : SubmissionDb) : SubmissionDb :=
  {| sb_goals := sb_goals d; inbox_revisions := inbox_revisions d; submission_audits := f (submission_audits d);
     taskrun_edges := taskrun_edges d; run_order := run_order d; profile_receipts := profile_receipts d; profile_audits := profile_audits d |}.

Definition set_edges (f : gmap (string * string * string) EdgeRow -> gmap (string * string * string) EdgeRow) (d : SubmissionDb) : SubmissionDb :=
  {| sb_goals := sb_goals d; inbox_revisions := inbox_revisions d; submission_audits := submission_audits d;
     taskrun_edges := f (taskrun_edges d); run_order := run_order d; profile_receipts := profile_receipts d; profile_audits := profile_audits d |}.

Definition set_run_order (f : list string -> list string) (d : SubmissionDb) : SubmissionDb :=
  {| sb_goals := sb_goals d; inbox_revisions := inbox_revisions d; submission_audits := submission_audits d;
     taskrun_edges := taskrun_edges d; run_order := f (run_order d); profile_receipts := profile_receipts d; profile_audits := profile_audits d |}.

Definition set_receipts (f : gmap (string * string * string * string) ProfileReceipt -> gmap (string * string * string * string) ProfileReceipt)
    (d : SubmissionDb) : SubmissionDb :=
  {| sb_goals := sb_goals d; inbox_revisions := inbox_revisions d; submission_audits := submission_audits d;
     taskrun_edges := taskrun_edges d; run_order := run_order d; profile_receipts := f (profile_receipts d); profile_audits := profile_audits d |}.

Definition set_profile_audits (f : list ProfileAuditEvent -> list ProfileAuditEvent) (d : SubmissionDb) : SubmissionDb :=
  {| sb_goals := sb_goals d; inbox_revisions := inbox_revisions d; submission_audits := submission_audits d;
     taskrun_edges := taskrun_edges d; run_order := run_order d; profile_receipts := profile_receipts d; profile_audits := f (profile_audits d) |}.

(** A transaction of the tables below. *)
Definition in_goals {A} (m : tx GoalDb A) : tx SubmissionDb A := fun d =>
  match m (sb_goals d) with Ok (a, g) => Ok (a, set_sb_goals g d) | Throw e => Throw e end.

Definition in_exec_db {A} (m : tx Db A) : tx SubmissionDb A := in_goals (in_store m).

Definition set_items (f : gmap string InboxRow -> gmap string InboxRow) : tx SubmissionDb unit := in_exec_db (modify (set_inbox f)).

(** * Rows *)

(** [revision=revision+1,updated_at=?], as every change of an item writes. *)
Definition revised_item (now : Z) (x : InboxRow) : InboxRow :=
  {| x_sessionId := x_sessionId x; x_requestId := x_requestId x; x_content := x_content x; x_status := x_status x;
     x_decision := x_decision x; x_runId := x_runId x; x_error := x_error x; x_position := x_position x;
     x_createdAt := x_createdAt x; x_updatedAt := now; x_claimedAt := x_claimedAt x; x_startedAt := x_startedAt x;
     x_analysis := x_analysis x; x_manualOrder := x_manualOrder x; x_revision := (x_revision x + 1)%Z |}.

Definition with_updatedAt (now : Z) (x : InboxRow) : InboxRow :=
  {| x_sessionId := x_sessionId x; x_requestId := x_requestId x; x_content := x_content x; x_status := x_status x;
     x_decision := x_decision x; x_runId := x_runId x; x_error := x_error x; x_position := x_position x;
     x_createdAt := x_createdAt x; x_updatedAt := now; x_claimedAt := x_claimedAt x; x_startedAt := x_startedAt x;
     x_analysis := x_analysis x; x_manualOrder := x_manualOrder x; x_revision := x_revision x |}.

Definition with_item_status (status decision : string) (x : InboxRow) : InboxRow :=
  {| x_sessionId := x_sessionId x; x_requestId := x_requestId x; x_content := x_content x; x_status := status;
     x_decision := decision; x_runId := x_runId x; x_error := x_error x; x_position := x_position x;
     x_createdAt := x_createdAt x; x_updatedAt := x_updatedAt x; x_claimedAt := x_claimedAt x; x_startedAt := x_startedAt x;
     x_analysis := x_analysis x; x_manualOrder := x_manualOrder x; x_revision := x_revision x |}.

Definition with_item_error (error : string) (x : InboxRow) : InboxRow :=
  {| x_sessionId := x_sessionId x; x_requestId := x_requestId x; x_content := x_content x; x_status := x_status x;
     x_decision := x_decision x; x_runId := x_runId x; x_error := error; x_position := x_position x;
     x_createdAt := x_createdAt x; x_updatedAt := x_updatedAt x; x_claimedAt := x_claimedAt x; x_startedAt := x_startedAt x;
     x_analysis := x_analysis x; x_manualOrder := x_manualOrder x; x_revision := x_revision x |}.

Definition with_item_run (runId : option string) (x : InboxRow) : InboxRow :=
  {| x_sessionId := x_sessionId x; x_requestId := x_requestId x; x_content := x_content x; x_status := x_status x;
     x_decision := x_decision x; x_runId := runId; x_error := x_error x; x_position := x_position x;
     x_createdAt := x_createdAt x; x_updatedAt := x_updatedAt x; x_claimedAt := x_claimedAt x; x_startedAt := x_startedAt x;
     x_analysis := x_analysis x; x_manualOrder := x_manualOrder x; x_revision := x_revision x |}.

Definition with_claimed (claimedAt startedAt : option Z) (x : InboxRow) : InboxRow :=
  {| x_sessionId := x_sessionId x; x_requestId := x_requestId x; x_content := x_content x; x_status := x_status x;
     x_decision := x_decision x; x_runId := x_runId x; x_error := x_error x; x_position := x_position x;
     x_createdAt := x_createdAt x; x_updatedAt := x_updatedAt x; x_claimedAt := claimedAt; x_startedAt := startedAt;
     x_analysis := x_analysis x; x_manualOrder := x_manualOrder x; x_revision := x_revision x |}.

Definition with_position (position : Z) (x : InboxRow) : InboxRow :=
  {| x_sessionId := x_sessionId x; x_requestId := x_requestId x; x_content := x_content x; x_status := x_status x;
     x_decision := x_decision x; x_runId := x_runId x; x_error := x_error x; x_position := position;
     x_createdAt := x_createdAt x; x_updatedAt := x_updatedAt x; x_claimedAt := x_claimedAt x; x_startedAt := x_startedAt x;
     x_analysis := x_analysis x; x_manualOrder := x_manualOrder x; x_revision := x_revision x |}.

Definition with_manual_order (manual : bool) (x : InboxRow) : InboxRow :=
  {| x_sessionId := x_sessionId x; x_requestId := x_requestId x; x_content := x_content x; x_status := x_status x;
     x_decision := x_decision x; x_runId := x_runId x; x_error := x_error x; x_position := x_position x;
     x_createdAt := x_createdAt x; x_updatedAt := x_updatedAt x; x_claimedAt := x_claimedAt x; x_startedAt := x_startedAt x;
     x_analysis := x_analysis x; x_manualOrder := manual; x_revision := x_revision x |}.

Definition with_item_content (content : string) (analysis : SessionInputAnalysis) (x : InboxRow) : InboxRow :=
  {| x_sessionId := x_sessionId x; x_requestId := x_requestId x; x_content := content; x_status := x_status x;
     x_decision := x_decision x; x_runId := x_runId x; x_error := x_error x; x_position := x_position x;
     x_createdAt := x_createdAt x; x_updatedAt := x_updatedAt x; x_claimedAt := x_claimedAt x; x_startedAt := x_startedAt x;
     x_analysis := analysis; x_manualOrder := x_manualOrder x; x_revision := x_revision x |}.

(** * Reading *)

Record Submission := { sm_id : string; sm_row : InboxRow; sm_analysis : SessionInputAnalysis }.

Definition fallback_objective (x : InboxRow) : TaskObjective :=
  let relation := an_relation (x_analysis x) in
  {| ob_id := "objective-1"; ob_summary := or_text (an_summary (x_analysis x)) (x_content x);
     ob_timing := if String.eqb relation "parallel" then "parallel" else if String.eqb relation "follow_up" then "follow_up" else "current";
     ob_kind := "other" |}.

(** The analysis of a row, with what its empty columns stand for. *)
Definition hydrated_analysis (x : InboxRow) : SessionInputAnalysis :=
  let a := x_analysis x in
  {| an_summary := or_text (an_summary a) (x_content x);
     an_objectives := match an_objectives a with [] => [fallback_objective x] | os => os end;
     an_intent := an_intent a; an_targetRunId := truthy_text (an_targetRunId a); an_priority := an_priority a; an_urgency := an_urgency a;
     an_relation := an_relation a; an_acceptanceCriteria := an_acceptanceCriteria a; an_scope := or_text (an_scope a) (an_summary a);
     an_nonGoals := an_nonGoals a; an_confidence := an_confidence a; an_reason := an_reason a; an_routerVersion := an_routerVersion a;
     an_executionPolicy := an_executionPolicy a;
     an_routingProvenance := match an_routingProvenance a with Some [] => None | o => o end |}.

Definition hydrateSessionInbox (id : string) (x : InboxRow) : Submission :=
  {| sm_id := id; sm_row := x; sm_analysis := hydrated_analysis x |}.

Definition getSessionInboxItem (id : string) (d : SubmissionDb) : option Submission := hydrateSessionInbox id <$> items d !! id.

Definition requested (sessionId requestId : string) (x : InboxRow) : bool :=
  String.eqb (x_sessionId x) sessionId && String.eqb (x_requestId x) requestId.

(** The row a predicate of a unique index selects. *)
Definition find_item (p : InboxRow -> bool) (d : SubmissionDb) : option (string * InboxRow) :=
  List.find (fun ix => p ix.2) (map_to_list (items d)).

Definition getSessionSubmission (sessionId requestId : string) (d : SubmissionDb) : option Submission :=
  (fun ix => hydrateSessionInbox ix.1 ix.2) <$> find_item (requested sessionId requestId) d.

(** The order of the queue: manual order, urgency, priority, position, time, id. *)
Definition queue_key (x : InboxRow) : list Z :=
  [if x_manualOrder x then -1 else 0; if x_manualOrder x then x_position x else 0; - urgency_rank (an_urgency (x_analysis x));
   - an_priority (x_analysis x); x_position x; x_createdAt x]%Z.

Fixpoint lex (a b : list Z) : comparison :=
  match a, b with
  | [], [] => Eq
  | [], _ :: _ => Lt
  | _ :: _, [] => Gt
  | x :: a', y :: b' => match Z.compare x y with Eq => lex a' b' | c => c end
  end.

Definition queue_before (a b : string * InboxRow) : bool :=
  match lex (queue_key a.2) (queue_key b.2) with Lt => true | Gt => false | Eq => String.leb a.1 b.1 end.

Definition queue_le (a b : string * InboxRow) : Prop := Is_true (queue_before a b).
#[export] Instance queue_le_dec : RelDecision queue_le.
Proof. intros a b. unfold queue_le. apply _. Defined.

Definition ordered (p : InboxRow -> bool) (d : SubmissionDb) : list (string * InboxRow) :=
  merge_sort queue_le (List.filter (fun ix => p ix.2) (map_to_list (items d))).

Definition listSessionInbox (sessionId : string) (includeTerminal : bool) (d : SubmissionDb) : list Submission :=
  map (fun ix => hydrateSessionInbox ix.1 ix.2)
    (ordered (fun x => String.eqb (x_sessionId x) sessionId && (includeTerminal || includes (x_status x) ["queued"; "claimed"]%string)) d).

Definition isGoalLinkedInbox (itemId : string) (d : SubmissionDb) : bool :=
  existsb (fun l => String.eqb (il_inboxItemId l) itemId) (inbox_links (sb_goals d)).

(** Some session of a queued item; each session once. *)
Definition listSessionsWithQueuedInbox (d : SubmissionDb) : list string :=
  dedup (map x_sessionId (List.filter (fun x => String.eqb (x_status x) "queued") (map snd (map_to_list (items d))))).

(** * Statements *)

(** [UPDATE session_supervisor_inbox SET f WHERE id=? AND p], and whether it changed a row. *)
Definition update_item (id : string) (p : InboxRow -> bool) (f : InboxRow -> InboxRow) : tx SubmissionDb bool :=
  let* d := gets (fun d => d) in
  match items d !! id with
  | Some x => if p x then do* set_items (insert id (f x)) in mret true else mret false
  | None => mret false
  end.

Definition queued_in (sessionId : string) (x : InboxRow) : bool :=
  String.eqb (x_sessionId x) sessionId && String.eqb (x_status x) "queued".

Definition touchSessionInboxRevision (sessionId : string) (now : Z) : tx SubmissionDb unit :=
  modify (set_inbox_revisions (fun m =>
    <[sessionId := {| iv_revision := match m !! sessionId with Some v => iv_revision v + 1 | None => 2 end; iv_updatedAt := now |}]> m)).

(** [UPDATE], then the revision of the collection when it changed a row. *)
Definition change_item (id sessionId : string) (p : InboxRow -> bool) (f : InboxRow -> InboxRow) (now : Z) : tx SubmissionDb bool :=
  let* changed := update_item id p f in
  do* (if changed : bool then touchSessionInboxRevision sessionId now else mret tt) in
  mret changed.

(** The same, and the item when it changed. *)
Definition changed_item (id sessionId : string) (p : InboxRow -> bool) (f : InboxRow -> InboxRow) (now : Z) : tx SubmissionDb (option Submission) :=
  let* changed := change_item id sessionId p f now in
  let* d := gets (fun d => d) in
  mret (if changed : bool then getSessionInboxItem id d else None).

Section inbox.
Context `{Platform}.

(** * Submitting *)

Definition getSubmissionAudit (sessionId requestId : string) (d : SubmissionDb) : option SubmissionAuditReceipt :=
  submission_audits d !! (sessionId, requestId).

Definition recordSubmissionAudit (item : Submission) (audit : SubmissionAuditInput) (now : Z) : tx SubmissionDb SubmissionAuditReceipt :=
  let conflict := Error "Submission idempotency conflict: key is bound to a different canonical payload" in
  let payloadHash := sha256 (sa_canonicalPayload audit) in
  let key := (x_sessionId (sm_row item), x_requestId (sm_row item)) in
  let matching (r : SubmissionAuditReceipt) := String.eqb (sr_submissionId r) (sm_id item) && String.eqb (sr_payloadHash r) payloadHash in
  let* d := gets id in
  match submission_audits d !! key with
  | Some existing => do* require (matching existing) conflict in mret existing
  | None =>
      (* the constraint that fails is ignored *)
      do* (if exists_where (fun _ r => String.eqb (sr_submissionId r) (sm_id item)) (submission_audits d) then mret tt
           else modify (set_submission_audits (insert key
             {| sr_submissionId := sm_id item; sr_principalId := sa_principalId audit; sr_payloadHash := payloadHash;
                sr_canonicalPayload := sa_canonicalPayload audit; sr_provenance := default [] (sa_provenance audit);
                sr_createdAt := now; sr_updatedAt := now |}))) in
      let* d := gets id in
      let* recorded := present (submission_audits d !! key) conflict in
      do* require (matching recorded) conflict in
      mret recorded
  end.

Definition record_audit (item : Submission) (audit : option SubmissionAuditInput) (now : Z) : tx SubmissionDb unit :=
  match audit with Some a => let* _ := recordSubmissionAudit item a now in mret tt | None => mret tt end.

(** [COALESCE(MAX(position),0)+1] of the queued items of the session. *)
Definition next_position (sessionId : string) (d : SubmissionDb) : Z :=
  (map_fold (fun _ x acc => if queued_in sessionId x then Z.max (x_position x) acc else acc) 0 (items d) + 1)%Z.

(** The queue of the session; a request id names one submission. *)
Definition enqueueSessionInbox (sessionId content : string) (analysis : SessionInputAnalysis) (requestId : string)
    (audit : option SubmissionAuditInput) (now : Z) : tx SubmissionDb Submission :=
  do* lift (assertSubmissionContent content) in
  let* d := gets id in
  match getSessionSubmission sessionId requestId d with
  | Some item =>
      do* require (String.eqb (x_content (sm_row item)) content) (Error "Session Inbox request idempotency conflict") in
      do* record_audit item audit now in
      mret item
  | None =>
      let* itemId := in_exec_db randomUUID in
      do* require (bool_decide (items d !! itemId = None)) (SqliteError "session_supervisor_inbox.id") in
      do* require (bool_decide (is_Some (sessions (sb_db d) !! sessionId))) (SqliteError "session_supervisor_inbox.session_id") in
      let row := {| x_sessionId := sessionId; x_requestId := requestId; x_content := content; x_status := "queued"; x_decision := "pending";
        x_runId := None; x_error := ""; x_position := next_position sessionId d; x_createdAt := now; x_updatedAt := now; x_claimedAt := None;
        x_startedAt := None; x_analysis := analysis; x_manualOrder := false; x_revision := 1 |} in
      do* set_items (insert itemId row) in
      do* touchSessionInboxRevision sessionId now in
      let item := hydrateSessionInbox itemId row in
      do* record_audit item audit now in
      mret item
  end.

(** A queued item that asks for the same: the new submission repeats it. *)
Definition findMergeCandidate (sessionId : string) (analysis : SessionInputAnalysis) (d : SubmissionDb) : option Submission :=
  let normalized := normalized_summary (an_summary analysis) in
  if String.eqb normalized "" then None else
  List.find (fun item =>
      String.eqb (x_status (sm_row item)) "queued" && String.eqb (x_decision (sm_row item)) "pending" && negb (isGoalLinkedInbox (sm_id item) d)
      && String.eqb (gate_choice (sm_analysis item)) (gate_choice analysis)
      && String.eqb (an_intent (sm_analysis item)) (an_intent analysis)
      && String.eqb (normalized_summary (an_summary (sm_analysis item))) normalized)
    (listSessionInbox sessionId false d).

(** * Changing queued items *)

Definition free (id : string) (d : SubmissionDb) : bool := negb (isGoalLinkedInbox id d).

Definition coalesce (o : option Z) (now : Z) : option Z := match o with Some t => Some t | None => Some now end.

Definition routed (decision : string) (runId : option string) (error : string) (now : Z) (x : InboxRow) : InboxRow :=
  revised_item now (with_claimed (coalesce (x_claimedAt x) now) (coalesce (x_startedAt x) now)
    (with_item_error error (with_item_run runId (with_item_status "routed" decision x)))).

(** A TaskRun that is named was read by the caller. *)
Definition routeSessionInboxItem (id sessionId decision : string) (runId : option string) (error : string) (now : Z) : tx SubmissionDb (option Submission) :=
  let* d := gets (fun d => d) in
  changed_item id sessionId (fun x => queued_in sessionId x && free id d) (routed decision runId error now) now.

Definition markSessionInboxDuplicate (sourceId targetId sessionId : string) (now : Z) : tx SubmissionDb (option Submission) :=
  let* d := gets (fun d => d) in
  if negb (free sourceId d) || negb (free targetId d) then mret None else
  changed_item sourceId sessionId (queued_in sessionId)
    (fun x => revised_item now (with_item_error ("Duplicate of " +:+ targetId) (with_item_status "deleted" "merge" x))) now.

(** The analysis an edit without one keeps: that of the item, with a new summary. *)
Definition resummarized (text : string) (a : SessionInputAnalysis) : SessionInputAnalysis :=
  {| an_summary := slice_to 120 text; an_objectives := an_objectives a; an_intent := an_intent a; an_targetRunId := an_targetRunId a;
     an_priority := an_priority a; an_urgency := an_urgency a; an_relation := an_relation a; an_acceptanceCriteria := an_acceptanceCriteria a;
     an_scope := slice_to 120 text; an_nonGoals := an_nonGoals a; an_confidence := an_confidence a; an_reason := an_reason a;
     an_routerVersion := an_routerVersion a; an_executionPolicy := an_executionPolicy a; an_routingProvenance := an_routingProvenance a |}.

Definition updateSessionInboxItem (id sessionId content : string) (analysis : option SessionInputAnalysis) (now : Z)
    : tx SubmissionDb (option Submission) :=
  let trimmed := trim content in
  if String.eqb trimmed "" then mret None else
  do* lift (assertSubmissionContent content) in
  let* d := gets (fun d => d) in
  let resolved x := match analysis with Some a => a | None => resummarized trimmed (hydrated_analysis x) end in
  changed_item id sessionId (fun x => queued_in sessionId x && free id d)
    (fun x => revised_item now (with_item_content trimmed (resolved x) x)) now.

Definition position_of (ids : list string) (id : string) : option Z :=
  match List.find (fun ki => String.eqb ki.2 id) (imap pair ids) with Some ki => Some (Z.of_nat (S ki.1)) | None => None end.

(** The items of the session take the positions [ids] names them in. *)
Definition reordered (sessionId : string) (ids : list string) (now : Z) (id : string) (x : InboxRow) : InboxRow :=
  if queued_in sessionId x
  then with_manual_order true (match position_of ids id with Some p => revised_item now (with_position p x) | None => x end)
  else x.

Definition queued_ids (sessionId : string) (d : SubmissionDb) : list string :=
  map fst (List.filter (fun ix => queued_in sessionId ix.2) (map_to_list (items d))).

Definition reorderSessionInbox (sessionId : string) (itemIds : list string) (now : Z) : tx SubmissionDb (option (list Submission)) :=
  let* d := gets (fun d => d) in
  let current := queued_ids sessionId d in
  if negb (Nat.eqb (length itemIds) (length current)) || negb (Nat.eqb (length (dedup itemIds)) (length itemIds))
     || existsb (fun i => negb (includes i current)) itemIds
  then mret None else
  do* set_items (map_imap (fun id x => Some (reordered sessionId itemIds now id x))) in
  do* touchSessionInboxRevision sessionId now in
  let* d := gets (fun d => d) in
  mret (Some (listSessionInbox sessionId false d)).

Definition deleteSessionInboxItem (id sessionId : string) (now : Z) : tx SubmissionDb bool :=
  let* d := gets (fun d => d) in
  change_item id sessionId (fun x => queued_in sessionId x && free id d) (fun x => revised_item now (with_item_status "deleted" "delete" x)) now.

(** [DELETE], with the rows that refer to the item. *)
Definition discardSessionInboxItem (id sessionId : string) (now : Z) : tx SubmissionDb bool :=
  let* d := gets (fun d => d) in
  match items d !! id with
  | Some x =>
      if queued_in sessionId x && bool_decide (x_runId x = None) then
        do* set_items (delete id) in
        do* modify (set_submission_audits (filter (fun kr => sr_submissionId kr.2 <> id))) in
        do* in_goals (modify (set_inbox_links (List.filter (fun l => negb (String.eqb (il_inboxItemId l) id))))) in
        do* touchSessionInboxRevision sessionId now in
        mret true
      else mret false
  | None => mret false
  end.

Definition decideSessionInboxItem (id sessionId decision : string) (now : Z) : tx SubmissionDb bool :=
  let* d := gets (fun d => d) in
  change_item id sessionId (fun x => queued_in sessionId x && free id d) (fun x => revised_item now (with_item_status (x_status x) decision x)) now.

Definition markSessionInboxNeedsClarification (id sessionId reason : string) (now : Z) : tx SubmissionDb (option Submission) :=
  changed_item id sessionId (fun x => queued_in sessionId x && String.eqb (x_decision x) "pending")
    (fun x => revised_item now (with_item_error reason (with_item_status (x_status x) "needs_clarification" x))) now.

(** What the target asks for when the source is merged into it. *)
Definition merged_analysis (target source : Submission) (a : SessionInputAnalysis) : SessionInputAnalysis :=
  let t := sm_analysis target in
  let s := sm_analysis source in
  let both sep x y := join sep (List.filter (fun v => negb (String.eqb v "")) [x; y]) in
  {| an_summary := slice_to 120 (both " + " (an_summary t) (an_summary s)); an_objectives := an_objectives a; an_intent := an_intent a;
     an_targetRunId := an_targetRunId a; an_priority := Z.max (an_priority t) (an_priority s);
     an_urgency := if (urgency_rank (an_urgency t) <? urgency_rank (an_urgency s))%Z then an_urgency s else an_urgency t;
     an_relation := an_relation a; an_acceptanceCriteria := dedup (an_acceptanceCriteria t ++ an_acceptanceCriteria s);
     an_scope := both "; " (an_scope t) (an_scope s); an_nonGoals := an_nonGoals a; an_confidence := Z.min (an_confidence t) (an_confidence s);
     an_reason := "Merged queued instructions " +:+ sm_id target +:+ " and " +:+ sm_id source; an_routerVersion := an_routerVersion a;
     an_executionPolicy := an_executionPolicy a; an_routingProvenance := an_routingProvenance a |}.

Definition merged_content (target source : Submission) : string :=
  x_content (sm_row target) +:+ newline_text +:+ newline_text +:+ "Additional queued instruction:" +:+ newline_text +:+ x_content (sm_row source).

Definition mergeSessionInboxItems (sourceId targetId sessionId : string) (now : Z) : tx SubmissionDb bool :=
  if String.eqb sourceId targetId then mret false else
  let* d := gets (fun d => d) in
  match getSessionInboxItem sourceId d, getSessionInboxItem targetId d with
  | Some source, Some target =>
      if negb (queued_in sessionId (sm_row source)) || negb (queued_in sessionId (sm_row target)) then mret false else
      if negb (free sourceId d) || negb (free targetId d) then mret false else
      let* _ := update_item targetId (fun x => String.eqb (x_status x) "queued") (fun x => revised_item now
        (with_item_status (x_status x) "pending" (with_item_content (merged_content target source) (merged_analysis target source (x_analysis x)) x))) in
      let* _ := update_item sourceId (fun x => String.eqb (x_status x) "queued")
        (fun x => revised_item now (with_item_error ("Merged into " +:+ targetId) (with_item_status "deleted" "merge" x))) in
      do* touchSessionInboxRevision sessionId now in
      mret true
  | _, _ => mret false
  end.

(** * Claiming *)

(** The TaskRun of the session that was created last. *)
Definition latest_run (sessionId : string) (d : SubmissionDb) : option string :=
  last (List.filter (fun r => match runs (sb_db d) !! r with Some row => String.eqb (r_sessionId row) sessionId | None => false end) (run_order d)).

(** A TaskRun keeps the queue of its session waiting while it is active, or is the last and may be resumed. *)
Definition occupies (sessionId : string) (d : SubmissionDb) (runId : string) (r : RunRow) : bool :=
  String.eqb (r_sessionId r) sessionId
  && (includes (r_status r) [R_running; R_waiting_input]
      || includes (r_status r) [R_blocked; R_interrupted] && bool_decide (latest_run sessionId d = Some runId)).

Definition session_occupied (sessionId : string) (d : SubmissionDb) : bool := exists_where (occupies sessionId d) (runs (sb_db d)).

Definition contract_of_item (item : Submission) : list (string * json) :=
  let a := sm_analysis item in
  [("sourceInput", JStr (x_content (sm_row item))); ("summary", JStr (an_summary a)); ("objectives", JArr (map objective_json (an_objectives a)));
   ("acceptanceCriteria", texts (an_acceptanceCriteria a)); ("scope", JStr (an_scope a)); ("nonGoals", texts (an_nonGoals a));
   ("sourceInboxIds", texts [sm_id item]); ("parentRunId", match an_targetRunId a with Some r => JStr r | None => JNull end);
   ("relation", JStr (an_relation a)); ("intent", JStr (an_intent a)); ("decisionReason", JStr (an_reason a));
   ("routerVersion", JStr (an_routerVersion a))]
  ++ optional_member "executionPolicy" (an_executionPolicy a) ++ optional_member "routingProvenance" (an_routingProvenance a).

Definition edge_relation (relation : string) : string :=
  if includes relation ["parallel"; "follow_up"; "derived"; "depends_on"]%string then relation else "derived".

(** [INSERT OR IGNORE INTO taskrun_edges]: the parent has to exist. *)
Definition insert_edge (parent : string) (item : Submission) (runId : string) (now : Z) : tx SubmissionDb unit :=
  let* d := gets id in
  do* require (bool_decide (is_Some (runs (sb_db d) !! parent))) (SqliteError "taskrun_edges.from_run_id") in
  let key := (parent, runId, edge_relation (an_relation (sm_analysis item))) in
  modify (set_edges (fun m => match m !! key with
    | Some _ => m
    | None => <[key := {| ed_reason := "Session Inbox " +:+ sm_id item +:+ ": " +:+ an_reason (sm_analysis item); ed_createdAt := now |}]> m
    end)).

(** [try { m } catch (error) { }]: what it threw. *)
Definition caught {S A} (m : tx S A) : tx S (option exn) := fun s =>
  match m s with Ok (_, s') => Ok (None, s') | Throw e => Ok (Some e, s) end.

Record ClaimedSubmission := { cl_item : Submission; cl_run : RunRow }.

Context `{ContractType}.

(** The TaskRun of a claimed item: created, linked to its parent, attached to
    the goal of the workspace, or failed when it may not be attached. *)
Definition start_claimed (inbox : Submission) (selectedSkills : list SkillRevision) (now : Z) : tx SubmissionDb (string * string) :=
  let sessionId := x_sessionId (sm_row inbox) in
  let* run := in_exec_db (createRun sessionId (or_text (an_summary (sm_analysis inbox)) (x_content (sm_row inbox))) ("inbox:" +:+ sm_id inbox)
    (Some (contract_of (contract_of_item inbox))) selectedSkills now) in
  let runId := r_id run in
  do* modify (set_run_order (fun l => l ++ [runId])) in
  do* match an_targetRunId (sm_analysis inbox) with
      | Some parent => if String.eqb parent runId then mret tt else insert_edge parent inbox runId now
      | None => mret tt
      end in
  let* error := caught (in_goals (attachRun runId (Some (sm_id inbox)) now)) in
  match error with
  | None => mret (runId, ""%string)
  | Some e =>
      let message := exn_message e in
      let* _ := in_exec_db (transitionRun runId [R_running] R_failed "run.failed"
        (JObj [("reason", JStr "workspace_goal_authorization_failed"); ("error", JStr message)]) message (Some (r_attempt run)) now) in
      mret (runId, message)
  end.

Definition claimSessionInboxItem (itemId sessionId : string) (selectedSkills : list SkillRevision) (now : Z)
    : tx SubmissionDb (option ClaimedSubmission) :=
  let* claimed := update_item itemId (queued_in sessionId)
    (fun x => revised_item now (with_claimed (Some now) (x_startedAt x) (with_item_status "claimed" "start_taskrun" x))) in
  if negb claimed then mret None else
  do* touchSessionInboxRevision sessionId now in
  let* d := gets id in
  let* inbox := present (getSessionInboxItem itemId d) (TypeError "item is undefined") in
  let* started := start_claimed inbox selectedSkills now in
  let* _ := update_item itemId (fun x => String.eqb (x_status x) "claimed") (fun x => revised_item now
    (with_claimed (x_claimedAt x) (Some now) (with_item_run (Some started.1) (with_item_status "started" (x_decision x) x)))) in
  let* _ := (if String.eqb started.2 "" then mret false else
    update_item itemId (fun _ => true) (fun x => with_item_error started.2 (with_updatedAt now x))) in
  do* touchSessionInboxRevision sessionId now in
  let* d := gets id in
  let* item := present (getSessionInboxItem itemId d) (TypeError "item is undefined") in
  let* run := present (runs (sb_db d) !! started.1) (TypeError "run is undefined") in
  mret (Some {| cl_item := item; cl_run := run |}).

Definition pending_in (sessionId : string) (x : InboxRow) : bool := queued_in sessionId x && String.eqb (x_decision x) "pending".

Definition claimNextSessionInbox (sessionId : string) (selectedSkills : list SkillRevision) (now : Z) : tx SubmissionDb (option ClaimedSubmission) :=
  let* d := gets id in
  if session_occupied sessionId d then mret None else
  match ordered (pending_in sessionId) d with
  | [] => mret None
  | (itemId, _) :: _ => claimSessionInboxItem itemId sessionId selectedSkills now
  end.

Inductive ClaimNow :=
  | claim_not_queued
  | claim_running (runId : string)
  | claim_continuation (continuationId : string)
  | claim_started (claimed : ClaimedSubmission).

Definition later_run (a b : string * RunRow) : Prop := Is_true (r_updatedAt b.2 <=? r_updatedAt a.2)%Z.
#[export] Instance later_run_dec : RelDecision later_run.
Proof. intros a b. unfold later_run. apply _. Defined.

(** The running TaskRuns of the session, the last updated first. *)
Definition running_in (sessionId : string) (d : SubmissionDb) : list (string * RunRow) :=
  merge_sort later_run (List.filter (fun kr => String.eqb (r_sessionId kr.2) sessionId && bool_decide (r_status kr.2 = R_running))
    (map_to_list (runs (sb_db d)))).

(** A continuation of the session that waits or runs. *)
Definition session_continuation (sessionId : string) (p : string -> bool) (d : SubmissionDb) : option (string * ContinuationRow) :=
  List.find (fun kn => p (n_runId kn.2) && continuation_active (n_status kn.2)
      && match runs (sb_db d) !! n_runId kn.2 with
         | Some r => String.eqb (r_sessionId r) sessionId && includes (r_status r) [R_blocked; R_interrupted]
         | None => false
         end)
    (map_to_list (continuations (sb_db d))).

(** [running && !(allowApprovedParallel && ... === running.id)] *)
Definition excluded (item : Submission) (allowApprovedParallel : bool) (runId : string) : bool :=
  negb (allowApprovedParallel && String.eqb (an_relation (sm_analysis item)) "parallel"
        && bool_decide (an_targetRunId (sm_analysis item) = Some runId)).

Definition claimSessionInboxNow (itemId sessionId : string) (allowApprovedParallel : bool) (selectedSkills : list SkillRevision) (now : Z)
    : tx SubmissionDb ClaimNow :=
  let* d := gets id in
  match getSessionInboxItem itemId d with
  | Some item =>
      if negb (queued_in sessionId (sm_row item)) then mret claim_not_queued else
      let go :=
        match session_continuation sessionId (fun _ => true) d with
        | Some kn => mret (claim_continuation kn.1)
        | None =>
            let* claimed := claimSessionInboxItem itemId sessionId selectedSkills now in
            mret (match claimed with Some c => claim_started c | None => claim_not_queued end)
        end in
      match running_in sessionId d with
      | (runId, _) :: _ => if excluded item allowApprovedParallel runId then mret (claim_running runId) else go
      | [] => go
      end
  | None => mret claim_not_queued
  end.

(** * A launch that failed *)

Definition recordSessionInboxLaunchFailure (itemId runId error : string) (now : Z) : tx SubmissionDb unit :=
  let* d := gets id in
  match items d !! itemId with
  | Some x =>
      if bool_decide (x_runId x = Some runId) then
        do* set_items (insert itemId (revised_item now (with_item_error error (with_item_status "started" (x_decision x) x)))) in
        touchSessionInboxRevision (x_sessionId x) now
      else mret tt
  | None => mret tt
  end.

(** The run.failed event of the TaskRun with the greatest number. *)
Definition last_failure (runId : string) (d : SubmissionDb) : option EventRow :=
  snd <$> map_fold (fun k e acc => if String.eqb k.1 runId && String.eqb (e_type e) "run.failed"
      then match acc with Some best => if (best.1 <? k.2)%Z then Some (k.2, e) else acc | None => Some (k.2, e) end
      else acc) None (events (sb_db d)).

(** [json_extract(data,'$.retryable') = 1] *)
Definition retryable_data (data : json) : bool :=
  match record data with
  | Some fs => opt_str_is (field "reason" fs) "runtime_initialization_failed"
               && match field "retryable" fs with Some (JBool b) => b | Some (JInt z) => Z.eqb z 1 | _ => false end
  | None => false
  end.

Definition started_by (runId : string) (x : InboxRow) : bool := bool_decide (x_runId x = Some runId) && String.eqb (x_status x) "started".

Definition isInboxLaunchRetryable (runId : string) (d : SubmissionDb) : bool :=
  bool_decide (is_Some (find_item (started_by runId) d))
  && match runs (sb_db d) !! runId with Some r => bool_decide (r_status r = R_failed) | None => false end
  && match last_failure runId d with Some e => retryable_data (e_data e) | None => false end.

Inductive RetryLaunch :=
  | retry_not_retryable
  | retry_running (runId : string)
  | retry_continuation (continuationId : string)
  | retry_started (claimed : ClaimedSubmission).

Definition relaunched (now : Z) (r : RunRow) : RunRow :=
  {| r_id := r_id r; r_sessionId := r_sessionId r; r_requestId := r_requestId r; r_status := R_running; r_phase := P_discover;
     r_goal := r_goal r; r_contract := r_contract r; r_gateRequired := r_gateRequired r; r_blockedReason := "";
     r_attempt := r_attempt r + 1; r_lastEventSeq := r_lastEventSeq r; r_createdAt := r_createdAt r; r_updatedAt := now;
     r_completedAt := None; r_resumedAt := Some now |}.

Definition retryInboxLaunch (runId : string) (now : Z) : tx SubmissionDb RetryLaunch :=
  let* d := gets id in
  match runs (sb_db d) !! runId, find_item (started_by runId) d with
  | Some run, Some (itemId, _) =>
      if negb (bool_decide (r_status run = R_failed)) || negb (isInboxLaunchRetryable runId d) then mret retry_not_retryable else
      match List.find (fun kr => negb (String.eqb kr.1 runId)) (running_in (r_sessionId run) d) with
      | Some (other, _) => mret (retry_running other)
      | None =>
          match session_continuation (r_sessionId run) (fun r => negb (String.eqb r runId)) d with
          | Some kn => mret (retry_continuation kn.1)
          | None =>
              do* in_exec_db (modify (set_runs (insert runId (relaunched now run)))) in
              let* _ := update_item itemId (started_by runId) (fun x => revised_item now (with_item_error "" x)) in
              do* touchSessionInboxRevision (r_sessionId run) now in
              do* in_exec_db (projectAttempt runId (r_attempt run + 1) T_retry A_running "retry" "" (r_lastEventSeq run) now) in
              let* d := gets id in
              let* item := present (getSessionInboxItem itemId d) (TypeError "item is undefined") in
              let* run := present (runs (sb_db d) !! runId) (TypeError "run is undefined") in
              mret (retry_started {| cl_item := item; cl_run := run |})
          end
      end
  | _, _ => mret retry_not_retryable
  end.

(** * The operator's profile *)

Record ProfileMutationContext := {
  pc_principalId : string; pc_grantedScopes : list string; pc_delegatedActorId : option string; pc_delegatedRequestId : option string;
  pc_requestId : string; pc_idempotencyKey : string; pc_canonicalPayload : string; pc_expectedRevision : Z;
}.

Inductive ProfileMutationResult :=
  | pm_succeeded (value : ProfileInboxMutationValue) (replayed : bool)
  | pm_not_found
  | pm_idempotency_conflict
  | pm_concurrency_conflict (currentRevision : Z)
  | pm_state_conflict.

(** An empty provenance shows as none. *)
Definition getProfileInboxItem (sessionId itemId : string) (d : SubmissionDb) : option ProfileInboxItem :=
  x ← items d !! itemId;
  if String.eqb (x_sessionId x) sessionId then
    let a := x_analysis x in
    Some {| pb_itemId := itemId; pb_sessionId := x_sessionId x; pb_content := x_content x; pb_itemStatus := x_status x;
            pb_decision := x_decision x; pb_runId := x_runId x; pb_itemPosition := x_position x; pb_summary := an_summary a;
            pb_intent := an_intent a; pb_targetRunId := an_targetRunId a; pb_priority := an_priority a; pb_urgency := an_urgency a;
            pb_relation := an_relation a; pb_acceptanceCriteria := an_acceptanceCriteria a; pb_confidence := an_confidence a;
            pb_reason := an_reason a; pb_executionPolicy := an_executionPolicy a;
            pb_routingProvenance := match an_routingProvenance a with Some [] => None | o => o end; pb_itemRevision := x_revision x;
            pb_createdAt := x_createdAt x; pb_updatedAt := x_updatedAt x |}
  else None.

(** A change the operator asks for by the revision it knows; the same key again
    gets the same answer. *)
Definition mutateSessionInboxProfile (sessionId endpointId operation : string) (mutation : ProfileMutationContext)
    (work : tx SubmissionDb (option (list string))) (now : Z) : tx SubmissionDb ProfileMutationResult :=
  let key := (pc_principalId mutation, endpointId, sessionId, pc_idempotencyKey mutation) in
  let payloadHash := sha256 (pc_canonicalPayload mutation) in
  let* d := gets id in
  match profile_receipts d !! key with
  | Some existing =>
      mret (if String.eqb (pr_payloadHash existing) payloadHash && Z.eqb (pr_expectedRevision existing) (pc_expectedRevision mutation)
            then pm_succeeded (pr_value existing) true else pm_idempotency_conflict)
  | None =>
      match inbox_revisions d !! sessionId with
      | None => mret pm_not_found
      | Some current =>
          if negb (Z.eqb (iv_revision current) (pc_expectedRevision mutation)) then mret (pm_concurrency_conflict (iv_revision current)) else
          let* itemIds := work in
          match itemIds with
          | None => mret pm_state_conflict
          | Some itemIds =>
              let* d := gets id in
              let* resulting := present (inbox_revisions d !! sessionId) (TypeError "revision is undefined") in
              let value := {| pv_items := omap (fun i => getProfileInboxItem sessionId i d) itemIds; pv_collectionRevision := iv_revision resulting |} in
              do* modify (set_receipts (insert key
                {| pr_payloadHash := payloadHash; pr_expectedRevision := pc_expectedRevision mutation; pr_resultingRevision := iv_revision resulting;
                   pr_value := value; pr_createdAt := now |})) in
              let* auditId := in_exec_db randomUUID in
              do* modify (set_profile_audits (fun l => l ++
                [{| pe_id := auditId; pe_principalId := pc_principalId mutation; pe_grantedScopes := pc_grantedScopes mutation;
                    pe_delegatedActorId := pc_delegatedActorId mutation; pe_delegatedRequestId := pc_delegatedRequestId mutation;
                    pe_requestId := pc_requestId mutation; pe_endpointId := endpointId; pe_resourceId := sessionId; pe_operation := operation;
                    pe_createdAt := now |}])) in
              mret (pm_succeeded value false)
          end
      end
  end.

Definition naming {A} (ids : list string) (m : tx SubmissionDb (option A)) : tx SubmissionDb (option (list string)) :=
  let* r := m in mret (match r with Some _ => Some ids | None => None end).

Definition naming_if (ids : list string) (m : tx SubmissionDb bool) : tx SubmissionDb (option (list string)) :=
  let* done := m in mret (if done : bool then Some ids else None).

Definition updateSessionInboxItemProfile (sessionId itemId content : string) (analysis : SessionInputAnalysis)
    (mutation : ProfileMutationContext) (now : Z) : tx SubmissionDb ProfileMutationResult :=
  mutateSessionInboxProfile sessionId "operator.session_inbox.update" "update" mutation
    (naming [itemId] (updateSessionInboxItem itemId sessionId content (Some analysis) now)) now.

Definition reorderSessionInboxProfile (sessionId : string) (itemIds : list string) (mutation : ProfileMutationContext) (now : Z)
    : tx SubmissionDb ProfileMutationResult :=
  mutateSessionInboxProfile sessionId "operator.session_inbox.reorder" "reorder" mutation
    (let* r := reorderSessionInbox sessionId itemIds now in mret (map sm_id <$> r)) now.

Definition deleteSessionInboxItemProfile (sessionId itemId : string) (mutation : ProfileMutationContext) (now : Z)
    : tx SubmissionDb ProfileMutationResult :=
  mutateSessionInboxProfile sessionId "operator.session_inbox.delete" "delete" mutation
    (naming_if [itemId] (deleteSessionInboxItem itemId sessionId now)) now.

Definition decideSessionInboxItemProfile (sessionId itemId decision : string) (mutation : ProfileMutationContext) (now : Z)
    : tx SubmissionDb ProfileMutationResult :=
  mutateSessionInboxProfile sessionId "operator.session_inbox.decide" "decide" mutation
    (naming_if [itemId] (decideSessionInboxItem itemId sessionId decision now)) now.

Definition mergeSessionInboxItemsProfile (sessionId sourceId targetId : string) (mutation : ProfileMutationContext) (now : Z)
    : tx SubmissionDb ProfileMutationResult :=
  mutateSessionInboxProfile sessionId "operator.session_inbox.merge" "merge" mutation
    (naming_if [sourceId; targetId] (mergeSessionInboxItems sourceId targetId sessionId now)) now.

End inbox.
