(* ===== verification/InboxFrame.v ===== *)
(** What the rest of the store leaves of the submissions and the TaskRuns: no
    other operation writes more of an item of the inbox than its error, and none
    writes the identity of a TaskRun. *)
From S2P Require Import Prelude Json SessionInput TaskPolicy Attempt ExecDb Canonical AttemptRepo RunStore Transcript Continuation Transition Tools Mailbox RuntimeMutation PortTrace AttemptTrace PlanGraph PlanStore AuditAlgebra Evidence CompletionGate Uncertainty Supervisor RunView Progress Approval Goal GoalStore GoalStoreFacts GoalFacts SessionInbox.
Local Open Scope tx_scope.

Definition run_face (r : RunRow) : string * string * string * Z := (r_id r, r_sessionId r, r_requestId r, r_createdAt r).

Definition item_face (x : InboxRow) : InboxRow := with_item_error "" (with_updatedAt 0 x).

Record faces (d d' : Db) : Prop := {
  fc_runs : forall r, run_face <$> runs d' !! r = run_face <$> runs d !! r;
  fc_items : forall i, item_face <$> inbox d' !! i = item_face <$> inbox d !! i;
}.

#[export] Instance faces_preorder : PreOrder faces.
Proof.
  split; [by split|]. intros d1 d2 d3 [H1 H2] [H3 H4]. split; intros i; [by rewrite H3|by rewrite H4].
Qed.

(** The calls that leave the faces. *)
Definition framed {A} (m : tx Db A) : Prop := forall d a d', m d = Ok (a, d') -> faces d d'.

Create HintDb framed.

Section frame.
Context `{Platform}.

Lemma framed_ret {A} (a : A) : framed (mret a).
Proof. by intros d x d' [_ ->]%mret_ok. Qed.

Lemma framed_bind {A B} (m : tx Db A) (f : A -> tx Db B) : framed m -> (forall a, framed (f a)) -> framed (mbind f m).
Proof. intros Hm Hf d b d' (a & d1 & H1%Hm & H2%Hf)%tx_bind_ok. by etrans. Qed.

Lemma framed_throw {A} e : framed (throw e : tx Db A).
Proof. by intros d a d'. Qed.

Lemma framed_gets {A} (f : Db -> A) : framed (gets f).
Proof. by intros d a d' [_ ->]%gets_ok. Qed.

Lemma framed_require b e : framed (require b e).
Proof. by intros d a d' [_ ->]%require_ok. Qed.

Lemma framed_present {A} (o : option A) e : framed (present o e).
Proof. by intros d a d' [_ ->]%present_ok. Qed.

Lemma framed_lift {A} (r : result A) : framed (lift r).
Proof. by intros d a d' [_ ->]%lift_ok. Qed.

Lemma framed_modify (f : Db -> Db) : (forall d, runs (f d) = runs d /\ inbox (f d) = inbox d) -> framed (modify f).
Proof. intros Hf d u d' ->%modify_ok. destruct (Hf d) as [Hr Hi]. split; intros i; by rewrite ?Hr, ?Hi. Qed.

Lemma framed_runs (f : gmap string RunRow -> gmap string RunRow) :
  (forall m r, run_face <$> f m !! r = run_face <$> m !! r) -> framed (modify (set_runs f)).
Proof. intros Hf d u d' ->%modify_ok. split; intros i; [apply Hf|done]. Qed.

Lemma face_alter f i (m : gmap string RunRow) r : (forall x, run_face (f x) = run_face x) -> run_face <$> alter f i m !! r = run_face <$> m !! r.
Proof.
  intros Hf. destruct (decide (i = r)) as [<-|]; [|by rewrite lookup_alter_ne]. rewrite lookup_alter_eq.
  destruct (m !! i); [|done]. cbn. by rewrite Hf.
Qed.

Lemma face_update_where p f (m : gmap string RunRow) r : (forall x, run_face (f x) = run_face x) ->
  run_face <$> update_where p f m !! r = run_face <$> m !! r.
Proof. intros Hf. unfold update_where. rewrite lookup_fmap. destruct (m !! r) as [x|]; [|done]. cbn. destruct (p x); [by rewrite Hf|done]. Qed.

Lemma framed_update_run i p f : (forall x, run_face (f x) = run_face x) -> framed (update_run i p f).
Proof.
  intros Hf d n d' [(r & _ & Hr & _ & ->)|[_ ->]]%update_run_ok; [|done]. split; intros j; [|done]. cbn.
  destruct (decide (i = j)) as [<-|]; [|by rewrite lookup_insert_ne]. rewrite lookup_insert_eq, Hr. cbn. by rewrite Hf.
Qed.

Lemma framed_for_each {A} (f : A -> tx Db unit) l : (forall x, framed (f x)) -> framed (for_each f l).
Proof. intros Hf d u d' Hs. eapply for_each_ind in Hs; [exact Hs| |done]. intros x t t' _ Ht Hx. etrans; [exact Ht|by eapply Hf]. Qed.

Lemma framed_map {A B} (f : A -> tx Db B) l : (forall x, framed (f x)) -> framed (map_tx f l).
Proof. intros Hf d u d' Hs. eapply map_tx_ind in Hs; [exact Hs| |done]. intros x t t' y _ Ht Hx. etrans; [exact Ht|by eapply Hf]. Qed.

Lemma framed_uuid : framed randomUUID.
Proof. unfold randomUUID. intros d a d'. by intros [= _ <-]. Qed.

Hint Resolve framed_ret framed_throw framed_gets framed_require framed_present framed_lift framed_for_each framed_map framed_uuid : framed.
Hint Extern 1 (framed (modify _)) => apply framed_modify; intros; split; reflexivity : framed.
Hint Extern 1 (framed (modify (set_runs (alter _ _)))) => apply framed_runs; intros; apply face_alter; intros; reflexivity : framed.
Hint Extern 1 (framed (modify (set_runs (update_where _ _)))) => apply framed_runs; intros; apply face_update_where; intros; reflexivity : framed.
Hint Extern 1 (framed (update_run _ _ _)) => apply framed_update_run; intros; reflexivity : framed.

(** Follows the statements of an operation. *)
Ltac frame := repeat first
  [ progress intros
  | match goal with |- framed (match ?o with _ => _ end) => destruct o end
  | match goal with |- framed (let _ := ?v in _) => cbv zeta end
  | solve [auto with framed]
  | apply framed_bind
  | apply framed_for_each | apply framed_map ].

Lemma framed_insert_event r s row : framed (insert_event r s row).
Proof. unfold insert_event. frame. Qed.
Lemma framed_insert_audit u : framed (insert_audit u).
Proof. unfold insert_audit. frame. Qed.
Lemma framed_write_attempt a : framed (write_attempt a).
Proof. unfold write_attempt. frame. Qed.
Hint Resolve framed_insert_event framed_insert_audit framed_write_attempt : framed.
Lemma framed_update_attempt i p f : framed (update_attempt i p f).
Proof. unfold update_attempt. frame. Qed.
Lemma framed_update_attempts p f : framed (update_attempts p f).
Proof. unfold update_attempts. frame. Qed.
Lemma framed_write_lease l : framed (write_lease l).
Proof. unfold write_lease. frame. Qed.
Hint Resolve framed_update_attempt framed_update_attempts framed_write_lease : framed.
Lemma framed_project r n t s a b c e : framed (projectAttempt r n t s a b c e).
Proof. unfold projectAttempt. frame. Qed.
Lemma framed_appendEvent r t x ts : framed (appendEvent r t x ts).
Proof. unfold appendEvent. frame. Qed.
Lemma framed_finalize a b c e f : framed (finalizeAttemptProjectionCheckpoint a b c e f).
Proof. unfold finalizeAttemptProjectionCheckpoint. frame. Qed.
Hint Resolve framed_project framed_appendEvent framed_finalize : framed.
Lemma framed_transitionRun a b c e f g h k : framed (transitionRun a b c e f g h k).
Proof. unfold transitionRun. frame. Qed.
Hint Resolve framed_transitionRun : framed.

(** The same through the definitions the operation is built from. *)
Ltac frame_through := repeat first
  [ progress intros
  | match goal with |- framed (match ?o with _ => _ end) => destruct o end
  | match goal with |- framed (let _ := ?v in _) => cbv zeta end
  | solve [auto with framed]
  | apply framed_bind
  | apply framed_for_each | apply framed_map
  | match goal with |- framed (?f _) => unfold f | |- framed (?f _ _) => unfold f | |- framed (?f _ _ _) => unfold f
      | |- framed (?f _ _ _ _) => unfold f | |- framed (?f _ _ _ _ _) => unfold f | |- framed (?f _ _ _ _ _ _) => unfold f
      | |- framed (?f _ _ _ _ _ _ _) => unfold f | |- framed (?f _ _ _ _ _ _ _ _) => unfold f
      | |- framed (?f _ _ _ _ _ _ _ _ _) => unfold f | |- framed (?f _ _ _ _ _ _ _ _ _ _) => unfold f end ].

Definition not_creation (o : PortOp) : Prop := match o with CreateRun _ _ _ _ _ _ => False | _ => True end.

Lemma framed_admission_failure i e b scope ts : framed (transitionAdmissionFailure i e b scope ts).
Proof.
  unfold transitionAdmissionFailure. apply framed_bind; [frame|]. intros _ d a d' (? & d0 & [-> ->]%gets_id_ok & Hs)%tx_bind_ok.
  apply tx_bind_ok in Hs as (x & d0 & [Hx ->]%present_ok & Hs). apply tx_bind_ok in Hs as (? & d0 & ->%modify_ok & Hs).
  transitivity (set_inbox (insert i (inbox_failed x e ts)) d).
  - apply bind_Some in Hx as (y & Hy & Hx). destruct (_ && _); [|done]. injection Hx as ->. split; intros j; [done|]. cbn.
    destruct (decide (i = j)) as [<-|]; [|by rewrite lookup_insert_ne]. by rewrite lookup_insert_eq, Hy.
  - revert d' a Hs. generalize (set_inbox (insert i (inbox_failed x e ts)) d). intros d1 d' a Hs.
    match type of Hs with ?m _ = _ => assert (framed m) as Hm by frame end. by eapply Hm.
Qed.

Lemma framed_refresh ts : framed (modify (refresh_waiting ts)).
Proof. intros d u d' ->%modify_ok. split; intros i; [|done]. by apply face_update_where. Qed.
Hint Resolve framed_admission_failure framed_refresh : framed.

Lemma framed_repo o : framed (run_op o).
Proof. destruct o; frame_through. Qed.

Lemma framed_fenced f a b c : framed (run_fenced f a b c).
Proof. destruct c; frame_through. Qed.

Lemma framed_port o : not_creation o -> framed (run_port o).
Proof. destruct o; [intros _; apply framed_repo|intros _; apply framed_fenced|intros _|done|intros _..]; frame_through. Qed.
End frame.

(** * The goals *)

(** The calls on goals after which the execution tables are related to those before. *)
Definition goal_framed (R : relation Db) {A} (m : tx GoalDb A) : Prop := forall d a d', m d = Ok (a, d') -> R (go_db d) (go_db d').

Section goal_frame.
Context (R : relation Db) `{!PreOrder R}.

Lemma gframed_ret {A} (a : A) : goal_framed R (mret a).
Proof. by intros d x d' [_ ->]%mret_ok. Qed.

Lemma gframed_bind {A B} (m : tx GoalDb A) (f : A -> tx GoalDb B) :
  goal_framed R m -> (forall a, goal_framed R (f a)) -> goal_framed R (mbind f m).
Proof. intros Hm Hf d b d' (a & d1 & H1%Hm & H2%Hf)%tx_bind_ok. by etrans. Qed.

Lemma gframed_throw {A} e : goal_framed R (throw e : tx GoalDb A).
Proof. by intros d a d'. Qed.

Lemma gframed_gets {A} (f : GoalDb -> A) : goal_framed R (gets f).
Proof. by intros d a d' [_ ->]%gets_ok. Qed.

Lemma gframed_require b e : goal_framed R (require b e).
Proof. by intros d a d' [_ ->]%require_ok. Qed.

Lemma gframed_present {A} (o : option A) e : goal_framed R (present o e).
Proof. by intros d a d' [_ ->]%present_ok. Qed.

Lemma gframed_lift {A} (r : result A) : goal_framed R (lift r).
Proof. by intros d a d' [_ ->]%lift_ok. Qed.

Lemma gframed_modify (f : GoalDb -> GoalDb) : (forall d, go_db (f d) = go_db d) -> goal_framed R (modify f).
Proof. intros Hf d u d' ->%modify_ok. by rewrite Hf. Qed.

Lemma gframed_store {A} (m : tx Db A) : (forall d a d', m d = Ok (a, d') -> R d d') -> goal_framed R (in_store m).
Proof.
  intros Hm d a d' Hs. unfold in_store, in_gov, in_exec, in_plans, in_db in Hs. cbn in Hs.
  destruct (m (pd_db (gd_plans (go_gov d)))) as [[x e]|] eqn:E; [|done]. injection Hs as _ <-. by apply Hm in E.
Qed.

Lemma gframed_for_each {A} (f : A -> tx GoalDb unit) l : (forall x, goal_framed R (f x)) -> goal_framed R (for_each f l).
Proof.
  intros Hf d u d'. apply (for_each_ind (fun t => R (go_db d) (go_db t))); [|done].
  intros x t t' _ Ht Hx. etrans; [exact Ht|by eapply Hf].
Qed.

Lemma gframed_map {A B} (f : A -> tx GoalDb B) l : (forall x, goal_framed R (f x)) -> goal_framed R (map_tx f l).
Proof.
  intros Hf d u d'. apply (map_tx_ind (fun t => R (go_db d) (go_db t))); [|done].
  intros x t t' y _ Ht Hx. etrans; [exact Ht|by eapply Hf].
Qed.

Lemma gframed_ignoring {A} (m : tx GoalDb A) : goal_framed R m -> goal_framed R (ignoring m).
Proof. unfold ignoring. intros Hm d a d' Hs. destruct (m d) as [[x e]|] eqn:E; injection Hs as _ <-; [by eapply Hm|done]. Qed.
End goal_frame.

#[export] Hint Resolve gframed_ret gframed_throw gframed_gets gframed_require gframed_present gframed_lift : framed.
#[export] Hint Extern 1 (goal_framed _ (modify _)) => apply gframed_modify; [typeclasses eauto|intros; reflexivity] : framed.
#[export] Hint Extern 1 (goal_framed faces (in_store (modify (set_runs (alter _ _))))) =>
  apply gframed_store, framed_runs; intros; apply face_alter; intros; reflexivity : framed.
#[export] Hint Extern 1 (goal_framed faces (in_store randomUUID)) => apply gframed_store, framed_uuid : framed.
#[export] Hint Extern 1 (PreOrder _) => typeclasses eauto : framed.

Ltac goal_frame := repeat first
  [ progress intros
  | match goal with |- goal_framed _ (match ?o with _ => _ end) => destruct o end
  | match goal with |- goal_framed _ (let _ := ?v in _) => cbv zeta end
  | solve [auto with framed]
  | apply gframed_bind; [typeclasses eauto|..] | apply gframed_ignoring; [typeclasses eauto|]
  | apply gframed_for_each; [typeclasses eauto|] | apply gframed_map; [typeclasses eauto|]
  | match goal with |- goal_framed _ (?f _) => unfold f | |- goal_framed _ (?f _ _) => unfold f | |- goal_framed _ (?f _ _ _) => unfold f
      | |- goal_framed _ (?f _ _ _ _) => unfold f | |- goal_framed _ (?f _ _ _ _ _) => unfold f
      | |- goal_framed _ (?f _ _ _ _ _ _) => unfold f end ].

Section goal_calls.
Context `{Platform}.

Definition above (c : GoalCall) : Prop := match c with Call_below _ => False | _ => True end.

Lemma framed_goal_call c : above c -> goal_framed faces (run_call c).
Proof. destruct c; intros Hc; try done; goal_frame. Qed.

Lemma framed_attachRun r i now : goal_framed faces (attachRun r i now).
Proof. goal_frame. Qed.

(** What is only read for a link. *)
Lemma reads_linkSpec input g : goal_framed eq (resolveLinkSpec input g).
Proof. goal_frame. Qed.

Lemma reads_canonical run spec : goal_framed eq (assertCanonicalRoadmapAdmission run spec).
Proof. goal_frame. Qed.

Lemma reads_guiding w : goal_framed eq (guidingGoal w).
Proof. goal_frame. Qed.

Lemma reads_requireGoal i : goal_framed eq (requireGoal i).
Proof. goal_frame. Qed.

Lemma reads_available spec : goal_framed eq (assertRoadmapRunAvailable spec).
Proof. goal_frame. Qed.

(** A link writes the contract of its TaskRun, and no other execution table. *)
Lemma persist_contract run spec now d g d' : persistRunLinkAndSnapshot run spec now d = Ok (g, d') ->
  exists c, go_db d' = set_runs (alter (with_contract c now) (r_id run)) (go_db d).
Proof.
  unfold persistRunLinkAndSnapshot. cbv zeta. intros (? & d0 & [_ ->]%require_ok & Hs)%tx_bind_ok.
  apply tx_bind_ok in Hs as (? & d1 & Ha & Hs).
  assert (go_db d1 = go_db d) as E1.
  { destruct (bool_decide _); [symmetry; by apply reads_available in Ha|by apply mret_ok in Ha as [_ ->]]. }
  apply tx_bind_ok in Hs as (snapshot & d2 & [_ ->]%lift_ok & Hs). apply tx_bind_ok in Hs as (value & d2 & [_ ->]%present_ok & Hs).
  apply tx_bind_ok in Hs as (? & d2 & [-> ->]%gets_id_ok & Hs). apply tx_bind_ok in Hs as (? & d2 & [_ ->]%require_ok & Hs).
  apply tx_bind_ok in Hs as (? & d2 & ->%modify_ok & Hs). apply tx_bind_ok in Hs as (? & d2 & Hc & Hs).
  exists (mergeGoalSnapshot run snapshot (wg_nonGoals value)). transitivity (go_db d2).
  - match type of Hs with ?m _ = _ => assert (goal_framed eq m) as Hm by goal_frame end. symmetry. by eapply Hm.
  - rewrite <- E1. unfold in_store, in_gov, in_exec, in_plans, in_db, modify in Hc. by injection Hc as _ <-.
Qed.

Lemma attachRun_contract r i now d g d' row : attachRun r i now d = Ok (g, d') -> runs (go_db d) !! r = Some row -> r_id row = r ->
  go_db d' = go_db d \/ exists c, go_db d' = set_runs (alter (with_contract c now) r) (go_db d).
Proof.
  unfold attachRun. intros (? & d0 & [-> ->]%gets_id_ok & Hs)%tx_bind_ok Hr Hid. destruct (runLinkForRun r d).
  { left. match type of Hs with ?m _ = _ => assert (goal_framed eq m) as Hm by goal_frame end. symmetry. by eapply Hm. }
  apply tx_bind_ok in Hs as (run & d0 & [Hrun ->]%present_ok & Hs). unfold runs_of in Hrun. rewrite Hr in Hrun. injection Hrun as <-.
  destruct (truthy_text i ≫= _) as [pending|].
  - right. apply tx_bind_ok in Hs as (spec & d1 & He & Hs). apply reads_linkSpec in He.
    apply tx_bind_ok in Hs as (? & d2 & Hc & Hs). apply reads_canonical in Hc. rewrite He, Hc.
    apply tx_bind_ok in Hs as (? & d3 & Hs & [_ ->]%mret_ok). rewrite <- Hid. by eapply persist_contract.
  - apply tx_bind_ok in Hs as (? & d1 & [_ ->]%require_ok & Hs). apply tx_bind_ok in Hs as (guiding & d1 & Hg & Hs).
    apply reads_guiding in Hg. rewrite Hg. destruct guiding as [goal|]; [right|left; by apply mret_ok in Hs as [_ ->]].
    apply tx_bind_ok in Hs as (definition & d2 & [_ ->]%present_ok & Hs).
    apply tx_bind_ok in Hs as (spec & d2 & He & Hs). apply reads_linkSpec in He. rewrite He.
    apply tx_bind_ok in Hs as (? & d3 & Hs & [_ ->]%mret_ok). rewrite <- Hid. by eapply persist_contract.
Qed.
End goal_calls.
