(* ===== verification/SessionInboxFacts.v ===== *)
(** What the inbox of a session guarantees: the queue is served in its order
    and never beside a TaskRun it has to wait for, a submission may be repeated,
    and the operator's changes happen at most once, on the state they were made for. *)
From S2P Require Import Prelude Json SessionInput TaskPolicy Attempt ExecDb Canonical CanonicalFacts RunStore Continuation StoreRefine ContinuationSteps PlanStore Evidence CompletionGate RunView Service Approval ApprovalFacts Demo ReviewsFacts Goal GoalStore GoalStoreFacts GoalFacts SessionInbox InboxFrame.
Local Open Scope tx_scope.

(** * The tables *)

Definition with_db (e : Db) (d : SubmissionDb) : SubmissionDb := set_sb_goals (set_gov (gov_with e (go_gov (sb_goals d))) (sb_goals d)) d.

Lemma in_goals_ok {A} (m : tx GoalDb A) d a d' : in_goals m d = Ok (a, d') -> exists g, m (sb_goals d) = Ok (a, g) /\ d' = set_sb_goals g d.
Proof. unfold in_goals. destruct (m (sb_goals d)) as [[x g]|]; [|done]. intros Hs. injection Hs as <- <-. eauto. Qed.

Lemma in_exec_db_ok {A} (m : tx Db A) d a d' : in_exec_db m d = Ok (a, d') -> exists e, m (sb_db d) = Ok (a, e) /\ d' = with_db e d.
Proof.
  unfold in_exec_db. intros (g & (h & Hm & ->)%in_gov_ok & ->)%in_goals_ok. rewrite in_exec_run in Hm. unfold sb_db, go_db.
  destruct (m (gd_db (go_gov (sb_goals d)))) as [[x e]|]; [|done]. injection Hm as <- <-. eauto.
Qed.

Lemma set_items_ok f d u d' : set_items f d = Ok (u, d') -> d' = with_db (set_inbox f (sb_db d)) d.
Proof. unfold set_items. by intros (e & ->%modify_ok & ->)%in_exec_db_ok. Qed.

Lemma update_item_ok i p f d b d' : update_item i p f d = Ok (b, d') ->
  (b = true /\ exists x, items d !! i = Some x /\ p x = true /\ d' = with_db (set_inbox (insert i (f x)) (sb_db d)) d)
  \/ (b = false /\ d' = d /\ forall x, items d !! i = Some x -> p x = false).
Proof.
  unfold update_item. intros (? & d0 & [-> ->]%gets_ok & Hs)%tx_bind_ok. destruct (items d !! i) as [x|] eqn:Hx.
  - destruct (p x) eqn:Hp.
    + apply tx_bind_ok in Hs as (? & d0 & ->%set_items_ok & [-> ->]%mret_ok). left. eauto.
    + apply mret_ok in Hs as [-> ->]. right. split_and!; [done..|]. by intros y [= ->].
  - apply mret_ok in Hs as [-> ->]. right. by split_and!.
Qed.

(** * The order of the queue *)

Lemma lex_sym a b : lex b a = CompOpp (lex a b).
Proof.
  revert b. induction a as [|x a IH]; intros [|y b]; [done..|]. cbn. rewrite Z.compare_antisym. destruct (x ?= y)%Z; cbn; [apply IH|done|done].
Qed.

Lemma lex_eq a b : lex a b = Eq -> a = b.
Proof. revert b. induction a as [|x a IH]; intros [|y b]; [done..|]. cbn. destruct (Z.compare_spec x y) as [->| |]; [|done..]. by intros ->%IH. Qed.

Lemma lex_refl a : lex a a = Eq.
Proof. induction a as [|x a IH]; [done|]. cbn. by rewrite Z.compare_refl. Qed.

Lemma lex_trans a b c : lex a b <> Gt -> lex b c <> Gt -> lex a c <> Gt /\ (lex a c = Eq -> lex a b = Eq /\ lex b c = Eq).
Proof.
  revert b c. induction a as [|x a IH]; intros [|y b] [|z c]; cbn; try done.
  destruct (Z.compare_spec x y) as [->| |], (Z.compare_spec y z) as [->| |]; try done; intros H1 H2.
  - by apply IH.
  - by rewrite (proj2 (Z.compare_lt_iff x z)) by done.
  - by rewrite (proj2 (Z.compare_lt_iff x z)) by lia.
Qed.

#[export] Instance queue_le_total : Total queue_le.
Proof.
  intros a b. unfold queue_le, queue_before. rewrite (lex_sym (queue_key a.2) (queue_key b.2)).
  destruct (lex (queue_key a.2) (queue_key b.2)); cbn; [|by left|by right].
  destruct (String.leb_total a.1 b.1) as [E|E]; rewrite E; auto.
Qed.

#[export] Instance queue_le_trans : Transitive queue_le.
Proof.
  intros a b c. unfold queue_le, queue_before. pose proof (lex_trans (queue_key a.2) (queue_key b.2) (queue_key c.2)) as Ht.
  destruct (lex (queue_key a.2) (queue_key b.2)) eqn:E1, (lex (queue_key b.2) (queue_key c.2)) eqn:E2; try done; intros H1 H2;
    destruct Ht as [Hn He]; try done; destruct (lex (queue_key a.2) (queue_key c.2)) eqn:E3; try done; try (by destruct (He eq_refl)).
  apply Is_true_true. apply Is_true_true in H1, H2. by eapply string_leb_trans.
Qed.

Lemma queue_le_antisym a b : queue_le a b -> queue_le b a -> a.1 = b.1.
Proof.
  unfold queue_le, queue_before. rewrite (lex_sym (queue_key a.2) (queue_key b.2)).
  destruct (lex (queue_key a.2) (queue_key b.2)); cbn; [|done..].
  intros H1%Is_true_true H2%Is_true_true. by apply String.leb_antisym.
Qed.

Lemma ordered_elem p d i x : (i, x) ∈ ordered p d <-> items d !! i = Some x /\ p x = true.
Proof. unfold ordered. by rewrite merge_sort_Permutation, filter_elem, elem_of_map_to_list. Qed.

Lemma ordered_first p d i x l : ordered p d = (i, x) :: l -> items d !! i = Some x /\ p x = true
  /\ forall j y, items d !! j = Some y -> p y = true -> queue_le (i, x) (j, y).
Proof.
  intros E. assert ((i, x) ∈ ordered p d) as [Hx Hp]%ordered_elem by (rewrite E; left). split_and!; [done..|].
  intros j y Hy Hq. assert ((j, y) ∈ ordered p d) as Hin by (by apply ordered_elem). rewrite E in Hin.
  apply elem_of_cons in Hin as [->|Hin]; [destruct (queue_le_total (i, x) (i, x)); done|].
  pose proof (merge_sort_sorted queue_le (List.filter (fun ix => p ix.2) (map_to_list (items d)))) as Hs.
  unfold ordered in E. rewrite E in Hs. apply StronglySorted_inv in Hs as [_ Hf]. by eapply Forall_forall in Hf.
Qed.

(** * Claiming *)

Section claims.
Context `{Platform, ContractType}.

Lemma createRun_ok s g q c k ts d row d' : createRun s g q c k ts d = Ok (row, d') ->
  runs d !! r_id row = None /\ (forall r r', runs d !! r = Some r' -> r_requestId r' <> q) /\ runs d' = <[r_id row := row]> (runs d)
  /\ inbox d' = inbox d /\ r_sessionId row = s /\ r_requestId row = q /\ r_status row = R_running /\ r_attempt row = 1%Z.
Proof.
  unfold createRun. cbv zeta. intros (rid & d0 & [-> ->]%randomUUID_ok & Hs)%tx_bind_ok.
  apply tx_bind_ok in Hs as (? & d0 & [-> ->]%gets_id_ok & Hs). apply tx_bind_ok in Hs as (? & d0 & [_ ->]%require_ok & Hs).
  apply tx_bind_ok in Hs as (? & d0 & [Hn%bool_decide_eq_true ->]%require_ok & Hs).
  apply tx_bind_ok in Hs as (? & d0 & [Hq%negb_true_iff ->]%require_ok & Hs).
  apply tx_bind_ok in Hs as (? & d0 & ->%modify_ok & Hs). apply tx_bind_ok in Hs as (? & d1 & Hp & [-> ->]%mret_ok). cbn [r_id].
  split_and!; [done| | | |done..].
  - intros r r' Hr E. apply (exists_where_false _ _ r r') in Hq; [|done]. cbv beta in Hq. by rewrite E, String.eqb_refl in Hq.
  - by rewrite (projectAttempt_keeps runs _ _ _ _ _ _ _ _ _ _ _ (fun _ _ => eq_refl) (fun _ _ => eq_refl) (fun _ => eq_refl) Hp).
  - by rewrite (projectAttempt_keeps inbox _ _ _ _ _ _ _ _ _ _ _ (fun _ _ => eq_refl) (fun _ _ => eq_refl) (fun _ => eq_refl) Hp).
Qed.

Lemma finalize_tables r a n q ts d u d' : finalizeAttemptProjectionCheckpoint r a n q ts d = Ok (u, d') ->
  runs d' = runs d /\ inbox d' = inbox d.
Proof.
  unfold finalizeAttemptProjectionCheckpoint. intros (? & d0 & [-> ->]%gets_id_ok & Hs)%tx_bind_ok. cbv zeta in Hs.
  apply tx_bind_ok in Hs as (changes & d1 & Hc & [_ ->]%require_ok). destruct (checkpoints d !! r); tx_inv Hc; by split.
Qed.

Lemma transitionRun_runs rid ex next type data reason n ts d ev d' : transitionRun rid ex next type data reason n ts d = Ok (ev, d') ->
  inbox d' = inbox d /\ (forall r, r <> rid -> runs d' !! r = runs d !! r)
  /\ (d' = d \/ exists row row', runs d !! rid = Some row /\ runs d' !! rid = Some row' /\ r_status row' = next
       /\ run_face row' = run_face row /\ r_attempt row' = r_attempt row).
Proof.
  unfold transitionRun. intros (? & d0 & [-> ->]%gets_id_ok & Hs)%tx_bind_ok.
  destruct (runs d !! rid) as [row|] eqn:Hr; [|apply mret_ok in Hs as [_ ->]; auto]. cbv zeta in Hs.
  destruct (negb _ || _); [apply mret_ok in Hs as [_ ->]; auto|].
  apply tx_bind_ok in Hs as (? & d1 & He & Hs). unfold insert_event in He. tx_inv He.
  apply tx_bind_ok in Hs as (changes & d1 & Hu & Hs). apply tx_bind_ok in Hs as (? & d2 & [Hc%Z.eqb_eq ->]%require_ok & Hs).
  apply update_run_ok in Hu as [(row1 & -> & Hrow & _ & ->)|[-> _]]; [|done]. cbn in Hrow. rewrite Hr in Hrow. injection Hrow as <-.
  apply tx_bind_ok in Hs as (? & d2 & Hk & Hs). apply tx_bind_ok in Hs as (? & d3 & Hp & Hs). apply tx_bind_ok in Hs as (? & d4 & Hf & [-> ->]%mret_ok).
  apply finalize_tables in Hf as [F1 F2].
  pose proof (projectAttempt_keeps runs _ _ _ _ _ _ _ _ _ _ _ (fun _ _ => eq_refl) (fun _ _ => eq_refl) (fun _ => eq_refl) Hp) as P1.
  pose proof (projectAttempt_keeps inbox _ _ _ _ _ _ _ _ _ _ _ (fun _ _ => eq_refl) (fun _ _ => eq_refl) (fun _ => eq_refl) Hp) as P2.
  rewrite F1, F2, P1, P2. destruct (bool_decide (next <> R_running)); (apply modify_ok in Hk as -> || apply mret_ok in Hk as [_ ->]); cbn;
    (split_and!; [done|intros r Hne; by rewrite lookup_insert_ne by congruence|right; exists row; eexists; rewrite lookup_insert_eq; split_and!; reflexivity]).
Qed.

(** What the start of a claimed item leaves. *)
Record started_run (sm : Submission) (rid : string) (d d' : SubmissionDb) : Prop := {
  sn_new : runs (sb_db d) !! rid = None;
  sn_request : forall r row, runs (sb_db d) !! r = Some row -> r_requestId row <> "inbox:" +:+ sm_id sm;
  sn_run : exists row, runs (sb_db d') !! rid = Some row /\ r_id row = rid /\ r_sessionId row = x_sessionId (sm_row sm)
    /\ r_requestId row = "inbox:" +:+ sm_id sm /\ r_attempt row = 1%Z /\ (r_status row = R_running \/ r_status row = R_failed);
  sn_others : forall r, r <> rid -> runs (sb_db d') !! r = runs (sb_db d) !! r;
  sn_items : items d' = items d;
  sn_order : run_order d' = run_order d ++ [rid];
  sn_rest : submission_audits d' = submission_audits d /\ inbox_revisions d' = inbox_revisions d /\ profile_receipts d' = profile_receipts d;
}.

Lemma insert_edge_ok parent sm rid now d u d' : insert_edge parent sm rid now d = Ok (u, d') -> exists f, d' = set_edges f d.
Proof.
  unfold insert_edge. intros (? & d0 & [-> ->]%gets_id_ok & Hs)%tx_bind_ok. apply tx_bind_ok in Hs as (? & d0 & [_ ->]%require_ok & Hs).
  apply modify_ok in Hs as ->. eauto.
Qed.

Lemma start_claimed_ok sm k now d rid msg d' : start_claimed sm k now d = Ok ((rid, msg), d') -> started_run sm rid d d'.
Proof.
  unfold start_claimed. cbv zeta. intros (run & d1 & (e & Hc & ->)%in_exec_db_ok & Hs)%tx_bind_ok.
  apply createRun_ok in Hc as (C1 & C2 & C3 & C4 & C5 & C6 & C7 & C8).
  apply tx_bind_ok in Hs as (? & d2 & ->%modify_ok & Hs). apply tx_bind_ok in Hs as (? & d3 & He & Hs).
  assert (exists f, d3 = set_edges f (set_run_order (fun l => l ++ [r_id run]) (with_db e d))) as [f ->].
  { assert (forall x, exists f, x = set_edges f x) as Hid by (intros []; by exists (fun m => m)).
    destruct (an_targetRunId (sm_analysis sm)); [destruct (String.eqb _ _)|]; [|by eapply insert_edge_ok|];
      apply mret_ok in He as [_ ->]; apply Hid. }
  clear He. apply tx_bind_ok in Hs as (error & d4 & Ha & Hs).
  assert (exists row, runs (sb_db d4) !! r_id run = Some row /\ r_id row = r_id run /\ r_sessionId row = x_sessionId (sm_row sm)
    /\ r_requestId row = "inbox:" +:+ sm_id sm /\ r_attempt row = 1%Z /\ r_status row = R_running
    /\ (forall r, r <> r_id run -> runs (sb_db d4) !! r = runs (sb_db d) !! r) /\ items d4 = items d
    /\ run_order d4 = run_order d ++ [r_id run]
    /\ submission_audits d4 = submission_audits d /\ inbox_revisions d4 = inbox_revisions d /\ profile_receipts d4 = profile_receipts d)
    as (row & Q1 & Q2 & Q3 & Q4 & Q5 & Q6 & Q7 & Q8 & Q9 & Q10).
  { unfold caught in Ha. destruct (in_goals _ _) as [[g d5]|ex] eqn:E.
    - injection Ha as _ <-. apply in_goals_ok in E as (g' & E & ->).
      eapply attachRun_contract in E; [|cbn; rewrite C3; apply lookup_insert_eq|done]. unfold items, sb_db. cbn [sb_goals set_sb_goals run_order].
      destruct E as [->|[c ->]]; cbn.
      + exists run. rewrite C3, lookup_insert_eq. split_and!; try done; try exact C4. intros r Hne. by rewrite lookup_insert_ne by congruence.
      + exists (with_contract c now run). rewrite C3, lookup_alter_eq, lookup_insert_eq. split_and!; try done; try exact C4.
        intros r Hne. by rewrite lookup_alter_ne, lookup_insert_ne by congruence.
    - injection Ha as _ <-. unfold items, sb_db. cbn. exists run. rewrite C3, lookup_insert_eq. split_and!; try done; try exact C4.
      intros r Hne. by rewrite lookup_insert_ne by congruence. }
  destruct error as [ex|].
  - apply tx_bind_ok in Hs as (ev & d5 & (e5 & Ht & ->)%in_exec_db_ok & [[= -> _] ->]%mret_ok).
    apply transitionRun_runs in Ht as (T1 & T2 & T3). split; try done; unfold items, sb_db in *; cbn in *; try congruence.
    + destruct T3 as [->|(r1 & r2 & R1 & R2 & R3 & R4 & R5)]; [by exists row; eauto 10|]. rewrite Q1 in R1. injection R1 as <-.
      exists r2. injection R4 as F1 F2 F3 F4. split_and!; try congruence. by right.
    + intros r Hne. by rewrite T2, Q7.
  - apply mret_ok in Hs as [[= -> _] ->]. split; try done. exists row. by split_and!; auto.
Qed.

(** The row of an item whose TaskRun was started. *)
Record started_item (x y : InboxRow) (rid : string) : Prop := {
  si_status : x_status y = "started" /\ x_decision y = "start_taskrun" /\ x_runId y = Some rid;
  si_same : x_sessionId y = x_sessionId x /\ x_requestId y = x_requestId x /\ x_content y = x_content x /\ x_analysis y = x_analysis x
    /\ x_createdAt y = x_createdAt x /\ x_position y = x_position x /\ x_manualOrder y = x_manualOrder x;
}.

(** The whole effect of a claim on items and TaskRuns. *)
Record claimed (s i : string) (x : InboxRow) (c : ClaimedSubmission) (d d' : SubmissionDb) : Prop := {
  cd_item : items d !! i = Some x /\ queued_in s x = true;
  cd_started : cl_item c = hydrateSessionInbox i (sm_row (cl_item c)) /\ items d' = <[i := sm_row (cl_item c)]> (items d)
    /\ started_item x (sm_row (cl_item c)) (r_id (cl_run c));
  cd_new : runs (sb_db d) !! r_id (cl_run c) = None
    /\ (forall r row, runs (sb_db d) !! r = Some row -> r_requestId row <> "inbox:" +:+ i);
  cd_run : runs (sb_db d') !! r_id (cl_run c) = Some (cl_run c) /\ r_sessionId (cl_run c) = s /\ r_requestId (cl_run c) = "inbox:" +:+ i
    /\ r_attempt (cl_run c) = 1%Z /\ (r_status (cl_run c) = R_running \/ r_status (cl_run c) = R_failed);
  cd_others : forall r, r <> r_id (cl_run c) -> runs (sb_db d') !! r = runs (sb_db d) !! r;
  cd_order : run_order d' = run_order d ++ [r_id (cl_run c)];
  cd_rest : submission_audits d' = submission_audits d /\ profile_receipts d' = profile_receipts d;
}.

Lemma touch_ok s now d u d' : touchSessionInboxRevision s now d = Ok (u, d') ->
  exists v, d' = set_inbox_revisions (insert s v) d
    /\ iv_revision v = (match inbox_revisions d !! s with Some w => iv_revision w + 1 | None => 2 end)%Z.
Proof. unfold touchSessionInboxRevision. intros ->%modify_ok. by eexists. Qed.

Lemma set_inbox_twice i x y e : set_inbox (insert i y) (set_inbox (insert i x) e) = set_inbox (insert i y) e.
Proof. unfold set_inbox. cbn. f_equal. apply insert_insert_eq. Qed.

Lemma claimItem_ok i s k now d c d' : claimSessionInboxItem i s k now d = Ok (Some c, d') -> exists x, claimed s i x c d d'.
Proof.
  unfold claimSessionInboxItem. intros (b & d1 & [(-> & x & Hx & Hq & ->)|(-> & _)]%update_item_ok & Hs)%tx_bind_ok;
    [|by apply mret_ok in Hs as [? _]].
  cbn [negb] in Hs. apply tx_bind_ok in Hs as (? & d1 & (v & -> & _)%touch_ok & Hs).
  apply tx_bind_ok in Hs as (? & d1 & [-> ->]%gets_id_ok & Hs).
  unfold getSessionInboxItem in Hs. unfold items at 1, sb_db at 1 in Hs. cbn in Hs. rewrite lookup_insert_eq in Hs.
  apply tx_bind_ok in Hs as (sm & d1 & [[= <-] ->]%present_ok & Hs).
  apply tx_bind_ok in Hs as ([rid msg] & d2 & [S1 S2 (run & R1 & R2 & R3 & R4 & R5 & R6) S4 S5 S6 S7]%start_claimed_ok & Hs).
  apply tx_bind_ok in Hs as (b2 & d3 & H3%update_item_ok & Hs).
  assert (items d2 = <[i := revised_item now (with_claimed (Some now) (x_startedAt x) (with_item_status "claimed" "start_taskrun" x))]> (items d))
    as E2 by exact S5.
  destruct H3 as [(-> & y & Hy & _ & ->)|(_ & _ & Hn)]; [|rewrite E2 in Hn; specialize (Hn _ (lookup_insert_eq _ _ _)); by cbn in Hn].
  rewrite E2, lookup_insert_eq in Hy. injection Hy as <-. cbn [fst snd] in Hs.
  apply tx_bind_ok in Hs as (b4 & d4 & H4 & Hs). apply tx_bind_ok in Hs as (? & d5 & (v2 & -> & _)%touch_ok & Hs).
  apply tx_bind_ok in Hs as (? & d6 & [-> ->]%gets_id_ok & Hs). apply tx_bind_ok in Hs as (item & d6 & [Hi ->]%present_ok & Hs).
  apply tx_bind_ok in Hs as (run' & d6 & [Hr ->]%present_ok & [[= ->] ->]%mret_ok).
  assert (exists y, d4 = with_db (set_inbox (insert i y) (go_db (sb_goals d2))) d2 /\ started_item x y rid) as (y & -> & Hy).
  { destruct (String.eqb msg "").
    - apply mret_ok in H4 as [_ ->]. eexists. split; [reflexivity|]. by split.
    - apply update_item_ok in H4 as [(_ & z & Hz & _ & ->)|(_ & _ & Hn)].
      + unfold items, sb_db, with_db in *. cbn in Hz. rewrite lookup_insert_eq in Hz. injection Hz as <-. eexists. split.
        * unfold with_db. cbn. rewrite set_inbox_twice. reflexivity.
        * by split.
      + exfalso. unfold items, sb_db, with_db in Hn. cbn in Hn. specialize (Hn _ (lookup_insert_eq _ _ _)). done. }
  unfold getSessionInboxItem, items, sb_db, with_db in *. cbn in Hi, Hr. rewrite lookup_insert_eq in Hi. injection Hi as <-.
  rewrite R1 in Hr. injection Hr as <-. exists x. cbn in *. rewrite S5 in *.
  split; cbn; rewrite ?R2; try done.
  - split_and!; [done| |done]. by rewrite S5, insert_insert_eq.
  - split_and!; [done| |done..]. rewrite R3. unfold queued_in in Hq. cbn. by bool_prop.
  - by destruct S7 as (-> & _ & ->).
Qed.

Lemma claimItem_some i s k now d o d' x : claimSessionInboxItem i s k now d = Ok (o, d') -> items d !! i = Some x -> queued_in s x = true ->
  exists c, o = Some c.
Proof.
  unfold claimSessionInboxItem. intros (b & d1 & [(-> & _)|(_ & _ & Hn)]%update_item_ok & Hs)%tx_bind_ok Hx Hq; [|by rewrite (Hn _ Hx) in Hq].
  cbn [negb] in Hs. repeat (apply tx_bind_ok in Hs as (? & ? & _ & Hs)). apply mret_ok in Hs as [-> _]. by eexists.
Qed.

Lemma latest_snoc s d r row : last (run_order d) = Some r -> runs (sb_db d) !! r = Some row -> r_sessionId row = s -> latest_run s d = Some r.
Proof.
  unfold latest_run. intros [l ->]%last_Some Hr Es. rewrite List.filter_app. cbn. rewrite Hr, Es, String.eqb_refl. apply last_snoc.
Qed.

(** A TaskRun that was just started keeps the queue waiting as long as it is active or may be resumed. *)
Lemma occupies_last s d r row : last (run_order d) = Some r -> runs (sb_db d) !! r = Some row -> r_sessionId row = s ->
  includes (r_status row) [R_running; R_waiting_input; R_blocked; R_interrupted] = true -> session_occupied s d = true.
Proof.
  intros Hl Hr Es Hst. unfold session_occupied. destruct (exists_where _ _) eqn:E; [done|].
  apply (exists_where_false _ _ r row) in E; [|done]. unfold occupies in E. rewrite Es, String.eqb_refl, (latest_snoc s d r row) in E by done.
  rewrite (bool_decide_true (Some r = Some r)) in E by done.
  destruct (r_status row); vm_compute in Hst; try done; by vm_compute in E.
Qed.

End claims.

(** * Reordering *)

Lemma sorted_pairs {A} (R : relation A) l :
  (forall n m x y, (n < m)%nat -> l !! n = Some x -> l !! m = Some y -> R x y) -> StronglySorted R l.
Proof.
  induction l as [|x l IH]; intros Hl; [constructor|]. constructor.
  - apply IH. intros n m y z Hnm Hy Hz. apply (Hl (S n) (S m)); [lia|done..].
  - apply Forall_forall. intros y [n Hn]%list_elem_of_lookup. apply (Hl 0 (S n)); [lia|done..].
Qed.

Lemma pairs_sorted {A} (R : relation A) l n m x y : StronglySorted R l -> (n < m)%nat -> l !! n = Some x -> l !! m = Some y -> R x y.
Proof.
  intros Hs. revert n m. induction Hs as [|z l Hs IH Hf]; intros [|n] [|m] Hnm Hn Hm; try done; try lia.
  - injection Hn as ->. cbn in Hm. rewrite Forall_forall in Hf. apply Hf. by eapply list_elem_of_lookup_2.
  - cbn in Hn, Hm. apply (IH n m); [lia|done..].
Qed.

Lemma position_from ids n i k : NoDup ids -> ids !! n = Some i ->
  List.find (fun ki => String.eqb ki.2 i) (imap (fun j x => ((k + j)%nat, x)) ids) = Some ((k + n)%nat, i).
Proof.
  intros Hn. revert n k. induction Hn as [|x l Hx Hn IH]; [done|]. intros [|n] k E; cbn in E |- *.
  - injection E as ->. by rewrite String.eqb_refl.
  - destruct (String.eqb_spec x i) as [->|]; [exfalso; by apply Hx; eapply list_elem_of_lookup_2|].
    rewrite (imap_ext _ (fun j x => ((S k + j)%nat, x))); [|intros j y _; cbn; do 2 f_equal; lia]. rewrite (IH n (S k) E). do 2 f_equal. lia.
Qed.

Lemma position_of_lookup ids n i : NoDup ids -> ids !! n = Some i -> position_of ids i = Some (Z.of_nat (S n)).
Proof.
  intros Hn Hi. unfold position_of. rewrite (imap_ext pair (fun j x => ((0 + j)%nat, x))) by done.
  by rewrite (position_from ids n i 0 Hn Hi).
Qed.

Lemma dedup_from_count {A} `{EqDecision A} (seen l : list A) : (length (dedup_from seen l) <= length l)%nat
  /\ (length (dedup_from seen l) = length l -> NoDup l /\ forall x, x ∈ l -> x ∉ seen).
Proof.
  revert seen. induction l as [|x l IH]; intros seen; cbn; [split; [lia|split; [constructor|by intros ? ?%elem_of_nil]]|].
  destruct (includes x seen) eqn:E; cbn.
  - destruct (IH seen) as [Hl _]. split; [lia|intros; lia].
  - destruct (IH (x :: seen)) as [Hl Hn]. split; [lia|]. intros Hlen. destruct Hn as [Hn Hs]; [lia|]. split.
    + apply NoDup_cons. split; [|done]. intros Hx. apply (Hs x Hx). by left.
    + intros y [->|Hy]%elem_of_cons Hin; [by rewrite (proj2 (includes_spec x seen) Hin) in E|]. apply (Hs y Hy). by right.
Qed.

Lemma queued_ids_elem s d i : i ∈ queued_ids s d <-> exists x, items d !! i = Some x /\ queued_in s x = true.
Proof.
  unfold queued_ids. rewrite list_elem_of_fmap. split.
  - intros ([j x] & -> & [Hin Hq]%filter_elem). apply elem_of_map_to_list in Hin. eauto.
  - intros (x & Hx & Hq). exists (i, x). split; [done|]. apply filter_elem. by rewrite elem_of_map_to_list.
Qed.

Lemma NoDup_filter_keys {V} (p : string * V -> bool) (l : list (string * V)) : NoDup l.*1 -> NoDup (List.filter p l).*1.
Proof.
  induction l as [|[i x] l IH]; cbn; [done|]. intros [Hi Hn]%NoDup_cons. destruct (p (i, x)); [|by apply IH]. cbn. apply NoDup_cons.
  split; [|by apply IH]. intros ([j y] & -> & [Hin _]%filter_elem)%list_elem_of_fmap. apply Hi. apply list_elem_of_fmap. by exists (j, y).
Qed.

Lemma ordered_ids_nodup p d : NoDup (ordered p d).*1.
Proof. unfold ordered. rewrite merge_sort_Permutation. apply NoDup_filter_keys, NoDup_fst_map_to_list. Qed.

Lemma queued_ids_nodup s d : NoDup (queued_ids s d).
Proof. apply NoDup_filter_keys, NoDup_fst_map_to_list. Qed.

Lemma reordered_queued s ids now i x : queued_in s (reordered s ids now i x) = queued_in s x.
Proof. unfold reordered. destruct (queued_in s x) eqn:E; [|done]. by destruct (position_of ids i). Qed.

(** A reordering that is taken names every queued item of the session once. *)
Lemma reorder_ok s ids now d l d' : reorderSessionInbox s ids now d = Ok (Some l, d') ->
  NoDup ids /\ (forall i, i ∈ ids <-> i ∈ queued_ids s d)
  /\ (forall i, items d' !! i = reordered s ids now i <$> items d !! i) /\ l = listSessionInbox s false d'.
Proof.
  unfold reorderSessionInbox. intros (? & d0 & [-> ->]%gets_ok & Hs)%tx_bind_ok. cbv zeta in Hs.
  destruct (_ || _) eqn:Hg; [by apply mret_ok in Hs as [? _]|]. apply orb_false_iff in Hg as [[H1%negb_false_iff%Nat.eqb_eq H2%negb_false_iff%Nat.eqb_eq]%orb_false_iff H3].
  apply tx_bind_ok in Hs as (? & d1 & ->%set_items_ok & Hs). apply tx_bind_ok in Hs as (? & d1 & (v & -> & _)%touch_ok & Hs).
  apply tx_bind_ok in Hs as (? & d1 & [-> ->]%gets_ok & [[= ->] ->]%mret_ok).
  assert (NoDup ids) as Hn by (by apply (dedup_from_count [] ids)).
  assert (forall i, i ∈ ids -> i ∈ queued_ids s d) as Hin.
  { intros i Hi. destruct (includes i (queued_ids s d)) eqn:E; [by apply includes_spec|]. exfalso.
    enough (existsb (fun i => negb (includes i (queued_ids s d))) ids = true) by congruence.
    apply existsb_exists. exists i. split; [by apply list_elem_of_In|by rewrite E]. }
  split_and!; [done| | |done].
  - intros i. split; [apply Hin|]. assert (ids ⊆+ queued_ids s d) as Hsub by (by apply NoDup_submseteq).
    apply submseteq_length_Permutation in Hsub; [|lia]. by rewrite Hsub.
  - intros i. unfold items. cbn. rewrite map_lookup_imap. by destruct (inbox (sb_db d) !! i).
Qed.

Definition place (ids : list string) (i : string) : Z := default 0%Z (position_of ids i).

Lemma place_lookup ids n i : NoDup ids -> ids !! n = Some i -> place ids i = Z.of_nat (S n).
Proof. intros Hn Hi. unfold place. by rewrite (position_of_lookup _ _ _ Hn Hi). Qed.

(** After a reordering the queue lists the items by their places. *)
Lemma ordered_by_place s ids now d d' : NoDup ids -> (forall i, i ∈ ids <-> i ∈ queued_ids s d) ->
  (forall i, items d' !! i = reordered s ids now i <$> items d !! i) ->
  StronglySorted (fun i j => (place ids i <= place ids j)%Z) (map fst (ordered (queued_in s) d')).
Proof.
  intros Hn Hin Hd.
  assert (forall i y, (i, y) ∈ ordered (queued_in s) d' -> queue_key y !! 0 = Some (-1)%Z /\ queue_key y !! 1 = Some (place ids i)) as Hkey.
  { intros i y [Hy Hq]%ordered_elem. rewrite Hd in Hy. apply fmap_Some in Hy as (x & Hx & ->). rewrite reordered_queued in Hq.
    assert (i ∈ ids) as [n Hl]%list_elem_of_lookup by (apply Hin, queued_ids_elem; eauto).
    unfold reordered, place. by rewrite Hq, (position_of_lookup _ _ _ Hn Hl). }
  apply sorted_pairs. intros n m i j Hnm Ha Hb. rewrite list_lookup_fmap in Ha, Hb.
  apply fmap_Some in Ha as ([i' x] & Ha & ->), Hb as ([j' y] & Hb & ->).
  pose proof (merge_sort_sorted queue_le (List.filter (fun ix => queued_in s ix.2) (map_to_list (items d')))) as Hsorted.
  pose proof (pairs_sorted _ _ _ _ _ _ Hsorted Hnm Ha Hb) as Hle. cbn.
  apply list_elem_of_lookup_2, Hkey in Ha as (A0 & A1). apply list_elem_of_lookup_2, Hkey in Hb as (B0 & B1).
  unfold queue_le, queue_before in Hle. cbn in Hle, A0, A1, B0, B1. injection A0 as A0. injection A1 as A1. injection B0 as B0. injection B1 as B1.
  rewrite A0, A1, B0, B1 in Hle. cbn in Hle. destruct (Z.compare_spec (place ids i') (place ids j')); [lia|lia|done].
Qed.

Lemma reordered_ids s ids now d d' : NoDup ids -> (forall i, i ∈ ids <-> i ∈ queued_ids s d) ->
  (forall i, items d' !! i = reordered s ids now i <$> items d !! i) -> map fst (ordered (queued_in s) d') ≡ₚ ids.
Proof.
  intros Hn Hin Hd. apply NoDup_Permutation; [apply ordered_ids_nodup|done|]. intros i. rewrite Hin, queued_ids_elem. split.
  - intros ([j y] & -> & [Hy Hq]%ordered_elem)%list_elem_of_fmap. cbn. rewrite Hd in Hy. apply fmap_Some in Hy as (x & Hx & ->).
    rewrite reordered_queued in Hq. eauto.
  - intros (x & Hx & Hq). apply list_elem_of_fmap. exists (i, reordered s ids now i x). split; [done|]. apply ordered_elem.
    by rewrite Hd, Hx, reordered_queued.
Qed.


(** * A concrete session

    Three submissions wait at the desk; the second is critical. *)

Definition demo_empty : SubmissionDb :=
  with_db (set_sessions (fun _ => {["desk" := {| s_updatedAt := 0 |}]}) empty_db)
    {| sb_goals := demo_goals; inbox_revisions := ∅; submission_audits := ∅; taskrun_edges := ∅; run_order := []; profile_receipts := ∅;
       profile_audits := [] |}.

Definition demo_analysis (summary urgency : string) : SessionInputAnalysis :=
  {| an_summary := summary; an_objectives := []; an_intent := "new_task"; an_targetRunId := None; an_priority := 500; an_urgency := urgency;
     an_relation := "independent"; an_acceptanceCriteria := [summary +:+ " done"]; an_scope := ""; an_nonGoals := []; an_confidence := 9000;
     an_reason := "new"; an_routerVersion := "v1"; an_executionPolicy := None; an_routingProvenance := None |}.

Definition demo_submit (content urgency requestId : string) : tx SubmissionDb Submission :=
  enqueueSessionInbox "desk" content (demo_analysis content urgency) requestId None 1.

Definition demo_queue : SubmissionDb :=
  state_of demo_empty ((do* demo_submit "Tidy" "normal" "r1" in do* demo_submit "Fix" "critical" "r2" in demo_submit "Plan" "normal" "r3") demo_empty).

Example demo_queue_order : map fst (ordered (pending_in "desk") demo_queue) = ["uuid-1"; "uuid-0"; "uuid-2"].
Proof. vm_compute. reflexivity. Qed.

Definition demo_claim : option ClaimedSubmission := value_of None (claimNextSessionInbox "desk" [] 5 demo_queue).
Definition demo_claimed : SubmissionDb := state_of demo_queue (claimNextSessionInbox "desk" [] 5 demo_queue).


Definition demo_order : list string := ["uuid-2"; "uuid-1"; "uuid-0"].
Definition demo_listed : option (list Submission) := value_of None (reorderSessionInbox "desk" demo_order 5 demo_queue).
Definition demo_reordered : SubmissionDb := state_of demo_queue (reorderSessionInbox "desk" demo_order 5 demo_queue).

