(* ===== verification/InboxHistory.v ===== *)
(** What holds of the submissions of a session however the operations follow
    each other: a submission keeps its identity, what became of it is final, it
    starts one TaskRun at most, and a change the operator asked for happens once. *)
From S2P Require Import Prelude Json SessionInput TaskPolicy Attempt ExecDb Canonical RunStore Continuation ContinuationSteps StoreRefine PortTrace PlanStore Evidence CompletionGate RunView Service Approval ApprovalFacts Demo ReviewsFacts Goal GoalStore GoalStoreFacts GoalFacts SessionInbox InboxFrame SessionInboxFacts.
Local Open Scope tx_scope.

(** * Calls *)

(** What the operator may ask for. *)
Inductive ProfileOp :=
  | Op_update (itemId content : string) (analysis : SessionInputAnalysis)
  | Op_reorder (itemIds : list string)
  | Op_delete (itemId : string)
  | Op_decide (itemId decision : string)
  | Op_merge (sourceId targetId : string).

(** Every operation on the inbox, and those of the goals and of the ports. *)
Inductive InboxCall :=
  | In_enqueue (sessionId content : string) (analysis : SessionInputAnalysis) (requestId : string) (audit : option SubmissionAuditInput) (now : Z)
  | In_route (id sessionId decision : string) (runId : option string) (error : string) (now : Z)
  | In_duplicate (sourceId targetId sessionId : string) (now : Z)
  | In_update (id sessionId content : string) (analysis : option SessionInputAnalysis) (now : Z)
  | In_reorder (sessionId : string) (itemIds : list string) (now : Z)
  | In_delete (id sessionId : string) (now : Z)
  | In_discard (id sessionId : string) (now : Z)
  | In_decide (id sessionId decision : string) (now : Z)
  | In_clarify (id sessionId reason : string) (now : Z)
  | In_merge (sourceId targetId sessionId : string) (now : Z)
  | In_audit (item : Submission) (audit : SubmissionAuditInput) (now : Z)
  | In_claim_next (sessionId : string) (skills : list SkillRevision) (now : Z)
  | In_claim_now (id sessionId : string) (parallel : bool) (skills : list SkillRevision) (now : Z)
  | In_launch_failed (id runId error : string) (now : Z)
  | In_retry (runId : string) (now : Z)
  | In_profile (sessionId : string) (mutation : ProfileMutationContext) (o : ProfileOp) (now : Z)
  | In_goal (c : GoalCall)
  | In_port (o : PortOp).

Section calls.
Context `{Platform, ContractType}.

Definition run_profile (sessionId : string) (mutation : ProfileMutationContext) (o : ProfileOp) (now : Z) : tx SubmissionDb ProfileMutationResult :=
  match o with
  | Op_update i c a => updateSessionInboxItemProfile sessionId i c a mutation now
  | Op_reorder ids => reorderSessionInboxProfile sessionId ids mutation now
  | Op_delete i => deleteSessionInboxItemProfile sessionId i mutation now
  | Op_decide i dec => decideSessionInboxItemProfile sessionId i dec mutation now
  | Op_merge i j => mergeSessionInboxItemsProfile sessionId i j mutation now
  end.

Definition done {S A} (m : tx S A) : tx S unit := let* _ := m in mret tt.

Definition run_inbox (c : InboxCall) : tx SubmissionDb unit :=
  match c with
  | In_enqueue s c a q u now => done (enqueueSessionInbox s c a q u now)
  | In_route i s dec r e now => done (routeSessionInboxItem i s dec r e now)
  | In_duplicate i j s now => done (markSessionInboxDuplicate i j s now)
  | In_update i s c a now => done (updateSessionInboxItem i s c a now)
  | In_reorder s ids now => done (reorderSessionInbox s ids now)
  | In_delete i s now => done (deleteSessionInboxItem i s now)
  | In_discard i s now => done (discardSessionInboxItem i s now)
  | In_decide i s dec now => done (decideSessionInboxItem i s dec now)
  | In_clarify i s r now => done (markSessionInboxNeedsClarification i s r now)
  | In_merge i j s now => done (mergeSessionInboxItems i j s now)
  | In_audit item a now => done (recordSubmissionAudit item a now)
  | In_claim_next s k now => done (claimNextSessionInbox s k now)
  | In_claim_now i s p k now => done (claimSessionInboxNow i s p k now)
  | In_launch_failed i r e now => recordSessionInboxLaunchFailure i r e now
  | In_retry r now => done (retryInboxLaunch r now)
  | In_profile s mu o now => done (run_profile s mu o now)
  | In_goal c => in_goals (run_call c)
  | In_port o => in_exec_db (run_port o)
  end.

(** The launch of an item fails after it started, a TaskRun is created by a claim only. *)
Definition called_for (c : InboxCall) (d : SubmissionDb) : Prop :=
  match c with
  | In_launch_failed i _ _ _ => forall x, items d !! i = Some x -> x_status x = "started"
  | In_goal c => above c
  | In_port o => not_creation o
  | _ => True
  end.

(** A call that throws leaves the database as it was. *)
Inductive inbox_history (d : SubmissionDb) : SubmissionDb -> Prop :=
  | ih_start : inbox_history d d
  | ih_call c d1 d2 : inbox_history d d1 -> called_for c d1 -> run_inbox c d1 = Ok (tt, d2) -> inbox_history d d2.
End calls.

(** * What holds *)

Record InboxOk (d : SubmissionDb) : Prop := {
  io_request : forall i j x y, items d !! i = Some x -> items d !! j = Some y ->
    x_sessionId x = x_sessionId y -> x_requestId x = x_requestId y -> i = j;
  io_queued : forall i x, items d !! i = Some x -> x_status x = "queued" -> x_runId x = None;
  io_started : forall i x, items d !! i = Some x -> x_status x = "started" ->
    exists r row, x_runId x = Some r /\ runs (sb_db d) !! r = Some row /\ r_requestId row = "inbox:" +:+ i /\ r_sessionId row = x_sessionId x;
  io_runs : forall r r' row row', runs (sb_db d) !! r = Some row -> runs (sb_db d) !! r' = Some row' -> r_requestId row = r_requestId row' -> r = r';
}.

(** What is final of an item that has left the queue: all but its error and its revision. *)
Definition settled_face (x : InboxRow) : InboxRow :=
  {| x_sessionId := x_sessionId x; x_requestId := x_requestId x; x_content := x_content x; x_status := x_status x;
     x_decision := x_decision x; x_runId := x_runId x; x_error := ""; x_position := x_position x; x_createdAt := x_createdAt x;
     x_updatedAt := 0; x_claimedAt := x_claimedAt x; x_startedAt := x_startedAt x; x_analysis := x_analysis x;
     x_manualOrder := x_manualOrder x; x_revision := 0 |}.

Definition settled_kept (d d' : SubmissionDb) : Prop :=
  forall i x, items d !! i = Some x -> x_status x <> "queued" -> exists y, items d' !! i = Some y /\ settled_face y = settled_face x.

(** A step keeps the invariant and what is settled; an inner one writes no receipt. *)
Record inner_step (d d' : SubmissionDb) : Prop := {
  is_ok : InboxOk d -> InboxOk d';
  is_settled : settled_kept d d';
  is_receipts : profile_receipts d' = profile_receipts d;
}.

Record inbox_step (d d' : SubmissionDb) : Prop := {
  ss_ok : InboxOk d -> InboxOk d';
  ss_settled : settled_kept d d';
  ss_receipts : profile_receipts d ⊆ profile_receipts d';
}.

#[export] Instance inner_step_preorder : PreOrder inner_step.
Proof.
  split; [intros d; split; [done|by intros i x Hx; eauto|done]|]. intros d1 d2 d3 [A1 A2 A3] [B1 B2 B3]. split; [auto| |congruence].
  intros i x Hx Hs. destruct (A2 i x Hx Hs) as (y & Hy & Ey). destruct (B2 i y Hy) as (z & Hz & Ez); [|by exists z; rewrite Ez].
  by injection Ey as _ _ _ -> _.
Qed.

#[export] Instance inbox_step_preorder : PreOrder inbox_step.
Proof.
  split; [intros d; split; [done|by intros i x Hx; eauto|done]|]. intros d1 d2 d3 [A1 A2 A3] [B1 B2 B3]. split; [auto| |by etrans].
  intros i x Hx Hs. destruct (A2 i x Hx Hs) as (y & Hy & Ey). destruct (B2 i y Hy) as (z & Hz & Ez); [|by exists z; rewrite Ez].
  by injection Ey as _ _ _ -> _.
Qed.

Lemma inner_inbox d d' : inner_step d d' -> inbox_step d d'.
Proof. intros [H1 H2 H3]. split; [done..|by rewrite H3]. Qed.

(** How a row may change. *)
Definition row_ok (x y : InboxRow) : Prop :=
  settled_face y = settled_face x
  \/ x_sessionId y = x_sessionId x /\ x_requestId y = x_requestId x /\ x_status x = "queued"
     /\ (x_status y = "queued" /\ x_runId y = x_runId x \/ x_status y = "routed" \/ x_status y = "deleted").

Lemma row_ok_same x y : row_ok x y -> x_sessionId y = x_sessionId x /\ x_requestId y = x_requestId x.
Proof. intros [E|(-> & -> & _)]; [by injection E|done]. Qed.

(** Rows change in place, TaskRuns keep their identity. *)
Lemma rows_step d d' :
  (forall i y, items d' !! i = Some y -> exists x, items d !! i = Some x /\ row_ok x y) ->
  (forall i x, items d !! i = Some x -> is_Some (items d' !! i)) ->
  (forall r, run_face <$> runs (sb_db d') !! r = run_face <$> runs (sb_db d) !! r) ->
  profile_receipts d' = profile_receipts d -> inner_step d d'.
Proof.
  intros Hrows Hdom Hruns Hrec.
  assert (forall r row', runs (sb_db d') !! r = Some row' -> exists row, runs (sb_db d) !! r = Some row /\ run_face row = run_face row') as Hr'.
  { intros r row' E. specialize (Hruns r). rewrite E in Hruns. cbn in Hruns. symmetry in Hruns. apply fmap_Some in Hruns as (row & -> & ->). eauto. }
  split; [|..|done].
  - intros [I1 I2 I3 I4]. split.
    + intros i j x' y' Hx Hy Es Eq. apply Hrows in Hx as (x & Hx & [Sx Qx]%row_ok_same), Hy as (y & Hy & [Sy Qy]%row_ok_same).
      apply (I1 i j x y); congruence.
    + intros i y Hy Hq. apply Hrows in Hy as (x & Hx & [E|(_ & _ & Hs & [[_ ->]|[E|E]])]); [|eauto|congruence..].
      injection E as _ _ _ Es _ Er. rewrite Er. apply (I2 i x Hx). congruence.
    + intros i y Hy Hq. apply Hrows in Hy as (x & Hx & [E|(_ & _ & Hs & [[E _]|[E|E]])]); [|congruence..].
      injection E as E1 _ _ E2 _ E3. rewrite E2 in Hq. destruct (I3 i x Hx Hq) as (r & row & Q1 & Q2 & Q3 & Q4).
      specialize (Hruns r). rewrite Q2 in Hruns. cbn in Hruns. apply fmap_Some in Hruns as (row' & Hrow & E).
      injection E as _ F2 F3 _. exists r, row'. split_and!; congruence.
    + intros r r' row row' (a & Ha & Fa)%Hr' (b & Hb & Fb)%Hr' E. injection Fa as _ _ Fa _. injection Fb as _ _ Fb _.
      apply (I4 r r' a b); congruence.
  - intros i x Hx Hs. destruct (Hdom i x Hx) as [y Hy]. exists y. split; [done|].
    apply Hrows in Hy as (x' & Hx' & [E|(_ & _ & E & _)]); [congruence|]. congruence.
Qed.

(** * Every operation is a step *)

Definition safe {A} (m : tx SubmissionDb A) : Prop := forall d a d', m d = Ok (a, d') -> inner_step d d'.

Create HintDb safe.

Section safe.
Context `{Platform, ContractType}.

Lemma safe_ret {A} (a : A) : safe (mret a).
Proof. by intros d x d' [_ ->]%mret_ok. Qed.

Lemma safe_bind {A B} (m : tx SubmissionDb A) (f : A -> tx SubmissionDb B) : safe m -> (forall a, safe (f a)) -> safe (mbind f m).
Proof. intros Hm Hf d b d' (a & d1 & H1%Hm & H2%Hf)%tx_bind_ok. by etrans. Qed.

Lemma safe_gets {A} (f : SubmissionDb -> A) : safe (gets f).
Proof. by intros d a d' [_ ->]%gets_ok. Qed.

Lemma safe_require b e : safe (require b e).
Proof. by intros d a d' [_ ->]%require_ok. Qed.

Lemma safe_present {A} (o : option A) e : safe (present o e).
Proof. by intros d a d' [_ ->]%present_ok. Qed.

Lemma safe_lift {A} (r : result A) : safe (lift r).
Proof. by intros d a d' [_ ->]%lift_ok. Qed.

Lemma same_rows d d' : sb_db d' = sb_db d -> profile_receipts d' = profile_receipts d -> inner_step d d'.
Proof.
  intros E Er. apply rows_step; unfold items; rewrite ?E; [|eauto|done|done]. intros i y Hy. exists y. split; [done|by left].
Qed.

Lemma safe_aside (f : SubmissionDb -> SubmissionDb) :
  (forall d, sb_db (f d) = sb_db d /\ profile_receipts (f d) = profile_receipts d) -> safe (modify f).
Proof. intros Hf d u d' ->%modify_ok. destruct (Hf d). by apply same_rows. Qed.

Lemma safe_touch s now : safe (touchSessionInboxRevision s now).
Proof. by apply safe_aside. Qed.

Lemma faces_step d e g : sb_db (set_sb_goals g d) = e -> faces (sb_db d) e -> inner_step d (set_sb_goals g d).
Proof.
  intros E [Fr Fi]. apply rows_step; [| |by rewrite E|done]; unfold items; rewrite E.
  - intros i y Hy. specialize (Fi i). rewrite Hy in Fi. cbn in Fi. symmetry in Fi. apply fmap_Some in Fi as (x & Hx & Ex).
    exists x. split; [done|left]. exact (f_equal settled_face Ex).
  - intros i x Hx. specialize (Fi i). rewrite Hx in Fi. cbn in Fi. apply fmap_Some in Fi as (y & Hy & _). eauto.
Qed.

Lemma safe_exec {A} (m : tx Db A) : framed m -> safe (in_exec_db m).
Proof. intros Hm d a d' (e & He%Hm & ->)%in_exec_db_ok. by eapply faces_step. Qed.

Lemma safe_goals {A} (m : tx GoalDb A) : goal_framed faces m -> safe (in_goals m).
Proof. intros Hm d a d' (g & Hg%Hm & ->)%in_goals_ok. by eapply faces_step. Qed.

Lemma safe_update_item i p f : (forall x, p x = true -> row_ok x (f x)) -> safe (update_item i p f).
Proof.
  intros Hf d b d' [(_ & x & Hx & Hp & ->)|(_ & -> & _)]%update_item_ok; [|done]. apply rows_step; [| |done|done]; unfold items at 1; cbn.
  - intros j y [[<- <-]|[_ Hy]]%lookup_insert_Some; [eauto|]. exists y. split; [done|by left].
  - intros j y Hy. rewrite lookup_insert_is_Some. destruct (decide (i = j)); [by left|right]. by split; [|eexists].
Qed.

Lemma safe_change i s p f now : (forall x, p x = true -> row_ok x (f x)) -> safe (change_item i s p f now).
Proof.
  intros Hf. unfold change_item. apply safe_bind; [by apply safe_update_item|]. intros b. apply safe_bind; [|intros; apply safe_ret].
  destruct b; [apply safe_touch|apply safe_ret].
Qed.

Lemma safe_changed i s p f now : (forall x, p x = true -> row_ok x (f x)) -> safe (changed_item i s p f now).
Proof.
  intros Hf. unfold changed_item. apply safe_bind; [by apply safe_change|]. intros b. apply safe_bind; [apply safe_gets|intros; apply safe_ret].
Qed.

(** A queued item stays queued, or is routed or deleted. *)
Lemma queued_row_ok s x y : queued_in s x = true ->
  x_sessionId y = x_sessionId x -> x_requestId y = x_requestId x ->
  (x_status y = x_status x /\ x_runId y = x_runId x \/ x_status y = "routed" \/ x_status y = "deleted") -> row_ok x y.
Proof. unfold queued_in. intros Hq Es Er Hy. bool_prop. right. split_and!; [done..|]. destruct Hy as [[-> ->]|]; auto. Qed.

Hint Resolve safe_ret safe_gets safe_require safe_present safe_lift safe_touch : safe.

Ltac queued_row := intros; bool_prop; eapply queued_row_ok; [eassumption|reflexivity|reflexivity|auto].

(** Follows the statements of an operation. *)
Ltac go_safe := repeat first
  [ progress intros
  | match goal with |- safe (match ?o with _ => _ end) => destruct o end
  | match goal with |- safe (let _ := ?v in _) => cbv zeta end
  | solve [auto with safe]
  | apply safe_changed; solve [queued_row] | apply safe_change; solve [queued_row] | apply safe_update_item; solve [queued_row]
  | apply safe_bind ].

Lemma route_safe i s dec r e now : safe (routeSessionInboxItem i s dec r e now).
Proof. unfold routeSessionInboxItem. go_safe. Qed.

Lemma duplicate_safe i j s now : safe (markSessionInboxDuplicate i j s now).
Proof. unfold markSessionInboxDuplicate. go_safe. Qed.

Lemma update_safe i s c a now : safe (updateSessionInboxItem i s c a now).
Proof. unfold updateSessionInboxItem. go_safe. Qed.

Lemma delete_safe i s now : safe (deleteSessionInboxItem i s now).
Proof. unfold deleteSessionInboxItem. go_safe. Qed.

Lemma decide_safe i s dec now : safe (decideSessionInboxItem i s dec now).
Proof. unfold decideSessionInboxItem. go_safe. Qed.

Lemma clarify_safe i s r now : safe (markSessionInboxNeedsClarification i s r now).
Proof. unfold markSessionInboxNeedsClarification. go_safe. Qed.

Lemma find_item_some p d i x : find_item p d = Some (i, x) -> items d !! i = Some x /\ p x = true.
Proof. unfold find_item. intros [Hin Hp]%find_some. by apply list_elem_of_In, elem_of_map_to_list in Hin. Qed.

Lemma find_item_none p d i x : find_item p d = None -> items d !! i = Some x -> p x = false.
Proof.
  unfold find_item. intros Hn Hx. apply (find_none _ _ Hn (i, x)). by apply list_elem_of_In, elem_of_map_to_list.
Qed.

Lemma audit_safe item a now : safe (recordSubmissionAudit item a now).
Proof.
  unfold recordSubmissionAudit. go_safe. by apply safe_aside.
Qed.
Hint Resolve audit_safe : safe.

Lemma record_audit_safe item a now : safe (record_audit item a now).
Proof. unfold record_audit. go_safe. Qed.
Hint Resolve record_audit_safe : safe.

(** A new item of the queue. *)
Lemma new_item_step d i x : items d !! i = None -> x_status x = "queued" -> x_runId x = None ->
  (forall j y, items d !! j = Some y -> x_sessionId y = x_sessionId x -> x_requestId y = x_requestId x -> False) ->
  inner_step d (with_db (set_inbox (insert i x) (sb_db d)) d).
Proof.
  intros Hi Hs Hr Hq. split; [|..|done].
  - intros [I1 I2 I3 I4]. split; unfold items in *; cbn.
    + intros j k y z [[<- <-]|[Hj Hy]]%lookup_insert_Some [[<- <-]|[Hk Hz]]%lookup_insert_Some E1 E2; [done|exfalso; eauto..|eauto].
    + intros j y [[<- <-]|[Hj Hy]]%lookup_insert_Some; eauto.
    + intros j y [[<- <-]|[Hj Hy]]%lookup_insert_Some; [congruence|eauto].
    + exact I4.
  - intros j y Hy _. exists y. split; [|done]. unfold items in *. cbn. by rewrite lookup_insert_ne by congruence.
Qed.

Lemma enqueue_safe s c a q u now : safe (enqueueSessionInbox s c a q u now).
Proof.
  unfold enqueueSessionInbox. apply safe_bind; [apply safe_lift|]. intros _ d item d' (? & d0 & [-> ->]%gets_id_ok & Hs)%tx_bind_ok.
  destruct (getSessionSubmission s q d) as [old|] eqn:Eq.
  { match type of Hs with ?m _ = _ => assert (safe m) as Hm by go_safe end. by eapply Hm. }
  apply tx_bind_ok in Hs as (i & d1 & Hu & Hs). pose proof (safe_exec _ framed_uuid _ _ _ Hu) as Hu'.
  apply in_exec_db_ok in Hu as (e & [_ ->]%randomUUID_ok & ->).
  apply tx_bind_ok in Hs as (? & d1 & [Hi%bool_decide_eq_true ->]%require_ok & Hs).
  apply tx_bind_ok in Hs as (? & d1 & [_ ->]%require_ok & Hs). cbv zeta in Hs.
  apply tx_bind_ok in Hs as (? & d1 & ->%set_items_ok & Hs). etrans; [exact Hu'|].
  match type of Hs with _ ?t = _ => transitivity t end.
  - eapply (new_item_step _ i); [exact Hi|reflexivity|reflexivity|]. intros j y Hy Es Er.
    assert (requested s q y = false) as Hn.
    { unfold getSessionSubmission in Eq. apply fmap_None in Eq. eapply (find_item_none _ _ _ _ Eq). exact Hy. }
    cbn in Es, Er. unfold requested in Hn. by rewrite Es, Er, !String.eqb_refl in Hn.
  - match type of Hs with ?m _ = _ => assert (safe m) as Hm by go_safe end. by eapply Hm.
Qed.

Lemma merge_safe i j s now : safe (mergeSessionInboxItems i j s now).
Proof.
  assert (forall k f, (forall x, x_sessionId (f x) = x_sessionId x /\ x_requestId (f x) = x_requestId x /\
      (x_status (f x) = x_status x /\ x_runId (f x) = x_runId x \/ x_status (f x) = "routed" \/ x_status (f x) = "deleted")) ->
    safe (update_item k (fun x => String.eqb (x_status x) "queued") f)) as Hu.
  { intros k f Hf. apply safe_update_item. intros x Hq. destruct (Hf x) as (E1 & E2 & E3). eapply (queued_row_ok (x_sessionId x)); [|done..].
    unfold queued_in. by rewrite String.eqb_refl, Hq. }
  unfold mergeSessionInboxItems. repeat first
    [progress intros | match goal with |- safe (match ?o with _ => _ end) => destruct o end | solve [auto with safe]
    | apply Hu; intros; cbn; tauto | apply safe_bind].
Qed.

Lemma discard_safe i s now : safe (discardSessionInboxItem i s now).
Proof.
  unfold discardSessionInboxItem. intros d b d' (? & d0 & [-> ->]%gets_ok & Hs)%tx_bind_ok.
  destruct (items d !! i) as [x|] eqn:Hx; [|by apply mret_ok in Hs as [_ ->]].
  destruct (queued_in s x && _) eqn:Hq; [|by apply mret_ok in Hs as [_ ->]].
  apply tx_bind_ok in Hs as (? & d1 & ->%set_items_ok & Hs). transitivity (with_db (set_inbox (delete i) (sb_db d)) d).
  - unfold queued_in in Hq. bool_prop. split; [|..|done].
    + intros [I1 I2 I3 I4]. split; unfold items in *; cbn.
      * intros j k y z [_ Hy]%lookup_delete_Some [_ Hz]%lookup_delete_Some. eauto.
      * intros j y [_ Hy]%lookup_delete_Some. eauto.
      * intros j y [_ Hy]%lookup_delete_Some. eauto.
      * exact I4.
    + intros j y Hy Hn. exists y. split; [|done]. unfold items in *. cbn. rewrite lookup_delete_ne; [done|]. intros ->. congruence.
  - match type of Hs with ?m _ = _ => assert (safe m) as Hm end; [|by eapply Hm].
    apply safe_bind; [by apply safe_aside|]. intros. apply safe_bind; [|intros; go_safe].
    apply safe_goals, gframed_modify; [apply _|done].
Qed.

Lemma reorder_safe s ids now : safe (reorderSessionInbox s ids now).
Proof.
  unfold reorderSessionInbox. apply safe_bind; [apply safe_gets|]. intros d0. cbv zeta. destruct (_ || _); [apply safe_ret|].
  apply safe_bind; [|intros; go_safe]. intros d u d' ->%set_items_ok. apply rows_step; [| |done|done]; unfold items; cbn.
  - intros i y Hy. rewrite map_lookup_imap in Hy. apply bind_Some in Hy as (x & Hx & [= <-]). exists x. split; [done|]. unfold reordered.
    destruct (queued_in s x) eqn:Hq; [|by left]. destruct (position_of ids i); (eapply queued_row_ok; [exact Hq|done|done|by left]).
  - intros i x Hx. rewrite map_lookup_imap, Hx. by eexists.
Qed.

Lemma claimed_step s i x c d d' : claimed s i x c d d' -> inner_step d d'.
Proof.
  intros [[Hx Hq] (_ & Hd & [S1 S2]) [N1 N2] (R1 & R2 & R3 & R4 & R5) Ho _ [_ Hr]]. unfold queued_in in Hq. bool_prop.
  destruct S1 as (S1 & _ & S3), S2 as (S4 & S5 & _).
  assert (forall r row, runs (sb_db d) !! r = Some row -> runs (sb_db d') !! r = Some row) as Hkeep by (intros r row E; rewrite Ho; congruence).
  split; [|..|done].
  - intros [I1 I2 I3 I4]. split; rewrite ?Hd.
    + intros j k y z [[<- <-]|[Hj Hy]]%lookup_insert_Some [[<- <-]|[Hk Hz]]%lookup_insert_Some E1 E2; [done| | |eauto].
      * apply (I1 i k x z); congruence.
      * apply (I1 j i y x); congruence.
    + intros j y [[<- <-]|[Hj Hy]]%lookup_insert_Some; [congruence|eauto].
    + intros j y [[<- <-]|[Hj Hy]]%lookup_insert_Some Ey.
      * exists (r_id (cl_run c)), (cl_run c). split_and!; congruence.
      * destruct (I3 j y Hy Ey) as (r & row & Q1 & Q2 & Q3). exists r, row. auto.
    + intros r r' row row' Hrow Hrow' E. destruct (decide (r = r_id (cl_run c))) as [->|Hne], (decide (r' = r_id (cl_run c))) as [->|Hne']; [done| | |].
      * exfalso. rewrite Ho in Hrow' by done. apply (N2 r' row' Hrow'). congruence.
      * exfalso. rewrite Ho in Hrow by done. apply (N2 r row Hrow). congruence.
      * rewrite Ho in Hrow, Hrow' by done. eauto.
  - intros j y Hy Hn. exists y. split; [|done]. rewrite Hd, lookup_insert_ne; [done|]. intros ->. congruence.
Qed.

Lemma claimItem_safe i s k now : safe (claimSessionInboxItem i s k now).
Proof.
  intros d [c|] d' Hs; [apply claimItem_ok in Hs as [x Hc]; by eapply claimed_step|].
  unfold claimSessionInboxItem in Hs. apply tx_bind_ok in Hs as (b & d1 & [(-> & _)|(-> & -> & _)]%update_item_ok & Hs); [|by apply mret_ok in Hs as [_ ->]].
  cbn [negb] in Hs. repeat (apply tx_bind_ok in Hs as (? & ? & _ & Hs)). by apply mret_ok in Hs as [? _].
Qed.
Hint Resolve enqueue_safe merge_safe discard_safe reorder_safe claimItem_safe route_safe duplicate_safe update_safe delete_safe decide_safe
  clarify_safe : safe.

Lemma claimNext_safe s k now : safe (claimNextSessionInbox s k now).
Proof. unfold claimNextSessionInbox. go_safe. Qed.

Lemma claimNow_safe i s p k now : safe (claimSessionInboxNow i s p k now).
Proof. unfold claimSessionInboxNow. go_safe. Qed.

Lemma launch_failed_step i r e now d u d' : (forall x, items d !! i = Some x -> x_status x = "started") ->
  recordSessionInboxLaunchFailure i r e now d = Ok (u, d') -> inner_step d d'.
Proof.
  unfold recordSessionInboxLaunchFailure. intros Hst (? & d0 & [-> ->]%gets_id_ok & Hs)%tx_bind_ok.
  destruct (items d !! i) as [x|] eqn:Hx; [|by apply mret_ok in Hs as [_ ->]].
  destruct (bool_decide _); [|by apply mret_ok in Hs as [_ ->]].
  apply tx_bind_ok in Hs as (? & d1 & ->%set_items_ok & Hs%safe_touch). etrans; [|exact Hs]. apply rows_step; [| |done|done]; unfold items; cbn.
  - intros j y [[<- <-]|[_ Hy]]%lookup_insert_Some; [|exists y; split; [done|by left]]. exists x. split; [done|left].
    unfold settled_face. cbn. by rewrite (Hst x eq_refl).
  - intros j y Hy. rewrite lookup_insert_is_Some. destruct (decide (i = j)); [by left|right]. by split; [|eexists].
Qed.

Lemma retry_safe r now : safe (retryInboxLaunch r now).
Proof.
  unfold retryInboxLaunch. intros d v d' (? & d0 & [-> ->]%gets_id_ok & Hs)%tx_bind_ok.
  destruct (runs (sb_db d) !! r) as [run|] eqn:Hr, (find_item (started_by r) d) as [[i x]|]; try by apply mret_ok in Hs as [_ ->].
  destruct (_ || _); [by apply mret_ok in Hs as [_ ->]|]. destruct (List.find _ _) as [[? ?]|]; [by apply mret_ok in Hs as [_ ->]|].
  destruct (session_continuation _ _ _); [by apply mret_ok in Hs as [_ ->]|].
  apply tx_bind_ok in Hs as (? & d1 & (e & ->%modify_ok & ->)%in_exec_db_ok & Hs).
  transitivity (with_db (set_runs (insert r (relaunched now run)) (sb_db d)) d).
  - eapply faces_step; [reflexivity|]. split; intros j; [|done]. cbn. destruct (decide (r = j)) as [<-|]; [|by rewrite lookup_insert_ne].
    by rewrite lookup_insert_eq, Hr.
  - match type of Hs with ?m _ = _ => assert (safe m) as Hm end; [|by eapply Hm].
    apply safe_bind; [apply safe_update_item; intros; by left|]. intros. apply safe_bind; [go_safe|]. intros.
    apply safe_bind; [apply safe_exec, framed_project|]. intros. go_safe.
Qed.

(** * The operator's changes *)

(** A change that happens counts the revision of the collection up by one; one that does not leaves nothing. *)
Definition counted {A} (s : string) (m : tx SubmissionDb (option A)) : Prop := forall d o d', m d = Ok (o, d') ->
  match o with
  | None => d' = d
  | Some _ => exists v, inbox_revisions d' = <[s := v]> (inbox_revisions d)
                /\ iv_revision v = (match inbox_revisions d !! s with Some w => iv_revision w + 1 | None => 2 end)%Z
  end.

Lemma change_counted i s p f now d b d' : change_item i s p f now d = Ok (b, d') ->
  if b then is_Some (items d' !! i) /\ exists v, inbox_revisions d' = <[s := v]> (inbox_revisions d)
              /\ iv_revision v = (match inbox_revisions d !! s with Some w => iv_revision w + 1 | None => 2 end)%Z
  else d' = d.
Proof.
  unfold change_item. intros (b1 & d1 & Hu & Hs)%tx_bind_ok. apply tx_bind_ok in Hs as (? & d2 & Ht & [-> ->]%mret_ok).
  apply update_item_ok in Hu as [(-> & y & _ & _ & ->)|(-> & -> & _)].
  - apply touch_ok in Ht as (v & -> & Hv). split; [|by exists v]. unfold items. cbn. rewrite lookup_insert_eq. by eexists.
  - by apply mret_ok in Ht as [_ ->].
Qed.

Lemma changed_counted i s p f now : counted s (changed_item i s p f now).
Proof.
  unfold changed_item. intros d o d' (b & d1 & Hb%change_counted & Hs)%tx_bind_ok.
  apply tx_bind_ok in Hs as (? & d2 & [-> ->]%gets_ok & [-> ->]%mret_ok). destruct b; [|done].
  destruct Hb as ([x Hx] & v & E & Ev). unfold getSessionInboxItem. rewrite Hx. by exists v.
Qed.

Lemma naming_counted {A} s ids (m : tx SubmissionDb (option A)) : counted s m -> counted s (naming ids m).
Proof. intros Hm d o d' (r & d1 & Hr%Hm & [-> ->]%mret_ok)%tx_bind_ok. by destruct r. Qed.

Lemma naming_if_counted i s ids f now (g : SubmissionDb -> InboxRow -> bool) :
  counted s (naming_if ids (let* d := gets (fun d => d) in change_item i s (g d) f now)).
Proof.
  intros d o d' (b & d1 & Hb & [-> ->]%mret_ok)%tx_bind_ok. apply tx_bind_ok in Hb as (? & d2 & [-> ->]%gets_ok & Hb%change_counted).
  destruct b; [by destruct Hb as (_ & v & Hv); exists v|done].
Qed.

Lemma update_counted i s c a now : counted s (updateSessionInboxItem i s c a now).
Proof.
  unfold updateSessionInboxItem. intros d o d'. cbv zeta. destruct (String.eqb _ ""); [by intros [-> ->]%mret_ok|].
  intros (? & d1 & [_ ->]%lift_ok & Hs)%tx_bind_ok. apply tx_bind_ok in Hs as (? & d2 & [-> ->]%gets_ok & Hs). by eapply changed_counted.
Qed.

Lemma merge_counted i j s ids now : counted s (naming_if ids (mergeSessionInboxItems i j s now)).
Proof.
  unfold naming_if, mergeSessionInboxItems. intros d o d' (b & d1 & Hb & [-> ->]%mret_ok)%tx_bind_ok.
  destruct (String.eqb i j); [by apply mret_ok in Hb as [-> ->]|]. apply tx_bind_ok in Hb as (? & d2 & [-> ->]%gets_ok & Hb).
  destruct (getSessionInboxItem i d), (getSessionInboxItem j d); try by apply mret_ok in Hb as [-> ->].
  destruct (_ || _); [by apply mret_ok in Hb as [-> ->]|]. destruct (_ || _); [by apply mret_ok in Hb as [-> ->]|].
  apply tx_bind_ok in Hb as (b1 & d2 & H1 & Hb). apply tx_bind_ok in Hb as (b2 & d3 & H2 & Hb).
  apply tx_bind_ok in Hb as (? & d4 & (v & -> & Hv)%touch_ok & [-> ->]%mret_ok).
  assert (forall k p f e b e', update_item k p f e = Ok (b, e') -> inbox_revisions e' = inbox_revisions e) as Hk.
  { intros k p f e b' e' [(_ & y & _ & _ & ->)|(_ & -> & _)]%update_item_ok; done. }
  apply Hk in H1, H2. exists v. cbn. by rewrite <- H1, <- H2.
Qed.

Lemma reorder_counted s ids now : counted s (let* r := reorderSessionInbox s ids now in mret (map sm_id <$> r)).
Proof.
  unfold reorderSessionInbox. intros d o d' (r & d1 & Hr & [-> ->]%mret_ok)%tx_bind_ok.
  apply tx_bind_ok in Hr as (? & d2 & [-> ->]%gets_ok & Hr). cbv zeta in Hr. destruct (_ || _); [by apply mret_ok in Hr as [-> ->]|].
  apply tx_bind_ok in Hr as (? & d2 & ->%set_items_ok & Hr). apply tx_bind_ok in Hr as (? & d3 & (v & -> & Hv)%touch_ok & Hr).
  apply tx_bind_ok in Hr as (? & d4 & [-> ->]%gets_ok & [-> ->]%mret_ok). by exists v.
Qed.

Definition receipt_key (mu : ProfileMutationContext) (endpoint s : string) : string * string * string * string :=
  (pc_principalId mu, endpoint, s, pc_idempotencyKey mu).

(** A change that was made for the revision the operator knew, with its receipt. *)
Record change_made (s endpoint : string) (mu : ProfileMutationContext) (v : ProfileInboxMutationValue) (d d' : SubmissionDb) (e : ProfileReceipt)
    : Prop := {
  cm_known : exists w, inbox_revisions d !! s = Some w /\ iv_revision w = pc_expectedRevision mu;
  cm_counted : pv_collectionRevision v = (pc_expectedRevision mu + 1)%Z;
  cm_receipt : profile_receipts d' !! receipt_key mu endpoint s = Some e;
  cm_value : pr_value e = v /\ pr_payloadHash e = sha256 (pc_canonicalPayload mu) /\ pr_expectedRevision e = pc_expectedRevision mu;
}.

Lemma mutate_ok s endpoint name mu work now d r d' : safe work -> counted s work ->
  mutateSessionInboxProfile s endpoint name mu work now d = Ok (r, d') ->
  inbox_step d d' /\ match r with pm_succeeded v false => exists e, change_made s endpoint mu v d d' e | _ => d' = d end.
Proof.
  intros Hsafe Hcount. unfold mutateSessionInboxProfile. cbv zeta. fold (receipt_key mu endpoint s).
  intros (? & d0 & [-> ->]%gets_id_ok & Hs)%tx_bind_ok. destruct (profile_receipts d !! _) as [e|] eqn:Er.
  { apply mret_ok in Hs as [-> ->]. by destruct (_ && _). }
  destruct (inbox_revisions d !! s) as [w|] eqn:Ew; [|by apply mret_ok in Hs as [-> ->]].
  destruct (Z.eqb_spec (iv_revision w) (pc_expectedRevision mu)) as [Ex|]; [|by apply mret_ok in Hs as [-> ->]]. cbn [negb] in Hs.
  apply tx_bind_ok in Hs as (o & d1 & Hw & Hs). pose proof (Hsafe _ _ _ Hw) as Hstep. apply Hcount in Hw. destruct o as [ids|].
  2: { apply mret_ok in Hs as [-> ->]. by subst d1. }
  destruct Hw as (v & Ev & Hv). rewrite Ew in Hv. apply tx_bind_ok in Hs as (? & d2 & [-> ->]%gets_id_ok & Hs).
  apply tx_bind_ok in Hs as (res & d2 & [Hres ->]%present_ok & Hs). rewrite Ev, lookup_insert_eq in Hres. injection Hres as <-.
  apply tx_bind_ok in Hs as (? & d2 & ->%modify_ok & Hs). apply tx_bind_ok in Hs as (audit & d3 & Hu & Hs).
  pose proof (safe_exec _ framed_uuid _ _ _ Hu) as Hstep2. apply in_exec_db_ok in Hu as (e & [_ ->]%randomUUID_ok & ->).
  apply tx_bind_ok in Hs as (? & d4 & ->%modify_ok & [-> ->]%mret_ok). pose proof (is_receipts _ _ Hstep) as Hrec. split.
  - etrans; [apply inner_inbox, Hstep|]. match type of Hstep2 with inner_step ?t _ => transitivity t end.
    + assert (inner_step d1 d1) as Hself by done. split; [by intros []; split|by destruct Hself|]. cbn. apply insert_subseteq. by rewrite Hrec.
    + apply inner_inbox. etrans; [exact Hstep2|]. by apply same_rows.
  - eexists. split; [by exists w|cbn; lia|cbn; apply lookup_insert_eq|by split_and!].
Qed.

(** The receipt answers for the change ever after. *)
Lemma mutate_replays s endpoint name mu work now d e v d0 d1 : change_made s endpoint mu v d0 d1 e ->
  profile_receipts d !! receipt_key mu endpoint s = Some e ->
  mutateSessionInboxProfile s endpoint name mu work now d = Ok (pm_succeeded v true, d).
Proof.
  intros [_ _ _ (Hv & Hp & Hx)] He. unfold mutateSessionInboxProfile. cbv zeta. fold (receipt_key mu endpoint s).
  unfold mbind, tx_mbind, gets, id. by rewrite He, Hp, Hx, Hv, String.eqb_refl, Z.eqb_refl.
Qed.

Lemma profile_ok s mu o now d r d' : run_profile s mu o now d = Ok (r, d') ->
  inbox_step d d' /\ match r with
  | pm_succeeded v false => exists endpoint e, change_made s endpoint mu v d d' e
      /\ forall now2 d2, profile_receipts d2 !! receipt_key mu endpoint s = Some e -> run_profile s mu o now2 d2 = Ok (pm_succeeded v true, d2)
  | _ => d' = d
  end.
Proof.
  assert (forall endpoint name (f : Z -> tx SubmissionDb (option (list string))), safe (f now) -> counted s (f now) ->
    mutateSessionInboxProfile s endpoint name mu (f now) now d = Ok (r, d') ->
    (forall now2 d2, run_profile s mu o now2 d2 = mutateSessionInboxProfile s endpoint name mu (f now2) now2 d2) ->
    inbox_step d d' /\ match r with
      | pm_succeeded v false => exists endpoint e, change_made s endpoint mu v d d' e
          /\ forall now2 d2, profile_receipts d2 !! receipt_key mu endpoint s = Some e -> run_profile s mu o now2 d2 = Ok (pm_succeeded v true, d2)
      | _ => d' = d end) as Hall.
  { intros endpoint name f Hsafe Hcount Hs Hrun. apply mutate_ok in Hs as [Hstep Hr]; [|done..]. split; [done|].
    destruct r as [v []| | | |]; try done. destruct Hr as (e & He). exists endpoint, e. split; [done|].
    intros now2 d2 H2. rewrite Hrun. by eapply mutate_replays. }
  destruct o as [i c a|ids|i|i dec|i j]; intros Hs.
  - apply (Hall "operator.session_inbox.update" "update" (fun t => naming [i] (updateSessionInboxItem i s c (Some a) t))); [|by apply naming_counted, update_counted|done..].
    unfold naming. apply safe_bind; [apply update_safe|intros; apply safe_ret].
  - apply (Hall "operator.session_inbox.reorder" "reorder" (fun t => let* r := reorderSessionInbox s ids t in mret (map sm_id <$> r))); [|apply reorder_counted|done..].
    apply safe_bind; [apply reorder_safe|intros; apply safe_ret].
  - apply (Hall "operator.session_inbox.delete" "delete" (fun t => naming_if [i] (deleteSessionInboxItem i s t))); [|by apply naming_if_counted|done..].
    unfold naming_if. apply safe_bind; [apply delete_safe|intros; apply safe_ret].
  - apply (Hall "operator.session_inbox.decide" "decide" (fun t => naming_if [i] (decideSessionInboxItem i s dec t))); [|by apply naming_if_counted|done..].
    unfold naming_if. apply safe_bind; [apply decide_safe|intros; apply safe_ret].
  - apply (Hall "operator.session_inbox.merge" "merge" (fun t => naming_if [i; j] (mergeSessionInboxItems i j s t))); [|apply merge_counted|done..].
    unfold naming_if. apply safe_bind; [apply merge_safe|intros; apply safe_ret].
Qed.

Lemma call_step c d d' : called_for c d -> run_inbox c d = Ok (tt, d') -> inbox_step d d'.
Proof.
  assert (forall A (m : tx SubmissionDb A) u, safe m -> done m d = Ok (u, d') -> inbox_step d d') as Hdone.
  { intros A m u Hm (a & d1 & Ha%Hm & [_ ->]%mret_ok)%tx_bind_ok. by apply inner_inbox. }
  destruct c; intros Hc Hs; cbn in Hc, Hs; try (by eapply Hdone; [|exact Hs]; auto using claimNext_safe, claimNow_safe, retry_safe with safe).
  - by eapply inner_inbox, launch_failed_step.
  - apply tx_bind_ok in Hs as (r & d1 & [Hr _]%profile_ok & [_ ->]%mret_ok). done.
  - eapply inner_inbox, safe_goals; [by apply framed_goal_call|exact Hs].
  - eapply inner_inbox, safe_exec; [by apply framed_port|exact Hs].
Qed.

Lemma history_step d d' : inbox_history d d' -> inbox_step d d'.
Proof. induction 1 as [|c d1 d2 _ IH Hc Hs]; [done|]. etrans; [exact IH|by eapply call_step]. Qed.

Definition no_submissions (d : SubmissionDb) : Prop := items d = ∅ /\ runs (sb_db d) = ∅.

Lemma history_inbox_ok d0 d : no_submissions d0 -> inbox_history d0 d -> InboxOk d.
Proof.
  intros [Ei Er] Hh%history_step. apply Hh. split; rewrite ?Ei, ?Er; by intros * []%lookup_empty_Some.
Qed.

(** C25. However the operations on submissions, the goals and the ports of the
    execution store follow each other, the session and the request id name one
    submission, a queued one has no TaskRun, a started one has the TaskRun that
    was created for it in its session, no two TaskRuns answer for the same
    submission, and what became of a submission that left the queue is final: from
    then on only its error text and its revision change. *)
Theorem submission_outcome_final d0 d d' : no_submissions d0 -> inbox_history d0 d -> inbox_history d d' ->
  InboxOk d' /\ settled_kept d d'.
Proof.
  intros Hn Hh Hh'. pose proof (history_inbox_ok _ _ Hn Hh) as Hok. apply history_step in Hh'. split; [by apply Hh'|by apply Hh'].
Qed.


(** C27. A change of the inbox the operator asks for is made only on the revision
    of the collection it was asked for, counts that revision up by one and is made
    once: the same request at any later time gets the same answer and changes
    nothing. Every other answer leaves the database as it was. *)
Theorem operator_change_once s mu o now d r d1 : run_profile s mu o now d = Ok (r, d1) ->
  match r with
  | pm_succeeded v false =>
      (exists w, inbox_revisions d !! s = Some w /\ iv_revision w = pc_expectedRevision mu)
      /\ pv_collectionRevision v = (pc_expectedRevision mu + 1)%Z
      /\ forall d2 now2, inbox_history d1 d2 -> run_profile s mu o now2 d2 = Ok (pm_succeeded v true, d2)
  | _ => d1 = d
  end.
Proof.
  intros [_ Hr]%profile_ok. destruct r as [v []| | | |]; try done. destruct Hr as (endpoint & e & Hm & Hrep).
  split_and!; [apply Hm|apply Hm|]. intros d2 now2 Hh%history_step. apply Hrep.
  eapply lookup_weaken; [apply (cm_receipt _ _ _ _ _ _ _ Hm)|apply Hh].
Qed.
End safe.

(** * A concrete history *)

Lemma demo_nothing : no_submissions demo_empty.
Proof. split; reflexivity. Qed.

Definition after_inbox (calls : list InboxCall) (d : SubmissionDb) : SubmissionDb :=
  match for_each run_inbox calls d with Ok (_, d') => d' | Throw _ => d end.

(** The calls have no condition of their own. *)
Definition unconditional (c : InboxCall) : bool :=
  match c with In_launch_failed _ _ _ _ | In_goal _ | In_port _ => false | _ => true end.

Lemma after_inbox_history calls d0 d : inbox_history d0 d -> forallb unconditional calls = true -> inbox_history d0 (after_inbox calls d).
Proof.
  unfold after_inbox. intros Hh Hc. destruct (for_each run_inbox calls d) as [[u d']|] eqn:E; [|done].
  revert E. apply (for_each_ind (inbox_history d0)); [|done]. intros c t t' Hin Ht Hs. eapply ih_call; [exact Ht| |exact Hs].
  rewrite forallb_forall in Hc. specialize (Hc c (proj1 (list_elem_of_In _ _) Hin)). by destruct c.
Qed.

Definition demo_calls : list InboxCall :=
  [In_enqueue "desk" "Tidy" (demo_analysis "Tidy" "normal") "r1" None 1; In_enqueue "desk" "Fix" (demo_analysis "Fix" "critical") "r2" None 2].
Definition demo_later : list InboxCall := [In_claim_next "desk" [] 3; In_delete "uuid-0" "desk" 4; In_enqueue "desk" "More" (demo_analysis "More" "low") "r4" None 5].

Definition demo_two : SubmissionDb := after_inbox demo_calls demo_empty.
Definition demo_after : SubmissionDb := after_inbox demo_later demo_two.

Lemma demo_two_history : inbox_history demo_empty demo_two.
Proof. apply after_inbox_history; [constructor|reflexivity]. Qed.

Lemma submission_outcome_final_witness : InboxOk demo_after /\ settled_kept demo_two demo_after.
Proof.
  apply (submission_outcome_final demo_empty demo_two demo_after); [apply demo_nothing|apply demo_two_history|].
  apply after_inbox_history; [constructor|reflexivity].
Defined.

Definition no_item : InboxRow :=
  {| x_sessionId := ""; x_requestId := ""; x_content := ""; x_status := ""; x_decision := ""; x_runId := None; x_error := ""; x_position := 0;
     x_createdAt := 0; x_updatedAt := 0; x_claimedAt := None; x_startedAt := None; x_analysis := demo_analysis "" ""; x_manualOrder := false;
     x_revision := 0 |}.
Definition demo_tidy : InboxRow := default no_item (items demo_two !! "uuid-0").


Definition demo_mutation : ProfileMutationContext :=
  {| pc_principalId := "operator"; pc_grantedScopes := []; pc_delegatedActorId := None; pc_delegatedRequestId := None; pc_requestId := "q";
     pc_idempotencyKey := "k"; pc_canonicalPayload := "delete"; pc_expectedRevision := 3 |}.
Definition demo_answer : ProfileMutationResult := value_of pm_not_found (run_profile "desk" demo_mutation (Op_delete "uuid-0") 6 demo_two).
Definition demo_changed : SubmissionDb := state_of demo_two (run_profile "desk" demo_mutation (Op_delete "uuid-0") 6 demo_two).

Lemma operator_change_once_witness :
  match demo_answer with
  | pm_succeeded v false =>
      (exists w, inbox_revisions demo_two !! "desk" = Some w /\ iv_revision w = pc_expectedRevision demo_mutation)
      /\ pv_collectionRevision v = (pc_expectedRevision demo_mutation + 1)%Z
      /\ forall d2 now2, inbox_history demo_changed d2 -> run_profile "desk" demo_mutation (Op_delete "uuid-0") now2 d2 = Ok (pm_succeeded v true, d2)
  | _ => False
  end.
Proof.
  assert (run_profile "desk" demo_mutation (Op_delete "uuid-0") 6 demo_two = Ok (demo_answer, demo_changed)) as E
    by (apply succeeds_ok; vm_compute; reflexivity).
  apply operator_change_once in E.
  assert (match demo_answer with pm_succeeded _ false => true | _ => false end = true) as Hs by (vm_compute; reflexivity).
  destruct demo_answer as [v []| | | |]; try discriminate Hs. exact E.
Defined.
