(* ===== verification/PortHistory.v ===== *)
(** The calls of the store that concern the execution tables, in any order, and
    the history they leave: the steps of the lifecycle, the agreement of every
    TaskRun with its Attempt, the append-only event log of each TaskRun, and the
    audit trail of each Attempt. *)
From S2P Require Import Prelude Json SessionInput TaskPolicy Attempt GateData ExecDb Canonical AttemptRepo RunStore Continuation Transition Tools Mailbox RuntimeMutation AttemptSpec StoreSpec PlanGraph Demo AttemptRefine StoreRefine AttemptTrace PortSteps ContinuationSteps PortTrace ContinuationFacts PlanStore PlanFacts Evidence CompletionGate RunView Service GovMutation Approval ReviewsFacts Goal GoalStore GoalStoreFacts GoalFacts SessionInbox InboxFrame SessionInboxFacts InboxHistory.
Local Open Scope tx_scope.

(** * The calls *)

(** The operations on submissions and goals and the calls of PortTrace.v; the
    plan, the checks and the artifacts, under a fence or without; the input
    request without a fence; the recovery and the release of the leases of
    continuations; the hand-off to another release. *)
Inductive StoreOp :=
  | St_call (c : InboxCall)
  | St_fenced_plan_item (fence : TaskRunExecutionFence) (dbTime : Z) (item : PlanItem) (timestamp : Z)
  | St_fenced_checks_stale (fence : TaskRunExecutionFence) (dbTime timestamp : Z)
  | St_fenced_check (fence : TaskRunExecutionFence) (dbTime : Z) (check : RunCheck) (timestamp : Z)
  | St_fenced_artifact (fence : TaskRunExecutionFence) (dbTime : Z) (a : ArtifactInput) (timestamp : Z)
  | St_batch (fence : TaskRunExecutionFence) (dbTime : Z) (mutations : list TaskRunStateMutation) (timestamp : Z)
  | St_plan_item (runId : string) (item : PlanItem) (timestamp : Z)
  | St_checks_stale (runId : string) (timestamp : Z)
  | St_check (runId : string) (check : RunCheck) (timestamp : Z)
  | St_artifact (runId : string) (a : ArtifactInput) (timestamp : Z)
  | St_request_input (runId prompt : string) (fields : list UserInputField) (timestamp : Z)
  | St_recover_continuations (timestamp : Z)
  | St_release_leases (owner reason : string) (timestamp : Z)
  | St_release_lease (id owner reason : string) (timestamp : Z)
  | St_prepare_handoff (request : GenerationActivationRequest) (createdAt timestamp : Z).

Section calls.
Context `{Platform, ContractType}.

Definition in_gov_db {A} (m : tx GovDb A) : tx SubmissionDb A := in_goals (in_gov m).

Definition run_store (o : StoreOp) : tx SubmissionDb unit :=
  match o with
  | St_call c => run_inbox c
  | St_fenced_plan_item f t i ts => in_gov_db (fencedUpsertPlanItem f t i ts)
  | St_fenced_checks_stale f t ts => done (in_gov_db (fencedMarkChecksStale f t ts))
  | St_fenced_check f t c ts => in_gov_db (fencedUpsertCheck f t c ts)
  | St_fenced_artifact f t a ts => done (in_gov_db (fencedAddArtifact f t a ts))
  | St_batch f t ms ts => in_gov_db (applyTaskRunBatch f t ms ts)
  | St_plan_item r i ts => in_gov_db (in_plans (upsertPlanItem r i ts))
  | St_checks_stale r ts => done (in_gov_db (markChecksStale r ts))
  | St_check r c ts => in_gov_db (upsertCheck r c ts)
  | St_artifact r a ts => done (in_gov_db (addArtifact r (ai_id a) (ai_kind a) (ai_title a) (ai_content a) (ai_uri a) ts))
  | St_request_input r p fs ts => done (in_exec_db (requestUserInput r p fs ts))
  | St_recover_continuations ts => done (in_exec_db (recoverContinuationsAfterRestart ts))
  | St_release_leases w e ts => done (in_exec_db (releaseContinuationLeases w e ts))
  | St_release_lease i w e ts => done (in_exec_db (releaseContinuationLease i w e ts))
  | St_prepare_handoff q c ts => done (in_exec_db (prepareGenerationHandoff q c ts))
  end.

(** A call that throws rolls back. *)
Definition store_call (d : SubmissionDb) (o : StoreOp) : SubmissionDb :=
  match run_store o d with Ok (_, d') => d' | Throw _ => d end.

Definition store_calls (ops : list StoreOp) (d : SubmissionDb) : SubmissionDb := fold_left store_call ops d.

(** The calls that block a TaskRun whatever became of its Attempt, and the
    input request without a fence, come in time: no TaskRun they treat is over,
    and none has an Attempt that is settling. [Call_below] stands for no call. *)
Definition timely (o : StoreOp) (d : SubmissionDb) : bool :=
  match o with
  | St_call (In_goal (Call_below _)) => false
  | St_request_input r _ _ _ => input_timely r (sb_db d)
  | St_recover_continuations ts => recovery_timely ts (sb_db d)
  | St_release_leases w _ _ => release_timely (fun _ n => leased_to w n) (sb_db d)
  | St_release_lease i w _ _ => release_timely (fun j n => String.eqb j i && leased_to w n) (sb_db d)
  | St_prepare_handoff q _ _ => handoff_timely q (sb_db d)
  | _ => true
  end.

Fixpoint timed (ops : list StoreOp) (d : SubmissionDb) : Prop :=
  match ops with
  | [] => True
  | o :: ops' => timely o d = true /\ timed ops' (store_call d o)
  end.

(** * Every call is a sequence of steps *)

Definition lifecycle (d d' : Db) : Prop := Consistent d -> rtc store_step d d'.

#[export] Instance lifecycle_preorder : PreOrder lifecycle.
Proof.
  split; [by intros d _|]. intros d1 d2 d3 H1 H2 Hcon. etrans; [by apply H1|]. apply H2. eapply steps_consistent; [exact Hcon|by apply H1].
Qed.

Lemma aside_lifecycle d d' : aside d d' -> lifecycle d d'.
Proof. intros Ha _. by apply aside_steps. Qed.

#[export] Instance aside_preorder : PreOrder aside.
Proof. split; [intros d; apply aside_refl|intros d1 d2 d3; apply aside_trans]. Qed.

(** ** The goals write no execution table but the contract of a TaskRun *)

Lemma alter_aside f r d : (forall x, run_key (f x) = run_key x) -> aside d (set_runs (alter f r) d).
Proof.
  intros Hf. split; try done. intros i. cbn. destruct (decide (r = i)) as [<-|]; [|by rewrite lookup_alter_ne].
  rewrite lookup_alter_eq. destruct (runs d !! r); [|done]. cbn. by rewrite Hf.
Qed.

Lemma goal_call_aside c : above c -> goal_framed aside (run_call c).
Proof.
  assert (goal_framed aside (in_store randomUUID)) as Hu by (apply gframed_store; intros d v d' [_ ->]%randomUUID_ok; by split).
  assert (forall f r, (forall x, run_key (f x) = run_key x) -> goal_framed aside (in_store (modify (set_runs (alter f r))))) as Ha.
  { intros f r Hf. apply gframed_store. intros d v d' ->%modify_ok. by apply alter_aside. }
  destruct c; intros Hc; try done; repeat first [goal_frame | exact Hu | apply Ha; intros; reflexivity].
Qed.

(** ** The submissions *)

Definition ported {A} (m : tx SubmissionDb A) : Prop := forall d a d', m d = Ok (a, d') -> lifecycle (sb_db d) (sb_db d').

Create HintDb ported.

Lemma ported_ret {A} (a : A) : ported (mret a).
Proof. by intros d x d' [_ ->]%mret_ok. Qed.

Lemma ported_bind {A B} (m : tx SubmissionDb A) (f : A -> tx SubmissionDb B) : ported m -> (forall a, ported (f a)) -> ported (mbind f m).
Proof. intros Hm Hf d b d' (a & d1 & H1%Hm & H2%Hf)%tx_bind_ok. by etrans. Qed.

Lemma ported_gets {A} (f : SubmissionDb -> A) : ported (gets f).
Proof. by intros d a d' [_ ->]%gets_ok. Qed.

Lemma ported_require b e : ported (require b e).
Proof. by intros d a d' [_ ->]%require_ok. Qed.

Lemma ported_present {A} (o : option A) e : ported (present o e).
Proof. by intros d a d' [_ ->]%present_ok. Qed.

Lemma ported_lift {A} (r : result A) : ported (lift r).
Proof. by intros d a d' [_ ->]%lift_ok. Qed.

Lemma ported_modify (f : SubmissionDb -> SubmissionDb) : (forall d, sb_db (f d) = sb_db d) -> ported (modify f).
Proof. intros Hf d u d' ->%modify_ok. by rewrite Hf. Qed.

Lemma ported_exec {A} (m : tx Db A) : (forall d a d', Consistent d -> m d = Ok (a, d') -> rtc store_step d d') -> ported (in_exec_db m).
Proof. intros Hm d a d' (e & He & ->)%in_exec_db_ok Hcon. by eapply Hm. Qed.

Lemma ported_aside {A} (m : tx Db A) : (forall d a d', m d = Ok (a, d') -> aside d d') -> ported (in_exec_db m).
Proof. intros Hm. apply ported_exec. intros d a d' _ He. by eapply aside_steps, Hm. Qed.

Lemma ported_goals {A} (m : tx GoalDb A) : goal_framed aside m -> ported (in_goals m).
Proof. intros Hm d a d' (g & Hg%Hm & ->)%in_goals_ok. by apply aside_lifecycle. Qed.

Lemma ported_gov {A} (m : tx GovDb A) : (forall d a d', m d = Ok (a, d') -> aside (gd_db d) (gd_db d')) -> ported (in_gov_db m).
Proof. intros Hm. apply ported_goals. intros d a d' (g & Hg%Hm & ->)%in_gov_ok. exact Hg. Qed.

Lemma ported_items f : ported (set_items f).
Proof. apply ported_aside. intros d a d' ->%modify_ok. by split. Qed.

Lemma ported_done {A} (m : tx SubmissionDb A) : ported m -> ported (done m).
Proof. intros Hm. apply ported_bind; [exact Hm|]. intros. apply ported_ret. Qed.

Lemma ported_uuid : ported (in_exec_db randomUUID).
Proof. apply ported_aside. intros d a d' [_ ->]%randomUUID_ok. by split. Qed.

Hint Resolve ported_ret ported_gets ported_require ported_present ported_lift ported_items ported_uuid : ported.
Hint Extern 1 (ported (in_goals (modify _))) => apply ported_goals, gframed_modify; [typeclasses eauto|intros; reflexivity] : ported.
Hint Extern 1 (ported (modify _)) => apply ported_modify; intros; reflexivity : ported.

(** Follows the statements of an operation, through the definitions it is built from. *)
Ltac go_ported := repeat first
  [ progress intros
  | match goal with |- ported (match ?o with _ => _ end) => destruct o end
  | match goal with |- ported (let _ := ?v in _) => cbv zeta end
  | solve [auto with ported]
  | apply ported_bind ].
Ltac through := repeat first
  [ progress go_ported
  | match goal with |- ported (?f _) => unfold f | |- ported (?f _ _) => unfold f | |- ported (?f _ _ _) => unfold f
      | |- ported (?f _ _ _ _) => unfold f | |- ported (?f _ _ _ _ _) => unfold f | |- ported (?f _ _ _ _ _ _) => unfold f
      | |- ported (?f _ _ _ _ _ _ _) => unfold f end ].

Lemma attach_aside r i now : goal_framed aside (attachRun r i now).
Proof. intros d v d' Hs. apply (goal_call_aside (Call_attach r i now) I d tt d'). cbn. unfold mbind, tx_mbind. by rewrite Hs. Qed.

(** A TaskRun that was just created fails when it may not be attached. *)
Lemma start_claimed_ported item k now : ported (start_claimed item k now).
Proof.
  intros d v d' Hs Hcon. unfold start_claimed in Hs. cbv zeta in Hs.
  apply tx_bind_ok in Hs as (run & d1 & (e & Hc & ->)%in_exec_db_ok & Hs).
  destruct (createRun_started _ _ _ _ _ _ _ _ _ Hcon Hc) as (a & Hst & _).
  assert (Consistent e) as Hce by (by eapply started_consistent).
  apply tx_bind_ok in Hs as (? & d2 & ->%modify_ok & Hs). apply tx_bind_ok in Hs as (? & d3 & He & Hs).
  assert (sb_db d3 = e) as E3.
  { destruct (an_targetRunId _); [|by apply mret_ok in He as [_ ->]]. destruct (String.eqb _ _); [by apply mret_ok in He as [_ ->]|].
    unfold insert_edge in He. tx_inv He; done. }
  apply tx_bind_ok in Hs as (error & d4 & Ha & Hs).
  assert (aside e (sb_db d4)) as Hside.
  { unfold caught in Ha. destruct (in_goals _ d3) as [[y d5]|] eqn:E; injection Ha as _ <-; [|rewrite E3; apply aside_refl].
    apply in_goals_ok in E as (g & Hg%attach_aside & ->). by rewrite <- E3. }
  assert (rtc store_step (sb_db d) (sb_db d4)) as Hsteps by (eapply rtc_l; [by eapply ss_started|by apply aside_steps]).
  destruct error as [z|]; [|by apply mret_ok in Hs as [_ ->]].
  apply tx_bind_ok in Hs as (t & d5 & (e5 & Ht & ->)%in_exec_db_ok & [_ ->]%mret_ok). etrans; [exact Hsteps|].
  assert (Consistent (sb_db d4)) as Hc4 by (eapply aside_consistent; [exact Hce|exact Hside]).
  destruct t as [ev|]; [|unfold transitionRun in Ht; apply tx_bind_ok in Ht as (? & ? & [-> ->]%gets_id_ok & Ht)].
  - eapply transition_steps; [exact Hc4| | |exact Ht]; [discriminate|]. intros r b Hr Hb.
    assert (runs e !! r_id run = Some run) as Hrun by (by rewrite (st_runs Hst), lookup_insert_eq).
    destruct (aside_run _ _ _ _ Hside Hr) as (r0 & Hr0 & _ & _ & Ho & _). rewrite Hrun in Hr0. injection Hr0 as <-.
    rewrite Ho, (as_attempts _ _ Hside), (st_attempts Hst) in Hb. destruct (st_named Hst) as (N1 & _). rewrite <- N1, lookup_insert_eq in Hb.
    injection Hb as <-. destruct (st_running Hst) as (_ & -> & _). by apply (running_movable R_failed).
  - destruct (runs _ !! _) as [r|]; [|by apply mret_ok in Ht as [_ ->]]. destruct (_ || _); [by apply mret_ok in Ht as [_ ->]|].
    by tx_inv Ht.
Qed.
Hint Resolve start_claimed_ported : ported.

(** A relaunched TaskRun starts its next Attempt. *)
Lemma retry_ported r now : ported (retryInboxLaunch r now).
Proof.
  unfold retryInboxLaunch. intros d v d' (? & d0 & [-> ->]%gets_id_ok & Hs)%tx_bind_ok Hcon.
  destruct (runs (sb_db d) !! r) as [run|] eqn:Hr, (find_item (started_by r) d) as [[i item]|]; try by apply mret_ok in Hs as [_ ->].
  destruct (_ || _) eqn:Hg; [by apply mret_ok in Hs as [_ ->]|]. destruct (List.find _ _) as [[? ?]|]; [by apply mret_ok in Hs as [_ ->]|].
  destruct (session_continuation _ _ _); [by apply mret_ok in Hs as [_ ->]|].
  apply orb_false_iff in Hg as [Hg _]. apply negb_false_iff, bool_decide_eq_true in Hg.
  apply tx_bind_ok in Hs as (? & d1 & (e & ->%modify_ok & ->)%in_exec_db_ok & Hs).
  apply tx_bind_ok in Hs as (b & d2 & Hu & Hs). apply tx_bind_ok in Hs as (? & d3 & (w & -> & _)%touch_ok & Hs).
  apply tx_bind_ok in Hs as ([] & d4 & (e4 & Hp & ->)%in_exec_db_ok & Hs).
  assert (exists f, sb_db d2 = set_inbox f (set_runs (insert r (relaunched now run)) (sb_db d))) as [f E2].
  { apply update_item_ok in Hu as [(_ & y & _ & _ & ->)|(_ & -> & _)]; [by eexists|]. exists (fun m => m).
    unfold sb_db, with_db. cbn. generalize (go_db (sb_goals d)). by intros []. }
  assert (sb_db d' = e4) as ->.
  { apply tx_bind_ok in Hs as (? & d5 & [-> ->]%gets_id_ok & Hs). apply tx_bind_ok in Hs as (? & d5 & [_ ->]%present_ok & Hs).
    by apply tx_bind_ok in Hs as (? & d5 & [_ ->]%present_ok & [_ ->]%mret_ok). }
  change (sb_db (set_inbox_revisions _ d2)) with (sb_db d2) in Hp. rewrite E2 in Hp.
  destruct (project_started (sb_db d) (set_inbox f (set_runs (insert r (relaunched now run)) (sb_db d))) r (relaunched now run)
    T_retry "retry" "" now tt e4) as [a Hst]; try done; [exact (con_run Hcon _ _ Hr)| |].
  - rewrite Hr. cbn. by rewrite Hg.
  - apply rtc_once. by eapply ss_started.
Qed.
Hint Resolve retry_ported : ported.

Lemma claimItem_ported i s k now : ported (claimSessionInboxItem i s k now).
Proof. unfold claimSessionInboxItem, update_item, touchSessionInboxRevision. go_ported. Qed.
Hint Resolve claimItem_ported : ported.

Lemma profile_ported s mu o now : ported (run_profile s mu o now).
Proof. destruct o; through. Qed.

Lemma inbox_ported c : (match c with In_goal (Call_below _) => False | _ => True end) -> ported (run_inbox c).
Proof.
  destruct c; intros Hc; cbn [run_inbox]; try (apply ported_done);
    try solve [apply profile_ported | apply retry_ported | apply ported_goals, goal_call_aside; by destruct c | through].
  apply ported_exec. intros d u d' Hcon Hs. pose proof (PortTrace.call_steps d o Hcon) as Hst. unfold PortTrace.call in Hst. by rewrite Hs in Hst.
Qed.

(** ** The plan, the checks and the artifacts *)

Lemma confined_aside runId d d' : confined runId d d' -> aside (gd_db d) (gd_db d').
Proof. intros Hc. eapply advanced_only_aside, cf_exec, Hc. Qed.

Lemma gov_fence_ported {A} f t (work : TaskRunExecutionScope -> tx GovDb A) :
  (forall s d v d', work s d = Ok (v, d') -> exists r, confined r d d') -> ported (in_gov_db (GovMutation.withFence f t work)).
Proof.
  intros Hw. apply ported_gov. intros d v d' Hs. unfold GovMutation.withFence in Hs. apply tx_bind_ok in Hs as (s & d1 & Hv & Hs).
  rewrite in_exec_run in Hv. destruct (validate f t (gd_db d)) as [[y e]|] eqn:Ev; [|done]. injection Hv as -> <-.
  apply validate_ok in Ev as [-> _]. replace (gov_with (gd_db d) d) with d in Hs by (by destruct d as [[]]).
  destruct (Hw _ _ _ _ Hs) as [r Hc]. by eapply confined_aside.
Qed.

Lemma store_ported o d u d' : timely o d = true -> run_store o d = Ok (u, d') -> lifecycle (sb_db d) (sb_db d').
Proof.
  assert (forall A (m : tx Db A), (forall e v e', Consistent e -> e = sb_db d -> m e = Ok (v, e') -> rtc store_step e e') ->
    done (in_exec_db m) d = Ok (u, d') -> lifecycle (sb_db d) (sb_db d')) as Htimed.
  { intros A m Hm (v & d1 & (e & He & ->)%in_exec_db_ok & [_ ->]%mret_ok)%tx_bind_ok Hcon. by eapply Hm. }
  destruct o; cbn [timely run_store]; intros Ht; try (eapply Htimed; intros e v e' Hcon ->).
  - apply inbox_ported. destruct c as [| | | | | | | | | | | | | | | |[]|]; done.
  - apply gov_fence_ported. intros s e v e' Hs. eexists. by eapply plan_confined.
  - apply ported_done, gov_fence_ported. intros s e v e' Hs. eexists. by eapply stale_confined.
  - apply gov_fence_ported. intros s e v e' Hs. eexists. by eapply check_confined.
  - apply ported_done, gov_fence_ported. intros s e v e' Hs. eexists. by eapply artifact_confined.
  - apply gov_fence_ported. intros s e v e' Hs. eexists. by eapply mutations_confined.
  - apply ported_gov. intros e v e' Hs. by eapply confined_aside, plan_confined.
  - apply ported_done, ported_gov. intros e v e' Hs. by eapply confined_aside, stale_confined.
  - apply ported_gov. intros e v e' Hs. by eapply confined_aside, check_confined.
  - apply ported_done, ported_gov. intros e v e' Hs. by eapply confined_aside, artifact_confined.
  - by apply requestUserInput_steps.
  - by apply recoverContinuations_steps.
  - by apply releaseContinuationLeases_steps.
  - by apply releaseContinuationLease_steps.
  - by apply prepareGenerationHandoff_steps.
Qed.

Lemma store_call_steps d o : timely o d = true -> lifecycle (sb_db d) (sb_db (store_call d o)).
Proof.
  unfold store_call. intros Ht. destruct (run_store o d) as [[u d']|] eqn:E; [by eapply store_ported|by intros _].
Qed.

Lemma store_calls_steps ops d : timed ops d -> lifecycle (sb_db d) (sb_db (store_calls ops d)).
Proof.
  revert d. induction ops as [|o ops IH]; intros d; [by intros _ _|]. intros [Ho Hops]. etrans; [by apply store_call_steps|by apply IH].
Qed.
End calls.

(** * The event log *)

Lemma append_rows_keeps runId last rows m k :
  gapless runId last m -> is_Some (m !! k) -> append_rows runId last rows m !! k = m !! k.
Proof.
  revert last m. induction rows as [|e rows IH]; intros last m Hg Hk; cbn; [done|].
  assert (Hne : k <> (runId, (last + 1)%Z)).
  { intros ->. apply Hg in Hk. lia. }
  rewrite IH; [by rewrite lookup_insert_ne|by apply gapless_insert|by rewrite lookup_insert_ne].
Qed.

Lemma events_keep d d' k : Consistent d -> store_step d d' -> is_Some (events d !! k) -> events d' !! k = events d !! k.
Proof.
  intros Hcon [j [i ->|i Hl|a c ts Hp|a a' r r' s rows ts Hc]|i r r' a a' rows Hm|i r' a Hs|Hs] Hk; [done| | | | | |].
  - by rewrite (le_events _ _ _ Hl).
  - by rewrite (pr_events _ _ _ _ _ Hp).
  - rewrite (cl_events Hc). apply append_rows_keeps; [|done]. exact (con_log Hcon _ _ (AttemptSpec.cl_run Hc)).
  - rewrite (mv_events Hm). apply append_rows_keeps; [|done]. exact (con_log Hcon _ _ (mv_run Hm)).
  - by rewrite (st_events Hs).
  - by rewrite (as_events _ _ Hs).
Qed.

(** An append-only gapless log is the old one up to the number it had reached. *)
Lemma log_prefix (m m' : gmap (string * Z) EventRow) rid last last' :
  gapless rid last m -> gapless rid last' m' -> (forall k e, m !! k = Some e -> m' !! k = Some e) ->
  (last <= last')%Z /\ forall s, (s <= last)%Z -> m' !! (rid, s) = m !! (rid, s).
Proof.
  intros [H0 H1] [H0' H1'] Hkeep. split.
  - destruct (decide (1 <= last)%Z) as [Hl|]; [|lia]. destruct (proj2 (H1 last)) as [e He]; [lia|].
    apply Hkeep in He. by apply H1'.
  - intros s Hs. destruct (m !! (rid, s)) as [e|] eqn:He; [by apply Hkeep|]. destruct (m' !! (rid, s)) as [e|] eqn:He'; [|done].
    exfalso. assert (is_Some (m !! (rid, s))) as [e' Hx] by (apply H1; assert (1 <= s <= last')%Z by (apply H1'; eauto); lia). congruence.
Qed.

(** * The audit trail *)

(** The transitions the store makes that ATTEMPT_TRANSITIONS does not list: a
    runtime completes a running Attempt, an approval or a hand-off blocks one
    that stopped, and a re-adjudication completes a blocked one. *)
Definition beyond_table : list (AttemptStatus * AttemptStatus) :=
  [(A_running, A_completed); (A_blocked, A_blocked); (A_interrupted, A_blocked); (A_failed, A_blocked); (A_blocked, A_completed)].

Definition allowed (from to : AttemptStatus) : Prop := attempt_step from to \/ (from, to) ∈ beyond_table.

Lemma outside_beyond from to : (from, to) ∈ outside_machine -> (from, to) ∈ beyond_table.
Proof. intros Hx. change beyond_table with (outside_machine ++ [(A_blocked, A_completed)]). apply elem_of_app. by left. Qed.

(** [trail from v entries to v'] : the entries lead from one status and version
    to another, one version at a time, by allowed transitions. *)
Inductive trail : AttemptStatus -> Z -> list Entry -> AttemptStatus -> Z -> Prop :=
  | trail_nil s v : trail s v [] s v
  | trail_snoc s v entries s' v' e :
      trail s v entries s' v' -> en_from e = Some s' -> en_version e = (v' + 1)%Z -> allowed s' (en_to e) ->
      trail s v (entries ++ [e]) (en_to e) (v' + 1).

Definition entries_for (i : string) (l : list Entry) : list Entry := List.filter (fun e => String.eqb (en_attemptId e) i) l.

Definition audit_of (i : string) (d : Db) : list Entry := entries_for i (trail_of d).

Lemma trail_of_snoc d d' u : audit d' = audit d ++ [u] -> trail_of d' = trail_of d ++ [entry_of u].
Proof. unfold trail_of. intros ->. by rewrite map_app. Qed.

Lemma audit_of_snoc i d d' e :
  trail_of d' = trail_of d ++ [e] -> audit_of i d' = audit_of i d ++ if String.eqb (en_attemptId e) i then [e] else [].
Proof. unfold audit_of, entries_for. intros ->. rewrite List.filter_app. cbn. by case_match. Qed.

(** What one step says of an Attempt: nothing, or one entry for its transition. *)
Definition explained (d d' : Db) (i : string) (a a' : AttemptRow) : Prop :=
  audit_of i d' = audit_of i d /\ a_status a' = a_status a /\ a_version a' = a_version a
  \/ exists e, audit_of i d' = audit_of i d ++ [e] /\ en_from e = Some (a_status a)
       /\ en_version e = (a_version a + 1)%Z /\ allowed (a_status a) (en_to e)
       /\ a_status a' = en_to e /\ a_version a' = (a_version a + 1)%Z.

(** A step that rewrites one Attempt [b] with an entry for it. *)
Lemma explained_insert d d' i a b b' e :
  attempts d !! i = Some a -> attempts d !! a_id b = Some b -> attempts d' = <[a_id b := b']> (attempts d) ->
  trail_of d' = trail_of d ++ [e] -> en_attemptId e = a_id b -> en_from e = Some (a_status b) ->
  en_version e = (a_version b + 1)%Z -> allowed (a_status b) (en_to e) ->
  a_status b' = en_to e -> a_version b' = (a_version b + 1)%Z ->
  exists a', attempts d' !! i = Some a' /\ explained d d' i a a'.
Proof.
  intros Ha Hb Has Ht E1 E2 E3 E4 E5 E6. unfold explained. rewrite Has, (audit_of_snoc i _ _ _ Ht), E1.
  destruct (String.eqb_spec (a_id b) i) as [<-|E].
  - rewrite Ha in Hb. injection Hb as ->. rewrite lookup_insert_eq. eexists. split; [done|]. right. exists e. done.
  - exists a. rewrite lookup_insert_ne by done. rewrite app_nil_r. auto.
Qed.

Lemma repo_audit_step d d' j i a :
  repo_step d d' j -> attempts d !! i = Some a -> exists a', attempts d' !! i = Some a' /\ explained d d' i a a'.
Proof.
  intros [k ->|k Hl|b c ts Hp|b b' r r' s rows ts Hc] Ha.
  - exists a. split; [done|by left].
  - exists a. rewrite (le_attempts _ _ _ Hl). split; [done|left]. unfold audit_of, trail_of. by rewrite (le_audit _ _ _ Hl).
  - destruct (pr_audit _ _ _ _ _ Hp) as (u & Hu & U1 & U2 & U3 & U4), (pr_running _ _ _ _ _ Hp) as [R1 R2].
    eapply (explained_insert d d' i a b _ (entry_of u)); [done|exact (pr_attempt _ _ _ _ _ Hp)|
      exact (pr_attempts _ _ _ _ _ Hp)|by apply trail_of_snoc|done|cbn; congruence|done| |done|done].
    cbn. rewrite R1, U3. by left.
  - destruct (cl_audit Hc) as (u & Hu & U1 & U2 & U3 & U4 & _), (cl_closed Hc) as (C1 & C2 & C3 & _).
    eapply (explained_insert d d' i a b _ (entry_of u)); [done|exact (cl_attempt Hc)|exact (cl_attempts Hc)|
      by apply trail_of_snoc|done|done|done| |cbn; congruence|done].
    cbn. rewrite U3. destruct (cl_may Hc) as [(_ & ? & _)|(_ & -> & _ & ->)]; [by left|right; do 4 right; left].
Qed.

Lemma audit_step d d' i a :
  store_step d d' -> attempts d !! i = Some a -> exists a', attempts d' !! i = Some a' /\ explained d d' i a a'.
Proof.
  intros [j Hs|j r r' b b' rows Hm|j r' b Hs|Hs] Ha.
  - by eapply repo_audit_step.
  - destruct (mv_status Hm) as [(E1 & E2 & _ & E3 & _)|(Hmov & E1 & E2 & E3)].
    + rewrite (mv_attempts Hm). destruct (decide (a_id b = i)) as [E|E].
      * rewrite E, lookup_insert_eq. eexists. split; [done|]. left. unfold audit_of. rewrite E3.
        pose proof (mv_attempt Hm) as Hb. rewrite E, Ha in Hb. by injection Hb as <-.
      * exists a. rewrite lookup_insert_ne by done. split; [done|]. left. unfold audit_of. by rewrite E3.
    + eapply explained_insert; [done|exact (mv_attempt Hm)|exact (mv_attempts Hm)|exact E3|done|done|done| |done|done].
      cbn. destruct Hmov as [_ [?|?]]; [by left|right; by apply outside_beyond].
  - exists a. split; [by eapply started_other|]. left. rewrite (audit_of_snoc i _ _ _ (st_audit Hs)). cbn.
    destruct (String.eqb_spec (a_id b) i) as [E|]; [|by rewrite app_nil_r].
    pose proof (st_fresh Hs) as Hf. rewrite E in Hf. congruence.
  - exists a. rewrite (as_attempts _ _ Hs). split; [done|]. left. unfold audit_of. by rewrite (as_trail _ _ Hs).
Qed.

Section history.
Context `{Platform, ContractType}.

Lemma store_calls_consistent ops d : Consistent (sb_db d) -> timed ops d -> Consistent (sb_db (store_calls ops d)).
Proof. intros Hcon Ht. eapply steps_consistent; [exact Hcon|by apply store_calls_steps]. Qed.

(** What the steps keep holds after every schedule. *)
Lemma store_calls_ind (P : Db -> Prop) ops d : Consistent (sb_db d) -> timed ops d -> P (sb_db d) ->
  (forall x y, Consistent x -> P x -> store_step x y -> P y) -> P (sb_db (store_calls ops d)).
Proof. intros Hcon Ht HP Hstep. eapply steps_ind; [exact Hcon|exact HP|exact Hstep|by apply store_calls_steps]. Qed.



(** C11. The event log of every TaskRun is append-only and gapless after every
    schedule of the calls of the store, the five of [timely] made in time: every
    event logged before is still there, unchanged; nothing appears at or below
    the number the log had reached; and the log holds exactly the numbers 1 to
    the [lastEventSeq] of the TaskRun, which never goes back. *)
Theorem event_log_append_only ops d rid r :
  Consistent (sb_db d) -> timed ops d -> runs (sb_db (store_calls ops d)) !! rid = Some r ->
  (forall k e, events (sb_db d) !! k = Some e -> events (sb_db (store_calls ops d)) !! k = Some e)
  /\ (forall r0, runs (sb_db d) !! rid = Some r0 -> (r_lastEventSeq r0 <= r_lastEventSeq r)%Z
       /\ forall s, (s <= r_lastEventSeq r0)%Z -> events (sb_db (store_calls ops d)) !! (rid, s) = events (sb_db d) !! (rid, s))
  /\ gapless rid (r_lastEventSeq r) (events (sb_db (store_calls ops d))).
Proof.
  intros Hcon Ht Hr. pose proof (con_log (store_calls_consistent ops d Hcon Ht) _ _ Hr) as Hg.
  assert (forall k e, events (sb_db d) !! k = Some e -> events (sb_db (store_calls ops d)) !! k = Some e) as Hkeep.
  { apply (store_calls_ind (fun x => forall k e, events (sb_db d) !! k = Some e -> events x !! k = Some e)); auto.
    intros x y Hx Hk Hs k e He. rewrite (events_keep _ _ _ Hx Hs); auto. by exists e; auto. }
  split; [done|]. split; [|done]. intros r0 Hr0. by apply (log_prefix _ _ _ _ _ (con_log Hcon _ _ Hr0)).
Qed.

(** C33. The audit trail of an Attempt explains it: the entries a schedule of
    the calls of the store (the five of [timely] made in time) adds for an
    Attempt lead, one version at a time, from its status and version before to
    its status and version after, and each is a transition of
    ATTEMPT_TRANSITIONS or one of the five of [beyond_table]. *)
Theorem audit_trail_explains ops d i a :
  Consistent (sb_db d) -> timed ops d -> attempts (sb_db d) !! i = Some a ->
  exists a' entries, attempts (sb_db (store_calls ops d)) !! i = Some a'
    /\ audit_of i (sb_db (store_calls ops d)) = audit_of i (sb_db d) ++ entries
    /\ trail (a_status a) (a_version a) entries (a_status a') (a_version a').
Proof.
  intros Hcon Ht Ha.
  apply (store_calls_ind (fun x => exists a' entries, attempts x !! i = Some a' /\ audit_of i x = audit_of i (sb_db d) ++ entries
    /\ trail (a_status a) (a_version a) entries (a_status a') (a_version a'))); [done|done|..].
  - exists a, []. rewrite app_nil_r. split_and!; [done|done|constructor].
  - intros x y Hx (b & entries & Hb & Hau & Htr) Hs.
    destruct (audit_step _ _ _ _ Hs Hb) as (b' & Hb' & [(E1 & E2 & E3)|(e & E1 & E2 & E3 & E4 & E5 & E6)]).
    + exists b', entries. rewrite E1, E2, E3. auto.
    + exists b', (entries ++ [e]). rewrite E1, Hau, E5, E6, app_assoc. split_and!; try done. by econstructor.
Qed.
End history.

(** * Witnesses *)

(** The execution tables of a test with the other tables empty. *)
Definition store_over (e : Db) : SubmissionDb := with_db e demo_empty.

(** A continuation is claimed, its holder is gone; the recovery blocks the
    TaskRun in time, and the plan of the next Attempt is written. *)
Definition demo_takeover : list StoreOp :=
  [St_call (In_port (ClaimContinuation "run" "scheduler" 100 40)); St_recover_continuations 500;
   St_plan_item "run" (demo_item "a" "first" [] None) 510;
   St_call (In_port (ClaimContinuation "run" "scheduler" 100 520));
   St_request_input "run" "Which one?" [demo_field] 530].

Lemma demo_takeover_timed : timed demo_takeover (store_over demo_queued).
Proof. repeat split; vm_compute; reflexivity. Qed.

Definition demo_taken : Db := sb_db (store_calls demo_takeover (store_over demo_queued)).



Lemma event_log_append_only_witness :
  exists r, runs demo_taken !! "run"%string = Some r
    /\ (forall k e, events demo_queued !! k = Some e -> events demo_taken !! k = Some e)
    /\ gapless "run" (r_lastEventSeq r) (events demo_taken).
Proof.
  assert (exists r, runs demo_taken !! "run"%string = Some r) as [r Hr].
  { eexists. vm_compute. reflexivity. }
  exists r. split; [exact Hr|].
  destruct (event_log_append_only demo_takeover (store_over demo_queued) "run" r demo_queued_consistent demo_takeover_timed Hr) as (H1 & _ & H3).
  exact (conj H1 H3).
Defined.

Lemma audit_trail_explains_witness :
  exists a a' entries, attempts demo_queued !! demo_id = Some a /\ attempts demo_taken !! demo_id = Some a'
    /\ audit_of demo_id demo_taken = audit_of demo_id demo_queued ++ entries
    /\ trail (a_status a) (a_version a) entries (a_status a') (a_version a').
Proof.
  assert (exists a, attempts demo_queued !! demo_id = Some a) as [a Ha].
  { eexists. vm_compute. reflexivity. }
  exists a. destruct (audit_trail_explains demo_takeover (store_over demo_queued) demo_id a demo_queued_consistent demo_takeover_timed Ha)
    as (a' & entries & H1 & H2 & H3). exists a', entries. auto.
Defined.
