(* ===== verification/ApprovalBoundary.v ===== *)
(** The approval boundary of external actions (apps/core-service/src/application/
    external-action-approval-application.ts, packages/execution/src/application/
    external-action-resume-boundary.ts, run-resume-transition.ts, the resume of
    run-context-service.ts, user-input-submission.ts, and the decisions of
    approvals in packages/admission/src/application/admission-coordinator.ts):
    how a TaskRun stops before an external action, and how it goes on. *)
From S2P Require Import Prelude Json TaskPolicy Attempt GateData ExecDb Canonical AttemptRepo RunStore Transcript Continuation Transition PlanStore CompletionGate Uncertainty Supervisor Progress RunView Approval Service Settlement Scheduler Goal GoalStore SessionInbox.
Local Open Scope tx_scope.

(** * The world of the application *)

(** The database with the goals and the receipts of approvals, the process, the
    events handed to the hub, and the clock. *)
Record Core := {
  co_goals : GoalDb; co_receipts : gmap string ReceiptRow; co_process : ExecutionState; co_published : list RunEvent; co_clock : Z;
}.

Abbreviation core := (call Core).

Definition co_db (w : Core) : Db := go_db (co_goals w).

(** What the services of packages/execution see of it. *)
Definition world_in (w : Core) : World :=
  {| gov := go_gov (co_goals w); process := co_process w; published := co_published w; clock := co_clock w |}.

Definition put_world (v : World) (w : Core) : Core :=
  {| co_goals := set_gov (gov v) (co_goals w); co_receipts := co_receipts w; co_process := process v; co_published := published v;
     co_clock := clock v |}.

Definition in_world {A} (m : io A) : core A := fun w => let (r, v) := m (world_in w) in (r, put_world v w).

Definition with_goals (d : GoalDb) (w : Core) : Core :=
  {| co_goals := d; co_receipts := co_receipts w; co_process := co_process w; co_published := co_published w; co_clock := co_clock w |}.

(** A transaction commits, or rolls back and throws. *)
Definition commit_goals {A} (m : tx GoalDb A) : core A := fun w =>
  match m (co_goals w) with
  | Ok (a, d) => (Returned a, with_goals d w)
  | Throw e => (Thrown (Exn e), w)
  end.

Definition core_store {A} (m : tx Db A) : core A := commit_goals (in_store m).

Definition announce (e : RunEvent) : core unit := in_world (publish e).

Definition refuse {A} (message : string) : core A := raise (Exn (Error message)).

(** [if (!condition) throw new Error(message)] *)
Definition ensure (b : bool) (message : string) : core unit := if b then mret tt else refuse message.

(** [if (!value) throw new Error(message)] *)
Definition found {A} (o : option A) (message : string) : core A := match o with Some a => mret a | None => refuse message end.

(** * Requests for an approval *)

Record AttemptRef := { af_runId : string; af_attemptId : string; af_attempt : Z; af_expectedVersion : Z }.

Record ApprovalRequested := { aq_approvalId : string; aq_reason : string }.

(** The argument of requireBoundary. *)
Record Boundary := {
  bd_runId : string; bd_attempt : AttemptRow; bd_reason : string; bd_decisionSummary : string; bd_metadata : list (string * json);
  bd_requestedEventData : list (string * json); bd_transitionError : string; bd_onApprovalEnsured : option (string * json);
}.

Section boundary.
Context `{Platform, ContractType}.
Context (reviewer_model : string).

Definition get_run (runId : string) : core (option TaskRun) := in_world (getRun runId).

Definition boundary_options (b : Boundary) : ApprovalOptions :=
  {| po_actionType := Some execute_external_action; po_targetType := Some "taskrun"; po_targetId := Some (bd_runId b);
     po_metadata := Some (bd_metadata b) |}.

Definition boundary_command (b : Boundary) (approvalId : string) : json :=
  JObj [("kind", JStr "require_external_approval"); ("attemptId", JStr (a_id (bd_attempt b)));
        ("expectedVersion", JInt (a_version (bd_attempt b))); ("approvalId", JStr approvalId); ("reason", JStr (bd_reason b))].

Definition boundary_authority (approvalId : string) : json :=
  JObj [("kind", JStr "external_action_guard"); ("component", JStr "core_external_action_approval_application");
        ("approvalId", JStr approvalId)].

(** [transitions[0]?.event] *)
Definition first_event (transitions : list TaskRunTransitionOutcome) : option RunEvent := t ← head transitions; to_event t.

(** The decision that asks for the approval was acted on; a decision that found
    a request of an earlier one is superseded by it. *)
Definition settle_decision (decisionId requestedBy : string) (now : Z) : tx Db unit :=
  if String.eqb requestedBy decisionId then
    let* _ := updateSupervisorDecision decisionId D_executed "" now in mret tt
  else
    let* _ := updateSupervisorDecision decisionId D_superseded "" now in
    let* _ := updateSupervisorDecision requestedBy D_executed "" now in
    mret tt.

(** The transaction of requireBoundary, before the outcome of the goal. *)
Definition boundary_steps (b : Boundary) (now : Z) : tx Db ((string * ApprovalRow) * list RunEvent) :=
  let runId := bd_runId b in
  let* decision := proposeExternalActionStart reviewer_model runId (bd_decisionSummary b) now in
  let* approval := ensureApprovalRequest runId (d_id decision) (bd_reason b) (boundary_options b) now in
  let* initial := match bd_onApprovalEnsured b with
    | Some (type, data) => let* e := appendEvent runId type data now in mret [e]
    | None => mret []
    end in
  let* transitions := transitionSystem (boundary_command b approval.1) (boundary_authority approval.1) now in
  let* event := present (first_event transitions) (Error (bd_transitionError b)) in
  do* settle_decision (d_id decision) (p_decisionId approval.2) now in
  let* asked := appendEvent runId "supervisor.approval.requested"
    (JObj ([("approvalId", JStr approval.1); ("decisionId", JStr (p_decisionId approval.2)); ("reason", JStr (bd_reason b));
            ("actionType", JStr "execute_external_action")] ++ bd_requestedEventData b)) now in
  mret (approval, initial ++ [event; asked]).

Definition boundary_tx (b : Boundary) (now : Z) : tx GoalDb ((string * ApprovalRow) * list RunEvent) :=
  let* outcome := in_store (boundary_steps b now) in
  let* _ := recordRunOutcome (bd_runId b) now in
  mret outcome.

Definition requireBoundary (b : Boundary) : core (string * ApprovalRow) :=
  let* now := ask co_clock in
  let* outcome := commit_goals (boundary_tx b now) in
  do* each announce outcome.2 in
  mret outcome.1.

(** [run.contract?.summary || item.content] *)
Definition launch_summary (item : Submission) (run : TaskRun) : string :=
  default (x_content (sm_row item)) (truthy_text (tr_contract run ≫= fun c => string_member "summary" (ct_fields c))).

Definition contract_json (run : TaskRun) : json := match tr_contract run with Some c => JObj (ct_fields c) | None => JNull end.

Definition session_of (run : TaskRun) : string * json := ("sessionId", JStr (r_sessionId (tr_row run))).

(** [approvedAttempt: run.attempt + 1] *)
Definition next_attempt (run : TaskRun) : string * json := ("approvedAttempt", JInt (r_attempt (tr_row run) + 1)).

Definition this_attempt (run : TaskRun) : string * json := ("requestedAttempt", JInt (r_attempt (tr_row run))).

Definition no_event (what : string) (runId : string) : string :=
  "TaskRun " +:+ runId +:+ " external " +:+ what +:+ " transition returned no event".

Definition requestForInitialLaunch (item : Submission) (run : TaskRun) (retry : bool) : core unit :=
  let row := tr_row run in
  let runId := r_id row in
  let summary := launch_summary item run in
  let* attempt := ask (fun w => getAttemptForRun runId (r_attempt row) (co_db w)) in
  let* attempt := found attempt ("TaskRun " +:+ runId +:+ " has no Attempt " +:+ pretty (r_attempt row) +:+ " for external approval") in
  let* _ := requireBoundary {|
    bd_runId := runId; bd_attempt := attempt;
    bd_reason := "External action requires explicit approval before any mutation-capable tool can execute: " +:+ summary;
    bd_decisionSummary := summary; bd_metadata := [session_of run; next_attempt run]; bd_requestedEventData := [];
    bd_transitionError := no_event "approval" runId;
    bd_onApprovalEnsured := if retry then None else Some ("run.started"%string,
      JObj [("goal", JStr (r_goal row)); ("sourceInput", JStr (x_content (sm_row item))); ("contract", contract_json run);
            ("source", JStr "session_supervisor_inbox"); ("inboxItemId", JStr (sm_id item)); ("sessionHistoryCount", JInt 0)]) |} in
  mret tt.

(** The Attempt of the reference, as [holds] wants it, with its TaskRun. *)
Definition referred (r : AttemptRef) (run : TaskRun) (holds : AttemptRow -> bool) (message : string) : core AttemptRow :=
  let* attempt := ask (fun w => attempts (co_db w) !! af_attemptId r) in
  let* attempt := found attempt message in
  do* ensure (String.eqb (a_runId attempt) (r_id (tr_row run)) && Z.eqb (a_ordinal attempt) (af_attempt r)
    && Z.eqb (a_version attempt) (af_expectedVersion r) && holds attempt) message in
  mret attempt.

Definition run_where (runId : string) (p : TaskRun -> bool) (message : string) : core TaskRun :=
  let* run := get_run runId in
  let* run := found run message in
  do* ensure (p run) message in
  mret run.

Definition runningAttempt (r : AttemptRef) : core (TaskRun * AttemptRow) :=
  let* run := run_where (af_runId r) (fun run => bool_decide (r_status (tr_row run) = R_running) && Z.eqb (r_attempt (tr_row run)) (af_attempt r))
    ("TaskRun " +:+ af_runId r +:+ " is not running Attempt " +:+ pretty (af_attempt r)) in
  let* attempt := referred r run (fun a => a_active a && bool_decide (a_status a = A_running))
    ("Attempt " +:+ af_attemptId r +:+ " cannot request external-action approval") in
  mret (run, attempt).

(** [!text || text.length > maximum || text.includes("\0")] *)
Definition invalid_text (maximum : nat) (text : string) : bool :=
  String.eqb text "" || Nat.ltb maximum (String.length text) || has_nul text.

Definition requestForTool (r : AttemptRef) (toolCallId0 toolName0 : string) : core ApprovalRequested :=
  let toolName := trim toolName0 in
  let toolCallId := trim toolCallId0 in
  do* ensure (negb (invalid_text 128 toolName)) "External-action approval tool name is invalid" in
  do* ensure (negb (invalid_text 512 toolCallId)) "External-action approval tool call identity is invalid" in
  let* ra := runningAttempt r in
  let run := ra.1 in
  let reason := "Tool " +:+ toolName +:+ " requires explicit external-action approval before execution" in
  let* approval := requireBoundary {|
    bd_runId := r_id (tr_row run); bd_attempt := ra.2; bd_reason := reason; bd_decisionSummary := reason;
    bd_metadata := [session_of run; next_attempt run; this_attempt run; ("requestedToolName", JStr toolName);
                    ("requestedToolCallId", JStr toolCallId)];
    bd_requestedEventData := [("toolName", JStr toolName); this_attempt run; next_attempt run];
    bd_transitionError := no_event "approval" (r_id (tr_row run)); bd_onApprovalEnsured := None |} in
  mret {| aq_approvalId := approval.1;
          aq_reason := "Approval requested for " +:+ toolName +:+ "; resume will use Attempt " +:+ pretty (r_attempt (tr_row run) + 1)%Z |}.

Definition requestAfterUserInput (r : AttemptRef) (inputRequestId : string) : core ApprovalRequested :=
  let* run := run_where (af_runId r) (fun run => bool_decide (r_status (tr_row run) = R_waiting_input)
      && Z.eqb (r_attempt (tr_row run)) (af_attempt r) && bool_decide (tr_pendingUserInput run = None))
    ("TaskRun " +:+ af_runId r +:+ " is not ready for approval after submitted user input") in
  let* attempt := referred r run (fun a => negb (a_active a) && bool_decide (a_status a = A_waiting_input))
    ("Attempt " +:+ af_attemptId r +:+ " cannot request approval after user input") in
  let runId := r_id (tr_row run) in
  let reason := "A fresh external-action approval is required because submitted user input will resume TaskRun " +:+ runId
    +:+ " in Attempt " +:+ pretty (r_attempt (tr_row run) + 1)%Z in
  let* approval := requireBoundary {|
    bd_runId := runId; bd_attempt := attempt; bd_reason := reason; bd_decisionSummary := reason;
    bd_metadata := [session_of run; next_attempt run; this_attempt run; ("submittedInputRequestId", JStr inputRequestId)];
    bd_requestedEventData := [this_attempt run; next_attempt run; ("inputRequestId", JStr inputRequestId)];
    bd_transitionError := "TaskRun " +:+ runId +:+ " post-input approval transition returned no event"; bd_onApprovalEnsured := None |} in
  mret {| aq_approvalId := approval.1; aq_reason := reason |}.

(** [resumable] of the TaskRun as the store reads it. *)
Definition requestForResume (r : AttemptRef) (actorId0 reason0 : string) : core ApprovalRequested :=
  let* resumable := ask (fun w => isRunResumable (af_runId r) (co_db w)) in
  let* run := run_where (af_runId r) (fun run => resumable && Z.eqb (r_attempt (tr_row run)) (af_attempt r)
      && requiresExternalActionApproval run)
    ("TaskRun " +:+ af_runId r +:+ " is not an external-action resume boundary") in
  let* attempt := referred r run (fun a => negb (a_active a))
    ("Attempt " +:+ af_attemptId r +:+ " cannot request external-action resume approval") in
  let actorId := trim actorId0 in
  do* ensure (negb (String.eqb actorId "" || has_nul actorId)) "External-action resume actor is invalid" in
  let resumeReason := trim reason0 in
  do* ensure (negb (String.eqb resumeReason "" || has_nul resumeReason)) "External-action resume reason is invalid" in
  let runId := r_id (tr_row run) in
  let reason := "A fresh external-action approval is required before user-requested resume of TaskRun " +:+ runId +:+ " in Attempt "
    +:+ pretty (r_attempt (tr_row run) + 1)%Z in
  let manual := ("manualResumeRequested"%string, JBool true) in
  let* approval := requireBoundary {|
    bd_runId := runId; bd_attempt := attempt; bd_reason := reason; bd_decisionSummary := resumeReason;
    bd_metadata := [session_of run; next_attempt run; this_attempt run; manual; ("resumeActorId", JStr actorId);
                    ("resumeReason", JStr resumeReason)];
    bd_requestedEventData := [this_attempt run; next_attempt run; manual];
    bd_transitionError := no_event "resume" runId; bd_onApprovalEnsured := None |} in
  mret {| aq_approvalId := approval.1; aq_reason := reason |}.

(** * Resuming *)

Inductive RunResumeOptions :=
  | after_approval (approvalId : string)
  | after_input (request : UserInputRequest)
  | by_hand (actorId reason : option string).

(** [options.approvalId], which is used only where it is not empty. *)
Definition option_approval (o : RunResumeOptions) : option string :=
  match o with after_approval a => truthy_text (Some a) | _ => None end.

Definition option_input (o : RunResumeOptions) : option UserInputRequest := match o with after_input i => Some i | _ => None end.

(** [options.actorId ?? "user"] *)
Definition option_actor (o : RunResumeOptions) : string := match o with by_hand (Some a) _ => a | _ => "user" end.

(** [options.reason ?? "Manual resume requested"] *)
Definition option_reason (o : RunResumeOptions) : string := match o with by_hand _ (Some r) => r | _ => "Manual resume requested" end.

Inductive PreparedResumeBoundary :=
  | Continue (sourceAttempt : AttemptRow)
  | Handled (run : TaskRun).

(** The approval is one of an external action for the Attempt after this one.
    [Number] of an approvedAttempt that is a text is left out: no request of an
    external action has one. *)
Definition for_next_attempt (run : TaskRun) (p : ApprovalRow) : bool :=
  bool_decide (p_actionType p = execute_external_action) && bool_decide (p_approvedAttempt p = Some (r_attempt (tr_row run) + 1)%Z).

Definition run_again (runId : string) : core TaskRun :=
  let* run := get_run runId in
  match run with Some run => mret run | None => raise (Exn (TypeError "run is undefined")) end.

Definition prepareExternalActionResumeBoundary (runId : string) (options : RunResumeOptions) : core PreparedResumeBoundary :=
  let* sourceRun := get_run runId in
  let* sourceRun := found sourceRun ("TaskRun " +:+ runId +:+ " does not exist") in
  let ordinal := r_attempt (tr_row sourceRun) in
  let* sourceAttempt := ask (fun w => getAttemptForRun runId ordinal (co_db w)) in
  let* sourceAttempt := found sourceAttempt ("TaskRun " +:+ runId +:+ " has no source Attempt " +:+ pretty ordinal) in
  let externalAction := requiresExternalActionApproval sourceRun in
  let ask_for actorId reason :=
    do* requestForResume {| af_runId := runId; af_attemptId := a_id sourceAttempt; af_attempt := ordinal;
                            af_expectedVersion := a_version sourceAttempt |} actorId reason in
    let* run := run_again runId in mret (Handled run) in
  match List.find (fun p => bool_decide (p_status p.2 = Ap_pending)) (tr_approvalRequests sourceRun) with
  | Some (_, pendingApproval) =>
      if externalAction && for_next_attempt sourceRun pendingApproval then
        if bool_decide (r_status (tr_row sourceRun) = R_blocked) then mret (Handled sourceRun)
        else match option_approval options with
             | Some _ => ask_for "approval-recovery"%string "Recover external-action approval boundary"%string
             | None => ask_for (option_actor options) (option_reason options)
             end
      else refuse "Run requires an approval decision before resume"
  | None =>
      let* approvals := ask (fun w => approvals (co_db w)) in
      do* ensure (match option_approval options with
                  | Some approvalId => negb externalAction || match approvals !! approvalId with
                      | Some p => String.eqb (p_runId p) runId && for_next_attempt sourceRun p
                      | None => false
                      end
                  | None => true
                  end) "External-action TaskRun requires approval bound to its next Attempt" in
      if negb externalAction || bool_decide (is_Some (option_approval options)) then mret (Continue sourceAttempt)
      else match option_input options with
           | Some _ => refuse "External-action user input requires its Core-owned approval boundary before resume"
           | None => ask_for (option_actor options) (option_reason options)
           end
  end.

(** run-resume-transition.ts *)
Definition resumeTransitionRequest (sourceAttempt : AttemptRow) (options : RunResumeOptions) : json * json :=
  let command kind last := JObj [("kind", JStr kind); ("attemptId", JStr (a_id sourceAttempt));
    ("expectedVersion", JInt (a_version sourceAttempt)); last] in
  let authority kind last := JObj [("kind", JStr kind); last] in
  match option_input options, option_approval options with
  | Some request, _ => let k := ("inputRequestId"%string, JStr request.1) in (command "resume_input" k, authority "input_resume" k)
  | None, Some approvalId => let k := ("approvalId"%string, JStr approvalId) in (command "resume_approval" k, authority "approval_resume" k)
  | None, None => (command "resume_manual" ("reason"%string, JStr (option_reason options)),
                   authority "manual_resume" ("actorId"%string, JStr (option_actor options)))
  end.

Definition transitionResumedAttempt (sourceAttempt : AttemptRow) (options : RunResumeOptions) : core (list TaskRunTransitionOutcome) :=
  let* now := ask co_clock in
  let request := resumeTransitionRequest sourceAttempt options in
  core_store (transitionSystem request.1 request.2 now).

(** The AggregateError of a failure that could not be settled names neither error in its text. *)
Definition settleResumePreparationFailure (runId attemptId : string) (error : thrown) : core unit :=
  try_catch (
    let* attempt := ask (fun w => attempts (co_db w) !! attemptId) in
    let* attempt := found attempt ("Resume target Attempt " +:+ attemptId +:+ " does not exist") in
    let* now := ask co_clock in
    let* transitions := core_store (transitionSystem
      (JObj [("kind", JStr "resume_preparation_failed"); ("attemptId", JStr (a_id attempt));
             ("expectedVersion", JInt (a_version attempt)); ("error", JStr (thrown_message error))])
      (JObj [("kind", JStr "resume_preparation_failure"); ("component", JStr "run_context_service")]) now) in
    let* event := found (first_event transitions) ("TaskRun " +:+ runId +:+ " resume preparation failure returned no terminal event") in
    announce event)
  (fun _ => raise (Exn (NamedError "AggregateError"
    ("TaskRun " +:+ runId +:+ " resume context preparation failed and could not be settled")))).

(** The collaborators of a resume: the end of a stale execution, the assembly
    of the context (the number of messages of the transcript it found, and what
    the launch gets), and the launch. *)
Class ResumePorts := {
  rs_prepared : Type;
  rs_awaitExecution : string -> core unit;
  rs_prepare : TaskRun -> RunResumeOptions -> core (Z * rs_prepared);
  rs_launch : TaskRun -> rs_prepared -> core unit;
}.

(** What the submission of an answer asks of others: to abort a runtime, and to
    remember what the user said. *)
Class InputPorts := { up_abortRuntime : string -> core unit; up_captureUserMessage : TaskRun -> string -> core unit }.

Context `{ResumePorts, InputPorts}.

Definition resumed_event (run : TaskRun) (transcriptCount : Z) : json :=
  JObj [("attempt", JInt (r_attempt (tr_row run))); ("resumedAt", optional_int (r_resumedAt (tr_row run)));
        ("mode", JStr (if Z.eqb transcriptCount 0 then "durable-snapshot-replay" else "transcript-continuation"));
        ("transcriptCount", JInt transcriptCount)].

Definition core_logged (runId type : string) (data : json) : core unit := in_world (logged runId type data).

(** The transition that was made is the only one, and the store has it. *)
Definition resume_target (runId : string) (transitions : list TaskRunTransitionOutcome) : core (TaskRunTransitionOutcome * TaskRun) :=
  let* transition := match transitions with
    | [t] => if bool_decide (to_event t = None) then mret t else refuse ("TaskRun " +:+ runId +:+ " resume did not return exactly one eventless transition")
    | _ => refuse ("TaskRun " +:+ runId +:+ " resume did not return exactly one eventless transition")
    end in
  let lost := "TaskRun " +:+ runId +:+ " resume target does not match the persisted Run" in
  let* run := get_run runId in
  let* run := found run lost in
  let* target := ask (fun w => attempts (co_db w) !! to_targetAttemptId transition) in
  do* ensure (Z.eqb (r_attempt (tr_row run)) (to_targetOrdinal transition)
    && match target with Some a => String.eqb (a_runId a) runId | None => false end) lost in
  mret (transition, run).

(** From the boundary on. *)
Definition resume_from (runId : string) (sourceAttempt : AttemptRow) (options : RunResumeOptions) : core TaskRun :=
  let* now := ask co_clock in
  do* core_store (cancelQueuedContinuations runId "Superseded by manual resume" now) in
  do* in_world (repair runId RR_resume) in
  let* transitions := transitionResumedAttempt sourceAttempt options in
  let* target := resume_target runId transitions in
  let run := target.2 in
  let* prepared := try_catch (rs_prepare run options) (fun error =>
    do* settleResumePreparationFailure runId (to_targetAttemptId target.1) error in raise error) in
  do* core_logged runId "run.resumed" (resumed_event run prepared.1) in
  do* rs_launch run prepared.2 in
  run_again runId.

Definition resume (runId : string) (options : RunResumeOptions) : core TaskRun :=
  let* stop := ask (fun w => closing (co_process w)) in
  do* ensure (negb stop) "Service is shutting down" in
  let active w := bool_decide (runId ∈ runtimes (co_process w)) in
  let* stale := ask active in
  do* (if (stale : bool) then
         let* current := get_run runId in
         do* ensure (negb match current with Some run => bool_decide (r_status (tr_row run) = R_running) | None => false end)
           "Run is already active" in
         rs_awaitExecution runId
       else mret tt) in
  let* still := ask active in
  do* ensure (negb still) "Run is already active" in
  let* boundary := prepareExternalActionResumeBoundary runId options in
  match boundary with
  | Handled run => mret run
  | Continue sourceAttempt => resume_from runId sourceAttempt options
  end.

(** * Decisions of an operator *)

(** The launch of a parallel item (admission-coordinator.ts): its status, and the TaskRun it started. *)
Context (launchSessionInboxNow : string -> string -> core (string * option TaskRun)).

Definition decided (approvalId : string) (approved : bool) (resolution : string) : core ApprovalRow :=
  let* now := ask co_clock in
  let* approval := core_store (resolveApprovalRequest approvalId approved "user" resolution now) in
  found approval "Approval request is not pending".

Definition approved_event (approvalId resolution : string) : list (string * json) :=
  [("approvalId", JStr approvalId); ("resolution", JStr resolution)].

Definition approve_parallel (approvalId resolution : string) (request : ApprovalRow) : core (option TaskRun) :=
  do* ensure (bool_decide (p_status request = Ap_pending)) "Approval request is not pending" in
  let member k := truthy_text (string_member k (p_metadata request)) in
  match member "sessionId", member "inboxItemId" with
  | Some sessionId, Some inboxItemId =>
      let* launched := launchSessionInboxNow sessionId inboxItemId in
      do* ensure (String.eqb launched.1 "started") ("Parallel Session Inbox task could not start: " +:+ launched.1) in
      let* approval := decided approvalId true resolution in
      do* core_logged (p_runId approval) "supervisor.approval.approved" (JObj (approved_event approvalId resolution)) in
      mret launched.2
  | _, _ => refuse "Parallel Session Inbox approval metadata is incomplete"
  end.

Definition safe_ordinal (o : option json) : option Z :=
  match o with Some (JInt n) => if safe_integer n && (1 <=? n)%Z then Some n else None | _ => None end.

Definition approve_external (approvalId resolution : string) (request : ApprovalRow) : core TaskRun :=
  let* approvedAttempt := found (safe_ordinal (field "approvedAttempt" (p_metadata request))) "External-action approval metadata is incomplete" in
  let* approval := (if bool_decide (p_status request = Ap_pending) then
      let* resolved := decided approvalId true resolution in
      do* core_logged (p_runId resolved) "supervisor.approval.approved"
        (JObj (approved_event approvalId resolution ++ [("actionType", JStr "execute_external_action")])) in
      mret resolved
    else
      do* ensure (includes (p_status request) [Ap_approved; Ap_consumed]) "Approval request is not approved" in
      mret request) in
  let* run := get_run (p_runId approval) in
  let* run := found run ("TaskRun " +:+ p_runId approval +:+ " does not exist") in
  if (approvedAttempt <=? r_attempt (tr_row run))%Z then mret run else
  do* ensure (bool_decide (p_status approval = Ap_approved) && Z.eqb (r_attempt (tr_row run)) (approvedAttempt - 1))
    ("External-action approval " +:+ approvalId +:+ " cannot resume Attempt " +:+ pretty (r_attempt (tr_row run))) in
  resume (p_runId approval) (after_approval approvalId).

Definition approveRunApproval (approvalId resolution : string) : core (option TaskRun) :=
  let* request := ask (fun w => approvals (co_db w) !! approvalId) in
  let* request := found request "Approval request does not exist" in
  match p_actionType request with
  | start_parallel_taskrun => approve_parallel approvalId resolution request
  | execute_external_action => let* run := approve_external approvalId resolution request in mret (Some run)
  | resume_taskrun =>
      do* ensure (bool_decide (p_status request = Ap_pending)) "Approval request is not pending" in
      let* approval := decided approvalId true resolution in
      do* core_logged (p_runId approval) "supervisor.approval.approved" (JObj (approved_event approvalId resolution)) in
      let* run := resume (p_runId approval) (after_approval approvalId) in
      mret (Some run)
  end.

Definition rejectRunApproval (approvalId resolution : string) : core TaskRun :=
  let* approval := decided approvalId false resolution in
  do* core_logged (p_runId approval) "supervisor.approval.rejected" (JObj (approved_event approvalId resolution)) in
  run_again (p_runId approval).

(** * User input (user-input-submission.ts) *)

(** [existing.fields.some(...)]: the answer to a request that was answered is another one. *)
Definition different_response (request : UserInputRow) (response : list (string * string)) : bool :=
  existsb (fun f => negb (String.eqb (trim (answer response (f_key f))) (answer (i_response request) (f_key f)))) (i_fields request).

Definition input_summary (request : UserInputRow) : string :=
  join (String.String (Ascii.ascii_of_nat 10) "")
    (map (fun f => f_label f +:+ ": " +:+ answer (i_response request) (f_key f)) (i_fields request)).

Definition input_submitted_event (request : UserInputRequest) : json :=
  JObj [("requestId", JStr request.1); ("fieldKeys", JArr (map (fun f => JStr (f_key f)) (i_fields request.2)));
        ("submittedAt", optional_int (i_submittedAt request.2))].

(** The first answer: the runtime is stopped, then the answer is stored and told to the session. *)
Definition submit_pending (requestId : string) (existing : UserInputRow) (response : list (string * string)) : core (UserInputRequest * TaskRun) :=
  let runId := i_runId existing in
  let* hosted := ask (fun w => bool_decide (runId ∈ runtimes (co_process w))) in
  do* (if (hosted : bool) then do* up_abortRuntime runId in rs_awaitExecution runId else mret tt) in
  let* now := ask co_clock in
  let* submitted := core_store (submitUserInput requestId response now) in
  let request := submitted.1 in
  let* run := run_again (i_runId request.2) in
  let summary := input_summary request.2 in
  let sessionId := r_sessionId (tr_row run) in
  do* core_store (appendMessage sessionId "user" summary now) in
  do* up_captureUserMessage run summary in
  do* core_logged (r_id (tr_row run)) "run.input.submitted" (input_submitted_event request) in
  mret (request, run).

Definition submitRunUserInput (requestId : string) (response : list (string * string)) : core TaskRun :=
  let* stop := ask (fun w => closing (co_process w)) in
  do* ensure (negb stop) "Service is shutting down" in
  let* existing := ask (fun w => inputs (co_db w) !! requestId) in
  let* existing := found existing "User input request is not pending" in
  do* ensure (includes (i_status existing) [U_pending; U_submitted]) "User input request is not pending" in
  let* submitted :=
    if bool_decide (i_status existing = U_pending) then submit_pending requestId existing response
    else
      do* ensure (negb (different_response existing response)) "User input request was already submitted with a different response" in
      let* run := get_run (i_runId existing) in
      let* run := found run ("TaskRun " +:+ i_runId existing +:+ " does not exist") in
      mret ((requestId, existing), run) in
  let run := submitted.2 in
  let runId := r_id (tr_row run) in
  if negb (bool_decide (execution_mode run = external_action)) then resume runId (after_input submitted.1)
  else
    let* pending := ask (fun w => hasPendingApproval runId (co_db w)) in
    if bool_decide (r_status (tr_row run) = R_blocked) && pending then mret run else
    do* ensure (bool_decide (r_status (tr_row run) = R_waiting_input) && bool_decide (tr_pendingUserInput run = None))
      "Submitted external-action input is not at a resumable approval boundary" in
    let* sourceAttempt := ask (fun w => getAttemptForRun runId (r_attempt (tr_row run)) (co_db w)) in
    let* sourceAttempt := found sourceAttempt ("TaskRun " +:+ runId +:+ " has no source Attempt " +:+ pretty (r_attempt (tr_row run))) in
    do* requestAfterUserInput {| af_runId := runId; af_attemptId := a_id sourceAttempt; af_attempt := r_attempt (tr_row run);
                                 af_expectedVersion := a_version sourceAttempt |} requestId in
    run_again runId.

End boundary.
