(* ===== verification/BoundaryCommands.v ===== *)
(** The tables of the database that the log and the projection of Attempts leave
    alone, and the commands of the approval boundary (adapters/persistence-sqlite/
    src/sqlite/taskrun-transition-repository.ts) as they are read and carried out. *)
From S2P Require Import Prelude Json TaskPolicy Attempt GateData ExecDb Canonical AttemptRepo AttemptSpec StoreSpec AttemptRefine StoreRefine AttemptTrace RunStore Transcript TranscriptFacts Continuation Transition PortSteps ContinuationSteps PlanGraph PlanStore AuditAlgebra Evidence CompletionGate Uncertainty Supervisor Progress RunView Approval ApprovalFacts Service Settlement SettlementFacts Scheduler Goal GoalStore GoalStoreFacts GoalFacts InboxFrame SessionInbox SessionInboxFacts ApprovalBoundary.
Local Open Scope tx_scope.

Section facts.
Context `{Platform, ContractType}.

(** * Tables that the log leaves alone *)

(** A table the log and the projection of Attempts do not write. *)
Record apart {T} (g : Db -> T) : Prop := {
  ap_attempts f d : g (set_attempts f d) = g d;
  ap_audit f d : g (set_audit f d) = g d;
  ap_uuid d : g (bump_uuid d) = g d;
  ap_runs f d : g (set_runs f d) = g d;
  ap_events f d : g (set_events f d) = g d;
  ap_checkpoints f d : g (set_checkpoints f d) = g d;
}.

Lemma approvals_apart : apart approvals.
Proof. done. Qed.
Lemma decisions_apart : apart decisions.
Proof. done. Qed.
Lemma inputs_apart : apart inputs.
Proof. done. Qed.

Lemma finalize_apart {T} (g : Db -> T) rid aid n seq ts d u d' : apart g ->
  finalizeAttemptProjectionCheckpoint rid aid n seq ts d = Ok (u, d') -> g d' = g d.
Proof.
  intros Hg. unfold finalizeAttemptProjectionCheckpoint. intros Hs. tx_inv Hs; by rewrite ?(ap_checkpoints _ Hg).
Qed.

Lemma appendEvent_apart {T} (g : Db -> T) rid type data ts d ev d' : apart g -> appendEvent rid type data ts d = Ok (ev, d') -> g d' = g d.
Proof.
  intros Hg Hs. unfold appendEvent in Hs. tx_inv Hs. match goal with E : insert_event _ _ _ _ = _ |- _ => apply insert_event_ok in E as [? ->] end.
  by rewrite (ap_runs _ Hg), (ap_events _ Hg).
Qed.

Lemma transitionRun_apart {T} (g : Db -> T) rid expected next type data reason n ts d ev d' : apart g ->
  transitionRun rid expected next type data reason n ts d = Ok (ev, d') -> g d' = g d.
Proof.
  intros Hg Hs. unfold transitionRun in Hs. apply tx_bind_ok in Hs as (d0 & t & [-> ->]%gets_id_ok & Hs).
  destruct (runs d !! rid) as [r|]; [|by apply mret_ok in Hs as [_ ->]]. destruct (negb _ || _); [by apply mret_ok in Hs as [_ ->]|].
  tx_inv Hs.
  all: match goal with E : insert_event _ _ _ _ = _ |- _ => apply insert_event_ok in E as [? ->] end.
  all: match goal with E : update_run _ _ _ _ = _ |- _ => apply update_run_ok in E as [(? & _ & _ & _ & ->)|[_ ->]] end.
  all: match goal with E : finalizeAttemptProjectionCheckpoint _ _ _ _ _ _ = _ |- _ => apply (finalize_apart _ _ _ _ _ _ _ _ _ Hg) in E as -> end.
  all: match goal with E : projectAttempt _ _ _ _ _ _ _ _ _ = _ |- _ =>
    apply (projectAttempt_keeps g) in E as ->; [|apply Hg..] end.
  all: by rewrite ?(ap_checkpoints _ Hg), ?(ap_runs _ Hg), ?(ap_events _ Hg).
Qed.

Lemma appendEvent_runs rid type data ts d ev d' : appendEvent rid type data ts d = Ok (ev, d') -> attempts d' = attempts d
  /\ forall i r, runs d !! i = Some r -> exists r', runs d' !! i = Some r' /\ r_status r' = r_status r /\ r_attempt r' = r_attempt r
       /\ r_contract r' = r_contract r.
Proof.
  intros Hs. unfold appendEvent in Hs. tx_inv Hs. match goal with E : insert_event _ _ _ _ = _ |- _ => apply insert_event_ok in E as [? ->] end.
  split; [done|]. cbn. intros i r Hr. destruct (decide (rid = i)) as [<-|].
  - rewrite lookup_alter_eq, Hr. eexists. split; [reflexivity|done].
  - rewrite lookup_alter_ne by done. eauto.
Qed.

(** A transition that was made gives the TaskRun its next status. *)
Lemma transitionRun_status rid expected next type data reason n ts d ev d' :
  transitionRun rid expected next type data reason n ts d = Ok (Some ev, d') ->
  exists r r', runs d !! rid = Some r /\ runs d' !! rid = Some r' /\ r_status r' = next /\ r_attempt r' = r_attempt r
    /\ r_contract r' = r_contract r.
Proof.
  intros Hs. unfold transitionRun in Hs. apply tx_bind_ok in Hs as (d0 & t & [-> ->]%gets_id_ok & Hs).
  destruct (runs d !! rid) as [r|] eqn:Hr; [|by apply mret_ok in Hs as [? _]]. destruct (negb _ || _); [by apply mret_ok in Hs as [? _]|].
  tx_inv Hs.
  all: match goal with E : insert_event _ _ _ _ = _ |- _ => apply insert_event_ok in E as [? ->] end.
  all: match goal with E : (_ =? 1)%Z = true |- _ => apply Z.eqb_eq in E end.
  all: match goal with E : update_run _ _ _ _ = _ |- _ => apply update_run_ok in E as [(x & _ & Hx & _ & ->)|[-> _]]; [|done] end.
  all: cbn in Hx; rewrite Hr in Hx; injection Hx as <-.
  all: match goal with E : finalizeAttemptProjectionCheckpoint _ _ _ _ _ _ = _ |- _ => apply finalize_tables in E as [-> _] end.
  all: match goal with E : projectAttempt _ _ _ _ _ _ _ _ _ = _ |- _ => apply (projectAttempt_keeps runs) in E as ->; [|done..] end.
  all: eexists _, _; split; [done|]; split; [apply lookup_insert_eq|done].
Qed.

Lemma transitionExternalApproval_apart {T} (g : Db -> T) approvalId reason scope ts d os d' : apart g ->
  transitionExternalApproval approvalId reason scope ts d = Ok (os, d') -> g d' = g d.
Proof. intros Hg Hs. unfold transitionExternalApproval in Hs. tx_inv Hs. by eapply transitionRun_apart. Qed.

(** * The commands *)

Definition well_named (s : string) : Prop := negb (String.eqb s "") && negb (has_nul s) = true.

Lemma nonEmptyValue_ok s name v : nonEmptyValue (Some (JStr s)) name = Ok v -> v = s /\ well_named s.
Proof.
  unfold nonEmptyValue, assertNonEmpty, well_named. intros Hs. apply result_bind_ok in Hs as (u & Hc & Hv).
  apply check_ok in Hc. by injection Hv as <-.
Qed.

Lemma nonEmptyValue_run s name : well_named s -> nonEmptyValue (Some (JStr s)) name = Ok s.
Proof. unfold nonEmptyValue, assertNonEmpty, well_named. intros ->. done. Qed.

Lemma boundary_command_ok b approvalId c : validateSystemCommand (boundary_command b approvalId) = Ok c ->
  c = require_external_approval (a_id (bd_attempt b)) (a_version (bd_attempt b)) approvalId (bd_reason b)
  /\ well_named (a_id (bd_attempt b)) /\ well_named approvalId.
Proof.
  assert (validateSystemCommand (boundary_command b approvalId) =
    let* a := nonEmptyValue (Some (JStr approvalId)) "SystemTransitionCommand.approvalId" in
    let* r := nonEmptyValue (Some (JStr (bd_reason b))) "SystemTransitionCommand.reason" in
    let* bound := (let* i := nonEmptyValue (Some (JStr (a_id (bd_attempt b)))) "SystemTransitionCommand.attemptId" in
      let* v := assertPositiveInteger (Some (JInt (a_version (bd_attempt b)))) "SystemTransitionCommand.expectedVersion" in
      mret (i, v)) in
    mret (require_external_approval bound.1 bound.2 a r)) as -> by reflexivity.
  intros (a & [-> Ha]%nonEmptyValue_ok & Hs)%result_bind_ok. apply result_bind_ok in Hs as (r & [-> _]%nonEmptyValue_ok & Hs).
  apply result_bind_ok in Hs as (bound & Hb & Hs). apply result_bind_ok in Hb as (i & [-> Hi]%nonEmptyValue_ok & Hb).
  apply result_bind_ok in Hb as (v & Hv & Hb). unfold assertPositiveInteger in Hv. apply result_bind_ok in Hv as (? & _ & Hv).
  injection Hv as <-. injection Hb as <-. injection Hs as <-. done.
Qed.

(** The system stops a TaskRun for an approval. *)
Lemma boundary_transition_ok b approvalId now d os d' : Consistent d ->
  transitionSystem (boundary_command b approvalId) (boundary_authority approvalId) now d = Ok (os, d') ->
  well_named (a_id (bd_attempt b)) /\ well_named approvalId
  /\ exists a r p, attempts d !! a_id (bd_attempt b) = Some a /\ runs d !! a_runId a = Some r /\ r_attempt r = a_ordinal a
    /\ approvals d !! approvalId = Some p /\ p_runId p = a_runId a /\ p_actionType p = execute_external_action
    /\ p_status p = Ap_pending /\ p_approvedAttempt p = Some (a_ordinal a + 1)%Z
    /\ exists r' a', runs d' !! a_runId a = Some r' /\ r_status r' = R_blocked /\ r_attempt r' = a_ordinal a
      /\ attempts d' !! a_id (bd_attempt b) = Some a' /\ a_runId a' = a_runId a /\ a_ordinal a' = a_ordinal a
      /\ a_status a' = A_blocked /\ a_active a' = false /\ approvals d' = approvals d.
Proof.
  intros Hcon Hs. pose proof (transitionSystem_steps _ _ _ _ _ _ Hcon Hs) as Hst. apply (steps_consistent _ _ Hcon) in Hst as Hcon'.
  unfold transitionSystem in Hs. apply tx_bind_ok in Hs as (c & t & [Hc ->]%lift_ok & Hs).
  apply boundary_command_ok in Hc as (-> & Hi & Hap). apply tx_bind_ok in Hs as (au & t & [_ ->]%lift_ok & Hs).
  apply tx_bind_ok in Hs as (? & t & [_ ->]%lift_ok & Hs). apply tx_bind_ok in Hs as (scope & t & Hv & Hs).
  apply validateSystemAttempt_ok in Hv as Hv'. destruct Hv' as (-> & a & r & Ha & Hr & Ho & _ & Hscope).
  split; [done|]. split; [done|]. exists a, r. pose proof Hs as Htr.
  unfold transitionExternalApproval in Hs. apply tx_bind_ok in Hs as (? & t & [-> ->]%gets_id_ok & Hs).
  apply tx_bind_ok in Hs as (p & t & [Hp ->]%present_ok & Hs). apply bind_Some in Hp as (p0 & Hp0 & Hp).
  cbn in Hp. destruct (_ && _) eqn:Eb in Hp; [|done].
  injection Hp as ->. subst scope. bool_prop.
  exists p. split_and!; try done. tx_inv Hs.
  match goal with E : transitionRun _ _ _ _ _ _ _ _ _ = _ |- _ => rename E into Hmv end. cbn in Hmv.
  apply transitionRun_apart with (g := approvals) in Hmv as Hsame; [|apply approvals_apart].
  apply transitionRun_status in Hmv as (r0 & r' & Hr0 & Hr' & Hst' & Hn & _).
  rewrite Hr in Hr0. injection Hr0 as <-. rewrite Ho in Hn. destruct (con_has_current Hcon' _ _ Hr') as (a' & Ha' & A1 & A2).
  rewrite Hn, <- (con_named Hcon _ _ Ha) in Ha'. exists r', a'. split_and!; try done; [by rewrite A2|..].
  all: rewrite <- A1 in Hr'; pose proof (con_current Hcon' _ _ _ Ha' Hr' (eq_sym A2)) as Hcur; rewrite Hst' in Hcur; by destruct (a_active a').
Qed.

End facts.
