(* ===== verification/ApprovalBoundaryFacts.v ===== *)
(** What the approval boundary guarantees: an approved request authorizes the
    Attempt after the one that was stopped and no other; no context of an
    external action is prepared without an approval; and the case the resume and
    the submission of an answer disagree on. *)
From S2P Require Import Prelude Json TaskPolicy Attempt GateData ExecDb Canonical AttemptRepo AttemptSpec StoreSpec AttemptRefine StoreRefine AttemptTrace RunStore Transcript TranscriptFacts Continuation Transition PortSteps ContinuationSteps Demo PortTrace PlanGraph PlanStore AuditAlgebra Evidence CompletionGate Uncertainty Supervisor Progress RunView Approval ApprovalFacts Service Settlement SettlementFacts Scheduler SchedulerFacts Goal GoalStore GoalStoreFacts GoalFacts InboxFrame SessionInbox SessionInboxFacts ApprovalBoundary BoundaryCommands ReviewsFacts.
Local Open Scope tx_scope.

Section facts.
Context `{Platform, ContractType}.

(** * The boundary *)

Context (reviewer_model : string).

(** A stopped TaskRun: blocked, with its Attempt, and with an approval that waits for an operator. *)
Record stopped (runId attemptId : string) (approval : string * ApprovalRow) (d : Db) : Prop := {
  so_run : exists r a, runs d !! runId = Some r /\ r_status r = R_blocked /\ attempts d !! attemptId = Some a /\ a_runId a = runId
    /\ a_ordinal a = r_attempt r /\ a_status a = A_blocked /\ a_active a = false
    /\ p_approvedAttempt approval.2 = Some (r_attempt r + 1)%Z;
  so_named : well_named attemptId /\ well_named approval.1;
  so_approval : approvals d !! approval.1 = Some approval.2 /\ p_runId approval.2 = runId
    /\ p_actionType approval.2 = execute_external_action /\ p_status approval.2 = Ap_pending;
  so_decision : forall x, decisions d !! p_decisionId approval.2 = Some x -> d_status x = D_executed;
}.

Lemma update_decision_ok i st e ts d v d' : updateSupervisorDecision i st e ts d = Ok (v, d') ->
  aside d d' /\ approvals d' = approvals d /\ runs d' = runs d
  /\ (forall j x, decisions d' !! j = Some x -> j = i /\ d_status x = st \/ j <> i /\ decisions d !! j = Some x).
Proof.
  unfold updateSupervisorDecision. intros (? & d1 & ->%modify_ok & Hs)%tx_bind_ok. apply tx_bind_ok in Hs as (? & ? & [-> ->]%gets_id_ok & Hs).
  apply mret_ok in Hs as [_ ->]. split; [done|]. split; [done|]. split; [done|]. intros j row. cbn. destruct (decide (j = i)) as [->|].
  - rewrite lookup_alter_eq. intros (y & _ & ->)%fmap_Some. by left.
  - rewrite lookup_alter_ne by congruence. by right.
Qed.

Lemma settle_decision_ok i j now d u d' : settle_decision i j now d = Ok (u, d') ->
  aside d d' /\ approvals d' = approvals d /\ runs d' = runs d /\ forall x, decisions d' !! j = Some x -> d_status x = D_executed.
Proof.
  unfold settle_decision. destruct (String.eqb_spec j i) as [->|]; intros Hs.
  - apply tx_bind_ok in Hs as (? & d1 & (Ha & Hp & Hr & Hd)%update_decision_ok & [_ ->]%mret_ok). split_and!; try done.
    intros row Hx. by apply Hd in Hx as [[_ ->]|[? _]].
  - apply tx_bind_ok in Hs as (? & d1 & (Ha & Hp & Hr & Hd)%update_decision_ok & Hs).
    apply tx_bind_ok in Hs as (? & d2 & (Ha2 & Hp2 & Hr2 & Hd2)%update_decision_ok & [_ ->]%mret_ok). split_and!; try congruence.
    + by eapply aside_trans.
    + intros row Hx. by apply Hd2 in Hx as [[_ ->]|[? _]].
Qed.

Lemma requested_aside runId decisionId reason options ts d p d' : ensureApprovalRequest runId decisionId reason options ts d = Ok (p, d') ->
  aside d d' /\ runs d' = runs d /\ attempts d' = attempts d /\ approvals d' !! p.1 = Some p.2 /\ p_runId p.2 = runId.
Proof.
  unfold ensureApprovalRequest. intros (? & d1 & [-> ->]%gets_id_ok & Hs)%tx_bind_ok. unfold id in Hs.
  destruct (find_approval _ d) as [[i row]|] eqn:E.
  - apply mret_ok in Hs as [-> ->]. apply find_approval_ok in E as [E1 E2]. unfold pending_row in E2. bool_prop. by split_and!.
  - apply tx_bind_ok in Hs as (uid & d1 & [_ ->]%randomUUID_ok & Hs). apply tx_bind_ok in Hs as (x & d2 & [_ ->]%lift_ok & Hs).
    apply tx_bind_ok in Hs as (? & d2 & (_ & -> & _)%insert_approval_ok & [-> ->]%mret_ok). split_and!; try done. apply lookup_insert_eq.
Qed.

Lemma propose_aside runId summary ts d x d' : proposeExternalActionStart reviewer_model runId summary ts d = Ok (x, d') ->
  aside d d' /\ runs d' = runs d /\ attempts d' = attempts d /\ approvals d' = approvals d.
Proof.
  unfold proposeExternalActionStart, propose_approval, recordSupervisorDecision. intros Hs. tx_inv Hs.
  match goal with E : randomUUID _ = Ok _ |- _ => apply randomUUID_ok in E as [_ ->] end. done.
Qed.

(** A request for an approval stops the TaskRun. *)
Lemma boundary_stops b now d approval events d' : Consistent d -> boundary_steps reviewer_model b now d = Ok ((approval, events), d') ->
  rtc store_step d d' /\ stopped (bd_runId b) (a_id (bd_attempt b)) approval d'
  /\ exists i e e', approvals e = approvals d /\ approvals d' = approvals e'
       /\ ensureApprovalRequest (bd_runId b) i (bd_reason b) (boundary_options b) now e = Ok (approval, e').
Proof.
  intros Hcon. unfold boundary_steps. intros (x & d1 & (A1 & R1 & T1 & P1)%propose_aside & Hs)%tx_bind_ok.
  apply tx_bind_ok in Hs as (p & d2 & Hens & Hs).
  pose proof Hens as (A2 & R2 & T2 & P2 & Hrun)%requested_aside.
  apply tx_bind_ok in Hs as (init & d3 & Hi & Hs).
  assert (rtc store_step d2 d3 /\ approvals d3 = approvals d2) as [S3 P3].
  { destruct (bd_onApprovalEnsured b) as [[ty data]|]; [|by apply mret_ok in Hi as [_ ->]].
    apply tx_bind_ok in Hi as (e & d4 & He & [_ ->]%mret_ok). split; [|by eapply appendEvent_apart in He; [exact He|apply approvals_apart]].
    eapply appendEvent_steps; [|exact He]. eapply aside_consistent; [|exact A2]. by eapply aside_consistent. }
  assert (rtc store_step d d3) as S03. { etrans; [by apply aside_steps|]. etrans; [by apply aside_steps|]. done. }
  apply (steps_consistent _ _ Hcon) in S03 as Hcon3.
  apply tx_bind_ok in Hs as (os & d4 & Ht & Hs). pose proof (transitionSystem_steps _ _ _ _ _ _ Hcon3 Ht) as S4.
  apply (steps_consistent _ _ Hcon3) in S4 as Hcon4.
  apply boundary_transition_ok in Ht as (N1 & N2 & a & r & p2 & Ha & Hr & Ho & Hp & B1 & B2 & B3 & B4 & r' & a' & Hr' & C1 & C2 & Ha' & D1 & D2 & D3 & D4 & P4);
    [|done].
  apply tx_bind_ok in Hs as (e & d5 & [_ ->]%present_ok & Hs).
  apply tx_bind_ok in Hs as (? & d5 & (A5 & P5 & R5 & Hdec)%settle_decision_ok & Hs).
  apply tx_bind_ok in Hs as (asked & d6 & He & [[= -> _] ->]%mret_ok).
  assert (Consistent d5) as Hcon5 by (by eapply aside_consistent). pose proof (appendEvent_steps _ _ _ _ _ _ _ Hcon5 He) as S6.
  pose proof (appendEvent_apart _ _ _ _ _ _ _ _ approvals_apart He) as P6. pose proof (appendEvent_apart _ _ _ _ _ _ _ _ decisions_apart He) as D6.
  apply appendEvent_runs in He as [T6 R6]. pose proof (as_attempts _ _ A5) as T5.
  rewrite P3, P2 in Hp. injection Hp as <-. assert (a_runId a = bd_runId b) as Hid by congruence. rewrite Hid in *.
  rewrite <- R5 in Hr'. destruct (R6 _ _ Hr') as (r6 & Hr6 & E1 & E2 & _).
  split; [etrans; [exact S03|]; etrans; [exact S4|]; etrans; [by apply aside_steps|exact S6]|]. split.
  2:{ exists (d_id x), d1, d2. split_and!; [done|congruence|exact Hens]. }
  split.
  - exists r6, a'. split_and!; try congruence.
  - done.
  - split_and!; try done. congruence.
  - rewrite D6. exact Hdec.
Qed.

(** * Going on *)

Lemma for_each_still {S A} (f : A -> tx S unit) l (d : S) : (forall x, x ∈ l -> f x d = Ok (tt, d)) -> for_each f l d = Ok (tt, d).
Proof.
  induction l as [|x l IH]; intros Hf; [done|]. cbn. erewrite tx_bind_run by (apply Hf; by left). apply IH. intros y Hy. apply Hf. by right.
Qed.

Lemma update_attempts_still p f d : (forall j a, attempts d !! j = Some a -> p a = false) -> update_attempts p f d = Ok (tt, d).
Proof.
  intros Hp. unfold update_attempts. erewrite tx_bind_run by reflexivity. apply for_each_still. intros a Ha.
  apply list_elem_of_fmap in Ha as ([j b] & -> & Hb%elem_of_map_to_list). cbn. by rewrite (Hp _ _ Hb).
Qed.

(** The first projection of an Attempt, when no other of its TaskRun is active. *)
Lemma project_fresh_run rid n trigger scenario reason seq ts d :
  attempts d !! attempt_id rid n = None -> (0 < n)%Z -> (0 <= seq)%Z ->
  (forall j b, attempts d !! j = Some b -> a_runId b = rid -> a_ordinal b <> n /\ a_active b = false) ->
  exists d', projectAttempt rid n trigger A_running scenario reason seq ts d = Ok (tt, d').
Proof.
  intros Hfree Hn Hseq Hothers. unfold projectAttempt. erewrite tx_bind_run by reflexivity. cbv beta zeta. unfold id. rewrite Hfree.
  rewrite bool_decide_eq_true_2 by done. erewrite tx_bind_run; cbv beta.
  2:{ apply update_attempts_still. intros j b Hb. destruct (String.eqb_spec (a_runId b) rid) as [E|]; [|done].
      by rewrite (proj2 (Hothers _ _ Hb E)), andb_false_r. }
  erewrite tx_bind_run; cbv beta.
  2:{ erewrite tx_bind_run by reflexivity. cbv beta. rewrite (tx_bind_run _ _ _ tt d) by (apply require_run; by rewrite Hfree).
      unfold write_attempt. erewrite tx_bind_run by reflexivity. cbv beta. rewrite (tx_bind_run _ _ _ tt d); [|apply require_run].
      - rewrite (tx_bind_run _ _ _ tt d); [reflexivity|apply require_run]. unfold attempt_unique. apply bool_decide_eq_true.
        intros j b Hb _ [E [E2|[_ E2]]]; cbn in E, E2; destruct (Hothers _ _ Hb (eq_sym E)) as [H1 H2]; congruence.
      - unfold attempt_check. cbn. rewrite !andb_true_iff, !Z.ltb_lt, Z.leb_le. done. }
  erewrite tx_bind_run by reflexivity. cbv beta. erewrite tx_bind_run; cbv beta.
  2:{ apply present_run. cbn. apply lookup_insert_eq. }
  erewrite tx_bind_run by reflexivity. by eexists.
Qed.

(** A stopped TaskRun can be resumed. *)
Lemma resumeRun_run rid ts d r : Consistent d -> runs d !! rid = Some r -> r_status r = R_blocked -> (0 < r_attempt r)%Z ->
  exists r2 d', resumeRun rid ts d = Ok (r2, d').
Proof.
  intros Hcon Hr Hst Hn. unfold resumeRun. erewrite tx_bind_run by reflexivity. cbv beta. unfold id.
  erewrite tx_bind_run by (by apply present_run). cbv beta. rewrite Hst.
  erewrite tx_bind_run; cbv beta. 2:{ apply require_run. unfold isRunResumable. by rewrite Hr, Hst. }
  erewrite tx_bind_run; cbv beta. 2:{ by apply require_run. }
  cbv zeta. erewrite tx_bind_run by reflexivity. cbv beta.
  match goal with |- context [mbind _ (projectAttempt _ ?n ?t _ ?s ?w ?q _) ?e] =>
    destruct (project_fresh_run rid n t s w q ts e) as [d' Hd'] end.
  - exact (next_attempt_free _ _ _ Hcon Hr).
  - lia.
  - by destruct (con_log Hcon _ _ Hr).
  - cbn. intros j b Hb <-. split.
    + destruct (con_ordinal Hcon _ _ Hb) as (x & Hx & Hle). rewrite Hr in Hx. injection Hx as <-. lia.
    + destruct (a_active b) eqn:Eb; [|done]. destruct (con_active Hcon _ _ Hb Eb) as (x & Hx & _ & Hrun). congruence.
  - rewrite (tx_bind_run _ _ _ _ _ Hd'). erewrite tx_bind_run by reflexivity. cbv beta.
    apply (projectAttempt_keeps runs) in Hd' as Hruns; [|done..]. rewrite Hruns. cbn. rewrite lookup_alter_eq, Hr.
    by eexists _, _.
Qed.

Lemma resume_command_run a approvalId : well_named (a_id a) -> well_named approvalId -> safe_integer (a_version a) = true -> (0 < a_version a)%Z ->
  let request := resumeTransitionRequest a (after_approval approvalId) in
  validateSystemCommand request.1 = Ok (resume_approval (a_id a) (a_version a) approvalId)
  /\ validateSystemAuthority request.2 = Ok (approval_resume approvalId).
Proof.
  intros Ha Hi Hv Hpos. assert (String.eqb approvalId "" = false) as Hne.
  { unfold well_named in Hi. apply andb_true_iff in Hi as [Hi _]. by apply negb_true_iff in Hi. }
  unfold resumeTransitionRequest, option_input, option_approval, truthy_text. rewrite Hne. cbv zeta. split.
  - match goal with |- ?l = _ => assert (l =
      let* i := nonEmptyValue (Some (JStr approvalId)) "SystemTransitionCommand.approvalId" in
      let* bound := (let* i := nonEmptyValue (Some (JStr (a_id a))) "SystemTransitionCommand.attemptId" in
        let* v := assertPositiveInteger (Some (JInt (a_version a))) "SystemTransitionCommand.expectedVersion" in
        mret (i, v)) in
      mret (resume_approval bound.1 bound.2 i)) as -> by reflexivity end.
    rewrite (nonEmptyValue_run approvalId) by done. unfold mbind, result_mbind. rewrite (nonEmptyValue_run (a_id a)) by done.
    unfold assertPositiveInteger. rewrite Hv, (proj2 (Z.ltb_lt _ _) Hpos). done.
  - match goal with |- ?l = _ => assert (l =
      let* i := nonEmptyValue (Some (JStr approvalId)) "SystemTransitionAuthority.approvalId" in mret (approval_resume i)) as -> by reflexivity end.
    by rewrite nonEmptyValue_run.
Qed.

Lemma resumeRun_apart {T} (g : Db -> T) rid ts d r d' : apart g -> resumeRun rid ts d = Ok (r, d') -> g d' = g d.
Proof.
  intros Hg Hs. unfold resumeRun in Hs. tx_inv Hs.
  match goal with E : projectAttempt _ _ _ _ _ _ _ _ _ = _ |- _ => apply (projectAttempt_keeps g) in E as ->; [|apply Hg..] end.
  by rewrite (ap_runs _ Hg).
Qed.

(** The resume of a stopped TaskRun whose approval was given. *)
Lemma approved_resume runId approvalId a r p ts d :
  Consistent d -> runs d !! runId = Some r -> r_status r = R_blocked -> attempts d !! a_id a = Some a -> a_runId a = runId ->
  a_ordinal a = r_attempt r -> a_active a = false -> well_named (a_id a) -> well_named approvalId -> safe_integer (a_version a) = true ->
  blank runId = false -> safe_integer (r_attempt r + 1) = true ->
  approvals d !! approvalId = Some p -> p_runId p = runId -> p_actionType p = execute_external_action -> p_status p = Ap_approved ->
  p_approvedAttempt p = Some (r_attempt r + 1)%Z ->
  let request := resumeTransitionRequest a (after_approval approvalId) in
  exists t d' r' a', transitionSystem request.1 request.2 ts d = Ok ([t], d') /\ to_event t = None
    /\ to_targetOrdinal t = (r_attempt r + 1)%Z /\ approvals d' = approvals d /\ started d d' runId r' a' /\ r_attempt r' = (r_attempt r + 1)%Z.
Proof.
  intros Hcon Hr Hst Ha Hrun Ho Hact Hna Hni Hv Hb Hs Hp P1 P2 P3 P4. pose proof (con_attempt Hcon _ _ Ha) as [_ Hck].
  unfold attempt_check in Hck. rewrite !andb_true_iff, !Z.ltb_lt in Hck. destruct Hck as [[[Hord Hver] _] _].
  destruct (resume_command_run a approvalId Hna Hni Hv Hver) as [E1 E2]. cbv zeta. unfold transitionSystem.
  erewrite tx_bind_run by (unfold lift; by rewrite E1). cbv beta. erewrite tx_bind_run by (unfold lift; by rewrite E2). cbv beta.
  erewrite tx_bind_run; cbv beta.
  2:{ unfold lift, assertAuthorityMatches, authorityMatches. rewrite String.eqb_refl. reflexivity. }
  unfold validateSystemAttempt. erewrite tx_bind_run; cbv beta.
  2:{ erewrite tx_bind_run by reflexivity. cbv beta. unfold id. erewrite tx_bind_run by (by apply present_run). cbv beta.
      rewrite Hrun. erewrite tx_bind_run by (by apply present_run). cbv beta. rewrite Z.eqb_refl, Ho, Z.eqb_refl. reflexivity. }
  destruct (resumeRun_run runId ts d r Hcon Hr Hst ltac:(lia)) as (r2 & d' & Hres).
  destruct (resumeRun_started _ _ _ _ _ Hcon Hres) as (r0 & a2 & Hr0 & _ & Hsta). rewrite Hr in Hr0. injection Hr0 as <-.
  pose proof (st_before Hsta) as Hbef. rewrite Hr in Hbef. destruct Hbef as (_ & Hn & _).
  unfold transitionResume. cbn [sa_active sa_runId sa_attemptId sa_ordinal sa_runStatus sa_version sa_attemptStatus].
  erewrite tx_bind_run; cbv beta. 2:{ apply require_run. by rewrite Hact. }
  erewrite tx_bind_run by reflexivity. cbv beta. unfold id. erewrite tx_bind_run; cbv beta.
  2:{ unfold lift, resume_guard. cbn [sa_active sa_runId sa_attemptId sa_ordinal sa_runStatus]. rewrite Hp, P1, P2, P3, P4, Hst, String.eqb_refl.
      rewrite (bool_decide_eq_true_2 (Some (r_attempt r + 1)%Z = _)) by done. reflexivity. }
  erewrite tx_bind_run by exact Hres. cbv beta zeta. erewrite tx_bind_run; cbv beta.
  2:{ unfold lift, attemptIdFor. rewrite Hb, Hn, Hs, (proj2 (Z.ltb_lt 0 (r_attempt r + 1))) by lia. reflexivity. }
  erewrite tx_bind_run by reflexivity. cbv beta. destruct (st_named Hsta) as (N1 & N2 & N3 & N4).
  erewrite tx_bind_run; cbv beta.
  2:{ apply present_run. rewrite (st_attempts Hsta), <- Hn, <- N1. apply lookup_insert_eq. }
  erewrite tx_bind_run; cbv beta. 2:{ apply require_run. by rewrite N2, N3, String.eqb_refl, Z.eqb_refl. }
  eexists _, d', r2, a2. split; [reflexivity|]. cbn. rewrite N3. split_and!; try done.
  by eapply resumeRun_apart in Hres; [exact Hres|apply approvals_apart].
Qed.

(** What the digest of a request for an external action binds is a safe ordinal. *)
Lemma bound_ordinal i p : bound_request i p -> p_actionType p = execute_external_action ->
  exists n, p_approvedAttempt p = Some n /\ safe_integer n = true /\ (1 <= n)%Z.
Proof.
  intros [_ _ (session & o & digest & Hm & _)] Ha. unfold mapRunApprovalOperation in Hm. rewrite Ha in Hm.
  do 5 apply result_bind_ok in Hm as (? & _ & Hm). apply result_bind_ok in Hm as (? & Hpay & _).
  unfold operation_payload in Hpay. apply result_bind_ok in Hpay as (? & _ & Hpay). apply result_bind_ok in Hpay as (n & Hn%expect_ok & _).
  unfold p_approvedAttempt. destruct (field "approvedAttempt" (p_metadata p)) as [[]|]; try done.
  destruct (safe_integer _ && _) eqn:Ec; [|done]. bool_prop. exists z. auto.
Qed.

Lemma boundary_bound b now d approval events d' : Consistent d -> (forall i p, approvals d !! i = Some p -> bound_request i p) ->
  boundary_steps reviewer_model b now d = Ok ((approval, events), d') -> forall i p, approvals d' !! i = Some p -> bound_request i p.
Proof.
  intros Hcon Hb Hs. apply boundary_stops in Hs as (_ & _ & i & e & e' & E1 & -> & Hens); [|done]. destruct approval as [j row].
  apply ensure_ok in Hens as [->|(_ & -> & Hrow & _)]; rewrite E1; [exact Hb|]. intros k p [[<- <-]|[_ Hp]]%lookup_insert_Some; [done|by apply Hb].
Qed.

(** An approved, unused approval of the running Attempt authorizes it. *)
Lemma running_authorized runId n i p time d : attempt_running runId n d = true -> approvals d !! i = Some p ->
  bound_request i p -> p_runId p = runId -> p_actionType p = execute_external_action -> p_status p = Ap_approved ->
  p_approvedAttempt p = Some n -> ea_allowed (inspectExternalActionAuthorization runId n time d) = true.
Proof.
  intros Hrun Hp [Hl (Hr & Hm & He) _] P1 P2 P3 P4. unfold inspectExternalActionAuthorization.
  destruct (authorizing runId n time d) as [[j q]|] eqn:Ea; [by destruct (_ <? _)%Z|]. exfalso. unfold authorizing in Ea. rewrite Hrun in Ea.
  assert ((i, p) ∈ (merge_sort approval_ge (List.filter (fun kp => String.eqb (p_runId kp.2) runId
      && bool_decide (p_actionType kp.2 = execute_external_action) && bool_decide (p_approvedAttempt kp.2 = Some n)
      && usable time kp.2) (map_to_list (approvals d))))) as Hin.
  { rewrite merge_sort_Permutation. apply filter_elem. split; [by apply elem_of_map_to_list|]. cbn. unfold used_as_decided in Hl. rewrite P3 in Hl.
    rewrite P1, P2, P4, String.eqb_refl, !bool_decide_eq_true_2 by done. unfold usable, within_uses, unexpired.
    by rewrite P3, (proj1 Hl), Hr, Hm, He. }
  by destruct (merge_sort _ _); [apply not_elem_of_nil in Hin|].
Qed.

(** C17. A TaskRun that was stopped for an external action goes on exactly as it
    was approved: whoever asked (a launch, a tool, an answer, a resume), once an
    operator approves the request the resume it names always succeeds and starts
    the next Attempt of the TaskRun, and external actions are authorized for
    that Attempt and for no other. *)
Theorem approved_boundary_authorizes b now d approval events d1 :
  Consistent d -> (forall i p, approvals d !! i = Some p -> bound_request i p) ->
  boundary_steps reviewer_model b now d = Ok ((approval, events), d1) ->
  blank (bd_runId b) = false -> (forall a, attempts d1 !! a_id (bd_attempt b) = Some a -> safe_integer (a_version a) = true) ->
  exists a, attempts d1 !! a_id (bd_attempt b) = Some a /\ forall resolution t1 t2, exists p d2 t d3,
    resolveApprovalRequest approval.1 true "user" resolution t1 d1 = Ok (Some p, d2)
    /\ transitionSystem (resumeTransitionRequest a (after_approval approval.1)).1 (resumeTransitionRequest a (after_approval approval.1)).2 t2 d2
       = Ok ([t], d3)
    /\ to_event t = None /\ to_targetOrdinal t = (a_ordinal a + 1)%Z
    /\ forall n time, ea_allowed (inspectExternalActionAuthorization (bd_runId b) n time d3) = Z.eqb n (a_ordinal a + 1).
Proof.
  intros Hcon Hbound Hs Hblank Hsafe. pose proof (boundary_bound _ _ _ _ _ _ Hcon Hbound Hs) as Hbound1.
  apply boundary_stops in Hs as (S1 & [(r & a & Hr & Hst & Ha & A1 & A2 & A3 & A4 & P0) [N1 N2] (P1 & P2 & P3 & P4) _] & _); [|done].
  apply (steps_consistent _ _ Hcon) in S1 as Hcon1. exists a. split; [done|]. intros resolution t1 t2.
  pose proof (Hbound1 _ _ P1) as Hb. destruct (bound_ordinal _ _ Hb P3) as (n & Hn & Hns & _). rewrite P0 in Hn. injection Hn as <-.
  pose proof (con_attempt Hcon1 _ _ Ha) as [Hai _].
  set (p := resolved_row Ap_approved "user" resolution t1 approval.2). set (d2 := set_approvals (insert approval.1 p) d1).
  assert (resolveApprovalRequest approval.1 true "user" resolution t1 d1 = Ok (Some p, d2)) as Hres.
  { unfold resolveApprovalRequest. erewrite tx_bind_run by reflexivity. cbv beta. unfold id. rewrite P1, P4, bool_decide_eq_true_2 by done. reflexivity. }
  assert (Consistent d2) as Hcon2 by (by eapply aside_consistent; [exact Hcon1|]).
  destruct (approved_resume (bd_runId b) approval.1 a r p t2 d2) as (t & d3 & r' & a' & Ht & T1 & T2 & T3 & Hsta & Hn'); try done.
  - exact (eq_trans (f_equal (fun i => attempts d1 !! i) Hai) Ha).
  - by rewrite Hai.
  - by apply Hsafe.
  - apply lookup_insert_eq.
  - exists p, d2, t, d3. split_and!; [done|done|done|by rewrite A2|]. intros m time. destruct (Z.eqb_spec m (a_ordinal a + 1)) as [->|Hne].
    + destruct (st_running Hsta) as (B1 & B2 & B3 & _). destruct (st_named Hsta) as (C1 & C2 & C3 & _).
      eapply (running_authorized _ _ approval.1 p).
      * unfold attempt_running. rewrite (st_runs Hsta), lookup_insert_eq, A2, Hn', B1, Z.eqb_refl. cbn.
        match goal with |- ?b = true => destruct b eqn:Ex; [done|] end. apply (exists_where_false _ _ (a_id a') a') in Ex;
          [|rewrite (st_attempts Hsta); apply lookup_insert_eq]. cbv beta in Ex.
        rewrite C2, C3, B2, B3, Hn', String.eqb_refl, Z.eqb_refl in Ex. done.
      * rewrite T3. apply lookup_insert_eq.
      * by apply (resolved_bound approval.1 approval.2 true).
      * done.
      * done.
      * done.
      * by rewrite A2.
    + unfold inspectExternalActionAuthorization, authorizing, attempt_running. rewrite (st_runs Hsta), lookup_insert_eq, Hn', <- A2.
      by rewrite (proj2 (Z.eqb_neq (a_ordinal a + 1) m)) by congruence.
Qed.

(** * Resuming without an approval *)

Lemma put_world_in w : put_world (world_in w) w = w.
Proof. by destruct w as [[] ? ? ? ?]. Qed.

Lemma get_run_reads runId w : get_run runId w = (match hydrateRun runId (co_clock w) (go_gov (co_goals w)) with
    | Ok run => Returned run | Throw e => Thrown (Exn e) end, w).
Proof.
  unfold get_run, in_world, getRun, ask, mbind, call_mbind, of_result. cbn.
  by destruct (hydrateRun _ _ _); cbn; rewrite put_world_in.
Qed.

Lemma hydrated_row runId now g run : hydrateRun runId now g = Ok (Some run) -> runs (gd_db g) !! runId = Some (tr_row run)
  /\ tr_contract run = contract_of <$> (r_contract (tr_row run) ≫= record) /\ tr_approvalRequests run = listApprovalRequests runId (gd_db g).
Proof.
  unfold hydrateRun. destruct (runs (gd_db g) !! runId) as [row|]; [|done]. intros (gate & _ & Hs)%result_bind_ok.
  by injection Hs as <-.
Qed.

(** A request of the TaskRun is listed. *)
Lemma listed_approval runId d i p : (i, p) ∈ listApprovalRequests runId d <-> approvals d !! i = Some p /\ p_runId p = runId.
Proof.
  unfold listApprovalRequests, rows_of. rewrite merge_sort_Permutation, filter_elem, elem_of_map_to_list. cbn. by rewrite String.eqb_eq.
Qed.

Context `{ResumePorts, RuntimeControlPort}.

Lemma call_bind_run {W A B} (m : call W A) (f : A -> call W B) w a w' : m w = (Returned a, w') -> mbind f m w = f a w'.
Proof. unfold mbind, call_mbind. by intros ->. Qed.

Lemma call_bind_thrown {W A B} (m : call W A) (f : A -> call W B) w t w' : m w = (Thrown t, w') -> mbind f m w = (Thrown t, w').
Proof. unfold mbind, call_mbind. by intros ->. Qed.

(** Nothing runs that could be cancelled. *)
Lemma cancel_idle `{RuntimeControlPort} runId r w : Consistent (co_db w) -> runs (co_db w) !! runId = Some r -> r_status r <> R_running ->
  in_world (cancel runId) w = (Returned false, w).
Proof.
  intros Hcon Hr Hne. assert (getActiveAttempt runId (co_db w) = None) as Hno.
  { unfold getActiveAttempt. destruct (head _) as [a|] eqn:E; [|done]. apply head_Some_elem_of, filter_elem in E as [Hin Hb].
    apply list_elem_of_fmap in Hin as ([i b] & -> & Hi%elem_of_map_to_list). cbn in Hb. bool_prop. subst runId.
    destruct (con_active Hcon _ _ Hi ltac:(done)) as (x & Hx & _ & Hx2). congruence. }
  unfold in_world, cancel, mbind, call_mbind, ask. unfold co_db, go_db in Hno. unfold db. cbn. rewrite Hno. cbn. by rewrite put_world_in.
Qed.

Lemma call_ask {W A B} (g : W -> A) (f : A -> call W B) w : mbind f (ask g) w = f (g w) w.
Proof. done. Qed.

Lemma call_ret {W A B} (a : A) (f : A -> call W B) w : mbind f (mret a) w = f a w.
Proof. done. Qed.

Lemma call_ensure {B} b message (f : unit -> core B) w : b = true -> mbind f (ensure b message) w = f tt w.
Proof. by intros ->. Qed.

Lemma call_found {A B} (a : A) message (f : A -> core B) w : mbind f (found (Some a) message) w = f a w.
Proof. done. Qed.

(** C40. The answer to an agent may strand its TaskRun. A TaskRun that asked for an
    external approval earlier, though its policy is another one, goes on after an
    answer through the plain resume, which refuses it, while the request for a
    new approval is only made where the policy itself is external. Once the answer
    is stored the TaskRun waits for input nobody is asked for: every resume is
    refused and changes nothing, and there is no active Attempt to cancel. *)
Theorem answered_input_strands runId run a w :
  hydrateRun runId (co_clock w) (go_gov (co_goals w)) = Ok (Some run) -> r_status (tr_row run) = R_waiting_input ->
  requiresExternalActionApproval run = true -> getAttemptForRun runId (r_attempt (tr_row run)) (co_db w) = Some a ->
  closing (co_process w) = false -> runId ∉ runtimes (co_process w) ->
  (forall i p, approvals (co_db w) !! i = Some p -> p_runId p = runId -> p_status p <> Ap_pending /\ for_next_attempt run p = false) ->
  Consistent (co_db w) ->
  (forall options, exists message, resume reviewer_model runId options w = (Thrown (Exn (Error message)), w))
  /\ in_world (cancel runId) w = (Returned false, w).
Proof.
  intros Hrun Hst Hext Ha Hcl Hrt Hno Hcon. split; [intros options|by eapply cancel_idle; [done|by apply hydrated_row in Hrun as [? _]|congruence]]. apply hydrated_row in Hrun as Hrow. destruct Hrow as (Hrow & _ & Hlist).
  assert (get_run runId w = (Returned (Some run), w)) as Hget by (by rewrite get_run_reads, Hrun).
  assert (List.find (fun p : string * ApprovalRow => bool_decide (p_status p.2 = Ap_pending)) (tr_approvalRequests run) = None) as Hf.
  { destruct (List.find _ _) as [[i p]|] eqn:E; [|done]. apply List.find_some in E as [Hin Hp%bool_decide_eq_true].
    rewrite Hlist, <- list_elem_of_In, listed_approval in Hin. by destruct (Hno _ _ (proj1 Hin) (proj2 Hin)). }
  assert (forall actor reason, exists message, requestForResume reviewer_model {| af_runId := runId; af_attemptId := a_id a;
    af_attempt := r_attempt (tr_row run); af_expectedVersion := a_version a |} actor reason w = (Thrown (Exn (Error message)), w)) as Hreq.
  { intros actor reason. unfold requestForResume. rewrite call_ask. eexists. erewrite call_bind_thrown; [done|]. unfold run_where. cbn [af_runId].
    rewrite (call_bind_run _ _ _ _ _ Hget), call_found. unfold isRunResumable, co_db, go_db. by rewrite Hrow, Hst. }
  unfold resume. rewrite call_ask, call_ensure by (by rewrite Hcl). rewrite call_ask, (bool_decide_eq_false_2 _ Hrt), call_ret.
  rewrite call_ask, call_ensure by (by rewrite (bool_decide_eq_false_2 _ Hrt)).
  enough (exists message, prepareExternalActionResumeBoundary reviewer_model runId options w = (Thrown (Exn (Error message)), w)) as [message Hm]
    by (exists message; by rewrite (call_bind_thrown _ _ _ _ _ Hm)).
  unfold prepareExternalActionResumeBoundary. rewrite (call_bind_run _ _ _ _ _ Hget), call_found. cbv zeta.
  rewrite call_ask, Ha, call_found, Hf, Hext, call_ask.
  destruct (option_approval options) as [i|] eqn:Ei.
  - eexists. erewrite call_bind_thrown; [done|]. cbn [negb orb]. destruct (approvals (co_db w) !! i) as [p|] eqn:Ep; [|done].
    destruct (String.eqb_spec (p_runId p) runId) as [E|]; [|done]. by rewrite (proj2 (Hno _ _ Ep E)).
  - rewrite call_ensure by done. cbn. destruct (option_input options); [by eexists|].
    destruct (Hreq (option_actor options) (option_reason options)) as [message Hm]. exists message. by rewrite (call_bind_thrown _ _ _ _ _ Hm).
Qed.

(** * An external action is resumed with its approval *)

(** What the way to the transition keeps. *)
Definition tied (runId : string) (d d' : Db) : Prop :=
  approvals d' = approvals d
  /\ (forall r, runs d !! runId = Some r -> exists r', runs d' !! runId = Some r' /\ r_attempt r' = r_attempt r /\ r_contract r' = r_contract r)
  /\ (Consistent d -> Consistent d').

Lemma tied_refl runId d : tied runId d d.
Proof. split_and!; eauto. Qed.

Lemma tied_trans runId d1 d2 d3 : tied runId d1 d2 -> tied runId d2 d3 -> tied runId d1 d3.
Proof.
  intros (A1 & R1 & C1) (A2 & R2 & C2). split_and!; [congruence| |auto]. intros r Hr. destruct (R1 _ Hr) as (r1 & Hr1 & E1 & E2).
  destruct (R2 _ Hr1) as (r2 & Hr2 & E3 & E4). exists r2. split; [done|]. split; congruence.
Qed.

Lemma tied_tables runId d d' : approvals d' = approvals d -> runs d' = runs d -> aside d d' -> tied runId d d'.
Proof. intros Ea Er Has. split_and!; [done|rewrite Er; eauto|]. intros Hcon. by eapply aside_consistent. Qed.

Lemma repairTranscript_tied runId rid reason ts d v d' : repairTranscript rid reason ts d = Ok (v, d') -> tied runId d d'.
Proof.
  unfold repairTranscript. intros (? & d1 & [-> ->]%gets_id_ok & Hs)%tx_bind_ok. apply tx_bind_ok in Hs as (r & d1 & [_ ->]%present_ok & Hs).
  apply tx_bind_ok in Hs as (? & d1 & Hf & [_ ->]%mret_ok). revert Hf. apply (for_each_ind (fun t => tied runId d t)); [|apply tied_refl].
  intros c t t' _ Ht Hx. apply tx_bind_ok in Hx as (? & d2 & Ha & [_ ->]%mret_ok). unfold appendTranscript in Ha. tx_inv Ha.
  eapply tied_trans; [exact Ht|by apply tied_tables].
Qed.

Lemma wp_core_store {A} (m : tx Db A) (Q : A -> Core -> Prop) R w :
  (forall a d g, m (co_db w) = Ok (a, d) -> go_db g = d -> Q a (with_goals g w)) -> (forall e, R (Exn e) w) -> wp (core_store m) Q R w.
Proof.
  intros HQ HR. unfold wp, core_store, commit_goals, in_store, GoalStore.in_gov. rewrite in_exec_run. unfold co_db, go_db, gd_db in HQ |- *.
  destruct (m _) as [[a e]|e]; [|apply HR]. by eapply HQ.
Qed.

Lemma wp_in_world {A} (m : io A) (Q : A -> Core -> Prop) (R : thrown -> Core -> Prop) w :
  wp m (fun a v => Q a (put_world v w)) (fun t v => R t (put_world v w)) (world_in w) -> wp (in_world m) Q R w.
Proof. unfold wp, in_world. by destruct (m (world_in w)) as [[a|t] v]. Qed.

Lemma wp_logged_tied runId rid type data v : wp (logged rid type data) (fun _ v' => tied runId (db v) (db v')) (fun _ _ => True) v.
Proof.
  unfold logged. apply wp_bind, wp_ask, wp_bind, wp_store; [|done]. intros e d He. apply wp_publish. cbn.
  apply appendEvent_apart with (g := approvals) in He as Ha; [|apply approvals_apart]. pose proof (appendEvent_runs _ _ _ _ _ _ _ He) as [_ Hr].
  split_and!; [exact Ha| |intros Hcon; eapply steps_consistent; [exact Hcon|by eapply appendEvent_steps]].
  intros r Hx. destruct (Hr _ _ Hx) as (r' & Hr' & _ & E1 & E2). by exists r'.
Qed.

Lemma repair_tied runId rid reason w : wp (in_world (repair rid reason)) (fun _ w' => tied runId (co_db w) (co_db w')) (fun _ _ => True) w.
Proof.
  apply wp_in_world. unfold repair. apply wp_bind, wp_ask, wp_bind, wp_store; [|done]. intros repaired d Hd. apply (repairTranscript_tied runId) in Hd.
  apply wp_bind. destruct (bool_decide _); [by apply wp_ret, wp_ret|]. eapply wp_mono; [| |apply wp_logged_tied]; [|done].
  intros ? v Hv. apply wp_ret. eapply tied_trans; [exact Hd|exact Hv].
Qed.

Lemma cancelQueued_tied runId rid reason now w : wp (core_store (cancelQueuedContinuations rid reason now))
  (fun _ w' => tied runId (co_db w) (co_db w')) (fun _ _ => True) w.
Proof. apply wp_core_store; [|done]. intros ? d g ->%modify_ok E. unfold co_db. cbn. rewrite E. by apply tied_tables. Qed.

Lemma resume_command_ok a approvalId c : String.eqb approvalId "" = false ->
  validateSystemCommand (resumeTransitionRequest a (after_approval approvalId)).1 = Ok c -> c = resume_approval (a_id a) (a_version a) approvalId.
Proof.
  intros Hne. unfold resumeTransitionRequest, option_input, option_approval, truthy_text. rewrite Hne. cbv zeta.
  match goal with |- ?l = _ -> _ => assert (l =
    let* i := nonEmptyValue (Some (JStr approvalId)) "SystemTransitionCommand.approvalId" in
    let* bound := (let* i := nonEmptyValue (Some (JStr (a_id a))) "SystemTransitionCommand.attemptId" in
      let* v := assertPositiveInteger (Some (JInt (a_version a))) "SystemTransitionCommand.expectedVersion" in
      mret (i, v)) in
    mret (resume_approval bound.1 bound.2 i)) as -> by reflexivity end.
  intros (i & [-> _]%nonEmptyValue_ok & Hs)%result_bind_ok. apply result_bind_ok in Hs as (bound & Hb & Hs).
  apply result_bind_ok in Hb as (i & [-> _]%nonEmptyValue_ok & Hb). apply result_bind_ok in Hb as (v & Hv & Hb).
  unfold assertPositiveInteger in Hv. apply result_bind_ok in Hv as (? & _ & Hv).
  injection Hv as <-. injection Hb as <-. by injection Hs as <-.
Qed.

Lemma resumeRun_row rid ts d r0 d' r : resumeRun rid ts d = Ok (r0, d') -> runs d !! rid = Some r ->
  exists r', runs d' !! rid = Some r' /\ r_attempt r' = (r_attempt r + 1)%Z /\ r_contract r' = r_contract r.
Proof.
  unfold resumeRun. intros Hs Hr. tx_inv Hs.
  match goal with E : projectAttempt _ _ _ _ _ _ _ _ _ = _ |- _ => apply (projectAttempt_keeps runs) in E as Hruns; [|done..] end.
  rewrite Hruns. cbn. rewrite lookup_alter_eq, Hr. eexists. split; [reflexivity|done].
Qed.

(** A resume that names an approval found it approved. *)
Lemma resume_transition_ok runId n a approvalId ts d os d' : String.eqb approvalId "" = false -> Consistent d -> a_id a = attempt_id runId n ->
  let request := resumeTransitionRequest a (after_approval approvalId) in
  transitionSystem request.1 request.2 ts d = Ok (os, d') ->
  approvals d' = approvals d /\ exists r r' p, runs d !! runId = Some r /\ runs d' !! runId = Some r'
    /\ r_attempt r' = (r_attempt r + 1)%Z /\ r_contract r' = r_contract r /\ approvals d !! approvalId = Some p /\ p_status p = Ap_approved.
Proof.
  intros Hne Hcon Hid request. unfold transitionSystem. intros (c & d0 & [Hc ->]%lift_ok & Hs)%tx_bind_ok.
  apply resume_command_ok in Hc as ->; [|done]. apply tx_bind_ok in Hs as (au & d0 & [_ ->]%lift_ok & Hs).
  apply tx_bind_ok in Hs as (? & d0 & [_ ->]%lift_ok & Hs). apply tx_bind_ok in Hs as (scope & d0 & Hv & Hs).
  apply validateSystemAttempt_ok in Hv as (-> & b & r & Hb & Hr & Ho & _ & ->). unfold transitionResume in Hs.
  pose proof (con_named Hcon _ _ Hb) as Hn. rewrite Hid in Hn. apply attempt_id_inj in Hn as [Hn _].
  apply tx_bind_ok in Hs as (? & d0 & [_ ->]%require_ok & Hs). apply tx_bind_ok in Hs as (? & d0 & [-> ->]%gets_id_ok & Hs).
  apply tx_bind_ok in Hs as (? & d0 & [Hg ->]%lift_ok & Hs). apply tx_bind_ok in Hs as (r' & d1 & Hres & Hs). cbn [sa_runId] in *.
  assert (d' = d1) as -> by (tx_inv Hs; done). rewrite <- Hn in Hr, Hres, Hg. clear Hn. unfold id in Hg.
  split; [by eapply resumeRun_apart in Hres; [exact Hres|apply approvals_apart]|].
  unfold resume_guard in Hg. cbn [sa_runId sa_attemptId sa_ordinal sa_runStatus] in Hg. apply result_bind_ok in Hg as (? & _ & Hg).
  apply result_bind_ok in Hg as (? & Hp%check_ok & _). destruct (approvals d !! approvalId) as [p|]; [|done].
  rewrite !andb_true_iff in Hp. destruct Hp as [[_ Hap%bool_decide_eq_true] _].
  destruct (resumeRun_row _ _ _ _ _ _ Hres Hr) as (r1 & Hr1 & E1 & E2). by exists r, r1, p.
Qed.

(** ** What the preparation of a context may assume *)

(** An external action is approved for the current Attempt of the TaskRun. *)
Definition approved_for (run : TaskRun) (d : Db) : bool :=
  exists_where (fun _ p => String.eqb (p_runId p) (r_id (tr_row run)) && bool_decide (p_actionType p = execute_external_action)
    && bool_decide (p_status p = Ap_approved) && bool_decide (p_approvedAttempt p = Some (r_attempt (tr_row run)))) (approvals d).

Definition cleared (run : TaskRun) (d : Db) : bool := negb (requiresExternalActionApproval run) || approved_for run d.

(** The same collaborators, except that no context is prepared for an external action that is not approved. *)
Definition watched : ResumePorts :=
  {| rs_prepared := rs_prepared; rs_awaitExecution := rs_awaitExecution;
     rs_prepare run options w := if cleared run (co_db w) then rs_prepare run options w else (Thrown (Exn (Error "not approved")), w);
     rs_launch := rs_launch |}.

Lemma wp_whatever {W A} (m : call W A) (Q : A -> W -> Prop) R w : (forall a v, Q a v) -> (forall t v, R t v) -> wp m Q R w.
Proof. intros HQ HR. unfold wp. destruct (m w) as [[a|t] v]; auto. Qed.

Lemma wp_found {A} (o : option A) message (Q : A -> Core -> Prop) R w : (forall a, o = Some a -> Q a w) -> (forall t, R t w) -> wp (found o message) Q R w.
Proof. destruct o; intros HQ HR; [by apply HQ|apply HR]. Qed.

Lemma wp_ensure b message (Q : unit -> Core -> Prop) R w : (b = true -> Q tt w) -> (forall t, R t w) -> wp (ensure b message) Q R w.
Proof. destruct b; intros HQ HR; [by apply HQ|apply HR]. Qed.

Lemma wp_get_run runId (Q : option TaskRun -> Core -> Prop) R w :
  (forall run, hydrateRun runId (co_clock w) (go_gov (co_goals w)) = Ok run -> Q run w) -> (forall t, R t w) -> wp (get_run runId) Q R w.
Proof. intros HQ HR. unfold wp. rewrite get_run_reads. destruct (hydrateRun _ _ _); [by apply HQ|apply HR]. Qed.

(** The resume of an external action that goes on names an approval of it. *)
Lemma boundary_continues runId options w :
  wp (prepareExternalActionResumeBoundary reviewer_model runId options) (fun b w' => match b with
    | Handled _ => True
    | Continue a => w' = w /\ exists run, hydrateRun runId (co_clock w) (go_gov (co_goals w)) = Ok (Some run)
        /\ getAttemptForRun runId (r_attempt (tr_row run)) (co_db w) = Some a
        /\ (requiresExternalActionApproval run = true -> exists i p, options = after_approval i /\ String.eqb i "" = false
             /\ approvals (co_db w) !! i = Some p /\ p_runId p = runId /\ for_next_attempt run p = true)
    end) (fun _ _ => True) w.
Proof.
  assert (forall r actor reason (Q : PreparedResumeBoundary -> Core -> Prop), (forall run v, Q (Handled run) v) ->
    wp (do* requestForResume reviewer_model r actor reason in let* run := run_again runId in mret (Handled run)) Q (fun _ _ => True) w) as Hask.
  { intros r actor reason Q HQ. apply wp_bind, wp_whatever; [|done]. intros _ v. apply wp_bind, wp_whatever; [|done]. intros run v'. apply HQ. }
  unfold prepareExternalActionResumeBoundary. apply wp_bind, wp_get_run; [|done]. intros o Hrun. apply wp_bind, wp_found; [|done]. intros run ->.
  apply wp_bind, wp_ask, wp_bind, wp_found; [|done]. intros a Ha. destruct (List.find _ _) as [[i pending]|].
  { destruct (_ && _); [|by apply wp_raise]. destruct (bool_decide _); [by apply wp_ret|]. by destruct (option_approval options); apply Hask. }
  apply wp_bind, wp_ask, wp_bind, wp_ensure; [|done]. intros He. destruct (requiresExternalActionApproval run) eqn:Eext; cbn [negb orb] in *.
  - destruct (option_approval options) as [i|] eqn:Ei.
    + cbn. split; [done|]. exists run. split; [done|]. split; [done|]. intros _. destruct (approvals (co_db w) !! i) as [p|] eqn:Ep; [|done].
      apply andb_true_iff in He as [E1%String.eqb_eq E2]. exists i, p. unfold option_approval, truthy_text in Ei.
      destruct options as [j| |]; [|done..]. destruct (String.eqb j "") eqn:Ej; [done|]. injection Ei as ->. done.
    + cbn. destruct (option_input options); [by apply wp_raise|]. by apply Hask.
  - cbn. split; [done|]. exists run. split_and!; try done. congruence.
Qed.

Definition resumes (c : SystemTransitionCommand) (attemptId : string) : Prop :=
  match c with resume_manual i _ _ | resume_approval i _ _ | resume_input i _ _ => i = attemptId | _ => False end.

Lemma resume_command_any a options c : validateSystemCommand (resumeTransitionRequest a options).1 = Ok c -> resumes c (a_id a).
Proof.
  assert (forall key v (mk : string -> Z -> string -> SystemTransitionCommand), (forall i n x, resumes (mk i n x) i) ->
    (let* x := nonEmptyValue (Some (JStr v)) ("SystemTransitionCommand." +:+ key) in
     let* bound := (let* i := nonEmptyValue (Some (JStr (a_id a))) "SystemTransitionCommand.attemptId" in
       let* n := assertPositiveInteger (Some (JInt (a_version a))) "SystemTransitionCommand.expectedVersion" in mret (i, n)) in
     mret (mk bound.1 bound.2 x)) = Ok c -> resumes c (a_id a)) as Hok.
  { intros key v mk Hmk (? & _ & Hs)%result_bind_ok. apply result_bind_ok in Hs as (bound & Hb & Hs).
    apply result_bind_ok in Hb as (i & [-> _]%nonEmptyValue_ok & Hb). apply result_bind_ok in Hb as (n & _ & Hb).
    injection Hb as <-. injection Hs as <-. apply Hmk. }
  unfold resumeTransitionRequest. destruct (option_input options) as [request|]; [|destruct (option_approval options) as [i|]]; intros Hc.
  - by eapply (Hok "inputRequestId" request.1 resume_input).
  - by eapply (Hok "approvalId" i resume_approval).
  - by eapply (Hok "reason" (option_reason options) resume_manual).
Qed.

Lemma resume_transition_keeps a options ts d os d' :
  let request := resumeTransitionRequest a options in transitionSystem request.1 request.2 ts d = Ok (os, d') ->
  approvals d' = approvals d /\ forall rid r, runs d !! rid = Some r -> exists r', runs d' !! rid = Some r' /\ r_contract r' = r_contract r.
Proof.
  intros request. unfold transitionSystem. intros (c & d0 & [Hc%resume_command_any ->]%lift_ok & Hs)%tx_bind_ok.
  apply tx_bind_ok in Hs as (au & d0 & [_ ->]%lift_ok & Hs). apply tx_bind_ok in Hs as (? & d0 & [_ ->]%lift_ok & Hs).
  assert (exists scope, transitionResume c au scope ts d = Ok (os, d')) as [scope Hres].
  { destruct c; try done; apply tx_bind_ok in Hs as (scope & d0 & Hv & Hs); apply validateSystemAttempt_ok in Hv as [-> _]; eauto. }
  clear Hs. unfold transitionResume in Hres. tx_inv Hres.
  match goal with E : resumeRun _ _ _ = _ |- _ => pose proof (resumeRun_apart approvals _ _ _ _ _ approvals_apart E) as Ha; rename E into Hr end.
  split; [exact Ha|]. unfold resumeRun in Hr. tx_inv Hr.
  match goal with E : projectAttempt _ _ _ _ _ _ _ _ _ = _ |- _ => apply (projectAttempt_keeps runs) in E as Hruns; [|done..] end.
  intros rid r. rewrite Hruns. cbn. destruct (decide (sa_runId scope = rid)) as [<-|]; [|rewrite lookup_alter_ne by done; eauto].
  rewrite lookup_alter_eq. intros ->. eexists. split; [reflexivity|done].
Qed.

Lemma resume_target_ok runId ts w target w' : resume_target runId ts w = (Returned target, w') ->
  w' = w /\ hydrateRun runId (co_clock w) (go_gov (co_goals w)) = Ok (Some target.2).
Proof.
  intros E. assert (wp (resume_target runId ts) (fun target w' => w' = w /\ hydrateRun runId (co_clock w) (go_gov (co_goals w)) = Ok (Some target.2))
    (fun _ _ => True) w) as Hw; [|unfold wp in Hw; by rewrite E in Hw].
  unfold resume_target. apply wp_bind.
  assert (forall Q, (forall t, Q t w) -> wp (match ts with [t] => if bool_decide (to_event t = None) then mret t
      else refuse ("TaskRun " +:+ runId +:+ " resume did not return exactly one eventless transition")
    | _ => refuse ("TaskRun " +:+ runId +:+ " resume did not return exactly one eventless transition") end) Q (fun _ _ => True) w) as Hone.
  { intros Q HQ. destruct ts as [|t []]; [done| |done]. destruct (bool_decide _); [apply wp_ret, HQ|done]. }
  apply Hone. intros t. apply wp_bind, wp_get_run; [|done]. intros o Ho. apply wp_bind, wp_found; [|done]. intros run ->.
  apply wp_bind, wp_ask, wp_bind, wp_ensure; [|done]. intros _. by apply wp_ret.
Qed.

(** Up to the transition: then the TaskRun it reads back may have its context prepared. *)
Lemma resumed_cleared runId options w a w1 : Consistent (co_db w) ->
  prepareExternalActionResumeBoundary reviewer_model runId options w = (Returned (Continue a), w1) ->
  forall w2 ts w3 target w4, tied runId (co_db w1) (co_db w2) ->
  transitionResumedAttempt a options w2 = (Returned ts, w3) -> resume_target runId ts w3 = (Returned target, w4) ->
  cleared target.2 (co_db w4) = true.
Proof.
  intros Hcon Hp w2 ts w3 target w4 (K1 & K2 & K3) Ht Htar. pose proof (boundary_continues runId options w) as Hb. unfold wp in Hb. rewrite Hp in Hb.
  destruct Hb as (-> & run & Hrun & Ha & Hext). apply hydrated_row in Hrun as (Hrow & Hct & Hlist).
  apply getAttemptForRun_spec in Ha as (i & Hi & A1 & A2). pose proof (con_attempt Hcon _ _ Hi) as [Hid _].
  pose proof (con_named Hcon _ _ Hi) as Hnamed. rewrite <- Hid in Hnamed.
  apply resume_target_ok in Htar as [-> Htarget]. apply hydrated_row in Htarget as (Hrow' & Hct' & Hlist').
  assert (exists d, transitionSystem (resumeTransitionRequest a options).1 (resumeTransitionRequest a options).2 (co_clock w2) (co_db w2) = Ok (ts, d)
    /\ co_db w3 = d) as (d & Htr & Hd).
  { assert (wp (transitionResumedAttempt a options) (fun os w' => exists d, transitionSystem (resumeTransitionRequest a options).1
      (resumeTransitionRequest a options).2 (co_clock w2) (co_db w2) = Ok (os, d) /\ co_db w' = d) (fun _ _ => True) w2) as Hw.
    { apply wp_bind, wp_ask, wp_core_store; [|done]. intros os d g E <-. by eexists. }
    unfold wp in Hw. by rewrite Ht in Hw. }
  pose proof (resume_transition_keeps _ _ _ _ _ _ Htr) as [T1 T2]. destruct (K2 _ Hrow) as (r2 & Hr2 & E1 & E2).
  destruct (T2 _ _ Hr2) as (r3 & Hr3 & E3). change (gd_db (go_gov (co_goals w3))) with (co_db w3) in Hrow', Hlist'. rewrite Hd, Hr3 in Hrow'.
  injection Hrow' as ->. rewrite Hd.
  assert (Consistent d) as Hcond by exact (steps_consistent _ _ (K3 Hcon) (transitionSystem_steps _ _ _ _ _ _ (K3 Hcon) Htr)).
  assert (requiresExternalActionApproval target.2 = requiresExternalActionApproval run) as Hsame.
  { unfold requiresExternalActionApproval, execution_mode. rewrite Hct, Hct', E3, E2, Hlist, Hlist'. unfold listApprovalRequests.
    rewrite Hd, T1, K1. done. }
  unfold cleared. rewrite Hsame. destruct (requiresExternalActionApproval run) eqn:Eext; [|done]. cbn [negb orb].
  destruct (Hext eq_refl) as (j & p & -> & Hj & Hp1 & Hp2 & Hfor). rewrite A1 in Hnamed.
  destruct (resume_transition_ok _ _ _ _ _ _ _ _ Hj (K3 Hcon) Hnamed Htr) as (_ & r & r' & q & Hr & Hr' & N1 & _ & Hq & Hst).
  rewrite Hr2 in Hr. injection Hr as <-. rewrite Hr3 in Hr'. injection Hr' as <-. rewrite K1, Hp1 in Hq. injection Hq as <-.
  unfold for_next_attempt in Hfor. apply andb_true_iff in Hfor as [F1%bool_decide_eq_true F2%bool_decide_eq_true].
  unfold approved_for. match goal with |- ?b = true => destruct b eqn:Ex; [done|] end.
  apply (exists_where_false _ _ j p) in Ex; [|by rewrite T1, K1]. cbv beta in Ex.
  rewrite (con_run Hcond _ _ Hr3), Hp2, F1, F2, Hst, N1, E1, String.eqb_refl in Ex.
  by rewrite !bool_decide_true in Ex by done.
Qed.

Lemma bind_same {W A B} (m : call W A) (f g : A -> call W B) w :
  (forall a w', m w = (Returned a, w') -> f a w' = g a w') -> mbind f m w = mbind g m w.
Proof. unfold mbind, call_mbind. destruct (m w) as [[a|t] w'] eqn:E; auto. Qed.

Lemma wp_returned {W A} (m : call W A) (Q : A -> W -> Prop) R w a w' : wp m Q R w -> m w = (Returned a, w') -> Q a w'.
Proof. unfold wp. intros Hw E. by rewrite E in Hw. Qed.

Lemma ensure_returned b message (w : Core) u w' : ensure b message w = (Returned u, w') -> w' = w.
Proof. by destruct b; intros [=]. Qed.

Lemma resume_from_watched runId options w a w1 : Consistent (co_db w) ->
  prepareExternalActionResumeBoundary reviewer_model runId options w = (Returned (Continue a), w1) ->
  resume_from runId a options w1 = @resume_from _ _ watched runId a options w1.
Proof.
  intros Hcon Hp. unfold resume_from. rewrite !call_ask. apply bind_same. intros ? w2 Hq. apply bind_same. intros ? w3 Hr.
  apply bind_same. intros ts w4 Ht. apply bind_same. intros target w5 Htar. assert (cleared target.2 (co_db w5) = true) as Hc.
  { eapply resumed_cleared; [exact Hcon|exact Hp| |exact Ht|exact Htar].
    eapply tied_trans; [exact (wp_returned _ _ _ _ _ _ (cancelQueued_tied runId _ _ _ _) Hq)|exact (wp_returned _ _ _ _ _ _ (repair_tied runId _ _ _) Hr)]. }
  change (rs_prepared (ResumePorts := watched)) with rs_prepared. unfold mbind, call_mbind, try_catch.
  change (rs_prepare (ResumePorts := watched) target.2 options w5) with
    (if cleared target.2 (co_db w5) then rs_prepare target.2 options w5 else (Thrown (Exn (Error "not approved")), w5)). by rewrite Hc.
Qed.

(** C16. No context is prepared and no agent is launched for an external action
    that is not approved: whatever a resume asks for, and whatever its
    collaborators do, it runs as it would with collaborators that refuse a
    TaskRun whose external action has no approval, given and unused, for the
    Attempt the resume just started. *)
Theorem resume_prepares_only_approved runId options w :
  (forall i v u v', rs_awaitExecution i v = (Returned u, v') -> Consistent (co_db v) -> Consistent (co_db v')) -> Consistent (co_db w) ->
  resume reviewer_model runId options w = @resume _ _ reviewer_model watched runId options w.
Proof.
  intros Hawait Hcon. unfold resume. rewrite !call_ask. apply bind_same. intros ? w1 E.
  apply ensure_returned in E as ->. rewrite !call_ask. apply bind_same. intros ? w2 Hst.
  assert (Consistent (co_db w2)) as Hcon2.
  { destruct (bool_decide _); [|by injection Hst as _ <-]. unfold mbind at 1, call_mbind at 1 in Hst. rewrite get_run_reads in Hst.
    destruct (hydrateRun _ _ _) as [o|e]; [|done]. unfold mbind, call_mbind in Hst.
    destruct (ensure _ _ w) as [[[]|t] v] eqn:Ee; [|done]. apply ensure_returned in Ee as ->. by eapply Hawait. }
  rewrite !call_ask. apply bind_same. intros ? w3 E3. apply ensure_returned in E3 as ->.
  apply bind_same. intros [source|current] w4 Hp; [|done]. by eapply resume_from_watched.
Qed.
End facts.

(** * Witnesses *)

#[export] Instance demo_resume_ports : ResumePorts :=
  {| rs_prepared := unit; rs_awaitExecution _ := mret tt; rs_prepare _ _ := mret (0%Z, tt); rs_launch _ _ := mret tt |}.
#[export] Instance demo_abort : RuntimeControlPort := {| rc_abort _ := mret tt |}.

Definition demo_boundary : Boundary :=
  {| bd_runId := "run"; bd_attempt := demo_attempt; bd_reason := "deploys"; bd_decisionSummary := "deploys";
     bd_metadata := [("sessionId", JStr "session"); ("approvedAttempt", JInt 2)]; bd_requestedEventData := []; bd_transitionError := "no event";
     bd_onApprovalEnsured := None |}.

Definition demo_id2 : string := attempt_id "run" 2.

Definition core_of (d : Db) (now : Z) : Core :=
  {| co_goals := set_gov (gov (world_of d now)) demo_goals; co_receipts := ∅; co_process := process (world_of d now); co_published := [];
     co_clock := now |}.

Definition demo_boundary_run := boundary_steps "model" demo_boundary 5 demo_db.
Definition demo_stopped : Db := state_of demo_db demo_boundary_run.
Definition demo_given : Db := state_of demo_stopped (resolveApprovalRequest "uuid-1" true "user" "go" 6 demo_stopped).

Lemma demo_stopped_consistent : Consistent demo_stopped.
Proof.
  destruct demo_boundary_run as [[[approval events] d]|] eqn:E; [|by vm_compute in E]. unfold demo_stopped. rewrite E. cbn [state_of].
  apply boundary_stops in E as (Hs & _); [|apply demo_consistent]. by apply (steps_consistent _ _ demo_consistent).
Qed.

Lemma demo_given_consistent : Consistent demo_given.
Proof. eapply aside_consistent; [apply demo_stopped_consistent|]. by vm_compute. Qed.

Lemma approved_boundary_authorizes_witness :
  exists approval d1, demo_boundary_run = Ok (approval, d1) /\ exists a, attempts d1 !! demo_id = Some a
    /\ exists p d2 t d3, resolveApprovalRequest approval.1.1 true "user" "go" 6 d1 = Ok (Some p, d2)
    /\ transitionSystem (resumeTransitionRequest a (after_approval approval.1.1)).1 (resumeTransitionRequest a (after_approval approval.1.1)).2 7 d2
       = Ok ([t], d3)
    /\ forall n time, ea_allowed (inspectExternalActionAuthorization "run" n time d3) = Z.eqb n 2.
Proof.
  destruct demo_boundary_run as [[[approval events] d1]|] eqn:E; [|vm_compute in E; discriminate]. exists (approval, events), d1. split; [reflexivity|].
  assert (demo_stopped = d1) as Hd by (unfold demo_stopped; rewrite E; reflexivity).
  destruct (approved_boundary_authorizes "model" demo_boundary 5 demo_db approval events d1 demo_consistent) as (a & Ha & Hall).
  - intros i p Hp. vm_compute in Hp. discriminate.
  - exact E.
  - reflexivity.
  - rewrite <- Hd. intros a Ha. vm_compute in Ha. injection Ha as <-. reflexivity.
  - exists a. split; [exact Ha|]. destruct (Hall "go" 6%Z 7%Z) as (p & d2 & t & d3 & H1 & H2 & _ & _ & H3). exists p, d2, t, d3.
    split; [exact H1|]. split; [exact H2|]. intros n time. rewrite H3. rewrite <- Hd in Ha. vm_compute in Ha. injection Ha as <-. reflexivity.
Defined.

(** ** The question after the approval *)

Definition demo_strand : list PortOp :=
  [System (JObj [("kind", JStr "resume_approval"); ("attemptId", JStr demo_id); ("expectedVersion", JInt 2); ("approvalId", JStr "uuid-1")])
          (JObj [("kind", JStr "approval_resume"); ("approvalId", JStr "uuid-1")]) 10;
   Repo (Acquire demo_id2 1 "worker" 1000 11);
   Fenced {| fe_attemptId := demo_id2; fe_expectedVersion := 1; fe_leaseToken := "uuid-4"; fe_executionFence := 1 |} 20 20
     (FRecordToolAttempt "call" "request_user_input" (JObj []));
   Fenced {| fe_attemptId := demo_id2; fe_expectedVersion := 1; fe_leaseToken := "uuid-4"; fe_executionFence := 1 |} 21 21
     (FRequestUserInput "Which one?" [demo_field] "call");
   SubmitInput "uuid-5" [("choice", "the second")]%string 30].

Definition demo_stranded : Db := calls demo_strand demo_given.

Definition demo_waiting : Core := core_of demo_stranded 40.

Lemma demo_stranded_consistent : Consistent demo_stranded.
Proof. apply calls_consistent, demo_given_consistent. Qed.

Lemma answered_input_strands_witness :
  (forall options, exists message, resume "model" "run" options demo_waiting = (Thrown (Exn (Error message)), demo_waiting))
  /\ in_world (cancel "run") demo_waiting = (Returned false, demo_waiting).
Proof.
  assert (exists run, hydrateRun "run" 40 (go_gov (co_goals demo_waiting)) = Ok (Some run) /\ r_status (tr_row run) = R_waiting_input
    /\ requiresExternalActionApproval run = true /\ r_attempt (tr_row run) = 2%Z) as (run & Hrun & Hst & Hext & Hn).
  { eexists. split; [vm_compute; reflexivity|]. split_and!; vm_compute; reflexivity. }
  assert (exists a, getAttemptForRun "run" 2 (co_db demo_waiting) = Some a) as [a Ha] by (eexists; vm_compute; reflexivity).
  apply (answered_input_strands "model" "run" run a demo_waiting Hrun Hst Hext).
  - rewrite Hn. exact Ha.
  - reflexivity.
  - by apply not_elem_of_empty.
  - intros i p Hp%elem_of_map_to_list _. unfold for_next_attempt. rewrite Hn. vm_compute in Hp. apply list_elem_of_singleton in Hp as [= _ ->].
    split; [discriminate|reflexivity].
  - exact demo_stranded_consistent.
Defined.

(** ** The resume after the approval *)

Definition demo_resume := resume "model" "run" (after_approval "uuid-1") (core_of demo_given 10).
Definition demo_watched := @resume _ _ "model" watched "run" (after_approval "uuid-1") (core_of demo_given 10).

Lemma demo_resume_returns : exists run w', demo_resume = (Returned run, w').
Proof.
  assert (match demo_resume.1 with Returned _ => true | Thrown _ => false end = true) as E by (vm_compute; reflexivity).
  destruct demo_resume as [[run|t] w']; [by exists run, w'|discriminate].
Qed.

Lemma resume_prepares_only_approved_witness : exists run w', demo_resume = (Returned run, w') /\ demo_watched = (Returned run, w').
Proof.
  destruct demo_resume_returns as (run & w' & E). exists run, w'. split; [exact E|]. rewrite <- E. symmetry.
  unfold demo_resume, demo_watched. refine (resume_prepares_only_approved "model" "run" (after_approval "uuid-1") (core_of demo_given 10) _ _).
  - intros i v u v' [= _ <-] Hv. exact Hv.
  - exact demo_given_consistent.
Defined.
