(* ===== verification/WriterLease.v ===== *)
(** The lease of the core writer: at most one process may write the
    control-plane database, the one that holds the single row of
    [core_writer_lease] under its owner id and fence number.
    [writer-authority.ts], [core-writer-lease.ts] and [writer-lease-retry.ts]
    of the SQLite adapter.

    The clock of the lease is the database's own: every statement evaluates the
    expression [nowSql] once, so an operation takes one reading per statement.
    A connection is the main database it is open on, whether it is inside a
    transaction, and the temporary triggers it created; the main database is
    shared by all connections, the rest belongs to one. *)
From S2P Require Import Prelude.
Local Open Scope tx_scope.
Local Open Scope Z_scope.

(** * Data *)

Definition CORE_WRITER_LOCK_NAME : string := "core-writer".
Definition DEFAULT_WRITER_HEARTBEAT_MS : Z := 5000.
Definition DEFAULT_WRITER_LEASE_MS : Z := 20000.
Definition DEFAULT_WRITER_SKEW_MARGIN_MS : Z := 2000.

Record WriterOwnerIdentity := { ownerId : string; pid : Z; host : string }.

Record WriterAuthority := {
  w_lockName : string; w_owner : WriterOwnerIdentity; w_fence : Z; w_acquiredAt : Z; w_heartbeatAt : Z;
  w_expiresAt : Z; w_releasedAt : option Z }.

Definition WriterAuthorityLostError (message : string) : exn := NamedError "WriterAuthorityLostError" message.
Definition WriterAuthorityUnavailableError (message : string) : exn :=
  NamedError "WriterAuthorityUnavailableError" message.

Definition SQLITE_DB_TIME_MS : string := "CAST((julianday('now') - 2440587.5) * 86400000 AS INTEGER)".

Record CoreWriterLeaseOptions := {
  opt_lockName : option string; opt_leaseMs : option Z; opt_heartbeatIntervalMs : option Z;
  opt_skewMarginMs : option Z; opt_nowSql : option string }.

Record ResolvedCoreWriterLeaseOptions := {
  lockName : string; leaseMs : Z; heartbeatIntervalMs : Z; skewMarginMs : Z; nowSql : string }.

(** A row without its primary key [lock_name]. *)
Record WriterLeaseRow := {
  wr_owner : WriterOwnerIdentity; wr_fence : Z; wr_acquiredAt : Z; wr_heartbeatAt : Z; wr_expiresAt : Z;
  wr_releasedAt : option Z }.

Record SchemaEntry := { s_type : string; s_name : string; s_sql : option string }.

Inductive GuardedOperation := INSERT | UPDATE | DELETE.

Record Trigger := {
  g_name : string; g_operation : GuardedOperation; g_table : string; g_lockName : string; g_ownerId : string;
  g_fence : Z; g_skewMarginMs : Z; g_schemaVersion : Z }.

Section writer.
Context {D : Type}.

Record MainDb := {
  m_lease : gmap string WriterLeaseRow; m_schemaVersion : Z; m_schema : list SchemaEntry; m_data : D }.

Record Connection := { c_main : MainDb; c_inTransaction : bool; c_triggers : list Trigger }.

Definition set_lease (f : gmap string WriterLeaseRow -> gmap string WriterLeaseRow) (c : Connection) : Connection :=
  {| c_main := {| m_lease := f (m_lease (c_main c)); m_schemaVersion := m_schemaVersion (c_main c);
                  m_schema := m_schema (c_main c); m_data := m_data (c_main c) |};
     c_inTransaction := c_inTransaction c; c_triggers := c_triggers c |}.

(** The CHECKs of [core_writer_lease]. *)
Definition writer_row_check (key : string) (r : WriterLeaseRow) : bool :=
  String.eqb key CORE_WRITER_LOCK_NAME && (0 <? wr_fence r) && (0 <? pid (wr_owner r))
  && (wr_heartbeatAt r <=? wr_expiresAt r)
  && match wr_releasedAt r with None => true | Some t => wr_acquiredAt r <=? t end.

Definition write_row (key : string) (r : WriterLeaseRow) : tx Connection unit :=
  do* require (writer_row_check key r) (SqliteError "core_writer_lease") in
  modify (set_lease (insert key r)).

(** [UPDATE core_writer_lease SET ... WHERE lock_name=? AND ...] *)
Definition update_row (key : string) (p : WriterLeaseRow -> bool) (f : WriterLeaseRow -> WriterLeaseRow)
    : tx Connection Z :=
  let* c := gets id in
  match m_lease (c_main c) !! key with
  | Some r => if p r then do* write_row key (f r) in mret 1 else mret 0
  | None => mret 0
  end.

Definition authority_of (key : string) (r : WriterLeaseRow) : WriterAuthority :=
  {| w_lockName := key; w_owner := wr_owner r; w_fence := wr_fence r; w_acquiredAt := wr_acquiredAt r;
     w_heartbeatAt := wr_heartbeatAt r; w_expiresAt := wr_expiresAt r; w_releasedAt := wr_releasedAt r |}.

Definition readLease (key : string) (c : Connection) : option WriterAuthority :=
  authority_of key <$> m_lease (c_main c) !! key.

(** * core-writer-lease.ts *)

Definition lease_number_error (name : string) : exn :=
  TypeError (name +:+ " must be a " +:+ (if String.eqb name "skewMarginMs" then "non-negative" else "positive")
             +:+ " safe integer").

Definition lease_number_ok (nv : string * Z) : bool :=
  negb (negb (safe_integer nv.2) || (nv.2 <? 0) || (negb (String.eqb nv.1 "skewMarginMs") && (nv.2 =? 0))).

Definition resolveOptions (o : CoreWriterLeaseOptions) : result ResolvedCoreWriterLeaseOptions :=
  let resolved :=
    {| lockName := default CORE_WRITER_LOCK_NAME (opt_lockName o);
       leaseMs := default DEFAULT_WRITER_LEASE_MS (opt_leaseMs o);
       heartbeatIntervalMs := default DEFAULT_WRITER_HEARTBEAT_MS (opt_heartbeatIntervalMs o);
       skewMarginMs := default DEFAULT_WRITER_SKEW_MARGIN_MS (opt_skewMarginMs o);
       nowSql := default SQLITE_DB_TIME_MS (opt_nowSql o) |} in
  let numbers := [("leaseMs", leaseMs resolved); ("heartbeatIntervalMs", heartbeatIntervalMs resolved);
                  ("skewMarginMs", skewMarginMs resolved)]%string in
  if String.eqb (lockName resolved) "" then Throw (TypeError "Writer lease lockName is required")
  else match find (fun nv => negb (lease_number_ok nv)) numbers with
  | Some nv => Throw (lease_number_error nv.1)
  | None =>
      if leaseMs resolved <=? heartbeatIntervalMs resolved
      then Throw (TypeError "Writer heartbeatIntervalMs must be shorter than leaseMs")
      else if blank (nowSql resolved) then Throw (TypeError "Writer lease nowSql is required")
      else Ok resolved
  end.

Definition assertTopLevelTransaction (operation : string) : tx Connection unit :=
  let* c := gets id in
  require (negb (c_inTransaction c))
    (Error ("Core writer lease " +:+ operation +:+ " cannot run inside an unmanaged SQLite transaction")).

(** The object: the authority it last read and its options. *)
Record CoreWriterLease := { current : WriterAuthority; options : ResolvedCoreWriterLeaseOptions }.

(** The lease can be taken over: released, or expired by more than the margin. *)
Definition lapsed (skew now : Z) (r : WriterLeaseRow) : bool :=
  match wr_releasedAt r with Some _ => true | None => wr_expiresAt r + skew <? now end.

(** The transaction of [claim], at the readings of its SELECT and its UPDATE. *)
Definition claim_row (owner : WriterOwnerIdentity) (o : ResolvedCoreWriterLeaseOptions) (dbNow updateNow : Z)
    : tx Connection (option WriterAuthority) :=
  let* c := gets id in
  match m_lease (c_main c) !! lockName o with
  | None =>
      do* write_row (lockName o)
        {| wr_owner := owner; wr_fence := 1; wr_acquiredAt := dbNow; wr_heartbeatAt := dbNow;
           wr_expiresAt := dbNow + leaseMs o; wr_releasedAt := None |} in
      gets (readLease (lockName o))
  | Some observed =>
      if bool_decide (wr_releasedAt observed = None) && (dbNow <=? wr_expiresAt observed + skewMarginMs o)
      then mret None
      else
        let* changes := update_row (lockName o)
          (fun r => (wr_fence r =? wr_fence observed) && lapsed (skewMarginMs o) updateNow r)
          (fun r => {| wr_owner := owner; wr_fence := wr_fence r + 1; wr_acquiredAt := updateNow;
                       wr_heartbeatAt := updateNow; wr_expiresAt := updateNow + leaseMs o;
                       wr_releasedAt := None |}) in
        if changes =? 1 then gets (readLease (lockName o)) else mret None
  end.

Definition claim (owner : WriterOwnerIdentity) (o : CoreWriterLeaseOptions) (dbNow updateNow : Z)
    : tx Connection (option CoreWriterLease) :=
  do* require (negb (String.eqb (ownerId owner) "")) (TypeError "Writer ownerId is required") in
  do* require (safe_integer (pid owner) && negb (pid owner <=? 0))
    (TypeError "Writer pid must be a positive safe integer") in
  do* require (negb (String.eqb (host owner) "")) (TypeError "Writer host is required") in
  do* assertTopLevelTransaction "claim" in
  let* resolved := lift (resolveOptions o) in
  let* authority := claim_row owner resolved dbNow updateNow in
  mret ((fun a => {| current := a; options := resolved |}) <$> authority).

Definition snapshot (l : CoreWriterLease) : Connection -> option WriterAuthority := readLease (lockName (options l)).

(** The row is the one of this owner and fence and was not released. *)
Definition held_by (owner : string) (fence : Z) (r : WriterLeaseRow) : bool :=
  String.eqb (ownerId (wr_owner r)) owner && (wr_fence r =? fence) && bool_decide (wr_releasedAt r = None).

Definition row_matches (key owner : string) (fence : Z) (requireUnexpired : bool) (skew now : Z) (c : Connection) : bool :=
  match m_lease (c_main c) !! key with
  | Some r => held_by owner fence r && (negb requireUnexpired || (now <=? wr_expiresAt r + skew))
  | None => false
  end.

Definition isCurrent (l : CoreWriterLease) (requireUnexpired : option bool) (now : Z) (c : Connection) : bool :=
  row_matches (lockName (options l)) (ownerId (w_owner (current l))) (w_fence (current l))
    (default true requireUnexpired) (skewMarginMs (options l)) now c.

Definition lost_error (l : CoreWriterLease) : exn :=
  WriterAuthorityLostError ("Core writer lease heartbeat rejected for " +:+ ownerId (w_owner (current l))
    +:+ " at fence " +:+ pretty (w_fence (current l))).

(** The object after the heartbeat; the source returns a copy of its authority. *)
Definition heartbeat (l : CoreWriterLease) (now : Z) : tx Connection CoreWriterLease :=
  do* assertTopLevelTransaction "heartbeat" in
  let o := options l in
  let* changes := update_row (lockName o)
    (fun r => held_by (ownerId (w_owner (current l))) (w_fence (current l)) r
              && (now <=? wr_expiresAt r + skewMarginMs o))
    (fun r => {| wr_owner := wr_owner r; wr_fence := wr_fence r; wr_acquiredAt := wr_acquiredAt r;
                 wr_heartbeatAt := now; wr_expiresAt := now + leaseMs o; wr_releasedAt := wr_releasedAt r |}) in
  let* authority := if changes =? 1 then gets (readLease (lockName o)) else mret None in
  let* a := present authority (lost_error l) in
  mret {| current := a; options := o |}.

(** What [release] returns, and the object after it. *)
Definition release (l : CoreWriterLease) (now : Z) : tx Connection (bool * CoreWriterLease) :=
  do* assertTopLevelTransaction "release" in
  let o := options l in
  let* changes := update_row (lockName o)
    (held_by (ownerId (w_owner (current l))) (w_fence (current l)))
    (fun r => {| wr_owner := wr_owner r; wr_fence := wr_fence r; wr_acquiredAt := wr_acquiredAt r;
                 wr_heartbeatAt := now; wr_expiresAt := now; wr_releasedAt := Some now |}) in
  if changes =? 1 then
    let* a := gets (readLease (lockName o)) in
    match a with
    | Some a => mret (true, {| current := a; options := o |})
    | None => mret (false, l)
    end
  else mret (false, l).

(** * writer-lease-retry.ts *)

Record CoreWriterLeaseClaimRetryOptions := {
  ro_lease : CoreWriterLeaseOptions; ro_maxWaitMs : option Z; ro_retryIntervalMs : option Z }.

Definition maxWaitMs (o : CoreWriterLeaseClaimRetryOptions) : Z :=
  default (default DEFAULT_WRITER_LEASE_MS (opt_leaseMs (ro_lease o))
           + default DEFAULT_WRITER_SKEW_MARGIN_MS (opt_skewMarginMs (ro_lease o)) + 1000) (ro_maxWaitMs o).

Definition retryIntervalMs (o : CoreWriterLeaseClaimRetryOptions) : Z := default 250 (ro_retryIntervalMs o).

(** What one turn of the loop observes: the database when it claims and the
    two readings of its clock, the caller's clock after the claim, and the
    database and its clock at the SELECT that follows. Between two turns other
    processes may have changed the database. *)
Record Turn := {
  tn_claim : Connection; tn_dbNow : Z; tn_updateNow : Z; tn_clock : Z; tn_observed : Connection; tn_observedNow : Z }.

(** How long the turn sleeps, or nothing when the wait is used up. *)
Definition turn_delay (o : CoreWriterLeaseClaimRetryOptions) (startedAt : Z) (t : Turn) : option Z :=
  let elapsed := Z.max 0 (tn_clock t - startedAt) in
  let remainingBudget := maxWaitMs o - elapsed in
  if remainingBudget <=? 0 then None
  else
    let key := default CORE_WRITER_LOCK_NAME (opt_lockName (ro_lease o)) in
    let remainingLease :=
      match m_lease (c_main (tn_observed t)) !! key with
      | Some r =>
          if bool_decide (wr_releasedAt r = None)
          then Z.max 1 (wr_expiresAt r + default DEFAULT_WRITER_SKEW_MARGIN_MS (opt_skewMarginMs (ro_lease o))
                        - tn_observedNow t + 1)
          else 1
      | None => 1
      end in
    Some (Z.min (Z.min (retryIntervalMs o) remainingLease) remainingBudget).

Inductive retry_outcome :=
  | Claimed (turn : nat) (l : CoreWriterLease) (c : Connection)
  | Failed (e : exn)
  | OutOfFuel.

Definition unavailable (o : CoreWriterLeaseClaimRetryOptions) : exn :=
  WriterAuthorityUnavailableError ("Core writer lease remained unavailable after " +:+ pretty (maxWaitMs o)
    +:+ "ms bounded recovery wait").

Fixpoint claim_loop (fuel : nat) (owner : WriterOwnerIdentity) (o : CoreWriterLeaseClaimRetryOptions) (startedAt : Z)
    (turns : nat -> Turn) (i : nat) : retry_outcome :=
  match fuel with
  | O => OutOfFuel
  | S fuel' =>
      let t := turns i in
      match claim owner (ro_lease o) (tn_dbNow t) (tn_updateNow t) (tn_claim t) with
      | Throw e => Failed e
      | Ok (Some l, c) => Claimed i l c
      | Ok (None, _) =>
          match turn_delay o startedAt t with
          | None => Failed (unavailable o)
          | Some _ => claim_loop fuel' owner o startedAt turns (S i)
          end
      end
  end.

Definition claimCoreWriterLeaseWithRetry (fuel : nat) (owner : WriterOwnerIdentity)
    (o : CoreWriterLeaseClaimRetryOptions) (startedAt : Z) (turns : nat -> Turn) : retry_outcome :=
  if negb (safe_integer (maxWaitMs o)) || (maxWaitMs o <? 0)
  then Failed (TypeError "Writer lease maxWaitMs must be a non-negative safe integer")
  else if negb (safe_integer (retryIntervalMs o)) || (retryIntervalMs o <=? 0)
  then Failed (TypeError "Writer lease retryIntervalMs must be a positive safe integer")
  else claim_loop fuel owner o startedAt turns 0.

(** * The lease over time

    What may happen to the main database: a call of any lease object or
    claimant on any of its connections, or any change elsewhere in it. *)
Inductive lease_step : MainDb -> MainDb -> Prop :=
  | step_claim c owner o t u v c' :
      claim owner o t u c = Ok (v, c') -> lease_step (c_main c) (c_main c')
  | step_heartbeat c l t v c' : heartbeat l t c = Ok (v, c') -> lease_step (c_main c) (c_main c')
  | step_release c l t v c' : release l t c = Ok (v, c') -> lease_step (c_main c) (c_main c')
  | step_elsewhere m m' : m_lease m = m_lease m' -> lease_step m m'.

(** A holder with this fence was overtaken by another claim. *)
Definition superseded (key : string) (fence : Z) (m : MainDb) : Prop :=
  exists r, m_lease m !! key = Some r /\ fence < wr_fence r.

(** ** What the statements do *)

Lemma write_row_ok key r c u c' :
  write_row key r c = Ok (u, c') -> writer_row_check key r = true /\ c' = set_lease (insert key r) c.
Proof. unfold write_row. intros H. tx_inv H. auto. Qed.

Lemma update_row_ok key p f c n c' :
  update_row key p f c = Ok (n, c') ->
  (exists r, n = 1 /\ m_lease (c_main c) !! key = Some r /\ p r = true /\ c' = set_lease (insert key (f r)) c)
  \/ n = 0 /\ c' = c.
Proof.
  unfold update_row. intros H. tx_inv H; try (right; split; [assumption || reflexivity | reflexivity]).
  match goal with Hw : write_row _ _ _ = _ |- _ => apply write_row_ok in Hw as [? ->] end.
  left. eauto.
Qed.

Lemma update_row_none key p f c :
  (forall r, m_lease (c_main c) !! key = Some r -> p r = false) -> update_row key p f c = Ok (0, c).
Proof.
  intros Hp. unfold update_row, mbind, tx_mbind, gets, mret, tx_mret. cbn [id].
  destruct (m_lease (c_main c) !! key) as [r|]; [|done]. by rewrite (Hp r).
Qed.

Lemma update_row_run key p f c r :
  m_lease (c_main c) !! key = Some r -> p r = true -> writer_row_check key (f r) = true ->
  update_row key p f c = Ok (1, set_lease (insert key (f r)) c).
Proof.
  intros Hr Hp Hc. unfold update_row, write_row, mbind, tx_mbind, gets, require, modify, mret, tx_mret. cbn [id].
  by rewrite Hr, Hp, Hc.
Qed.

Lemma assertTop_run op c : c_inTransaction c = false -> assertTopLevelTransaction op c = Ok (tt, c).
Proof. intros Hc. unfold assertTopLevelTransaction, mbind, tx_mbind, gets, require. cbn [id]. by rewrite Hc. Qed.

Lemma lookup_set_lease key r c : m_lease (c_main (set_lease (insert key r) c)) !! key = Some r.
Proof. cbn. by rewrite lookup_insert_eq. Qed.

Lemma readLease_set_lease key r c : readLease key (set_lease (insert key r) c) = Some (authority_of key r).
Proof. unfold readLease. by rewrite lookup_set_lease. Qed.

(** The three effects a lease call can have: none, a row with a larger fence
    under some key, or a row with the same owner and fence. *)
Inductive lease_effect (key : string) (c c' : Connection) : Prop :=
  | effect_none : c' = c -> lease_effect key c c'
  | effect_taken r : c' = set_lease (insert key r) c -> wr_releasedAt r = None ->
      match m_lease (c_main c) !! key with Some q => wr_fence r = wr_fence q + 1 | None => wr_fence r = 1 end ->
      lease_effect key c c'
  | effect_kept q r : m_lease (c_main c) !! key = Some q -> c' = set_lease (insert key r) c ->
      wr_fence r = wr_fence q -> wr_owner r = wr_owner q -> lease_effect key c c'.

Lemma claim_row_effect owner o t u c v c' :
  claim_row owner o t u c = Ok (v, c') ->
  match v with
  | None => c' = c
  | Some a => exists r, a = authority_of (lockName o) r /\ wr_owner r = owner /\ wr_releasedAt r = None
      /\ c' = set_lease (insert (lockName o) r) c
      /\ match m_lease (c_main c) !! lockName o with
         | Some q => wr_fence r = wr_fence q + 1 | None => wr_fence r = 1 end
  end.
Proof.
  unfold claim_row. intros H. apply tx_bind_ok in H as (d & t' & Hg & H). apply gets_id_ok in Hg as [-> ->].
  destruct (m_lease (c_main c) !! lockName o) as [q|] eqn:Hq.
  - destruct (bool_decide _ && _); [by apply mret_ok in H as [-> ->]|].
    apply tx_bind_ok in H as (n & t' & Hu & H).
    apply update_row_ok in Hu as [(r & -> & Hr & Hp & ->)|[-> ->]]; [|by apply mret_ok in H as [-> ->]].
    cbn in H. apply gets_ok in H as [-> ->]. rewrite readLease_set_lease.
    simplify_eq. eexists. split; [reflexivity|]. auto.
  - apply tx_bind_ok in H as (n & t' & Hw & H). apply write_row_ok in Hw as [_ ->].
    apply gets_ok in H as [-> ->]. rewrite readLease_set_lease. eexists. split; [reflexivity|]. auto.
Qed.

Lemma claim_ok owner o t u c v c' :
  claim owner o t u c = Ok (v, c') ->
  exists ro a, resolveOptions o = Ok ro /\ claim_row owner ro t u c = Ok (a, c')
    /\ v = (fun a => {| current := a; options := ro |}) <$> a /\ c_inTransaction c = false.
Proof.
  unfold claim, assertTopLevelTransaction. intros H. tx_inv H. bool_prop. eauto 10.
Qed.

Lemma claim_effect owner o t u c v c' :
  claim owner o t u c = Ok (v, c') -> exists key, lease_effect key c c'.
Proof.
  intros (ro & a & _ & H & _)%claim_ok. exists (lockName ro). apply claim_row_effect in H. destruct a.
  - destruct H as (r & _ & _ & Hr & -> & Hf). by eapply effect_taken.
  - subst. by apply effect_none.
Qed.

Lemma heartbeat_ok l t c v c' :
  heartbeat l t c = Ok (v, c') ->
  exists r r', m_lease (c_main c) !! lockName (options l) = Some r
    /\ held_by (ownerId (w_owner (current l))) (w_fence (current l)) r = true
    /\ t <= wr_expiresAt r + skewMarginMs (options l) /\ c_inTransaction c = false
    /\ r' = {| wr_owner := wr_owner r; wr_fence := wr_fence r; wr_acquiredAt := wr_acquiredAt r;
               wr_heartbeatAt := t; wr_expiresAt := t + leaseMs (options l); wr_releasedAt := wr_releasedAt r |}
    /\ c' = set_lease (insert (lockName (options l)) r') c
    /\ v = {| current := authority_of (lockName (options l)) r'; options := options l |}.
Proof.
  unfold heartbeat, assertTopLevelTransaction. intros H.
  apply tx_bind_ok in H as (? & ? & Ha & H). tx_inv Ha. bool_prop. cbv zeta in H.
  apply tx_bind_ok in H as (n & c1 & Hu & H).
  apply update_row_ok in Hu as [(r & -> & Hr & Hp & ->)|[-> ->]]; cbn in H; [|tx_inv H; discriminate].
  tx_inv H. rewrite readLease_set_lease in *. simplify_eq. bool_prop. eexists _, _. repeat (split; [eassumption|]).
  split; [reflexivity|]. auto.
Qed.

Lemma release_ok l t c b l' c' :
  release l t c = Ok ((b, l'), c') ->
  b = false /\ l' = l /\ c' = c
  \/ b = true /\ exists r r', m_lease (c_main c) !! lockName (options l) = Some r
    /\ held_by (ownerId (w_owner (current l))) (w_fence (current l)) r = true
    /\ wr_fence r' = wr_fence r /\ wr_owner r' = wr_owner r /\ wr_releasedAt r' = Some t
    /\ c' = set_lease (insert (lockName (options l)) r') c.
Proof.
  unfold release, assertTopLevelTransaction. intros H.
  apply tx_bind_ok in H as (? & ? & Ha & H). tx_inv Ha. bool_prop. cbv zeta in H.
  apply tx_bind_ok in H as (n & c1 & Hu & H).
  apply update_row_ok in Hu as [(r & -> & Hr & Hp & ->)|[-> ->]]; simpl in H; [|apply mret_ok in H as [[= -> ->] ->]; auto].
  apply tx_bind_ok in H as (a & c2 & Hg & H). apply gets_ok in Hg as [-> ->].
  rewrite readLease_set_lease in H. apply mret_ok in H as [[= -> ->] ->].
  right. split; [done|]. exists r. eexists. split; [exact Hr|]. split; [exact Hp|].
  split; [|split; [|split; [|reflexivity]]]; reflexivity.
Qed.

(** ** Fences only grow *)

(** [m'] is later than [m] for the row of [key]. *)
Definition advanced (key : string) (m m' : MainDb) : Prop :=
  forall r, m_lease m !! key = Some r ->
  exists r', m_lease m' !! key = Some r' /\ wr_fence r <= wr_fence r'
    /\ (wr_fence r' = wr_fence r -> wr_owner r' = wr_owner r).

#[export] Instance advanced_preorder key : PreOrder (advanced key).
Proof.
  split; [intros m r; eauto with lia|].
  intros m1 m2 m3 H12 H23 r1 Hr. destruct (H12 r1 Hr) as (r2 & H2 & Hle & Ho).
  destruct (H23 r2 H2) as (r3 & H3 & Hle' & Ho').
  exists r3. split; [done|]. split; [lia|]. intros. by rewrite Ho', Ho by lia.
Qed.

Lemma effect_advanced key key' c c' : lease_effect key' c c' -> advanced key (c_main c) (c_main c').
Proof.
  intros [->|r -> _ Hf|q r Hq -> Hf Ho]; [reflexivity|..]; intros x Hx;
    (destruct (decide (key' = key)) as [->|Hne];
     [rewrite lookup_set_lease; eexists; split; [reflexivity|];
      rewrite Hx in *; simplify_eq; split; [lia|intros; first [lia|done]]
     |exists x; split; [cbn; by rewrite lookup_insert_ne|split; [lia|done]]]).
Qed.

Lemma step_advanced key m m' : lease_step m m' -> advanced key m m'.
Proof.
  intros [c owner o t u v c' H|c l t v c' H|c l t [b l'] c' H|m1 m2 Heq].
  - apply claim_effect in H as [k H]. by eapply effect_advanced.
  - apply heartbeat_ok in H as (r & r' & Hr & _ & _ & _ & -> & -> & _).
    by eapply effect_advanced, (effect_kept (lockName (options l))).
  - apply release_ok in H as [(_ & _ & ->)|(_ & r & r' & Hr & _ & Hf & Ho & _ & ->)]; [reflexivity|].
    by eapply effect_advanced, (effect_kept (lockName (options l))).
  - intros r Hr. exists r. rewrite <- Heq. split; [done|]. split; [lia|done].
Qed.

Lemma steps_advanced key m m' : rtc lease_step m m' -> advanced key m m'.
Proof. induction 1; [reflexivity|]. etrans; [by apply step_advanced|done]. Qed.

Lemma superseded_mono key n m m' : superseded key n m -> advanced key m m' -> superseded key n m'.
Proof.
  intros Hs Ha. destruct Hs as (r & Hr & Hn). destruct (Ha r Hr) as (q & Hq & Hle & _).
  exists q. split; [exact Hq|lia].
Qed.

Lemma superseded_not_held key n m owner r :
  superseded key n m -> m_lease m !! key = Some r -> held_by owner n r = false.
Proof.
  intros (q & Hq & Hn) Hr. rewrite Hr in Hq. injection Hq as <-. unfold held_by. replace (wr_fence r =? n) with false by (symmetry; lia).
  by rewrite andb_false_r.
Qed.

Lemma superseded_row_matches key n owner b skew now c :
  superseded key n (c_main c) -> row_matches key owner n b skew now c = false.
Proof.
  intros Hs. unfold row_matches. destruct (m_lease (c_main c) !! key) as [r|] eqn:Hr; [|done].
  by rewrite (superseded_not_held _ _ _ _ _ Hs Hr).
Qed.

Lemma heartbeat_superseded l t c :
  superseded (lockName (options l)) (w_fence (current l)) (c_main c) -> c_inTransaction c = false ->
  heartbeat l t c = Throw (lost_error l).
Proof.
  intros Hs Ht. unfold heartbeat. erewrite tx_bind_run; [|by apply assertTop_run]. cbv zeta.
  erewrite tx_bind_run; [|apply update_row_none; intros r Hr; by rewrite (superseded_not_held _ _ _ _ _ Hs Hr)].
  reflexivity.
Qed.

Lemma release_superseded l t c :
  superseded (lockName (options l)) (w_fence (current l)) (c_main c) -> c_inTransaction c = false ->
  release l t c = Ok ((false, l), c).
Proof.
  intros Hs Ht. unfold release. erewrite tx_bind_run; [|by apply assertTop_run]. cbv zeta.
  erewrite tx_bind_run; [|apply update_row_none; intros r Hr; by rewrite (superseded_not_held _ _ _ _ _ Hs Hr)].
  reflexivity.
Qed.
(** ** Who gets the lease *)

Definition valid_owner (w : WriterOwnerIdentity) : bool :=
  negb (String.eqb (ownerId w) "") && safe_integer (pid w) && (0 <? pid w) && negb (String.eqb (host w) "").

(** The row a successful claim leaves. *)
Definition granted (owner : WriterOwnerIdentity) (o : ResolvedCoreWriterLeaseOptions) (fence now : Z) : WriterLeaseRow :=
  {| wr_owner := owner; wr_fence := fence; wr_acquiredAt := now; wr_heartbeatAt := now;
     wr_expiresAt := now + leaseMs o; wr_releasedAt := None |}.

(** The object of a successful claim and the database it leaves. *)
Definition takes (owner : WriterOwnerIdentity) (o : ResolvedCoreWriterLeaseOptions) (fence now : Z) (c : Connection)
    : option CoreWriterLease * Connection :=
  let r := granted owner o fence now in
  (Some {| current := authority_of (lockName o) r; options := o |}, set_lease (insert (lockName o) r) c).

Lemma resolveOptions_ok o ro :
  resolveOptions o = Ok ro ->
  lockName ro = default CORE_WRITER_LOCK_NAME (opt_lockName o) /\ leaseMs ro = default DEFAULT_WRITER_LEASE_MS (opt_leaseMs o)
  /\ skewMarginMs ro = default DEFAULT_WRITER_SKEW_MARGIN_MS (opt_skewMarginMs o)
  /\ 0 < heartbeatIntervalMs ro < leaseMs ro /\ 0 <= skewMarginMs ro.
Proof.
  unfold resolveOptions. cbv zeta. intros H. destruct (String.eqb _ ""); [done|].
  destruct (find _ _) as [nv|] eqn:Hf; [done|]. destruct (_ <=? _) eqn:Hl in H; [done|].
  destruct (blank _); [done|]. injection H as <-. cbn [lockName leaseMs heartbeatIntervalMs skewMarginMs] in *.
  pose proof (find_none _ _ Hf) as Hn.
  pose proof (Hn _ (or_intror (or_introl eq_refl))) as H2.
  pose proof (Hn _ (or_intror (or_intror (or_introl eq_refl)))) as H3.
  unfold lease_number_ok in H2, H3. cbn [fst snd] in H2, H3. bool_prop.
  repeat match goal with
  | H : negb (String.eqb _ _) && _ = false |- _ => apply andb_false_iff in H as [H|H]; [try discriminate H|]
  end; bool_prop; repeat split; auto; lia.
Qed.

Lemma granted_check owner o fence now :
  valid_owner owner = true -> lockName o = CORE_WRITER_LOCK_NAME -> 0 < fence -> 0 < leaseMs o ->
  writer_row_check (lockName o) (granted owner o fence now) = true.
Proof.
  intros Hv Hk Hf Hl. unfold valid_owner in Hv. bool_prop. unfold writer_row_check. rewrite Hk, String.eqb_refl.
  cbn [granted wr_fence wr_owner wr_heartbeatAt wr_expiresAt wr_releasedAt].
  rewrite !andb_true_iff, !Z.ltb_lt, Z.leb_le. repeat split; lia.
Qed.

Lemma claim_prefix owner o ro t u c :
  valid_owner owner = true -> resolveOptions o = Ok ro -> c_inTransaction c = false ->
  claim owner o t u c
  = mbind (fun a => mret ((fun a => {| current := a; options := ro |}) <$> a)) (claim_row owner ro t u) c.
Proof.
  intros Hv Ho Hc. unfold valid_owner in Hv.
  apply andb_true_iff in Hv as [[[Hid Hsafe]%andb_true_iff Hpid]%andb_true_iff Hhost]. unfold claim.
  erewrite tx_bind_run; [|by apply require_run].
  erewrite tx_bind_run; [|apply require_run; rewrite Hsafe; apply negb_true_iff; lia].
  erewrite tx_bind_run; [|by apply require_run].
  erewrite tx_bind_run; [|by apply assertTop_run].
  erewrite tx_bind_run; [|unfold lift; by rewrite Ho]. reflexivity.
Qed.

Lemma lapsed_later skew t u r : t <= u -> lapsed skew t r = true -> lapsed skew u r = true.
Proof. unfold lapsed. destruct (wr_releasedAt r); [done|]. lia. Qed.

Lemma claim_row_absent owner o t u c :
  m_lease (c_main c) !! lockName o = None -> writer_row_check (lockName o) (granted owner o 1 t) = true ->
  claim_row owner o t u c
  = Ok (Some (authority_of (lockName o) (granted owner o 1 t)), set_lease (insert (lockName o) (granted owner o 1 t)) c).
Proof.
  intros Hr Hc. unfold claim_row. erewrite tx_bind_run; [|reflexivity]. cbn [id]. rewrite Hr.
  fold (granted owner o 1 t). erewrite tx_bind_run.
  2: { unfold write_row. erewrite tx_bind_run; [|by apply require_run]. reflexivity. }
  unfold gets. by rewrite readLease_set_lease.
Qed.

Lemma claim_row_live owner o t u c r :
  m_lease (c_main c) !! lockName o = Some r -> lapsed (skewMarginMs o) t r = false ->
  claim_row owner o t u c = Ok (None, c).
Proof.
  intros Hr Hl. unfold claim_row. erewrite tx_bind_run; [|reflexivity]. cbn [id]. rewrite Hr.
  unfold lapsed in Hl. destruct (wr_releasedAt r); [done|].
  by replace (t <=? wr_expiresAt r + skewMarginMs o) with true by lia.
Qed.

Lemma claim_row_lapsed owner o t u c r :
  m_lease (c_main c) !! lockName o = Some r -> lapsed (skewMarginMs o) t r = true -> t <= u ->
  writer_row_check (lockName o) (granted owner o (wr_fence r + 1) u) = true ->
  claim_row owner o t u c
  = Ok (Some (authority_of (lockName o) (granted owner o (wr_fence r + 1) u)),
        set_lease (insert (lockName o) (granted owner o (wr_fence r + 1) u)) c).
Proof.
  intros Hr Hl Htu Hc. unfold claim_row. erewrite tx_bind_run; [|reflexivity]. cbn [id]. rewrite Hr.
  replace (bool_decide (wr_releasedAt r = None) && (t <=? wr_expiresAt r + skewMarginMs o)) with false.
  2: { unfold lapsed in Hl. destruct (wr_releasedAt r); [done|]. cbn. lia. }
  erewrite tx_bind_run; [|eapply update_row_run; [exact Hr| |exact Hc]].
  - cbn [Z.eqb Pos.eqb]. unfold gets. by rewrite readLease_set_lease.
  - by rewrite Z.eqb_refl, (lapsed_later _ t u).
Qed.

(** The outcome of a claim on every branch: a missing row is created with
    fence 1; a row that is released, or expired by more than the claimant's
    margin, is taken over with the next fence and a full lease from the
    database's clock; while the lease of another writer lasts the claim
    returns null and writes nothing. *)
Theorem claim_outcome owner o ro t u c :
  valid_owner owner = true -> resolveOptions o = Ok ro -> lockName ro = CORE_WRITER_LOCK_NAME ->
  c_inTransaction c = false -> t <= u ->
  (forall r, m_lease (c_main c) !! CORE_WRITER_LOCK_NAME = Some r -> 0 < wr_fence r) ->
  claim owner o t u c = Ok
    match m_lease (c_main c) !! CORE_WRITER_LOCK_NAME with
    | None => takes owner ro 1 t c
    | Some r => if lapsed (skewMarginMs ro) t r then takes owner ro (wr_fence r + 1) u c else (None, c)
    end.
Proof.
  intros Hv Ho Hk Hc Htu Hf. rewrite (claim_prefix _ _ ro) by done. unfold takes.
  destruct (resolveOptions_ok _ _ Ho) as (_ & _ & _ & Hh & _).
  destruct (m_lease (c_main c) !! CORE_WRITER_LOCK_NAME) as [r|] eqn:Hr; rewrite <- Hk in Hr.
  - destruct (lapsed (skewMarginMs ro) t r) eqn:Hl; erewrite tx_bind_run.
    2: { eapply claim_row_lapsed; [exact Hr|done|done|]. specialize (Hf r eq_refl). apply granted_check; auto; lia. }
    3: { by eapply claim_row_live. } all: reflexivity.
  - erewrite tx_bind_run; [|apply claim_row_absent; [done|apply granted_check; auto; lia]]. reflexivity.
Qed.

(** The lease object [l] belongs to the claim that returned [l0]: heartbeats
    change only its times. *)
Definition same_holder (l0 l : CoreWriterLease) : Prop :=
  lockName (options l) = lockName (options l0) /\ w_fence (current l) = w_fence (current l0).

(** C12. Two claims of one lock never hold it together: the later claim has the
    larger fence, and from then on, whatever any process does to the lease and
    whatever its clock reads, the earlier holder is not current, its heartbeat
    throws [WriterAuthorityLostError] and its release changes nothing. *)
Theorem writers_exclusive owner1 o1 t1 u1 c0 l1 c1 owner2 o2 t2 u2 c2 l2 c3 c l now :
  claim owner1 o1 t1 u1 c0 = Ok (Some l1, c1) -> rtc lease_step (c_main c1) (c_main c2) ->
  claim owner2 o2 t2 u2 c2 = Ok (Some l2, c3) -> rtc lease_step (c_main c3) (c_main c) ->
  lockName (options l1) = lockName (options l2) -> same_holder l1 l -> c_inTransaction c = false ->
  w_fence (current l1) < w_fence (current l2)
  /\ (forall unexpired, isCurrent l unexpired now c = false)
  /\ heartbeat l now c = Throw (lost_error l)
  /\ release l now c = Ok ((false, l), c).
Proof.
  intros H1 S1 H2 S2 Hlock [Hl Hf] Hc.
  apply claim_ok in H1 as (ro1 & a1 & _ & H1 & E1 & _). apply claim_ok in H2 as (ro2 & a2 & _ & H2 & E2 & _).
  destruct a1 as [a1|]; [|done]. destruct a2 as [a2|]; [|done]. cbn in E1, E2. simplify_eq.
  cbn [options current] in *.
  apply claim_row_effect in H1 as (r1 & -> & _ & _ & -> & _).
  apply claim_row_effect in H2 as (r2 & -> & _ & _ & -> & Hr2). rewrite <- Hlock in *.
  destruct (steps_advanced (lockName ro1) _ _ S1 r1 (lookup_set_lease _ _ _)) as (r & Hr & Hle & _).
  rewrite Hr in Hr2. cbn [w_fence authority_of] in *.
  assert (superseded (lockName (options l)) (w_fence (current l)) (c_main c)) as Hs.
  { rewrite Hl, Hf. eapply superseded_mono; [|by eapply steps_advanced].
    exists r2. split; [apply lookup_set_lease|lia]. }
  split; [lia|]. split; [|split; [by apply heartbeat_superseded|by apply release_superseded]].
  intros b. unfold isCurrent. by apply superseded_row_matches.
Qed.
End writer.
Arguments MainDb : clear implicits.
Arguments Connection : clear implicits.

(** * Examples *)

Definition demo_owner1 : WriterOwnerIdentity := {| ownerId := "core-1"; pid := 101; host := "alpha" |}.
Definition demo_owner2 : WriterOwnerIdentity := {| ownerId := "core-2"; pid := 102; host := "beta" |}.
Definition demo_lease_options : CoreWriterLeaseOptions :=
  {| opt_lockName := None; opt_leaseMs := None; opt_heartbeatIntervalMs := None; opt_skewMarginMs := None;
     opt_nowSql := None |}.
Definition demo_resolved : ResolvedCoreWriterLeaseOptions :=
  {| lockName := "core-writer"; leaseMs := 20000; heartbeatIntervalMs := 5000; skewMarginMs := 2000;
     nowSql := SQLITE_DB_TIME_MS |}.
Definition demo_main : MainDb nat :=
  {| m_lease := ∅; m_schemaVersion := 7; m_data := 0%nat;
     m_schema := [ {| s_type := "table"; s_name := "runs"; s_sql := Some "CREATE TABLE runs (id)" |};
                   {| s_type := "table"; s_name := "core_writer_lease"; s_sql := Some "CREATE TABLE core_writer_lease (fence)" |};
                   {| s_type := "table"; s_name := "notes"; s_sql := Some "create virtual table notes using fts5(body)" |};
                   {| s_type := "table"; s_name := "notes_data"; s_sql := Some "CREATE TABLE notes_data (id)" |} ] |}%string.
Definition demo_connection : Connection nat := {| c_main := demo_main; c_inTransaction := false; c_triggers := [] |}.
Definition demo_claimed : Connection nat := (takes demo_owner1 demo_resolved 1 1000 demo_connection).2.
Definition demo_overtaken : Connection nat := (takes demo_owner2 demo_resolved 2 40000 demo_claimed).2.
Definition demo_lease1 : CoreWriterLease :=
  {| current := authority_of "core-writer" (granted demo_owner1 demo_resolved 1 1000); options := demo_resolved |}.
Definition demo_lease2 : CoreWriterLease :=
  {| current := authority_of "core-writer" (granted demo_owner2 demo_resolved 2 40000); options := demo_resolved |}.

Lemma claim_outcome_witness : claim demo_owner1 demo_lease_options 1000 1000 demo_connection
  = Ok (Some demo_lease1, demo_claimed).
Proof.
  refine (eq_trans (claim_outcome demo_owner1 demo_lease_options demo_resolved 1000 1000 demo_connection
    eq_refl eq_refl eq_refl eq_refl _ _) _); [lia|intros r Hr; vm_compute in Hr; discriminate Hr|reflexivity].
Defined.

Lemma writers_exclusive_witness : heartbeat demo_lease1 40001 demo_overtaken = Throw (lost_error demo_lease1).
Proof.
  eapply (writers_exclusive demo_owner1 demo_lease_options 1000 1000 demo_connection demo_lease1 demo_claimed
    demo_owner2 demo_lease_options 40000 40000 demo_claimed demo_lease2 demo_overtaken demo_overtaken
    demo_lease1 40001); [vm_compute; reflexivity|reflexivity|vm_compute; reflexivity|reflexivity
    |reflexivity|split; reflexivity|reflexivity].
Defined.
