(* ===== verification/WriterGuard.v ===== *)
(** The guard that keeps a writer that lost the lease from changing the
    database: [writer-fence-guard.ts]. Every unit of work checks the lease
    first, and temporary triggers on every application table check it again at
    each row a statement of the connection changes.

    The names of the tables are compared as [GLOB] compares a pattern without
    metacharacters of its own. *)
From S2P Require Import Prelude WriterLease.
From Stdlib Require Import Ascii String.
From stdpp Require Import sorting.
Local Open Scope tx_scope.
Local Open Scope Z_scope.

(** * Quoting *)

Definition dquote : ascii := ascii_of_nat 34.
Definition squote : ascii := ascii_of_nat 39.

(** [value.replaceAll(q, q + q)] *)
Fixpoint double_quotes (q : ascii) (s : string) : string :=
  match s with
  | EmptyString => EmptyString
  | String c s' => if Ascii.eqb c q then String q (String q (double_quotes q s')) else String c (double_quotes q s')
  end.

Definition quoted (q : ascii) (s : string) : string := String q (double_quotes q s +:+ String q EmptyString).
Definition quoteIdentifier (value : string) : string := quoted dquote value.
Definition quoteLiteral (value : string) : string := quoted squote value.

(** * Errors *)

Definition WRITER_AUTHORITY_TRIGGER_ABORT : string := "TAGENT_WRITER_AUTHORITY_LOST".

Definition errorMessage (e : exn) : string :=
  match e with Error m => m | TypeError m => m | SqliteError m => m | NamedError _ m => m end.

Definition is_lost_class (e : exn) : bool :=
  match e with NamedError c _ => String.eqb c "WriterAuthorityLostError" | _ => false end.

Definition includes_text (sub s : string) : bool :=
  match index 0 sub s with Some _ => true | None => false end.

Definition isWriterAuthorityLostError (e : exn) : bool :=
  is_lost_class e || includes_text WRITER_AUTHORITY_TRIGGER_ABORT (errorMessage e).

Definition normalizeWriterAuthorityError (e : exn) : exn :=
  if is_lost_class e then e
  else if negb (isWriterAuthorityLostError e) then e
  else WriterAuthorityLostError "SQLite connection rejected a mutation from a stale or expired writer".

Definition normalized {S A} (m : tx S A) : tx S A := fun s =>
  match m s with Ok r => Ok r | Throw e => Throw (normalizeWriterAuthorityError e) end.

(** * Triggers and statements *)

Definition MANAGED_TRIGGER_PREFIX : string := "__tagent_writer_guard_".
Definition GUARDED_OPERATIONS : list GuardedOperation := [INSERT; UPDATE; DELETE].

#[export] Instance GuardedOperation_eq_dec : EqDecision GuardedOperation.
Proof. solve_decision. Defined.

Definition operation_lower (o : GuardedOperation) : string :=
  match o with INSERT => "insert" | UPDATE => "update" | DELETE => "delete" end.

Definition upper_char (c : ascii) : ascii :=
  let n := nat_of_ascii c in if Nat.leb 97 n && Nat.leb n 122 then ascii_of_nat (n - 32) else c.

Fixpoint upper (s : string) : string :=
  match s with EmptyString => EmptyString | String c s' => String (upper_char c) (upper s') end.

Fixpoint zeros (n : nat) : string := match n with O => EmptyString | S n => String "0" (zeros n) end.

(** [String(index).padStart(4, "0")] *)
Definition padded (index : nat) : string :=
  let s := pretty index in zeros (4 - String.length s) +:+ s.

Definition string_order (a b : string) : Prop := String.leb a b = true.
#[export] Instance string_order_dec a b : Decision (string_order a b).
Proof. unfold string_order. apply _. Defined.

Definition sort_names : list string -> list string := merge_sort string_order.

Definition is_virtual (e : SchemaEntry) : bool :=
  String.eqb (s_type e) "table" && String.prefix "CREATE VIRTUAL TABLE" (upper (default "" (s_sql e))).

Definition application_table (schema : list SchemaEntry) (e : SchemaEntry) : bool :=
  String.eqb (s_type e) "table" && negb (String.prefix "sqlite_" (s_name e))
  && negb (String.eqb (s_name e) "core_writer_lease")
  && negb (String.prefix "CREATE VIRTUAL TABLE" (upper (default "" (s_sql e))))
  && negb (existsb (fun v => is_virtual v && String.prefix (s_name v +:+ "_") (s_name e)) schema).

Section guard.
Context {D : Type}.

Definition listMainApplicationTables (m : MainDb D) : list string :=
  sort_names (s_name <$> List.filter (application_table (m_schema m)) (m_schema m)).

Definition is_managed (t : Trigger) : bool := String.prefix MANAGED_TRIGGER_PREFIX (g_name t).

Definition listManagedTriggers (c : Connection D) : list string :=
  sort_names (g_name <$> List.filter is_managed (c_triggers c)).

(** The condition a trigger checks before each row. *)
Definition trigger_passes (now : Z) (c : Connection D) (t : Trigger) : bool :=
  row_matches (g_lockName t) (g_ownerId t) (g_fence t) true (g_skewMarginMs t) now c
  && (m_schemaVersion (c_main c) =? g_schemaVersion t).

(** A statement of the connection that changes rows of one table of [main]:
    how many rows, and the contents after it. *)
Record Statement := { st_operation : GuardedOperation; st_table : string; st_rows : D -> nat; st_apply : D -> D }.

Definition set_data (f : D -> D) (c : Connection D) : Connection D :=
  {| c_main := {| m_lease := m_lease (c_main c); m_schemaVersion := m_schemaVersion (c_main c);
                  m_schema := m_schema (c_main c); m_data := f (m_data (c_main c)) |};
     c_inTransaction := c_inTransaction c; c_triggers := c_triggers c |}.

Definition fires (st : Statement) (t : Trigger) : bool :=
  String.eqb (g_table t) (st_table st) && bool_decide (g_operation t = st_operation st).

Definition execute (st : Statement) (now : Z) : tx (Connection D) unit :=
  let* c := gets id in
  if Nat.eqb (st_rows st (m_data (c_main c))) 0 then mret tt
  else
    do* require (forallb (trigger_passes now c) (List.filter (fires st) (c_triggers c)))
      (SqliteError WRITER_AUTHORITY_TRIGGER_ABORT) in
    modify (set_data (st_apply st)).

(** * The guard *)

Record InstalledConnectionGuard := { i_schemaVersion : Z; i_tables : list string; i_triggerNames : list string }.

Record WriterFenceGuard := {
  authority : WriterAuthority; gd_skewMarginMs : Z; gd_nowSql : string; depth : nat;
  installedConnectionGuard : option InstalledConnectionGuard }.

(** The guard and the connection it was built on. *)
Record GuardState := { gs_guard : WriterFenceGuard; gs_db : Connection D }.

Fixpoint includes_char (q : ascii) (s : string) : bool :=
  match s with EmptyString => false | String c s' => Ascii.eqb c q || includes_char q s' end.

Definition new_WriterFenceGuard (a : WriterAuthority) (opt_skew : option Z) (opt_now : option string)
    : result WriterFenceGuard :=
  let skew := default DEFAULT_WRITER_SKEW_MARGIN_MS opt_skew in
  let now := default SQLITE_DB_TIME_MS opt_now in
  if negb (safe_integer skew) || (skew <? 0)
  then Throw (TypeError "Writer fence skewMarginMs must be a non-negative safe integer")
  else if blank now || has_nul now || includes_char ";" now
  then Throw (TypeError "Writer fence nowSql must be a single SQLite expression")
  else if String.eqb (w_lockName a) "" || has_nul (w_lockName a)
       || String.eqb (ownerId (w_owner a)) "" || has_nul (ownerId (w_owner a))
       || negb (safe_integer (w_fence a)) || (w_fence a <=? 0)
  then Throw (TypeError "Writer fence authority is invalid")
  else Ok {| authority := a; gd_skewMarginMs := skew; gd_nowSql := now; depth := 0; installedConnectionGuard := None |}.

Definition set_guard (f : WriterFenceGuard -> WriterFenceGuard) (s : GuardState) : GuardState :=
  {| gs_guard := f (gs_guard s); gs_db := gs_db s |}.
Definition set_db (f : Connection D -> Connection D) (s : GuardState) : GuardState :=
  {| gs_guard := gs_guard s; gs_db := f (gs_db s) |}.
Definition set_depth (f : nat -> nat) (g : WriterFenceGuard) : WriterFenceGuard :=
  {| authority := authority g; gd_skewMarginMs := gd_skewMarginMs g; gd_nowSql := gd_nowSql g; depth := f (depth g);
     installedConnectionGuard := installedConnectionGuard g |}.
Definition set_installed (i : option InstalledConnectionGuard) (g : WriterFenceGuard) : WriterFenceGuard :=
  {| authority := authority g; gd_skewMarginMs := gd_skewMarginMs g; gd_nowSql := gd_nowSql g; depth := depth g;
     installedConnectionGuard := i |}.
Definition set_inTransaction (b : bool) (c : Connection D) : Connection D :=
  {| c_main := c_main c; c_inTransaction := b; c_triggers := c_triggers c |}.
Definition set_triggers (f : list Trigger -> list Trigger) (c : Connection D) : Connection D :=
  {| c_main := c_main c; c_inTransaction := c_inTransaction c; c_triggers := f (c_triggers c) |}.

(** The authority of the guard is the one in the database. *)
Definition guard_current (requireUnexpired : bool) (now : Z) (g : WriterFenceGuard) (c : Connection D) : bool :=
  row_matches (w_lockName (authority g)) (ownerId (w_owner (authority g))) (w_fence (authority g))
    requireUnexpired (gd_skewMarginMs g) now c.

Definition guard_lost (g : WriterFenceGuard) : exn :=
  WriterAuthorityLostError ("Core writer authority lost for " +:+ ownerId (w_owner (authority g))
    +:+ " at fence " +:+ pretty (w_fence (authority g))).

Definition assertCurrent (requireUnexpired : option bool) (now : Z) : tx GuardState unit :=
  let* s := gets id in
  require (guard_current (default true requireUnexpired) now (gs_guard s) (gs_db s)) (guard_lost (gs_guard s)).

Definition assertTopLevel (operation : string) : tx GuardState unit :=
  let* s := gets id in
  require (negb (negb (Nat.eqb (depth (gs_guard s)) 0) || c_inTransaction (gs_db s)))
    (Error ("WriterFenceGuard cannot " +:+ operation +:+ " inside an active SQLite transaction")).

Definition assertConnectionGuardCurrent : tx GuardState unit :=
  let* s := gets id in
  let* installed := present (installedConnectionGuard (gs_guard s))
    (WriterAuthorityUnavailableError "SQLite connection writer guard is not installed") in
  let schemaVersion := m_schemaVersion (c_main (gs_db s)) in
  do* require (schemaVersion =? i_schemaVersion installed)
    (WriterAuthorityUnavailableError ("SQLite main schema changed from " +:+ pretty (i_schemaVersion installed)
      +:+ " to " +:+ pretty schemaVersion +:+ "; refreshConnectionGuard() is required")) in
  require (bool_decide (listManagedTriggers (gs_db s) = i_triggerNames installed))
    (WriterAuthorityUnavailableError "SQLite connection writer trigger set was modified; refusing unguarded mutations").

(** A callback: whether it is an async function, its synchronous part, and
    whether what it returned has a [then]. *)
Record Callback (A : Type) := {
  cb_async : bool; cb_body : tx GuardState A; cb_thenable : A -> bool }.

Definition synchronous_error : exn := TypeError "WriterFenceGuard callbacks must be synchronous".

Definition invokeSynchronous {A} (cb : Callback A) : tx GuardState A :=
  do* require (negb (cb_async A cb)) synchronous_error in
  let* v := cb_body A cb in
  do* require (negb (cb_thenable A cb v)) synchronous_error in
  mret v.

(** The transaction of [run]. A throw restores the database by the rollback
    and the depth by the [finally]. *)
Definition guarded {A} (cb : Callback A) (now : Z) : tx GuardState A :=
  do* modify (fun s => set_db (set_inTransaction true) (set_guard (set_depth S) s)) in
  let* s := gets id in
  do* match installedConnectionGuard (gs_guard s) with Some _ => assertConnectionGuardCurrent | None => mret tt end in
  do* assertCurrent None now in
  let* v := invokeSynchronous cb in
  do* modify (fun s => set_db (set_inTransaction false) (set_guard (set_depth pred) s)) in
  mret v.

Definition run {A} (cb : Callback A) (now : Z) : tx GuardState A :=
  let* s := gets id in
  if Nat.ltb 0 (depth (gs_guard s)) then invokeSynchronous cb
  else
    do* require (negb (c_inTransaction (gs_db s)))
      (Error "WriterFenceGuard cannot enter an unmanaged SQLite transaction") in
    normalized (guarded cb now).

Record WriterConnectionGuardSnapshot := {
  installed : bool; sn_schemaVersion : option Z; tables : list string; triggerCount : nat }.

Definition connectionGuardSnapshot (g : WriterFenceGuard) : WriterConnectionGuardSnapshot :=
  match installedConnectionGuard g with
  | Some i => {| installed := true; sn_schemaVersion := Some (i_schemaVersion i); tables := i_tables i;
                 triggerCount := List.length (i_triggerNames i) |}
  | None => {| installed := false; sn_schemaVersion := None; tables := []; triggerCount := 0 |}
  end.

Definition trigger_name (tableIndex : nat) (o : GuardedOperation) : string :=
  MANAGED_TRIGGER_PREFIX +:+ padded tableIndex +:+ "_" +:+ operation_lower o.

Definition guard_trigger (g : WriterFenceGuard) (schemaVersion : Z) (tableIndex : nat) (table : string)
    (o : GuardedOperation) : Trigger :=
  {| g_name := trigger_name tableIndex o; g_operation := o; g_table := table; g_lockName := w_lockName (authority g);
     g_ownerId := ownerId (w_owner (authority g)); g_fence := w_fence (authority g);
     g_skewMarginMs := gd_skewMarginMs g; g_schemaVersion := schemaVersion |}.

Definition guard_triggers (g : WriterFenceGuard) (schemaVersion : Z) (tables : list string) : list Trigger :=
  concat (imap (fun i table => guard_trigger g schemaVersion i table <$> GUARDED_OPERATIONS) tables).

Definition createConnectionGuard : tx GuardState InstalledConnectionGuard :=
  let* s := gets id in
  let schemaVersion := m_schemaVersion (c_main (gs_db s)) in
  let tables := listMainApplicationTables (c_main (gs_db s)) in
  let triggers := guard_triggers (gs_guard s) schemaVersion tables in
  do* modify (set_db (set_triggers (fun l => l ++ triggers))) in
  mret {| i_schemaVersion := schemaVersion; i_tables := tables;
          i_triggerNames := sort_names (g_name <$> triggers) |}.

Definition dropTriggers (names : list string) : tx GuardState unit :=
  modify (set_db (set_triggers (List.filter (fun t => negb (bool_decide (g_name t ∈ names)))))).

Definition install (now : Z) : tx GuardState InstalledConnectionGuard :=
  do* assertCurrent None now in
  let* s := gets id in
  do* require (bool_decide (listManagedTriggers (gs_db s) = []))
    (WriterAuthorityUnavailableError "SQLite connection already has an unmanaged writer trigger set") in
  createConnectionGuard.

Definition current_snapshot : tx GuardState WriterConnectionGuardSnapshot :=
  gets (fun s => connectionGuardSnapshot (gs_guard s)).

Definition installConnectionGuard (now : Z) : tx GuardState WriterConnectionGuardSnapshot :=
  do* assertTopLevel "install connection guard" in
  let* s := gets id in
  match installedConnectionGuard (gs_guard s) with
  | Some _ => do* assertConnectionGuardCurrent in current_snapshot
  | None =>
      let* i := normalized (install now) in
      do* modify (set_guard (set_installed (Some i))) in
      current_snapshot
  end.

Definition refreshConnectionGuard (now : Z) : tx GuardState WriterConnectionGuardSnapshot :=
  do* assertTopLevel "refresh connection guard" in
  let* s := gets id in
  match installedConnectionGuard (gs_guard s) with
  | None => installConnectionGuard now
  | Some _ =>
      let* i := normalized
        (do* assertCurrent None now in
         let* s := gets id in
         do* dropTriggers (listManagedTriggers (gs_db s)) in
         createConnectionGuard) in
      do* modify (set_guard (set_installed (Some i))) in
      current_snapshot
  end.

Definition removeConnectionGuard (now : Z) : tx GuardState unit :=
  do* assertTopLevel "remove connection guard" in
  let* s := gets id in
  match installedConnectionGuard (gs_guard s) with
  | None => mret tt
  | Some _ =>
      do* normalized
        (do* assertCurrent None now in
         let* s := gets id in
         dropTriggers (listManagedTriggers (gs_db s))) in
      modify (set_guard (set_installed None))
  end.

(** [claimCoreWriterConnectionWithRetry]: the lease and the guard built from it. *)
Definition claimCoreWriterConnectionWithRetry (fuel : nat) (owner : WriterOwnerIdentity)
    (o : CoreWriterLeaseClaimRetryOptions) (startedAt : Z) (turns : nat -> Turn (D:=D))
    : result (option (CoreWriterLease * GuardState)) :=
  match claimCoreWriterLeaseWithRetry fuel owner o startedAt turns with
  | Claimed _ l c =>
      match new_WriterFenceGuard (current l) (opt_skewMarginMs (ro_lease o)) (opt_nowSql (ro_lease o)) with
      | Ok g => Ok (Some (l, {| gs_guard := g; gs_db := c |}))
      | Throw e => Throw e
      end
  | Failed e => Throw e
  | OutOfFuel => Ok None
  end.

(** * What the triggers do *)

Lemma guard_triggers_spec g v l t :
  t ∈ guard_triggers g v l <->
  exists i table o, l !! i = Some table /\ o ∈ GUARDED_OPERATIONS /\ t = guard_trigger g v i table o.
Proof.
  unfold guard_triggers. rewrite list_elem_of_In, in_concat. split.
  - intros (ts & Hts & Ht). apply list_elem_of_In, elem_of_lookup_imap in Hts as (i & table & -> & Hi).
    apply list_elem_of_In, list_elem_of_fmap in Ht as (o & -> & Ho). eauto 10.
  - intros (i & table & o & Hi & Ho & ->). exists (guard_trigger g v i table <$> GUARDED_OPERATIONS).
    split; apply list_elem_of_In; [|by apply list_elem_of_fmap_2]. apply elem_of_lookup_imap. eauto.
Qed.

Lemma guarded_operation_all o : o ∈ GUARDED_OPERATIONS.
Proof. destruct o; set_solver. Qed.

(** All triggers of one guard check the same condition, and a statement on a
    guarded table fires at least one. *)
Lemma guard_triggers_decide g v l st now c :
  st_table st ∈ l ->
  forallb (trigger_passes now c) (List.filter (fires st) (guard_triggers g v l))
  = guard_current true now g c && (m_schemaVersion (c_main c) =? v).
Proof.
  intros (i & Hi)%list_elem_of_lookup. apply eq_iff_eq_true. rewrite forallb_forall. split.
  - intros H. apply (H (guard_trigger g v i (st_table st) (st_operation st))). apply filter_In. split.
    + apply list_elem_of_In, guard_triggers_spec. eexists _, _, _. split; [exact Hi|].
      split; [apply guarded_operation_all|done].
    + unfold fires. cbn. by rewrite String.eqb_refl, bool_decide_eq_true_2.
  - intros H t [Ht _]%filter_In. apply list_elem_of_In, guard_triggers_spec in Ht as (j & tb & o & _ & _ & ->). exact H.
Qed.

Lemma execute_guarded g v l st now c :
  c_triggers c = guard_triggers g v l -> st_table st ∈ l -> st_rows st (m_data (c_main c)) <> 0%nat ->
  execute st now c =
    if guard_current true now g c && (m_schemaVersion (c_main c) =? v)
    then Ok (tt, set_data (st_apply st) c) else Throw (SqliteError WRITER_AUTHORITY_TRIGGER_ABORT).
Proof.
  intros Ht Hin Hrows. unfold execute. erewrite tx_bind_run; [|reflexivity]. cbn [id].
  apply Nat.eqb_neq in Hrows. rewrite Hrows, Ht. unfold mbind, tx_mbind, require.
  rewrite guard_triggers_decide by done. by destruct (_ && _).
Qed.

Lemma normalized_ok {A} (m : tx (GuardState) A) s r : normalized m s = Ok r -> m s = Ok r.
Proof. unfold normalized. by destruct (m s). Qed.

(** A first installation leaves exactly its triggers on a connection that had none. *)
Lemma installConnectionGuard_ok now s v s' :
  installConnectionGuard now s = Ok (v, s') -> installedConnectionGuard (gs_guard s) = None -> c_triggers (gs_db s) = [] ->
  guard_current true now (gs_guard s) (gs_db s) = true
  /\ c_triggers (gs_db s') = guard_triggers (gs_guard s) (m_schemaVersion (c_main (gs_db s)))
       (listMainApplicationTables (c_main (gs_db s)))
  /\ c_main (gs_db s') = c_main (gs_db s)
  /\ c_inTransaction (gs_db s') = false /\ authority (gs_guard s') = authority (gs_guard s)
  /\ gd_skewMarginMs (gs_guard s') = gd_skewMarginMs (gs_guard s) /\ depth (gs_guard s') = 0%nat.
Proof.
  intros H Hi Ht. unfold installConnectionGuard, assertTopLevel, current_snapshot in H.
  apply tx_bind_ok in H as (? & s1 & Ha & H). tx_inv Ha. bool_prop.
  apply tx_bind_ok in H as (? & s2 & Hg & H). apply gets_id_ok in Hg as [-> ->]. rewrite Hi in H.
  apply tx_bind_ok in H as (i & s3 & Hn & H). apply normalized_ok in Hn.
  unfold install, assertCurrent, createConnectionGuard in Hn. tx_inv Hn. tx_inv H. cbn.
  rewrite Ht. bool_prop. repeat split; auto. by apply Nat.eqb_eq.
Qed.

(** After [installConnectionGuard] on a fresh connection, a statement that
    changes a row of an application table succeeds exactly while the lease row
    names the guard's owner and fence, is not released and not expired beyond
    the margin, and the schema is the one the guard was installed on; otherwise
    it throws the trigger's error and changes nothing. This holds whatever else
    happened to the database in between, the lease and the data included. *)
Theorem guarded_write_iff_current installed_at s0 v s1 c st now :
  installConnectionGuard installed_at s0 = Ok (v, s1) ->
  installedConnectionGuard (gs_guard s0) = None -> c_triggers (gs_db s0) = [] ->
  c_triggers c = c_triggers (gs_db s1) ->
  st_table st ∈ listMainApplicationTables (c_main (gs_db s0)) -> st_rows st (m_data (c_main c)) <> 0%nat ->
  execute st now c =
    if guard_current true now (gs_guard s0) c
       && (m_schemaVersion (c_main c) =? m_schemaVersion (c_main (gs_db s0)))
    then Ok (tt, set_data (st_apply st) c) else Throw (SqliteError WRITER_AUTHORITY_TRIGGER_ABORT).
Proof.
  intros H Hi Ht Hc Hin Hrows. destruct (installConnectionGuard_ok _ _ _ _ H Hi Ht) as (_ & Htr & _).
  eapply execute_guarded; [by rewrite Hc|done|done].
Qed.

Lemma run_not_current {A} (cb : Callback A) now s :
  depth (gs_guard s) = 0%nat -> c_inTransaction (gs_db s) = false ->
  (forall b now, guard_current b now (gs_guard s) (gs_db s) = false) ->
  exists e, run cb now s = Throw e
    /\ (installedConnectionGuard (gs_guard s) = None -> e = guard_lost (gs_guard s)).
Proof.
  intros Hd Ht Hc. unfold run. erewrite tx_bind_run; [|reflexivity]. cbn [id]. rewrite Hd.
  replace (Nat.ltb 0 0) with false by reflexivity. cbv beta iota. erewrite tx_bind_run; [|apply require_run; by rewrite Ht].
  unfold normalized, guarded. erewrite tx_bind_run; [|reflexivity]. erewrite tx_bind_run; [|reflexivity].
  cbn [id set_db set_guard set_depth gs_guard installedConnectionGuard].
  assert (forall s', gs_guard s' = set_depth S (gs_guard s) -> m_lease (c_main (gs_db s')) = m_lease (c_main (gs_db s)) ->
    assertCurrent None now s' = Throw (guard_lost (gs_guard s))) as Hlost.
  { intros s' Hg Hm. unfold assertCurrent. erewrite tx_bind_run; [|reflexivity]. cbn [id]. unfold require.
    replace (guard_current _ now (gs_guard s') (gs_db s')) with false; [by rewrite Hg|].
    symmetry. rewrite Hg. specialize (Hc true now). unfold guard_current, row_matches in *. by rewrite Hm. }
  destruct (installedConnectionGuard (gs_guard s)) as [i|].
  - unfold mbind at 1, tx_mbind at 1. destruct (assertConnectionGuardCurrent _) as [[u s2]|e] eqn:Ha; [|by eexists].
    unfold assertConnectionGuardCurrent in Ha. tx_inv Ha. unfold mbind at 1, tx_mbind at 1.
    rewrite Hlost by reflexivity. eexists. split; [reflexivity|done].
  - erewrite tx_bind_run; [|reflexivity]. unfold mbind at 1, tx_mbind at 1. rewrite Hlost by reflexivity.
    eexists. split; [reflexivity|done].
Qed.

(** C13. A process that lost the lease cannot write: it claimed the lease, built
    its guard and installed the triggers; another claim of the lock succeeded
    later. From then on every statement of its connection that changes a row
    of an application table throws, and every unit of work throws before its
    callback runs, whatever the clock reads and whatever else happened to the
    lease, the schema and the data. *)
Theorem superseded_writer_cannot_write {A} owner1 o1 t1 u1 c0 l1 c1 skew nowsql g t s0 v s1
    owner2 o2 t2 u2 c2 l2 c3 c g' st (cb : Callback A) now :
  claim owner1 o1 t1 u1 c0 = Ok (Some l1, c1) -> c_triggers c0 = [] ->
  new_WriterFenceGuard (current l1) skew nowsql = Ok g ->
  s0 = {| gs_guard := g; gs_db := c1 |} -> installConnectionGuard t s0 = Ok (v, s1) ->
  rtc lease_step (c_main (gs_db s1)) (c_main c2) ->
  claim owner2 o2 t2 u2 c2 = Ok (Some l2, c3) -> lockName (options l2) = lockName (options l1) ->
  rtc lease_step (c_main c3) (c_main c) ->
  c_triggers c = c_triggers (gs_db s1) -> c_inTransaction c = false ->
  authority g' = authority g -> depth g' = 0%nat ->
  (st_table st ∈ listMainApplicationTables (c_main c1) -> st_rows st (m_data (c_main c)) <> 0%nat ->
     execute st now c = Throw (SqliteError WRITER_AUTHORITY_TRIGGER_ABORT))
  /\ exists e, run cb now {| gs_guard := g'; gs_db := c |} = Throw e
       /\ (installedConnectionGuard g' = None -> e = guard_lost g').
Proof.
  intros H1 Htr Hg Hs0 Hinst S1 H2 Hlock S2 Hc Hct Hauth Hd. subst s0.
  apply claim_ok in H1 as (ro1 & a1 & _ & H1 & E1 & _). apply claim_ok in H2 as (ro2 & a2 & _ & H2 & E2 & _).
  destruct a1 as [a1|]; [|done]. destruct a2 as [a2|]; [|done]. cbn in E1, E2.
  injection E1 as ->. injection E2 as ->. cbn [options current] in *.
  apply claim_row_effect in H1 as (r1 & -> & _ & _ & -> & _).
  apply claim_row_effect in H2 as (r2 & _ & _ & _ & -> & Hr2). rewrite Hlock in Hr2, S2.
  unfold new_WriterFenceGuard in Hg. repeat (destruct (_ || _) in Hg; [done|]). injection Hg as <-.
  destruct (installConnectionGuard_ok _ _ _ _ Hinst eq_refl Htr) as (_ & Htr1 & Hm1 & _).
  cbn [gs_db gs_guard authority] in *. rewrite Hm1 in S1.
  destruct (steps_advanced (lockName ro1) _ _ S1 r1 (lookup_set_lease _ _ _)) as (r & Hr & Hle & _).
  rewrite Hr in Hr2.
  assert (superseded (lockName ro1) (wr_fence r1) (c_main c)) as Hs.
  { eapply superseded_mono; [|by eapply steps_advanced]. exists r2. split; [apply lookup_set_lease|lia]. }
  split.
  - intros Hin Hrows. erewrite execute_guarded; [|by rewrite Hc, Htr1|done|done].
    unfold guard_current. cbn [authority authority_of w_lockName w_fence w_owner].
    by rewrite superseded_row_matches.
  - apply run_not_current; [done|done|]. cbn [gs_guard gs_db]. intros b now'. unfold guard_current. rewrite Hauth.
    cbn [authority authority_of w_lockName w_fence w_owner]. by apply superseded_row_matches.
Qed.
End guard.
Arguments GuardState : clear implicits.
Arguments Statement : clear implicits.
Arguments Callback : clear implicits.

(** * Quoted text read back

    What SQLite's tokenizer reads from an opening quote on: the text, with
    each doubled quote read as one, and the rest of the statement. *)
Definition push (c : ascii) (r : option (string * string)) : option (string * string) :=
  (fun '(text, rest) => (String c text, rest)) <$> r.

Fixpoint scan_body (q : ascii) (s : string) : option (string * string) :=
  match s with
  | EmptyString => None
  | String c s' =>
      if Ascii.eqb c q then
        match s' with
        | String d s'' => if Ascii.eqb d q then push q (scan_body q s'') else Some (EmptyString, s')
        | EmptyString => Some (EmptyString, s')
        end
      else push c (scan_body q s')
  end.

Definition scan_quoted (q : ascii) (s : string) : option (string * string) :=
  match s with
  | String c s' => if Ascii.eqb c q then scan_body q s' else None
  | EmptyString => None
  end.

(** Quoting survives the tokenizer: the literal or identifier the guard
    writes into a statement is read back as the value it was given, whatever
    quotes the value holds, and the statement goes on right after it. *)
Theorem quoted_reads_back (value rest : string) :
  (forall t, rest <> String squote t) -> (forall t, rest <> String dquote t) ->
  scan_quoted squote (quoteLiteral value +:+ rest) = Some (value, rest)
  /\ scan_quoted dquote (quoteIdentifier value +:+ rest) = Some (value, rest).
Proof.
  assert (forall q, (forall t, rest <> String q t) -> scan_quoted q (quoted q value +:+ rest) = Some (value, rest)) as Hq.
  { intros q Hrest. unfold quoted. autorewrite with text. cbn -[Ascii.eqb]. autorewrite with text.
    induction value as [|c s IH]; cbn -[Ascii.eqb]; autorewrite with text; cbn -[Ascii.eqb].
    - autorewrite with text. destruct rest as [|d r]; [done|].
      destruct (Ascii.eqb_spec d q) as [->|]; [by destruct (Hrest r)|done].
    - destruct (Ascii.eqb_spec c q) as [->|Hne]; autorewrite with text; cbn -[Ascii.eqb].
      + autorewrite with text. by rewrite IH.
      + apply Ascii.eqb_neq in Hne. by rewrite Hne, IH. }
  split; by apply Hq.
Qed.

(** * Examples *)

Definition demo_guard : WriterFenceGuard :=
  {| authority := current demo_lease1; gd_skewMarginMs := 2000; gd_nowSql := SQLITE_DB_TIME_MS; depth := 0;
     installedConnectionGuard := None |}.
Definition demo_state : GuardState nat := {| gs_guard := demo_guard; gs_db := demo_claimed |}.
Definition demo_installed : GuardState nat :=
  match installConnectionGuard 1000 demo_state with Ok (_, s) => s | Throw _ => demo_state end.
Definition demo_statement : Statement nat :=
  {| st_operation := INSERT; st_table := "runs"; st_rows := fun _ => 1%nat; st_apply := S |}.
Definition demo_callback : Callback nat unit :=
  {| cb_async := false; cb_thenable := fun _ => false; cb_body := mret tt |}.
Definition demo_lost : Connection nat := (takes demo_owner2 demo_resolved 2 40000 (gs_db demo_installed)).2.

Lemma demo_tables : listMainApplicationTables (c_main demo_claimed) = ["runs"%string].
Proof. vm_compute. reflexivity. Qed.

Lemma guarded_write_iff_current_witness :
  execute demo_statement 21000 (gs_db demo_installed) = Ok (tt, set_data S (gs_db demo_installed)).
Proof.
  refine (eq_trans (guarded_write_iff_current 1000 demo_state
    {| installed := true; sn_schemaVersion := Some 7; tables := ["runs"%string]; triggerCount := 3 |}
    demo_installed (gs_db demo_installed) demo_statement 21000 _ _ _ _ _ _) _).
  all: try (vm_compute; reflexivity).
  - change (gs_db demo_state) with demo_claimed. rewrite demo_tables. left.
  - discriminate.
Defined.

Lemma superseded_writer_cannot_write_witness :
  execute demo_statement 40001 demo_lost = Throw (SqliteError WRITER_AUTHORITY_TRIGGER_ABORT).
Proof.
  apply (superseded_writer_cannot_write demo_owner1 demo_lease_options 1000 1000 demo_connection demo_lease1
    demo_claimed (Some 2000) None demo_guard 1000 demo_state
    {| installed := true; sn_schemaVersion := Some 7; tables := ["runs"%string]; triggerCount := 3 |}
    demo_installed demo_owner2 demo_lease_options 40000 40000 (gs_db demo_installed) demo_lease2 demo_lost demo_lost
    demo_guard demo_statement demo_callback 40001).
  all: try (vm_compute; reflexivity).
  - rewrite demo_tables. left.
  - discriminate.
Defined.

Lemma quoted_reads_back_witness :
  scan_quoted squote (quoteLiteral "o'neil" +:+ " AND 1") = Some ("o'neil"%string, " AND 1"%string).
Proof. apply (quoted_reads_back "o'neil" " AND 1"); intros t; discriminate. Defined.
