(* ===== verification/WriterLive.v ===== *)
(** What the writer lease guarantees over time: a holder that keeps its pace is
    never overtaken, the bounded wait of a claimant ends, and it ends with the
    lease when the last holder is dead. *)
From S2P Require Import Prelude WriterLease.
Local Open Scope Z_scope.

Section live.
Context {D : Type}.

(** * A holder among contenders *)

(** What happens to the database of a holder: its own heartbeats, claims of
    others, and calls of other lease objects. *)
Inductive lease_event :=
  | Beat (t : Z)
  | Challenge (owner : WriterOwnerIdentity) (o : CoreWriterLeaseOptions) (t u : Z)
  | ForeignBeat (l : CoreWriterLease) (t : Z)
  | ForeignRelease (l : CoreWriterLease) (t : Z).

Definition overtaken : exn := Error "another writer claimed the lease".

(** The events in order: throws when a heartbeat of the holder is rejected or
    another writer gets the lease; failed calls of others change nothing. *)
Fixpoint live (l : CoreWriterLease) (c : Connection D) (es : list lease_event) : result (CoreWriterLease * Connection D) :=
  match es with
  | [] => Ok (l, c)
  | Beat t :: es' => match heartbeat l t c with Ok (l', c') => live l' c' es' | Throw e => Throw e end
  | Challenge owner o t u :: es' =>
      match claim owner o t u c with
      | Ok (Some _, _) => Throw overtaken
      | Ok (None, c') => live l c' es'
      | Throw _ => live l c es'
      end
  | ForeignBeat l' t :: es' => match heartbeat l' t c with Ok (_, c') => live l c' es' | Throw _ => live l c es' end
  | ForeignRelease l' t :: es' => match release l' t c with Ok (_, c') => live l c' es' | Throw _ => live l c es' end
  end.

(** The pace: no heartbeat and no claim comes later than [leaseMs] after the
    last heartbeat, and the other objects are of other claims. *)
Fixpoint paced (l : CoreWriterLease) (last : Z) (es : list lease_event) : bool :=
  match es with
  | [] => true
  | Beat t :: es' => (last <=? t) && (t <=? last + leaseMs (options l)) && paced l t es'
  | Challenge _ o t _ :: es' =>
      (last <=? t) && (t <=? last + leaseMs (options l))
      && bool_decide (opt_lockName o = None) && paced l last es'
  | ForeignBeat l' _ :: es' | ForeignRelease l' _ :: es' =>
      negb (w_fence (current l') =? w_fence (current l)) && paced l last es'
  end.

Fixpoint last_beat (last : Z) (es : list lease_event) : Z :=
  match es with
  | [] => last
  | Beat t :: es' => last_beat t es'
  | _ :: es' => last_beat last es'
  end.

(** The database shows [l] as the holder until [last + leaseMs]. *)
Definition holds (l : CoreWriterLease) (last : Z) (c : Connection D) : Prop :=
  c_inTransaction c = false /\ lockName (options l) = CORE_WRITER_LOCK_NAME
  /\ 0 < leaseMs (options l) /\ 0 <= skewMarginMs (options l)
  /\ exists r, m_lease (c_main c) !! CORE_WRITER_LOCK_NAME = Some r
    /\ held_by (ownerId (w_owner (current l))) (w_fence (current l)) r = true
    /\ wr_expiresAt r = last + leaseMs (options l) /\ 0 < wr_fence r /\ 0 < pid (wr_owner r).

Lemma held_by_spec owner n r :
  held_by owner n r = true <-> ownerId (wr_owner r) = owner /\ wr_fence r = n /\ wr_releasedAt r = None.
Proof.
  unfold held_by. rewrite !andb_true_iff, bool_decide_eq_true, Z.eqb_eq, String.eqb_eq. tauto.
Qed.

Lemma holds_heartbeat l last c t :
  holds l last c -> t <= last + leaseMs (options l) ->
  exists l' c', heartbeat l t c = Ok (l', c') /\ options l' = options l
    /\ w_fence (current l') = w_fence (current l) /\ holds l' t c'.
Proof.
  intros (Hc & Hk & Hm & Hs & r & Hr & Hh & He & Hf & Hp) Ht. rewrite <- Hk in Hr.
  set (r' := {| wr_owner := wr_owner r; wr_fence := wr_fence r; wr_acquiredAt := wr_acquiredAt r; wr_heartbeatAt := t;
                wr_expiresAt := t + leaseMs (options l); wr_releasedAt := wr_releasedAt r |}).
  assert (writer_row_check (lockName (options l)) r' = true) as Hck.
  { apply held_by_spec in Hh as (_ & _ & Hrel). unfold writer_row_check. cbn. rewrite Hk, Hrel.
    rewrite !andb_true_iff, !Z.ltb_lt, Z.leb_le. repeat split; auto; lia. }
  assert (heartbeat l t c = Ok ({| current := authority_of (lockName (options l)) r'; options := options l |},
                                set_lease (insert (lockName (options l)) r') c)) as Hb.
  { unfold heartbeat. erewrite tx_bind_run; [|by apply assertTop_run]. cbv zeta.
    erewrite tx_bind_run; [|eapply update_row_run; [exact Hr| |exact Hck]].
    - cbn [Z.eqb Pos.eqb]. erewrite tx_bind_run; [|reflexivity]. unfold gets. rewrite readLease_set_lease. reflexivity.
    - rewrite Hh. cbn. lia. }
  apply held_by_spec in Hh as (Ho & Hfence & Hrel).
  eexists _, _. split; [exact Hb|]. cbn [options current authority_of w_fence w_owner]. split; [done|]. split; [done|].
  repeat (split; [done|]). exists r'. rewrite <- Hk. rewrite lookup_set_lease. repeat (split; [|]); try done.
  by apply held_by_spec.
Qed.

Lemma holds_challenge l last c owner o t u v c' :
  holds l last c -> t <= last + leaseMs (options l) -> opt_lockName o = None ->
  claim owner o t u c = Ok (v, c') -> v = None /\ c' = c.
Proof.
  intros (_ & _ & _ & _ & r & Hr & Hh & He & _) Ht Ho (ro & a & Hro & Hc & -> & _)%claim_ok.
  destruct (resolveOptions_ok _ _ Hro) as (Hk & _ & _ & _ & Hs). rewrite Ho in Hk. cbn in Hk.
  rewrite <- Hk in Hr. apply held_by_spec in Hh as (_ & _ & Hrel).
  erewrite claim_row_live in Hc; [by simplify_eq|exact Hr|]. unfold lapsed. rewrite Hrel. lia.
Qed.

(** A call of another claim's object does not touch the row. *)
Lemma holds_foreign l last c l' r :
  holds l last c -> w_fence (current l') <> w_fence (current l) -> lockName (options l') = CORE_WRITER_LOCK_NAME ->
  m_lease (c_main c) !! lockName (options l') = Some r ->
  held_by (ownerId (w_owner (current l'))) (w_fence (current l')) r = false.
Proof.
  intros (_ & _ & _ & _ & q & Hq & Hh & _) Hne Hk Hr. rewrite Hk in Hr. rewrite Hq in Hr. injection Hr as <-.
  apply held_by_spec in Hh as (_ & Hf & _). apply not_true_iff_false. intros (_ & Hf' & _)%held_by_spec. congruence.
Qed.

Lemma holds_foreign_beat l last c l' t v c' :
  holds l last c -> w_fence (current l') <> w_fence (current l) -> heartbeat l' t c = Ok (v, c') -> holds l last c'.
Proof.
  intros Hh Hne H. apply heartbeat_ok in H as (r & r' & Hr & Hheld & _ & _ & _ & -> & _).
  destruct (decide (lockName (options l') = CORE_WRITER_LOCK_NAME)) as [E|E].
  - by rewrite (holds_foreign l last c l' r) in Hheld.
  - destruct Hh as (? & ? & ? & ? & q & Hq & ?). repeat (split; [done|]). exists q. split; [|done].
    cbn. by rewrite lookup_insert_ne.
Qed.

Lemma holds_foreign_release l last c l' t v c' :
  holds l last c -> w_fence (current l') <> w_fence (current l) -> release l' t c = Ok (v, c') -> holds l last c'.
Proof.
  intros Hh Hne H. destruct v as [b l2]. apply release_ok in H as [(_ & _ & ->)|(_ & r & r' & Hr & Hheld & _ & _ & _ & ->)]; [done|].
  destruct (decide (lockName (options l') = CORE_WRITER_LOCK_NAME)) as [E|E].
  - by rewrite (holds_foreign l last c l' r) in Hheld.
  - destruct Hh as (? & ? & ? & ? & q & Hq & ?). repeat (split; [done|]). exists q. split; [|done].
    cbn. by rewrite lookup_insert_ne.
Qed.

Lemma holds_current l last c t : holds l last c -> t <= last + leaseMs (options l) + skewMarginMs (options l) ->
  isCurrent l None t c = true.
Proof.
  intros (_ & Hk & _ & _ & r & Hr & Hh & He & _) Ht. unfold isCurrent, row_matches. rewrite Hk, Hr, Hh, He. cbn. lia.
Qed.

Lemma paced_same l l' last es :
  options l' = options l -> w_fence (current l') = w_fence (current l) -> paced l last es = paced l' last es.
Proof.
  intros Ho Hf. revert last. induction es as [|[] es IH]; intros last; cbn; rewrite ?Ho, ?Hf, ?IH; done.
Qed.

Lemma holds_live es : forall l last c, holds l last c -> paced l last es = true ->
  exists l' c', live l c es = Ok (l', c') /\ same_holder l l' /\ options l' = options l
    /\ holds l' (last_beat last es) c'.
Proof.
  induction es as [|e es IH]; intros l last c Hh Hp; [exists l, c; repeat split; auto; apply Hh|].
  destruct e as [t|owner o t u|l2 t|l2 t]; cbn [paced live last_beat] in *; bool_prop.
  - destruct (holds_heartbeat l last c t Hh) as (l1 & c1 & -> & Ho & Hf & Hh1); [lia|].
    destruct (IH l1 t c1 Hh1) as (l' & c' & -> & [Hk' Hf'] & Ho' & Hh'); [by rewrite <- (paced_same l)|].
    exists l', c'. split; [done|]. split; [split; congruence|]. split; [congruence|done].
  - destruct (claim owner o t u c) as [[v c1]|e] eqn:Hc; [|by apply IH].
    eapply holds_challenge in Hc as [-> ->]; [|exact Hh|lia|done]. by apply IH.
  - destruct (heartbeat l2 t c) as [[v c1]|e] eqn:Hb; [|by apply IH]. apply IH; [|done].
    by eapply holds_foreign_beat.
  - destruct (release l2 t c) as [[v c1]|e] eqn:Hb; [|by apply IH]. apply IH; [|done].
    by eapply holds_foreign_release.
Qed.

(** C35. A writer that heartbeats in time keeps the lease: after a claim that
    returned the lease at time [now], while every heartbeat and every claim of
    another process comes within [leaseMs] of the last heartbeat, no heartbeat
    is rejected, no other claim succeeds whatever options it passes, and the
    holder is current until [leaseMs] plus its margin after its last heartbeat. *)
Theorem paced_writer_keeps_lease owner o ro now c0 l c1 es :
  claim owner o now now c0 = Ok (Some l, c1) -> resolveOptions o = Ok ro -> lockName ro = CORE_WRITER_LOCK_NAME ->
  valid_owner owner = true ->
  (forall r, m_lease (c_main c0) !! CORE_WRITER_LOCK_NAME = Some r -> 0 < wr_fence r) ->
  paced l now es = true ->
  exists l' c', live l c1 es = Ok (l', c') /\ same_holder l l'
    /\ forall t, t <= last_beat now es + leaseMs ro + skewMarginMs ro -> isCurrent l' None t c' = true.
Proof.
  intros Hc Ho Hk Hv Hf Hp. assert (Hin := Hc). apply claim_ok in Hin as (ro' & a & Ho' & Hrow & Ea & Htx).
  rewrite Ho in Ho'. injection Ho' as <-. destruct a as [a|]; [|done]. cbn in Ea. injection Ea as ->.
  destruct (resolveOptions_ok _ _ Ho) as (_ & _ & _ & Hb & Hs).
  assert (holds {| current := a; options := ro |} now c1) as Hh.
  { assert (exists n, 0 < n /\ a = authority_of (lockName ro) (granted owner ro n now)
              /\ c1 = set_lease (insert (lockName ro) (granted owner ro n now)) c0) as (n & Hn & -> & ->).
    { rewrite <- Hk in Hf. destruct (m_lease (c_main c0) !! lockName ro) as [r|] eqn:Hr.
      - assert (0 < wr_fence r) by auto. exists (wr_fence r + 1). split; [lia|].
        destruct (lapsed (skewMarginMs ro) now r) eqn:Hl; [|by erewrite claim_row_live in Hrow].
        erewrite claim_row_lapsed in Hrow; [by simplify_eq|done|done|lia|apply granted_check; auto; lia].
      - exists 1. split; [lia|]. rewrite claim_row_absent in Hrow; [by simplify_eq|done|apply granted_check; auto; lia]. }
    unfold valid_owner in Hv. bool_prop. split; [done|]. split; [done|]. cbn [options]. split; [lia|]. split; [lia|].
    exists (granted owner ro n now). rewrite <- Hk. rewrite lookup_set_lease. split; [done|].
    split; [by apply held_by_spec|]. cbn. auto. }
  destruct (holds_live es _ _ _ Hh Hp) as (l' & c' & Hl & Hsame & Hopt & Hh'). exists l', c'.
  split; [done|]. split; [done|]. intros t Ht. eapply holds_current; [done|]. rewrite Hopt. cbn. lia.
Qed.

(** * The bounded wait *)

Section retry.
Variables (owner : WriterOwnerIdentity) (o : CoreWriterLeaseClaimRetryOptions) (startedAt : Z) (turns : nat -> Turn (D:=D)).

(** [sleep] lasts at least as long as it is asked to, on the caller's clock. *)
Hypothesis sleeps : forall i d, turn_delay o startedAt (turns i) = Some d -> tn_clock (turns i) + d <= tn_clock (turns (S i)).

Definition remaining (i : nat) : Z := maxWaitMs o - Z.max 0 (tn_clock (turns i) - startedAt).

Lemma turn_delay_spec i d :
  turn_delay o startedAt (turns i) = Some d -> 0 < retryIntervalMs o ->
  0 < remaining i /\ 1 <= d <= retryIntervalMs o /\ d <= remaining i.
Proof.
  unfold turn_delay, remaining. cbv zeta. intros H Hr. destruct (_ <=? 0) eqn:E; [done|]. injection H as <-.
  apply Z.leb_gt in E.
  match goal with |- context [Z.min (retryIntervalMs o) ?x] => assert (1 <= x); [|lia] end.
  repeat case_match; lia.
Qed.

Lemma turn_delay_none i : turn_delay o startedAt (turns i) = None <-> remaining i <= 0.
Proof.
  unfold turn_delay, remaining. cbv zeta. destruct (_ <=? 0) eqn:E; split; intros; try done; lia.
Qed.

Lemma remaining_next i d :
  turn_delay o startedAt (turns i) = Some d -> 0 < retryIntervalMs o -> startedAt <= tn_clock (turns i) ->
  startedAt <= tn_clock (turns (S i)) /\ remaining (S i) < remaining i.
Proof.
  intros H Hr Hs. pose proof (sleeps i d H). destruct (turn_delay_spec i d H Hr) as (? & ? & ?).
  unfold remaining in *. lia.
Qed.

Lemma claim_loop_ends fuel : forall i,
  0 < retryIntervalMs o -> startedAt <= tn_clock (turns i) -> (Z.to_nat (remaining i) < fuel)%nat ->
  claim_loop fuel owner o startedAt turns i <> OutOfFuel.
Proof.
  induction fuel as [|fuel IH]; intros i Hr Hs Hf; [lia|]. cbn [claim_loop].
  destruct (claim _ _ _ _ _) as [[[l|] c]|e]; [done| |done].
  destruct (turn_delay o startedAt (turns i)) as [d|] eqn:Hd; [|done].
  destruct (remaining_next i d Hd Hr Hs) as [Hs' Hlt]. destruct (turn_delay_spec i d Hd Hr) as [Hpos _].
  apply IH; [done|done|lia].
Qed.

(** The bounded recovery wait ends: the loop claims, throws or gives up
    within [maxWaitMs + 1] turns, whatever the database does in between, and it
    sleeps in no turn longer than the retry interval or the budget left. *)
Theorem claim_retry_terminates :
  startedAt <= tn_clock (turns 0) ->
  claimCoreWriterLeaseWithRetry (S (Z.to_nat (maxWaitMs o))) owner o startedAt turns <> OutOfFuel
  /\ (0 < retryIntervalMs o -> forall i d, turn_delay o startedAt (turns i) = Some d ->
       1 <= d <= retryIntervalMs o /\ d <= maxWaitMs o - (tn_clock (turns i) - startedAt)).
Proof.
  intros Hs. split.
  - unfold claimCoreWriterLeaseWithRetry. destruct (negb (safe_integer (maxWaitMs o)) || _) eqn:E1; [done|].
    destruct (negb (safe_integer (retryIntervalMs o)) || _) eqn:E2; [done|].
    bool_prop. apply claim_loop_ends; [lia|done|]. unfold remaining. lia.
  - intros Hr i d Hd. destruct (turn_delay_spec i d Hd Hr) as (? & ? & ?). unfold remaining in *. lia.
Qed.

(** ** A dead holder *)

Variables (ro : ResolvedCoreWriterLeaseOptions) (r : WriterLeaseRow).
Hypothesis owner_valid : valid_owner owner = true.
Hypothesis resolved : resolveOptions (ro_lease o) = Ok ro.
Hypothesis lock : lockName ro = CORE_WRITER_LOCK_NAME.
Hypothesis default_wait : ro_maxWaitMs o = None.
(** The row of the dead holder stays as it is, and its lease is no longer than the claimant's. *)
Hypothesis dead : forall i, m_lease (c_main (tn_claim (turns i))) !! CORE_WRITER_LOCK_NAME = Some r
  /\ c_inTransaction (tn_claim (turns i)) = false.
Hypothesis fence_positive : 0 < wr_fence r.
Hypothesis expires : wr_expiresAt r <= startedAt + leaseMs ro.
(** Both clocks are the host's: the turn reads its clock after the database's, less than a second later. *)
Hypothesis clocks : forall i, tn_dbNow (turns i) <= tn_updateNow (turns i)
  /\ tn_dbNow (turns i) <= tn_clock (turns i) < tn_dbNow (turns i) + 1000.

Lemma default_maxWait : maxWaitMs o = leaseMs ro + skewMarginMs ro + 1000.
Proof.
  unfold maxWaitMs. rewrite default_wait. destruct (resolveOptions_ok _ _ resolved) as (_ & -> & -> & _). reflexivity.
Qed.

Lemma claim_dead i :
  claim owner (ro_lease o) (tn_dbNow (turns i)) (tn_updateNow (turns i)) (tn_claim (turns i))
  = Ok (if lapsed (skewMarginMs ro) (tn_dbNow (turns i)) r
        then takes owner ro (wr_fence r + 1) (tn_updateNow (turns i)) (tn_claim (turns i))
        else (None, tn_claim (turns i))).
Proof.
  destruct (dead i) as [Hr Hc]. rewrite <- lock in Hr. rewrite (claim_prefix _ _ ro) by done.
  destruct (resolveOptions_ok _ _ resolved) as (_ & _ & _ & Hh & _).
  destruct (lapsed _ _ r) eqn:Hl; erewrite tx_bind_run.
  2: { eapply claim_row_lapsed; [done|done|apply clocks|]. apply granted_check; auto; lia. }
  3: { by eapply claim_row_live. } all: reflexivity.
Qed.

Lemma claim_loop_dead fuel : forall i,
  0 < retryIntervalMs o -> startedAt <= tn_clock (turns i) -> (Z.to_nat (remaining i) < fuel)%nat ->
  exists j l c, claim_loop fuel owner o startedAt turns i = Claimed j l c /\ w_fence (current l) = wr_fence r + 1.
Proof.
  induction fuel as [|fuel IH]; intros i Hr Hs Hf; [lia|]. cbn [claim_loop]. rewrite claim_dead.
  destruct (lapsed _ _ r) eqn:Hl; [unfold takes; eauto|].
  destruct (turn_delay o startedAt (turns i)) as [d|] eqn:Hd.
  - destruct (remaining_next i d Hd Hr Hs) as [Hs' Hlt]. destruct (turn_delay_spec i d Hd Hr) as [Hpos _].
    apply IH; [done|done|lia].
  - apply turn_delay_none in Hd. unfold remaining in Hd. rewrite default_maxWait in Hd.
    destruct (clocks i) as (_ & ? & ?). unfold lapsed in Hl. destruct (wr_releasedAt r); [done|].
    destruct (resolveOptions_ok _ _ resolved) as (_ & _ & _ & ? & ?). exfalso. lia.
Qed.

(** A crashed writer is replaced: when the holder is dead and its lease is
    no longer than the claimant's, a claim with the default wait gets the lease
    with the next fence before the wait is used up. *)
Theorem dead_writer_replaced :
  startedAt <= tn_clock (turns 0) -> safe_integer (maxWaitMs o) = true ->
  safe_integer (retryIntervalMs o) = true -> 0 < retryIntervalMs o ->
  exists j l c, claimCoreWriterLeaseWithRetry (S (Z.to_nat (maxWaitMs o))) owner o startedAt turns = Claimed j l c
    /\ w_fence (current l) = wr_fence r + 1.
Proof.
  intros Hs Hm Hi Hpos. unfold claimCoreWriterLeaseWithRetry. rewrite Hm, Hi. cbn [negb orb].
  destruct (resolveOptions_ok _ _ resolved) as (_ & _ & _ & ? & ?). pose proof default_maxWait.
  replace (maxWaitMs o <? 0) with false by lia. replace (retryIntervalMs o <=? 0) with false by lia.
  apply claim_loop_dead; [done|done|]. unfold remaining. lia.
Qed.
End retry.
End live.

(** * Examples *)

Definition demo_events : list lease_event :=
  [Challenge demo_owner2 demo_lease_options 6000 6000; Beat 6000; Beat 20000;
   Challenge demo_owner2 demo_lease_options 39999 39999; ForeignRelease demo_lease2 39999].

Lemma paced_writer_keeps_lease_witness :
  exists l' c', live demo_lease1 demo_claimed demo_events = Ok (l', c') /\ same_holder demo_lease1 l'
    /\ forall t, t <= 42000 -> isCurrent l' None t c' = true.
Proof.
  apply (paced_writer_keeps_lease demo_owner1 demo_lease_options demo_resolved 1000 demo_connection demo_lease1
    demo_claimed demo_events).
  all: try (vm_compute; reflexivity). intros r Hr. vm_compute in Hr. discriminate Hr.
Defined.

Definition demo_retry : CoreWriterLeaseClaimRetryOptions :=
  {| ro_lease := demo_lease_options; ro_maxWaitMs := None; ro_retryIntervalMs := None |}.

(** The holder of [demo_claimed] is dead; the claimant wakes up every 250 ms. *)
Definition demo_turn (i : nat) : Turn (D:=nat) :=
  {| tn_claim := demo_claimed; tn_dbNow := 2000 + 250 * Z.of_nat i; tn_updateNow := 2000 + 250 * Z.of_nat i;
     tn_clock := 2000 + 250 * Z.of_nat i; tn_observed := demo_claimed; tn_observedNow := 2000 + 250 * Z.of_nat i |}.

Lemma demo_sleeps i d :
  turn_delay demo_retry 2000 (demo_turn i) = Some d -> tn_clock (demo_turn i) + d <= tn_clock (demo_turn (S i)).
Proof.
  intros H. destruct (turn_delay_spec demo_retry 2000 demo_turn i d H) as (_ & [_ Hd] & _); [done|].
  unfold retryIntervalMs in Hd. cbn in *. lia.
Qed.

Lemma claim_retry_terminates_witness :
  claimCoreWriterLeaseWithRetry (S (Z.to_nat 23000)) demo_owner2 demo_retry 2000 demo_turn <> OutOfFuel.
Proof.
  apply (claim_retry_terminates demo_owner2 demo_retry 2000 demo_turn demo_sleeps). cbn. lia.
Defined.

Lemma dead_writer_replaced_witness :
  exists j l c, claimCoreWriterLeaseWithRetry (S (Z.to_nat 23000)) demo_owner2 demo_retry 2000 demo_turn = Claimed j l c
    /\ w_fence (current l) = 2.
Proof.
  apply (dead_writer_replaced demo_owner2 demo_retry 2000 demo_turn demo_sleeps demo_resolved
    (granted demo_owner1 demo_resolved 1 1000)).
  all: try (vm_compute; reflexivity). all: try (intros; split; reflexivity).
  all: try (intros; cbn; lia). all: vm_compute; discriminate.
Defined.
